(* ===== verification/_CoqProject ===== *)
-Q . S2P
Prelude.v
Devfs.v
Ring.v
Fifo.v
Ffifo.v
Task.v
Scheduler.v
Timing.v
Threads.v
Mutex.v
Cond.v
Sem.v
Mqueue.v
Timers.v
Memory.v
Malloc.v
Link.v
Transport.v
Sched.v
Lifecycle.v
Paths.v
Files.v
Assetfs.v
Transfer.v
Attrs.v
Signals.v
Usbd.v
Remote.v
RemoteFiles.v
Switchboard.v
Mpu.v
Pages.v
Appfs.v
Appfiles.v
Aio.v
Dirs.v
Boot.v
