(* ===== verification/Prelude.v ===== *)
(** * Stratify OS: a verification development

    Stratify OS is a POSIX-like operating system for Cortex-M processors.  Up to
    16 threads share one processor; a thread enters the kernel by a supervisor call
    (svcall), which runs to its end before another thread runs; interrupts come from
    a 32-bit microsecond timer and from devices.  A thread that blocks keeps its
    state in the scheduler's table: active or not, the object it waits for, the
    reason it was last woken, the time at which it wants to be woken.

    ** Files and the code they model (paths below [src/])

    - [Prelude]: machine integers, bit flags, C arrays as lists, loops, executions of
      a step relation, the tactics and the hint databases.
    - [Devfs]: [src/cortexm/devfs.c], pending transfers of devices and their
      handlers, in a store shared by the driver and the caller.
    - [Ring]: the positions of a ring buffer with a full mark, shared by the FIFOs.
    - [Ffifo]: [src/device/ffifo.c], the FIFO of frames.
    - [Fifo]: [src/device/fifo.c], the byte FIFO device: ring buffer, overflow and
      write-block modes, pending reads and writes, ioctl.
    - [Task]: [src/cortexm/task.c], the task table, the round-robin context switch
      and the PendSV handler.
    - [Scheduler]: [src/sys/scheduler/scheduler.c], [scheduler_root.c],
      [scheduler_root.h], [scheduler_local.h]: the scheduler's table, priorities,
      sleeping, waking, and the search for the thread a free object goes to.
    - [Timing]: the clock half of [scheduler_timing.c], [sleep.c], [usleep.c].
    - [Threads]: the effect of each root operation on one thread and the frame it
      keeps: the interface the synchronisation objects are proved against; also
      [signal_root_activate] of [src/sys/signal/pthread_kill.c].
    - [Mutex], [Cond], [Sem], [Mqueue]: [pthread_mutex.c], [pthread_mutex_init.c],
      [pthread_cond.c], [src/sys/semaphore/sem.c], [src/sys/mqueue/mqueue.c].
    - [Timers]: the process timers of [scheduler_timing.c], [src/sys/time/timer.c],
      and [signal_root_send].
    - [Sched]: [src/sys/sched/sched.c], [pthread_schedparam.c], [pthread_attr.c] and
      [pthread_attr_init.c]; the constants of the C library are the class
      [PosixThreads].
    - [Lifecycle]: [pthread_create.c], [pthread_cancel.c] and
      [src/sys/scheduler/scheduler_thread.c]: creation, join, exit and cancellation.
    - [Paths]: [src/sys/sysfs/sysfs.c], [src/sys/unistd/uidgid.c]: mount points, valid
      paths, permissions and users.
    - [Files]: [src/sys/sysfs/sysfs_file.c] and the calls of [src/sys/unistd/] on descriptors
      and paths; file systems are the class of operations [sysfs_t] of [sysfs.h].
    - [Assetfs]: [src/sys/sysfs/assetfs.c], a file system of constant files whose handles
      are in the heap of [Malloc].
    - [Transfer]: [src/sys/sysfs/devfs_data_transfer.c], [devfs.c]: blocking reads and writes
      of devices, over the interface [Driver]; the FIFO is an instance.
    - [Attrs]: [pthread_mutexattr.c], [pthread_mutexattr_init.c], [pthread_condattr.c].
    - [Signals]: [src/sys/signal/]: actions, masks, sending, delivery, waiting for signals and
      for child processes.
    - [Usbd]: [src/usbd/usbd_control.c], [usbd_standard.c] and the class handlers of the link:
      the control endpoint of the USB device.
    - [Memory]: byte memory, [memset], [memcpy], the zero-sum check of [cortexm.c].
    - [Malloc]: [src/sys/malloc/]: the heap of a process.
    - [Link], [Transport]: [src/link_transport/], versions 1 and 2 of the protocol
      between a host and a device.
    - [Remote]: [src/sys/link/link_thread.c] and the calls of the host in [src/link/]
      ([link_file.c], [link_dir.c], [link.c], [link_process.c]): commands and replies over
      the link.  The system of the device is the class [Posix]; [RemoteFiles] gives it the
      calls of [Files].
    - [Switchboard]: [src/device/switchboard.c], connections that copy from one device to
      another; the devices are parameters.
    - [Mpu]: [src/cortexm/mpu.c], [task_mpu.c]: the regions of the memory protection unit, the
      regions of the kernel and of a task; the memory map is the class [MpuConfig].
    - [Pages]: [src/sys/sysfs/appfs_mem_dev.c], [appfs_ram.c]: the pages of the flash and the
      RAM and the table of the RAM pages in use.  The flash driver is the class [FlashDriver],
      the page size of the chip [PageSize].
    - [Appfs]: [src/sys/sysfs/appfs_util.c]: headers of programs, finding memory that can be
      protected, installing, relocating; the table of the kernel's symbols, which the build
      generates, is the class [Symbols].
    - [Appfiles]: [src/sys/sysfs/appfs.c]: the file system of the installed programs and data
      files, and their signatures; the cryptography is the class [Crypt].
    - [Aio]: [src/sys/aio/aio.c], [src/sys/sysfs/devfs_aio.c]: asynchronous transfers and the
      threads that wait for them; the drivers are a parameter.
    - [Dirs]: [src/sys/dirent/dirent.c], [src/sys/sysfs/rootfs.c]: directory streams and the root
      directory; what a file system promises about its directories is the class [Lists].
    - [Boot]: [src/boot/boot_link.c], [boot_main.c] and the host's [src/link/link_bootloader.c]: the
      boot loader and the installation of signed images; the flash driver, the cryptography and the
      board are the classes [BootFlash], [BootCrypt] and [BootConfig].

    State is passed explicitly: [kernel] is the task table, the scheduler's table and
    the timer registers; [world] adds the synchronisation objects, kept in maps from
    addresses.  Definitions keep the names of the C functions.  C integers are [Z]; the
    conversion to a width is written where the code stores into a narrower object.
    Errors are values: [errno] and the result of a call are [api_result], a driver's
    result is the negative number the macro [SYSFS_SET_RETURN] makes.  A call that can
    block is cut where the thread gives up the processor: a start, which returns or
    says what the thread waits for, and a resumption, which runs when the thread is
    scheduled again.  Systems of threads are step relations ([lock_step], [sem_step],
    [alarm_step], [join_step], [aio_step]) in which calls, resumptions, signals and clock interrupts interleave
    in any order.  A call whose user-mode part can be interrupted to an effect is cut there as
    well: [sem_post] is the load of the value, its store, the choice of a waiter and the supervisor
    call that wakes it.

    ** What the theorems show

    - Mutexes: under every interleaving, a lock call that returns 0 returns to the
      owner; the owner changes only by its own unlock; no waiter is forgotten; unlock
      hands the mutex to the highest-priority waiter; the priority ceiling is raised
      and restored; recursive locks nest.
    - Semaphores: tokens are conserved in every run in which each increment stores over the value
      it has read, and no wake-up is lost in every run in which, besides, the waiter that was chosen
      is still asleep when it is woken; the code ensures neither.  Conditions: wait
      releases the mutex and blocks in one step; signal wakes one thread, broadcast all.
    - Message queues refine a priority queue: send enqueues, receive takes the oldest
      message of the highest priority.  The priorities are below 2^31 and a message fits its slot.
    - FIFO: reads and writes refine a bounded queue, also when an interrupt writes
      between any two steps of a read; bytes are conserved.  The frame FIFO refines a
      bounded queue of frames.
    - Files: the paths accepted and the file system a path belongs to are those of a
      reference definition; only an authenticated thread becomes root.  Reads of a
      descriptor give the file piece by piece, from the position a seek leaves; a closed
      descriptor is refused.  An asset that is opened, read and closed gives its bytes
      and leaves the heap without the handle.  A directory is listed entry by entry, from any
      position and again after a rewind, over every file system that meets the class [Lists].
    - Devices: a thread in a read or write sleeps only while its transfer is pending, and a
      read of an empty FIFO returns with the bytes a later write brings.  A thread that waits for
      asynchronous transfers it has started itself is woken by the callback of the one it waits
      for, if its deadline is ahead and a list it waits for whole has no empty entry.
    - Signals: SIGKILL and SIGSTOP cannot be caught, blocked or ignored by any sequence of
      calls; SIGSTOP stops the whole process when the first thread takes it; a wait takes the lowest
      pending signal; stopping and continuing a process restores
      its threads; waitpid deletes one zombie child and gives its status.
    - USB: the host gets the descriptor it asks for, in full packets, when the answer ends with a
      short packet or has the length asked for; choosing the first configuration enables the endpoints of its default settings, and the walk over the descriptors
      ends; the packets of a control write are put together in the buffer.
    - Scheduling: the context switch takes the next schedulable task and progresses;
      after a sleep the highest-priority task runs; the search for a waiter is right.
    - Threads: a new thread takes the lowest free slot, is ready with the attributes
      asked for and disturbs no other; whatever the interleaving, a join that returns 0
      gives the status the thread ended with, and a thread that ends is joined to the
      end; the scheduling parameters set are those read back.
    - Time: no sleeping thread and no armed timer is left without an interrupt that
      wakes it in time; setting and getting a timer agree.
    - Heap: malloc, free and realloc keep the heap well formed and every byte of every
      other block; malloc always returns for a positive size up to 2097108 bytes.
    - Link: a transfer of any length arrives unchanged for any way the bytes are cut
      into pieces, with the acknowledgements both sides expect; corrupted packets are
      refused; the host's read stays in its buffer.
    - Remote calls: a session over the link of calls that both sides treat alike gives the host the
      results, error numbers and data of the same calls made on the device, and the two sides stay
      in step; the calls that are left out are listed at [local] and [calls_ok]; a file
      read over the link is its contents and a position.
    - Switchboard: between devices that transfer a whole packet or nothing, a connection relays
      every byte it reads, in order and once, with its two buffers never read and written at the
      same time.
    - Memory protection: a region that is accepted covers exactly the memory asked for, and
      after the start the kernel's code and its system section can be changed by no application and
      the secret key can be read by none; the other data of the kernel is open to tasks, as the
      code configures it.
    - Programs: numbers and addresses of pages are inverse to each other; the search for memory
      ends, and what it finds is free and can be protected; an installation takes
      only free pages and disturbs no other; the relocation moves addresses of code, data and
      symbols and nothing else; a program runs with the rights its key allows or not at all, for a
      verification that answers yes or no; a data file that is created is read back; the table of the RAM pages holds types only.
    - Boot loader: an image of one page or of whole pages sent by the host is in the flash, and is
      started only if its signature is valid; the start of the program changes only by an erase, by a
      first page whose hash has a valid signature, or by a page for another address that reaches
      into it, which is not checked.
    - Behaviours the code does not mean to have are stated as theorems as well: a
      trylock that blocks, a late condition signal that breaks mutual exclusion, timers
      whose reload recurses without end, [malloc(0)] that does not return, giving memory
      back that corrupts the heap, a device read that overruns its buffer, a timeout
      that is stepped over, a join that loses the status, a cancellation that is
      forgotten, an open that leaks its descriptor, a missing asset that is opened, a device
      that keeps the request of a read that has returned, any signal that continues
      a stopped thread, a USB host that reads and writes memory behind the data it asks for, a host and a
      device that lose step, a connection that sends past its end, a buffer check that wraps around,
      two programs in the same memory, a failed installation that frees the memory of another
      program, an error of the cryptography that counts as a signature, a wait that leaves a pointer
      to its frame, a root directory with the wrong names, a closed directory that is still read, a
      refused image that is reported as accepted, an unsigned page that reaches the start of the
      program, an increment of a semaphore that is lost or wakes a thread that has gone, a short
      transfer of a connection that loses bytes or sends old ones, a stop signal that stops a single
      thread, a page of an application that is stored with bytes of the stack.

    ** Bounds and fuel

    The constants (16 tasks, 32 priorities, 4 timers per task, 32-byte chunks) are
    those of the configuration headers.  Loops over tables are [for_range].  Walks over
    the heap take the number of chunks of the heap as fuel, which is proved to be
    enough on a well-formed heap; the retry loop of malloc needs three turns.  Reads
    from a link driver take the length of its script: when the script is at its end
    the driver blocks and the operation gives [None].  The walk over USB descriptors takes
    more than their number.  The boot loader's erase tries 65536 pages, more than the last
    one a flash is taken to have.  Walks over pages take one more than the number of pages, the
    search for a region of the memory protection the 1024 turns the code allows, which are proved enough.  Theorems about results state
    that the result exists, not only what it is when it does.

    ** Not modelled

    The stacks and registers a context switch moves, faults and the start-up code; the body of
    a program's signal handler and the lock around sending; the simple flash file system, which no
    build file lists; closing a file of an application and the caches; the USB driver of the boot loader; drivers of particular
    chips; cryptography; version 3 of the link, whose device side is unfinished: it neither decrypts nor
    sends data.  Debug and trace output is left out. *)
From stdpp Require Export base gmap list list_numbers numbers strings.
From Stdlib Require Export ZArith Lia Btauto.
#[export] Set Default Proof Using "Type".
Open Scope Z_scope.
#[global] Arguments Z.eqb : simpl never.
#[global] Arguments Z.ltb : simpl never.
#[global] Arguments Z.leb : simpl never.
#[global] Arguments Z.land : simpl never.
#[global] Arguments Z.lor : simpl never.
#[global] Arguments Z.lnot : simpl never.
#[global] Arguments Z.shiftl : simpl never.
#[global] Arguments Z.shiftr : simpl never.
#[global] Arguments Z.modulo : simpl never.

(** ** Machine integers

    C integers are [Z] with the conversion to their width written out where
    the code stores into a narrower object. *)

Definition u8 (z : Z) : Z := z mod 2 ^ 8.
Definition u16 (z : Z) : Z := z mod 2 ^ 16.
Definition u32 (z : Z) : Z := z mod 2 ^ 32.
Definition u64 (z : Z) : Z := z mod 2 ^ 64.

(** Two's complement conversions of the signed types the code stores into. *)
Definition s8 (z : Z) : Z := (z + 2 ^ 7) mod 2 ^ 8 - 2 ^ 7.
Definition s32 (z : Z) : Z := (z + 2 ^ 31) mod 2 ^ 32 - 2 ^ 31.

Definition UINT_MAX : Z := 2 ^ 32 - 1.
Definition INT_MAX : Z := 2 ^ 31 - 1.

Lemma u8_id z : 0 <= z < 2 ^ 8 -> u8 z = z.
Proof. intros; unfold u8; now rewrite Z.mod_small. Qed.
Lemma u16_id z : 0 <= z < 2 ^ 16 -> u16 z = z.
Proof. intros; unfold u16; now rewrite Z.mod_small. Qed.
Lemma u32_id z : 0 <= z < 2 ^ 32 -> u32 z = z.
Proof. intros; unfold u32; now rewrite Z.mod_small. Qed.
Lemma u64_id z : 0 <= z < 2 ^ 64 -> u64 z = z.
Proof. intros; unfold u64; now rewrite Z.mod_small. Qed.
Lemma s8_id z : - 2 ^ 7 <= z < 2 ^ 7 -> s8 z = z.
Proof. intros; unfold s8; rewrite Z.mod_small; lia. Qed.
Lemma s32_id z : - 2 ^ 31 <= z < 2 ^ 31 -> s32 z = z.
Proof. intros; unfold s32; rewrite Z.mod_small; lia. Qed.

Lemma u16_range z : 0 <= u16 z < 2 ^ 16.
Proof. apply Z.mod_pos_bound; lia. Qed.
Lemma u32_range z : 0 <= u32 z < 2 ^ 32.
Proof. apply Z.mod_pos_bound; lia. Qed.

(** The C library's truncated division. *)
Definition div_quot (a b : Z) : Z := Z.quot a b.
Definition div_rem (a b : Z) : Z := Z.rem a b.

(** ** Error numbers and flags of the C library (newlib) *)

Definition EPERM : Z := 1.
Definition ENOENT : Z := 2.
Definition ESRCH : Z := 3.
Definition EINTR : Z := 4.
Definition EIO : Z := 5.
Definition EBADF : Z := 9.
Definition EAGAIN : Z := 11.
Definition ENOMEM : Z := 12.
Definition EACCES : Z := 13.
Definition EBUSY : Z := 16.
Definition EEXIST : Z := 17.
Definition EINVAL : Z := 22.
Definition EDEADLK : Z := 45.
Definition ENAMETOOLONG : Z := 91.
Definition ELOOP : Z := 92.
Definition ETIMEDOUT : Z := 116.
Definition EMSGSIZE : Z := 122.
Definition ENOTSUP : Z := 134.

Definition O_RDONLY : Z := 0.
Definition O_WRONLY : Z := 1.
Definition O_RDWR : Z := 2.
Definition O_APPEND : Z := 8.
Definition O_CREAT : Z := 512.
Definition O_EXCL : Z := 2048.
Definition O_NONBLOCK : Z := 16384.

(** [SYSFS_SET_RETURN]: drivers return an error as the negation of the error
    number with the source line above bit 8. *)
Definition SYSFS_SET_RETURN (line error_number : Z) : Z :=
  -1 * (Z.lor error_number (Z.shiftl line 8)).
Definition SYSFS_GET_RETURN_ERRNO (value : Z) : Z := Z.land (-1 * value) 255.
Definition SYSFS_GET_RETURN (value : Z) : Z := -1 * (Z.shiftr (-1 * value) 8).

(** ** Flag words *)

Module Bits.
(** C's test [w & m] used as a condition. *)
Definition any (w m : Z) : bool := negb (Z.land w m =? 0).
(** [w |= m] and [w &= ~m]. *)
Definition set (w m : Z) : Z := Z.lor w m.
Definition clear (w m : Z) : Z := Z.land w (Z.lnot m).
End Bits.

Ltac zbits :=
  apply Z.bits_inj'; intros ?i ?Hi;
  rewrite ?Z.land_spec, ?Z.lor_spec, ?Z.lnot_spec, ?Z.bits_0 by assumption;
  rewrite ?Z.land_spec, ?Z.lor_spec, ?Z.lnot_spec, ?Z.bits_0 by assumption.

Lemma land_zero_bits (a b : Z) : Z.land a b = 0 -> forall i, Z.testbit a i && Z.testbit b i = false.
Proof. intros H i. rewrite <- Z.land_spec, H. apply Z.bits_0. Qed.

(** A single bit of a flag word. *)
Lemma land_bit (f n : Z) : 0 <= n ->
  Z.land f (Z.shiftl 1 n) = if Z.testbit f n then Z.shiftl 1 n else 0.
Proof.
  intros Hn. rewrite Z.shiftl_1_l. apply Z.bits_inj'. intros m Hm.
  rewrite Z.land_spec, Z.pow2_bits_eqb by done.
  destruct (Z.testbit f n) eqn:E; rewrite ?Z.pow2_bits_eqb, ?Z.bits_0 by done;
    destruct (Z.eqb_spec n m); subst; rewrite ?E; btauto.
Qed.

Section BitLemmas.
Local Ltac disjoint_bits H :=
  zbits; match goal with i : Z |- _ => pose proof (land_zero_bits _ _ H i) as Hd end;
  repeat match goal with |- context [Z.testbit ?a ?i] => destruct (Z.testbit a i) end;
  simpl in *; congruence.

(** Setting or clearing the bits of [n] does not change the bits of a
    disjoint mask [m]. *)
Lemma land_set_disjoint (w n m : Z) :
  Z.land n m = 0 -> Z.land (Bits.set w n) m = Z.land w m.
Proof. unfold Bits.set; intros H; disjoint_bits H. Qed.
Lemma land_clear_disjoint (w n m : Z) :
  Z.land n m = 0 -> Z.land (Bits.clear w n) m = Z.land w m.
Proof. unfold Bits.clear; intros H; disjoint_bits H. Qed.
Lemma land_set_same (w m : Z) : Z.land (Bits.set w m) m = m.
Proof. unfold Bits.set. zbits. btauto. Qed.
Lemma land_clear_same (w m : Z) : Z.land (Bits.clear w m) m = 0.
Proof. unfold Bits.clear. zbits. btauto. Qed.
(** Clearing a mask that includes [m]. *)
Lemma land_clear_subset (w n m : Z) :
  Z.land n m = m -> Z.land (Bits.clear w n) m = 0.
Proof.
  intros H. rewrite <- H. unfold Bits.clear. zbits. btauto.
Qed.

Lemma any_set_disjoint w n m : Z.land n m = 0 -> Bits.any (Bits.set w n) m = Bits.any w m.
Proof. intros; unfold Bits.any; now rewrite land_set_disjoint. Qed.
Lemma any_clear_disjoint w n m : Z.land n m = 0 -> Bits.any (Bits.clear w n) m = Bits.any w m.
Proof. intros; unfold Bits.any; now rewrite land_clear_disjoint. Qed.
Lemma any_set_same w m : m <> 0 -> Bits.any (Bits.set w m) m = true.
Proof.
  intros; unfold Bits.any; rewrite land_set_same.
  now apply negb_true_iff, Z.eqb_neq.
Qed.
Lemma any_clear_subset w n m : Z.land n m = m -> Bits.any (Bits.clear w n) m = false.
Proof. intros; unfold Bits.any; now rewrite land_clear_subset. Qed.
Lemma any_clear_same w m : Bits.any (Bits.clear w m) m = false.
Proof. intros; unfold Bits.any; now rewrite land_clear_same. Qed.
End BitLemmas.

(** Rewriting a flag test through the updates of a flag word: the masks are
    constants, so each side condition evaluates. *)
Create HintDb sos_bits.
#[export] Hint Rewrite land_set_same land_clear_same any_clear_same : sos_bits.
#[export] Hint Rewrite any_set_same using (vm_compute; discriminate) : sos_bits.
#[export] Hint Rewrite
  land_set_disjoint land_clear_disjoint any_set_disjoint any_clear_disjoint
  land_clear_subset any_clear_subset using (vm_compute; reflexivity) : sos_bits.
Ltac bits := autorewrite with sos_bits in *.

(** ** Arrays

    A C array is a list; an index is a [Z].  Reading out of range gives the
    default element and writing out of range changes nothing: the lemmas that
    use these operations carry the range as a hypothesis. *)

Definition Zget {A} `{Inhabited A} (l : list A) (i : Z) : A := l !!! Z.to_nat i.
Definition Zset {A} (l : list A) (i : Z) (x : A) : list A :=
  if i <? 0 then l else <[Z.to_nat i := x]> l.
Definition Zlen {A} (l : list A) : Z := Z.of_nat (length l).

Section Arrays.
Context {A : Type} `{!Inhabited A}.
Implicit Types (l : list A) (i j : Z) (x : A).

Lemma Zlen_Zset l i x : Zlen (Zset l i x) = Zlen l.
Proof. unfold Zlen, Zset. destruct (i <? 0); [done|]. now rewrite length_insert. Qed.
Lemma Zget_Zset_eq l i x : 0 <= i < Zlen l -> Zget (Zset l i x) i = x.
Proof.
  unfold Zget, Zset, Zlen. intros. destruct (Z.ltb_spec i 0); [lia|].
  apply list_lookup_total_insert_eq. lia.
Qed.
Lemma Zget_Zset_ne l i j x : 0 <= j -> i <> j -> Zget (Zset l i x) j = Zget l j.
Proof.
  unfold Zget, Zset. intros. destruct (Z.ltb_spec i 0); [done|].
  apply list_lookup_total_insert_ne. lia.
Qed.
Lemma Zget_Zset l i j x : 0 <= i < Zlen l -> 0 <= j ->
  Zget (Zset l i x) j = if decide (i = j) then x else Zget l j.
Proof.
  intros. destruct (decide (i = j)) as [->|]; [now apply Zget_Zset_eq|now apply Zget_Zset_ne].
Qed.
(** Two arrays of the same length with the same elements are equal. *)
Lemma Zget_ext l1 l2 :
  Zlen l1 = Zlen l2 -> (forall i, 0 <= i < Zlen l1 -> Zget l1 i = Zget l2 i) -> l1 = l2.
Proof.
  unfold Zlen, Zget. intros Hl H. apply list_eq_same_length with (length l1); [lia|done|].
  intros i x y Hi H1 H2. specialize (H (Z.of_nat i) ltac:(lia)). rewrite Nat2Z.id in H.
  rewrite !list_lookup_total_alt, H1, H2 in H. exact H.
Qed.
Lemma Zset_Zget l i : 0 <= i < Zlen l -> Zset l i (Zget l i) = l.
Proof.
  intros. apply Zget_ext; rewrite ?Zlen_Zset; [done|]. intros j Hj.
  rewrite Zget_Zset by lia. now case_decide; subst.
Qed.
End Arrays.
#[export] Hint Rewrite @Zlen_Zset : sos.
#[export] Hint Rewrite @Zget_Zset_eq using lia : sos.
#[export] Hint Rewrite @Zget_Zset_ne using lia : sos.

(** ** Reachability *)

Section Star.
Context {S : Type} (step : S -> S -> Prop).
Inductive star : S -> S -> Prop :=
| star_refl s : star s s
| star_step s1 s2 s3 : step s1 s2 -> star s2 s3 -> star s1 s3.

(** An inductive invariant holds in every reachable state. *)
Lemma star_invariant (I : S -> Prop) :
  (forall s s', I s -> step s s' -> I s') -> forall s s', star s s' -> I s -> I s'.
Proof. intros Hstep s s' Hs. induction Hs; eauto. Qed.
End Star.

(** Case analysis on every boolean comparison of the goal or context. *)
Ltac bool_cases :=
  repeat match goal with
  | H : context [?a =? ?b] |- _ => destruct (Z.eqb_spec a b)
  | H : context [?a <? ?b] |- _ => destruct (Z.ltb_spec a b)
  | H : context [?a <=? ?b] |- _ => destruct (Z.leb_spec a b)
  | |- context [?a =? ?b] => destruct (Z.eqb_spec a b)
  | |- context [?a <? ?b] => destruct (Z.ltb_spec a b)
  | |- context [?a <=? ?b] => destruct (Z.leb_spec a b)
  end.

(** ** Ring buffers

    [ring buf size start n] is the window of [n] elements of the circular
    array [buf] that begins at index [start]. *)

Section Ring.
Context {A : Type} `{!Inhabited A}.
Implicit Types (buf : list A) (size start n : Z).

Definition ring buf size start n : list A :=
  (fun k => Zget buf ((start + k) mod size)) <$> seqZ 0 n.

Lemma wrap_mod size x : 0 <= x < 2 * size ->
  x mod size = if x <? size then x else x - size.
Proof.
  intros. destruct (Z.ltb_spec x size).
  - now apply Z.mod_small.
  - symmetry. apply Z.mod_unique_pos with 1; lia.
Qed.

Lemma Zlen_ring buf size start n : 0 <= n -> Zlen (ring buf size start n) = n.
Proof. intros. unfold Zlen, ring. rewrite length_fmap, length_seqZ. lia. Qed.

Lemma ring_snoc buf size start n : 0 <= n ->
  ring buf size start (n + 1) = ring buf size start n ++ [Zget buf ((start + n) mod size)].
Proof.
  intros. unfold ring. rewrite seqZ_app by lia. now rewrite fmap_app.
Qed.

Lemma ring_cons buf size start n : 0 < n ->
  ring buf size start n
  = Zget buf (start mod size) :: ring buf size (start + 1) (n - 1).
Proof.
  intros. unfold ring. rewrite seqZ_cons by lia. simpl. rewrite Z.add_0_r. f_equal.
  change (Z.succ 0) with (1 + 0). rewrite <- fmap_add_seqZ, <- list_fmap_compose.
  replace (Z.pred n) with (n - 1) by lia.
  apply list_fmap_ext. intros k x _. simpl. do 2 f_equal. lia.
Qed.

Lemma ring_start_mod buf size start n : 0 < size ->
  ring buf size (start mod size) n = ring buf size start n.
Proof.
  intros. apply list_fmap_ext. intros k x _. simpl. now rewrite Z.add_mod_idemp_l by lia.
Qed.

(** Writing the slot after the window does not change the window. *)
Lemma ring_write buf size start n x :
  0 <= start < size -> 0 <= n < size -> Zlen buf = size ->
  ring (Zset buf ((start + n) mod size) x) size start n = ring buf size start n.
Proof.
  intros Hs Hn Hl. unfold ring. apply list_fmap_ext. intros k y Hk%lookup_seqZ.
  apply Zget_Zset_ne; [apply Z.mod_pos_bound; lia|].
  rewrite !wrap_mod by lia. bool_cases; lia.
Qed.
End Ring.

Lemma Zlen_nonneg {A} (l : list A) : 0 <= Zlen l.
Proof. unfold Zlen; lia. Qed.
Lemma Zlen_app {A} (l1 l2 : list A) : Zlen (l1 ++ l2) = Zlen l1 + Zlen l2.
Proof. unfold Zlen; rewrite length_app; lia. Qed.
Lemma Zlen_cons {A} (x : A) l : Zlen (x :: l) = Zlen l + 1.
Proof. unfold Zlen; simpl; lia. Qed.
Lemma Zlen_nil {A} : Zlen (@nil A) = 0.
Proof. done. Qed.
#[export] Hint Rewrite @Zlen_app @Zlen_cons @Zlen_nil : sos.

(** ** Counted loops: [for (i = a; i < b; i++) body] over a state *)

Definition for_range {S} (a b : Z) (body : Z -> S -> S) (s : S) : S :=
  foldl (fun s i => body i s) s (seqZ a (b - a)).

Lemma for_range_nil {S} a b (body : Z -> S -> S) s : b <= a -> for_range a b body s = s.
Proof. intros. unfold for_range. now rewrite seqZ_nil by lia. Qed.
Lemma for_range_first {S} a b (body : Z -> S -> S) s :
  a < b -> for_range a b body s = for_range (a + 1) b body (body a s).
Proof.
  intros. unfold for_range. rewrite seqZ_cons by lia. simpl.
  replace (Z.succ a) with (a + 1) by lia. now replace (Z.pred (b - a)) with (b - (a + 1)) by lia.
Qed.

(** A loop invariant indexed by the iterations done. *)
Lemma for_range_ind {S} (I : Z -> S -> Prop) a b (body : Z -> S -> S) s :
  a <= b -> I a s ->
  (forall i s, a <= i < b -> I i s -> I (i + 1) (body i s)) ->
  I b (for_range a b body s).
Proof.
  intros Hab. remember (Z.to_nat (b - a)) as n eqn:Hn. revert a s Hab Hn.
  induction n as [|n IH]; intros a s Hab Hn Ha Hstep.
  - rewrite for_range_nil by lia. replace b with a by lia. done.
  - rewrite for_range_first by lia. apply IH; [lia|lia|apply Hstep; [lia|done]|].
    intros i s' Hi. apply Hstep. lia.
Qed.
(** A property that every turn keeps, the loop keeps. *)
Lemma for_range_keeps {S} (P : S -> Prop) a b (body : Z -> S -> S) s : P s -> (forall i s, a <= i < b -> P s -> P (body i s)) -> P (for_range a b body s).
Proof. intros Hs Hb. destruct (Z.le_gt_cases b a); [by rewrite for_range_nil by lia|]. by apply (for_range_ind (fun _ => P)); [lia| |]. Qed.

Lemma for_range_ext {S} a b (f g : Z -> S -> S) s :
  (forall i s, a <= i < b -> f i s = g i s) -> for_range a b f s = for_range a b g s.
Proof.
  intros H. unfold for_range.
  assert (Hall : Forall (fun i => forall s, f i s = g i s) (seqZ a (b - a))).
  { apply Forall_seqZ. intros i Hi s'. apply H. lia. }
  clear H. revert s. induction Hall as [|i l Hi _ IH]; intros s; simpl; [done|].
  now rewrite Hi, IH.
Qed.
