(* ===== verification/Devfs.v ===== *)
(** * Device transfers

    [src/cortexm/devfs.c] and the transfer types of [include/sos/fs/types.h]:
    an asynchronous operation is an object the caller owns; a driver keeps a
    pointer to the pending read and the pending write and completes them by
    storing a result and running the object's handler.

    The handler objects live in a store indexed by pointer, so that the driver
    and the caller see the same object.  Running a handler is recorded in
    [fired] as the handler's context and the event flags it received. *)
From S2P Require Import Prelude.

(** The event flags belong to the SDK's headers, which are not part of the
    repository: they are parameters. *)
Class McuEvents := {
  MCU_EVENT_FLAG_WRITE_COMPLETE : Z;
  MCU_EVENT_FLAG_DATA_READY : Z;
  MCU_EVENT_FLAG_CANCELED : Z;
}.

Record devfs_async_t := mk_async {
  async_tid : Z;
  async_flags : Z;
  async_loc : Z;
  async_buf : list Z;          (** the bytes at [buf] / [buf_const] *)
  async_nbyte : Z;
  async_result : Z;
  async_handler : option Z;    (** the handler's context, [None] when [callback] is NULL *)
}.

(** [devfs_transfer_handler_t] with the objects its pointers reach. *)
Record devfs_transfer_t := mk_transfer {
  xfer_read : Z;               (** pointer to the pending read, 0 for NULL *)
  xfer_write : Z;
  xfer_asyncs : gmap Z devfs_async_t;
  xfer_fired : list (Z * Z);
}.

Definition set_result (r : Z) (a : devfs_async_t) : devfs_async_t :=
  mk_async (async_tid a) (async_flags a) (async_loc a) (async_buf a) (async_nbyte a) r
    (async_handler a).
Definition set_buf (b : list Z) (a : devfs_async_t) : devfs_async_t :=
  mk_async (async_tid a) (async_flags a) (async_loc a) b (async_nbyte a) (async_result a)
    (async_handler a).
Definition set_read (p : Z) (t : devfs_transfer_t) : devfs_transfer_t :=
  mk_transfer p (xfer_write t) (xfer_asyncs t) (xfer_fired t).
Definition set_write (p : Z) (t : devfs_transfer_t) : devfs_transfer_t :=
  mk_transfer (xfer_read t) p (xfer_asyncs t) (xfer_fired t).
Definition on_async (p : Z) (f : devfs_async_t -> devfs_async_t) (t : devfs_transfer_t) :
    devfs_transfer_t :=
  mk_transfer (xfer_read t) (xfer_write t) (alter f p (xfer_asyncs t)) (xfer_fired t).

(** The bytes a loop over [buf[0..nbyte-1]] reads. *)
Definition c_bytes (buf : list Z) (nbyte : Z) : list Z :=
  (fun k => Zget buf k) <$> seqZ 0 nbyte.
(** The contents of [buf] after bytes were stored from its start. *)
Definition c_store (bytes buf : list Z) : list Z := bytes ++ drop (length bytes) buf.

(** Runs the handler of the object at [p]: the callback gets its context and
    the events.  The callback's own effect is outside the driver. *)
Definition devfs_execute_event_handler (p o_events : Z) (t : devfs_transfer_t) :
    devfs_transfer_t :=
  match xfer_asyncs t !! p with
  | Some a =>
      match async_handler a with
      | Some context =>
          mk_transfer (xfer_read t) (xfer_write t) (xfer_asyncs t)
            (xfer_fired t ++ [(context, o_events)])
      | None => t
      end
  | None => t
  end.

(** The result a completed transfer reports: a zero count means all of it. *)
Definition completion_result (nbyte : Z) (a : devfs_async_t) : devfs_async_t :=
  set_result (if nbyte =? 0 then async_nbyte a else nbyte) a.

Definition devfs_execute_read_handler (nbyte o_flags : Z) (t : devfs_transfer_t) :
    devfs_transfer_t :=
  if xfer_read t =? 0 then t
  else
    let async := xfer_read t in
    let t := set_read 0 t in
    let t := on_async async (completion_result nbyte) t in
    devfs_execute_event_handler async o_flags t.

Definition devfs_execute_write_handler (nbyte o_flags : Z) (t : devfs_transfer_t) :
    devfs_transfer_t :=
  if xfer_write t =? 0 then t
  else
    let async := xfer_write t in
    let t := set_write 0 t in
    let t := on_async async (completion_result nbyte) t in
    devfs_execute_event_handler async o_flags t.

Section Cancel.
Context {ev : McuEvents}.
Definition devfs_execute_cancel_handler (nbyte o_flags : Z) (t : devfs_transfer_t) :
    devfs_transfer_t :=
  let t := devfs_execute_read_handler nbyte (Z.lor o_flags MCU_EVENT_FLAG_CANCELED) t in
  devfs_execute_write_handler nbyte (Z.lor o_flags MCU_EVENT_FLAG_CANCELED) t.
End Cancel.

(** ** Buffers *)

Lemma length_c_bytes buf n : 0 <= n -> Zlen (c_bytes buf n) = n.
Proof. intros. unfold Zlen, c_bytes. rewrite length_fmap, length_seqZ. lia. Qed.

Lemma c_bytes_take buf n : 0 <= n <= Zlen buf -> c_bytes buf n = take (Z.to_nat n) buf.
Proof.
  unfold c_bytes, Zlen. intros Hn. apply list_eq. intros k.
  rewrite list_lookup_fmap. destruct (decide (Z.of_nat k < n)) as [Hk|Hk].
  - rewrite lookup_seqZ_lt by lia. rewrite lookup_take_lt by lia. simpl.
    unfold Zget. replace (Z.to_nat (0 + Z.of_nat k)) with k by lia.
    destruct (lookup_lt_is_Some_2 buf k ltac:(lia)) as [x Hx].
    now rewrite list_lookup_total_alt, Hx.
  - rewrite lookup_seqZ_ge by lia. rewrite lookup_take_ge by lia. done.
Qed.

(** ** What completing a transfer does *)

Lemma event_handler_pending p e t :
  xfer_read (devfs_execute_event_handler p e t) = xfer_read t /\
  xfer_write (devfs_execute_event_handler p e t) = xfer_write t /\
  xfer_asyncs (devfs_execute_event_handler p e t) = xfer_asyncs t.
Proof.
  unfold devfs_execute_event_handler.
  destruct (xfer_asyncs t !! p) as [a|]; [destruct (async_handler a)|]; done.
Qed.

Lemma event_handler_fired p e t a c :
  xfer_asyncs t !! p = Some a -> async_handler a = Some c ->
  xfer_fired (devfs_execute_event_handler p e t) = xfer_fired t ++ [(c, e)].
Proof. unfold devfs_execute_event_handler. intros -> ->. done. Qed.

(** Completing a pending read: the driver forgets the request, the caller's
    object holds the result, the handler ran once with the events given. *)
Lemma read_handler_completes nbyte e t p a c :
  xfer_read t = p -> p <> 0 -> xfer_asyncs t !! p = Some a -> async_handler a = Some c ->
  let t' := devfs_execute_read_handler nbyte e t in
  xfer_read t' = 0 /\ xfer_write t' = xfer_write t /\
  xfer_asyncs t' !! p = Some (completion_result nbyte a) /\
  xfer_fired t' = xfer_fired t ++ [(c, e)].
Proof.
  intros <- Hp Ha Hc. unfold devfs_execute_read_handler.
  destruct (Z.eqb_spec (xfer_read t) 0) as [|_]; [contradiction|]. cbv zeta.
  set (t1 := on_async _ _ _).
  destruct (event_handler_pending (xfer_read t) e t1) as (-> & -> & ->).
  assert (Hl : xfer_asyncs t1 !! xfer_read t = Some (completion_result nbyte a)).
  { unfold t1, on_async, set_read; simpl. now rewrite lookup_alter_eq, Ha. }
  split_and!; [done|done|exact Hl|].
  now rewrite (event_handler_fired _ e t1 _ c Hl).
Qed.

Lemma write_handler_completes nbyte e t p a c :
  xfer_write t = p -> p <> 0 -> xfer_asyncs t !! p = Some a -> async_handler a = Some c ->
  let t' := devfs_execute_write_handler nbyte e t in
  xfer_write t' = 0 /\ xfer_read t' = xfer_read t /\
  xfer_asyncs t' !! p = Some (completion_result nbyte a) /\
  xfer_fired t' = xfer_fired t ++ [(c, e)].
Proof.
  intros <- Hp Ha Hc. unfold devfs_execute_write_handler.
  destruct (Z.eqb_spec (xfer_write t) 0) as [|_]; [contradiction|]. cbv zeta.
  set (t1 := on_async _ _ _).
  destruct (event_handler_pending (xfer_write t) e t1) as (-> & -> & ->).
  assert (Hl : xfer_asyncs t1 !! xfer_write t = Some (completion_result nbyte a)).
  { unfold t1, on_async, set_write; simpl. now rewrite lookup_alter_eq, Ha. }
  split_and!; [done|done|exact Hl|].
  now rewrite (event_handler_fired _ e t1 _ c Hl).
Qed.

Lemma read_handler_idle nbyte e t : xfer_read t = 0 -> devfs_execute_read_handler nbyte e t = t.
Proof. unfold devfs_execute_read_handler. now intros ->. Qed.
Lemma write_handler_idle nbyte e t :
  xfer_write t = 0 -> devfs_execute_write_handler nbyte e t = t.
Proof. unfold devfs_execute_write_handler. now intros ->. Qed.
