(* ===== verification/Ring.v ===== *)
(** * Ring buffers with a full mark

    The positions the FIFO devices keep: [head] is the slot the next element is
    written to, [tail] the slot the oldest is read from, and [tail = size] says that
    the buffer is full.  [ring_rep] relates the positions and the slots
    to the queue of elements, oldest first; the lemmas are what storing at the head,
    overwriting the oldest and taking the oldest do to the queue. *)
From S2P Require Import Prelude.

(** What accepting elements means: a blocked FIFO keeps what fits, an
    overwriting one keeps the newest [size] elements. *)
Definition queue_keep_old {A} (size : Z) (xs q : list A) : list A := q ++ take (Z.to_nat (size - Zlen q)) xs.
Definition queue_keep_new {A} (size : Z) (xs q : list A) : list A := drop (Z.to_nat (Zlen q + Zlen xs - size)) (q ++ xs).

Section Keep.
Context {A : Type}.
Implicit Types (xs q : list A).
Lemma keep_old_nil size q : queue_keep_old size [] q = q.
Proof. unfold queue_keep_old. now rewrite take_nil, app_nil_r. Qed.
Lemma keep_old_full size xs q : Zlen q = size -> queue_keep_old size xs q = q.
Proof. intros <-. unfold queue_keep_old. now rewrite Z.sub_diag, app_nil_r. Qed.
Lemma keep_old_room size x xs q : Zlen q < size -> queue_keep_old size (x :: xs) q = queue_keep_old size xs (q ++ [x]).
Proof.
  intros H. unfold queue_keep_old. rewrite <- app_assoc, Zlen_app, Zlen_cons, Zlen_nil.
  replace (Z.to_nat (size - Zlen q)) with (S (Z.to_nat (size - (Zlen q + (0 + 1))))) by lia. done.
Qed.
Lemma keep_new_nil size q : Zlen q <= size -> queue_keep_new size [] q = q.
Proof.
  intros H. unfold queue_keep_new. rewrite app_nil_r, Zlen_nil. now replace (Z.to_nat _) with O by lia.
Qed.
Lemma keep_new_full size x xs q : Zlen q = size -> 0 < size ->
  queue_keep_new size (x :: xs) q = queue_keep_new size xs (drop 1 q ++ [x]).
Proof.
  intros Hq Hs. destruct q as [|y q]; [rewrite Zlen_nil in Hq; lia|]. unfold queue_keep_new.
  cbn [drop]. rewrite drop_0, <- app_assoc, Zlen_app, !Zlen_cons, Zlen_nil in *. pose proof (Zlen_nonneg xs).
  replace (Z.to_nat (Zlen q + 1 + (Zlen xs + 1) - size)) with (S (Z.to_nat (Zlen q + (0 + 1) + Zlen xs - size))) by lia. done.
Qed.
Lemma keep_new_room size x xs q : queue_keep_new size (x :: xs) q = queue_keep_new size xs (q ++ [x]).
Proof.
  unfold queue_keep_new. rewrite <- app_assoc, Zlen_app, !Zlen_cons, Zlen_nil. f_equal. lia.
Qed.
End Keep.

Section RingQueue.
Context {A : Type} `{!Inhabited A}.
Implicit Types (buf q : list A) (size st h t : Z).

Definition ring_rep size st h t buf q : Prop :=
  0 < size < 2 ^ 16 /\ Zlen buf = size /\ Zlen q <= size /\
  0 <= st < size /\
  h = (st + Zlen q) mod size /\
  t = (if Zlen q =? size then size else st) /\
  q = ring buf size st (Zlen q).

(** The positions after an element was stored at the head. *)
Definition next_head size h : Z := (h + 1) mod size.
Definition next_tail size h t : Z := if next_head size h =? t then size else t.

Lemma ring_rep_full size st h t buf q : ring_rep size st h t buf q -> (t =? size) = (Zlen q =? size).
Proof. intros (? & ? & ? & ? & ? & -> & ?). bool_cases; lia. Qed.
Lemma ring_rep_empty size st h t buf q : ring_rep size st h t buf q -> (h =? t) = (Zlen q =? 0).
Proof.
  intros (? & ? & ? & ? & -> & -> & ?). pose proof (Zlen_nonneg q).
  rewrite wrap_mod by lia. bool_cases; lia.
Qed.
Lemma ring_rep_head size st h t buf q : ring_rep size st h t buf q -> 0 <= h < size.
Proof. intros (? & ? & ? & ? & -> & _). apply Z.mod_pos_bound. lia. Qed.
(** The slot a reader computes from the positions. *)
Lemma ring_rep_read_slot size st h t buf q : ring_rep size st h t buf q -> q <> [] ->
  (if t =? size then h else t) = st.
Proof.
  intros H Hq. rewrite (ring_rep_full _ _ _ _ _ _ H). destruct H as (? & ? & ? & ? & -> & -> & ?).
  rewrite wrap_mod by (pose proof (Zlen_nonneg q); lia). bool_cases; lia.
Qed.

Lemma ring_rep_append size st h t buf q x : ring_rep size st h t buf q -> Zlen q <> size ->
  ring_rep size st (next_head size h) (next_tail size h t) (Zset buf h x) (q ++ [x]).
Proof.
  intros (Hsz & Hlen & Hq & Hst & Hh & Ht & Hc) Hfull.
  pose proof (Zlen_nonneg q) as Hn. set (n := Zlen q) in *.
  assert (Hl : Zlen (q ++ [x]) = n + 1) by (rewrite Zlen_app, Zlen_cons, Zlen_nil; lia).
  unfold ring_rep, next_tail, next_head. rewrite Hl, Zlen_Zset.
  rewrite Hh, Z.add_mod_idemp_l by lia. split_and!; try lia.
  - f_equal. lia.
  - rewrite Ht, wrap_mod by lia. bool_cases; lia.
  - rewrite ring_snoc by lia. rewrite Zget_Zset_eq by (rewrite Hlen; apply Z.mod_pos_bound; lia).
    f_equal. rewrite Hc at 1. symmetry. apply ring_write; lia.
Qed.

(** When full, the oldest element is replaced. *)
Lemma ring_rep_replace size st h t buf q x : ring_rep size st h t buf q -> Zlen q = size ->
  ring_rep size ((st + 1) mod size) (next_head size h) (next_tail size h t) (Zset buf h x) (drop 1 q ++ [x]).
Proof.
  intros (Hsz & Hlen & _ & Hst & Hh & Ht & Hc) Hfull.
  rewrite Hfull in Hh, Ht, Hc. rewrite Z.eqb_refl in Ht.
  assert (Hh0 : h = st) by (rewrite Hh, wrap_mod by lia; bool_cases; lia).
  set (st' := (st + 1) mod size).
  assert (Hst' : 0 <= st' < size) by (apply Z.mod_pos_bound; lia).
  assert (Hback : (st' + (size - 1)) mod size = st).
  { unfold st'. rewrite Z.add_mod_idemp_l, wrap_mod by lia. bool_cases; lia. }
  assert (Hq1 : drop 1 q = ring buf size st' (size - 1)).
  { unfold st'. rewrite ring_start_mod by lia. rewrite Hc, ring_cons by lia.
    simpl. now rewrite drop_0. }
  assert (Hl : Zlen (drop 1 q ++ [x]) = size).
  { rewrite Hq1, Zlen_app, Zlen_ring by lia. unfold Zlen; simpl; lia. }
  unfold ring_rep, next_tail, next_head. rewrite Hl, Zlen_Zset.
  rewrite Hh0, Ht, Z.eqb_refl. fold st'. split_and!; try lia.
  - rewrite wrap_mod by lia. bool_cases; lia.
  - bool_cases; lia.
  - assert (Hsnoc : forall B : list A, ring B size st' size
              = ring B size st' (size - 1) ++ [Zget B ((st' + (size - 1)) mod size)]).
    { intros B. rewrite <- ring_snoc by lia. f_equal. lia. }
    rewrite Hsnoc.
    rewrite Hback, Zget_Zset_eq by lia. f_equal.
    rewrite Hq1. symmetry. rewrite <- Hback at 1. apply ring_write; lia.
Qed.

(** Taking the oldest element: its slot holds it, and storing the advanced tail
    removes it. *)
Lemma ring_rep_pop size st h t buf x q : ring_rep size st h t buf (x :: q) ->
  Zget buf st = x /\ ring_rep size ((st + 1) mod size) h ((st + 1) mod size) buf q.
Proof.
  intros (Hsz & Hlen & Hq & Hst & Hh & Ht & Hc). rewrite Zlen_cons in *.
  pose proof (Zlen_nonneg q). rewrite ring_cons, (Z.mod_small st) in Hc by lia.
  injection Hc as -> Hc. split; [done|].
  unfold ring_rep. split_and!; try lia.
  - rewrite wrap_mod by lia. bool_cases; lia.
  - rewrite wrap_mod by lia. bool_cases; lia.
  - rewrite Hh, Z.add_mod_idemp_l by lia. f_equal. lia.
  - bool_cases; lia.
  - rewrite ring_start_mod by lia. replace (Zlen q + 1 - 1) with (Zlen q) in Hc by lia. done.
Qed.

(** The tail a reader stores. *)
Lemma ring_rep_advance size st h t buf q : ring_rep size st h t buf q ->
  (if u16 (st + 1) =? size then 0 else u16 (st + 1)) = (st + 1) mod size.
Proof. intros (Hsz & _ & _ & Hst & _). rewrite u16_id, wrap_mod by lia. bool_cases; lia. Qed.
End RingQueue.
