(* ===== verification/Fifo.v ===== *)
(** * The byte FIFO device

    [src/device/fifo.c]: a ring buffer of bytes with a head and a tail in one
    32-bit word, a full state marked by [tail = size], an overflow flag, an
    optional "write block" mode, and pending read and write transfers. *)
From S2P Require Import Prelude Devfs Ring.

(** ** State *)

Definition FIFO_FLAG_SET_WRITEBLOCK : Z := Z.shiftl 1 0.
Definition FIFO_FLAG_IS_OVERFLOW : Z := Z.shiftl 1 1.
Definition FIFO_FLAG_INIT : Z := Z.shiftl 1 4.
Definition FIFO_FLAG_EXIT : Z := Z.shiftl 1 5.
Definition FIFO_FLAG_IS_READ_BUSY : Z := Z.shiftl 1 7.
Definition FIFO_FLAG_IS_WRITE_WHILE_READ_BUSY : Z := Z.shiftl 1 8.
Definition FIFO_FLAG_IS_WRITE_BUSY : Z := Z.shiftl 1 9.

(** [fifo_state_t] with the memory [config->buffer] points to. *)
Record fifo_state_t := mk_fifo {
  fifo_head : Z;                 (** u16 *)
  fifo_tail : Z;                 (** u16 *)
  fifo_o_flags : Z;              (** u32 *)
  fifo_buffer : list Z;
  fifo_transfer_handler : devfs_transfer_t;
}.

(** [fifo_config_t]; the buffer is in the state. *)
Record fifo_config_t := { fifo_size : Z }.

Record fifo_info_t := mk_fifo_info {
  info_o_flags : Z; info_size : Z; info_size_ready : Z; info_overflow : Z }.

Definition with_head (h : Z) (s : fifo_state_t) : fifo_state_t :=
  mk_fifo h (fifo_tail s) (fifo_o_flags s) (fifo_buffer s) (fifo_transfer_handler s).
Definition with_tail (t : Z) (s : fifo_state_t) : fifo_state_t :=
  mk_fifo (fifo_head s) t (fifo_o_flags s) (fifo_buffer s) (fifo_transfer_handler s).
Definition with_flags (o : Z) (s : fifo_state_t) : fifo_state_t :=
  mk_fifo (fifo_head s) (fifo_tail s) o (fifo_buffer s) (fifo_transfer_handler s).
Definition with_buffer (b : list Z) (s : fifo_state_t) : fifo_state_t :=
  mk_fifo (fifo_head s) (fifo_tail s) (fifo_o_flags s) b (fifo_transfer_handler s).
Definition with_xfer (x : devfs_transfer_t) (s : fifo_state_t) : fifo_state_t :=
  mk_fifo (fifo_head s) (fifo_tail s) (fifo_o_flags s) (fifo_buffer s) x.

(** ** Operations *)

Definition fifo_inc_tail (size : Z) (s : fifo_state_t) : fifo_state_t :=
  let s := with_tail (u16 (fifo_tail s + 1)) s in
  if fifo_tail s =? size then with_tail 0 s else s.

Definition fifo_inc_head (size : Z) (s : fifo_state_t) : fifo_state_t :=
  let s := with_head (u16 (fifo_head s + 1)) s in
  let s := if fifo_head s =? size then with_head 0 s else s in
  if fifo_head s =? fifo_tail s then with_tail (u16 size) s else s.

Definition fifo_set_overflow (value : bool) (s : fifo_state_t) : fifo_state_t :=
  if value then with_flags (Bits.set (fifo_o_flags s) FIFO_FLAG_IS_OVERFLOW) s
  else with_flags (Bits.clear (fifo_o_flags s) FIFO_FLAG_IS_OVERFLOW) s.
Definition fifo_is_overflow (s : fifo_state_t) : bool :=
  Bits.any (fifo_o_flags s) FIFO_FLAG_IS_OVERFLOW.
Definition fifo_is_writeblock (s : fifo_state_t) : bool :=
  Bits.any (fifo_o_flags s) FIFO_FLAG_SET_WRITEBLOCK.
Definition fifo_set_writeblock (value : bool) (s : fifo_state_t) : fifo_state_t :=
  if value then with_flags (Bits.set (fifo_o_flags s) FIFO_FLAG_SET_WRITEBLOCK) s
  else with_flags (Bits.clear (fifo_o_flags s) FIFO_FLAG_SET_WRITEBLOCK) s.

Definition fifo_is_write_ok (size : Z) (writeblock : bool) (s : fifo_state_t) :
    bool * fifo_state_t :=
  if fifo_tail s =? u16 size then
    if writeblock || Bits.any (fifo_o_flags s) FIFO_FLAG_IS_READ_BUSY then (false, s)
    else
      let s :=
        if Bits.any (fifo_o_flags s) FIFO_FLAG_IS_READ_BUSY
        then with_flags (Bits.set (fifo_o_flags s) FIFO_FLAG_IS_WRITE_WHILE_READ_BUSY) s
        else s in
      (true, fifo_set_overflow true s)
  else (true, s).

(** One turn of the read loop stores a byte or finds the FIFO empty.  [isr w]
    is what an interrupt does in the window [w] of the turn: 0 after the
    positions are read, 1 after the byte is copied and before the tail is
    stored, 2 after the tail is stored and before the busy flags are cleared. *)
Definition fifo_read_turn (size : Z) (isr : nat -> fifo_state_t -> fifo_state_t)
    (s : fifo_state_t) : option Z * bool * fifo_state_t :=
  let s := with_flags (Bits.set (fifo_o_flags s) FIFO_FLAG_IS_READ_BUSY) s in
  let head := fifo_head s in
  let tail := fifo_tail s in
  let s := isr 0%nat s in
  if negb (head =? tail) then
    let tail := if tail =? size then head else tail in
    let byte := Zget (fifo_buffer s) tail in
    let s := isr 1%nat s in
    let tail := u16 (tail + 1) in
    let tail := if tail =? size then 0 else tail in
    let s := with_tail tail s in
    let s := isr 2%nat s in
    let clobbered := Bits.any (fifo_o_flags s) FIFO_FLAG_IS_WRITE_WHILE_READ_BUSY in
    let s := if clobbered then with_tail size s else s in
    let s := with_flags (Bits.clear (fifo_o_flags s)
               (Z.lor FIFO_FLAG_IS_WRITE_WHILE_READ_BUSY FIFO_FLAG_IS_READ_BUSY)) s in
    (Some byte, clobbered, s)
  else
    (None, false, with_flags (Bits.clear (fifo_o_flags s)
       (Z.lor FIFO_FLAG_IS_WRITE_WHILE_READ_BUSY FIFO_FLAG_IS_READ_BUSY)) s).

(** The loop: the count returned and the bytes stored in [buf]. *)
Fixpoint fifo_read_loop (size : Z) (isr : Z -> nat -> fifo_state_t -> fifo_state_t)
    (fuel : nat) (i : Z) (out : list Z) (s : fifo_state_t) : Z * list Z * fifo_state_t :=
  match fuel with
  | O => (i, out, s)
  | S fuel =>
      match fifo_read_turn size (isr i) s with
      | (Some byte, true, s) => (i, out ++ [byte], s)
      | (Some byte, false, s) => fifo_read_loop size isr fuel (i + 1) (out ++ [byte]) s
      | (None, _, s) => (i, out, s)
      end
  end.

Definition fifo_read_buffer_isr (isr : Z -> nat -> fifo_state_t -> fifo_state_t)
    (config : fifo_config_t) (nbyte : Z) (s : fifo_state_t) : Z * list Z * fifo_state_t :=
  fifo_read_loop (u16 (fifo_size config)) isr (Z.to_nat nbyte) 0 [] s.

Definition no_isr (i : Z) (w : nat) (s : fifo_state_t) : fifo_state_t := s.
Definition fifo_read_buffer := fifo_read_buffer_isr no_isr.

Fixpoint fifo_write_loop (size : Z) (writeblock : bool) (bytes : list Z) (i : Z)
    (s : fifo_state_t) : Z * fifo_state_t :=
  match bytes with
  | [] => (i, s)
  | b :: bytes =>
      let '(ok, s) := fifo_is_write_ok size writeblock s in
      if ok then
        let s := with_buffer (Zset (fifo_buffer s) (fifo_head s) b) s in
        fifo_write_loop size writeblock bytes (i + 1) (fifo_inc_head size s)
      else (i, s)
  end.

Definition fifo_write_buffer (config : fifo_config_t) (buf : list Z) (nbyte : Z)
    (non_blocking : bool) (s : fifo_state_t) : Z * fifo_state_t :=
  let writeblock := if non_blocking then true else fifo_is_writeblock s in
  fifo_write_loop (fifo_size config) writeblock (c_bytes buf nbyte) 0 s.

Definition fifo_flush (s : fifo_state_t) : fifo_state_t :=
  fifo_set_overflow false (with_tail 0 (with_head 0 s)).

Definition fifo_getinfo (config : fifo_config_t) (s : fifo_state_t) :
    fifo_info_t * fifo_state_t :=
  let o_flags :=
    Z.lor (Z.lor (Z.lor FIFO_FLAG_SET_WRITEBLOCK FIFO_FLAG_IS_OVERFLOW) FIFO_FLAG_INIT)
      FIFO_FLAG_EXIT in
  let size := fifo_size config in
  let size_ready :=
    if fifo_tail s =? size then size
    else if fifo_tail s <=? fifo_head s then fifo_head s - fifo_tail s
    else u32 (size - fifo_tail s + fifo_head s) in
  (mk_fifo_info o_flags size size_ready (if fifo_is_overflow s then 1 else 0),
   fifo_set_overflow false s).

(** ** Transfers *)

Section Transfers.
Context {ev : McuEvents}.

(** The read loop stores into the pending object's buffer. *)
Definition fifo_data_received (config : fifo_config_t) (s : fifo_state_t) : fifo_state_t :=
  let p := xfer_read (fifo_transfer_handler s) in
  if p =? 0 then s
  else
    match xfer_asyncs (fifo_transfer_handler s) !! p with
    | None => s
    | Some a =>
        let '(bytes_read, out, s) := fifo_read_buffer config (async_nbyte a) s in
        let s := with_xfer (on_async p (fun a => set_buf (c_store out (async_buf a)) a)
                              (fifo_transfer_handler s)) s in
        if 0 <=? bytes_read then
          with_xfer (devfs_execute_read_handler bytes_read MCU_EVENT_FLAG_DATA_READY
                       (fifo_transfer_handler s)) s
        else s
    end.

Definition fifo_cancel_async_read (s : fifo_state_t) : fifo_state_t :=
  with_xfer (devfs_execute_read_handler (SYSFS_SET_RETURN 193 EAGAIN)
               MCU_EVENT_FLAG_CANCELED (fifo_transfer_handler s)) s.
Definition fifo_cancel_async_write (s : fifo_state_t) : fifo_state_t :=
  with_xfer (devfs_execute_write_handler (SYSFS_SET_RETURN 198 EAGAIN)
               MCU_EVENT_FLAG_CANCELED (fifo_transfer_handler s)) s.

Definition fifo_data_transmitted (config : fifo_config_t) (s : fifo_state_t) : fifo_state_t :=
  let p := xfer_write (fifo_transfer_handler s) in
  if p =? 0 then s
  else
    match xfer_asyncs (fifo_transfer_handler s) !! p with
    | None => s
    | Some a =>
        let '(bytes_written, s) :=
          fifo_write_buffer config (async_buf a) (async_nbyte a) false s in
        if 0 <=? bytes_written then
          with_xfer (devfs_execute_write_handler bytes_written MCU_EVENT_FLAG_WRITE_COMPLETE
                       (fifo_transfer_handler s)) s
        else s
    end.

Inductive fifo_request :=
| I_FIFO_GETINFO
| I_MCU_SETACTION (has_callback : bool) (o_events : Z)
| I_FIFO_INIT
| I_FIFO_FLUSH
| I_FIFO_SETATTR (o_flags : Z)
| I_FIFO_OTHER.

Definition fifo_drop_transfers (s : fifo_state_t) : fifo_state_t :=
  with_xfer (set_write 0 (set_read 0 (fifo_transfer_handler s))) s.

(** [fifo_ioctl_local]: the result, the info block a GETINFO fills, the state. *)
Definition fifo_ioctl_local (config : fifo_config_t) (request : fifo_request)
    (s : fifo_state_t) : Z * option fifo_info_t * fifo_state_t :=
  match request with
  | I_FIFO_GETINFO => let '(info, s) := fifo_getinfo config s in (0, Some info, s)
  | I_MCU_SETACTION has_callback o_events =>
      if negb has_callback then
        let s := if Bits.any o_events MCU_EVENT_FLAG_WRITE_COMPLETE
                 then fifo_cancel_async_write s else s in
        let s := if Bits.any o_events MCU_EVENT_FLAG_DATA_READY
                 then fifo_cancel_async_write s else s in
        (0, None, s)
      else (SYSFS_SET_RETURN 288 ENOTSUP, None, s)
  | I_FIFO_INIT =>
      (0, None, fifo_data_transmitted config (fifo_flush (fifo_drop_transfers s)))
  | I_FIFO_FLUSH => (0, None, fifo_data_transmitted config (fifo_flush s))
  | I_FIFO_SETATTR o_flags =>
      let s := if Bits.any o_flags FIFO_FLAG_INIT
               then fifo_data_transmitted config (fifo_flush (fifo_drop_transfers s)) else s in
      let s := if Bits.any o_flags FIFO_FLAG_SET_WRITEBLOCK then
                 if Bits.any o_flags FIFO_FLAG_IS_OVERFLOW then fifo_set_writeblock false s
                 else fifo_set_writeblock true s
               else s in
      let s := if fifo_is_writeblock s then fifo_data_transmitted config s else s in
      (0, None, s)
  | I_FIFO_OTHER => (SYSFS_SET_RETURN 322 EINVAL, None, s)
  end.

(** [fifo_read_local] on the transfer object at pointer [p]. *)
Definition fifo_read_local (config : fifo_config_t) (p : Z) (allow_callback : bool)
    (s : fifo_state_t) : Z * fifo_state_t :=
  match xfer_asyncs (fifo_transfer_handler s) !! p with
  | None => (0, s)
  | Some a =>
      if negb (xfer_read (fifo_transfer_handler s) =? 0) then (SYSFS_SET_RETURN 332 EBUSY, s)
      else if async_nbyte a =? 0 then (0, s)
      else
        let s := with_xfer (set_read p (fifo_transfer_handler s)) s in
        let '(bytes_read, out, s) := fifo_read_buffer config (async_nbyte a) s in
        let s := with_xfer (on_async p (fun a => set_buf (c_store out (async_buf a)) a)
                              (fifo_transfer_handler s)) s in
        let '(bytes_read, s) :=
          if bytes_read =? 0 then
            if Bits.any (async_flags a) O_NONBLOCK || (fifo_tail s =? fifo_size config)
            then (SYSFS_SET_RETURN 341 EAGAIN, s) else (bytes_read, s)
          else if (0 <? bytes_read) && allow_callback
          then (bytes_read, fifo_data_transmitted config s) else (bytes_read, s) in
        let s := if negb (bytes_read =? 0)
                 then with_xfer (set_read 0 (fifo_transfer_handler s)) s else s in
        (bytes_read, s)
  end.

Definition fifo_write_local (config : fifo_config_t) (p : Z) (allow_callback : bool)
    (s : fifo_state_t) : Z * fifo_state_t :=
  match xfer_asyncs (fifo_transfer_handler s) !! p with
  | None => (0, s)
  | Some a =>
      if negb (xfer_write (fifo_transfer_handler s) =? 0) then (SYSFS_SET_RETURN 363 EBUSY, s)
      else if async_nbyte a =? 0 then (0, s)
      else
        let s := with_xfer (set_write p (fifo_transfer_handler s)) s in
        let non_blocking := Bits.any (async_flags a) O_NONBLOCK in
        let '(bytes_written, s) :=
          fifo_write_buffer config (async_buf a) (async_nbyte a) non_blocking s in
        let '(bytes_written, s) :=
          if bytes_written =? 0 then
            if non_blocking && fifo_is_writeblock s
            then (SYSFS_SET_RETURN 371 EAGAIN, s) else (bytes_written, s)
          else if (0 <? bytes_written) && allow_callback
          then (bytes_written, fifo_data_received config s) else (bytes_written, s) in
        let s := if negb (bytes_written =? 0)
                 then with_xfer (set_write 0 (fifo_transfer_handler s)) s else s in
        (bytes_written, s)
  end.
End Transfers.

(** ** Abstract queue

    [fifo_rep_at size start s q]: the state [s] of a FIFO of [size] bytes
    represents the queue [q], oldest byte first, with the oldest byte in slot
    [start] of the buffer. *)

Definition fifo_rep_at (size start : Z) (s : fifo_state_t) (q : list Z) : Prop :=
  ring_rep size start (fifo_head s) (fifo_tail s) (fifo_buffer s) q.
Definition fifo_rep (size : Z) (s : fifo_state_t) (q : list Z) : Prop :=
  exists start, fifo_rep_at size start s q.

Section Representation.
Context (size : Z).
Implicit Types (s : fifo_state_t) (q : list Z).

Lemma fifo_rep_at_fields st s s' q :
  fifo_head s' = fifo_head s -> fifo_tail s' = fifo_tail s ->
  fifo_buffer s' = fifo_buffer s -> fifo_rep_at size st s q -> fifo_rep_at size st s' q.
Proof. unfold fifo_rep_at. now intros -> -> ->. Qed.
Lemma fifo_rep_size16 st s q : fifo_rep_at size st s q -> u16 size = size.
Proof. intros (? & _). apply u16_id. lia. Qed.

(** [fifo_inc_head] in closed form. *)
Lemma fifo_inc_head_eq s : 0 < size < 2 ^ 16 -> 0 <= fifo_head s < size ->
  let h := (fifo_head s + 1) mod size in
  fifo_inc_head size s =
    mk_fifo h (if h =? fifo_tail s then size else fifo_tail s) (fifo_o_flags s)
      (fifo_buffer s) (fifo_transfer_handler s).
Proof.
  intros Hsz Hh. unfold fifo_inc_head. simpl.
  rewrite (u16_id (fifo_head s + 1)), (u16_id size) by lia.
  rewrite wrap_mod by lia.
  destruct (Z.eqb_spec (fifo_head s + 1) size), (Z.ltb_spec (fifo_head s + 1) size);
    try lia; simpl.
  all: try replace (fifo_head s + 1 - size) with 0 by lia.
  all: now case_match.
Qed.

(** The state after a byte is stored at the head and the head advanced. *)
Definition put_state (b : Z) (s : fifo_state_t) : fifo_state_t :=
  fifo_inc_head size (with_buffer (Zset (fifo_buffer s) (fifo_head s) b) s).

Lemma put_state_eq st s q b : fifo_rep_at size st s q ->
  put_state b s = mk_fifo (next_head size (fifo_head s)) (next_tail size (fifo_head s) (fifo_tail s)) (fifo_o_flags s)
                    (Zset (fifo_buffer s) (fifo_head s) b) (fifo_transfer_handler s).
Proof.
  intros H. pose proof (ring_rep_head _ _ _ _ _ _ H). destruct H as (? & _).
  unfold put_state. rewrite fifo_inc_head_eq by (simpl; lia). done.
Qed.
Lemma fifo_rep_append st s q b : fifo_rep_at size st s q -> Zlen q <> size ->
  fifo_rep_at size st (put_state b s) (q ++ [b]).
Proof. intros H Hq. rewrite (put_state_eq st s q b H). now apply ring_rep_append. Qed.
Lemma fifo_rep_replace st s q b : fifo_rep_at size st s q -> Zlen q = size ->
  fifo_rep_at size ((st + 1) mod size) (put_state b s) (drop 1 q ++ [b]).
Proof. intros H Hq. rewrite (put_state_eq st s q b H). now apply ring_rep_replace. Qed.
End Representation.

(** ** The loops implement the queue *)

Definition read_busy (s : fifo_state_t) : bool :=
  Bits.any (fifo_o_flags s) FIFO_FLAG_IS_READ_BUSY.

Section Loops.
Context (size : Z).
Implicit Types (s : fifo_state_t) (q bytes : list Z).

Lemma fifo_is_write_ok_room st s q wb : fifo_rep_at size st s q -> Zlen q <> size ->
  fifo_is_write_ok size wb s = (true, s).
Proof.
  intros H Hq. unfold fifo_is_write_ok. rewrite (fifo_rep_size16 _ _ _ _ H).
  rewrite (ring_rep_full _ _ _ _ _ _ H). now destruct (Z.eqb_spec (Zlen q) size).
Qed.
Lemma fifo_is_write_ok_full st s q wb : fifo_rep_at size st s q -> Zlen q = size ->
  fifo_is_write_ok size wb s =
    if wb || read_busy s then (false, s) else (true, fifo_set_overflow true s).
Proof.
  intros H Hq. unfold fifo_is_write_ok, read_busy. rewrite (fifo_rep_size16 _ _ _ _ H).
  rewrite (ring_rep_full _ _ _ _ _ _ H), Hq, Z.eqb_refl.
  destruct wb; simpl; [done|]. now destruct (Bits.any _ _).
Qed.

Lemma put_state_frame b s : fifo_o_flags (put_state size b s) = fifo_o_flags s /\
  fifo_transfer_handler (put_state size b s) = fifo_transfer_handler s.
Proof. unfold put_state, fifo_inc_head. simpl. repeat case_match; done. Qed.

Lemma fifo_write_loop_cons wb b bytes i s :
  fifo_write_loop size wb (b :: bytes) i s =
    let '(ok, s) := fifo_is_write_ok size wb s in
    if ok then fifo_write_loop size wb bytes (i + 1) (put_state size b s) else (i, s).
Proof. done. Qed.

(** A write that may not overwrite appends what fits, in place. *)
Lemma fifo_write_loop_blocked wb bytes : forall i st s q,
  fifo_rep_at size st s q -> wb || read_busy s = true ->
  exists s', fifo_write_loop size wb bytes i s
      = (i + Z.min (Zlen bytes) (size - Zlen q), s') /\
    fifo_rep_at size st s' (queue_keep_old size bytes q) /\
    fifo_o_flags s' = fifo_o_flags s /\ fifo_transfer_handler s' = fifo_transfer_handler s.
Proof.
  induction bytes as [|b bytes IH]; intros i st s q H Hb; unfold queue_keep_old.
  - exists s. destruct (H) as (_ & _ & ? & _). rewrite take_nil, app_nil_r, Zlen_nil.
    split_and!; try done. f_equal. lia.
  - rewrite fifo_write_loop_cons. destruct (decide (Zlen q = size)) as [Hq|Hq].
    + rewrite (fifo_is_write_ok_full _ _ _ _ H Hq), Hb. exists s.
      rewrite Hq, Z.sub_diag, app_nil_r. pose proof (Zlen_nonneg (b :: bytes)).
      split_and!; try done. f_equal. lia.
    + rewrite (fifo_is_write_ok_room _ _ _ _ H Hq).
      destruct (put_state_frame b s) as [Hf Hx].
      destruct (IH (i + 1) st (put_state size b s) (q ++ [b])) as (s' & E & Hr & Hf' & Hx').
      { now apply fifo_rep_append. }
      { unfold read_busy in *. now rewrite Hf. }
      exists s'. rewrite E, Hf', Hx'. destruct H as (_ & _ & ? & _).
      rewrite Zlen_app, !Zlen_cons, Zlen_nil in *.
      split_and!; try done; [f_equal; lia|]. unfold queue_keep_old in Hr.
      rewrite <- app_assoc, Zlen_app, Zlen_cons, Zlen_nil in Hr.
      replace (Z.to_nat (size - Zlen q)) with (S (Z.to_nat (size - (Zlen q + (0 + 1))))) by lia.
      done.
Qed.

(** An overwriting write takes every byte and keeps the newest. *)
Lemma fifo_write_loop_overwrite bytes : forall i s q,
  fifo_rep size s q -> read_busy s = false ->
  exists s', fifo_write_loop size false bytes i s = (i + Zlen bytes, s') /\
    fifo_rep size s' (queue_keep_new size bytes q) /\
    fifo_o_flags s' = (if size <? Zlen q + Zlen bytes
                       then Bits.set (fifo_o_flags s) FIFO_FLAG_IS_OVERFLOW
                       else fifo_o_flags s) /\
    fifo_transfer_handler s' = fifo_transfer_handler s.
Proof.
  induction bytes as [|b bytes IH]; intros i s q [st H] Hb; unfold queue_keep_new.
  - exists s. destruct (H) as (_ & _ & ? & _). rewrite app_nil_r, Zlen_nil.
    replace (Z.to_nat _) with O by lia.
    destruct (Z.ltb_spec size (Zlen q + 0)); [lia|].
    split_and!; try done; [f_equal; lia|now exists st].
  - rewrite fifo_write_loop_cons. destruct (decide (Zlen q = size)) as [Hq|Hq].
    + rewrite (fifo_is_write_ok_full _ _ _ _ H Hq), Hb. cbn [orb].
      set (s1 := fifo_set_overflow true s).
      assert (H1 : fifo_rep_at size st s1 q) by now apply fifo_rep_at_fields with s.
      destruct (put_state_frame b s1) as [Hf Hx].
      assert (Hl : Zlen (drop 1 q ++ [b]) = size).
      { destruct (H) as (? & _). rewrite Zlen_app, Zlen_cons, Zlen_nil.
        unfold Zlen in *. rewrite length_drop. lia. }
      destruct (IH (i + 1) (put_state size b s1) (drop 1 q ++ [b])) as (s' & E & Hr & Hf' & Hx').
      { exists ((st + 1) mod size). now apply fifo_rep_replace. }
      { unfold read_busy in *. rewrite Hf. unfold s1; simpl. now bits. }
      exists s'. rewrite E, Hf', Hx', Hf, Hx. rewrite Hl, !Zlen_cons, Hq in *.
      pose proof (Zlen_nonneg bytes).
      destruct (Z.ltb_spec size (size + (Zlen bytes + 1))); [|lia].
      split_and!; try done; [f_equal; lia| |].
      * unfold queue_keep_new in Hr. rewrite Hl, <- app_assoc in Hr. simpl in Hr.
        destruct q as [|x q]; [unfold Zlen in *; simpl in *; lia|]. simpl in *.
        rewrite drop_0 in Hr.
        replace (Z.to_nat (size + (Zlen bytes + 1) - size))
          with (S (Z.to_nat (size + Zlen bytes - size))) by lia. done.
      * unfold s1. simpl. case_match; [|done]. unfold Bits.set. zbits. btauto.
    + rewrite (fifo_is_write_ok_room _ _ _ _ H Hq).
      destruct (put_state_frame b s) as [Hf Hx].
      destruct (IH (i + 1) (put_state size b s) (q ++ [b])) as (s' & E & Hr & Hf' & Hx').
      { exists st. now apply fifo_rep_append. }
      { unfold read_busy in *. now rewrite Hf. }
      exists s'. rewrite E, Hf', Hx', Hf, Hx. unfold queue_keep_new in Hr.
      rewrite Zlen_app, !Zlen_cons, Zlen_nil in *. rewrite <- app_assoc in Hr. simpl in Hr.
      replace (Zlen q + (Zlen bytes + 1)) with (Zlen q + (0 + 1) + Zlen bytes) by lia.
      split_and!; try done. f_equal; lia.
Qed.
End Loops.

(** ** Reading while an interrupt writes

    The reference: a turn of the read loop takes the oldest byte; the bytes an
    interrupt offers in a window join the queue as far as there is room. *)

Definition queue_turn (size : Z) (ws : nat -> list Z) (q : list Z) : option Z * list Z :=
  match q with
  | [] => (None, queue_keep_old size (ws 0%nat) [])
  | x :: _ =>
      let q := queue_keep_old size (ws 1%nat) (queue_keep_old size (ws 0%nat) q) in
      (Some x, queue_keep_old size (ws 2%nat) (drop 1 q))
  end.
Fixpoint queue_read (size : Z) (ws : Z -> nat -> list Z) (n : nat) (i : Z) (out q : list Z) :
    list Z * list Z :=
  match n with
  | O => (out, q)
  | S n =>
      match queue_turn size (ws i) q with
      | (Some x, q) => queue_read size ws n (i + 1) (out ++ [x]) q
      | (None, q) => (out, q)
      end
  end.

(** The interrupt: a driver's handler that writes the bytes [ws i w]. *)
Definition isr_writer (config : fifo_config_t) (ws : Z -> nat -> list Z) (i : Z) (w : nat)
    (s : fifo_state_t) : fifo_state_t :=
  snd (fifo_write_buffer config (ws i w) (Zlen (ws i w)) false s).

(** Between operations no busy flag is set. *)
Definition fifo_idle (s : fifo_state_t) : Prop :=
  read_busy s = false /\ Bits.any (fifo_o_flags s) FIFO_FLAG_IS_WRITE_WHILE_READ_BUSY = false.

Lemma fifo_idle_cleared o s :
  fifo_idle (with_flags (Bits.clear o
    (Z.lor FIFO_FLAG_IS_WRITE_WHILE_READ_BUSY FIFO_FLAG_IS_READ_BUSY)) s).
Proof. split; unfold read_busy; simpl; now bits. Qed.

Section InterruptedRead.
Context (config : fifo_config_t) (ws : Z -> nat -> list Z).
Local Abbreviation size := (fifo_size config).
Implicit Types (s : fifo_state_t) (q : list Z).

Lemma isr_writer_busy i w st s q : fifo_rep_at size st s q -> read_busy s = true ->
  fifo_rep_at size st (isr_writer config ws i w s) (queue_keep_old size (ws i w) q) /\
  fifo_o_flags (isr_writer config ws i w s) = fifo_o_flags s /\
  fifo_transfer_handler (isr_writer config ws i w s) = fifo_transfer_handler s.
Proof.
  intros H Hb. unfold isr_writer, fifo_write_buffer.
  rewrite c_bytes_take by (unfold Zlen; lia).
  rewrite take_ge by (unfold Zlen; lia).
  destruct (fifo_write_loop_blocked size (fifo_is_writeblock s) (ws i w) 0 st s q H)
    as (s' & E & Hr & Hf & Hx); [rewrite Hb; btauto|].
  now rewrite E.
Qed.

Lemma queue_keep_old_cons b x q : exists r, queue_keep_old size b (x :: q) = x :: r.
Proof. unfold queue_keep_old. simpl. eauto. Qed.

Local Ltac busy := unfold read_busy in *; congruence.

(** One turn of the loop, whatever the interrupts write. *)
Lemma fifo_read_turn_spec i st s q : fifo_rep_at size st s q -> fifo_idle s ->
  let '(x, q') := queue_turn size (ws i) q in
  exists s', fifo_read_turn size (isr_writer config ws i) s = (x, false, s') /\
    fifo_rep size s' q' /\ fifo_idle s' /\
    fifo_transfer_handler s' = fifo_transfer_handler s.
Proof.
  intros H [Hb Hc]. unfold fifo_read_turn.
  set (s0 := with_flags _ s).
  assert (H0 : fifo_rep_at size st s0 q) by now apply fifo_rep_at_fields with s.
  assert (X0 : fifo_transfer_handler s0 = fifo_transfer_handler s) by done.
  assert (Hb0 : read_busy s0 = true) by (unfold read_busy, s0; simpl; now bits).
  assert (Hc0 : Bits.any (fifo_o_flags s0) FIFO_FLAG_IS_WRITE_WHILE_READ_BUSY = false)
    by (unfold s0; simpl; now bits).
  destruct (isr_writer_busy i 0 st s0 q H0 Hb0) as (H1 & F1 & X1).
  set (s1 := isr_writer config ws i 0 s0) in *.
  rewrite (ring_rep_empty _ _ _ _ _ _ H0).
  destruct q as [|x q]; cbn [queue_turn].
  - rewrite Zlen_nil, Z.eqb_refl. cbn [negb]. eexists. split; [done|].
    split_and!; [exists st; now apply fifo_rep_at_fields with s1|apply fifo_idle_cleared|].
    simpl. now rewrite X1.
  - pose proof (Zlen_nonneg q) as Hnn. rewrite Zlen_cons.
    destruct (Z.eqb_spec (Zlen q + 1) 0) as [|_]; [lia|]. cbn [negb].
    rewrite (ring_rep_read_slot _ _ _ _ _ _ H0) by done.
    destruct (isr_writer_busy i 1 st s1 _ H1 ltac:(busy)) as (H2 & F2 & X2).
    set (s2 := isr_writer config ws i 1 s1) in *.
    destruct (queue_keep_old_cons (ws i 0%nat) x q) as [r1 E1]. rewrite E1 in *.
    destruct (queue_keep_old_cons (ws i 1%nat) x r1) as [r2 E2]. rewrite E2 in *.
    destruct (ring_rep_pop _ _ _ _ _ _ _ H1) as [-> _].
    destruct (ring_rep_pop _ _ _ _ _ _ _ H2) as [_ H3].
    rewrite (ring_rep_advance _ _ _ _ _ _ H).
    destruct (isr_writer_busy i 2 _ (with_tail ((st + 1) mod size) s2) _ H3) as (H4 & F4 & X4).
    { unfold read_busy; simpl; busy. }
    set (s4 := isr_writer config ws i 2 _) in *. simpl in F4, X4.
    replace (Bits.any (fifo_o_flags s4) _) with false by congruence.
    eexists. split; [done|]. cbn [drop]. rewrite drop_0.
    split_and!; [|apply fifo_idle_cleared|simpl; congruence].
    exists ((st + 1) mod size). now apply fifo_rep_at_fields with s4.
Qed.

Lemma fifo_read_loop_spec n : forall i out s q,
  fifo_rep size s q -> fifo_idle s ->
  exists s', fifo_read_loop size (isr_writer config ws) n i out s
      = (i + (Zlen (queue_read size ws n i out q).1 - Zlen out),
         (queue_read size ws n i out q).1, s') /\
    fifo_rep size s' (queue_read size ws n i out q).2 /\ fifo_idle s' /\
    fifo_transfer_handler s' = fifo_transfer_handler s.
Proof.
  induction n as [|n IH]; intros i out s q [st H] Hi; simpl.
  - exists s. split_and!; [repeat f_equal; lia|now exists st|done|done].
  - pose proof (fifo_read_turn_spec i st s q H Hi) as Ht.
    destruct (queue_turn size (ws i) q) as [[x|] q'];
      destruct Ht as (s1 & -> & Hr1 & Hi1 & X1); simpl.
    + destruct (IH (i + 1) (out ++ [x]) s1 q' Hr1 Hi1) as (s' & -> & Hr & Hi' & X).
      exists s'. rewrite Zlen_app, Zlen_cons, Zlen_nil. split_and!; try done.
      * f_equal. f_equal. lia.
      * congruence.
    + exists s1. split_and!; try done. f_equal. f_equal. lia.
Qed.
End InterruptedRead.

(** ** Properties *)

Lemma c_bytes_all bytes : c_bytes bytes (Zlen bytes) = bytes.
Proof.
  rewrite c_bytes_take by (unfold Zlen; lia). apply take_ge. unfold Zlen. lia.
Qed.

Lemma no_isr_writer config : forall i w s, isr_writer config (fun _ _ => []) i w s = no_isr i w s.
Proof. intros. unfold isr_writer, fifo_write_buffer, no_isr. now destruct (fifo_is_writeblock s). Qed.

Lemma fifo_read_turn_ext size isr1 isr2 s : (forall w s, isr1 w s = isr2 w s) ->
  fifo_read_turn size isr1 s = fifo_read_turn size isr2 s.
Proof. intros H. unfold fifo_read_turn. now rewrite !H. Qed.

Lemma fifo_read_loop_ext size isr1 isr2 n : (forall i w s, isr1 i w s = isr2 i w s) ->
  forall i out s, fifo_read_loop size isr1 n i out s = fifo_read_loop size isr2 n i out s.
Proof.
  intros H. induction n as [|n IH]; intros i out s; simpl; [done|].
  rewrite (fifo_read_turn_ext size (isr1 i) (isr2 i)) by auto.
  destruct (fifo_read_turn size (isr2 i) s) as [[[x|] []] s']; auto.
Qed.

(** Without interrupts the reference read takes the oldest bytes. *)
Lemma queue_read_quiet size n : forall i out q,
  queue_read size (fun _ _ => []) n i out q = (out ++ take n q, drop n q).
Proof.
  assert (Hk : forall q : list Z, queue_keep_old size [] q = q).
  { intros q. unfold queue_keep_old. now rewrite take_nil, app_nil_r. }
  induction n as [|n IH]; intros i out q; cbn [queue_read].
  - now rewrite take_0, drop_0, app_nil_r.
  - destruct q as [|x q]; cbn [queue_turn]; rewrite !Hk.
    + now rewrite app_nil_r.
    + rewrite IH. cbn [take drop]. now rewrite drop_0, <- app_assoc.
Qed.

(** [fifo_read_buffer] takes the oldest bytes. *)
Lemma fifo_read_buffer_spec config s q nbyte :
  fifo_rep (fifo_size config) s q -> fifo_idle s ->
  exists s', fifo_read_buffer config nbyte s
      = (Z.min (Z.max nbyte 0) (Zlen q), take (Z.to_nat nbyte) q, s') /\
    fifo_rep (fifo_size config) s' (drop (Z.to_nat nbyte) q) /\ fifo_idle s' /\
    fifo_transfer_handler s' = fifo_transfer_handler s.
Proof.
  intros H Hi. unfold fifo_read_buffer, fifo_read_buffer_isr.
  assert (E16 : u16 (fifo_size config) = fifo_size config)
    by (destruct H as [st H]; now apply (fifo_rep_size16 _ st s q)).
  rewrite E16.
  rewrite (fifo_read_loop_ext _ _ _ _ (fun i w s => eq_sym (no_isr_writer config i w s))).
  destruct (fifo_read_loop_spec config (fun _ _ => []) (Z.to_nat nbyte) 0 [] s q H Hi)
    as (s' & -> & Hr & Hi' & X).
  rewrite queue_read_quiet in *. simpl in *. exists s'. split_and!; try done.
  f_equal. f_equal. unfold Zlen. rewrite length_take. simpl. lia.
Qed.

(** [fifo_write_buffer] in every mode. *)
Lemma fifo_write_buffer_spec config s q buf nbyte non_blocking :
  fifo_rep (fifo_size config) s q -> read_busy s = false -> 0 <= nbyte <= Zlen buf ->
  let size := fifo_size config in
  let bytes := take (Z.to_nat nbyte) buf in
  let block := non_blocking || fifo_is_writeblock s in
  exists s',
    fifo_write_buffer config buf nbyte non_blocking s
      = (if block then Z.min nbyte (size - Zlen q) else nbyte, s') /\
    fifo_rep size s' ((if block then queue_keep_old else queue_keep_new) size bytes q) /\
    fifo_o_flags s' = (if negb block && (size <? Zlen q + nbyte)
                       then Bits.set (fifo_o_flags s) FIFO_FLAG_IS_OVERFLOW
                       else fifo_o_flags s) /\
    fifo_transfer_handler s' = fifo_transfer_handler s.
Proof.
  intros [st H] Hb Hn. cbv zeta. set (size := fifo_size config) in *.
  set (bytes := take (Z.to_nat nbyte) buf). set (block := non_blocking || _).
  unfold fifo_write_buffer. fold size.
  rewrite c_bytes_take by done. fold bytes.
  assert (Hlen : Zlen bytes = nbyte) by (unfold bytes, Zlen in *; rewrite length_take; lia).
  assert (Eb : (if non_blocking then true else fifo_is_writeblock s) = block)
    by (unfold block; now destruct non_blocking).
  rewrite Eb. destruct block.
  - destruct (fifo_write_loop_blocked size true bytes 0 st s q H ltac:(done))
      as (s' & -> & Hr & Hf & Hx).
    exists s'. rewrite Hlen. split_and!; try done. now exists st.
  - destruct (fifo_write_loop_overwrite size bytes 0 s q ltac:(now exists st) Hb)
      as (s' & -> & Hr & Hf & Hx).
    exists s'. rewrite Hlen in *. now split_and!.
Qed.

(** C4: A write to a FIFO that represents the queue [q] stores bytes in order.
    When the caller asked not to block or the FIFO is in write-block mode it
    appends the bytes that fit and returns their number; otherwise it takes all
    the bytes, keeps the newest [size] of the queue and sets the overflow flag
    exactly when a byte was dropped. *)
Theorem fifo_write_refines_queue config s q buf nbyte non_blocking :
  fifo_rep (fifo_size config) s q -> read_busy s = false -> 0 <= nbyte <= Zlen buf ->
  let size := fifo_size config in
  let bytes := take (Z.to_nat nbyte) buf in
  let block := non_blocking || fifo_is_writeblock s in
  exists s',
    fifo_write_buffer config buf nbyte non_blocking s
      = (if block then Z.min nbyte (size - Zlen q) else nbyte, s') /\
    fifo_rep size s' ((if block then queue_keep_old else queue_keep_new) size bytes q) /\
    fifo_is_overflow s' = (fifo_is_overflow s || (negb block && (size <? Zlen q + nbyte))).
Proof.
  intros H Hb Hn.
  destruct (fifo_write_buffer_spec config s q buf nbyte non_blocking H Hb Hn)
    as (s' & E & Hr & Hf & _). cbv zeta in *.
  exists s'. split_and!; [exact E|exact Hr|].
  unfold fifo_is_overflow. rewrite Hf. case_match; simpl; [bits|]; btauto.
Qed.

(** Example FIFO of four bytes. *)
Definition fifo4 : fifo_config_t := {| fifo_size := 4 |}.
Definition fifo4_empty : fifo_state_t := mk_fifo 0 0 0 [0; 0; 0; 0] (mk_transfer 0 0 ∅ []).
Lemma fifo4_empty_rep : fifo_rep 4 fifo4_empty [].
Proof. exists 0. unfold fifo_rep_at, ring_rep, Zlen, ring. simpl. split_and!; try lia; done. Qed.

Lemma fifo_write_refines_queue_witness : exists s',
  fifo_write_buffer fifo4 [1; 2; 3; 4; 5] 5 false fifo4_empty = (5, s') /\
  fifo_rep 4 s' [2; 3; 4; 5].
Proof.
  destruct (fifo_write_refines_queue fifo4 fifo4_empty [] [1; 2; 3; 4; 5] 5 false)
    as (s' & E & Hr & _).
  - exact fifo4_empty_rep.
  - reflexivity.
  - unfold Zlen; simpl; lia.
  - exists s'. split; [exact E|exact Hr].
Defined.

(** A read interrupted by writers at every window of every turn behaves
    like the reference queue: the bytes returned are the oldest, the interrupts'
    bytes join the queue behind them as far as there is room, and the read
    leaves no busy flag.  The count returned is the number of bytes stored. *)
Theorem fifo_read_interrupted config ws s q nbyte :
  fifo_rep (fifo_size config) s q -> fifo_idle s ->
  let '(out, q') := queue_read (fifo_size config) ws (Z.to_nat nbyte) 0 [] q in
  exists s', fifo_read_buffer_isr (isr_writer config ws) config nbyte s = (Zlen out, out, s') /\
    fifo_rep (fifo_size config) s' q' /\ fifo_idle s'.
Proof.
  intros H Hi. unfold fifo_read_buffer_isr.
  assert (E16 : u16 (fifo_size config) = fifo_size config)
    by (destruct H as [st H]; now apply (fifo_rep_size16 _ st s q)).
  rewrite E16.
  destruct (fifo_read_loop_spec config ws (Z.to_nat nbyte) 0 [] s q H Hi)
    as (s' & E & Hr & Hi' & _).
  destruct (queue_read _ ws _ 0 [] q) as [out q'] eqn:Eq. simpl in *.
  exists s'. rewrite E. split_and!; try done. f_equal. f_equal. unfold Zlen. simpl. lia.
Qed.

Lemma fifo_read_interrupted_witness : exists s',
  fifo_read_buffer_isr (isr_writer fifo4 (fun i w => if (i =? 0) && Nat.eqb w 1 then [9] else []))
    fifo4 2 (snd (fifo_write_buffer fifo4 [1] 1 false fifo4_empty)) = (2, [1; 9], s') /\
  fifo_rep 4 s' [].
Proof.
  set (ws := fun i w => if (i =? 0) && Nat.eqb w 1 then [9] else []).
  destruct (fifo_read_interrupted fifo4 ws
              (snd (fifo_write_buffer fifo4 [1] 1 false fifo4_empty)) [1] 2)
    as (s' & E & Hr & _).
  - exists 0. unfold fifo_rep_at, ring_rep, Zlen, ring. vm_compute. split_and!; congruence.
  - split; reflexivity.
  - exists s'. split; [exact E|exact Hr].
Defined.

(** The interrupts of the turns [i .. i+n-1], in order. *)
Fixpoint isr_windows (ws : Z -> nat -> list Z) (n : nat) (i : Z) : list (list Z) :=
  match n with
  | O => []
  | S n => ws i 0%nat :: ws i 1%nat :: ws i 2%nat :: isr_windows ws n (i + 1)
  end.

Lemma queue_read_conserves size ws n : forall i out q,
  exists accepted,
    (queue_read size ws n i out q).1 ++ (queue_read size ws n i out q).2
      = out ++ q ++ mjoin accepted /\
    Forall2 prefix accepted (take (length accepted) (isr_windows ws n i)).
Proof.
  induction n as [|n IH]; intros i out q; cbn [queue_read].
  - exists []. simpl. now rewrite app_nil_r.
  - destruct q as [|x q]; cbn [queue_turn].
    + exists [take (Z.to_nat size) (ws i 0%nat)]. unfold queue_keep_old. simpl.
      rewrite Zlen_nil, Z.sub_0_r, app_nil_r. split; [done|].
      constructor; [apply prefix_take|constructor].
    + unfold queue_keep_old. cbn [app drop]. rewrite drop_0.
      set (a0 := take _ (ws i 0%nat)). set (a1 := take _ (ws i 1%nat)).
      set (a2 := take _ (ws i 2%nat)).
      destruct (IH (i + 1) (out ++ [x]) (((q ++ a0) ++ a1) ++ a2)) as (acc & E & F).
      exists (a0 :: a1 :: a2 :: acc). rewrite E. simpl. split.
      * now rewrite <- !app_assoc.
      * do 3 (constructor; [apply prefix_take|]). exact F.
Qed.

(** No byte is lost, duplicated or reordered by a read that interrupts
    write into: what was read followed by what is left is what was there
    followed by a prefix of each interrupt's bytes in the order of the
    interrupts. *)
Theorem fifo_read_conserves_bytes config ws s q nbyte :
  fifo_rep (fifo_size config) s q -> fifo_idle s ->
  exists n out s' q' accepted,
    fifo_read_buffer_isr (isr_writer config ws) config nbyte s = (n, out, s') /\
    fifo_rep (fifo_size config) s' q' /\
    out ++ q' = q ++ mjoin accepted /\
    Forall2 prefix accepted (take (length accepted) (isr_windows ws (Z.to_nat nbyte) 0)).
Proof.
  intros H Hi. unfold fifo_read_buffer_isr.
  assert (E16 : u16 (fifo_size config) = fifo_size config)
    by (destruct H as [st H]; now apply (fifo_rep_size16 _ st s q)).
  rewrite E16.
  destruct (fifo_read_loop_spec config ws (Z.to_nat nbyte) 0 [] s q H Hi)
    as (s' & E & Hr & _).
  destruct (queue_read_conserves (fifo_size config) ws (Z.to_nat nbyte) 0 [] q) as (acc & Ec & F).
  eexists _, _, s', _, acc. split_and!; [exact E|exact Hr|exact Ec|exact F].
Qed.

Lemma fifo_read_conserves_bytes_witness : exists n out s' q' accepted,
  fifo_read_buffer_isr (isr_writer fifo4 (fun _ _ => [7; 8])) fifo4 2 fifo4_empty = (n, out, s') /\
  fifo_rep 4 s' q' /\ out ++ q' = [] ++ mjoin accepted /\
  Forall2 prefix accepted (take (length accepted) (isr_windows (fun _ _ => [7; 8]) 2 0)).
Proof.
  exact (fifo_read_conserves_bytes fifo4 (fun _ _ => [7; 8]) fifo4_empty [] 2
           fifo4_empty_rep (conj eq_refl eq_refl)).
Defined.

(** Round trip: bytes that fit are read back after the bytes that were
    already there, and the FIFO is then empty. *)
Theorem fifo_write_read_roundtrip config s q bytes :
  fifo_rep (fifo_size config) s q -> fifo_idle s ->
  Zlen q + Zlen bytes <= fifo_size config ->
  exists s1 s2,
    fifo_write_buffer config bytes (Zlen bytes) false s = (Zlen bytes, s1) /\
    fifo_read_buffer config (Zlen q + Zlen bytes) s1 = (Zlen q + Zlen bytes, q ++ bytes, s2) /\
    fifo_rep (fifo_size config) s2 [].
Proof.
  intros H [Hb Hc] Hfit. pose proof (Zlen_nonneg bytes). pose proof (Zlen_nonneg q).
  destruct (fifo_write_buffer_spec config s q bytes (Zlen bytes) false H Hb ltac:(lia))
    as (s1 & E1 & Hr1 & Hf1 & _).
  cbv zeta in *. cbn [orb] in *. rewrite take_ge in Hr1 by (unfold Zlen; lia).
  assert (Hq : (if fifo_is_writeblock s then queue_keep_old else queue_keep_new)
                 (fifo_size config) bytes q = q ++ bytes).
  { unfold queue_keep_old, queue_keep_new, Zlen in *. destruct (fifo_is_writeblock s).
    - now rewrite take_ge by lia.
    - now replace (Z.to_nat _) with O by lia. }
  rewrite Hq in Hr1.
  assert (Hi1 : fifo_idle s1).
  { unfold fifo_idle, read_busy in *. rewrite Hf1. destruct (negb _ && _); [split; now bits|done]. }
  destruct (fifo_read_buffer_spec config s1 (q ++ bytes) (Zlen q + Zlen bytes) Hr1 Hi1)
    as (s2 & E2 & Hr2 & _).
  exists s1, s2. split_and!.
  - rewrite E1. f_equal. destruct (fifo_is_writeblock s); lia.
  - rewrite E2, Zlen_app. rewrite take_ge by (rewrite length_app; unfold Zlen; lia).
    f_equal. f_equal. lia.
  - now rewrite drop_ge in Hr2 by (rewrite length_app; unfold Zlen; lia).
Qed.

Lemma fifo_write_read_roundtrip_witness : exists s1 s2,
  fifo_write_buffer fifo4 [1; 2; 3] 3 false fifo4_empty = (3, s1) /\
  fifo_read_buffer fifo4 3 s1 = (3, [1; 2; 3], s2) /\ fifo_rep 4 s2 [].
Proof.
  exact (fifo_write_read_roundtrip fifo4 fifo4_empty [] [1; 2; 3] fifo4_empty_rep
           (conj eq_refl eq_refl) ltac:(unfold Zlen; simpl; lia)).
Defined.

(** GETINFO reports the number of bytes ready, the capacity and the
    overflow flag, and clears the overflow flag without touching the queue. *)
Theorem fifo_getinfo_exact config s q :
  fifo_rep (fifo_size config) s q ->
  exists info s', fifo_getinfo config s = (info, s') /\
    info_size_ready info = Zlen q /\ info_size info = fifo_size config /\
    info_overflow info = (if fifo_is_overflow s then 1 else 0) /\
    fifo_rep (fifo_size config) s' q /\ fifo_is_overflow s' = false.
Proof.
  intros [st H]. unfold fifo_getinfo. eexists _, _. split; [done|]. simpl.
  pose proof (ring_rep_full _ _ _ _ _ _ H) as Hfull. pose proof (Zlen_nonneg q).
  split_and!; try done; [|now exists st|unfold fifo_is_overflow; simpl; now bits].
  destruct H as (? & ? & ? & ? & Hh & Ht & ?). rewrite Hfull.
  destruct (Z.eqb_spec (Zlen q) (fifo_size config)); [lia|].
  rewrite wrap_mod in Hh by lia. rewrite u32_id by (bool_cases; lia). bool_cases; lia.
Qed.

Lemma fifo_getinfo_exact_witness : exists info s', fifo_getinfo fifo4 fifo4_empty = (info, s') /\
  info_size_ready info = 0 /\ info_size info = 4 /\ info_overflow info = 0 /\
  fifo_rep 4 s' [] /\ fifo_is_overflow s' = false.
Proof. exact (fifo_getinfo_exact fifo4 fifo4_empty [] fifo4_empty_rep). Defined.

Section TransferProperties.
Context {ev : McuEvents}.

(** A pending read is served: the bytes are stored in its buffer, it
    reports their number and its handler runs once. *)
Lemma fifo_data_received_completes config s q pr ar c :
  fifo_rep (fifo_size config) s q -> fifo_idle s -> q <> [] ->
  xfer_read (fifo_transfer_handler s) = pr -> pr <> 0 ->
  xfer_asyncs (fifo_transfer_handler s) !! pr = Some ar ->
  async_handler ar = Some c -> 0 < async_nbyte ar ->
  let s' := fifo_data_received config s in
  let n := Z.to_nat (async_nbyte ar) in
  fifo_rep (fifo_size config) s' (drop n q) /\ fifo_idle s' /\
  xfer_read (fifo_transfer_handler s') = 0 /\
  xfer_write (fifo_transfer_handler s') = xfer_write (fifo_transfer_handler s) /\
  xfer_asyncs (fifo_transfer_handler s') !! pr =
    Some (set_result (Z.min (async_nbyte ar) (Zlen q))
            (set_buf (c_store (take n q) (async_buf ar)) ar)) /\
  xfer_fired (fifo_transfer_handler s') =
    xfer_fired (fifo_transfer_handler s) ++ [(c, MCU_EVENT_FLAG_DATA_READY)].
Proof.
  intros H Hi Hq Hp Hp0 Ha Hc Hn. cbv zeta. unfold fifo_data_received.
  rewrite Hp. destruct (Z.eqb_spec pr 0) as [|_]; [done|]. rewrite Ha.
  destruct (fifo_read_buffer_spec config s q (async_nbyte ar) H Hi)
    as (s1 & -> & Hr1 & Hi1 & X1).
  assert (0 < Zlen q) by (destruct q; [done|rewrite Zlen_cons; pose proof (Zlen_nonneg q); lia]).
  destruct (Z.leb_spec 0 (Z.min (Z.max (async_nbyte ar) 0) (Zlen q))) as [_|]; [|lia].
  set (n := Z.to_nat (async_nbyte ar)) in *.
  set (t1 := on_async pr _ (fifo_transfer_handler s1)).
  set (a1 := set_buf (c_store (take n q) (async_buf ar)) ar).
  assert (Ht1 : xfer_asyncs t1 !! pr = Some a1).
  { unfold t1; simpl. now rewrite lookup_alter_eq, X1, Ha. }
  destruct (read_handler_completes (Z.min (Z.max (async_nbyte ar) 0) (Zlen q))
              MCU_EVENT_FLAG_DATA_READY t1 pr a1 c) as (R & W & A & F);
    [unfold t1; simpl; congruence|done|exact Ht1|done|].
  cbn [fifo_transfer_handler with_xfer]. rewrite R, W, A, F. unfold t1; simpl. rewrite X1.
  split_and!; [exact Hr1|apply Hi1|done|done| |done].
  unfold completion_result. destruct (Z.eqb_spec (Z.min (Z.max (async_nbyte ar) 0) (Zlen q)) 0); [lia|].
  now replace (Z.min (Z.max (async_nbyte ar) 0) (Zlen q)) with (Z.min (async_nbyte ar) (Zlen q)) by lia.
Qed.

(** A write wakes a blocked reader.  With a read pending on an empty
    FIFO, writing bytes that fit completes the read: its buffer holds the
    first bytes, its result is their number, its handler runs exactly once
    with DATA_READY, no read stays pending, and the rest stays queued. *)
Theorem fifo_write_wakes_reader config s pr ar c pw aw :
  fifo_rep (fifo_size config) s [] -> fifo_idle s ->
  xfer_read (fifo_transfer_handler s) = pr -> pr <> 0 ->
  xfer_write (fifo_transfer_handler s) = 0 ->
  xfer_asyncs (fifo_transfer_handler s) !! pr = Some ar ->
  xfer_asyncs (fifo_transfer_handler s) !! pw = Some aw ->
  async_handler ar = Some c -> 0 < async_nbyte ar ->
  0 < async_nbyte aw <= Zlen (async_buf aw) -> async_nbyte aw <= fifo_size config ->
  let bytes := take (Z.to_nat (async_nbyte aw)) (async_buf aw) in
  let n := Z.to_nat (async_nbyte ar) in
  exists s', fifo_write_local config pw true s = (async_nbyte aw, s') /\
    fifo_rep (fifo_size config) s' (drop n bytes) /\
    xfer_read (fifo_transfer_handler s') = 0 /\ xfer_write (fifo_transfer_handler s') = 0 /\
    xfer_asyncs (fifo_transfer_handler s') !! pr =
      Some (set_result (Z.min (async_nbyte ar) (async_nbyte aw))
              (set_buf (c_store (take n bytes) (async_buf ar)) ar)) /\
    xfer_fired (fifo_transfer_handler s') =
      xfer_fired (fifo_transfer_handler s) ++ [(c, MCU_EVENT_FLAG_DATA_READY)].
Proof.
  intros H Hi Hr Hr0 Hw Har Haw Hc Hnr Hnw Hfit. cbv zeta. unfold fifo_write_local.
  rewrite Haw, Hw. cbn [negb]. destruct (Z.eqb_spec (async_nbyte aw) 0) as [|_]; [lia|].
  change (negb (0 =? 0)) with false. cbv iota.
  set (s0 := with_xfer (set_write pw _) s).
  set (nb := Bits.any (async_flags aw) O_NONBLOCK).
  destruct (fifo_write_buffer_spec config s0 [] (async_buf aw) (async_nbyte aw) nb)
    as (s1 & E1 & Hr1 & Hf1 & X1); [exact H|apply Hi|lia|].
  cbv zeta in *. rewrite E1. clear E1. rewrite Zlen_nil in *.
  set (bytes := take (Z.to_nat (async_nbyte aw)) (async_buf aw)) in *.
  assert (Hlb : Zlen bytes = async_nbyte aw)
    by (unfold bytes, Zlen in *; rewrite length_take; lia).
  assert (Hq1 : (if nb || fifo_is_writeblock s0 then queue_keep_old else queue_keep_new)
                  (fifo_size config) bytes [] = bytes).
  { destruct (nb || _); unfold queue_keep_old, queue_keep_new; rewrite Zlen_nil, ?Hlb.
    - rewrite take_ge by (unfold Zlen in Hlb; lia). done.
    - now replace (Z.to_nat _) with O by lia. }
  rewrite Hq1 in Hr1. clear Hq1.
  replace (if nb || fifo_is_writeblock s0 then Z.min (async_nbyte aw) (fifo_size config - 0)
           else async_nbyte aw) with (async_nbyte aw) by (destruct (nb || _); lia).
  assert (Hi1 : fifo_idle s1).
  { replace (fifo_size config <? 0 + async_nbyte aw) with false in Hf1 by (bool_cases; lia).
    rewrite andb_false_r in Hf1. unfold fifo_idle, read_busy in *. now rewrite Hf1. }
  destruct (Z.eqb_spec (async_nbyte aw) 0) as [|_]; [lia|].
  destruct (Z.ltb_spec 0 (async_nbyte aw)) as [_|]; [|lia]. cbn [andb negb].
  destruct (fifo_data_received_completes config s1 bytes pr ar c Hr1 Hi1)
    as (Hr2 & _ & R2 & W2 & A2 & F2); try done.
  - intros ->. rewrite Zlen_nil in Hlb. lia.
  - now rewrite X1.
  - now rewrite X1.
  - destruct (Z.eqb_spec (async_nbyte aw) 0) as [|_]; [lia|].
    eexists. split; [done|].
    cbn [negb fifo_transfer_handler with_xfer set_write xfer_read xfer_write xfer_asyncs xfer_fired].
    rewrite R2, A2, F2, X1, Hlb. by split_and!.
Qed.
End TransferProperties.

(** Event flags as distinct bits. *)
Definition example_events : McuEvents :=
  {| MCU_EVENT_FLAG_WRITE_COMPLETE := 1; MCU_EVENT_FLAG_DATA_READY := 2;
     MCU_EVENT_FLAG_CANCELED := 4 |}.

(** A reader waiting at pointer 16 for two bytes, a writer's object at 32. *)
Definition fifo4_waiting : fifo_state_t :=
  with_xfer (mk_transfer 16 0
    {[ 16 := mk_async 1 0 0 [0; 0] 2 0 (Some 100);
       32 := mk_async 2 0 0 [5; 6; 7] 3 0 (Some 200) ]} []) fifo4_empty.

Lemma fifo_write_wakes_reader_witness : exists s',
  @fifo_write_local example_events fifo4 32 true fifo4_waiting = (3, s') /\
  fifo_rep 4 s' [7] /\ xfer_read (fifo_transfer_handler s') = 0 /\
  xfer_asyncs (fifo_transfer_handler s') !! 16 = Some (mk_async 1 0 0 [5; 6] 2 2 (Some 100)).
Proof.
  destruct (@fifo_write_wakes_reader example_events fifo4 fifo4_waiting 16
              (mk_async 1 0 0 [0; 0] 2 0 (Some 100)) 100 32
              (mk_async 2 0 0 [5; 6; 7] 3 0 (Some 200)))
    as (s' & E & Hr & R & _ & A & _);
    try reflexivity; try (simpl; unfold Zlen; simpl; lia).
  - exact fifo4_empty_rep.
  - split; reflexivity.
  - exists s'. split_and!; [exact E|exact Hr|exact R|exact A].
Defined.

Section TransferFindings.
Context {ev : McuEvents}.

(** SETATTR on a full FIFO in write-block mode completes a pending write
    although no byte was stored: the writer's object reports all of its bytes
    as written and its handler runs with WRITE_COMPLETE, while the queue is
    unchanged. *)
Theorem fifo_setattr_reports_unwritten config s q p a c o_flags :
  fifo_rep (fifo_size config) s q -> read_busy s = false -> Zlen q = fifo_size config ->
  fifo_is_writeblock s = true ->
  Bits.any o_flags FIFO_FLAG_INIT = false -> Bits.any o_flags FIFO_FLAG_IS_OVERFLOW = false ->
  xfer_write (fifo_transfer_handler s) = p -> p <> 0 ->
  xfer_asyncs (fifo_transfer_handler s) !! p = Some a -> async_handler a = Some c ->
  0 <= async_nbyte a <= Zlen (async_buf a) ->
  exists s', fifo_ioctl_local config (I_FIFO_SETATTR o_flags) s = (0, None, s') /\
    fifo_rep (fifo_size config) s' q /\
    xfer_write (fifo_transfer_handler s') = 0 /\
    xfer_asyncs (fifo_transfer_handler s') !! p = Some (set_result (async_nbyte a) a) /\
    xfer_fired (fifo_transfer_handler s') =
      xfer_fired (fifo_transfer_handler s) ++ [(c, MCU_EVENT_FLAG_WRITE_COMPLETE)].
Proof.
  intros H Hb Hfull Hwb Hinit Hov Hp Hp0 Ha Hc Hn. cbn [fifo_ioctl_local].
  rewrite Hinit, Hov. set (s0 := if Bits.any o_flags FIFO_FLAG_SET_WRITEBLOCK then _ else _).
  assert (Hs0 : fifo_rep (fifo_size config) s0 q /\ read_busy s0 = false /\
                fifo_is_writeblock s0 = true /\
                fifo_transfer_handler s0 = fifo_transfer_handler s).
  { unfold s0, fifo_is_writeblock, read_busy in *.
    destruct (Bits.any o_flags FIFO_FLAG_SET_WRITEBLOCK); simpl; bits; by split_and!. }
  destruct Hs0 as (H0 & Hb0 & Hw0 & X0). rewrite Hw0. unfold fifo_data_transmitted.
  rewrite X0, Hp. destruct (Z.eqb_spec p 0) as [|_]; [done|]. rewrite Ha.
  destruct (fifo_write_buffer_spec config s0 q (async_buf a) (async_nbyte a) false H0 Hb0 Hn)
    as (s1 & E1 & Hr1 & _ & X1). cbv zeta in *. rewrite Hw0 in *. cbn [orb] in *.
  rewrite E1, Hfull, Z.sub_diag, Z.min_r by lia. rewrite Z.leb_refl.
  unfold queue_keep_old in Hr1. rewrite Hfull, Z.sub_diag, app_nil_r in Hr1.
  destruct (write_handler_completes 0 MCU_EVENT_FLAG_WRITE_COMPLETE
              (fifo_transfer_handler s1) p a c) as (W & _ & A & F); try congruence.
  eexists. split; [done|]. cbn [fifo_transfer_handler with_xfer].
  rewrite W, A, F, X1, X0. by split_and!.
Qed.

(** Clearing the DATA_READY action does not cancel the pending read: the
    request cancels the pending write instead, and the reader stays pending. *)
Theorem fifo_setaction_cancels_wrong_transfer config s o_events :
  Bits.any o_events MCU_EVENT_FLAG_WRITE_COMPLETE = false ->
  Bits.any o_events MCU_EVENT_FLAG_DATA_READY = true ->
  exists s', fifo_ioctl_local config (I_MCU_SETACTION false o_events) s = (0, None, s') /\
    s' = fifo_cancel_async_write s /\
    xfer_read (fifo_transfer_handler s') = xfer_read (fifo_transfer_handler s) /\
    xfer_write (fifo_transfer_handler s') = 0.
Proof.
  intros Hw Hr. cbn [fifo_ioctl_local negb]. rewrite Hw, Hr. eexists. split_and!; [done|done| |].
  - unfold fifo_cancel_async_write, devfs_execute_write_handler. simpl. case_match; [done|].
    now edestruct event_handler_pending as (-> & _).
  - unfold fifo_cancel_async_write, devfs_execute_write_handler. simpl.
    destruct (Z.eqb_spec (xfer_write (fifo_transfer_handler s)) 0) as [E|_]; [exact E|].
    now edestruct event_handler_pending as (_ & -> & _).
Qed.
End TransferFindings.

(** A full FIFO in write-block mode with a write of two bytes pending at 32. *)
Definition fifo4_full_blocked : fifo_state_t :=
  mk_fifo 0 4 1 [1; 2; 3; 4]
    (mk_transfer 0 32 {[ 32 := mk_async 2 0 0 [8; 9] 2 0 (Some 200) ]} []).

Lemma fifo_setattr_reports_unwritten_witness : exists s',
  @fifo_ioctl_local example_events fifo4 (I_FIFO_SETATTR 1) fifo4_full_blocked = (0, None, s') /\
  fifo_rep 4 s' [1; 2; 3; 4] /\
  xfer_asyncs (fifo_transfer_handler s') !! 32 = Some (mk_async 2 0 0 [8; 9] 2 2 (Some 200)).
Proof.
  destruct (@fifo_setattr_reports_unwritten example_events fifo4 fifo4_full_blocked
              [1; 2; 3; 4] 32 (mk_async 2 0 0 [8; 9] 2 0 (Some 200)) 200 1)
    as (s' & E & Hr & _ & A & _);
    try reflexivity; try (simpl; unfold Zlen; simpl; lia).
  - exists 0. unfold fifo_rep_at, ring_rep, Zlen, ring. vm_compute. split_and!; congruence.
  - exists s'. split_and!; [exact E|exact Hr|exact A].
Defined.

Lemma fifo_setaction_cancels_wrong_transfer_witness : exists s',
  @fifo_ioctl_local example_events fifo4 (I_MCU_SETACTION false 2) fifo4_waiting = (0, None, s') /\
  xfer_read (fifo_transfer_handler s') = 16.
Proof.
  destruct (@fifo_setaction_cancels_wrong_transfer example_events fifo4 fifo4_waiting 2)
    as (s' & E & _ & R & _); try reflexivity.
  exists s'. split; [exact E|exact R].
Defined.
