(* ===== verification/Ffifo.v ===== *)
(** * The frame FIFO device

    [src/device/ffifo.c]: a ring buffer of frames of a fixed size, with the
    positions, flags and pending transfers of the byte FIFO.  The buffer is a
    list of bytes; a frame is read and written at [frame * frame_size].  The
    loops count bytes in steps of the frame size; with a frame size of 0 they
    need not end, and [None] says that the fuel, one turn per byte and one
    more, did not suffice (or that a pending pointer has no transfer object). *)
From S2P Require Import Prelude Devfs Ring Fifo.

(** [ffifo_state_t] with the memory [config->buffer] points to. *)
Record ffifo_state_t := mk_ffifo {
  ff_head : Z;                   (** u16 *)
  ff_tail : Z;                   (** u16 *)
  ff_o_flags : Z;                (** u32 *)
  ff_buffer : list Z;
  ff_transfer_handler : devfs_transfer_t;
}.
Record ffifo_config_t := { frame_count : Z; frame_size : Z }.
Record ffifo_info_t := mk_ffifo_info {
  ffinfo_o_flags : Z; ffinfo_frame_count : Z; ffinfo_frame_size : Z; ffinfo_frame_count_ready : Z }.

Definition ff_with_head (h : Z) (s : ffifo_state_t) : ffifo_state_t :=
  mk_ffifo h (ff_tail s) (ff_o_flags s) (ff_buffer s) (ff_transfer_handler s).
Definition ff_with_tail (t : Z) (s : ffifo_state_t) : ffifo_state_t :=
  mk_ffifo (ff_head s) t (ff_o_flags s) (ff_buffer s) (ff_transfer_handler s).
Definition ff_with_flags (o : Z) (s : ffifo_state_t) : ffifo_state_t :=
  mk_ffifo (ff_head s) (ff_tail s) o (ff_buffer s) (ff_transfer_handler s).
Definition ff_with_buffer (b : list Z) (s : ffifo_state_t) : ffifo_state_t :=
  mk_ffifo (ff_head s) (ff_tail s) (ff_o_flags s) b (ff_transfer_handler s).
Definition ff_with_xfer (x : devfs_transfer_t) (s : ffifo_state_t) : ffifo_state_t :=
  mk_ffifo (ff_head s) (ff_tail s) (ff_o_flags s) (ff_buffer s) x.
Definition ff_set (m : Z) (s : ffifo_state_t) : ffifo_state_t := ff_with_flags (Bits.set (ff_o_flags s) m) s.
Definition ff_clear (m : Z) (s : ffifo_state_t) : ffifo_state_t := ff_with_flags (Bits.clear (ff_o_flags s) m) s.
Definition ff_any (m : Z) (s : ffifo_state_t) : bool := Bits.any (ff_o_flags s) m.

(** ** Operations *)

(** The frame at an index of a buffer, and the buffer with that frame replaced. *)
Definition ffifo_get_frame (size frame : Z) (buf : list Z) : list Z :=
  c_bytes (drop (Z.to_nat (frame * size)) buf) size.
Definition ffifo_put_frame (size frame : Z) (data buf : list Z) : list Z :=
  take (Z.to_nat (frame * size)) buf ++ c_store data (drop (Z.to_nat (frame * size)) buf).

Definition ffifo_inc_tail (count : Z) (s : ffifo_state_t) : ffifo_state_t :=
  let s := ff_with_tail (u16 (ff_tail s + 1)) s in
  if ff_tail s =? count then ff_with_tail 0 s else s.
Definition ffifo_inc_head (count : Z) (s : ffifo_state_t) : ffifo_state_t :=
  let s := ff_with_head (u16 (ff_head s + 1)) s in
  let s := if ff_head s =? count then ff_with_head 0 s else s in
  if ff_head s =? ff_tail s then ff_with_tail count s else s.

Definition ffifo_is_writeblock (s : ffifo_state_t) : bool := ff_any FIFO_FLAG_SET_WRITEBLOCK s.
Definition ffifo_set_writeblock (value : bool) (s : ffifo_state_t) : ffifo_state_t :=
  if value then ff_set FIFO_FLAG_SET_WRITEBLOCK s else ff_clear FIFO_FLAG_SET_WRITEBLOCK s.
Definition ffifo_is_overflow (s : ffifo_state_t) : bool := ff_any FIFO_FLAG_IS_OVERFLOW s.
Definition ffifo_set_overflow (value : bool) (s : ffifo_state_t) : ffifo_state_t :=
  if value then ff_set FIFO_FLAG_IS_OVERFLOW s else ff_clear FIFO_FLAG_IS_OVERFLOW s.

Definition ffifo_is_write_ok (count : Z) (writeblock : bool) (s : ffifo_state_t) : bool * ffifo_state_t :=
  if ff_tail s =? count then
    if writeblock then (false, s)
    else
      let s := if ff_any FIFO_FLAG_IS_READ_BUSY s then ff_set FIFO_FLAG_IS_WRITE_WHILE_READ_BUSY s else s in
      (true, ffifo_set_overflow true s)
  else (true, s).

Definition READ_FLAGS : Z := Z.lor FIFO_FLAG_IS_WRITE_WHILE_READ_BUSY FIFO_FLAG_IS_READ_BUSY.

(** One turn of the read loop: the frame copied, [None] when the FIFO is empty;
    whether a write overtook it; the state.  [isr w] is what an interrupt does in
    the window [w] of the turn: 0 after the positions are read, 1 after the frame
    is copied and before the tail is stored, 2 after the tail is stored. *)
Definition ffifo_read_turn (config : ffifo_config_t) (isr : nat -> ffifo_state_t -> ffifo_state_t)
    (s : ffifo_state_t) : option (list Z) * bool * ffifo_state_t :=
  let count := frame_count config in
  let s := ff_set FIFO_FLAG_IS_READ_BUSY s in
  let head := ff_head s in
  let tail := ff_tail s in
  let s := isr 0%nat s in
  if negb (head =? tail) then
    let tail := if tail =? count then head else tail in
    let frame := ffifo_get_frame (frame_size config) tail (ff_buffer s) in
    let s := isr 1%nat s in
    let tail := u16 (tail + 1) in
    let tail := if tail =? count then 0 else tail in
    let s := ff_with_tail tail s in
    let s := isr 2%nat s in
    let clobbered := ff_any FIFO_FLAG_IS_WRITE_WHILE_READ_BUSY s in
    let s := if clobbered then ff_with_tail (frame_size config) s else s in
    (Some frame, clobbered, ff_clear READ_FLAGS s)
  else (None, false, ff_clear READ_FLAGS s).

(** The count returned, the bytes stored in [buf] and the state. *)
Fixpoint ffifo_read_loop (config : ffifo_config_t) (isr : Z -> nat -> ffifo_state_t -> ffifo_state_t)
    (fuel : nat) (len i : Z) (out : list Z) (s : ffifo_state_t) : option (Z * list Z * ffifo_state_t) :=
  match fuel with
  | O => None
  | S fuel =>
      if i <? len then
        match ffifo_read_turn config (isr i) s with
        | (Some frame, true, s) => Some (i, out ++ frame, s)
        | (Some frame, false, s) => ffifo_read_loop config isr fuel len (i + frame_size config) (out ++ frame) s
        | (None, _, s) => Some (i, out, s)
        end
      else Some (i, out, s)
  end.
Definition ffifo_read_buffer_isr (isr : Z -> nat -> ffifo_state_t -> ffifo_state_t) (config : ffifo_config_t)
    (len : Z) (s : ffifo_state_t) : option (Z * list Z * ffifo_state_t) :=
  ffifo_read_loop config isr (S (Z.to_nat len)) len 0 [] s.
Definition ff_no_isr (i : Z) (w : nat) (s : ffifo_state_t) : ffifo_state_t := s.
Definition ffifo_read_buffer := ffifo_read_buffer_isr ff_no_isr.

Fixpoint ffifo_write_loop (config : ffifo_config_t) (writeblock : bool) (fuel : nat) (buf : list Z) (len i : Z)
    (s : ffifo_state_t) : option (Z * ffifo_state_t) :=
  match fuel with
  | O => None
  | S fuel =>
      if i <? len then
        let '(ok, s) := ffifo_is_write_ok (frame_count config) writeblock s in
        if ok then
          let s := ff_set FIFO_FLAG_IS_WRITE_BUSY s in
          let frame := ffifo_get_frame (frame_size config) 0 (drop (Z.to_nat i) buf) in
          let s := ff_with_buffer (ffifo_put_frame (frame_size config) (ff_head s) frame (ff_buffer s)) s in
          let s := ffifo_inc_head (frame_count config) s in
          ffifo_write_loop config writeblock fuel buf len (i + frame_size config) (ff_clear FIFO_FLAG_IS_WRITE_BUSY s)
        else Some (i, s)
      else Some (i, s)
  end.
Definition ffifo_write_buffer (config : ffifo_config_t) (buf : list Z) (len : Z) (s : ffifo_state_t) :
    option (Z * ffifo_state_t) :=
  ffifo_write_loop config (ffifo_is_writeblock s) (S (Z.to_nat len)) buf len 0 s.

Definition ffifo_flush (s : ffifo_state_t) : ffifo_state_t :=
  ffifo_set_overflow false (ff_with_tail 0 (ff_with_head 0 s)).
Definition ffifo_getinfo (config : ffifo_config_t) (s : ffifo_state_t) : ffifo_info_t * ffifo_state_t :=
  let ready := if ff_tail s =? frame_count config then frame_count config
               else if ff_tail s <=? ff_head s then u16 (ff_head s - ff_tail s)
               else u16 (frame_count config - ff_tail s + ff_head s) in
  (mk_ffifo_info (ff_o_flags s) (frame_count config) (frame_size config) ready, ff_clear FIFO_FLAG_IS_OVERFLOW s).

(** ** Transfers *)

Section Transfers.
Context {ev : McuEvents}.

Definition ffifo_data_received (config : ffifo_config_t) (s : ffifo_state_t) : option ffifo_state_t :=
  let p := xfer_read (ff_transfer_handler s) in
  if p =? 0 then Some s
  else
    a ← xfer_asyncs (ff_transfer_handler s) !! p;
    '(bytes_read, out, s) ← ffifo_read_buffer config (async_nbyte a) s;
    let s := ff_with_xfer (on_async p (fun a => set_buf (c_store out (async_buf a)) a) (ff_transfer_handler s)) s in
    Some (if 0 <? bytes_read
          then ff_with_xfer (devfs_execute_read_handler bytes_read MCU_EVENT_FLAG_DATA_READY (ff_transfer_handler s)) s
          else s).
Definition ffifo_cancel_async_read (s : ffifo_state_t) : ffifo_state_t :=
  ff_with_xfer (devfs_execute_read_handler (SYSFS_SET_RETURN 215 EIO) MCU_EVENT_FLAG_CANCELED (ff_transfer_handler s)) s.
Definition ffifo_cancel_async_write (s : ffifo_state_t) : ffifo_state_t :=
  ff_with_xfer (devfs_execute_write_handler (SYSFS_SET_RETURN 220 EIO) MCU_EVENT_FLAG_CANCELED (ff_transfer_handler s)) s.
Definition ffifo_data_transmitted (config : ffifo_config_t) (s : ffifo_state_t) : option ffifo_state_t :=
  let p := xfer_write (ff_transfer_handler s) in
  if p =? 0 then Some s
  else
    a ← xfer_asyncs (ff_transfer_handler s) !! p;
    '(bytes_written, s) ← ffifo_write_buffer config (async_buf a) (async_nbyte a) s;
    Some (if 0 <? bytes_written
          then ff_with_xfer (devfs_execute_write_handler bytes_written MCU_EVENT_FLAG_WRITE_COMPLETE (ff_transfer_handler s)) s
          else s).

Inductive ffifo_request :=
| FF_SETACTION (has_callback : bool) (o_events : Z)
| I_FFIFO_GETINFO
| I_FFIFO_INIT
| I_FFIFO_FLUSH
| I_FFIFO_SETATTR (o_flags : Z)
| I_FFIFO_OTHER.

(** The result, the info block GETINFO fills, the state. *)
Definition ffifo_ioctl_local (config : ffifo_config_t) (request : ffifo_request) (s : ffifo_state_t) :
    option (Z * option ffifo_info_t * ffifo_state_t) :=
  match request with
  | FF_SETACTION has_callback o_events =>
      if negb has_callback then
        let s := if Bits.any o_events MCU_EVENT_FLAG_WRITE_COMPLETE then ffifo_cancel_async_write s else s in
        let s := if Bits.any o_events MCU_EVENT_FLAG_DATA_READY then ffifo_cancel_async_read s else s in
        Some (0, None, s)
      else Some (SYSFS_SET_RETURN 304 ENOTSUP, None, s)
  | I_FFIFO_GETINFO => let '(info, s) := ffifo_getinfo config s in Some (0, Some info, s)
  | I_FFIFO_INIT =>
      let s := ff_with_xfer (set_write 0 (set_read 0 (ff_transfer_handler s))) s in
      s ← ffifo_data_transmitted config (ffifo_flush s); Some (0, None, s)
  | I_FFIFO_FLUSH => s ← ffifo_data_transmitted config (ffifo_flush s); Some (0, None, s)
  | I_FFIFO_SETATTR o_flags =>
      let s := if Bits.any o_flags FIFO_FLAG_SET_WRITEBLOCK then ffifo_set_writeblock true s
               else if Bits.any o_flags FIFO_FLAG_IS_OVERFLOW then ffifo_set_writeblock false s else s in
      s ← (if ffifo_is_writeblock s then ffifo_data_transmitted config s else Some s); Some (0, None, s)
  | I_FFIFO_OTHER => Some (SYSFS_SET_RETURN 328 EINVAL, None, s)
  end.

(** On the transfer object at pointer [p]. *)
Definition ffifo_read_local (config : ffifo_config_t) (p : Z) (allow_callback : bool) (s : ffifo_state_t) :
    option (Z * ffifo_state_t) :=
  a ← xfer_asyncs (ff_transfer_handler s) !! p;
  if negb (xfer_read (ff_transfer_handler s) =? 0) then Some (SYSFS_SET_RETURN 338 EBUSY, s)
  else if async_nbyte a =? 0 then Some (0, s)
  else
    let s := ff_with_xfer (set_read p (ff_transfer_handler s)) s in
    '(bytes_read, s) ←
      (if negb (Z.rem (async_nbyte a) (frame_size config) =? 0) then Some (SYSFS_SET_RETURN 342 EINVAL, s)
       else
         '(bytes_read, out, s) ← ffifo_read_buffer config (async_nbyte a) s;
         let s := ff_with_xfer (on_async p (fun a => set_buf (c_store out (async_buf a)) a) (ff_transfer_handler s)) s in
         if bytes_read =? 0 then
           Some (if Bits.any (async_flags a) O_NONBLOCK || (ff_tail s =? frame_count config)
                 then SYSFS_SET_RETURN 352 EAGAIN else bytes_read, s)
         else if (0 <? bytes_read) && allow_callback then s ← ffifo_data_transmitted config s; Some (bytes_read, s)
         else Some (bytes_read, s));
    Some (bytes_read, if negb (bytes_read =? 0) then ff_with_xfer (set_read 0 (ff_transfer_handler s)) s else s).

Definition ffifo_write_local (config : ffifo_config_t) (p : Z) (allow_callback : bool) (s : ffifo_state_t) :
    option (Z * ffifo_state_t) :=
  a ← xfer_asyncs (ff_transfer_handler s) !! p;
  if negb (xfer_write (ff_transfer_handler s) =? 0) then Some (SYSFS_SET_RETURN 374 EBUSY, s)
  else if async_nbyte a =? 0 then Some (0, s)
  else
    let s := ff_with_xfer (set_write p (ff_transfer_handler s)) s in
    '(bytes_written, s) ←
      (if negb (Z.rem (async_nbyte a) (frame_size config) =? 0) then Some (SYSFS_SET_RETURN 378 EINVAL, s)
       else
         '(bytes_written, s) ← ffifo_write_buffer config (async_buf a) (async_nbyte a) s;
         if bytes_written =? 0 then
           Some (if Bits.any (async_flags a) O_NONBLOCK then SYSFS_SET_RETURN 385 EAGAIN else bytes_written, s)
         else if (0 <? bytes_written) && allow_callback then s ← ffifo_data_received config s; Some (bytes_written, s)
         else Some (bytes_written, s));
    Some (bytes_written, if negb (bytes_written =? 0) then ff_with_xfer (set_write 0 (ff_transfer_handler s)) s else s).
End Transfers.

(** ** Frames of a buffer *)

Definition frames (config : ffifo_config_t) (buf : list Z) : list (list Z) :=
  (fun f => ffifo_get_frame (frame_size config) f buf) <$> seqZ 0 (frame_count config).
Definition config_ok (config : ffifo_config_t) : Prop :=
  0 < frame_count config < 2 ^ 16 /\ 0 < frame_size config < 2 ^ 16.
(** The FIFO holds the queue [q] of frames. *)
Definition ffifo_rep_at (config : ffifo_config_t) (st : Z) (s : ffifo_state_t) (q : list (list Z)) : Prop :=
  config_ok config /\ Zlen (ff_buffer s) = frame_count config * frame_size config /\
  ring_rep (frame_count config) st (ff_head s) (ff_tail s) (frames config (ff_buffer s)) q.
Definition ffifo_rep (config : ffifo_config_t) (s : ffifo_state_t) (q : list (list Z)) : Prop :=
  exists st, ffifo_rep_at config st s q.
Definition are_frames (config : ffifo_config_t) (xs : list (list Z)) : Prop :=
  Forall (fun x => Zlen x = frame_size config) xs.

Section Frames.
Context (config : ffifo_config_t) (Hok : config_ok config).
Local Abbreviation count := (frame_count config).
Local Abbreviation size := (frame_size config).
Implicit Types (buf : list Z) (f g : Z).

Lemma get_frame_take f buf : 0 <= f < count -> Zlen buf = count * size ->
  ffifo_get_frame size f buf = take (Z.to_nat size) (drop (Z.to_nat (f * size)) buf).
Proof using Hok.
  destruct Hok as [? ?]. intros Hf Hl. unfold ffifo_get_frame. apply c_bytes_take.
  unfold Zlen in *. rewrite length_drop. nia.
Qed.
Lemma Zget_frames f buf : 0 <= f < count -> Zget (frames config buf) f = ffifo_get_frame size f buf.
Proof.
  intros Hf. unfold frames, Zget. rewrite list_lookup_total_alt, list_lookup_fmap, lookup_seqZ_lt by lia. cbn. f_equal. lia.
Qed.
Lemma Zlen_frames buf : Zlen (frames config buf) = count.
Proof using Hok. destruct Hok as [? ?]. unfold frames, Zlen. rewrite length_fmap, length_seqZ. lia. Qed.

(** Replacing frame [f] of the buffer replaces it in the list of frames. *)
Lemma Zlen_put_frame f x buf : 0 <= f < count -> Zlen buf = count * size -> Zlen x = size ->
  Zlen (ffifo_put_frame size f x buf) = count * size.
Proof using Hok.
  destruct Hok as [? ?]. intros Hf Hl Hx. unfold ffifo_put_frame, c_store, Zlen in *.
  rewrite !length_app, length_take, !length_drop. nia.
Qed.
Lemma get_put_frame f g x buf : 0 <= f < count -> 0 <= g < count -> Zlen buf = count * size -> Zlen x = size ->
  ffifo_get_frame size g (ffifo_put_frame size f x buf) = if decide (g = f) then x else ffifo_get_frame size g buf.
Proof using Hok.
  intros Hf Hg Hl Hx. rewrite get_frame_take by (done || by apply Zlen_put_frame).
  destruct Hok as [? ?]. set (F := Z.to_nat (f * size)). set (G := Z.to_nat (g * size)).
  assert (Hx' : length x = Z.to_nat size) by (unfold Zlen in Hx; lia).
  assert (HF : length (take F buf) = F) by (unfold Zlen in Hl; rewrite length_take; nia).
  unfold ffifo_put_frame, c_store. fold F. destruct (decide (g = f)) as [->|Hne].
  - fold F in G. subst G. rewrite drop_app_length' by done. by rewrite take_app_length' by done.
  - rewrite get_frame_take by done. fold G. apply list_eq. intros k.
    destruct (decide (k < Z.to_nat size)%nat) as [Hk|Hk]; [|by rewrite !lookup_take_ge by lia].
    rewrite !lookup_take_lt, !lookup_drop by lia. destruct (decide (g < f)) as [Hlt|Hge].
    + assert (G + Z.to_nat size <= F)%nat by (subst F G; nia).
      rewrite lookup_app_l by lia. by rewrite lookup_take_lt by lia.
    + assert (F + Z.to_nat size <= G)%nat by (subst F G; nia).
      rewrite !lookup_app_r by lia. rewrite !lookup_drop. f_equal. lia.
Qed.
Lemma frames_put f x buf : 0 <= f < count -> Zlen buf = count * size -> Zlen x = size ->
  frames config (ffifo_put_frame size f x buf) = Zset (frames config buf) f x.
Proof using Hok.
  intros Hf Hl Hx. apply Zget_ext; rewrite ?Zlen_Zset, !Zlen_frames; [done|]. intros g Hg.
  rewrite Zget_frames, get_put_frame by done. rewrite Zget_Zset by (rewrite ?Zlen_frames; lia).
  destruct (decide (g = f)) as [->|]; [by rewrite decide_True|]. rewrite decide_False by auto. by rewrite Zget_frames.
Qed.

(** Storing a frame at the head. *)
Definition ff_put (x : list Z) (s : ffifo_state_t) : ffifo_state_t :=
  ffifo_inc_head count (ff_with_buffer (ffifo_put_frame size (ff_head s) x (ff_buffer s)) s).
Lemma ff_put_eq st s q x : ffifo_rep_at config st s q ->
  ff_put x s = mk_ffifo (next_head count (ff_head s)) (next_tail count (ff_head s) (ff_tail s)) (ff_o_flags s)
                 (ffifo_put_frame size (ff_head s) x (ff_buffer s)) (ff_transfer_handler s).
Proof using Hok.
  destruct Hok as [Hc Hsz]. intros (_ & _ & H). pose proof (ring_rep_head _ _ _ _ _ _ H).
  unfold ff_put, ffifo_inc_head, next_tail, next_head. cbn [ff_head ff_tail ff_with_head ff_with_tail ff_with_buffer ff_o_flags].
  rewrite u16_id, wrap_mod by lia.
  destruct (Z.eqb_spec (ff_head s + 1) count), (Z.ltb_spec (ff_head s + 1) count); try lia; simpl.
  - replace (ff_head s + 1 - count) with 0 by lia. by destruct (0 =? ff_tail s).
  - by destruct (ff_head s + 1 =? ff_tail s).
Qed.
Lemma ff_put_rep st s q x : ffifo_rep_at config st s q -> Zlen x = size ->
  if decide (Zlen q = count) then ffifo_rep_at config ((st + 1) mod count) (ff_put x s) (drop 1 q ++ [x])
  else ffifo_rep_at config st (ff_put x s) (q ++ [x]).
Proof using Hok.
  intros H Hx. rewrite (ff_put_eq st s q x H). destruct H as (_ & Hl & H). pose proof (ring_rep_head _ _ _ _ _ _ H) as Hh.
  case_decide; (split; [done|split; [by apply Zlen_put_frame|]]); cbn [ff_head ff_tail ff_buffer]; rewrite frames_put by done.
  - by apply ring_rep_replace.
  - by apply ring_rep_append.
Qed.
Lemma ffifo_rep_fields st s s' q : ff_head s' = ff_head s -> ff_tail s' = ff_tail s -> ff_buffer s' = ff_buffer s ->
  ffifo_rep_at config st s q -> ffifo_rep_at config st s' q.
Proof. unfold ffifo_rep_at. now intros -> -> ->. Qed.
End Frames.

(** ** The loops implement the queue of frames *)

(** What a write makes of the queue and how many frames it takes. *)
Definition frames_kept (writeblock : bool) (count : Z) (xs q : list (list Z)) : list (list Z) :=
  if writeblock then queue_keep_old count xs q else queue_keep_new count xs q.
Definition frames_taken (writeblock : bool) (count : Z) (xs q : list (list Z)) : Z :=
  if writeblock then Z.min (Zlen xs) (count - Zlen q) else Zlen xs.
(** What it makes of the flags. *)
Record write_flags (over : bool) (s s' : ffifo_state_t) : Prop := {
  wf_overflow : ffifo_is_overflow s' = ffifo_is_overflow s || over;
  wf_writeblock : ffifo_is_writeblock s' = ffifo_is_writeblock s;
  wf_busy : ff_any FIFO_FLAG_IS_READ_BUSY s' = ff_any FIFO_FLAG_IS_READ_BUSY s;
  wf_clobber : ff_any FIFO_FLAG_IS_WRITE_WHILE_READ_BUSY s'
    = ff_any FIFO_FLAG_IS_WRITE_WHILE_READ_BUSY s || over && ff_any FIFO_FLAG_IS_READ_BUSY s;
  wf_xfer : ff_transfer_handler s' = ff_transfer_handler s;
}.
Lemma write_flags_trans a b s1 s2 s3 : write_flags a s1 s2 -> write_flags b s2 s3 -> write_flags (a || b) s1 s3.
Proof.
  intros [A1 A2 A3 A4 A5] [B1 B2 B3 B4 B5]. split; rewrite ?B1, ?B2, ?B3, ?B4, ?B5, ?A1, ?A2, ?A3, ?A4, ?A5; try done; btauto.
Qed.

Section Write.
Context (config : ffifo_config_t) (Hok : config_ok config).
Local Abbreviation count := (frame_count config).
Local Abbreviation size := (frame_size config).

Definition ff_write_turn (x : list Z) (s : ffifo_state_t) : ffifo_state_t :=
  ff_clear FIFO_FLAG_IS_WRITE_BUSY (ff_put config x (ff_set FIFO_FLAG_IS_WRITE_BUSY s)).

Lemma write_ok_spec st s q wb : ffifo_rep_at config st s q ->
  exists s1, ffifo_is_write_ok count wb s = (negb (wb && (Zlen q =? count)), s1) /\
    ff_head s1 = ff_head s /\ ff_tail s1 = ff_tail s /\ ff_buffer s1 = ff_buffer s /\
    write_flags (negb wb && (Zlen q =? count)) s s1.
Proof.
  intros (_ & _ & H). unfold ffifo_is_write_ok. rewrite (ring_rep_full _ _ _ _ _ _ H).
  destruct (Zlen q =? count); [destruct wb|]; cbn [andb negb];
    try (exists s; split_and!; try done; rewrite ?andb_false_r; split; btauto || done).
  eexists. split; [done|]. unfold ffifo_set_overflow, ff_set, ff_any.
  destruct (Bits.any (ff_o_flags s) FIFO_FLAG_IS_READ_BUSY) eqn:E; split_and!; try done;
    split; unfold ffifo_is_overflow, ffifo_is_writeblock, ff_any; simpl; bits; rewrite ?E; done || btauto.
Qed.
Lemma write_turn_rep st s q x : ffifo_rep_at config st s q -> Zlen x = size ->
  ffifo_rep config (ff_write_turn x s) (if decide (Zlen q = count) then drop 1 q ++ [x] else q ++ [x]) /\
  write_flags false s (ff_write_turn x s).
Proof using Hok.
  intros H Hx. set (s0 := ff_set FIFO_FLAG_IS_WRITE_BUSY s). assert (H0 : ffifo_rep_at config st s0 q) by exact H.
  pose proof (ff_put_rep config Hok st s0 q x H0 Hx) as R. pose proof (ff_put_eq config Hok st s0 q x H0) as E.
  unfold ff_write_turn. fold s0. split.
  - case_decide; eexists; exact R.
  - rewrite E. split; unfold ffifo_is_overflow, ffifo_is_writeblock, ff_any; simpl; bits; done || btauto.
Qed.
Lemma get_first_frame x rest : Zlen x = size -> ffifo_get_frame size 0 (x ++ rest) = x.
Proof using Hok.
  intros Hx. destruct Hok as [? ?]. unfold ffifo_get_frame. rewrite Z.mul_0_l, drop_0.
  rewrite c_bytes_take by (rewrite Zlen_app; pose proof (Zlen_nonneg rest); lia). apply take_app_length'. unfold Zlen in Hx. lia.
Qed.

Lemma write_flags_refl s : write_flags false s s.
Proof. split; rewrite ?orb_false_r; done. Qed.
(** The queue after the first of the frames. *)
Lemma queue_after wb x xs (q : list (list Z)) : 0 < count -> Zlen q <= count -> wb && (Zlen q =? count) = false ->
  let q2 := if decide (Zlen q = count) then drop 1 q ++ [x] else q ++ [x] in
  frames_taken wb count (x :: xs) q = 1 + frames_taken wb count xs q2 /\
  frames_kept wb count (x :: xs) q = frames_kept wb count xs q2 /\
  negb wb && (count <? Zlen q + (Zlen xs + 1))
    = negb wb && (Zlen q =? count) || (false || negb wb && (count <? Zlen q2 + Zlen xs)).
Proof.
  intros Hc Hq Hw q2. unfold frames_taken, frames_kept, q2. pose proof (Zlen_nonneg xs). rewrite Zlen_cons.
  destruct (decide (Zlen q = count)) as [E|E].
  - rewrite E, Z.eqb_refl in Hw. destruct wb; [done|]. rewrite keep_new_full by lia. split_and!; [lia|done|].
    rewrite E, Z.eqb_refl. cbn [negb andb orb]. apply Z.ltb_lt. lia.
  - rewrite keep_old_room, keep_new_room, Zlen_app, Zlen_cons, Zlen_nil by lia. destruct (Z.eqb_spec (Zlen q) count); [done|].
    split_and!; [destruct wb; lia|done|]. destruct wb; [done|]. cbn [negb andb orb]. f_equal. lia.
Qed.

Lemma write_loop_spec wb buf len rest : forall xs fuel i s q,
  ffifo_rep config s q -> are_frames config xs -> drop (Z.to_nat i) buf = concat xs ++ rest -> 0 <= i ->
  len = i + size * Zlen xs -> (length xs < fuel)%nat ->
  exists s', ffifo_write_loop config wb fuel buf len i s = Some (i + size * frames_taken wb count xs q, s') /\
    ffifo_rep config s' (frames_kept wb count xs q) /\ write_flags (negb wb && (count <? Zlen q + Zlen xs)) s s'.
Proof using Hok.
  induction xs as [|x xs IH]; intros fuel i s q [st H] Hxs Hbuf Hi Hlen Hfuel; (destruct fuel as [|fuel]; [simpl in Hfuel; lia|]);
    cbn [ffifo_write_loop]; pose proof H as (_ & _ & Hcnt & _ & Hq & _); rewrite ?Zlen_nil, ?Zlen_cons in *; pose proof (Zlen_nonneg q).
  - rewrite (proj2 (Z.ltb_ge i len)) by lia. exists s. unfold frames_taken, frames_kept.
    rewrite keep_old_nil, keep_new_nil, Zlen_nil, (proj2 (Z.ltb_ge count _)) by lia. split_and!.
    + do 2 f_equal. rewrite Z.min_l by lia. destruct wb; lia.
    + exists st. by destruct wb.
    + rewrite andb_false_r. apply write_flags_refl.
  - pose proof (Zlen_nonneg xs). assert (Hs := proj2 Hok). rewrite (proj2 (Z.ltb_lt i len)) by nia.
    destruct (write_ok_spec st s q wb H) as (s1 & -> & E1 & E2 & E3 & F1).
    apply Forall_cons in Hxs as [Hx Hxs]. cbn [concat] in Hbuf. rewrite <- app_assoc in Hbuf.
    destruct (wb && (Zlen q =? count)) eqn:Ew; cbn [negb].
    + apply andb_true_iff in Ew as [-> Eq%Z.eqb_eq]. exists s1. unfold frames_taken, frames_kept. rewrite keep_old_full by done.
      split_and!; [do 2 f_equal; rewrite Zlen_cons, Z.min_r by lia; lia|exists st; by apply (ffifo_rep_fields config st s)|exact F1].
    + assert (R1 : ffifo_rep_at config st s1 q) by (by apply (ffifo_rep_fields config st s)).
      rewrite Hbuf, get_first_frame by done. fold (ff_put config x (ff_set FIFO_FLAG_IS_WRITE_BUSY s1)). fold (ff_write_turn x s1).
      destruct (write_turn_rep st s1 q x R1 Hx) as [R2 F2]. set (q2 := if decide _ then _ else _) in *.
      destruct (IH fuel (i + size) (ff_write_turn x s1) q2 R2 Hxs) as (s' & E' & R' & F');
        [rewrite Z2Nat.inj_add, <- drop_drop, Hbuf by lia; apply drop_app_length'; unfold Zlen in Hx; lia|lia|lia|simpl in Hfuel; lia|].
      destruct (queue_after wb x xs q ltac:(lia) ltac:(lia) Ew) as (K1 & K2 & K3). fold q2 in K1, K2, K3.
      exists s'. rewrite E', K1, K2. split_and!; [do 2 f_equal; lia|exact R'|].
      rewrite K3. apply (write_flags_trans _ _ _ _ _ F1). exact (write_flags_trans _ _ _ _ _ F2 F').
Qed.
End Write.

Section Read.
Context (config : ffifo_config_t) (Hok : config_ok config).
Local Abbreviation count := (frame_count config).
Local Abbreviation size := (frame_size config).

(** Between operations no overtaken read is marked. *)
Definition ffifo_idle (s : ffifo_state_t) : Prop := ff_any FIFO_FLAG_IS_WRITE_WHILE_READ_BUSY s = false.
Definition read_frame (s s' : ffifo_state_t) : Prop :=
  ffifo_idle s' /\ ffifo_is_overflow s' = ffifo_is_overflow s /\ ffifo_is_writeblock s' = ffifo_is_writeblock s /\
  ff_transfer_handler s' = ff_transfer_handler s.

Lemma read_turn_spec st s q i : ffifo_rep_at config st s q -> ffifo_idle s ->
  exists s', ffifo_read_turn config (ff_no_isr i) s = (head q, false, s') /\ ffifo_rep config s' (tail q) /\ read_frame s s'.
Proof using Hok.
  intros H Hi. pose proof H as (_ & Hl & R). unfold ffifo_read_turn, ff_no_isr.
  set (s0 := ff_set FIFO_FLAG_IS_READ_BUSY s).
  change (ff_head s0) with (ff_head s). change (ff_tail s0) with (ff_tail s). change (ff_buffer s0) with (ff_buffer s).
  assert (F0 : forall t, ffifo_idle (ff_clear READ_FLAGS t)) by (intros t; unfold ffifo_idle, ff_any, READ_FLAGS; simpl; by bits).
  rewrite (ring_rep_empty _ _ _ _ _ _ R). destruct q as [|x q].
  - cbn [negb Zlen length]. change (Zlen (@nil (list Z)) =? 0) with true. cbn [negb head tail]. eexists. split; [done|].
    split; [exists st; exact H|]. split; [apply F0|]. unfold ffifo_is_overflow, ffifo_is_writeblock, ff_any, READ_FLAGS. simpl. bits. done.
  - rewrite Zlen_cons, (proj2 (Z.eqb_neq _ 0)) by (pose proof (Zlen_nonneg q); lia). cbn [negb].
    rewrite (ring_rep_read_slot _ _ _ _ _ _ R), (ring_rep_advance _ _ _ _ _ _ R) by done.
    destruct (ring_rep_pop _ _ _ _ _ _ _ R) as [Ex R']. rewrite Zget_frames in Ex by apply R. rewrite Ex.
    assert (Hc : ff_any FIFO_FLAG_IS_WRITE_WHILE_READ_BUSY (ff_with_tail ((st + 1) mod count) s0) = false).
    { unfold ffifo_idle, ff_any in *. simpl. by bits. }
    rewrite Hc. eexists. split; [done|]. cbn [tail]. split; [exists ((st + 1) mod count); split; [done|split; [done|exact R']]|].
    split; [apply F0|]. unfold ffifo_is_overflow, ffifo_is_writeblock, ff_any, READ_FLAGS. simpl. bits. done.
Qed.
Lemma read_frame_trans s1 s2 s3 : read_frame s1 s2 -> read_frame s2 s3 -> read_frame s1 s3.
Proof. unfold read_frame. intros (? & ? & ? & ?) (? & ? & ? & ?). split_and!; congruence. Qed.

Lemma read_loop_spec len : forall n fuel i out s q, ffifo_rep config s q -> ffifo_idle s -> 
  len = i + size * Z.of_nat n -> (n < fuel)%nat ->
  exists s', ffifo_read_loop config ff_no_isr fuel len i out s
      = Some (i + size * Z.min (Z.of_nat n) (Zlen q), out ++ concat (take n q), s') /\
    ffifo_rep config s' (drop n q) /\ read_frame s s'.
Proof using Hok.
  destruct Hok as [Hc Hs]. induction n as [|n IH]; intros fuel i out s q [st H] Hi Hlen Hfuel; (destruct fuel as [|fuel]; [lia|]); cbn [ffifo_read_loop];
    pose proof (Zlen_nonneg q).
  - rewrite (proj2 (Z.ltb_ge i len)), Z.min_l, take_0, drop_0, app_nil_r by lia. exists s.
    split; [do 3 f_equal; lia|]. split; [by exists st|]. by repeat split.
  - rewrite (proj2 (Z.ltb_lt i len)) by nia. destruct (read_turn_spec st s q i H Hi) as (s1 & -> & R1 & F1). destruct q as [|x q].
    + cbn [head tail] in *. exists s1. rewrite (@Zlen_nil (list Z)), Z.min_r by lia. split; [rewrite app_nil_r; do 3 f_equal; lia|]. by split.
    + cbn [head tail take drop concat] in *. destruct (IH fuel (i + size) (out ++ x) s1 q R1 (proj1 F1)) as (s' & E & R' & F'); [lia|lia|].
      exists s'. rewrite E. split; [|split; [exact R'|by eapply read_frame_trans]]. rewrite Zlen_cons, <- app_assoc. do 3 f_equal. lia.
Qed.
End Read.

(** ** Properties *)

Lemma write_buffer_spec config s q xs : ffifo_rep config s q -> are_frames config xs ->
  exists s', ffifo_write_buffer config (concat xs) (frame_size config * Zlen xs) s
      = Some (frame_size config * frames_taken (ffifo_is_writeblock s) (frame_count config) xs q, s') /\
    ffifo_rep config s' (frames_kept (ffifo_is_writeblock s) (frame_count config) xs q) /\
    write_flags (negb (ffifo_is_writeblock s) && (frame_count config <? Zlen q + Zlen xs)) s s'.
Proof.
  intros H Hxs. pose proof H as (st & Hok & _). unfold ffifo_write_buffer.
  destruct (write_loop_spec config Hok (ffifo_is_writeblock s) (concat xs) (frame_size config * Zlen xs) [] xs
              (S (Z.to_nat (frame_size config * Zlen xs))) 0 s q) as (s' & E & R & F); try done.
  - by rewrite app_nil_r.
  - destruct Hok as [_ ?]. unfold Zlen. nia.
  - exists s'. by rewrite E.
Qed.
Lemma read_buffer_spec config s q n : ffifo_rep config s q -> ffifo_idle s ->
  exists s', ffifo_read_buffer config (frame_size config * Z.of_nat n) s
      = Some (frame_size config * Z.min (Z.of_nat n) (Zlen q), concat (take n q), s') /\
    ffifo_rep config s' (drop n q) /\ read_frame s s'.
Proof.
  intros H Hi. pose proof H as (st & Hok & _). unfold ffifo_read_buffer, ffifo_read_buffer_isr.
  destruct (read_loop_spec config Hok (frame_size config * Z.of_nat n) n (S (Z.to_nat (frame_size config * Z.of_nat n))) 0 [] s q H Hi)
    as (s' & E & R & F); [lia|destruct Hok as [_ ?]; nia|]. exists s'. by rewrite E.
Qed.

(** Writing frames to the FIFO: in write-block mode the frames that fit are appended,
    otherwise all are taken and the oldest make room for them; the call returns the
    number of bytes taken; the overflow flag is raised exactly when frames were lost,
    and a read that was in progress then is marked as overtaken. *)
Theorem ffifo_write_refines config s q xs : ffifo_rep config s q -> are_frames config xs ->
  exists s', ffifo_write_buffer config (concat xs) (frame_size config * Zlen xs) s
      = Some (frame_size config * frames_taken (ffifo_is_writeblock s) (frame_count config) xs q, s') /\
    ffifo_rep config s' (frames_kept (ffifo_is_writeblock s) (frame_count config) xs q) /\
    write_flags (negb (ffifo_is_writeblock s) && (frame_count config <? Zlen q + Zlen xs)) s s'.
Proof. apply write_buffer_spec. Qed.

(** C5: Reading [n] frames: the oldest frames come out in order and are removed; the call
    returns their number of bytes. *)
Theorem ffifo_read_refines config s q n : ffifo_rep config s q -> ffifo_idle s ->
  exists s', ffifo_read_buffer config (frame_size config * Z.of_nat n) s
      = Some (frame_size config * Z.min (Z.of_nat n) (Zlen q), concat (take n q), s') /\
    ffifo_rep config s' (drop n q) /\ read_frame s s'.
Proof. apply read_buffer_spec. Qed.

(** The information block counts the frames exactly. *)
Theorem ffifo_getinfo_exact config s q : ffifo_rep config s q ->
  ffinfo_frame_count_ready (ffifo_getinfo config s).1 = Zlen q.
Proof.
  intros (st & Hok & _ & R). pose proof (ring_rep_full _ _ _ _ _ _ R) as Ef. pose proof (Zlen_nonneg q).
  destruct R as (Hc & _ & Hq & Hst & Hh & Ht & _). unfold ffifo_getinfo. cbn [fst ffinfo_frame_count_ready]. rewrite Ef.
  destruct (Z.eqb_spec (Zlen q) (frame_count config)) as [|Hne]; [done|]. rewrite Ht, Hh, wrap_mod by lia.
  destruct (Z.ltb_spec (st + Zlen q) (frame_count config)).
  - rewrite (proj2 (Z.leb_le st (st + Zlen q))) by lia. rewrite u16_id; lia.
  - rewrite (proj2 (Z.leb_gt st _)) by lia. rewrite u16_id; lia.
Qed.

(** An interrupt that overwrites a frame of a full FIFO while the FIFO is being read:
    the reader, which means to mark the FIFO full, stores the frame size instead of
    the number of frames as the tail.  Unless the two are equal the FIFO is not full
    afterwards, and when frames are larger than the FIFO is long the tail points
    outside the buffer. *)
Theorem ffifo_overtaken_read config s q x fr : ffifo_rep config s q -> ffifo_idle s -> ffifo_is_writeblock s = false ->
  Zlen q = frame_count config -> Zlen x = frame_size config -> q = fr :: tail q ->
  let isr i w t := match w with
                   | 1%nat => match ffifo_write_buffer config x (frame_size config) t with Some (_, t) => t | None => t end
                   | _ => t end in
  exists s', ffifo_read_buffer_isr isr config (frame_size config) s = Some (0, fr, s') /\
    ff_tail s' = frame_size config /\
    (frame_size config <> frame_count config -> forall q', ffifo_rep config s' q' -> Zlen q' < frame_count config) /\
    (frame_count config < frame_size config -> forall q', ~ ffifo_rep config s' q').
Proof.
  intros [st H] Hi Hwb Hfull Hx Hq isr. pose proof H as (Hok & _ & R). unfold ffifo_read_buffer_isr. cbn [ffifo_read_loop].
  rewrite (proj2 (Z.ltb_lt 0 _)) by apply Hok. unfold ffifo_read_turn. set (s0 := ff_set FIFO_FLAG_IS_READ_BUSY s).
  assert (H0 : ffifo_rep_at config st s0 q) by exact H. pose proof H0 as (_ & _ & R0). cbn [isr].
  rewrite (ring_rep_empty _ _ _ _ _ _ R0), (proj2 (Z.eqb_neq _ 0)) by (destruct R; lia). cbn [negb].
  assert (Hne : q <> []) by (rewrite Hq; done). rewrite (ring_rep_read_slot _ _ _ _ _ _ R0), (ring_rep_advance _ _ _ _ _ _ R0) by done.
  rewrite Hq in R0. destruct (ring_rep_pop _ _ _ _ _ _ _ R0) as [Ex _]. rewrite Zget_frames in Ex by apply R. rewrite Ex.
  destruct (write_buffer_spec config s0 q [x]) as (t & E & _ & F); [by exists st|by repeat constructor|].
  cbn [concat] in E. rewrite app_nil_r, Zlen_cons, (@Zlen_nil (list Z)), Z.mul_1_r in E. rewrite E.
  assert (Hwb0 : ffifo_is_writeblock s0 = false) by (unfold ffifo_is_writeblock, ff_any, s0 in *; simpl; by bits).
  assert (Hc : ff_any FIFO_FLAG_IS_WRITE_WHILE_READ_BUSY (ff_with_tail ((st + 1) mod frame_count config) t) = true).
  { change (ff_any FIFO_FLAG_IS_WRITE_WHILE_READ_BUSY t = true). rewrite (wf_clobber _ _ _ F), Hwb0.
    rewrite Zlen_cons, (@Zlen_nil (list Z)), (proj2 (Z.ltb_lt _ _)) by lia.
    assert (ff_any FIFO_FLAG_IS_READ_BUSY s0 = true) as -> by (unfold ff_any, s0; simpl; by bits). apply orb_true_r. }
  rewrite Hc. eexists. split; [done|]. split; [done|].
  assert (T : forall s' q', ff_tail s' = frame_size config -> ffifo_rep config s' q' ->
    Zlen q' <= frame_count config /\ frame_size config <= frame_count config /\ (Zlen q' = frame_count config -> frame_size config = frame_count config)).
  { intros s' q' Et (st' & _ & _ & R'). destruct R' as (_ & _ & ? & ? & _ & Et' & _). rewrite Et in Et'.
    destruct (Z.eqb_spec (Zlen q') (frame_count config)); lia. }
  split; [intros Hd q' Hr|intros Hd q' Hr]; apply T in Hr; try done; lia.
Qed.

(** ** Transfers in both directions *)

Lemma kept_in_empty wb count (xs : list (list Z)) : Zlen xs <= count ->
  frames_taken wb count xs [] = Zlen xs /\ frames_kept wb count xs [] = xs.
Proof.
  intros H. unfold frames_taken, frames_kept, queue_keep_old, queue_keep_new. rewrite (@Zlen_nil (list Z)). cbn [app].
  rewrite take_ge by (unfold Zlen in H; lia). replace (Z.to_nat (0 + Zlen xs - count)) with O by lia. rewrite drop_0.
  destruct wb; split; done || lia.
Qed.

(** A thread waits for frames on an empty FIFO; another writes.  The write takes all
    its frames, the waiting read is completed with as many of the oldest as it
    asked for, its handler runs once, and the rest stays in the FIFO. *)
Theorem ffifo_write_serves_reader (ev : McuEvents) config s pr ar c n pw aw xs :
  ffifo_rep config s [] -> ffifo_idle s ->
  xfer_read (ff_transfer_handler s) = pr -> pr <> 0 -> xfer_asyncs (ff_transfer_handler s) !! pr = Some ar ->
  async_handler ar = Some c -> (0 < n)%nat -> async_nbyte ar = frame_size config * Z.of_nat n ->
  xfer_write (ff_transfer_handler s) = 0 -> xfer_asyncs (ff_transfer_handler s) !! pw = Some aw ->
  are_frames config xs -> xs <> [] -> Zlen xs <= frame_count config ->
  async_buf aw = concat xs -> async_nbyte aw = frame_size config * Zlen xs ->
  exists s', ffifo_write_local config pw true s = Some (frame_size config * Zlen xs, s') /\
    ffifo_rep config s' (drop n xs) /\
    xfer_asyncs (ff_transfer_handler s') !! pr
      = Some (set_result (frame_size config * Z.min (Z.of_nat n) (Zlen xs)) (set_buf (c_store (concat (take n xs)) (async_buf ar)) ar)) /\
    xfer_read (ff_transfer_handler s') = 0 /\ xfer_write (ff_transfer_handler s') = 0 /\
    xfer_fired (ff_transfer_handler s') = xfer_fired (ff_transfer_handler s) ++ [(c, MCU_EVENT_FLAG_DATA_READY)].
Proof.
  intros H Hi Hpr Hpr0 Har Hc Hn Hnr Hpw Haw Hxs Hne Hcnt Hbuf Hnw. pose proof H as (st & [Hok1 Hok2] & _).
  assert (Hl : 0 < Zlen xs) by (destruct xs; [done|]; rewrite Zlen_cons; pose proof (Zlen_nonneg xs); lia).
  unfold ffifo_write_local. rewrite Haw. cbn [mbind option_bind]. rewrite Hpw, Z.eqb_refl. cbn [negb].
  rewrite Hbuf, Hnw, (proj2 (Z.eqb_neq _ 0)) by nia. rewrite Z.mul_comm, Z.rem_mul, Z.eqb_refl, Z.mul_comm by lia. cbn [negb].
  set (s0 := ff_with_xfer (set_write pw (ff_transfer_handler s)) s). assert (H0 : ffifo_rep config s0 []) by exact H.
  destruct (write_buffer_spec config s0 [] xs H0 Hxs) as (s1 & E1 & R1 & F1).
  destruct (kept_in_empty (ffifo_is_writeblock s0) (frame_count config) xs Hcnt) as [Et Ek]. rewrite Et in E1. rewrite Ek in R1.
  rewrite E1. cbn [mbind option_bind]. rewrite (proj2 (Z.eqb_neq _ 0)), (proj2 (Z.ltb_lt 0 _)) by nia. cbn [andb].
  assert (Hi1 : ffifo_idle s1).
  { unfold ffifo_idle. rewrite (wf_clobber _ _ _ F1), (@Zlen_nil (list Z)), (proj2 (Z.ltb_ge _ _)), andb_false_r by lia.
    cbn [andb]. rewrite orb_false_r. exact Hi. }
  assert (X1 : ff_transfer_handler s1 = set_write pw (ff_transfer_handler s)) by apply F1.
  unfold ffifo_data_received. rewrite X1. cbn [xfer_read set_write xfer_asyncs]. rewrite Hpr, (proj2 (Z.eqb_neq pr 0)), Har by done.
  cbn [mbind option_bind]. rewrite Hnr. destruct (read_buffer_spec config s1 xs n R1 Hi1) as (s2 & E2 & R2 & (_ & _ & _ & X2)).
  rewrite E2. cbn [mbind option_bind]. rewrite (proj2 (Z.ltb_lt 0 _)), (proj2 (Z.eqb_neq (frame_size config * Zlen xs) 0)) by nia. cbn [mbind option_bind negb].
  set (x := on_async pr _ (ff_transfer_handler s2)).
  destruct (read_handler_completes (frame_size config * Z.min (Z.of_nat n) (Zlen xs)) MCU_EVENT_FLAG_DATA_READY x pr
              (set_buf (c_store (concat (take n xs)) (async_buf ar)) ar) c) as (G1 & G2 & G3 & G4);
    [unfold x; rewrite X2, X1; exact Hpr|done|unfold x; rewrite X2, X1; cbn [on_async xfer_asyncs set_write]; rewrite lookup_alter_eq, Har; done|done|].
  eexists. split; [reflexivity|]. split; [exact R2|]. cbn [ff_transfer_handler ff_with_xfer set_write xfer_asyncs xfer_read xfer_write xfer_fired].
  split; [rewrite G3; unfold completion_result; rewrite (proj2 (Z.eqb_neq _ 0)) by nia; done|]. split; [exact G1|]. split; [done|].
  rewrite G4. unfold x. rewrite X2, X1. done.
Qed.

(** ** Values to run with *)

(** A FIFO of two frames of three bytes. *)
Definition ffifo2 : ffifo_config_t := {| frame_count := 2; frame_size := 3 |}.
Definition ffifo2_empty : ffifo_state_t := mk_ffifo 0 0 0 [0; 0; 0; 0; 0; 0] (mk_transfer 0 0 ∅ []).
Definition ffifo2_full : ffifo_state_t := mk_ffifo 0 2 0 [1; 2; 3; 4; 5; 6] (mk_transfer 0 0 ∅ []).
Lemma ffifo2_empty_rep : ffifo_rep ffifo2 ffifo2_empty [].
Proof. exists 0. unfold ffifo_rep_at, config_ok, ring_rep. vm_compute. intuition congruence. Qed.
Lemma ffifo2_full_rep : ffifo_rep ffifo2 ffifo2_full [[1; 2; 3]; [4; 5; 6]].
Proof. exists 0. unfold ffifo_rep_at, config_ok, ring_rep. vm_compute. intuition congruence. Qed.

Lemma ffifo_write_refines_witness : exists s', ffifo_write_buffer ffifo2 [7; 8; 9] 3 ffifo2_full = Some (3, s') /\
  ffifo_rep ffifo2 s' [[4; 5; 6]; [7; 8; 9]] /\ ffifo_is_overflow s' = true.
Proof.
  destruct (ffifo_write_refines ffifo2 ffifo2_full _ [[7; 8; 9]] ffifo2_full_rep) as (s' & E & R & F);
    [by repeat constructor|]. exists s'. split; [exact E|]. split; [exact R|]. exact (wf_overflow _ _ _ F).
Defined.
Lemma ffifo_read_refines_witness : exists s', ffifo_read_buffer ffifo2 3 ffifo2_full = Some (3, [1; 2; 3], s') /\
  ffifo_rep ffifo2 s' [[4; 5; 6]].
Proof.
  destruct (ffifo_read_refines ffifo2 ffifo2_full _ 1 ffifo2_full_rep eq_refl) as (s' & E & R & _).
  exists s'. split; [exact E|exact R].
Defined.
Lemma ffifo_getinfo_exact_witness : ffinfo_frame_count_ready (ffifo_getinfo ffifo2 ffifo2_full).1 = 2.
Proof. exact (ffifo_getinfo_exact ffifo2 ffifo2_full _ ffifo2_full_rep). Defined.
Lemma ffifo_overtaken_read_witness : exists s', ff_tail s' = 3 /\ forall q', ~ ffifo_rep ffifo2 s' q'.
Proof.
  destruct (ffifo_overtaken_read ffifo2 ffifo2_full _ [7; 8; 9] [1; 2; 3] ffifo2_full_rep eq_refl eq_refl eq_refl eq_refl eq_refl)
    as (s' & _ & E & _ & H). exists s'. split; [exact E|]. apply H. reflexivity.
Defined.

(** A read of one frame waits at pointer 16; a write of two frames at 32. *)
Definition ffifo2_waiting : ffifo_state_t :=
  ff_with_xfer (mk_transfer 16 0
    {[ 16 := mk_async 1 0 0 [0; 0; 0] 3 0 (Some 100);
       32 := mk_async 2 0 0 [1; 2; 3; 4; 5; 6] 6 0 (Some 200) ]} []) ffifo2_empty.
Lemma ffifo_write_serves_reader_witness : exists s',
  @ffifo_write_local example_events ffifo2 32 true ffifo2_waiting = Some (6, s') /\ ffifo_rep ffifo2 s' [[4; 5; 6]] /\
  xfer_read (ff_transfer_handler s') = 0.
Proof.
  destruct (ffifo_write_serves_reader example_events ffifo2 ffifo2_waiting 16 (mk_async 1 0 0 [0; 0; 0] 3 0 (Some 100)) 100 1
              32 (mk_async 2 0 0 [1; 2; 3; 4; 5; 6] 6 0 (Some 200)) [[1; 2; 3]; [4; 5; 6]]) as (s' & E & R & _ & Z1 & _);
    try reflexivity; try discriminate; [exact ffifo2_empty_rep|lia|by repeat constructor|].
  exists s'. split; [exact E|]. split; [exact R|exact Z1].
Defined.
