(* ===== verification/Task.v ===== *)
(** * The task table and the context switcher

    [src/cortexm/task.c] and [include/cortexm/task_table.h].  The state is the
    table [sos_task_table] with the variables [m_task_current],
    [m_task_current_priority], [m_task_exec_count] and [m_task_rr_reload], the
    SysTick count the switcher reads, the pending bit of PendSV and the
    pending bit of SVCall.  The stack pointers, MPU regions and floating point
    registers the switcher moves are not part of the state. *)
From S2P Require Import Prelude.

Definition CONFIG_TASK_TOTAL : Z := 16.
Definition SYSTICK_MIN_CYCLES : Z := 10000.

Definition TASK_FLAGS_USED : Z := Z.shiftl 1 0.
Definition TASK_FLAGS_EXEC : Z := Z.shiftl 1 1.
Definition TASK_FLAGS_ACTIVE : Z := Z.shiftl 1 2.
Definition TASK_FLAGS_THREAD : Z := Z.shiftl 1 3.
Definition TASK_FLAGS_FIFO : Z := Z.shiftl 1 4.
Definition TASK_FLAGS_STOPPED : Z := Z.shiftl 1 5.
Definition TASK_FLAGS_ROOT : Z := Z.shiftl 1 6.
Definition TASK_FLAGS_YIELD : Z := Z.shiftl 1 7.

Record task_t := mk_task {
  task_pid : Z;
  task_priority : Z;        (** s8 *)
  task_flags : Z;           (** u8 *)
  task_parent : Z;          (** u16 *)
  task_timer : Z;           (** u64 *)
  task_reent : Z;           (** pointer *)
  task_global_reent : Z;    (** pointer *)
  task_rr_time : Z;         (** int *)
}.
#[export] Instance task_t_inhabited : Inhabited task_t := populate (mk_task 0 0 0 0 0 0 0 0).

Record tstate := mk_tstate {
  sos_task_table : list task_t;
  m_task_current : Z;
  m_task_current_priority : Z;   (** s8 *)
  m_task_exec_count : Z;         (** u8 *)
  m_task_rr_reload : Z;
  systick_val : Z;               (** SysTick->VAL *)
  pendsv : bool;                 (** SCB->ICSR bit 28 *)
  svcall_pended : bool;          (** SCB->SHCSR bit 15 *)
}.

(** ** Field updates *)

Definition with_flags (f : Z) (t : task_t) : task_t :=
  mk_task (task_pid t) (task_priority t) f (task_parent t) (task_timer t) (task_reent t)
    (task_global_reent t) (task_rr_time t).
Definition with_priority (p : Z) (t : task_t) : task_t :=
  mk_task (task_pid t) p (task_flags t) (task_parent t) (task_timer t) (task_reent t)
    (task_global_reent t) (task_rr_time t).
Definition with_timing (timer rr : Z) (t : task_t) : task_t :=
  mk_task (task_pid t) (task_priority t) (task_flags t) (task_parent t) timer (task_reent t)
    (task_global_reent t) rr.
Definition with_rr (rr : Z) (t : task_t) : task_t := with_timing (task_timer t) rr t.

Definition with_table (l : list task_t) (k : tstate) : tstate :=
  mk_tstate l (m_task_current k) (m_task_current_priority k) (m_task_exec_count k)
    (m_task_rr_reload k) (systick_val k) (pendsv k) (svcall_pended k).
Definition with_current (c : Z) (k : tstate) : tstate :=
  mk_tstate (sos_task_table k) c (m_task_current_priority k) (m_task_exec_count k)
    (m_task_rr_reload k) (systick_val k) (pendsv k) (svcall_pended k).
Definition with_current_priority (p : Z) (k : tstate) : tstate :=
  mk_tstate (sos_task_table k) (m_task_current k) p (m_task_exec_count k)
    (m_task_rr_reload k) (systick_val k) (pendsv k) (svcall_pended k).
Definition with_exec_count (n : Z) (k : tstate) : tstate :=
  mk_tstate (sos_task_table k) (m_task_current k) (m_task_current_priority k) n
    (m_task_rr_reload k) (systick_val k) (pendsv k) (svcall_pended k).
Definition with_pendsv (b : bool) (k : tstate) : tstate :=
  mk_tstate (sos_task_table k) (m_task_current k) (m_task_current_priority k)
    (m_task_exec_count k) (m_task_rr_reload k) (systick_val k) b (svcall_pended k).
Definition with_svcall_pended (b : bool) (k : tstate) : tstate :=
  mk_tstate (sos_task_table k) (m_task_current k) (m_task_current_priority k)
    (m_task_exec_count k) (m_task_rr_reload k) (systick_val k) (pendsv k) b.

(** [sos_task_table[id]] and an update of it. *)
Definition task (k : tstate) (id : Z) : task_t := Zget (sos_task_table k) id.
Definition on_task (id : Z) (f : task_t -> task_t) (k : tstate) : tstate :=
  with_table (Zset (sos_task_table k) id (f (task k id))) k.

(** ** Table accessors *)

Definition task_get_total : Z := CONFIG_TASK_TOTAL.
Definition task_get_current (k : tstate) : Z := m_task_current k.
Definition task_get_pid (k : tstate) (id : Z) : Z := task_pid (task k id).
Definition task_get_parent (k : tstate) (id : Z) : Z := task_parent (task k id).
Definition task_get_priority (k : tstate) (id : Z) : Z := task_priority (task k id).
Definition task_set_priority (id priority : Z) : tstate -> tstate :=
  on_task id (with_priority (s8 priority)).
Definition task_get_current_priority (k : tstate) : Z := m_task_current_priority k.
Definition task_root_set_current_priority (value : Z) : tstate -> tstate :=
  with_current_priority (s8 value).

Definition task_assert_flag (id flag : Z) : tstate -> tstate :=
  on_task id (fun t => with_flags (Bits.set (task_flags t) flag) t).
Definition task_deassert_flag (id flag : Z) : tstate -> tstate :=
  on_task id (fun t => with_flags (Bits.clear (task_flags t) flag) t).
Definition task_flag_asserted (k : tstate) (id flag : Z) : bool :=
  Z.land (task_flags (task k id)) flag =? flag.

Definition task_used_asserted k id := task_flag_asserted k id TASK_FLAGS_USED.
Definition task_enabled k id := task_flag_asserted k id TASK_FLAGS_USED.
Definition task_exec_asserted k id := task_flag_asserted k id TASK_FLAGS_EXEC.
Definition task_active_asserted k id := task_flag_asserted k id TASK_FLAGS_ACTIVE.
Definition task_thread_asserted k id := task_flag_asserted k id TASK_FLAGS_THREAD.
Definition task_fifo_asserted k id := task_flag_asserted k id TASK_FLAGS_FIFO.
Definition task_stopped_asserted k id := task_flag_asserted k id TASK_FLAGS_STOPPED.
Definition task_yield_asserted k id := task_flag_asserted k id TASK_FLAGS_YIELD.
Definition task_deassert_used id := task_deassert_flag id TASK_FLAGS_USED.
Definition task_assert_exec id := task_assert_flag id TASK_FLAGS_EXEC.
Definition task_deassert_exec id := task_deassert_flag id TASK_FLAGS_EXEC.
Definition task_assert_active id := task_assert_flag id TASK_FLAGS_ACTIVE.
Definition task_deassert_active id := task_deassert_flag id TASK_FLAGS_ACTIVE.
Definition task_assert_fifo id := task_assert_flag id TASK_FLAGS_FIFO.
Definition task_deassert_fifo id := task_deassert_flag id TASK_FLAGS_FIFO.
Definition task_assert_stopped id := task_assert_flag id TASK_FLAGS_STOPPED.
Definition task_deassert_stopped id := task_deassert_flag id TASK_FLAGS_STOPPED.
Definition task_assert_yield id := task_assert_flag id TASK_FLAGS_YIELD.
Definition task_deassert_yield id := task_deassert_flag id TASK_FLAGS_YIELD.

Definition task_enabled_active_not_stopped (k : tstate) (id : Z) : bool :=
  Z.land (task_flags (task k id))
    (Z.lor (Z.lor TASK_FLAGS_USED TASK_FLAGS_ACTIVE) TASK_FLAGS_STOPPED)
  =? Z.lor TASK_FLAGS_ACTIVE TASK_FLAGS_USED.
Definition task_enabled_not_active (k : tstate) (id : Z) : bool :=
  Z.land (task_flags (task k id)) (Z.lor TASK_FLAGS_USED TASK_FLAGS_ACTIVE)
  =? TASK_FLAGS_USED.

Definition task_root_elevate_current_priority (value : Z) (k : tstate) : tstate :=
  let value := s8 value in
  if m_task_current_priority k <? value then with_current_priority value k else k.

(** ** Creating and deleting tasks *)

Record new_task_t := mk_new_task {
  new_pid : Z; new_flags : Z; new_parent : Z; new_reent : Z; new_global_reent : Z }.

Fixpoint task_find (p : Z -> bool) (fuel : nat) (i : Z) : Z :=
  match fuel with
  | O => i
  | S fuel => if p i then i else task_find p fuel (i + 1)
  end.

(** [task_svcall_new_task]: the new thread id, 0 when the table is full. *)
Definition task_svcall_new_task (new : new_task_t) (k : tstate) : Z * tstate :=
  let i := task_find (fun i => negb (task_used_asserted k i))
             (Z.to_nat (task_get_total - 1)) 1 in
  if i =? task_get_total then (0, k)
  else
    (i, on_task i (fun t =>
          mk_task (new_pid new) (task_priority t)
            (Bits.clear (new_flags new) TASK_FLAGS_ROOT) (u16 (new_parent new)) 0
            (new_reent new) (new_global_reent new) (m_task_rr_reload k)) k).

Definition task_get_thread_zero (k : tstate) (pid : Z) : Z :=
  let i := task_find (fun i => task_used_asserted k i && ((pid =? task_get_pid k i)
                                 && negb (task_thread_asserted k i)))
             (Z.to_nat task_get_total) 0 in
  if i =? task_get_total then -1 else i.

Definition task_create_thread (mem_addr mem_size pid : Z) (k : tstate) : Z * tstate :=
  let thread_zero := task_get_thread_zero k pid in
  let stackaddr := u32 (mem_addr + mem_size) in
  if (thread_zero <? 0) || negb (Z.land stackaddr 3 =? 0) then (0, k)
  else
    task_svcall_new_task
      (mk_new_task pid (Z.lor TASK_FLAGS_USED TASK_FLAGS_THREAD)
         (task_get_parent k thread_zero) mem_addr (task_global_reent (task k thread_zero))) k.

Definition task_root_delete (id : Z) (k : tstate) : tstate :=
  if (id <? task_get_total) && (1 <=? id) then
    task_deassert_exec id (task_deassert_used id k)
  else k.

(** ** The context switcher *)

(** Restarting the round: the scheduler's own slice and, when every executing
    task has used its slice, the slices of the executing tasks. *)
Definition rr_reload_task0 (k : tstate) : tstate :=
  if task_rr_time (task k 0) <? SYSTICK_MIN_CYCLES then
    on_task 0 (fun t => with_timing (u64 (task_timer t + m_task_rr_reload k))
                          (m_task_rr_reload k) t) k
  else k.
Definition rr_time_left (k : tstate) (i : Z) : bool :=
  task_exec_asserted k i && (SYSTICK_MIN_CYCLES <=? task_rr_time (task k i)).
Definition rr_reload_all (k : tstate) : tstate :=
  let i := task_find (rr_time_left k) (Z.to_nat (task_get_total - 1)) 1 in
  if i =? task_get_total then
    for_range 1 task_get_total (fun i k =>
      if task_exec_asserted k i then
        on_task i (fun t => with_timing
          (u64 (task_timer t + (m_task_rr_reload k - task_rr_time t))) (m_task_rr_reload k) t) k
      else k) k
  else k.

(** The do-while loop that picks the next task; it stops at the latest when
    the index reaches the end of the table, so the distance to it is enough
    fuel. *)
Fixpoint switch_loop (fuel : nat) (k : tstate) : tstate :=
  match fuel with
  | O => k
  | S fuel =>
      let k := with_current (m_task_current k + 1) k in
      if m_task_current k =? task_get_total then
        rr_reload_all (rr_reload_task0 (with_current 0 k))
      else if task_exec_asserted k (m_task_current k)
           && ((SYSTICK_MIN_CYCLES <=? task_rr_time (task k (m_task_current k)))
               || task_fifo_asserted k (m_task_current k)) then k
      else switch_loop fuel k
  end.

Definition switch_contexts (k : tstate) : tstate :=
  let k := if svcall_pended k then
             with_svcall_pended false (task_assert_yield (task_get_current k) k)
           else k in
  let k := switch_loop (Z.to_nat (task_get_total - m_task_current k)) k in
  if task_yield_asserted k (task_get_current k) then
    task_deassert_yield (task_get_current k) (with_svcall_pended true k)
  else k.

Definition task_root_switch_context (k : tstate) : tstate :=
  with_pendsv true (on_task (task_get_current k) (with_rr (systick_val k)) k).

Definition task_check_count_flag (countflag : bool) (k : tstate) : tstate :=
  if countflag then switch_contexts (on_task (m_task_current k) (with_rr 0) k) else k.

(** [cortexm_pendsv_handler]: recomputes which tasks execute, then switches
    unless the current task still executes and did not yield. *)
Definition pendsv_mark (k : tstate) : tstate :=
  for_range 1 task_get_total (fun i k =>
    if task_enabled_active_not_stopped k i
       && (task_get_priority k i =? task_get_current_priority k) then
      let k := task_assert_exec i k in
      with_exec_count (u8 (m_task_exec_count k + 1)) k
    else task_deassert_exec i k) (with_exec_count 0 k).

Definition cortexm_pendsv_handler (k : tstate) : tstate :=
  let k := pendsv_mark (with_pendsv false k) in
  if (task_get_current k =? 0)
     || negb (task_exec_asserted k (task_get_current k))
     || task_yield_asserted k (task_get_current k) then
    switch_contexts (task_deassert_yield (task_get_current k) k)
  else k.

(** [set_systick_interval]: the SysTick reload for a round robin interval in
    milliseconds.  [core_clock_frequency] is the board's configuration. *)
Definition set_systick_interval (core_clock_frequency interval : Z) (k : tstate) : tstate :=
  let reload := u32 (core_clock_frequency * interval + 500) / 1000 in
  let reload := if 16777215 <? reload then 16777215
                else if reload <? SYSTICK_MIN_CYCLES then SYSTICK_MIN_CYCLES else reload in
  mk_tstate (sos_task_table k) (m_task_current k) (m_task_current_priority k)
    (m_task_exec_count k) reload (systick_val k) (pendsv k) (svcall_pended k).

(** ** Frame lemmas *)

Definition task_id (id : Z) : Prop := 0 <= id < CONFIG_TASK_TOTAL.
Definition task_wf (k : tstate) : Prop :=
  Zlen (sos_task_table k) = CONFIG_TASK_TOTAL /\ task_id (m_task_current k).

Lemma task_on_task_eq id f k :
  Zlen (sos_task_table k) = CONFIG_TASK_TOTAL -> task_id id ->
  task (on_task id f k) id = f (task k id).
Proof. intros Hl Hi. unfold task, on_task; simpl. apply Zget_Zset_eq. now rewrite Hl. Qed.
Lemma task_on_task_ne id j f k : 0 <= j -> id <> j -> task (on_task id f k) j = task k j.
Proof. intros. unfold task, on_task; simpl. now apply Zget_Zset_ne. Qed.
Lemma Zlen_on_task id f k : Zlen (sos_task_table (on_task id f k)) = Zlen (sos_task_table k).
Proof. apply Zlen_Zset. Qed.

(** An update of one entry that leaves a field alone leaves it alone in every
    entry. *)
Lemma on_task_field {A} (field : task_t -> A) id f k j :
  (forall t, field (f t) = field t) -> 0 <= j ->
  field (task (on_task id f k) j) = field (task k j).
Proof.
  intros Hf Hj. destruct (decide (id = j)) as [->|Hne].
  - unfold task, on_task; simpl. unfold Zget, Zset. destruct (Z.ltb_spec j 0); [lia|].
    destruct (decide (Z.to_nat j < length (sos_task_table k))%nat).
    + rewrite list_lookup_total_insert_eq by done. apply Hf.
    + now rewrite list_insert_ge by lia.
  - now rewrite task_on_task_ne.
Qed.

Lemma flag_set_disjoint k id j m g : Z.land m g = 0 -> 0 <= j ->
  task_flag_asserted (task_assert_flag id m k) j g = task_flag_asserted k j g.
Proof.
  intros Hd Hj. unfold task_flag_asserted, task_assert_flag. f_equal.
  apply (on_task_field (fun t => Z.land (task_flags t) g)); [|done].
  intros t; simpl. now apply land_set_disjoint.
Qed.
Lemma flag_clear_disjoint k id j m g : Z.land m g = 0 -> 0 <= j ->
  task_flag_asserted (task_deassert_flag id m k) j g = task_flag_asserted k j g.
Proof.
  intros Hd Hj. unfold task_flag_asserted, task_deassert_flag. f_equal.
  apply (on_task_field (fun t => Z.land (task_flags t) g)); [|done].
  intros t; simpl. now apply land_clear_disjoint.
Qed.
Lemma flag_set_same k id g :
  Zlen (sos_task_table k) = CONFIG_TASK_TOTAL -> task_id id ->
  task_flag_asserted (task_assert_flag id g k) id g = true.
Proof.
  intros. unfold task_flag_asserted, task_assert_flag. rewrite task_on_task_eq by done.
  simpl. rewrite land_set_same. apply Z.eqb_refl.
Qed.
Lemma flag_clear_same k id g : g <> 0 ->
  Zlen (sos_task_table k) = CONFIG_TASK_TOTAL -> task_id id ->
  task_flag_asserted (task_deassert_flag id g k) id g = false.
Proof.
  intros. unfold task_flag_asserted, task_deassert_flag. rewrite task_on_task_eq by done.
  simpl. rewrite land_clear_same. apply Z.eqb_neq. lia.
Qed.
Lemma flag_set_ne k id j m g : 0 <= j -> id <> j ->
  task_flag_asserted (task_assert_flag id m k) j g = task_flag_asserted k j g.
Proof. intros. unfold task_flag_asserted, task_assert_flag. now rewrite task_on_task_ne. Qed.
Lemma flag_clear_ne k id j m g : 0 <= j -> id <> j ->
  task_flag_asserted (task_deassert_flag id m k) j g = task_flag_asserted k j g.
Proof. intros. unfold task_flag_asserted, task_deassert_flag. now rewrite task_on_task_ne. Qed.

Lemma enabled_active_not_stopped_flags k i :
  task_enabled_active_not_stopped k i =
    task_used_asserted k i && task_active_asserted k i && negb (task_stopped_asserted k i).
Proof.
  unfold task_enabled_active_not_stopped, task_used_asserted, task_active_asserted,
    task_stopped_asserted, task_flag_asserted, TASK_FLAGS_USED, TASK_FLAGS_ACTIVE,
    TASK_FLAGS_STOPPED.
  rewrite !Z.land_lor_distr_r, !land_bit by lia.
  destruct (Z.testbit _ 0), (Z.testbit _ 2), (Z.testbit _ 5); reflexivity.
Qed.
Lemma enabled_not_active_flags k i :
  task_enabled_not_active k i = task_used_asserted k i && negb (task_active_asserted k i).
Proof.
  unfold task_enabled_not_active, task_used_asserted, task_active_asserted,
    task_flag_asserted, TASK_FLAGS_USED, TASK_FLAGS_ACTIVE.
  rewrite !Z.land_lor_distr_r, !land_bit by lia.
  destruct (Z.testbit _ 0), (Z.testbit _ 2); reflexivity.
Qed.

(** ** Searching the table *)

Lemma task_find_spec p : forall fuel i,
  let r := task_find p fuel i in
  i <= r <= i + Z.of_nat fuel /\ (forall j, i <= j < r -> p j = false) /\
  (r < i + Z.of_nat fuel -> p r = true).
Proof.
  induction fuel as [|fuel IH]; intros i; cbn [task_find].
  - split_and!; intros; lia.
  - destruct (p i) eqn:E.
    + split_and!; intros; try lia; done.
    + destruct (IH (i + 1)) as (Hr & Hlow & Hhit). split_and!; try lia.
      * intros j Hj. destruct (decide (j = i)) as [->|]; [done|apply Hlow; lia].
      * intros. apply Hhit. lia.
Qed.

Lemma task_find_miss p fuel i :
  (forall j, i <= j < i + Z.of_nat fuel -> p j = false) ->
  task_find p fuel i = i + Z.of_nat fuel.
Proof.
  intros H. destruct (task_find_spec p fuel i) as (Hr & _ & Hhit).
  destruct (decide (task_find p fuel i = i + Z.of_nat fuel)) as [|Hne]; [done|].
  rewrite H in Hhit by lia. exfalso. discriminate Hhit. lia.
Qed.

(** ** Properties *)

(** A new task takes the lowest free slot above the scheduler's and no
    other entry changes; it starts with the flags asked for except that it is
    never root; when every slot is in use the call returns 0 and changes
    nothing. *)
Theorem task_new_task_lowest_free new k :
  Zlen (sos_task_table k) = CONFIG_TASK_TOTAL ->
  let '(tid, k') := task_svcall_new_task new k in
  (tid = 0 /\ k' = k /\ forall i, 1 <= i < CONFIG_TASK_TOTAL -> task_used_asserted k i = true) \/
  (1 <= tid < CONFIG_TASK_TOTAL /\ task_used_asserted k tid = false /\
   (forall i, 1 <= i < tid -> task_used_asserted k i = true) /\
   (forall j, 0 <= j -> j <> tid -> task k' j = task k j) /\
   task_get_pid k' tid = new_pid new /\
   task_flags (task k' tid) = Bits.clear (new_flags new) TASK_FLAGS_ROOT /\
   task_flag_asserted k' tid TASK_FLAGS_ROOT = false).
Proof.
  intros Hl. unfold task_svcall_new_task.
  destruct (task_find_spec (fun i => negb (task_used_asserted k i))
              (Z.to_nat (task_get_total - 1)) 1) as (Hr & Hlow & Hhit).
  set (i := task_find _ _ 1) in *.
  change (Z.of_nat (Z.to_nat (task_get_total - 1))) with 15 in *.
  change task_get_total with 16. change CONFIG_TASK_TOTAL with 16 in *.
  destruct (Z.eqb_spec i 16) as [Ei|Ei].
  - left. split_and!; [done|done|]. intros j Hj. specialize (Hlow j ltac:(lia)).
    now apply negb_false_iff in Hlow.
  - right. specialize (Hhit ltac:(lia)). apply negb_true_iff in Hhit.
    assert (Hid : task_id i) by (unfold task_id; change CONFIG_TASK_TOTAL with 16; lia).
    unfold task_get_pid, task_flag_asserted. rewrite task_on_task_eq by done.
    split_and!; try done; try lia.
    + intros j Hj. specialize (Hlow j Hj). now apply negb_false_iff in Hlow.
    + intros j Hj Hne. now apply task_on_task_ne.
    + simpl. now rewrite land_clear_same.
Qed.

(** A table in which only the scheduler and one process exist. *)
Definition boot_tasks : tstate :=
  mk_tstate
    (mk_task 0 0 67 0 0 0 0 20000
     :: mk_task 1 21 5 0 0 4096 4096 20000
     :: replicate 14 (mk_task 0 0 0 0 0 0 0 0))
    1 21 0 20000 0 false false.

Lemma task_new_task_lowest_free_witness :
  let '(tid, k') := task_svcall_new_task (mk_new_task 1 73 0 8192 4096) boot_tasks in
  tid = 2 /\ task_flag_asserted k' tid TASK_FLAGS_ROOT = false.
Proof.
  pose proof (task_new_task_lowest_free (mk_new_task 1 73 0 8192 4096) boot_tasks eq_refl) as H.
  vm_compute in H |- *. destruct H as [(H & _)|(_ & _ & _ & _ & _ & _ & H)]; [discriminate H|].
  split; [reflexivity|exact H].
Defined.

(** The tasks PendSV lets execute. *)
Definition schedulable (k : tstate) (i : Z) : bool :=
  task_enabled_active_not_stopped k i
  && (task_get_priority k i =? task_get_current_priority k).

Definition exec_mark (i : Z) (k : tstate) : tstate :=
  if schedulable k i then
    with_exec_count (u8 (m_task_exec_count (task_assert_exec i k) + 1)) (task_assert_exec i k)
  else task_deassert_exec i k.

Lemma pendsv_mark_eq k :
  pendsv_mark k = for_range 1 task_get_total exec_mark (with_exec_count 0 k).
Proof. reflexivity. Qed.

Lemma schedulable_exec_frame k i j : 0 <= i ->
  schedulable (task_assert_exec j k) i = schedulable k i /\
  schedulable (task_deassert_exec j k) i = schedulable k i.
Proof.
  intros Hi. unfold schedulable, task_enabled_active_not_stopped, task_get_priority,
    task_get_current_priority, task_assert_exec, task_assert_flag, task_deassert_exec,
    task_deassert_flag.
  split; (f_equal; [f_equal|f_equal]).
  - apply (on_task_field (fun t => Z.land (task_flags t) _)); [|done].
    intros t; simpl. now apply land_set_disjoint.
  - apply (on_task_field task_priority); done.
  - apply (on_task_field (fun t => Z.land (task_flags t) _)); [|done].
    intros t; simpl. now apply land_clear_disjoint.
  - apply (on_task_field task_priority); done.
Qed.

Lemma exec_mark_spec i k : Zlen (sos_task_table k) = CONFIG_TASK_TOTAL -> task_id i ->
  Zlen (sos_task_table (exec_mark i k)) = CONFIG_TASK_TOTAL /\
  task_exec_asserted (exec_mark i k) i = schedulable k i /\
  (forall j, 0 <= j -> schedulable (exec_mark i k) j = schedulable k j) /\
  (forall j, 0 <= j -> j <> i -> task (exec_mark i k) j = task k j) /\
  m_task_exec_count (exec_mark i k) =
    (if schedulable k i then u8 (m_task_exec_count k + 1) else m_task_exec_count k) /\
  m_task_current (exec_mark i k) = m_task_current k.
Proof.
  intros Hl Hi. assert (Hi0 : 0 <= i) by apply Hi. unfold exec_mark, task_exec_asserted.
  destruct (schedulable k i) eqn:E; (split_and!; try done).
  - rewrite <- Hl. apply Zlen_on_task.
  - now apply flag_set_same.
  - intros j Hj. exact (proj1 (schedulable_exec_frame k j i Hj)).
  - intros j Hj Hne. now apply task_on_task_ne.
  - rewrite <- Hl. apply Zlen_on_task.
  - now apply flag_clear_same.
  - intros j Hj. exact (proj2 (schedulable_exec_frame k j i Hj)).
  - intros j Hj Hne. now apply task_on_task_ne.
Qed.

(** The number of schedulable tasks below [n]. *)
Definition schedulable_count (k : tstate) (n : Z) : Z :=
  Zlen (filter (fun i => schedulable k i = true) (seqZ 1 (n - 1))).

Lemma schedulable_count_step k n : 1 <= n ->
  schedulable_count k (n + 1) = schedulable_count k n + (if schedulable k n then 1 else 0).
Proof.
  intros. unfold schedulable_count. replace (n + 1 - 1) with ((n - 1) + 1) by lia.
  rewrite seqZ_app by lia. rewrite filter_app, Zlen_app. f_equal.
  replace (1 + (n - 1)) with n by lia.
  change (seqZ n 1) with [n]. rewrite filter_cons.
  destruct (schedulable k n); case_decide; done.
Qed.

Lemma schedulable_count_bound k n : 1 <= n -> 0 <= schedulable_count k n <= n - 1.
Proof.
  intros. unfold schedulable_count, Zlen. split; [lia|].
  pose proof (length_filter (fun i => schedulable k i = true) (seqZ 1 (n - 1))) as H1.
  rewrite length_seqZ in H1. lia.
Qed.

Lemma pendsv_mark_spec k : Zlen (sos_task_table k) = CONFIG_TASK_TOTAL ->
  Zlen (sos_task_table (pendsv_mark k)) = CONFIG_TASK_TOTAL /\
  m_task_current (pendsv_mark k) = m_task_current k /\
  task (pendsv_mark k) 0 = task k 0 /\
  (forall i, 1 <= i < CONFIG_TASK_TOTAL -> task_exec_asserted (pendsv_mark k) i = schedulable k i) /\
  m_task_exec_count (pendsv_mark k) = schedulable_count k CONFIG_TASK_TOTAL.
Proof.
  intros Hl. rewrite pendsv_mark_eq.
  pose (Inv := fun n k' =>
    Zlen (sos_task_table k') = CONFIG_TASK_TOTAL /\ m_task_current k' = m_task_current k /\
    task k' 0 = task k 0 /\
    (forall i, 1 <= i < n -> task_exec_asserted k' i = schedulable k i) /\
    (forall j, 0 <= j -> schedulable k' j = schedulable k j) /\
    m_task_exec_count k' = schedulable_count k n).
  assert (HI : Inv task_get_total (for_range 1 task_get_total exec_mark (with_exec_count 0 k))).
  { apply (for_range_ind Inv); [done| |].
    - unfold Inv. split_and!; try done. intros; lia.
    - intros n k' Hn (L & C & T & X & F & N).
      destruct (exec_mark_spec n k' L) as (L' & X' & F' & T' & N' & C').
      { unfold task_id. change CONFIG_TASK_TOTAL with task_get_total. lia. }
      unfold Inv. split_and!; [done|congruence| | | |].
      + rewrite T' by lia. done.
      + intros i Hi. destruct (decide (i = n)) as [->|Hne]; [rewrite X'; apply F; lia|].
        unfold task_exec_asserted, task_flag_asserted in *. rewrite T' by lia. apply X. lia.
      + intros j Hj. rewrite F' by done. now apply F.
      + rewrite N', schedulable_count_step, (F n) by lia.
        pose proof (schedulable_count_bound k n ltac:(lia)) as Hb. rewrite N.
        destruct (schedulable k n); [|lia]. rewrite u8_id; [done|].
        change task_get_total with 16 in *. lia. }
  destruct HI as (L & C & T & X & _ & N). by split_and!.
Qed.

(** PendSV lets exactly the highest priority ready tasks execute: after
    the handler marked the table, a task has its EXEC flag set if and only if
    it is in use, active, not stopped and its priority equals the current
    priority, and the execution count is the number of such tasks. *)
Theorem pendsv_marks_exactly_schedulable k :
  Zlen (sos_task_table k) = CONFIG_TASK_TOTAL ->
  (forall i, 1 <= i < CONFIG_TASK_TOTAL ->
     task_exec_asserted (pendsv_mark k) i =
       (task_used_asserted k i && task_active_asserted k i && negb (task_stopped_asserted k i)
        && (task_get_priority k i =? task_get_current_priority k))) /\
  m_task_exec_count (pendsv_mark k) = schedulable_count k CONFIG_TASK_TOTAL.
Proof.
  intros Hl. destruct (pendsv_mark_spec k Hl) as (_ & _ & _ & X & N). split; [|done].
  intros i Hi. rewrite X by done. unfold schedulable. f_equal.
  apply enabled_active_not_stopped_flags.
Qed.

Lemma pendsv_marks_exactly_schedulable_witness :
  task_exec_asserted (pendsv_mark boot_tasks) 1 = true /\
  m_task_exec_count (pendsv_mark boot_tasks) = 1.
Proof.
  destruct (pendsv_marks_exactly_schedulable boot_tasks eq_refl) as [H N].
  split; [|exact N]. rewrite (H 1 ltac:(vm_compute; split; congruence)). reflexivity.
Defined.

(** ** Picking the next task *)

(** A task the switcher may give the processor to. *)
Definition runnable (k : tstate) (i : Z) : bool :=
  task_exec_asserted k i
  && ((SYSTICK_MIN_CYCLES <=? task_rr_time (task k i)) || task_fifo_asserted k i).

Lemma switch_loop_spec : forall fuel k,
  0 <= m_task_current k -> m_task_current k + Z.of_nat fuel = task_get_total -> (0 < fuel)%nat ->
  (exists c, m_task_current k < c < task_get_total /\ runnable k c = true /\
     (forall j, m_task_current k < j < c -> runnable k j = false) /\
     switch_loop fuel k = with_current c k) \/
  ((forall j, m_task_current k < j < task_get_total -> runnable k j = false) /\
   switch_loop fuel k = rr_reload_all (rr_reload_task0 (with_current 0 k))).
Proof.
  induction fuel as [|fuel IH]; intros k Hc Hf Hpos; [lia|]. cbn [switch_loop].
  set (k1 := with_current (m_task_current k + 1) k).
  change (m_task_current k1) with (m_task_current k + 1).
  destruct (Z.eqb_spec (m_task_current k + 1) task_get_total) as [E|E].
  - right. split; [intros; lia|done].
  - change (task_exec_asserted k1 (m_task_current k + 1) && _)
      with (runnable k (m_task_current k + 1)).
    destruct (runnable k (m_task_current k + 1)) eqn:R.
    + left. exists (m_task_current k + 1). split_and!; try lia; done.
    + destruct (IH k1) as [(c & H1 & H2 & H3 & H4)|(H1 & H2)]; try (simpl; lia).
      * left. exists c. simpl in H1. split_and!; try lia; try done.
        intros j Hj. destruct (decide (j = m_task_current k + 1)) as [->|]; [done|].
        apply (H3 j). simpl. lia.
      * right. split; [|done]. intros j Hj.
        destruct (decide (j = m_task_current k + 1)) as [->|]; [done|]. apply (H1 j). simpl. lia.
Qed.

Lemma rr_reload_task0_frame k j : 1 <= j -> task (rr_reload_task0 k) j = task k j.
Proof. intros. unfold rr_reload_task0. case_match; [|done]. apply task_on_task_ne; lia. Qed.
Lemma rr_reload_task0_fields k :
  m_task_current (rr_reload_task0 k) = m_task_current k /\
  m_task_rr_reload (rr_reload_task0 k) = m_task_rr_reload k /\
  Zlen (sos_task_table (rr_reload_task0 k)) = Zlen (sos_task_table k).
Proof. unfold rr_reload_task0. case_match; [|done]. split_and!; try done. apply Zlen_on_task. Qed.

Definition rr_refill (i : Z) (k : tstate) : tstate :=
  if task_exec_asserted k i then
    on_task i (fun t => with_timing
      (u64 (task_timer t + (m_task_rr_reload k - task_rr_time t))) (m_task_rr_reload k) t) k
  else k.

(** Refilling gives every executing task a full slice and changes no flag. *)
Lemma rr_refill_all k : Zlen (sos_task_table k) = CONFIG_TASK_TOTAL ->
  let k' := for_range 1 task_get_total rr_refill k in
  Zlen (sos_task_table k') = CONFIG_TASK_TOTAL /\
  m_task_current k' = m_task_current k /\ m_task_rr_reload k' = m_task_rr_reload k /\
  (forall j, 0 <= j -> task_flags (task k' j) = task_flags (task k j)) /\
  (forall j, 1 <= j < task_get_total -> task_exec_asserted k j = true ->
     task_rr_time (task k' j) = m_task_rr_reload k).
Proof.
  intros Hl k'.
  pose (Inv := fun n k' => Zlen (sos_task_table k') = CONFIG_TASK_TOTAL /\
    m_task_current k' = m_task_current k /\ m_task_rr_reload k' = m_task_rr_reload k /\
    (forall j, 0 <= j -> task_flags (task k' j) = task_flags (task k j)) /\
    (forall j, 1 <= j < n -> task_exec_asserted k j = true ->
       task_rr_time (task k' j) = m_task_rr_reload k)).
  apply (for_range_ind Inv); [done|unfold Inv; split_and!; try done; intros; lia|].
  intros n k1 Hn (L & C & R & F & T). unfold Inv, rr_refill.
  assert (Hx : task_exec_asserted k1 n = task_exec_asserted k n)
    by (unfold task_exec_asserted, task_flag_asserted; now rewrite F by lia).
  rewrite Hx. destruct (task_exec_asserted k n) eqn:E.
  - split_and!; try done.
    + now rewrite Zlen_on_task.
    + intros j Hj. rewrite (on_task_field task_flags) by done. now apply F.
    + intros j Hj He. destruct (decide (j = n)) as [->|Hne].
      * rewrite task_on_task_eq by (try done; unfold task_id; change CONFIG_TASK_TOTAL with task_get_total; lia).
        exact R.
      * rewrite task_on_task_ne by lia. apply T; [lia|done].
  - split_and!; try done. intros j Hj He.
    destruct (decide (j = n)) as [->|Hne]; [congruence|]. apply T; [lia|done].
Qed.

(** When the round restarts, an executing task is runnable again. *)
Lemma rr_reload_all_runnable k i : Zlen (sos_task_table k) = CONFIG_TASK_TOTAL ->
  SYSTICK_MIN_CYCLES <= m_task_rr_reload k ->
  1 <= i < task_get_total -> task_exec_asserted k i = true ->
  exists j, 1 <= j < task_get_total /\ runnable (rr_reload_all k) j = true.
Proof.
  intros Hl Hrr Hi He. unfold rr_reload_all. fold rr_refill.
  destruct (task_find_spec (rr_time_left k) (Z.to_nat (task_get_total - 1)) 1) as (Hr & _ & Hhit).
  change (Z.of_nat (Z.to_nat (task_get_total - 1))) with (task_get_total - 1) in *.
  set (r := task_find (rr_time_left k) _ 1) in *. clearbody r.
  destruct (Z.eqb_spec r task_get_total) as [E|E].
  - destruct (rr_refill_all k Hl) as (_ & _ & _ & F & T). exists i. split; [lia|].
    unfold runnable, task_exec_asserted, task_flag_asserted in *. rewrite F, He by lia.
    rewrite T by done. destruct (Z.leb_spec SYSTICK_MIN_CYCLES (m_task_rr_reload k)); [done|lia].
  - exists r. split; [lia|]. specialize (Hhit ltac:(lia)). unfold rr_time_left in Hhit.
    apply andb_prop in Hhit as [H1 H2]. unfold runnable. now rewrite H1, H2.
Qed.

Lemma rr_reload_all_fields k : Zlen (sos_task_table k) = CONFIG_TASK_TOTAL ->
  Zlen (sos_task_table (rr_reload_all k)) = CONFIG_TASK_TOTAL /\
  m_task_current (rr_reload_all k) = m_task_current k /\
  m_task_rr_reload (rr_reload_all k) = m_task_rr_reload k /\
  (forall j, 0 <= j -> task_flags (task (rr_reload_all k) j) = task_flags (task k j)).
Proof.
  intros Hl. unfold rr_reload_all. fold rr_refill. case_match; [|done].
  destruct (rr_refill_all k Hl) as (L & C & R & F & _). by split_and!.
Qed.

Lemma runnable_yield_frame k id j : 0 <= j ->
  runnable (task_assert_yield id k) j = runnable k j /\
  runnable (task_deassert_yield id k) j = runnable k j.
Proof.
  intros Hj. unfold runnable, task_exec_asserted, task_fifo_asserted, task_assert_yield,
    task_deassert_yield.
  rewrite !flag_set_disjoint, !flag_clear_disjoint by done. split; do 2 f_equal.
  - unfold task_assert_flag. now rewrite (on_task_field task_rr_time).
  - unfold task_deassert_flag. now rewrite (on_task_field task_rr_time).
Qed.

(** The yield bookkeeping around the loop. *)
Definition switch_entry (k : tstate) : tstate :=
  if svcall_pended k then with_svcall_pended false (task_assert_yield (task_get_current k) k) else k.
Definition switch_exit (k : tstate) : tstate :=
  if task_yield_asserted k (task_get_current k) then
    task_deassert_yield (task_get_current k) (with_svcall_pended true k)
  else k.

Lemma switch_contexts_eq k : switch_contexts k =
  switch_exit (switch_loop (Z.to_nat (task_get_total - m_task_current k)) (switch_entry k)).
Proof.
  unfold switch_contexts. fold (switch_entry k).
  replace (m_task_current (switch_entry k)) with (m_task_current k); [done|].
  unfold switch_entry. now case_match.
Qed.

Lemma switch_entry_frame k :
  m_task_current (switch_entry k) = m_task_current k /\
  m_task_rr_reload (switch_entry k) = m_task_rr_reload k /\
  Zlen (sos_task_table (switch_entry k)) = Zlen (sos_task_table k) /\
  (forall j, 0 <= j -> runnable (switch_entry k) j = runnable k j) /\
  (forall j, 0 <= j -> task_exec_asserted (switch_entry k) j = task_exec_asserted k j).
Proof.
  unfold switch_entry. case_match; [|done]. split_and!; try done.
  - apply Zlen_on_task.
  - intros j Hj. exact (proj1 (runnable_yield_frame k (task_get_current k) j Hj)).
  - intros j Hj. exact (flag_set_disjoint k _ j TASK_FLAGS_YIELD TASK_FLAGS_EXEC eq_refl Hj).
Qed.
Lemma switch_exit_frame k :
  m_task_current (switch_exit k) = m_task_current k /\
  Zlen (sos_task_table (switch_exit k)) = Zlen (sos_task_table k) /\
  (forall j, 0 <= j -> runnable (switch_exit k) j = runnable k j).
Proof.
  unfold switch_exit. case_match; [|done]. split_and!; try done.
  - apply (Zlen_on_task _ _ (with_svcall_pended true k)).
  - intros j Hj. exact (proj2 (runnable_yield_frame (with_svcall_pended true k) _ j Hj)).
Qed.

(** One context switch: the next runnable task, or the scheduler with the
    slices of the round refilled. *)
Lemma switch_contexts_cases k : task_wf k ->
  let k' := switch_contexts k in
  task_wf k' /\
  ((m_task_current k < m_task_current k' /\ runnable k (m_task_current k') = true /\
    forall j, m_task_current k < j < m_task_current k' -> runnable k j = false) \/
   (m_task_current k' = 0 /\
    (forall j, m_task_current k < j < CONFIG_TASK_TOTAL -> runnable k j = false) /\
    (SYSTICK_MIN_CYCLES <= m_task_rr_reload k -> forall i, 1 <= i < CONFIG_TASK_TOTAL ->
     task_exec_asserted k i = true ->
     exists j, 1 <= j < CONFIG_TASK_TOTAL /\ runnable k' j = true))).
Proof.
  intros [Hl [Hc0 Hc1]]. cbv zeta. rewrite switch_contexts_eq.
  destruct (switch_entry_frame k) as (C0 & R0 & L0 & F0 & X0).
  set (k0 := switch_entry k) in *. set (fuel := Z.to_nat _).
  assert (Hfuel : m_task_current k0 + Z.of_nat fuel = task_get_total)
    by (unfold fuel; change task_get_total with CONFIG_TASK_TOTAL; lia).
  destruct (switch_exit_frame (switch_loop fuel k0)) as (C2 & L2 & F2).
  unfold task_wf, task_id. rewrite C2, L2.
  destruct (switch_loop_spec fuel k0) as [(c & H1 & H2 & H3 & E)|(H1 & E)];
    [lia|done|unfold fuel; change task_get_total with CONFIG_TASK_TOTAL; lia| |];
    rewrite E in *; rewrite C0 in *.
  - simpl. rewrite L0, Hl. split; [split; [done|change CONFIG_TASK_TOTAL with task_get_total; lia]|].
    left. split_and!; [lia|now rewrite <- F0 by lia|]. intros j Hj. rewrite <- F0 by lia. auto.
  - destruct (rr_reload_task0_fields (with_current 0 k0)) as (C1 & R1 & L1). simpl in C1, R1, L1.
    destruct (rr_reload_all_fields (rr_reload_task0 (with_current 0 k0))) as (L3 & C3 & _ & _);
      [congruence|].
    rewrite C3, C1, L3. split; [now split|]. right. split_and!; [done| |].
    + intros j Hj. rewrite <- F0 by lia. now apply H1.
    + intros Hrr i Hi He.
      destruct (rr_reload_all_runnable (rr_reload_task0 (with_current 0 k0)) i) as (j & Hj & Rj);
        [congruence|lia|exact Hi| |].
      { unfold task_exec_asserted, task_flag_asserted in *.
        rewrite rr_reload_task0_frame by lia. now rewrite <- X0 in He by lia. }
      exists j. split; [done|]. rewrite F2 by lia. done.
Qed.

(** The switcher terminates and gives the processor to the next runnable
    task after the current one in table order (executing, and with time left in
    its slice or scheduled FIFO); only when there is none does it run the
    scheduler, task 0.  The table keeps its size and the current task stays a
    valid index. *)
Theorem switch_contexts_next k : task_wf k ->
  let k' := switch_contexts k in
  task_wf k' /\
  ((m_task_current k < m_task_current k' /\ runnable k (m_task_current k') = true /\
    forall j, m_task_current k < j < m_task_current k' -> runnable k j = false) \/
   (m_task_current k' = 0 /\
    forall j, m_task_current k < j < CONFIG_TASK_TOTAL -> runnable k j = false)).
Proof.
  intros H. destruct (switch_contexts_cases k H) as [Hw [Hc|(H1 & H2 & _)]]; eauto.
Qed.

Lemma switch_contexts_next_witness :
  task_wf (switch_contexts (pendsv_mark boot_tasks)) /\
  m_task_current (switch_contexts (pendsv_mark boot_tasks)) = 0.
Proof.
  destruct (switch_contexts_next (pendsv_mark boot_tasks)) as [Hwf H].
  - split; [reflexivity|vm_compute; split; congruence].
  - split; [exact Hwf|]. reflexivity.
Defined.

(** C36: The processor is not left to the scheduler while a task executes:
    with a reload of at least the minimum slice, if some task has its EXEC flag
    set then after at most two context switches a task other than the scheduler
    runs. *)
Theorem switch_contexts_progress k i : task_wf k ->
  SYSTICK_MIN_CYCLES <= m_task_rr_reload k ->
  1 <= i < CONFIG_TASK_TOTAL -> task_exec_asserted k i = true ->
  m_task_current (switch_contexts k) <> 0 \/
  m_task_current (switch_contexts (switch_contexts k)) <> 0.
Proof.
  intros Hwf Hrr Hi He. pose proof Hwf as [_ [Hc _]].
  destruct (switch_contexts_cases k Hwf) as [Hw1 [(Hlt & _)|(E1 & _ & Hrun)]]; [left; lia|].
  right. destruct (Hrun Hrr i Hi He) as (j & Hj & Rj).
  destruct (switch_contexts_cases _ Hw1) as [_ [(Hlt & _)|(_ & Hno & _)]]; [lia|].
  rewrite Hno in Rj by lia. discriminate.
Qed.

Lemma switch_contexts_progress_witness :
  m_task_current (switch_contexts (pendsv_mark boot_tasks)) <> 0 \/
  m_task_current (switch_contexts (switch_contexts (pendsv_mark boot_tasks))) <> 0.
Proof.
  apply (switch_contexts_progress (pendsv_mark boot_tasks) 1).
  - split; [reflexivity|vm_compute; split; congruence].
  - vm_compute. congruence.
  - vm_compute. split; congruence.
  - reflexivity.
Defined.
