(* ===== verification/Scheduler.v ===== *)
(** * The scheduler's table and its root operations

    [src/sys/scheduler/scheduler.c], [scheduler_root.c], [scheduler_root.h] and
    [scheduler_local.h].  The kernel state is the task table, the scheduler
    table, the high part of the clock and the registers of the microsecond
    timer ([sos_config.clock]): its count and its two compare channels. *)
From S2P Require Import Prelude Task.

Definition CONFIG_SCHED_LOWEST_PRIORITY : Z := 0.
Definition CONFIG_SCHED_HIGHEST_PRIORITY : Z := 31.
Definition SOS_SCHEDULER_TIMEVAL_SECONDS : Z := 2048.
Definition SOS_USECOND_PERIOD : Z := 1000000 * SOS_SCHEDULER_TIMEVAL_SECONDS.
Definition SCHEDULER_TIMEVAL_SEC_INVALID : Z := UINT_MAX.

(** [tv_sec] counts periods of 2048 seconds. *)
Record mcu_timeval := mk_timeval { tv_sec : Z; tv_usec : Z }.

(** What a [void *] that names a blocking object can point to. *)
Inductive ptr :=
| NULL
| Pobj (address : Z)          (** a mutex, a condition, a semaphore, a device *)
| Psched (id : Z)             (** [&sos_sched_table[id]] *)
| Pblock (id : Z).            (** [&sos_sched_table[id].block_object] *)
#[export] Instance ptr_eq_dec : EqDecision ptr.
Proof. solve_decision. Defined.
Definition ptr_eqb (p q : ptr) : bool := bool_decide (p = q).

Definition SCHEDULER_TASK_FLAG_UNBLOCK_MASK : Z := 15.
Definition SCHEDULER_TASK_FLAG_INUSE : Z := 5.
Definition SCHEDULER_TASK_FLAG_WAITCHILD : Z := 6.
Definition SCHEDULER_TASK_FLAG_AIOSUSPEND : Z := 8.
Definition SCHEDULER_TASK_FLAG_LISTIOSUSPEND : Z := 10.
Definition SCHEDULER_TASK_FLAG_CANCEL_ASYNCHRONOUS : Z := 11.
Definition SCHEDULER_TASK_FLAG_CANCEL_ENABLE : Z := 12.
Definition SCHEDULER_TASK_FLAG_AUTHENTICATED : Z := 13.
Definition SCHEDULER_TASK_FLAG_CANCEL : Z := 14.

(** [scheduler_unblock_type_t] *)
Definition SCHEDULER_UNBLOCK_NONE : Z := 0.
Definition SCHEDULER_UNBLOCK_MUTEX : Z := 1.
Definition SCHEDULER_UNBLOCK_SEMAPHORE : Z := 2.
Definition SCHEDULER_UNBLOCK_COND : Z := 4.
Definition SCHEDULER_UNBLOCK_SLEEP : Z := 5.
Definition SCHEDULER_UNBLOCK_SIGNAL : Z := 7.
Definition SCHEDULER_UNBLOCK_TRANSFER : Z := 8.
Definition SCHEDULER_UNBLOCK_PTHREAD_JOINED : Z := 10.
Definition SCHEDULER_UNBLOCK_PTHREAD_JOINED_THREAD_COMPLETE : Z := 11.

Record sos_process_timer_t := mk_timer {
  timer_o_flags : Z;
  timer_value : mcu_timeval;
  timer_interval : mcu_timeval;
  timer_notify : Z;
  timer_signo : Z;
  timer_sigval : Z;
}.

Record sched_task_t := mk_sched {
  sched_priority : Z;            (** [attr.schedparam.sched_priority] *)
  sched_policy : Z;              (** policy bits of [attr] *)
  sched_detach_state : Z;        (** detach bits of [attr] *)
  block_object : ptr;
  exit_status : Z;
  wake : mcu_timeval;
  sched_flags : Z;               (** u16 *)
  sched_timer : list sos_process_timer_t;
}.
#[export] Instance sched_inhabited : Inhabited sched_task_t :=
  populate (mk_sched 0 0 0 NULL 0 (mk_timeval 0 0) 0 []).

Record kernel := mk_kernel {
  k_tasks : tstate;
  sos_sched_table : list sched_task_t;
  sched_usecond_counter : Z;     (** u32 *)
  clk_now : Z;                   (** the timer's count *)
  clk_sleep_oc : Z;              (** compare value of [SCHED_USECOND_TMR_SLEEP_OC] *)
  clk_timer_oc : Z;              (** compare value of [SCHED_USECOND_TMR_SYSTEM_TIMER_OC] *)
}.

(** ** Field updates *)

Definition with_block (p : ptr) (t : sched_task_t) : sched_task_t :=
  mk_sched (sched_priority t) (sched_policy t) (sched_detach_state t) p (exit_status t) (wake t)
    (sched_flags t) (sched_timer t).
Definition with_exit_status (x : Z) (t : sched_task_t) : sched_task_t :=
  mk_sched (sched_priority t) (sched_policy t) (sched_detach_state t) (block_object t) x (wake t)
    (sched_flags t) (sched_timer t).
Definition with_wake (w : mcu_timeval) (t : sched_task_t) : sched_task_t :=
  mk_sched (sched_priority t) (sched_policy t) (sched_detach_state t) (block_object t)
    (exit_status t) w (sched_flags t) (sched_timer t).
Definition with_sched_flags (f : Z) (t : sched_task_t) : sched_task_t :=
  mk_sched (sched_priority t) (sched_policy t) (sched_detach_state t) (block_object t)
    (exit_status t) (wake t) f (sched_timer t).
Definition with_param (prio policy : Z) (t : sched_task_t) : sched_task_t :=
  mk_sched prio policy (sched_detach_state t) (block_object t)
    (exit_status t) (wake t) (sched_flags t) (sched_timer t).
Definition with_timers (l : list sos_process_timer_t) (t : sched_task_t) : sched_task_t :=
  mk_sched (sched_priority t) (sched_policy t) (sched_detach_state t) (block_object t)
    (exit_status t) (wake t) (sched_flags t) l.

Definition on_tasks (f : tstate -> tstate) (k : kernel) : kernel :=
  mk_kernel (f (k_tasks k)) (sos_sched_table k) (sched_usecond_counter k) (clk_now k)
    (clk_sleep_oc k) (clk_timer_oc k).
Definition sched (k : kernel) (id : Z) : sched_task_t := Zget (sos_sched_table k) id.
Definition on_sched (id : Z) (f : sched_task_t -> sched_task_t) (k : kernel) : kernel :=
  mk_kernel (k_tasks k) (Zset (sos_sched_table k) id (f (sched k id))) (sched_usecond_counter k)
    (clk_now k) (clk_sleep_oc k) (clk_timer_oc k).
Definition with_counter (c : Z) (k : kernel) : kernel :=
  mk_kernel (k_tasks k) (sos_sched_table k) c (clk_now k) (clk_sleep_oc k) (clk_timer_oc k).
Definition set_sleep_oc (v : Z) (k : kernel) : kernel :=
  mk_kernel (k_tasks k) (sos_sched_table k) (sched_usecond_counter k) (clk_now k) v (clk_timer_oc k).
Definition set_timer_oc (v : Z) (k : kernel) : kernel :=
  mk_kernel (k_tasks k) (sos_sched_table k) (sched_usecond_counter k) (clk_now k) (clk_sleep_oc k) v.

Definition current (k : kernel) : Z := task_get_current (k_tasks k).

(** ** Flags of the scheduler table *)

Definition scheduler_root_assert (id flag : Z) : kernel -> kernel :=
  on_sched id (fun t => with_sched_flags (Bits.set (sched_flags t) (Z.shiftl 1 flag)) t).
Definition scheduler_root_deassert (id flag : Z) : kernel -> kernel :=
  on_sched id (fun t => with_sched_flags (Bits.clear (sched_flags t) (Z.shiftl 1 flag)) t).
Definition scheduler_flag_asserted (k : kernel) (id flag : Z) : bool :=
  Bits.any (sched_flags (sched k id)) (Z.shiftl 1 flag).
Definition scheduler_unblock_type (k : kernel) (id : Z) : Z :=
  Z.land (sched_flags (sched k id)) SCHEDULER_TASK_FLAG_UNBLOCK_MASK.
Definition scheduler_root_set_unblock_type (id unblock_type : Z) (k : kernel) : kernel :=
  let k := on_sched id (fun t => with_sched_flags
             (Bits.clear (sched_flags t) SCHEDULER_TASK_FLAG_UNBLOCK_MASK) t) k in
  on_sched id (fun t => with_sched_flags (Bits.set (sched_flags t) unblock_type) t) k.
Definition scheduler_root_deassert_aiosuspend (id : Z) : kernel -> kernel :=
  scheduler_root_deassert id SCHEDULER_TASK_FLAG_AIOSUSPEND.
Definition scheduler_root_assert_listiosuspend (id : Z) : kernel -> kernel :=
  scheduler_root_assert id SCHEDULER_TASK_FLAG_LISTIOSUSPEND.
Definition scheduler_root_deassert_listiosuspend (id : Z) : kernel -> kernel :=
  scheduler_root_assert id SCHEDULER_TASK_FLAG_LISTIOSUSPEND.
Definition scheduler_inuse_asserted (k : kernel) (id : Z) : bool :=
  scheduler_flag_asserted k id SCHEDULER_TASK_FLAG_INUSE.

(** ** Root operations *)

Definition scheduler_root_assert_active (id unblock_type : Z) (k : kernel) : kernel :=
  let k := on_tasks (task_assert_active id) k in
  let k := scheduler_root_set_unblock_type id unblock_type k in
  let k := scheduler_root_deassert_aiosuspend id k in
  let k := on_sched id (with_block NULL) k in
  on_sched id (with_wake (mk_timeval SCHEDULER_TIMEVAL_SEC_INVALID 0)) k.

Definition scheduler_root_deassert_active (id : Z) (k : kernel) : kernel :=
  on_tasks (fun t => task_deassert_exec id (task_deassert_active id t)) k.

(** The highest priority of the ready tasks. *)
Definition ready_priority (t : tstate) : Z :=
  for_range 1 task_get_total (fun i next_priority =>
    if task_enabled_active_not_stopped t i && (next_priority <? task_get_priority t i)
    then task_get_priority t i else next_priority) CONFIG_SCHED_LOWEST_PRIORITY.

Definition scheduler_root_update_on_stopped (k : kernel) : kernel :=
  let k := on_tasks (fun t => task_root_set_current_priority (ready_priority t) t) k in
  on_tasks task_root_switch_context k.

Definition scheduler_root_update_on_sleep (k : kernel) : kernel :=
  scheduler_root_update_on_stopped (scheduler_root_deassert_active (current k) k).

Definition scheduler_root_update_on_wake (id new_priority : Z) (k : kernel) : kernel :=
  if new_priority <? task_get_current_priority (k_tasks k) then k
  else if (0 <? id) && task_stopped_asserted (k_tasks k) id then k
  else
    let k := on_tasks (task_root_elevate_current_priority new_priority) k in
    on_tasks task_root_switch_context k.

Definition scheduler_check_tid (k : kernel) (id : Z) : Z :=
  if id <? task_get_total then if task_enabled (k_tasks k) id then 0 else -1 else -1.

(** [scheduler_get_highest_priority_blocked]: the do-while loop starts after
    the current task and goes round the table; each turn advances towards the
    current task, so the size of the table is enough fuel. *)
Definition blocked_on (k : kernel) (obj : ptr) (i : Z) : bool :=
  task_enabled (k_tasks k) i
  && (ptr_eqb (block_object (sched k i)) obj && negb (task_active_asserted (k_tasks k) i)).
Definition hpb_turn (k : kernel) (obj : ptr) (i : Z) (acc : Z * Z) : Z * Z :=
  let '(new_thread, priority) := acc in
  if blocked_on k obj i
     && (negb (task_stopped_asserted (k_tasks k) i) && (priority <? sched_priority (sched k i)))
  then (i, sched_priority (sched k i)) else (new_thread, priority).
Fixpoint hpb_loop (k : kernel) (obj : ptr) (current_task : Z) (fuel : nat) (i : Z)
    (acc : Z * Z) : Z * Z :=
  match fuel with
  | O => acc
  | S fuel =>
      let acc := hpb_turn k obj i acc in
      let i := i + 1 in
      let i := if i =? task_get_total then 1 else i in
      if i =? current_task then acc else hpb_loop k obj current_task fuel i acc
  end.
Definition scheduler_get_highest_priority_blocked (k : kernel) (obj : ptr) : Z :=
  let current_task := current k in
  let priority := CONFIG_SCHED_LOWEST_PRIORITY - 1 in
  let current_task := if current_task =? 0 then current_task + 1 else current_task in
  let i := current_task + 1 in
  let i := if i =? task_get_total then 1 else i in
  (hpb_loop k obj current_task (Z.to_nat task_get_total) i (-1, priority)).1.

(** [scheduler_root_unblock_all]: the state and the priority to wake with. *)
Definition unblock_turn (obj : ptr) (unblock_type i : Z) (s : kernel * Z) : kernel * Z :=
  let '(k, priority) := s in
  if blocked_on k obj i then
    let k := scheduler_root_assert_active i unblock_type k in
    if negb (task_stopped_asserted (k_tasks k) i) && (priority <? sched_priority (sched k i))
    then (k, sched_priority (sched k i)) else (k, priority)
  else (k, priority).
Definition scheduler_root_unblock_all (obj : ptr) (unblock_type : Z) (k : kernel) : kernel * Z :=
  for_range 1 task_get_total (unblock_turn obj unblock_type)
    (k, CONFIG_SCHED_LOWEST_PRIORITY - 1).

(** ** Frame lemmas *)

Definition kernel_wf (k : kernel) : Prop :=
  task_wf (k_tasks k) /\ Zlen (sos_sched_table k) = CONFIG_TASK_TOTAL.

Lemma sched_on_sched_eq id f k :
  Zlen (sos_sched_table k) = CONFIG_TASK_TOTAL -> task_id id ->
  sched (on_sched id f k) id = f (sched k id).
Proof. intros Hl Hi. unfold sched, on_sched; simpl. apply Zget_Zset_eq. now rewrite Hl. Qed.
Lemma sched_on_sched_ne id j f k : 0 <= j -> id <> j -> sched (on_sched id f k) j = sched k j.
Proof. intros. unfold sched, on_sched; simpl. now apply Zget_Zset_ne. Qed.
Lemma Zlen_on_sched id f k : Zlen (sos_sched_table (on_sched id f k)) = Zlen (sos_sched_table k).
Proof. apply Zlen_Zset. Qed.
Lemma on_sched_field {A} (field : sched_task_t -> A) id f k j :
  (forall t, field (f t) = field t) -> 0 <= j ->
  field (sched (on_sched id f k) j) = field (sched k j).
Proof.
  intros Hf Hj. destruct (decide (id = j)) as [->|Hne].
  - unfold sched, on_sched; simpl. unfold Zget, Zset. destruct (Z.ltb_spec j 0); [lia|].
    destruct (decide (Z.to_nat j < length (sos_sched_table k))%nat).
    + rewrite list_lookup_total_insert_eq by done. apply Hf.
    + now rewrite list_insert_ge by lia.
  - now rewrite sched_on_sched_ne.
Qed.

(** What the rest of the kernel sees of a thread. *)
Definition active (k : kernel) (i : Z) : bool := task_active_asserted (k_tasks k) i.
Definition enabled (k : kernel) (i : Z) : bool := task_enabled (k_tasks k) i.
Definition stopped (k : kernel) (i : Z) : bool := task_stopped_asserted (k_tasks k) i.
Definition priority (k : kernel) (i : Z) : Z := task_get_priority (k_tasks k) i.
Definition ready (k : kernel) (i : Z) : bool := task_enabled_active_not_stopped (k_tasks k) i.

(** Two kernels with the same threads: only the current priority, the time
    slice of the running task, the execution marks and the pending switch may
    differ. *)
Record same_threads (k k' : kernel) : Prop := {
  st_sched : sos_sched_table k' = sos_sched_table k;
  st_len : Zlen (sos_task_table (k_tasks k')) = Zlen (sos_task_table (k_tasks k));
  st_current : current k' = current k;
  st_flags : forall j, 0 <= j -> task_flags (task (k_tasks k') j) = task_flags (task (k_tasks k) j);
  st_priority : forall j, 0 <= j -> priority k' j = priority k j;
  st_pid : forall j, 0 <= j -> task_get_pid (k_tasks k') j = task_get_pid (k_tasks k) j;
  st_counter : sched_usecond_counter k' = sched_usecond_counter k;
  st_now : clk_now k' = clk_now k;
}.

#[export] Instance same_threads_preorder : PreOrder same_threads.
Proof.
  split.
  - intros k. by split.
  - intros k1 k2 k3 [] []. split; try congruence;
      intros j Hj;
      first [rewrite st_flags1 by done | rewrite st_priority1 by done | rewrite st_pid1 by done]; auto.
Qed.

Lemma same_threads_wf k k' : same_threads k k' -> kernel_wf k -> kernel_wf k'.
Proof.
  intros [? Hl Hc ? ? ? ? ?] [[? ?] ?]. unfold current, task_get_current in Hc.
  split; [split|]; congruence.
Qed.
Lemma same_threads_sched k k' j : same_threads k k' -> sched k' j = sched k j.
Proof. intros []. unfold sched. congruence. Qed.
Lemma same_threads_flag k k' j g : same_threads k k' -> 0 <= j ->
  task_flag_asserted (k_tasks k') j g = task_flag_asserted (k_tasks k) j g.
Proof. intros [] Hj. unfold task_flag_asserted. now rewrite st_flags0. Qed.
Lemma same_threads_ready k k' j : same_threads k k' -> 0 <= j -> ready k' j = ready k j.
Proof.
  intros [] Hj. unfold ready, task_enabled_active_not_stopped. now rewrite st_flags0.
Qed.
Lemma same_threads_blocked k k' obj j : same_threads k k' -> 0 <= j ->
  blocked_on k' obj j = blocked_on k obj j.
Proof.
  intros H Hj. unfold blocked_on, task_enabled, task_active_asserted.
  now rewrite !(same_threads_flag k k'), (same_threads_sched k k').
Qed.

Lemma switch_context_same k : same_threads k (on_tasks task_root_switch_context k).
Proof.
  split; try done; unfold task_root_switch_context, priority, task_get_priority, task_get_pid;
    simpl; try (intros j Hj; rewrite <- (on_task_field _ (task_get_current (k_tasks k))
                  (with_rr (systick_val (k_tasks k))) (k_tasks k) j); done).
  apply Zlen_on_task.
Qed.
Lemma elevate_same p k :
  same_threads k (on_tasks (task_root_elevate_current_priority p) k).
Proof.
  unfold on_tasks, task_root_elevate_current_priority.
  destruct (m_task_current_priority (k_tasks k) <? s8 p); by split.
Qed.
Lemma update_on_wake_same id p k : same_threads k (scheduler_root_update_on_wake id p k).
Proof.
  unfold scheduler_root_update_on_wake. repeat case_match; try done.
  etrans; [apply elevate_same|apply switch_context_same].
Qed.
Lemma update_on_stopped_same k : same_threads k (scheduler_root_update_on_stopped k).
Proof.
  unfold scheduler_root_update_on_stopped. etrans; [|apply switch_context_same]. by split.
Qed.

(** ** Waking a thread *)

(** Effect of [scheduler_root_assert_active] on the thread it wakes, and on
    nothing else. *)
Record woken (id u : Z) (k k' : kernel) : Prop := {
  wk_wf : kernel_wf k';
  wk_active : active k' id = true;
  wk_block : block_object (sched k' id) = NULL;
  wk_wake : wake (sched k' id) = mk_timeval SCHEDULER_TIMEVAL_SEC_INVALID 0;
  wk_unblock : scheduler_unblock_type k' id = u;
  wk_sched_priority : forall j, 0 <= j -> sched_priority (sched k' j) = sched_priority (sched k j);
  wk_task_ne : forall j, 0 <= j -> j <> id -> task (k_tasks k') j = task (k_tasks k) j;
  wk_sched_ne : forall j, 0 <= j -> j <> id -> sched k' j = sched k j;
  wk_flag : forall j g, 0 <= j -> Z.land TASK_FLAGS_ACTIVE g = 0 ->
    task_flag_asserted (k_tasks k') j g = task_flag_asserted (k_tasks k) j g;
  wk_priority : forall j, 0 <= j -> priority k' j = priority k j;
  wk_pid : forall j, 0 <= j -> task_get_pid (k_tasks k') j = task_get_pid (k_tasks k) j;
  wk_current : current k' = current k;
  wk_current_priority :
    task_get_current_priority (k_tasks k') = task_get_current_priority (k_tasks k);
}.

(** The five updates of the thread's scheduler entry, composed. *)
Definition wake_entry (u : Z) (t : sched_task_t) : sched_task_t :=
  mk_sched (sched_priority t) (sched_policy t) (sched_detach_state t) NULL (exit_status t)
    (mk_timeval SCHEDULER_TIMEVAL_SEC_INVALID 0)
    (Bits.clear (Bits.set (Bits.clear (sched_flags t) SCHEDULER_TASK_FLAG_UNBLOCK_MASK) u)
       (Z.shiftl 1 SCHEDULER_TASK_FLAG_AIOSUSPEND))
    (sched_timer t).

Lemma Zset_Zset {A} (l : list A) i x y : Zset (Zset l i x) i y = Zset l i y.
Proof. unfold Zset. case_match; [done|]. apply list_insert_insert_eq. Qed.

Lemma on_sched_twice id f g k : Zlen (sos_sched_table k) = CONFIG_TASK_TOTAL -> task_id id ->
  on_sched id g (on_sched id f k) = on_sched id (fun t => g (f t)) k.
Proof.
  intros Hl Hi. unfold on_sched at 1. rewrite sched_on_sched_eq by done.
  unfold on_sched; simpl. now rewrite Zset_Zset.
Qed.

Lemma assert_active_eq id u k : Zlen (sos_sched_table k) = CONFIG_TASK_TOTAL -> task_id id ->
  scheduler_root_assert_active id u k = on_sched id (wake_entry u) (on_tasks (task_assert_active id) k).
Proof.
  intros Hl Hi. unfold scheduler_root_assert_active, scheduler_root_set_unblock_type,
    scheduler_root_deassert_aiosuspend, scheduler_root_deassert.
  rewrite !on_sched_twice by (rewrite ?Zlen_on_sched; done). done.
Qed.

Lemma land_wake_flags f u : 0 <= u < 16 ->
  Z.land (Bits.clear (Bits.set (Bits.clear f 15) u) 256) 15 = u.
Proof.
  intros Hu. rewrite land_clear_disjoint by done. unfold Bits.set.
  rewrite Z.land_lor_distr_l, land_clear_same, Z.lor_0_l.
  change 15 with (Z.ones 4). rewrite Z.land_ones by lia. apply Z.mod_small. simpl; lia.
Qed.

Lemma assert_active_woken id u k : kernel_wf k -> task_id id -> 0 <= u < 16 ->
  woken id u k (scheduler_root_assert_active id u k).
Proof.
  intros [[Hl Hc] Hs] Hi Hu. rewrite assert_active_eq by done.
  set (k1 := on_tasks (task_assert_active id) k).
  assert (Hs1 : Zlen (sos_sched_table k1) = CONFIG_TASK_TOTAL) by done.
  split; try done.
  - split; [split|]; [|exact Hc|now rewrite Zlen_on_sched].
    etrans; [apply Zlen_on_task|exact Hl].
  - unfold active, task_active_asserted. simpl. now apply flag_set_same.
  - now rewrite sched_on_sched_eq.
  - now rewrite sched_on_sched_eq.
  - unfold scheduler_unblock_type. rewrite sched_on_sched_eq by done. now apply land_wake_flags.
  - intros j Hj. now rewrite (on_sched_field sched_priority).
  - intros j Hj Hne. simpl. now apply task_on_task_ne.
  - intros j Hj Hne. now rewrite sched_on_sched_ne.
  - intros j g Hj Hg. simpl. now apply flag_set_disjoint.
  - intros j Hj. unfold priority, task_get_priority. simpl.
    unfold task_assert_active, task_assert_flag. now rewrite (on_task_field task_priority).
  - intros j Hj. unfold task_get_pid. simpl.
    unfold task_assert_active, task_assert_flag. now rewrite (on_task_field task_pid).
Qed.

(** ** Putting the current thread to sleep *)

Record asleep (id : Z) (k k' : kernel) : Prop := {
  as_wf : kernel_wf k';
  as_active : active k' id = false;
  as_sched : sos_sched_table k' = sos_sched_table k;
  as_flag_ne : forall j g, 0 <= j -> j <> id ->
    task_flag_asserted (k_tasks k') j g = task_flag_asserted (k_tasks k) j g;
  as_flag : forall j g, 0 <= j -> Z.land TASK_FLAGS_ACTIVE g = 0 -> Z.land TASK_FLAGS_EXEC g = 0 ->
    task_flag_asserted (k_tasks k') j g = task_flag_asserted (k_tasks k) j g;
  as_priority : forall j, 0 <= j -> priority k' j = priority k j;
  as_pid : forall j, 0 <= j -> task_get_pid (k_tasks k') j = task_get_pid (k_tasks k) j;
  as_current : current k' = current k;
  as_counter : sched_usecond_counter k' = sched_usecond_counter k;
}.

Lemma deassert_active_asleep id k : kernel_wf k -> task_id id ->
  asleep id k (scheduler_root_deassert_active id k).
Proof.
  intros [[Hl Hc] Hs] Hi. assert (0 <= id) by apply Hi.
  unfold scheduler_root_deassert_active. set (t1 := task_deassert_active id (k_tasks k)).
  assert (Hl1 : Zlen (sos_task_table t1) = CONFIG_TASK_TOTAL)
    by (unfold t1, task_deassert_active, task_deassert_flag; now rewrite Zlen_on_task).
  split; try done.
  - split; [split|]; try done. etrans; [apply Zlen_on_task|exact Hl1].
  - unfold active, task_active_asserted, task_deassert_exec. simpl.
    rewrite flag_clear_disjoint by done. now apply flag_clear_same.
  - intros j g Hj Hne. simpl. unfold task_deassert_exec. rewrite flag_clear_ne by auto.
    unfold t1, task_deassert_active. now rewrite flag_clear_ne by auto.
  - intros j g Hj Ha He. simpl. unfold task_deassert_exec. rewrite flag_clear_disjoint by auto.
    unfold t1, task_deassert_active. now rewrite flag_clear_disjoint by auto.
  - intros j Hj. unfold priority, task_get_priority. simpl.
    unfold task_deassert_exec, t1, task_deassert_active, task_deassert_flag.
    now rewrite !(on_task_field task_priority).
  - intros j Hj. unfold task_get_pid. simpl.
    unfold task_deassert_exec, t1, task_deassert_active, task_deassert_flag.
    now rewrite !(on_task_field task_pid).
Qed.

Lemma asleep_same id k k1 k2 : asleep id k k1 -> same_threads k1 k2 -> asleep id k k2.
Proof.
  intros A H. pose proof (same_threads_wf _ _ H (as_wf _ _ _ A)). destruct H, A.
  split; try congruence; try done.
  - unfold active, task_active_asserted, task_flag_asserted in *. 
    destruct (decide (0 <= id)) as [Hi|Hi]; [now rewrite st_flags0|].
    unfold task, Zget in *. replace (Z.to_nat id) with (Z.to_nat 0) in * by lia.
    specialize (st_flags0 0 ltac:(lia)). unfold task, Zget in st_flags0. now rewrite st_flags0.
  - intros j g Hj Hne. unfold task_flag_asserted in *. rewrite st_flags0 by done. auto.
  - intros j g Hj Ha He. unfold task_flag_asserted in *. rewrite st_flags0 by done. auto.
  - intros j Hj. rewrite st_priority0 by done. auto.
  - intros j Hj. rewrite st_pid0 by done. auto.
Qed.

Lemma update_on_sleep_asleep k : kernel_wf k ->
  asleep (current k) k (scheduler_root_update_on_sleep k).
Proof.
  intros Hwf. unfold scheduler_root_update_on_sleep.
  eapply asleep_same; [|apply update_on_stopped_same].
  apply deassert_active_asleep; [done|]. apply Hwf.
Qed.

(** ** The priority to run at *)

Lemma ready_priority_spec t :
  CONFIG_SCHED_LOWEST_PRIORITY <= ready_priority t /\
  (forall i, 1 <= i < CONFIG_TASK_TOTAL -> task_enabled_active_not_stopped t i = true ->
     task_get_priority t i <= ready_priority t) /\
  (ready_priority t = CONFIG_SCHED_LOWEST_PRIORITY \/
   exists i, 1 <= i < CONFIG_TASK_TOTAL /\ task_enabled_active_not_stopped t i = true /\
     task_get_priority t i = ready_priority t).
Proof.
  unfold ready_priority.
  pose (Inv := fun n p => CONFIG_SCHED_LOWEST_PRIORITY <= p /\
    (forall i, 1 <= i < n -> task_enabled_active_not_stopped t i = true ->
       task_get_priority t i <= p) /\
    (p = CONFIG_SCHED_LOWEST_PRIORITY \/
     exists i, 1 <= i < n /\ task_enabled_active_not_stopped t i = true /\
       task_get_priority t i = p)).
  apply (for_range_ind Inv); [done|unfold Inv; split_and!; intros; lia|].
  intros n p Hn (H1 & H2 & H3). unfold Inv.
  destruct (task_enabled_active_not_stopped t n) eqn:E; simpl.
  - destruct (Z.ltb_spec p (task_get_priority t n)).
    + split_and!; [lia| |right; exists n; split_and!; try lia; done].
      intros i Hi Hr. destruct (decide (i = n)) as [->|]; [lia|].
      specialize (H2 i ltac:(lia) Hr). lia.
    + split_and!; [lia| |].
      * intros i Hi Hr. destruct (decide (i = n)) as [->|]; [lia|]. apply H2; [lia|done].
      * destruct H3 as [H3|(i & ? & ? & ?)]; [now left|right; exists i; split_and!; try lia; done].
  - split_and!; [lia| |].
    + intros i Hi Hr. destruct (decide (i = n)) as [->|]; [congruence|]. apply H2; [lia|done].
    + destruct H3 as [H3|(i & ? & ? & ?)]; [now left|right; exists i; split_and!; try lia; done].
Qed.

(** Priorities are in the configured range. *)
Definition priorities_ok (k : kernel) : Prop :=
  forall i, 0 <= i ->
    CONFIG_SCHED_LOWEST_PRIORITY <= priority k i <= CONFIG_SCHED_HIGHEST_PRIORITY.

Lemma update_on_stopped_priority k : priorities_ok k ->
  task_get_current_priority (k_tasks (scheduler_root_update_on_stopped k))
  = ready_priority (k_tasks k).
Proof.
  intros Hp. unfold scheduler_root_update_on_stopped. simpl. apply s8_id.
  destruct (ready_priority_spec (k_tasks k)) as (H1 & _ & [H3|(i & Hi & _ & H3)]).
  - rewrite H3. done.
  - specialize (Hp i ltac:(lia)). unfold priority in Hp. rewrite H3 in Hp.
    unfold CONFIG_SCHED_LOWEST_PRIORITY, CONFIG_SCHED_HIGHEST_PRIORITY in *. lia.
Qed.

Lemma update_on_wake_priority id p k : - 2 ^ 7 <= p < 2 ^ 7 ->
  task_get_current_priority (k_tasks (scheduler_root_update_on_wake id p k))
  = if (0 <? id) && stopped k id then task_get_current_priority (k_tasks k)
    else Z.max (task_get_current_priority (k_tasks k)) p.
Proof.
  intros Hp. unfold scheduler_root_update_on_wake, stopped.
  set (cp := task_get_current_priority (k_tasks k)).
  destruct (Z.ltb_spec p cp).
  - destruct ((0 <? id) && _); fold cp; lia.
  - destruct ((0 <? id) && _); [done|]. simpl. unfold task_root_elevate_current_priority.
    rewrite s8_id by lia. fold (task_get_current_priority (k_tasks k)). fold cp.
    destruct (Z.ltb_spec cp p); simpl; fold (task_get_current_priority (k_tasks k)); fold cp; lia.
Qed.

(** Priority scheduling: when the current task goes to sleep, the PendSV
    handler that follows lets a task execute if and only if it is ready and no
    ready task has a higher priority (tasks of the lowest priority included). *)
Theorem sleep_runs_highest_priority k i :
  kernel_wf k -> priorities_ok k -> 1 <= i < CONFIG_TASK_TOTAL ->
  let k' := scheduler_root_update_on_sleep k in
  task_exec_asserted (pendsv_mark (k_tasks k')) i = true <->
  (ready k' i = true /\
   forall j, 1 <= j < CONFIG_TASK_TOTAL -> ready k' j = true -> priority k' j <= priority k' i).
Proof.
  intros Hwf Hp Hi k'.
  pose proof (update_on_sleep_asleep k Hwf) as A.
  assert (Hcp : task_get_current_priority (k_tasks k') = ready_priority (k_tasks k')).
  { set (k1 := scheduler_root_deassert_active (current k) k).
    assert (A1 : asleep (current k) k k1) by (apply deassert_active_asleep; [done|apply Hwf]).
    assert (Hp1 : priorities_ok k1) by (intros j Hj; rewrite (as_priority _ _ _ A1) by done; now apply Hp).
    change k' with (scheduler_root_update_on_stopped k1) in *.
    rewrite update_on_stopped_priority by done.
    pose proof (update_on_stopped_same k1) as S. apply for_range_ext. intros j p Hj.
    pose proof (same_threads_ready _ _ j S ltac:(lia)) as E1. unfold ready in E1.
    pose proof (st_priority _ _ S j ltac:(lia)) as E2. unfold priority in E2.
    now rewrite E1, E2. }
  destruct (pendsv_mark_spec (k_tasks k')) as (_ & _ & _ & X & _); [apply (as_wf _ _ _ A)|].
  rewrite X by done. unfold schedulable. rewrite Hcp.
  destruct (ready_priority_spec (k_tasks k')) as (H1 & H2 & H3).
  fold (ready k' i). fold (priority k' i). rewrite andb_true_iff, Z.eqb_eq.
  split; intros [Hr Hpi]; split; try done.
  - intros j Hj Hrj. rewrite Hpi. now apply H2.
  - specialize (H2 i Hi Hr). fold (priority k' i) in H2.
    destruct H3 as [H3|(j & Hj & Hrj & H3)].
    + rewrite H3 in *. assert (CONFIG_SCHED_LOWEST_PRIORITY <= priority k' i)
        by (rewrite (as_priority _ _ _ A) by lia; now apply Hp; lia). lia.
    + specialize (Hpi j Hj Hrj). fold (priority k' j) in H3. lia.
Qed.

(** A configuration to run the operations on: task 1 runs; tasks 2, 3 and 4
    wait for the object at address 100 with priorities 10, 15 and 15, task 5
    for the one at 200, task 6 is ready at priority 12. *)
Definition example_task (pid prio flags : Z) : task_t := mk_task pid prio flags 0 0 4096 4096 20000.
Definition example_sched (prio : Z) (p : ptr) : sched_task_t :=
  mk_sched prio 0 1 p 0 (mk_timeval SCHEDULER_TIMEVAL_SEC_INVALID 0) 32 [].
Definition example_kernel : kernel :=
  mk_kernel
    (mk_tstate
      (mk_task 0 0 67 0 0 0 0 20000
       :: example_task 1 21 7 :: example_task 1 10 9 :: example_task 1 15 9
       :: example_task 1 15 9 :: example_task 2 15 1 :: example_task 2 12 5
       :: replicate 9 (mk_task 0 0 0 0 0 0 0 0))
      1 21 0 20000 0 false false)
    (example_sched 0 NULL :: example_sched 21 NULL :: example_sched 10 (Pobj 100)
     :: example_sched 15 (Pobj 100) :: example_sched 15 (Pobj 100)
     :: example_sched 15 (Pobj 200) :: example_sched 12 NULL
     :: replicate 9 (mk_sched 0 0 0 NULL 0 (mk_timeval 0 0) 0 []))
    0 1000 0 0.

Definition priorities_okb (k : kernel) : bool :=
  forallb (fun t => (CONFIG_SCHED_LOWEST_PRIORITY <=? task_priority t)
                    && (task_priority t <=? CONFIG_SCHED_HIGHEST_PRIORITY))
    (sos_task_table (k_tasks k)).
Lemma priorities_okb_spec k : priorities_okb k = true -> priorities_ok k.
Proof.
  intros H i Hi. unfold priority, task_get_priority, task, Zget.
  unfold priorities_okb in H. rewrite forallb_forall in H.
  destruct (sos_task_table (k_tasks k) !! Z.to_nat i) as [t|] eqn:E.
  - rewrite (list_lookup_total_correct _ _ _ E).
    specialize (H t (proj1 (list_elem_of_In _ _) (list_elem_of_lookup_2 _ _ _ E))).
    apply andb_true_iff in H as [?%Z.leb_le ?%Z.leb_le]. lia.
  - rewrite list_lookup_total_alt, E. done.
Qed.
Lemma example_kernel_wf : kernel_wf example_kernel.
Proof. done. Qed.

(** To check the tasks of a concrete table one by one. *)
Lemma each_task (P : Z -> Prop) :
  Forall P (seqZ 1 (CONFIG_TASK_TOTAL - 1)) -> forall j, 1 <= j < CONFIG_TASK_TOTAL -> P j.
Proof. intros H j Hj. apply (proj1 (Forall_forall _ _) H), elem_of_seqZ. lia. Qed.

Lemma sleep_runs_highest_priority_witness :
  task_exec_asserted (pendsv_mark (k_tasks (scheduler_root_update_on_sleep example_kernel))) 6 = true.
Proof.
  apply (sleep_runs_highest_priority example_kernel 6 example_kernel_wf
           (priorities_okb_spec example_kernel eq_refl) ltac:(done)).
  split; [reflexivity|]. refine (each_task _ _). vm_compute. repeat constructor; intros; congruence.
Defined.

(** ** The waiter to hand an object to *)

(** A thread that can be handed [obj]. *)
Definition candidate (k : kernel) (obj : ptr) (i : Z) : Prop :=
  blocked_on k obj i = true /\ stopped k i = false /\
  CONFIG_SCHED_LOWEST_PRIORITY <= sched_priority (sched k i).
(** How many tasks the search visits before [j] when it starts after [c]. *)
Definition rr_distance (c j : Z) : Z := (j - c - 1) mod (CONFIG_TASK_TOTAL - 1).

Lemma rr_distance_alt c j : 1 <= c < CONFIG_TASK_TOTAL -> 1 <= j < CONFIG_TASK_TOTAL ->
  rr_distance c j = if c <? j then j - c - 1 else j - c + 14.
Proof.
  intros Hc Hj. unfold rr_distance, CONFIG_TASK_TOTAL in *. change (16 - 1) with 15.
  destruct (Z.ltb_spec c j).
  - apply Z.mod_small. lia.
  - symmetry. apply Z.mod_unique_pos with (-1); lia.
Qed.

Section HighestBlocked.
Context (k : kernel) (obj : ptr) (c : Z) (Hc : 1 <= c < CONFIG_TASK_TOTAL).

(** The best candidate among those at distance less than [d]. *)
Definition best_until (d : Z) (acc : Z * Z) : Prop :=
  (forall j, 1 <= j < CONFIG_TASK_TOTAL -> rr_distance c j < d -> candidate k obj j ->
     sched_priority (sched k j) <= acc.2) /\
  ((acc = (-1, -1)) \/
   (1 <= acc.1 < CONFIG_TASK_TOTAL /\ rr_distance c acc.1 < d /\ candidate k obj acc.1 /\
    acc.2 = sched_priority (sched k acc.1) /\
    forall j, 1 <= j < CONFIG_TASK_TOTAL -> candidate k obj j ->
      rr_distance c j < rr_distance c acc.1 ->
      sched_priority (sched k j) < sched_priority (sched k acc.1))).

Lemma best_until_turn i acc : 1 <= i < CONFIG_TASK_TOTAL ->
  best_until (rr_distance c i) acc -> best_until (rr_distance c i + 1) (hpb_turn k obj i acc).
Proof using Hc.
  intros Hi [Hmax Hacc]. destruct acc as [t p]. simpl in *.
  assert (Hj : forall j, 1 <= j < CONFIG_TASK_TOTAL -> rr_distance c j < rr_distance c i + 1 ->
            j = i \/ rr_distance c j < rr_distance c i).
  { intros j Hj Hd. rewrite !rr_distance_alt in * by lia. unfold CONFIG_TASK_TOTAL in *. bool_cases; lia. }
  assert (Hp : -1 <= p).
  { destruct Hacc as [[=]|(_ & _ & (_ & _ & ?) & ? & _)]; unfold CONFIG_SCHED_LOWEST_PRIORITY in *; lia. }
  unfold hpb_turn. fold (stopped k i).
  destruct (blocked_on k obj i) eqn:Eb; simpl; [destruct (stopped k i) eqn:Es; simpl;
    [|destruct (Z.ltb_spec p (sched_priority (sched k i)))]|].
  2:{ split; simpl.
      - intros j Hj1 Hd Hcj. destruct (Hj j Hj1 Hd) as [->|]; [lia|].
        specialize (Hmax j Hj1 ltac:(lia) Hcj). lia.
      - right. split_and!; try done; try lia.
        + split_and!; try done. unfold CONFIG_SCHED_LOWEST_PRIORITY. lia.
        + intros j Hj1 Hcj Hd. specialize (Hmax j Hj1 Hd Hcj). lia. }
  all: split; simpl; [|destruct Hacc as [?|(? & ? & ? & ? & ?)]; [now left|right; split_and!; try done; lia]];
    intros j Hj1 Hd Hcj; destruct (Hj j Hj1 Hd) as [->|]; [|now apply Hmax]; destruct Hcj as (?&?&?);
    congruence || lia.
Qed.

Lemma hpb_loop_best : forall fuel i acc, 1 <= i < CONFIG_TASK_TOTAL -> i <> c ->
  15 <= Z.of_nat fuel + rr_distance c i ->
  best_until (rr_distance c i) acc -> best_until 14 (hpb_loop k obj c fuel i acc).
Proof using Hc.
  induction fuel as [|fuel IH]; intros i acc Hi Hne Hf Hb.
  - rewrite rr_distance_alt in Hf by lia. unfold CONFIG_TASK_TOTAL in *. bool_cases; lia.
  - simpl. apply best_until_turn in Hb; [|done].
    set (i' := if i + 1 =? task_get_total then 1 else i + 1).
    assert (1 <= i' < CONFIG_TASK_TOTAL /\
            (i' <> c -> rr_distance c i' = rr_distance c i + 1) /\
            (i' = c -> rr_distance c i = 13)) as (Hi' & Hstep & Hend).
    { unfold i', task_get_total, CONFIG_TASK_TOTAL in *.
      destruct (Z.eqb_spec (i + 1) 16); (split; [lia|]); rewrite !rr_distance_alt by (unfold CONFIG_TASK_TOTAL; lia);
        bool_cases; lia. }
    destruct (Z.eqb_spec i' c) as [E|E].
    + rewrite (Hend E) in Hb. exact Hb.
    + apply IH; try done; rewrite Hstep by done; [lia|done].
Qed.
End HighestBlocked.

(** The task the search treats as the running one: task 1 when the scheduler
    itself is current. *)
Definition search_origin (k : kernel) : Z := if current k =? 0 then 1 else current k.

(** What the search returns: nothing when no thread other than the running one
    can be handed the object, otherwise the candidate of highest priority, and
    among those the first after the running task in round-robin order. *)
Record highest_blocked (k : kernel) (obj : ptr) (r : Z) : Prop := {
  hb_candidate : r <> -1 -> 1 <= r < CONFIG_TASK_TOTAL /\ r <> search_origin k /\ candidate k obj r;
  hb_none : r = -1 -> forall j, 1 <= j < CONFIG_TASK_TOTAL -> j <> search_origin k -> ~ candidate k obj j;
  hb_highest : r <> -1 -> forall j, 1 <= j < CONFIG_TASK_TOTAL -> j <> search_origin k ->
    candidate k obj j -> sched_priority (sched k j) <= sched_priority (sched k r);
  hb_first : r <> -1 -> forall j, 1 <= j < CONFIG_TASK_TOTAL -> j <> search_origin k ->
    candidate k obj j -> sched_priority (sched k j) = sched_priority (sched k r) ->
    rr_distance (search_origin k) r <= rr_distance (search_origin k) j;
}.

Lemma highest_priority_blocked_spec k obj : task_id (current k) ->
  highest_blocked k obj (scheduler_get_highest_priority_blocked k obj).
Proof.
  intros Hcur. unfold scheduler_get_highest_priority_blocked.
  set (c := if current k =? 0 then current k + 1 else current k).
  assert (Hc : 1 <= c < CONFIG_TASK_TOTAL).
  { unfold c, task_id, CONFIG_TASK_TOTAL in *. bool_cases; lia. }
  assert (Ho : search_origin k = c). { unfold search_origin, c. bool_cases; lia. }
  set (i0 := if c + 1 =? task_get_total then 1 else c + 1).
  assert (Hi0 : 1 <= i0 < CONFIG_TASK_TOTAL /\ i0 <> c /\ rr_distance c i0 = 0).
  { unfold i0, task_get_total, CONFIG_TASK_TOTAL in *.
    destruct (Z.eqb_spec (c + 1) 16); (split; [lia|split;[lia|]]);
      rewrite rr_distance_alt by (unfold CONFIG_TASK_TOTAL; lia); bool_cases; lia. }
  destruct Hi0 as (Hi0 & Hne & Hd0).
  pose proof (hpb_loop_best k obj c Hc (Z.to_nat task_get_total) i0 (-1, CONFIG_SCHED_LOWEST_PRIORITY - 1)
                Hi0 Hne) as H.
  rewrite Hd0 in H. specialize (H ltac:(done)).
  destruct H as [Hmax Hacc].
  { split; simpl; [|now left]. intros j Hj Hd. unfold rr_distance in Hd.
    pose proof (Z.mod_pos_bound (j - c - 1) (CONFIG_TASK_TOTAL - 1) ltac:(done)). lia. }
  destruct (hpb_loop _ _ _ _ _ _) as [t p]. simpl in *.
  assert (Hdist : forall j, 1 <= j < CONFIG_TASK_TOTAL -> (j <> c <-> rr_distance c j < 14)).
  { intros j Hj. rewrite rr_distance_alt by lia. unfold CONFIG_TASK_TOTAL in *. bool_cases; lia. }
  destruct Hacc as [[= -> ->]|(Ht & Hd & Hcand & -> & Hfst)]; split; rewrite ?Ho; try lia.
  - intros _ j Hj Hnc Hcj. specialize (Hmax j Hj (proj1 (Hdist j Hj) Hnc) Hcj).
    destruct Hcj as (_&_&?). unfold CONFIG_SCHED_LOWEST_PRIORITY in *. lia.
  - intros _. split_and!; try done; try lia. now apply Hdist.
  - intros _ j Hj Hnc Hcj. apply Hmax; [done| |done]. now apply Hdist.
  - intros _ j Hj Hnc Hcj Heq. destruct (decide (rr_distance c t <= rr_distance c j)); [done|].
    specialize (Hfst j Hj Hcj ltac:(lia)). lia.
Qed.

Lemma highest_blocked_strict k obj r j : task_id (current k) ->
  highest_blocked k obj r -> r <> -1 ->
  1 <= j < CONFIG_TASK_TOTAL -> j <> search_origin k -> candidate k obj j -> j <> r ->
  sched_priority (sched k j) < sched_priority (sched k r) \/
  (sched_priority (sched k j) = sched_priority (sched k r) /\
   rr_distance (search_origin k) r < rr_distance (search_origin k) j).
Proof.
  intros Hcur [H1 _ H3 H4] Hr Hj Hne Hcj Hjr. specialize (H3 Hr j Hj Hne Hcj). specialize (H4 Hr j Hj Hne Hcj).
  destruct (decide (sched_priority (sched k j) = sched_priority (sched k r))) as [E|]; [|left; lia].
  right. split; [done|]. specialize (H4 E). destruct (H1 Hr) as (Hr1 & Hr2 & _).
  assert (Ho : 1 <= search_origin k < CONFIG_TASK_TOTAL).
  { unfold search_origin, task_id, CONFIG_TASK_TOTAL in *. bool_cases; lia. }
  rewrite !rr_distance_alt in * by lia. unfold CONFIG_TASK_TOTAL in *. bool_cases; lia.
Qed.

(** [scheduler_get_highest_priority_blocked] terminates and picks the thread
    to hand an object to: -1 exactly when no thread other than the running one
    waits for the object without being stopped, otherwise a waiter of maximal
    priority, the first one after the running task in round-robin order among
    equals. *)
Theorem highest_blocked_correct k obj : task_id (current k) ->
  let r := scheduler_get_highest_priority_blocked k obj in
  (r = -1 <-> forall j, 1 <= j < CONFIG_TASK_TOTAL -> j <> search_origin k -> ~ candidate k obj j) /\
  (r <> -1 -> candidate k obj r /\
    forall j, 1 <= j < CONFIG_TASK_TOTAL -> j <> search_origin k -> candidate k obj j -> j <> r ->
      sched_priority (sched k j) < sched_priority (sched k r) \/
      (sched_priority (sched k j) = sched_priority (sched k r) /\
       rr_distance (search_origin k) r < rr_distance (search_origin k) j)).
Proof.
  intros Hcur r. pose proof (highest_priority_blocked_spec k obj Hcur) as HB.
  fold r in HB. pose proof HB as [H1 H2 _ _]. split.
  - split; [exact H2|]. intros Hno. destruct (decide (r = -1)) as [|Hr]; [done|].
    destruct (H1 Hr) as (? & ? & ?). now destruct (Hno r).
  - intros Hr. destruct (H1 Hr) as (Hr1 & Hr2 & Hr3). split; [done|].
    intros j Hj Hne Hcj Hjr. now apply (highest_blocked_strict k obj r j).
Qed.

Lemma highest_blocked_correct_witness :
  scheduler_get_highest_priority_blocked example_kernel (Pobj 100) = 3 /\
  candidate example_kernel (Pobj 100) 3.
Proof.
  split; [reflexivity|].
  apply (highest_blocked_correct example_kernel (Pobj 100) ltac:(done)). done.
Defined.

(** ** Waking every waiter *)

(** State of the wake-up loop before its [n]-th turn. *)
Record unblocked_until (obj : ptr) (u : Z) (k : kernel) (n : Z) (s : kernel * Z) : Prop := {
  ub_wf : kernel_wf s.1;
  ub_current : current s.1 = current k;
  ub_woken : forall i, 1 <= i < n -> blocked_on k obj i = true ->
    active s.1 i = true /\ block_object (sched s.1 i) = NULL /\ scheduler_unblock_type s.1 i = u /\
    sched_priority (sched s.1 i) = sched_priority (sched k i) /\ stopped s.1 i = stopped k i;
  ub_other : forall i, 0 <= i -> (i < 1 \/ n <= i \/ blocked_on k obj i = false) ->
    task (k_tasks s.1) i = task (k_tasks k) i /\ sched s.1 i = sched k i;
  ub_max : forall i, 1 <= i < n -> blocked_on k obj i = true -> stopped k i = false ->
    sched_priority (sched k i) <= s.2;
  ub_prio : s.2 = -1 \/ exists i, 1 <= i < n /\ blocked_on k obj i = true /\ stopped k i = false /\
    s.2 = sched_priority (sched k i);
}.

Lemma blocked_on_frame k k' obj i :
  task (k_tasks k') i = task (k_tasks k) i -> sched k' i = sched k i ->
  blocked_on k' obj i = blocked_on k obj i /\ stopped k' i = stopped k i.
Proof.
  intros Ht Hs. unfold blocked_on, stopped, task_stopped_asserted, task_enabled,
    task_active_asserted, task_flag_asserted. now rewrite Ht, Hs.
Qed.

Lemma unblocked_until_skip obj u k n s : 1 <= n -> blocked_on k obj n = false ->
  unblocked_until obj u k n s -> unblocked_until obj u k (n + 1) s.
Proof.
  intros Hn Hb []. split; try done.
  - intros i Hi Hbi. apply ub_woken0; [|done]. destruct (decide (i = n)); [congruence|lia].
  - intros i Hi Ho. apply ub_other0; [done|]. destruct (decide (i = n)) as [->|]; [auto|].
    destruct Ho as [|[|]]; auto; lia.
  - intros i Hi Hbi Hs. apply ub_max0; [|done..]. destruct (decide (i = n)); [congruence|lia].
  - destruct ub_prio0 as [|(i & ? & ?)]; [now left|right; exists i; split; [lia|done]].
Qed.

Lemma unblocked_until_wake obj u k n k1 p : 1 <= n < CONFIG_TASK_TOTAL -> 0 <= u < 16 ->
  blocked_on k obj n = true -> unblocked_until obj u k n (k1, p) ->
  unblocked_until obj u k (n + 1)
    (scheduler_root_assert_active n u k1,
     if negb (stopped k n) && (p <? sched_priority (sched k n)) then sched_priority (sched k n) else p).
Proof.
  intros Hn Hu Hb [Hwf Hc Hw Ho Hm Hp]. simpl in *.
  destruct (assert_active_woken n u k1 Hwf ltac:(unfold task_id; lia) Hu).
  destruct (Ho n ltac:(lia) ltac:(lia)) as [Htn Hsn].
  destruct (blocked_on_frame k k1 obj n Htn Hsn) as [_ Hst].
  assert (Hstop : forall i, 0 <= i -> stopped (scheduler_root_assert_active n u k1) i = stopped k1 i)
    by (intros; now apply wk_flag0).
  split; simpl; try done; try congruence.
  - intros i Hi Hbi. destruct (decide (i = n)) as [->|Hne].
    + rewrite wk_sched_priority0, Hstop by lia. rewrite Hsn. done.
    + destruct (Hw i ltac:(lia) Hbi) as (?&?&?&?&?).
      unfold active, task_active_asserted, task_flag_asserted, scheduler_unblock_type in *.
      rewrite Hstop, wk_task_ne0, wk_sched_ne0 by lia. done.
  - intros i Hi Hio. assert (i <> n) by (destruct Hio as [|[|]]; [lia|lia|congruence]).
    rewrite wk_task_ne0, wk_sched_ne0 by lia. apply Ho; [done|].
    destruct Hio as [|[|]]; auto; lia.
  - intros i Hi Hbi Hs. destruct (decide (i = n)) as [->|Hne].
    + rewrite Hs. simpl. bool_cases; lia.
    + specialize (Hm i ltac:(lia) Hbi Hs). destruct (negb (stopped k n)); simpl; bool_cases; lia.
  - destruct (negb (stopped k n)) eqn:Es; simpl; [destruct (Z.ltb_spec p (sched_priority (sched k n)))|].
    + right. exists n. split_and!; try lia; try done. now destruct (stopped k n).
    + destruct Hp as [|(i & ? & ?)]; [now left|right; exists i; split; [lia|done]].
    + destruct Hp as [|(i & ? & ?)]; [now left|right; exists i; split; [lia|done]].
Qed.

Lemma unblock_all_spec obj u k : kernel_wf k -> 0 <= u < 16 ->
  unblocked_until obj u k CONFIG_TASK_TOTAL (scheduler_root_unblock_all obj u k).
Proof.
  intros Hwf Hu. unfold scheduler_root_unblock_all, task_get_total.
  apply (for_range_ind (unblocked_until obj u k)); [done| |].
  - split; simpl; try done; try lia. now left.
  - intros n [k1 p] Hn Hinv.
    destruct (ub_other _ _ _ _ _ Hinv n ltac:(lia) ltac:(lia)) as [Htn Hsn]. simpl in Htn, Hsn.
    destruct (blocked_on_frame k k1 obj n Htn Hsn) as [Hb Hst].
    unfold unblock_turn. rewrite Hb. destruct (blocked_on k obj n) eqn:Eb.
    + destruct (assert_active_woken n u k1 (ub_wf _ _ _ _ _ Hinv) ltac:(unfold task_id; lia) Hu).
      pose proof (unblocked_until_wake obj u k n k1 p ltac:(lia) Hu Eb Hinv) as H.
      assert (Hs : stopped (scheduler_root_assert_active n u k1) n = stopped k n)
        by (rewrite <- Hst; apply wk_flag0; [lia|done]).
      unfold stopped in Hs at 1. rewrite Hs.
      rewrite wk_sched_priority0, Hsn by lia. revert H. now destruct (_ && _).
    + apply unblocked_until_skip; [lia|done|done].
Qed.

(** [scheduler_root_unblock_all] wakes every thread blocked on the object,
    with the given unblock type and its block object reset, leaves every other
    thread as it was, and returns the highest priority of the threads it woke
    that are not stopped (-1 when there is none). *)
Theorem unblock_all_wakes_all obj u k : kernel_wf k -> 0 <= u < 16 ->
  let k' := (scheduler_root_unblock_all obj u k).1 in
  let p := (scheduler_root_unblock_all obj u k).2 in
  (forall i, 1 <= i < CONFIG_TASK_TOTAL -> blocked_on k obj i = true ->
     active k' i = true /\ block_object (sched k' i) = NULL /\ scheduler_unblock_type k' i = u) /\
  (forall i, 1 <= i < CONFIG_TASK_TOTAL -> blocked_on k obj i = false ->
     task (k_tasks k') i = task (k_tasks k) i /\ sched k' i = sched k i) /\
  (forall i, 1 <= i < CONFIG_TASK_TOTAL -> blocked_on k obj i = true -> stopped k i = false ->
     sched_priority (sched k i) <= p) /\
  (p = -1 \/ exists i, 1 <= i < CONFIG_TASK_TOTAL /\ blocked_on k obj i = true /\
     stopped k i = false /\ p = sched_priority (sched k i)).
Proof.
  intros Hwf Hu. destruct (unblock_all_spec obj u k Hwf Hu) as [_ _ Hw Ho Hm Hp].
  split_and!; try done.
  - intros i Hi Hb. destruct (Hw i Hi Hb) as (?&?&?&_). done.
  - intros i Hi Hb. apply Ho; [lia|auto].
Qed.

Lemma unblock_all_wakes_all_witness :
  let k' := (scheduler_root_unblock_all (Pobj 100) SCHEDULER_UNBLOCK_COND example_kernel).1 in
  scheduler_unblock_type k' 3 = SCHEDULER_UNBLOCK_COND /\ block_object (sched k' 5) = Pobj 200.
Proof.
  destruct (unblock_all_wakes_all (Pobj 100) SCHEDULER_UNBLOCK_COND example_kernel
              example_kernel_wf ltac:(done)) as (H1 & H2 & _).
  split.
  - apply (H1 3); [done|reflexivity].
  - destruct (H2 5) as [_ ->]; [done|reflexivity|reflexivity].
Defined.
