(* ===== verification/Timing.v ===== *)
(** * Time: conversions, timed blocking and the sleep alarm

    [src/sys/scheduler/scheduler_timing.c] (everything but the process timers,
    which are in [Timers.v]), [src/sys/unistd/sleep.c] and the sleeping part of
    [src/sys/unistd/usleep.c].  The 32-bit microsecond timer counts to
    [SOS_USECOND_PERIOD] (2048 s) and overflows into [sched_usecond_counter];
    one compare channel raises the interrupt that wakes sleeping threads. *)
From S2P Require Import Prelude Task Scheduler.

Record timespec := mk_timespec { ts_sec : Z; ts_nsec : Z }.

(** ** Conversions and arithmetic *)

Definition scheduler_timing_real64usec (tv : mcu_timeval) : Z :=
  u64 (tv_usec tv + u64 (tv_sec tv * SOS_USECOND_PERIOD)).

Definition scheduler_timing_useconds_to_clocks (core_clock_frequency useconds : Z) : Z :=
  u32 (core_clock_frequency / 1000000 * useconds).

Definition scheduler_timing_convert_timespec (ts : option timespec) : mcu_timeval :=
  match ts with
  | None => mk_timeval SCHEDULER_TIMEVAL_SEC_INVALID 0
  | Some ts =>
      mk_timeval (u32 (div_quot (ts_sec ts) SOS_SCHEDULER_TIMEVAL_SECONDS))
        (u32 (u32 (div_rem (ts_sec ts) SOS_SCHEDULER_TIMEVAL_SECONDS * 1000000)
              + u32 (ts_nsec ts + 999) / 1000))
  end.

(** [div] takes [int]s: a microsecond count is below [2 ^ 31]. *)
Definition scheduler_timing_convert_mcu_timeval (tv : mcu_timeval) : timespec :=
  mk_timespec (u32 (tv_sec tv * SOS_SCHEDULER_TIMEVAL_SECONDS + div_quot (s32 (tv_usec tv)) 1000000))
    (div_rem (s32 (tv_usec tv)) 1000000 * 1000).

Definition scheduler_timing_add_mcu_timeval (a b : mcu_timeval) : mcu_timeval :=
  let sec := u32 (tv_sec a + tv_sec b) in
  let usec := u32 (tv_usec a + tv_usec b) in
  if SOS_USECOND_PERIOD <? usec
  then mk_timeval (u32 (sec + 1)) (u32 (usec - SOS_USECOND_PERIOD))
  else mk_timeval sec usec.

Definition scheduler_timing_subtract_mcu_timeval (a b : mcu_timeval) : mcu_timeval :=
  if tv_sec b <? tv_sec a then
    let sec := u32 (tv_sec a - tv_sec b) in
    if tv_usec b <=? tv_usec a then mk_timeval sec (u32 (tv_usec a - tv_usec b))
    else mk_timeval (u32 (sec - 1)) (u32 (SOS_USECOND_PERIOD - u32 (tv_usec b - tv_usec a)))
  else if tv_sec a =? tv_sec b then
    if tv_usec b <=? tv_usec a then mk_timeval 0 (u32 (tv_usec a - tv_usec b))
    else mk_timeval 0 0
  else mk_timeval 0 0.

Definition scheduler_timing_root_get_realtime (k : kernel) : mcu_timeval :=
  mk_timeval (sched_usecond_counter k) (clk_now k).

(** ** Blocking with a deadline *)

Definition scheduler_timing_root_timedblock (obj : ptr) (abs_time : mcu_timeval) (k : kernel)
    : kernel :=
  let id := current k in
  let k := on_sched id (with_block obj) k in
  if sched_usecond_counter k <=? tv_sec abs_time then
    let k := on_sched id (with_wake abs_time) k in
    if tv_sec abs_time =? sched_usecond_counter k then
      let now := clk_now k in
      let value := clk_sleep_oc k in
      let value := if tv_usec abs_time <? value then tv_usec abs_time else value in
      if now <? tv_usec abs_time then
        let k := if value =? tv_usec abs_time then set_sleep_oc value k else k in
        scheduler_root_update_on_sleep k
      else k
    else scheduler_root_update_on_sleep k
  else k.

(** ** The interrupts of the microsecond timer *)

Record match_state := mk_match { ms_k : kernel; ms_priority : Z; ms_next : Z }.

(** A thread whose wake time has come. *)
Definition due (k : kernel) (i : Z) : bool :=
  (tv_sec (wake (sched k i)) <? sched_usecond_counter k)
  || ((tv_sec (wake (sched k i)) =? sched_usecond_counter k)
      && (tv_usec (wake (sched k i)) <=? clk_now k)).

Definition match_turn (i : Z) (s : match_state) : match_state :=
  let k := ms_k s in
  if task_enabled_not_active (k_tasks k) i then
    let tmp := tv_usec (wake (sched k i)) in
    if due k i then
      let k := scheduler_root_assert_active i SCHEDULER_UNBLOCK_SLEEP k in
      if negb (task_stopped_asserted (k_tasks k) i)
         && (ms_priority s <? task_get_priority (k_tasks k) i)
      then mk_match k (task_get_priority (k_tasks k) i) (ms_next s)
      else mk_match k (ms_priority s) (ms_next s)
    else if (tv_sec (wake (sched k i)) =? sched_usecond_counter k) && (tmp <? ms_next s)
    then mk_match k (ms_priority s) tmp
    else s
  else s.

(** The alarm value the handler programs. *)
Definition match_alarm (s : match_state) : Z :=
  if ms_next s <? SOS_USECOND_PERIOD then ms_next s else SOS_USECOND_PERIOD + 1.
Definition match_scan (k : kernel) : match_state :=
  for_range 1 task_get_total match_turn
    (mk_match k (CONFIG_SCHED_LOWEST_PRIORITY - 1) SOS_USECOND_PERIOD).
Definition match_finish (s : match_state) : kernel :=
  scheduler_root_update_on_wake (-1) (ms_priority s) (set_sleep_oc (match_alarm s) (ms_k s)).
Definition root_handle_usecond_match_event (k : kernel) : kernel := match_finish (match_scan k).

(** ** [sleep] and [usleep] *)

Definition svcall_sleep (interval : mcu_timeval) (k : kernel) : kernel :=
  let now := scheduler_timing_root_get_realtime k in
  let sec := u32 (tv_sec now + tv_sec interval) in
  let usec := u32 (tv_usec now + tv_usec interval) in
  let abs_time :=
    if SOS_SCHEDULER_TIMEVAL_SECONDS * 1000000 <? usec
    then mk_timeval (u32 (sec + 1)) (u32 (usec - SOS_SCHEDULER_TIMEVAL_SECONDS * 1000000))
    else mk_timeval sec usec in
  scheduler_timing_root_timedblock NULL abs_time k.

(** The interval [sleep] asks for. *)
Definition sleep_interval (seconds : Z) : mcu_timeval :=
  if seconds <? SOS_SCHEDULER_TIMEVAL_SECONDS then mk_timeval 0 (u32 (seconds * 1000000))
  else mk_timeval (u32 (div_quot (s32 seconds) SOS_SCHEDULER_TIMEVAL_SECONDS))
         (u32 (div_rem (s32 seconds) SOS_SCHEDULER_TIMEVAL_SECONDS)).
Definition sleep (seconds : Z) (k : kernel) : kernel :=
  if current k =? 0 then k else svcall_sleep (sleep_interval seconds) k.

Definition svcall_usleep (useconds : Z) (k : kernel) : kernel :=
  let now := scheduler_timing_root_get_realtime k in
  let usec := u32 (tv_usec now + useconds) in
  let abs_time :=
    if SOS_USECOND_PERIOD <? usec
    then mk_timeval (u32 (tv_sec now + 1)) (u32 (usec - SOS_USECOND_PERIOD))
    else mk_timeval (tv_sec now) usec in
  scheduler_timing_root_timedblock NULL abs_time k.

(** ** Conversions are exact *)

Lemma real64usec_id tv : 0 <= tv_usec tv < 2 ^ 32 -> 0 <= tv_sec tv < 2 ^ 32 ->
  scheduler_timing_real64usec tv = tv_sec tv * SOS_USECOND_PERIOD + tv_usec tv.
Proof.
  intros Hu Hs. unfold scheduler_timing_real64usec, u64.
  unfold SOS_USECOND_PERIOD, SOS_SCHEDULER_TIMEVAL_SECONDS in *.
  rewrite (Z.mod_small (tv_sec tv * _)) by lia. rewrite Z.mod_small by lia. lia.
Qed.

(** A normalised time. *)
Definition tv_norm (tv : mcu_timeval) : Prop :=
  0 <= tv_sec tv < 2 ^ 32 /\ 0 <= tv_usec tv <= SOS_USECOND_PERIOD.

(** [scheduler_timing_convert_timespec] gives the number of microseconds of
    the time it converts, rounded up (a deadline is never early), in normal
    form. *)
Theorem convert_timespec_rounds_up s ns :
  0 <= s < 2 ^ 31 -> 0 <= ns < 1000000000 ->
  let tv := scheduler_timing_convert_timespec (Some (mk_timespec s ns)) in
  tv_norm tv /\
  (scheduler_timing_real64usec tv - 1) * 1000 < s * 1000000000 + ns
    <= scheduler_timing_real64usec tv * 1000.
Proof.
  intros Hs Hn. unfold scheduler_timing_convert_timespec, div_quot, div_rem. simpl.
  rewrite Z.quot_div_nonneg, Z.rem_mod_nonneg by (unfold SOS_SCHEDULER_TIMEVAL_SECONDS; lia).
  unfold SOS_SCHEDULER_TIMEVAL_SECONDS.
  pose proof (Z.div_mod s 2048 ltac:(lia)) as Hdm.
  pose proof (Z.mod_pos_bound s 2048 ltac:(lia)) as Hr.
  set (q := s / 2048) in *. set (r := s mod 2048) in *.
  rewrite (u32_id (ns + 999)), (u32_id (r * 1000000)), (u32_id q) by lia.
  pose proof (Z.div_mod (ns + 999) 1000 ltac:(lia)) as Hd2.
  pose proof (Z.mod_pos_bound (ns + 999) 1000 ltac:(lia)) as Hr2.
  set (c := (ns + 999) / 1000) in *. rewrite u32_id by lia.
  split.
  - unfold tv_norm, SOS_USECOND_PERIOD, SOS_SCHEDULER_TIMEVAL_SECONDS. simpl. lia.
  - rewrite real64usec_id by (simpl; lia). unfold SOS_USECOND_PERIOD, SOS_SCHEDULER_TIMEVAL_SECONDS.
    simpl. lia.
Qed.

Lemma convert_timespec_rounds_up_witness :
  scheduler_timing_convert_timespec (Some (mk_timespec 3000 1500)) = mk_timeval 1 952000002 /\
  tv_norm (mk_timeval 1 952000002).
Proof.
  split; [reflexivity|].
  exact (proj1 (convert_timespec_rounds_up 3000 1500 ltac:(lia) ltac:(lia))).
Defined.

(** On normalised times [scheduler_timing_add_mcu_timeval] is addition of the
    microsecond counts (the sum is normalised again) and
    [scheduler_timing_subtract_mcu_timeval] is subtraction, clipped at zero. *)
Theorem timeval_arithmetic a b : tv_norm a -> tv_norm b -> tv_sec a + tv_sec b + 1 < 2 ^ 32 ->
  let sum := scheduler_timing_add_mcu_timeval a b in
  let diff := scheduler_timing_subtract_mcu_timeval a b in
  tv_norm sum /\
  scheduler_timing_real64usec sum = scheduler_timing_real64usec a + scheduler_timing_real64usec b /\
  tv_norm diff /\
  scheduler_timing_real64usec diff
  = Z.max 0 (scheduler_timing_real64usec a - scheduler_timing_real64usec b).
Proof.
  destruct a as [sa ua], b as [sb ub]. unfold tv_norm. simpl. intros [Hsa Hua] [Hsb Hub] Hs.
  assert (HP : SOS_USECOND_PERIOD = 2048000000) by reflexivity. rewrite HP in *.
  unfold scheduler_timing_add_mcu_timeval, scheduler_timing_subtract_mcu_timeval. simpl.
  rewrite HP, (u32_id (sa + sb)), (u32_id (ua + ub)) by lia.
  rewrite (real64usec_id (mk_timeval sa ua)), (real64usec_id (mk_timeval sb ub)) by (simpl; lia).
  simpl. split_and!.
  all: bool_cases; rewrite ?u32_id by (rewrite ?u32_id; lia);
    rewrite ?u32_id by lia; rewrite ?real64usec_id; simpl; rewrite ?HP; lia.
Qed.

Lemma timeval_arithmetic_witness :
  scheduler_timing_real64usec
    (scheduler_timing_add_mcu_timeval (mk_timeval 1 2047000000) (mk_timeval 2 5000000))
  = scheduler_timing_real64usec (mk_timeval 1 2047000000) + scheduler_timing_real64usec (mk_timeval 2 5000000).
Proof.
  apply (timeval_arithmetic (mk_timeval 1 2047000000) (mk_timeval 2 5000000)); vm_compute; intuition congruence.
Defined.

(** Converting a time to the timer's representation and back loses nothing
    of a time given in whole microseconds. *)
Theorem timespec_roundtrip s us : 0 <= s < 2 ^ 31 -> 0 <= us < 1000000 ->
  scheduler_timing_convert_mcu_timeval
    (scheduler_timing_convert_timespec (Some (mk_timespec s (us * 1000))))
  = mk_timespec s (us * 1000).
Proof.
  intros Hs Hu. unfold scheduler_timing_convert_timespec, scheduler_timing_convert_mcu_timeval,
    div_quot, div_rem. simpl.
  rewrite (Z.quot_div_nonneg s), (Z.rem_mod_nonneg s) by (unfold SOS_SCHEDULER_TIMEVAL_SECONDS; lia).
  unfold SOS_SCHEDULER_TIMEVAL_SECONDS.
  pose proof (Z.div_mod s 2048 ltac:(lia)) as Hdm.
  pose proof (Z.mod_pos_bound s 2048 ltac:(lia)) as Hr.
  set (q := s / 2048) in *. set (r := s mod 2048) in *.
  assert (Hc : u32 (us * 1000 + 999) / 1000 = us).
  { rewrite u32_id by lia. rewrite Z.div_add_l by lia. change (999 / 1000) with 0. lia. }
  rewrite Hc, (u32_id (r * 1000000)), (u32_id q), (u32_id (r * 1000000 + us)) by lia.
  rewrite (s32_id (r * 1000000 + us)), Z.quot_div_nonneg, Z.rem_mod_nonneg by lia.
  rewrite Z.div_add_l, (Z.add_comm (r * 1000000)), Z.mod_add, Z.div_small, Z.mod_small by lia.
  rewrite u32_id by lia. f_equal. lia.
Qed.

Lemma timespec_roundtrip_witness :
  scheduler_timing_convert_mcu_timeval
    (scheduler_timing_convert_timespec (Some (mk_timespec 5000 250000))) = mk_timespec 5000 250000.
Proof. exact (timespec_roundtrip 5000 250 ltac:(lia) ltac:(lia)). Defined.

(** [sleep] for less than 2048 seconds asks for exactly that time; from 2048
    seconds on, the seconds beyond a whole number of periods are taken as
    microseconds, so the interval is too short by almost a million times that
    remainder. *)
Theorem sleep_long_is_short seconds : 0 <= seconds < 2 ^ 31 ->
  scheduler_timing_real64usec (sleep_interval seconds)
  = if seconds <? 2048 then seconds * 1000000
    else seconds * 1000000 - 999999 * (seconds mod 2048).
Proof.
  intros Hs. unfold sleep_interval, div_quot, div_rem, SOS_SCHEDULER_TIMEVAL_SECONDS.
  destruct (Z.ltb_spec seconds 2048).
  - rewrite u32_id by lia. rewrite real64usec_id; simpl; lia.
  - rewrite s32_id, Z.quot_div_nonneg, Z.rem_mod_nonneg by lia.
    pose proof (Z.div_mod seconds 2048 ltac:(lia)). pose proof (Z.mod_pos_bound seconds 2048 ltac:(lia)).
    rewrite !u32_id by lia. rewrite real64usec_id by (simpl; lia).
    change SOS_USECOND_PERIOD with 2048000000. simpl. lia.
Qed.

(** Fifty minutes become 34 minutes 8 seconds. *)
Lemma sleep_long_is_short_witness :
  scheduler_timing_real64usec (sleep_interval 3000) = 2048000952.
Proof. exact (sleep_long_is_short 3000 ltac:(lia)). Defined.

(** ** The wake-up loop *)

Definition asleep_in (k : kernel) (i : Z) : bool := task_enabled_not_active (k_tasks k) i.

(** State of the loop of the match handler before its [n]-th turn. *)
Record matched_until (k : kernel) (n : Z) (s : match_state) : Prop := {
  mu_wf : kernel_wf (ms_k s);
  mu_clock : current (ms_k s) = current k /\
    task_get_current_priority (k_tasks (ms_k s)) = task_get_current_priority (k_tasks k) /\
    sched_usecond_counter (ms_k s) = sched_usecond_counter k /\
    clk_now (ms_k s) = clk_now k /\ clk_timer_oc (ms_k s) = clk_timer_oc k;
  mu_woken : forall i, 1 <= i < n -> asleep_in k i = true -> due k i = true ->
    active (ms_k s) i = true /\ block_object (sched (ms_k s) i) = NULL /\
    scheduler_unblock_type (ms_k s) i = SCHEDULER_UNBLOCK_SLEEP /\
    priority (ms_k s) i = priority k i /\ stopped (ms_k s) i = stopped k i;
  mu_other : forall i, 0 <= i ->
    (i < 1 \/ n <= i \/ asleep_in k i = false \/ due k i = false) ->
    task (k_tasks (ms_k s)) i = task (k_tasks k) i /\ sched (ms_k s) i = sched k i;
  mu_next_min : forall i, 1 <= i < n -> asleep_in k i = true -> due k i = false ->
    tv_sec (wake (sched k i)) = sched_usecond_counter k ->
    ms_next s <= tv_usec (wake (sched k i));
  mu_next : ms_next s = SOS_USECOND_PERIOD \/
    (ms_next s < SOS_USECOND_PERIOD /\
     exists i, 1 <= i < n /\ asleep_in k i = true /\ due k i = false /\
       wake (sched k i) = mk_timeval (sched_usecond_counter k) (ms_next s));
  mu_priority_max : forall i, 1 <= i < n -> asleep_in k i = true -> due k i = true ->
    stopped k i = false -> priority k i <= ms_priority s;
  mu_priority : ms_priority s = -1 \/
    exists i, 1 <= i < n /\ ms_priority s = priority k i;
}.

Lemma asleep_in_frame k k' i : task (k_tasks k') i = task (k_tasks k) i ->
  asleep_in k' i = asleep_in k i.
Proof. unfold asleep_in, task_enabled_not_active. now intros ->. Qed.
Lemma due_frame k k' i : sched k' i = sched k i ->
  sched_usecond_counter k' = sched_usecond_counter k -> clk_now k' = clk_now k ->
  due k' i = due k i.
Proof. unfold due. now intros -> -> ->. Qed.

Lemma matched_until_keep k n s : 1 <= n ->
  asleep_in k n = false \/
  (due k n = false /\ (tv_sec (wake (sched k n)) = sched_usecond_counter k ->
                       ms_next s <= tv_usec (wake (sched k n)))) ->
  matched_until k n s -> matched_until k (n + 1) s.
Proof.
  intros Hn Hk []. assert (Hex : forall P : Z -> Prop,
    (exists i, 1 <= i < n /\ P i) -> exists i, 1 <= i < n + 1 /\ P i).
  { intros P (i & ? & ?). exists i. split; [lia|done]. }
  split; try done.
  - intros i Hi Ha Hd. apply mu_woken0; try done.
    destruct (decide (i = n)) as [->|]; [destruct Hk as [|[]]; congruence|lia].
  - intros i Hi Ho. apply mu_other0; [done|]. destruct (decide (i = n)) as [->|]; [tauto|].
    destruct Ho as [|[|]]; auto; lia.
  - intros i Hi Ha Hd Hs. destruct (decide (i = n)) as [->|].
    + destruct Hk as [|[_ Hk]]; [congruence|auto].
    + apply mu_next_min0; [lia|done..].
  - destruct mu_next0 as [|[? ?]]; [now left|right; auto].
  - intros i Hi Ha Hd Hs. apply mu_priority_max0; try done.
    destruct (decide (i = n)) as [->|]; [destruct Hk as [|[]]; congruence|lia].
  - destruct mu_priority0 as [|]; [now left|right; auto].
Qed.

Lemma matched_until_sooner k n s : 1 <= n ->
  asleep_in k n = true -> due k n = false ->
  tv_sec (wake (sched k n)) = sched_usecond_counter k ->
  tv_usec (wake (sched k n)) < ms_next s -> matched_until k n s ->
  matched_until k (n + 1) (mk_match (ms_k s) (ms_priority s) (tv_usec (wake (sched k n)))).
Proof.
  intros Hn Ha Hd Hs Hlt [].
  assert (Hp : ms_next s <= SOS_USECOND_PERIOD) by (destruct mu_next0 as [|[]]; lia).
  split; simpl; try done.
  - intros i Hi Hai Hdi. apply mu_woken0; try done. destruct (decide (i = n)); [congruence|lia].
  - intros i Hi Ho. apply mu_other0; [done|]. destruct (decide (i = n)) as [->|]; [auto|].
    destruct Ho as [|[|]]; auto; lia.
  - intros i Hi Hai Hdi Hsi. destruct (decide (i = n)) as [->|]; [lia|].
    specialize (mu_next_min0 i ltac:(lia) Hai Hdi Hsi). lia.
  - right. split; [lia|]. exists n. split_and!; try done; try lia.
    destruct (wake (sched k n)); simpl in *; congruence.
  - intros i Hi Hai Hdi. apply mu_priority_max0; try done. destruct (decide (i = n)); [congruence|lia].
  - destruct mu_priority0 as [|(i & ? & ?)]; [now left|right; exists i; split; [lia|done]].
Qed.

Lemma matched_until_wake k n s p : 1 <= n < CONFIG_TASK_TOTAL ->
  asleep_in k n = true -> due k n = true ->
  ms_priority s <= p -> (p = ms_priority s \/ p = priority k n) ->
  (stopped k n = false -> priority k n <= p) ->
  matched_until k n s ->
  matched_until k (n + 1)
    (mk_match (scheduler_root_assert_active n SCHEDULER_UNBLOCK_SLEEP (ms_k s)) p (ms_next s)).
Proof.
  intros Hn Ha Hd Hp1 Hp2 Hp3 [].
  destruct (mu_other0 n ltac:(lia) ltac:(lia)) as [Htn Hsn].
  destruct (assert_active_woken n SCHEDULER_UNBLOCK_SLEEP (ms_k s) mu_wf0
              ltac:(unfold task_id; lia) ltac:(done)).
  assert (Hstop : forall i, 0 <= i -> stopped (scheduler_root_assert_active n SCHEDULER_UNBLOCK_SLEEP (ms_k s)) i
                    = stopped (ms_k s) i) by (intros; now apply wk_flag).
  split; simpl; try done.
  - intros i Hi Hai Hdi. destruct (decide (i = n)) as [->|Hne].
    + rewrite wk_priority, Hstop by lia. unfold priority, task_get_priority, stopped,
        task_stopped_asserted, task_flag_asserted. now rewrite Htn.
    + destruct (mu_woken0 i ltac:(lia) Hai Hdi) as (?&?&?&?&?).
      unfold active, task_active_asserted, task_flag_asserted, scheduler_unblock_type in *.
      rewrite wk_priority, Hstop, wk_task_ne, wk_sched_ne by lia. done.
  - intros i Hi Ho. assert (i <> n) by (destruct Ho as [|[|[|]]]; [lia|lia|congruence..]).
    rewrite wk_task_ne, wk_sched_ne by done. apply mu_other0; [done|].
    destruct Ho as [|[|]]; auto; lia.
  - intros i Hi Hai Hdi Hsi. apply mu_next_min0; try done. destruct (decide (i = n)); [congruence|lia].
  - destruct mu_next0 as [|(?&i&?&?)]; [now left|right; split; [done|exists i; split; [lia|done]]].
  - intros i Hi Hai Hdi Hs. destruct (decide (i = n)) as [->|]; [auto|].
    specialize (mu_priority_max0 i ltac:(lia) Hai Hdi Hs). lia.
  - destruct Hp2 as [->| ->]; [|right; exists n; split; [lia|done]].
    destruct mu_priority0 as [|(i & ? & ?)]; [now left|right; exists i; split; [lia|done]].
Qed.

Lemma matched_until_turn k n s : 1 <= n < CONFIG_TASK_TOTAL ->
  matched_until k n s -> matched_until k (n + 1) (match_turn n s).
Proof.
  intros Hn Hm. pose proof Hm as [Hwf (_ & _ & Hc & Hnow & _) _ Ho _ _ _ _].
  destruct (Ho n ltac:(lia) ltac:(lia)) as [Htn Hsn].
  unfold match_turn. rewrite (due_frame k) by done. rewrite Hsn, Hc.
  fold (asleep_in (ms_k s) n). rewrite (asleep_in_frame k) by done.
  destruct (asleep_in k n) eqn:Ea; [|apply matched_until_keep; auto; lia].
  destruct (due k n) eqn:Ed.
  - destruct (assert_active_woken n SCHEDULER_UNBLOCK_SLEEP (ms_k s) Hwf
                ltac:(unfold task_id; lia) ltac:(done)).
    set (k1 := scheduler_root_assert_active n SCHEDULER_UNBLOCK_SLEEP (ms_k s)) in *.
    assert (Hst : task_stopped_asserted (k_tasks k1) n = stopped k n).
    { etrans; [apply wk_flag; [lia|done]|]. unfold stopped, task_stopped_asserted, task_flag_asserted.
      now rewrite Htn. }
    assert (Hpr : task_get_priority (k_tasks k1) n = priority k n).
    { etrans; [apply wk_priority; lia|]. unfold priority, task_get_priority. now rewrite Htn. }
    rewrite Hst, Hpr. destruct (stopped k n) eqn:Es; simpl;
      [|destruct (Z.ltb_spec (ms_priority s) (priority k n))];
      apply matched_until_wake; auto; try lia; congruence.
  - destruct (Z.eqb_spec (tv_sec (wake (sched k n))) (sched_usecond_counter k)); simpl;
      [destruct (Z.ltb_spec (tv_usec (wake (sched k n))) (ms_next s))|].
    + apply matched_until_sooner; auto; lia.
    + apply matched_until_keep; auto; lia.
    + apply matched_until_keep; [lia| |done]. right. split; [done|]. intros; congruence.
Qed.

Lemma match_loop_spec k : kernel_wf k ->
  matched_until k CONFIG_TASK_TOTAL (match_scan k).
Proof.
  intros Hwf. apply (for_range_ind (matched_until k)); [done| |].
  - split; simpl; try done; try lia; now left.
  - intros n s Hn. apply matched_until_turn. exact Hn.
Qed.

(** An invariant of the scan (the loop itself is opaque from here on). *)
Lemma match_scan_ind (I : Z -> match_state -> Prop) k :
  I 1 (mk_match k (CONFIG_SCHED_LOWEST_PRIORITY - 1) SOS_USECOND_PERIOD) ->
  (forall i s, 1 <= i < CONFIG_TASK_TOTAL -> I i s -> I (i + 1) (match_turn i s)) ->
  I CONFIG_TASK_TOTAL (match_scan k).
Proof. intros H0 Hstep. now apply (for_range_ind I). Qed.
#[global] Opaque match_scan.

(** The same threads are asleep in kernels with the same threads. *)
Lemma same_threads_asleep k k' i : same_threads k k' -> 0 <= i -> asleep_in k' i = asleep_in k i.
Proof.
  intros [] Hi. unfold asleep_in, task_enabled_not_active. now rewrite st_flags.
Qed.

Lemma update_on_wake_oc id p k :
  clk_sleep_oc (scheduler_root_update_on_wake id p k) = clk_sleep_oc k.
Proof. unfold scheduler_root_update_on_wake. destruct (_ <? _); [|destruct (_ && _)]; reflexivity. Qed.

Lemma set_oc_same v k : same_threads k (set_sleep_oc v k).
Proof. by split. Qed.

Lemma match_finish_same s :
  same_threads (ms_k s) (match_finish s) /\ clk_sleep_oc (match_finish s) = match_alarm s.
Proof.
  unfold match_finish. rewrite update_on_wake_oc. split; [|reflexivity].
  etrans; [apply (set_oc_same (match_alarm s))|apply update_on_wake_same].
Qed.
Lemma match_finish_priority s : - 2 ^ 7 <= ms_priority s < 2 ^ 7 ->
  task_get_current_priority (k_tasks (match_finish s))
  = Z.max (task_get_current_priority (k_tasks (ms_k s))) (ms_priority s).
Proof. intros. unfold match_finish. now rewrite update_on_wake_priority. Qed.

Lemma match_event_same k :
  same_threads (ms_k (match_scan k)) (root_handle_usecond_match_event k) /\
  clk_sleep_oc (root_handle_usecond_match_event k) = match_alarm (match_scan k).
Proof. apply match_finish_same. Qed.

(** The same threads are asleep after the handler, less the ones it woke. *)
Lemma match_event_asleep k i : kernel_wf k -> 1 <= i < CONFIG_TASK_TOTAL ->
  let k' := root_handle_usecond_match_event k in
  asleep_in k' i = asleep_in k i && negb (due k i) /\
  (asleep_in k' i = true -> sched k' i = sched k i) /\
  sched_usecond_counter k' = sched_usecond_counter k /\ clk_now k' = clk_now k.
Proof.
  intros Hwf Hi k'. destruct (match_event_same k) as [Hsame _].
  destruct (match_loop_spec k Hwf) as [Hwf1 (_ & _ & Hc & Hn & _) Hw Ho _ _ _ _].
  set (s := match_scan k) in *. fold k' in Hsame.
  assert (Ha : asleep_in k' i = asleep_in k i && negb (due k i) /\
               (asleep_in k' i = true -> sched k' i = sched k i)).
  { rewrite (same_threads_asleep _ _ i Hsame) by lia.
    rewrite (same_threads_sched _ _ i Hsame).
    destruct (asleep_in k i) eqn:Ea, (due k i) eqn:Ed; simpl.
    - destruct (Hw i Hi Ea Ed) as [Hact _]. unfold asleep_in. rewrite enabled_not_active_flags.
      unfold active in Hact. rewrite Hact. simpl. split; [btauto|]. rewrite andb_false_r. done.
    - destruct (Ho i ltac:(lia) ltac:(auto)) as [Ht Hs]. split; [|done].
      rewrite (asleep_in_frame k) by done. done.
    - destruct (Ho i ltac:(lia) ltac:(auto)) as [Ht Hs]. split; [|done].
      rewrite (asleep_in_frame k) by done. done.
    - destruct (Ho i ltac:(lia) ltac:(auto)) as [Ht Hs]. split; [|done].
      rewrite (asleep_in_frame k) by done. done. }
  destruct Ha. split_and!; try done.
  - rewrite (st_counter _ _ Hsame). exact Hc.
  - rewrite (st_now _ _ Hsame). exact Hn.
Qed.

Lemma match_event_wf k : kernel_wf k -> kernel_wf (root_handle_usecond_match_event k).
Proof.
  intros Hwf. destruct (match_event_same k) as [Hsame _].
  eapply same_threads_wf; [exact Hsame|]. apply (mu_wf _ _ _ (match_loop_spec k Hwf)).
Qed.

(** The alarm is set for the first of the sleepers that stay. *)
Lemma match_event_alarm k : kernel_wf k -> clk_now k < SOS_USECOND_PERIOD ->
  let k' := root_handle_usecond_match_event k in
  clk_now k' < clk_sleep_oc k' /\
  (forall i, 1 <= i < CONFIG_TASK_TOTAL -> asleep_in k' i = true ->
     tv_sec (wake (sched k' i)) = sched_usecond_counter k' ->
     tv_usec (wake (sched k' i)) < SOS_USECOND_PERIOD ->
     clk_sleep_oc k' <= tv_usec (wake (sched k' i))) /\
  (clk_sleep_oc k' = SOS_USECOND_PERIOD + 1 \/
   exists i, 1 <= i < CONFIG_TASK_TOTAL /\ asleep_in k' i = true /\
     wake (sched k' i) = mk_timeval (sched_usecond_counter k') (clk_sleep_oc k')).
Proof.
  intros Hwf Hnow k'. destruct (match_event_same k) as [Hsame Hoc]. fold k' in Hsame, Hoc.
  pose proof (fun i => match_event_asleep k i Hwf) as Ha.
  destruct (match_loop_spec k Hwf) as [_ (_ & _ & Hc & Hn & _) _ _ Hmin Hnext _ _].
  set (s := match_scan k) in *. unfold match_alarm in Hoc.
  rewrite Hoc. split_and!.
  - destruct (Ha 1 ltac:(done)) as (_ & _ & _ & En). fold k' in En. rewrite En.
    destruct Hnext as [->|(Hlt & i & Hi & Hai & Hdi & Hwi)].
    + rewrite Z.ltb_irrefl. lia.
    + destruct (Z.ltb_spec (ms_next s) SOS_USECOND_PERIOD); [|lia].
      unfold due in Hdi. rewrite Hwi in Hdi. simpl in Hdi. bool_cases; simpl in Hdi; try lia; done.
  - intros i Hi Hai Hs Hu. destruct (Ha i Hi) as (E & Es & Ec & _). fold k' in E, Es, Ec.
    rewrite (Es Hai) in *. rewrite Ec in Hs. rewrite Hai in E. symmetry in E.
    apply andb_true_iff in E as [Hai0 Hd%negb_true_iff].
    specialize (Hmin i Hi Hai0 Hd Hs). destruct (Z.ltb_spec (ms_next s) SOS_USECOND_PERIOD); lia.
  - destruct Hnext as [->|(Hlt & i & Hi & Hai & Hdi & Hwi)]; [left; now rewrite Z.ltb_irrefl|].
    right. exists i. destruct (Ha i Hi) as (E & Es & Ec & _). fold k' in E, Es, Ec.
    rewrite Hai, Hdi in E. simpl in E. split_and!; try done; try lia.
    rewrite (Es E), Ec. destruct (Z.ltb_spec (ms_next s) SOS_USECOND_PERIOD); [done|lia].
Qed.

(** The compare interrupt of the microsecond timer wakes exactly the sleeping
    threads whose time has come (with the SLEEP unblock type and the block object
    reset), raises the current priority to that of every woken thread that is not
    stopped, and programs the alarm in the future, at the earliest wake time left
    in the period. *)
Theorem match_event_wakes_due k : kernel_wf k -> priorities_ok k -> clk_now k < SOS_USECOND_PERIOD ->
  let k' := root_handle_usecond_match_event k in
  (forall i, 1 <= i < CONFIG_TASK_TOTAL -> asleep_in k i = true -> due k i = true ->
     active k' i = true /\ block_object (sched k' i) = NULL /\
     scheduler_unblock_type k' i = SCHEDULER_UNBLOCK_SLEEP /\
     (stopped k i = false -> priority k i <= task_get_current_priority (k_tasks k'))) /\
  (forall i, 1 <= i < CONFIG_TASK_TOTAL -> asleep_in k i = true -> due k i = false ->
     asleep_in k' i = true /\ sched k' i = sched k i) /\
  clk_now k' < clk_sleep_oc k' /\
  (forall i, 1 <= i < CONFIG_TASK_TOTAL -> asleep_in k' i = true ->
     tv_sec (wake (sched k' i)) = sched_usecond_counter k' ->
     tv_usec (wake (sched k' i)) < SOS_USECOND_PERIOD ->
     clk_sleep_oc k' <= tv_usec (wake (sched k' i))).
Proof.
  intros Hwf Hp Hnow k'. destruct (match_event_alarm k Hwf Hnow) as (H1 & H2 & _).
  split_and!; [| |exact H1|exact H2].
  - intros i Hi Ha Hd. destruct (match_event_same k) as [Hsame _].
    destruct (match_loop_spec k Hwf) as [Hwf1 _ Hw _ _ _ Hmax Hpr].
    destruct (Hw i Hi Ha Hd) as (Hact & Hblk & Hub & Hpi & Hst).
    unfold k', active, scheduler_unblock_type, task_active_asserted in *.
    rewrite (same_threads_flag _ _ i _ Hsame), (same_threads_sched _ _ i Hsame) by lia.
    split_and!; try assumption. intros Hns. unfold root_handle_usecond_match_event.
    rewrite match_finish_priority.
    + specialize (Hmax i Hi Ha Hd Hns). lia.
    + destruct Hpr as [->|(j & Hj & ->)]; [lia|]. specialize (Hp j ltac:(lia)).
      unfold CONFIG_SCHED_LOWEST_PRIORITY, CONFIG_SCHED_HIGHEST_PRIORITY in Hp. lia.
  - intros i Hi Ha Hd. destruct (match_event_asleep k i Hwf Hi) as (E & Es & _).
    rewrite Ha, Hd in E. split; [exact E|]. apply Es. exact E.
Qed.

Definition timedblock_example : kernel :=
  scheduler_timing_root_timedblock NULL (mk_timeval 0 5000) (set_sleep_oc (SOS_USECOND_PERIOD + 1) example_kernel).
Definition after_5ms : kernel :=
  mk_kernel (k_tasks timedblock_example) (sos_sched_table timedblock_example) 0 5000 5000 0.

Lemma match_event_wakes_due_witness :
  asleep_in after_5ms 1 = true /\ active (root_handle_usecond_match_event after_5ms) 1 = true.
Proof.
  assert (Ha : asleep_in after_5ms 1 = true) by (vm_compute; reflexivity).
  assert (Hd : due after_5ms 1 = true) by (vm_compute; reflexivity).
  assert (Hwf : kernel_wf after_5ms) by (vm_compute; intuition congruence).
  assert (Hp : priorities_okb after_5ms = true) by (vm_compute; reflexivity).
  split; [exact Ha|].
  destruct (match_event_wakes_due after_5ms Hwf (priorities_okb_spec _ Hp) eq_refl) as [H _].
  destruct (H 1 ltac:(done) Ha Hd) as [Hact _]. exact Hact.
Defined.

(** ** Blocking with a deadline *)

Definition in_future (k : kernel) (t : mcu_timeval) : bool :=
  (sched_usecond_counter k <? tv_sec t)
  || ((tv_sec t =? sched_usecond_counter k) && (clk_now k <? tv_usec t)).

(** The entry the sleeping thread leaves in the scheduler table. *)
Definition block_entry (obj : ptr) (t : mcu_timeval) (s : sched_task_t) : sched_task_t :=
  with_wake t (with_block obj s).

Lemma timedblock_sleeps obj t k : kernel_wf k -> in_future k t = true ->
  scheduler_timing_root_timedblock obj t k
  = scheduler_root_update_on_sleep
      ((if tv_sec t =? sched_usecond_counter k then set_sleep_oc (Z.min (clk_sleep_oc k) (tv_usec t)) else id)
         (on_sched (current k) (block_entry obj t) k)).
Proof.
  intros [[_ Hc] Hl] Hf. unfold in_future in Hf. unfold scheduler_timing_root_timedblock. simpl.
  rewrite on_sched_twice by done. fold (block_entry obj t).
  destruct (Z.leb_spec (sched_usecond_counter k) (tv_sec t));
    destruct (Z.eqb_spec (tv_sec t) (sched_usecond_counter k));
    destruct (Z.ltb_spec (sched_usecond_counter k) (tv_sec t));
    destruct (Z.ltb_spec (clk_now k) (tv_usec t)); simpl in Hf; try lia; try done.
  f_equal. destruct (Z.ltb_spec (tv_usec t) (clk_sleep_oc k)).
  - rewrite Z.eqb_refl, Z.min_r by lia. done.
  - rewrite Z.min_l by lia. destruct (Z.eqb_spec (clk_sleep_oc k) (tv_usec t)) as [->|]; done.
Qed.

(** A deadline that has passed does not block: the thread keeps running, but the
    object is recorded as its block object. *)
Lemma timedblock_past obj t k : in_future k t = false ->
  k_tasks (scheduler_timing_root_timedblock obj t k) = k_tasks k /\
  clk_sleep_oc (scheduler_timing_root_timedblock obj t k) = clk_sleep_oc k.
Proof.
  intros Hf. unfold in_future in Hf. unfold scheduler_timing_root_timedblock. simpl.
  destruct (Z.leb_spec (sched_usecond_counter k) (tv_sec t));
    destruct (Z.eqb_spec (tv_sec t) (sched_usecond_counter k));
    destruct (Z.ltb_spec (sched_usecond_counter k) (tv_sec t));
    destruct (Z.ltb_spec (clk_now k) (tv_usec t)); simpl in Hf; try lia; done.
Qed.

Lemma update_on_sleep_oc k : clk_sleep_oc (scheduler_root_update_on_sleep k) = clk_sleep_oc k /\
  clk_now (scheduler_root_update_on_sleep k) = clk_now k.
Proof. done. Qed.

(** What a blocking call with a deadline in the future does. *)
Record sleeps_until (obj : ptr) (t : mcu_timeval) (k k' : kernel) : Prop := {
  su_asleep : asleep (current k) (on_sched (current k) (block_entry obj t) k) k';
  su_oc : clk_sleep_oc k' = if tv_sec t =? sched_usecond_counter k
                            then Z.min (clk_sleep_oc k) (tv_usec t) else clk_sleep_oc k;
  su_now : clk_now k' = clk_now k;
}.

Lemma timedblock_sleeps_until obj t k : kernel_wf k -> in_future k t = true ->
  sleeps_until obj t k (scheduler_timing_root_timedblock obj t k).
Proof.
  intros Hwf Hf. rewrite timedblock_sleeps by done.
  set (k1 := on_sched (current k) (block_entry obj t) k).
  assert (Hwf1 : kernel_wf k1).
  { destruct Hwf as [? ?]. split; [done|]. unfold k1. now rewrite Zlen_on_sched. }
  destruct (tv_sec t =? sched_usecond_counter k) eqn:E; split; rewrite ?E; try done.
  - set (k2 := set_sleep_oc _ k1). pose proof (update_on_sleep_asleep k2 Hwf1) as A.
    destruct A. by split.
  - exact (update_on_sleep_asleep k1 Hwf1).
Qed.

(** ** The alarm never loses a sleeper *)

Definition with_now (n : Z) (k : kernel) : kernel :=
  mk_kernel (k_tasks k) (sos_sched_table k) (sched_usecond_counter k) n (clk_sleep_oc k) (clk_timer_oc k).

(** A step of the rest of the system: it may wake, create, delete and switch
    threads and put a thread to sleep without a deadline, but leaves the timer
    alone. *)
Record quiet (k k' : kernel) : Prop := {
  q_wf : kernel_wf k';
  q_counter : sched_usecond_counter k' = sched_usecond_counter k;
  q_now : clk_now k' = clk_now k;
  q_oc : clk_sleep_oc k' = clk_sleep_oc k;
  q_asleep : forall i, 1 <= i < CONFIG_TASK_TOTAL -> asleep_in k' i = true ->
    tv_sec (wake (sched k' i)) = SCHEDULER_TIMEVAL_SEC_INVALID \/
    (asleep_in k i = true /\ wake (sched k' i) = wake (sched k i));
}.

(** The kernel with the timer running: the second component is the pending bit
    of the compare interrupt, which is raised when the count reaches the alarm
    and may stay pending for any time. *)
Inductive alarm_step : kernel * bool -> kernel * bool -> Prop :=
| alarm_tick k p : clk_now k + 1 < SOS_USECOND_PERIOD ->
    alarm_step (k, p) (with_now (clk_now k + 1) k, p || (clk_now k + 1 =? clk_sleep_oc k))
| alarm_match k : alarm_step (k, true) (root_handle_usecond_match_event k, false)
| alarm_overflow k p : clk_now k + 1 = SOS_USECOND_PERIOD ->
    sched_usecond_counter k + 1 < SCHEDULER_TIMEVAL_SEC_INVALID ->
    alarm_step (k, p)
      (root_handle_usecond_match_event (with_counter (u32 (sched_usecond_counter k + 1)) (with_now 0 k)),
       false)
| alarm_block k p obj t : 1 <= current k -> active k (current k) = true -> 0 <= tv_usec t ->
    alarm_step (k, p) (scheduler_timing_root_timedblock obj t k, p)
| alarm_quiet k k' p : quiet k k' -> alarm_step (k, p) (k', p).

Record alarm_ok (s : kernel * bool) : Prop := {
  al_wf : kernel_wf s.1;
  al_now : 0 <= clk_now s.1 < SOS_USECOND_PERIOD;
  al_counter : 0 <= sched_usecond_counter s.1 < SCHEDULER_TIMEVAL_SEC_INVALID;
  al_armed : s.2 = false -> clk_now s.1 < clk_sleep_oc s.1;
  al_period : forall i, 1 <= i < CONFIG_TASK_TOTAL -> asleep_in s.1 i = true ->
    sched_usecond_counter s.1 <= tv_sec (wake (sched s.1 i));
  al_first : forall i, 1 <= i < CONFIG_TASK_TOTAL -> asleep_in s.1 i = true ->
    tv_sec (wake (sched s.1 i)) = sched_usecond_counter s.1 ->
    tv_usec (wake (sched s.1 i)) < SOS_USECOND_PERIOD ->
    clk_sleep_oc s.1 <= tv_usec (wake (sched s.1 i));
}.

Lemma alarm_ok_match k p : kernel_wf k -> 0 <= clk_now k < SOS_USECOND_PERIOD ->
  0 <= sched_usecond_counter k < SCHEDULER_TIMEVAL_SEC_INVALID ->
  alarm_ok (root_handle_usecond_match_event k, p).
Proof.
  intros Hwf Hn Hc. destruct (match_event_alarm k Hwf ltac:(lia)) as (H1 & H2 & _).
  pose proof (fun i => match_event_asleep k i Hwf) as Ha.
  destruct (Ha 1 ltac:(done)) as (_ & _ & Ec & En).
  split; cbn [fst snd]; rewrite ?Ec, ?En; try assumption.
  - now apply match_event_wf.
  - intros _. rewrite <- En. exact H1.
  - intros i Hi Hai. destruct (Ha i Hi) as (E & Es & _). rewrite (Es Hai).
    rewrite Hai in E. symmetry in E. apply andb_true_iff in E as [_ Hd%negb_true_iff].
    unfold due in Hd. bool_cases; simpl in Hd; try discriminate; lia.
  - rewrite <- Ec. exact H2.
Qed.

Lemma alarm_ok_tick k p : clk_now k + 1 < SOS_USECOND_PERIOD -> alarm_ok (k, p) ->
  alarm_ok (with_now (clk_now k + 1) k, p || (clk_now k + 1 =? clk_sleep_oc k)).
Proof.
  intros Hlt []. simpl in *. split; simpl; try done; try lia.
  intros [-> He]%orb_false_iff. specialize (al_armed0 eq_refl). bool_cases; [done|lia].
Qed.

Lemma asleep_timedblock obj t k i : kernel_wf k -> 1 <= i < CONFIG_TASK_TOTAL -> 1 <= current k ->
  asleep_in (scheduler_timing_root_timedblock obj t k) i = true ->
  (i = current k /\ (in_future k t = true -> wake (sched (scheduler_timing_root_timedblock obj t k) i) = t)) \/
  (i <> current k /\ asleep_in k i = true /\
   sched (scheduler_timing_root_timedblock obj t k) i = sched k i).
Proof.
  intros Hwf Hi Hc Ha. destruct (decide (i = current k)) as [->|Hne].
  - left. split; [done|]. intros Hf. destruct (timedblock_sleeps_until obj t k Hwf Hf) as [[] _ _].
    unfold sched. rewrite as_sched.
    change (wake (sched (on_sched (current k) (block_entry obj t) k) (current k)) = t).
    rewrite sched_on_sched_eq; [done|apply Hwf|apply Hwf].
  - right. split; [done|]. destruct (in_future k t) eqn:Hf.
    + destruct (timedblock_sleeps_until obj t k Hwf Hf) as [[] _ _].
      split.
      * revert Ha. unfold asleep_in. rewrite !enabled_not_active_flags.
        unfold task_used_asserted, task_active_asserted. rewrite !as_flag_ne by (done || lia). done.
      * unfold sched. rewrite as_sched.
        change (sched (on_sched (current k) (block_entry obj t) k) i = sched k i).
        now rewrite sched_on_sched_ne by lia.
    + destruct (timedblock_past obj t k Hf) as [Ht _].
      split; [now rewrite <- Ha; unfold asleep_in; rewrite Ht|].
      unfold scheduler_timing_root_timedblock, in_future in *. simpl.
      bool_cases; simpl in Hf; try lia; try done; rewrite ?sched_on_sched_ne by lia; done.
Qed.

Lemma in_future_cases k t : in_future k t = true ->
  sched_usecond_counter k <= tv_sec t /\
  (tv_sec t = sched_usecond_counter k -> clk_now k < tv_usec t).
Proof. unfold in_future. intros H. bool_cases; simpl in H; try done; lia. Qed.

Lemma timedblock_clock obj t k : kernel_wf k ->
  sched_usecond_counter (scheduler_timing_root_timedblock obj t k) = sched_usecond_counter k /\
  clk_now (scheduler_timing_root_timedblock obj t k) = clk_now k /\
  kernel_wf (scheduler_timing_root_timedblock obj t k) /\
  clk_sleep_oc (scheduler_timing_root_timedblock obj t k)
  = if in_future k t && (tv_sec t =? sched_usecond_counter k)
    then Z.min (clk_sleep_oc k) (tv_usec t) else clk_sleep_oc k.
Proof.
  intros Hwf. destruct (in_future k t) eqn:Hf.
  - destruct (timedblock_sleeps_until obj t k Hwf Hf) as [[] Hoc Hn]. done.
  - destruct (timedblock_past obj t k Hf) as [_ Hoc].
    unfold scheduler_timing_root_timedblock, in_future in *. simpl in *.
    destruct Hwf as [? ?]. bool_cases; simpl in Hf; try lia; try done; split_and!; try done;
      (split; [done|]); rewrite ?Zlen_on_sched; done.
Qed.

Lemma alarm_ok_block k p obj t : 1 <= current k -> active k (current k) = true ->
  alarm_ok (k, p) -> alarm_ok (scheduler_timing_root_timedblock obj t k, p).
Proof.
  intros Hc Hact []. simpl in *.
  destruct (timedblock_clock obj t k al_wf0) as (Ec & En & Hwf & Eoc).
  assert (Hself : asleep_in k (current k) = false).
  { unfold asleep_in. rewrite enabled_not_active_flags. unfold active in Hact. rewrite Hact. btauto. }
  assert (Hoc : clk_sleep_oc (scheduler_timing_root_timedblock obj t k) <= clk_sleep_oc k)
    by (rewrite Eoc; destruct (_ && _); lia).
  assert (Hcase : forall i, 1 <= i < CONFIG_TASK_TOTAL ->
    asleep_in (scheduler_timing_root_timedblock obj t k) i = true ->
    (in_future k t = true /\ wake (sched (scheduler_timing_root_timedblock obj t k) i) = t) \/
    (asleep_in k i = true /\ sched (scheduler_timing_root_timedblock obj t k) i = sched k i)).
  { intros i Hi Ha. destruct (asleep_timedblock obj t k i al_wf0 Hi Hc Ha) as [[-> Hw]|(_ & ? & ?)]; [|now right].
    destruct (in_future k t) eqn:Hf; [left; auto|].
    exfalso. unfold asleep_in in Ha. rewrite (proj1 (timedblock_past obj t k Hf)) in Ha.
    unfold asleep_in in Hself. congruence. }
  split; cbn [fst snd]; rewrite ?Ec, ?En; try assumption.
  - intros Hp. specialize (al_armed0 Hp). rewrite Eoc.
    destruct (in_future k t) eqn:Hf; [|done]. apply in_future_cases in Hf as [? ?].
    simpl. destruct (Z.eqb_spec (tv_sec t) (sched_usecond_counter k)); [|done].
    apply Z.min_glb_lt; auto.
  - intros i Hi Ha. destruct (Hcase i Hi Ha) as [[Hf ->]|[? ->]]; [|auto].
    now apply in_future_cases in Hf as [? ?].
  - intros i Hi Ha. destruct (Hcase i Hi Ha) as [[Hf ->]|[Ha0 ->]].
    + intros Hs Hu. rewrite Eoc, Hf, Hs, Z.eqb_refl. simpl. lia.
    + intros Hs Hu. specialize (al_first0 i Hi Ha0 Hs Hu). lia.
Qed.

Lemma alarm_ok_step s s' : alarm_ok s -> alarm_step s s' -> alarm_ok s'.
Proof.
  intros Hok Hstep. destruct Hstep.
  - now apply alarm_ok_tick.
  - destruct Hok. now apply alarm_ok_match.
  - destruct Hok. simpl in *. apply alarm_ok_match; try done.
    cbn [sched_usecond_counter with_counter]. rewrite u32_id; [lia|].
    unfold SCHEDULER_TIMEVAL_SEC_INVALID, UINT_MAX in *. lia.
  - now apply alarm_ok_block.
  - destruct Hok, H. split; simpl in *; rewrite ?q_counter0, ?q_now0, ?q_oc0; try assumption.
    + intros i Hi Ha. destruct (q_asleep0 i Hi Ha) as [->|[? ->]]; [lia|auto].
    + intros i Hi Ha. destruct (q_asleep0 i Hi Ha) as [->|[? ->]]; [lia|auto].
Qed.

(** C17: No thread oversleeps: in every state the system reaches (the clock
    ticking and overflowing, threads blocking with deadlines, waking and being
    switched, the compare interrupt delayed arbitrarily), a thread that sleeps
    past its wake time has the compare interrupt pending, and serving the
    interrupt wakes it. *)
Theorem no_thread_oversleeps s s' i : alarm_ok s -> star alarm_step s s' ->
  1 <= i < CONFIG_TASK_TOTAL -> asleep_in s'.1 i = true -> due s'.1 i = true ->
  s'.2 = true /\ asleep_in (root_handle_usecond_match_event s'.1) i = false.
Proof.
  intros Hok Hs Hi Ha Hd.
  pose proof (star_invariant _ alarm_ok alarm_ok_step _ _ Hs Hok) as [Hwf Hn Hc Harm Hper Hfst].
  split.
  - destruct (s'.2) eqn:E; [done|]. specialize (Harm eq_refl).
    specialize (Hper i Hi Ha). specialize (Hfst i Hi Ha). unfold due in Hd.
    bool_cases; simpl in Hd; try done; lia.
  - destruct (match_event_asleep s'.1 i Hwf Hi) as (-> & _). rewrite Hd. btauto.
Qed.

(** Task 1 of the example sleeps until 5 ms; four ticks later it is due. *)
Definition alarm_example : kernel := with_now 4999 timedblock_example.

Lemma no_thread_oversleeps_witness :
  asleep_in (with_now 5000 alarm_example) 1 = true /\
  asleep_in (root_handle_usecond_match_event (with_now 5000 alarm_example)) 1 = false.
Proof.
  split; [vm_compute; reflexivity|].
  assert (Hp : Forall (fun i => asleep_in alarm_example i = true ->
            (sched_usecond_counter alarm_example <=? tv_sec (wake (sched alarm_example i)))
            && (clk_sleep_oc alarm_example <=? tv_usec (wake (sched alarm_example i)))
            || (sched_usecond_counter alarm_example <? tv_sec (wake (sched alarm_example i))) = true)
            (seqZ 1 (CONFIG_TASK_TOTAL - 1))).
  { vm_compute. repeat constructor; intros; congruence. }
  assert (Hok : alarm_ok (alarm_example, false)).
  { split; cbn [fst snd].
    - vm_compute. intuition congruence.
    - vm_compute. intuition congruence.
    - vm_compute. intuition congruence.
    - vm_compute. reflexivity.
    - intros i Hi Ha. specialize (each_task _ Hp i Hi Ha). intros H. bool_cases; simpl in H; lia || done.
    - intros i Hi Ha. specialize (each_task _ Hp i Hi Ha). intros H ? ?. bool_cases; simpl in H; lia || done. }
  assert (Hst : star alarm_step (alarm_example, false) (with_now 5000 alarm_example, true)).
  { eapply star_step; [|apply star_refl]. apply (alarm_tick alarm_example false). reflexivity. }
  apply (no_thread_oversleeps _ _ 1 Hok Hst); [done|vm_compute; reflexivity|vm_compute; reflexivity].
Defined.
