(* ===== verification/Threads.v ===== *)
(** * What the kernel's operations do to each thread

    The synchronisation objects see a thread through its activity, its block
    object, the reason it was last unblocked and its wake time.  This file gives
    the effect of every root operation on that view, and the frame each keeps;
    it also has [signal_root_activate] ([src/sys/signal/pthread_kill.c]), the
    effect of a signal on the scheduler. *)
From S2P Require Import Prelude Task Scheduler Timing.

(** The scheduler's part of delivering a signal to thread [id]. *)
Definition signal_root_activate (id : Z) (k : kernel) : kernel :=
  let k := on_tasks (task_deassert_stopped id) k in
  let k := scheduler_root_assert_active id SCHEDULER_UNBLOCK_SIGNAL k in
  scheduler_root_update_on_wake id (task_get_priority (k_tasks k) id) k.

Record thread_view := mk_view {
  v_active : bool;
  v_block : ptr;
  v_unblock : Z;
  v_wake : mcu_timeval;
}.
Definition view (k : kernel) (i : Z) : thread_view :=
  mk_view (active k i) (block_object (sched k i)) (scheduler_unblock_type k i) (wake (sched k i)).

(** What no operation of this layer changes. *)
Record frame (k k' : kernel) : Prop := {
  fr_wf : kernel_wf k -> kernel_wf k';
  fr_enabled : forall j, 0 <= j -> enabled k' j = enabled k j;
  fr_stopped : forall j, 0 <= j -> stopped k' j = true -> stopped k j = true;
  fr_priority : forall j, 0 <= j -> sched_priority (sched k' j) = sched_priority (sched k j);
  fr_pid : forall j, 0 <= j -> task_get_pid (k_tasks k') j = task_get_pid (k_tasks k) j;
  fr_counter : sched_usecond_counter k' = sched_usecond_counter k;
  fr_current : current k' = current k;
}.
#[export] Instance frame_preorder : PreOrder frame.
Proof.
  split.
  - intros k. by split.
  - intros k1 k2 k3 [] []. split; try congruence; auto.
    all: intros j Hj;
      first [rewrite fr_enabled1 by done | rewrite fr_priority1 by done | rewrite fr_pid1 by done | idtac];
      auto.
Qed.

(** The kernels differ at most in the view of thread [i]. *)
Definition only (i : Z) (k k' : kernel) : Prop :=
  frame k k' /\ forall j, 0 <= j -> j <> i -> view k' j = view k j.
#[export] Instance only_preorder i : PreOrder (only i).
Proof.
  split.
  - intros k. split; [reflexivity|done].
  - intros k1 k2 k3 [F1 V1] [F2 V2]. split; [now transitivity k2|].
    intros j Hj Hne. rewrite V2, V1 by done. done.
Qed.

(** Same views everywhere. *)
Definition unchanged (k k' : kernel) : Prop :=
  frame k k' /\ forall j, 0 <= j -> view k' j = view k j.
#[export] Instance unchanged_preorder : PreOrder unchanged.
Proof.
  split.
  - intros k. split; [reflexivity|done].
  - intros k1 k2 k3 [F1 V1] [F2 V2]. split; [now transitivity k2|].
    intros j Hj. rewrite V2, V1 by done. done.
Qed.
Lemma unchanged_only i k k' : unchanged k k' -> only i k k'.
Proof. intros [F V]. split; [done|]. intros; now apply V. Qed.
Lemma only_frame i k k' : only i k k' -> frame k k'.
Proof. now intros []. Qed.
Lemma only_view i j k k' : only i k k' -> 0 <= j -> j <> i -> view k' j = view k j.
Proof. intros [_ V]. apply V. Qed.
Lemma unchanged_view j k k' : unchanged k k' -> 0 <= j -> view k' j = view k j.
Proof. intros [_ V]. apply V. Qed.

Lemma same_threads_unchanged k k' : same_threads k k' -> unchanged k k'.
Proof.
  intros S. split.
  - split.
    + now apply same_threads_wf.
    + intros j Hj. now apply same_threads_flag.
    + intros j Hj. unfold stopped, task_stopped_asserted. now rewrite (same_threads_flag _ _ _ _ S).
    + intros j Hj. now rewrite (same_threads_sched _ _ _ S).
    + intros j Hj. now apply S.
    + apply S.
    + apply S.
  - intros j Hj. unfold view, active, task_active_asserted, scheduler_unblock_type.
    now rewrite (same_threads_sched _ _ _ S), (same_threads_flag _ _ _ _ S).
Qed.

Lemma update_on_wake_unchanged id p k : unchanged k (scheduler_root_update_on_wake id p k).
Proof. apply same_threads_unchanged, update_on_wake_same. Qed.
Lemma update_on_stopped_unchanged k : unchanged k (scheduler_root_update_on_stopped k).
Proof. apply same_threads_unchanged, update_on_stopped_same. Qed.

Lemma set_priority_unchanged id p k : unchanged k (on_tasks (task_set_priority id p) k).
Proof.
  assert (Hf : forall j g, 0 <= j -> task_flag_asserted (task_set_priority id p (k_tasks k)) j g
                 = task_flag_asserted (k_tasks k) j g).
  { intros j g Hj. unfold task_flag_asserted, task_set_priority.
    now rewrite (on_task_field task_flags). }
  split; [split|].
  - intros [[Hl Hc] Hs]. split; [split|]; [|done|done].
    etrans; [apply Zlen_on_task|exact Hl].
  - intros j Hj. now apply Hf.
  - intros j Hj. unfold stopped, task_stopped_asserted. simpl. now rewrite Hf.
  - done.
  - intros j Hj. unfold task_get_pid, task_set_priority. simpl. now rewrite (on_task_field task_pid).
  - done.
  - done.
  - intros j Hj. unfold view. f_equal. apply (Hf j TASK_FLAGS_ACTIVE Hj).
Qed.
Lemma set_current_priority_unchanged p k :
  unchanged k (on_tasks (task_root_set_current_priority p) k).
Proof. split; [by split|done]. Qed.

Lemma assert_active_only id u k : kernel_wf k -> task_id id -> 0 <= u < 16 ->
  only id k (scheduler_root_assert_active id u k) /\
  view (scheduler_root_assert_active id u k) id
  = mk_view true NULL u (mk_timeval SCHEDULER_TIMEVAL_SEC_INVALID 0).
Proof.
  intros Hwf Hi Hu. destruct (assert_active_woken id u k Hwf Hi Hu). split; [split; [split|]|]; try done.
  - intros j Hj. now apply wk_flag.
  - intros j Hj. unfold stopped, task_stopped_asserted. now rewrite wk_flag.
  - intros j Hj Hne. unfold view, active, task_active_asserted, task_flag_asserted, scheduler_unblock_type.
    now rewrite wk_task_ne, wk_sched_ne.
  - unfold view. now rewrite wk_active, wk_block, wk_unblock, wk_wake.
Qed.

(** Updates of the entry of one thread. *)
Lemma on_sched_only id f k : (forall t, sched_priority (f t) = sched_priority t) ->
  only id k (on_sched id f k).
Proof.
  intros Hf. split; [split|]; try done.
  - intros [? ?]. split; [done|]. now rewrite Zlen_on_sched.
  - intros j Hj. now rewrite (on_sched_field sched_priority).
  - intros j Hj Hne. unfold view, scheduler_unblock_type. now rewrite sched_on_sched_ne by auto.
Qed.
Lemma view_on_sched id f k : kernel_wf k -> task_id id ->
  view (on_sched id f k) id
  = mk_view (active k id) (block_object (f (sched k id)))
      (Z.land (sched_flags (f (sched k id))) SCHEDULER_TASK_FLAG_UNBLOCK_MASK) (wake (f (sched k id))).
Proof.
  intros Hwf Hi. unfold view, scheduler_unblock_type. rewrite sched_on_sched_eq; [done|apply Hwf|done].
Qed.

Lemma set_unblock_type_only id u k : kernel_wf k -> task_id id -> 0 <= u < 16 ->
  only id k (scheduler_root_set_unblock_type id u k) /\
  view (scheduler_root_set_unblock_type id u k) id
  = mk_view (active k id) (block_object (sched k id)) u (wake (sched k id)).
Proof.
  intros Hwf Hi Hu. unfold scheduler_root_set_unblock_type.
  rewrite on_sched_twice by (apply Hwf || done).
  split; [now apply on_sched_only|]. rewrite view_on_sched by done. f_equal. simpl.
  unfold Bits.set. rewrite Z.land_lor_distr_l, land_clear_same, Z.lor_0_l.
  change SCHEDULER_TASK_FLAG_UNBLOCK_MASK with (Z.ones 4). rewrite Z.land_ones by lia.
  apply Z.mod_small. simpl; lia.
Qed.

Lemma asleep_only id k k' : asleep id k k' -> only id k k' /\ view k' id
  = mk_view false (block_object (sched k id)) (scheduler_unblock_type k id) (wake (sched k id)).
Proof.
  intros []. assert (Hs : forall j, sched k' j = sched k j) by (intros; unfold sched; congruence).
  split; [split; [split|]|]; try done.
  - intros j Hj. now apply as_flag.
  - intros j Hj. unfold stopped, task_stopped_asserted. now rewrite as_flag.
  - intros j Hj. now rewrite Hs.
  - intros j Hj Hne. unfold view, active, task_active_asserted, scheduler_unblock_type.
    now rewrite as_flag_ne, Hs.
  - unfold view, scheduler_unblock_type. now rewrite as_active, Hs.
Qed.

(** Blocking with a deadline changes only the calling thread. *)
Lemma timedblock_only obj t k : kernel_wf k ->
  only (current k) k (scheduler_timing_root_timedblock obj t k) /\
  if in_future k t
  then view (scheduler_timing_root_timedblock obj t k) (current k)
       = mk_view false obj (scheduler_unblock_type k (current k)) t
  else v_active (view (scheduler_timing_root_timedblock obj t k) (current k)) = active k (current k) /\
       v_unblock (view (scheduler_timing_root_timedblock obj t k) (current k))
       = scheduler_unblock_type k (current k).
Proof.
  intros Hwf. assert (Hid : task_id (current k)) by apply Hwf.
  destruct (in_future k t) eqn:Hf.
  - destruct (timedblock_sleeps_until obj t k Hwf Hf) as [A _ _].
    destruct (asleep_only _ _ _ A) as [Ho Hv].
    split; [etrans; [now apply (on_sched_only (current k) (block_entry obj t))|exact Ho]|].
    rewrite Hv. unfold scheduler_unblock_type. now rewrite sched_on_sched_eq by (apply Hwf || done).
  - assert (Hbw : forall k, kernel_wf k -> task_id (current k) ->
      v_active (view (on_sched (current k) (with_block obj) k) (current k)) = active k (current k) /\
      v_unblock (view (on_sched (current k) (with_block obj) k) (current k))
      = scheduler_unblock_type k (current k) /\
      v_active (view (on_sched (current k) (block_entry obj t) k) (current k)) = active k (current k) /\
      v_unblock (view (on_sched (current k) (block_entry obj t) k) (current k))
      = scheduler_unblock_type k (current k)).
    { intros k0 H1 H2. rewrite !view_on_sched by done. done. }
    destruct (Hbw k Hwf Hid) as (V1 & V2 & V3 & V4).
    unfold scheduler_timing_root_timedblock, in_future in *. simpl.
    rewrite on_sched_twice by (apply Hwf || done). fold (block_entry obj t).
    bool_cases; simpl in Hf; try lia; try done; (split; [now apply on_sched_only|done]).
Qed.

(** The compare interrupt. *)
Lemma asleep_in_active k i : asleep_in k i = enabled k i && negb (active k i).
Proof. apply enabled_not_active_flags. Qed.

Lemma match_scan_frame k : kernel_wf k -> frame k (ms_k (match_scan k)).
Proof.
  intros Hwf. apply (match_scan_ind (fun _ s => frame k (ms_k s))); [reflexivity|].
  intros n s Hn F. unfold match_turn.
  destruct (task_enabled_not_active _ _); [|done]. destruct (due _ _).
  - etrans; [exact F|].
    assert (Ho : only n (ms_k s) (scheduler_root_assert_active n SCHEDULER_UNBLOCK_SLEEP (ms_k s))).
    { apply assert_active_only; [apply F, Hwf|unfold task_id; lia|done]. }
    destruct (_ && _); apply (only_frame _ _ _ Ho).
  - destruct (_ && _); done.
Qed.

Lemma match_event_views k : kernel_wf k -> frame k (root_handle_usecond_match_event k) /\
  forall i, 1 <= i < CONFIG_TASK_TOTAL ->
  if asleep_in k i && due k i
  then v_active (view (root_handle_usecond_match_event k) i) = true /\
       v_block (view (root_handle_usecond_match_event k) i) = NULL /\
       v_unblock (view (root_handle_usecond_match_event k) i) = SCHEDULER_UNBLOCK_SLEEP
  else view (root_handle_usecond_match_event k) i = view k i.
Proof.
  intros Hwf. destruct (match_event_same k) as [S _].
  apply same_threads_unchanged in S as [F V].
  split; [etrans; [now apply match_scan_frame|exact F]|]. intros i Hi. rewrite V by lia.
  destruct (match_loop_spec k Hwf) as [_ _ Hw Ho _ _ _ _].
  destruct (asleep_in k i) eqn:Ea; [destruct (due k i) eqn:Ed|]; cbn [andb].
  - destruct (Hw i Hi Ea Ed) as (?&?&?&_). done.
  - destruct (Ho i ltac:(lia) ltac:(auto)) as [Ht Hs].
    unfold view, active, task_active_asserted, task_flag_asserted, scheduler_unblock_type. now rewrite Ht, Hs.
  - destruct (Ho i ltac:(lia) ltac:(auto)) as [Ht Hs].
    unfold view, active, task_active_asserted, task_flag_asserted, scheduler_unblock_type. now rewrite Ht, Hs.
Qed.

(** A signal makes its thread active whatever it waited for. *)
Lemma signal_root_activate_only id k : kernel_wf k -> task_id id ->
  only id k (signal_root_activate id k) /\
  view (signal_root_activate id k) id
  = mk_view true NULL SCHEDULER_UNBLOCK_SIGNAL (mk_timeval SCHEDULER_TIMEVAL_SEC_INVALID 0).
Proof.
  intros Hwf Hi. unfold signal_root_activate. set (k1 := on_tasks (task_deassert_stopped id) k).
  assert (O1 : only id k k1).
  { split; [split|]; try done.
    - intros [[Hl Hc] Hs]. split; [split|]; [|done|done]. etrans; [apply Zlen_on_task|exact Hl].
    - intros j Hj. now apply flag_clear_disjoint.
    - intros j Hj. unfold stopped, task_stopped_asserted. simpl.
      destruct (decide (id = j)) as [->|Hne].
      + unfold task_deassert_stopped. rewrite flag_clear_same; [done|done|apply Hwf|done].
      + unfold task_deassert_stopped. now rewrite flag_clear_ne by done.
    - intros j Hj. unfold task_get_pid. simpl. unfold task_deassert_stopped, task_deassert_flag.
      now rewrite (on_task_field task_pid).
    - intros j Hj Hne. unfold view. f_equal. apply flag_clear_ne; auto. }
  assert (Hwf1 : kernel_wf k1) by (apply O1, Hwf).
  destruct (assert_active_only id SCHEDULER_UNBLOCK_SIGNAL k1 Hwf1 Hi ltac:(done)) as [O2 V2].
  set (k2 := scheduler_root_assert_active _ _ _) in *.
  pose proof (update_on_wake_unchanged id (task_get_priority (k_tasks k2) id) k2) as U.
  split.
  - etrans; [exact O1|]. etrans; [exact O2|]. now apply unchanged_only.
  - rewrite (unchanged_view _ _ _ U) by apply Hi. exact V2.
Qed.

(** Giving the processor to another thread. *)
Definition switch_to (i : Z) : kernel -> kernel := on_tasks (with_current i).
Lemma switch_to_views i k j : view (switch_to i k) j = view k j.
Proof. reflexivity. Qed.

(** ** Counting threads *)

Definition count_in (P : Z -> bool) (l : list Z) : Z := Zlen (List.filter P l).
Definition count_tasks (P : Z -> bool) : Z := count_in P (seqZ 1 (CONFIG_TASK_TOTAL - 1)).

Lemma count_in_cons P x l : count_in P (x :: l) = Z.b2z (P x) + count_in P l.
Proof. unfold count_in. simpl. destruct (P x); simpl; rewrite ?Zlen_cons; lia. Qed.
Lemma count_in_mono P Q l : (forall i, i ∈ l -> P i = true -> Q i = true) -> count_in P l <= count_in Q l.
Proof.
  induction l as [|x l IH]; intros H; [done|]. rewrite !count_in_cons.
  specialize (IH (fun i Hi => H i (list_elem_of_further _ _ _ Hi))).
  specialize (H x (list_elem_of_here _ _)).
  destruct (P x) eqn:E; [rewrite H by done|destruct (Q x)]; simpl; lia.
Qed.
Lemma count_in_step P Q i l : NoDup l -> (forall j, j ∈ l -> j <> i -> Q j = P j) ->
  count_in Q l = count_in P l + if decide (i ∈ l) then Z.b2z (Q i) - Z.b2z (P i) else 0.
Proof.
  induction l as [|x l IH]; intros Hnd H; [done|]. apply NoDup_cons in Hnd as [Hx Hnd].
  rewrite !count_in_cons, (IH Hnd) by (intros j Hj; apply H; now apply list_elem_of_further).
  destruct (decide (x = i)) as [->|Hne].
  - rewrite (decide_False (P := i ∈ l)) by done. rewrite decide_True by apply list_elem_of_here. lia.
  - rewrite (H x (list_elem_of_here _ _) Hne).
    destruct (decide (i ∈ l)) as [Hi|Hi].
    + rewrite decide_True by now apply list_elem_of_further. lia.
    + rewrite decide_False; [lia|]. now intros [->|?]%elem_of_cons.
Qed.

Lemma count_tasks_mono P Q :
  (forall i, 1 <= i < CONFIG_TASK_TOTAL -> P i = true -> Q i = true) -> count_tasks P <= count_tasks Q.
Proof. intros H. apply count_in_mono. intros i Hi%elem_of_seqZ. apply H. lia. Qed.
Lemma count_tasks_step P Q i : 1 <= i < CONFIG_TASK_TOTAL ->
  (forall j, 1 <= j < CONFIG_TASK_TOTAL -> j <> i -> Q j = P j) ->
  count_tasks Q = count_tasks P + Z.b2z (Q i) - Z.b2z (P i).
Proof.
  intros Hi H. unfold count_tasks. rewrite (count_in_step P Q i).
  - rewrite decide_True by (apply elem_of_seqZ; lia). lia.
  - apply NoDup_seqZ.
  - intros j Hj%elem_of_seqZ. apply H. lia.
Qed.
Lemma count_tasks_nonneg P : 0 <= count_tasks P.
Proof. apply Zlen_nonneg. Qed.
