(* ===== verification/Mutex.v ===== *)
(** * Mutexes

    [src/sys/pthread/pthread_mutex.c] and [pthread_mutex_init.c].  A mutex lives
    at an address; the flags of [pthread_mutex_t] are booleans.  A call that can
    block is split where the thread gives up the processor: the call returns
    [Waiting] when the thread has entered the wait loop of [mutex_trylock], and
    [mutex_wait_turn] is one evaluation of the loop when the thread runs. *)
From S2P Require Import Prelude Task Scheduler Timing Threads.

Definition CONFIG_PTHREAD_MAX_LOCKS : Z := 1024.
Definition CONFIG_PTHREAD_MUTEX_PRIO_CEILING : Z := 0.

Record pthread_mutex_t := mk_mutex {
  mutex_initialized : bool;      (** [PTHREAD_MUTEX_FLAGS_INITIALIZED] *)
  mutex_pshared : bool;          (** [PTHREAD_MUTEX_FLAGS_PSHARED] *)
  mutex_recursive : bool;        (** [PTHREAD_MUTEX_FLAGS_RECURSIVE] *)
  mutex_prio_ceiling : Z;
  mutex_pid : Z;
  mutex_pthread : Z;             (** the owner, -1 when free *)
  mutex_lock : Z;                (** the lock count *)
}.
#[export] Instance mutex_inhabited : Inhabited pthread_mutex_t :=
  populate (mk_mutex false false false 0 0 0 0).

Record pthread_mutexattr_t := mk_mutexattr {
  mattr_process_shared : Z;
  mattr_recursive : Z;
  mattr_prio_ceiling : Z;
}.

(** The kernel and the synchronisation objects in memory. *)
Record world := mk_world {
  w_k : kernel;
  w_mutex : gmap Z pthread_mutex_t;
  w_cond : gmap Z Z;
}.

Definition with_k (k : kernel) (w : world) : world := mk_world k (w_mutex w) (w_cond w).
Definition mutex (w : world) (a : Z) : pthread_mutex_t := w_mutex w !!! a.
Definition set_mutex (a : Z) (m : pthread_mutex_t) (w : world) : world :=
  mk_world (w_k w) (<[a := m]> (w_mutex w)) (w_cond w).
Definition w_current (w : world) : Z := current (w_k w).
Definition getpid (w : world) : Z := task_get_pid (k_tasks (w_k w)) (w_current w).

Definition with_owner (pid pthread lock : Z) (m : pthread_mutex_t) : pthread_mutex_t :=
  mk_mutex (mutex_initialized m) (mutex_pshared m) (mutex_recursive m) (mutex_prio_ceiling m)
    pid pthread lock.
Definition with_lock (lock : Z) (m : pthread_mutex_t) : pthread_mutex_t :=
  with_owner (mutex_pid m) (mutex_pthread m) lock m.
Definition with_ceiling (p : Z) (m : pthread_mutex_t) : pthread_mutex_t :=
  mk_mutex (mutex_initialized m) (mutex_pshared m) (mutex_recursive m) p
    (mutex_pid m) (mutex_pthread m) (mutex_lock m).

(** The return value of a call: [Err e] is -1 with [errno] set to [e]. *)
Inductive api_result := Ret (v : Z) | Err (e : Z).

(** [svcall_mutex_trylock_t] *)
Record trylock_args := mk_trylock {
  ta_id : Z; ta_mutex : Z; ta_trylock : bool; ta_abs_timeout : mcu_timeval }.

(** The value of [mutex_trylock] with [errno] where it sets it, or the wait
    loop it is in. *)
Inductive try_result := Tried (r : Z) (e : Z) | Looping (args : trylock_args).

Inductive progress := Returned (r : api_result) | Waiting (args : trylock_args).

(** ** Initialisation *)

Definition pthread_mutex_init (a : Z) (attr : option pthread_mutexattr_t) (w : world)
    : world * api_result :=
  if a =? 0 then (w, Err EINVAL)
  else match attr with
  | None =>
      let pid := if w_current w =? 0 then 0 else task_get_pid (k_tasks (w_k w)) (w_current w) in
      (set_mutex a (mk_mutex true false false CONFIG_PTHREAD_MUTEX_PRIO_CEILING pid (-1) 0) w, Ret 0)
  | Some attr =>
      (set_mutex a (mk_mutex true (negb (mattr_process_shared attr =? 0))
                      (negb (mattr_recursive attr =? 0)) (mattr_prio_ceiling attr)
                      (task_get_pid (k_tasks (w_k w)) (w_current w)) (-1) 0) w, Ret 0)
  end.

Definition mutex_check_initialized (a : Z) (w : world) : option Z :=
  if (a =? 0) || negb (Z.land a 3 =? 0) then Some EINVAL
  else if negb (mutex_initialized (mutex w a)) then Some EINVAL
  else None.

Definition pthread_mutex_destroy (a : Z) (w : world) : world * api_result :=
  match mutex_check_initialized a w with
  | Some e => (w, Err e)
  | None => (set_mutex a (mk_mutex false false false 0 0 (-1) 0) w, Ret 0)
  end.

Definition pthread_mutex_getprioceiling (a : Z) (w : world) : api_result * option Z :=
  match mutex_check_initialized a w with
  | Some e => (Err e, None)
  | None => (Ret 0, Some (mutex_prio_ceiling (mutex w a)))
  end.

(** The old ceiling goes to [*old_ceiling] when the pointer is not null. *)
Definition pthread_mutex_setprioceiling (a prioceiling : Z) (w : world)
    : world * api_result * option Z :=
  match mutex_check_initialized a w with
  | Some e => (w, Err e, None)
  | None =>
      if prioceiling <? CONFIG_SCHED_LOWEST_PRIORITY then (w, Err EINVAL, None)
      else if CONFIG_SCHED_HIGHEST_PRIORITY <? prioceiling then (w, Err EINVAL, None)
      else (set_mutex a (with_ceiling prioceiling (mutex w a)) w, Ret 0,
            Some (mutex_prio_ceiling (mutex w a)))
  end.

(** ** Locking *)

Definition root_mutex_block (args : trylock_args) (k : kernel) : kernel :=
  let k := on_sched (ta_id args) (with_block (Pobj (ta_mutex args))) k in
  scheduler_timing_root_timedblock (Pobj (ta_mutex args)) (ta_abs_timeout args) k.

Definition svcall_mutex_trylock (args : trylock_args) (w : world) : world * Z :=
  let a := ta_mutex args in
  let id := ta_id args in
  let m := mutex w a in
  if mutex_pthread m =? -1 then
    let m := with_owner (task_get_pid (k_tasks (w_k w)) id) id (mutex_lock m) m in
    let k :=
      if task_get_priority (k_tasks (w_k w)) id <? mutex_prio_ceiling m then
        let k := on_tasks (task_set_priority id (mutex_prio_ceiling m)) (w_k w) in
        on_tasks (task_root_set_current_priority (mutex_prio_ceiling m)) k
      else w_k w in
    (set_mutex a (with_lock 1 m) (with_k k w), 0)
  else if ta_trylock args then (w, -2)
  else (with_k (root_mutex_block args (w_k w)) w, -2).

Definition svcall_mutex_unblocked (args : trylock_args) (w : world) : world :=
  let id := ta_id args in
  if mutex_pthread (mutex w (ta_mutex args)) =? id then
    with_k (scheduler_root_set_unblock_type id SCHEDULER_UNBLOCK_MUTEX (w_k w)) w
  else
    let k := root_mutex_block args (w_k w) in
    if task_active_asserted (k_tasks k) id
    then with_k (scheduler_root_set_unblock_type id SCHEDULER_UNBLOCK_SLEEP k) w
    else with_k k w.

(** One evaluation of [while (scheduler_unblock_type(id) == SIGNAL)]. *)
Definition mutex_wait_turn (args : trylock_args) (w : world) : world * try_result :=
  if scheduler_unblock_type (w_k w) (ta_id args) =? SCHEDULER_UNBLOCK_SIGNAL
  then (svcall_mutex_unblocked args w, Looping args)
  else (w, Tried (-2) 0).

Definition mutex_trylock (a : Z) (trylock : bool) (abs_timeout : option timespec) (w : world)
    : world * try_result :=
  if a =? 0 then (w, Tried (-1) EINVAL)
  else
    let m := mutex w a in
    if negb (mutex_initialized m) then (w, Tried (-1) EINVAL)
    else if negb (mutex_pshared m) && negb (mutex_pid m =? getpid w) then (w, Tried (-1) EACCES)
    else
      let id := w_current w in
      if mutex_pthread m =? id then
        if mutex_recursive m then
          if mutex_lock m <? CONFIG_PTHREAD_MAX_LOCKS
          then (set_mutex a (with_lock (mutex_lock m + 1) m) w, Tried 0 0)
          else (w, Tried (-1) EAGAIN)
        else (w, Tried 1 0)
      else
        let args := mk_trylock id a trylock (scheduler_timing_convert_timespec abs_timeout) in
        let '(w, result) := svcall_mutex_trylock args w in
        if result =? -2 then (w, Looping args) else (w, Tried result 0).

(** What each entry point makes of the value of [mutex_trylock]. *)
Definition lock_switch (ret e : Z) : api_result :=
  if ret =? 1 then Err EDEADLK else if ret =? -1 then Err e else Ret 0.
Definition trylock_switch (ret e : Z) : api_result :=
  if (ret =? 0) || (ret =? 1) then Ret 0 else if ret =? -2 then Err EBUSY else Err e.
Definition timedlock_switch (w : world) (a ret e : Z) : api_result :=
  if ret =? 1 then Err EDEADLK
  else if ret =? -2 then
    if mutex_pthread (mutex w a) =? w_current w then Ret 0 else Err ETIMEDOUT
  else if ret =? -1 then Err e else Ret 0.

Inductive lock_call := CallLock | CallTrylock | CallTimedlock (abs_timeout : option timespec).
Definition call_switch (c : lock_call) (a : Z) (w : world) (t : try_result) : progress :=
  match t with
  | Looping args => Waiting args
  | Tried r e =>
      Returned match c with
               | CallLock => lock_switch r e
               | CallTrylock => trylock_switch r e
               | CallTimedlock _ => timedlock_switch w a r e
               end
  end.

(** [pthread_mutex_lock], [pthread_mutex_trylock] and [pthread_mutex_timedlock]
    up to the wait loop, and a turn of the loop. *)
Definition pthread_mutex_call (c : lock_call) (a : Z) (w : world) : world * progress :=
  if w_current w =? 0 then (w, Returned (Ret 0))
  else match mutex_check_initialized a w with
  | Some e => (w, Returned (Err e))
  | None =>
      let '(w, t) :=
        match c with
        | CallLock => mutex_trylock a false None w
        | CallTrylock => mutex_trylock a true None w
        | CallTimedlock ts => mutex_trylock a false ts w
        end in
      (w, call_switch c a w t)
  end.
Definition pthread_mutex_lock : Z -> world -> world * progress := pthread_mutex_call CallLock.
Definition pthread_mutex_trylock : Z -> world -> world * progress := pthread_mutex_call CallTrylock.
Definition pthread_mutex_timedlock (ts : option timespec) : Z -> world -> world * progress :=
  pthread_mutex_call (CallTimedlock ts).
Definition pthread_mutex_resume (c : lock_call) (args : trylock_args) (w : world) : world * progress :=
  let '(w, t) := mutex_wait_turn args w in (w, call_switch c (ta_mutex args) w t).

(** ** Unlocking *)

Definition effective_ceiling (m : pthread_mutex_t) : Z :=
  if CONFIG_SCHED_HIGHEST_PRIORITY <? mutex_prio_ceiling m then CONFIG_SCHED_HIGHEST_PRIORITY
  else if mutex_prio_ceiling m <? CONFIG_SCHED_LOWEST_PRIORITY then CONFIG_SCHED_LOWEST_PRIORITY
  else mutex_prio_ceiling m.

Definition pthread_mutex_root_unlock (id a : Z) (w : world) : world :=
  let k := on_tasks (task_set_priority id (sched_priority (sched (w_k w) id))) (w_k w) in
  let k := on_sched id (with_block NULL) k in
  let m := mutex w a in
  let new_thread := scheduler_get_highest_priority_blocked k (Pobj a) in
  if 0 <? new_thread then
    let m := with_owner (task_get_pid (k_tasks k) new_thread) new_thread 1 m in
    let k := if task_get_priority (k_tasks k) new_thread <? effective_ceiling m
             then on_tasks (task_set_priority new_thread (mutex_prio_ceiling m)) k else k in
    let k := scheduler_root_assert_active new_thread SCHEDULER_UNBLOCK_MUTEX k in
    let k := scheduler_root_update_on_wake new_thread (task_get_priority (k_tasks k) new_thread) k in
    set_mutex a m (with_k k w)
  else
    let m := with_owner (mutex_pid m) (-1) 0 m in
    let k := if task_get_priority (k_tasks k) id <? task_get_current_priority (k_tasks k)
             then scheduler_root_update_on_stopped k else k in
    set_mutex a m (with_k k w).

(** The decrement of a recursive lock is made by the calling thread before the supervisor
    call, and is one step with it here: only the owner changes the count, and
    no lock or unlock of another thread tests it. *)
Definition pthread_mutex_unlock (a : Z) (w : world) : world * api_result :=
  if w_current w =? 0 then (w, Ret 0)
  else match mutex_check_initialized a w with
  | Some e => (w, Err e)
  | None =>
      let id := w_current w in
      let m := mutex w a in
      if mutex_pthread m =? id then
        if mutex_recursive m then
          let w := set_mutex a (with_lock (mutex_lock m - 1) m) w in
          if negb (mutex_lock m - 1 =? 0) then (w, Ret 0)
          else (pthread_mutex_root_unlock id a w, Ret 0)
        else (pthread_mutex_root_unlock id a w, Ret 0)
      else (w, Err EACCES)
  end.

Definition pthread_mutex_force_unlock (a : Z) (w : world) : world :=
  let m := mutex w a in
  if mutex_pshared m then
    if (mutex_pid m =? getpid w) && negb (mutex_lock m =? 0)
    then pthread_mutex_root_unlock (mutex_pthread m) a w else w
  else w.

(** ** Unlocking hands the mutex over *)

(** The first two statements of [pthread_mutex_root_unlock]. *)
Definition restore (id : Z) (k : kernel) : kernel :=
  on_sched id (with_block NULL)
    (on_tasks (task_set_priority id (sched_priority (sched k id))) k).

Lemma restore_only id k : kernel_wf k -> task_id id ->
  only id k (restore id k) /\
  view (restore id k) id = mk_view (active k id) NULL (scheduler_unblock_type k id) (wake (sched k id)).
Proof.
  intros Hwf Hi. pose proof (set_priority_unchanged id (sched_priority (sched k id)) k) as U.
  assert (Hwf1 : kernel_wf (on_tasks (task_set_priority id (sched_priority (sched k id))) k))
    by (apply U, Hwf).
  split.
  - etrans; [apply unchanged_only, U|]. now apply on_sched_only.
  - unfold restore. rewrite view_on_sched by done.
    pose proof (f_equal v_active (unchanged_view id _ _ U ltac:(apply Hi))) as V. simpl in V.
    rewrite V. reflexivity.
Qed.

(** A thread is a candidate by its view and by what frames keep. *)
Lemma candidate_frame k k' obj j : frame k k' -> view k' j = view k j -> 0 <= j ->
  (stopped k j = stopped k' j) -> candidate k' obj j <-> candidate k obj j.
Proof.
  intros F V Hj Hst. unfold view in V. injection V as V1 V2 _ _.
  unfold candidate, blocked_on. fold (enabled k j) (enabled k' j) (active k j) (active k' j).
  rewrite (fr_enabled _ _ F), (fr_priority _ _ F), V1, V2, Hst by done. reflexivity.
Qed.

Lemma restore_candidate id k obj j : kernel_wf k -> task_id id -> 0 <= j -> j <> id ->
  candidate (restore id k) obj j <-> candidate k obj j.
Proof.
  intros Hwf Hi Hj Hne. destruct (restore_only id k Hwf Hi) as [O _].
  apply candidate_frame; [apply O|now apply (only_view id)|done|].
  unfold stopped, task_stopped_asserted, task_flag_asserted. symmetry.
  pose proof (on_task_field task_flags id (with_priority (s8 (sched_priority (sched k id)))) (k_tasks k) j) as E.
  unfold restore. simpl. unfold task_set_priority. now rewrite E.
Qed.

(** Outcome of the root unlock for the thread [id] that runs it. *)
Record handed_to (id a t : Z) (w w' : world) : Prop := {
  ht_id : 1 <= t < CONFIG_TASK_TOTAL /\ t <> id;
  ht_candidate : candidate (w_k w) (Pobj a) t;
  ht_best : forall j, 1 <= j < CONFIG_TASK_TOTAL -> j <> id -> candidate (w_k w) (Pobj a) j -> j <> t ->
    sched_priority (sched (w_k w) j) < sched_priority (sched (w_k w) t) \/
    (sched_priority (sched (w_k w) j) = sched_priority (sched (w_k w) t) /\
     rr_distance id t < rr_distance id j);
  ht_mutex : w_mutex w' = <[a := with_owner (task_get_pid (k_tasks (w_k w)) t) t 1 (mutex w a)]> (w_mutex w);
  ht_view : view (w_k w') t
    = mk_view true NULL SCHEDULER_UNBLOCK_MUTEX (mk_timeval SCHEDULER_TIMEVAL_SEC_INVALID 0);
  ht_others : forall j, 0 <= j -> j <> t -> j <> id -> view (w_k w') j = view (w_k w) j;
}.
Record freed (id a : Z) (w w' : world) : Prop := {
  fd_none : forall j, 1 <= j < CONFIG_TASK_TOTAL -> j <> id -> ~ candidate (w_k w) (Pobj a) j;
  fd_mutex : w_mutex w' = <[a := with_owner (mutex_pid (mutex w a)) (-1) 0 (mutex w a)]> (w_mutex w);
  fd_others : forall j, 0 <= j -> j <> id -> view (w_k w') j = view (w_k w) j;
}.

(** Handing the kernel part over: the new owner's priority, then its wake-up. *)
Definition hand_over (t ceiling : Z) (raise : bool) (k : kernel) : kernel :=
  let k := if raise then on_tasks (task_set_priority t ceiling) k else k in
  let k := scheduler_root_assert_active t SCHEDULER_UNBLOCK_MUTEX k in
  scheduler_root_update_on_wake t (task_get_priority (k_tasks k) t) k.

Lemma hand_over_only t c b k : kernel_wf k -> task_id t ->
  only t k (hand_over t c b k) /\
  view (hand_over t c b k) t
  = mk_view true NULL SCHEDULER_UNBLOCK_MUTEX (mk_timeval SCHEDULER_TIMEVAL_SEC_INVALID 0).
Proof.
  intros Hwf Ht. unfold hand_over. set (k1 := if b then _ else _).
  assert (U1 : unchanged k k1) by (unfold k1; destruct b; [apply set_priority_unchanged|reflexivity]).
  destruct (assert_active_only t SCHEDULER_UNBLOCK_MUTEX k1 ltac:(apply U1, Hwf) Ht ltac:(done)) as [O2 V2].
  set (k2 := scheduler_root_assert_active _ _ _) in *.
  pose proof (update_on_wake_unchanged t (task_get_priority (k_tasks k2) t) k2) as U3.
  split.
  - etrans; [apply unchanged_only, U1|]. etrans; [exact O2|]. now apply unchanged_only.
  - rewrite (unchanged_view _ _ _ U3) by apply Ht. exact V2.
Qed.

Lemma root_unlock_eq id a w :
  pthread_mutex_root_unlock id a w
  = let k := restore id (w_k w) in
    let t := scheduler_get_highest_priority_blocked k (Pobj a) in
    if 0 <? t then
      set_mutex a (with_owner (task_get_pid (k_tasks k) t) t 1 (mutex w a))
        (with_k (hand_over t (mutex_prio_ceiling (mutex w a))
                   (task_get_priority (k_tasks k) t <? effective_ceiling (mutex w a)) k) w)
    else
      set_mutex a (with_owner (mutex_pid (mutex w a)) (-1) 0 (mutex w a))
        (with_k (if task_get_priority (k_tasks k) id <? task_get_current_priority (k_tasks k)
                 then scheduler_root_update_on_stopped k else k) w).
Proof.
  unfold pthread_mutex_root_unlock, hand_over. fold (restore id (w_k w)). cbv zeta.
  destruct (0 <? _); [|reflexivity]. unfold effective_ceiling. reflexivity.
Qed.

Lemma root_unlock_cases id a w : kernel_wf (w_k w) -> w_current w = id -> 1 <= id < CONFIG_TASK_TOTAL ->
  let w' := pthread_mutex_root_unlock id a w in
  frame (w_k w) (w_k w') /\ w_cond w' = w_cond w /\
  view (w_k w') id = mk_view (active (w_k w) id) NULL (scheduler_unblock_type (w_k w) id) (wake (sched (w_k w) id)) /\
  ((exists t, handed_to id a t w w') \/ freed id a w w').
Proof.
  intros Hwf Hc Hid w'. assert (Hi : task_id id) by (unfold task_id; lia).
  destruct (restore_only id (w_k w) Hwf Hi) as [O1 V1].
  pose proof (fun j => restore_candidate id (w_k w) (Pobj a) j Hwf Hi) as Hcand.
  unfold w'. rewrite root_unlock_eq. clear w'. set (k1 := restore id (w_k w)) in *.
  assert (Hwf1 : kernel_wf k1) by (apply O1, Hwf).
  assert (Hor : search_origin k1 = id).
  { unfold search_origin. rewrite (fr_current _ _ (only_frame _ _ _ O1)). unfold w_current in Hc.
    rewrite Hc. destruct (Z.eqb_spec id 0); lia. }
  assert (Hc1 : task_id (current k1)) by apply Hwf1.
  pose proof (highest_priority_blocked_spec k1 (Pobj a) Hc1) as HB.
  pose proof (fun r j => highest_blocked_strict k1 (Pobj a) r j Hc1) as Hstrict.
  rewrite Hor in Hstrict. pose proof HB as [H1 H2 _ _]. rewrite Hor in H1, H2. cbv zeta.
  set (t := scheduler_get_highest_priority_blocked k1 (Pobj a)) in *.
  assert (Hpr : forall j, 0 <= j -> sched_priority (sched k1 j) = sched_priority (sched (w_k w) j))
    by (intros; now apply (fr_priority _ _ (only_frame _ _ _ O1))).
  destruct (Z.ltb_spec 0 t) as [Hpos|Hneg].
  - destruct (H1 ltac:(lia)) as (Ht & Htid & Htc).
    destruct (hand_over_only t (mutex_prio_ceiling (mutex w a))
                (task_get_priority (k_tasks k1) t <? effective_ceiling (mutex w a)) k1 Hwf1
                ltac:(unfold task_id; lia)) as [O2 V2].
    split_and!; [|done| |left; exists t; split].
    + etrans; [apply (only_frame _ _ _ O1)|apply (only_frame _ _ _ O2)].
    + etrans; [apply (only_view t id _ _ O2); [lia|done]|exact V1].
    + done.
    + apply Hcand; [lia|done|done].
    + intros j Hj Hjid Hcj Hjt. rewrite <- !Hpr by lia. apply (Hstrict t j); try done; [lia|].
      apply Hcand; [lia|done|done].
    + simpl. f_equal. f_equal. apply (fr_pid _ _ (only_frame _ _ _ O1)). lia.
    + exact V2.
    + intros j Hj Hjt Hjid. etrans; [apply (only_view t j _ _ O2); done|]. now apply (only_view id j _ _ O1).
  - assert (E : t = -1). { destruct (decide (t = -1)) as [|Hne]; [done|]. destruct (H1 Hne) as (? & _). lia. }
    assert (U : unchanged k1 (if task_get_priority (k_tasks k1) id <? task_get_current_priority (k_tasks k1)
                 then scheduler_root_update_on_stopped k1 else k1))
      by (destruct (_ <? _); [apply update_on_stopped_unchanged|reflexivity]).
    split_and!; [|done| |right; split].
    + etrans; [apply (only_frame _ _ _ O1)|apply U].
    + etrans; [apply (unchanged_view id _ _ U); lia|exact V1].
    + intros j Hj Hjid Hcj. apply (H2 E j Hj Hjid). apply Hcand; [lia|done|done].
    + done.
    + intros j Hj Hjid. etrans; [apply (unchanged_view j _ _ U); lia|]. now apply (only_view id j _ _ O1).
Qed.

(** ** Blocking on a mutex *)

Lemma mutex_set_eq a m w : mutex (set_mutex a m w) a = m.
Proof. unfold mutex, set_mutex. simpl. apply lookup_total_insert_eq. Qed.

Lemma root_mutex_block_only args k : kernel_wf k -> current k = ta_id args ->
  only (ta_id args) k (root_mutex_block args k) /\
  v_unblock (view (root_mutex_block args k) (ta_id args)) = scheduler_unblock_type k (ta_id args) /\
  if in_future k (ta_abs_timeout args)
  then view (root_mutex_block args k) (ta_id args)
       = mk_view false (Pobj (ta_mutex args)) (scheduler_unblock_type k (ta_id args)) (ta_abs_timeout args)
  else active (root_mutex_block args k) (ta_id args) = active k (ta_id args).
Proof.
  intros Hwf Hc. assert (Hi : task_id (ta_id args)) by (rewrite <- Hc; apply Hwf).
  unfold root_mutex_block. set (obj := Pobj (ta_mutex args)).
  set (k1 := on_sched (ta_id args) (with_block obj) k).
  assert (O1 : only (ta_id args) k k1) by now apply on_sched_only.
  assert (Hwf1 : kernel_wf k1) by (apply O1, Hwf).
  destruct (timedblock_only obj (ta_abs_timeout args) k1 Hwf1) as [O2 V2].
  replace (current k1) with (ta_id args) in O2, V2 by (symmetry; exact Hc).
  assert (Hu : scheduler_unblock_type k1 (ta_id args) = scheduler_unblock_type k (ta_id args)).
  { unfold scheduler_unblock_type, k1. rewrite sched_on_sched_eq; [done|apply Hwf|done]. }
  change (in_future k1 (ta_abs_timeout args)) with (in_future k (ta_abs_timeout args)) in V2.
  split; [etrans; [exact O1|exact O2]|].
  destruct (in_future k (ta_abs_timeout args)).
  - rewrite V2, Hu. done.
  - destruct V2 as [V2 V3]. rewrite V3, Hu. done.
Qed.

Definition tv_invalid : mcu_timeval := mk_timeval SCHEDULER_TIMEVAL_SEC_INVALID 0.
Lemma in_future_invalid k : sched_usecond_counter k < SCHEDULER_TIMEVAL_SEC_INVALID ->
  in_future k tv_invalid = true.
Proof. intros H. unfold in_future. simpl. apply Z.ltb_lt in H. now rewrite H. Qed.

(** A thread that can make a call. *)
Definition running (w : world) : Prop :=
  1 <= w_current w < CONFIG_TASK_TOTAL /\ active (w_k w) (w_current w) = true /\
  enabled (w_k w) (w_current w) = true.

(** The thread of [args] has gone through [root_mutex_block]. *)
Definition blocked_call (args : trylock_args) (k k' : kernel) : Prop :=
  only (ta_id args) k k' /\
  (if in_future k (ta_abs_timeout args)
   then view k' (ta_id args)
        = mk_view false (Pobj (ta_mutex args)) (scheduler_unblock_type k (ta_id args)) (ta_abs_timeout args)
   else active k' (ta_id args) = active k (ta_id args)).

Definition owner (w : world) (a : Z) : Z := mutex_pthread (mutex w a).

(** The outcomes of a lock call. *)
Inductive call_outcome (c : lock_call) (a : Z) (w : world) : world -> progress -> Prop :=
| call_fails r : r <> Ret 0 \/ (c = CallTrylock /\ owner w a = w_current w) -> call_outcome c a w w (Returned r)
| call_acquires k' : owner w a = -1 -> unchanged (w_k w) k' ->
    call_outcome c a w
      (set_mutex a (with_owner (getpid w) (w_current w) 1 (mutex w a)) (with_k k' w)) (Returned (Ret 0))
| call_recurses : owner w a = w_current w -> mutex_recursive (mutex w a) = true ->
    mutex_lock (mutex w a) < CONFIG_PTHREAD_MAX_LOCKS ->
    call_outcome c a w (set_mutex a (with_lock (mutex_lock (mutex w a) + 1) (mutex w a)) w) (Returned (Ret 0))
| call_waits k' args : owner w a <> -1 -> owner w a <> w_current w ->
    ta_id args = w_current w -> ta_mutex args = a -> (c = CallLock -> ta_abs_timeout args = tv_invalid) ->
    (if ta_trylock args then c = CallTrylock /\ k' = w_k w else blocked_call args (w_k w) k') ->
    v_unblock (view k' (w_current w)) = scheduler_unblock_type (w_k w) (w_current w) ->
    call_outcome c a w (with_k k' w) (Waiting args).

Lemma svcall_trylock_outcome c a args w w' r : running w -> kernel_wf (w_k w) ->
  ta_id args = w_current w -> ta_mutex args = a -> owner w a <> w_current w ->
  (c = CallLock -> ta_abs_timeout args = tv_invalid) -> (ta_trylock args = true -> c = CallTrylock) ->
  svcall_mutex_trylock args w = (w', r) ->
  call_outcome c a w w' (if r =? -2 then Waiting args else Returned (Ret 0)) /\ (r = -2 \/ r = 0).
Proof.
  intros Hrun Hwf Hid <- Hown Hlock Htry. unfold svcall_mutex_trylock. unfold owner in Hown.
  fold (owner w (ta_mutex args)) in *. destruct (Z.eqb_spec (owner w (ta_mutex args)) (-1)) as [Hf|Hf].
  - intros [= <- <-]. split; [|auto]. simpl. rewrite Hid.
    match goal with |- call_outcome _ _ _ (set_mutex _ ?m (with_k ?k _)) _ =>
      change m with (with_owner (getpid w) (w_current w) 1 (mutex w (ta_mutex args)));
      assert (U : unchanged (w_k w) k) end.
    { destruct (_ <? _); [|reflexivity]. etrans; [apply set_priority_unchanged|].
      apply set_current_priority_unchanged. }
    now apply call_acquires.
  - destruct (ta_trylock args) eqn:Et; intros [= <- <-]; (split; [|auto]); simpl.
    + replace w with (with_k (w_k w) w) at 2 by now destruct w.
      apply call_waits; auto. rewrite Et. auto.
    + destruct (root_mutex_block_only args (w_k w) Hwf ltac:(now rewrite Hid)) as (O & U & V).
      apply call_waits; auto; [|now rewrite <- Hid]. rewrite Et. split; [exact O|exact V].
Qed.

Lemma mutex_call_outcome c a w w' r : running w -> kernel_wf (w_k w) ->
  pthread_mutex_call c a w = (w', r) -> call_outcome c a w w' r.
Proof.
  intros Hrun Hwf. unfold pthread_mutex_call.
  destruct (Z.eqb_spec (w_current w) 0); [destruct Hrun; lia|].
  assert (Herr : forall e, call_outcome c a w w (Returned (Err e))) by (intros; apply call_fails; now left).
  destruct (mutex_check_initialized a w) as [e|] eqn:Ei; [intros [= <- <-]; apply Herr|].
  set (try := match c with CallLock => _ | CallTrylock => _ | CallTimedlock _ => _ end).
  assert (Htry : exists b ts, try = mutex_trylock a b ts w /\
     (c = CallLock -> ts = None) /\ (b = true <-> c = CallTrylock)).
  { unfold try. destruct c; eexists _, _; (split; [reflexivity|done]). }
  destruct Htry as (b & ts & -> & Hts & Hb). unfold mutex_trylock.
  destruct (a =? 0); [intros [= <- <-]; destruct c; apply Herr|].
  destruct (negb (mutex_initialized (mutex w a))); [intros [= <- <-]; destruct c; apply Herr|].
  destruct (negb _ && negb _); [intros [= <- <-]; destruct c; apply Herr|].
  fold (owner w a). destruct (Z.eqb_spec (owner w a) (w_current w)) as [Ho|Ho].
  - destruct (mutex_recursive (mutex w a)) eqn:Er.
    + destruct (Z.ltb_spec (mutex_lock (mutex w a)) CONFIG_PTHREAD_MAX_LOCKS); intros [= <- <-].
      * destruct c; now apply call_recurses.
      * destruct c; apply Herr.
    + intros [= <- <-]. destruct c; simpl; apply call_fails; auto; now left.
  - destruct (svcall_mutex_trylock _ w) as [w1 r1] eqn:E.
    eapply (svcall_trylock_outcome c a) in E; try done.
    + destruct E as [E [->| ->]]; intros [= <- <-]; [exact E|]. simpl in *. destruct c; exact E.
    + simpl. intros Hl. now rewrite (Hts Hl).
    + simpl. apply Hb.
Qed.

(** The outcomes of a turn of the wait loop. *)
Inductive resume_outcome (c : lock_call) (args : trylock_args) (w : world) : world -> progress -> Prop :=
| resume_leaves : scheduler_unblock_type (w_k w) (ta_id args) <> SCHEDULER_UNBLOCK_SIGNAL ->
    resume_outcome c args w w (call_switch c (ta_mutex args) w (Tried (-2) 0))
| resume_owner k' : scheduler_unblock_type (w_k w) (ta_id args) = SCHEDULER_UNBLOCK_SIGNAL ->
    owner w (ta_mutex args) = ta_id args -> only (ta_id args) (w_k w) k' ->
    active k' (ta_id args) = active (w_k w) (ta_id args) ->
    scheduler_unblock_type k' (ta_id args) = SCHEDULER_UNBLOCK_MUTEX ->
    resume_outcome c args w (with_k k' w) (Waiting args)
| resume_blocks k' : scheduler_unblock_type (w_k w) (ta_id args) = SCHEDULER_UNBLOCK_SIGNAL ->
    owner w (ta_mutex args) <> ta_id args -> only (ta_id args) (w_k w) k' ->
    (if in_future (w_k w) (ta_abs_timeout args)
     then view k' (ta_id args)
          = mk_view false (Pobj (ta_mutex args)) SCHEDULER_UNBLOCK_SIGNAL (ta_abs_timeout args)
     else active k' (ta_id args) = true /\ scheduler_unblock_type k' (ta_id args) = SCHEDULER_UNBLOCK_SLEEP) ->
    resume_outcome c args w (with_k k' w) (Waiting args).

Lemma mutex_resume_outcome c args w w' r : running w -> kernel_wf (w_k w) -> ta_id args = w_current w ->
  pthread_mutex_resume c args w = (w', r) -> resume_outcome c args w w' r.
Proof.
  intros Hrun Hwf Hid. unfold pthread_mutex_resume, mutex_wait_turn.
  assert (Hi : task_id (ta_id args)) by (destruct Hrun; rewrite Hid; unfold task_id; lia).
  destruct (Z.eqb_spec (scheduler_unblock_type (w_k w) (ta_id args)) SCHEDULER_UNBLOCK_SIGNAL) as [Es|Es];
    [|intros [= <- <-]; now apply resume_leaves].
  unfold svcall_mutex_unblocked. fold (owner w (ta_mutex args)).
  destruct (Z.eqb_spec (owner w (ta_mutex args)) (ta_id args)) as [Ho|Ho].
  - intros [= <- <-].
    destruct (set_unblock_type_only (ta_id args) SCHEDULER_UNBLOCK_MUTEX (w_k w) Hwf Hi ltac:(done)) as [O V].
    apply resume_owner; [done|done|exact O|exact (f_equal v_active V)|exact (f_equal v_unblock V)].
  - destruct (root_mutex_block_only args (w_k w) Hwf ltac:(now rewrite Hid)) as (O & U & V).
    set (k1 := root_mutex_block args (w_k w)) in *. fold (active k1 (ta_id args)).
    destruct (in_future (w_k w) (ta_abs_timeout args)) eqn:Ef.
    + pose proof (f_equal v_active V) as Va. simpl in Va. rewrite Va. intros [= <- <-].
      apply resume_blocks; try done. rewrite Ef, <- Es. exact V.
    + assert (Ha : active k1 (ta_id args) = true) by (rewrite V, Hid; apply Hrun). rewrite Ha.
      destruct (set_unblock_type_only (ta_id args) SCHEDULER_UNBLOCK_SLEEP k1 ltac:(apply O, Hwf) Hi
                  ltac:(done)) as [O2 V2].
      intros [= <- <-]. apply resume_blocks; try done; [now transitivity k1|]. rewrite Ef.
      split; [rewrite <- Ha; exact (f_equal v_active V2)|exact (f_equal v_unblock V2)].
Qed.

(** ** A mutex shared by the threads of the system *)

(** [lk_pc t] is the lock call thread [t] waits in. *)
Record lock_system := mk_lk { lk_w : world; lk_pc : Z -> option (lock_call * trylock_args) }.
Definition set_pc (t : Z) (x : option (lock_call * trylock_args))
    (pc : Z -> option (lock_call * trylock_args)) : Z -> option (lock_call * trylock_args) :=
  fun j => if j =? t then x else pc j.
Definition waits_in (c : lock_call) (r : progress) : option (lock_call * trylock_args) :=
  match r with Waiting args => Some (c, args) | Returned _ => None end.

(** The steps: calls of the running thread on mutex [a], turns of its wait
    loop, the timer interrupt at any time, context switches, and signals
    when [sig] allows them. *)
Inductive lock_step (a : Z) (sig : bool) : lock_system -> lock_system -> Prop :=
| lk_call c w pc w' r : running w -> pc (w_current w) = None -> pthread_mutex_call c a w = (w', r) ->
    lock_step a sig (mk_lk w pc) (mk_lk w' (set_pc (w_current w) (waits_in c r) pc))
| lk_resume c args w pc w' r : running w -> pc (w_current w) = Some (c, args) ->
    pthread_mutex_resume c args w = (w', r) ->
    lock_step a sig (mk_lk w pc) (mk_lk w' (set_pc (w_current w) (waits_in c r) pc))
| lk_unlock w pc w' r : running w -> pc (w_current w) = None -> pthread_mutex_unlock a w = (w', r) ->
    lock_step a sig (mk_lk w pc) (mk_lk w' pc)
| lk_time w pc now counter : 0 <= counter < SCHEDULER_TIMEVAL_SEC_INVALID ->
    lock_step a sig (mk_lk w pc)
      (mk_lk (with_k (root_handle_usecond_match_event (with_counter counter (with_now now (w_k w)))) w) pc)
| lk_signal w pc i : sig = true -> 1 <= i < CONFIG_TASK_TOTAL ->
    lock_step a sig (mk_lk w pc) (mk_lk (with_k (signal_root_activate i (w_k w)) w) pc)
| lk_switch w pc i : 1 <= i < CONFIG_TASK_TOTAL ->
    lock_step a sig (mk_lk w pc) (mk_lk (with_k (switch_to i (w_k w)) w) pc).

(** Where a thread inside [pthread_mutex_lock] can be. *)
Definition lock_wait_ok (a : Z) (w : world) (t : Z) : Prop :=
  let v := view (w_k w) t in
  (v_active v = true /\
   (v_unblock v = SCHEDULER_UNBLOCK_SIGNAL \/ (v_unblock v = SCHEDULER_UNBLOCK_MUTEX /\ owner w a = t))) \/
  (v_active v = false /\ v_wake v = tv_invalid).

(** What holds of a thread [t] whose call is [x]. *)
Definition pc_ok (a : Z) (w : world) (t : Z) (x : option (lock_call * trylock_args)) : Prop :=
  forall c args, x = Some (c, args) ->
    (1 <= t < CONFIG_TASK_TOTAL /\ ta_id args = t /\ ta_mutex args = a /\
     enabled (w_k w) t = true /\ (c = CallLock -> ta_abs_timeout args = tv_invalid)) /\
    (v_active (view (w_k w) t) = false -> v_block (view (w_k w) t) = Pobj a /\ owner w a <> t) /\
    (c = CallLock -> lock_wait_ok a w t).

Definition owner_ok (a : Z) (w : world) : Prop :=
  (owner w a = -1 /\ mutex_lock (mutex w a) = 0) \/
  (1 <= owner w a < CONFIG_TASK_TOTAL /\ 1 <= mutex_lock (mutex w a) <= CONFIG_PTHREAD_MAX_LOCKS).

Record lock_inv (a : Z) (s : lock_system) : Prop := {
  li_wf : kernel_wf (w_k (lk_w s));
  li_counter : 0 <= sched_usecond_counter (w_k (lk_w s)) < SCHEDULER_TIMEVAL_SEC_INVALID;
  li_owner : owner_ok a (lk_w s);
  li_pc : forall t, pc_ok a (lk_w s) t (lk_pc s t);
}.

Lemma pc_ok_frame a w w' t x : pc_ok a w t x -> frame (w_k w) (w_k w') ->
  (1 <= t -> view (w_k w') t = view (w_k w) t) -> (1 <= t -> owner w a = t <-> owner w' a = t) ->
  pc_ok a w' t x.
Proof.
  intros Hok F V Ho c args E. destruct (Hok c args E) as ((Ht & H1 & H2 & H3 & H4) & H5 & H6).
  specialize (V ltac:(lia)). specialize (Ho ltac:(lia)). rewrite V. split_and!; try done; try lia.
  - now rewrite (fr_enabled _ _ F) by lia.
  - intros Ha. destruct (H5 Ha) as [? ?]. split; [done|]. tauto.
  - intros Hc. specialize (H6 Hc). unfold lock_wait_ok in *. rewrite V. tauto.
Qed.
Lemma pc_ok_none a w t : pc_ok a w t None.
Proof. by intros c args [=]. Qed.

(** A step that concerns thread [i] only. *)
Lemma lock_inv_only a i w pc w' x : lock_inv a (mk_lk w pc) ->
  only i (w_k w) (w_k w') -> owner_ok a w' ->
  (forall t, 1 <= t -> t <> i -> owner w a = t <-> owner w' a = t) ->
  pc_ok a w' i x -> lock_inv a (mk_lk w' (set_pc i x pc)).
Proof.
  intros [Hwf Hc _ Hpc] [F V] Hown Ho Hi. simpl in *. split; simpl; try done.
  - now apply F.
  - now rewrite (fr_counter _ _ F).
  - intros t. unfold set_pc. destruct (Z.eqb_spec t i) as [->|Hne]; [done|].
    apply (pc_ok_frame a w); auto. intros Ht. apply V; [lia|done].
Qed.
Lemma lock_inv_pc_ext a w pc pc' : (forall t, pc' t = pc t) -> lock_inv a (mk_lk w pc) -> lock_inv a (mk_lk w pc').
Proof. intros E []. split; simpl in *; try done. intros t. rewrite E. auto. Qed.

Lemma lock_inv_call a c w pc w' r : running w ->
  pthread_mutex_call c a w = (w', r) -> lock_inv a (mk_lk w pc) ->
  lock_inv a (mk_lk w' (set_pc (w_current w) (waits_in c r) pc)).
Proof.
  intros Hrun Hcall Hinv. pose proof Hinv as [Hwf Hcnt Hown _]. simpl in *.
  apply mutex_call_outcome in Hcall; [|done|done]. destruct Hrun as (Hcur & Hact & Hen).
  destruct Hcall as [r _|k' Hfree U|Ho Hr Hl|k' args Ho1 Ho2 Hid Hm Hto Hk Hu]; cbn [waits_in].
  - apply (lock_inv_only a _ w); [done|reflexivity|done|done|apply pc_ok_none].
  - apply (lock_inv_only a _ w); [done|now apply unchanged_only| | |apply pc_ok_none].
    + right. unfold owner. rewrite mutex_set_eq. unfold CONFIG_PTHREAD_MAX_LOCKS. simpl. lia.
    + intros t Ht Hne. unfold owner in *. rewrite mutex_set_eq, Hfree. simpl. lia.
  - apply (lock_inv_only a _ w); [done|reflexivity| | |apply pc_ok_none].
    + unfold owner_ok, owner in *. rewrite mutex_set_eq. simpl.
      destruct Hown as [[? ?]|[? ?]]; [lia|right; lia].
    + intros t Ht Hne. unfold owner in *. rewrite mutex_set_eq. done.
  - assert (Hon : only (w_current w) (w_k w) k').
    { destruct (ta_trylock args); [destruct Hk as [_ ->]; reflexivity|rewrite <- Hid; apply Hk]. }
    apply (lock_inv_only a _ w); [done|exact Hon|exact Hown|done|].
    intros c' args' [= <- <-]. destruct (ta_trylock args) eqn:Et.
    + destruct Hk as [-> ->]. split_and!; try done; try lia. simpl. congruence.
    + destruct Hk as [_ Hk]. rewrite Hid, Hm in Hk.
      split_and!; try done; try lia.
      * cbn [w_k with_k]. now rewrite (fr_enabled _ _ (only_frame _ _ _ Hon)) by lia.
      * cbn [w_k with_k]. destruct (in_future (w_k w) (ta_abs_timeout args)).
        -- rewrite Hk. auto.
        -- unfold view. cbn [v_active]. congruence.
      * intros Hl. rewrite (Hto Hl), in_future_invalid in Hk by lia.
        right. cbn [w_k with_k]. rewrite Hk. done.
Qed.

Lemma lock_inv_resume a c args w pc w' r : running w -> pc (w_current w) = Some (c, args) ->
  pthread_mutex_resume c args w = (w', r) -> lock_inv a (mk_lk w pc) ->
  lock_inv a (mk_lk w' (set_pc (w_current w) (waits_in c r) pc)).
Proof.
  intros Hrun Hpc Hres Hinv. pose proof Hinv as [Hwf Hcnt Hown Hok]. simpl in *.
  destruct (Hok _ _ _ Hpc) as ((Ht & Hid & Hm & Hen & Hto) & Hbl & Hw).
  apply mutex_resume_outcome in Hres; [|done..]. destruct Hrun as (Hcur & Hact & _).
  destruct Hres as [_|k' Hs Ho O Ha Hu|k' Hs Ho O Hk]; cbn [waits_in call_switch];
    rewrite ?Hid, ?Hm in *.
  - apply (lock_inv_only a _ w); [done|reflexivity|done|done|apply pc_ok_none].
  - apply (lock_inv_only a _ w); [done|exact O|exact Hown|done|].
    intros c' args' [= <- <-]. split_and!; try done; try lia; cbn [w_k with_k].
    + now rewrite (fr_enabled _ _ (only_frame _ _ _ O)) by lia.
    + unfold view. cbn [v_active]. congruence.
    + intros _. left. unfold view. cbn [v_active v_unblock w_k with_k]. split; [congruence|auto].
  - apply (lock_inv_only a _ w); [done|exact O|exact Hown|done|].
    intros c' args' [= <- <-]. split_and!; try done; try lia; cbn [w_k with_k].
    + now rewrite (fr_enabled _ _ (only_frame _ _ _ O)) by lia.
    + destruct (in_future _ _).
      * rewrite Hk. auto.
      * destruct Hk as [Hk _]. unfold view. cbn [v_active]. congruence.
    + intros Hl. rewrite (Hto Hl), in_future_invalid in Hk by lia.
      right. cbn [w_k with_k]. rewrite Hk. done.
Qed.

Inductive unlock_outcome (a : Z) (w : world) : world -> api_result -> Prop :=
| unlock_fails e : unlock_outcome a w w (Err e)
| unlock_inner : owner w a = w_current w -> mutex_lock (mutex w a) <> 1 ->
    unlock_outcome a w (set_mutex a (with_lock (mutex_lock (mutex w a) - 1) (mutex w a)) w) (Ret 0)
| unlock_last w1 : owner w a = w_current w -> w_k w1 = w_k w -> owner w1 a = owner w a ->
    mutex_prio_ceiling (mutex w1 a) = mutex_prio_ceiling (mutex w a) ->
    mutex_pid (mutex w1 a) = mutex_pid (mutex w a) ->
    unlock_outcome a w (pthread_mutex_root_unlock (w_current w) a w1) (Ret 0).

Lemma mutex_unlock_outcome a w w' r : 1 <= w_current w ->
  pthread_mutex_unlock a w = (w', r) -> unlock_outcome a w w' r.
Proof.
  intros Hcur. unfold pthread_mutex_unlock. destruct (Z.eqb_spec (w_current w) 0); [lia|].
  destruct (mutex_check_initialized a w); [intros [= <- <-]; apply unlock_fails|].
  fold (owner w a). destruct (Z.eqb_spec (owner w a) (w_current w)) as [Ho|];
    [|intros [= <- <-]; apply unlock_fails].
  destruct (mutex_recursive (mutex w a)); [|intros [= <- <-]; now apply unlock_last].
  destruct (Z.eqb_spec (mutex_lock (mutex w a) - 1) 0); simpl; intros [= <- <-].
  - apply unlock_last; try done; unfold owner; now rewrite mutex_set_eq.
  - apply unlock_inner; [done|lia].
Qed.

Lemma lock_inv_root_unlock a w w1 pc : running w -> pc (w_current w) = None ->
  w_k w1 = w_k w -> owner w a = w_current w ->
  lock_inv a (mk_lk w pc) -> lock_inv a (mk_lk (pthread_mutex_root_unlock (w_current w) a w1) pc).
Proof.
  intros (Hcur & _) Hpc Hk Ho [Hwf Hcnt Hown Hok]. simpl in *.
  destruct (root_unlock_cases (w_current w) a w1) as (F & _ & _ & Hcase);
    [now rewrite Hk|unfold w_current; now rewrite Hk|done|].
  set (w' := pthread_mutex_root_unlock (w_current w) a w1) in *. rewrite Hk in F.
  split; simpl; [now apply F|now rewrite (fr_counter _ _ F)| |].
  - unfold owner_ok, owner, mutex. destruct Hcase as [(t & [? _ _ -> _ _])|[_ -> _]];
      rewrite lookup_total_insert_eq; simpl; unfold CONFIG_PTHREAD_MAX_LOCKS; lia.
  - intros t. destruct (decide (t = w_current w)) as [->|Hne]; [rewrite Hpc; apply pc_ok_none|].
    destruct Hcase as [(u & [[Hu Hu'] _ _ Hmx Hv Hoth])|[_ Hmx Hoth]].
    + assert (Hou : owner w' a = u) by (unfold owner, mutex; now rewrite Hmx, lookup_total_insert_eq).
      destruct (decide (t = u)) as [->|Htu].
      * intros c args E. destruct (Hok u c args E) as ((? & ? & ? & ? & ?) & _ & _).
        split_and!; try done; try lia.
        -- now rewrite (fr_enabled _ _ F) by lia.
        -- rewrite Hv. done.
        -- intros _. left. rewrite Hv. simpl. auto.
      * apply (pc_ok_frame a w); [done|done|intros; rewrite Hoth, Hk by (done || lia); done|].
        intros. rewrite Hou, Ho. lia.
    + assert (Hou : owner w' a = -1) by (unfold owner, mutex; now rewrite Hmx, lookup_total_insert_eq).
      apply (pc_ok_frame a w); [done|done|intros; rewrite Hoth, Hk by (done || lia); done|].
      intros. rewrite Hou, Ho. lia.
Qed.

Lemma lock_inv_time a w pc now counter : 0 <= counter < SCHEDULER_TIMEVAL_SEC_INVALID ->
  lock_inv a (mk_lk w pc) ->
  lock_inv a (mk_lk (with_k (root_handle_usecond_match_event
                               (with_counter counter (with_now now (w_k w)))) w) pc).
Proof.
  intros Hc [Hwf _ Hown Hok]. set (k0 := with_counter counter (with_now now (w_k w))).
  assert (Hwf0 : kernel_wf k0) by exact Hwf.
  destruct (match_event_views k0 Hwf0) as [F V]. split; cbn [lk_w lk_pc w_k with_k] in *.
  - now apply F.
  - now rewrite (fr_counter _ _ F).
  - exact Hown.
  - intros t c args E. destruct (Hok t c args E) as ((Ht & ? & ? & Hen & ?) & Hbl & Hw).
    specialize (V t Ht). change (view k0 t) with (view (w_k w) t) in V. cbn [w_k with_k].
    assert (Hw' : c = CallLock -> asleep_in k0 t && due k0 t = false).
    { intros Hl. specialize (Hw Hl). rewrite asleep_in_active.
      change (active k0 t) with (v_active (view (w_k w) t)).
      destruct Hw as [[-> _]|[_ Hw]]; [apply andb_false_iff; left; btauto|].
      apply andb_false_iff. right. unfold due. change (wake (sched k0 t)) with (v_wake (view (w_k w) t)).
      rewrite Hw. cbn [tv_sec tv_invalid]. change (sched_usecond_counter k0) with counter.
      destruct (Z.ltb_spec SCHEDULER_TIMEVAL_SEC_INVALID counter), (Z.eqb_spec SCHEDULER_TIMEVAL_SEC_INVALID counter);
        lia || done. }
    split_and!; try done; try lia.
    + now rewrite (fr_enabled _ _ F) by lia.
    + destruct (asleep_in k0 t && due k0 t); [destruct V as (-> & _); done|]. rewrite V. exact Hbl.
    + intros Hl. rewrite (Hw' Hl) in V. specialize (Hw Hl). unfold lock_wait_ok in *.
      cbn [w_k with_k]. rewrite V. exact Hw.
Qed.

Lemma lock_inv_signal a w pc i : 1 <= i < CONFIG_TASK_TOTAL -> lock_inv a (mk_lk w pc) ->
  lock_inv a (mk_lk (with_k (signal_root_activate i (w_k w)) w) pc).
Proof.
  intros Hi Hinv. pose proof Hinv as [Hwf _ Hown Hok]. cbn [lk_w lk_pc] in *.
  destruct (signal_root_activate_only i (w_k w) Hwf ltac:(unfold task_id; lia)) as [O V].
  apply (lock_inv_pc_ext a _ (set_pc i (pc i) pc)).
  { intros t. unfold set_pc. now destruct (Z.eqb_spec t i) as [->|]. }
  apply (lock_inv_only a i w); [done|exact O|exact Hown|done|].
  intros c args E. destruct (Hok i c args E) as ((? & ? & ? & ? & ?) & _ & _).
  split_and!; try done; try lia; cbn [w_k with_k].
  - now rewrite (fr_enabled _ _ (only_frame _ _ _ O)) by lia.
  - rewrite V. done.
  - intros _. left. cbn [w_k with_k]. rewrite V. auto.
Qed.

Lemma lock_inv_switch a w pc i : 1 <= i < CONFIG_TASK_TOTAL -> lock_inv a (mk_lk w pc) ->
  lock_inv a (mk_lk (with_k (switch_to i (w_k w)) w) pc).
Proof.
  intros Hi [[[? ?] ?] Hc Hown Hok]. split; try done.
  split; [split; [done|unfold task_id; simpl; lia]|done].
Qed.

Lemma lock_inv_step a sig s s' : lock_inv a s -> lock_step a sig s s' -> lock_inv a s'.
Proof.
  intros Hinv Hstep. destruct Hstep.
  - now apply lock_inv_call.
  - eapply lock_inv_resume; eassumption.
  - pose proof H as (Hcur & _). apply mutex_unlock_outcome in H1; [|lia].
    destruct H1 as [e|Ho Hl|w1 Ho Hk Ho1].
    + exact Hinv.
    + apply (lock_inv_pc_ext a _ (set_pc (w_current w) None pc)).
      { intros t. unfold set_pc. now destruct (Z.eqb_spec t (w_current w)) as [->|]. }
      apply (lock_inv_only a (w_current w) w); [done|reflexivity| | |apply pc_ok_none].
      * pose proof (li_owner _ _ Hinv) as Hown. simpl in Hown. unfold owner_ok, owner in *.
        rewrite mutex_set_eq. simpl. lia.
      * intros t Ht Hne. unfold owner. now rewrite mutex_set_eq.
    + now apply lock_inv_root_unlock.
  - now apply lock_inv_time.
  - now apply lock_inv_signal.
  - now apply lock_inv_switch.
Qed.

(** C1: Mutual exclusion: in every state reachable by the threads locking (with
    or without a timeout), trying, unlocking, being interrupted by signals, timed
    out and switched, [pthread_mutex_lock] returns 0 (at once or after any number
    of turns of its wait loop) only to the thread recorded as the owner; the
    owner is a valid thread with a lock count in bounds, or the mutex is free
    with a count of zero. *)
Theorem mutex_lock_returns_owner a sig s s' : lock_inv a s -> star (lock_step a sig) s s' ->
  owner_ok a (lk_w s') /\
  forall w', running (lk_w s') ->
    (lk_pc s' (w_current (lk_w s')) = None /\ pthread_mutex_lock a (lk_w s') = (w', Returned (Ret 0))) \/
    (exists args, lk_pc s' (w_current (lk_w s')) = Some (CallLock, args) /\
       pthread_mutex_resume CallLock args (lk_w s') = (w', Returned (Ret 0))) ->
    owner w' a = w_current (lk_w s').
Proof.
  intros Hinv Hs.
  pose proof (star_invariant _ (lock_inv a) (lock_inv_step a sig) _ _ Hs Hinv) as [Hwf _ Hown Hok].
  split; [exact Hown|]. destruct s' as [w pc]. simpl in *. intros w' Hrun [[_ Hcall]|(args & Hpc & Hres)].
  - apply mutex_call_outcome in Hcall; [|done..].
    remember (Returned (Ret 0)) as r0 eqn:Er. destruct Hcall as [r Hr|k' Hf U|Ho|]; [| | |discriminate].
    + destruct Hr as [Hr|[Hr _]]; [congruence|discriminate].
    + unfold owner. now rewrite mutex_set_eq.
    + unfold owner. now rewrite mutex_set_eq.
  - destruct (Hok _ _ _ Hpc) as ((_ & Hid & Hm & _) & _ & Hw). specialize (Hw eq_refl).
    apply mutex_resume_outcome in Hres; [|done..].
    remember (Returned (Ret 0)) as r0 eqn:Er. destruct Hres as [Hns| |]; [|discriminate..].
    destruct Hrun as (_ & Hact & _). rewrite Hid in *.
    destruct Hw as [[_ [Hs'|[_ Ho]]]|[Hw _]]; [contradiction|exact Ho|].
    unfold view in Hw. simpl in Hw. congruence.
Qed.

(** C2: A mutex is only released by its owner: a step of the system leaves the
    owner of a held mutex alone unless it is a step of the owner itself. *)
Theorem mutex_owner_stable a sig s s1 s2 : lock_inv a s -> star (lock_step a sig) s s1 ->
  lock_step a sig s1 s2 -> owner (lk_w s1) a <> -1 -> owner (lk_w s2) a <> owner (lk_w s1) a ->
  w_current (lk_w s1) = owner (lk_w s1) a.
Proof.
  intros Hinv Hs Hstep Hheld Hch.
  pose proof (star_invariant _ (lock_inv a) (lock_inv_step a sig) _ _ Hs Hinv) as [Hwf _ _ Hok].
  destruct Hstep; simpl in *; try done.
  - apply mutex_call_outcome in H1; [|done..].
    destruct H1; done.
  - destruct (Hok _ _ _ H0) as ((_ & Hid & Hm & _) & _).
    apply mutex_resume_outcome in H1; [|done..]. destruct H1; done.
  - apply mutex_unlock_outcome in H1; [|destruct H; lia]. destruct H1; done.
Qed.

(** Three threads of one process, priorities 10, 12 and 15, and a fresh mutex at
    address 64; thread 1 runs. *)
Definition demo_kernel : kernel :=
  mk_kernel
    (mk_tstate
      (mk_task 0 0 67 0 0 0 0 20000
       :: example_task 1 10 7 :: example_task 1 12 13 :: example_task 1 15 13
       :: replicate 12 (mk_task 0 0 0 0 0 0 0 0))
      1 15 0 20000 0 false false)
    (example_sched 0 NULL :: example_sched 10 NULL :: example_sched 12 NULL :: example_sched 15 NULL
     :: replicate 12 (mk_sched 0 0 0 NULL 0 (mk_timeval 0 0) 0 []))
    0 1000 (SOS_USECOND_PERIOD + 1) 0.
Definition demo_world : world := mk_world demo_kernel {[ 64 := mk_mutex true false false 20 1 (-1) 0 ]} ∅.
Definition demo_system : lock_system := mk_lk demo_world (fun _ => None).

Lemma demo_inv : lock_inv 64 demo_system.
Proof.
  split; [done|done|left; done|]. intros t. apply pc_ok_none.
Qed.

(** Thread 1 locks, threads 2 and 3 wait, thread 1 unlocks. *)
Definition demo_switch (i : Z) (w : world) : world := with_k (switch_to i (w_k w)) w.
Definition demo1 : world := (pthread_mutex_lock 64 demo_world).1.
Definition demo2 : world := (pthread_mutex_lock 64 (demo_switch 2 demo1)).1.
Definition demo3 : world := (pthread_mutex_lock 64 (demo_switch 3 demo2)).1.
Definition demo4 : world := (pthread_mutex_unlock 64 (demo_switch 1 demo3)).1.
Definition demo_args (t : Z) : trylock_args := mk_trylock t 64 false tv_invalid.
Definition demo_pc : Z -> option (lock_call * trylock_args) :=
  set_pc 3 (Some (CallLock, demo_args 3)) (set_pc 2 (Some (CallLock, demo_args 2)) (set_pc 1 None (fun _ => None))).

Lemma running_check w :
  (1 <=? w_current w) && (w_current w <? CONFIG_TASK_TOTAL) && active (w_k w) (w_current w)
  && enabled (w_k w) (w_current w) = true -> running w.
Proof.
  intros H. apply andb_true_iff in H as [H ?]. apply andb_true_iff in H as [H ?].
  apply andb_true_iff in H as [?%Z.leb_le ?%Z.ltb_lt]. done.
Qed.

Lemma demo_run_before sig : star (lock_step 64 sig) demo_system (mk_lk (demo_switch 1 demo3) demo_pc).
Proof.
  eapply star_step.
  { apply (lk_call 64 sig CallLock demo_world _ demo1 (Returned (Ret 0)));
      [apply running_check; vm_compute; reflexivity|done|vm_compute; reflexivity]. }
  eapply star_step; [apply (lk_switch _ _ _ _ 2); done|].
  eapply star_step.
  { apply (lk_call 64 sig CallLock (demo_switch 2 demo1) _ demo2 (Waiting (demo_args 2)));
      [apply running_check; vm_compute; reflexivity|done|vm_compute; reflexivity]. }
  eapply star_step; [apply (lk_switch _ _ _ _ 3); done|].
  eapply star_step.
  { apply (lk_call 64 sig CallLock (demo_switch 3 demo2) _ demo3 (Waiting (demo_args 3)));
      [apply running_check; vm_compute; reflexivity|done|vm_compute; reflexivity]. }
  eapply star_step; [apply (lk_switch _ _ _ _ 1); done|]. apply star_refl.
Qed.
Lemma demo_unlock sig : lock_step 64 sig (mk_lk (demo_switch 1 demo3) demo_pc) (mk_lk demo4 demo_pc).
Proof.
  apply (lk_unlock 64 sig (demo_switch 1 demo3) _ demo4 (Ret 0));
    [apply running_check; vm_compute; reflexivity|done|vm_compute; reflexivity].
Qed.
Lemma star_snoc {S} (R : S -> S -> Prop) s1 s2 s3 : star R s1 s2 -> R s2 s3 -> star R s1 s3.
Proof.
  intros H. induction H; intros; [eapply star_step; [eassumption|constructor]|eapply star_step; eauto].
Qed.
Lemma demo_run : star (lock_step 64 true) demo_system (mk_lk (demo_switch 3 demo4) demo_pc).
Proof.
  eapply star_snoc; [eapply star_snoc; [apply demo_run_before|apply demo_unlock]|].
  apply (lk_switch _ _ _ _ 3). done.
Qed.

Lemma mutex_lock_returns_owner_witness :
  exists w', pthread_mutex_resume CallLock (demo_args 3) (demo_switch 3 demo4) = (w', Returned (Ret 0)) /\
    owner w' 64 = 3.
Proof.
  exists (pthread_mutex_resume CallLock (demo_args 3) (demo_switch 3 demo4)).1.
  assert (E : pthread_mutex_resume CallLock (demo_args 3) (demo_switch 3 demo4)
              = ((pthread_mutex_resume CallLock (demo_args 3) (demo_switch 3 demo4)).1, Returned (Ret 0)))
    by (vm_compute; reflexivity).
  split; [exact E|].
  destruct (mutex_lock_returns_owner 64 true _ _ demo_inv demo_run) as [_ H].
  refine (H _ _ _); [apply running_check; vm_compute; reflexivity|].
  right. exists (demo_args 3). split; [reflexivity|exact E].
Defined.

Lemma mutex_owner_stable_witness : w_current (demo_switch 1 demo3) = owner (demo_switch 1 demo3) 64.
Proof.
  apply (mutex_owner_stable 64 true _ _ _ demo_inv (demo_run_before true) (demo_unlock true));
    vm_compute; discriminate.
Defined.

(** ** No waiter is forgotten *)

Record fair_inv (a : Z) (s : lock_system) : Prop := {
  fi_inv : lock_inv a s;
  fi_thread : forall t, 1 <= t < CONFIG_TASK_TOTAL ->
    stopped (w_k (lk_w s)) t = false /\
    v_unblock (view (w_k (lk_w s)) t) <> SCHEDULER_UNBLOCK_SIGNAL /\
    CONFIG_SCHED_LOWEST_PRIORITY <= sched_priority (sched (w_k (lk_w s)) t);
  fi_held : forall t c args, lk_pc s t = Some (c, args) -> active (w_k (lk_w s)) t = false ->
    owner (lk_w s) a <> -1;
}.

(** The thread conditions survive a step whose wake-ups are not signals. *)
Lemma fair_thread_frame k k' t : frame k k' -> 1 <= t ->
  v_unblock (view k' t) <> SCHEDULER_UNBLOCK_SIGNAL ->
  stopped k t = false /\ v_unblock (view k t) <> SCHEDULER_UNBLOCK_SIGNAL /\
  CONFIG_SCHED_LOWEST_PRIORITY <= sched_priority (sched k t) ->
  stopped k' t = false /\ v_unblock (view k' t) <> SCHEDULER_UNBLOCK_SIGNAL /\
  CONFIG_SCHED_LOWEST_PRIORITY <= sched_priority (sched k' t).
Proof.
  intros F Ht Hu (Hs & _ & Hp). split_and!; [|done|now rewrite (fr_priority _ _ F) by lia].
  destruct (stopped k' t) eqn:E; [|done]. apply (fr_stopped _ _ F) in E; [congruence|lia].
Qed.

Lemma fair_inv_call a c w pc w' r : running w -> pthread_mutex_call c a w = (w', r) ->
  fair_inv a (mk_lk w pc) -> fair_inv a (mk_lk w' (set_pc (w_current w) (waits_in c r) pc)).
Proof.
  intros Hrun Hcall [Hinv Hth Hh]. split; [now apply lock_inv_call| |];
    pose proof Hinv as [Hwf _ _ _]; cbn [lk_w lk_pc] in *;
    apply mutex_call_outcome in Hcall; try done; destruct Hrun as (Hcur & Hact & _).
  - intros t Ht. destruct Hcall as [r _|k' _ U|_ _ _|k' args _ _ Hid _ _ Hk Hu]; try (now apply Hth).
    + apply (fair_thread_frame (w_k w)); [apply U|lia| |auto].
      cbn [w_k with_k set_mutex]. rewrite (unchanged_view t _ _ U) by lia. now apply Hth.
    + assert (Hon : only (w_current w) (w_k w) k').
      { destruct (ta_trylock args); [destruct Hk as [_ ->]; reflexivity|rewrite <- Hid; apply Hk]. }
      apply (fair_thread_frame (w_k w)); [apply Hon|lia| |auto]. cbn [w_k with_k].
      destruct (decide (t = w_current w)) as [->|Hne].
      * rewrite Hu. now apply (Hth (w_current w)).
      * rewrite (only_view _ t _ _ Hon) by (done || lia). now apply Hth.
  - intros t c' args' Hpc Ha. unfold set_pc in Hpc.
    destruct (Z.eqb_spec t (w_current w)) as [->|Hne].
    + destruct Hcall; cbn [waits_in] in Hpc; try discriminate. done.
    + destruct Hcall as [r _|k' Hf U|Ho _ _|k' args Ho _ Hid _ _ Hk Hu]; try done.
      * eapply Hh; eassumption.
      * unfold owner. rewrite mutex_set_eq. simpl. lia.
      * unfold owner in *. rewrite mutex_set_eq. simpl. lia.
Qed.

Lemma fair_inv_resume a c args w pc w' r : running w -> pc (w_current w) = Some (c, args) ->
  pthread_mutex_resume c args w = (w', r) -> fair_inv a (mk_lk w pc) ->
  fair_inv a (mk_lk w' (set_pc (w_current w) (waits_in c r) pc)).
Proof.
  intros Hrun Hpc Hres [Hinv Hth Hh]. pose proof Hinv as [Hwf _ _ Hok]. cbn [lk_w lk_pc] in *.
  destruct (Hok _ _ _ Hpc) as ((Ht & Hid & _) & _).
  assert (Hn : scheduler_unblock_type (w_k w) (ta_id args) <> SCHEDULER_UNBLOCK_SIGNAL)
    by (rewrite Hid; now apply (Hth (w_current w))).
  assert (Hinv' : lock_inv a (mk_lk w' (set_pc (w_current w) (waits_in c r) pc)))
    by (eapply lock_inv_resume; eassumption).
  apply mutex_resume_outcome in Hres; [|done..]. destruct Hres; [|contradiction..].
  split; cbn [lk_w lk_pc]; [done|done|].
  intros t c' args' E Ha. unfold set_pc in E. destruct (t =? w_current w); [discriminate|].
  eapply Hh; eassumption.
Qed.

Lemma fair_unlock_outcome a w w1 w' pc : 1 <= w_current w < CONFIG_TASK_TOTAL ->
  pc (w_current w) = None -> w_k w1 = w_k w ->
  frame (w_k w) (w_k w') ->
  v_unblock (view (w_k w') (w_current w)) = v_unblock (view (w_k w) (w_current w)) ->
  (exists t, handed_to (w_current w) a t w1 w') \/ freed (w_current w) a w1 w' ->
  lock_inv a (mk_lk w' pc) -> fair_inv a (mk_lk w pc) -> fair_inv a (mk_lk w' pc).
Proof.
  intros Hcur Hpc Hk F Vc Hcase Hinv' [Hinv Hth Hh]. pose proof Hinv as [Hwf _ _ Hok].
  cbn [lk_w lk_pc] in *. split; cbn [lk_w lk_pc]; [exact Hinv'| |].
  - intros t Ht. apply (fair_thread_frame (w_k w)); [exact F|lia| |auto].
    destruct (decide (t = w_current w)) as [->|Hne]; [rewrite Vc; apply (Hth (w_current w)), Ht|].
    destruct Hcase as [(u & [_ _ _ _ Hv Hoth])|[_ _ Hoth]].
    + destruct (decide (t = u)) as [->|Htu]; [rewrite Hv; discriminate|].
      rewrite Hoth, Hk by (done || lia). now apply Hth.
    + rewrite Hoth, Hk by (done || lia). now apply Hth.
  - intros t c args E Ha.
    destruct Hcase as [(u & [[Hu _] _ _ Hmx _ _])|[Hnone Hmx Hoth]];
      unfold owner, mutex; rewrite Hmx, lookup_total_insert_eq; simpl; [lia|]. exfalso.
    destruct (decide (t = w_current w)) as [->|Hne]; [congruence|].
    destruct (Hok _ _ _ E) as ((Ht & _ & _ & Hen & _) & Hbl & _).
    specialize (Hoth t ltac:(lia) Hne). rewrite Hk in Hoth.
    pose proof (f_equal v_active Hoth) as Hva. unfold view in Hva at 1. cbn [v_active] in Hva.
    rewrite Ha in Hva. destruct (Hbl (eq_sym Hva)) as [Hb _].
    destruct (Hth t Ht) as (Hst & _ & Hp). apply (Hnone t Ht Hne). rewrite Hk.
    unfold candidate, blocked_on. fold (enabled (w_k w) t) (active (w_k w) t). split_and!; try done.
    unfold view in Hb, Hva. cbn [v_active v_block] in Hb, Hva.
    rewrite Hen, Hb, <- Hva. unfold ptr_eqb. now rewrite bool_decide_true.
Qed.

Lemma fair_inv_root_unlock a w w1 pc : running w -> pc (w_current w) = None ->
  w_k w1 = w_k w -> owner w a = w_current w ->
  fair_inv a (mk_lk w pc) -> fair_inv a (mk_lk (pthread_mutex_root_unlock (w_current w) a w1) pc).
Proof.
  intros Hrun Hpc Hk Ho Hf. pose proof (fi_inv _ _ Hf) as Hinv.
  destruct (root_unlock_cases (w_current w) a w1) as (F & _ & Vc & Hcase);
    [rewrite Hk; apply (li_wf _ _ Hinv)|unfold w_current; now rewrite Hk|apply Hrun|].
  rewrite Hk in F, Vc. apply (f_equal v_unblock) in Vc.
  exact (fair_unlock_outcome a w w1 _ pc (proj1 Hrun) Hpc Hk F Vc Hcase
           (lock_inv_root_unlock a w w1 pc Hrun Hpc Hk Ho Hinv) Hf).
Qed.

Lemma fair_inv_step a s s' : fair_inv a s -> lock_step a false s s' -> fair_inv a s'.
Proof.
  intros Hf Hstep. pose proof (lock_inv_step a false s s' (fi_inv _ _ Hf) Hstep) as Hinv'.
  destruct Hstep as [| | w pc w' r Hrun Hpc Hun|w pc now counter Hc|w pc i Hsig _|w pc i Hi].
  - now apply fair_inv_call.
  - eapply fair_inv_resume; eassumption.
  - pose proof Hrun as (Hcur & _). apply mutex_unlock_outcome in Hun; [|lia].
    destruct Hun as [e|Ho Hl|w1 Ho Hk Ho1]; [exact Hf| |now apply fair_inv_root_unlock].
    destruct Hf as [_ Hth Hh]. split; [done|exact Hth|]. intros t c args E Ha.
    unfold owner in *. cbn [lk_w]. rewrite mutex_set_eq. simpl. lia.
  - destruct Hf as [Hinv Hth Hh]. pose proof Hinv as [Hwf _ _ Hok]. cbn [lk_w lk_pc] in *.
    set (k0 := with_counter counter (with_now now (w_k w))) in *.
    destruct (match_event_views k0 Hwf) as [F V]. split; [done| |]; cbn [lk_w lk_pc w_k with_k].
    + intros t Ht. apply (fair_thread_frame k0); [exact F|lia| |exact (Hth t Ht)].
      specialize (V t Ht). destruct (asleep_in k0 t && due k0 t).
      * destruct V as (_ & _ & V). rewrite V. discriminate.
      * rewrite V. exact (proj1 (proj2 (Hth t Ht))).
    + intros t c args E Ha. apply (Hh t c args E). destruct (Hok _ _ _ E) as ((Ht & _) & _).
      specialize (V t Ht). destruct (asleep_in k0 t && due k0 t).
      * destruct V as (V & _). unfold view in V. cbn [v_active] in V. congruence.
      * pose proof (f_equal v_active V) as V'. unfold view in V'. cbn [v_active] in V'.
        rewrite Ha in V'. symmetry. exact V'.
  - discriminate.
  - destruct Hf as [_ Hth Hh]. split; [done|exact Hth|exact Hh].
Qed.

(** C19: No waiter is forgotten: as long as no thread is stopped or interrupted by
    a signal, a thread asleep in a lock call always waits for a mutex that another
    thread holds (so the unlock to come can hand it over). *)
Theorem mutex_no_forgotten_waiter a s s' t c args : fair_inv a s -> star (lock_step a false) s s' ->
  lk_pc s' t = Some (c, args) -> active (w_k (lk_w s')) t = false ->
  owner (lk_w s') a <> -1 /\ owner (lk_w s') a <> t /\
  block_object (sched (w_k (lk_w s')) t) = Pobj a.
Proof.
  intros Hf Hs Hpc Ha. destruct (star_invariant _ (fair_inv a) (fair_inv_step a) _ _ Hs Hf) as [[_ _ _ Hok] _ Hh].
  destruct (Hok _ _ _ Hpc) as (_ & Hbl & _). destruct (Hbl Ha). split_and!; try done. eapply Hh; eassumption.
Qed.

Lemma demo_fair : fair_inv 64 demo_system.
Proof.
  split; [apply demo_inv| |done].
  refine (each_task _ _). vm_compute. repeat constructor; intros; congruence.
Qed.
Lemma mutex_no_forgotten_waiter_witness : owner (demo_switch 1 demo3) 64 <> -1.
Proof.
  apply (mutex_no_forgotten_waiter 64 _ _ 2 CallLock (demo_args 2) demo_fair (demo_run_before false));
    vm_compute; reflexivity.
Defined.

(** ** Functional behaviour *)

Definition initialised (a : Z) (w : world) : Prop := mutex_check_initialized a w = None.

Lemma mutex_unlock_last a w : 1 <= w_current w -> initialised a w ->
  owner w a = w_current w -> mutex_recursive (mutex w a) = false ->
  pthread_mutex_unlock a w = (pthread_mutex_root_unlock (w_current w) a w, Ret 0).
Proof.
  intros Hc Hi Ho Hr. unfold pthread_mutex_unlock. rewrite Hi. fold (owner w a). rewrite Ho, Hr, Z.eqb_refl.
  destruct (Z.eqb_spec (w_current w) 0); [lia|done].
Qed.

(** Unlocking by the owner succeeds and hands the mutex to the waiting thread
    of highest priority (the first after the owner in round-robin order among
    equals), which becomes active as its owner with a lock count of one; when no
    unstopped thread waits, the mutex becomes free.  Threads other than the two
    are not touched. *)
Theorem mutex_unlock_hands_off a w : kernel_wf (w_k w) -> 1 <= w_current w < CONFIG_TASK_TOTAL ->
  initialised a w -> owner w a = w_current w -> mutex_recursive (mutex w a) = false ->
  let w' := (pthread_mutex_unlock a w).1 in
  (pthread_mutex_unlock a w).2 = Ret 0 /\
  ((exists t, 1 <= t < CONFIG_TASK_TOTAL /\ t <> w_current w /\ candidate (w_k w) (Pobj a) t /\
      owner w' a = t /\ mutex_lock (mutex w' a) = 1 /\
      mutex_pid (mutex w' a) = task_get_pid (k_tasks (w_k w)) t /\
      active (w_k w') t = true /\ block_object (sched (w_k w') t) = NULL /\
      scheduler_unblock_type (w_k w') t = SCHEDULER_UNBLOCK_MUTEX /\
      (forall j, 1 <= j < CONFIG_TASK_TOTAL -> j <> w_current w -> candidate (w_k w) (Pobj a) j -> j <> t ->
         sched_priority (sched (w_k w) j) < sched_priority (sched (w_k w) t) \/
         (sched_priority (sched (w_k w) j) = sched_priority (sched (w_k w) t) /\
          rr_distance (w_current w) t < rr_distance (w_current w) j)) /\
      (forall j, 0 <= j -> j <> t -> j <> w_current w -> view (w_k w') j = view (w_k w) j)) \/
   ((forall j, 1 <= j < CONFIG_TASK_TOTAL -> j <> w_current w -> ~ candidate (w_k w) (Pobj a) j) /\
    owner w' a = -1 /\ mutex_lock (mutex w' a) = 0 /\
    (forall j, 0 <= j -> j <> w_current w -> view (w_k w') j = view (w_k w) j))).
Proof.
  intros Hwf Hc Hi Ho Hr w'. unfold w'. rewrite (mutex_unlock_last a w ltac:(lia) Hi Ho Hr). cbn [fst snd].
  split; [done|].
  destruct (root_unlock_cases (w_current w) a w Hwf eq_refl Hc) as (_ & _ & _ & Hcase).
  clear w'. revert Hcase. generalize (pthread_mutex_root_unlock (w_current w) a w). intros w' [(t & H)|H]; [left|right].
  - destruct H as [[H1 H2] H3 H4 H5 H6 H7]. exists t. unfold owner, mutex. rewrite H5, lookup_total_insert_eq.
    pose proof (f_equal v_active H6). pose proof (f_equal v_block H6). pose proof (f_equal v_unblock H6).
    split_and!; done || lia.
  - destruct H as [H1 H2 H3]. unfold owner, mutex. rewrite H2, lookup_total_insert_eq. done.
Qed.

Lemma mutex_unlock_hands_off_witness :
  (pthread_mutex_unlock 64 (demo_switch 1 demo3)).2 = Ret 0 /\
  owner (pthread_mutex_unlock 64 (demo_switch 1 demo3)).1 64 = 3.
Proof.
  destruct (mutex_unlock_hands_off 64 (demo_switch 1 demo3)
              ltac:(vm_compute; intuition congruence) ltac:(vm_compute; intuition congruence)
              ltac:(vm_compute; reflexivity) ltac:(vm_compute; reflexivity) ltac:(vm_compute; reflexivity))
    as [H _].
  split; [exact H|vm_compute; reflexivity].
Defined.

(** A recursive mutex counts: a thread that holds it below the limit can lock
    it again, and unlocking restores exactly the state before; at the limit of
    [CONFIG_PTHREAD_MAX_LOCKS] the lock fails with EAGAIN and changes nothing. *)
Theorem recursive_lock_roundtrip a w m : 1 <= w_current w ->
  w_mutex w !! a = Some m -> initialised a w -> mutex_recursive m = true ->
  mutex_pthread m = w_current w -> (mutex_pshared m = true \/ mutex_pid m = getpid w) ->
  1 <= mutex_lock m ->
  if mutex_lock m <? CONFIG_PTHREAD_MAX_LOCKS then
    (pthread_mutex_lock a w).2 = Returned (Ret 0) /\
    mutex_lock (mutex (pthread_mutex_lock a w).1 a) = mutex_lock m + 1 /\
    pthread_mutex_unlock a (pthread_mutex_lock a w).1 = (w, Ret 0)
  else pthread_mutex_lock a w = (w, Returned (Err EAGAIN)).
Proof.
  intros Hc Hm Hi Hr Ho Hacc Hl.
  assert (Hmx : mutex w a = m) by (unfold mutex; now apply lookup_total_correct).
  assert (Ha : (a =? 0) = false).
  { unfold initialised, mutex_check_initialized in Hi. destruct (a =? 0); [done|done]. }
  assert (Hin : mutex_initialized m = true).
  { unfold initialised, mutex_check_initialized in Hi. rewrite Hmx in Hi. destruct (_ || _); [done|].
    now destruct (mutex_initialized m). }
  assert (Hlock : mutex_trylock a false None w
            = if mutex_lock m <? CONFIG_PTHREAD_MAX_LOCKS
              then (set_mutex a (with_lock (mutex_lock m + 1) m) w, Tried 0 0) else (w, Tried (-1) EAGAIN)).
  { unfold mutex_trylock. rewrite Ha, Hmx, Hin, Ho, Z.eqb_refl, Hr.
    destruct Hacc as [-> | ->]; [|rewrite Z.eqb_refl, andb_false_r]; done. }
  unfold pthread_mutex_lock, pthread_mutex_call. unfold initialised in Hi. rewrite Hi. cbv beta iota.
  rewrite Hlock. destruct (Z.eqb_spec (w_current w) 0); [lia|].
  destruct (mutex_lock m <? CONFIG_PTHREAD_MAX_LOCKS); [|done]. cbn [fst snd].
  split_and!; [done|now rewrite mutex_set_eq|].
  unfold pthread_mutex_unlock, mutex_check_initialized. rewrite !mutex_set_eq.
  change (w_current (set_mutex a (with_lock (mutex_lock m + 1) m) w)) with (w_current w).
  destruct (Z.eqb_spec (w_current w) 0); [lia|].
  unfold mutex_check_initialized in Hi. rewrite Ha in *. destruct (negb _); [done|].
  cbn [orb with_lock with_owner mutex_initialized mutex_pthread mutex_recursive mutex_lock].
  rewrite Hin, Ho, Hr, Z.eqb_refl. cbn [negb].
  replace (mutex_lock m + 1 - 1) with (mutex_lock m) by lia.
  destruct (Z.eqb_spec (mutex_lock m) 0); [lia|]. cbn [negb]. f_equal.
  destruct w as [k mx cn]. unfold set_mutex. simpl in *. f_equal. rewrite insert_insert_eq.
  apply insert_id. rewrite Hm. f_equal. now destruct m.
Qed.

Definition demo_recursive : world := mk_world demo_kernel {[ 64 := mk_mutex true false true 0 1 1 3 ]} ∅.
Lemma recursive_lock_roundtrip_witness :
  pthread_mutex_unlock 64 (pthread_mutex_lock 64 demo_recursive).1 = (demo_recursive, Ret 0).
Proof.
  assert (Hl : 1 <= 3) by lia.
  destruct (recursive_lock_roundtrip 64 demo_recursive (mk_mutex true false true 0 1 1 3)
    ltac:(done) eq_refl eq_refl eq_refl eq_refl (or_intror eq_refl) Hl) as (_ & _ & H).
  exact H.
Defined.

(** ** The priority ceiling *)

Lemma priority_set_eq id p k : kernel_wf k -> task_id id -> - 2 ^ 7 <= p < 2 ^ 7 ->
  priority (on_tasks (task_set_priority id p) k) id = p.
Proof.
  intros Hwf Hi Hp. unfold priority, task_get_priority, task_set_priority. simpl.
  rewrite task_on_task_eq by (apply Hwf || done). simpl. now apply s8_id.
Qed.
Lemma priority_set_ne id j p k : 0 <= j -> j <> id ->
  priority (on_tasks (task_set_priority id p) k) j = priority k j.
Proof.
  intros Hj Hne. unfold priority, task_get_priority, task_set_priority. simpl.
  now rewrite task_on_task_ne by auto.
Qed.

Lemma hand_over_priority t c b k j : kernel_wf k -> task_id t -> 0 <= j -> j <> t ->
  priority (hand_over t c b k) j = priority k j.
Proof.
  intros Hwf Ht Hj Hne. unfold hand_over. set (k1 := if b then _ else _).
  assert (U1 : unchanged k k1) by (unfold k1; destruct b; [apply set_priority_unchanged|reflexivity]).
  assert (P1 : priority k1 j = priority k j) by (unfold k1; destruct b; [now apply priority_set_ne|done]).
  rewrite (st_priority _ _ (update_on_wake_same _ _ _)) by done.
  assert (Hwf1 : kernel_wf k1) by (apply U1, Hwf).
  rewrite (wk_priority _ _ _ _ (assert_active_woken t SCHEDULER_UNBLOCK_MUTEX k1 Hwf1 Ht ltac:(done))) by done.
  exact P1.
Qed.

Lemma root_unlock_restores id a w : kernel_wf (w_k w) -> 1 <= id < CONFIG_TASK_TOTAL -> w_current w = id ->
  - 2 ^ 7 <= sched_priority (sched (w_k w) id) < 2 ^ 7 ->
  priority (w_k (pthread_mutex_root_unlock id a w)) id = sched_priority (sched (w_k w) id).
Proof.
  intros Hwf Hid Hc Hp. rewrite root_unlock_eq. cbv zeta.
  assert (Hi : task_id id) by (unfold task_id; lia).
  destruct (restore_only id (w_k w) Hwf Hi) as [O _].
  assert (P : priority (restore id (w_k w)) id = sched_priority (sched (w_k w) id))
    by exact (priority_set_eq id _ (w_k w) Hwf Hi Hp).
  assert (Hwf1 : kernel_wf (restore id (w_k w))) by (apply O, Hwf).
  assert (Hor : search_origin (restore id (w_k w)) = id).
  { unfold search_origin. rewrite (fr_current _ _ (only_frame _ _ _ O)). unfold w_current in Hc.
    rewrite Hc. destruct (Z.eqb_spec id 0); lia. }
  pose proof (highest_priority_blocked_spec (restore id (w_k w)) (Pobj a) ltac:(apply Hwf1)) as [H1 _ _ _].
  rewrite Hor in H1. clear Hor. set (k1 := restore id (w_k w)) in *. clearbody k1.
  revert H1. generalize (scheduler_get_highest_priority_blocked k1 (Pobj a)). intros t H1.
  destruct (Z.ltb_spec 0 t); cbn [w_k with_k set_mutex].
  - destruct (H1 ltac:(lia)) as (Ht & Hne & _).
    rewrite hand_over_priority by (done || lia || unfold task_id; lia). exact P.
  - destruct (_ <? _); [|exact P]. rewrite (st_priority _ _ (update_on_stopped_same k1)) by lia. exact P.
Qed.

(** The priority ceiling protocol: taking a free mutex raises the thread to the
    ceiling (never lowers it), and the matching unlock restores the thread's own
    scheduling priority. *)
Theorem mutex_priority_ceiling a w : kernel_wf (w_k w) -> 1 <= w_current w < CONFIG_TASK_TOTAL ->
  initialised a w -> owner w a = -1 -> mutex_recursive (mutex w a) = false ->
  (mutex_pshared (mutex w a) = true \/ mutex_pid (mutex w a) = getpid w) ->
  - 2 ^ 7 <= mutex_prio_ceiling (mutex w a) < 2 ^ 7 ->
  - 2 ^ 7 <= sched_priority (sched (w_k w) (w_current w)) < 2 ^ 7 ->
  let w1 := (pthread_mutex_lock a w).1 in
  (pthread_mutex_lock a w).2 = Returned (Ret 0) /\ owner w1 a = w_current w /\
  priority (w_k w1) (w_current w) = Z.max (priority (w_k w) (w_current w)) (mutex_prio_ceiling (mutex w a)) /\
  priority (w_k (pthread_mutex_unlock a w1).1) (w_current w) = sched_priority (sched (w_k w) (w_current w)).
Proof.
  intros Hwf Hc Hi Ho Hr Hacc Hceil Hsp w1.
  assert (Ht : task_id (w_current w)) by (unfold task_id; lia).
  assert (Hin : mutex_initialized (mutex w a) = true /\ (a =? 0) = false).
  { unfold initialised, mutex_check_initialized in Hi. destruct (a =? 0); [done|]. destruct (negb _); [done|].
    now destruct (mutex_initialized (mutex w a)). }
  destruct Hin as [Hin Ha].
  set (k' := if task_get_priority (k_tasks (w_k w)) (w_current w) <? mutex_prio_ceiling (mutex w a)
             then on_tasks (task_root_set_current_priority (mutex_prio_ceiling (mutex w a)))
                    (on_tasks (task_set_priority (w_current w) (mutex_prio_ceiling (mutex w a))) (w_k w))
             else w_k w).
  assert (E : pthread_mutex_lock a w
    = (set_mutex a (with_owner (getpid w) (w_current w) 1 (mutex w a)) (with_k k' w), Returned (Ret 0))).
  { unfold pthread_mutex_lock, pthread_mutex_call. unfold initialised in Hi. rewrite Hi. cbv beta iota.
    destruct (Z.eqb_spec (w_current w) 0); [lia|]. unfold mutex_trylock. rewrite Ha, Hin.
    unfold owner in Ho. rewrite Ho. destruct (Z.eqb_spec (-1) (w_current w)); [lia|].
    unfold svcall_mutex_trylock. cbn [ta_mutex ta_id]. rewrite Ho.
    destruct Hacc as [-> | ->]; [|rewrite Z.eqb_refl, andb_false_r]; reflexivity. }
  assert (U : unchanged (w_k w) k').
  { unfold k'. destruct (_ <? _); [|reflexivity]. etrans; [apply set_priority_unchanged|].
    apply set_current_priority_unchanged. }
  assert (P : priority k' (w_current w) = Z.max (priority (w_k w) (w_current w)) (mutex_prio_ceiling (mutex w a))).
  { unfold k'. fold (priority (w_k w) (w_current w)).
    destruct (Z.ltb_spec (priority (w_k w) (w_current w)) (mutex_prio_ceiling (mutex w a))); [|lia].
    rewrite Z.max_r by lia. exact (priority_set_eq (w_current w) _ (w_k w) Hwf Ht Hceil). }
  clearbody k'. unfold w1. rewrite E. cbn [fst snd].
  assert (Hcur : w_current (set_mutex a (with_owner (getpid w) (w_current w) 1 (mutex w a)) (with_k k' w)) = w_current w)
    by apply U.
  split_and!; [done|unfold owner; now rewrite mutex_set_eq|exact P|].
  rewrite mutex_unlock_last; rewrite ?Hcur; try lia.
  - cbn [fst]. rewrite root_unlock_restores; rewrite ?Hcur; try done; cbn [w_k set_mutex with_k].
    + apply U. lia.
    + now apply U.
    + rewrite (fr_priority _ _ (proj1 U)) by lia. exact Hsp.
  - unfold initialised, mutex_check_initialized in *. rewrite mutex_set_eq. rewrite Ha in *.
    destruct (negb _); [done|]. cbn. now rewrite Hin.
  - unfold owner. now rewrite mutex_set_eq.
  - now rewrite mutex_set_eq.
Qed.

Lemma mutex_priority_ceiling_witness :
  priority (w_k (pthread_mutex_lock 64 demo_world).1) 1 = 20 /\
  priority (w_k (pthread_mutex_unlock 64 (pthread_mutex_lock 64 demo_world).1).1) 1 = 10.
Proof.
  exact (proj2 (proj2 (mutex_priority_ceiling 64 demo_world ltac:(vm_compute; intuition congruence)
    ltac:(vm_compute; intuition congruence) eq_refl eq_refl eq_refl (or_intror eq_refl)
    ltac:(vm_compute; intuition congruence) ltac:(vm_compute; intuition congruence)))).
Defined.

(** ** Interference of signals with the wait loop *)

(** A thread whose last wake-up was a signal and that is in the wait loop of a
    mutex it does not own goes to sleep without a deadline. *)
Lemma resume_signal_sleeps c args w : running w -> kernel_wf (w_k w) -> ta_id args = w_current w ->
  ta_abs_timeout args = tv_invalid -> sched_usecond_counter (w_k w) < SCHEDULER_TIMEVAL_SEC_INVALID ->
  scheduler_unblock_type (w_k w) (w_current w) = SCHEDULER_UNBLOCK_SIGNAL ->
  owner w (ta_mutex args) <> w_current w ->
  let w' := (pthread_mutex_resume c args w).1 in
  active (w_k w') (w_current w) = false /\
  block_object (sched (w_k w') (w_current w)) = Pobj (ta_mutex args) /\
  wake (sched (w_k w') (w_current w)) = tv_invalid /\
  owner w' (ta_mutex args) = owner w (ta_mutex args).
Proof.
  intros Hrun Hwf Hid Hto Hc Hs Ho w'. unfold w'.
  destruct (pthread_mutex_resume c args w) as [w1 r] eqn:E. cbn [fst]. clear w'.
  apply mutex_resume_outcome in E; [|done..].
  destruct E as [Hn|k' _ Ho'|k' _ _ O Hk]; rewrite ?Hid in *; try contradiction.
  rewrite Hto, in_future_invalid in Hk by done.
  pose proof (f_equal v_active Hk). pose proof (f_equal v_block Hk). pose proof (f_equal v_wake Hk). done.
Qed.

(** [pthread_mutex_trylock] can block: on a mutex held by another thread it
    enters the wait loop, and when the reason of the caller's last wake-up is
    still a signal, the caller goes to sleep on the mutex without a deadline.  If
    it is handed the mutex later, the call reports EBUSY although the caller owns
    the mutex. *)
Theorem mutex_trylock_can_block a w : running w -> kernel_wf (w_k w) ->
  initialised a w -> owner w a <> -1 -> owner w a <> w_current w ->
  (mutex_pshared (mutex w a) = true \/ mutex_pid (mutex w a) = getpid w) ->
  sched_usecond_counter (w_k w) < SCHEDULER_TIMEVAL_SEC_INVALID ->
  scheduler_unblock_type (w_k w) (w_current w) = SCHEDULER_UNBLOCK_SIGNAL ->
  let args := mk_trylock (w_current w) a true tv_invalid in
  pthread_mutex_trylock a w = (w, Waiting args) /\
  active (w_k (pthread_mutex_resume CallTrylock args w).1) (w_current w) = false /\
  wake (sched (w_k (pthread_mutex_resume CallTrylock args w).1) (w_current w)) = tv_invalid /\
  (forall w2, scheduler_unblock_type (w_k w2) (w_current w) = SCHEDULER_UNBLOCK_MUTEX ->
     owner w2 a = w_current w ->
     pthread_mutex_resume CallTrylock args w2 = (w2, Returned (Err EBUSY))).
Proof.
  intros Hrun Hwf Hi Ho1 Ho2 Hacc Hc Hs args.
  assert (Hin : mutex_initialized (mutex w a) = true /\ (a =? 0) = false).
  { unfold initialised, mutex_check_initialized in Hi. destruct (a =? 0); [done|]. destruct (negb _); [done|].
    now destruct (mutex_initialized (mutex w a)). }
  destruct Hin as [Hin Ha].
  destruct (resume_signal_sleeps CallTrylock args w Hrun Hwf eq_refl eq_refl Hc Hs Ho2) as (H1 & _ & H3 & _).
  split_and!; try done.
  - unfold pthread_mutex_trylock, pthread_mutex_call. unfold initialised in Hi. rewrite Hi. cbv beta iota.
    destruct Hrun as [Hcur _]. destruct (Z.eqb_spec (w_current w) 0); [lia|]. unfold mutex_trylock.
    rewrite Ha, Hin. fold (owner w a).
    destruct (Z.eqb_spec (owner w a) (w_current w)); [done|].
    unfold svcall_mutex_trylock. cbn [ta_mutex ta_id ta_trylock]. fold (owner w a).
    destruct (Z.eqb_spec (owner w a) (-1)); [done|].
    destruct Hacc as [-> | ->]; [|rewrite Z.eqb_refl, andb_false_r]; reflexivity.
  - intros w2 Hu _. unfold pthread_mutex_resume, mutex_wait_turn. cbn [ta_id args]. now rewrite Hu.
Qed.

(** Thread 2 of the demo, once interrupted by a signal, tries the mutex thread 1
    holds. *)
Definition demo_signalled : world :=
  with_k (switch_to 2 (signal_root_activate 2 (w_k demo1))) demo1.
Lemma mutex_trylock_can_block_witness :
  active (w_k (pthread_mutex_resume CallTrylock (mk_trylock 2 64 true tv_invalid) demo_signalled).1) 2 = false.
Proof.
  destruct (mutex_trylock_can_block 64 demo_signalled) as (_ & H & _);
    [apply running_check; vm_compute; reflexivity|vm_compute; intuition congruence|vm_compute; reflexivity
    |vm_compute; discriminate|vm_compute; discriminate|right; vm_compute; reflexivity
    |vm_compute; reflexivity|vm_compute; reflexivity|exact H].
Defined.

(** A signal can make a thread wait for a free mutex: when the owner unlocks
    while a waiter runs its signal handler, the mutex becomes free, and the
    waiter's wait loop then puts it to sleep on the mutex without a deadline
    although nobody holds it. *)
Theorem mutex_signal_waits_on_free a c args w : running w -> kernel_wf (w_k w) ->
  ta_id args = w_current w -> ta_mutex args = a -> ta_abs_timeout args = tv_invalid ->
  sched_usecond_counter (w_k w) < SCHEDULER_TIMEVAL_SEC_INVALID ->
  scheduler_unblock_type (w_k w) (w_current w) = SCHEDULER_UNBLOCK_SIGNAL -> owner w a = -1 ->
  let w' := (pthread_mutex_resume c args w).1 in
  active (w_k w') (w_current w) = false /\
  block_object (sched (w_k w') (w_current w)) = Pobj a /\
  wake (sched (w_k w') (w_current w)) = tv_invalid /\ owner w' a = -1.
Proof.
  intros Hrun Hwf Hid <- Hto Hc Hs Ho. rewrite <- Ho.
  apply resume_signal_sleeps; try done. rewrite Ho. destruct Hrun. lia.
Qed.

(** Thread 2 waits, is interrupted, thread 1 unlocks, thread 2 resumes. *)
Definition demo_lost : world :=
  demo_switch 2
    (pthread_mutex_unlock 64
       (demo_switch 1 (with_k (signal_root_activate 2 (w_k demo2)) demo2))).1.
Lemma mutex_signal_waits_on_free_witness :
  active (w_k (pthread_mutex_resume CallLock (demo_args 2) demo_lost).1) 2 = false /\
  owner (pthread_mutex_resume CallLock (demo_args 2) demo_lost).1 64 = -1.
Proof.
  destruct (mutex_signal_waits_on_free 64 CallLock (demo_args 2) demo_lost) as (H1 & _ & _ & H2);
    [apply running_check; vm_compute; reflexivity|vm_compute; intuition congruence|vm_compute; reflexivity
    |vm_compute; reflexivity|vm_compute; reflexivity|vm_compute; reflexivity|vm_compute; reflexivity
    |vm_compute; reflexivity|split; [exact H1|exact H2]].
Defined.
