(* ===== verification/Cond.v ===== *)
(** * Condition variables

    [src/sys/pthread/pthread_cond.c].  A condition is a word: the process id with
    an initialised bit and a shared bit.  [pthread_cond_timedwait] is split where
    the thread sleeps: [CWaiting] is a thread that has run [svcall_cond_wait],
    [CLocking] one that is in the wait loop of the mutex afterwards. *)
From S2P Require Import Prelude Task Scheduler Timing Threads Mutex.

Definition PSHARED_FLAG : Z := 31.
Definition INIT_FLAG : Z := 30.
Definition PID_MASK : Z := 1073741823.

Definition cond (w : world) (a : Z) : Z := w_cond w !!! a.
Definition set_cond (a v : Z) (w : world) : world := mk_world (w_k w) (w_mutex w) (<[a := v]> (w_cond w)).

Definition cond_initialized (w : world) (a : Z) : bool := Bits.any (cond w a) (Z.shiftl 1 INIT_FLAG).

(** [attr] is the [process_shared] field of the attributes. *)
Definition pthread_cond_init (a : Z) (attr : option Z) (w : world) : world * api_result :=
  match attr with
  | None => (w, Err EINVAL)
  | Some process_shared =>
      if a =? 0 then (w, Err EINVAL)
      else
        let v := Z.lor (getpid w) (Z.shiftl 1 INIT_FLAG) in
        let v := if process_shared =? 0 then v else Z.lor v (Z.shiftl 1 PSHARED_FLAG) in
        (set_cond a v w, Ret 0)
  end.

Definition pthread_cond_destroy (a : Z) (w : world) : world * api_result :=
  if a =? 0 then (w, Err EINVAL)
  else if negb (cond_initialized w a) then (w, Err EINVAL)
  else (set_cond a 0 w, Ret 0).

Definition svcall_cond_broadcast (a : Z) (k : kernel) : kernel :=
  let '(k, prio) := scheduler_root_unblock_all (Pobj a) SCHEDULER_UNBLOCK_COND k in
  scheduler_root_update_on_wake (-1) prio k.

Definition pthread_cond_broadcast (a : Z) (w : world) : world * api_result :=
  if a =? 0 then (w, Err EINVAL)
  else if negb (cond_initialized w a) then (w, Err EINVAL)
  else (with_k (svcall_cond_broadcast a (w_k w)) w, Ret 0).

Definition svcall_cond_signal (id : Z) (k : kernel) : kernel :=
  let k := scheduler_root_assert_active id SCHEDULER_UNBLOCK_COND k in
  scheduler_root_update_on_wake id (task_get_priority (k_tasks k) id) k.

(** [pthread_cond_signal] picks the thread to wake outside of the svcall. *)
Definition cond_signal_select (a : Z) (w : world) : Z + api_result :=
  if a =? 0 then inr (Err EINVAL)
  else if negb (cond_initialized w a) then inr (Err EINVAL)
  else inl (scheduler_get_highest_priority_blocked (w_k w) (Pobj a)).
Definition pthread_cond_signal (a : Z) (w : world) : world * api_result :=
  match cond_signal_select a w with
  | inr r => (w, r)
  | inl new_thread =>
      if negb (new_thread =? -1) then (with_k (svcall_cond_signal new_thread (w_k w)) w, Ret 0)
      else (w, Ret 0)
  end.

Definition svcall_cond_wait (a m : Z) (interval : mcu_timeval) (w : world) : world :=
  let w := pthread_mutex_root_unlock (w_current w) m w in
  with_k (scheduler_timing_root_timedblock (Pobj a) interval (w_k w)) w.

Inductive cond_progress :=
| CReturned (r : api_result)
| CWaiting (m : Z)
| CLocking (args : trylock_args).

(** [scheduler_check_cancellation] at the entry of the call ends the thread when
    a cancellation is pending; the model is of a thread that is not being
    cancelled. *)
Definition pthread_cond_timedwait (a m : Z) (abstime : option timespec) (w : world)
    : world * cond_progress :=
  if a =? 0 then (w, CReturned (Err EINVAL))
  else if negb (cond_initialized w a) then (w, CReturned (Err EINVAL))
  else
    let pid := Z.land (cond w a) PID_MASK in
    if negb (Bits.any (cond w a) (Z.shiftl 1 PSHARED_FLAG)) && negb (pid =? getpid w)
    then (w, CReturned (Err EACCES))
    else if negb (mutex_pthread (mutex w m) =? w_current w) then (w, CReturned (Err EACCES))
    else
      let interval := match abstime with
                      | Some ts => scheduler_timing_convert_timespec (Some ts)
                      | None => mk_timeval SCHEDULER_TIMEVAL_SEC_INVALID 0
                      end in
      (svcall_cond_wait a m interval w, CWaiting m).
Definition pthread_cond_wait (a m : Z) : world -> world * cond_progress := pthread_cond_timedwait a m None.

(** After [pthread_mutex_lock] has returned. *)
Definition cond_wait_result (w : world) : api_result :=
  if scheduler_unblock_type (w_k w) (w_current w) =? SCHEDULER_UNBLOCK_SLEEP then Err ETIMEDOUT
  else if scheduler_unblock_type (w_k w) (w_current w) =? SCHEDULER_UNBLOCK_SIGNAL then Err EINTR
  else Ret 0.
Definition cond_after_lock (p : world * progress) : world * cond_progress :=
  match p with
  | (w, Waiting args) => (w, CLocking args)
  | (w, Returned _) => (w, CReturned (cond_wait_result w))
  end.
(** The rest of the call when the thread runs again. *)
Definition cond_wait_resume (p : cond_progress) (w : world) : world * cond_progress :=
  match p with
  | CReturned r => (w, CReturned r)
  | CWaiting m => cond_after_lock (pthread_mutex_lock m w)
  | CLocking args => cond_after_lock (pthread_mutex_resume CallLock args w)
  end.

(** ** Waking *)

Definition cond_ready (a : Z) (w : world) : Prop := a <> 0 /\ cond_initialized w a = true.

Lemma cond_ready_guards a w {A} (x y : A) : cond_ready a w ->
  (if a =? 0 then x else if negb (cond_initialized w a) then x else y) = y.
Proof. intros [Ha Hi]. rewrite Hi. now destruct (Z.eqb_spec a 0). Qed.

Lemma svcall_cond_signal_only id k : kernel_wf k -> task_id id ->
  only id k (svcall_cond_signal id k) /\
  view (svcall_cond_signal id k) id = mk_view true NULL SCHEDULER_UNBLOCK_COND tv_invalid.
Proof.
  intros Hwf Hi. unfold svcall_cond_signal.
  destruct (assert_active_only id SCHEDULER_UNBLOCK_COND k Hwf Hi ltac:(done)) as [O V].
  set (k1 := scheduler_root_assert_active _ _ _) in *.
  pose proof (update_on_wake_unchanged id (task_get_priority (k_tasks k1) id) k1) as U.
  split.
  - etrans; [exact O|]. now apply unchanged_only.
  - rewrite (unchanged_view _ _ _ U) by apply Hi. exact V.
Qed.

(** [pthread_cond_signal] wakes exactly one waiter, one of maximal priority
    (the first after the caller in round-robin order among equals), with the
    COND unblock type, and no thread when none waits; every other thread keeps its
    state. *)
Theorem cond_signal_wakes_one a w : kernel_wf (w_k w) -> cond_ready a w ->
  let w' := (pthread_cond_signal a w).1 in
  (pthread_cond_signal a w).2 = Ret 0 /\
  ((exists t, candidate (w_k w) (Pobj a) t /\
      (forall j, 1 <= j < CONFIG_TASK_TOTAL -> j <> search_origin (w_k w) -> candidate (w_k w) (Pobj a) j ->
         sched_priority (sched (w_k w) j) <= sched_priority (sched (w_k w) t)) /\
      view (w_k w') t = mk_view true NULL SCHEDULER_UNBLOCK_COND tv_invalid /\
      (forall j, 0 <= j -> j <> t -> view (w_k w') j = view (w_k w) j)) \/
   ((forall j, 1 <= j < CONFIG_TASK_TOTAL -> j <> search_origin (w_k w) -> ~ candidate (w_k w) (Pobj a) j) /\
    w' = w)).
Proof.
  intros Hwf Hr. cbv zeta. unfold pthread_cond_signal, cond_signal_select.
  rewrite cond_ready_guards by done.
  destruct (highest_priority_blocked_spec (w_k w) (Pobj a) ltac:(apply Hwf)) as [H1 H2 H3 _].
  revert H1 H2 H3. generalize (scheduler_get_highest_priority_blocked (w_k w) (Pobj a)). intros t H1 H2 H3.
  destruct (Z.eqb_spec t (-1)) as [E|E]; cbn [negb fst snd].
  - split; [done|right]. auto.
  - split; [done|left]. destruct (H1 E) as (Ht & _ & Hc). exists t.
    destruct (svcall_cond_signal_only t (w_k w) Hwf ltac:(unfold task_id; lia)) as [O V].
    split_and!; auto. intros j Hj Hne. cbn [w_k with_k]. now apply (only_view t).
Qed.

(** [pthread_cond_broadcast] wakes every thread that waits on the condition
    with the COND unblock type and no other thread, and raises the running
    priority to that of the unstopped threads it woke. *)
Theorem cond_broadcast_wakes_all a w : kernel_wf (w_k w) -> cond_ready a w ->
  (forall i, 1 <= i < CONFIG_TASK_TOTAL ->
     CONFIG_SCHED_LOWEST_PRIORITY <= sched_priority (sched (w_k w) i) <= CONFIG_SCHED_HIGHEST_PRIORITY) ->
  let w' := (pthread_cond_broadcast a w).1 in
  (pthread_cond_broadcast a w).2 = Ret 0 /\
  (forall i, 1 <= i < CONFIG_TASK_TOTAL -> blocked_on (w_k w) (Pobj a) i = true ->
     active (w_k w') i = true /\ block_object (sched (w_k w') i) = NULL /\
     scheduler_unblock_type (w_k w') i = SCHEDULER_UNBLOCK_COND /\
     (stopped (w_k w) i = false ->
      sched_priority (sched (w_k w) i) <= task_get_current_priority (k_tasks (w_k w')))) /\
  (forall i, 1 <= i < CONFIG_TASK_TOTAL -> blocked_on (w_k w) (Pobj a) i = false ->
     view (w_k w') i = view (w_k w) i).
Proof.
  intros Hwf Hr Hp. cbv zeta. unfold pthread_cond_broadcast. rewrite cond_ready_guards by done.
  cbn [fst snd w_k with_k]. split; [done|]. unfold svcall_cond_broadcast.
  destruct (unblock_all_spec (Pobj a) SCHEDULER_UNBLOCK_COND (w_k w) Hwf ltac:(done)) as [Hwf' _ Hw Ho Hm Hpr].
  revert Hwf' Hw Ho Hm Hpr. generalize (scheduler_root_unblock_all (Pobj a) SCHEDULER_UNBLOCK_COND (w_k w)).
  intros [k1 p] Hwf' Hw Ho Hm Hpr. cbn [fst snd] in *.
  pose proof (update_on_wake_unchanged (-1) p k1) as [_ V].
  assert (Hcp : task_get_current_priority (k_tasks (scheduler_root_update_on_wake (-1) p k1))
                = Z.max (task_get_current_priority (k_tasks k1)) p).
  { rewrite update_on_wake_priority; [done|].
    destruct Hpr as [->|(i & Hi & _ & _ & ->)]; [lia|]. specialize (Hp i Hi).
    unfold CONFIG_SCHED_LOWEST_PRIORITY, CONFIG_SCHED_HIGHEST_PRIORITY in Hp. lia. }
  split.
  - intros i Hi Hb. destruct (Hw i Hi Hb) as (H1 & H2 & H3 & _). specialize (V i ltac:(lia)).
    pose proof (f_equal v_active V) as E1. pose proof (f_equal v_block V) as E2.
    pose proof (f_equal v_unblock V) as E3. cbn [view v_active v_block v_unblock] in E1, E2, E3.
    rewrite E1, E2, E3, Hcp. split_and!; try done. intros Hs. specialize (Hm i Hi Hb Hs). lia.
  - intros i Hi Hb. rewrite V by lia. destruct (Ho i ltac:(lia) ltac:(auto)) as [Ht Hs].
    unfold view, active, task_active_asserted, task_flag_asserted, scheduler_unblock_type. now rewrite Ht, Hs.
Qed.

Definition cond_accessible (a : Z) (w : world) : Prop :=
  Bits.any (cond w a) (Z.shiftl 1 PSHARED_FLAG) = true \/ Z.land (cond w a) PID_MASK = getpid w.

Lemma cond_wait_step a m w : cond_ready a w -> cond_accessible a w -> owner w m = w_current w ->
  pthread_cond_wait a m w = (svcall_cond_wait a m tv_invalid w, CWaiting m).
Proof.
  intros [Ha Hi] Hacc Ho. unfold pthread_cond_wait, pthread_cond_timedwait. rewrite Hi.
  destruct (Z.eqb_spec a 0); [done|]. cbn [negb]. fold (owner w m). rewrite Ho, Z.eqb_refl.
  destruct Hacc as [-> | ->]; [|rewrite Z.eqb_refl, andb_false_r]; done.
Qed.

Lemma svcall_cond_wait_view a m w : kernel_wf (w_k w) -> 1 <= w_current w < CONFIG_TASK_TOTAL ->
  sched_usecond_counter (w_k w) < SCHEDULER_TIMEVAL_SEC_INVALID ->
  let w' := svcall_cond_wait a m tv_invalid w in
  frame (w_k w) (w_k w') /\
  v_active (view (w_k w') (w_current w)) = false /\ v_block (view (w_k w') (w_current w)) = Pobj a /\
  v_wake (view (w_k w') (w_current w)) = tv_invalid /\
  v_unblock (view (w_k w') (w_current w)) = scheduler_unblock_type (w_k w) (w_current w) /\
  owner w' m <> w_current w /\
  (owner w' m = -1 \/ (view (w_k w') (owner w' m) = mk_view true NULL SCHEDULER_UNBLOCK_MUTEX tv_invalid)).
Proof.
  intros Hwf Hc Hcnt. cbv zeta. unfold svcall_cond_wait.
  destruct (root_unlock_cases (w_current w) m w Hwf eq_refl Hc) as (F & _ & Vc & Hcase).
  revert F Vc Hcase. generalize (pthread_mutex_root_unlock (w_current w) m w). intros w1 F Vc Hcase.
  assert (Hwf1 : kernel_wf (w_k w1)) by now apply F.
  assert (Hc1 : current (w_k w1) = w_current w) by apply F.
  destruct (timedblock_only (Pobj a) tv_invalid (w_k w1) Hwf1) as [O V].
  rewrite in_future_invalid in V by (rewrite (fr_counter _ _ F); done). rewrite Hc1 in O, V.
  cbn [w_k with_k]. rewrite V. cbn [v_active v_block v_wake v_unblock].
  pose proof (f_equal v_unblock Vc) as Vu. cbn [view v_unblock] in Vu.
  split; [etrans; [exact F|apply (only_frame _ _ _ O)]|]. split_and!; try done.
  - destruct Hcase as [(t & [[Ht1 Ht2] _ _ Hm _ _])|[_ Hm _]]; unfold owner, mutex; cbn [w_mutex with_k];
      rewrite Hm, lookup_total_insert_eq; simpl; lia.
  - destruct Hcase as [(t & [[Ht1 Ht2] _ _ Hm Hv _])|[_ Hm _]].
    + right. assert (E : owner (with_k (scheduler_timing_root_timedblock (Pobj a) tv_invalid (w_k w1)) w1) m = t)
        by (unfold owner, mutex; cbn [w_mutex with_k]; now rewrite Hm, lookup_total_insert_eq).
      rewrite E. rewrite (only_view _ t _ _ O) by (done || lia). exact Hv.
    + left. unfold owner, mutex. cbn [w_mutex with_k]. now rewrite Hm, lookup_total_insert_eq.
Qed.

(** [pthread_cond_wait] releases the mutex and goes to sleep on the condition
    in one supervisor call: afterwards the caller is asleep without a deadline, it
    is no longer the owner, the mutex is free or already handed to a waiter that is
    awake, and the caller is a candidate for the next signal, so a signal sent
    after the mutex was released cannot be lost. *)
Theorem cond_wait_atomic a m w : kernel_wf (w_k w) -> 1 <= w_current w < CONFIG_TASK_TOTAL ->
  enabled (w_k w) (w_current w) = true -> stopped (w_k w) (w_current w) = false ->
  CONFIG_SCHED_LOWEST_PRIORITY <= sched_priority (sched (w_k w) (w_current w)) ->
  sched_usecond_counter (w_k w) < SCHEDULER_TIMEVAL_SEC_INVALID ->
  cond_ready a w -> cond_accessible a w -> owner w m = w_current w ->
  let w' := (pthread_cond_wait a m w).1 in
  (pthread_cond_wait a m w).2 = CWaiting m /\
  active (w_k w') (w_current w) = false /\ wake (sched (w_k w') (w_current w)) = tv_invalid /\
  owner w' m <> w_current w /\
  (owner w' m = -1 \/ active (w_k w') (owner w' m) = true) /\
  candidate (w_k w') (Pobj a) (w_current w).
Proof.
  intros Hwf Hc Hen Hst Hp Hcnt Hr Hacc Ho. cbv zeta. rewrite cond_wait_step by done. cbn [fst snd].
  destruct (svcall_cond_wait_view a m w Hwf Hc Hcnt) as (F & V1 & V2 & V3 & _ & Ho' & Hown).
  revert F V1 V2 V3 Ho' Hown. generalize (svcall_cond_wait a m tv_invalid w). intros w' F V1 V2 V3 Ho' Hown.
  split_and!; try done.
  - destruct Hown as [|Hv]; [now left|right]. exact (f_equal v_active Hv).
  - unfold candidate, blocked_on. fold (enabled (w_k w') (w_current w)) (active (w_k w') (w_current w)).
    cbn [view v_active v_block] in V1, V2.
    rewrite (fr_enabled _ _ F), (fr_priority _ _ F), Hen, V1, V2 by lia. unfold ptr_eqb.
    rewrite bool_decide_true by done. split_and!; try done.
    destruct (stopped (w_k w') (w_current w)) eqn:E; [|done].
    apply (fr_stopped _ _ F) in E; [congruence|lia].
Qed.

(** The demo world with a condition at address 128 (process 1). *)
Definition cond_world (w : world) : world := set_cond 128 (Z.lor 1 (Z.shiftl 1 INIT_FLAG)) w.
Definition cond_demo1 : world := (pthread_mutex_lock 64 (cond_world demo_world)).1.

Lemma cond_wait_atomic_witness :
  active (w_k (pthread_cond_wait 128 64 cond_demo1).1) 1 = false /\
  owner (pthread_cond_wait 128 64 cond_demo1).1 64 <> 1.
Proof.
  destruct (cond_wait_atomic 128 64 cond_demo1) as (_ & H1 & _ & H2 & _);
    [vm_compute; intuition congruence|vm_compute; intuition congruence|vm_compute; reflexivity
    |vm_compute; reflexivity|vm_compute; congruence|vm_compute; reflexivity
    |split; [done|vm_compute; reflexivity]|right; vm_compute; reflexivity|vm_compute; reflexivity|].
  split; [exact H1|exact H2].
Defined.

Definition cond_demo2 : world := demo_switch 2 (pthread_cond_wait 128 64 cond_demo1).1.
Lemma cond_signal_wakes_one_witness :
  (pthread_cond_signal 128 cond_demo2).2 = Ret 0 /\
  active (w_k (pthread_cond_signal 128 cond_demo2).1) 1 = true.
Proof.
  destruct (cond_signal_wakes_one 128 cond_demo2 ltac:(vm_compute; intuition congruence)
              ltac:(split; [done|vm_compute; reflexivity])) as [H _].
  split; [exact H|vm_compute; reflexivity].
Defined.
Lemma cond_broadcast_wakes_all_witness :
  active (w_k (pthread_cond_broadcast 128 cond_demo2).1) 1 = true.
Proof.
  assert (Hp : forall i, 1 <= i < CONFIG_TASK_TOTAL ->
     CONFIG_SCHED_LOWEST_PRIORITY <= sched_priority (sched (w_k cond_demo2) i) <= CONFIG_SCHED_HIGHEST_PRIORITY).
  { refine (each_task _ _). vm_compute. repeat constructor; congruence. }
  destruct (cond_broadcast_wakes_all 128 cond_demo2 ltac:(vm_compute; intuition congruence)
              ltac:(split; [done|vm_compute; reflexivity]) Hp) as (_ & H & _).
  apply (H 1); [done|vm_compute; reflexivity].
Defined.

(** ** Timeouts and interference *)

(** After a timeout, [pthread_cond_timedwait] reports ETIMEDOUT only when the
    mutex was free: if the thread then had to wait for the mutex, the hand-over
    has replaced the reason of its wake-up and the call returns 0. *)
Theorem cond_timeout_needs_free_mutex m args w : running w -> kernel_wf (w_k w) ->
  ta_id args = w_current w -> ta_mutex args = m ->
  (scheduler_unblock_type (w_k w) (w_current w) = SCHEDULER_UNBLOCK_SLEEP -> owner w m = -1 ->
   (exists w', pthread_mutex_lock m w = (w', Returned (Ret 0))) ->
   (cond_wait_resume (CWaiting m) w).2 = CReturned (Err ETIMEDOUT)) /\
  (scheduler_unblock_type (w_k w) (w_current w) = SCHEDULER_UNBLOCK_MUTEX ->
   cond_wait_resume (CLocking args) w = (w, CReturned (Ret 0))).
Proof.
  intros Hrun Hwf Hid Hm. split.
  - intros Hs Ho (w' & E). unfold cond_wait_resume. pose proof E as E'. unfold pthread_mutex_lock in E'.
    apply mutex_call_outcome in E'; [|done..]. rewrite E. unfold cond_after_lock. cbn [snd].
    remember (Returned (Ret 0)) as r0 eqn:Er. unfold cond_wait_result.
    destruct E' as [r Hr|k' _ U|Ho' _ _|]; [| | |discriminate].
    + now rewrite Hs.
    + cbn [w_k set_mutex with_k]. unfold w_current at 1. cbn [w_k set_mutex with_k].
      rewrite (fr_current _ _ (proj1 U)). pose proof (f_equal v_unblock (unchanged_view (w_current w) _ _ U
        ltac:(destruct Hrun; lia))) as E1. cbn [view v_unblock] in E1. unfold w_current in *. now rewrite E1, Hs.
    + unfold owner in *. destruct Hrun. lia.
  - intros Hs. assert (E : pthread_mutex_resume CallLock args w = (w, Returned (Ret 0)))
      by (unfold pthread_mutex_resume, mutex_wait_turn; rewrite Hid, Hs; reflexivity).
    unfold cond_wait_resume. rewrite E. unfold cond_after_lock, cond_wait_result. now rewrite Hs.
Qed.

(** [pthread_cond_signal] picks its thread before the supervisor call.  If that
    thread has timed out meanwhile and waits for a mutex in [pthread_mutex_lock],
    the late wake-up ends its wait: the lock call returns 0 although another thread
    owns the mutex. *)
Theorem cond_signal_breaks_exclusion t args w : kernel_wf (w_k w) -> 1 <= t < CONFIG_TASK_TOTAL ->
  ta_id args = t ->
  let w' := with_k (switch_to t (svcall_cond_signal t (w_k w))) w in
  pthread_mutex_resume CallLock args w' = (w', Returned (Ret 0)) /\
  owner w' (ta_mutex args) = owner w (ta_mutex args).
Proof.
  intros Hwf Ht Hid w'. split; [|done].
  destruct (svcall_cond_signal_only t (w_k w) Hwf ltac:(unfold task_id; lia)) as [_ V].
  pose proof (f_equal v_unblock V) as Vu. unfold pthread_mutex_resume, mutex_wait_turn.
  change (scheduler_unblock_type (w_k w') (ta_id args)) with (v_unblock (view (svcall_cond_signal t (w_k w)) (ta_id args))).
  rewrite Hid, Vu. reflexivity.
Qed.

(** Thread 2 waits with a deadline; thread 1 takes the mutex and picks thread 2;
    the deadline passes and thread 2 waits for the mutex; thread 1 signals. *)
Definition race_wait : world :=
  (pthread_cond_timedwait 128 64 (Some (mk_timespec 0 5000000))
     (pthread_mutex_lock 64 (demo_switch 2 (cond_world demo_world))).1).1.
Definition race_locked : world := (pthread_mutex_lock 64 (demo_switch 1 race_wait)).1.
Definition race_timeout : world :=
  with_k (root_handle_usecond_match_event (with_now 5000 (w_k race_locked))) race_locked.
Definition race_blocked : world * cond_progress := cond_wait_resume (CWaiting 64) (demo_switch 2 race_timeout).

Lemma cond_signal_breaks_exclusion_witness :
  cond_signal_select 128 race_locked = inl 2 /\ race_blocked.2 = CLocking (demo_args 2) /\
  let w' := with_k (switch_to 2 (svcall_cond_signal 2 (w_k race_blocked.1))) race_blocked.1 in
  cond_wait_resume (CLocking (demo_args 2)) w' = (w', CReturned (Ret 0)) /\ owner w' 64 = 1.
Proof.
  split; [vm_compute; reflexivity|]. split; [vm_compute; reflexivity|].
  assert (Hwf : kernel_wf (w_k race_blocked.1)) by (vm_compute; intuition congruence).
  destruct (cond_signal_breaks_exclusion 2 (demo_args 2) race_blocked.1 Hwf ltac:(done) eq_refl) as [H1 H2].
  cbv zeta. split; [|vm_compute; reflexivity].
  unfold cond_wait_resume. rewrite H1. vm_compute. reflexivity.
Defined.

Lemma cond_timeout_needs_free_mutex_witness :
  (cond_wait_resume (CWaiting 64) (demo_switch 2
     (with_k (root_handle_usecond_match_event (with_now 5000 (w_k race_wait))) race_wait))).2
  = CReturned (Err ETIMEDOUT).
Proof.
  set (w := demo_switch 2 _).
  refine (proj1 (cond_timeout_needs_free_mutex 64 (demo_args 2) w _ _ _ _) _ _ _).
  - apply running_check. vm_compute. reflexivity.
  - vm_compute. intuition congruence.
  - vm_compute. reflexivity.
  - reflexivity.
  - vm_compute. reflexivity.
  - vm_compute. reflexivity.
  - exists (pthread_mutex_lock 64 w).1. vm_compute. reflexivity.
Defined.
