(* ===== verification/Sem.v ===== *)
(** * Semaphores

    [src/sys/semaphore/sem.c] and [include/posix/semaphore.h].  A semaphore lives
    at an address; the named ones are in the list [sem_first].  Calls that block
    are split where the thread sleeps, as for mutexes; [sem_post], which increments
    the value and looks for a waiter in user mode, is split into load, store,
    search and supervisor call, and the other threads run in between.  The address
    a new list entry gets from [_malloc_r] is an argument of [sem_open]. *)
From S2P Require Import Prelude Task Scheduler Timing Threads Mutex.

Definition SEM_NAME_MAX : Z := 23.

Record sem_t := mk_sem {
  sem_is_initialized : Z;
  sem_value : Z;                 (** s32 *)
  sem_pshared : Z;
  sem_pid : Z;
  sem_references : Z;
  sem_name : string;
  sem_mode : Z;
}.
#[export] Instance sem_inhabited : Inhabited sem_t := populate (mk_sem 0 0 0 0 0 "" 0).

Record sem_world := mk_sw {
  sw_k : kernel;
  sw_sem : gmap Z sem_t;
  sem_first : list Z;            (** addresses of the named semaphores, in list order *)
}.
Definition sem (w : sem_world) (a : Z) : sem_t := sw_sem w !!! a.
Definition set_sem (a : Z) (s : sem_t) (w : sem_world) : sem_world :=
  mk_sw (sw_k w) (<[a := s]> (sw_sem w)) (sem_first w).
Definition sw_with_k (k : kernel) (w : sem_world) : sem_world := mk_sw k (sw_sem w) (sem_first w).
Definition sw_current (w : sem_world) : Z := current (sw_k w).

Definition with_value (v : Z) (s : sem_t) : sem_t :=
  mk_sem (sem_is_initialized s) v (sem_pshared s) (sem_pid s) (sem_references s) (sem_name s) (sem_mode s).
Definition with_initialized (i : Z) (s : sem_t) : sem_t :=
  mk_sem i (sem_value s) (sem_pshared s) (sem_pid s) (sem_references s) (sem_name s) (sem_mode s).
Definition with_references (n : Z) (s : sem_t) : sem_t :=
  mk_sem (sem_is_initialized s) (sem_value s) (sem_pshared s) (sem_pid s) n (sem_name s) (sem_mode s).

(** C's [strncmp(s, t, n) == 0] on strings without a zero byte. *)
Definition strncmp_eq (s t : string) (n : Z) : bool :=
  bool_decide (String.substring 0 (Z.to_nat n) s = String.substring 0 (Z.to_nat n) t).
Definition strlen (s : string) : Z := Z.of_nat (String.length s).
Definition strnlen (s : string) (n : Z) : Z := Z.min (strlen s) n.

(** ** Lookup and allocation of named semaphores; 0 is [SEM_FAILED] *)

Definition sem_find_named (name : string) (w : sem_world) : Z :=
  default 0 (snd <$> list_find (fun a => sem_is_initialized (sem w a) <> 0 /\
                     strncmp_eq (sem_name (sem w a)) name SEM_NAME_MAX = true) (sem_first w)).
Definition sem_find_free (malloc : option Z) (w : sem_world) : sem_world * Z :=
  match list_find (fun a => sem_is_initialized (sem w a) = 0) (sem_first w) with
  | Some (_, a) => (w, a)
  | None =>
      match malloc with
      | None => (w, 0)
      | Some a => (mk_sw (sw_k w) (sw_sem w) (sem_first w ++ [a]), a)
      end
  end.

Definition sem_check_initialized (a : Z) (w : sem_world) : option Z :=
  if a =? 0 then Some EINVAL
  else if sem_is_initialized (sem w a) =? 0 then Some EINVAL
  else if (sem_pshared (sem w a) =? 0)
          && negb (task_get_pid (k_tasks (sw_k w)) (sw_current w) =? sem_pid (sem w a))
  then Some EACCES else None.

Definition sem_init (a pshared value : Z) (w : sem_world) : sem_world * api_result :=
  if a =? 0 then (w, Err EINVAL)
  else (set_sem a (mk_sem 1 (s32 value) pshared (task_get_pid (k_tasks (sw_k w)) (sw_current w))
                     (sem_references (sem w a)) "" (sem_mode (sem w a))) w, Ret 0).

Definition sem_destroy (a : Z) (w : sem_world) : sem_world * api_result :=
  match sem_check_initialized a w with
  | Some e => (w, Err e)
  | None => (set_sem a (with_initialized 0 (sem w a)) w, Ret 0)
  end.

Definition sem_getvalue (a : Z) (w : sem_world) : api_result * option Z :=
  match sem_check_initialized a w with
  | Some e => (Err e, None)
  | None => (Ret 0, Some (sem_value (sem w a)))
  end.

(** The address of the semaphore or an error number; [None] stands for
    the error number that [_malloc_r] leaves. *)
Definition sem_open (name : string) (oflag mode value : Z) (malloc : option Z) (w : sem_world)
    : sem_world * (Z + option Z) :=
  if strnlen name SEM_NAME_MAX =? SEM_NAME_MAX then (w, inr (Some ENAMETOOLONG))
  else
    let found := sem_find_named name w in
    let create :=
      let '(w, a) := sem_find_free malloc w in
      if a =? 0 then (w, inr None)
      else (set_sem a (mk_sem 1 (s32 value) 1 (sem_pid (sem w a)) 1
                         (String.substring 0 (Z.to_nat SEM_NAME_MAX) name) mode) w, inl a) in
    let reuse := (set_sem found (with_references (sem_references (sem w found) + 1) (sem w found)) w, inl found) in
    if Bits.any oflag O_CREAT then
      if Bits.any oflag O_EXCL then
        if found =? 0 then create else (w, inr (Some EEXIST))
      else if found =? 0 then create else reuse
    else if found =? 0 then (w, inr (Some ENOENT)) else reuse.

Definition sem_close (a : Z) (w : sem_world) : sem_world * api_result :=
  match sem_check_initialized a w with
  | Some e => (w, Err e)
  | None =>
      let s := sem w a in
      let s := if 0 <? sem_references s then with_references (sem_references s - 1) s else s in
      let s := if sem_references s =? 0
               then if sem_is_initialized s =? 2 then with_initialized 0 s else s else s in
      (set_sem a s w, Ret 0)
  end.

Definition sem_unlink (name : string) (w : sem_world) : sem_world * api_result :=
  if strnlen name SEM_NAME_MAX =? SEM_NAME_MAX then (w, Err ENAMETOOLONG)
  else
    let a := sem_find_named name w in
    if a =? 0 then (w, Err ENOENT)
    else match sem_check_initialized a w with
    | Some e => (w, Err e)
    | None =>
        if sem_references (sem w a) =? 0
        then (set_sem a (with_initialized 0 (sem w a)) w, Ret 0)
        else (set_sem a (with_initialized 2 (sem w a)) w, Ret 0)
    end.

(** ** Posting and waiting *)

Definition svcall_sem_post (id : Z) (k : kernel) : kernel :=
  let k := on_sched id (with_block NULL) k in
  let k := scheduler_root_assert_active id SCHEDULER_UNBLOCK_SEMAPHORE k in
  scheduler_root_update_on_wake id (task_get_priority (k_tasks k) id) k.

(** [sem_post] runs in user mode up to its supervisor call; its four parts are
    definitions of their own, so that the other threads can run between them.  The
    check and the load: an error or the value read. *)
Definition sem_post_load (a : Z) (w : sem_world) : Z + Z :=
  match sem_check_initialized a w with Some e => inl e | None => inr (sem_value (sem w a)) end.
(** The store of the value that was read plus one. *)
Definition sem_post_store (a v : Z) (w : sem_world) : sem_world :=
  set_sem a (with_value (s32 (v + 1)) (sem w a)) w.
(** The search for a waiter (one step here). *)
Definition sem_post_pick (a : Z) (w : sem_world) : option Z :=
  let new_thread := scheduler_get_highest_priority_blocked (sw_k w) (Pobj a) in
  if new_thread =? -1 then None else Some new_thread.
(** The supervisor call for the thread that was found. *)
Definition sem_post_wake (new_thread : Z) (w : sem_world) : sem_world :=
  sw_with_k (svcall_sem_post new_thread (sw_k w)) w.
(** The four parts in a row. *)
Definition sem_post (a : Z) (w : sem_world) : sem_world * api_result :=
  match sem_post_load a w with
  | inl e => (w, Err e)
  | inr v =>
      let w := sem_post_store a v w in
      match sem_post_pick a w with
      | None => (w, Ret 0)
      | Some new_thread => (sem_post_wake new_thread w, Ret 0)
      end
  end.

Definition svcall_sem_trywait (a : Z) (w : sem_world) : sem_world * Z :=
  if 0 <? sem_value (sem w a)
  then (set_sem a (with_value (sem_value (sem w a) - 1) (sem w a)) w, 0) else (w, -1).
Definition sem_trywait (a : Z) (w : sem_world) : sem_world * api_result :=
  match sem_check_initialized a w with
  | Some e => (w, Err e)
  | None =>
      let '(w, result) := svcall_sem_trywait a w in
      if result <? 0 then (w, Err EAGAIN) else (w, Ret result)
  end.

Definition svcall_sem_wait (a : Z) (w : sem_world) : sem_world * Z :=
  let w := sw_with_k (on_sched (sw_current w) (with_block (Pobj a)) (sw_k w)) w in
  if sem_value (sem w a) <=? 0 then (sw_with_k (scheduler_root_update_on_sleep (sw_k w)) w, -1)
  else (set_sem a (with_value (sem_value (sem w a) - 1) (sem w a)) w, 0).
Definition svcall_sem_timedwait (a : Z) (interval : mcu_timeval) (w : sem_world) : sem_world * Z :=
  if sem_value (sem w a) <=? 0
  then (sw_with_k (scheduler_timing_root_timedblock (Pobj a) interval (sw_k w)) w, -1)
  else (set_sem a (with_value (sem_value (sem w a) - 1) (sem w a)) w, 0).

(** [SWaiting]: in the loop of [sem_wait]; [STimed]: [sem_timedwait] after its
    svcall returned -1. *)
Inductive sem_progress := SReturned (r : api_result) | SWaiting | STimed.

Definition sem_wait_turn (a : Z) (w : sem_world) : sem_world * sem_progress :=
  let '(w, result) := svcall_sem_wait a w in
  if result <? 0 then (w, SWaiting) else (w, SReturned (Ret 0)).
Definition sem_wait (a : Z) (w : sem_world) : sem_world * sem_progress :=
  match sem_check_initialized a w with
  | Some e => (w, SReturned (Err e))
  | None => sem_wait_turn a w
  end.
Definition sem_timedwait (a : Z) (abs_timeout : option timespec) (w : sem_world)
    : sem_world * sem_progress :=
  match sem_check_initialized a w with
  | Some e => (w, SReturned (Err e))
  | None =>
      let '(w, result) := svcall_sem_timedwait a (scheduler_timing_convert_timespec abs_timeout) w in
      if result <? 0 then (w, STimed) else (w, SReturned (Ret 0))
  end.
Definition sem_timed_resume (a : Z) (w : sem_world) : sem_world * sem_progress :=
  if scheduler_unblock_type (sw_k w) (sw_current w) =? SCHEDULER_UNBLOCK_SLEEP
  then (w, SReturned (Err ETIMEDOUT))
  else let '(w, r) := sem_trywait a w in (w, SReturned r).

(** ** What the calls do *)

Definition value (w : sem_world) (a : Z) : Z := sem_value (sem w a).
Definition usable (a : Z) (w : sem_world) : Prop := sem_check_initialized a w = None.
Definition sw_running (w : sem_world) : Prop :=
  1 <= sw_current w < CONFIG_TASK_TOTAL /\ active (sw_k w) (sw_current w) = true /\
  enabled (sw_k w) (sw_current w) = true.

Lemma sem_set_eq a s w : sem (set_sem a s w) a = s.
Proof. unfold sem, set_sem. simpl. apply lookup_total_insert_eq. Qed.
Lemma value_set a v w : value (set_sem a (with_value v (sem w a)) w) a = v.
Proof. unfold value. now rewrite sem_set_eq. Qed.

(** One token is taken: only the value changes, and the block object of the
    running thread may. *)
Definition takes (a : Z) (w w' : sem_world) : Prop :=
  0 < value w a /\ value w' a = value w a - 1 /\ only (sw_current w) (sw_k w) (sw_k w') /\
  active (sw_k w') (sw_current w) = active (sw_k w) (sw_current w) /\
  scheduler_unblock_type (sw_k w') (sw_current w) = scheduler_unblock_type (sw_k w) (sw_current w).
Definition sleeps_on (a : Z) (w w' : sem_world) : Prop :=
  value w a <= 0 /\ value w' a = value w a /\ only (sw_current w) (sw_k w) (sw_k w') /\
  scheduler_unblock_type (sw_k w') (sw_current w) = scheduler_unblock_type (sw_k w) (sw_current w) /\
  (active (sw_k w') (sw_current w) = false -> block_object (sched (sw_k w') (sw_current w)) = Pobj a).

Lemma sem_wait_turn_cases a w : kernel_wf (sw_k w) ->
  (takes a w (sem_wait_turn a w).1 /\ (sem_wait_turn a w).2 = SReturned (Ret 0)) \/
  (sleeps_on a w (sem_wait_turn a w).1 /\ (sem_wait_turn a w).2 = SWaiting /\
   active (sw_k (sem_wait_turn a w).1) (sw_current w) = false).
Proof.
  intros Hwf. unfold sem_wait_turn, svcall_sem_wait.
  set (k1 := on_sched (sw_current w) (with_block (Pobj a)) (sw_k w)).
  assert (Hid : task_id (sw_current w)) by apply Hwf.
  assert (O1 : only (sw_current w) (sw_k w) k1) by now apply on_sched_only.
  assert (V1 : view k1 (sw_current w) = mk_view (active (sw_k w) (sw_current w)) (Pobj a)
                 (scheduler_unblock_type (sw_k w) (sw_current w)) (wake (sched (sw_k w) (sw_current w))))
    by (unfold k1; now rewrite view_on_sched).
  assert (Hwf1 : kernel_wf k1) by (apply O1, Hwf).
  change (sem (sw_with_k k1 w) a) with (sem w a). fold (value w a).
  destruct (Z.leb_spec (value w a) 0) as [Hle|Hgt]; cbn [fst snd]; [right|left].
  - destruct (asleep_only _ _ _ (update_on_sleep_asleep k1 Hwf1)) as [O2 V2].
    change (current k1) with (sw_current w) in O2, V2. cbn [sw_k sw_with_k].
    pose proof (f_equal v_active V2) as Ha. pose proof (f_equal v_block V2) as Hb.
    pose proof (f_equal v_unblock V2) as Hu. pose proof (f_equal v_block V1) as Hb1.
    pose proof (f_equal v_unblock V1) as Hu1.
    cbn [view v_active v_block v_unblock] in Ha, Hb, Hu, Hb1, Hu1.
    split_and!; [|done|exact Ha]. unfold sleeps_on. cbn [sw_k sw_with_k].
    split_and!; [done|done|etrans; [exact O1|exact O2]|etrans; [exact Hu|exact Hu1]|intros _; etrans; [exact Hb|exact Hb1]].
  - split; [|done]. unfold takes. cbn [sw_k set_sem sw_with_k].
    split_and!; [done| |exact O1|exact (f_equal v_active V1)|exact (f_equal v_unblock V1)].
    exact (value_set a (value w a - 1) (sw_with_k k1 w)).
Qed.

Lemma sem_timedwait_cases a ts w : kernel_wf (sw_k w) -> usable a w -> sw_running w ->
  (takes a w (sem_timedwait a ts w).1 /\ (sem_timedwait a ts w).2 = SReturned (Ret 0)) \/
  (sleeps_on a w (sem_timedwait a ts w).1 /\ (sem_timedwait a ts w).2 = STimed).
Proof.
  intros Hwf Hu (_ & Hact & _). unfold sem_timedwait. unfold usable in Hu. rewrite Hu.
  unfold svcall_sem_timedwait. fold (value w a). set (t := scheduler_timing_convert_timespec ts).
  destruct (Z.leb_spec (value w a) 0) as [Hle|Hgt]; cbn [fst snd]; [right|left].
  - destruct (timedblock_only (Pobj a) t (sw_k w) Hwf) as [O V].
    change (current (sw_k w)) with (sw_current w) in O, V.
    split; [|done]. unfold sleeps_on. cbn [sw_k sw_with_k]. split_and!; try done.
    + destruct (in_future (sw_k w) t); [exact (f_equal v_unblock V)|apply V].
    + destruct (in_future (sw_k w) t); [intros _; exact (f_equal v_block V)|].
      destruct V as [V _]. intros Ha. exfalso. rewrite <- V in Hact. cbn [view v_active] in Hact.
      discriminate (eq_trans (eq_sym Hact) Ha).
  - split; [|done]. unfold takes. cbn [sw_k set_sem].
    split_and!; [done|exact (value_set a (value w a - 1) w)|reflexivity|done|done].
Qed.

Lemma sem_trywait_cases a w : usable a w ->
  (takes a w (sem_trywait a w).1 /\ (sem_trywait a w).2 = Ret 0) \/
  (value w a <= 0 /\ sem_trywait a w = (w, Err EAGAIN)).
Proof.
  intros Hu. unfold sem_trywait. unfold usable in Hu. rewrite Hu. unfold svcall_sem_trywait. fold (value w a).
  destruct (Z.ltb_spec 0 (value w a)); cbn [fst snd]; [left|right; done].
  split; [|done]. unfold takes. cbn [sw_k set_sem].
  split_and!; [done|exact (value_set a (value w a - 1) w)|reflexivity|done|done].
Qed.

Lemma svcall_sem_post_only id k : kernel_wf k -> task_id id ->
  only id k (svcall_sem_post id k) /\
  view (svcall_sem_post id k) id = mk_view true NULL SCHEDULER_UNBLOCK_SEMAPHORE tv_invalid.
Proof.
  intros Hwf Hi. unfold svcall_sem_post. set (k0 := on_sched id (with_block NULL) k).
  assert (O0 : only id k k0) by now apply on_sched_only.
  destruct (assert_active_only id SCHEDULER_UNBLOCK_SEMAPHORE k0 ltac:(apply O0, Hwf) Hi ltac:(done)) as [O V].
  set (k1 := scheduler_root_assert_active _ _ _) in *.
  pose proof (update_on_wake_unchanged id (task_get_priority (k_tasks k1) id) k1) as U.
  split.
  - etrans; [exact O0|]. etrans; [exact O|]. now apply unchanged_only.
  - rewrite (unchanged_view _ _ _ U) by apply Hi. exact V.
Qed.

(** ** A semaphore shared by the threads of the system *)

(** Where a thread is: [PWait] and [PTimed] in a wait; [PLoaded v] in [sem_post]
    with the value read, [PStored] after the increment, [PPicked t] when the
    search has found the waiter [t]. *)
Inductive sem_pc := PReady | PWait | PTimed | PLoaded (v : Z) | PStored | PPicked (t : Z).
Definition pc_of (r : sem_progress) : sem_pc :=
  match r with SReturned _ => PReady | SWaiting => PWait | STimed => PTimed end.
Definition waits (x : sem_pc) : bool := match x with PWait | PTimed => true | _ => false end.
(** 1 when a wait has returned with a token. *)
Definition took (r : sem_progress) : Z := match r with SReturned (Ret _) => 1 | _ => 0 end.

(** [ss_posted] and [ss_taken] count the posts and the waits that succeeded. *)
Record sem_system := mk_ss { ss_w : sem_world; ss_pc : Z -> sem_pc; ss_posted : Z; ss_taken : Z }.
Definition set_spc (t : Z) (x : sem_pc) (pc : Z -> sem_pc) : Z -> sem_pc :=
  fun j => if j =? t then x else pc j.

(** The wait calls a running thread can make, by where it is. *)
Inductive sem_call (a : Z) (w : sem_world) : sem_pc -> sem_world -> sem_progress -> Prop :=
| call_wait w' r : sem_wait a w = (w', r) -> sem_call a w PReady w' r
| call_timedwait ts w' r : sem_timedwait a ts w = (w', r) -> sem_call a w PReady w' r
| call_trywait w' r : sem_trywait a w = (w', r) -> sem_call a w PReady w' (SReturned r)
| call_turn w' r : sem_wait_turn a w = (w', r) -> sem_call a w PWait w' r
| call_timed w' r : sem_timed_resume a w = (w', r) -> sem_call a w PTimed w' r.

(** [LStore fresh]: an increment is stored, [fresh] when the semaphore still holds
    the value that was read and the sum does not overflow.  [LWake asleep]: a
    waiter is woken, [asleep] when it is still blocked on the semaphore. *)
Inductive sem_label := LStore (fresh : bool) | LWake (asleep : bool) | LOther.

(** [sem_post] runs in user mode up to its supervisor call: the load, the store,
    the search and the call are steps of their own, and every other thread, the
    clock and the signals come between them in any order. *)
Inductive sem_step (a : Z) : sem_label -> sem_system -> sem_system -> Prop :=
| sp_call w pc p t w' r : sw_running w -> usable a w -> sem_call a w (pc (sw_current w)) w' r ->
    sem_step a LOther (mk_ss w pc p t) (mk_ss w' (set_spc (sw_current w) (pc_of r) pc) p (t + took r))
| sp_load w pc p t v : sw_running w -> pc (sw_current w) = PReady -> sem_post_load a w = inr v ->
    sem_step a LOther (mk_ss w pc p t) (mk_ss w (set_spc (sw_current w) (PLoaded v) pc) p t)
| sp_store w pc p t v : sw_running w -> pc (sw_current w) = PLoaded v ->
    sem_step a (LStore ((sem_value (sem w a) =? v) && (v <? INT_MAX))) (mk_ss w pc p t)
      (mk_ss (sem_post_store a v w) (set_spc (sw_current w) PStored pc) (p + 1) t)
| sp_pick w pc p t : sw_running w -> pc (sw_current w) = PStored ->
    sem_step a LOther (mk_ss w pc p t)
      (mk_ss w (set_spc (sw_current w) (match sem_post_pick a w with Some i => PPicked i | None => PReady end) pc) p t)
| sp_wake w pc p t i : sw_running w -> pc (sw_current w) = PPicked i ->
    sem_step a (LWake (blocked_on (sw_k w) (Pobj a) i)) (mk_ss w pc p t)
      (mk_ss (sem_post_wake i w) (set_spc (sw_current w) PReady pc) p t)
| sp_time w pc p t now counter : 0 <= counter < SCHEDULER_TIMEVAL_SEC_INVALID ->
    sem_step a LOther (mk_ss w pc p t)
      (mk_ss (sw_with_k (root_handle_usecond_match_event (with_counter counter (with_now now (sw_k w)))) w) pc p t)
| sp_signal w pc p t i : 1 <= i < CONFIG_TASK_TOTAL ->
    sem_step a LOther (mk_ss w pc p t) (mk_ss (sw_with_k (signal_root_activate i (sw_k w)) w) pc p t)
| sp_switch w pc p t i : 1 <= i < CONFIG_TASK_TOTAL ->
    sem_step a LOther (mk_ss w pc p t) (mk_ss (sw_with_k (switch_to i (sw_k w)) w) pc p t).

(** Runs in which each increment stores over the value it read, and runs in which
    also each waiter found is still asleep when the call that wakes it is made. *)
Definition fresh_step (a : Z) (s s' : sem_system) : Prop :=
  exists l, sem_step a l s s' /\ l <> LStore false.
Definition timely_step (a : Z) (s s' : sem_system) : Prop :=
  exists l, sem_step a l s s' /\ l <> LStore false /\ l <> LWake false.

(** A thread that has still to take its token, or to wake another for it. *)
Definition pendingb (k : kernel) (pc : Z -> sem_pc) (t : Z) : bool :=
  match pc t with
  | PReady | PLoaded _ => false
  | PStored | PPicked _ => true
  | PWait => v_active (view k t)
  | PTimed => v_active (view k t) && negb (v_unblock (view k t) =? SCHEDULER_UNBLOCK_SLEEP)
  end.
Definition asleep_waiter (k : kernel) (pc : Z -> sem_pc) (t : Z) : Prop :=
  1 <= t < CONFIG_TASK_TOTAL /\ waits (pc t) = true /\ v_active (view k t) = false.

Definition waiter_ok (a : Z) (k : kernel) (t : Z) (x : sem_pc) : Prop :=
  stopped k t = false /\ CONFIG_SCHED_LOWEST_PRIORITY <= sched_priority (sched k t) /\
  (waits x = true -> enabled k t = true) /\
  (v_active (view k t) = false -> (waits x = true <-> v_block (view k t) = Pobj a)) /\
  (forall i, x = PPicked i -> 1 <= i < CONFIG_TASK_TOTAL).

Record sem_inv (a v0 : Z) (s : sem_system) : Prop := {
  si_wf : kernel_wf (sw_k (ss_w s));
  si_value : 0 <= value (ss_w s) a <= INT_MAX;
  si_tokens : value (ss_w s) a = v0 + ss_posted s - ss_taken s;
  si_thread : forall t, 1 <= t < CONFIG_TASK_TOTAL -> waiter_ok a (sw_k (ss_w s)) t (ss_pc s t);
}.
(** The wake-ups under way cover the value. *)
Definition sem_wakes (a : Z) (s : sem_system) : Prop :=
  forall t, asleep_waiter (sw_k (ss_w s)) (ss_pc s) t ->
    value (ss_w s) a <= count_tasks (pendingb (sw_k (ss_w s)) (ss_pc s)).

Lemma set_spc_eq i x pc : set_spc i x pc i = x.
Proof. unfold set_spc. now rewrite Z.eqb_refl. Qed.
Lemma set_spc_ne i x pc j : j <> i -> set_spc i x pc j = pc j.
Proof. intros H. unfold set_spc. now destruct (Z.eqb_spec j i). Qed.

(** What a step does to the threads: thread [i] may change in the kernel, thread
    [c] moves on in its code, nothing else changes. *)
Lemma waiter_ok_frame a k k' t x : frame k k' -> 1 <= t -> view k' t = view k t ->
  waiter_ok a k t x -> waiter_ok a k' t x.
Proof.
  intros F Ht V (Hs & Hp & He & Hb & Hi). unfold waiter_ok.
  rewrite V, (fr_enabled _ _ F), (fr_priority _ _ F) by lia. split_and!; try done.
  destruct (stopped k' t) eqn:E; [|done]. apply (fr_stopped _ _ F) in E; [congruence|lia].
Qed.
Lemma waiter_ok_awake a k k' t x y : frame k k' -> 1 <= t -> waiter_ok a k t x -> v_active (view k' t) = true ->
  (waits y = true -> enabled k t = true) -> (forall i, y = PPicked i -> 1 <= i < CONFIG_TASK_TOTAL) ->
  waiter_ok a k' t y.
Proof.
  intros F Ht (Hs & Hp & He & Hb & Hi) V Hy Hj. unfold waiter_ok.
  rewrite V, (fr_enabled _ _ F), (fr_priority _ _ F) by lia. split_and!; try done.
  destruct (stopped k' t) eqn:E; [|done]. apply (fr_stopped _ _ F) in E; [congruence|lia].
Qed.
(** An awake waiter stays a waiter. *)
Lemma waiter_ok_wake a k k' t x : frame k k' -> 1 <= t -> waiter_ok a k t x -> v_active (view k' t) = true ->
  waiter_ok a k' t x.
Proof. intros F Ht H V. eapply waiter_ok_awake; try done; apply H. Qed.

Lemma sem_inv_move a v0 w pc p t w' c x p' t' : sem_inv a v0 (mk_ss w pc p t) ->
  frame (sw_k w) (sw_k w') ->
  0 <= value w' a <= INT_MAX -> value w' a = v0 + p' - t' ->
  (forall j, 1 <= j < CONFIG_TASK_TOTAL -> waiter_ok a (sw_k w') j (set_spc c x pc j)) ->
  sem_inv a v0 (mk_ss w' (set_spc c x pc) p' t').
Proof. intros [Hwf Hv Htok Hth] F Hv' Htok' Hok. split; try done. now apply F. Qed.

(** A step that concerns thread [i] only. *)
Lemma sem_inv_only a v0 i w pc p t w' x p' t' : sem_inv a v0 (mk_ss w pc p t) ->
  1 <= i < CONFIG_TASK_TOTAL -> only i (sw_k w) (sw_k w') ->
  0 <= value w' a <= INT_MAX -> value w' a = v0 + p' - t' ->
  waiter_ok a (sw_k w') i x ->
  sem_inv a v0 (mk_ss w' (set_spc i x pc) p' t').
Proof.
  intros Hinv Hi [F V] Hv' Htok' Hok. eapply sem_inv_move; try done.
  intros j Hj. destruct (decide (j = i)) as [->|Hne]; [now rewrite set_spc_eq|].
  rewrite set_spc_ne by done. apply (waiter_ok_frame a (sw_k w)); auto; [lia|apply V; [lia|done]|].
  apply (si_thread _ _ _ Hinv). done.
Qed.
Lemma sem_wakes_only a i w pc p t w' x p' t' : sem_wakes a (mk_ss w pc p t) ->
  1 <= i < CONFIG_TASK_TOTAL -> only i (sw_k w) (sw_k w') ->
  (value w' a <= 0 \/
   value w' a - Z.b2z (pendingb (sw_k w') (set_spc i x pc) i) <= value w a - Z.b2z (pendingb (sw_k w) pc i) /\
   (asleep_waiter (sw_k w') (set_spc i x pc) i -> asleep_waiter (sw_k w) pc i)) ->
  sem_wakes a (mk_ss w' (set_spc i x pc) p' t').
Proof.
  intros Hwk Hi [F V] Hstep j Haj. unfold sem_wakes in Hwk. cbn [ss_w ss_pc] in *.
  destruct Hstep as [Hle|[Hcnt Hasl]];
    [pose proof (count_tasks_nonneg (pendingb (sw_k w') (set_spc i x pc))); lia|].
  rewrite (count_tasks_step (pendingb (sw_k w) pc) (pendingb (sw_k w') (set_spc i x pc)) i Hi).
  - assert (Hold : exists j, asleep_waiter (sw_k w) pc j).
    { destruct (decide (j = i)) as [->|Hne]; [exists i; auto|]. exists j.
      destruct Haj as (? & H1 & H2). rewrite set_spc_ne in H1 by done. rewrite V in H2 by (done || lia). done. }
    destruct Hold as [j0 Hj0]. specialize (Hwk j0 Hj0). lia.
  - intros j' Hj' Hne. unfold pendingb. rewrite set_spc_ne, V by (done || lia). done.
Qed.

Lemma sem_call_cases a w x w' r : kernel_wf (sw_k w) -> usable a w -> sw_running w ->
  sem_call a w x w' r ->
  (takes a w w' /\ r = SReturned (Ret 0)) \/
  (sleeps_on a w w' /\ waits (pc_of r) = true /\ took r = 0) \/
  (w' = w /\ (exists e, r = SReturned (Err e)) /\
   (x = PReady \/ value w a <= 0 \/
    (x = PTimed /\ scheduler_unblock_type (sw_k w) (sw_current w) = SCHEDULER_UNBLOCK_SLEEP))).
Proof.
  intros Hwf Hu Hrun Hcall. destruct Hcall as [w' r E|ts w' r E|w' r E|w' r E|w' r E].
  - unfold sem_wait in E. unfold usable in Hu. rewrite Hu in E.
    pose proof (sem_wait_turn_cases a w Hwf) as H. rewrite E in H. cbn [fst snd] in H.
    destruct H as [[? ->]|(? & -> & _)]; auto.
  - pose proof (sem_timedwait_cases a ts w Hwf Hu Hrun) as H. rewrite E in H. cbn [fst snd] in H.
    destruct H as [[? ->]|(? & ->)]; auto.
  - pose proof (sem_trywait_cases a w Hu) as H. rewrite E in H. cbn [fst snd] in H.
    destruct H as [[? ->]|(? & [= -> ->])]; [auto|right; right; split; [done|]; split; [eauto|auto]].
  - pose proof (sem_wait_turn_cases a w Hwf) as H. rewrite E in H. cbn [fst snd] in H.
    destruct H as [[? ->]|(? & -> & _)]; auto.
  - unfold sem_timed_resume in E.
    destruct (Z.eqb_spec (scheduler_unblock_type (sw_k w) (sw_current w)) SCHEDULER_UNBLOCK_SLEEP).
    + injection E as <- <-. right; right. split; [done|]. split; [eauto|]. right; right. done.
    + destruct (sem_trywait a w) as [w1 r1] eqn:Et. injection E as <- <-.
      pose proof (sem_trywait_cases a w Hu) as H. rewrite Et in H. cbn [fst snd] in H.
      destruct H as [[? ->]|(? & [= -> ->])]; [auto|right; right; split; [done|]; split; [eauto|auto]].
Qed.

Lemma sem_inv_call a v0 w pc p t w' r : sw_running w -> usable a w ->
  sem_call a w (pc (sw_current w)) w' r -> sem_inv a v0 (mk_ss w pc p t) ->
  sem_inv a v0 (mk_ss w' (set_spc (sw_current w) (pc_of r) pc) p (t + took r)) /\
  (sem_wakes a (mk_ss w pc p t) ->
   sem_wakes a (mk_ss w' (set_spc (sw_current w) (pc_of r) pc) p (t + took r))).
Proof.
  intros Hrun Hu Hcall Hinv. pose proof Hinv as [Hwf Hv Htok Hth]. cbn [ss_w ss_pc ss_posted ss_taken] in *.
  apply sem_call_cases in Hcall; [|done..]. destruct Hrun as (Hcur & Hact & Hen).
  assert (Hok : forall k', frame (sw_k w) k' -> forall x, (forall i, x <> PPicked i) ->
    (active k' (sw_current w) = false -> waits x = true <-> block_object (sched k' (sw_current w)) = Pobj a) ->
    waiter_ok a k' (sw_current w) x).
  { intros k' F x Hx Hb. destruct (Hth _ Hcur) as (Hst & Hp & _ & _). unfold waiter_ok.
    rewrite (fr_enabled _ _ F), (fr_priority _ _ F) by lia.
    split_and!; try done; [|intros i E; now destruct (Hx i)]. destruct (stopped k' (sw_current w)) eqn:E; [|done].
    apply (fr_stopped _ _ F) in E; [congruence|lia]. }
  assert (Hpb : 0 <= Z.b2z (pendingb (sw_k w) pc (sw_current w)) <= 1) by (destruct (pendingb _ _ _); simpl; lia).
  assert (Hready : forall k', pendingb k' (set_spc (sw_current w) PReady pc) (sw_current w) = false)
    by (intros; unfold pendingb; now rewrite set_spc_eq).
  assert (Hnas : forall k', ~ asleep_waiter k' (set_spc (sw_current w) PReady pc) (sw_current w))
    by (intros k' (_ & H & _); now rewrite set_spc_eq in H).
  destruct Hcall as [[(H1 & H2 & H3 & H4 & H5) ->]|[((H1 & H2 & H3 & H4 & H5) & Hr & Htk)|(-> & [e ->] & Hx)]].
  - split; cbn [took pc_of].
    + apply (sem_inv_only a v0 _ w pc p t); try done; try lia.
      apply Hok; [apply H3|done|]. rewrite H4, Hact. done.
    + intros Hwk. apply (sem_wakes_only a _ w pc p t); try done.
      right. split; [|intros H; now destruct (Hnas (sw_k w'))]. rewrite Hready. simpl. lia.
  - rewrite Htk. split.
    + apply (sem_inv_only a v0 _ w pc p t); try done; try lia.
      apply Hok; [apply H3|now destruct r|]. intros Ha. specialize (H5 Ha). tauto.
    + intros Hwk. apply (sem_wakes_only a _ w pc p t); try done. left. lia.
  - split; cbn [took pc_of].
    + apply (sem_inv_only a v0 _ w pc p t); try done; try lia.
      apply Hok; [reflexivity|done|]. rewrite Hact. done.
    + intros Hwk. apply (sem_wakes_only a _ w pc p t); try done.
      destruct Hx as [Hx|[Hx|[Hx Hs]]]; [right|now left|right];
        (split; [|intros H; now destruct (Hnas (sw_k w))]); rewrite Hready; unfold pendingb; rewrite Hx; [simpl; lia|].
      unfold view. cbn [v_active v_unblock]. rewrite Hs, Hact. simpl. lia.
Qed.

(** The running thread moves on in [sem_post] and the kernel stays. *)
Lemma sem_inv_advance a v0 w pc p t w' x p' : sem_inv a v0 (mk_ss w pc p t) -> sw_running w ->
  waits x = false -> (forall i, x = PPicked i -> 1 <= i < CONFIG_TASK_TOTAL) -> sw_k w' = sw_k w ->
  0 <= value w' a <= INT_MAX -> value w' a = v0 + p' - t ->
  sem_inv a v0 (mk_ss w' (set_spc (sw_current w) x pc) p' t).
Proof.
  intros Hinv (Hcur & Hact & _) Hx Hi Ek Hv Ht. apply (sem_inv_only a v0 _ w pc p t); try done; rewrite Ek; [done|].
  apply (waiter_ok_awake a (sw_k w) _ _ (pc (sw_current w))); try done; [lia| |now rewrite Hx].
  apply (si_thread _ _ _ Hinv). done.
Qed.

Lemma sem_inv_load a v0 w pc p t v : sw_running w -> pc (sw_current w) = PReady ->
  sem_inv a v0 (mk_ss w pc p t) ->
  sem_inv a v0 (mk_ss w (set_spc (sw_current w) (PLoaded v) pc) p t) /\
  (sem_wakes a (mk_ss w pc p t) -> sem_wakes a (mk_ss w (set_spc (sw_current w) (PLoaded v) pc) p t)).
Proof.
  intros Hrun Hpc Hinv. split; [apply (sem_inv_advance a v0 w pc p); try done; apply Hinv|].
  intros Hwk. apply (sem_wakes_only a _ w pc p t); try done; [apply Hrun|]. right.
  unfold pendingb. rewrite set_spc_eq, Hpc. split; [done|]. intros (_ & H & _). now rewrite set_spc_eq in H.
Qed.

Lemma sem_inv_store a v0 w pc p t v : sw_running w -> pc (sw_current w) = PLoaded v ->
  value w a = v -> v < INT_MAX -> sem_inv a v0 (mk_ss w pc p t) ->
  sem_inv a v0 (mk_ss (sem_post_store a v w) (set_spc (sw_current w) PStored pc) (p + 1) t) /\
  (sem_wakes a (mk_ss w pc p t) ->
   sem_wakes a (mk_ss (sem_post_store a v w) (set_spc (sw_current w) PStored pc) (p + 1) t)).
Proof.
  intros Hrun Hpc Hv Hmax Hinv. pose proof Hinv as [_ Hv0 Htok _]. cbn [ss_w ss_posted ss_taken] in *.
  assert (Hst : value (sem_post_store a v w) a = value w a + 1).
  { unfold sem_post_store. rewrite value_set, Hv. apply s32_id. unfold INT_MAX in *. lia. }
  split; [apply (sem_inv_advance a v0 w pc p); try done; lia|].
  intros Hwk. apply (sem_wakes_only a _ w pc p t); try done; [apply Hrun|]. right.
  unfold pendingb. rewrite set_spc_eq, Hpc, Hst. simpl. split; [lia|].
  intros (_ & H & _). now rewrite set_spc_eq in H.
Qed.

(** Every waiter asleep is a candidate of the search. *)
Lemma asleep_waiter_candidate a v0 w pc p t j : sem_inv a v0 (mk_ss w pc p t) -> sw_running w ->
  asleep_waiter (sw_k w) pc j -> j <> search_origin (sw_k w) /\ candidate (sw_k w) (Pobj a) j.
Proof.
  intros Hinv (Hcur & Hact & Hen) (Hj & Hpj & Haj).
  destruct (si_thread _ _ _ Hinv j Hj) as (Hst & Hpr & Hej & Hbj & _). cbn [ss_w ss_pc] in *. split.
  - intros ->. unfold search_origin in Haj. fold (sw_current w) in Haj. unfold view in Haj. cbn [v_active] in Haj.
    change (current (sw_k w)) with (sw_current w) in Haj. destruct (Z.eqb_spec (sw_current w) 0); [lia|]. congruence.
  - unfold candidate, blocked_on. fold (enabled (sw_k w) j) (active (sw_k w) j).
    specialize (proj1 (Hbj Haj) Hpj) as Hb. unfold view in Hb, Haj. cbn [v_block v_active] in Hb, Haj.
    rewrite (Hej Hpj), Haj, Hb. unfold ptr_eqb. rewrite bool_decide_true by done. done.
Qed.

Lemma sem_inv_pick a v0 w pc p t : sw_running w -> pc (sw_current w) = PStored ->
  sem_inv a v0 (mk_ss w pc p t) ->
  let x := match sem_post_pick a w with Some i => PPicked i | None => PReady end in
  sem_inv a v0 (mk_ss w (set_spc (sw_current w) x pc) p t) /\
  (sem_wakes a (mk_ss w pc p t) -> sem_wakes a (mk_ss w (set_spc (sw_current w) x pc) p t)).
Proof.
  intros Hrun Hpc Hinv. cbv zeta. unfold sem_post_pick.
  destruct (highest_priority_blocked_spec (sw_k w) (Pobj a) ltac:(apply Hinv)) as [H1 H2 _ _].
  revert H1 H2. generalize (scheduler_get_highest_priority_blocked (sw_k w) (Pobj a)). intros i H1 H2.
  destruct (Z.eqb_spec i (-1)) as [E|E].
  - split; [apply (sem_inv_advance a v0 w pc p); try done; apply Hinv|].
    intros _ j (Hj & Hw & Ha). cbn [ss_w ss_pc] in *. exfalso.
    assert (Hne : j <> sw_current w) by (intros ->; now rewrite set_spc_eq in Hw). rewrite set_spc_ne in Hw by done.
    destruct (asleep_waiter_candidate a v0 w pc p t j Hinv Hrun) as [Ho Hc]; [done|]. now apply (H2 E j).
  - destruct (H1 E) as (Hi & _ & _).
    split; [apply (sem_inv_advance a v0 w pc p); try done; [intros ? [= <-]; done|apply Hinv..]|].
    intros Hwk. apply (sem_wakes_only a _ w pc p t); try done; [apply Hrun|]. right.
    unfold pendingb. rewrite set_spc_eq, Hpc. split; [done|]. intros (_ & H & _). now rewrite set_spc_eq in H.
Qed.

Lemma sem_inv_wake a v0 w pc p t i : sw_running w -> pc (sw_current w) = PPicked i ->
  sem_inv a v0 (mk_ss w pc p t) ->
  sem_inv a v0 (mk_ss (sem_post_wake i w) (set_spc (sw_current w) PReady pc) p t).
Proof.
  intros (Hcur & Hact & Hen) Hpc Hinv. pose proof Hinv as [Hwf Hv Htok Hth]. cbn [ss_w ss_pc ss_posted ss_taken] in *.
  destruct (Hth _ Hcur) as (_ & _ & _ & _ & Hi). specialize (Hi i Hpc).
  destruct (svcall_sem_post_only i (sw_k w) Hwf ltac:(unfold task_id; lia)) as [[F V] Vi].
  eapply sem_inv_move; try done. unfold sem_post_wake. cbn [sw_k sw_with_k].
  set (k' := svcall_sem_post i (sw_k w)) in *. clearbody k'.
  assert (Ha : forall j, 1 <= j < CONFIG_TASK_TOTAL -> view k' j = view (sw_k w) j \/ v_active (view k' j) = true).
  { intros j Hj. destruct (decide (j = i)) as [->|]; [right; now rewrite Vi|left; apply V; [lia|done]]. }
  intros j Hj. destruct (decide (j = sw_current w)) as [->|Hne].
  - rewrite set_spc_eq. apply (waiter_ok_awake a (sw_k w) _ _ (pc (sw_current w))); try done; [lia|auto|].
    destruct (Ha _ Hj) as [->|]; done.
  - rewrite set_spc_ne by done. destruct (Ha _ Hj) as [E|E].
    + apply (waiter_ok_frame a (sw_k w)); auto. lia.
    + apply (waiter_ok_wake a (sw_k w)); auto. lia.
Qed.

(** The waiter found is still asleep: it becomes one of the threads that have a
    token to take in place of the thread that posted. *)
Lemma sem_wakes_wake a v0 w pc p t i : sw_running w -> pc (sw_current w) = PPicked i ->
  sem_inv a v0 (mk_ss w pc p t) -> blocked_on (sw_k w) (Pobj a) i = true ->
  sem_wakes a (mk_ss w pc p t) ->
  sem_wakes a (mk_ss (sem_post_wake i w) (set_spc (sw_current w) PReady pc) p t).
Proof.
  intros (Hcur & Hact & Hen) Hpc Hinv Hb Hwk. pose proof Hinv as [Hwf Hv Htok Hth].
  unfold sem_wakes in *. cbn [ss_w ss_pc ss_posted ss_taken] in *.
  destruct (Hth _ Hcur) as (_ & _ & _ & _ & Hi). specialize (Hi i Hpc).
  destruct (svcall_sem_post_only i (sw_k w) Hwf ltac:(unfold task_id; lia)) as [[F V] Vi].
  unfold sem_post_wake. cbn [sw_k sw_with_k]. set (k' := svcall_sem_post i (sw_k w)) in *. clearbody k'.
  unfold blocked_on in Hb.
  apply andb_true_iff in Hb as [_ [Hbl%bool_decide_eq_true Ha%negb_true_iff]%andb_true_iff].
  fold (active (sw_k w) i) in Ha.
  assert (Hne : i <> sw_current w) by (intros ->; congruence).
  destruct (Hth i Hi) as (_ & _ & _ & Hbi & _). assert (Hpi : waits (pc i) = true) by (apply Hbi; [exact Ha|exact Hbl]).
  intros j (Hj & Hw & Haj).
  assert (Hjc : j <> sw_current w) by (intros ->; now rewrite set_spc_eq in Hw). rewrite set_spc_ne in Hw by done.
  assert (Hji : j <> i) by (intros ->; now rewrite Vi in Haj). rewrite V in Haj by (done || lia).
  etrans; [apply (Hwk j); done|]. apply Z.eq_le_incl.
  set (mid := fun m => if m =? sw_current w then false else pendingb (sw_k w) pc m).
  rewrite (count_tasks_step mid (pendingb k' (set_spc (sw_current w) PReady pc)) i Hi).
  - rewrite (count_tasks_step (pendingb (sw_k w) pc) mid (sw_current w) Hcur).
    + unfold mid, pendingb. rewrite set_spc_ne, Hpc, Z.eqb_refl by done.
      destruct (Z.eqb_spec i (sw_current w)); [done|]. rewrite Vi. unfold view. cbn [v_active v_unblock].
      rewrite Ha. destruct (pc i); try done; simpl; lia.
    + intros m _ Hm. unfold mid. now destruct (Z.eqb_spec m (sw_current w)).
  - intros m Hm Hmi. unfold mid, pendingb. destruct (Z.eqb_spec m (sw_current w)) as [->|Hmc].
    + now rewrite set_spc_eq.
    + rewrite set_spc_ne, V by (done || lia). done.
Qed.

Lemma sem_inv_time a v0 w pc p t now counter :
  sem_inv a v0 (mk_ss w pc p t) ->
  let w' := sw_with_k (root_handle_usecond_match_event (with_counter counter (with_now now (sw_k w)))) w in
  sem_inv a v0 (mk_ss w' pc p t) /\ (sem_wakes a (mk_ss w pc p t) -> sem_wakes a (mk_ss w' pc p t)).
Proof.
  intros [Hwf Hv Htok Hth]. cbn [ss_w ss_pc ss_posted ss_taken] in *. cbv zeta.
  set (k0 := with_counter counter (with_now now (sw_k w))).
  destruct (match_event_views k0 Hwf) as [F V]. revert F V.
  generalize (root_handle_usecond_match_event k0). intros k' F V.
  assert (Hcase : forall j, 1 <= j < CONFIG_TASK_TOTAL -> view k' j = view (sw_k w) j \/
    (v_active (view (sw_k w) j) = false /\ v_active (view k' j) = true /\
     v_unblock (view k' j) = SCHEDULER_UNBLOCK_SLEEP)).
  { intros j Hj. specialize (V j Hj). destruct (asleep_in k0 j) eqn:Ea; [|left; exact V].
    destruct (due k0 j); [right|left; exact V]. destruct V as (V1 & _ & V3). split_and!; try done.
    rewrite asleep_in_active in Ea. apply andb_true_iff in Ea as [_ Ea%negb_true_iff]. exact Ea. }
  split.
  - split; cbn [ss_w ss_pc ss_posted ss_taken sw_k sw_with_k]; try done; [now apply F|].
    intros j Hj. specialize (Hth j Hj). destruct (Hcase j Hj) as [E|(_ & E & _)].
    + apply (waiter_ok_frame a k0); [exact F|lia|exact E|exact Hth].
    + apply (waiter_ok_wake a k0); [exact F|lia|exact Hth|exact E].
  - intros Hwk j (Hj & Hp & Ha). unfold sem_wakes in Hwk. cbn [ss_w ss_pc sw_k sw_with_k] in *. etrans; [apply (Hwk j)|].
    + split_and!; try done; try lia. destruct (Hcase j Hj) as [<-|(? & ? & _)]; congruence.
    + apply count_tasks_mono. intros i Hi. unfold pendingb.
      destruct (Hcase i Hi) as [->|(H1 & H2 & H3)]; [done|]. rewrite H1. destruct (pc i); done.
Qed.

Lemma sem_inv_signal a v0 w pc p t i : 1 <= i < CONFIG_TASK_TOTAL ->
  sem_inv a v0 (mk_ss w pc p t) ->
  let w' := sw_with_k (signal_root_activate i (sw_k w)) w in
  sem_inv a v0 (mk_ss w' pc p t) /\ (sem_wakes a (mk_ss w pc p t) -> sem_wakes a (mk_ss w' pc p t)).
Proof.
  intros Hi [Hwf Hv Htok Hth]. cbn [ss_w ss_pc ss_posted ss_taken] in *. cbv zeta.
  destruct (signal_root_activate_only i (sw_k w) Hwf ltac:(unfold task_id; lia)) as [[F V] Vi].
  revert F V Vi. generalize (signal_root_activate i (sw_k w)). intros k' F V Vi.
  assert (Hcase : forall j, 1 <= j < CONFIG_TASK_TOTAL -> view k' j = view (sw_k w) j \/
    (v_active (view k' j) = true /\ v_unblock (view k' j) <> SCHEDULER_UNBLOCK_SLEEP)).
  { intros j Hj. destruct (decide (j = i)) as [->|]; [right; now rewrite Vi|left; apply V; [lia|done]]. }
  split.
  - split; cbn [ss_w ss_pc ss_posted ss_taken sw_k sw_with_k]; try done; [now apply F|].
    intros j Hj. specialize (Hth j Hj). destruct (Hcase j Hj) as [E|[E _]].
    + apply (waiter_ok_frame a (sw_k w)); [exact F|lia|exact E|exact Hth].
    + apply (waiter_ok_wake a (sw_k w)); [exact F|lia|exact Hth|exact E].
  - intros Hwk j (Hj & Hp & Ha). unfold sem_wakes in Hwk. cbn [ss_w ss_pc sw_k sw_with_k] in *. etrans; [apply (Hwk j)|].
    + split_and!; try done; try lia. destruct (Hcase j Hj) as [<-|[? _]]; congruence.
    + apply count_tasks_mono. intros m Hm. unfold pendingb.
      destruct (Hcase m Hm) as [->|[H1 H2]]; [done|]. rewrite H1. destruct (pc m); try done.
      intros _. apply andb_true_iff. split; [done|]. apply negb_true_iff, Z.eqb_neq. exact H2.
Qed.

Lemma sem_inv_step a v0 s s' l : sem_inv a v0 s -> sem_step a l s s' -> l <> LStore false ->
  sem_inv a v0 s' /\ (l <> LWake false -> sem_wakes a s -> sem_wakes a s').
Proof.
  intros Hinv Hstep Hl.
  destruct Hstep as [w pc p t w' r Hr Hu Hc|w pc p t v Hr Hpc Hv|w pc p t v Hr Hpc|w pc p t Hr Hpc
                    |w pc p t i Hr Hpc|w pc p t now counter|w pc p t i Hi|w pc p t i Hi].
  - destruct (sem_inv_call a v0 w pc p t w' r); auto.
  - destruct (sem_inv_load a v0 w pc p t v); auto.
  - destruct (Z.eqb_spec (sem_value (sem w a)) v) as [E1|]; [|done].
    destruct (Z.ltb_spec v INT_MAX); [|done].
    destruct (sem_inv_store a v0 w pc p t v); auto.
  - destruct (sem_inv_pick a v0 w pc p t); auto.
  - split; [now apply sem_inv_wake|]. intros Hw. destruct (blocked_on _ _ _) eqn:Hb; [|done].
    now apply (sem_wakes_wake a v0).
  - destruct (sem_inv_time a v0 w pc p t now counter); auto.
  - destruct (sem_inv_signal a v0 w pc p t i); auto.
  - split; [|auto]. destruct Hinv as [[[? ?] ?] Hv Htok Hth]. split; try done.
    split; [split; [done|unfold task_id; simpl; lia]|done].
Qed.
Lemma sem_fresh_invariant a v0 s s' : star (fresh_step a) s s' -> sem_inv a v0 s -> sem_inv a v0 s'.
Proof. apply star_invariant. intros s1 s2 Hinv (l & Hs & Hl). now apply (sem_inv_step a v0 s1 s2 l). Qed.
Lemma sem_timely_invariant a v0 s s' : star (timely_step a) s s' ->
  sem_inv a v0 s /\ sem_wakes a s -> sem_inv a v0 s' /\ sem_wakes a s'.
Proof.
  apply (star_invariant (timely_step a) (fun s => sem_inv a v0 s /\ sem_wakes a s)). intros s1 s2 [Hinv Hw] (l & Hs & Hl & Hl').
  destruct (sem_inv_step a v0 s1 s2 l Hinv Hs Hl). auto.
Qed.

(** C3: Semaphore tokens are conserved when no increment is disturbed: [sem_post]
    reads, increments, stores, looks for a waiter and wakes it in separate steps,
    and the threads wait, wait with a timeout, try, post, are interrupted and time
    out between any two of them.  As long as each increment stores over the value
    it read and does not overflow (no protection in the code ensures this:
    [sem_post_race]), the value is never negative and equals the initial value
    plus the posts minus the waits that have succeeded. *)
Theorem sem_tokens_conserved a v0 s s' : sem_inv a v0 s -> star (fresh_step a) s s' ->
  0 <= value (ss_w s') a /\ value (ss_w s') a = v0 + ss_posted s' - ss_taken s' /\
  ss_taken s' <= v0 + ss_posted s'.
Proof. intros Hinv Hs. destruct (sem_fresh_invariant a v0 s s' Hs Hinv) as [_ Hv Ht _]. lia. Qed.

(** C20: No wake-up of a semaphore is lost as long as, besides, each waiter that
    [sem_post] finds is still asleep when the supervisor call that wakes it is
    made (not so when it has timed out in between or another thread that posts has
    found it too: [sem_post_wakes_too_late]) and no thread is stopped: a thread is
    asleep in a wait only while the value is at most the number of threads that
    have been woken and are still to take a token or have posted and are still to
    wake one; so once those have run, a waiter asleep means that the semaphore has
    no token. *)
Theorem sem_no_lost_wakeup a v0 s s' t : sem_inv a v0 s -> sem_wakes a s -> star (timely_step a) s s' ->
  asleep_waiter (sw_k (ss_w s')) (ss_pc s') t ->
  value (ss_w s') a <= count_tasks (pendingb (sw_k (ss_w s')) (ss_pc s')) /\
  block_object (sched (sw_k (ss_w s')) t) = Pobj a.
Proof.
  intros Hinv Hwk Hs Ht. destruct (sem_timely_invariant a v0 s s' Hs (conj Hinv Hwk)) as [[_ _ _ Hth] Hwk'].
  split; [now apply (Hwk' t)|]. destruct Ht as (Hi & Hp & Ha). apply (Hth t Hi); done.
Qed.

(** Two threads and a semaphore with no token at address 256. *)
Definition sem_demo : sem_world := mk_sw demo_kernel {[ 256 := mk_sem 1 0 0 1 0 "" 0 ]} [].
Definition sem_demo_system : sem_system := mk_ss sem_demo (fun _ => PReady) 0 0.
Lemma sem_demo_inv : sem_inv 256 0 sem_demo_system.
Proof.
  split; cbn [ss_w ss_pc ss_posted ss_taken sem_demo_system].
  - vm_compute. intuition congruence.
  - vm_compute. intuition congruence.
  - vm_compute. reflexivity.
  - refine (each_task _ _). vm_compute. repeat constructor; intros; try discriminate; congruence.
Qed.
Lemma sem_demo_wakes : sem_wakes 256 sem_demo_system.
Proof. intros t (_ & H & _). done. Qed.
Definition sem_switch (i : Z) (w : sem_world) : sem_world := sw_with_k (switch_to i (sw_k w)) w.
Lemma sw_running_check w :
  (1 <=? sw_current w) && (sw_current w <? CONFIG_TASK_TOTAL) && active (sw_k w) (sw_current w)
  && enabled (sw_k w) (sw_current w) = true -> sw_running w.
Proof.
  intros H. apply andb_true_iff in H as [H ?]. apply andb_true_iff in H as [H ?].
  apply andb_true_iff in H as [?%Z.leb_le ?%Z.ltb_lt]. done.
Qed.

(** ** Running given sequences of steps *)

Inductive sem_act := AWait | ATimed (ts : option timespec) | ATry | APost | ATime (now counter : Z) | ASignal (i : Z) | ASwitch (i : Z).
Definition runningb (w : sem_world) : bool :=
  (1 <=? sw_current w) && (sw_current w <? CONFIG_TASK_TOTAL) && active (sw_k w) (sw_current w)
  && enabled (sw_k w) (sw_current w).
Definition exec_call (s : sem_system) (r : sem_world * sem_progress) : option (sem_label * sem_system) :=
  Some (LOther, mk_ss r.1 (set_spc (sw_current (ss_w s)) (pc_of r.2) (ss_pc s)) (ss_posted s) (ss_taken s + took r.2)).
(** The step of the running thread that [act] asks for; a thread inside a call goes on with it. *)
Definition exec (a : Z) (s : sem_system) (act : sem_act) : option (sem_label * sem_system) :=
  let '(mk_ss w pc p t) := s in
  let at_pc x := set_spc (sw_current w) x pc in
  match act with
  | ATime now counter =>
      if (0 <=? counter) && (counter <? SCHEDULER_TIMEVAL_SEC_INVALID) then
        Some (LOther, mk_ss (sw_with_k (root_handle_usecond_match_event (with_counter counter (with_now now (sw_k w)))) w) pc p t)
      else None
  | ASignal i => if (1 <=? i) && (i <? CONFIG_TASK_TOTAL)
      then Some (LOther, mk_ss (sw_with_k (signal_root_activate i (sw_k w)) w) pc p t) else None
  | ASwitch i => if (1 <=? i) && (i <? CONFIG_TASK_TOTAL)
      then Some (LOther, mk_ss (sw_with_k (switch_to i (sw_k w)) w) pc p t) else None
  | _ =>
      if negb (runningb w) then None
      else match act, pc (sw_current w) with
      | APost, PReady => match sem_post_load a w with
                         | inr v => Some (LOther, mk_ss w (at_pc (PLoaded v)) p t) | inl _ => None end
      | APost, PLoaded v => Some (LStore ((sem_value (sem w a) =? v) && (v <? INT_MAX)),
                                  mk_ss (sem_post_store a v w) (at_pc PStored) (p + 1) t)
      | APost, PStored =>
          Some (LOther, mk_ss w (at_pc (match sem_post_pick a w with Some i => PPicked i | None => PReady end)) p t)
      | APost, PPicked i => Some (LWake (blocked_on (sw_k w) (Pobj a) i), mk_ss (sem_post_wake i w) (at_pc PReady) p t)
      | _, x =>
          if match sem_check_initialized a w with Some _ => true | None => false end then None
          else match act, x with
          | AWait, PReady => exec_call s (sem_wait a w)
          | ATimed ts, PReady => exec_call s (sem_timedwait a ts w)
          | ATry, PReady => let '(w', r) := sem_trywait a w in exec_call s (w', SReturned r)
          | AWait, PWait => exec_call s (sem_wait_turn a w)
          | AWait, PTimed => exec_call s (sem_timed_resume a w)
          | _, _ => None
          end
      end
  end.
Lemma exec_sound a s act l s' : exec a s act = Some (l, s') -> sem_step a l s s'.
Proof.
  destruct s as [w pc p t]. unfold exec.
  assert (Hb : forall x y z, (x <=? y) && (y <? z) = true -> x <= y < z)
    by (intros x y z [?%Z.leb_le ?%Z.ltb_lt]%andb_true_iff; done).
  destruct (runningb w) eqn:Hr; cbn [negb].
  2:{ destruct act; try done; destruct (_ && _) eqn:E; try done; intros [= <- <-]; apply Hb in E; now constructor. }
  apply sw_running_check in Hr.
  assert (Hcall : forall r, sem_check_initialized a w = None ->
    sem_call a w (pc (sw_current w)) r.1 r.2 -> exec_call (mk_ss w pc p t) r = Some (l, s') ->
    sem_step a l (mk_ss w pc p t) s').
  { intros [w1 r] Hu Hc [= <- <-]. now apply sp_call. }
  destruct (sem_check_initialized a w) as [e|] eqn:Hu.
  - destruct act; try done; try (destruct (_ && _) eqn:E; try done; intros [= <- <-]; apply Hb in E; now constructor);
      destruct (pc (sw_current w)) eqn:Hpc; try done;
      try (destruct (sem_post_load a w) eqn:El; [done|]); intros [= <- <-]; now constructor.
  - destruct act; try (destruct (_ && _) eqn:E; try done; intros [= <- <-]; apply Hb in E; now constructor);
      destruct (pc (sw_current w)) eqn:Hpc; try done;
      try (destruct (sem_post_load a w) eqn:El; [done|]);
      try (intros [= <- <-]; now constructor);
      try (apply Hcall; [done|]; first [apply call_wait; apply surjective_pairing
        |eapply call_timedwait; apply surjective_pairing|apply call_turn; apply surjective_pairing
        |apply call_timed; apply surjective_pairing]).
    destruct (sem_trywait a w) as [w1 r1] eqn:Et. apply Hcall; [done|]. now constructor.
Qed.
Fixpoint exec_all (a : Z) (s : sem_system) (acts : list sem_act) : option (list sem_label * sem_system) :=
  match acts with
  | [] => Some ([], s)
  | act :: acts =>
      match exec a s act with
      | None => None
      | Some (l, s1) => match exec_all a s1 acts with None => None | Some (ls, s2) => Some (l :: ls, s2) end
      end
  end.
Definition disturbed (l : sem_label) : bool := match l with LStore false => true | _ => false end.
Definition untimely (l : sem_label) : bool := match l with LStore false | LWake false => true | _ => false end.
Lemma exec_all_star a (P : sem_label -> bool) (R : sem_system -> sem_system -> Prop) acts s ls s' :
  (forall l s1 s2, sem_step a l s1 s2 -> P l = false -> R s1 s2) ->
  exec_all a s acts = Some (ls, s') -> existsb P ls = false -> star R s s'.
Proof.
  intros HR. revert s ls. induction acts as [|act acts IH]; intros s ls; simpl.
  - intros [= <- <-] _. apply star_refl.
  - destruct (exec a s act) as [[l s1]|] eqn:E; [|done]. destruct (exec_all a s1 acts) as [[ls1 s2]|] eqn:E1; [|done].
    intros [= <- <-]. cbn [existsb]. intros [Hl Hls]%orb_false_iff.
    eapply star_step; [|now apply (IH s1 ls1)]. apply (HR l); [|done]. now apply exec_sound with act.
Qed.
Lemma disturbed_fresh a l s s' : sem_step a l s s' -> disturbed l = false -> fresh_step a s s'.
Proof. intros H Hl. exists l. split; [done|]. now intros ->. Qed.
Lemma untimely_timely a l s s' : sem_step a l s s' -> untimely l = false -> timely_step a s s'.
Proof. intros H Hl. exists l. split_and!; [done|now intros ->|now intros ->]. Qed.

(** Thread 2 waits, thread 1 posts and wakes it. *)
Definition demo_acts : list sem_act := [ASwitch 2; AWait; ASwitch 1; APost; APost; APost; APost].
Definition exec_demo (acts : list sem_act) : sem_system :=
  match exec_all 256 sem_demo_system acts with Some (_, s) => s | None => sem_demo_system end.
Lemma exec_demo_star (P : sem_label -> bool) (R : sem_system -> sem_system -> Prop) acts :
  (forall l s1 s2, sem_step 256 l s1 s2 -> P l = false -> R s1 s2) ->
  match exec_all 256 sem_demo_system acts with Some (ls, _) => negb (existsb P ls) | None => false end = true ->
  star R sem_demo_system (exec_demo acts).
Proof.
  intros HR H. unfold exec_demo. destruct (exec_all _ _ _) as [[ls s]|] eqn:E; [|done].
  apply (exec_all_star 256 P R acts _ ls s); [done|done|]. now apply negb_true_iff.
Qed.

Lemma sem_tokens_conserved_witness :
  value (ss_w (exec_demo demo_acts)) 256 = 1 /\ value (ss_w (exec_demo demo_acts)) 256 = 0 + 1 - 0.
Proof.
  split; [vm_compute; reflexivity|].
  apply (sem_tokens_conserved 256 0 _ (exec_demo demo_acts) sem_demo_inv).
  apply (exec_demo_star disturbed _ demo_acts (disturbed_fresh 256)). vm_compute. reflexivity.
Defined.
Lemma sem_no_lost_wakeup_witness :
  let s := exec_demo [ASwitch 2; AWait; ASwitch 1; APost; APost] in
  value (ss_w s) 256 = 1 /\ 1 <= count_tasks (pendingb (sw_k (ss_w s)) (ss_pc s)).
Proof.
  split; [vm_compute; reflexivity|].
  apply (sem_no_lost_wakeup 256 0 _ (exec_demo [ASwitch 2; AWait; ASwitch 1; APost; APost]) 2 sem_demo_inv sem_demo_wakes).
  - apply (exec_demo_star untimely _ _ (untimely_timely 256)). vm_compute. reflexivity.
  - split; [done|]. split; vm_compute; reflexivity.
Defined.

(** [sem_post] without an interruption is such a run. *)
Lemma sem_post_run a w pc p t : kernel_wf (sw_k w) -> sw_running w -> usable a w -> pc (sw_current w) = PReady ->
  value w a < INT_MAX ->
  exists pc', star (timely_step a) (mk_ss w pc p t) (mk_ss (sem_post a w).1 pc' (p + 1) t) /\
    forall j, pc' j = pc j.
Proof.
  intros Hwf Hr Hu Hpc Hmax. set (c := sw_current w). set (v := sem_value (sem w a)).
  set (w1 := sem_post_store a v w). assert (Hr1 : sw_running w1) by exact Hr.
  assert (Hl : sem_post_load a w = inr v) by (unfold sem_post_load; unfold usable in Hu; now rewrite Hu).
  assert (S1 : star (timely_step a) (mk_ss w pc p t) (mk_ss w1 (set_spc c PStored (set_spc c (PLoaded v) pc)) (p + 1) t)).
  { eapply star_step; [|eapply star_step; [|apply star_refl]].
    - exists LOther. split_and!; [exact (sp_load a w pc p t v Hr Hpc Hl)|done|done].
    - eexists. split; [apply (sp_store a w _ p t v Hr); apply set_spc_eq|]. fold v. rewrite Z.eqb_refl.
      fold v in Hmax. unfold value in Hmax. fold v in Hmax. apply Z.ltb_lt in Hmax. rewrite Hmax. done. }
  set (pc1 := set_spc c PStored _) in S1. assert (Hpc1 : pc1 c = PStored) by apply set_spc_eq.
  assert (Hsame : forall x j, set_spc c x pc1 j = set_spc c x pc j).
  { intros x j. unfold pc1, set_spc. now destruct (j =? c). }
  assert (S2 := sp_pick a w1 pc1 (p + 1) t Hr1 Hpc1). change (sw_current w1) with c in S2.
  assert (Hready : forall pc2, (forall j, set_spc c PReady pc2 j = set_spc c PReady pc j) ->
    forall j, set_spc c PReady pc2 j = pc j).
  { intros pc2 H j. rewrite H. unfold set_spc. destruct (Z.eqb_spec j c) as [->|]; done. }
  unfold sem_post. rewrite Hl. fold v w1.
  pose proof (highest_priority_blocked_spec (sw_k w1) (Pobj a) ltac:(apply Hwf)) as [Hc _ _ _].
  destruct (sem_post_pick a w1) as [i|] eqn:Ep; cbn [fst].
  - assert (Hbi : blocked_on (sw_k w1) (Pobj a) i = true).
    { unfold sem_post_pick in Ep. destruct (Z.eqb_spec (scheduler_get_highest_priority_blocked (sw_k w1) (Pobj a)) (-1)); [done|].
      injection Ep as <-. now apply Hc. }
    eexists. split; [eapply star_snoc; [eapply star_snoc; [exact S1|]|]|].
    + exists LOther. split_and!; [exact S2|done|done].
    + eexists. split; [apply (sp_wake a w1 _ (p + 1) t i Hr1); apply set_spc_eq|]. rewrite Hbi. done.
    + apply Hready. intros j. unfold pc1, set_spc. change (sw_current w1) with c. now destruct (j =? c).
  - eexists. split; [eapply star_snoc; [exact S1|]|].
    + exists LOther. split_and!; [exact S2|done|done].
    + apply Hready. intros j. unfold pc1, set_spc. now destruct (j =? c).
Qed.

(** The waiter is chosen before the supervisor call: when it times out in between,
    the wake-up is spent on a thread that no longer waits.  Thread 3 waits with a
    timeout and thread 2 without one; thread 1 posts and finds thread 3, which
    then times out.  In the end the semaphore has a token, no thread is on its way
    to take it or to wake another, and thread 2 is asleep. *)
Definition lost_acts : list sem_act :=
  [ASwitch 3; ATimed (Some (mk_timespec 0 5000000)); ASwitch 2; AWait; ASwitch 1; APost; APost; APost;
   ATime 6000 0; ASwitch 3; AWait; ASwitch 1; APost].
Theorem sem_post_wakes_too_late :
  let s := exec_demo lost_acts in
  star (fresh_step 256) sem_demo_system s /\ value (ss_w s) 256 = 1 /\
  asleep_waiter (sw_k (ss_w s)) (ss_pc s) 2 /\ count_tasks (pendingb (sw_k (ss_w s)) (ss_pc s)) = 0.
Proof.
  split_and!; try (vm_compute; reflexivity).
  - apply (exec_demo_star disturbed _ lost_acts (disturbed_fresh 256)). vm_compute. reflexivity.
  - split; [done|]. split; vm_compute; reflexivity.
Qed.

(** ** Timeouts and the unprotected increment *)

(** [sem_timedwait] on a deadline that has passed returns EAGAIN, not the
    ETIMEDOUT it documents, unless the reason of the caller's last wake-up
    happened to be a timeout. *)
Theorem sem_timedwait_expired a ts w : kernel_wf (sw_k w) -> usable a w -> sw_running w ->
  value w a <= 0 -> in_future (sw_k w) (scheduler_timing_convert_timespec ts) = false ->
  let w1 := (sem_timedwait a ts w).1 in
  (sem_timedwait a ts w).2 = STimed /\ active (sw_k w1) (sw_current w) = true /\
  (sem_timed_resume a w1).2 =
    SReturned (Err (if scheduler_unblock_type (sw_k w) (sw_current w) =? SCHEDULER_UNBLOCK_SLEEP
                    then ETIMEDOUT else EAGAIN)).
Proof.
  intros Hwf Hu (_ & Hact & _) Hv Hf. cbv zeta. unfold sem_timedwait. pose proof Hu as Hu'. unfold usable in Hu.
  rewrite Hu. unfold svcall_sem_timedwait. fold (value w a).
  destruct (Z.leb_spec (value w a) 0); [|lia]. change (-1 <? 0) with true. cbn [fst snd].
  destruct (timedblock_only (Pobj a) (scheduler_timing_convert_timespec ts) (sw_k w) Hwf) as [O V].
  rewrite Hf in V. destruct V as [V1 V2]. set (k1 := scheduler_timing_root_timedblock _ _ _) in *.
  cbn [view v_active v_unblock] in V1, V2. clearbody k1.
  assert (Hc : sw_current (sw_with_k k1 w) = sw_current w) by apply O.
  split_and!; [done|exact (eq_trans V1 Hact)|].
  unfold sem_timed_resume. rewrite Hc. cbn [sw_k sw_with_k]. unfold sw_current in *. rewrite V2.
  destruct (_ =? _); [done|]. unfold sem_trywait.
  assert (E : sem_check_initialized a (sw_with_k k1 w) = None).
  { unfold sem_check_initialized in *. change (sem (sw_with_k k1 w) a) with (sem w a).
    unfold sw_current in *. rewrite Hc. cbn [sw_k sw_with_k].
    rewrite (fr_pid _ _ (only_frame _ _ _ O)) by apply Hwf. exact Hu. }
  rewrite E. unfold svcall_sem_trywait. fold (value (sw_with_k k1 w) a).
  change (value (sw_with_k k1 w) a) with (value w a). destruct (Z.ltb_spec 0 (value w a)); [lia|done].
Qed.

Lemma sem_timedwait_expired_witness :
  (sem_timed_resume 256 (sem_timedwait 256 (Some (mk_timespec 0 0)) sem_demo).1).2
  = SReturned (Err EAGAIN).
Proof.
  exact (proj2 (proj2 (sem_timedwait_expired 256 (Some (mk_timespec 0 0)) sem_demo
    ltac:(vm_compute; intuition congruence) eq_refl
    (sw_running_check sem_demo eq_refl) ltac:(vm_compute; congruence) eq_refl))).
Defined.

(** The increment of [sem_post] is not protected: when another thread takes a
    token between the load and the store, the store overwrites the decrement and
    the semaphore ends with one token more than were posted. *)
Theorem sem_post_race a w : usable a w -> 0 < value w a < INT_MAX ->
  let v := value w a in
  let w1 := (svcall_sem_trywait a w).1 in
  (svcall_sem_trywait a w).2 = 0 /\ value w1 a = v - 1 /\
  value (sem_post_store a v w1) a = v + 1.
Proof.
  intros Hu Hv. cbv zeta. unfold svcall_sem_trywait. fold (value w a).
  destruct (Z.ltb_spec 0 (value w a)); [|lia]. cbn [fst snd]. split; [done|]. rewrite value_set.
  split; [done|]. unfold sem_post_store. rewrite value_set. apply s32_id. unfold INT_MAX in Hv. lia.
Qed.

Lemma sem_post_race_witness :
  let w := (sem_post 256 sem_demo).1 in
  value (sem_post_store 256 (value w 256) (svcall_sem_trywait 256 w).1) 256 = 2.
Proof.
  refine (proj2 (proj2 (sem_post_race 256 (sem_post 256 sem_demo).1 _ _))); [vm_compute; reflexivity|].
  vm_compute. intuition congruence.
Defined.

(** ** Named semaphores *)

Lemma substring_full s n : strlen s <= n -> String.substring 0 (Z.to_nat n) s = s.
Proof.
  intros H. assert (Hn : (String.length s <= Z.to_nat n)%nat) by (unfold strlen in H; lia). clear H.
  revert Hn. generalize (Z.to_nat n). induction s as [|c s IH]; intros m Hm; destruct m; simpl in *; try done; [lia|].
  f_equal. apply IH. lia.
Qed.

Definition names (name : string) (w : sem_world) (a : Z) : Prop :=
  sem_is_initialized (sem w a) <> 0 /\ strncmp_eq (sem_name (sem w a)) name SEM_NAME_MAX = true.

Lemma sem_find_named_none name w : 0 ∉ sem_first w ->
  sem_find_named name w = 0 <-> forall a, a ∈ sem_first w -> ~ names name w a.
Proof.
  intros H0. unfold sem_find_named. destruct (list_find _ _) as [[i a]|] eqn:E; simpl.
  - apply list_find_Some in E as (Hi & Hp & _). apply list_elem_of_lookup_2 in Hi.
    split; [intros ->; done|]. intros H. now destruct (H a).
  - apply list_find_None in E. rewrite Forall_forall in E. done.
Qed.
Lemma sem_find_named_unique name w a : a ∈ sem_first w -> names name w a ->
  (forall b, b ∈ sem_first w -> names name w b -> b = a) -> sem_find_named name w = a.
Proof.
  intros Ha Hn Hu. unfold sem_find_named. destruct (list_find _ _) as [[i b]|] eqn:E; simpl.
  - apply list_find_Some in E as (Hi & Hp & _). apply list_elem_of_lookup_2 in Hi. now apply Hu.
  - apply list_find_None in E. rewrite Forall_forall in E. now destruct (E a Ha).
Qed.

(** A semaphore created by [sem_open] is found under its name, with the
    initial value and one reference: a second [sem_open] of the same name (with
    or without O_CREAT) returns the same semaphore and adds a reference, and
    O_CREAT with O_EXCL fails with EEXIST. *)
Theorem sem_open_create_then_open name mode v malloc w w' a :
  strlen name < SEM_NAME_MAX -> 0 ∉ sem_first w -> 0 <= v < 2 ^ 31 ->
  sem_find_named name w = 0 ->
  sem_open name O_CREAT mode v malloc w = (w', inl a) ->
  sem_find_named name w' = a /\ value w' a = v /\ sem_references (sem w' a) = 1 /\
  (forall mode2 v2 malloc2, exists w2, sem_open name 0 mode2 v2 malloc2 w' = (w2, inl a) /\
     sem_references (sem w2 a) = 2 /\ value w2 a = v) /\
  (forall mode2 v2 malloc2, sem_open name (Z.lor O_CREAT O_EXCL) mode2 v2 malloc2 w'
     = (w', inr (Some EEXIST))).
Proof.
  intros Hlen H0 Hv Hnone Hop.
  assert (Hnm : (strnlen name SEM_NAME_MAX =? SEM_NAME_MAX) = false)
    by (unfold strnlen; apply Z.eqb_neq; lia).
  unfold sem_open in Hop. rewrite Hnm, Hnone in Hop. cbn -[sem_find_free s32 String.substring] in Hop.
  destruct (sem_find_free malloc w) as [w1 b] eqn:Efree.
  destruct (Z.eqb_spec b 0) as [->|Hb]; [discriminate|]. injection Hop as <- <-.
  rewrite substring_full by lia. rewrite s32_id by lia.
  assert (Hw1 : sw_sem w1 = sw_sem w /\ b ∈ sem_first w1 /\
                (forall c, c ∈ sem_first w1 -> c <> b -> c ∈ sem_first w)).
  { unfold sem_find_free in Efree. destruct (list_find _ _) as [[i c]|] eqn:E.
    - injection Efree as <- <-. apply list_find_Some in E as (Hi & _ & _).
      apply list_elem_of_lookup_2 in Hi. done.
    - destruct malloc as [c|]; [|injection Efree as <- <-; done]. injection Efree as <- <-. cbn [sw_sem sem_first].
      split_and!; [done|apply elem_of_app; right; now apply list_elem_of_singleton|].
      intros x [Hx|Hx%list_elem_of_singleton]%elem_of_app Hne; [exact Hx|done]. }
  destruct Hw1 as (Hs1 & Hb1 & Hother).
  set (s := mk_sem 1 v 1 _ 1 name mode). set (w' := set_sem b s w1).
  assert (Hsb : sem w' b = s) by apply sem_set_eq.
  assert (Hf : sem_find_named name w' = b).
  { apply sem_find_named_unique; [exact Hb1| |].
    - unfold names. rewrite Hsb. split; [done|]. unfold strncmp_eq. now rewrite bool_decide_true.
    - intros c Hc Hn. destruct (decide (c = b)) as [|Hne]; [done|]. exfalso.
      assert (E : sem w' c = sem w c).
      { unfold sem, w', set_sem. cbn [sw_sem]. rewrite lookup_total_insert_ne by done. now rewrite Hs1. }
      unfold names in Hn. rewrite E in Hn.
      apply (proj1 (sem_find_named_none name w H0) Hnone c); [now apply Hother|exact Hn]. }
  unfold value. rewrite Hsb. split_and!; try done.
  - intros mode2 v2 malloc2. unfold sem_open. rewrite Hnm, Hf, Hsb.
    destruct (Z.eqb_spec b 0); [done|]. eexists. split; [reflexivity|]. now rewrite sem_set_eq.
  - intros mode2 v2 malloc2. unfold sem_open. rewrite Hnm, Hf. destruct (Z.eqb_spec b 0); done.
Qed.

Lemma sem_open_create_then_open_witness :
  sem_find_named "queue" (sem_open "queue" O_CREAT 438 3 (Some 512) sem_demo).1 = 512.
Proof.
  apply (sem_open_create_then_open "queue" 438 3 (Some 512) sem_demo _ 512);
    [vm_compute; reflexivity|vm_compute; intros H; inversion H|lia|vm_compute; reflexivity|vm_compute; reflexivity].
Defined.
