(* ===== verification/Mqueue.v ===== *)
(** * Message queues

    [src/sys/mqueue/mqueue.c] and [include/posix/mqueue.h].  A queue owns a table
    of message slots ([size = 0] marks a free slot), a mutex and two conditions.
    The blocking calls are split at the mutex and at the condition, as in
    [Mutex.v] and [Cond.v]; one pass of their loop while the mutex is held is
    [mq_receive_pass] and [mq_send_pass]. *)
From S2P Require Import Prelude Task Scheduler Timing Threads Mutex Cond Sem.

Definition MQ_NAME_MAX : Z := 23.
Definition MQ_STATUS_REFS_MASK : Z := 65535.
Definition MQ_STATUS_UNLINK_ON_CLOSE_MASK : Z := Z.shiftl 1 16.
Definition MQ_STATUS_NONBLOCK_MASK : Z := Z.shiftl 1 17.
Definition MQ_STATUS_RDWR_MASK : Z := Z.shiftl 1 18.
Definition MQ_STATUS_LOOP_MASK : Z := Z.shiftl 1 19.
Definition MQ_STATUS_USER_MASK : Z := Z.shiftl 1 20.
Definition MQ_FLAGS_LOOP : Z := O_APPEND.

(** A slot of the table: the header [struct message] and the bytes after it. *)
Record message := mk_message {
  msg_prio : Z;                  (** s32 *)
  msg_size : Z;                  (** s32 *)
  msg_age : Z;                   (** s32 *)
  msg_data : list Z;
}.
#[export] Instance message_inhabited : Inhabited message := populate (mk_message 0 0 0 []).

Record mq_t := mk_mq {
  mq_max_size : Z;
  mq_max_msgs : Z;
  mq_age : Z;                    (** u32 *)
  mq_mode : Z;
  mq_name : string;
  mq_msg_table : option (list message);
  mq_status : Z;                 (** u32 *)
  mq_pid : Z;
}.
#[export] Instance mq_inhabited : Inhabited mq_t := populate (mk_mq 0 0 0 0 "" None 0 0).

Definition with_msgs (age : Z) (l : list message) (q : mq_t) : mq_t :=
  mk_mq (mq_max_size q) (mq_max_msgs q) age (mq_mode q) (mq_name q) (Some l) (mq_status q) (mq_pid q).
Definition with_status (s : Z) (q : mq_t) : mq_t :=
  mk_mq (mq_max_size q) (mq_max_msgs q) (mq_age q) (mq_mode q) (mq_name q) (mq_msg_table q) s (mq_pid q).
Definition without_table (q : mq_t) : mq_t :=
  mk_mq (mq_max_size q) (mq_max_msgs q) (mq_age q) (mq_mode q) (mq_name q) None (mq_status q) (mq_pid q).
Definition msgs (q : mq_t) : list message := default [] (mq_msg_table q).

(** ** The message table *)

(** [mq_cur_msgs]: the loop over the slots. *)
Definition mq_cur_msgs (l : list message) : Z :=
  for_range 0 (Zlen l) (fun i count => if msg_size (Zget l i) =? 0 then count else count + 1) 0.

Definition mq_init_table (l : list message) : list message :=
  for_range 0 (Zlen l) (fun i l =>
    Zset l i (mk_message (msg_prio (Zget l i)) 0 (msg_age (Zget l i)) (msg_data (Zget l i)))) l.

(** [mq_find_oldest_highest]: the loop carries [msg] (-1 for null), [max_prio]
    and [max_age]. *)
Definition oldest_turn (l : list message) (i : Z) (s : Z * Z * Z) : Z * Z * Z :=
  let '(msg, max_prio, max_age) := s in
  let imsg := Zget l i in
  if negb (msg_size imsg =? 0) then
    if max_prio <? msg_prio imsg then (i, msg_prio imsg, msg_age imsg)
    else if msg_prio imsg =? max_prio then
      if msg_age imsg <? max_age then (i, msg_prio imsg, msg_age imsg) else s
    else s
  else s.
Definition mq_find_oldest_highest (l : list message) : Z :=
  (for_range 0 (Zlen l) (oldest_turn l) (-1, 0, INT_MAX)).1.1.

Fixpoint find_free_loop (l : list message) (i : Z) : Z :=
  match l with
  | [] => -1
  | imsg :: l => if msg_size imsg =? 0 then i else find_free_loop l (i + 1)
  end.
Definition mq_find_free_msg (l : list message) : Z := find_free_loop l 0.

(** One pass of the loop of [mq_timedreceive] with the mutex held: the message
    and its priority, EMSGSIZE, EAGAIN, or the wait on [send_cond]. *)
Inductive pass (A : Type) := PassOk (x : A) | PassErr (e : Z) | PassWait.
Arguments PassOk {A}. Arguments PassErr {A}. Arguments PassWait {A}.

Definition mq_receive_pass (msg_len : Z) (q : mq_t) : mq_t * pass (list Z * Z) :=
  let l := msgs q in
  let new_msg := mq_find_oldest_highest l in
  if negb (new_msg =? -1) then
    let m := Zget l new_msg in
    if msg_len <? u32 (msg_size m) then (q, PassErr EMSGSIZE)
    else (with_msgs (mq_age q) (Zset l new_msg (mk_message (msg_prio m) 0 (msg_age m) (msg_data m))) q,
          PassOk (take (Z.to_nat (msg_size m)) (msg_data m), msg_prio m))
  else if Bits.any (mq_status q) MQ_STATUS_NONBLOCK_MASK then (q, PassErr EAGAIN)
  else (q, PassWait).

(** [memcpy] of the message over the bytes of the slot. *)
Definition store_data (data old : list Z) : list Z := data ++ drop (length data) old.

Definition mq_send_pass (data : list Z) (msg_prio : Z) (q : mq_t) : mq_t * pass Z :=
  let l := msgs q in
  let msg_len := Zlen data in
  let new_msg := mq_find_free_msg l in
  let '(new_msg, size) :=
    if negb (new_msg =? -1) then (new_msg, msg_len)
    else if Bits.any (mq_status q) MQ_STATUS_LOOP_MASK then (mq_find_oldest_highest l, msg_len)
    else (new_msg, 0) in
  if 0 <? size then
    (with_msgs (u32 (mq_age q + 1))
       (Zset l new_msg (mk_message (s32 msg_prio) msg_len (s32 (mq_age q))
                          (store_data data (msg_data (Zget l new_msg))))) q, PassOk size)
  else if Bits.any (mq_status q) MQ_STATUS_NONBLOCK_MASK then (q, PassErr EAGAIN)
  else (q, PassWait).

(** ** The list of queues *)

Record mq_world := mk_mqw { mw : world; mq_tab : gmap Z mq_t; mq_first : list Z }.
Definition mq (w : mq_world) (a : Z) : mq_t := mq_tab w !!! a.
Definition set_mq (a : Z) (q : mq_t) (w : mq_world) : mq_world := mk_mqw (mw w) (<[a := q]> (mq_tab w)) (mq_first w).
Definition mw_with (x : world) (w : mq_world) : mq_world := mk_mqw x (mq_tab w) (mq_first w).

(** The mutex and the conditions inside [mq_t]; [sizeof_mutex] is the size of the
    C library's [pthread_mutex_t]. *)
Section Mqueue.
Context (sizeof_mutex : Z).
Definition mq_mutex (a : Z) : Z := a + 52.
Definition mq_send_cond (a : Z) : Z := mq_mutex a + sizeof_mutex.
Definition mq_recv_cond (a : Z) : Z := mq_send_cond a + 4.

Definition mq_find_named (name : string) (w : mq_world) : Z :=
  let pid := getpid (mw w) in
  default 0 (snd <$> list_find (fun a =>
    mq_msg_table (mq w a) <> None /\ strncmp_eq (mq_name (mq w a)) name MQ_NAME_MAX = true /\
    (Bits.any (mq_status (mq w a)) MQ_STATUS_USER_MASK = false \/ pid = mq_pid (mq w a))) (mq_first w)).

Definition mq_find_free (malloc : option Z) (w : mq_world) : mq_world * Z :=
  match list_find (fun a => mq_msg_table (mq w a) = None) (mq_first w) with
  | Some (_, a) => (w, a)
  | None =>
      match malloc with
      | None => (w, 0)
      | Some a => (mk_mqw (mw w) (mq_tab w) (mq_first w ++ [a]), a)
      end
  end.

Definition mq_init_mutex (a : Z) (w : mq_world) : mq_world :=
  let x := (pthread_mutex_init (mq_mutex a) (Some (mk_mutexattr 1 0 25)) (mw w)).1 in
  let x := (pthread_cond_init (mq_send_cond a) (Some 1) x).1 in
  let x := (pthread_cond_init (mq_recv_cond a) (Some 1) x).1 in
  mw_with x w.

Definition mq_destroy (a : Z) (w : mq_world) : mq_world :=
  match mq_msg_table (mq w a) with
  | None => w
  | Some _ =>
      let w := set_mq a (without_table (mq w a)) w in
      let x := (pthread_mutex_destroy (mq_mutex a) (mw w)).1 in
      let x := (pthread_cond_destroy (mq_send_cond a) x).1 in
      let x := (pthread_cond_destroy (mq_recv_cond a) x).1 in
      mw_with x w
  end.

Definition mq_get_ptr (mqdes : Z) (w : mq_world) : option Z :=
  if bool_decide (mqdes ∈ mq_first w) then Some mqdes else None.

Record mq_attr := mk_mqattr { mq_flags : Z; mq_maxmsg : Z; mq_msgsize : Z; mq_curmsgs : Z }.

Definition mq_getattr (mqdes : Z) (w : mq_world) : api_result * option mq_attr :=
  match mq_get_ptr mqdes w with
  | None => (Err EBADF, None)
  | Some a =>
      let q := mq w a in
      let flags := if Bits.any (mq_status q) MQ_STATUS_NONBLOCK_MASK then O_NONBLOCK else 0 in
      let flags := if Bits.any (mq_status q) MQ_STATUS_RDWR_MASK then Bits.set flags O_RDWR else flags in
      (Ret 0, Some (mk_mqattr flags (mq_max_msgs q) (mq_max_size q) (mq_cur_msgs (msgs q))))
  end.

Definition set_flag (b : bool) (m s : Z) : Z := if b then Bits.set s m else Bits.clear s m.
Definition mq_setattr (mqdes flags : Z) (w : mq_world) : mq_world * api_result :=
  match mq_get_ptr mqdes w with
  | None => (w, Err EBADF)
  | Some a =>
      let s := mq_status (mq w a) in
      let s := set_flag (Bits.any flags O_NONBLOCK) MQ_STATUS_NONBLOCK_MASK s in
      let s := set_flag (Bits.any flags O_WRONLY || Bits.any flags O_RDWR) MQ_STATUS_RDWR_MASK s in
      let s := set_flag (Bits.any flags MQ_FLAGS_LOOP) MQ_STATUS_LOOP_MASK s in
      (set_mq a (with_status s (mq w a)) w, Ret 0)
  end.

(** The queue descriptor, or an error number ([None]: the allocator's). *)
Definition mq_open_flags (oflag s : Z) : Z :=
  let s := if Bits.any oflag O_NONBLOCK then Bits.set s MQ_STATUS_NONBLOCK_MASK else s in
  let s := if Bits.any oflag O_WRONLY || Bits.any oflag O_RDWR then Bits.set s MQ_STATUS_RDWR_MASK else s in
  if Bits.any oflag MQ_FLAGS_LOOP then Bits.set s MQ_STATUS_LOOP_MASK else s.

Definition mq_create (name : string) (mode : Z) (attr : mq_attr) (malloc : option Z) (calloc : bool)
    (w : mq_world) : mq_world * (Z + option Z) :=
  if (mq_maxmsg attr <=? 0) || (mq_msgsize attr <=? 0) then (w, inr (Some EINVAL))
  else
    let '(w, a) := mq_find_free malloc w in
    if a =? 0 then (w, inr None)
    else
      let w := mq_init_mutex a w in
      let tmp := Z.land (mq_msgsize attr) 3 in
      let max_size := if negb (tmp =? 0) then mq_msgsize attr + 4 - tmp else mq_msgsize attr in
      let is_user := strncmp_eq name "user" 4 in
      let status := Z.lor 1 (if is_user then MQ_STATUS_USER_MASK else 0) in
      let slot := mk_message 0 0 0 (replicate (Z.to_nat max_size) 0) in
      let pid := getpid (mw w) in
      if calloc then
        (set_mq a (mk_mq max_size (mq_maxmsg attr) 0 mode (String.substring 0 (Z.to_nat MQ_NAME_MAX) name)
                     (Some (mq_init_table (replicate (Z.to_nat (mq_maxmsg attr)) slot))) status pid) w, inl a)
      else
        (set_mq a (mk_mq max_size (mq_maxmsg attr) 0 mode (mq_name (mq w a)) None status pid) w, inr None).

Definition mq_open (name : string) (oflag mode : Z) (attr : mq_attr) (malloc : option Z) (calloc : bool)
    (w : mq_world) : mq_world * (Z + option Z) :=
  if strnlen name MQ_NAME_MAX =? MQ_NAME_MAX then (w, inr (Some ENAMETOOLONG))
  else
    let found := mq_find_named name w in
    let create := mq_create name mode attr malloc calloc w in
    let reuse := (set_mq found (with_status (u32 (mq_status (mq w found) + 1)) (mq w found)) w, inl found) in
    let '(w, r) :=
      if Bits.any oflag O_CREAT then
        if Bits.any oflag O_EXCL then if found =? 0 then create else (w, inr (Some EEXIST))
        else if found =? 0 then create else reuse
      else if found =? 0 then (w, inr (Some ENOENT)) else reuse in
    match r with
    | inl a => (set_mq a (with_status (mq_open_flags oflag (mq_status (mq w a))) (mq w a)) w, inl a)
    | inr e => (w, inr e)
    end.

(** -1 without an error number is [Ret (-1)]. *)
Definition mq_close (mqdes : Z) (w : mq_world) : mq_world * api_result :=
  if mqdes =? 0 then (w, Ret (-1))
  else match mq_get_ptr mqdes w with
  | None => (w, Err EBADF)
  | Some a =>
      let s := mq_status (mq w a) in
      let s := if 0 <? Z.land s MQ_STATUS_REFS_MASK then s - 1 else s in
      let w := set_mq a (with_status s (mq w a)) w in
      let w := if (Z.land s MQ_STATUS_REFS_MASK =? 0) && Bits.any s MQ_STATUS_UNLINK_ON_CLOSE_MASK
               then mq_destroy a w else w in
      (w, Ret 0)
  end.

Definition mq_unlink (name : string) (w : mq_world) : mq_world * api_result :=
  if strnlen name MQ_NAME_MAX =? MQ_NAME_MAX then (w, Err ENAMETOOLONG)
  else
    let a := mq_find_named name w in
    if a =? 0 then (w, Err ENOENT)
    else if Z.land (mq_status (mq w a)) MQ_STATUS_REFS_MASK =? 0 then (mq_destroy a w, Ret 0)
    else (set_mq a (with_status (Bits.set (mq_status (mq w a)) MQ_STATUS_UNLINK_ON_CLOSE_MASK) (mq w a)) w, Ret 0).

Definition mq_discard (mqdes : Z) (w : mq_world) : mq_world :=
  match mq_get_ptr mqdes w with None => w | Some a => mq_destroy a w end.
Definition mq_flush (mqdes : Z) (w : mq_world) : mq_world :=
  match mq_get_ptr mqdes w with
  | None => w
  | Some a => set_mq a (with_msgs (mq_age (mq w a)) (mq_init_table (msgs (mq w a))) (mq w a)) w
  end.

(** ** Sending and receiving *)

Inductive mq_call :=
| MqReceive (msg_len : Z) (abs_timeout : option timespec)
| MqSend (data : list Z) (prio : Z) (abs_timeout : option timespec).
Definition call_timeout (c : mq_call) : option timespec :=
  match c with MqReceive _ ts => ts | MqSend _ _ ts => ts end.

(** A call that has returned (with the message and its priority for a receive),
    or that waits for the mutex or on the condition. *)
Inductive mq_progress :=
| MReturned (r : api_result) (got : option (list Z * Z))
| MLocking (args : trylock_args)
| MWaiting (p : cond_progress).

(** The condition the loop waits on, and the one it signals when it is done. *)
Definition wait_cond (c : mq_call) (a : Z) : Z :=
  match c with MqReceive _ _ => mq_send_cond a | MqSend _ _ _ => mq_recv_cond a end.
Definition done_cond (c : mq_call) (a : Z) : Z :=
  match c with MqReceive _ _ => mq_recv_cond a | MqSend _ _ _ => mq_send_cond a end.

Definition mq_pass (c : mq_call) (q : mq_t) : mq_t * pass (Z * option (list Z * Z)) :=
  match c with
  | MqReceive msg_len _ =>
      let '(q, r) := mq_receive_pass msg_len q in
      (q, match r with
          | PassOk (d, p) => PassOk (Zlen d, Some (d, p)) | PassErr e => PassErr e | PassWait => PassWait end)
  | MqSend data prio _ =>
      let '(q, r) := mq_send_pass data prio q in
      (q, match r with PassOk n => PassOk (n, None) | PassErr e => PassErr e | PassWait => PassWait end)
  end.

(** Leaving the loop: unlock, then signal after a success. *)
Definition mq_finish_ok (c : mq_call) (a size : Z) (got : option (list Z * Z)) (w : mq_world)
    : mq_world * mq_progress :=
  let x := (pthread_mutex_unlock (mq_mutex a) (mw w)).1 in
  let x := (pthread_cond_signal (done_cond c a) x).1 in
  (mw_with x w, MReturned (Ret size) got).
Definition mq_finish_err (a e : Z) (w : mq_world) : mq_world * mq_progress :=
  let '(x, r) := pthread_mutex_unlock (mq_mutex a) (mw w) in
  (mw_with x w, MReturned (Err match r with Err e' => e' | Ret _ => e end) None).

(** One pass of the loop: it ends, or the thread waits on the condition. *)
Definition mq_loop (c : mq_call) (a : Z) (w : mq_world) : mq_world * mq_progress :=
  let '(q, r) := mq_pass c (mq w a) in
  let w := set_mq a q w in
  match r with
  | PassOk (size, got) => mq_finish_ok c a size got w
  | PassErr e => mq_finish_err a e w
  | PassWait =>
      match pthread_cond_timedwait (wait_cond c a) (mq_mutex a) (call_timeout c) (mw w) with
      | (x, CReturned (Err e)) => mq_finish_err a e (mw_with x w)
      | (x, p) => (mw_with x w, MWaiting p)
      end
  end.

Definition mq_start (c : mq_call) (a : Z) (w : mq_world) : mq_world * mq_progress :=
  match pthread_mutex_lock (mq_mutex a) (mw w) with
  | (x, Waiting args) => (mw_with x w, MLocking args)
  | (x, Returned _) => mq_loop c a (mw_with x w)
  end.

Definition mq_timedreceive (mqdes msg_len : Z) (abs_timeout : option timespec) (w : mq_world)
    : mq_world * mq_progress :=
  match mq_get_ptr mqdes w with
  | None => (w, MReturned (Err EBADF) None)
  | Some a => mq_start (MqReceive msg_len abs_timeout) a w
  end.
Definition mq_timedsend (mqdes : Z) (data : list Z) (msg_prio : Z) (abs_timeout : option timespec)
    (w : mq_world) : mq_world * mq_progress :=
  match mq_get_ptr mqdes w with
  | None => (w, MReturned (Err EBADF) None)
  | Some a =>
      if negb (Bits.any (mq_status (mq w a)) MQ_STATUS_RDWR_MASK) then (w, MReturned (Err EACCES) None)
      else if mq_max_size (mq w a) <? Zlen data then (w, MReturned (Err EMSGSIZE) None)
      else mq_start (MqSend data msg_prio abs_timeout) a w
  end.
Definition mq_receive (mqdes msg_len : Z) : mq_world -> mq_world * mq_progress :=
  mq_timedreceive mqdes msg_len None.
Definition mq_send (mqdes : Z) (data : list Z) (msg_prio : Z) : mq_world -> mq_world * mq_progress :=
  mq_timedsend mqdes data msg_prio None.
Definition mq_tryreceive (mqdes msg_len : Z) : mq_world -> mq_world * mq_progress :=
  mq_timedreceive mqdes msg_len (Some (mk_timespec 0 0)).
Definition mq_trysend (mqdes : Z) (data : list Z) (msg_prio : Z) : mq_world -> mq_world * mq_progress :=
  mq_timedsend mqdes data msg_prio (Some (mk_timespec 0 0)).

(** The rest of a call when its thread runs again. *)
Definition mq_resume (c : mq_call) (a : Z) (p : mq_progress) (w : mq_world) : mq_world * mq_progress :=
  match p with
  | MReturned r got => (w, p)
  | MLocking args =>
      match pthread_mutex_resume CallLock args (mw w) with
      | (x, Waiting args) => (mw_with x w, MLocking args)
      | (x, Returned _) => mq_loop c a (mw_with x w)
      end
  | MWaiting cp =>
      match cond_wait_resume cp (mw w) with
      | (x, CReturned (Err e)) => mq_finish_err a e (mw_with x w)
      | (x, CReturned (Ret _)) => mq_loop c a (mw_with x w)
      | (x, cp) => (mw_with x w, MWaiting cp)
      end
  end.
End Mqueue.

(** ** The message table as a priority queue *)

(** A used slot, and what its messages must satisfy for the search to see them. *)
Definition used (l : list message) (i : Z) : Prop := 0 <= i < Zlen l /\ msg_size (Zget l i) <> 0.
Definition visible (l : list message) : Prop :=
  forall i, used l i -> 0 <= msg_prio (Zget l i) /\ msg_age (Zget l i) < INT_MAX.

(** Best slot among the first [n]. *)
Definition oldest_until (l : list message) (n : Z) (s : Z * Z * Z) : Prop :=
  let '(m, p, a) := s in
  (forall i, used l i -> i < n ->
     msg_prio (Zget l i) < p \/ (msg_prio (Zget l i) = p /\ a <= msg_age (Zget l i))) /\
  ((m = -1 /\ p = 0 /\ a = INT_MAX) \/
   (used l m /\ m < n /\ p = msg_prio (Zget l m) /\ a = msg_age (Zget l m))).

Lemma find_oldest_highest_spec l : visible l ->
  let m := mq_find_oldest_highest l in
  (m = -1 /\ forall i, ~ used l i) \/
  (used l m /\ forall i, used l i ->
     msg_prio (Zget l i) < msg_prio (Zget l m) \/
     (msg_prio (Zget l i) = msg_prio (Zget l m) /\ msg_age (Zget l m) <= msg_age (Zget l i))).
Proof.
  intros Hvis. unfold mq_find_oldest_highest.
  assert (H : oldest_until l (Zlen l) (for_range 0 (Zlen l) (oldest_turn l) (-1, 0, INT_MAX))).
  { apply (for_range_ind (oldest_until l)); [apply Zlen_nonneg|split; [intros i [? _]; lia|auto]|].
    intros n [[m p] a] Hn [Hall Hm]. unfold oldest_turn.
    assert (Hnext : forall i, used l i -> i < n + 1 -> i < n \/ i = n) by lia.
    destruct (Z.eqb_spec (msg_size (Zget l n)) 0) as [Hfree|Hused]; cbn [negb].
    - split.
      + intros i Hu Hi. destruct (Hnext i Hu Hi) as [| ->]; [now apply Hall|]. destruct Hu. done.
      + destruct Hm as [?|(? & ? & ? & ?)]; [auto|right; split_and!; try done; lia].
    - assert (Hun : used l n) by (split; [lia|done]). destruct (Hvis n Hun) as [Hpn Han].
      destruct (Z.ltb_spec p (msg_prio (Zget l n))); [|destruct (Z.eqb_spec (msg_prio (Zget l n)) p);
        [destruct (Z.ltb_spec (msg_age (Zget l n)) a)|]].
      + split; [|right; split_and!; try done; lia]. intros i Hu Hi.
        destruct (Hnext i Hu Hi) as [Hlt| ->]; [|lia]. destruct (Hall i Hu Hlt); lia.
      + split; [|right; split_and!; try done; lia]. intros i Hu Hi.
        destruct (Hnext i Hu Hi) as [Hlt| ->]; [|lia]. destruct (Hall i Hu Hlt); lia.
      + split.
        * intros i Hu Hi. destruct (Hnext i Hu Hi) as [Hlt| ->]; [now apply Hall|]. lia.
        * destruct Hm as [?|(? & ? & ? & ?)]; [auto|right; split_and!; try done; lia].
      + split.
        * intros i Hu Hi. destruct (Hnext i Hu Hi) as [Hlt| ->]; [now apply Hall|]. lia.
        * destruct Hm as [?|(? & ? & ? & ?)]; [auto|right; split_and!; try done; lia]. }
  destruct (for_range _ _ _ _) as [[m p] a]. cbn [fst]. destruct H as [Hall [(-> & -> & ->) | (Hu & _ & -> & ->)]].
  - left. split; [done|]. intros i Hu. destruct (Hvis i Hu) as [Hp Ha].
    destruct (Hall i Hu ltac:(apply Hu)); lia.
  - right. split; [done|]. intros i Hi. apply Hall; [done|apply Hi].
Qed.

Lemma find_free_loop_spec l i :
  (find_free_loop l i = -1 /\ forall j, 0 <= j < Zlen l -> msg_size (Zget l j) <> 0) \/
  (i <= find_free_loop l i < i + Zlen l /\ msg_size (Zget l (find_free_loop l i - i)) = 0).
Proof.
  revert i. induction l as [|x l IH]; intros i; simpl.
  - left. split; [done|]. intros j Hj. change (Zlen (@nil message)) with 0 in Hj. lia.
  - rewrite Zlen_cons. destruct (Z.eqb_spec (msg_size x) 0) as [E|E].
    + right. rewrite Z.sub_diag. split; [pose proof (Zlen_nonneg l); lia|exact E].
    + assert (Hget : forall j, 0 <= j -> Zget (x :: l) (j + 1) = Zget l j)
        by (intros j Hj; unfold Zget; now replace (Z.to_nat (j + 1)) with (S (Z.to_nat j)) by lia).
      destruct (IH (i + 1)) as [[Hm H]|[H1 H2]]; [left|right].
      * split; [exact Hm|]. intros j Hj. destruct (decide (j = 0)) as [->|]; [exact E|].
        replace j with (j - 1 + 1) by lia. rewrite Hget by lia. apply H. lia.
      * split; [lia|]. replace (find_free_loop l (i + 1) - i) with (find_free_loop l (i + 1) - (i + 1) + 1) by lia.
        now rewrite Hget by lia.
Qed.
Lemma find_free_msg_spec l :
  (mq_find_free_msg l = -1 /\ forall j, 0 <= j < Zlen l -> msg_size (Zget l j) <> 0) \/
  (0 <= mq_find_free_msg l < Zlen l /\ msg_size (Zget l (mq_find_free_msg l)) = 0).
Proof.
  unfold mq_find_free_msg. destruct (find_free_loop_spec l 0) as [?|[? H]]; [auto|right].
  rewrite Z.sub_0_r in H. split; [lia|done].
Qed.

(** The abstract queue: the messages (priority and bytes) in the order they
    were sent. *)
Definition queue := list (Z * list Z).
Definition enqueue (p : Z) (d : list Z) (Q : queue) : queue := Q ++ [(p, d)].
(** Taking the first of the messages of highest priority. *)
Inductive dequeue : queue -> Z -> list Z -> queue -> Prop :=
| dequeue_intro Q1 p d Q2 :
    (forall p' d', (p', d') ∈ Q1 -> p' < p) -> (forall p' d', (p', d') ∈ Q2 -> p' <= p) ->
    dequeue (Q1 ++ (p, d) :: Q2) p d (Q1 ++ Q2).

Definition slot_msg (l : list message) (i : Z) : Z * list Z :=
  (msg_prio (Zget l i), take (Z.to_nat (msg_size (Zget l i))) (msg_data (Zget l i))).

(** [idx] lists the used slots of [l] from the oldest to the youngest. *)
Record age_order (l : list message) (idx : list Z) : Prop := {
  ao_used : forall i, i ∈ idx <-> used l i;
  ao_sorted : forall j1 j2 i1 i2, idx !! j1 = Some i1 -> idx !! j2 = Some i2 -> (j1 < j2)%nat ->
    msg_age (Zget l i1) < msg_age (Zget l i2);
}.

(** A table that represents the queue [Q]: the running age is above every
    message's and has not overflowed. *)
Record mq_repr (q : mq_t) (Q : queue) : Prop := {
  mr_age : 0 <= mq_age q < INT_MAX;
  mr_msgs : forall i, used (msgs q) i ->
    0 <= msg_prio (Zget (msgs q) i) /\ 0 <= msg_age (Zget (msgs q) i) < mq_age q /\
    0 < msg_size (Zget (msgs q) i) < 2 ^ 31 /\
    msg_size (Zget (msgs q) i) <= Zlen (msg_data (Zget (msgs q) i));
  mr_order : exists idx, age_order (msgs q) idx /\ Q = slot_msg (msgs q) <$> idx;
}.

Lemma repr_visible q Q : mq_repr q Q -> visible (msgs q).
Proof. intros [Ha Hm _] i Hi. destruct (Hm i Hi) as (? & ? & _). lia. Qed.

Lemma msgs_with a l q : msgs (with_msgs a l q) = l.
Proof. reflexivity. Qed.
Lemma used_set l i m j : 0 <= i < Zlen l -> 0 <= j ->
  used (Zset l i m) j <-> if decide (i = j) then msg_size m <> 0 else used l j.
Proof.
  intros Hi Hj. unfold used. rewrite Zlen_Zset, Zget_Zset by lia. case_decide; [subst; intuition lia|done].
Qed.
Lemma slot_msg_set l i m j : 0 <= i < Zlen l -> 0 <= j -> i <> j -> slot_msg (Zset l i m) j = slot_msg l j.
Proof. intros. unfold slot_msg. now rewrite Zget_Zset_ne. Qed.

Lemma age_order_distinct l idx j1 j2 i : age_order l idx ->
  idx !! j1 = Some i -> idx !! j2 = Some i -> j1 = j2.
Proof.
  intros [_ Hs] H1 H2. destruct (Nat.lt_trichotomy j1 j2) as [Hlt|[?|Hlt]]; [|done|].
  - specialize (Hs _ _ _ _ H1 H2 Hlt). lia.
  - specialize (Hs _ _ _ _ H2 H1 Hlt). lia.
Qed.

(** Filling a free slot with the youngest message. *)
Lemma age_order_snoc l idx i m : age_order l idx -> 0 <= i < Zlen l -> msg_size (Zget l i) = 0 ->
  msg_size m <> 0 -> (forall j, used l j -> msg_age (Zget l j) < msg_age m) ->
  age_order (Zset l i m) (idx ++ [i]) /\
  slot_msg (Zset l i m) <$> (idx ++ [i])
  = (slot_msg l <$> idx) ++ [(msg_prio m, take (Z.to_nat (msg_size m)) (msg_data m))].
Proof.
  intros [Hu Hs] Hi Hfree Hm Hage.
  assert (Hne : forall j, j ∈ idx -> 0 <= j /\ i <> j).
  { intros j Hj%Hu. split; [apply Hj|]. intros ->. destruct Hj. done. }
  split; [split|].
  - intros j. rewrite elem_of_app, list_elem_of_singleton. split.
    + intros [Hj| ->]; [|rewrite used_set by lia; now rewrite decide_True].
      destruct (Hne j Hj). rewrite used_set by lia. rewrite decide_False by done. now apply Hu.
    + intros Hj. assert (0 <= j) by apply Hj. rewrite used_set in Hj by lia.
      destruct (decide (i = j)) as [->|]; [auto|left; now apply Hu].
  - intros j1 j2 i1 i2 H1 H2 Hlt.
    assert (Hl2 : (j2 < length (idx ++ [i]))%nat) by (apply lookup_lt_is_Some; eauto).
    rewrite length_app in Hl2. simpl in Hl2.
    rewrite lookup_app_l in H1 by lia. assert (H1' := list_elem_of_lookup_2 _ _ _ H1).
    destruct (Hne i1 H1'). rewrite (Zget_Zset_ne l i i1) by done.
    destruct (decide (j2 < length idx)%nat).
    + rewrite lookup_app_l in H2 by lia. assert (H2' := list_elem_of_lookup_2 _ _ _ H2).
      destruct (Hne i2 H2'). rewrite (Zget_Zset_ne l i i2) by done. now apply (Hs j1 j2).
    + replace j2 with (length idx) in H2 by lia. rewrite list_lookup_middle in H2 by done.
      injection H2 as <-. rewrite Zget_Zset_eq by lia. apply Hage. now apply Hu.
  - rewrite fmap_app. simpl. f_equal.
    + apply list_fmap_ext. intros j x Hx. assert (Hx' := list_elem_of_lookup_2 _ _ _ Hx).
      destruct (Hne x Hx'). now apply slot_msg_set.
    + unfold slot_msg. now rewrite Zget_Zset_eq by lia.
Qed.

(** Freeing the slot of one message. *)
Lemma age_order_remove l idx1 i idx2 m : age_order l (idx1 ++ i :: idx2) -> msg_size m = 0 ->
  age_order (Zset l i m) (idx1 ++ idx2) /\
  slot_msg (Zset l i m) <$> (idx1 ++ idx2) = slot_msg l <$> (idx1 ++ idx2).
Proof.
  intros Hao Hm. pose proof Hao as [Hu Hs].
  assert (Hi : used l i) by (apply Hu; apply elem_of_app; right; apply list_elem_of_here).
  assert (Hmid : (idx1 ++ i :: idx2) !! length idx1 = Some i) by now apply list_lookup_middle.
  (* positions in the shorter list *)
  assert (Hpos : forall j x, (idx1 ++ idx2) !! j = Some x ->
    (idx1 ++ i :: idx2) !! (if decide (j < length idx1)%nat then j else S j) = Some x).
  { intros j x Hx. case_decide as Hj.
    - rewrite lookup_app_l in Hx |- * by lia. done.
    - rewrite lookup_app_r in Hx |- * by lia.
      replace (S j - length idx1)%nat with (S (j - length idx1)) by lia. done. }
  assert (Hne : forall x, x ∈ idx1 ++ idx2 -> used l x /\ i <> x).
  { intros x [j Hj]%list_elem_of_lookup_1. apply Hpos in Hj. split.
    - apply Hu. eapply list_elem_of_lookup_2, Hj.
    - intros <-. apply (age_order_distinct _ _ _ _ _ Hao Hmid) in Hj. case_decide; lia. }
  split; [split|].
  - intros x. split.
    + intros Hx. destruct (Hne x Hx) as [Hux Hix]. rewrite used_set by (apply Hi || apply Hux).
      now rewrite decide_False.
    + intros Hx. assert (0 <= x) by apply Hx. rewrite used_set in Hx by (apply Hi || done).
      case_decide as E; [congruence|]. apply Hu in Hx. apply elem_of_app. apply elem_of_app in Hx as [?|Hx]; [auto|].
      apply elem_of_cons in Hx as [->|?]; [done|auto].
  - intros j1 j2 i1 i2 H1 H2 Hlt.
    destruct (Hne i1 (list_elem_of_lookup_2 _ _ _ H1)) as [Hu1 ?].
    destruct (Hne i2 (list_elem_of_lookup_2 _ _ _ H2)) as [Hu2 ?].
    rewrite !Zget_Zset_ne by (apply Hu1 || apply Hu2 || done).
    apply Hpos in H1, H2. apply (Hs _ _ _ _ H1 H2). repeat case_decide; lia.
  - apply list_fmap_ext. intros j x Hx. destruct (Hne x (list_elem_of_lookup_2 _ _ _ Hx)) as [Hux ?].
    apply slot_msg_set; [apply Hi|apply Hux|done].
Qed.

(** C6: One pass of the send loop refines the abstract queue, for a message of at
    least one byte that is no longer than the slots (longer ones are refused before
    the loop), a priority below 2^31 (larger ones are accepted and never received:
    [mq_large_priority_lost]) and fewer than 2^31 - 2 messages sent before, since
    the age of a message is an int: on a table that represents [Q], the message is
    appended to [Q] when a slot is free and the result is its length (the comment
    in mqueue.c documents zero: [mq_send_returns_length]); when the table is full
    and the queue is not in loop mode the message is refused (EAGAIN or a wait) and
    the table is unchanged. *)
Theorem mq_send_refines q Q data prio : mq_repr q Q -> mq_age q + 1 < INT_MAX ->
  0 <= prio < 2 ^ 31 -> 0 < Zlen data < 2 ^ 31 ->
  (forall i, 0 <= i < Zlen (msgs q) -> Zlen data <= Zlen (msg_data (Zget (msgs q) i))) ->
  ((exists i, 0 <= i < Zlen (msgs q) /\ msg_size (Zget (msgs q) i) = 0) ->
   (mq_send_pass data prio q).2 = PassOk (Zlen data) /\
   mq_repr (mq_send_pass data prio q).1 (enqueue prio data Q)) /\
  ((forall i, 0 <= i < Zlen (msgs q) -> msg_size (Zget (msgs q) i) <> 0) ->
   Bits.any (mq_status q) MQ_STATUS_LOOP_MASK = false ->
   mq_send_pass data prio q
   = (q, if Bits.any (mq_status q) MQ_STATUS_NONBLOCK_MASK then PassErr EAGAIN else PassWait)).
Proof.
  intros Hr Hage Hp Hd Hcap. unfold mq_send_pass.
  destruct (find_free_msg_spec (msgs q)) as [[E Hfull]|[Hi Hfree]].
  - split; [intros (i & Hi & Hs); now destruct (Hfull i Hi)|]. intros _ Hl.
    rewrite E, Hl. cbn [negb]. rewrite Z.eqb_refl. cbn [negb].
    change (0 <? 0) with false. cbn iota beta. now destruct (Bits.any _ MQ_STATUS_NONBLOCK_MASK).
  - split; [|intros H; now destruct (H _ Hi)]. intros _.
    set (i := mq_find_free_msg (msgs q)) in *. destruct (Z.eqb_spec i (-1)); [lia|]. cbn [negb].
    destruct (Z.ltb_spec 0 (Zlen data)); [|lia]. split; [done|]. cbn [fst].
    destruct Hr as [Ha Hm (idx & Hao & ->)].
    set (m := mk_message _ _ _ _).
    assert (Hmp : msg_prio m = prio) by (apply s32_id; lia).
    assert (Hma : msg_age m = mq_age q) by (apply s32_id; unfold INT_MAX in *; lia).
    destruct (age_order_snoc (msgs q) idx i m Hao Hi Hfree) as [Hao' HQ];
      [cbn; lia|intros j Hj; rewrite Hma; now apply Hm|].
    split; rewrite ?msgs_with; cbn [mq_age with_msgs].
    + rewrite u32_id by (unfold INT_MAX in *; lia). lia.
    + intros j Hj. assert (0 <= j) by apply Hj. rewrite u32_id by (unfold INT_MAX in *; lia).
      rewrite used_set in Hj by lia. rewrite Zget_Zset by lia. case_decide as Hij.
      * rewrite Hmp, Hma. cbn [msg_size msg_data m]. subst j.
        split_and!; try lia. unfold store_data. rewrite Zlen_app. pose proof (Zlen_nonneg (drop (length data) (msg_data (Zget (msgs q) i)))). lia.
      * destruct (Hm j Hj) as (?&?&?&?). split_and!; lia.
    + exists (idx ++ [i]). split; [exact Hao'|]. unfold enqueue. rewrite HQ, Hmp. do 3 f_equal.
        cbn [msg_size msg_data m]. unfold store_data, Zlen. rewrite Nat2Z.id. now rewrite take_app_length.
Qed.

(** The slot the search returns is the first of highest priority in age order. *)
Lemma dequeue_best l idx1 i idx2 : age_order l (idx1 ++ i :: idx2) ->
  (forall j, used l j -> msg_prio (Zget l j) < msg_prio (Zget l i) \/
     (msg_prio (Zget l j) = msg_prio (Zget l i) /\ msg_age (Zget l i) <= msg_age (Zget l j))) ->
  dequeue (slot_msg l <$> idx1 ++ i :: idx2) (msg_prio (Zget l i))
    (take (Z.to_nat (msg_size (Zget l i))) (msg_data (Zget l i))) (slot_msg l <$> idx1 ++ idx2).
Proof.
  intros [Hu Hs] Hbest. rewrite !fmap_app, fmap_cons. apply dequeue_intro.
  - intros p d (j & E & Hj)%list_elem_of_fmap. injection E as -> _.
    assert (Huj : used l j) by (apply Hu, elem_of_app; auto).
    destruct (Hbest j Huj) as [|[_ Ha]]; [done|]. exfalso.
    apply list_elem_of_lookup_1 in Hj as [n Hn]. assert (Hlt := lookup_lt_Some _ _ _ Hn).
    assert (H1 : (idx1 ++ i :: idx2) !! n = Some j) by now rewrite lookup_app_l.
    assert (H2 : (idx1 ++ i :: idx2) !! length idx1 = Some i) by now apply list_lookup_middle.
    specialize (Hs _ _ _ _ H1 H2 Hlt). lia.
  - intros p d (j & E & Hj)%list_elem_of_fmap. injection E as -> _.
    assert (Huj : used l j) by (apply Hu, elem_of_app; right; now apply list_elem_of_further).
    destruct (Hbest j Huj); lia.
Qed.

(** C7: One pass of the receive loop refines the abstract queue: it removes the
    oldest of the messages of highest priority and returns its bytes and priority;
    a buffer smaller than that message gives EMSGSIZE (the comments document
    EMSGSIZE for a buffer smaller than the message size of the queue; the code
    compares with the message found: [mq_receive_small_buffer]), an empty queue
    EAGAIN or a wait, and then the queue is unchanged. *)
Theorem mq_receive_refines q Q msg_len : mq_repr q Q -> 0 <= msg_len ->
  match mq_receive_pass msg_len q with
  | (q', PassOk (d, p)) => exists Q', dequeue Q p d Q' /\ mq_repr q' Q' /\ Zlen d <= msg_len
  | (q', PassErr e) => q' = q /\
      ((e = EAGAIN /\ Q = []) \/
       (e = EMSGSIZE /\ exists p d Q', dequeue Q p d Q' /\ msg_len < Zlen d))
  | (q', PassWait) => q' = q /\ Q = []
  end.
Proof.
  intros Hr Hlen. pose proof (repr_visible q Q Hr) as Hvis. destruct Hr as [Ha Hm (idx & Hao & ->)].
  unfold mq_receive_pass. pose proof (find_oldest_highest_spec (msgs q) Hvis) as Hspec.
  cbv zeta in Hspec |- *. revert Hspec. generalize (mq_find_oldest_highest (msgs q)).
  intros i [[E Hno]|[Hu Hbest]].
  - assert (Hnil : idx = []).
    { destruct idx as [|x idx]; [done|]. destruct (Hno x). apply Hao, list_elem_of_here. }
    subst idx. rewrite E, Z.eqb_refl. cbn [negb]. destruct (Bits.any _ _); split; auto.
  - destruct (Z.eqb_spec i (-1)); [destruct Hu; lia|]. cbn [negb].
    destruct (Hm i Hu) as (Hp & Hag & Hsz & Hdl).
    destruct (list_elem_of_split idx i (proj2 (ao_used _ _ Hao i) Hu)) as (idx1 & idx2 & ->).
    pose proof (dequeue_best (msgs q) idx1 i idx2 Hao Hbest) as Hdq.
    assert (Hzl : Zlen (take (Z.to_nat (msg_size (Zget (msgs q) i))) (msg_data (Zget (msgs q) i)))
                  = msg_size (Zget (msgs q) i)).
    { unfold Zlen in *. rewrite length_take. lia. }
    rewrite u32_id by lia. destruct (Z.ltb_spec msg_len (msg_size (Zget (msgs q) i))).
    + split; [done|]. right. split; [done|]. eexists _, _, _. split; [exact Hdq|lia].
    + eexists. split; [exact Hdq|]. split; [|lia].
      set (m := mk_message _ 0 _ _). destruct (age_order_remove (msgs q) idx1 i idx2 m Hao eq_refl) as [Hao' HQ].
      split; rewrite ?msgs_with; cbn [mq_age with_msgs]; [lia| |].
      * intros j Hj. assert (0 <= j) by apply Hj. rewrite used_set in Hj by (apply Hu || done).
        case_decide as Hij; [done|]. rewrite Zget_Zset_ne by done. now apply Hm.
      * exists (idx1 ++ idx2). split; [exact Hao'|]. now rewrite HQ.
Qed.

(** ** Loop mode, empty messages and large priorities *)

(** In loop mode a send to a full queue succeeds, but the message it discards
    is the one a receive would have returned next, the oldest of the highest
    priority, and not the oldest message. *)
Theorem mq_loop_discards_most_urgent q Q data prio : mq_repr q Q -> mq_age q + 1 < INT_MAX ->
  0 <= prio < 2 ^ 31 -> 0 < Zlen data < 2 ^ 31 -> Q <> [] ->
  (forall i, 0 <= i < Zlen (msgs q) -> msg_size (Zget (msgs q) i) <> 0) ->
  (forall i, 0 <= i < Zlen (msgs q) -> Zlen data <= Zlen (msg_data (Zget (msgs q) i))) ->
  Bits.any (mq_status q) MQ_STATUS_LOOP_MASK = true ->
  (mq_send_pass data prio q).2 = PassOk (Zlen data) /\
  exists p d Q', dequeue Q p d Q' /\ mq_repr (mq_send_pass data prio q).1 (enqueue prio data Q').
Proof.
  intros Hr Hage Hp Hd Hne Hfull Hcap Hl. pose proof (repr_visible q Q Hr) as Hvis.
  unfold mq_send_pass. destruct (find_free_msg_spec (msgs q)) as [[E _]|[Hi Hf]]; [|now destruct (Hfull _ Hi)].
  rewrite E, Hl, Z.eqb_refl. cbn [negb]. destruct (Z.ltb_spec 0 (Zlen data)); [|lia].
  cbn [fst snd]. split; [done|]. destruct Hr as [Ha Hm (idx & Hao & ->)].
  pose proof (find_oldest_highest_spec (msgs q) Hvis) as Hspec. cbv zeta in Hspec. revert Hspec.
  generalize (mq_find_oldest_highest (msgs q)). intros i [[_ Hno]|[Hu Hbest]].
  { destruct idx as [|x idx]; [done|]. destruct (Hno x). apply Hao, list_elem_of_here. }
  destruct (list_elem_of_split idx i (proj2 (ao_used _ _ Hao i) Hu)) as (idx1 & idx2 & ->).
  eexists _, _, _. split; [exact (dequeue_best _ _ _ _ Hao Hbest)|].
  set (m := mk_message (s32 prio) _ _ _).
  assert (Hmp : msg_prio m = prio) by (apply s32_id; lia).
  assert (Hma : msg_age m = mq_age q) by (apply s32_id; unfold INT_MAX in *; lia).
  assert (Hi : 0 <= i < Zlen (msgs q)) by apply Hu.
  set (m0 := mk_message 0 0 0 []).
  destruct (age_order_remove (msgs q) idx1 i idx2 m0 Hao eq_refl) as [Hao0 HQ0].
  destruct (age_order_snoc (Zset (msgs q) i m0) (idx1 ++ idx2) i m Hao0) as [Hao' HQ'].
  { now rewrite Zlen_Zset. } { now rewrite Zget_Zset_eq. } { cbn; lia. }
  { intros j Hj. assert (0 <= j) by apply Hj. rewrite used_set in Hj by done. case_decide; [done|].
    rewrite Zget_Zset_ne, Hma by done. now apply Hm. }
  rewrite Zset_Zset in Hao', HQ'.
  split; rewrite ?msgs_with; cbn [mq_age with_msgs].
  - rewrite u32_id by (unfold INT_MAX in *; lia). lia.
  - intros j Hj. assert (0 <= j) by apply Hj. rewrite u32_id by (unfold INT_MAX in *; lia).
    rewrite used_set in Hj by lia. rewrite Zget_Zset by lia. case_decide as Hij.
    + rewrite Hmp, Hma. cbn [msg_size msg_data m]. split_and!; try lia. unfold store_data. rewrite Zlen_app.
      pose proof (Zlen_nonneg (drop (length data) (msg_data (Zget (msgs q) i)))). lia.
    + destruct (Hm j Hj) as (?&?&?&?). split_and!; lia.
  - exists ((idx1 ++ idx2) ++ [i]). split; [exact Hao'|]. rewrite HQ', HQ0, Hmp. unfold enqueue. do 3 f_equal.
    cbn [msg_size msg_data m]. unfold store_data, Zlen. rewrite Nat2Z.id. now rewrite take_app_length.
Qed.

Lemma find_oldest_invisible l : (forall i, used l i -> msg_prio (Zget l i) < 0) ->
  mq_find_oldest_highest l = -1.
Proof.
  intros Hneg. unfold mq_find_oldest_highest.
  assert (H : for_range 0 (Zlen l) (oldest_turn l) (-1, 0, INT_MAX) = (-1, 0, INT_MAX)).
  { apply (for_range_ind (fun _ s => s = (-1, 0, INT_MAX))); [apply Zlen_nonneg|done|].
    intros n s Hn ->. unfold oldest_turn. destruct (Z.eqb_spec (msg_size (Zget l n)) 0); [done|]. cbn [negb].
    specialize (Hneg n ltac:(split; [lia|done])).
    destruct (Z.ltb_spec 0 (msg_prio (Zget l n))); [lia|]. destruct (Z.eqb_spec (msg_prio (Zget l n)) 0); [lia|done]. }
  now rewrite H.
Qed.

(** A message whose priority does not fit an [int] (the priority is not
    checked) is accepted but can never be received: sent to an empty queue, it
    occupies a slot while every receive finds the queue empty. *)
Theorem mq_large_priority_lost q data prio msg_len : mq_repr q [] ->
  2 ^ 31 <= prio < 2 ^ 32 -> 0 < Zlen data ->
  (exists i, 0 <= i < Zlen (msgs q) /\ msg_size (Zget (msgs q) i) = 0) ->
  let q' := (mq_send_pass data prio q).1 in
  (mq_send_pass data prio q).2 = PassOk (Zlen data) /\ (exists i, used (msgs q') i) /\
  mq_receive_pass msg_len q'
  = (q', if Bits.any (mq_status q) MQ_STATUS_NONBLOCK_MASK then PassErr EAGAIN else PassWait).
Proof.
  intros [Ha Hm (idx & Hao & Hnil)] Hp Hd Hfree. symmetry in Hnil. apply fmap_nil_inv in Hnil as ->.
  unfold mq_send_pass. destruct (find_free_msg_spec (msgs q)) as [[E Hfull]|[Hi Hf]].
  { destruct Hfree as (i & Hi & Hs). now destruct (Hfull i Hi). }
  revert Hi Hf. generalize (mq_find_free_msg (msgs q)). intros i Hi Hf. cbv zeta.
  destruct (Z.eqb_spec i (-1)); [lia|]. cbn [negb]. destruct (Z.ltb_spec 0 (Zlen data)); [|lia]. cbn [fst snd].
  split; [done|]. rewrite msgs_with. split.
  - exists i. rewrite used_set by lia. rewrite decide_True by done. cbn. lia.
  - unfold mq_receive_pass. rewrite msgs_with. rewrite find_oldest_invisible.
    + rewrite Z.eqb_refl. cbn [negb mq_status with_msgs]. now destruct (Bits.any _ _).
    + intros j Hj. assert (0 <= j) by apply Hj. rewrite used_set in Hj by lia. rewrite Zget_Zset by lia.
      case_decide; [|apply Hao in Hj; inversion Hj]. cbn [msg_prio]. unfold s32.
      assert (E : (prio + 2 ^ 31) mod 2 ^ 32 = prio - 2 ^ 31)
        by (symmetry; apply Z.mod_unique_pos with 1; lia). lia.
Qed.

(** An empty message is never sent: the call takes a free slot for a full
    queue, so it fails with EAGAIN or waits for a receiver, also when every slot is
    free. *)
Theorem mq_empty_message_waits q prio :
  mq_send_pass [] prio q
  = (q, if Bits.any (mq_status q) MQ_STATUS_NONBLOCK_MASK then PassErr EAGAIN else PassWait).
Proof.
  unfold mq_send_pass. change (Zlen (@nil Z)) with 0.
  destruct (negb (mq_find_free_msg (msgs q) =? -1)); [|destruct (Bits.any (mq_status q) MQ_STATUS_LOOP_MASK)];
    change (0 <? 0) with false; cbn iota beta; now destruct (Bits.any _ MQ_STATUS_NONBLOCK_MASK).
Qed.

(** ** Examples *)

Definition mq_slot (prio size age : Z) (d : list Z) : message := mk_message prio size age d.
Definition mq_example (status age : Z) (l : list message) : mq_t := mk_mq 4 2 age 0 "q" (Some l) status 1.
Definition mq_example0 : mq_t := mq_example 1 0 (replicate 2 (mq_slot 0 0 0 [0;0;0;0])).
Definition mq_example2 (status : Z) : mq_t :=
  mq_example status 2 [mq_slot 1 2 0 [65;66;0;0]; mq_slot 5 1 1 [67;0;0;0]].

Lemma two_slots (P : Z -> Prop) : P 0 -> P 1 -> forall i, 0 <= i < 2 -> P i.
Proof. intros H0 H1 i Hi. assert (i = 0 \/ i = 1) as [-> | ->] by lia; done. Qed.

Lemma mq_example0_repr : mq_repr mq_example0 [].
Proof.
  assert (Hno : forall i, ~ used (msgs mq_example0) i).
  { intros i [Hi H]. revert H. refine (two_slots (fun i => ~ (msg_size (Zget (msgs mq_example0) i) <> 0)) _ _ i Hi);
      vm_compute; congruence. }
  split; [vm_compute; intuition congruence|intros i Hi; now destruct (Hno i)|].
  exists []. split; [|done]. split; [|done]. intros i. split; [intros H; inversion H|intros H; now destruct (Hno i)].
Qed.
Lemma mq_example2_repr status : mq_repr (mq_example2 status) [(1, [65;66]); (5, [67])].
Proof.
  split; [vm_compute; intuition congruence| |].
  - intros i [Hi _]. revert i Hi. refine (two_slots _ _ _); vm_compute; intuition congruence.
  - exists [0; 1]. split; [|done]. split.
    + intros i. split.
      * intros [->|[->|H]%elem_of_cons]%elem_of_cons; [split; vm_compute; intuition congruence..|inversion H].
      * intros [Hi _]. change (0 <= i < 2) in Hi. assert (i = 0 \/ i = 1) as [-> | ->] by lia; [left|right; left].
    + intros [|[|j1]] [|[|j2]] i1 i2 H1 H2 Hlt; simpl in *; try done; try lia.
      injection H1 as <-. injection H2 as <-. reflexivity.
Qed.

Lemma mq_send_refines_witness : mq_repr (mq_send_pass [72; 73] 7 mq_example0).1 (enqueue 7 [72; 73] []).
Proof.
  refine (proj2 (proj1 (mq_send_refines mq_example0 [] [72; 73] 7 mq_example0_repr _ _ _ _) _)).
  - vm_compute. reflexivity.
  - vm_compute. intuition congruence.
  - vm_compute. intuition congruence.
  - refine (two_slots _ _ _); vm_compute; congruence.
  - exists 0. vm_compute. intuition congruence.
Defined.

Lemma mq_receive_refines_witness :
  (mq_receive_pass 4 (mq_example2 1)).2 = PassOk ([67], 5) /\
  exists Q', dequeue [(1, [65;66]); (5, [67])] 5 [67] Q'.
Proof.
  pose proof (mq_receive_refines (mq_example2 1) _ 4 (mq_example2_repr 1) ltac:(lia)) as H.
  assert (E2 : (mq_receive_pass 4 (mq_example2 1)).2 = PassOk ([67], 5)) by reflexivity.
  split; [exact E2|]. destruct (mq_receive_pass 4 (mq_example2 1)) as [q' r]. cbn [snd] in E2. subst r.
  destruct H as (Q' & Hd & _). exists Q'. exact Hd.
Defined.

Definition loop_status : Z := Z.lor 1 MQ_STATUS_LOOP_MASK.
Lemma mq_loop_discards_most_urgent_witness :
  (mq_send_pass [68] 0 (mq_example2 loop_status)).2 = PassOk 1 /\
  msgs (mq_send_pass [68] 0 (mq_example2 loop_status)).1
  = [mq_slot 1 2 0 [65;66;0;0]; mq_slot 0 1 2 [68;0;0;0]].
Proof.
  destruct (mq_loop_discards_most_urgent (mq_example2 loop_status) _ [68] 0 (mq_example2_repr loop_status)
    ltac:(vm_compute; reflexivity) ltac:(vm_compute; intuition congruence) ltac:(vm_compute; intuition congruence)
    ltac:(discriminate) ltac:(refine (two_slots _ _ _); vm_compute; congruence)
    ltac:(refine (two_slots _ _ _); vm_compute; congruence) eq_refl) as [H _].
  split; [exact H|reflexivity].
Defined.

Lemma mq_large_priority_lost_witness :
  mq_receive_pass 4 (mq_send_pass [68] 4294967295 mq_example0).1
  = ((mq_send_pass [68] 4294967295 mq_example0).1, PassWait).
Proof.
  refine (proj2 (proj2 (mq_large_priority_lost mq_example0 [68] 4294967295 4 mq_example0_repr _ _ _))).
  - vm_compute. intuition congruence.
  - vm_compute. reflexivity.
  - exists 0. vm_compute. intuition congruence.
Defined.

(** A queue opened by thread 1, a message sent to it and received again, through
    the mutex and the conditions; then a [mq_tryreceive] on the empty queue, which
    does not return: each time the thread runs, its expired wait on the condition
    succeeds and the loop starts over. *)
Definition mq_demo0 : mq_world := mk_mqw demo_world ∅ [].
Definition mq_demo1 : mq_world :=
  (mq_open 16 "box" (Z.lor O_CREAT O_RDWR) 0 (mk_mqattr 0 2 4 0) (Some 1024) true mq_demo0).1.
Definition mq_demo2 : mq_world := (mq_send 16 1024 [1; 2; 3] 9 mq_demo1).1.

Example mq_demo_roundtrip :
  (mq_send 16 1024 [1; 2; 3] 9 mq_demo1).2 = MReturned (Ret 3) None /\
  (mq_receive 16 1024 4 mq_demo2).2 = MReturned (Ret 3) (Some ([1; 2; 3], 9)).
Proof. vm_compute. split; reflexivity. Qed.

Definition mq_try : mq_call := MqReceive 4 (Some (mk_timespec 0 0)).
Fixpoint mq_run (n : nat) (s : mq_world * mq_progress) : mq_world * mq_progress :=
  match n with O => s | S n => mq_run n (mq_resume 16 mq_try 1024 s.2 s.1) end.
Example mq_tryreceive_does_not_return :
  (mq_run 10 (mq_tryreceive 16 1024 4 mq_demo1)).2 = MWaiting (CWaiting (mq_mutex 1024)) /\
  active (w_k (mw (mq_run 10 (mq_tryreceive 16 1024 4 mq_demo1)).1)) 1 = true.
Proof. vm_compute. split; reflexivity. Qed.

(** ** Where the comments of [mqueue.c] differ *)

(** [mq_send] and [mq_receive] document zero on success; the loops give the length
    of the message. *)
Theorem mq_send_returns_length :
  (mq_send_pass [72; 73] 7 mq_example0).2 = PassOk 2 /\
  (mq_receive_pass 4 (mq_send_pass [72; 73] 7 mq_example0).1).2 = PassOk ([72; 73], 7).
Proof. split; vm_compute; reflexivity. Qed.

(** The message size of the queue is 4, and a buffer of 2 bytes is accepted when
    the message found has 2. *)
Theorem mq_receive_small_buffer :
  mq_max_size mq_example0 = 4 /\
  (mq_receive_pass 2 (mq_send_pass [72; 73] 7 mq_example0).1).2 = PassOk ([72; 73], 7).
Proof. split; vm_compute; reflexivity. Qed.
