(* ===== verification/Timers.v ===== *)
(** * Process timers

    The second half of [src/sys/scheduler/scheduler_timing.c], the calls of
    [src/sys/time/timer.c] and [signal_root_send] of
    [src/sys/signal/pthread_kill.c].  Delivering a signal stacks a handler frame
    on its thread: the frames are recorded in [t_intr], and whether the stack of
    a thread has room ([root_check_signal_stack], which reads the stack pointers)
    is the argument [stack_room].  The checksum [cortexm_assign_zero_sum32] writes
    into the last word of a timer is not modelled. *)
From S2P Require Import Prelude Task Scheduler Timing Threads Mutex.

Definition CONFIG_TASK_PROCESS_TIMER_COUNT : Z := 4.
Definition CONFIG_TASK_NUM_SIGNALS : Z := 32.
Definition SCHED_USECOND_TMR_MINIMUM_PROCESS_TIMER_INTERVAL : Z := 100.
Definition FLAG_IS_INITIALIZED : Z := Z.shiftl 1 0.
Definition FLAG_IS_QUEUED : Z := Z.shiftl 1 1.
Definition SIGEV_SIGNAL : Z := 2.
Definition SIGEV_THREAD : Z := 3.
Definition SIGALRM : Z := 2.
Definition SI_TIMER : Z := 3.
Definition TIMER_ABSTIME : Z := 4.
Definition CLOCK_REALTIME : Z := 1.

#[export] Instance timer_inhabited : Inhabited sos_process_timer_t :=
  populate (mk_timer 0 (mk_timeval 0 0) (mk_timeval 0 0) 0 0 0).

Definition with_tflags (f : Z) (t : sos_process_timer_t) : sos_process_timer_t :=
  mk_timer f (timer_value t) (timer_interval t) (timer_notify t) (timer_signo t) (timer_sigval t).
Definition with_tvalue (v : mcu_timeval) (t : sos_process_timer_t) : sos_process_timer_t :=
  mk_timer (timer_o_flags t) v (timer_interval t) (timer_notify t) (timer_signo t) (timer_sigval t).
Definition with_tinterval (v : mcu_timeval) (t : sos_process_timer_t) : sos_process_timer_t :=
  mk_timer (timer_o_flags t) (timer_value t) v (timer_notify t) (timer_signo t) (timer_sigval t).

(** A handler frame stacked on thread [i_tid]: the signal handler, or the
    forwarder that task 0 runs to send the signal to [i_send_tid]. *)
Record intr := mk_intr {
  i_tid : Z; i_forward : bool; i_send_tid : Z; i_signo : Z; i_code : Z; i_value : Z }.
Record tsys := mk_tsys { t_k : kernel; t_intr : list intr }.
Definition t_with (k : kernel) (s : tsys) : tsys := mk_tsys k (t_intr s).

(** ** Sending a signal from an interrupt *)

Section Timers.
Context (stack_room : Z -> bool).

(** [task_svcall_interrupt]: the frame is stacked on an enabled task, the
    callback runs in any case. *)
Definition stack_handler (i : intr) (s : tsys) : tsys :=
  let l := if task_enabled (k_tasks (t_k s)) (i_tid i) then t_intr s ++ [i] else t_intr s in
  mk_tsys (signal_root_activate (i_tid i) (t_k s)) l.

Definition signal_root_forward (send_tid tid signo code sig_value : Z) (s : tsys) : tsys * Z :=
  if u32 tid <? task_get_total then
    if negb (signo =? 0) then
      if signo <? CONFIG_TASK_NUM_SIGNALS then
        if negb (stack_room tid) then (s, -1)
        else (stack_handler (mk_intr tid true send_tid signo code sig_value) s, 0)
      else (s, -1)
    else (s, 0)
  else (s, -1).

Definition signal_root_send (send_tid tid signo code sig_value : Z) (forward : bool) (s : tsys)
    : tsys * Z :=
  if (tid =? current (t_k s)) && forward then signal_root_forward tid 0 signo code sig_value s
  else if u32 tid <? task_get_total then
    if negb (signo =? 0) then
      if signo <? CONFIG_TASK_NUM_SIGNALS then
        if negb (stack_room tid) then (s, SYSFS_SET_RETURN 146 ENOMEM)
        else (stack_handler (mk_intr tid false send_tid signo code sig_value) s, 0)
      else (s, SYSFS_SET_RETURN 159 EINVAL)
    else (s, SYSFS_SET_RETURN 162 EINVAL)
  else (s, SYSFS_SET_RETURN 165 ESRCH).

(** ** The timer table *)

Definition timer_task (timer_id : Z) : Z := u8 (Z.shiftr timer_id 8).
Definition timer_offset (timer_id : Z) : Z := u8 (Z.land timer_id 255).
Definition SCHEDULER_TIMING_PROCESS_TIMER (t_id id_off : Z) : Z := Z.lor (Z.shiftl t_id 8) id_off.

(** [scheduler_timing_process_timer]: the slot a timer id names. *)
Definition scheduler_timing_process_timer (timer_id : Z) : option (Z * Z) :=
  if (timer_task timer_id <? task_get_total) && (timer_offset timer_id <? CONFIG_TASK_PROCESS_TIMER_COUNT)
  then Some (timer_task timer_id, timer_offset timer_id) else None.

Definition timer (k : kernel) (p : Z * Z) : sos_process_timer_t := Zget (sched_timer (sched k p.1)) p.2.
Definition on_timer (p : Z * Z) (f : sos_process_timer_t -> sos_process_timer_t) (k : kernel) : kernel :=
  on_sched p.1 (fun t => with_timers (Zset (sched_timer t) p.2 (f (timer k p))) t) k.
Definition t_timer (s : tsys) : Z * Z -> sos_process_timer_t := timer (t_k s).
Definition on_t (p : Z * Z) (f : sos_process_timer_t -> sos_process_timer_t) (s : tsys) : tsys :=
  t_with (on_timer p f (t_k s)) s.

(** The event of a timer: [notify], [signo] and the value. *)
Record sigevent := mk_sigevent { se_notify : Z; se_signo : Z; se_value : Z }.

Definition root_allocate_timer (p : Z * Z) (timer_id : Z) (event : option sigevent) (k : kernel)
    : kernel * Z :=
  if timer_o_flags (timer k p) =? 0 then
    let e := match event with Some e => e | None => mk_sigevent SIGEV_SIGNAL SIGALRM timer_id end in
    (on_timer p (fun _ => mk_timer FLAG_IS_INITIALIZED (mk_timeval SCHEDULER_TIMEVAL_SEC_INVALID 0)
                            (mk_timeval 0 0) (se_notify e) (se_signo e) (se_value e)) k, 0)
  else (k, -1).

Definition scheduler_timing_root_process_timer_initialize (task_id : Z) (k : kernel) : kernel :=
  let k := for_range 0 CONFIG_TASK_PROCESS_TIMER_COUNT (fun i =>
             on_timer (task_id, i) (fun _ => mk_timer 0 (mk_timeval 0 0) (mk_timeval 0 0) 0 0 0)) k in
  if negb (task_thread_asserted (k_tasks k) task_id)
  then (root_allocate_timer (task_id, 0) (SCHEDULER_TIMING_PROCESS_TIMER task_id 0) None k).1
  else k.

(** [scheduler_timing_process_create_timer]: the nested loops return at the first
    slot that can be allocated; -1 when there is none. *)
Fixpoint create_offsets (task_id : Z) (offs : list Z) (event : option sigevent) (k : kernel)
    : kernel * Z :=
  match offs with
  | [] => (k, -1)
  | o :: offs =>
      let timer_id := SCHEDULER_TIMING_PROCESS_TIMER task_id o in
      let '(k, result) := root_allocate_timer (task_id, o) timer_id event k in
      if result =? 0 then (k, timer_id) else create_offsets task_id offs event k
  end.
Fixpoint create_tasks (pid : Z) (tasks : list Z) (event : option sigevent) (k : kernel) : kernel * Z :=
  match tasks with
  | [] => (k, -1)
  | t :: tasks =>
      if task_get_pid (k_tasks k) t =? pid then
        let '(k, r) := create_offsets t (seqZ 0 CONFIG_TASK_PROCESS_TIMER_COUNT) event k in
        if r =? -1 then create_tasks pid tasks event k else (k, r)
      else create_tasks pid tasks event k
  end.
Definition scheduler_timing_process_create_timer (event : option sigevent) (k : kernel) : kernel * Z :=
  create_tasks (task_get_pid (k_tasks k) (current k)) (seqZ 0 task_get_total) event k.

Definition svcall_delete_timer (timer_id : Z) (k : kernel) : kernel * Z :=
  match scheduler_timing_process_timer timer_id with
  | None => (k, -1)
  | Some p => (on_timer p (fun _ => mk_timer 0 (mk_timeval 0 0) (mk_timeval 0 0) 0 0 0) k, 0)
  end.
Definition svcall_cancel_timer (timer_id : Z) (k : kernel) : kernel * Z :=
  match scheduler_timing_process_timer timer_id with
  | None => (k, -1)
  | Some p =>
      (on_timer p (fun t => mk_timer FLAG_IS_INITIALIZED (mk_timeval SCHEDULER_TIMEVAL_SEC_INVALID 0)
                              (mk_timeval 0 0) (timer_notify t) (timer_signo t) (timer_sigval t)) k, 0)
  end.

(** ** Firing and arming *)

(** [interval.tv_sec + interval.tv_usec] as a condition. *)
Definition is_periodic (t : sos_process_timer_t) : bool :=
  negb (u32 (tv_sec (timer_interval t) + tv_usec (timer_interval t)) =? 0).

(** [send_and_reload_timer]: the signal, unless one is queued already, then the
    reload. *)
Definition send_timer (p : Z * Z) (task_id : Z) (s : tsys) : tsys :=
  let t := t_timer s p in
  if negb (Bits.any (timer_o_flags t) FLAG_IS_QUEUED) && (timer_notify t =? SIGEV_SIGNAL) then
    let '(s, result) := signal_root_send 0 task_id (timer_signo t) SI_TIMER (timer_sigval t)
                          (current (t_k s) =? task_id) s in
    if result <? 0 then s
    else on_t p (fun t => with_tflags (Bits.set (timer_o_flags t) FLAG_IS_QUEUED) t) s
  else s.
Definition send_and_reload_timer (p : Z * Z) (task_id now : Z) (s : tsys) : tsys :=
  let s := send_timer p task_id s in
  if is_periodic (t_timer s p) then
    on_t p (fun t => with_tvalue (scheduler_timing_add_mcu_timeval
                                    (mk_timeval (sched_usecond_counter (t_k s)) now) (timer_interval t)) t) s
  else on_t p (fun t => with_tvalue (mk_timeval SCHEDULER_TIMEVAL_SEC_INVALID (tv_usec (timer_value t))) t) s.

(** [update_tmr_for_process_timer_match] calls itself after a reload: [None]
    when the recursion is deeper than [fuel]. *)
Fixpoint update_tmr_for_process_timer_match (fuel : nat) (p : Z * Z) (s : tsys) : option tsys :=
  match fuel with
  | O => None
  | S fuel =>
      let v := timer_value (t_timer s p) in
      if negb (tv_sec v =? SCHEDULER_TIMEVAL_SEC_INVALID) && (sched_usecond_counter (t_k s) <=? tv_sec v) then
        let now := clk_now (t_k s) in
        let '(is_time_to_send, s) :=
          if tv_sec v =? sched_usecond_counter (t_k s) then
            if now <? tv_usec v then
              (false, if tv_usec v <? clk_timer_oc (t_k s) then t_with (set_timer_oc (tv_usec v) (t_k s)) s else s)
            else (true, s)
          else (true, s) in
        if is_time_to_send : bool then
          let s := send_and_reload_timer p (current (t_k s)) now s in
          if is_periodic (t_timer s p) then update_tmr_for_process_timer_match fuel p s else Some s
        else Some s
      else Some s
  end.

(** [svcall_settime]: the new state with the previous value and interval. *)
Definition svcall_settime (fuel : nat) (timer_id flags : Z) (value interval : mcu_timeval) (s : tsys)
    : option (tsys * api_result * mcu_timeval * mcu_timeval) :=
  match scheduler_timing_process_timer timer_id with
  | None => Some (s, Err EINVAL, mk_timeval 0 0, mk_timeval 0 0)
  | Some p =>
      let abs_time := scheduler_timing_root_get_realtime (t_k s) in
      let t := t_timer s p in
      let o_value := if tv_sec (timer_value t) =? SCHEDULER_TIMEVAL_SEC_INVALID then mk_timeval 0 0
                     else scheduler_timing_subtract_mcu_timeval (timer_value t) abs_time in
      let v :=
        if negb (Bits.any flags TIMER_ABSTIME) then
          if (tv_sec value =? 0) && (tv_usec value =? 0) then mk_timeval SCHEDULER_TIMEVAL_SEC_INVALID 0
          else scheduler_timing_add_mcu_timeval abs_time value
        else value in
      let o_interval := timer_interval t in
      let i :=
        if (tv_sec interval =? 0) && (0 <? tv_usec interval)
           && (tv_usec interval <? SCHED_USECOND_TMR_MINIMUM_PROCESS_TIMER_INTERVAL)
        then mk_timeval (tv_sec interval) SCHED_USECOND_TMR_MINIMUM_PROCESS_TIMER_INTERVAL else interval in
      let s := on_t p (fun t => with_tinterval i (with_tvalue v t)) s in
      match update_tmr_for_process_timer_match fuel p s with
      | None => None
      | Some s => Some (s, Ret 0, o_value, o_interval)
      end
  end.

Definition svcall_gettime (timer_id : Z) (k : kernel) : option (mcu_timeval * mcu_timeval) :=
  match scheduler_timing_process_timer timer_id with
  | None => None
  | Some p =>
      let t := timer k p in
      let now := scheduler_timing_root_get_realtime k in
      let value := if tv_sec (timer_value t) =? SCHEDULER_TIMEVAL_SEC_INVALID then mk_timeval 0 0
                   else scheduler_timing_subtract_mcu_timeval (timer_value t) now in
      Some (value, timer_interval t)
  end.

Definition svcall_unqueue_timer (signo sig_value : Z) (k : kernel) : kernel :=
  for_range 0 CONFIG_TASK_PROCESS_TIMER_COUNT (fun j k =>
    let t := timer k (current k, j) in
    if (timer_signo t =? signo) && (timer_sigval t =? sig_value)
    then on_timer (current k, j) (fun t => with_tflags (Bits.clear (timer_o_flags t) FLAG_IS_QUEUED) t) k
    else k) k.

(** ** The compare interrupt of the timers *)

Definition timer_due (k : kernel) (t : sos_process_timer_t) : bool :=
  (tv_sec (timer_value t) <? sched_usecond_counter k)
  || ((tv_sec (timer_value t) =? sched_usecond_counter k) && (tv_usec (timer_value t) <=? clk_now k)).

Definition timer_turn (i j : Z) (st : tsys * Z) : tsys * Z :=
  let '(s, next) := st in
  let t := t_timer s (i, j) in
  if Bits.any (timer_o_flags t) FLAG_IS_INITIALIZED then
    if timer_due (t_k s) t then
      let s := send_and_reload_timer (i, j) i (clk_now (t_k s)) s in
      let t := t_timer s (i, j) in
      if is_periodic t then
        if (tv_sec (timer_value t) =? sched_usecond_counter (t_k s)) && (tv_usec (timer_value t) <? next)
        then (s, tv_usec (timer_value t)) else (s, next)
      else (s, next)
    else if (tv_sec (timer_value t) =? sched_usecond_counter (t_k s)) && (tv_usec (timer_value t) <? next)
    then (s, tv_usec (timer_value t)) else (s, next)
  else (s, next).

Definition root_handle_usecond_process_timer_match_event (s : tsys) : tsys :=
  let '(s, next) :=
    for_range 1 task_get_total (fun i st =>
      if task_enabled (k_tasks (t_k st.1)) i
      then for_range 0 CONFIG_TASK_PROCESS_TIMER_COUNT (timer_turn i) st else st)
      (s, SOS_USECOND_PERIOD) in
  let value := if next <? SOS_USECOND_PERIOD then next else SOS_USECOND_PERIOD + 1 in
  t_with (set_timer_oc value (t_k s)) s.

Definition root_handle_usecond_overflow_event (s : tsys) : tsys :=
  let s := t_with (with_counter (u32 (sched_usecond_counter (t_k s) + 1)) (t_k s)) s in
  let s := t_with (root_handle_usecond_match_event (t_k s)) s in
  root_handle_usecond_process_timer_match_event s.

(** ** The calls of [timer.c] *)

Definition timer_create (clock_id : Z) (evp : sigevent) (k : kernel) : kernel * (Z + Z) :=
  if negb (clock_id =? CLOCK_REALTIME) then (k, inr EINVAL)
  else if se_notify evp =? SIGEV_THREAD then (k, inr ENOTSUP)
  else
    let '(k, t) := scheduler_timing_process_create_timer (Some evp) k in
    if t =? -1 then (k, inr EAGAIN) else (k, inl t).
Definition timer_delete (timer_id : Z) (k : kernel) : kernel * api_result :=
  let '(k, r) := svcall_delete_timer timer_id k in
  if r <? 0 then (k, Err EINVAL) else (k, Ret 0).
Definition timer_settime (fuel : nat) (timer_id flags : Z) (it_value it_interval : timespec) (s : tsys)
    : option (tsys * api_result * timespec * timespec) :=
  match svcall_settime fuel timer_id flags (scheduler_timing_convert_timespec (Some it_value))
          (scheduler_timing_convert_timespec (Some it_interval)) s with
  | None => None
  | Some (s, r, o_value, o_interval) =>
      Some (s, r, scheduler_timing_convert_mcu_timeval o_value, scheduler_timing_convert_mcu_timeval o_interval)
  end.
Definition timer_gettime (timer_id : Z) (k : kernel) : (timespec * timespec) + Z :=
  match svcall_gettime timer_id k with
  | None => inr EINVAL
  | Some (v, i) => inl (scheduler_timing_convert_mcu_timeval v, scheduler_timing_convert_mcu_timeval i)
  end.

(** [process_alarm]: the seconds that were left, [None] inside when
    [timer_settime] fails and the variable stays uninitialised. *)
Definition process_alarm (fuel : nat) (seconds useconds interval : Z) (s : tsys)
    : option (tsys * option Z) :=
  let pid := task_get_pid (k_tasks (t_k s)) (current (t_k s)) in
  let timer_id := SCHEDULER_TIMING_PROCESS_TIMER (task_get_thread_zero (k_tasks (t_k s)) pid) 0 in
  match timer_settime fuel timer_id 0 (mk_timespec seconds (s32 (u32 (useconds * 1000))))
          (mk_timespec 0 (s32 (u32 (interval * 1000)))) s with
  | None => None
  | Some (s, Ret _, o_value, _) => Some (s, Some (u32 (ts_sec o_value)))
  | Some (s, Err _, _, _) => Some (s, None)
  end.
Definition alarm (fuel : nat) (seconds : Z) (s : tsys) : option (tsys * option Z) :=
  match process_alarm fuel seconds 0 0 s with
  | None => None
  | Some (s, r) => Some (s, (fun r => r / 1000000) <$> r)
  end.
Definition ualarm (fuel : nat) (useconds interval : Z) (s : tsys) : option (tsys * option Z) :=
  process_alarm fuel 0 useconds interval s.
Definition timer_getoverrun (timerid : Z) (s : tsys) : tsys * api_result := (s, Err ENOTSUP).
End Timers.

(** ** The timer table under the operations *)

Definition slot (p : Z * Z) : Prop := task_id p.1 /\ 0 <= p.2 < CONFIG_TASK_PROCESS_TIMER_COUNT.
Definition timers_wf (k : kernel) : Prop :=
  kernel_wf k /\
  forall i, task_id i -> Zlen (sched_timer (sched k i)) = CONFIG_TASK_PROCESS_TIMER_COUNT.

(** What the timers see of the kernel, apart from the timers themselves. *)
Record clock_frame (k k' : kernel) : Prop := {
  cf_wf : timers_wf k -> timers_wf k';
  cf_enabled : forall j, 0 <= j -> enabled k' j = enabled k j;
  cf_current : current k' = current k;
  cf_counter : sched_usecond_counter k' = sched_usecond_counter k;
  cf_now : clk_now k' = clk_now k;
  cf_oc : clk_timer_oc k' = clk_timer_oc k;
}.
#[export] Instance clock_frame_preorder : PreOrder clock_frame.
Proof.
  split; [by split|]. intros k1 k2 k3 [] []. split; try congruence; auto.
  intros j Hj. by rewrite cf_enabled1, cf_enabled0.
Qed.

Lemma on_timer_frame p f k : clock_frame k (on_timer p f k).
Proof.
  split; try done. intros [[? Hs] Ht]. unfold on_timer. split; [split; [done|]|].
  - etrans; [apply Zlen_on_sched|done].
  - intros i Hi. destruct (decide (p.1 = i)) as [<-|Hne].
    + rewrite sched_on_sched_eq by done. simpl. rewrite Zlen_Zset. now apply Ht.
    + rewrite sched_on_sched_ne by (done || apply Hi). now apply Ht.
Qed.
Lemma timer_on_timer p q f k : timers_wf k -> slot p -> slot q ->
  timer (on_timer p f k) q = if decide (p = q) then f (timer k p) else timer k q.
Proof.
  intros [[_ Hs] Ht] [Hp1 Hp2] [Hq1 Hq2]. destruct p as [i j], q as [i' j']; simpl in *.
  unfold timer, on_timer; simpl. destruct (decide (i = i')) as [<-|Hi].
  - rewrite sched_on_sched_eq by done. simpl. rewrite Zget_Zset by (rewrite ?Ht; lia || done).
    destruct (decide (j = j')) as [<-|]; [now rewrite decide_True|].
    rewrite decide_False by congruence. done.
  - rewrite sched_on_sched_ne by (done || apply Hq1). now rewrite decide_False by congruence.
Qed.

(** [signal_root_activate] leaves the timers alone. *)
Definition same_timers (k k' : kernel) : Prop :=
  clock_frame k k' /\
  forall j, 0 <= j -> sched_timer (sched k' j) = sched_timer (sched k j).
#[export] Instance same_timers_preorder : PreOrder same_timers.
Proof.
  split; [split; [reflexivity|done]|]. intros k1 k2 k3 [F1 T1] [F2 T2].
  split; [by etrans|]. intros j Hj. now rewrite T2, T1.
Qed.
Lemma same_timers_timer k k' p : same_timers k k' -> slot p -> timer k' p = timer k p.
Proof. intros [_ H] [[? _] _]. unfold timer. now rewrite H. Qed.

Lemma on_sched_same_timers id f k :
  (forall t, sched_timer (f t) = sched_timer t) -> same_timers k (on_sched id f k).
Proof.
  intros Hf. assert (T : forall j, 0 <= j -> sched_timer (sched (on_sched id f k) j) = sched_timer (sched k j)).
  { intros j Hj. now apply (on_sched_field sched_timer). }
  split; [split|]; try done. intros [[? Hs] Ht]. split; [split; [done|]|].
  - etrans; [apply Zlen_on_sched|done].
  - intros i Hi. rewrite T by apply Hi. now apply Ht.
Qed.
Lemma activate_timers id k j : 0 <= j ->
  sched_timer (sched (signal_root_activate id k) j) = sched_timer (sched k j).
Proof.
  intros Hj. unfold signal_root_activate. rewrite (same_threads_sched _ _ _ (update_on_wake_same _ _ _)).
  unfold scheduler_root_assert_active, scheduler_root_set_unblock_type,
    scheduler_root_deassert_aiosuspend, scheduler_root_deassert.
  now rewrite !(on_sched_field sched_timer).
Qed.
Lemma update_on_wake_timer_oc id p k : clk_timer_oc (scheduler_root_update_on_wake id p k) = clk_timer_oc k.
Proof. unfold scheduler_root_update_on_wake. by repeat case_match. Qed.
Lemma activate_same_timers id k : kernel_wf k -> task_id id -> same_timers k (signal_root_activate id k).
Proof.
  intros Hwf Hi. destruct (signal_root_activate_only id k Hwf Hi) as [[[] _] _].
  split; [split|]; try done.
  - intros [_ Ht]. split; [now apply fr_wf|]. intros i Hi'. rewrite activate_timers by apply Hi'. now apply Ht.
  - unfold signal_root_activate. now rewrite (st_now _ _ (update_on_wake_same _ _ _)).
  - unfold signal_root_activate. now rewrite update_on_wake_timer_oc.
  - intros j Hj. now apply activate_timers.
Qed.

(** The slots of the enabled threads, in the order of the interrupt's scan. *)
Definition slots_of (k : kernel) (i : Z) : list (Z * Z) :=
  if enabled k i then pair i <$> seqZ 0 CONFIG_TASK_PROCESS_TIMER_COUNT else [].
Definition live_until (k : kernel) (i : Z) : list (Z * Z) := seqZ 1 (i - 1) ≫= slots_of k.
Definition live_slots (k : kernel) : list (Z * Z) := live_until k task_get_total.

Lemma elem_of_slots_of k i p : p ∈ slots_of k i <->
  enabled k i = true /\ p.1 = i /\ 0 <= p.2 < CONFIG_TASK_PROCESS_TIMER_COUNT.
Proof.
  unfold slots_of. destruct (enabled k i); [|set_solver]. rewrite list_elem_of_fmap. destruct p as [a b]. simpl.
  split.
  - intros (j & [= -> ->] & Hj%elem_of_seqZ). repeat split; lia.
  - intros (_ & -> & Hj). exists b. split; [done|]. apply elem_of_seqZ. lia.
Qed.
Lemma elem_of_live_until k i p : p ∈ live_until k i <->
  enabled k p.1 = true /\ 1 <= p.1 < i /\ 0 <= p.2 < CONFIG_TASK_PROCESS_TIMER_COUNT.
Proof.
  unfold live_until. rewrite list_elem_of_bind. split.
  - intros (t & (? & <- & ?)%elem_of_slots_of & Ht%elem_of_seqZ). repeat split; try done; lia.
  - intros (He & ? & ?). exists p.1. split; [now apply elem_of_slots_of|]. apply elem_of_seqZ. lia.
Qed.
Lemma live_until_snoc k i : 1 <= i -> live_until k (i + 1) = live_until k i ++ slots_of k i.
Proof.
  intros. unfold live_until. replace (i + 1 - 1) with ((i - 1) + 1) by lia.
  rewrite seqZ_app by lia. rewrite bind_app. simpl. rewrite app_nil_r. do 2 f_equal. lia.
Qed.
Lemma slots_snoc (i j : Z) : 0 <= j -> (pair i <$> seqZ 0 (j + 1)) = (pair i <$> seqZ 0 j) ++ [(i, j)].
Proof. intros. rewrite seqZ_app by lia. now rewrite fmap_app. Qed.

(** ** One timer fires *)

(** The thread that runs the handler of a signal to [i]: an interrupt cannot
    stack a frame on the running thread, so task 0 forwards it. *)
Definition signal_frame (k : kernel) (i : Z) (t : sos_process_timer_t) : intr :=
  if i =? current k then mk_intr 0 true i (timer_signo t) SI_TIMER (timer_sigval t)
  else mk_intr i false 0 (timer_signo t) SI_TIMER (timer_sigval t).

Section Fire.
Context (stack_room : Z -> bool).

Definition accepted (k : kernel) (i : Z) (t : sos_process_timer_t) : bool :=
  negb (Bits.any (timer_o_flags t) FLAG_IS_QUEUED) && (timer_notify t =? SIGEV_SIGNAL)
  && (timer_signo t <? CONFIG_TASK_NUM_SIGNALS) && stack_room (i_tid (signal_frame k i t)).
(** The frame a timer stacks when it fires, and the timer afterwards; the
    signal number is not 0. *)
Definition fired (k : kernel) (i : Z) (t : sos_process_timer_t) : list intr :=
  if accepted k i t && enabled k (i_tid (signal_frame k i t)) then [signal_frame k i t] else [].
Definition reloaded (k : kernel) (i : Z) (t : sos_process_timer_t) : sos_process_timer_t :=
  let t := if accepted k i t then with_tflags (Bits.set (timer_o_flags t) FLAG_IS_QUEUED) t else t in
  with_tvalue (if is_periodic t
               then scheduler_timing_add_mcu_timeval (mk_timeval (sched_usecond_counter k) (clk_now k)) (timer_interval t)
               else mk_timeval SCHEDULER_TIMEVAL_SEC_INVALID (tv_usec (timer_value t))) t.

Lemma stack_handler_spec i s : timers_wf (t_k s) -> task_id (i_tid i) ->
  let s' := stack_handler i s in
  same_timers (t_k s) (t_k s') /\
  t_intr s' = t_intr s ++ (if enabled (t_k s) (i_tid i) then [i] else []).
Proof.
  intros [Hwf _] Hi. split; [now apply activate_same_timers|]. unfold stack_handler, enabled. simpl.
  case_match; by rewrite ?app_nil_r.
Qed.

(** [signal_root_send] from the timers: accepted signals stack the frame. *)
Lemma timer_signal_spec i signo v s : timers_wf (t_k s) -> task_id i -> signo <> 0 ->
  let f := if i =? current (t_k s) then mk_intr 0 true i signo SI_TIMER v else mk_intr i false 0 signo SI_TIMER v in
  let ok := (signo <? CONFIG_TASK_NUM_SIGNALS) && stack_room (i_tid f) in
  let r := signal_root_send stack_room 0 i signo SI_TIMER v (current (t_k s) =? i) s in
  (r.2 <? 0) = negb ok /\ same_timers (t_k s) (t_k r.1) /\
  t_intr r.1 = t_intr s ++ (if ok && enabled (t_k s) (i_tid f) then [f] else []).
Proof.
  intros Hwf Hi Hs. assert (Hu : forall j, task_id j -> (u32 j <? task_get_total) = true).
  { intros j [? ?]. unfold CONFIG_TASK_TOTAL, task_get_total in *.
    rewrite u32_id by lia. now apply Z.ltb_lt. }
  assert (task_id 0) by (unfold task_id, CONFIG_TASK_TOTAL; lia).
  assert (Hn : (signo =? 0) = false) by now apply Z.eqb_neq.
  unfold signal_root_send, signal_root_forward.
  rewrite (Z.eqb_sym (current (t_k s))). destruct (i =? current (t_k s)); cbn [andb];
    rewrite Hn; [rewrite (Hu 0) by done|rewrite (Hu i) by done]; cbn [andb negb]; destruct (signo <? CONFIG_TASK_NUM_SIGNALS); cbn [fst snd i_tid andb negb];
    try (split; [done|split; [reflexivity|by rewrite app_nil_r]]).
  - destruct (stack_room 0); cbn [fst snd i_tid andb negb];
    [|split; [done|split; [reflexivity|by rewrite app_nil_r]]].
    split; [done|]. apply (stack_handler_spec (mk_intr 0 true i signo SI_TIMER v)); done.
  - destruct (stack_room i); cbn [fst snd i_tid andb negb];
    [|split; [done|split; [reflexivity|by rewrite app_nil_r]]].
    split; [done|]. apply (stack_handler_spec (mk_intr i false 0 signo SI_TIMER v)); done.
Qed.

(** Nothing but the timer of slot [p] changed, apart from stacked frames. *)
Record timer_step (p : Z * Z) (t' : sos_process_timer_t) (l : list intr) (s s' : tsys) : Prop := {
  ts_frame : clock_frame (t_k s) (t_k s');
  ts_timer : forall q, slot q -> t_timer s' q = if decide (p = q) then t' else t_timer s q;
  ts_intr : t_intr s' = t_intr s ++ l;
}.
Lemma on_t_step p f s : timers_wf (t_k s) -> slot p ->
  timer_step p (f (t_timer s p)) [] s (on_t p f s).
Proof.
  intros Hwf Hp. split; [apply on_timer_frame| |by rewrite app_nil_r].
  intros q Hq. now apply timer_on_timer.
Qed.
Lemma same_timers_step p l s s' : slot p -> same_timers (t_k s) (t_k s') -> t_intr s' = t_intr s ++ l ->
  timer_step p (t_timer s p) l s s'.
Proof.
  intros Hp F Hl. split; [apply F| |done]. intros q Hq. unfold t_timer.
  rewrite (same_timers_timer _ _ _ F) by done. now case_decide; subst.
Qed.
Lemma timer_step_trans p t1 l t2 s1 s2 s3 :
  timer_step p t1 l s1 s2 -> timer_step p t2 [] s2 s3 -> timer_step p t2 l s1 s3.
Proof.
  intros [F1 T1 I1] [F2 T2 I2]. split; [by etrans| |by rewrite I2, I1, app_nil_r].
  intros q Hq. rewrite T2, T1 by done. by case_decide.
Qed.
Lemma timer_step_self p t l s s' : timer_step p t l s s' -> slot p -> t_timer s' p = t.
Proof. intros H Hp. rewrite (ts_timer _ _ _ _ _ H) by done. by rewrite decide_True. Qed.

(** The signal part: the frame is stacked and the timer marked as queued. *)
Lemma send_timer_spec p i s : timers_wf (t_k s) -> slot p -> task_id i ->
  timer_signo (t_timer s p) <> 0 ->
  let t := t_timer s p in
  timer_step p (if accepted (t_k s) i t then with_tflags (Bits.set (timer_o_flags t) FLAG_IS_QUEUED) t else t)
    (fired (t_k s) i t) s (send_timer stack_room p i s).
Proof.
  intros Hwf Hp Hi Hs t. subst t. unfold send_timer, fired, accepted, signal_frame.
  set (t := t_timer s p) in *.
  destruct (negb (Bits.any (timer_o_flags t) FLAG_IS_QUEUED) && (timer_notify t =? SIGEV_SIGNAL));
    cbn [andb]; [|apply same_timers_step; [done|reflexivity|by rewrite app_nil_r]].
  pose proof (timer_signal_spec i (timer_signo t) (timer_sigval t) s Hwf Hi Hs) as H.
  destruct (signal_root_send _ _ _ _ _ _ _ _) as [s1 r]. simpl in H.
  destruct H as (-> & F & HI).
  set (ok := (_ <? _) && _) in *. pose proof (same_timers_step p _ s s1 Hp F HI) as S1.
  destruct ok; simpl negb; cbv iota; [|exact S1].
  assert (Hwf1 : timers_wf (t_k s1)) by now apply F.
  eapply timer_step_trans; [exact S1|].
  pose proof (on_t_step p (fun t => with_tflags (Bits.set (timer_o_flags t) FLAG_IS_QUEUED) t) s1 Hwf1 Hp)
    as S2. cbv beta in S2. rewrite (timer_step_self _ _ _ _ _ S1 Hp) in S2. exact S2.
Qed.
Lemma send_and_reload_spec p i s : timers_wf (t_k s) -> slot p -> task_id i ->
  timer_signo (t_timer s p) <> 0 ->
  timer_step p (reloaded (t_k s) i (t_timer s p)) (fired (t_k s) i (t_timer s p)) s
    (send_and_reload_timer stack_room p i (clk_now (t_k s)) s).
Proof.
  intros Hwf Hp Hi Hs. pose proof (send_timer_spec p i s Hwf Hp Hi Hs) as S1. cbv zeta in S1.
  unfold send_and_reload_timer. generalize dependent (send_timer stack_room p i s). intros s1 S1.
  pose proof (cf_wf _ _ (ts_frame _ _ _ _ _ S1) Hwf) as Hwf1.
  pose proof (timer_step_self _ _ _ _ _ S1 Hp) as T1.
  pose proof (cf_counter _ _ (ts_frame _ _ _ _ _ S1)) as Hc. unfold reloaded.
  rewrite <- T1, <- Hc.
  destruct (is_periodic (t_timer s1 p)); eapply timer_step_trans; try exact S1;
    exact (on_t_step p _ s1 Hwf1 Hp).
Qed.

(** ** The timer interrupt *)

Lemma fired_frame k k' i t : clock_frame k k' -> task_id i -> fired k' i t = fired k i t.
Proof.
  intros F [Hi _]. unfold fired, accepted, signal_frame. rewrite (cf_current _ _ F).
  destruct (i =? current k); simpl; now rewrite (cf_enabled _ _ F).
Qed.
Lemma reloaded_frame k k' i t : clock_frame k k' -> reloaded k' i t = reloaded k i t.
Proof.
  intros F. unfold reloaded, accepted, signal_frame.
  now rewrite (cf_current _ _ F), (cf_counter _ _ F), (cf_now _ _ F).
Qed.
Lemma timer_due_frame k k' t : clock_frame k k' -> timer_due k' t = timer_due k t.
Proof. intros F. unfold timer_due. now rewrite (cf_counter _ _ F), (cf_now _ _ F). Qed.

Definition initialized (t : sos_process_timer_t) : bool := Bits.any (timer_o_flags t) FLAG_IS_INITIALIZED.
Definition slot_due (k : kernel) (p : Z * Z) : bool := initialized (timer k p) && timer_due k (timer k p).
(** The timer of slot [p] after the interrupt, the frames it stacks, and the
    count at which it is due in this period. *)
Definition after_match (k : kernel) (p : Z * Z) : sos_process_timer_t :=
  if slot_due k p then reloaded k p.1 (timer k p) else timer k p.
Definition match_frames (k : kernel) (p : Z * Z) : list intr :=
  if slot_due k p then fired k p.1 (timer k p) else [].
Definition deadline (k : kernel) (t : sos_process_timer_t) : Z :=
  if initialized t && (tv_sec (timer_value t) =? sched_usecond_counter k) then tv_usec (timer_value t)
  else SOS_USECOND_PERIOD.
Definition next_alarm (k : kernel) (l : list (Z * Z)) : Z :=
  foldl (fun n p => Z.min n (deadline k (after_match k p))) SOS_USECOND_PERIOD l.

(** The state after the slots [l] have been visited. *)
Record matched (s0 : tsys) (l : list (Z * Z)) (st : tsys * Z) : Prop := {
  mt_frame : clock_frame (t_k s0) (t_k st.1);
  mt_timer : forall q, slot q ->
    t_timer st.1 q = if decide (q ∈ l) then after_match (t_k s0) q else t_timer s0 q;
  mt_intr : t_intr st.1 = t_intr s0 ++ (l ≫= match_frames (t_k s0));
  mt_next : st.2 = next_alarm (t_k s0) l;
}.

Lemma next_alarm_le k l : next_alarm k l <= SOS_USECOND_PERIOD.
Proof.
  unfold next_alarm. induction l as [|p l IH] using rev_ind; [done|]. rewrite foldl_app. simpl. lia.
Qed.
Lemma reloaded_initialized k i t : initialized t = true -> initialized (reloaded k i t) = true.
Proof.
  unfold initialized, reloaded, with_tvalue. intros H. cbn [timer_o_flags].
  destruct (accepted k i t); [|exact H]. unfold with_tflags, Bits.any in *. cbn [timer_o_flags].
  now rewrite (land_set_disjoint (timer_o_flags t) FLAG_IS_QUEUED FLAG_IS_INITIALIZED) by reflexivity.
Qed.

(** The alarm of one visited timer. *)
Lemma deadline_min k t (s : tsys) next : initialized t = true -> next <= SOS_USECOND_PERIOD ->
  (if (tv_sec (timer_value t) =? sched_usecond_counter k) && (tv_usec (timer_value t) <? next)
   then (s, tv_usec (timer_value t)) else (s, next)) = (s, Z.min next (deadline k t)).
Proof.
  intros Hi Hn. unfold deadline. rewrite Hi. cbn [andb].
  destruct (tv_sec (timer_value t) =? sched_usecond_counter k); cbn [andb]; [|f_equal; lia].
  destruct (Z.ltb_spec (tv_usec (timer_value t)) next); f_equal; lia.
Qed.
Lemma deadline_none k t : initialized t = false -> deadline k t = SOS_USECOND_PERIOD.
Proof. intros H. unfold deadline. now rewrite H. Qed.
Lemma reloaded_periodic k i t : is_periodic (reloaded k i t) = is_periodic t.
Proof. unfold reloaded. by destruct (accepted k i t). Qed.
Lemma deadline_oneshot k i t : sched_usecond_counter k <> SCHEDULER_TIMEVAL_SEC_INVALID ->
  is_periodic t = false -> deadline k (reloaded k i t) = SOS_USECOND_PERIOD.
Proof.
  intros Hc Hp. unfold deadline.
  assert (tv_sec (timer_value (reloaded k i t)) = SCHEDULER_TIMEVAL_SEC_INVALID) as ->.
  { unfold reloaded. assert (forall b : bool, is_periodic (if b then
      with_tflags (Bits.set (timer_o_flags t) FLAG_IS_QUEUED) t else t) = is_periodic t) as -> by now intros [].
    now rewrite Hp. }
  rewrite (proj2 (Z.eqb_neq _ _)) by congruence. by rewrite andb_false_r.
Qed.

Lemma matched_visit s0 l s next p s' : slot p -> matched s0 l (s, next) ->
  timer_step p (after_match (t_k s0) p) (match_frames (t_k s0) p) s s' ->
  matched s0 (l ++ [p]) (s', Z.min next (deadline (t_k s0) (after_match (t_k s0) p))).
Proof.
  intros Hp [F T I N] S. split; cbn [fst snd] in *.
  - etrans; [exact F|apply S].
  - intros q Hq. rewrite (ts_timer _ _ _ _ _ S), T by done.
    destruct (decide (p = q)) as [<-|Hne]; [now rewrite decide_True by set_solver|].
    apply decide_ext. clear -Hne. set_solver.
  - rewrite (ts_intr _ _ _ _ _ S), I, bind_app. simpl. now rewrite app_nil_r, app_assoc.
  - rewrite N. unfold next_alarm. now rewrite foldl_app.
Qed.
(** A timer that is not due. *)
Lemma matched_idle s0 l s next p : slot p -> p ∉ l -> matched s0 l (s, next) ->
  slot_due (t_k s0) p = false ->
  matched s0 (l ++ [p]) (s, Z.min next (deadline (t_k s0) (t_timer s0 p))).
Proof.
  intros Hp Hl M E. pose proof (mt_timer _ _ _ M _ Hp) as Tp. rewrite decide_False in Tp by done.
  cbn [fst] in Tp. assert (A : after_match (t_k s0) p = t_timer s0 p) by (unfold after_match; now rewrite E).
  rewrite <- A. apply matched_visit with s; [done|done|].
  unfold match_frames. rewrite E, A, <- Tp.
  apply same_timers_step; [done|reflexivity|by rewrite app_nil_r].
Qed.
(** A timer that is due. *)
Lemma matched_due s0 l s next p : timers_wf (t_k s0) -> slot p -> p ∉ l -> matched s0 l (s, next) ->
  slot_due (t_k s0) p = true -> timer_signo (t_timer s0 p) <> 0 ->
  let s' := send_and_reload_timer stack_room p p.1 (clk_now (t_k s)) s in
  matched s0 (l ++ [p]) (s', Z.min next (deadline (t_k s0) (after_match (t_k s0) p))) /\
  t_timer s' p = reloaded (t_k s0) p.1 (t_timer s0 p) /\
  sched_usecond_counter (t_k s') = sched_usecond_counter (t_k s0).
Proof.
  intros Hwf Hp Hl M E Hs. pose proof (mt_timer _ _ _ M _ Hp) as Tp. rewrite decide_False in Tp by done.
  pose proof (mt_frame _ _ _ M) as F. cbn [fst] in Tp, F.
  assert (S := send_and_reload_spec p p.1 s (cf_wf _ _ F Hwf) Hp (proj1 Hp)
                 ltac:(rewrite Tp; exact Hs)).
  rewrite Tp, (reloaded_frame _ _ _ _ F), (fired_frame _ _ _ _ F (proj1 Hp)) in S.
  split; [|split].
  - apply matched_visit with s; [done|done|]. unfold after_match, match_frames. rewrite E. exact S.
  - exact (timer_step_self _ _ _ _ _ S Hp).
  - rewrite (cf_counter _ _ (ts_frame _ _ _ _ _ S)). apply F.
Qed.

Lemma timer_turn_matched s0 l st i j :
  timers_wf (t_k s0) -> sched_usecond_counter (t_k s0) <> SCHEDULER_TIMEVAL_SEC_INVALID ->
  slot (i, j) -> (i, j) ∉ l -> (slot_due (t_k s0) (i, j) = true -> timer_signo (t_timer s0 (i, j)) <> 0) ->
  matched s0 l st -> matched s0 (l ++ [(i, j)]) (timer_turn stack_room i j st).
Proof.
  intros Hwf Hc Hp Hl Hs M. destruct st as [s next].
  pose proof (mt_timer _ _ _ M _ Hp) as Tp. rewrite decide_False in Tp by done.
  pose proof (mt_frame _ _ _ M) as F. cbn [fst] in Tp, F.
  assert (Hle : next <= SOS_USECOND_PERIOD).
  { pose proof (mt_next _ _ _ M) as N. cbn [snd] in N. rewrite N. apply next_alarm_le. }
  assert (Hidle := matched_idle s0 l s next (i, j) Hp Hl M).
  assert (Hdue := fun E => matched_due s0 l s next (i, j) Hwf Hp Hl M E (Hs E)).
  unfold timer_turn. fold (initialized (t_timer s (i, j))).
  rewrite Tp, (timer_due_frame _ _ _ F), (cf_counter _ _ F).
  unfold after_match in Hdue. unfold slot_due in Hidle, Hdue.
  change (timer (t_k s0) (i, j)) with (t_timer s0 (i, j)) in *.
  destruct (initialized (t_timer s0 (i, j))) eqn:Ei; cbn [andb] in *.
  2: { rewrite deadline_none, Z.min_l in Hidle by done. now apply Hidle. }
  destruct (timer_due (t_k s0) (t_timer s0 (i, j))) eqn:Ed.
  2: { rewrite deadline_min by done. now apply Hidle. }
  specialize (Hdue eq_refl). cbn [fst] in Hdue.
  generalize dependent (send_and_reload_timer stack_room (i, j) i (clk_now (t_k s)) s).
  intros s' (H & -> & ->). rewrite reloaded_periodic.
  destruct (is_periodic (t_timer s0 (i, j))) eqn:Ep.
  - rewrite deadline_min by (done || now apply reloaded_initialized). exact H.
  - rewrite deadline_oneshot, Z.min_l in H by done. exact H.
Qed.

Lemma timer_scan_matched s :
  timers_wf (t_k s) -> sched_usecond_counter (t_k s) <> SCHEDULER_TIMEVAL_SEC_INVALID ->
  (forall p, slot p -> slot_due (t_k s) p = true -> timer_signo (t_timer s p) <> 0) ->
  matched s (live_slots (t_k s))
    (for_range 1 task_get_total (fun i st =>
      if task_enabled (k_tasks (t_k st.1)) i
      then for_range 0 CONFIG_TASK_PROCESS_TIMER_COUNT (timer_turn stack_room i) st else st)
      (s, SOS_USECOND_PERIOD)).
Proof.
  intros Hwf Hc Hs. apply (for_range_ind (fun i => matched s (live_until (t_k s) i))).
  - by compute.
  - split; [reflexivity| |by rewrite app_nil_r|done]. intros q _. now rewrite decide_False by set_solver.
  - intros i st Hi M. rewrite live_until_snoc by lia. unfold slots_of.
    pose proof (cf_enabled _ _ (mt_frame _ _ _ M) i ltac:(lia)) as He. unfold enabled in He.
    unfold enabled. rewrite He. destruct (task_enabled (k_tasks (t_k s)) i) eqn:Ei; [|now rewrite app_nil_r].
    apply (for_range_ind (fun j => matched s (live_until (t_k s) i ++ (pair i <$> seqZ 0 j)))).
    + by compute.
    + simpl. now rewrite app_nil_r.
    + intros j st' Hj M'. rewrite slots_snoc, app_assoc by lia.
      assert (slot (i, j)) by (unfold task_get_total, task_id, slot in *; simpl; split; unfold task_id; lia).
      apply timer_turn_matched; auto. rewrite elem_of_app, elem_of_live_until, list_elem_of_fmap. simpl.
      intros [?|(y & [= ->] & Hy%elem_of_seqZ)]; lia.
Qed.

(** One run of the timer interrupt visits the timers of the enabled threads in
    table order.  Exactly the initialised timers that are due fire: the handler
    frames they stack are appended in that order, each at most once while its
    signal is queued; a fired periodic timer is reloaded from the present time, a
    fired one-shot timer is disarmed, every other timer is left as it was; and
    the alarm is set to the earliest remaining deadline of the current period. *)
Theorem timer_interrupt_fires_due s :
  timers_wf (t_k s) -> sched_usecond_counter (t_k s) <> SCHEDULER_TIMEVAL_SEC_INVALID ->
  (forall p, slot p -> slot_due (t_k s) p = true -> timer_signo (t_timer s p) <> 0) ->
  let s' := root_handle_usecond_process_timer_match_event stack_room s in
  let live := live_slots (t_k s) in
  t_intr s' = t_intr s ++ (live ≫= match_frames (t_k s)) /\
  (forall p, slot p ->
     t_timer s' p = if decide (p ∈ live) then after_match (t_k s) p else t_timer s p) /\
  clk_timer_oc (t_k s') = (let next := next_alarm (t_k s) live in
                           if next <? SOS_USECOND_PERIOD then next else SOS_USECOND_PERIOD + 1).
Proof.
  intros Hwf Hc Hs. pose proof (timer_scan_matched s Hwf Hc Hs) as [F T I N].
  unfold root_handle_usecond_process_timer_match_event. destruct (for_range _ _ _ _) as [s1 next].
  cbn [fst snd] in *. subst next. done.
Qed.

(** ** No deadline is missed *)

Lemma timer_due_future k t :
  (sched_usecond_counter k < tv_sec (timer_value t) \/
   sched_usecond_counter k = tv_sec (timer_value t) /\ clk_now k < tv_usec (timer_value t)) ->
  timer_due k t = false.
Proof. unfold timer_due. intros. bool_cases; simpl; lia. Qed.
(** The sum of the present time and an interval is in the future. *)
Lemma add_interval_future c now i : 0 <= c -> 0 <= now <= SOS_USECOND_PERIOD -> tv_norm i ->
  c + tv_sec i + 1 < SCHEDULER_TIMEVAL_SEC_INVALID -> u32 (tv_sec i + tv_usec i) <> 0 ->
  let v := scheduler_timing_add_mcu_timeval (mk_timeval c now) i in
  c < tv_sec v < SCHEDULER_TIMEVAL_SEC_INVALID \/ c = tv_sec v /\ now < tv_usec v.
Proof.
  intros Hc Hn [Hi1 Hi2] Hs Hz. destruct i as [ps pu]. cbn [tv_sec tv_usec] in *.
  assert (HP : SOS_USECOND_PERIOD = 2048000000) by reflexivity.
  assert (HI : SCHEDULER_TIMEVAL_SEC_INVALID = 4294967295) by reflexivity. rewrite HP, HI in *.
  unfold scheduler_timing_add_mcu_timeval. cbn [tv_sec tv_usec].
  rewrite HP, (u32_id (c + ps)), (u32_id (now + pu)), (u32_id (c + ps + 1)) by lia.
  destruct (Z.ltb_spec 2048000000 (now + pu)); cbn [tv_sec tv_usec].
  - left. lia.
  - destruct (decide (ps = 0)) as [->|]; [right|left; lia].
    split; [lia|]. destruct (decide (pu = 0)) as [->|]; [|lia]. now destruct Hz.
Qed.
Lemma next_alarm_lower k l p : p ∈ l -> next_alarm k l <= deadline k (after_match k p).
Proof.
  unfold next_alarm. induction l as [|q l IH] using rev_ind; intros Hp; [set_solver|].
  rewrite foldl_app. simpl. apply elem_of_app in Hp as [Hp| ->%list_elem_of_singleton]; [|lia].
  specialize (IH Hp). lia.
Qed.
Lemma after_match_future k p : slot p -> initialized (timer k p) = true ->
  0 <= sched_usecond_counter k < SCHEDULER_TIMEVAL_SEC_INVALID -> 0 <= clk_now k <= SOS_USECOND_PERIOD ->
  (slot_due k p = true -> tv_norm (timer_interval (timer k p)) /\
     sched_usecond_counter k + tv_sec (timer_interval (timer k p)) + 1 < SCHEDULER_TIMEVAL_SEC_INVALID) ->
  timer_due k (after_match k p) = false.
Proof.
  intros Hp Hi Hc Hn Hint. unfold after_match.
  destruct (slot_due k p) eqn:E; [|unfold slot_due in E; now rewrite Hi in E].
  destruct (Hint eq_refl) as [Hnorm Hsum].
  assert (Hper : forall b : bool, is_periodic (if b then with_tflags (Bits.set
      (timer_o_flags (timer k p)) FLAG_IS_QUEUED) (timer k p) else timer k p) = is_periodic (timer k p))
    by now intros [].
  assert (Hiv : forall b : bool, timer_interval (if b then with_tflags (Bits.set
      (timer_o_flags (timer k p)) FLAG_IS_QUEUED) (timer k p) else timer k p) = timer_interval (timer k p))
    by now intros [].
  apply timer_due_future. unfold reloaded, with_tvalue. cbn [timer_value]. rewrite Hper, Hiv.
  destruct (is_periodic (timer k p)) eqn:Ep.
  - unfold is_periodic in Ep. apply negb_true_iff, Z.eqb_neq in Ep.
    destruct (add_interval_future (sched_usecond_counter k) (clk_now k) _ (proj1 Hc) Hn Hnorm Hsum Ep); lia.
  - cbn [tv_sec]. lia.
Qed.

(** C18: After the timer interrupt no timer is overdue, and the alarm comes no later
    than the deadline of any timer that is due before the period ends: no process
    timer is missed, provided the intervals of the timers that fire are normalised
    and do not reach the end of time. *)
Theorem no_timer_missed s :
  timers_wf (t_k s) ->
  0 <= sched_usecond_counter (t_k s) < SCHEDULER_TIMEVAL_SEC_INVALID ->
  0 <= clk_now (t_k s) <= SOS_USECOND_PERIOD ->
  (forall p, slot p -> slot_due (t_k s) p = true ->
     timer_signo (t_timer s p) <> 0 /\ tv_norm (timer_interval (t_timer s p)) /\
     sched_usecond_counter (t_k s) + tv_sec (timer_interval (t_timer s p)) + 1 < SCHEDULER_TIMEVAL_SEC_INVALID) ->
  let s' := root_handle_usecond_process_timer_match_event stack_room s in
  forall p, p ∈ live_slots (t_k s) -> initialized (t_timer s p) = true ->
  timer_due (t_k s') (t_timer s' p) = false /\
  (tv_sec (timer_value (t_timer s' p)) = sched_usecond_counter (t_k s') ->
   tv_usec (timer_value (t_timer s' p)) < SOS_USECOND_PERIOD ->
   clk_timer_oc (t_k s') <= tv_usec (timer_value (t_timer s' p))).
Proof.
  intros Hwf Hc Hn Hs s' p Hp Hi. assert (Hsl : slot p).
  { apply elem_of_live_until in Hp as (_ & ? & ?). split; [|done]. unfold task_id, task_get_total in *. lia. }
  pose proof (timer_scan_matched s Hwf ltac:(lia) (fun p Hp E => proj1 (Hs p Hp E))) as [F T I N].
  subst s'. unfold root_handle_usecond_process_timer_match_event. destruct (for_range _ _ _ _) as [s1 next].
  cbn [fst snd] in *. specialize (T p Hsl). rewrite decide_True in T by done.
  cbv zeta. change (t_timer (t_with ?k s1) p) with (timer k p).
  change (timer (set_timer_oc ?v ?k) p) with (timer k p). change (timer (t_k s1) p) with (t_timer s1 p).
  rewrite T. split.
  - etrans; [exact (timer_due_frame (t_k s) (t_k s1) _ F)|].
    apply after_match_future; auto. intros E. apply Hs; done.
  - intros Hsec Hus. cbn [t_k t_with set_timer_oc clk_timer_oc sched_usecond_counter] in *.
    rewrite (cf_counter _ _ F) in Hsec.
    pose proof (next_alarm_lower (t_k s) _ p Hp) as Hle. rewrite <- N in Hle.
    unfold deadline in Hle. rewrite (proj2 (Z.eqb_eq _ _) Hsec) in Hle.
    assert (Hi' : initialized (after_match (t_k s) p) = true).
    { unfold after_match. destruct (slot_due _ _); [now apply reloaded_initialized|exact Hi]. }
    rewrite Hi' in Hle. cbn [andb] in Hle. destruct (Z.ltb_spec next SOS_USECOND_PERIOD); lia.
Qed.

(** ** Setting a timer *)

Definition clamp_interval (i : mcu_timeval) : mcu_timeval :=
  if (tv_sec i =? 0) && (0 <? tv_usec i) && (tv_usec i <? SCHED_USECOND_TMR_MINIMUM_PROCESS_TIMER_INTERVAL)
  then mk_timeval (tv_sec i) SCHED_USECOND_TMR_MINIMUM_PROCESS_TIMER_INTERVAL else i.
(** The timer [svcall_settime] arms before it looks at the alarm. *)
Definition set_relative (u : Z) (interval : mcu_timeval) (p : Z * Z) (s : tsys) : tsys :=
  on_t p (fun t => with_tinterval (clamp_interval interval) (with_tvalue
    (scheduler_timing_add_mcu_timeval (scheduler_timing_root_get_realtime (t_k s)) (mk_timeval 0 u)) t)) s.

Lemma svcall_settime_relative fuel timer_id p u interval s :
  scheduler_timing_process_timer timer_id = Some p -> u <> 0 ->
  exists o_value,
  svcall_settime stack_room fuel timer_id 0 (mk_timeval 0 u) interval s
  = match update_tmr_for_process_timer_match stack_room fuel p (set_relative u interval p s) with
    | None => None
    | Some s' => Some (s', Ret 0, o_value, timer_interval (t_timer s p))
    end.
Proof.
  intros Hid Hu. unfold svcall_settime. rewrite Hid. cbn [tv_sec tv_usec].
  rewrite (proj2 (Z.eqb_neq u 0) Hu), andb_false_r.
  change (Bits.any 0 TIMER_ABSTIME) with false. cbn [negb]. eexists. reflexivity.
Qed.
Lemma add_usec c now u : 0 <= c < 2 ^ 32 - 1 -> 0 <= now <= SOS_USECOND_PERIOD -> 0 <= u <= SOS_USECOND_PERIOD ->
  scheduler_timing_add_mcu_timeval (mk_timeval c now) (mk_timeval 0 u)
  = if SOS_USECOND_PERIOD <? now + u then mk_timeval (c + 1) (now + u - SOS_USECOND_PERIOD)
    else mk_timeval c (now + u).
Proof.
  intros Hc Hn Hu. assert (HP : SOS_USECOND_PERIOD = 2048000000) by reflexivity. rewrite HP in *.
  unfold scheduler_timing_add_mcu_timeval. cbn [tv_sec tv_usec].
  rewrite HP, Z.add_0_r, (u32_id c), (u32_id (now + u)), (u32_id (c + 1)) by lia.
  destruct (Z.ltb_spec 2048000000 (now + u)); [|done]. f_equal. apply u32_id. lia.
Qed.
Lemma set_relative_step u interval p s : timers_wf (t_k s) -> slot p ->
  timer_step p (with_tinterval (clamp_interval interval) (with_tvalue
    (scheduler_timing_add_mcu_timeval (scheduler_timing_root_get_realtime (t_k s)) (mk_timeval 0 u))
    (t_timer s p))) [] s (set_relative u interval p s).
Proof. exact (on_t_step p _ s). Qed.
Lemma process_timer_slot timer_id p : scheduler_timing_process_timer timer_id = Some p -> slot p.
Proof.
  unfold scheduler_timing_process_timer. case_match eqn:E; [|done]. intros [= <-].
  apply andb_true_iff in E as [?%Z.ltb_lt ?%Z.ltb_lt]. unfold slot, task_id, task_get_total in *. cbn [fst snd].
  unfold timer_task, timer_offset, u8 in *.
  pose proof (Z.mod_pos_bound (Z.shiftr timer_id 8) (2 ^ 8) ltac:(lia)).
  pose proof (Z.mod_pos_bound (Z.land timer_id 255) (2 ^ 8) ltac:(lia)). split; lia.
Qed.

(** Setting a timer to go off in [u] microseconds, within the running 2048 s
    period, arms it and nothing else: the call returns, no signal is sent, the
    alarm is moved up when the new deadline is earlier, [timer_gettime] gives the
    time that was set with the interval (raised to the 100 us minimum), and no
    other timer changes. *)
Theorem timer_settime_gettime_roundtrip fuel timer_id p u interval s :
  timers_wf (t_k s) -> scheduler_timing_process_timer timer_id = Some p ->
  0 <= sched_usecond_counter (t_k s) < SCHEDULER_TIMEVAL_SEC_INVALID ->
  0 <= clk_now (t_k s) -> 0 < u -> clk_now (t_k s) + u <= SOS_USECOND_PERIOD ->
  exists s' o_value,
  svcall_settime stack_room (S fuel) timer_id 0 (mk_timeval 0 u) interval s
  = Some (s', Ret 0, o_value, timer_interval (t_timer s p)) /\
  svcall_gettime timer_id (t_k s') = Some (mk_timeval 0 u, clamp_interval interval) /\
  t_intr s' = t_intr s /\
  clk_timer_oc (t_k s') = Z.min (clk_timer_oc (t_k s)) (clk_now (t_k s) + u) /\
  (forall q, slot q -> q <> p -> t_timer s' q = t_timer s q).
Proof.
  intros Hwf Hid Hc Hn Hu Hp. pose proof (process_timer_slot _ _ Hid) as Hsl.
  destruct (svcall_settime_relative (S fuel) timer_id p u interval s Hid ltac:(lia)) as [ov ->].
  set (s1 := set_relative u interval p s).
  pose proof (set_relative_step u interval p s Hwf Hsl) as S1. fold s1 in S1. clearbody s1.
  pose proof (timer_step_self _ _ _ _ _ S1 Hsl) as T1.
  destruct S1 as [F1 O1 I1]. rewrite app_nil_r in I1.
  assert (HI : SCHEDULER_TIMEVAL_SEC_INVALID = 2 ^ 32 - 1) by reflexivity.
  assert (HP : SOS_USECOND_PERIOD = 2048000000) by reflexivity.
  unfold scheduler_timing_root_get_realtime in T1.
  rewrite add_usec in T1 by lia. destruct (Z.ltb_spec SOS_USECOND_PERIOD (clk_now (t_k s) + u)); [lia|].
  assert (Hg : forall v, svcall_gettime timer_id (set_timer_oc v (t_k s1)) = Some (mk_timeval 0 u, clamp_interval interval)).
  { intros v. unfold svcall_gettime. rewrite Hid.
    change (timer (set_timer_oc v (t_k s1)) p) with (t_timer s1 p). rewrite T1.
    cbn [timer_value timer_interval with_tinterval with_tvalue tv_sec tv_usec].
    rewrite (proj2 (Z.eqb_neq _ _)) by lia. do 2 f_equal.
    unfold scheduler_timing_root_get_realtime, scheduler_timing_subtract_mcu_timeval. cbn [tv_sec tv_usec].
    rewrite (cf_counter _ _ F1 : sched_usecond_counter (set_timer_oc v (t_k s1)) = _), Z.ltb_irrefl, Z.eqb_refl.
    rewrite (cf_now _ _ F1 : clk_now (set_timer_oc v (t_k s1)) = _).
    rewrite (proj2 (Z.leb_le _ _)) by lia. f_equal. rewrite u32_id; lia. }
  cbn [update_tmr_for_process_timer_match]. rewrite T1.
  cbn [timer_value with_tinterval with_tvalue tv_sec tv_usec].
  rewrite (cf_counter _ _ F1), (cf_now _ _ F1), (cf_oc _ _ F1), Z.eqb_refl, Z.leb_refl.
  rewrite (proj2 (Z.eqb_neq (sched_usecond_counter (t_k s)) SCHEDULER_TIMEVAL_SEC_INVALID)) by lia.
  rewrite (proj2 (Z.ltb_lt (clk_now (t_k s)) (clk_now (t_k s) + u))) by lia. cbn [negb andb].
  assert (Hother : forall q, slot q -> q <> p -> t_timer s1 q = t_timer s q).
  { intros q Hq Hne. rewrite O1 by done. now rewrite decide_False by congruence. }
  destruct (Z.ltb_spec (clk_now (t_k s) + u) (clk_timer_oc (t_k s))).
  - exists (t_with (set_timer_oc (clk_now (t_k s) + u) (t_k s1)) s1), ov.
    split; [done|]. split; [apply Hg|]. split; [exact I1|]. split; [|exact Hother].
    cbn [t_k t_with set_timer_oc clk_timer_oc]. lia.
  - exists s1, ov. split; [done|]. split; [|split; [exact I1|split; [|exact Hother]]].
    + rewrite <- (Hg (clk_timer_oc (t_k s1))). now destruct (t_k s1).
    + rewrite (cf_oc _ _ F1). lia.
Qed.

(** A deadline after the running period is treated as due. *)
Lemma update_next_period fuel p s :
  sched_usecond_counter (t_k s) < tv_sec (timer_value (t_timer s p)) < SCHEDULER_TIMEVAL_SEC_INVALID ->
  update_tmr_for_process_timer_match stack_room (S fuel) p s
  = let s' := send_and_reload_timer stack_room p (current (t_k s)) (clk_now (t_k s)) s in
    if is_periodic (t_timer s' p) then update_tmr_for_process_timer_match stack_room fuel p s' else Some s'.
Proof.
  intros H. cbn [update_tmr_for_process_timer_match].
  rewrite (proj2 (Z.eqb_neq (tv_sec (timer_value (t_timer s p))) SCHEDULER_TIMEVAL_SEC_INVALID)) by lia.
  rewrite (proj2 (Z.leb_le (sched_usecond_counter (t_k s)) (tv_sec (timer_value (t_timer s p))))) by lia.
  rewrite (proj2 (Z.eqb_neq (tv_sec (timer_value (t_timer s p))) (sched_usecond_counter (t_k s)))) by lia.
  reflexivity.
Qed.

(** A timer whose present deadline and whose next reload both lie after the
    running period. *)
Definition reloads_past_period (p : Z * Z) (s : tsys) : Prop :=
  let t := t_timer s p in
  let reload := scheduler_timing_add_mcu_timeval
                  (mk_timeval (sched_usecond_counter (t_k s)) (clk_now (t_k s))) (timer_interval t) in
  timers_wf (t_k s) /\ timer_signo t <> 0 /\ is_periodic t = true /\
  sched_usecond_counter (t_k s) < tv_sec (timer_value t) < SCHEDULER_TIMEVAL_SEC_INVALID /\
  sched_usecond_counter (t_k s) < tv_sec reload < SCHEDULER_TIMEVAL_SEC_INVALID.
Lemma reloads_past_period_step p s : slot p -> reloads_past_period p s ->
  reloads_past_period p (send_and_reload_timer stack_room p (current (t_k s)) (clk_now (t_k s)) s).
Proof.
  intros Hp (Hwf & Hs & Hper & Hv & Hr).
  assert (Hcur : task_id (current (t_k s))) by apply Hwf.
  pose proof (send_and_reload_spec p _ s Hwf Hp Hcur Hs) as S1.
  generalize dependent (send_and_reload_timer stack_room p (current (t_k s)) (clk_now (t_k s)) s).
  intros s1 S1. pose proof (timer_step_self _ _ _ _ _ S1 Hp) as T1. destruct S1 as [F _ _].
  unfold reloads_past_period. rewrite T1, (cf_counter _ _ F), (cf_now _ _ F), reloaded_periodic.
  assert (Hiv : timer_interval (reloaded (t_k s) (current (t_k s)) (t_timer s p)) = timer_interval (t_timer s p))
    by (unfold reloaded; now destruct (accepted _ _ _)).
  assert (Hsg : timer_signo (reloaded (t_k s) (current (t_k s)) (t_timer s p)) = timer_signo (t_timer s p))
    by (unfold reloaded; now destruct (accepted _ _ _)).
  rewrite Hiv, Hsg. split; [now apply F|]. repeat split; try done; try lia.
  all: unfold reloaded, with_tvalue; cbn [timer_value];
    destruct (accepted _ _ _); unfold is_periodic in *; cbn [timer_interval with_tflags]; rewrite Hper; lia.
Qed.
Lemma update_diverges fuel p s : slot p -> reloads_past_period p s ->
  update_tmr_for_process_timer_match stack_room fuel p s = None.
Proof.
  intros Hp. revert s. induction fuel as [|fuel IH]; intros s H; [done|].
  rewrite update_next_period by apply H. pose proof (reloads_past_period_step p s Hp H) as H1.
  cbv zeta. generalize dependent (send_and_reload_timer stack_room p (current (t_k s)) (clk_now (t_k s)) s).
  intros s1 H1. destruct (H1) as (_ & _ & -> & _). now apply IH.
Qed.

(** A timer set [u] microseconds ahead fires at once when the deadline falls in
    the next 2048 s period: the call stacks the signal on task 0 for the calling
    thread and disarms the timer, because [update_tmr_for_process_timer_match]
    takes every deadline outside the running period to be due. *)
Theorem timer_next_period_fires_early fuel timer_id p u s :
  timers_wf (t_k s) -> scheduler_timing_process_timer timer_id = Some p ->
  0 <= sched_usecond_counter (t_k s) -> sched_usecond_counter (t_k s) + 1 < SCHEDULER_TIMEVAL_SEC_INVALID ->
  0 <= clk_now (t_k s) <= SOS_USECOND_PERIOD -> 0 < u <= SOS_USECOND_PERIOD ->
  SOS_USECOND_PERIOD < clk_now (t_k s) + u ->
  timer_signo (t_timer s p) <> 0 -> accepted (t_k s) (current (t_k s)) (t_timer s p) = true ->
  enabled (t_k s) 0 = true ->
  exists s' o_value,
  svcall_settime stack_room (S fuel) timer_id 0 (mk_timeval 0 u) (mk_timeval 0 0) s
  = Some (s', Ret 0, o_value, timer_interval (t_timer s p)) /\
  t_intr s' = t_intr s ++ [mk_intr 0 true (current (t_k s)) (timer_signo (t_timer s p)) SI_TIMER
                             (timer_sigval (t_timer s p))] /\
  tv_sec (timer_value (t_timer s' p)) = SCHEDULER_TIMEVAL_SEC_INVALID.
Proof.
  intros Hwf Hid Hc Hc1 Hn Hu Hpast Hs Hacc He. pose proof (process_timer_slot _ _ Hid) as Hsl.
  destruct (svcall_settime_relative (S fuel) timer_id p u (mk_timeval 0 0) s Hid ltac:(lia)) as [ov ->].
  pose proof (set_relative_step u (mk_timeval 0 0) p s Hwf Hsl) as S1.
  generalize dependent (set_relative u (mk_timeval 0 0) p s). intros s1 S1.
  pose proof (timer_step_self _ _ _ _ _ S1 Hsl) as T1. destruct S1 as [F1 _ I1]. rewrite app_nil_r in I1.
  assert (HI : SCHEDULER_TIMEVAL_SEC_INVALID = 2 ^ 32 - 1) by reflexivity.
  unfold scheduler_timing_root_get_realtime in T1. rewrite add_usec in T1 by lia.
  rewrite (proj2 (Z.ltb_lt _ _) Hpast) in T1.
  rewrite update_next_period by (rewrite T1, (cf_counter _ _ F1); simpl; lia).
  assert (Hwf1 : timers_wf (t_k s1)) by now apply F1.
  pose proof (send_and_reload_spec p (current (t_k s1)) s1 Hwf1 Hsl (proj2 (proj1 (proj1 Hwf1)))
    ltac:(rewrite T1; exact Hs)) as S2. cbv zeta.
  generalize dependent (send_and_reload_timer stack_room p (current (t_k s1)) (clk_now (t_k s1)) s1).
  intros s2 S2. rewrite (timer_step_self _ _ _ _ _ S2 Hsl), reloaded_periodic, T1.
  exists s2, ov. split; [reflexivity|].
  assert (Ha : accepted (t_k s1) (current (t_k s1)) (t_timer s1 p) = true).
  { rewrite T1, (cf_current _ _ F1). unfold accepted, signal_frame. rewrite (cf_current _ _ F1). exact Hacc. }
  split.
  - rewrite (ts_intr _ _ _ _ _ S2), I1. f_equal. unfold fired. rewrite Ha. unfold signal_frame.
    rewrite Z.eqb_refl. cbn [i_tid]. rewrite (cf_enabled _ _ F1) by lia. rewrite He, T1, (cf_current _ _ F1).
    reflexivity.
  - rewrite (timer_step_self _ _ _ _ _ S2 Hsl). unfold reloaded. rewrite Ha, T1. reflexivity.
Qed.

(** Setting a periodic timer whose first deadline and whose interval both reach
    past the running 2048 s period does not return: the reload after the early
    firing is again outside the period, so [update_tmr_for_process_timer_match]
    calls itself without end. *)
Theorem timer_reload_recurses fuel timer_id p u interval s :
  timers_wf (t_k s) -> scheduler_timing_process_timer timer_id = Some p ->
  0 <= sched_usecond_counter (t_k s) -> 0 <= clk_now (t_k s) <= SOS_USECOND_PERIOD ->
  0 < u <= SOS_USECOND_PERIOD -> SOS_USECOND_PERIOD < clk_now (t_k s) + u ->
  tv_norm interval -> 0 < tv_sec interval < 2 ^ 31 ->
  sched_usecond_counter (t_k s) + tv_sec interval + 1 < SCHEDULER_TIMEVAL_SEC_INVALID ->
  timer_signo (t_timer s p) <> 0 ->
  svcall_settime stack_room fuel timer_id 0 (mk_timeval 0 u) interval s = None.
Proof.
  intros Hwf Hid Hc Hn Hu Hpast [Hi1 Hi2] Hi3 Hsum Hs. pose proof (process_timer_slot _ _ Hid) as Hsl.
  destruct (svcall_settime_relative fuel timer_id p u interval s Hid ltac:(lia)) as [ov ->].
  pose proof (set_relative_step u interval p s Hwf Hsl) as S1.
  generalize dependent (set_relative u interval p s). intros s1 S1.
  pose proof (timer_step_self _ _ _ _ _ S1 Hsl) as T1. destruct S1 as [F1 _ _].
  assert (HI : SCHEDULER_TIMEVAL_SEC_INVALID = 4294967295) by reflexivity.
  assert (HP : SOS_USECOND_PERIOD = 2048000000) by reflexivity.
  unfold scheduler_timing_root_get_realtime in T1. rewrite add_usec in T1 by lia.
  rewrite (proj2 (Z.ltb_lt _ _) Hpast) in T1.
  assert (Hcl : clamp_interval interval = interval).
  { unfold clamp_interval. rewrite (proj2 (Z.eqb_neq (tv_sec interval) 0)) by lia. reflexivity. }
  rewrite Hcl in T1. rewrite update_diverges; [done|done|].
  unfold reloads_past_period. rewrite T1, (cf_counter _ _ F1), (cf_now _ _ F1).
  cbn [timer_signo timer_interval timer_value with_tinterval with_tvalue tv_sec].
  split; [now apply F1|]. split; [exact Hs|]. split.
  - unfold is_periodic. cbn [timer_interval with_tinterval]. rewrite u32_id by lia.
    apply negb_true_iff, Z.eqb_neq. lia.
  - split; [lia|]. unfold scheduler_timing_add_mcu_timeval. cbn [tv_sec tv_usec].
    rewrite (u32_id (sched_usecond_counter (t_k s) + tv_sec interval)) by lia.
    destruct (_ <? _); cbn [tv_sec]; [rewrite u32_id by lia|]; lia.
Qed.
End Fire.

(** ** A system to run the timers on

    Thread 1 runs at count 1000; its timer 0 was due at 900 and its timer 1 is
    periodic, due at 1000; thread 6 has one due at 5000. *)
Definition demo_timer (v i : mcu_timeval) (sigval : Z) : sos_process_timer_t :=
  mk_timer FLAG_IS_INITIALIZED v i SIGEV_SIGNAL SIGALRM sigval.
Definition free_timer : sos_process_timer_t := mk_timer 0 (mk_timeval 0 0) (mk_timeval 0 0) 0 0 0.
Definition demo_timers : kernel :=
  let k := mk_kernel (k_tasks example_kernel)
             ((fun t => with_timers (replicate 4 free_timer) t) <$> sos_sched_table example_kernel)
             0 1000 0 (SOS_USECOND_PERIOD + 1) in
  let k := on_timer (1, 0) (fun _ => demo_timer (mk_timeval 0 900) (mk_timeval 0 0) 256) k in
  let k := on_timer (1, 1) (fun _ => demo_timer (mk_timeval 0 1000) (mk_timeval 0 250) 257) k in
  let k := on_timer (6, 0) (fun _ => demo_timer (mk_timeval 0 5000) (mk_timeval 0 0) 1536) k in
  on_timer (1, 2) (fun _ => demo_timer (mk_timeval SCHEDULER_TIMEVAL_SEC_INVALID 0) (mk_timeval 0 0) 258) k.
Definition demo_tsys : tsys := mk_tsys demo_timers [].
Definition room (_ : Z) : bool := true.

Lemma timers_wf_intro k : kernel_wf k ->
  Forall (fun t => Zlen (sched_timer t) = CONFIG_TASK_PROCESS_TIMER_COUNT) (sos_sched_table k) -> timers_wf k.
Proof.
  intros Hwf H. split; [done|]. intros i [Hi1 Hi2]. destruct Hwf as [_ Hl].
  destruct (sos_sched_table k !! Z.to_nat i) as [t|] eqn:E.
  - unfold sched, Zget. rewrite (list_lookup_total_correct _ _ _ E).
    exact (proj1 (Forall_lookup _ _) H _ _ E).
  - apply lookup_ge_None in E. unfold Zlen in Hl. lia.
Qed.
Lemma demo_timers_wf : timers_wf demo_timers.
Proof. apply timers_wf_intro; [done|]. vm_compute. by repeat constructor. Qed.
(** To check the slots of a concrete table one by one. *)
Definition all_slots : list (Z * Z) :=
  seqZ 0 CONFIG_TASK_TOTAL ≫= fun i => pair i <$> seqZ 0 CONFIG_TASK_PROCESS_TIMER_COUNT.
Lemma each_slot (f : Z * Z -> bool) : forallb f all_slots = true -> forall p, slot p -> f p = true.
Proof.
  intros H [i j] [Hi Hj]. rewrite forallb_forall in H. apply H, list_elem_of_In. unfold all_slots.
  apply list_elem_of_bind. exists i. split; [|apply elem_of_seqZ; unfold task_id in Hi; simpl in *; lia].
  apply list_elem_of_fmap. exists j. split; [done|]. apply elem_of_seqZ. simpl in *. lia.
Qed.
Lemma demo_due p : slot p -> slot_due demo_timers p = true -> p = (1, 0) \/ p = (1, 1).
Proof.
  intros Hp Hd. set (f := fun p : Z * Z => negb (slot_due demo_timers p)
    || bool_decide (p = (1, 0)) || bool_decide (p = (1, 1))).
  assert (Hall : forallb f all_slots = true) by (vm_compute; reflexivity).
  pose proof (each_slot f Hall p Hp) as H. subst f. cbv beta in H. rewrite Hd in H. cbn [negb orb] in H.
  apply orb_true_iff in H as [?%bool_decide_eq_true|?%bool_decide_eq_true]; auto.
Qed.

Lemma timer_interrupt_fires_due_witness :
  t_intr (root_handle_usecond_process_timer_match_event room demo_tsys)
  = [mk_intr 0 true 1 SIGALRM SI_TIMER 256; mk_intr 0 true 1 SIGALRM SI_TIMER 257].
Proof.
  destruct (timer_interrupt_fires_due room demo_tsys demo_timers_wf ltac:(done)) as [H _].
  - intros p Hp Hd. destruct (demo_due p Hp Hd) as [-> | ->]; vm_compute; congruence.
  - rewrite H. vm_compute. reflexivity.
Defined.
Lemma no_timer_missed_witness :
  let s' := root_handle_usecond_process_timer_match_event room demo_tsys in
  clk_timer_oc (t_k s') = 1250 /\ timer_due (t_k s') (t_timer s' (1, 1)) = false.
Proof.
  split; [vm_compute; reflexivity|].
  refine (proj1 (no_timer_missed room demo_tsys demo_timers_wf ltac:(done) ltac:(done) _ (1, 1) _ _)).
  - intros p Hp Hd. destruct (demo_due p Hp Hd) as [-> | ->]; vm_compute; repeat split; congruence.
  - apply elem_of_live_until. vm_compute. repeat constructor; congruence.
  - reflexivity.
Defined.
Lemma timer_settime_gettime_roundtrip_witness :
  exists s' o, svcall_settime room 1 258 0 (mk_timeval 0 500) (mk_timeval 0 20) demo_tsys
               = Some (s', Ret 0, o, mk_timeval 0 0) /\
  svcall_gettime 258 (t_k s') = Some (mk_timeval 0 500, mk_timeval 0 100) /\
  clk_timer_oc (t_k s') = 1500.
Proof.
  destruct (timer_settime_gettime_roundtrip room 0 258 (1, 2) 500 (mk_timeval 0 20) demo_tsys
    demo_timers_wf ltac:(reflexivity) ltac:(done) ltac:(done) ltac:(done) ltac:(done)) as (s' & o & H1 & H2 & _ & H3 & _).
  exists s', o. split; [rewrite H1; reflexivity|]. split; [exact H2|rewrite H3; reflexivity].
Defined.
Definition demo_late : tsys := mk_tsys (with_now (SOS_USECOND_PERIOD - 100) demo_timers) [].
Lemma demo_late_wf : timers_wf (t_k demo_late).
Proof. apply timers_wf_intro; [done|]. vm_compute. by repeat constructor. Qed.
Lemma timer_next_period_fires_early_witness :
  exists s' o, svcall_settime room 1 258 0 (mk_timeval 0 1000000) (mk_timeval 0 0) demo_late
               = Some (s', Ret 0, o, mk_timeval 0 0) /\
  t_intr s' = [mk_intr 0 true 1 SIGALRM SI_TIMER 258].
Proof.
  destruct (timer_next_period_fires_early room 0 258 (1, 2) 1000000 demo_late demo_late_wf
    ltac:(reflexivity) ltac:(done) ltac:(done) ltac:(done) ltac:(done) ltac:(done) ltac:(done)
    ltac:(reflexivity) ltac:(reflexivity)) as (s' & o & H1 & H2 & _).
  exists s', o. split; [rewrite H1; reflexivity|]. rewrite H2. reflexivity.
Defined.
Lemma timer_reload_recurses_witness :
  svcall_settime room 1000 258 0 (mk_timeval 0 1000000) (mk_timeval 1 0) demo_late = None.
Proof.
  apply (timer_reload_recurses room 1000 258 (1, 2) 1000000 (mk_timeval 1 0) demo_late demo_late_wf);
    vm_compute; repeat split; congruence.
Defined.

(** ** Creating timers *)

(** [k'] is [k] with slot [p] initialised for [event]. *)
Definition allocated (p : Z * Z) (e : sigevent) (k : kernel) : kernel :=
  on_timer p (fun _ => mk_timer FLAG_IS_INITIALIZED (mk_timeval SCHEDULER_TIMEVAL_SEC_INVALID 0)
                         (mk_timeval 0 0) (se_notify e) (se_signo e) (se_value e)) k.
Definition timer_id_of (p : Z * Z) : Z := SCHEDULER_TIMING_PROCESS_TIMER p.1 p.2.
Definition free_slot (k : kernel) (p : Z * Z) : bool := timer_o_flags (timer k p) =? 0.

Lemma timer_id_roundtrip p : slot p -> scheduler_timing_process_timer (timer_id_of p) = Some p.
Proof.
  destruct p as [i j]. intros [Hi Hj]. unfold task_id in Hi. cbn [fst snd] in *.
  set (f := fun p => bool_decide (scheduler_timing_process_timer (timer_id_of p) = Some p)).
  assert (Hall : forallb f all_slots = true) by (vm_compute; reflexivity).
  exact (proj1 (bool_decide_eq_true _) (each_slot f Hall (i, j) (conj Hi Hj))).
Qed.
Lemma timer_id_nonneg p : slot p -> 0 <= timer_id_of p.
Proof.
  intros [[? _] [? _]]. unfold timer_id_of, SCHEDULER_TIMING_PROCESS_TIMER.
  apply Z.lor_nonneg. rewrite Z.shiftl_nonneg. lia.
Qed.

(** The first free slot of a list. *)
Definition first_free (k : kernel) (l : list (Z * Z)) : option (Z * Z) :=
  head (filter (fun p => free_slot k p = true) l).
Definition create_in (e : sigevent) (k : kernel) (l : list (Z * Z)) : kernel * Z :=
  match first_free k l with
  | Some p => (allocated p e k, timer_id_of p)
  | None => (k, -1)
  end.
Lemma first_free_app k l1 l2 :
  first_free k (l1 ++ l2) = match first_free k l1 with Some p => Some p | None => first_free k l2 end.
Proof. unfold first_free. rewrite filter_app. by destruct (filter _ l1). Qed.
Lemma create_offsets_spec t offs e k :
  create_offsets t offs (Some e) k = create_in e k (pair t <$> offs).
Proof.
  unfold create_in. induction offs as [|o offs IH]; [done|]. unfold first_free in *.
  rewrite fmap_cons, filter_cons. cbn [create_offsets]. unfold root_allocate_timer.
  case_decide as E; unfold free_slot in E.
  - rewrite E. reflexivity.
  - apply not_true_is_false in E. rewrite E. exact IH.
Qed.
Lemma first_free_some k l p : first_free k l = Some p -> p ∈ l /\ free_slot k p = true.
Proof.
  unfold first_free. intros H. apply head_Some_elem_of in H.
  apply list_elem_of_filter in H. tauto.
Qed.

(** The slots of the tasks of process [pid], in table order. *)
Definition process_slots_of (k : kernel) (pid : Z) (tasks : list Z) : list (Z * Z) :=
  tasks ≫= fun t => if task_get_pid (k_tasks k) t =? pid
                    then pair t <$> seqZ 0 CONFIG_TASK_PROCESS_TIMER_COUNT else [].
Definition process_slots (k : kernel) : list (Z * Z) :=
  process_slots_of k (task_get_pid (k_tasks k) (current k)) (seqZ 0 task_get_total).
Lemma elem_of_process_slots_of k pid tasks p : p ∈ process_slots_of k pid tasks ->
  p.1 ∈ tasks /\ task_get_pid (k_tasks k) p.1 = pid /\ 0 <= p.2 < CONFIG_TASK_PROCESS_TIMER_COUNT.
Proof.
  intros (t & Hp & Ht)%list_elem_of_bind. destruct (Z.eqb_spec (task_get_pid (k_tasks k) t) pid); [|set_solver].
  apply list_elem_of_fmap in Hp as (j & -> & Hj%elem_of_seqZ). cbn [fst snd]. repeat split; try done; lia.
Qed.
Lemma create_tasks_spec pid tasks e k : Forall task_id tasks ->
  create_tasks pid tasks (Some e) k = create_in e k (process_slots_of k pid tasks).
Proof.
  induction 1 as [|t tasks Ht _ IH]; [done|]. cbn [create_tasks]. unfold process_slots_of in *. rewrite bind_cons.
  destruct (task_get_pid (k_tasks k) t =? pid); [|exact IH].
  rewrite create_offsets_spec. unfold create_in in *. rewrite first_free_app.
  destruct (first_free k (pair t <$> _)) as [p|] eqn:E.
  - apply first_free_some in E as [(j & -> & Hj%elem_of_seqZ)%list_elem_of_fmap _].
    assert (0 <= timer_id_of (t, j)) by (apply timer_id_nonneg; split; [done|cbn [snd]; lia]).
    rewrite (proj2 (Z.eqb_neq _ _)) by lia. done.
  - change (-1 =? -1) with true. exact IH.
Qed.

(** [timer_create] gives the first timer of the calling process that is not in
    use and disarms it; the id it returns names that slot and no other timer
    changes.  It fails with [EAGAIN], changing nothing, exactly when every timer
    of the process is in use. *)
Theorem timer_create_first_free e k : timers_wf k -> se_notify e <> SIGEV_THREAD ->
  match first_free k (process_slots k) with
  | None => timer_create CLOCK_REALTIME e k = (k, inr EAGAIN)
  | Some p =>
      exists timer_id, timer_create CLOCK_REALTIME e k = (allocated p e k, inl timer_id) /\
      scheduler_timing_process_timer timer_id = Some p /\
      timer_o_flags (timer k p) = 0 /\ task_get_pid (k_tasks k) p.1 = task_get_pid (k_tasks k) (current k) /\
      svcall_gettime timer_id (allocated p e k) = Some (mk_timeval 0 0, mk_timeval 0 0) /\
      (forall q, slot q -> q <> p -> timer (allocated p e k) q = timer k q)
  end.
Proof.
  intros Hwf He. unfold timer_create, scheduler_timing_process_create_timer.
  change (CLOCK_REALTIME =? CLOCK_REALTIME) with true. cbn [negb].
  rewrite (proj2 (Z.eqb_neq _ _) He), create_tasks_spec
    by (apply Forall_seqZ; unfold task_id, task_get_total; lia).
  fold (process_slots k). unfold create_in.
  destruct (first_free k (process_slots k)) as [p|] eqn:E; [|reflexivity].
  apply first_free_some in E as [Hin Hf]. apply elem_of_process_slots_of in Hin as (Hp1 & Hpid & Hp2).
  assert (Hp : slot p) by (apply elem_of_seqZ in Hp1; unfold slot, task_id, task_get_total in *; lia).
  pose proof (timer_id_nonneg p Hp). rewrite (proj2 (Z.eqb_neq _ _)) by lia.
  exists (timer_id_of p). split; [done|]. split; [now apply timer_id_roundtrip|].
  split; [now apply Z.eqb_eq|]. split; [done|]. unfold allocated. split.
  - unfold svcall_gettime. rewrite timer_id_roundtrip by done. rewrite timer_on_timer by done.
    rewrite decide_True by done. reflexivity.
  - intros q Hq Hne. rewrite timer_on_timer by done. now rewrite decide_False by congruence.
Qed.
Lemma timer_create_first_free_witness :
  exists k', timer_create CLOCK_REALTIME (mk_sigevent SIGEV_SIGNAL 10 77) demo_timers = (k', inl 259) /\
  scheduler_timing_process_timer 259 = Some (1, 3).
Proof.
  pose proof (timer_create_first_free (mk_sigevent SIGEV_SIGNAL 10 77) demo_timers demo_timers_wf
    ltac:(done)) as H.
  replace (first_free demo_timers (process_slots demo_timers)) with (Some (1, 3)) in H
    by (vm_compute; reflexivity).
  destruct H as (id & H & Hid & _). exists (allocated (1, 3) (mk_sigevent SIGEV_SIGNAL 10 77) demo_timers).
  split; [|reflexivity]. rewrite H. do 2 f_equal.
  assert (Hi : (timer_create CLOCK_REALTIME (mk_sigevent SIGEV_SIGNAL 10 77) demo_timers).2 = inl 259)
    by (vm_compute; reflexivity).
  rewrite H in Hi. simpl in Hi. congruence.
Defined.
