(* ===== verification/Memory.v ===== *)
(** * Byte memory

    Memory as a function from addresses to bytes, little-endian loads and stores
    of the widths the code uses, [memset] and [memcpy], and the zero-sum checksum
    of [src/cortexm/cortexm.c]. *)
From S2P Require Import Prelude.

Definition mem := Z -> Z.

Definition load8 (m : mem) (a : Z) : Z := u8 (m a).
Definition load16 (m : mem) (a : Z) : Z := load8 m a + 2 ^ 8 * load8 m (a + 1).
Definition load32 (m : mem) (a : Z) : Z := load16 m a + 2 ^ 16 * load16 m (a + 2).
Definition store8 (a v : Z) (m : mem) : mem := fun x => if x =? a then u8 v else m x.
Definition store16 (a v : Z) (m : mem) : mem := store8 (a + 1) (v / 2 ^ 8) (store8 a v m).
Definition store32 (a v : Z) (m : mem) : mem := store16 (a + 2) (v / 2 ^ 16) (store16 a v m).

Definition memset (a c n : Z) (m : mem) : mem := for_range 0 n (fun i => store8 (a + i) c) m.
Definition memcpy (dst src n : Z) (m : mem) : mem :=
  for_range 0 n (fun i m => store8 (dst + i) (load8 m (src + i)) m) m.

(** ** The checksum: the words of a structure add up to zero *)

Definition sum32 (m : mem) (data count : Z) : Z :=
  for_range 0 count (fun i sum => u32 (sum + load32 m (data + 4 * i))) 0.
Definition cortexm_assign_zero_sum32 (data count : Z) (m : mem) : mem :=
  store32 (data + 4 * (count - 1)) (u32 (0 - sum32 m data (count - 1))) m.
Definition cortexm_verify_zero_sum32 (m : mem) (data count : Z) : bool := sum32 m data count =? 0.

(** ** Two memories that agree on a range *)

Definition agree (a b : Z) (m m' : mem) : Prop := forall x, a <= x < b -> m' x = m x.
#[export] Instance agree_equivalence a b : Equivalence (agree a b).
Proof.
  split.
  - now intros m x Hx.
  - intros m m' H x Hx. symmetry. now apply H.
  - intros m1 m2 m3 H1 H2 x Hx. rewrite H2, H1 by done. done.
Qed.
Lemma agree_sub a b a' b' m m' : agree a b m m' -> a <= a' -> b' <= b -> agree a' b' m m'.
Proof. intros H ? ? x Hx. apply H. lia. Qed.

Lemma store8_agree p v m a b : p < a \/ b <= p -> agree a b m (store8 p v m).
Proof. intros Hp x Hx. unfold store8. destruct (Z.eqb_spec x p); [lia|done]. Qed.
Lemma store16_agree p v m a b : p + 2 <= a \/ b <= p -> agree a b m (store16 p v m).
Proof. intros Hp. unfold store16. etrans; apply store8_agree; lia. Qed.
Lemma store32_agree p v m a b : p + 4 <= a \/ b <= p -> agree a b m (store32 p v m).
Proof. intros Hp. unfold store32. etrans; apply store16_agree; lia. Qed.
Lemma load8_agree m m' a b p : agree a b m m' -> a <= p < b -> load8 m' p = load8 m p.
Proof. intros H Hp. unfold load8. now rewrite H. Qed.
Lemma load16_agree m m' a b p : agree a b m m' -> a <= p -> p + 2 <= b -> load16 m' p = load16 m p.
Proof. intros H ? ?. unfold load16. now rewrite !(load8_agree _ _ _ _ _ H) by lia. Qed.
Lemma load32_agree m m' a b p : agree a b m m' -> a <= p -> p + 4 <= b -> load32 m' p = load32 m p.
Proof. intros H ? ?. unfold load32. now rewrite !(load16_agree _ _ _ _ _ H) by lia. Qed.

(** ** Loads after stores *)

Lemma u8_range z : 0 <= u8 z < 2 ^ 8.
Proof. apply Z.mod_pos_bound; lia. Qed.
Lemma load8_range m a : 0 <= load8 m a < 2 ^ 8.
Proof. apply u8_range. Qed.
Lemma load16_range m a : 0 <= load16 m a < 2 ^ 16.
Proof. unfold load16. pose proof (load8_range m a). pose proof (load8_range m (a + 1)). lia. Qed.
Lemma load32_range m a : 0 <= load32 m a < 2 ^ 32.
Proof. unfold load32. pose proof (load16_range m a). pose proof (load16_range m (a + 2)). lia. Qed.

Lemma load8_store8_eq m a v : load8 (store8 a v m) a = u8 v.
Proof. unfold load8, store8. rewrite Z.eqb_refl. apply u8_id, u8_range. Qed.
Lemma u16_split v : u8 v + 2 ^ 8 * u8 (v / 2 ^ 8) = u16 v.
Proof. unfold u8, u16. change (2 ^ 16) with (2 ^ 8 * 2 ^ 8). now rewrite Z.rem_mul_r by lia. Qed.
Lemma u32_split v : u16 v + 2 ^ 16 * u16 (v / 2 ^ 16) = u32 v.
Proof. unfold u16, u32. change (2 ^ 32) with (2 ^ 16 * 2 ^ 16). now rewrite Z.rem_mul_r by lia. Qed.
Lemma load16_store16_eq m a v : load16 (store16 a v m) a = u16 v.
Proof.
  unfold load16, store16. rewrite load8_store8_eq.
  rewrite (load8_agree (store8 a v m) _ a (a + 1)) by (apply store8_agree || idtac; lia).
  rewrite load8_store8_eq. apply u16_split.
Qed.
Lemma load32_store32_eq m a v : load32 (store32 a v m) a = u32 v.
Proof.
  unfold load32, store32. rewrite load16_store16_eq.
  rewrite (load16_agree (store16 a v m) _ a (a + 2)) by (apply store16_agree || idtac; lia).
  rewrite load16_store16_eq. apply u32_split.
Qed.

(** ** Properties of the checksum *)

Lemma sum32_range m data count : 0 <= sum32 m data count < 2 ^ 32.
Proof.
  unfold sum32. destruct (Z.le_gt_cases count 0); [rewrite for_range_nil by lia; lia|].
  apply (for_range_ind (fun _ s => 0 <= s < 2 ^ 32)); [lia|lia|]. intros. apply u32_range.
Qed.
Lemma for_range_last {S} a b (body : Z -> S -> S) s :
  a <= b -> for_range a (b + 1) body s = body b (for_range a b body s).
Proof.
  intros. unfold for_range. replace (b + 1 - a) with ((b - a) + 1) by lia.
  rewrite seqZ_app by lia. rewrite foldl_app. simpl. f_equal. lia.
Qed.
Lemma sum32_agree m m' data count : agree data (data + 4 * count) m m' ->
  sum32 m' data count = sum32 m data count.
Proof.
  intros H. apply for_range_ext. intros i s Hi.
  now rewrite (load32_agree _ _ _ _ _ H) by lia.
Qed.
(** A checksum that was assigned verifies. *)
Lemma verify_assigned m data count : 0 < count ->
  cortexm_verify_zero_sum32 (cortexm_assign_zero_sum32 data count m) data count = true.
Proof.
  intros Hc. remember (count - 1) as n eqn:Hn. replace count with (n + 1) by lia.
  unfold cortexm_verify_zero_sum32, cortexm_assign_zero_sum32. replace (n + 1 - 1) with n by lia.
  apply Z.eqb_eq. set (s := sum32 m data n). unfold sum32. rewrite for_range_last by lia.
  change (for_range _ _ _ _) with (sum32 (store32 (data + 4 * n) (u32 (0 - s)) m) data n).
  rewrite (sum32_agree m) by (apply store32_agree; lia). fold s.
  rewrite load32_store32_eq. unfold u32. rewrite Zmod_mod, Z.add_mod_idemp_r by lia.
  replace (s + (0 - s)) with 0 by lia. done.
Qed.

(** ** Block operations *)

Lemma memset_agree p c n m a b : p + n <= a \/ b <= p \/ n <= 0 -> agree a b m (memset p c n m).
Proof.
  intros H. unfold memset. destruct (Z.le_gt_cases n 0); [rewrite for_range_nil by lia; reflexivity|].
  apply (for_range_ind (fun _ m' => agree a b m m')); [lia|reflexivity|].
  intros i m' Hi A. etrans; [exact A|]. apply store8_agree. lia.
Qed.
Lemma memset_load p c n m i : 0 <= i < n -> load8 (memset p c n m) (p + i) = u8 c.
Proof.
  intros Hi. unfold memset.
  apply (for_range_ind (fun j m' => i < j -> load8 m' (p + i) = u8 c)); [lia|lia| |lia].
  intros j m' Hj IH Hij. destruct (decide (i = j)) as [->|]; [apply load8_store8_eq|].
  rewrite <- IH by lia. unfold load8, store8. now rewrite (proj2 (Z.eqb_neq _ _)) by lia.
Qed.
Lemma memcpy_agree d s n m a b : d + n <= a \/ b <= d \/ n <= 0 -> agree a b m (memcpy d s n m).
Proof.
  intros H. unfold memcpy. destruct (Z.le_gt_cases n 0); [rewrite for_range_nil by lia; reflexivity|].
  apply (for_range_ind (fun _ m' => agree a b m m')); [lia|reflexivity|].
  intros i m' Hi A. etrans; [exact A|]. apply store8_agree. lia.
Qed.
Lemma memcpy_load d s n m i : d + n <= s \/ s + n <= d -> 0 <= i < n ->
  load8 (memcpy d s n m) (d + i) = load8 m (s + i).
Proof.
  intros Hd Hi. unfold memcpy.
  apply (for_range_ind (fun j m' => agree s (s + n) m m' /\ (i < j -> load8 m' (d + i) = load8 m (s + i))));
    [lia| | |lia].
  - split; [reflexivity|lia].
  - intros j m' Hj [A IH]. split; [etrans; [exact A|apply store8_agree; lia]|]. intros Hij.
    destruct (decide (i = j)) as [->|].
    + rewrite load8_store8_eq, (load8_agree _ _ _ _ _ A) by lia. apply u8_id, load8_range.
    + rewrite <- IH by lia. unfold load8, store8. now rewrite (proj2 (Z.eqb_neq _ _)) by lia.
Qed.
Lemma load8_store8_ne m a b v : a <> b -> load8 (store8 a v m) b = load8 m b.
Proof. intros H. apply (load8_agree m _ b (b + 1)); [apply store8_agree|]; lia. Qed.
