(* ===== verification/Malloc.v ===== *)
(** * The heap of a process

    [src/sys/malloc/mallocr.c], [_realloc.c], [_calloc.c], [_sbrk.c] and
    [mallinfo.c].  The heap is an array of 32-byte chunks; a block is a run of
    chunks whose first 12 bytes are a header (owner, number of chunks, requested
    size, checksum); a block of requested size 0 is free; a header with 0 chunks
    ends the heap.  Addresses are offsets from the heap's base.  The state is the
    memory, the size given to the heap by [_sbrk_r] and the number of calls of
    [malloc_process_fault] (which ends a process; the code after the call is
    translated as it stands).  Each operation runs under the heap's mutex
    ([__malloc_lock]), so the operations are atomic here.  The parameters are the
    running task, the owner a new block gets, and the stack pointer that limits
    [_sbrk_r]. *)
From stdpp Require Import sorting.
From S2P Require Import Prelude Memory.

Definition CONFIG_MALLOC_CHUNK_SIZE : Z := 32.
Definition CONFIG_MALLOC_SBRK_JUMP_SIZE : Z := 128.
Definition sizeof_header : Z := 12.
Definition MALLOC_DATA_SIZE : Z := CONFIG_MALLOC_CHUNK_SIZE - sizeof_header.

Record heap := mk_heap { h_mem : mem; h_size : Z; h_faults : Z }.
Definition on_mem (f : mem -> mem) (h : heap) : heap := mk_heap (f (h_mem h)) (h_size h) (h_faults h).
Definition malloc_process_fault (h : heap) : heap := mk_heap (h_mem h) (h_size h) (h_faults h + 1).

(** ** Headers *)

Definition hdr_task_id (m : mem) (c : Z) : Z := load16 m c.
Definition hdr_num_chunks (m : mem) (c : Z) : Z := load16 m (c + 2).
Definition hdr_actual_size (m : mem) (c : Z) : Z := load32 m (c + 4).
Definition set_header (c task_id num_chunks actual_size : Z) (m : mem) : mem :=
  cortexm_assign_zero_sum32 c 3 (store32 (c + 4) actual_size (store16 (c + 2) num_chunks (store16 c task_id m))).
(** [chunk + n] *)
Definition chunk_add (c n : Z) : Z := c + CONFIG_MALLOC_CHUNK_SIZE * n.
Definition chunk_next (m : mem) (c : Z) : Z := chunk_add c (hdr_num_chunks m c).
(** [chunk->memory] and [malloc_chunk_from_addr] *)
Definition chunk_memory (c : Z) : Z := c + sizeof_header.
Definition malloc_chunk_from_addr (addr : Z) : Z := addr - sizeof_header.

Definition malloc_calc_num_chunks (size : Z) : Z :=
  if MALLOC_DATA_SIZE <? size
  then u16 (u32 (u32 (size - MALLOC_DATA_SIZE) + CONFIG_MALLOC_CHUNK_SIZE - 1) / CONFIG_MALLOC_CHUNK_SIZE + 1)
  else 1.

(** 1 when the block is free, 0 when it is used, -1 when its checksum fails. *)
Definition malloc_chunk_is_free (c : Z) (h : heap) : heap * Z :=
  if negb (cortexm_verify_zero_sum32 (h_mem h) c 3) then (malloc_process_fault h, -1)
  else if hdr_actual_size (h_mem h) c =? 0 then (h, 1) else (h, 0).

Section Malloc.
(** [task_get_current()]; the owner [malloc_set_chunk_used] records; the offset of
    the stack pointer [task_get_sbrk_stack_ptr] finds. *)
Context (self owner : Z) (stack : option Z).

Definition malloc_set_chunk_used (c num_chunks actual_size : Z) : heap -> heap :=
  on_mem (set_header c owner num_chunks actual_size).
Definition malloc_set_chunk_free (c free_chunks : Z) : heap -> heap :=
  on_mem (set_header c self (u16 free_chunks) 0).
Definition set_last_chunk (c : Z) : heap -> heap := on_mem (set_header c self 0 0).

(** The previous end of the heap, or nothing when the stack is too near. *)
Definition _sbrk_r (incr : Z) (h : heap) : heap * option Z :=
  let too_near := match stack with
                  | Some sp => sp - CONFIG_MALLOC_SBRK_JUMP_SIZE * 4 <? h_size h + incr
                  | None => false
                  end in
  if too_near then (h, None)
  else (mk_heap (h_mem h) (h_size h + incr) (h_faults h), Some (h_size h)).

(** ** Walks over the blocks

    A block has at least one chunk, so a walk over a heap of [n] chunks takes at
    most [n] steps; [None] when the walk is longer than the fuel. *)

Definition walk_fuel (h : heap) : nat := S (Z.to_nat (h_size h)).

Fixpoint find_free_chunk_from (fuel : nat) (c num_chunks : Z) (h : heap) : option (heap * option Z) :=
  match fuel with
  | O => None
  | S fuel =>
      if hdr_num_chunks (h_mem h) c =? 0 then Some (h, None)
      else
        let '(h, is_free) := malloc_chunk_is_free c h in
        if is_free =? -1 then Some (h, None)
        else if (is_free =? 1) && (num_chunks <=? hdr_num_chunks (h_mem h) c) then Some (h, Some c)
        else find_free_chunk_from fuel (chunk_next (h_mem h) c) num_chunks h
  end.
Definition find_free_chunk (num_chunks : Z) (h : heap) : option (heap * option Z) :=
  find_free_chunk_from (walk_fuel h) 0 num_chunks h.

Fixpoint is_memory_corrupt_from (fuel : nat) (c : Z) (h : heap) : option (heap * Z) :=
  match fuel with
  | O => None
  | S fuel =>
      if hdr_num_chunks (h_mem h) c =? 0 then Some (h, 0)
      else
        let '(h, is_free) := malloc_chunk_is_free c h in
        if is_free =? -1 then Some (h, -1)
        else is_memory_corrupt_from fuel (chunk_next (h_mem h) c) h
  end.
Definition is_memory_corrupt (h : heap) : option (heap * Z) := is_memory_corrupt_from (walk_fuel h) 0 h.

(** The loop of [cleanup_memory]: [None] inside when it returns early. *)
Fixpoint cleanup_loop (fuel : nat) (current next : Z) (last : option Z) (h : heap)
    : option (heap * option (option Z)) :=
  match fuel with
  | O => None
  | S fuel =>
      if hdr_num_chunks (h_mem h) next =? 0 then Some (h, Some last)
      else
        let '(h, current_free) := malloc_chunk_is_free current h in
        let '(h, next_free) := malloc_chunk_is_free next h in
        let last := if negb (next_free =? 0) then Some next else None in
        if next_free =? -1 then Some (h, None)
        else
          let '(h, current) :=
            if (current_free =? 1) && (next_free =? 1)
            then (malloc_set_chunk_free current (hdr_num_chunks (h_mem h) current + hdr_num_chunks (h_mem h) next) h,
                  current)
            else (h, next) in
          cleanup_loop fuel current (chunk_next (h_mem h) next) last h
  end.
Definition cleanup_memory (release_extra_memory : bool) (h : heap) : option heap :=
  match cleanup_loop (walk_fuel h) 0 (chunk_next (h_mem h) 0) None h with
  | None => None
  | Some (h, Some (Some last_chunk_if_free)) =>
      if release_extra_memory then
        let size := -1 * (hdr_num_chunks (h_mem h) last_chunk_if_free * CONFIG_MALLOC_CHUNK_SIZE) in
        let '(h, _) := _sbrk_r size h in
        Some (set_last_chunk last_chunk_if_free h)
      else Some h
  | Some (h, _) => Some h
  end.

(** ** Freeing *)

(** The argument of [free]: NULL, the value 1 that asks for memory to be given
    back, or an address in or around the heap. *)
Inductive free_arg := Free_null | Free_trim | Free_at (addr : Z).

Definition _free_r (addr : free_arg) (h : heap) : option heap :=
  match addr with
  | Free_null => Some h
  | Free_trim => if h_size h =? 0 then Some h else cleanup_memory true h
  | Free_at addr =>
      if h_size h =? 0 then Some h
      else
        let c := malloc_chunk_from_addr addr in
        if addr <? 0 then Some h
        else if h_size h <? addr then Some h
        else
          match is_memory_corrupt h with
          | None => None
          | Some (h, corrupt) =>
              if corrupt <? 0 then Some (malloc_process_fault h)
              else if negb (Z.rem c CONFIG_MALLOC_CHUNK_SIZE =? 0) then Some h
              else
                let '(h, is_free) := malloc_chunk_is_free c h in
                if negb (is_free =? 0) then Some h
                else cleanup_memory false (malloc_set_chunk_free c (hdr_num_chunks (h_mem h) c) h)
          end
  end.

Fixpoint free_task_loop (fuel : nat) (c task_id : Z) (h : heap) : option heap :=
  match fuel with
  | O => None
  | S fuel =>
      if hdr_num_chunks (h_mem h) c =? 0 then Some h
      else
        let next := chunk_next (h_mem h) c in
        if hdr_task_id (h_mem h) c =? task_id then
          match _free_r (Free_at (chunk_memory c)) h with
          | None => None
          | Some h => free_task_loop fuel next task_id h
          end
        else free_task_loop fuel next task_id h
  end.
Definition malloc_free_task_r (task_id : Z) (h : heap) : option heap :=
  free_task_loop (walk_fuel h) 0 task_id h.

(** ** Allocating *)

Definition malloc_get_more_memory (size : Z) (is_new_heap : bool) (h : heap) : heap * Z :=
  let extra_bytes := if is_new_heap then CONFIG_MALLOC_SBRK_JUMP_SIZE else 0 in
  let jump_size :=
    s32 (u32 (u32 (size + CONFIG_MALLOC_SBRK_JUMP_SIZE - 1) / CONFIG_MALLOC_SBRK_JUMP_SIZE
              * CONFIG_MALLOC_SBRK_JUMP_SIZE)) in
  let '(h, new_heap) := _sbrk_r (jump_size + extra_bytes) h in
  match new_heap with
  | None => (h, -1)
  | Some new_heap =>
      let c := if is_new_heap then new_heap else new_heap - CONFIG_MALLOC_SBRK_JUMP_SIZE in
      let h := malloc_set_chunk_free c (Z.quot jump_size CONFIG_MALLOC_CHUNK_SIZE) h in
      (set_last_chunk (chunk_next (h_mem h) c) h, 0)
  end.

(** The loop of [_malloc_r]: the address of the block, or the failure. *)
Fixpoint malloc_loop (fuel : nat) (num_chunks size : Z) (h : heap) : option (heap * (Z + Z)) :=
  match fuel with
  | O => None
  | S fuel =>
      match find_free_chunk num_chunks h with
      | None => None
      | Some (h, None) =>
          match is_memory_corrupt h with
          | None => None
          | Some (h, corrupt) =>
              if negb (corrupt =? 0) then Some (malloc_process_fault h, inr ENOMEM)
              else
                let '(h, more) := malloc_get_more_memory size false h in
                match cleanup_memory false h with
                | None => None
                | Some h => if more <? 0 then Some (h, inr ENOMEM) else malloc_loop fuel num_chunks size h
                end
          end
      | Some (h, Some c) =>
          let diff_chunks := hdr_num_chunks (h_mem h) c - num_chunks in
          if negb (diff_chunks =? 0) then
            let h := malloc_set_chunk_free (chunk_add c num_chunks) diff_chunks h in
            Some (malloc_set_chunk_used c num_chunks size h, inl (chunk_memory c))
          else if hdr_num_chunks (h_mem h) c <? num_chunks then Some (h, inr ENOMEM)
          else Some (malloc_set_chunk_used c num_chunks size h, inl (chunk_memory c))
      end
  end.
Definition _malloc_r (fuel : nat) (size : Z) (h : heap) : option (heap * (Z + Z)) :=
  let num_chunks := malloc_calc_num_chunks size in
  if h_size h =? 0 then
    let '(h, more) := malloc_get_more_memory size true h in
    if more <? 0 then Some (h, inr ENOMEM) else malloc_loop fuel num_chunks size h
  else malloc_loop fuel num_chunks size h.

Definition _calloc_r (fuel : nat) (s1 s2 : Z) (h : heap) : option (heap * (Z + Z)) :=
  let size := u32 (s1 * s2) in
  match _malloc_r fuel size h with
  | Some (h, inl alloc) => Some (on_mem (memset alloc 0 size) h, inl alloc)
  | r => r
  end.

(** [_realloc_r]: [inl None] for the NULL of a request for 0 bytes. *)
Definition _realloc_r (fuel : nat) (addr : option Z) (size : Z) (h : heap)
    : option (heap * (option Z + Z)) :=
  let to_result r := match r with
                     | None => None
                     | Some (h, inl a) => Some (h, inl (Some a))
                     | Some (h, inr e) => Some (h, inr e)
                     end in
  if size =? 0 then
    match addr with
    | None => Some (h, inl None)
    | Some a => match _free_r (Free_at a) h with None => None | Some h => Some (h, inl None) end
    end
  else match addr with
  | None => to_result (_malloc_r fuel size h)
  | Some a =>
      if h_size h =? 0 then Some (h, inr ENOMEM)
      else
        let num_chunks_requested := malloc_calc_num_chunks size in
        let c := malloc_chunk_from_addr a in
        let '(h, is_free) := malloc_chunk_is_free c h in
        if negb (is_free =? 0) then Some (h, inr EINVAL)
        else
          let num_chunks := hdr_num_chunks (h_mem h) c in
          if num_chunks_requested =? num_chunks then
            Some (malloc_set_chunk_used c num_chunks_requested size h, inl (Some a))
          else if num_chunks_requested <? num_chunks then
            let h := malloc_set_chunk_used c num_chunks_requested size h in
            Some (malloc_set_chunk_free (chunk_add c num_chunks_requested)
                    (num_chunks - num_chunks_requested) h, inl (Some a))
          else
            let next := chunk_next (h_mem h) c in
            let next_chunks := hdr_num_chunks (h_mem h) next in
            let '(h, next_free) := if 0 <? next_chunks then malloc_chunk_is_free next h else (h, 0) in
            let free_chunks_with_next := u16 (next_chunks + num_chunks) in
            if (next_free =? 1) && (num_chunks_requested <? free_chunks_with_next) then
              let h := malloc_set_chunk_used c num_chunks_requested size h in
              Some (malloc_set_chunk_free (chunk_next (h_mem h) c)
                      (free_chunks_with_next - num_chunks_requested) h, inl (Some a))
            else if (next_free =? 1) && (free_chunks_with_next =? num_chunks_requested) then
              Some (malloc_set_chunk_used c num_chunks_requested size h, inl (Some a))
            else
              match _malloc_r fuel size h with
              | Some (h, inl alloc) =>
                  let copy_size := Z.min (hdr_actual_size (h_mem h) (malloc_chunk_from_addr a)) size in
                  match _free_r (Free_at a) (on_mem (memcpy alloc a copy_size) h) with
                  | None => None
                  | Some h => Some (h, inl (Some alloc))
                  end
              | r => to_result r
              end
  end.

(** ** Accounting *)

Record mallinfo := mk_mallinfo { mi_arena : Z; mi_ordblks : Z; mi_fordblks : Z; mi_uordblks : Z }.
Fixpoint mallinfo_loop (fuel : nat) (c total_chunks total_free_chunks total_used_memory : Z) (h : heap)
    : option (heap * option (Z * Z * Z)) :=
  match fuel with
  | O => None
  | S fuel =>
      if hdr_num_chunks (h_mem h) c =? 0
      then Some (h, Some (total_chunks, total_free_chunks, total_used_memory))
      else
        let '(h, chunk_free) := malloc_chunk_is_free c h in
        if chunk_free =? -1 then Some (h, None)
        else
          let n := hdr_num_chunks (h_mem h) c in
          if chunk_free =? 1
          then mallinfo_loop fuel (chunk_next (h_mem h) c) (total_chunks + n) (total_free_chunks + n)
                 total_used_memory h
          else mallinfo_loop fuel (chunk_next (h_mem h) c) (total_chunks + n) total_free_chunks
                 (total_used_memory + hdr_actual_size (h_mem h) c) h
  end.
Definition _mallinfo_r (h : heap) : option (heap * mallinfo) :=
  match mallinfo_loop (walk_fuel h) 0 0 0 0 h with
  | None => None
  | Some (h, None) => Some (h, mk_mallinfo 0 0 0 0)
  | Some (h, Some (total_chunks, total_free_chunks, total_used_memory)) =>
      Some (h, mk_mallinfo (total_chunks * CONFIG_MALLOC_CHUNK_SIZE) total_free_chunks
                 (total_free_chunks * CONFIG_MALLOC_CHUNK_SIZE) total_used_memory)
  end.
End Malloc.

(** ** The blocks of a heap *)

Record block := mk_block { b_task : Z; b_chunks : Z; b_size : Z }.
Definition is_free (b : block) : bool := b_size b =? 0.
Definition block_ok (b : block) : Prop :=
  0 <= b_task b < 2 ^ 16 /\ 0 < b_chunks b < 2 ^ 16 /\
  0 <= b_size b <= CONFIG_MALLOC_CHUNK_SIZE * b_chunks b - sizeof_header.
Definition header_is (m : mem) (c : Z) (b : block) : Prop :=
  cortexm_verify_zero_sum32 m c 3 = true /\ hdr_task_id m c = b_task b /\
  hdr_num_chunks m c = b_chunks b /\ hdr_actual_size m c = b_size b.

Definition total (l : list block) : Z := foldr (fun b n => b_chunks b + n) 0 l.
Definition span (l : list block) : Z := CONFIG_MALLOC_CHUNK_SIZE * total l.

(** The blocks [l] lie one after the other from [c] on. *)
Fixpoint seg (m : mem) (c : Z) (l : list block) : Prop :=
  match l with
  | [] => True
  | b :: l => header_is m c b /\ block_ok b /\ seg m (c + CONFIG_MALLOC_CHUNK_SIZE * b_chunks b) l
  end.
(** The blocks of a heap: 128 bytes are kept after them for the last header. *)
Record heap_ok (h : heap) (l : list block) : Prop := {
  ho_seg : seg (h_mem h) 0 l;
  ho_end : hdr_num_chunks (h_mem h) (span l) = 0;
  ho_size : h_size h = span l + CONFIG_MALLOC_SBRK_JUMP_SIZE;
  ho_total : total l < 2 ^ 16;
}.

(** The blocks with their offsets, and those in use. *)
Fixpoint placed (c : Z) (l : list block) : list (Z * block) :=
  match l with
  | [] => []
  | b :: l => (c, b) :: placed (c + CONFIG_MALLOC_CHUNK_SIZE * b_chunks b) l
  end.
Definition used (c : Z) (l : list block) : list (Z * block) :=
  filter (fun p => is_free p.2 = false) (placed c l).
(** The bytes of the listed blocks, headers included, are the same. *)
Definition same_bytes (l : list (Z * block)) (m m' : mem) : Prop :=
  Forall (fun p => agree p.1 (p.1 + CONFIG_MALLOC_CHUNK_SIZE * b_chunks p.2) m m') l.

Ltac heap_lia :=
  unfold block_ok, span, MALLOC_DATA_SIZE, CONFIG_MALLOC_CHUNK_SIZE, CONFIG_MALLOC_SBRK_JUMP_SIZE, sizeof_header in *;
  lia.

Lemma total_app l1 l2 : total (l1 ++ l2) = total l1 + total l2.
Proof. induction l1 as [|b l1 IH]; simpl; [done|]. rewrite IH. lia. Qed.
Lemma span_app l1 l2 : span (l1 ++ l2) = span l1 + span l2.
Proof. unfold span. rewrite total_app. lia. Qed.
Lemma span_cons b l : span (b :: l) = CONFIG_MALLOC_CHUNK_SIZE * b_chunks b + span l.
Proof. unfold span. simpl. lia. Qed.
Lemma total_nonneg m c l : seg m c l -> 0 <= total l /\ Z.of_nat (length l) <= total l.
Proof.
  revert c. induction l as [|b l IH]; intros c; simpl; [lia|].
  intros (_ & (_ & Hb & _) & Hl). apply IH in Hl. lia.
Qed.
Lemma span_nonneg m c l : seg m c l -> 0 <= span l.
Proof. intros H%total_nonneg. unfold span, CONFIG_MALLOC_CHUNK_SIZE. lia. Qed.

Lemma header_agree m m' c b : agree c (c + sizeof_header) m m' -> header_is m c b -> header_is m' c b.
Proof.
  unfold sizeof_header. intros H (Hv & Ht & Hn & Hs). unfold header_is, hdr_task_id, hdr_num_chunks, hdr_actual_size in *.
  rewrite (load16_agree _ _ _ _ _ H), (load16_agree _ _ _ _ _ H), (load32_agree _ _ _ _ _ H) by lia.
  split; [|done]. unfold cortexm_verify_zero_sum32 in *. rewrite (sum32_agree m); [done|].
  eapply agree_sub; [exact H|lia|lia].
Qed.
Lemma seg_agree m m' c l : agree c (c + span l) m m' -> seg m c l -> seg m' c l.
Proof.
  revert c. induction l as [|b l IH]; intros c H; [done|]. intros (Hh & Hb & Hl).
  pose proof (span_nonneg _ _ _ Hl). rewrite span_cons in H.
  split; [|split; [done|]].
  - eapply header_agree; [|exact Hh]. eapply agree_sub; [exact H| |]; heap_lia.
  - apply IH; [|done]. eapply agree_sub; [exact H| |]; heap_lia.
Qed.
Lemma seg_app m c l1 l2 : seg m c (l1 ++ l2) <-> seg m c l1 /\ seg m (c + span l1) l2.
Proof.
  revert c. induction l1 as [|b l1 IH]; intros c; simpl.
  - unfold span. simpl. rewrite Z.mul_0_r, Z.add_0_r. tauto.
  - rewrite IH, span_cons, Z.add_assoc. tauto.
Qed.

(** ** Writing headers *)

Lemma set_header_agree c t n s m a b : b <= c \/ c + sizeof_header <= a -> agree a b m (set_header c t n s m).
Proof.
  unfold sizeof_header. intros H. unfold set_header, cortexm_assign_zero_sum32.
  etrans; [apply (store16_agree c t); lia|]. etrans; [apply (store16_agree (c + 2) n); lia|].
  etrans; [apply (store32_agree (c + 4) s); lia|]. apply store32_agree. lia.
Qed.
Lemma set_header_is c t n s m : 0 <= t < 2 ^ 16 -> 0 <= n < 2 ^ 16 -> 0 <= s < 2 ^ 32 ->
  header_is (set_header c t n s m) c (mk_block t n s).
Proof.
  intros Ht Hn Hs. unfold set_header.
  set (m1 := store16 c t m). set (m2 := store16 (c + 2) n m1). set (m3 := store32 (c + 4) s m2).
  assert (A4 : agree c (c + 8) m3 (cortexm_assign_zero_sum32 c 3 m3)) by (apply store32_agree; lia).
  assert (A3 : agree c (c + 4) m2 m3) by (apply store32_agree; lia).
  assert (A2 : agree c (c + 2) m1 m2) by (apply store16_agree; lia).
  split; [now apply verify_assigned|]. unfold hdr_task_id, hdr_num_chunks, hdr_actual_size. cbn [b_task b_chunks b_size].
  split; [|split].
  - rewrite (load16_agree _ _ _ _ _ A4), (load16_agree _ _ _ _ _ A3), (load16_agree _ _ _ _ _ A2) by lia.
    unfold m1. rewrite load16_store16_eq. now apply u16_id.
  - rewrite (load16_agree _ _ _ _ _ A4), (load16_agree _ _ _ _ _ A3) by lia.
    unfold m2. rewrite load16_store16_eq. now apply u16_id.
  - rewrite (load32_agree _ _ _ _ _ A4) by lia. unfold m3. rewrite load32_store32_eq. now apply u32_id.
Qed.

(** Replacing a run of blocks by another of the same length. *)
Lemma seg_replace m m' c l1 lm lm' l2 :
  seg m c (l1 ++ lm ++ l2) -> total lm' = total lm -> agree c (c + span l1) m m' ->
  agree (c + span l1 + span lm) (c + span l1 + span lm + span l2) m m' ->
  seg m' (c + span l1) lm' -> seg m' c (l1 ++ lm' ++ l2).
Proof.
  rewrite !seg_app. intros (H1 & Hm & H2) Ht A1 A2 Hm'. unfold span in *. rewrite Ht in *.
  split; [now apply (seg_agree m)|]. split; [done|]. now apply (seg_agree m).
Qed.

Lemma is_free_header h c b : header_is (h_mem h) c b ->
  malloc_chunk_is_free c h = (h, if is_free b then 1 else 0).
Proof.
  intros (Hv & _ & _ & Hs). unfold malloc_chunk_is_free, is_free. rewrite Hv, Hs. simpl. by destruct (_ =? _).
Qed.

(** ** The walks *)

Definition fits (n : Z) (b : block) : bool := is_free b && (n <=? b_chunks b).
(** First fit. *)
Fixpoint first_fit (c n : Z) (l : list block) : option Z :=
  match l with
  | [] => None
  | b :: l => if fits n b then Some c else first_fit (c + CONFIG_MALLOC_CHUNK_SIZE * b_chunks b) n l
  end.

Lemma walk_step m c b l : seg m c (b :: l) ->
  (hdr_num_chunks m c =? 0) = false /\ chunk_next m c = c + CONFIG_MALLOC_CHUNK_SIZE * b_chunks b.
Proof.
  intros ((_ & _ & Hn & _) & (_ & Hb & _) & _). unfold chunk_next, chunk_add. rewrite Hn.
  split; [apply Z.eqb_neq; lia|done].
Qed.
Lemma find_free_from_spec fuel c n h l :
  seg (h_mem h) c l -> hdr_num_chunks (h_mem h) (c + span l) = 0 -> (length l < fuel)%nat ->
  find_free_chunk_from fuel c n h = Some (h, first_fit c n l).
Proof.
  revert c fuel. induction l as [|b l IH]; intros c fuel Hs He Hf; (destruct fuel as [|fuel]; [simpl in Hf; lia|]).
  - unfold span in He. simpl in *. rewrite Z.mul_0_r, Z.add_0_r in He. now rewrite He.
  - destruct (walk_step _ _ _ _ Hs) as [En Ex]. destruct Hs as (Hh & Hb & Hl).
    cbn [find_free_chunk_from]. rewrite En, (is_free_header _ _ _ Hh).
    destruct Hh as (_ & _ & Hn & _). rewrite Ex, Hn. cbn [first_fit]. unfold fits.
    destruct (is_free b); cbn [andb].
    + change (1 =? -1) with false. change (1 =? 1) with true. cbn [andb]. destruct (n <=? b_chunks b); [done|].
      apply IH; [done| |simpl in Hf; lia]. now rewrite span_cons, Z.add_assoc in He.
    + change (0 =? -1) with false. change (0 =? 1) with false. cbn [andb].
      apply IH; [done| |simpl in Hf; lia]. now rewrite span_cons, Z.add_assoc in He.
Qed.
Lemma not_corrupt_from_spec fuel c h l :
  seg (h_mem h) c l -> hdr_num_chunks (h_mem h) (c + span l) = 0 -> (length l < fuel)%nat ->
  is_memory_corrupt_from fuel c h = Some (h, 0).
Proof.
  revert c fuel. induction l as [|b l IH]; intros c fuel Hs He Hf; (destruct fuel as [|fuel]; [simpl in Hf; lia|]).
  - unfold span in He. simpl in *. rewrite Z.mul_0_r, Z.add_0_r in He. now rewrite He.
  - destruct (walk_step _ _ _ _ Hs) as [En Ex]. destruct Hs as (Hh & Hb & Hl).
    cbn [is_memory_corrupt_from]. rewrite En, (is_free_header _ _ _ Hh), Ex.
    assert (((if is_free b then 1 else 0) =? -1) = false) as -> by now destruct (is_free b).
    apply IH; [done| |simpl in Hf; lia]. now rewrite span_cons, Z.add_assoc in He.
Qed.
Lemma walk_fuel_enough h l : heap_ok h l -> (length l < walk_fuel h)%nat.
Proof.
  intros [Hs _ Hsz _]. apply total_nonneg in Hs. unfold walk_fuel. rewrite Hsz.
  unfold span, CONFIG_MALLOC_CHUNK_SIZE, CONFIG_MALLOC_SBRK_JUMP_SIZE. lia.
Qed.
Lemma find_free_spec n h l : heap_ok h l -> find_free_chunk n h = Some (h, first_fit 0 n l).
Proof. intros H. apply find_free_from_spec; [apply H|apply H|now apply walk_fuel_enough]. Qed.
Lemma not_corrupt_spec h l : heap_ok h l -> is_memory_corrupt h = Some (h, 0).
Proof. intros H. apply not_corrupt_from_spec with l; [apply H|apply H|now apply walk_fuel_enough]. Qed.

(** ** Positions *)

Lemma placed_range m c l o b : seg m c l -> (o, b) ∈ placed c l ->
  c <= o /\ o + CONFIG_MALLOC_CHUNK_SIZE * b_chunks b <= c + span l /\ block_ok b /\ header_is m o b.
Proof.
  revert c. induction l as [|b' l IH]; intros c Hs Hin; [set_solver|].
  destruct Hs as (Hh & Hb & Hl). pose proof (span_nonneg _ _ _ Hl). rewrite span_cons.
  apply elem_of_cons in Hin as [[= -> ->]|Hin]; [split; [|split; [|done]]; heap_lia|].
  destruct (IH _ Hl Hin) as (? & ? & ? & ?). split; [|split; [|done]]; heap_lia.
Qed.
Lemma used_placed c l p : p ∈ used c l -> p ∈ placed c l.
Proof. unfold used. rewrite list_elem_of_filter. tauto. Qed.
Lemma used_cons c b l : used c (b :: l)
  = (if is_free b then [] else [(c, b)]) ++ used (c + CONFIG_MALLOC_CHUNK_SIZE * b_chunks b) l.
Proof.
  unfold used. simpl. rewrite filter_cons. simpl. destruct (is_free b); [by rewrite decide_False|by rewrite decide_True].
Qed.
Lemma placed_app c l1 l2 : placed c (l1 ++ l2) = placed c l1 ++ placed (c + span l1) l2.
Proof.
  revert c. induction l1 as [|b l1 IH]; intros c; simpl.
  - f_equal. unfold span. simpl. lia.
  - rewrite IH, span_cons. do 3 f_equal. lia.
Qed.
Lemma used_app c l1 l2 : used c (l1 ++ l2) = used c l1 ++ used (c + span l1) l2.
Proof. unfold used. now rewrite placed_app, filter_app. Qed.
Lemma same_bytes_agree m m' c l : seg m c l -> agree c (c + span l) m m' -> same_bytes (used c l) m m'.
Proof.
  intros Hs A. apply Forall_forall. intros [o b] Hp%used_placed.
  destruct (placed_range _ _ _ _ _ Hs Hp) as (? & ? & _). eapply agree_sub; [exact A| |]; simpl; lia.
Qed.
Lemma same_bytes_trans l m1 m2 m3 : same_bytes l m1 m2 -> same_bytes l m2 m3 -> same_bytes l m1 m3.
Proof.
  unfold same_bytes. rewrite !Forall_forall. intros H1 H2 p Hp. etrans; [now apply H1|now apply H2].
Qed.
Lemma same_bytes_app l1 l2 m m' : same_bytes (l1 ++ l2) m m' <-> same_bytes l1 m m' /\ same_bytes l2 m m'.
Proof. apply Forall_app. Qed.

(** ** Joining free blocks *)

Section Cleanup.
Context (self : Z) (Hself : 0 <= self < 2 ^ 16).

Definition join (b b' : block) : block := mk_block self (b_chunks b + b_chunks b') 0.
Fixpoint coalesce (b : block) (l : list block) : list block :=
  match l with
  | [] => [b]
  | b' :: l => if is_free b && is_free b' then coalesce (join b b') l else b :: coalesce b' l
  end.
Definition coalesced (l : list block) : list block := match l with [] => [] | b :: l => coalesce b l end.

Lemma coalesce_total b l : total (coalesce b l) = total (b :: l).
Proof.
  revert b. induction l as [|b' l IH]; intros b; simpl; [done|].
  destruct (is_free b && is_free b'); simpl; rewrite IH; simpl; lia.
Qed.
Lemma coalesce_used b l c : used c (coalesce b l) = used c (b :: l).
Proof.
  revert b c. induction l as [|b' l IH]; intros b c; simpl; [done|].
  destruct (is_free b) eqn:Eb, (is_free b') eqn:Eb'; cbn [andb];
    rewrite ?IH, !used_cons, ?Eb, ?Eb', ?IH, ?used_cons, ?Eb'; try done.
  simpl. f_equal. lia.
Qed.

(** Effect of the loop of [cleanup_memory] from [current] on. *)
Record cleaned (cur : Z) (b : block) (l : list block) (h h' : heap) : Prop := {
  cl_seg : seg (h_mem h') cur (coalesce b l);
  cl_out : forall a e, e <= cur \/ cur + span (b :: l) <= a -> agree a e (h_mem h) (h_mem h');
  cl_bytes : same_bytes (used cur (b :: l)) (h_mem h) (h_mem h');
  cl_size : h_size h' = h_size h;
  cl_faults : h_faults h' = h_faults h;
}.

Lemma cleaned_skip cur b b' l h h' : seg (h_mem h) cur (b :: b' :: l) ->
  is_free b && is_free b' = false ->
  cleaned (cur + CONFIG_MALLOC_CHUNK_SIZE * b_chunks b) b' l h h' -> cleaned cur b (b' :: l) h h'.
Proof.
  intros (Hh & Hb & Hl) E [S O B Sz F]. change (seg (h_mem h) (cur + CONFIG_MALLOC_CHUNK_SIZE * b_chunks b) (b' :: l)) in Hl.
  pose proof (span_nonneg _ _ _ Hl) as Hsp. split; try done.
  - cbn [coalesce]. rewrite E. split; [|split; [done|done]].
    eapply header_agree; [|exact Hh]. apply O. heap_lia.
  - intros a e Hae. apply O. rewrite !span_cons in *. heap_lia.
  - rewrite used_cons. apply same_bytes_app. split; [|exact B].
    destruct (is_free b); [constructor|]. constructor; [|constructor]. apply O. simpl. lia.
Qed.
Lemma cleaned_join cur b b' l h h' : seg (h_mem h) cur (b :: b' :: l) -> total (b :: b' :: l) < 2 ^ 16 ->
  is_free b = true -> is_free b' = true ->
  cleaned cur (join b b') l (malloc_set_chunk_free self cur (b_chunks b + b_chunks b') h) h' ->
  cleaned cur b (b' :: l) h h'.
Proof.
  intros Hs Ht Eb Eb' [S O B Sz F]. cbn [on_mem malloc_set_chunk_free h_mem h_size h_faults] in *.
  destruct Hs as (Hh & Hb & Hh' & Hb' & Hl). pose proof (span_nonneg _ _ _ Hl).
  assert (A : forall a e, e <= cur \/ cur + sizeof_header <= a -> agree a e (h_mem h)
            (set_header cur self (u16 (b_chunks b + b_chunks b')) 0 (h_mem h))).
  { intros a e ?. apply set_header_agree. lia. }
  assert (Hj : span (join b b' :: l) = span (b :: b' :: l)) by (rewrite !span_cons; simpl; lia).
  split; try done.
  - cbn [coalesce]. now rewrite Eb, Eb'.
  - intros a e Hae. etrans; [apply A|apply O]; rewrite ?Hj; rewrite ?span_cons in *; heap_lia.
  - rewrite !used_cons, Eb, Eb'. rewrite used_cons in B. change (is_free (join b b')) with true in B. simpl in *.
    replace (cur + CONFIG_MALLOC_CHUNK_SIZE * (b_chunks b + b_chunks b'))
      with (cur + CONFIG_MALLOC_CHUNK_SIZE * b_chunks b + CONFIG_MALLOC_CHUNK_SIZE * b_chunks b') in B by lia.
    eapply same_bytes_trans; [|exact B]. apply same_bytes_agree; [done|]. apply A. heap_lia.
Qed.
Lemma cleanup_loop_spec fuel cur b l last h :
  seg (h_mem h) cur (b :: l) -> hdr_num_chunks (h_mem h) (cur + span (b :: l)) = 0 ->
  total (b :: l) < 2 ^ 16 -> (length l < fuel)%nat ->
  exists h' last', cleanup_loop self fuel cur (cur + CONFIG_MALLOC_CHUNK_SIZE * b_chunks b) last h
                   = Some (h', Some last') /\ cleaned cur b l h h'.
Proof using Hself.
  revert fuel cur b last h. induction l as [|b' l IH]; intros fuel cur b last h Hs He Ht Hf;
    (destruct fuel as [|fuel]; [simpl in Hf; lia|]).
  - exists h, last. replace (span [b]) with (CONFIG_MALLOC_CHUNK_SIZE * b_chunks b) in He by (unfold span; simpl; lia).
    cbn [cleanup_loop]. rewrite He. split; [done|]. split; try done. apply same_bytes_agree; done.
  - pose proof Hs as Hs0. destruct Hs as (Hh & Hb & Hl).
    change (seg (h_mem h) (cur + CONFIG_MALLOC_CHUNK_SIZE * b_chunks b) (b' :: l)) in Hl.
    destruct (walk_step _ _ _ _ Hl) as [En Ex]. destruct (Hl) as (Hh' & Hb' & Hl').
    pose proof (span_nonneg _ _ _ Hl') as Hsp. pose proof (total_nonneg _ _ _ Hl').
    set (next := cur + CONFIG_MALLOC_CHUNK_SIZE * b_chunks b) in *.
    cbn [cleanup_loop]. rewrite En, (is_free_header _ _ _ Hh), (is_free_header _ _ _ Hh').
    set (last2 := if negb ((if is_free b' then 1 else 0) =? 0) then Some next else None).
    assert (((if is_free b' then 1 else 0) =? -1) = false) as -> by now destruct (is_free b').
    assert (Hjoin : ((if is_free b then 1 else 0) =? 1) && ((if is_free b' then 1 else 0) =? 1)
                    = is_free b && is_free b') by now destruct (is_free b), (is_free b').
    rewrite Hjoin. destruct (is_free b && is_free b') eqn:E.
    + apply andb_true_iff in E as [Eb Eb']. destruct (Hh) as (_ & _ & -> & _). destruct (Hh') as (_ & _ & Hn' & _).
      rewrite Hn'. simpl in Ht. set (h1 := malloc_set_chunk_free self cur (b_chunks b + b_chunks b') h).
      assert (A : forall a e, e <= cur \/ cur + sizeof_header <= a -> agree a e (h_mem h) (h_mem h1))
        by (intros a e ?; apply set_header_agree; lia).
      assert (Hs1 : seg (h_mem h1) cur (join b b' :: l)).
      { split; [|split].
        - unfold h1, malloc_set_chunk_free, on_mem. cbn [h_mem]. rewrite u16_id by heap_lia.
          apply set_header_is; heap_lia.
        - unfold block_ok, join. cbn [b_task b_chunks b_size]. heap_lia.
        - cbn [join b_chunks]. rewrite Z.mul_add_distr_l, Z.add_assoc. fold next.
          eapply seg_agree; [|exact Hl']. apply A. unfold next. heap_lia. }
      assert (Hx : chunk_next (h_mem h1) next = cur + CONFIG_MALLOC_CHUNK_SIZE * b_chunks (join b b')).
      { unfold chunk_next, chunk_add, hdr_num_chunks.
        rewrite (load16_agree (h_mem h) _ next (next + 4)) by (apply A || idtac; unfold next; heap_lia).
        fold (hdr_num_chunks (h_mem h) next). rewrite Hn'. unfold next. simpl. lia. }
      rewrite Hx. destruct (IH fuel cur (join b b') last2 h1) as (h' & last' & -> & C); [done| |simpl; lia|simpl in Hf; lia|].
      * unfold hdr_num_chunks. replace (span (join b b' :: l)) with (span (b :: b' :: l)) by (rewrite !span_cons; simpl; lia).
        rewrite (load16_agree (h_mem h) _ (cur + span (b :: b' :: l)) (cur + span (b :: b' :: l) + 4)); [exact He| |lia|lia].
        apply A. rewrite !span_cons. heap_lia.
      * exists h', last'. split; [done|]. now apply cleaned_join.
    + rewrite Ex. destruct (IH fuel next b' last2 h) as (h' & last' & -> & C);
        [done| |simpl in *; heap_lia|simpl in Hf; lia|].
      * rewrite <- He. f_equal. rewrite (span_cons b). unfold next. lia.
      * exists h', last'. split; [done|]. now apply cleaned_skip.
Qed.

(** [cleanup_memory] joins every run of free blocks. *)
Record rearranged (l l' : list block) (h h' : heap) : Prop := {
  ra_ok : heap_ok h' l';
  ra_used : used 0 l' = used 0 l;
  ra_bytes : same_bytes (used 0 l) (h_mem h) (h_mem h');
  ra_faults : h_faults h' = h_faults h;
}.
Lemma cleanup_spec stack h l : heap_ok h l ->
  exists h', cleanup_memory self stack false h = Some h' /\ rearranged l (coalesced l) h h' /\ h_size h' = h_size h.
Proof using Hself.
  intros H. pose proof (walk_fuel_enough _ _ H) as Hf. destruct (H) as [Hs He Hsz Ht].
  unfold cleanup_memory. destruct l as [|b l].
  - change (span []) with 0 in He. unfold chunk_next, chunk_add. rewrite He. change (0 + CONFIG_MALLOC_CHUNK_SIZE * 0) with 0.
    unfold walk_fuel. cbn [cleanup_loop]. rewrite He. exists h. split; [done|]. split; [|done].
    split; [done|done|constructor|done].
  - destruct (walk_step _ _ _ _ Hs) as [_ ->].
    destruct (cleanup_loop_spec (walk_fuel h) 0 b l None h Hs He Ht) as (h' & last' & -> & [S O B Sz F]);
      [simpl in Hf; lia|].
    exists h'. split; [by destruct last'|]. split; [|done].
    assert (Hsp : span (coalesce b l) = span (b :: l)) by (unfold span; now rewrite coalesce_total).
    split; [split|now apply coalesce_used|exact B|done].
    + exact S.
    + cbn [coalesced]. rewrite Hsp. unfold hdr_num_chunks.
      rewrite (load16_agree (h_mem h) _ (span (b :: l)) (span (b :: l) + 4)); [exact He| |lia|lia]. apply O. lia.
    + cbn [coalesced]. rewrite Hsp, Sz. exact Hsz.
    + cbn [coalesced]. now rewrite coalesce_total.
Qed.
End Cleanup.

(** ** Allocation *)

Lemma first_fit_some c n l o : first_fit c n l = Some o ->
  exists l1 b l2, l = l1 ++ b :: l2 /\ o = c + span l1 /\ fits n b = true.
Proof.
  revert c. induction l as [|b l IH]; intros c; simpl; [done|]. destruct (fits n b) eqn:E.
  - intros [= <-]. exists [], b, l. split; [done|]. split; [unfold span; simpl; lia|done].
  - intros (l1 & b' & l2 & -> & -> & ?)%IH. exists (b :: l1), b', l2.
    split; [done|]. split; [rewrite span_cons; lia|done].
Qed.
Lemma first_fit_none c n l b : first_fit c n l = None -> b ∈ l -> fits n b = false.
Proof.
  revert c. induction l as [|b' l IH]; intros c; simpl; [set_solver|].
  destruct (fits n b') eqn:E; [done|]. intros H [-> |Hb]%elem_of_cons; [done|]. now apply (IH _ H).
Qed.

(** The blocks [lm] of a heap become [lm'], of the same length, and nothing else
    changes. *)
Lemma replace_run h h' l1 lm lm' l2 : heap_ok h (l1 ++ lm ++ l2) -> total lm' = total lm ->
  seg (h_mem h') (span l1) lm' -> h_size h' = h_size h ->
  (forall a e, e <= span l1 \/ span l1 + span lm <= a -> agree a e (h_mem h) (h_mem h')) ->
  heap_ok h' (l1 ++ lm' ++ l2) /\
  used 0 (l1 ++ lm' ++ l2) = used 0 l1 ++ used (span l1) lm' ++ used (span l1 + span lm) l2 /\
  same_bytes (used 0 l1 ++ used (span l1 + span lm) l2) (h_mem h) (h_mem h').
Proof.
  intros [Hs He Hz Ht] Htot Sm Hsz A. pose proof Hs as Hs0. apply seg_app in Hs0 as [H1 H2].
  apply seg_app in H2 as [_ H2]. rewrite Z.add_0_l in H2. pose proof (span_nonneg _ _ _ H2) as Hn.
  assert (Hspan : span lm' = span lm) by (unfold span; now rewrite Htot).
  assert (Hall : span (l1 ++ lm' ++ l2) = span (l1 ++ lm ++ l2)) by (rewrite !span_app; lia).
  split; [split|split].
  - apply (seg_replace (h_mem h) (h_mem h') 0 l1 lm lm' l2); [done|done| | |now rewrite Z.add_0_l]; apply A; lia.
  - rewrite Hall. unfold hdr_num_chunks.
    rewrite (load16_agree (h_mem h) _ (span (l1 ++ lm ++ l2)) (span (l1 ++ lm ++ l2) + 4)); [exact He| |lia|lia].
    apply A. rewrite !span_app. lia.
  - rewrite Hall, Hsz. exact Hz.
  - revert Ht. rewrite !total_app, Htot. done.
  - rewrite !used_app, Z.add_0_l, Hspan. done.
  - apply same_bytes_app. split; apply same_bytes_agree; try done; apply A; lia.
Qed.

Section Allocation.
Context (self owner sp : Z) (Hself : 0 <= self < 2 ^ 16) (Howner : 0 <= owner < 2 ^ 16).
Let stack := Some sp.

(** A block of [n] chunks for [size] bytes appeared at [o]; the blocks in use
    before are still there, with the same bytes. *)
Record allocation (o n size : Z) (l l' : list block) (h h' : heap) : Prop := {
  al_ok : heap_ok h' l';
  al_used : exists pre post, used 0 l = pre ++ post /\ used 0 l' = pre ++ (o, mk_block owner n size) :: post;
  al_bytes : same_bytes (used 0 l) (h_mem h) (h_mem h');
  al_faults : h_faults h' = h_faults h;
}.

(** Cutting the block out of a free one. *)
Definition cut (c n size : Z) (diff : Z) (h : heap) : heap :=
  malloc_set_chunk_used owner c n size
    (if diff =? 0 then h else malloc_set_chunk_free self (chunk_add c n) diff h).
Definition rest_block (diff : Z) : list block := if diff =? 0 then [] else [mk_block self diff 0].

Lemma cut_seg c n size b h : header_is (h_mem h) c b -> block_ok b -> 0 < n <= b_chunks b ->
  0 < size <= CONFIG_MALLOC_CHUNK_SIZE * n - sizeof_header ->
  let h' := cut c n size (b_chunks b - n) h in
  seg (h_mem h') c (mk_block owner n size :: rest_block (b_chunks b - n)) /\
  (forall a e, e <= c \/ c + CONFIG_MALLOC_CHUNK_SIZE * b_chunks b <= a -> agree a e (h_mem h) (h_mem h')).
Proof using Hself Howner.
  intros Hh Hb Hn Hsz. unfold cut, rest_block, malloc_set_chunk_used, malloc_set_chunk_free, on_mem, chunk_add.
  assert (Hsr : 0 <= size < 2 ^ 32) by heap_lia.
  destruct (Z.eqb_spec (b_chunks b - n) 0) as [E|E]; cbn [h_mem].
  - split; [split; [|split; [|done]]|].
    + apply set_header_is; heap_lia.
    + unfold block_ok. cbn [b_task b_chunks b_size]. heap_lia.
    + intros a e ?. apply set_header_agree. heap_lia.
  - rewrite u16_id by heap_lia. split; [split; [|split; [|split; [|split; [|done]]]]|].
    + apply set_header_is; heap_lia.
    + unfold block_ok. cbn [b_task b_chunks b_size]. heap_lia.
    + eapply header_agree; [|apply set_header_is; heap_lia].
      cbn [b_chunks]. apply set_header_agree. heap_lia.
    + unfold block_ok. cbn [b_task b_chunks b_size]. heap_lia.
    + intros a e ?. etrans; apply set_header_agree; heap_lia.
Qed.
Lemma cut_allocation n size l1 b l2 h : heap_ok h (l1 ++ b :: l2) -> is_free b = true ->
  0 < n <= b_chunks b -> 0 < size <= CONFIG_MALLOC_CHUNK_SIZE * n - sizeof_header ->
  allocation (span l1) n size (l1 ++ b :: l2)
    (l1 ++ (mk_block owner n size :: rest_block (b_chunks b - n)) ++ l2) h (cut (span l1) n size (b_chunks b - n) h).
Proof using Hself Howner.
  intros H Hf Hn Hsz. pose proof (ho_seg _ _ H) as Hs. apply seg_app in Hs as (_ & Hh & Hb & _).
  rewrite Z.add_0_l in *. destruct (cut_seg (span l1) n size b h Hh Hb Hn Hsz) as [Sm A].
  set (h' := cut (span l1) n size (b_chunks b - n) h) in *.
  set (lm := mk_block owner n size :: rest_block (b_chunks b - n)) in *.
  assert (Hb1 : span [b] = CONFIG_MALLOC_CHUNK_SIZE * b_chunks b) by (unfold span; simpl; lia).
  assert (Hu : used (span l1) lm = [(span l1, mk_block owner n size)]).
  { unfold lm. rewrite used_cons.
    assert (is_free (mk_block owner n size) = false) as -> by (apply Z.eqb_neq; simpl; lia).
    unfold rest_block. by destruct (_ =? _). }
  destruct (replace_run h h' l1 [b] lm l2) as (Hok & U & B); [done| |done| |rewrite Hb1; done|].
  - unfold lm, rest_block. simpl. destruct (Z.eqb_spec (b_chunks b - n) 0); simpl; lia.
  - unfold h', cut. by destruct (_ =? _).
  - assert (Hu0 : used 0 (l1 ++ b :: l2) = used 0 l1 ++ used (span l1 + span [b]) l2).
    { rewrite used_app, used_cons, Hf, Z.add_0_l, Hb1. done. }
    split; [done| |now rewrite Hu0|unfold h', cut; by destruct (_ =? _)].
    exists (used 0 l1), (used (span l1 + span [b]) l2). rewrite U, Hu. done.
Qed.

(** Growing the heap. *)
Definition jump_chunks (size : Z) : Z := (size + 127) / 128 * 4.
Lemma jump_size_eq size : 0 <= size < 2 ^ 30 ->
  s32 (u32 (u32 (size + CONFIG_MALLOC_SBRK_JUMP_SIZE - 1) / CONFIG_MALLOC_SBRK_JUMP_SIZE * CONFIG_MALLOC_SBRK_JUMP_SIZE))
  = CONFIG_MALLOC_CHUNK_SIZE * jump_chunks size.
Proof.
  intros Hs. unfold jump_chunks, CONFIG_MALLOC_CHUNK_SIZE, CONFIG_MALLOC_SBRK_JUMP_SIZE.
  rewrite (u32_id (size + 128 - 1)) by lia. replace (size + 128 - 1) with (size + 127) by lia.
  pose proof (Z.div_mod (size + 127) 128 ltac:(lia)). pose proof (Z.mod_pos_bound (size + 127) 128 ltac:(lia)).
  rewrite u32_id, s32_id by lia. lia.
Qed.
Lemma get_more_spec size h l : 0 < size < 2 ^ 30 -> sp <= 2 ^ 21 -> heap_ok h l ->
  malloc_get_more_memory self stack size false h = (h, -1) \/
  exists h', malloc_get_more_memory self stack size false h = (h', 0) /\
    rearranged l (l ++ [mk_block self (jump_chunks size) 0]) h h'.
Proof using Hself.
  intros Hsz Hsp [Hs He Hz Ht]. unfold malloc_get_more_memory. rewrite jump_size_eq by lia.
  assert (Hj : 0 < jump_chunks size).
  { unfold jump_chunks. pose proof (Z.div_mod (size + 127) 128 ltac:(lia)).
    pose proof (Z.mod_pos_bound (size + 127) 128 ltac:(lia)). lia. }
  pose proof (span_nonneg _ _ _ Hs) as Hsn.
  unfold _sbrk_r, stack. rewrite Z.add_0_r.
  destruct (Z.ltb_spec (sp - CONFIG_MALLOC_SBRK_JUMP_SIZE * 4) (h_size h + CONFIG_MALLOC_CHUNK_SIZE * jump_chunks size));
    [now left|right]. set (j := jump_chunks size) in *.
  assert (Hc : h_size h - CONFIG_MALLOC_SBRK_JUMP_SIZE = span l) by lia. rewrite Hc.
  assert (Hq : Z.quot (CONFIG_MALLOC_CHUNK_SIZE * j) CONFIG_MALLOC_CHUNK_SIZE = j)
    by (rewrite Z.mul_comm; apply Z.quot_mul; done). rewrite Hq.
  assert (Hjt : total l + j < 2 ^ 16) by heap_lia. pose proof (total_nonneg _ _ _ Hs).
  unfold malloc_set_chunk_free, set_last_chunk, on_mem. cbn [h_mem h_size h_faults].
  rewrite u16_id by lia. set (m1 := set_header (span l) self j 0 (h_mem h)).
  pose proof (set_header_is (span l) self j 0 (h_mem h) Hself ltac:(lia) ltac:(lia)) as H1. fold m1 in H1.
  assert (Hx : chunk_next m1 (span l) = span l + CONFIG_MALLOC_CHUNK_SIZE * j).
  { destruct H1 as (_ & _ & Hn & _). unfold chunk_next, chunk_add. rewrite Hn. done. }
  rewrite Hx. set (m2 := set_header (span l + CONFIG_MALLOC_CHUNK_SIZE * j) self 0 0 m1).
  eexists. split; [reflexivity|].
  assert (Hspan : span (l ++ [mk_block self j 0]) = span l + CONFIG_MALLOC_CHUNK_SIZE * j).
  { rewrite span_app. unfold span at 2. simpl. lia. }
  assert (A : agree 0 (span l) (h_mem h) m2).
  { etrans; [apply (set_header_agree (span l) self j 0); lia|]. apply set_header_agree. heap_lia. }
  split; [split|..]; cbn [h_mem h_size h_faults].
  - apply seg_app. split; [now apply (seg_agree (h_mem h))|]. rewrite Z.add_0_l. split; [|split; [|done]].
    + eapply header_agree; [|exact H1]. apply set_header_agree. heap_lia.
    + unfold block_ok. cbn [b_task b_chunks b_size]. heap_lia.
  - rewrite Hspan.
    destruct (set_header_is (span l + CONFIG_MALLOC_CHUNK_SIZE * j) self 0 0 m1 Hself ltac:(lia) ltac:(lia)) as (_ & _ & Hn & _).
    exact Hn.
  - rewrite Hspan, Hz. lia.
  - rewrite total_app. simpl. lia.
  - rewrite used_app. unfold used at 2. simpl. rewrite filter_cons_False by done. by rewrite app_nil_r.
  - now apply same_bytes_agree.
  - done.
Qed.

Lemma rearranged_trans l1 l2 l3 h1 h2 h3 :
  rearranged l1 l2 h1 h2 -> rearranged l2 l3 h2 h3 -> rearranged l1 l3 h1 h3.
Proof.
  intros [? U1 B1 F1] [? U2 B2 F2]. rewrite U1 in B2.
  split; [done|congruence|eapply same_bytes_trans; eauto|congruence].
Qed.
Lemma rearranged_allocation o n size l1 l2 l3 h1 h2 h3 :
  rearranged l1 l2 h1 h2 -> allocation o n size l2 l3 h2 h3 -> allocation o n size l1 l3 h1 h3.
Proof.
  intros [? U1 B1 F1] [? U2 B2 F2]. rewrite U1 in *.
  split; [done|done|eapply same_bytes_trans; eauto|congruence].
Qed.

(** The chunks of the free block at the end of the heap. *)
Definition tail_free (l : list block) : Z :=
  match last l with Some b => if is_free b then b_chunks b else 0 | None => 0 end.
Lemma tail_free_cons b b' l : tail_free (b :: b' :: l) = tail_free (b' :: l).
Proof. done. Qed.
Lemma coalesce_tail b l f : Forall (fun b => 0 < b_chunks b) (b :: l) -> is_free f = true ->
  tail_free (b :: l) + b_chunks f <= tail_free (coalesce self b (l ++ [f])).
Proof.
  revert b. induction l as [|b' l IH]; intros b H Hf; cbn [app coalesce].
  - unfold tail_free. rewrite Hf. destruct (is_free b) eqn:E; simpl; rewrite ?E, ?Hf; simpl; lia.
  - apply Forall_cons in H as [Hb H]. destruct (is_free b && is_free b') eqn:E.
    + apply Forall_cons in H as [Hb' H]. etrans; [|apply IH; [|done]].
      * destruct l as [|b2 l]; [|rewrite !tail_free_cons; lia]. unfold tail_free. simpl.
        apply andb_true_iff in E as [_ ->]. simpl. lia.
      * constructor; [simpl; lia|done].
    + rewrite tail_free_cons. destruct (coalesce self b' (l ++ [f])) as [|x xs] eqn:Ec.
      * specialize (IH b' H Hf). rewrite Ec in IH. unfold tail_free in *. simpl in *. destruct (is_free b); lia.
      * rewrite tail_free_cons, <- Ec. now apply IH.
Qed.
Lemma seg_chunks m c l : seg m c l -> Forall (fun b => 0 < b_chunks b) l.
Proof.
  revert c. induction l as [|b l IH]; intros c; [constructor|]. intros (_ & (_ & Hb & _) & Hl).
  constructor; [lia|]. now apply (IH _ Hl).
Qed.
Lemma coalesced_tail m c l f : seg m c l -> is_free f = true ->
  tail_free l + b_chunks f <= tail_free (coalesced self (l ++ [f])).
Proof.
  intros Hs Hf. apply seg_chunks in Hs. destruct l as [|b l]; simpl.
  - unfold tail_free. simpl. rewrite Hf. lia.
  - now apply coalesce_tail.
Qed.
Lemma tail_fits n l : 0 < n -> n <= tail_free l -> first_fit 0 n l <> None.
Proof.
  unfold tail_free. intros Hn Ht E. destruct (last l) as [b|] eqn:El; [|lia].
  destruct (is_free b) eqn:Ef; [|lia]. apply last_Some_elem_of in El.
  pose proof (first_fit_none _ _ _ _ E El) as Hb. unfold fits in Hb. rewrite Ef in Hb.
  apply Z.leb_gt in Hb. lia.
Qed.

(** The number of chunks: the least that hold the header and [size] bytes. *)
Lemma calc_num_chunks_spec size : 0 < size <= CONFIG_MALLOC_CHUNK_SIZE * 65535 - sizeof_header ->
  let n := malloc_calc_num_chunks size in
  0 < n < 2 ^ 16 /\ size <= CONFIG_MALLOC_CHUNK_SIZE * n - sizeof_header /\
  CONFIG_MALLOC_CHUNK_SIZE * (n - 1) < size + sizeof_header.
Proof.
  intros Hs. unfold malloc_calc_num_chunks.
  unfold MALLOC_DATA_SIZE, CONFIG_MALLOC_CHUNK_SIZE, sizeof_header in *. change (32 - 12) with 20.
  destruct (Z.ltb_spec 20 size); [|lia].
  rewrite (u32_id (size - 20)), u32_id by lia.
  pose proof (Z.div_mod (size - 20 + 32 - 1) 32 ltac:(lia)).
  pose proof (Z.mod_pos_bound (size - 20 + 32 - 1) 32 ltac:(lia)).
  rewrite u16_id by lia. lia.
Qed.
Lemma calc_jump size : 0 < size <= CONFIG_MALLOC_CHUNK_SIZE * 65535 - sizeof_header ->
  malloc_calc_num_chunks size <= 2 * jump_chunks size.
Proof.
  intros Hs. destruct (calc_num_chunks_spec size Hs) as (_ & _ & Hn). unfold jump_chunks.
  pose proof (Z.div_mod (size + 127) 128 ltac:(lia)). pose proof (Z.mod_pos_bound (size + 127) 128 ltac:(lia)).
  unfold CONFIG_MALLOC_CHUNK_SIZE, sizeof_header in *. lia.
Qed.

Lemma tail_free_nonneg l m c : seg m c l -> 0 <= tail_free l.
Proof.
  intros H%seg_chunks. unfold tail_free. destruct (last l) as [b|] eqn:E; [|lia]. destruct (is_free b); [|lia].
  apply last_Some_elem_of in E. rewrite Forall_forall in H. specialize (H _ E). lia.
Qed.

(** ** The loop of [_malloc_r] *)

Section Loop.
Context (size : Z) (Hsize : 0 < size <= CONFIG_MALLOC_CHUNK_SIZE * 65535 - sizeof_header) (Hsp : sp <= 2 ^ 21).
Let n := malloc_calc_num_chunks size.

Lemma loop_fit fuel o h l : heap_ok h l -> first_fit 0 n l = Some o ->
  exists h' l', malloc_loop self owner stack (S fuel) n size h = Some (h', inl (chunk_memory o)) /\
    allocation o n size l l' h h'.
Proof using Hself Howner Hsize.
  intros H Hf. destruct (calc_num_chunks_spec size Hsize) as (Hn & Hfit & _). fold n in Hn, Hfit.
  destruct (first_fit_some _ _ _ _ Hf) as (l1 & b & l2 & -> & -> & Hb). rewrite Z.add_0_l in *.
  unfold fits in Hb. apply andb_true_iff in Hb as [Hfree Hle%Z.leb_le].
  cbn [malloc_loop]. rewrite (find_free_spec _ _ _ H), Hf.
  destruct (proj1 (seg_app _ _ _ _) (ho_seg _ _ H)) as (_ & Hh & _). rewrite Z.add_0_l in Hh.
  destruct (Hh) as (_ & _ & -> & _).
  exists (cut (span l1) n size (b_chunks b - n) h), (l1 ++ (mk_block owner n size :: rest_block (b_chunks b - n)) ++ l2).
  split; [|now apply cut_allocation].
  unfold cut. destruct (Z.eqb_spec (b_chunks b - n) 0); cbn [negb]; [|done].
  rewrite (proj2 (Z.ltb_ge _ _)) by lia. done.
Qed.
Lemma loop_grow fuel h l : heap_ok h l -> first_fit 0 n l = None ->
  (exists h' l', malloc_loop self owner stack (S fuel) n size h = Some (h', inr ENOMEM) /\ rearranged l l' h h') \/
  (exists h' l', malloc_loop self owner stack (S fuel) n size h = malloc_loop self owner stack fuel n size h' /\
     rearranged l l' h h' /\ tail_free l + jump_chunks size <= tail_free l').
Proof using Hself Howner Hsize Hsp.
  intros H Hf. cbn [malloc_loop]. rewrite (find_free_spec _ _ _ H), Hf, (not_corrupt_spec _ _ H).
  change (negb (0 =? 0)) with false. cbv iota.
  destruct (get_more_spec size h l) as [-> |(h1 & -> & R1)]; [heap_lia|done|done| |].
  - destruct (cleanup_spec self Hself stack h l H) as (h2 & -> & R & _). left. now exists h2, (coalesced self l).
  - destruct (cleanup_spec self Hself stack h1 _ (ra_ok _ _ _ _ R1)) as (h2 & -> & R2 & _). right.
    exists h2, (coalesced self (l ++ [mk_block self (jump_chunks size) 0])). split; [done|].
    split; [eapply rearranged_trans; eassumption|].
    exact (coalesced_tail _ _ l (mk_block self (jump_chunks size) 0) (ho_seg _ _ H) eq_refl).
Qed.

(** What [_malloc_r] may do to a heap with blocks [l]. *)
Definition malloc_outcome (l : list block) (h : heap) (r : option (heap * (Z + Z))) : Prop :=
  exists h' l',
  (exists o, r = Some (h', inl (chunk_memory o)) /\ allocation o n size l l' h h') \/
  (r = Some (h', inr ENOMEM) /\ rearranged l l' h h').
Lemma outcome_rearranged l l' h h' r : rearranged l l' h h' -> malloc_outcome l' h' r -> malloc_outcome l h r.
Proof.
  intros R (h2 & l2 & [(o & -> & A)|[-> R2]]); exists h2, l2.
  - left. exists o. split; [done|]. eapply rearranged_allocation; eassumption.
  - right. split; [done|]. eapply rearranged_trans; eassumption.
Qed.
Lemma malloc_loop_spec fuel h l : heap_ok h l -> (3 <= fuel)%nat ->
  malloc_outcome l h (malloc_loop self owner stack fuel n size h).
Proof using Hself Howner Hsize Hsp.
  intros H Hfuel. destruct fuel as [|[|[|fuel]]]; try lia.
  destruct (calc_num_chunks_spec size Hsize) as (Hn & _ & _). pose proof (calc_jump size Hsize) as Hj. fold n in Hn, Hj.
  assert (Hfit : forall fuel h l, heap_ok h l -> first_fit 0 n l <> None ->
            malloc_outcome l h (malloc_loop self owner stack (S fuel) n size h)).
  { intros f h0 l0 H0 Hne. destruct (first_fit 0 n l0) as [o|] eqn:E; [|done].
    destruct (loop_fit f o h0 l0 H0 E) as (h' & l' & -> & A). exists h', l'. left. now exists o. }
  destruct (first_fit 0 n l) as [o|] eqn:E; [apply Hfit; congruence|].
  destruct (loop_grow (S (S fuel)) h l H E) as [(h' & l' & -> & R)|(h1 & l1 & -> & R1 & T1)];
    [exists h', l'; now right|].
  eapply outcome_rearranged; [exact R1|]. pose proof (ra_ok _ _ _ _ R1) as H1.
  destruct (first_fit 0 n l1) as [o|] eqn:E1; [apply Hfit; [done|congruence]|].
  destruct (loop_grow (S fuel) h1 l1 H1 E1) as [(h' & l' & -> & R)|(h2 & l2 & -> & R2 & T2)];
    [exists h', l'; now right|].
  eapply outcome_rearranged; [exact R2|]. apply Hfit; [apply R2|].
  apply tail_fits; [lia|]. pose proof (tail_free_nonneg _ _ _ (ho_seg _ _ H)). lia.
Qed.
End Loop.
End Allocation.

(** ** The heap as its users see it *)

Definition before (p q : Z * block) : Prop := p.1 + CONFIG_MALLOC_CHUNK_SIZE * b_chunks p.2 <= q.1.
Lemma used_sorted m c l : seg m c l -> StronglySorted before (used c l).
Proof.
  revert c. induction l as [|b l IH]; intros c Hs; [constructor|]. destruct Hs as (_ & Hb & Hl).
  rewrite used_cons. destruct (is_free b); [now apply IH|]. constructor; [now apply IH|].
  apply Forall_forall. intros [o b'] Hp%used_placed. destruct (placed_range _ _ _ _ _ Hl Hp) as (? & _).
  unfold before. simpl. lia.
Qed.
(** Blocks in use do not overlap. *)
Lemma used_disjoint m c l pre p post : seg m c l -> used c l = pre ++ p :: post ->
  Forall (fun q => before q p \/ before p q) (pre ++ post).
Proof.
  intros Hs E. pose proof (used_sorted _ _ _ Hs) as H. rewrite E in H. apply StronglySorted_app in H as (H1 & _ & H2).
  apply StronglySorted_inv in H2 as [_ H2]. apply Forall_app. split.
  - apply Forall_forall. intros q Hq. left. apply H1; [done|]. left.
  - eapply Forall_impl; [exact H2|]. intros q ?. now right.
Qed.

(** The heap before the first allocation has no size. *)
Definition heap_inv (h : heap) (l : list block) : Prop := heap_ok h l \/ h_size h = 0 /\ l = [].

Section NewHeap.
Context (self sp size : Z) (h : heap).
Lemma get_more_new : 0 <= self < 2 ^ 16 -> 0 < size < 2 ^ 30 -> sp <= 2 ^ 21 -> h_size h = 0 ->
  malloc_get_more_memory self (Some sp) size true h = (h, -1) \/
  exists h', malloc_get_more_memory self (Some sp) size true h = (h', 0) /\
    heap_ok h' [mk_block self (jump_chunks size) 0] /\ h_faults h' = h_faults h.
Proof.
  intros Hself Hsz Hsp H0. unfold malloc_get_more_memory. rewrite jump_size_eq by lia.
  assert (Hj : 0 < jump_chunks size).
  { unfold jump_chunks. pose proof (Z.div_mod (size + 127) 128 ltac:(lia)).
    pose proof (Z.mod_pos_bound (size + 127) 128 ltac:(lia)). lia. }
  set (j := jump_chunks size) in *. unfold _sbrk_r. rewrite H0.
  destruct (Z.ltb_spec (sp - CONFIG_MALLOC_SBRK_JUMP_SIZE * 4)
              (0 + (CONFIG_MALLOC_CHUNK_SIZE * j + CONFIG_MALLOC_SBRK_JUMP_SIZE))); [now left|right].
  assert (Hq : Z.quot (CONFIG_MALLOC_CHUNK_SIZE * j) CONFIG_MALLOC_CHUNK_SIZE = j)
    by (rewrite Z.mul_comm; apply Z.quot_mul; done). rewrite Hq.
  assert (Hjt : j < 2 ^ 16) by heap_lia.
  unfold malloc_set_chunk_free, set_last_chunk, on_mem. cbn [h_mem h_size h_faults].
  rewrite u16_id by lia. set (m1 := set_header 0 self j 0 (h_mem h)).
  pose proof (set_header_is 0 self j 0 (h_mem h) Hself ltac:(lia) ltac:(lia)) as H1. fold m1 in H1.
  assert (Hx : chunk_next m1 0 = CONFIG_MALLOC_CHUNK_SIZE * j).
  { destruct H1 as (_ & _ & Hn & _). unfold chunk_next, chunk_add. rewrite Hn. done. }
  rewrite Hx. eexists. split; [reflexivity|]. split; [|done].
  assert (Hspan : span [mk_block self j 0] = CONFIG_MALLOC_CHUNK_SIZE * j) by (unfold span; simpl; lia).
  split; cbn [h_mem h_size].
  - split; [|split; [|done]].
    + eapply header_agree; [|exact H1]. apply set_header_agree. heap_lia.
    + unfold block_ok. cbn [b_task b_chunks b_size]. heap_lia.
  - rewrite Hspan.
    destruct (set_header_is (CONFIG_MALLOC_CHUNK_SIZE * j) self 0 0 m1 Hself ltac:(lia) ltac:(lia)) as (_ & _ & Hn & _).
    exact Hn.
  - rewrite Hspan. lia.
  - simpl. lia.
Qed.
End NewHeap.

(** What a call of [malloc] leaves: a well-formed heap in which the blocks that
    were in use still are, with every byte unchanged; and a new block in use that
    holds [size] bytes and overlaps none of them, or the error. *)
Definition malloc_post (owner size : Z) (l : list block) (h : heap) (r : option (heap * (Z + Z))) : Prop :=
  exists h' l', heap_inv h' l' /\ h_faults h' = h_faults h /\ same_bytes (used 0 l) (h_mem h) (h_mem h') /\
  ((exists o n pre post,
      r = Some (h', inl (chunk_memory o)) /\ size <= CONFIG_MALLOC_CHUNK_SIZE * n - sizeof_header /\
      used 0 l = pre ++ post /\ used 0 l' = pre ++ (o, mk_block owner n size) :: post /\
      Forall (fun q => before q (o, mk_block owner n size) \/ before (o, mk_block owner n size) q) (used 0 l)) \/
   (r = Some (h', inr ENOMEM) /\ used 0 l' = used 0 l)).

Lemma malloc_loop_post self owner sp fuel size h l h0 l0 :
  0 <= self < 2 ^ 16 -> 0 <= owner < 2 ^ 16 -> sp <= 2 ^ 21 ->
  0 < size <= CONFIG_MALLOC_CHUNK_SIZE * 65535 - sizeof_header -> (3 <= fuel)%nat ->
  heap_ok h0 l0 -> h_faults h0 = h_faults h -> used 0 l0 = used 0 l ->
  same_bytes (used 0 l) (h_mem h) (h_mem h0) ->
  malloc_post owner size l h (malloc_loop self owner (Some sp) fuel (malloc_calc_num_chunks size) size h0).
Proof.
  intros Hself Howner Hsp Hsize Hfuel H0 Hf0 Hu0 Hb0.
  destruct (calc_num_chunks_spec size Hsize) as (_ & Hfit & _).
  destruct (malloc_loop_spec self owner sp Hself Howner size Hsize Hsp fuel h0 l0 H0 Hfuel)
    as (h' & l' & [(o & -> & [A (pre & post & U1 & U2) B F])|[-> [A U B F]]]); exists h', l'; rewrite Hu0 in *.
  - split; [now left|]. split; [congruence|]. split; [eapply same_bytes_trans; eassumption|]. left.
    exists o, (malloc_calc_num_chunks size), pre, post. rewrite U1. split; [done|]. split; [done|]. split; [done|].
    split; [done|]. exact (used_disjoint _ _ _ _ _ _ (ho_seg _ _ A) U2).
  - split; [now left|]. split; [congruence|]. split; [eapply same_bytes_trans; eassumption|]. now right.
Qed.
Lemma heap_ok_nonempty h l : heap_ok h l -> (h_size h =? 0) = false.
Proof.
  intros H. pose proof (span_nonneg _ _ _ (ho_seg _ _ H)). rewrite (ho_size _ _ H).
  apply Z.eqb_neq. unfold CONFIG_MALLOC_SBRK_JUMP_SIZE. lia.
Qed.

Lemma malloc_spec self owner sp fuel size h l :
  0 <= self < 2 ^ 16 -> 0 <= owner < 2 ^ 16 -> sp <= 2 ^ 21 ->
  0 < size <= CONFIG_MALLOC_CHUNK_SIZE * 65535 - sizeof_header -> (3 <= fuel)%nat -> heap_inv h l ->
  malloc_post owner size l h (_malloc_r self owner (Some sp) fuel size h).
Proof.
  intros Hself Howner Hsp Hsize Hfuel [H|[H0 ->]]; unfold _malloc_r.
  - rewrite (heap_ok_nonempty _ _ H). apply malloc_loop_post with l; try done. apply Forall_forall. reflexivity.
  - rewrite H0. change (0 =? 0) with true. cbv iota.
    destruct (get_more_new self sp size h Hself ltac:(heap_lia) Hsp H0) as [-> |(h1 & -> & H1 & F1)].
    + exists h, []. split; [now right|]. split; [done|]. split; [constructor|]. now right.
    + change (0 <? 0) with false. cbv iota. eapply malloc_loop_post; try done. constructor.
Qed.

(** ** Freeing a block *)

(** No two neighbouring blocks are both free. *)
Fixpoint no_free_run (l : list block) : Prop :=
  match l with
  | b :: (b' :: _) as l => is_free b && is_free b' = false /\ no_free_run l
  | _ => True
  end.
Lemma coalesce_head self b l : exists b' l', coalesce self b l = b' :: l' /\ (is_free b = false -> b' = b) /\
  (is_free b = true -> is_free b' = true).
Proof.
  revert b. induction l as [|b' l IH]; intros b; simpl; [by exists b, []|].
  destruct (is_free b && is_free b') eqn:E; [|by eexists _, _].
  destruct (IH (join self b b')) as (x & xs & -> & _ & H). apply andb_true_iff in E as [Eb _].
  exists x, xs. split; [done|]. split; [congruence|]. intros _. now apply H.
Qed.
Lemma coalesce_no_run self b l : no_free_run (coalesce self b l).
Proof.
  revert b. induction l as [|b' l IH]; intros b; simpl; [done|].
  destruct (is_free b && is_free b') eqn:E; [apply IH|].
  destruct (coalesce_head self b' l) as (x & xs & Ex & H1 & H2). pose proof (IH b') as IHb. rewrite Ex in *.
  split; [|done]. destruct (is_free b) eqn:Eb; [|done]. simpl in *. rewrite (H1 E). exact E.
Qed.
Lemma used_split c l pre o b post : used c l = pre ++ (o, b) :: post ->
  exists l1 l2, l = l1 ++ b :: l2 /\ o = c + span l1 /\ pre = used c l1 /\
    post = used (o + CONFIG_MALLOC_CHUNK_SIZE * b_chunks b) l2 /\ is_free b = false.
Proof.
  revert c pre. induction l as [|x l IH]; intros c pre; [by destruct pre|]. rewrite used_cons.
  destruct (is_free x) eqn:Ex; simpl.
  - intros (l1 & l2 & -> & -> & -> & -> & ?)%IH. exists (x :: l1), l2. rewrite span_cons, used_cons, Ex, Z.add_assoc. done.
  - destruct pre as [|p pre]; simpl; intros [= E1 E2].
    + subst. exists [], l. split; [done|]. split; [unfold span; simpl; lia|]. done.
    + subst p. apply IH in E2 as (l1 & l2 & -> & -> & -> & -> & ?). exists (x :: l1), l2.
      rewrite span_cons, used_cons, Ex, Z.add_assoc. done.
Qed.

Lemma free_block self h l1 b l2 : 0 <= self < 2 ^ 16 -> heap_ok h (l1 ++ b :: l2) ->
  let l := l1 ++ mk_block self (b_chunks b) 0 :: l2 in
  let h' := malloc_set_chunk_free self (span l1) (b_chunks b) h in
  heap_ok h' l /\ same_bytes (used 0 l) (h_mem h) (h_mem h').
Proof.
  intros Hself H l h'. pose proof (ho_seg _ _ H) as Hs. apply seg_app in Hs as (_ & Hh & Hb & _).
  rewrite Z.add_0_l in *.
  assert (Hb1 : span [b] = CONFIG_MALLOC_CHUNK_SIZE * b_chunks b) by (unfold span; simpl; lia).
  destruct (replace_run h h' l1 [b] [mk_block self (b_chunks b) 0] l2) as (Hok & U & B); [done|done| |done| |].
  - split; [|split; [|done]].
    + unfold h', malloc_set_chunk_free, on_mem. cbn [h_mem]. rewrite u16_id by heap_lia. apply set_header_is; heap_lia.
    + unfold block_ok. cbn [b_task b_chunks b_size]. heap_lia.
  - intros a e ?. apply set_header_agree. heap_lia.
  - split; [done|]. unfold l. change (mk_block self (b_chunks b) 0 :: l2) with ([mk_block self (b_chunks b) 0] ++ l2).
    now rewrite U.
Qed.

Lemma free_spec self stack h l pre o b post :
  0 <= self < 2 ^ 16 -> heap_ok h l -> used 0 l = pre ++ (o, b) :: post ->
  exists h' l', _free_r self stack (Free_at (chunk_memory o)) h = Some h' /\
    heap_ok h' l' /\ used 0 l' = pre ++ post /\ no_free_run l' /\
    same_bytes (pre ++ post) (h_mem h) (h_mem h') /\ h_faults h' = h_faults h.
Proof.
  intros Hself H Hu. destruct (used_split _ _ _ _ _ _ Hu) as (l1 & l2 & -> & -> & -> & -> & Hb).
  rewrite Z.add_0_l in *. destruct (proj1 (seg_app _ _ _ _) (ho_seg _ _ H)) as (Hs1 & Hh & Hok & Hs2).
  rewrite Z.add_0_l in Hh, Hs2. pose proof (span_nonneg _ _ _ Hs1) as Hp1. pose proof (span_nonneg _ _ _ Hs2) as Hp2.
  unfold _free_r. rewrite (heap_ok_nonempty _ _ H). unfold chunk_memory, malloc_chunk_from_addr.
  replace (span l1 + sizeof_header - sizeof_header) with (span l1) by lia.
  rewrite (proj2 (Z.ltb_ge (span l1 + sizeof_header) 0)) by heap_lia.
  rewrite (proj2 (Z.ltb_ge (h_size h) (span l1 + sizeof_header)))
    by (rewrite (ho_size _ _ H), span_app, span_cons; heap_lia).
  rewrite (not_corrupt_spec _ _ H). change (0 <? 0) with false. cbv iota.
  assert (Hr : Z.rem (span l1) CONFIG_MALLOC_CHUNK_SIZE = 0)
    by (unfold span; rewrite Z.mul_comm; now apply Z.rem_mul).
  rewrite Hr, (is_free_header _ _ _ Hh), Hb. change (negb (0 =? 0)) with false. cbv iota.
  destruct (Hh) as (_ & _ & -> & _).
  destruct (free_block self h l1 b l2 Hself H) as [H1 B1].
  set (h1 := malloc_set_chunk_free self (span l1) (b_chunks b) h) in *.
  set (l' := l1 ++ mk_block self (b_chunks b) 0 :: l2) in *.
  destruct (cleanup_spec self Hself stack h1 l' H1) as (h2 & -> & [K U B F] & _).
  assert (Hu' : used 0 l' = used 0 l1 ++ used (span l1 + CONFIG_MALLOC_CHUNK_SIZE * b_chunks b) l2)
    by (unfold l'; now rewrite used_app, used_cons).
  rewrite Hu' in *. exists h2, (coalesced self l'). split; [done|]. split; [done|]. split; [done|].
  split; [|split; [eapply same_bytes_trans; eassumption|done]].
  unfold coalesced. destruct l'; [done|apply coalesce_no_run].
Qed.

(** ** Resizing a block *)

(** Writes inside the data of a block in use. *)
Lemma data_write h h' l pre a b post : heap_ok h l -> used 0 l = pre ++ (a, b) :: post -> h_size h' = h_size h ->
  (forall x e, e <= chunk_memory a \/ a + CONFIG_MALLOC_CHUNK_SIZE * b_chunks b <= x -> agree x e (h_mem h) (h_mem h')) ->
  heap_ok h' l /\ same_bytes (pre ++ post) (h_mem h) (h_mem h').
Proof.
  intros H Hu Hsz A. unfold chunk_memory in A.
  destruct (used_split _ _ _ _ _ _ Hu) as (l1 & l2 & -> & -> & -> & -> & Hb). rewrite Z.add_0_l in *.
  destruct (proj1 (seg_app _ _ _ _) (ho_seg _ _ H)) as (_ & Hh & Hok & _). rewrite Z.add_0_l in Hh.
  assert (Hb1 : span [b] = CONFIG_MALLOC_CHUNK_SIZE * b_chunks b) by (unfold span; simpl; lia).
  destruct (replace_run h h' l1 [b] [b] l2) as (K & _ & B); [done|done| |done| |rewrite Hb1 in B; done].
  - split; [|done]. eapply header_agree; [|exact Hh]. apply A. lia.
  - intros x e ?. apply A. heap_lia.
Qed.

Section Resize.
Context (self owner sp : Z) (Hself : 0 <= self < 2 ^ 16) (Howner : 0 <= owner < 2 ^ 16).

(** The headers [_realloc_r] writes to give a block [n] chunks and leave [d]. *)
Definition resize (c n size d : Z) (h : heap) : heap :=
  let h := malloc_set_chunk_used owner c n size h in
  if d =? 0 then h else malloc_set_chunk_free self (chunk_add c n) d h.
Lemma resize_seg c n size d h : 0 < n -> 0 <= d -> n + d < 2 ^ 16 ->
  0 < size <= CONFIG_MALLOC_CHUNK_SIZE * n - sizeof_header ->
  let h' := resize c n size d h in
  seg (h_mem h') c (mk_block owner n size :: rest_block self d) /\
  (forall a e, e <= c \/ c + CONFIG_MALLOC_CHUNK_SIZE * (n + d) <= a -> agree a e (h_mem h) (h_mem h')) /\
  agree (chunk_memory c) (c + CONFIG_MALLOC_CHUNK_SIZE * n) (h_mem h) (h_mem h').
Proof using Hself Howner.
  intros Hn Hd Hnd Hsz. unfold resize, rest_block, malloc_set_chunk_used, malloc_set_chunk_free, on_mem, chunk_add, chunk_memory.
  assert (Hsr : 0 <= size < 2 ^ 32) by heap_lia.
  pose proof (set_header_is c owner n size (h_mem h) Howner ltac:(lia) Hsr) as H1.
  assert (Hok : block_ok (mk_block owner n size)) by (unfold block_ok; cbn [b_task b_chunks b_size]; heap_lia).
  destruct (Z.eqb_spec d 0) as [E|E]; cbn [h_mem].
  - split; [done|]. split; [intros a e ?|]; apply set_header_agree; heap_lia.
  - rewrite u16_id by lia. split; [split; [|split; [done|split; [|split; [|done]]]]|split].
    + eapply header_agree; [|exact H1]. apply set_header_agree. heap_lia.
    + cbn [b_chunks]. apply set_header_is; heap_lia.
    + unfold block_ok. cbn [b_task b_chunks b_size]. heap_lia.
    + intros a e ?. etrans; apply set_header_agree; heap_lia.
    + etrans; apply set_header_agree; heap_lia.
Qed.

(** What [_realloc_r] leaves when it is given the block [(o, b)]. *)
Definition realloc_post (size : Z) (l : list block) (pre : list (Z * block)) (o : Z) (b : block)
    (post : list (Z * block)) (h : heap) (r : option (heap * (option Z + Z))) : Prop :=
  exists h' l', heap_ok h' l' /\ h_faults h' = h_faults h /\ same_bytes (pre ++ post) (h_mem h) (h_mem h') /\
  ((exists a n pre' post',
      r = Some (h', inl (Some (chunk_memory a))) /\ size <= CONFIG_MALLOC_CHUNK_SIZE * n - sizeof_header /\
      pre ++ post = pre' ++ post' /\ used 0 l' = pre' ++ (a, mk_block owner n size) :: post' /\
      forall i, 0 <= i < Z.min (b_size b) size ->
        load8 (h_mem h') (chunk_memory a + i) = load8 (h_mem h) (chunk_memory o + i)) \/
   (r = Some (h', inr ENOMEM) /\ used 0 l' = used 0 l /\ same_bytes (used 0 l) (h_mem h) (h_mem h'))).

(** The block grows or shrinks where it is, into the free blocks [lf] after it. *)
Lemma resize_post n d size l1 b lf l2 h : heap_ok h (l1 ++ (b :: lf) ++ l2) -> is_free b = false ->
  used (span l1 + CONFIG_MALLOC_CHUNK_SIZE * b_chunks b) lf = [] -> 0 < n -> 0 <= d -> n + d = total (b :: lf) ->
  0 < size <= CONFIG_MALLOC_CHUNK_SIZE * n - sizeof_header ->
  realloc_post size (l1 ++ (b :: lf) ++ l2) (used 0 l1) (span l1) b (used (span l1 + span (b :: lf)) l2) h
    (Some (resize (span l1) n size d h, inl (Some (chunk_memory (span l1))))).
Proof using Hself Howner.
  intros H Hf Hlf Hn Hd Hnd Hsz. pose proof (ho_total _ _ H) as Ht. rewrite !total_app in Ht.
  pose proof (ho_seg _ _ H) as Hs. apply seg_app in Hs as [Hs1 Hs2]. apply seg_app in Hs2 as [Hs2 Hs3].
  pose proof (total_nonneg _ _ _ Hs1). pose proof (total_nonneg _ _ _ Hs3).
  destruct (resize_seg (span l1) n size d h) as (Sm & A & D); [lia|lia|lia|done|].
  set (h' := resize (span l1) n size d h) in *. set (lm := mk_block owner n size :: rest_block self d) in *.
  assert (Hu : used (span l1) lm = [(span l1, mk_block owner n size)]).
  { unfold lm. rewrite used_cons.
    assert (is_free (mk_block owner n size) = false) as -> by (apply Z.eqb_neq; simpl; lia).
    unfold rest_block. by destruct (_ =? _). }
  destruct (replace_run h h' l1 (b :: lf) lm l2) as (Hok & U & B); [done| |done| | |].
  - unfold lm, rest_block. simpl in *. destruct (Z.eqb_spec d 0); simpl; lia.
  - unfold h', resize. by destruct (_ =? _).
  - intros a e ?. apply A. unfold span in *. rewrite <- Hnd in *. done.
  - exists h', (l1 ++ lm ++ l2). split; [done|]. split; [unfold h', resize; by destruct (_ =? _)|]. split; [done|].
    left. exists (span l1), n, (used 0 l1), (used (span l1 + span (b :: lf)) l2).
    split; [done|]. split; [lia|]. split; [done|]. split; [rewrite U, Hu; done|].
    intros i Hi. apply (load8_agree _ _ _ _ _ D). unfold chunk_memory in *. heap_lia.
Qed.

(** The new block and the old one in the list of blocks in use. *)
Lemma insert_split {A} (pre post p1 p2 : list A) (x y : A) : pre ++ x :: post = p1 ++ p2 ->
  exists pre1 post1 pre' post', p1 ++ y :: p2 = pre1 ++ x :: post1 /\
    pre1 ++ post1 = pre' ++ y :: post' /\ pre ++ post = pre' ++ post'.
Proof.
  intros E. apply app_eq_inv in E as [(r & -> & Er)|(r & -> & Er)].
  - subst p2. exists (p1 ++ y :: r), post, p1, (r ++ post). rewrite <- !app_assoc. done.
  - destruct r as [|z r]; simpl in Er.
    + subst p2. exists (pre ++ [y]), post, pre, post. rewrite app_nil_r, <- !app_assoc. done.
    + injection Er as <- ->. exists pre, (r ++ y :: p2), (pre ++ r), p2. rewrite <- !app_assoc. done.
Qed.

(** The copy to a new block and the release of the old one. *)
Definition realloc_move (stack : option Z) (fuel : nat) (a size : Z) (h : heap) : option (heap * (option Z + Z)) :=
  match _malloc_r self owner stack fuel size h with
  | Some (h, inl alloc) =>
      let copy_size := Z.min (hdr_actual_size (h_mem h) (malloc_chunk_from_addr a)) size in
      match _free_r self stack (Free_at a) (on_mem (memcpy alloc a copy_size) h) with
      | None => None
      | Some h => Some (h, inl (Some alloc))
      end
  | Some (h, inr e) => Some (h, inr e)
  | None => None
  end.
Local Ltac in_list := repeat (rewrite elem_of_app in * || rewrite elem_of_cons in * ); tauto.
Lemma realloc_move_post fuel size h l pre o b post :
  sp <= 2 ^ 21 -> 0 < size <= CONFIG_MALLOC_CHUNK_SIZE * 65535 - sizeof_header -> (3 <= fuel)%nat ->
  heap_ok h l -> used 0 l = pre ++ (o, b) :: post ->
  realloc_post size l pre o b post h (realloc_move (Some sp) fuel (chunk_memory o) size h).
Proof using Hself Howner.
  intros Hsp Hsize Hfuel H Hu. unfold realloc_move.
  assert (Hob : (o, b) ∈ used 0 l) by (rewrite Hu; in_list).
  destruct (placed_range _ _ _ _ _ (ho_seg _ _ H) (used_placed _ _ _ Hob)) as (_ & _ & Hbok & Hbh).
  destruct (malloc_spec self owner sp fuel size h l Hself Howner Hsp Hsize Hfuel (or_introl H))
    as (h1 & l1 & I1 & F1 & B1 & [(a & n & p1 & p2 & -> & Hfit & U0 & U1 & Dis)|[-> U1]]).
  2: { assert (H1 : heap_ok h1 l1).
       { destruct I1 as [|[_ ->]]; [done|]. rewrite Hu in U1. by destruct pre. }
       exists h1, l1. split; [done|]. split; [done|]. split; [|by right].
       rewrite Hu in B1. apply same_bytes_app in B1 as [? B1]. apply same_bytes_app. split; [done|]. now inversion B1. }
  assert (H1 : heap_ok h1 l1) by (destruct I1 as [|[_ ->]]; [done|]; by destruct p1).
  unfold same_bytes in B1. rewrite Forall_forall in B1, Dis. pose proof (B1 _ Hob) as Bo. pose proof (Dis _ Hob) as Do.
  cbn [fst snd] in Bo. unfold before in Do. cbn [fst snd b_chunks] in Do.
  assert (Hcopy : hdr_actual_size (h_mem h1) (malloc_chunk_from_addr (chunk_memory o)) = b_size b).
  { unfold malloc_chunk_from_addr, chunk_memory. replace (o + sizeof_header - sizeof_header) with o by lia.
    apply (header_agree (h_mem h)); [|done]. eapply agree_sub; [exact Bo| |]; heap_lia. }
  rewrite Hcopy. set (k := Z.min (b_size b) size).
  set (h2 := on_mem (memcpy (chunk_memory a) (chunk_memory o) k) h1).
  destruct (data_write h1 h2 l1 p1 a (mk_block owner n size) p2) as [H2 B2]; [done|done|done| |].
  { intros x e Hx. apply memcpy_agree. unfold chunk_memory in *. cbn [b_chunks] in Hx. heap_lia. }
  rewrite U0 in Hu. destruct (insert_split pre post p1 p2 (o, b) (a, mk_block owner n size) (eq_sym Hu))
    as (q1 & q2 & r1 & r2 & E1 & E2 & E3). rewrite E1 in U1.
  destruct (free_spec self (Some sp) h2 l1 q1 o b q2 Hself H2 U1) as (h3 & l3 & -> & H3 & U3 & _ & B3 & F3).
  exists h3, l3. split; [done|]. split; [etrans; [exact F3|exact F1]|]. rewrite E2 in B3. unfold same_bytes in *.
  rewrite Forall_forall in B2, B3. split.
  - apply Forall_forall. intros q Hq. rewrite U0 in B1.
    assert (Hin : q ∈ p1 ++ p2) by (rewrite Hu; in_list).
    etrans; [now apply B1|]. etrans; [now apply B2|]. apply B3. rewrite E3 in Hq. in_list.
  - left. exists a, n, r1, r2. split; [done|]. split; [done|]. split; [done|]. split; [now rewrite U3|].
    intros i Hi. fold k in Hi. assert (B3a : (a, mk_block owner n size) ∈ r1 ++ (a, mk_block owner n size) :: r2) by in_list.
    apply B3 in B3a. cbn [fst snd b_chunks] in B3a.
    rewrite (load8_agree _ _ _ _ _ B3a) by (unfold chunk_memory; heap_lia).
    etrans; [apply memcpy_load; unfold chunk_memory; heap_lia|].
    apply (load8_agree _ _ _ _ _ Bo). unfold chunk_memory. heap_lia.
Qed.

Lemma set_used_num_chunks c n size h : 0 <= n < 2 ^ 16 ->
  hdr_num_chunks (h_mem (malloc_set_chunk_used owner c n size h)) c = n.
Proof.
  intros Hn. unfold malloc_set_chunk_used, on_mem, set_header, hdr_num_chunks. cbn [h_mem].
  set (m2 := store16 (c + 2) n _).
  rewrite (load16_agree (store32 (c + 4) size m2) _ c (c + 4)) by (apply store32_agree || idtac; lia).
  rewrite (load16_agree m2 _ c (c + 4)) by (apply store32_agree || idtac; lia).
  unfold m2. rewrite load16_store16_eq. now apply u16_id.
Qed.
Lemma calc_num_chunks_range size : 0 <= malloc_calc_num_chunks size < 2 ^ 16.
Proof. unfold malloc_calc_num_chunks. destruct (_ <? _); [apply u16_range|lia]. Qed.
(** [_realloc_r] on a block in use: in place, or a move. *)
Lemma realloc_cases fuel size h l1 b l2 : 0 < size -> heap_ok h (l1 ++ b :: l2) -> is_free b = false ->
  let n := malloc_calc_num_chunks size in
  let o := span l1 in
  let r := _realloc_r self owner (Some sp) fuel (Some (chunk_memory o)) size h in
  let in_place d := Some (resize o n size d h, inl (Some (chunk_memory o))) in
  (n <= b_chunks b -> r = in_place (b_chunks b - n)) /\
  (b_chunks b < n ->
     match l2 with
     | nb :: _ => if is_free nb && (n <=? b_chunks b + b_chunks nb) then r = in_place (b_chunks b + b_chunks nb - n)
                  else r = realloc_move (Some sp) fuel (chunk_memory o) size h
     | [] => r = realloc_move (Some sp) fuel (chunk_memory o) size h
     end).
Proof using Hself Howner.
  intros Hsize H Hf n o r in_place. pose proof (ho_total _ _ H) as Ht. rewrite total_app in Ht. simpl in Ht.
  destruct (proj1 (seg_app _ _ _ _) (ho_seg _ _ H)) as (Hs1 & Hh & Hok & Hs2). rewrite Z.add_0_l in Hh, Hs2. fold o in Hh, Hs2.
  pose proof (total_nonneg _ _ _ Hs1). pose proof (total_nonneg _ _ _ Hs2).
  subst r. unfold _realloc_r. rewrite (proj2 (Z.eqb_neq size 0)) by lia. rewrite (heap_ok_nonempty _ _ H).
  unfold malloc_chunk_from_addr, chunk_memory. replace (o + sizeof_header - sizeof_header) with o by lia.
  rewrite (is_free_header _ _ _ Hh), Hf. change (negb (0 =? 0)) with false. cbv iota. fold n.
  destruct (Hh) as (_ & _ & Hn & _). rewrite Hn. split.
  - intros Hle. unfold in_place, resize, chunk_memory. destruct (Z.eqb_spec n (b_chunks b)) as [E|E].
    + now rewrite (proj2 (Z.eqb_eq (b_chunks b - n) 0)) by lia.
    + rewrite (proj2 (Z.ltb_lt n (b_chunks b))) by lia. now rewrite (proj2 (Z.eqb_neq (b_chunks b - n) 0)) by lia.
  - intros Hgt. rewrite (proj2 (Z.eqb_neq n (b_chunks b))) by lia. rewrite (proj2 (Z.ltb_ge n (b_chunks b))) by lia.
    assert (Hx : chunk_next (h_mem h) o = o + CONFIG_MALLOC_CHUNK_SIZE * b_chunks b) by (unfold chunk_next, chunk_add; now rewrite Hn).
    rewrite Hx. set (next := o + CONFIG_MALLOC_CHUNK_SIZE * b_chunks b) in *.
    assert (Hmv : forall h', match _malloc_r self owner (Some sp) fuel size h' with
                | Some (h0, inl alloc) =>
                    match _free_r self (Some sp) (Free_at (o + sizeof_header))
                            (on_mem (memcpy alloc (o + sizeof_header)
                               (Z.min (hdr_actual_size (h_mem h0) o) size)) h0) with
                    | Some h1 => Some (h1, inl (Some alloc)) | None => None end
                | Some (h0, inr e) => Some (h0, inr e)
                | None => None end = realloc_move (Some sp) fuel (chunk_memory o) size h').
    { intros h'. unfold realloc_move, malloc_chunk_from_addr, chunk_memory.
      by replace (o + sizeof_header - sizeof_header) with o by lia. }
    destruct l2 as [|nb l2].
    + assert (Hz : hdr_num_chunks (h_mem h) next = 0).
      { pose proof (ho_end _ _ H) as He. rewrite span_app, span_cons in He.
        change (span []) with 0 in He. rewrite Z.add_0_r in He. exact He. }
      rewrite Hz. change (0 <? 0) with false. cbv iota. change (0 =? 1) with false. cbn [andb].
      rewrite <- Hmv. unfold malloc_chunk_from_addr. by destruct (_malloc_r _ _ _ _ _ _) as [[? []]|].
    + destruct Hs2 as (Hhn & Hokn & Hs3). pose proof (total_nonneg _ _ _ Hs3). simpl in Ht.
      destruct (Hhn) as (_ & _ & Hnn & _). rewrite Hnn. rewrite (proj2 (Z.ltb_lt 0 (b_chunks nb))) by heap_lia.
      rewrite (is_free_header _ _ _ Hhn), u16_id by heap_lia. destruct (is_free nb); cbn [andb].
      * change (1 =? 1) with true. cbn [andb]. unfold in_place, resize.
        destruct (Z.leb_spec n (b_chunks b + b_chunks nb)); destruct (Z.ltb_spec n (b_chunks nb + b_chunks b)); try lia.
        -- rewrite (proj2 (Z.eqb_neq (b_chunks b + b_chunks nb - n) 0)) by lia. do 2 f_equal.
           unfold chunk_next, chunk_add, chunk_memory. do 2 f_equal; [|lia].
           now rewrite set_used_num_chunks by apply calc_num_chunks_range.
        -- rewrite (proj2 (Z.eqb_eq (b_chunks nb + b_chunks b) n)) by lia.
           now rewrite (proj2 (Z.eqb_eq (b_chunks b + b_chunks nb - n) 0)) by lia.
        -- rewrite (proj2 (Z.eqb_neq (b_chunks nb + b_chunks b) n)) by lia.
           rewrite <- Hmv. unfold malloc_chunk_from_addr. by destruct (_malloc_r _ _ _ _ _ _) as [[? []]|].
      * change (0 =? 1) with false. cbn [andb].
        rewrite <- Hmv. unfold malloc_chunk_from_addr. by destruct (_malloc_r _ _ _ _ _ _) as [[? []]|].
Qed.
End Resize.


(** [free] of the address of a block in use takes exactly that block out of use:
    the other blocks keep their place, their size and every byte, the heap is well
    formed and its free blocks are joined, so that no two neighbours are free. *)
Theorem free_correct self stack h l pre o b post :
  0 <= self < 2 ^ 16 -> heap_ok h l -> used 0 l = pre ++ (o, b) :: post ->
  exists h' l', _free_r self stack (Free_at (chunk_memory o)) h = Some h' /\
    heap_ok h' l' /\ used 0 l' = pre ++ post /\ no_free_run l' /\
    same_bytes (pre ++ post) (h_mem h) (h_mem h') /\ h_faults h' = h_faults h.
Proof. apply free_spec. Qed.

(** [realloc] of a block in use to a positive size keeps the contents: it gives
    a block of that size (the same one when it fits there or in the free block
    after it, a new one otherwise) whose first bytes, as many as both sizes have,
    are those of the old block; every other block in use is unchanged and the heap
    is well formed.  When it cannot, it reports [ENOMEM] and every block in use,
    the old one included, is as before. *)
Theorem realloc_correct self owner sp fuel size h l pre o b post :
  0 <= self < 2 ^ 16 -> 0 <= owner < 2 ^ 16 -> sp <= 2 ^ 21 ->
  0 < size <= CONFIG_MALLOC_CHUNK_SIZE * 65535 - sizeof_header -> (3 <= fuel)%nat ->
  heap_ok h l -> used 0 l = pre ++ (o, b) :: post ->
  realloc_post owner size l pre o b post h
    (_realloc_r self owner (Some sp) fuel (Some (chunk_memory o)) size h).
Proof.
  intros Hself Howner Hsp Hsize Hfuel H Hu. pose proof Hu as Hu0.
  destruct (used_split _ _ _ _ _ _ Hu) as (l1 & l2 & -> & -> & -> & -> & Hb). rewrite Z.add_0_l in *.
  destruct (calc_num_chunks_spec size Hsize) as (Hn & Hfit & _). set (n := malloc_calc_num_chunks size) in *.
  destruct (realloc_cases self owner sp Hself Howner fuel size h l1 b l2 ltac:(lia) H Hb) as [Hle Hgt].
  fold n in Hle, Hgt.
  assert (Hmove := realloc_move_post self owner sp Hself Howner fuel size h _ _ _ _ _ Hsp Hsize Hfuel H Hu0).
  destruct (Z.le_gt_cases n (b_chunks b)) as [Hc|Hc].
  - rewrite (Hle Hc). pose proof (resize_post self owner Hself Howner n (b_chunks b - n) size l1 b [] l2 h H Hb eq_refl) as R.
    replace (span [b]) with (CONFIG_MALLOC_CHUNK_SIZE * b_chunks b) in R by (unfold span; simpl; lia).
    apply R; [lia|lia|simpl; lia|lia].
  - specialize (Hgt Hc). destruct l2 as [|nb l2]; [now rewrite Hgt|].
    destruct (is_free nb && (n <=? b_chunks b + b_chunks nb)) eqn:E; [|now rewrite Hgt].
    rewrite Hgt. apply andb_true_iff in E as [Ef El%Z.leb_le].
    pose proof (resize_post self owner Hself Howner n (b_chunks b + b_chunks nb - n) size l1 b [nb] l2 h H Hb) as R.
    rewrite !used_cons, Ef in *. cbn [app] in *.
    replace (span [b; nb]) with (CONFIG_MALLOC_CHUNK_SIZE * b_chunks b + CONFIG_MALLOC_CHUNK_SIZE * b_chunks nb) in R
      by (unfold span; simpl; lia).
    rewrite Z.add_assoc in R. apply R; [done|lia|lia|simpl; lia|lia].
Qed.

(** ** Addresses that are not blocks in use *)

(** [free] of an address that is not a block in use is harmless: the addresses
    outside the heap, those that are not 12 bytes into a chunk, and the address of
    a free block (a second [free] of the same block before its neighbours are
    joined) leave the heap as it is. *)
Theorem free_rejects self stack addr h l :
  heap_ok h l ->
  addr < 0 \/ h_size h < addr \/ Z.rem (malloc_chunk_from_addr addr) CONFIG_MALLOC_CHUNK_SIZE <> 0 \/
  (exists b, (malloc_chunk_from_addr addr, b) ∈ placed 0 l /\ is_free b = true) ->
  _free_r self stack (Free_at addr) h = Some h.
Proof.
  intros H Hcase. unfold _free_r. rewrite (heap_ok_nonempty _ _ H).
  destruct (Z.ltb_spec addr 0); [done|]. destruct (Z.ltb_spec (h_size h) addr); [done|].
  rewrite (not_corrupt_spec _ _ H). change (0 <? 0) with false. cbv iota.
  destruct (Z.eqb_spec (Z.rem (malloc_chunk_from_addr addr) CONFIG_MALLOC_CHUNK_SIZE) 0); [|done]. cbn [negb].
  destruct Hcase as [?|[?|[?|(b & Hp & Hf)]]]; [lia|lia|done|].
  destruct (placed_range _ _ _ _ _ (ho_seg _ _ H) Hp) as (_ & _ & _ & Hh).
  rewrite (is_free_header _ _ _ Hh), Hf. done.
Qed.

(** ** Requests the allocator does not expect *)

(** The number of chunks is kept in 16 bits: up to 2097108 bytes it is the least
    number that holds the header and the request, above that it is reduced modulo
    65536, so a larger request is given a block that is too small for it. *)
Theorem malloc_large_request_wraps size :
  (0 < size <= 2097108 ->
     size + 12 <= 32 * malloc_calc_num_chunks size < size + 12 + 32) /\
  (2097108 < size < 2 ^ 32 - 64 -> 32 * malloc_calc_num_chunks size < size + 12).
Proof.
  split; intros Hs.
  - destruct (calc_num_chunks_spec size) as (? & ? & ?); unfold CONFIG_MALLOC_CHUNK_SIZE, sizeof_header in *; lia.
  - pose proof (calc_num_chunks_range size). lia.
Qed.

Definition all_used (l : list block) : Prop := Forall (fun b => is_free b = false) l.
Lemma coalesced_all_used self l : all_used l -> coalesced self l = l.
Proof.
  destruct l as [|b l]; [done|]. intros H. simpl. revert b H. induction l as [|b' l IH]; intros b H; [done|].
  apply Forall_cons in H as [Hb H]. simpl. rewrite Hb. simpl. f_equal. now apply IH.
Qed.
Lemma all_used_first_fit c n l : all_used l -> first_fit c n l = None.
Proof.
  intros H. revert c. induction H as [|b l Hb _ IH]; intros c; [done|]. simpl. unfold fits. rewrite Hb. apply IH.
Qed.
Lemma get_more_zero self sp h l : 0 <= self < 2 ^ 16 -> heap_ok h l -> h_size h <= sp - 512 ->
  exists h', malloc_get_more_memory self (Some sp) 0 false h = (h', 0) /\ heap_ok h' l /\ h_size h' = h_size h.
Proof.
  intros Hself [Hs He Hz Ht] Hsp. unfold malloc_get_more_memory. rewrite jump_size_eq by lia.
  change (CONFIG_MALLOC_CHUNK_SIZE * jump_chunks 0) with 0. unfold _sbrk_r. rewrite !Z.add_0_r.
  rewrite (proj2 (Z.ltb_ge (sp - CONFIG_MALLOC_SBRK_JUMP_SIZE * 4) (h_size h))) by (unfold CONFIG_MALLOC_SBRK_JUMP_SIZE; lia).
  replace (h_size h - CONFIG_MALLOC_SBRK_JUMP_SIZE) with (span l) by lia.
  change (Z.quot 0 CONFIG_MALLOC_CHUNK_SIZE) with 0.
  unfold malloc_set_chunk_free, set_last_chunk, on_mem. cbn [h_mem h_size h_faults]. change (u16 0) with 0.
  set (m1 := set_header (span l) self 0 0 (h_mem h)).
  pose proof (set_header_is (span l) self 0 0 (h_mem h) Hself ltac:(lia) ltac:(lia)) as (_ & _ & Hn1 & _). fold m1 in Hn1.
  unfold chunk_next, chunk_add. rewrite Hn1. cbn [b_chunks]. rewrite Z.mul_0_r, Z.add_0_r.
  eexists. split; [reflexivity|]. split; [|done]. split; cbn [h_mem h_size].
  - eapply seg_agree; [|exact Hs]. etrans; [apply (set_header_agree (span l) self 0 0)|apply set_header_agree]; lia.
  - pose proof (set_header_is (span l) self 0 0 m1 Hself ltac:(lia) ltac:(lia)) as (_ & _ & Hn2 & _). exact Hn2.
  - done.
  - done.
Qed.

(** [malloc(0)] does not return on a heap without a free block: no chunk fits,
    the heap grows by the 0 bytes that were asked for, and the loop starts again
    with the same heap. *)
Theorem malloc_zero_never_returns self owner sp fuel h l :
  0 <= self < 2 ^ 16 -> heap_ok h l -> all_used l -> h_size h <= sp - 512 ->
  _malloc_r self owner (Some sp) fuel 0 h = None.
Proof.
  intros Hself H Hall Hsp. unfold _malloc_r. rewrite (heap_ok_nonempty _ _ H).
  revert h H Hsp. induction fuel as [|fuel IH]; intros h H Hsp; [done|]. cbn [malloc_loop].
  rewrite (find_free_spec _ _ _ H), all_used_first_fit by done. rewrite (not_corrupt_spec _ _ H).
  change (negb (0 =? 0)) with false. cbv iota.
  destruct (get_more_zero self sp h l Hself H Hsp) as (h1 & -> & H1 & Hz1).
  destruct (cleanup_spec self Hself (Some sp) h1 l H1) as (h2 & -> & [K _ _ _] & Hz2).
  change (0 <? 0) with false. cbv iota. rewrite coalesced_all_used in K by done. apply IH; [done|lia].
Qed.

(** ** A heap to run the operations on *)

Definition demo_stack : option Z := Some 65536.
Definition demo_malloc (size : Z) (h : heap) : heap :=
  match _malloc_r 1 0 demo_stack 3 size h with Some (h, _) => h | None => h end.
Definition demo_free (addr : free_arg) (h : heap) : heap :=
  match _free_r 1 demo_stack addr h with Some h => h | None => h end.
Definition demo_realloc (addr size : Z) (h : heap) : heap :=
  match _realloc_r 1 0 demo_stack 3 (Some addr) size h with Some (h, _) => h | None => h end.
Definition demo_new : heap := mk_heap (fun _ => 0) 0 0.
(** One block of 100 bytes: 4 chunks. *)
Definition demo_heap : heap := demo_malloc 100 demo_new.
Definition demo_blocks : list block := [mk_block 0 4 100].
Lemma demo_heap_ok : heap_ok demo_heap demo_blocks.
Proof. split; vm_compute; repeat split; congruence. Qed.

Lemma free_correct_witness :
  exists h' l', _free_r 1 demo_stack (Free_at 12) demo_heap = Some h' /\ heap_ok h' l' /\ used 0 l' = [].
Proof.
  destruct (free_correct 1 demo_stack demo_heap demo_blocks [] 0 (mk_block 0 4 100) [] ltac:(done) demo_heap_ok
              ltac:(reflexivity)) as (h' & l' & H1 & H2 & H3 & _).
  exists h', l'. exact (conj H1 (conj H2 H3)).
Defined.
Lemma realloc_correct_witness :
  realloc_post 0 300 demo_blocks [] 0 (mk_block 0 4 100) [] demo_heap
    (_realloc_r 1 0 demo_stack 3 (Some 12) 300 demo_heap) /\
  snd <$> _realloc_r 1 0 demo_stack 3 (Some 12) 300 demo_heap = Some (inl (Some 140)).
Proof.
  split; [|vm_compute; reflexivity].
  exact (realloc_correct 1 0 65536 3 300 demo_heap demo_blocks [] 0 (mk_block 0 4 100) [] ltac:(done) ltac:(done)
           ltac:(done) ltac:(done) ltac:(lia) demo_heap_ok ltac:(reflexivity)).
Defined.
Lemma free_rejects_witness : _free_r 1 demo_stack (Free_at 45) demo_heap = Some demo_heap.
Proof.
  apply (free_rejects 1 demo_stack 45 demo_heap demo_blocks demo_heap_ok).
  right; right; left. vm_compute. congruence.
Defined.
Lemma malloc_zero_never_returns_witness : _malloc_r 1 0 demo_stack 1000 0 demo_heap = None.
Proof.
  refine (malloc_zero_never_returns 1 0 65536 1000 demo_heap demo_blocks _ demo_heap_ok _ _).
  - lia.
  - constructor; [reflexivity|constructor].
  - vm_compute. congruence.
Defined.
(** Blocks of 100, 300 and 1000 bytes; the last is freed, the second shrunk to 20. *)
Definition demo_shrunk : heap :=
  demo_realloc 140 20 (demo_free (Free_at 460) (demo_malloc 1000 (demo_malloc 300 demo_heap))).

(** Giving memory back ([free((void * )1)]) after a block was shrunk corrupts the
    heap.  Shrinking leaves two neighbouring free blocks; [cleanup_memory] joins
    them but then releases only the second and puts the last header inside the
    joined block.  Here 1536 bytes of blocks (1376 of them free, to be handed out
    by [malloc]) remain in a heap of 576 bytes: the rest is stack. *)
Theorem malloc_trim_corrupts :
  (snd <$> _mallinfo_r demo_shrunk = Some (mk_mallinfo 1536 43 1376 120) /\ h_size demo_shrunk = 1536 + 128) /\
  exists h', _free_r 1 demo_stack Free_trim demo_shrunk = Some h' /\
    snd <$> _mallinfo_r h' = Some (mk_mallinfo 1536 43 1376 120) /\ h_size h' = 576.
Proof.
  split; [vm_compute; done|].
  exists (match _free_r 1 demo_stack Free_trim demo_shrunk with Some h => h | None => demo_shrunk end).
  split; [|vm_compute; done].
  assert (Hs : is_Some (_free_r 1 demo_stack Free_trim demo_shrunk)) by (vm_compute; eauto).
  destruct Hs as [h' E]. now rewrite E.
Qed.
(** The block [malloc(0)] returns is still free: the next request gets the same
    address. *)
Example malloc_zero_aliases :
  snd <$> _malloc_r 1 0 demo_stack 3 0 demo_shrunk = Some (inl 172) /\
  snd <$> _malloc_r 1 0 demo_stack 3 10 (demo_malloc 0 demo_shrunk) = Some (inl 172).
Proof. vm_compute. done. Qed.
(** [calloc] multiplies without a check: 65536 objects of 65537 bytes get one block
    of 65536 bytes. *)
Example calloc_overflow self owner stack fuel h :
  _calloc_r self owner stack fuel 65536 65537 h = _calloc_r self owner stack fuel 65536 1 h.
Proof. reflexivity. Qed.

(** ** Accounting *)

Definition free_chunks (l : list block) : Z := total (filter (fun b => is_free b = true) l).
Definition used_bytes (l : list block) : Z := foldr (fun b n => b_size b + n) 0 l.
Lemma mallinfo_loop_spec fuel c h l t f u :
  seg (h_mem h) c l -> hdr_num_chunks (h_mem h) (c + span l) = 0 -> (length l < fuel)%nat ->
  mallinfo_loop fuel c t f u h = Some (h, Some (t + total l, f + free_chunks l, u + used_bytes l)).
Proof.
  revert c fuel t f u. induction l as [|b l IH]; intros c fuel t f u Hs He Hf; (destruct fuel as [|fuel]; [simpl in Hf; lia|]).
  - unfold span in He. simpl in *. rewrite Z.mul_0_r, Z.add_0_r in He. rewrite He. change (0 =? 0) with true. cbv iota.
    unfold free_chunks. simpl. by rewrite !Z.add_0_r.
  - destruct (walk_step _ _ _ _ Hs) as [En Ex]. destruct Hs as (Hh & Hb & Hl).
    cbn [mallinfo_loop]. rewrite En, (is_free_header _ _ _ Hh), Ex. destruct (Hh) as (_ & _ & Hn & Hz). rewrite Hn, Hz.
    rewrite span_cons, Z.add_assoc in He. unfold free_chunks. rewrite filter_cons.
    assert (((if is_free b then 1 else 0) =? -1) = false) as -> by now destruct (is_free b).
    destruct (is_free b) eqn:Ef; [change (1 =? 1) with true|change (0 =? 1) with false]; cbv iota.
    + rewrite IH by (done || simpl in Hf; lia). rewrite decide_True by done. unfold free_chunks. simpl.
      unfold is_free in Ef. apply Z.eqb_eq in Ef. rewrite Ef, !Z.add_assoc, Z.add_0_r. done.
    + rewrite IH by (done || simpl in Hf; lia). rewrite decide_False by done. unfold free_chunks. simpl.
      by rewrite !Z.add_assoc.
Qed.
(** [mallinfo] of a well-formed heap reports the bytes of all blocks, the free
    chunks and bytes, and the bytes the program asked for; the arena is the size
    of the heap less the 128 bytes kept for the last header. *)
Theorem mallinfo_exact h l : heap_ok h l ->
  _mallinfo_r h = Some (h, mk_mallinfo (h_size h - CONFIG_MALLOC_SBRK_JUMP_SIZE) (free_chunks l)
                             (CONFIG_MALLOC_CHUNK_SIZE * free_chunks l) (used_bytes l)).
Proof.
  intros H. unfold _mallinfo_r. rewrite (mallinfo_loop_spec _ _ _ l) by (apply H || now apply walk_fuel_enough).
  rewrite (ho_size _ _ H). unfold span. rewrite !Z.add_0_l. do 3 f_equal; lia.
Qed.
Lemma mallinfo_exact_witness : snd <$> _mallinfo_r demo_heap = Some (mk_mallinfo 128 0 0 100).
Proof. rewrite (mallinfo_exact demo_heap demo_blocks demo_heap_ok). vm_compute. reflexivity. Defined.
