(* ===== verification/Link.v ===== *)
(** * The link protocol: packets

    What [src/link_transport/link1_transport.c] and [link2_transport.c] share: the
    packet in memory, its checksum and the loop that collects a packet from the
    physical driver.  The driver's functions are pointers in
    [link_transport_driver_t]; here the driver is a script of what its reads will
    give (bytes, in pieces of any size, pauses, or an error) and the bytes written
    so far.  A flush and a wait are only counted: what they discard or let pass is
    not in the script of what later reads will give.  A read asks for at most so many bytes and gets as many as are there.
    When the script is at its end the driver blocks: the operations give [None]. *)
From S2P Require Import Prelude Memory.

Definition LINK_TIMEOUT_ERROR : Z := -4.
Definition LINK_PHY_ERROR : Z := -3.
Definition LINK_PROT_ERROR : Z := -2.

(** ** The physical driver *)

Inductive rx := Rx_data (l : list Z) | Rx_idle (ms : Z) | Rx_error.
Record chan := mk_chan { c_rx : list rx; c_tx : list Z; c_flushes : Z; c_waited : Z; c_write_ok : bool }.
Inductive read_result := Read_error | Read_idle (ms : Z) | Read_bytes (l : list Z).
Definition with_rx (r : list rx) (c : chan) : chan := mk_chan r (c_tx c) (c_flushes c) (c_waited c) (c_write_ok c).

Definition phy_read (n : Z) (c : chan) : option (chan * read_result) :=
  match c_rx c with
  | [] => None
  | Rx_error :: r => Some (with_rx r c, Read_error)
  | Rx_idle ms :: r => Some (with_rx r c, Read_idle ms)
  | Rx_data l :: r =>
      let rest := drop (Z.to_nat n) l in
      let c := with_rx (match rest with [] => r | _ => Rx_data rest :: r end) c in
      match take (Z.to_nat n) l with
      | [] => Some (c, Read_idle 0)
      | got => Some (c, Read_bytes got)
      end
  end.
Definition phy_write (l : list Z) (c : chan) : chan * Z :=
  if c_write_ok c then (mk_chan (c_rx c) (c_tx c ++ l) (c_flushes c) (c_waited c) true, Zlen l) else (c, -1).
Definition phy_flush (c : chan) : chan :=
  mk_chan (c_rx c) (c_tx c) (c_flushes c + 1) (c_waited c) (c_write_ok c).
Definition phy_wait (ms : Z) (c : chan) : chan :=
  mk_chan (c_rx c) (c_tx c) (c_flushes c) (c_waited c + ms) (c_write_ok c).

(** Every read of at least one byte makes the script shorter. *)
Definition rx_weight (r : list rx) : nat :=
  foldr (fun e n => match e with Rx_data l => S (length l) | _ => 1 end + n)%nat O r.
Definition read_fuel (c : chan) : nat := S (rx_weight (c_rx c)).

(** ** A packet in memory *)

(** [size] is one byte at offset 1 in version 1 and two bytes at offset 2 in
    version 2; the test for the timeout differs too. *)
Class Layout := {
  pkt_size : mem -> Z;
  set_size : Z -> mem -> mem;
  data_off : Z;
  header_size : Z;
  data_size : Z;
  timed_out : Z -> Z -> bool;
}.

Fixpoint store_list (a : Z) (l : list Z) (m : mem) : mem :=
  match l with [] => m | b :: l => store_list (a + 1) l (store8 a b m) end.
Definition load_list (m : mem) (a n : Z) : list Z := (fun i => load8 m (a + i)) <$> seqZ 0 n.

Section Packet.
Context {L : Layout}.

Definition xor_data (m : mem) (n : Z) : Z :=
  for_range 0 n (fun i checksum => Z.lxor checksum (load8 m (data_off + i))) (Z.lxor 0 (pkt_size m)).
Definition pkt_checksum (m : mem) : Z := load8 m (data_off + pkt_size m).
Definition insert_checksum (m : mem) : mem := store8 (data_off + pkt_size m) (xor_data m (pkt_size m)) m.
Definition checksum_isok (m : mem) : mem * bool :=
  if pkt_size m <=? data_size then
    let checksum := pkt_checksum m in
    let m := insert_checksum m in
    (m, checksum =? pkt_checksum m)
  else (m, false).

(** The loop of [wait_packet]: the driver, the packet and the result. *)
Fixpoint wait_packet_loop (fuel : nat) (timeout bytes count : Z) (m : mem) (c : chan)
    : option (chan * mem * Z) :=
  match fuel with
  | O => None
  | S fuel =>
      let page_size := if bytes =? 0 then 1 else (pkt_size m - bytes) + header_size - 1 in
      match phy_read page_size c with
      | None => None
      | Some (c, Read_error) => Some (c, m, LINK_PHY_ERROR)
      | Some (c, Read_bytes l) =>
          let m := store_list (1 + bytes) l m in
          if data_size <? pkt_size m then Some (c, m, LINK_PROT_ERROR)
          else
            let bytes := bytes + Zlen l in
            if bytes <? pkt_size m + header_size - 1 then wait_packet_loop fuel timeout bytes 0 m c
            else Some (c, m, 0)
      | Some (c, Read_idle ms) =>
          let count := count + ms in
          if timed_out count timeout then Some (c, m, LINK_TIMEOUT_ERROR)
          else if bytes <? pkt_size m + header_size - 1 then wait_packet_loop fuel timeout bytes count m c
          else Some (c, m, 0)
      end
  end.
Definition wait_packet (timeout : Z) (m : mem) (c : chan) : option (chan * mem * Z) :=
  wait_packet_loop (read_fuel c) timeout 0 0 (set_size 0 m) c.
End Packet.

(** ** The two versions *)

Definition LINK_PACKET_START : Z := 16.
Definition LINK_PACKET_HEADER_SIZE : Z := 3.
Definition LINK_PACKET_DATA_SIZE : Z := 60.
Definition LINK_PACKET_ACK : Z := 6.
Definition LINK_PACKET_NACK : Z := 83.
Definition LINK2_PACKET_START : Z := 17.
Definition LINK2_PACKET_HEADER_SIZE : Z := 6.
Definition LINK2_PACKET_DATA_SIZE : Z := 1024.
Definition LINK2_PACKET_ACK : Z := 7.
Definition LINK2_PACKET_NACK : Z := 84.
Definition LINK2_FLAG_IS_CHECKSUM : Z := 1.

Definition link_pkt_t : Layout := {|
  pkt_size m := load8 m 1;
  set_size n m := store8 1 n m;
  data_off := 2;
  header_size := LINK_PACKET_HEADER_SIZE;
  data_size := LINK_PACKET_DATA_SIZE;
  timed_out count timeout := count =? timeout |}.
Definition link2_pkt_t : Layout := {|
  pkt_size m := load16 m 2;
  set_size n m := store16 2 n m;
  data_off := 4;
  header_size := LINK2_PACKET_HEADER_SIZE;
  data_size := LINK2_PACKET_DATA_SIZE;
  timed_out count timeout := timeout <=? count |}.

Definition link1_transport_insert_checksum : mem -> mem := @insert_checksum link_pkt_t.
Definition link1_transport_checksum_isok : mem -> mem * bool := @checksum_isok link_pkt_t.
Definition link1_transport_wait_packet : Z -> mem -> chan -> option (chan * mem * Z) := @wait_packet link_pkt_t.
Definition link2_transport_insert_checksum : mem -> mem := @insert_checksum link2_pkt_t.
Definition link2_transport_checksum_isok : mem -> mem * bool := @checksum_isok link2_pkt_t.
Definition link2_transport_wait_packet : Z -> mem -> chan -> option (chan * mem * Z) := @wait_packet link2_pkt_t.

(** Version 1 counts an idle read as one more millisecond and tests for equality;
    a byte that is not the start byte is an error at once. *)
Fixpoint link1_wait_start_loop (fuel : nat) (timeout count : Z) (m : mem) (c : chan)
    : option (chan * mem * Z) :=
  match fuel with
  | O => None
  | S fuel =>
      match phy_read 1 c with
      | None => None
      | Some (c, Read_error) => Some (c, m, LINK_PHY_ERROR)
      | Some (c, Read_bytes l) =>
          let m := store_list 0 l m in
          if negb (load8 m 0 =? LINK_PACKET_START) then Some (c, m, LINK_PROT_ERROR)
          else Some (c, m, 0)
      | Some (c, Read_idle ms) =>
          let count := count + ms + 1 in
          if count =? timeout then Some (c, m, LINK_TIMEOUT_ERROR)
          else link1_wait_start_loop fuel timeout count m c
      end
  end.
Definition link1_transport_wait_start (timeout : Z) (m : mem) (c : chan) : option (chan * mem * Z) :=
  link1_wait_start_loop (read_fuel c) timeout 0 m c.
Fixpoint link2_wait_start_loop (fuel : nat) (timeout count : Z) (m : mem) (c : chan)
    : option (chan * mem * Z) :=
  match fuel with
  | O => None
  | S fuel =>
      match phy_read 1 c with
      | None => None
      | Some (c, Read_error) => Some (c, m, LINK_PHY_ERROR)
      | Some (c, Read_bytes l) =>
          let m := store_list 0 l m in
          if load8 m 0 =? LINK2_PACKET_START then Some (c, m, LINK2_PACKET_START)
          else Some (c, m, LINK_PROT_ERROR)
      | Some (c, Read_idle ms) =>
          let count := count + ms in
          if timeout <=? count then Some (c, m, LINK_TIMEOUT_ERROR)
          else link2_wait_start_loop fuel timeout count m c
      end
  end.
Definition link2_transport_wait_start (timeout : Z) (m : mem) (c : chan) : option (chan * mem * Z) :=
  link2_wait_start_loop (read_fuel c) timeout 0 m c.

(** ** Lists in memory *)

Lemma store_list_agree a l m x y : y <= a \/ a + Zlen l <= x -> agree x y m (store_list a l m).
Proof.
  revert a m. induction l as [|b l IH]; intros a m H; [reflexivity|]. cbn [store_list].
  rewrite Zlen_cons in H. pose proof (Zlen_nonneg l). etrans; [apply store8_agree|apply IH]; lia.
Qed.
Lemma load_list_length m a n : 0 <= n -> Zlen (load_list m a n) = n.
Proof. intros. unfold Zlen, load_list. rewrite length_fmap, length_seqZ. lia. Qed.
Lemma load_list_agree m m' a n : agree a (a + n) m m' -> load_list m' a n = load_list m a n.
Proof.
  intros H. apply list_fmap_ext. intros i x Hx%lookup_seqZ. unfold load8. rewrite H; [done|lia].
Qed.
Lemma load_list_app m a n1 n2 : 0 <= n1 -> 0 <= n2 ->
  load_list m a (n1 + n2) = load_list m a n1 ++ load_list m (a + n1) n2.
Proof.
  intros. unfold load_list. rewrite seqZ_app, fmap_app by done. f_equal.
  assert (seqZ (0 + n1) n2 = Z.add n1 <$> seqZ 0 n2) as -> by (rewrite fmap_add_seqZ; f_equal; lia).
  rewrite <- list_fmap_compose. apply list_fmap_ext. intros i x _. simpl. f_equal. lia.
Qed.
Lemma load_list_cons m a n : 0 < n -> load_list m a n = load8 m a :: load_list m (a + 1) (n - 1).
Proof.
  intros. replace n with (1 + (n - 1)) at 1 by lia. rewrite load_list_app by lia.
  unfold load_list at 1. simpl. rewrite Z.add_0_r. done.
Qed.
Lemma load_store_list a l m : Forall (fun b => 0 <= b < 2 ^ 8) l -> load_list (store_list a l m) a (Zlen l) = l.
Proof.
  revert a m. induction l as [|b l IH]; intros a m H; [done|]. apply Forall_cons in H as [Hb H].
  pose proof (Zlen_nonneg l). rewrite load_list_cons by (rewrite Zlen_cons; lia). cbn [store_list]. f_equal.
  - rewrite (load8_agree (store8 a b m) _ a (a + 1)) by (apply store_list_agree || idtac; lia).
    rewrite load8_store8_eq. now apply u8_id.
  - rewrite Zlen_cons. replace (Zlen l + 1 - 1) with (Zlen l) by lia. now apply IH.
Qed.
Lemma load_list_lookup m a n i : 0 <= i < n -> load_list m a n !! Z.to_nat i = Some (load8 m (a + i)).
Proof.
  intros Hi. unfold load_list. rewrite list_lookup_fmap.
  rewrite (proj2 (lookup_seqZ 0 n (Z.to_nat i) (0 + i))) by lia. done.
Qed.
Lemma load_list_byte m a k body i b : 0 <= i < k -> load_list m a k = take (Z.to_nat k) body ->
  body !! Z.to_nat i = Some b -> load8 m (a + i) = b.
Proof.
  intros Hi H Hb. pose proof (load_list_lookup m a k i Hi) as E. rewrite H, lookup_take_lt in E by lia. congruence.
Qed.

(** ** Quiet scripts: no errors, and pauses that do not add up to a timeout *)

Definition rx_bytes (r : list rx) : list Z :=
  r ≫= fun e => match e with Rx_data l => l | _ => [] end.
Fixpoint rx_pause (r : list rx) : Z :=
  match r with
  | Rx_idle ms :: r => ms + 1 + rx_pause r
  | Rx_data [] :: r => 1 + rx_pause r
  | _ :: r => rx_pause r
  | [] => 0
  end.
Fixpoint quiet (r : list rx) : Prop :=
  match r with
  | [] => True
  | Rx_data _ :: r => quiet r
  | Rx_idle ms :: r => 0 <= ms /\ quiet r
  | Rx_error :: _ => False
  end.
Lemma rx_pause_nonneg r : quiet r -> 0 <= rx_pause r.
Proof. induction r as [|[[]| |] r IH]; simpl; try lia; try done; [intros ?%IH; lia|]. intros [? ?%IH]. lia. Qed.

(** What one read of at least one byte does to a quiet driver with bytes left. *)
Lemma phy_read_quiet n c b bs : 1 <= n -> quiet (c_rx c) -> rx_bytes (c_rx c) = b :: bs ->
  exists r, quiet r /\ (rx_weight r < rx_weight (c_rx c))%nat /\
  ((exists got, phy_read n c = Some (with_rx r c, Read_bytes got) /\ 1 <= Zlen got <= n /\
      b :: bs = got ++ rx_bytes r /\ rx_pause r = rx_pause (c_rx c)) \/
   (exists ms, phy_read n c = Some (with_rx r c, Read_idle ms) /\ 0 <= ms /\
      rx_bytes r = b :: bs /\ rx_pause r + ms + 1 = rx_pause (c_rx c))).
Proof.
  intros Hn Hq Hb. unfold phy_read. destruct (c_rx c) as [|[l|ms|] r]; [done| | |done].
  - change (rx_bytes (Rx_data l :: r)) with (l ++ rx_bytes r) in Hb. simpl in Hq. destruct l as [|x l].
    + exists r. split; [done|]. split; [simpl; lia|]. right. exists 0. rewrite drop_nil, take_nil.
      repeat split; try done. simpl. lia.
    + set (k := Z.to_nat n). assert (Hk : (0 < k)%nat) by lia.
      exists (match drop k (x :: l) with [] => r | _ => Rx_data (drop k (x :: l)) :: r end).
      assert (Hd : (length (drop k (x :: l)) < length (x :: l))%nat) by (rewrite length_drop; simpl; lia).
      split; [by destruct (drop k (x :: l))|]. split; [destruct (drop k (x :: l)); simpl in *; lia|]. left.
      exists (take k (x :: l)). destruct (take k (x :: l)) as [|y t] eqn:Et; [destruct k; [lia|done]|].
      split; [done|]. rewrite <- Et. unfold Zlen. rewrite length_take. split; [simpl; lia|]. split.
      * rewrite <- Hb. replace (rx_bytes (match drop k (x :: l) with [] => r | _ => Rx_data (drop k (x :: l)) :: r end))
          with (drop k (x :: l) ++ rx_bytes r) by (by destruct (drop k (x :: l))).
        by rewrite app_assoc, take_drop.
      * by destruct (drop k (x :: l)).
  - change (rx_bytes (Rx_idle ms :: r)) with (rx_bytes r) in Hb. simpl in Hq. destruct Hq as [Hms Hq].
    exists r. split; [done|]. split; [simpl; lia|]. right. exists ms. repeat split; try done. simpl. lia.
Qed.

(** ** Collecting a packet *)

(** The bytes of a packet after the start byte, and what a packet that has
    arrived in part must satisfy. *)
Class PacketBody (L : Layout) (body : list Z) := {
  pb_bytes : Forall (fun b => 0 <= b < 2 ^ 8) body;
  pb_header : 1 <= data_off - 1 <= header_size - 1;
  pb_size : header_size - 1 <= Zlen body <= data_size + header_size - 1;
  pb_partial : forall k m, 1 <= k <= Zlen body -> load_list m 1 k = take (Z.to_nat k) body ->
    (forall i, k <= i < data_off - 1 -> load8 m (1 + i) = 0) ->
    0 <= pkt_size m <= Zlen body - (header_size - 1) /\
    (data_off - 1 <= k -> pkt_size m = Zlen body - (header_size - 1));
  pb_empty : forall m, 0 <= pkt_size m;
  pb_cleared : forall m i, 1 <= i < data_off - 1 -> load8 (set_size 0 m) (1 + i) = 0;
  pb_frame : forall m, load8 (set_size 0 m) 0 = load8 m 0;
}.

Section WaitPacket.
Context {L : Layout} (body : list Z) {B : PacketBody L body} (timeout : Z).
Context (Htimed : forall count, 0 <= count < timeout -> timed_out count timeout = false).

(** [k] bytes of the body have arrived. *)
Definition received (k : Z) (m : mem) : Prop :=
  load_list m 1 k = take (Z.to_nat k) body /\ forall i, Z.max 1 k <= i < data_off - 1 -> load8 m (1 + i) = 0.

Lemma received_size k m : 1 <= k <= Zlen body -> received k m ->
  0 <= pkt_size m <= Zlen body - (header_size - 1) /\
  (data_off - 1 <= k -> pkt_size m = Zlen body - (header_size - 1)).
Proof using B. intros Hk [H1 H2]. apply (pb_partial k m Hk H1). intros i Hi. apply H2. lia. Qed.
Lemma received_more k got rest m : 0 <= k -> received k m -> drop (Z.to_nat k) body = got ++ rest ->
  received (k + Zlen got) (store_list (1 + k) got m).
Proof using B.
  intros Hk [H1 H2] Hd. pose proof (Zlen_nonneg got). unfold received.
  assert (Hbody : take (Z.to_nat (k + Zlen got)) body = take (Z.to_nat k) body ++ got).
  { rewrite <- (take_drop (Z.to_nat k) body) at 1. rewrite Hd.
    destruct (decide (Z.to_nat k <= length body)%nat) as [Hl|Hl].
    - rewrite take_app_ge by (rewrite length_take; lia). rewrite length_take.
      replace (Z.to_nat (k + Zlen got) - _)%nat with (length got) by (unfold Zlen; lia).
      now rewrite take_app_length.
    - rewrite drop_ge in Hd by lia. symmetry in Hd. apply app_eq_nil in Hd as [-> ->].
      rewrite !app_nil_r. rewrite Zlen_nil, Z.add_0_r. rewrite take_take. f_equal. lia. }
  split.
  - rewrite Hbody, load_list_app by lia. f_equal.
    + rewrite (load_list_agree m); [done|]. apply store_list_agree. lia.
    + apply load_store_list. pose proof pb_bytes as Hb. rewrite <- (take_drop (Z.to_nat k) body), Hd in Hb.
      apply Forall_app in Hb as [_ Hb]. now apply Forall_app in Hb as [Hb _].
  - intros i Hi. rewrite (load8_agree m _ (1 + i) (1 + i + 1)); [apply H2; lia| |lia]. apply store_list_agree. lia.
Qed.

Lemma wait_packet_loop_spec fuel k count m c rest :
  0 <= k <= Zlen body -> (k = 0 \/ k < Zlen body) -> received k m ->
  quiet (c_rx c) -> 0 <= count -> count + rx_pause (c_rx c) < timeout ->
  rx_bytes (c_rx c) = drop (Z.to_nat k) body ++ rest -> (rx_weight (c_rx c) < fuel)%nat ->
  exists r m', wait_packet_loop fuel timeout k count m c = Some (with_rx r c, m', 0) /\
    received (Zlen body) m' /\ load8 m' 0 = load8 m 0 /\ quiet r /\ rx_pause r <= rx_pause (c_rx c) /\
    rx_bytes r = rest.
Proof using B Htimed.
  revert k count m c. induction fuel as [|fuel IH]; intros k count m c Hk Hk2 HR Hq Hc Hp Hb Hf; [lia|].
  pose proof pb_size as Hsz. pose proof pb_header as Hh. pose proof (rx_pause_nonneg _ Hq) as Hpn.
  assert (Hlt : k < Zlen body) by lia.
  assert (Hne : exists b bs, drop (Z.to_nat k) body = b :: bs).
  { destruct (drop (Z.to_nat k) body) as [|b bs] eqn:E; [|eauto].
    pose proof (length_drop body (Z.to_nat k)) as Hl. rewrite E in Hl. unfold Zlen in *. simpl in Hl. lia. }
  destruct Hne as (b & bs & Hd). cbn [wait_packet_loop].
  set (page := if k =? 0 then 1 else pkt_size m - k + header_size - 1).
  assert (Hpage : 1 <= page <= Zlen body - k).
  { unfold page. destruct (Z.eqb_spec k 0); [lia|]. 
    destruct (received_size k m ltac:(lia) HR) as [Hs1 Hs2]. destruct (decide (data_off - 1 <= k)); [|lia].
    specialize (Hs2 ltac:(done)). lia. }
  rewrite Hd in Hb. simpl in Hb.
  destruct (phy_read_quiet page c b _ (proj1 Hpage) Hq Hb) as (r & Hqr & Hw & [(got & -> & Hg & Hbr & Hpr)|(ms & -> & Hms & Hbr & Hpr)]).
  - assert (Hlen : (length got <= length (drop (Z.to_nat k) body))%nat).
    { rewrite length_drop. unfold Zlen in *. lia. }
    assert (Hsplit : drop (Z.to_nat k) body = got ++ drop (length got) (drop (Z.to_nat k) body)).
    { rewrite <- (take_drop (length got) (drop (Z.to_nat k) body)) at 1. f_equal.
      change (b :: bs ++ rest) with ((b :: bs) ++ rest) in Hbr. rewrite <- Hd in Hbr.
      apply (f_equal (take (length got))) in Hbr. rewrite take_app_le, take_app_length in Hbr by done. done. }
    pose proof (received_more k got _ m ltac:(lia) HR Hsplit) as HR'. set (m' := store_list (1 + k) got m) in *.
    destruct (received_size (k + Zlen got) m' ltac:(lia) HR') as [Hs1 Hs2].
    rewrite (proj2 (Z.ltb_ge data_size (pkt_size m'))) by lia.
    assert (Hz : load8 m' 0 = load8 m 0) by (apply (load8_agree m _ 0 1); [apply store_list_agree; lia|lia]).
    assert (Hrest : rx_bytes r = drop (Z.to_nat (k + Zlen got)) body ++ rest).
    { change (b :: bs ++ rest) with ((b :: bs) ++ rest) in Hbr. rewrite <- Hd, Hsplit, <- app_assoc in Hbr.
      apply app_inv_head in Hbr. rewrite <- Hbr, drop_drop. do 2 f_equal. unfold Zlen. lia. }
    destruct (Z.ltb_spec (k + Zlen got) (pkt_size m' + header_size - 1)) as [Hlt'|Hge].
    + destruct (IH (k + Zlen got) 0 m' (with_rx r c)) as (r' & m2 & -> & ? & Hz2 & ? & ? & ?); simpl; try done; try lia.
      exists r', m2. split; [done|]. split; [done|]. split; [congruence|]. split_and!; try done. cbn [c_rx with_rx] in *. lia.
    + assert (Hfull : k + Zlen got = Zlen body).
      { destruct (decide (data_off - 1 <= k + Zlen got)); [specialize (Hs2 ltac:(done)); lia|lia]. }
      exists r, m'. split; [done|]. rewrite Hfull in HR', Hrest. split; [done|]. split; [done|]. split; [done|].
      split; [lia|]. rewrite Hrest, drop_ge by (unfold Zlen; lia). done.
  - rewrite Htimed by (pose proof (rx_pause_nonneg _ Hqr); lia).
    assert (Hcont : k < pkt_size m + header_size - 1).
    { pose proof (pb_empty m). destruct (Z.eqb_spec k 0) as [->|]; [lia|]. 
      destruct (received_size k m ltac:(lia) HR) as [Hs1 Hs2].
      destruct (decide (data_off - 1 <= k)); [specialize (Hs2 ltac:(done))|]; lia. }
    rewrite (proj2 (Z.ltb_lt _ _) Hcont). pose proof (rx_pause_nonneg _ Hqr).
    destruct (IH k (count + ms) m (with_rx r c)) as (r' & m2 & -> & ? & ? & ? & ? & ?); simpl; try done; try lia.
    { rewrite Hbr, Hd. done. }
    exists r', m2. split; [done|]. split_and!; try done. cbn [c_rx with_rx] in *. lia.
Qed.
(** A packet is collected whole, and nothing after it, however the driver cuts the
    bytes into pieces. *)
Lemma wait_packet_spec m c rest :
  quiet (c_rx c) -> rx_pause (c_rx c) < timeout -> rx_bytes (c_rx c) = body ++ rest ->
  exists r m', wait_packet timeout m c = Some (with_rx r c, m', 0) /\ load_list m' 1 (Zlen body) = body /\
    load8 m' 0 = load8 m 0 /\ pkt_size m' = Zlen body - (header_size - 1) /\
    quiet r /\ rx_pause r <= rx_pause (c_rx c) /\ rx_bytes r = rest.
Proof using B Htimed.
  intros Hq Hp Hb. pose proof pb_size as Hsz. pose proof pb_header as Hh.
  destruct (wait_packet_loop_spec (read_fuel c) 0 0 (set_size 0 m) c rest) as (r & m' & E & HR & Hz & Hqr & Hpr & Hbr);
    try done; try lia.
  - split; [done|]. intros i Hi. apply pb_cleared. lia.
  - unfold read_fuel. lia.
  - exists r, m'. split; [exact E|]. destruct (received_size (Zlen body) m' ltac:(lia) HR) as [_ Hs]. destruct HR as [HR _].
    rewrite take_ge in HR by (unfold Zlen; lia). split; [done|]. split; [rewrite Hz; apply pb_frame|].
    split; [apply Hs; lia|done].
Qed.
End WaitPacket.

(** ** The bodies of the two versions *)

Lemma link1_in_time timeout count : 0 <= count < timeout -> @timed_out link_pkt_t count timeout = false.
Proof. intros. apply Z.eqb_neq. lia. Qed.
Lemma link2_in_time timeout count : 0 <= count < timeout -> @timed_out link2_pkt_t count timeout = false.
Proof. intros. apply Z.leb_gt. lia. Qed.

Definition is_byte (b : Z) : Prop := 0 <= b < 2 ^ 8.
Definition link1_body (data : list Z) (checksum : Z) : list Z := [Zlen data] ++ data ++ [checksum].
Definition link2_body (o_flags : Z) (data : list Z) (c0 c1 : Z) : list Z :=
  [o_flags; Zlen data mod 256; Zlen data / 256] ++ data ++ [c0; c1].

Lemma link1_packet_body data c : Forall is_byte data -> is_byte c -> Zlen data <= LINK_PACKET_DATA_SIZE ->
  PacketBody link_pkt_t (link1_body data c).
Proof.
  unfold is_byte, LINK_PACKET_DATA_SIZE. intros Hd Hc Hl. pose proof (Zlen_nonneg data).
  assert (Hlen : Zlen (link1_body data c) = Zlen data + 2) by (unfold link1_body; rewrite !Zlen_app; unfold Zlen; simpl; lia).
  split; cbn [pkt_size set_size data_off header_size data_size link_pkt_t]; unfold LINK_PACKET_DATA_SIZE, LINK_PACKET_HEADER_SIZE; try lia.
  - unfold link1_body. rewrite !Forall_app. repeat constructor; try done; lia.
  - intros k m Hk H1 _. rewrite Hlen in *.
    pose proof (load_list_byte m 1 k (link1_body data c) 0 (Zlen data) ltac:(lia) H1 eq_refl) as E.
    change (1 + 0) with 1 in E. rewrite E. lia.
  - intros m. pose proof (load8_range m 1). lia.
  - intros m. rewrite load8_store8_ne by lia. done.
Qed.
Lemma link2_packet_body fl data c0 c1 : is_byte fl -> Forall is_byte data -> is_byte c0 -> is_byte c1 ->
  Zlen data <= LINK2_PACKET_DATA_SIZE -> PacketBody link2_pkt_t (link2_body fl data c0 c1).
Proof.
  unfold is_byte, LINK2_PACKET_DATA_SIZE. intros Hf Hd Hc0 Hc1 Hl. pose proof (Zlen_nonneg data).
  assert (Hlen : Zlen (link2_body fl data c0 c1) = Zlen data + 5)
    by (unfold link2_body; rewrite !Zlen_app; unfold Zlen; simpl; lia).
  pose proof (Z.div_mod (Zlen data) 256 ltac:(lia)) as Hdm. pose proof (Z.mod_pos_bound (Zlen data) 256 ltac:(lia)).
  split; cbn [pkt_size set_size data_off header_size data_size link2_pkt_t]; unfold LINK2_PACKET_DATA_SIZE, LINK2_PACKET_HEADER_SIZE; try lia.
  - unfold link2_body. rewrite !Forall_app. repeat constructor; try done; lia.
  - intros k m Hk H1 Hz. rewrite Hlen in *. unfold load16. change (2 + 1) with 3.
    assert (E2 : load8 m 2 = if decide (2 <= k) then Zlen data mod 256 else 0).
    { destruct (decide (2 <= k)); [|apply (Hz 1); lia].
      exact (load_list_byte m 1 k (link2_body fl data c0 c1) 1 _ ltac:(lia) H1 eq_refl). }
    assert (E3 : load8 m 3 = if decide (3 <= k) then Zlen data / 256 else 0).
    { destruct (decide (3 <= k)); [|apply (Hz 2); lia].
      exact (load_list_byte m 1 k (link2_body fl data c0 c1) 2 _ ltac:(lia) H1 eq_refl). }
    rewrite E2, E3. destruct (decide (2 <= k)), (decide (3 <= k)); lia.
  - intros m. pose proof (load16_range m 2). lia.
  - intros m i Hi. unfold store16. assert (i = 1 \/ i = 2) as [-> | ->] by lia;
      [rewrite load8_store8_ne by lia; apply load8_store8_eq|apply load8_store8_eq].
  - intros m. unfold store16. rewrite !load8_store8_ne by lia. done.
Qed.

(** ** Waiting for the start byte *)

Definition wait_start_ok (start : Z) (wait_start : Z -> mem -> chan -> option (chan * mem * Z)) : Prop :=
  forall timeout m c rest, quiet (c_rx c) -> rx_pause (c_rx c) < timeout -> rx_bytes (c_rx c) = start :: rest ->
  exists r m' v, wait_start timeout m c = Some (with_rx r c, m', v) /\ 0 <= v /\ load8 m' 0 = start /\
    agree 1 (2 ^ 32) m m' /\ quiet r /\ rx_pause r <= rx_pause (c_rx c) /\ rx_bytes r = rest.

Lemma one_byte (got : list Z) b bs r : 1 <= Zlen got <= 1 -> b :: bs = got ++ r -> got = [b] /\ r = bs.
Proof.
  destruct got as [|x [|y got]]; rewrite ?Zlen_cons; [rewrite Zlen_nil; lia| |pose proof (Zlen_nonneg got); lia].
  intros _ [= <- ->]. done.
Qed.
Lemma start_stored b m : is_byte b -> load8 (store_list 0 [b] m) 0 = b /\ agree 1 (2 ^ 32) m (store_list 0 [b] m).
Proof. intros Hb. split; [cbn [store_list]; rewrite load8_store8_eq; now apply u8_id|apply store_list_agree; unfold Zlen; simpl; lia]. Qed.

Lemma link1_wait_start_spec : wait_start_ok LINK_PACKET_START link1_transport_wait_start.
Proof.
  intros timeout m c rest. unfold link1_transport_wait_start.
  assert (H : forall fuel count c, (rx_weight (c_rx c) < fuel)%nat -> quiet (c_rx c) -> 0 <= count ->
    count + rx_pause (c_rx c) < timeout -> rx_bytes (c_rx c) = LINK_PACKET_START :: rest ->
    exists r m' v, link1_wait_start_loop fuel timeout count m c = Some (with_rx r c, m', v) /\ 0 <= v /\
      load8 m' 0 = LINK_PACKET_START /\ agree 1 (2 ^ 32) m m' /\ quiet r /\
      rx_pause r <= rx_pause (c_rx c) /\ rx_bytes r = rest).
  { clear c. induction fuel as [|fuel IH]; intros count c Hf Hq Hc Hp Hb; [lia|]. cbn [link1_wait_start_loop].
    destruct (phy_read_quiet 1 c _ _ ltac:(lia) Hq Hb) as (r & Hqr & Hw & [(got & -> & Hg & Hbr & Hpr)|(ms & -> & Hms & Hbr & Hpr)]).
    - apply one_byte in Hbr as [-> Hr]; [|done]. destruct (start_stored LINK_PACKET_START m) as [S1 S2]; [done|].
      rewrite S1, Z.eqb_refl. cbn [negb]. exists r, (store_list 0 [LINK_PACKET_START] m), 0. split_and!; try done; lia.
    - pose proof (rx_pause_nonneg _ Hqr). rewrite (proj2 (Z.eqb_neq (count + ms + 1) timeout)) by lia.
      destruct (IH (count + ms + 1) (with_rx r c)) as (r' & m' & v & -> & ? & ? & ? & ? & ? & ?); cbn [c_rx with_rx]; try done; try lia.
      exists r', m', v. cbn [c_rx with_rx] in *. split_and!; try done; lia. }
  intros Hq Hp Hb. apply H; try done. unfold read_fuel. lia.
Qed.
Lemma link2_wait_start_spec : wait_start_ok LINK2_PACKET_START link2_transport_wait_start.
Proof.
  intros timeout m c rest. unfold link2_transport_wait_start.
  assert (H : forall fuel count c, (rx_weight (c_rx c) < fuel)%nat -> quiet (c_rx c) -> 0 <= count ->
    count + rx_pause (c_rx c) < timeout -> rx_bytes (c_rx c) = LINK2_PACKET_START :: rest ->
    exists r m' v, link2_wait_start_loop fuel timeout count m c = Some (with_rx r c, m', v) /\ 0 <= v /\
      load8 m' 0 = LINK2_PACKET_START /\ agree 1 (2 ^ 32) m m' /\ quiet r /\
      rx_pause r <= rx_pause (c_rx c) /\ rx_bytes r = rest).
  { clear c. induction fuel as [|fuel IH]; intros count c Hf Hq Hc Hp Hb; [lia|]. cbn [link2_wait_start_loop].
    destruct (phy_read_quiet 1 c _ _ ltac:(lia) Hq Hb) as (r & Hqr & Hw & [(got & -> & Hg & Hbr & Hpr)|(ms & -> & Hms & Hbr & Hpr)]).
    - apply one_byte in Hbr as [-> Hr]; [|done]. destruct (start_stored LINK2_PACKET_START m) as [S1 S2]; [done|].
      rewrite S1, Z.eqb_refl. exists r, (store_list 0 [LINK2_PACKET_START] m), LINK2_PACKET_START.
      unfold LINK2_PACKET_START in *. split_and!; try done; lia.
    - pose proof (rx_pause_nonneg _ Hqr). rewrite (proj2 (Z.leb_gt timeout (count + ms))) by lia.
      destruct (IH (count + ms) (with_rx r c)) as (r' & m' & v & -> & ? & ? & ? & ? & ? & ?); cbn [c_rx with_rx]; try done; try lia.
      exists r', m', v. cbn [c_rx with_rx] in *. split_and!; try done; lia. }
  intros Hq Hp Hb. apply H; try done. unfold read_fuel. lia.
Qed.

(** ** Timeouts *)

(** Version 1 compares the time that has passed with the timeout for equality: when
    every read of a silent driver takes [ms] milliseconds and the timeout is not a
    multiple of [ms + 1], the wait goes on for as long as the driver is silent. *)
Theorem link1_timeout_skipped timeout ms n m tx fl w ok :
  0 <= ms -> 0 < timeout -> timeout mod (ms + 1) <> 0 ->
  link1_transport_wait_start timeout m (mk_chan (replicate n (Rx_idle ms)) tx fl w ok) = None.
Proof.
  intros Hms Ht Hmod. unfold link1_transport_wait_start.
  generalize (read_fuel (mk_chan (replicate n (Rx_idle ms)) tx fl w ok)). intros fuel.
  assert (H : forall k, link1_wait_start_loop fuel timeout ((ms + 1) * k) m
                          (mk_chan (replicate n (Rx_idle ms)) tx fl w ok) = None).
  { revert n. induction fuel as [|fuel IH]; intros n k; [done|]. destruct n as [|n]; [done|].
    cbn. rewrite (proj2 (Z.eqb_neq ((ms + 1) * k + ms + 1) timeout)).
    - replace ((ms + 1) * k + ms + 1) with ((ms + 1) * (k + 1)) by lia. apply IH.
    - intros E. apply Hmod. rewrite <- E. replace ((ms + 1) * k + ms + 1) with ((k + 1) * (ms + 1)) by lia.
      apply Z.mod_mul. lia. }
  specialize (H 0). now rewrite Z.mul_0_r in H.
Qed.
Lemma link1_timeout_skipped_witness :
  link1_transport_wait_start 500 (fun _ => 0) (mk_chan (replicate 1000 (Rx_idle 2)) [] 0 0 true) = None.
Proof. apply (link1_timeout_skipped 500 2 1000); [lia|lia|vm_compute; discriminate]. Defined.

(** Version 2 stops with [LINK_TIMEOUT_ERROR] as soon as the pauses add up to the
    timeout. *)
Theorem link2_timeout_detected timeout ms n m tx fl w ok :
  0 < ms -> 0 < timeout <= ms * Z.of_nat n ->
  exists r, link2_transport_wait_start timeout m (mk_chan (replicate n (Rx_idle ms)) tx fl w ok)
    = Some (mk_chan r tx fl w ok, m, LINK_TIMEOUT_ERROR).
Proof.
  intros Hms Ht. unfold link2_transport_wait_start.
  assert (H : forall fuel n count, (n < fuel)%nat -> count < timeout -> timeout <= count + ms * Z.of_nat n ->
    exists r, link2_wait_start_loop fuel timeout count m (mk_chan (replicate n (Rx_idle ms)) tx fl w ok)
      = Some (mk_chan r tx fl w ok, m, LINK_TIMEOUT_ERROR)).
  { clear n Ht. induction fuel as [|fuel IH]; intros n count Hf Hc Hn; [lia|].
    destruct n as [|n]; [lia|]. cbn. destruct (Z.leb_spec timeout (count + ms)); [eauto|].
    apply IH; lia. }
  apply H; [|lia|lia]. unfold read_fuel. cbn [c_rx]. clear. induction n; simpl in *; lia.
Qed.
Lemma link2_timeout_detected_witness : exists r,
  link2_transport_wait_start 500 (fun _ => 0) (mk_chan (replicate 1000 (Rx_idle 2)) [] 0 0 true)
    = Some (mk_chan r [] 0 0 true, fun _ => 0, LINK_TIMEOUT_ERROR).
Proof. apply (link2_timeout_detected 500 2 1000); lia. Defined.

(** ** Checksums *)

(** What a layout guarantees: the size field is in the header and holds what is
    stored there. *)
Class LayoutOk (L : Layout) := {
  lo_sizes : 1 <= data_off < header_size /\ 0 <= data_size < 2 ^ 16;
  lo_range : forall m, 0 <= pkt_size m;
  lo_local : forall m m', agree 0 data_off m m' -> pkt_size m' = pkt_size m;
  lo_store : forall n m, 0 <= n <= data_size -> pkt_size (set_size n m) = n;
  lo_frame : forall n m, agree data_off (2 ^ 32) m (set_size n m) /\ load8 (set_size n m) 0 = load8 m 0;
}.
#[export] Instance link_pkt_t_ok : LayoutOk link_pkt_t.
Proof.
  split; cbn [pkt_size set_size data_off header_size data_size link_pkt_t];
    unfold LINK_PACKET_HEADER_SIZE, LINK_PACKET_DATA_SIZE; try lia.
  - intros m. pose proof (load8_range m 1). lia.
  - intros m m' H. apply (load8_agree m _ 0 2); [done|lia].
  - intros n m Hn. rewrite load8_store8_eq. apply u8_id. lia.
  - intros n m. split; [apply store8_agree; lia|apply load8_store8_ne; lia].
Qed.
#[export] Instance link2_pkt_t_ok : LayoutOk link2_pkt_t.
Proof.
  split; cbn [pkt_size set_size data_off header_size data_size link2_pkt_t];
    unfold LINK2_PACKET_HEADER_SIZE, LINK2_PACKET_DATA_SIZE; try lia.
  - intros m. pose proof (load16_range m 2). lia.
  - intros m m' H. apply (load16_agree m _ 0 4); [done|lia|lia].
  - intros n m Hn. rewrite load16_store16_eq. unfold u16. apply Z.mod_small. lia.
  - intros n m. split; [apply store16_agree; lia|]. unfold store16. now rewrite !load8_store8_ne by lia.
Qed.

(** The exclusive or of the size and the data. *)
Definition xor_list (a : Z) (l : list Z) : Z := foldl Z.lxor a l.
Definition checksum_of (data : list Z) : Z := u8 (xor_list (Zlen data) data).

Section Checksum.
Context {L : Layout} {K : LayoutOk L}.

Lemma xor_data_list m n : 0 <= n -> xor_data m n = xor_list (pkt_size m) (load_list m data_off n).
Proof.
  intros Hn. unfold xor_data. rewrite Z.lxor_0_l. pattern n. apply natlike_ind; [done| |done].
  intros k Hk IH. change (Z.succ k) with (k + 1). rewrite for_range_last by lia. rewrite IH.
  rewrite load_list_app by lia. rewrite (load_list_cons _ _ 1) by lia.
  unfold xor_list. now rewrite foldl_app.
Qed.
Lemma insert_checksum_agree m : agree 0 (data_off + pkt_size m) m (insert_checksum m).
Proof. apply store8_agree. lia. Qed.
Lemma pkt_size_inserted m : pkt_size (insert_checksum m) = pkt_size m.
Proof using K. apply lo_local. apply store8_agree. pose proof (lo_range m). lia. Qed.
Lemma pkt_checksum_inserted m : pkt_checksum (insert_checksum m) = checksum_of (load_list m data_off (pkt_size m)).
Proof using K.
  unfold pkt_checksum. rewrite pkt_size_inserted. unfold insert_checksum. rewrite load8_store8_eq.
  pose proof (lo_range m). rewrite xor_data_list by lia. unfold checksum_of. now rewrite load_list_length by lia.
Qed.
Lemma checksum_isok_spec m : pkt_size m <= data_size ->
  checksum_isok m = (insert_checksum m, pkt_checksum m =? checksum_of (load_list m data_off (pkt_size m))).
Proof using K.
  intros H. unfold checksum_isok. rewrite (proj2 (Z.leb_le _ _) H). now rewrite pkt_checksum_inserted.
Qed.
End Checksum.

Lemma xor_list_middle a l1 b l2 : xor_list a (l1 ++ b :: l2) = Z.lxor (xor_list a (l1 ++ l2)) b.
Proof.
  unfold xor_list. rewrite !foldl_app. cbn. generalize (foldl Z.lxor a l1). induction l2 as [|c l2 IH]; intros x; [done|].
  cbn. rewrite <- IH. f_equal. rewrite !Z.lxor_assoc. f_equal. apply Z.lxor_comm.
Qed.
Lemma u8_land z : u8 z = Z.land z 255.
Proof. unfold u8. change 255 with (Z.ones 8). rewrite Z.land_ones by lia. done. Qed.
Lemma checksum_byte_differs l1 b b' l2 : is_byte b -> is_byte b' -> b <> b' ->
  checksum_of (l1 ++ b :: l2) <> checksum_of (l1 ++ b' :: l2).
Proof.
  intros Hb Hb' Hne E. apply Hne. unfold checksum_of in E.
  rewrite !Zlen_app, !Zlen_cons, !xor_list_middle, !u8_land in E. revert E. generalize (xor_list (Zlen l1 + (Zlen l2 + 1)) (l1 ++ l2)).
  intros x E. assert (D : forall y, Z.land (Z.lxor x y) 255 = Z.lxor (Z.land x 255) (Z.land y 255)).
  { intros y. apply Z.bits_inj'. intros n Hn. rewrite !Z.land_spec, !Z.lxor_spec, !Z.land_spec. btauto. }
  rewrite !D in E. apply (f_equal (Z.lxor (Z.land x 255))) in E. rewrite <- !Z.lxor_assoc, !Z.lxor_nilpotent, !Z.lxor_0_l in E.
  rewrite <- !u8_land in E. rewrite !u8_id in E; done.
Qed.
Lemma load_list_store8 m a n i b : 0 <= i < n -> is_byte b ->
  exists l1 l2, load_list m a n = l1 ++ load8 m (a + i) :: l2 /\ load_list (store8 (a + i) b m) a n = l1 ++ b :: l2.
Proof.
  intros Hi Hb. exists (load_list m a i), (load_list m (a + i + 1) (n - i - 1)).
  assert (E : forall m, load_list m a n = load_list m a i ++ load8 m (a + i) :: load_list m (a + i + 1) (n - i - 1)).
  { intros m'. replace n with (i + (n - i)) at 1 by lia. rewrite load_list_app by lia. now rewrite (load_list_cons _ (a + i)) by lia. }
  split; [apply E|]. rewrite E, load8_store8_eq, u8_id by done.
  rewrite !(load_list_agree m (store8 (a + i) b m)) by (apply store8_agree; lia). done.
Qed.

(** The checksum detects one corrupted byte: when a packet passes, changing any
    one byte of its data, or the checksum itself, makes it fail.  Both versions. *)
Theorem checksum_detects_byte (L : Layout) (K : LayoutOk L) m i b :
  pkt_size m <= data_size -> (checksum_isok m).2 = true ->
  0 <= i <= pkt_size m -> is_byte b -> b <> load8 m (data_off + i) ->
  (checksum_isok (store8 (data_off + i) b m)).2 = false.
Proof.
  intros Hs Hok Hi Hb Hne. pose proof lo_sizes as [Ho _].
  assert (Hsz : pkt_size (store8 (data_off + i) b m) = pkt_size m) by (apply lo_local, store8_agree; lia).
  rewrite checksum_isok_spec in * by (try rewrite Hsz; done). cbn [snd] in *. apply Z.eqb_eq in Hok. apply Z.eqb_neq.
  unfold pkt_checksum in *. rewrite Hsz. destruct (Z.eq_dec i (pkt_size m)) as [->|Hn].
  - rewrite load8_store8_eq, u8_id by done. rewrite (load_list_agree m) by (apply store8_agree; lia). congruence.
  - rewrite load8_store8_ne by lia. rewrite Hok.
    assert (Hi' : 0 <= i < pkt_size m) by lia. destruct (load_list_store8 m data_off (pkt_size m) i b Hi' Hb) as (l1 & l2 & -> & ->).
    apply checksum_byte_differs; [apply load8_range|done|congruence].
Qed.
Definition demo_packet : mem :=
  link2_transport_insert_checksum (store_list 4 [104; 105] (store16 2 2 (store8 0 17 (fun _ => 0)))).
Lemma checksum_detects_byte_witness :
  (link2_transport_checksum_isok demo_packet).2 = true /\
  (link2_transport_checksum_isok (store8 5 106 demo_packet)).2 = false.
Proof.
  split; [vm_compute; reflexivity|].
  apply (checksum_detects_byte link2_pkt_t _ demo_packet 1 106);
    [vm_compute; discriminate|vm_compute; reflexivity|split; vm_compute; discriminate|done|vm_compute; discriminate].
Defined.

(** ** Collecting a packet, version by version *)

(** [link2_transport_wait_packet] collects exactly one packet, however the driver
    cuts the bytes into pieces and pauses between them, as long as the pauses stay
    below the timeout: the packet holds the flags, the size and the data that were
    sent, the start byte is kept, and the bytes after the packet are left for the
    next read. *)
Theorem link2_wait_packet_any_pieces timeout fl data c0 c1 rest m c :
  is_byte fl -> Forall is_byte data -> is_byte c0 -> is_byte c1 -> Zlen data <= LINK2_PACKET_DATA_SIZE ->
  quiet (c_rx c) -> rx_pause (c_rx c) < timeout -> rx_bytes (c_rx c) = link2_body fl data c0 c1 ++ rest ->
  exists r m', link2_transport_wait_packet timeout m c = Some (with_rx r c, m', 0) /\
    load8 m' 0 = load8 m 0 /\ load8 m' 1 = fl /\ load16 m' 2 = Zlen data /\
    load_list m' 4 (Zlen data + 2) = data ++ [c0; c1] /\ rx_bytes r = rest.
Proof.
  intros Hf Hd Hc0 Hc1 Hl Hq Hp Hb. pose proof (link2_packet_body fl data c0 c1 Hf Hd Hc0 Hc1 Hl) as B.
  assert (Hlen : Zlen (link2_body fl data c0 c1) = 3 + (Zlen data + 2))
    by (unfold link2_body; rewrite !Zlen_app; unfold Zlen; simpl; lia). pose proof (Zlen_nonneg data).
  destruct (@wait_packet_spec _ (link2_body fl data c0 c1) B timeout (link2_in_time timeout) m c rest Hq Hp Hb) as (r & m' & E & Hbody & Hz & Hs & _ & _ & Hr).
  exists r, m'. split; [exact E|]. split; [done|]. rewrite Hlen in *.
  rewrite load_list_app in Hbody by lia. unfold link2_body in Hbody.
  apply app_inj_1 in Hbody as [H1 H2]; [|rewrite <- Nat2Z.inj_iff; exact (load_list_length m' 1 3 ltac:(lia))].
  split; [|split; [|split; [|done]]].
  - exact (f_equal (fun l => hd 0 l) H1).
  - cbn [pkt_size link2_pkt_t header_size] in Hs. unfold LINK2_PACKET_HEADER_SIZE in Hs. lia.
  - exact H2.
Qed.
Definition demo_script : list rx :=
  [Rx_data [0]; Rx_idle 200; Rx_data [2; 0; 104]; Rx_idle 299; Rx_data [105; 3; 0; 17; 9]].
Lemma link2_wait_packet_any_pieces_witness :
  exists r m', link2_transport_wait_packet 600 (fun _ => 0) (mk_chan demo_script [] 0 0 true)
    = Some (mk_chan r [] 0 0 true, m', 0) /\ load_list m' 4 4 = [104; 105; 3; 0] /\ rx_bytes r = [17; 9].
Proof.
  destruct (link2_wait_packet_any_pieces 600 0 [104; 105] 3 0 [17; 9] (fun _ => 0) (mk_chan demo_script [] 0 0 true))
    as (r & m' & E & _ & _ & _ & H & Hr); try done; try (repeat constructor; done).
  exists r, m'. done.
Defined.
