(* ===== verification/Transport.v ===== *)
(** * The link protocol: transfers

    [src/link_transport/link1_transport_master.c], [link1_transport_slave.c] and
    their version 2.  A transfer is cut into packets; a packet that is not full
    ends it.  The host ("master") waits for an acknowledgement of every packet it
    writes; the device ("slave") acknowledges every packet it reads.  The code of
    the two versions differs in the packet layout, the codes it returns, the order
    of the steps that reject a packet, and in version 2's optional checksum: these
    are the fields of [Version].  The driver of [Link.v] is threaded through.
    [LINK_DEBUG] output is left out, and [driver] is not NULL. *)
From S2P Require Import Prelude Memory Link.

(** Where a transfer of the device can fail. *)
Inductive slave_failure := No_start | No_packet | Not_start | Bad_checksum | No_ack | No_write.

Class Version := {
  v_layout :: Layout;
  v_start : Z;
  v_ack : Z;
  v_nack : Z;
  v_init : mem -> mem;                    (** the packet on the stack: cleared or not *)
  v_header : Z -> mem -> mem;             (** the start byte and the flags *)
  v_wait_start : Z -> mem -> chan -> option (chan * mem * Z);
  v_checks : Z -> bool;                   (** whether the flags ask for a checksum *)
  v_ping : bool;                          (** an empty packet ends a read at once *)
  v_reject : Z -> Z -> Z -> chan -> chan; (** timeout, its factor and the checksum *)
  v_slave_error : slave_failure -> Z;
  v_master_corrupt : chan -> chan * Z;
  v_master_unsent : Z;
  v_bad_ack : Z -> Z;
}.

Record driver := mk_driver { d_timeout : Z; d_o_flags : Z }.

Definition DEFAULT_TIMEOUT_VALUE : Z := 500.
Definition mastersettimeout (t : Z) (d : driver) : driver :=
  mk_driver (if t =? 0 then DEFAULT_TIMEOUT_VALUE else t) (d_o_flags d).

Definition send_ack (ack checksum : Z) (c : chan) : chan * Z := phy_write [u8 ack; u8 checksum] c.

(** The loop that collects the two bytes of an acknowledgement. *)
Fixpoint wait_ack_loop (fuel : nat) (timeout count : Z) (ack : list Z) (c : chan)
    : option (chan * (list Z + Z)) :=
  match fuel with
  | O => None
  | S fuel =>
      match phy_read (2 - Zlen ack) c with
      | None => None
      | Some (c, Read_error) => Some (c, inr LINK_PHY_ERROR)
      | Some (c, Read_bytes l) =>
          let ack := ack ++ l in
          if Zlen ack <? 2 then wait_ack_loop fuel timeout 0 ack c else Some (c, inl ack)
      | Some (c, Read_idle ms) =>
          let count := count + ms in
          if timeout <=? count then Some (c, inr LINK_TIMEOUT_ERROR)
          else if Zlen ack <? 2 then wait_ack_loop fuel timeout count ack c else Some (c, inl ack)
      end
  end.
Definition wait_ack (checksum timeout : Z) (c : chan) : option (chan * Z) :=
  match wait_ack_loop (read_fuel c) timeout 0 [] c with
  | None => None
  | Some (c, inr e) => Some (c, e)
  | Some (c, inl ack) =>
      if negb (Zget ack 1 =? checksum) then Some (c, LINK_PROT_ERROR) else Some (c, Zget ack 0)
  end.

Section Transfers.
Context {V : Version}.

(** The host's read: the driver, the bytes stored at [buf] and the result. *)
Fixpoint masterread_loop (fuel : nat) (d : driver) (nbyte bytes : Z) (buf : list Z) (pkt : mem) (c : chan)
    : option (chan * list Z * Z) :=
  match fuel with
  | O => None
  | S fuel =>
      match v_wait_start (d_timeout d) pkt c with
      | None => None
      | Some (c, pkt, err) =>
          if err <? 0 then Some (phy_flush c, buf, err) else
          match wait_packet (d_timeout d) pkt c with
          | None => None
          | Some (c, pkt, err) =>
              if err <? 0 then Some (phy_flush c, buf, err) else
              let '(pkt, isok) := if v_checks (d_o_flags d) then checksum_isok pkt else (pkt, true) in
              if negb isok then let '(c, err) := v_master_corrupt c in Some (c, buf, err) else
              let pkt := if nbyte <? pkt_size pkt + bytes then set_size (nbyte - bytes) pkt else pkt in
              let buf := buf ++ load_list pkt data_off (pkt_size pkt) in
              let bytes := bytes + pkt_size pkt in
              if (bytes <? nbyte) && (pkt_size pkt =? data_size)
              then masterread_loop fuel d nbyte bytes buf pkt c
              else Some (c, buf, bytes)
          end
      end
  end.
Definition masterread (d : driver) (nbyte : Z) (pkt : mem) (c : chan) : option (chan * list Z * Z) :=
  masterread_loop (read_fuel c) d nbyte 0 [] pkt c.

(** The part of [buf] the next packet carries. *)
Definition next_size (nbyte bytes : Z) : Z := if data_size <? nbyte - bytes then data_size else nbyte - bytes.
Definition slice (buf : list Z) (from n : Z) : list Z := take (Z.to_nat n) (drop (Z.to_nat from) buf).

Fixpoint masterwrite_loop (fuel : nat) (d : driver) (buf : list Z) (bytes : Z) (pkt : mem) (c : chan)
    : option (chan * Z) :=
  match fuel with
  | O => None
  | S fuel =>
      let nbyte := Zlen buf in
      let pkt := set_size (next_size nbyte bytes) pkt in
      let pkt := store_list data_off (slice buf bytes (pkt_size pkt)) pkt in
      let pkt := if v_checks (d_o_flags d) then insert_checksum pkt
                 else store8 (data_off + pkt_size pkt) 0 pkt in
      let n := pkt_size pkt + header_size in
      let '(c, written) := phy_write (load_list pkt 0 n) c in
      if negb (written =? n) then Some (c, v_master_unsent) else
      match wait_ack (pkt_checksum pkt) (d_timeout d) c with
      | None => None
      | Some (c, err) =>
          if err <? 0 then Some (phy_flush c, err)
          else if negb (err =? v_ack) then Some (c, v_bad_ack err)
          else
            let bytes := bytes + pkt_size pkt in
            if (bytes <? nbyte) && (pkt_size pkt =? data_size)
            then masterwrite_loop fuel d buf bytes pkt c
            else Some (c, bytes)
      end
  end.
Definition masterwrite (d : driver) (buf : list Z) (pkt : mem) (c : chan) : option (chan * Z) :=
  masterwrite_loop (S (length buf)) d buf 0 (v_header (d_o_flags d) (v_init pkt)) c.

(** The device's read.  The callback has a state of its own; [buf] is what has been
    stored at the caller's buffer. *)
Context {St : Type}.
Fixpoint slaveread_loop (fuel : nat) (d : driver) (callback : option (St -> list Z -> St * Z)) (nbyte bytes : Z)
    (buf : list Z) (st : St) (pkt : mem) (c : chan) : option (chan * St * list Z * Z) :=
  match fuel with
  | O => None
  | S fuel =>
      let fail k e checksum c :=
        Some (v_reject (d_timeout d) k checksum c, st, buf, v_slave_error e) in
      match v_wait_start (d_timeout d) pkt c with
      | None => None
      | Some (c, pkt, err) =>
          if err <? 0 then fail 1 No_start 0 c else
          match wait_packet (d_timeout d) pkt c with
          | None => None
          | Some (c, pkt, err) =>
              if err <? 0 then fail 1 No_packet 0 c
              else if negb (load8 pkt 0 =? v_start) then fail 5 Not_start 0 c
              else
                let checksum := if v_checks (d_o_flags d) then pkt_checksum pkt else 0 in
                let '(pkt, isok) := if v_checks (d_o_flags d) then checksum_isok pkt else (pkt, true) in
                if negb isok then fail 1 Bad_checksum checksum c else
                let data := load_list pkt data_off (pkt_size pkt) in
                let next bytes buf st c :=
                  if (bytes <? nbyte) && (pkt_size pkt =? data_size)
                  then slaveread_loop fuel d callback nbyte bytes buf st pkt c
                  else Some (if bytes =? 0 then phy_flush c else c, st, buf, bytes) in
                match callback with
                | None =>
                    let c := (send_ack v_ack checksum c).1 in
                    if v_ping && (pkt_size pkt =? 0) then Some (c, st, buf, 0)
                    else next (bytes + pkt_size pkt) (buf ++ data) st c
                | Some f =>
                    let '(st, result) := f st data in
                    if result <? 0 then Some ((send_ack v_nack checksum c).1, st, buf, result)
                    else
                      let '(c, sent) := send_ack v_ack checksum c in
                      if sent <? 0 then Some (c, st, buf, v_slave_error No_ack)
                      else next (bytes + pkt_size pkt) buf st c
                end
          end
      end
  end.
Definition slaveread (d : driver) (callback : option (St -> list Z -> St * Z)) (nbyte : Z) (st : St) (pkt : mem) (c : chan)
    : option (chan * St * list Z * Z) :=
  slaveread_loop (read_fuel c) d callback nbyte 0 [] st (v_init pkt) c.

(** The callback of a write gives the bytes it stored in the packet and its result. *)
Fixpoint slavewrite_loop (fuel : nat) (d : driver) (callback : option (St -> Z -> St * list Z * Z)) (buf : list Z)
    (nbyte bytes ret : Z) (st : St) (pkt : mem) (c : chan) : option (chan * St * Z) :=
  match fuel with
  | O => None
  | S fuel =>
      let pkt := set_size (next_size nbyte bytes) pkt in
      let '(st, pkt, ret) :=
        match callback with
        | Some f =>
            let '(st, data, ret) := f st (pkt_size pkt) in
            let pkt := store_list data_off data pkt in
            (st, set_size (if ret <? 0 then 0 else ret) pkt, ret)
        | None => (st, store_list data_off (slice buf bytes (pkt_size pkt)) pkt, ret)
        end in
      let pkt := if v_checks (d_o_flags d) then insert_checksum pkt else pkt in
      let n := pkt_size pkt + header_size in
      let '(c, written) := phy_write (load_list pkt 0 n) c in
      if negb (written =? n) then Some (c, st, v_slave_error No_write)
      else
        let bytes := bytes + pkt_size pkt in
        if (bytes <? nbyte) && (pkt_size pkt =? data_size)
        then slavewrite_loop fuel d callback buf nbyte bytes ret st pkt c
        else Some (c, st, match callback with Some _ => if bytes =? 0 then ret else bytes | None => bytes end)
  end.
Definition slavewrite (d : driver) (callback : option (St -> Z -> St * list Z * Z)) (buf : list Z) (nbyte : Z)
    (st : St) (pkt : mem) (c : chan) : option (chan * St * Z) :=
  slavewrite_loop (S (Z.to_nat nbyte)) d callback buf nbyte 0 0 st (v_header (d_o_flags d) (v_init pkt)) c.
End Transfers.

(** ** The two versions *)

Definition link1 : Version := {|
  v_layout := link_pkt_t;
  v_start := LINK_PACKET_START;
  v_ack := LINK_PACKET_ACK;
  v_nack := LINK_PACKET_NACK;
  v_init pkt := pkt;
  v_header _ pkt := store8 0 LINK_PACKET_START pkt;
  v_wait_start := link1_transport_wait_start;
  v_checks _ := true;
  v_ping := true;
  v_reject timeout k checksum c := phy_flush (phy_wait (timeout * k) (send_ack LINK_PACKET_NACK checksum c).1);
  v_slave_error e := match e with
                     | No_start => -1 | No_packet => -2 | Not_start => -3 | Bad_checksum => -4
                     | No_ack => -6 | No_write => -1
                     end;
  v_master_corrupt c := (phy_flush c, LINK_PROT_ERROR);
  v_master_unsent := LINK_PHY_ERROR;
  v_bad_ack err := SYSFS_SET_RETURN 132 err |}.
Definition link2 : Version := {|
  v_layout := link2_pkt_t;
  v_start := LINK2_PACKET_START;
  v_ack := LINK2_PACKET_ACK;
  v_nack := LINK2_PACKET_NACK;
  v_init _ := fun _ => 0;
  v_header o_flags pkt := store8 1 o_flags (store8 0 LINK2_PACKET_START pkt);
  v_wait_start := link2_transport_wait_start;
  v_checks o_flags := Bits.any o_flags LINK2_FLAG_IS_CHECKSUM;
  v_ping := false;
  v_reject _ _ checksum c := (send_ack LINK2_PACKET_NACK checksum (phy_flush c)).1;
  v_slave_error e := match e with
                     | No_start => -33 | No_packet => -39 | Not_start => -46 | Bad_checksum => -56
                     | No_ack => -77 | No_write => -136
                     end;
  v_master_corrupt c := (c, SYSFS_SET_RETURN 59 1);
  v_master_unsent := SYSFS_SET_RETURN 119 1;
  v_bad_ack _ := SYSFS_SET_RETURN 137 1 |}.

Definition link1_transport_mastersettimeout : Z -> driver -> driver := mastersettimeout.
Definition link2_transport_mastersettimeout : Z -> driver -> driver := mastersettimeout.
Definition link1_transport_masterread := @masterread link1.
Definition link2_transport_masterread := @masterread link2.
Definition link1_transport_masterwrite := @masterwrite link1.
Definition link2_transport_masterwrite := @masterwrite link2.
Definition link1_transport_slaveread := @slaveread link1.
Definition link2_transport_slaveread := @slaveread link2.
Definition link1_transport_slavewrite := @slavewrite link1.
Definition link2_transport_slavewrite := @slavewrite link2.

(** ** Packets on the wire *)

(** What the proofs use of a version: [head] is the header it puts before the data,
    [headed] that a packet in memory has the start byte and the flags. *)
Class VersionOk (V : Version) (head : Z -> Z -> list Z) (headed : Z -> mem -> Prop) := {
  vo_layout :: LayoutOk v_layout;
  vo_wait_start : wait_start_ok v_start v_wait_start;
  vo_in_time : forall timeout count, 0 <= count < timeout -> timed_out count timeout = false;
  vo_ack : 0 <= v_ack < 2 ^ 8;
  vo_full : 0 < data_size;
  vo_head : forall fl n, exists t, head fl n = v_start :: t /\ Zlen t = data_off - 1;
  vo_body : forall fl data tail, is_byte fl -> Forall is_byte data -> Forall is_byte tail ->
    Zlen data <= data_size -> Zlen tail = header_size - data_off ->
    PacketBody v_layout (tl (head fl (Zlen data)) ++ data ++ tail);
  vo_headed : forall fl m, is_byte fl -> headed fl (v_header fl m);
  vo_kept : forall fl m m', agree 0 data_off m m' -> headed fl m -> headed fl m';
  vo_sized : forall fl n m, headed fl m -> headed fl (set_size n m);
  vo_sent : forall fl n m, headed fl m -> 0 <= n <= data_size -> load_list (set_size n m) 0 data_off = head fl n;
}.

Definition link1_head (fl n : Z) : list Z := [LINK_PACKET_START; n].
Definition link2_head (fl n : Z) : list Z := [LINK2_PACKET_START; fl; n mod 256; n / 256].
Definition link1_headed (fl : Z) (m : mem) : Prop := load8 m 0 = LINK_PACKET_START.
Definition link2_headed (fl : Z) (m : mem) : Prop := load8 m 0 = LINK2_PACKET_START /\ load8 m 1 = fl.

#[export] Instance link1_ok : VersionOk link1 link1_head link1_headed.
Proof.
  split; cbn [v_layout v_start v_wait_start v_ack v_header v_init link1]; unfold link1_headed.
  - apply link_pkt_t_ok.
  - apply link1_wait_start_spec.
  - apply link1_in_time.
  - done.
  - done.
  - intros fl n. by exists [n].
  - intros fl data tail _ Hd Ht Hl Hlen. destruct tail as [|c [|? tail]]; [done| |rewrite !Zlen_cons in Hlen;
      pose proof (Zlen_nonneg tail); unfold header_size, data_off, link_pkt_t, LINK_PACKET_HEADER_SIZE in Hlen; lia].
    apply (link1_packet_body data c); [done|by apply Forall_cons in Ht as [? _]|done].
  - intros fl m _. by rewrite load8_store8_eq.
  - intros fl m m' H E. rewrite <- E. apply (load8_agree m _ 0 2 0); [done|lia].
  - intros fl n m E. rewrite <- E. by apply load8_store8_ne.
  - intros fl n m E Hn. unfold link1_head. cbn [set_size data_off data_size link_pkt_t] in *.
    rewrite !load_list_cons by lia. rewrite load8_store8_ne, load8_store8_eq, u8_id, E
      by (unfold LINK_PACKET_DATA_SIZE in *; lia). done.
Qed.
#[export] Instance link2_ok : VersionOk link2 link2_head link2_headed.
Proof.
  split; cbn [v_layout v_start v_wait_start v_ack v_header v_init link2]; unfold link2_headed.
  - apply link2_pkt_t_ok.
  - apply link2_wait_start_spec.
  - apply link2_in_time.
  - done.
  - done.
  - intros fl n. by exists [fl; n mod 256; n / 256].
  - intros fl data tail Hf Hd Ht Hl Hlen. destruct tail as [|c0 [|c1 [|? tail]]]; try done; [|rewrite !Zlen_cons in Hlen;
      pose proof (Zlen_nonneg tail); unfold header_size, data_off, link2_pkt_t, LINK2_PACKET_HEADER_SIZE in Hlen; lia].
    apply Forall_cons in Ht as [? Ht]. apply Forall_cons in Ht as [? _]. by apply (link2_packet_body fl data c0 c1).
  - intros fl m Hf. rewrite load8_store8_ne, !load8_store8_eq by lia. split; [done|]. by apply u8_id.
  - intros fl m m' H [E1 E2]. split; [rewrite <- E1|rewrite <- E2]; apply (load8_agree m _ 0 4); try done; lia.
  - intros fl n m [E1 E2]. cbn [set_size link2_pkt_t]. unfold store16. by rewrite !load8_store8_ne by lia.
  - intros fl n m [E1 E2] Hn. unfold link2_head. cbn [set_size data_off data_size link2_pkt_t] in *. unfold LINK2_PACKET_DATA_SIZE in *.
    pose proof (Z.mod_pos_bound n 256 ltac:(lia)). assert (0 <= n / 256 < 256) by (split; [apply Z.div_pos|apply Z.div_lt_upper_bound]; lia).
    rewrite !load_list_cons by lia. unfold store16. change (0 + 1 + 1 + 1) with 3. change (0 + 1 + 1) with 2. change (0 + 1) with 1. change (2 + 1) with 3.
    rewrite !load8_store8_eq, !(load8_store8_ne _ 3) by lia. rewrite load8_store8_eq, !load8_store8_ne, E1, E2 by lia.
    change (n / 2 ^ 8) with (n / 256). rewrite (u8_id (n / 256)) by lia. done.
Qed.

Lemma rx_bytes_weight r : (length (rx_bytes r) <= rx_weight r)%nat.
Proof.
  induction r as [|[l|ms|] r IH]; [done| |simpl; lia|simpl; lia].
  change (rx_bytes (Rx_data l :: r)) with (l ++ rx_bytes r). rewrite length_app. simpl. lia.
Qed.

Section Protocol.
Context {V : Version} {head : Z -> Z -> list Z} {headed : Z -> mem -> Prop} {K : VersionOk V head headed}.
Context (d : driver).
Abbreviation fl := (d_o_flags d).
Context (Hfl : is_byte fl).

(** A packet of [data] as it is sent, and its acknowledgement. *)
Definition is_packet (data bs : list Z) : Prop :=
  exists tail, bs = head fl (Zlen data) ++ data ++ tail /\ Zlen tail = header_size - data_off /\
    Forall is_byte tail /\ (v_checks fl = true -> Zget tail 0 = checksum_of data).
Definition ack_sum (data : list Z) : Z := if v_checks fl then checksum_of data else 0.
Definition ack_of (data : list Z) : list Z := [v_ack; ack_sum data].

(** [data] is cut into full packets and one last packet. *)
Inductive cut : list Z -> list (list Z) -> Prop :=
  | cut_last data : Zlen data <= data_size -> cut data [data]
  | cut_more data rest ds : Zlen data = data_size -> rest <> [] -> cut rest ds -> cut (data ++ rest) (data :: ds).
Definition packets (ds : list (list Z)) (bs : list Z) : Prop := exists l, Forall2 is_packet ds l /\ bs = concat l.
Definition acks (ds : list (list Z)) : list Z := ds ≫= ack_of.

(** [nbyte] bytes are asked for, and the transfer does not end with a full packet
    before that. *)
Definition ends_at (nbyte : Z) (data : list Z) : Prop :=
  Zlen data = nbyte \/ Zlen data < nbyte /\ (data = [] \/ Zlen data mod data_size <> 0).

Lemma packets_cons data ds bs : packets (data :: ds) bs ->
  exists b bs', is_packet data b /\ packets ds bs' /\ bs = b ++ bs'.
Proof. intros (l & H & ->). apply Forall2_cons_inv_l in H as (b & l' & Hb & Hl & ->). exists b, (concat l'). split; [done|]. split; [by exists l'|done]. Qed.

Lemma cut_unique data ds ds' : cut data ds -> cut data ds' -> ds = ds'.
Proof.
  assert (Hpos : forall l : list Z, l <> [] -> 0 < Zlen l).
  { intros [|x l] Hl; [done|]. rewrite Zlen_cons. pose proof (Zlen_nonneg l). lia. }
  intros H. revert ds'. induction H as [data Hl|data rest ds Hf Hne _ IH]; intros ds' H'; inversion H' as [d0 Hl' E|d0 r0 ds0 Hf' Hne' Hc' E]; subst.
  - done.
  - specialize (Hpos _ Hne'). rewrite Zlen_app in Hl. lia.
  - specialize (Hpos _ Hne). rewrite Zlen_app in Hl'. lia.
  - apply app_inj_1 in E as [-> ->]; [by f_equal; apply IH|]. unfold Zlen in *. lia.
Qed.

Definition in_time (c : chan) : Prop := quiet (c_rx c) /\ rx_pause (c_rx c) < d_timeout d.

(** A packet with any two bytes or one byte after the data is collected. *)
Lemma receive_any data tail rest m c :
  Zlen tail = header_size - data_off -> Forall is_byte tail ->
  Zlen data <= data_size -> Forall is_byte data -> in_time c ->
  rx_bytes (c_rx c) = (head fl (Zlen data) ++ data ++ tail) ++ rest ->
  exists r1 m1 v r m2, v_wait_start (d_timeout d) m c = Some (with_rx r1 c, m1, v) /\ 0 <= v /\
    wait_packet (d_timeout d) m1 (with_rx r1 c) = Some (with_rx r c, m2, 0) /\
    load8 m2 0 = v_start /\ pkt_size m2 = Zlen data /\ load_list m2 data_off (Zlen data) = data /\
    pkt_checksum m2 = Zget tail 0 /\ in_time (with_rx r c) /\ rx_bytes r = rest.
Proof using K Hfl.
  intros Htl Htb Hl Hd [Hq Hp] Hb.
  destruct (vo_head fl (Zlen data)) as (t & Et & Hlt). pose proof (vo_body fl data tail Hfl Hd Htb Hl Htl) as B.
  rewrite Et in *. cbn [tl] in B. rewrite <- !app_assoc in Hb. cbn [app] in Hb.
  destruct (vo_wait_start (d_timeout d) m c _ Hq Hp Hb) as (r1 & m1 & v & E1 & Hv & Hs & _ & Hq1 & Hp1 & Hb1).
  assert (Hb2 : rx_bytes r1 = (t ++ data ++ tail) ++ rest) by (rewrite Hb1, <- !app_assoc; done).
  destruct (@wait_packet_spec _ (t ++ data ++ tail) B (d_timeout d) (vo_in_time (d_timeout d)) m1 (with_rx r1 c) rest Hq1
              ltac:(cbn; lia) Hb2) as (r & m2 & E2 & Hbody & Hz & Hsz & Hq2 & Hp2 & Hb3).
  exists r1, m1, v, r, m2. pose proof lo_sizes as [Ho _]. rewrite !Zlen_app, Hlt, Htl in *.
  assert (Hsize : pkt_size m2 = Zlen data) by lia. pose proof (Zlen_nonneg data).
  rewrite load_list_app in Hbody by lia. apply app_inj_1 in Hbody as [_ Hbody];
    [|apply Nat2Z.inj; change (Zlen (load_list m2 1 (data_off - 1)) = Zlen t); rewrite load_list_length; lia].
  replace (1 + (data_off - 1)) with data_off in Hbody by lia.
  rewrite load_list_app in Hbody by lia. apply app_inj_1 in Hbody as [Hdata Htail];
    [|apply Nat2Z.inj; change (Zlen (load_list m2 data_off (Zlen data)) = Zlen data); rewrite load_list_length; lia].
  split; [done|]. split; [done|]. split; [exact E2|]. split; [congruence|]. split; [done|]. split; [done|]. split.
  - rewrite <- Htail. unfold pkt_checksum. rewrite Hsize, load_list_cons by lia. done.
  - split; [split; [done|]|done]. cbn [c_rx with_rx] in *. lia.
Qed.
Lemma receive_packet data bs rest m c :
  is_packet data bs -> Zlen data <= data_size -> Forall is_byte data -> in_time c -> rx_bytes (c_rx c) = bs ++ rest ->
  exists r1 m1 v r m2, v_wait_start (d_timeout d) m c = Some (with_rx r1 c, m1, v) /\ 0 <= v /\
    wait_packet (d_timeout d) m1 (with_rx r1 c) = Some (with_rx r c, m2, 0) /\
    load8 m2 0 = v_start /\ pkt_size m2 = Zlen data /\ load_list m2 data_off (Zlen data) = data /\
    (v_checks fl = true -> pkt_checksum m2 = checksum_of data) /\
    in_time (with_rx r c) /\ rx_bytes r = rest.
Proof using K Hfl.
  intros (tail & -> & Htl & Htb & Hck) Hl Hd Ht Hb.
  destruct (receive_any data tail rest m c Htl Htb Hl Hd Ht Hb)
    as (r1 & m1 & v & r & m2 & ? & ? & ? & ? & ? & ? & E & ? & ?).
  exists r1, m1, v, r, m2. split_and!; try done. intros Hc. by rewrite E, Hck.
Qed.

Lemma accept_packet data m : pkt_size m = Zlen data -> Zlen data <= data_size -> load_list m data_off (Zlen data) = data ->
  (v_checks fl = true -> pkt_checksum m = checksum_of data) ->
  exists m', (if v_checks fl then checksum_isok m else (m, true)) = (m', true) /\ pkt_size m' = Zlen data /\
    load_list m' data_off (Zlen data) = data.
Proof using K.
  intros Hs Hl Hd Hc. destruct (v_checks fl) eqn:E; [|by exists m].
  rewrite checksum_isok_spec by lia. exists (insert_checksum m). rewrite Hs, Hd, Hc, Z.eqb_refl by done.
  split; [done|]. rewrite pkt_size_inserted. split; [done|]. rewrite (load_list_agree m); [done|].
  eapply agree_sub; [apply insert_checksum_agree| |lia]. pose proof lo_sizes. lia.
Qed.

Lemma ends_at_more nbyte data rest : Zlen data = data_size -> ends_at nbyte (data ++ rest) -> rest <> [] ->
  ends_at (nbyte - Zlen data) rest /\ Zlen data < nbyte.
Proof using K.
  intros Hf He Hne. unfold ends_at in *. rewrite Zlen_app in He. pose proof (Zlen_nonneg rest).
  assert (0 < Zlen rest) by (destruct rest; [done|rewrite Zlen_cons in *; pose proof (Zlen_nonneg rest); lia]).
  split; [|lia]. destruct He as [He|[Hlt [He|He]]]; [left; lia| |].
  - apply app_eq_nil in He as [_ ->]. done.
  - right. split; [lia|]. right. intros E. apply He. rewrite Hf. pose proof vo_full.
    rewrite <- Zplus_mod_idemp_l, Z_mod_same_full. done.
Qed.
Lemma ends_at_last nbyte data : ends_at nbyte data -> Zlen data <= data_size ->
  (Zlen data <? nbyte) && (Zlen data =? data_size) = false.
Proof using K.
  intros He Hl. destruct (Z.ltb_spec (Zlen data) nbyte); [|done]. destruct (Z.eqb_spec (Zlen data) data_size) as [E|]; [|done].
  pose proof vo_full. destruct He as [?|[_ [-> |Hm]]]; [lia|rewrite Zlen_nil in E; lia|].
  rewrite E, Z_mod_same_full in Hm. done.
Qed.
Lemma ends_at_le nbyte data : ends_at nbyte data -> Zlen data <= nbyte.
Proof. unfold ends_at. lia. Qed.
Lemma packet_nonempty data bs : is_packet data bs -> (0 < length bs)%nat.
Proof using K. intros (tail & -> & _). destruct (vo_head fl (Zlen data)) as (t & -> & _). simpl. lia. Qed.

(** One turn of a read loop on a packet: the two waits and the checksum. *)
Ltac receive_turn data m Hb1 Hl Hd Ht Hb :=
  destruct (receive_packet data _ _ m _ Hb1 Hl Hd Ht Hb)
    as (r1 & m1 & v & r & m2 & -> & Hv & -> & Hstart & Hs & Hdat & Hc & Ht' & Hr);
  rewrite (proj2 (Z.ltb_ge v 0)) by lia; change (0 <? 0) with false; cbv iota;
  destruct (accept_packet data m2 Hs Hl Hdat Hc) as (m3 & -> & Hs3 & Hd3); cbn [negb]; cbv iota.

Lemma masterread_loop_spec data ds : cut data ds -> Forall is_byte data ->
  forall fuel nbyte bytes buf m c bs rest, packets ds bs -> in_time c -> rx_bytes (c_rx c) = bs ++ rest ->
  ends_at (nbyte - bytes) data -> (length (rx_bytes (c_rx c)) < fuel)%nat ->
  exists r, masterread_loop fuel d nbyte bytes buf m c = Some (with_rx r c, buf ++ data, bytes + Zlen data) /\ rx_bytes r = rest.
Proof using K Hfl.
  induction 1 as [data Hl|data dat2 ds Hf Hne Hcut IH]; intros Hd fuel nbyte bytes buf m c bs rest Hbs Ht Hb He Hfuel;
    (destruct fuel as [|fuel]; [lia|]); cbn [masterread_loop]; apply packets_cons in Hbs as (b & bs' & Hb1 & Hbs' & ->);
    pose proof (packet_nonempty _ _ Hb1) as Hpos; rewrite <- app_assoc in Hb.
  - receive_turn data m Hb1 Hl Hd Ht Hb.
    pose proof (ends_at_le _ _ He). rewrite (proj2 (Z.ltb_ge nbyte (pkt_size m3 + bytes))) by lia.
    rewrite Hs3, Hd3. pose proof (ends_at_last _ _ He Hl) as Hlast.
    replace (bytes + Zlen data <? nbyte) with (Zlen data <? nbyte - bytes) by (apply eq_true_iff_eq; rewrite !Z.ltb_lt; lia).
    rewrite Hlast. exists r. split; [done|]. destruct Hbs' as (l & Hl' & ->). apply Forall2_nil_inv_l in Hl' as ->. exact Hr.
  - apply Forall_app in Hd as [Hd1 Hd2]. assert (Hl : Zlen data <= data_size) by lia.
    receive_turn data m Hb1 Hl Hd1 Ht Hb.
    destruct (ends_at_more _ _ _ Hf He Hne) as [He2 Hlt].
    rewrite (proj2 (Z.ltb_ge nbyte (pkt_size m3 + bytes))) by lia.
    rewrite Hs3, Hd3, (proj2 (Z.ltb_lt (bytes + Zlen data) nbyte)), (proj2 (Z.eqb_eq (Zlen data) data_size)) by lia. cbn [andb].
    destruct (IH Hd2 fuel nbyte (bytes + Zlen data) (buf ++ data) m3 (with_rx r c) bs' rest) as (r' & -> & Hr').
    { done. } { done. } { done. } { by replace (nbyte - (bytes + Zlen data)) with (nbyte - bytes - Zlen data) by lia. }
    { cbn [c_rx with_rx]. rewrite Hr. rewrite Hb, !length_app in Hfuel. rewrite length_app. lia. }
    exists r'. split; [|done]. rewrite <- app_assoc, Zlen_app, Z.add_assoc. done.
Qed.

Lemma send_ack_ok data m c : c_write_ok c = true -> pkt_size m = Zlen data ->
  (v_checks fl = true -> pkt_checksum m = checksum_of data) ->
  send_ack v_ack (if v_checks fl then pkt_checksum m else 0) c
  = (mk_chan (c_rx c) (c_tx c ++ ack_of data) (c_flushes c) (c_waited c) true, 2).
Proof using K.
  intros Hw Hs Hc. unfold send_ack, phy_write. rewrite Hw. unfold ack_of, ack_sum. pose proof vo_ack.
  rewrite (u8_id v_ack) by done. do 2 f_equal. do 4 f_equal. destruct (v_checks fl); [|done].
  rewrite Hc by done. apply u8_id, u8_range.
Qed.

Context {St : Type}.
Lemma slaveread_loop_spec data ds : cut data ds -> Forall is_byte data ->
  forall fuel nbyte bytes buf (st : St) m c bs rest, packets ds bs -> in_time c -> c_write_ok c = true ->
  rx_bytes (c_rx c) = bs ++ rest -> ends_at (nbyte - bytes) data -> (length (rx_bytes (c_rx c)) < fuel)%nat ->
  (data = [] -> bytes = 0) ->
  exists c', slaveread_loop fuel d None nbyte bytes buf st m c = Some (c', st, buf ++ data, bytes + Zlen data) /\
    c_tx c' = c_tx c ++ acks ds /\ rx_bytes (c_rx c') = rest.
Proof using K Hfl.
  induction 1 as [data Hl|data dat2 ds Hf Hne Hcut IH]; intros Hd fuel nbyte bytes buf st m c bs rest Hbs Ht Hw Hb He Hfuel Hz;
    (destruct fuel as [|fuel]; [lia|]); cbn [slaveread_loop]; apply packets_cons in Hbs as (b & bs' & Hb1 & Hbs' & ->);
    pose proof (packet_nonempty _ _ Hb1) as Hpos; rewrite <- app_assoc in Hb.
  - receive_turn data m Hb1 Hl Hd Ht Hb. rewrite Hstart, Z.eqb_refl. cbn [negb]. cbv iota.
    rewrite (send_ack_ok data m2 (with_rx r c) Hw Hs Hc). cbn [fst c_rx with_rx c_tx c_flushes c_waited].
    rewrite Hs3, Hd3. pose proof (ends_at_last _ _ He Hl) as Hlast.
    replace (bytes + Zlen data <? nbyte) with (Zlen data <? nbyte - bytes) by (apply eq_true_iff_eq; rewrite !Z.ltb_lt; lia).
    rewrite Hlast. destruct Hbs' as (l & Hl' & ->). apply Forall2_nil_inv_l in Hl' as ->.
    assert (Hacks : acks [data] = ack_of data) by done.
    destruct (v_ping && (Zlen data =? 0)) eqn:Ep.
    + apply andb_true_iff in Ep as [_ E0%Z.eqb_eq]. assert (data = []) as -> by (destruct data; [done|rewrite Zlen_cons in E0; pose proof (Zlen_nonneg data); lia]).
      eexists. rewrite (Hz eq_refl), (app_nil_r buf). split; [reflexivity|]. rewrite Hacks. done.
    + eexists. split; [reflexivity|]. rewrite Hacks. destruct (bytes + Zlen data =? 0); done.
  - apply Forall_app in Hd as [Hd1 Hd2]. assert (Hl : Zlen data <= data_size) by lia.
    receive_turn data m Hb1 Hl Hd1 Ht Hb. rewrite Hstart, Z.eqb_refl. cbn [negb]. cbv iota.
    rewrite (send_ack_ok data m2 (with_rx r c) Hw Hs Hc). cbn [fst c_rx with_rx c_tx c_flushes c_waited].
    destruct (ends_at_more _ _ _ Hf He Hne) as [He2 Hlt]. pose proof vo_full.
    rewrite Hs3, Hd3, (proj2 (Z.ltb_lt (bytes + Zlen data) nbyte)), (proj2 (Z.eqb_eq (Zlen data) data_size)) by lia.
    rewrite (proj2 (Z.eqb_neq (Zlen data) 0)), andb_false_r by lia. cbn [andb].
    set (c1 := mk_chan r (c_tx c ++ ack_of data) (c_flushes c) (c_waited c) true).
    destruct (IH Hd2 fuel nbyte (bytes + Zlen data) (buf ++ data) st m3 c1 bs' rest) as (c' & -> & Htx & Hr');
      try done.
    { by replace (nbyte - (bytes + Zlen data)) with (nbyte - bytes - Zlen data) by lia. }
    { cbn [c_rx c1]. rewrite Hr. rewrite Hb, !length_app in Hfuel. rewrite length_app. lia. }
    exists c'. split; [|split; [|done]]; [rewrite <- app_assoc, Zlen_app, Z.add_assoc; done|].
    rewrite Htx. cbn [c_tx c1]. unfold acks. rewrite bind_cons, <- app_assoc. done.
Qed.

(** ** Sending a packet *)

Lemma slice_length buf from n : 0 <= from -> 0 <= n -> from + n <= Zlen buf -> Zlen (slice buf from n) = n.
Proof. intros. unfold slice, Zlen in *. rewrite length_take, length_drop. lia. Qed.
Lemma slice_bytes buf from n : Forall is_byte buf -> Forall is_byte (slice buf from n).
Proof. intros. apply Forall_take, Forall_drop. done. Qed.

(** The packet a sender builds in memory, with or without a checksum, is a packet
    of the slice. *)
Lemma build_packet data m n m1 : headed fl m -> n = Zlen data -> Zlen data <= data_size -> Forall is_byte data ->
  let m0 := store_list data_off data (set_size n m) in
  agree 0 (data_off + n) m0 m1 -> (v_checks fl = true -> load8 m1 (data_off + n) = checksum_of data) ->
  pkt_size m1 = n /\ headed fl m1 /\ is_packet data (load_list m1 0 (n + header_size)).
Proof using K.
  intros Hh -> Hl Hd m0 Ha Hc. pose proof lo_sizes as [Ho _]. pose proof (Zlen_nonneg data).
  assert (A0 : agree 0 data_off (set_size (Zlen data) m) m1).
  { etrans; [apply (store_list_agree data_off data); lia|]. eapply agree_sub; [exact Ha|lia|lia]. }
  split; [|split].
  - rewrite (lo_local _ _ A0). apply lo_store. lia.
  - apply (vo_kept _ _ _ A0), vo_sized, Hh.
  - exists (load_list m1 (data_off + Zlen data) (header_size - data_off)).
    replace (Zlen data + header_size) with (data_off + (Zlen data + (header_size - data_off))) by lia.
    rewrite !load_list_app by lia. rewrite !Z.add_0_l. split; [f_equal; [|f_equal]|split; [|split]].
    + rewrite (load_list_agree (set_size (Zlen data) m)) by (eapply agree_sub; [exact A0|lia|lia]). apply vo_sent; [done|lia].
    + rewrite (load_list_agree m0) by (eapply agree_sub; [exact Ha|lia|lia]). by apply load_store_list.
    + apply load_list_length. lia.
    + apply Forall_fmap, Forall_forall. intros x _. apply load8_range.
    + intros Hck. rewrite <- Hc by done. rewrite load_list_cons by lia. done.
Qed.
Lemma build_checked data m : headed fl m -> Zlen data <= data_size -> Forall is_byte data ->
  let m0 := store_list data_off data (set_size (Zlen data) m) in
  pkt_size m0 = Zlen data /\ load8 (insert_checksum m0) (data_off + Zlen data) = checksum_of data.
Proof using K.
  intros Hh Hl Hd m0. pose proof lo_sizes as [Ho _]. pose proof (Zlen_nonneg data).
  assert (Hs : pkt_size m0 = Zlen data).
  { rewrite (lo_local (set_size (Zlen data) m)) by (apply store_list_agree; lia). apply lo_store. lia. }
  split; [done|]. pose proof (pkt_checksum_inserted m0) as E. unfold pkt_checksum in E. rewrite pkt_size_inserted, Hs in E.
  rewrite E. f_equal. by apply load_store_list.
Qed.
Lemma next_slice buf bytes : 0 <= bytes <= Zlen buf -> Forall is_byte buf ->
  let data := slice buf bytes (next_size (Zlen buf) bytes) in
  Zlen data = next_size (Zlen buf) bytes /\ Zlen data <= data_size /\ Forall is_byte data /\
  ((bytes + Zlen data <? Zlen buf) && (Zlen data =? data_size) = (data_size <? Zlen buf - bytes)) /\
  drop (Z.to_nat bytes) buf = data ++ drop (Z.to_nat (bytes + Zlen data)) buf.
Proof using K.
  intros Hb Hd data. pose proof vo_full as Hf. assert (Hl : Zlen data = next_size (Zlen buf) bytes).
  { apply slice_length; unfold next_size; destruct (Z.ltb_spec data_size (Zlen buf - bytes)); lia. }
  split; [done|]. split; [rewrite Hl; unfold next_size; destruct (Z.ltb_spec data_size (Zlen buf - bytes)); lia|].
  split; [by apply slice_bytes|]. split.
  - rewrite Hl. unfold next_size. destruct (Z.ltb_spec data_size (Zlen buf - bytes)).
    + rewrite Z.eqb_refl, andb_true_r. apply Z.ltb_lt. lia.
    + rewrite (proj2 (Z.ltb_ge (bytes + (Zlen buf - bytes)) (Zlen buf))) by lia. done.
  - unfold data, slice. rewrite <- (take_drop (Z.to_nat (next_size (Zlen buf) bytes)) (drop (Z.to_nat bytes) buf)) at 1.
    f_equal. rewrite drop_drop. f_equal. fold (slice buf bytes (next_size (Zlen buf) bytes)). fold data. rewrite Hl.
    pose proof (Zlen_nonneg data). lia.
Qed.

(** One turn of a write loop: the packet in memory after the slice of [buf] has been
    stored and the packet sealed, as [seal] does. *)
Definition turn_packet (seal : mem -> mem) (buf : list Z) (bytes : Z) (m : mem) : mem :=
  let m := set_size (next_size (Zlen buf) bytes) m in seal (store_list data_off (slice buf bytes (pkt_size m)) m).
Definition seals (seal : mem -> mem) : Prop := forall m,
  agree 0 (data_off + pkt_size m) m (seal m) /\ (v_checks fl = true -> seal m = insert_checksum m).

Record sent (buf : list Z) (bytes : Z) (data : list Z) (m1 : mem) : Prop := {
  sn_size : pkt_size m1 = Zlen data;
  sn_sum : v_checks fl = true -> pkt_checksum m1 = checksum_of data;
  sn_headed : headed fl m1;
  sn_packet : is_packet data (load_list m1 0 (Zlen data + header_size));
  sn_length : Zlen (load_list m1 0 (Zlen data + header_size)) = Zlen data + header_size;
  sn_again : (bytes + Zlen data <? Zlen buf) && (Zlen data =? data_size) = (data_size <? Zlen buf - bytes);
  sn_more : data_size < Zlen buf - bytes -> Zlen data = data_size /\
    forall ds bs, cut (drop (Z.to_nat (bytes + Zlen data)) buf) ds -> packets ds bs ->
    cut (drop (Z.to_nat bytes) buf) (data :: ds) /\
    packets (data :: ds) (load_list m1 0 (Zlen data + header_size) ++ bs);
  sn_last : Zlen buf - bytes <= data_size -> bytes + Zlen data = Zlen buf /\
    cut (drop (Z.to_nat bytes) buf) [data] /\ packets [data] (load_list m1 0 (Zlen data + header_size));
}.

Lemma send_turn seal buf bytes m : seals seal -> headed fl m -> 0 <= bytes <= Zlen buf -> Forall is_byte buf ->
  exists data, sent buf bytes data (turn_packet seal buf bytes m).
Proof using K Hfl.
  intros Hseal Hh Hb Hd. unfold turn_packet. destruct (next_slice buf bytes Hb Hd) as (Hn & Hl & Hdb & Hcont & Hdrop).
  set (data := slice buf bytes (next_size (Zlen buf) bytes)) in *. rewrite <- Hn. exists data.
  pose proof (Zlen_nonneg data). rewrite lo_store by lia.
  assert (slice buf bytes (Zlen data) = data) as -> by (unfold data at 2; by rewrite Hn).
  destruct (build_checked data m Hh Hl Hdb) as [Hs1 Hck]. set (m0 := store_list data_off data (set_size (Zlen data) m)) in *.
  destruct (Hseal m0) as [A1 S1]. rewrite Hs1 in A1.
  destruct (build_packet data m (Zlen data) (seal m0) Hh eq_refl Hl Hdb A1) as (Hs2 & Hh1 & Hpk).
  { intros Hc. by rewrite S1. }
  split; try done.
  - intros Hc. unfold pkt_checksum. rewrite Hs2. by rewrite S1.
  - apply load_list_length. pose proof lo_sizes. lia.
  - intros Hlt. assert (Hfull : Zlen data = data_size) by (rewrite Hn; unfold next_size; by rewrite (proj2 (Z.ltb_lt _ _) Hlt)).
    split; [done|]. intros ds bs Hcut (l & Hp & ->). split; [|exists (load_list (seal m0) 0 (Zlen data + header_size) :: l); by split; [constructor|]].
    rewrite Hdrop. apply cut_more; [done| |done]. intros E. apply (f_equal length) in E. rewrite length_drop in E.
    unfold Zlen in *. simpl in E. lia.
  - intros Hge. assert (Hlast : Zlen data = Zlen buf - bytes) by (rewrite Hn; unfold next_size; by rewrite (proj2 (Z.ltb_ge _ _) Hge)).
    split; [lia|]. split.
    + rewrite Hdrop, (drop_ge buf) by (unfold Zlen in *; lia). rewrite app_nil_r. by constructor.
    + exists [load_list (seal m0) 0 (Zlen data + header_size)]. split; [by repeat constructor|]. cbn. by rewrite app_nil_r.
Qed.

Definition slave_seal (m : mem) : mem := if v_checks fl then insert_checksum m else m.
Definition master_seal (m : mem) : mem := if v_checks fl then insert_checksum m else store8 (data_off + pkt_size m) 0 m.
Lemma slave_seals : seals slave_seal.
Proof. intros m. unfold slave_seal. destruct (v_checks fl); [|done]. split; [apply insert_checksum_agree|done]. Qed.
Lemma master_seals : seals master_seal.
Proof.
  intros m. unfold master_seal. destruct (v_checks fl); [split; [apply insert_checksum_agree|done]|].
  split; [apply store8_agree; lia|done].
Qed.

Lemma master_unchecked buf bytes m : v_checks fl = false -> pkt_checksum (turn_packet master_seal buf bytes m) = 0.
Proof using K.
  intros E. unfold turn_packet, master_seal. rewrite E. generalize (store_list data_off (slice buf bytes (pkt_size
    (set_size (next_size (Zlen buf) bytes) m))) (set_size (next_size (Zlen buf) bytes) m)). intros m0. unfold pkt_checksum.
  rewrite (lo_local m0 (store8 (data_off + pkt_size m0) 0 m0)) by (apply store8_agree; pose proof (lo_range m0); lia). by rewrite load8_store8_eq.
Qed.

Lemma slavewrite_loop_spec fuel buf bytes ret (st : St) m c : headed fl m -> 0 <= bytes <= Zlen buf -> Forall is_byte buf ->
  c_write_ok c = true -> (Z.to_nat (Zlen buf - bytes) < fuel)%nat ->
  exists ds bs c', slavewrite_loop fuel d None buf (Zlen buf) bytes ret st m c = Some (c', st, Zlen buf) /\
    cut (drop (Z.to_nat bytes) buf) ds /\ packets ds bs /\ c_tx c' = c_tx c ++ bs /\ c_rx c' = c_rx c.
Proof using K Hfl.
  revert bytes m c. induction fuel as [|fuel IH]; intros bytes m c Hh Hb Hd Hw Hf; [lia|]. cbn [slavewrite_loop].
  destruct (send_turn slave_seal buf bytes m slave_seals Hh Hb Hd) as (data & [Hs Hck Hh1 Hpk Hlen Hag Hmore Hlast]).
  fold (slave_seal (store_list data_off (slice buf bytes (pkt_size (set_size (next_size (Zlen buf) bytes) m)))
          (set_size (next_size (Zlen buf) bytes) m))).
  fold (turn_packet slave_seal buf bytes m). set (m1 := turn_packet slave_seal buf bytes m) in *. pose proof vo_full.
  rewrite Hs. unfold phy_write. rewrite Hw, Hlen, Z.eqb_refl. cbn [negb]. rewrite Hag.
  destruct (Z.ltb_spec data_size (Zlen buf - bytes)) as [Hlt|Hge].
  - destruct (Hmore Hlt) as [Hfull Hgo].
    destruct (IH (bytes + Zlen data) m1 (mk_chan (c_rx c) (c_tx c ++ load_list m1 0 (Zlen data + header_size)) (c_flushes c) (c_waited c) true))
      as (ds & bs & c' & -> & Hcut & Hp & Htx & Hrx); try done; [lia|lia|]. destruct (Hgo ds bs Hcut Hp) as [? ?].
    eexists _, _, c'. split_and!; try done. cbn [c_tx] in Htx. rewrite Htx, <- app_assoc. done.
  - destruct (Hlast Hge) as (He & ? & ?). eexists _, _, _. rewrite He. split; [reflexivity|]. done.
Qed.

(** ** Waiting for an acknowledgement *)

Lemma wait_ack_loop_spec fuel count got a k c rest : Zlen got < 2 -> in_time c -> 0 <= count ->
  count + rx_pause (c_rx c) < d_timeout d -> got ++ rx_bytes (c_rx c) = [a; k] ++ rest -> (rx_weight (c_rx c) < fuel)%nat ->
  exists r, wait_ack_loop fuel (d_timeout d) count got c = Some (with_rx r c, inl [a; k]) /\
    in_time (with_rx r c) /\ rx_bytes r = rest.
Proof.
  revert count got c. induction fuel as [|fuel IH]; intros count got c Hg [Hq _] Hc Hp Hb Hf; [lia|]. cbn [wait_ack_loop].
  destruct (rx_bytes (c_rx c)) as [|b bs] eqn:Eb.
  { rewrite app_nil_r in Hb. rewrite Hb in Hg. unfold Zlen in Hg. simpl in Hg. lia. }
  destruct (phy_read_quiet (2 - Zlen got) c b bs ltac:(lia) Hq Eb)
    as (r & Hqr & Hw & [(l & -> & Hl & Hbr & Hpr)|(ms & -> & Hms & Hbr & Hpr)]).
  - rewrite Hbr, app_assoc in Hb. destruct (Z.ltb_spec (Zlen (got ++ l)) 2) as [Hlt|Hge].
    + destruct (IH 0 (got ++ l) (with_rx r c)) as (r' & -> & ? & ?); cbn [c_rx with_rx]; try done; try lia.
      { split; cbn [c_rx with_rx]; [done|lia]. }
      exists r'. done.
    + rewrite Zlen_app in Hge. assert (E : Zlen (got ++ l) = 2) by (rewrite Zlen_app; lia).
      apply app_inj_1 in Hb as [-> Hr]; [|unfold Zlen in E; simpl; lia].
      exists r. split; [done|]. split; [split; cbn [c_rx with_rx]; [done|lia]|done].
  - pose proof (rx_pause_nonneg _ Hqr). rewrite (proj2 (Z.leb_gt (d_timeout d) (count + ms))) by lia.
    rewrite (proj2 (Z.ltb_lt (Zlen got) 2)) by lia.
    destruct (IH (count + ms) got (with_rx r c)) as (r' & -> & ? & ?); cbn [c_rx with_rx]; try done; try lia.
    { split; cbn [c_rx with_rx]; [done|lia]. }
    { by rewrite Hbr. }
    exists r'. done.
Qed.
Lemma wait_ack_spec a k c rest : in_time c -> rx_bytes (c_rx c) = [a; k] ++ rest ->
  exists r, wait_ack k (d_timeout d) c = Some (with_rx r c, a) /\ in_time (with_rx r c) /\ rx_bytes r = rest.
Proof.
  intros Ht Hb. unfold wait_ack.
  destruct (wait_ack_loop_spec (read_fuel c) 0 [] a k c rest) as (r & -> & Ht' & Hr); try done.
  - destruct Ht. lia.
  - unfold read_fuel. lia.
  - exists r. change (Zget [a; k] 1) with k. rewrite Z.eqb_refl. done.
Qed.

Lemma masterwrite_loop_spec fuel buf bytes m : headed fl m -> 0 <= bytes <= Zlen buf -> Forall is_byte buf ->
  (Z.to_nat (Zlen buf - bytes) < fuel)%nat ->
  exists ds bs, cut (drop (Z.to_nat bytes) buf) ds /\ packets ds bs /\
    forall c rest, c_write_ok c = true -> in_time c -> rx_bytes (c_rx c) = acks ds ++ rest ->
    exists c', masterwrite_loop fuel d buf bytes m c = Some (c', Zlen buf) /\
      c_tx c' = c_tx c ++ bs /\ rx_bytes (c_rx c') = rest.
Proof using K Hfl.
  revert bytes m. induction fuel as [|fuel IH]; intros bytes m Hh Hb Hd Hf; [lia|].
  destruct (send_turn master_seal buf bytes m master_seals Hh Hb Hd) as (data & [Hs Hck Hh1 Hpk Hlen Hag Hmore Hlast]).
  assert (Hturn : forall c rest, c_write_ok c = true -> in_time c -> rx_bytes (c_rx c) = ack_of data ++ rest ->
    exists r, let c1 := mk_chan r (c_tx c ++ load_list (turn_packet master_seal buf bytes m) 0 (Zlen data + header_size)) (c_flushes c) (c_waited c) true in
      in_time c1 /\ rx_bytes r = rest /\
      masterwrite_loop (S fuel) d buf bytes m c =
        if data_size <? Zlen buf - bytes
        then masterwrite_loop fuel d buf (bytes + Zlen data) (turn_packet master_seal buf bytes m) c1
        else Some (c1, bytes + Zlen data)).
  { intros c rest Hw Ht Hrx. cbn [masterwrite_loop].
    fold (master_seal (store_list data_off (slice buf bytes (pkt_size (set_size (next_size (Zlen buf) bytes) m)))
            (set_size (next_size (Zlen buf) bytes) m))).
    fold (turn_packet master_seal buf bytes m). set (m1 := turn_packet master_seal buf bytes m) in *.
    assert (Hsum : pkt_checksum m1 = ack_sum data).
    { unfold ack_sum. destruct (v_checks fl) eqn:E; [by apply Hck|]. by apply master_unchecked. }
    rewrite Hs, Hsum. unfold phy_write. rewrite Hw, Hlen, Z.eqb_refl. cbn [negb]. rewrite Hag.
    set (c1 := mk_chan (c_rx c) (c_tx c ++ load_list m1 0 (Zlen data + header_size)) (c_flushes c) (c_waited c) true).
    destruct (wait_ack_spec v_ack (ack_sum data) c1 rest Ht Hrx) as (r & -> & Ht' & Hr). pose proof vo_ack.
    rewrite (proj2 (Z.ltb_ge v_ack 0)), Z.eqb_refl by lia. cbn [negb]. exists r. done. }
  set (m1 := turn_packet master_seal buf bytes m) in *. pose proof vo_full.
  destruct (Z.ltb_spec data_size (Zlen buf - bytes)) as [Hlt|Hge].
  - destruct (Hmore Hlt) as [Hfull Hgo]. destruct (IH (bytes + Zlen data) m1) as (ds & bs & Hcut & Hp & Hrun); [done|lia|done|lia|].
    destruct (Hgo ds bs Hcut Hp) as [? ?]. eexists _, _. split; [done|]. split; [done|]. intros c rest Hw Ht Hrx.
    unfold acks in Hrx. rewrite bind_cons, <- app_assoc in Hrx. destruct (Hturn c _ Hw Ht Hrx) as (r & Ht' & Hr & ->).
    
    destruct (Hrun (mk_chan r (c_tx c ++ load_list m1 0 (Zlen data + header_size)) (c_flushes c) (c_waited c) true)
                rest eq_refl Ht' Hr) as (c' & -> & Htx & Hrest). exists c'. split; [done|]. split; [|done].
    rewrite Htx. cbn [c_tx]. by rewrite <- app_assoc.
  - destruct (Hlast Hge) as (He & ? & ?). eexists _, _. split; [done|]. split; [done|]. intros c rest Hw Ht Hrx.
    destruct (Hturn c rest Hw Ht Hrx) as (r & Ht' & Hr & ->). rewrite He. eexists. split; [reflexivity|]. done.
Qed.

(** ** Bounds of the reads *)

Lemma wait_packet_loop_size fuel timeout bytes count m c c' m' err :
  pkt_size m <= data_size -> wait_packet_loop fuel timeout bytes count m c = Some (c', m', err) ->
  err < 0 \/ pkt_size m' <= data_size.
Proof.
  revert bytes count m c. induction fuel as [|fuel IH]; intros bytes count m c Hs; [done|]. cbn [wait_packet_loop].
  destruct (phy_read _ c) as [[c1 [|ms|l]]|]; [by intros; simplify_eq; left| | |done].
  - destruct (timed_out (count + ms) timeout); [by intros; simplify_eq; left|].
    destruct (bytes <? pkt_size m + header_size - 1); [by apply IH|]. intros; simplify_eq. by right.
  - destruct (Z.ltb_spec data_size (pkt_size (store_list (1 + bytes) l m))); [by intros; simplify_eq; left|].
    destruct (bytes + Zlen l <? pkt_size (store_list (1 + bytes) l m) + header_size - 1); [by apply IH|].
    intros; simplify_eq. by right.
Qed.
Lemma wait_packet_size timeout m c c' m' err : wait_packet timeout m c = Some (c', m', err) ->
  err < 0 \/ pkt_size m' <= data_size.
Proof using K. apply wait_packet_loop_size. pose proof vo_full. rewrite lo_store; lia. Qed.

Lemma masterread_loop_bound fuel nbyte bytes buf m c c' buf' r : Zlen buf = bytes -> bytes <= nbyte ->
  masterread_loop fuel d nbyte bytes buf m c = Some (c', buf', r) -> Zlen buf' <= nbyte.
Proof using K.
  revert bytes buf m c. induction fuel as [|fuel IH]; intros bytes buf m c Hl Hb; [done|]. cbn [masterread_loop].
  destruct (v_wait_start (d_timeout d) m c) as [[[c1 m1] e1]|]; [|done].
  destruct (e1 <? 0); [by intros; simplify_eq; lia|].
  destruct (wait_packet (d_timeout d) m1 c1) as [[[c2 m2] e2]|] eqn:E2; [|done].
  destruct (Z.ltb_spec e2 0); [by intros; simplify_eq; lia|].
  assert (Hs : pkt_size m2 <= data_size).
  { destruct (wait_packet_size _ _ _ _ _ _ E2); lia. }
  assert (Hx : exists m3 ok, (if v_checks fl then checksum_isok m2 else (m2, true)) = (m3, ok) /\ pkt_size m3 = pkt_size m2).
  { destruct (v_checks fl); [|by eauto]. rewrite checksum_isok_spec by done. eexists _, _. split; [done|]. apply pkt_size_inserted. }
  destruct Hx as (m3 & ok & -> & Hs3). destruct ok; cbn [negb]; [|destruct (v_master_corrupt c2) as [c3 e3]; by intros; simplify_eq; lia].
  set (m4 := if nbyte <? pkt_size m3 + bytes then set_size (nbyte - bytes) m3 else m3).
  assert (Hs4 : 0 <= pkt_size m4 /\ bytes + pkt_size m4 <= nbyte).
  { unfold m4. destruct (Z.ltb_spec nbyte (pkt_size m3 + bytes)); [rewrite lo_store by lia; lia|]. pose proof (lo_range m3). lia. }
  destruct ((bytes + pkt_size m4 <? nbyte) && (pkt_size m4 =? data_size)).
  - apply IH; [|lia]. rewrite Zlen_app, load_list_length by lia. lia.
  - intros; simplify_eq. rewrite Zlen_app, load_list_length by lia. lia.
Qed.
End Protocol.

(** ** What the transfers guarantee *)

(** C11: The host writes and the device reads, in either version: whatever the length of
    [data] (several packets, the empty packet), the bytes the host sends make the
    device's read return exactly [data], and the acknowledgements the device sends
    for them are those with which the host's write returns [Zlen data].  Neither
    side reads a byte more.  The pieces in which the two drivers deliver the bytes
    and the pauses between them (below the timeout) do not matter. *)
Theorem link_host_to_device (V : Version) head headed (K : VersionOk V head headed) (St : Type) (st : St)
    d pkt_h pkt_d nbyte data ds host rest_h :
  is_byte (d_o_flags d) -> Forall is_byte data -> ends_at nbyte data -> cut data ds ->
  c_write_ok host = true -> in_time d host -> rx_bytes (c_rx host) = acks d ds ++ rest_h ->
  exists bs host', masterwrite d data pkt_h host = Some (host', Zlen data) /\
    c_tx host' = c_tx host ++ bs /\ rx_bytes (c_rx host') = rest_h /\
    forall dev rest_d, c_write_ok dev = true -> in_time d dev -> rx_bytes (c_rx dev) = bs ++ rest_d ->
    exists dev', slaveread d None nbyte st pkt_d dev = Some (dev', st, data, Zlen data) /\
      c_tx dev' = c_tx dev ++ acks d ds /\ rx_bytes (c_rx dev') = rest_d.
Proof.
  intros Hfl Hd He Hds Hok Ht Hr. pose proof (Zlen_nonneg data).
  destruct (masterwrite_loop_spec d Hfl (S (length data)) data 0 (v_header (d_o_flags d) (v_init pkt_h)))
    as (ds' & bs & Hcut & Hp & Hw); [by apply vo_headed|lia|done|unfold Zlen; lia|].
  rewrite (cut_unique _ _ _ Hcut Hds) in *. destruct (Hw host rest_h Hok Ht Hr) as (host' & Hm & Htx & Hrx).
  exists bs, host'. split; [exact Hm|]. split; [done|]. split; [done|]. intros dev rest_d Hok' Ht' Hr'.
  destruct (slaveread_loop_spec (St := St) d Hfl data ds Hds Hd (read_fuel dev) nbyte 0 [] st (v_init pkt_d) dev bs rest_d)
    as (dev' & Hs & Htx' & Hrx'); try done.
  - by rewrite Z.sub_0_r.
  - unfold read_fuel. pose proof (rx_bytes_weight (c_rx dev)). lia.
  - exists dev'. split; [exact Hs|]. done.
Qed.

(** C12: The device writes and the host reads: the bytes the device sends make the host's
    read return exactly [data] and leave what follows. *)
Theorem link_device_to_host (V : Version) head headed (K : VersionOk V head headed) (St : Type) (st : St)
    d pkt_d pkt_h nbyte data dev :
  is_byte (d_o_flags d) -> Forall is_byte data -> ends_at nbyte data -> c_write_ok dev = true ->
  exists bs dev', slavewrite d None data (Zlen data) st pkt_d dev = Some (dev', st, Zlen data) /\
    c_tx dev' = c_tx dev ++ bs /\ c_rx dev' = c_rx dev /\
    forall host rest, in_time d host -> rx_bytes (c_rx host) = bs ++ rest ->
    exists r, masterread d nbyte pkt_h host = Some (with_rx r host, data, Zlen data) /\ rx_bytes r = rest.
Proof.
  intros Hfl Hd He Hok. pose proof (Zlen_nonneg data).
  destruct (slavewrite_loop_spec (St := St) d Hfl (S (Z.to_nat (Zlen data))) data 0 0 st (v_header (d_o_flags d) (v_init pkt_d)) dev)
    as (ds & bs & dev' & Hw & Hcut & Hp & Htx & Hrx); [by apply vo_headed|lia|done|done|lia|].
  exists bs, dev'. split; [exact Hw|]. split; [done|]. split; [done|]. intros host rest Ht Hr.
  destruct (masterread_loop_spec d Hfl data ds Hcut Hd (read_fuel host) nbyte 0 [] pkt_h host bs rest) as (r & Hm & Hrest); try done.
  - by rewrite Z.sub_0_r.
  - unfold read_fuel. pose proof (rx_bytes_weight (c_rx host)). lia.
  - exists r. split; [exact Hm|done].
Qed.

(** C38: The host's read stays within its buffer, whatever arrives: garbage, packets that
    are too long, errors. *)
Theorem masterread_within_buffer (V : Version) head headed (K : VersionOk V head headed) d nbyte pkt c c' buf r :
  0 <= nbyte -> masterread d nbyte pkt c = Some (c', buf, r) -> Zlen buf <= nbyte.
Proof. intros Hn. by apply (masterread_loop_bound d). Qed.

(** The device's read does not: a packet longer than the [nbyte] bytes that were
    asked for is stored whole. *)
Theorem slaveread_overruns_buffer (V : Version) head headed (K : VersionOk V head headed) (St : Type) (st : St)
    d nbyte pkt data bs rest c :
  is_byte (d_o_flags d) -> Forall is_byte data -> 0 < nbyte < Zlen data -> Zlen data <= data_size ->
  is_packet (head := head) d data bs -> in_time d c -> c_write_ok c = true -> rx_bytes (c_rx c) = bs ++ rest ->
  exists c', slaveread d None nbyte st pkt c = Some (c', st, data, Zlen data).
Proof.
  intros Hfl Hd Hn Hl Hpk Ht Hw Hb. unfold slaveread, read_fuel. cbn [slaveread_loop].
  destruct (receive_packet d Hfl data bs rest (v_init pkt) c Hpk Hl Hd Ht Hb)
    as (r1 & m1 & v & r & m2 & -> & Hv & -> & Hstart & Hs & Hdat & Hc & Ht' & Hr).
  rewrite (proj2 (Z.ltb_ge v 0)) by lia. change (0 <? 0) with false. cbv iota. rewrite Hstart, Z.eqb_refl. cbn [negb].
  destruct (accept_packet d data m2 Hs Hl Hdat Hc) as (m3 & -> & Hs3 & Hd3). cbn [negb]. rewrite Hs3, Hd3.
  rewrite (proj2 (Z.eqb_neq (Zlen data) 0)), andb_false_r by lia.
  rewrite (proj2 (Z.ltb_ge (0 + Zlen data) nbyte)) by lia. cbn [andb]. eexists. reflexivity.
Qed.

(** C39: A packet whose checksum does not match is refused: with a checksum in use, the
    device's read stores nothing, does not run the callback, answers with the
    negative acknowledgement and returns its error. *)
Theorem slaveread_refuses_corrupt (V : Version) head headed (K : VersionOk V head headed) (St : Type) (st : St)
    d callback nbyte pkt data tail rest c :
  is_byte (d_o_flags d) -> Forall is_byte data -> Zlen data <= data_size ->
  Zlen tail = header_size - data_off -> Forall is_byte tail ->
  v_checks (d_o_flags d) = true -> Zget tail 0 <> checksum_of data ->
  in_time d c -> rx_bytes (c_rx c) = (head (d_o_flags d) (Zlen data) ++ data ++ tail) ++ rest ->
  exists r, slaveread d callback nbyte st pkt c
    = Some (v_reject (d_timeout d) 1 (Zget tail 0) (with_rx r c), st, [], v_slave_error Bad_checksum) /\ rx_bytes r = rest.
Proof.
  intros Hfl Hd Hl Htl Htb Hchk Hbad Ht Hb. unfold slaveread, read_fuel. cbn [slaveread_loop].
  destruct (receive_any d Hfl data tail rest (v_init pkt) c Htl Htb Hl Hd Ht Hb)
    as (r1 & m1 & v & r & m2 & -> & Hv & -> & Hstart & Hs & Hdat & Hc & Ht' & Hr).
  rewrite (proj2 (Z.ltb_ge v 0)) by lia. change (0 <? 0) with false. cbv iota. rewrite Hstart, Z.eqb_refl, Hchk. cbn [negb].
  rewrite checksum_isok_spec by lia. rewrite Hs, Hdat, Hc, (proj2 (Z.eqb_neq (Zget tail 0) (checksum_of data)) Hbad). cbn [negb].
  exists r. done.
Qed.

(** ** Transfers to run *)

Definition demo_driver : driver := mk_driver 500 LINK2_FLAG_IS_CHECKSUM.
Definition zeros : mem := fun _ => 0.
(** The packet of two bytes as version 2 sends it, in pieces; and its acknowledgement. *)
Definition demo_device : chan := mk_chan [Rx_data [17; 1]; Rx_idle 100; Rx_data [2; 0; 104]; Rx_data [105; 3; 0]] [] 0 0 true.
Definition demo_host : chan := mk_chan [Rx_data [7]; Rx_idle 20; Rx_data [3; 9]] [] 0 0 true.
Lemma demo_cut : @cut link2 [104; 105] [[104; 105]].
Proof. apply cut_last. vm_compute. discriminate. Qed.
Lemma demo_bytes : Forall is_byte [104; 105].
Proof. repeat constructor; done. Qed.
Lemma demo_in_time c : forallb (fun e => match e with Rx_error => false | Rx_idle ms => 0 <=? ms | _ => true end) (c_rx c) = true ->
  (rx_pause (c_rx c) <? 500) = true -> in_time demo_driver c.
Proof.
  intros H Hp%Z.ltb_lt. split; [|done]. clear Hp. induction (c_rx c) as [|e r IH]; [done|]. cbn in H.
  apply andb_true_iff in H as [He Hr]. destruct e; cbn; try done; [by apply IH|]. split; [by apply Z.leb_le|by apply IH].
Qed.

Lemma link_host_to_device_witness :
  exists bs host', link2_transport_masterwrite demo_driver [104; 105] zeros demo_host = Some (host', 2) /\
    c_tx host' = bs /\ rx_bytes (c_rx host') = [9] /\
    (rx_bytes (c_rx demo_device) = bs ++ [] ->
     exists dev', link2_transport_slaveread unit demo_driver None 2 tt zeros demo_device = Some (dev', tt, [104; 105], 2) /\
       c_tx dev' = [7; 3]).
Proof.
  destruct (link_host_to_device link2 link2_head link2_headed _ unit tt demo_driver zeros zeros 2 [104; 105] [[104; 105]] demo_host [9])
    as (bs & host' & Hm & Htx & Hrx & Hdev); try done.
  - apply demo_bytes.
  - by left.
  - apply demo_cut.
  - exists bs, host'. split; [exact Hm|]. split; [exact Htx|]. split; [exact Hrx|]. intros Hb.
    destruct (Hdev demo_device [] eq_refl ltac:(by apply demo_in_time) Hb) as (dev' & Hs & Ha & _). exists dev'. split; [exact Hs|exact Ha].
Defined.
Example link_host_to_device_bytes :
  (fun r => c_tx r.1) <$> link2_transport_masterwrite demo_driver [104; 105] zeros demo_host = Some (rx_bytes (c_rx demo_device)).
Proof. vm_compute. reflexivity. Qed.
Lemma link_device_to_host_witness :
  exists bs dev', link2_transport_slavewrite unit demo_driver None [104; 105] 2 tt zeros demo_host = Some (dev', tt, 2) /\ c_tx dev' = bs /\
    (rx_bytes (c_rx demo_device) = bs ++ [] ->
     exists r, link2_transport_masterread demo_driver 10 zeros demo_device = Some (with_rx r demo_device, [104; 105], 2) /\ rx_bytes r = []).
Proof.
  destruct (link_device_to_host link2 link2_head link2_headed _ unit tt demo_driver zeros zeros 10 [104; 105] demo_host)
    as (bs & dev' & Hs & Htx & _ & Hh); try done.
  - apply demo_bytes.
  - right. split; [done|]. right. vm_compute. discriminate.
  - exists bs, dev'. split; [exact Hs|]. split; [exact Htx|]. intros Hb. apply (Hh demo_device []); [by apply demo_in_time|done].
Defined.
Lemma masterread_within_buffer_witness :
  exists c' buf r, link2_transport_masterread demo_driver 1 zeros demo_device = Some (c', buf, r) /\ Zlen buf <= 1.
Proof.
  destruct (link2_transport_masterread demo_driver 1 zeros demo_device) as [[[c' buf] r]|] eqn:E; [|vm_compute in E; discriminate E].
  exists c', buf, r. split; [done|]. by apply (masterread_within_buffer link2 link2_head link2_headed _ demo_driver 1 zeros demo_device c' buf r).
Defined.
Lemma demo_packet_sent : @is_packet link2 link2_head demo_driver [104; 105] (rx_bytes (c_rx demo_device)).
Proof. exists [3; 0]. split; [done|]. split; [done|]. split; [repeat constructor; done|]. intros _. vm_compute. reflexivity. Qed.
Lemma slaveread_overruns_buffer_witness :
  exists c', link2_transport_slaveread unit demo_driver None 1 tt zeros demo_device = Some (c', tt, [104; 105], 2).
Proof.
  apply (slaveread_overruns_buffer link2 link2_head link2_headed _ unit tt demo_driver 1 zeros [104; 105] (rx_bytes (c_rx demo_device)) []);
    [done|apply demo_bytes|done|done|apply demo_packet_sent|by apply demo_in_time|done|by rewrite app_nil_r].
Defined.
Definition demo_corrupt : chan := mk_chan [Rx_data [17; 1; 2; 0; 104; 107; 3; 0]] [] 0 0 true.
Lemma slaveread_refuses_corrupt_witness :
  exists r, link2_transport_slaveread unit demo_driver None 10 tt zeros demo_corrupt
    = Some (mk_chan r [84; 3] 1 0 true, tt, [], -56).
Proof.
  destruct (slaveread_refuses_corrupt link2 link2_head link2_headed _ unit tt demo_driver None 10 zeros [104; 107] [3; 0] [] demo_corrupt)
    as (r & E & _); try done.
  - repeat constructor; done.
  - repeat constructor; done.
  - exists r. exact E.
Defined.
