(* ===== verification/Sched.v ===== *)
(** * Scheduling parameters

    [src/sys/sched/sched.c], [src/sys/pthread/pthread_schedparam.c],
    [pthread_attr.c] and [pthread_attr_init.c].  The policies and the other
    constants of [<sched.h>] and [<pthread.h>] belong to the C library, which is not
    part of the repository: they are parameters.  The
    bit fields of [pthread_attr_t], which that library's macros get and set, are
    fields of a record.  Pointers to attributes and parameters are not NULL. *)
From S2P Require Import Prelude Task Scheduler Timing Threads Mutex.

Class PosixThreads := {
  SCHED_OTHER : Z;
  SCHED_FIFO : Z;
  SCHED_RR : Z;
  PTHREAD_CREATE_DETACHED : Z;
  PTHREAD_CREATE_JOINABLE : Z;
  PTHREAD_INHERIT_SCHED : Z;
  PTHREAD_EXPLICIT_SCHED : Z;
  PTHREAD_SCOPE_SYSTEM : Z;
}.

Definition CONFIG_PTHREAD_STACK_MIN : Z := 128.
Definition CONFIG_PTHREAD_DEFAULT_STACK_SIZE : Z := 1536.
Definition CONFIG_TASK_DEFAULT_STACKGUARD_SIZE : Z := 128.
Definition CONFIG_SCHED_DEFAULT_PRIORITY : Z := 0.
Definition CONFIG_SCHED_RR_DURATION : Z := 10.

Record pthread_attr_t := mk_attr {
  attr_stackaddr : Z;
  attr_stacksize : Z;
  attr_is_initialized : Z;
  attr_contention_scope : Z;
  attr_guardsize : Z;
  attr_inherit_sched : Z;
  attr_detach_state : Z;
  attr_sched_policy : Z;
  attr_sched_priority : Z;
}.
Definition attr_with_initialized (x : Z) (a : pthread_attr_t) : pthread_attr_t :=
  mk_attr (attr_stackaddr a) (attr_stacksize a) x (attr_contention_scope a) (attr_guardsize a)
    (attr_inherit_sched a) (attr_detach_state a) (attr_sched_policy a) (attr_sched_priority a).
Definition attr_with_stack (addr size : Z) (a : pthread_attr_t) : pthread_attr_t :=
  mk_attr addr size (attr_is_initialized a) (attr_contention_scope a) (attr_guardsize a)
    (attr_inherit_sched a) (attr_detach_state a) (attr_sched_policy a) (attr_sched_priority a).
Definition attr_with_scope (x : Z) (a : pthread_attr_t) : pthread_attr_t :=
  mk_attr (attr_stackaddr a) (attr_stacksize a) (attr_is_initialized a) x (attr_guardsize a)
    (attr_inherit_sched a) (attr_detach_state a) (attr_sched_policy a) (attr_sched_priority a).
Definition attr_with_inherit (x : Z) (a : pthread_attr_t) : pthread_attr_t :=
  mk_attr (attr_stackaddr a) (attr_stacksize a) (attr_is_initialized a) (attr_contention_scope a) (attr_guardsize a)
    x (attr_detach_state a) (attr_sched_policy a) (attr_sched_priority a).
Definition attr_with_detach (x : Z) (a : pthread_attr_t) : pthread_attr_t :=
  mk_attr (attr_stackaddr a) (attr_stacksize a) (attr_is_initialized a) (attr_contention_scope a) (attr_guardsize a)
    (attr_inherit_sched a) x (attr_sched_policy a) (attr_sched_priority a).
Definition attr_with_sched (policy priority : Z) (a : pthread_attr_t) : pthread_attr_t :=
  mk_attr (attr_stackaddr a) (attr_stacksize a) (attr_is_initialized a) (attr_contention_scope a) (attr_guardsize a)
    (attr_inherit_sched a) (attr_detach_state a) policy priority.

Section Posix.
Context {P : PosixThreads}.

(** ** Ranges of priorities *)

Definition is_policy (policy : Z) : bool :=
  (policy =? SCHED_RR) || (policy =? SCHED_FIFO) || (policy =? SCHED_OTHER).
Definition sched_get_priority_max (policy : Z) : api_result :=
  if (policy =? SCHED_RR) || (policy =? SCHED_FIFO) then Ret CONFIG_SCHED_HIGHEST_PRIORITY
  else if policy =? SCHED_OTHER then Ret 0
  else Err EINVAL.
Definition sched_get_priority_min (policy : Z) : api_result :=
  if (policy =? SCHED_RR) || (policy =? SCHED_FIFO) then Ret 1
  else if policy =? SCHED_OTHER then Ret 0
  else Err EINVAL.
(** The number a call returns. *)
Definition returned (r : api_result) : Z := match r with Ret v => v | Err _ => -1 end.

(** ** Thread attributes *)

Definition attr_check_initialized (a : pthread_attr_t) : bool := attr_is_initialized a =? 1.

Definition pthread_attr_init : pthread_attr_t :=
  mk_attr 0 CONFIG_PTHREAD_DEFAULT_STACK_SIZE 1 PTHREAD_SCOPE_SYSTEM CONFIG_TASK_DEFAULT_STACKGUARD_SIZE
    PTHREAD_EXPLICIT_SCHED PTHREAD_CREATE_JOINABLE SCHED_OTHER CONFIG_SCHED_DEFAULT_PRIORITY.
Definition pthread_attr_destroy (a : pthread_attr_t) : pthread_attr_t * api_result :=
  if attr_check_initialized a then (attr_with_initialized 0 a, Ret 0) else (a, Err EINVAL).

(** A getter gives the value it stores through its pointer. *)
Definition attr_get {A} (field : pthread_attr_t -> A) (a : pthread_attr_t) : A + Z :=
  if attr_check_initialized a then inl (field a) else inr EINVAL.
Definition pthread_attr_getdetachstate : pthread_attr_t -> Z + Z := attr_get attr_detach_state.
Definition pthread_attr_getguardsize : pthread_attr_t -> Z + Z := attr_get attr_guardsize.
Definition pthread_attr_getinheritsched : pthread_attr_t -> Z + Z := attr_get attr_inherit_sched.
Definition pthread_attr_getschedparam : pthread_attr_t -> Z + Z := attr_get attr_sched_priority.
Definition pthread_attr_getschedpolicy : pthread_attr_t -> Z + Z := attr_get attr_sched_policy.
Definition pthread_attr_getscope : pthread_attr_t -> Z + Z := attr_get attr_contention_scope.
Definition pthread_attr_getstacksize : pthread_attr_t -> Z + Z := attr_get attr_stacksize.

Definition attr_set (ok : bool) (f : pthread_attr_t -> pthread_attr_t) (a : pthread_attr_t)
    : pthread_attr_t * api_result :=
  if negb (attr_check_initialized a) then (a, Err EINVAL)
  else if ok then (f a, Ret 0) else (a, Err EINVAL).
Definition pthread_attr_setdetachstate (a : pthread_attr_t) (detachstate : Z) : pthread_attr_t * api_result :=
  attr_set ((detachstate =? PTHREAD_CREATE_DETACHED) || (detachstate =? PTHREAD_CREATE_JOINABLE))
    (attr_with_detach detachstate) a.
Definition pthread_attr_setguardsize (a : pthread_attr_t) (guardsize : Z) : pthread_attr_t * api_result :=
  (a, Err ENOTSUP).
Definition pthread_attr_setinheritsched (a : pthread_attr_t) (inheritsched : Z) : pthread_attr_t * api_result :=
  attr_set ((inheritsched =? PTHREAD_INHERIT_SCHED) || (inheritsched =? PTHREAD_EXPLICIT_SCHED))
    (attr_with_inherit inheritsched) a.
Definition pthread_attr_setschedparam (a : pthread_attr_t) (priority : Z) : pthread_attr_t * api_result :=
  let policy := attr_sched_policy a in
  attr_set (negb (priority <? returned (sched_get_priority_min policy))
            && negb (returned (sched_get_priority_max policy) <? priority))
    (attr_with_sched policy priority) a.
Definition pthread_attr_setschedpolicy (a : pthread_attr_t) (policy : Z) : pthread_attr_t * api_result :=
  attr_set (is_policy policy) (attr_with_sched policy (attr_sched_priority a)) a.
Definition pthread_attr_setscope (a : pthread_attr_t) (contentionscope : Z) : pthread_attr_t * api_result :=
  attr_set (contentionscope =? PTHREAD_SCOPE_SYSTEM) (attr_with_scope contentionscope) a.
Definition pthread_attr_setstacksize (a : pthread_attr_t) (stacksize : Z) : pthread_attr_t * api_result :=
  attr_set (CONFIG_PTHREAD_STACK_MIN <=? stacksize) (attr_with_stack (attr_stackaddr a) stacksize) a.

(** ** Changing the parameters of a thread *)

(** The stored priority is brought into the configured range. *)
Definition bound_priority (id : Z) (k : kernel) : kernel :=
  let k := if CONFIG_SCHED_HIGHEST_PRIORITY <? sched_priority (sched k id)
           then on_sched id (fun t => with_param CONFIG_SCHED_HIGHEST_PRIORITY (sched_policy t) t) k else k in
  if sched_priority (sched k id) <? CONFIG_SCHED_LOWEST_PRIORITY
  then on_sched id (fun t => with_param CONFIG_SCHED_LOWEST_PRIORITY (sched_policy t) t) k else k.
(** The two files each have this svcall. *)
Definition svcall_set_scheduling_param (id policy prio : Z) (k : kernel) : kernel :=
  if task_enabled (k_tasks k) id then
    let k := bound_priority id (on_sched id (with_param prio policy) k) in
    let k := on_tasks (task_set_priority id (sched_priority (sched k id))) k in
    let k := if policy =? SCHED_FIFO then on_tasks (task_assert_fifo id) k else on_tasks (task_deassert_fifo id) k in
    if task_enabled_active_not_stopped (k_tasks k) id then scheduler_root_update_on_stopped k else k
  else k.

(** The policy and the priority of a thread. *)
Definition pthread_getschedparam (k : kernel) (thread : Z) : (Z * Z) + Z :=
  if negb (scheduler_check_tid k thread =? 0) then inr ESRCH
  else inl (sched_policy (sched k thread), sched_priority (sched k thread)).
(** [priority] is an [int]; the test of its range is made on its low byte. *)
Definition pthread_setschedparam (thread policy prio : Z) (k : kernel) : kernel * api_result :=
  if scheduler_check_tid k thread <? 0 then (k, Err ESRCH)
  else if (returned (sched_get_priority_min policy) <=? u8 prio)
          && (u8 prio <=? returned (sched_get_priority_max policy))
  then (svcall_set_scheduling_param thread policy prio k, Ret 0)
  else (k, Err EINVAL).

(** ** Processes *)

Definition get_pid_task (k : kernel) (pid : Z) : Z :=
  let i := task_find (fun i => (task_get_pid (k_tasks k) i =? pid) && negb (task_thread_asserted (k_tasks k) i))
             (Z.to_nat task_get_total) 0 in
  if i =? task_get_total then -1 else i.
Definition sched_getparam (k : kernel) (pid : Z) : Z + Z :=
  let tid := get_pid_task k pid in
  if tid <? 0 then inr ESRCH else inl (sched_priority (sched k tid)).
Definition sched_getscheduler (k : kernel) (pid : Z) : api_result :=
  let tid := get_pid_task k pid in
  if tid <? 0 then Err ESRCH else Ret (sched_policy (sched k tid)).
Definition sched_rr_get_interval (k : kernel) (pid : Z) : timespec + Z :=
  if get_pid_task k pid <? 0 then inr ESRCH
  else inl (mk_timespec 0 (CONFIG_SCHED_RR_DURATION * 1000 * 1000)).
Definition out_of_range (policy prio : Z) : bool :=
  (returned (sched_get_priority_max policy) <? prio) || (prio <? returned (sched_get_priority_min policy)).
Definition sched_setparam (pid prio : Z) (k : kernel) : kernel * api_result :=
  let tid := get_pid_task k pid in
  if tid <? 0 then (k, Err ESRCH)
  else
    let policy := sched_policy (sched k tid) in
    if out_of_range policy prio then (k, Err EINVAL)
    else (svcall_set_scheduling_param tid policy prio k, Ret 0).
Definition sched_setscheduler (pid policy prio : Z) (k : kernel) : kernel * api_result :=
  let tid := get_pid_task k pid in
  if tid <? 0 then (k, Err ESRCH)
  else if negb (is_policy policy) then (k, Err EINVAL)
  else if out_of_range policy prio then (k, Err EINVAL)
  else (svcall_set_scheduling_param tid policy prio k, Ret 0).

Definition svcall_yield (k : kernel) : kernel :=
  on_tasks task_root_switch_context (on_tasks (task_assert_yield (current k)) k).
Definition sched_yield (k : kernel) : kernel * api_result := (svcall_yield k, Ret 0).
End Posix.

(** ** What a change of parameters does *)

Definition clamp (prio : Z) : Z := Z.max CONFIG_SCHED_LOWEST_PRIORITY (Z.min CONFIG_SCHED_HIGHEST_PRIORITY prio).
Lemma clamp_id prio : CONFIG_SCHED_LOWEST_PRIORITY <= prio <= CONFIG_SCHED_HIGHEST_PRIORITY -> clamp prio = prio.
Proof. unfold clamp. lia. Qed.
Lemma clamp_range prio : CONFIG_SCHED_LOWEST_PRIORITY <= clamp prio <= CONFIG_SCHED_HIGHEST_PRIORITY.
Proof. unfold clamp, CONFIG_SCHED_LOWEST_PRIORITY, CONFIG_SCHED_HIGHEST_PRIORITY. lia. Qed.

Section Parameters.
Context {P : PosixThreads}.

Record parameters_set (id policy prio : Z) (k k' : kernel) : Prop := {
  ps_wf : kernel_wf k';
  ps_entry : sched k' id = with_param prio policy (sched k id);
  ps_priority : priority k' id = prio;
  ps_fifo : task_fifo_asserted (k_tasks k') id = (policy =? SCHED_FIFO);
  ps_sched_ne : forall j, 0 <= j -> j <> id -> sched k' j = sched k j;
  ps_priority_ne : forall j, 0 <= j -> j <> id -> priority k' j = priority k j;
  ps_flag : forall j g, 0 <= j -> Z.land TASK_FLAGS_FIFO g = 0 ->
    task_flag_asserted (k_tasks k') j g = task_flag_asserted (k_tasks k) j g;
  ps_pid : forall j, 0 <= j -> task_get_pid (k_tasks k') j = task_get_pid (k_tasks k) j;
  ps_current : current k' = current k;
}.

Lemma clamped_entry id policy prio k : kernel_wf k -> task_id id ->
  bound_priority id (on_sched id (with_param prio policy) k) = on_sched id (with_param (clamp prio) policy) k.
Proof.
  intros [_ Hl] Hi. unfold bound_priority. rewrite (sched_on_sched_eq id _ k) by done. cbn [sched_priority with_param].
  unfold clamp. destruct (Z.ltb_spec CONFIG_SCHED_HIGHEST_PRIORITY prio).
  - rewrite on_sched_twice by done. rewrite sched_on_sched_eq by done. cbn [sched_priority sched_policy with_param].
    change (CONFIG_SCHED_HIGHEST_PRIORITY <? CONFIG_SCHED_LOWEST_PRIORITY) with false. cbv iota.
    unfold CONFIG_SCHED_HIGHEST_PRIORITY, CONFIG_SCHED_LOWEST_PRIORITY in *. replace (Z.max 0 (Z.min 31 prio)) with 31 by lia. done.
  - rewrite sched_on_sched_eq by done. cbn [sched_priority with_param]. rewrite Z.min_r by lia.
    destruct (Z.ltb_spec prio CONFIG_SCHED_LOWEST_PRIORITY).
    + rewrite on_sched_twice by done. cbn [sched_policy with_param]. rewrite Z.max_l by lia. done.
    + rewrite Z.max_r by lia. done.
Qed.

Lemma set_param_effect id policy prio k : kernel_wf k -> task_id id -> enabled k id = true ->
  parameters_set id policy (clamp prio) k (svcall_set_scheduling_param id policy prio k).
Proof.
  intros Hwf Hi He. unfold svcall_set_scheduling_param. unfold enabled in He. rewrite He.
  rewrite (clamped_entry id policy prio k Hwf Hi). set (k1 := on_sched id (with_param (clamp prio) policy) k).
  destruct Hwf as [[Ht Hc] Hl]. assert (E1 : sched k1 id = with_param (clamp prio) policy (sched k id)) by (by apply sched_on_sched_eq).
  rewrite E1. cbn [sched_priority with_param]. pose proof (clamp_range prio) as Hr.
  set (k2 := on_tasks (task_set_priority id (clamp prio)) k1).
  set (k3 := if policy =? SCHED_FIFO then on_tasks (task_assert_fifo id) k2 else on_tasks (task_deassert_fifo id) k2).
  assert (H3 : parameters_set id policy (clamp prio) k k3).
  { assert (L2 : Zlen (sos_task_table (k_tasks k2)) = CONFIG_TASK_TOTAL) by (etrans; [apply Zlen_on_task|exact Ht]).
    assert (F2 : forall j g, 0 <= j -> task_flag_asserted (k_tasks k2) j g = task_flag_asserted (k_tasks k) j g).
    { intros j g Hj. unfold task_flag_asserted. f_equal.
      change (k_tasks k2) with (task_set_priority id (clamp prio) (k_tasks k)). unfold task_set_priority.
      by rewrite (on_task_field (fun t => Z.land (task_flags t) g)). }
    assert (T3 : forall {A} (f : task_t -> A) j, (forall fl t, f (with_flags fl t) = f t) -> 0 <= j ->
      f (task (k_tasks k3) j) = f (task (k_tasks k2) j)).
    { intros A f j Hf Hj. unfold k3. destruct (policy =? SCHED_FIFO); cbn [k_tasks on_tasks];
        unfold task_assert_fifo, task_deassert_fifo, task_assert_flag, task_deassert_flag; by rewrite (on_task_field f). }
    assert (S3 : sos_sched_table k3 = sos_sched_table k1) by (unfold k3; by destruct (policy =? SCHED_FIFO)).
    split.
    - split; [split|]; [|unfold k3; by destruct (policy =? SCHED_FIFO)|rewrite S3; etrans; [apply Zlen_on_sched|done]].
      unfold k3. destruct (policy =? SCHED_FIFO); (etrans; [apply Zlen_on_task|done]).
    - unfold sched at 1. rewrite S3. exact E1.
    - unfold priority, task_get_priority. rewrite (T3 _ task_priority) by (done || apply Hi).
      change (k_tasks k2) with (task_set_priority id (clamp prio) (k_tasks k)).
      unfold task_set_priority. rewrite task_on_task_eq by done. cbn [task_priority with_priority]. apply s8_id.
      unfold CONFIG_SCHED_LOWEST_PRIORITY, CONFIG_SCHED_HIGHEST_PRIORITY in Hr. lia.
    - unfold k3, task_fifo_asserted. destruct (policy =? SCHED_FIFO); [by apply flag_set_same|by apply flag_clear_same].
    - intros j Hj Hne. unfold sched at 1. rewrite S3. apply (sched_on_sched_ne id j); auto.
    - intros j Hj Hne. unfold priority, task_get_priority. rewrite (T3 _ task_priority) by done.
      change (k_tasks k2) with (task_set_priority id (clamp prio) (k_tasks k)). unfold task_set_priority. by rewrite task_on_task_ne by auto.
    - intros j g Hj Hg. rewrite <- F2 by done. unfold k3. destruct (policy =? SCHED_FIFO);
        [by apply flag_set_disjoint|by apply flag_clear_disjoint].
    - intros j Hj. unfold task_get_pid. rewrite (T3 _ task_pid) by done.
      change (k_tasks k2) with (task_set_priority id (clamp prio) (k_tasks k)). unfold task_set_priority. by rewrite (on_task_field task_pid).
    - unfold k3. by destruct (policy =? SCHED_FIFO). }
  destruct (task_enabled_active_not_stopped (k_tasks k3) id); [|done].
  pose proof (update_on_stopped_same k3) as S. destruct H3, (S). split.
  - by eapply same_threads_wf.
  - by rewrite (same_threads_sched _ _ _ S).
  - rewrite st_priority by apply Hi. done.
  - unfold task_fifo_asserted. rewrite (same_threads_flag _ _ _ _ S) by apply Hi. done.
  - intros j Hj Hne. rewrite (same_threads_sched _ _ _ S). auto.
  - intros j Hj Hne. rewrite st_priority by done. auto.
  - intros j g Hj Hg. rewrite (same_threads_flag _ _ _ _ S) by done. auto.
  - intros j Hj. rewrite st_pid by done. auto.
  - congruence.
Qed.
End Parameters.

(** ** Round trips *)

Lemma task_find_ext p q fuel i : 0 <= i -> (forall j, 0 <= j -> p j = q j) -> task_find p fuel i = task_find q fuel i.
Proof. intros Hi H. revert i Hi. induction fuel as [|fuel IH]; intros i Hi; [done|]. cbn. rewrite H by done. by rewrite IH by lia. Qed.
Lemma get_pid_task_found k pid : 0 <= get_pid_task k pid ->
  task_id (get_pid_task k pid) /\ task_get_pid (k_tasks k) (get_pid_task k pid) = pid.
Proof.
  unfold get_pid_task. set (p := fun i => _). destruct (task_find_spec p (Z.to_nat task_get_total) 0) as (H1 & _ & H2).
  set (i := task_find p (Z.to_nat task_get_total) 0) in *. change (0 + Z.of_nat (Z.to_nat task_get_total)) with task_get_total in *.
  destruct (Z.eqb_spec i task_get_total); [lia|]. intros _. split; [unfold task_id, task_get_total in *; lia|].
  specialize (H2 ltac:(lia)). unfold p in H2. apply andb_true_iff in H2 as [H2%Z.eqb_eq _]. done.
Qed.

Section RoundTrips.
Context {P : PosixThreads}.

Lemma get_pid_task_set id policy prio k k' pid : parameters_set id policy prio k k' -> get_pid_task k' pid = get_pid_task k pid.
Proof.
  intros H. unfold get_pid_task. rewrite (task_find_ext _ (fun i => (task_get_pid (k_tasks k) i =? pid) && negb (task_thread_asserted (k_tasks k) i))); [done|lia|].
  intros j Hj. rewrite (ps_pid _ _ _ _ _ H) by done. unfold task_thread_asserted. by rewrite (ps_flag _ _ _ _ _ H).
Qed.
Lemma in_range_policy policy prio : is_policy policy = true -> out_of_range policy prio = false ->
  returned (sched_get_priority_min policy) <= prio <= returned (sched_get_priority_max policy) /\
  CONFIG_SCHED_LOWEST_PRIORITY <= prio <= CONFIG_SCHED_HIGHEST_PRIORITY.
Proof.
  unfold is_policy, out_of_range, sched_get_priority_min, sched_get_priority_max. intros Hp Hr.
  apply orb_false_iff in Hr as [H1%Z.ltb_ge H2%Z.ltb_ge].
  destruct (policy =? SCHED_RR), (policy =? SCHED_FIFO), (policy =? SCHED_OTHER); try discriminate;
    cbn in *; unfold CONFIG_SCHED_LOWEST_PRIORITY, CONFIG_SCHED_HIGHEST_PRIORITY in *; lia.
Qed.
End RoundTrips.

(** Setting the policy and the priority of a process and reading them back: when
    [sched_setscheduler] accepts them, [sched_getscheduler] and [sched_getparam]
    give them, the main thread of the process has the new effective priority and
    runs first-in-first-out exactly when the policy says so, no other thread is
    changed, and if the thread is ready the kernel continues at the highest
    priority of the ready threads. *)
Theorem setscheduler_roundtrip (P : PosixThreads) pid policy prio k :
  kernel_wf k -> priorities_ok k -> 0 <= get_pid_task k pid -> enabled k (get_pid_task k pid) = true ->
  is_policy policy = true -> out_of_range policy prio = false ->
  let t := get_pid_task k pid in
  exists k', sched_setscheduler pid policy prio k = (k', Ret 0) /\
    sched_getscheduler k' pid = Ret policy /\ sched_getparam k' pid = inl prio /\
    priority k' t = prio /\ task_fifo_asserted (k_tasks k') t = (policy =? SCHED_FIFO) /\
    (forall j, 0 <= j -> j <> t -> sched k' j = sched k j /\ priority k' j = priority k j) /\
    (ready k t = true -> task_get_current_priority (k_tasks k') = ready_priority (k_tasks k')).
Proof.
  intros Hwf Hp Ht He Hpol Hr t. destruct (get_pid_task_found k pid Ht) as [Hid _].
  pose proof (set_param_effect t policy prio k Hwf Hid He) as E.
  destruct (in_range_policy policy prio Hpol Hr) as [_ Hc]. rewrite clamp_id in E by done.
  exists (svcall_set_scheduling_param t policy prio k). unfold sched_setscheduler, sched_getscheduler, sched_getparam.
  rewrite (get_pid_task_set _ _ _ _ _ pid E). fold t. rewrite (proj2 (Z.ltb_ge t 0)) by lia. rewrite Hpol, Hr. cbn [negb].
  rewrite (ps_entry _ _ _ _ _ E). split; [done|]. split; [done|]. split; [done|]. split; [apply E|]. split; [apply E|].
  split; [intros j Hj Hne; split; [by apply E|by apply E]|]. intros Hrt.
  unfold svcall_set_scheduling_param in *. unfold enabled in He. fold t in He. rewrite He in E |- *.
  match goal with |- context [if ?b then scheduler_root_update_on_stopped ?x else ?x] => set (k3 := x) in * end.
  destruct (task_enabled_active_not_stopped (k_tasks k3) t) eqn:Eb.
  - assert (Hp3 : priorities_ok k3).
    { intros j Hj. pose proof (update_on_stopped_same k3) as S. rewrite <- (st_priority _ _ S) by done.
      destruct (decide (j = t)) as [->|Hne]; [rewrite (ps_priority _ _ _ _ _ E); lia|].
      rewrite (ps_priority_ne _ _ _ _ _ E) by done. by apply Hp. }
    rewrite update_on_stopped_priority by done. pose proof (update_on_stopped_same k3) as S. apply for_range_ext. intros j p Hj.
    pose proof (same_threads_ready _ _ j S ltac:(lia)) as E1. unfold ready in E1.
    pose proof (st_priority _ _ S j ltac:(lia)) as E2. unfold priority in E2. by rewrite E1, E2.
  - exfalso. assert (ready k3 t = ready k t) as Er; [|unfold ready in Er at 1; rewrite Eb in Er; congruence].
    unfold ready. rewrite !enabled_active_not_stopped_flags. unfold task_used_asserted, task_active_asserted, task_stopped_asserted.
    rewrite !(ps_flag _ _ _ _ _ E) by (done || apply Hid). done.
Qed.

(** [pthread_setschedparam] tests the range on the low byte of the priority only: a
    priority such as 257 is accepted for a real-time policy and gives the thread the
    highest priority there is; a negative one such as -255 gives it a priority below
    the minimum of its policy. *)
Theorem setschedparam_low_byte (P : PosixThreads) thread policy prio k :
  kernel_wf k -> task_id thread -> enabled k thread = true ->
  (policy =? SCHED_RR) || (policy =? SCHED_FIFO) = true -> 1 <= u8 prio <= CONFIG_SCHED_HIGHEST_PRIORITY ->
  exists k', pthread_setschedparam thread policy prio k = (k', Ret 0) /\
    (2 ^ 8 <= prio -> priority k' thread = CONFIG_SCHED_HIGHEST_PRIORITY) /\
    (prio < 0 -> priority k' thread < returned (sched_get_priority_min policy)).
Proof.
  intros Hwf Hid He Hpol Hr. exists (svcall_set_scheduling_param thread policy prio k).
  pose proof (set_param_effect thread policy prio k Hwf Hid He) as E. unfold pthread_setschedparam, scheduler_check_tid, sched_get_priority_min, sched_get_priority_max.
  unfold enabled in He. rewrite (proj2 (Z.ltb_lt thread task_get_total)) by (unfold task_id, task_get_total in *; lia).
  rewrite He, Hpol. change (0 <? 0) with false. cbv iota. cbn [returned].
  rewrite (proj2 (Z.leb_le 1 (u8 prio))), (proj2 (Z.leb_le (u8 prio) CONFIG_SCHED_HIGHEST_PRIORITY)) by lia. split; [done|].
  rewrite (ps_priority _ _ _ _ _ E). unfold clamp, CONFIG_SCHED_HIGHEST_PRIORITY, CONFIG_SCHED_LOWEST_PRIORITY. lia.
Qed.

(** ** Values to run with *)

Definition newlib : PosixThreads := {|
  SCHED_OTHER := 0; SCHED_FIFO := 1; SCHED_RR := 2;
  PTHREAD_CREATE_DETACHED := 0; PTHREAD_CREATE_JOINABLE := 1;
  PTHREAD_INHERIT_SCHED := 1; PTHREAD_EXPLICIT_SCHED := 2; PTHREAD_SCOPE_SYSTEM := 1 |}.
Lemma setschedparam_low_byte_witness :
  exists k', @pthread_setschedparam newlib 2 2 257 example_kernel = (k', Ret 0) /\ priority k' 2 = 31.
Proof.
  destruct (setschedparam_low_byte newlib 2 2 257 example_kernel) as (k' & E & H & _).
  - apply example_kernel_wf.
  - split; [discriminate|reflexivity].
  - vm_compute; reflexivity.
  - reflexivity.
  - split; [discriminate|vm_compute; discriminate].
  - exists k'. split; [exact E|]. by apply H.
Defined.
Lemma setscheduler_roundtrip_witness :
  exists k', @sched_setscheduler newlib (task_get_pid (k_tasks example_kernel) 1) 1 9 example_kernel = (k', Ret 0) /\
    sched_getparam k' (task_get_pid (k_tasks example_kernel) 1) = inl 9.
Proof.
  destruct (setscheduler_roundtrip newlib (task_get_pid (k_tasks example_kernel) 1) 1 9 example_kernel)
    as (k' & E & _ & H & _).
  - apply example_kernel_wf.
  - apply priorities_okb_spec. vm_compute. reflexivity.
  - vm_compute. discriminate.
  - vm_compute. reflexivity.
  - reflexivity.
  - reflexivity.
  - exists k'. split; [exact E|exact H].
Defined.
