(* ===== verification/Lifecycle.v ===== *)
(** * The life cycle of threads

    [src/sys/pthread/pthread_create.c], [pthread_cancel.c] and
    [src/sys/scheduler/scheduler_thread.c].  The stack a thread is given by [malloc]
    is an argument of [pthread_create]; the stack guard, the copy of the signal mask
    and the standard streams are not modelled, and the heap a thread leaves behind
    is in [Malloc.v].  [pthread_join] and the end of a thread are cut where the
    thread sleeps: a joiner sleeps until the thread has ended, a joinable thread that
    ends sleeps until another thread joins it. *)
From S2P Require Import Prelude Task Scheduler Timing Threads Mutex Timers Sched.

Section Lifecycle.
Context {P : PosixThreads}.

(** ** Creation *)

(** [first_authenticated] is the configuration flag
    [SYS_FLAG_IS_FIRST_THREAD_AUTHENTICATED]. *)
Definition svcall_activate_thread (first_authenticated : bool) (id : Z) (attr : pthread_attr_t) (k : kernel) : kernel :=
  let k := on_sched id (fun _ =>
             mk_sched (attr_sched_priority attr) (attr_sched_policy attr) (attr_detach_state attr) NULL 0
               (mk_timeval 0 0) 0
               (replicate (Z.to_nat CONFIG_TASK_PROCESS_TIMER_COUNT)
                  (mk_timer 0 (mk_timeval 0 0) (mk_timeval 0 0) 0 0 0))) k in
  let k := on_tasks (task_set_priority id (attr_sched_priority attr)) k in
  let k := if sched_policy (sched k id) =? SCHED_FIFO then on_tasks (task_assert_fifo id) k
           else on_tasks (task_deassert_fifo id) k in
  let k := scheduler_timing_root_process_timer_initialize id k in
  let k := on_sched id (with_wake (mk_timeval SCHEDULER_TIMEVAL_SEC_INVALID 0)) k in
  let k := scheduler_root_assert id SCHEDULER_TASK_FLAG_CANCEL_ENABLE k in
  let k := scheduler_root_deassert id SCHEDULER_TASK_FLAG_CANCEL_ASYNCHRONOUS k in
  let k := scheduler_root_assert_active id 0 k in
  let k := scheduler_root_assert id SCHEDULER_TASK_FLAG_INUSE k in
  let k := if scheduler_flag_asserted k (current k) SCHEDULER_TASK_FLAG_AUTHENTICATED
           then scheduler_root_assert id SCHEDULER_TASK_FLAG_AUTHENTICATED k else k in
  let k := if (id =? 1) && first_authenticated
           then scheduler_root_assert 1 SCHEDULER_TASK_FLAG_AUTHENTICATED k else k in
  scheduler_root_update_on_wake id (task_get_priority (k_tasks k) id) k.

Definition align8 (mem_addr mem_size : Z) : Z * Z :=
  let align_memory := Z.land (u32 mem_addr) (u32 (Z.lnot 7)) in
  let align_memory_size := Z.land (u32 mem_size) (u32 (Z.lnot 7)) in
  if align_memory <? u32 mem_addr then (u32 (align_memory + 8), u32 (align_memory_size - 8))
  else (align_memory, align_memory_size).
Definition scheduler_create_thread (first_authenticated : bool) (mem_addr mem_size : Z) (attr : pthread_attr_t) (k : kernel)
    : kernel * Z :=
  let '(align_memory, align_memory_size) := align8 mem_addr mem_size in
  let '(id, t) := task_create_thread align_memory align_memory_size (task_get_pid (k_tasks k) (current k)) (k_tasks k) in
  let k := on_tasks (fun _ => t) k in
  if 0 <? id then (svcall_activate_thread first_authenticated id attr k, id) else (k, id).

(** The attributes a new thread is created with: the caller's policy and priority
    when they are inherited. *)
Definition create_attrs (k : kernel) (attr : option pthread_attr_t) (stack_addr : Z) : pthread_attr_t :=
  let attrs := match attr with None => pthread_attr_init | Some a => a end in
  let attrs := attr_with_stack stack_addr (attr_stacksize attrs) attrs in
  if attr_inherit_sched attrs =? PTHREAD_INHERIT_SCHED then
    match pthread_getschedparam k (current k) with
    | inl (policy, prio) => (pthread_attr_setschedparam (pthread_attr_setschedpolicy attrs policy).1 prio).1
    | inr _ => attrs
    end
  else attrs.
(** The new thread, or [errno]; the stack goes back to the heap when there is no
    slot. *)
Definition pthread_create (first_authenticated : bool) (attr : option pthread_attr_t) (stack : option Z) (k : kernel)
    : kernel * (Z + Z) :=
  match stack with
  | None => (k, inr ENOMEM)
  | Some stack_addr =>
      let attrs := create_attrs k attr stack_addr in
      let '(k, id) := scheduler_create_thread first_authenticated stack_addr (attr_stacksize attrs) attrs k in
      if negb (id =? 0) then (k, inl id) else (k, inr EAGAIN)
  end.

(** ** Joining *)

(** The kernel and the thread id, which becomes -1 when the thread does not exist. *)
Definition svcall_join_thread (id : Z) (k : kernel) : kernel * Z :=
  if task_enabled (k_tasks k) id then
    let k := on_sched (current k) (with_block (Psched id)) k in
    let k := if ptr_eqb (block_object (sched k id)) (Pblock id)
             then scheduler_root_assert_active id SCHEDULER_UNBLOCK_PTHREAD_JOINED k else k in
    (scheduler_root_update_on_sleep k, id)
  else (k, -1).

(** [JReturned (Ret 0) v]: [v] is what is stored at [value_ptr]. *)
Inductive join_progress := JReturned (r : api_result) (value : Z) | JWaiting.

Definition join_turn (thread : Z) (k : kernel) : kernel * join_progress :=
  let '(k, thread) := svcall_join_thread thread k in
  if thread <? 0 then (k, JReturned (Err ESRCH) 0) else (k, JWaiting).
(** The tests run in user mode before the supervisor call, which looks again whether the
    thread exists; they are one step here. *)
Definition pthread_join (thread : Z) (k : kernel) : kernel * join_progress :=
  if (thread <? task_get_total) && (0 <=? thread) then
    if task_enabled (k_tasks k) thread then
      if negb (sched_detach_state (sched k thread) =? PTHREAD_CREATE_JOINABLE) then (k, JReturned (Err EINVAL) 0)
      else if ptr_eqb (block_object (sched k thread)) (Psched (current k)) || (thread =? current k)
      then (k, JReturned (Err EDEADLK) 0)
      else join_turn thread k
    else (k, JReturned (Err ESRCH) 0)
  else (k, JReturned (Err ESRCH) 0).
(** The loop's condition when the joiner runs again. *)
Definition pthread_join_resume (thread : Z) (k : kernel) : kernel * join_progress :=
  if negb (scheduler_unblock_type k (current k) =? SCHEDULER_UNBLOCK_PTHREAD_JOINED_THREAD_COMPLETE)
  then join_turn thread k
  else (k, JReturned (Ret 0) (exit_status (sched k (current k)))).

(** ** The end of a thread *)

(** The first thread that waits for the current one, 0 when there is none. *)
Definition find_joined (k : kernel) : Z :=
  let i := task_find (fun i => ptr_eqb (block_object (sched k i)) (Psched (current k)))
             (Z.to_nat (task_get_total - 1)) 1 in
  if i =? task_get_total then 0 else i.
Definition svcall_wait_joined (status : Z) (k : kernel) : kernel * Z :=
  let joined := find_joined k in
  if joined =? 0 then
    (scheduler_root_update_on_sleep (on_sched (current k) (with_block (Pblock (current k))) k), joined)
  else (on_sched (current k) (with_exit_status status) k, joined).

Definition svcall_elevate_priority (k : kernel) : kernel :=
  let id := current k in
  let k := on_sched id (with_param CONFIG_SCHED_HIGHEST_PRIORITY SCHED_FIFO) k in
  let k := on_tasks (task_set_priority id CONFIG_SCHED_HIGHEST_PRIORITY) k in
  scheduler_root_update_on_stopped (on_tasks (task_assert_fifo id) k).

Definition cleanup_turn (c joined : Z) (k : kernel) : kernel :=
  if ptr_eqb (block_object (sched k joined)) (Psched c) then
    let k := on_sched joined (with_exit_status (exit_status (sched k c))) k in
    scheduler_root_assert_active joined SCHEDULER_UNBLOCK_PTHREAD_JOINED_THREAD_COMPLETE k
  else k.
Definition svcall_cleanup (k : kernel) : kernel :=
  let c := current k in
  let k := for_range 1 task_get_total (cleanup_turn c) k in
  let k := on_sched c (with_sched_flags 0) k in
  scheduler_root_update_on_sleep (on_tasks (task_root_delete c) k).

(** Where a thread that runs [scheduler_thread_cleanup] stands after a turn of its
    loop: waiting to be joined, or on its way to [svcall_elevate_priority] and
    [svcall_cleanup]. *)
Inductive exit_progress := EWaiting | EJoined.
Definition exit_turn (status : Z) (k : kernel) : kernel * exit_progress :=
  let '(k, joined) := svcall_wait_joined status k in (k, if joined =? 0 then EWaiting else EJoined).
Definition scheduler_thread_cleanup (status : Z) (k : kernel) : kernel * exit_progress :=
  if sched_detach_state (sched k (current k)) =? PTHREAD_CREATE_JOINABLE then exit_turn status k
  else (k, EJoined).
Definition pthread_exit (value : Z) (k : kernel) : kernel * exit_progress := scheduler_thread_cleanup value k.

(** ** Cancellation *)

Record cancel_update := mk_cancel { cu_tid : Z; cu_cancel : Z; cu_enable : Z; cu_asynchronous : Z }.
Definition flag_update (id flag v : Z) (k : kernel) : kernel :=
  if 0 <? v then scheduler_root_assert id flag k
  else if v <? 0 then scheduler_root_deassert id flag k else k.
(** The kernel, whether cancellation was enabled and whether it was asynchronous. *)
Definition svcall_cancel_update (p : cancel_update) (k : kernel) : kernel * bool * bool :=
  let tid := cu_tid p in
  let old_type := scheduler_flag_asserted k tid SCHEDULER_TASK_FLAG_CANCEL_ASYNCHRONOUS in
  let old_state := scheduler_flag_asserted k tid SCHEDULER_TASK_FLAG_CANCEL_ENABLE in
  let k := if (0 <? cu_cancel p) && old_state then scheduler_root_assert tid SCHEDULER_TASK_FLAG_CANCEL k
           else if cu_cancel p <? 0 then scheduler_root_deassert tid SCHEDULER_TASK_FLAG_CANCEL k else k in
  let k := flag_update tid SCHEDULER_TASK_FLAG_CANCEL_ENABLE (cu_enable p) k in
  let k := flag_update tid SCHEDULER_TASK_FLAG_CANCEL_ASYNCHRONOUS (cu_asynchronous p) k in
  (k, old_state, old_type).
Definition pthread_cancel (thread : Z) (k : kernel) : kernel * api_result :=
  let pid := task_get_pid (k_tasks k) (current k) in
  let thread_pid := task_get_pid (k_tasks k) thread in
  if (task_get_total <=? u8 thread) || negb (pid =? thread_pid)
     || negb (task_thread_asserted (k_tasks k) thread) || negb (task_enabled (k_tasks k) thread)
  then (k, Err ESRCH)
  else ((svcall_cancel_update (mk_cancel thread 1 0 0) k).1.1, Ret 0).
(** [Some status]: the running thread ends with this status. *)
Definition scheduler_check_cancellation (k : kernel) : option Z :=
  if scheduler_flag_asserted k (current k) SCHEDULER_TASK_FLAG_CANCEL && task_thread_asserted (k_tasks k) (current k)
  then Some 0 else None.
(** The argument is [PTHREAD_CANCEL_ENABLE] or [_DISABLE], or another value
    ([None]).  The old state, and whether the thread ends before the call returns. *)
Definition pthread_setcancelstate (state : option bool) (k : kernel) : kernel * (bool + Z) * option Z :=
  match state with
  | None => (k, inr EINVAL, None)
  | Some enable =>
      let '(k, old_state, _) := svcall_cancel_update (mk_cancel (current k) 0 (if enable then 1 else -1) 0) k in
      (k, inl old_state, if enable then scheduler_check_cancellation k else None)
  end.
(** The argument is [PTHREAD_CANCEL_ASYNCHRONOUS] or [_DEFERRED], or another value. *)
Definition pthread_setcanceltype (type : option bool) (k : kernel) : kernel * (bool + Z) :=
  match type with
  | Some true => (k, inr ENOTSUP)
  | Some false => let '(k, _, old_type) := svcall_cancel_update (mk_cancel (current k) 0 0 (-1)) k in (k, inl old_type)
  | None => (k, inr EINVAL)
  end.
Definition pthread_testcancel (k : kernel) : option Z := scheduler_check_cancellation k.
End Lifecycle.

(** ** Fields the other operations keep *)

(** A field of the scheduler's entry that waking, sleeping and time do not touch. *)
Record quiet_field {A} (f : sched_task_t -> A) : Prop := {
  qf_block : forall p t, f (with_block p t) = f t;
  qf_wake : forall w t, f (with_wake w t) = f t;
  qf_flags : forall x t, f (with_sched_flags x t) = f t;
}.
Lemma exit_status_quiet : quiet_field exit_status.
Proof. done. Qed.
Lemma detach_quiet : quiet_field sched_detach_state.
Proof. done. Qed.

Section Keeps.
Context {A : Type} (f : sched_task_t -> A) (Q : quiet_field f).

Definition keeps (k k' : kernel) : Prop := forall j, 0 <= j -> f (sched k' j) = f (sched k j).
#[local] Instance keeps_preorder : PreOrder keeps.
Proof. split; [done|]. intros k1 k2 k3 H1 H2 j Hj. rewrite H2, H1 by done. done. Qed.
Lemma keeps_on_sched id g k : (forall t, f (g t) = f t) -> keeps k (on_sched id g k).
Proof. intros Hg j Hj. by rewrite (on_sched_field f). Qed.
Lemma keeps_assert_active id u k : keeps k (scheduler_root_assert_active id u k).
Proof using Q.
  unfold scheduler_root_assert_active, scheduler_root_set_unblock_type, scheduler_root_deassert_aiosuspend, scheduler_root_deassert.
  intros j Hj. rewrite !(on_sched_field f); try done; intros; apply Q.
Qed.
Lemma keeps_same k k' : same_threads k k' -> keeps k k'.
Proof. intros S j Hj. by rewrite (same_threads_sched _ _ _ S). Qed.
Lemma keeps_sleep k : kernel_wf k -> keeps k (scheduler_root_update_on_sleep k).
Proof. intros Hwf j Hj. unfold sched. by rewrite (as_sched _ _ _ (update_on_sleep_asleep k Hwf)). Qed.
Lemma keeps_signal id k : keeps k (signal_root_activate id k).
Proof using Q.
  unfold signal_root_activate. set (k1 := on_tasks (task_deassert_stopped id) k). change (keeps k1 (scheduler_root_update_on_wake id
    (task_get_priority (k_tasks (scheduler_root_assert_active id SCHEDULER_UNBLOCK_SIGNAL k1)) id)
    (scheduler_root_assert_active id SCHEDULER_UNBLOCK_SIGNAL k1))).
  etrans; [apply keeps_assert_active|]. apply keeps_same, update_on_wake_same.
Qed.
Lemma keeps_match k : keeps k (root_handle_usecond_match_event k).
Proof using Q.
  destruct (match_event_same k) as [S _]. etrans; [|by apply keeps_same].
  apply (match_scan_ind (fun _ s => keeps k (ms_k s))); [done|]. intros n s Hn H. unfold match_turn.
  destruct (task_enabled_not_active _ _); [|done]. destruct (due _ _); [|by destruct (_ && _)].
  destruct (_ && _); (etrans; [exact H|apply keeps_assert_active]).
Qed.
End Keeps.

(** ** The effect of each call on the threads *)

(** Everything this file sees of thread [j] is the same. *)
Definition settled (j : Z) (k k' : kernel) : Prop :=
  exit_status (sched k' j) = exit_status (sched k j) /\
  sched_detach_state (sched k' j) = sched_detach_state (sched k j) /\ enabled k' j = enabled k j.
Definition untouched (j : Z) (k k' : kernel) : Prop := view k' j = view k j /\ settled j k k'.
#[export] Instance settled_preorder j : PreOrder (settled j).
Proof. unfold settled. split; [done|]. intros k1 k2 k3 (? & ? & ?) (? & ? & ?). by split_and!; congruence. Qed.
#[export] Instance untouched_preorder j : PreOrder (untouched j).
Proof.
  unfold untouched. split; [done|]. intros k1 k2 k3 [V1 S1] [V2 S2]. split; [congruence|].
  etrans; [exact S1|exact S2].
Qed.

Lemma only_untouched i j k k' : only i k k' -> keeps exit_status k k' -> keeps sched_detach_state k k' -> 0 <= j -> j <> i ->
  untouched j k k'.
Proof. intros [F V] K1 K2 Hj Hne. split; [by apply V|]. split_and!; [by apply K1|by apply K2|by apply F]. Qed.
Lemma unchanged_untouched j k k' : same_threads k k' -> 0 <= j -> untouched j k k'.
Proof.
  intros S Hj. destruct (same_threads_unchanged _ _ S) as [F V]. split; [by apply V|].
  unfold settled. rewrite (same_threads_sched _ _ _ S). by split_and!; [| |apply F].
Qed.
Lemma frame_settled j k k' : frame k k' -> keeps exit_status k k' -> keeps sched_detach_state k k' -> 0 <= j -> settled j k k'.
Proof. intros F K1 K2 Hj. split_and!; [by apply K1|by apply K2|by apply F]. Qed.

(** The calling thread: a valid thread that is active. *)
Definition running_thread (k : kernel) : Prop :=
  1 <= current k < CONFIG_TASK_TOTAL /\ active k (current k) = true /\ enabled k (current k) = true.

Lemma running_task_id k : running_thread k -> task_id (current k).
Proof. intros [H _]. unfold task_id. lia. Qed.

Section Effects.
Context {P : PosixThreads}.

(** Going to sleep on [p]. *)
Lemma sleep_on_effect p k : kernel_wf k -> running_thread k ->
  let k' := scheduler_root_update_on_sleep (on_sched (current k) (with_block p) k) in
  kernel_wf k' /\ current k' = current k /\ settled (current k) k k' /\
  v_active (view k' (current k)) = false /\ v_block (view k' (current k)) = p /\
  forall j, 0 <= j -> j <> current k -> untouched j k k'.
Proof.
  intros Hwf Hrun k'. pose proof (running_task_id k Hrun) as Hid. set (k1 := on_sched (current k) (with_block p) k) in *.
  assert (O1 : only (current k) k k1) by (by apply on_sched_only).
  assert (Hwf1 : kernel_wf k1) by (by apply O1).
  pose proof (update_on_sleep_asleep k1 Hwf1) as A. change (current k1) with (current k) in A. fold k' in A.
  destruct (asleep_only _ _ _ A) as [O2 V2].
  assert (K1 : forall B (f : sched_task_t -> B), quiet_field f -> keeps f k k').
  { intros B f Q j Hj. rewrite (keeps_sleep f k1 Hwf1) by done. by apply (keeps_on_sched f); [intros; apply Q|]. }
  split; [apply A|]. split; [apply A|]. split; [|split; [|split]].
  - apply frame_settled; [etrans; [apply O1|apply O2]|by apply K1|by apply K1|apply Hid].
  - by rewrite V2.
  - rewrite V2. cbn [v_block]. unfold k1. by rewrite sched_on_sched_eq by (done || apply Hwf).
  - intros j Hj Hne. apply (only_untouched (current k)); [etrans; [exact O1|exact O2]|by apply K1|by apply K1|done|done].
Qed.

Inductive join_outcome (t : Z) (k : kernel) : kernel -> join_progress -> Prop :=
| jo_none : enabled k t = false -> join_outcome t k k (JReturned (Err ESRCH) 0)
| jo_wait k' : enabled k t = true -> kernel_wf k' -> current k' = current k ->
    settled (current k) k k' -> v_active (view k' (current k)) = false -> v_block (view k' (current k)) = Psched t ->
    (forall j, 0 <= j -> j <> current k -> j <> t -> untouched j k k') ->
    settled t k k' ->
    (if ptr_eqb (block_object (sched k t)) (Pblock t)
     then v_active (view k' t) = true /\ v_block (view k' t) = NULL /\ v_unblock (view k' t) = SCHEDULER_UNBLOCK_PTHREAD_JOINED
     else view k' t = view k t) ->
    join_outcome t k k' JWaiting.

Lemma join_turn_outcome t k k' r : kernel_wf k -> running_thread k -> task_id t -> t <> current k ->
  join_turn t k = (k', r) -> join_outcome t k k' r.
Proof.
  intros Hwf Hrun Ht Hne. unfold join_turn, svcall_join_thread. pose proof (running_task_id k Hrun) as Hid.
  fold (enabled k t). destruct (enabled k t) eqn:He; [|intros [= <- <-]; by constructor].
  rewrite (proj2 (Z.ltb_ge t 0)) by (unfold task_id in Ht; lia). intros [= <- <-].
  set (k1 := on_sched (current k) (with_block (Psched t)) k).
  assert (E1 : sched k1 t = sched k t) by (apply sched_on_sched_ne; [apply Ht|auto]). rewrite E1.
  set (k2 := if ptr_eqb (block_object (sched k t)) (Pblock t)
             then scheduler_root_assert_active t SCHEDULER_UNBLOCK_PTHREAD_JOINED k1 else k1).
  assert (O1 : only (current k) k k1) by (by apply on_sched_only). assert (Hwf1 : kernel_wf k1) by (by apply O1).
  assert (X2 : only t k1 k2 /\ (if ptr_eqb (block_object (sched k t)) (Pblock t)
                 then v_active (view k2 t) = true /\ v_block (view k2 t) = NULL /\
                      v_unblock (view k2 t) = SCHEDULER_UNBLOCK_PTHREAD_JOINED
                 else view k2 t = view k1 t) /\
               keeps exit_status k1 k2 /\ keeps sched_detach_state k1 k2).
  { unfold k2. destruct (ptr_eqb _ _); [|split; [reflexivity|done]].
    destruct (assert_active_only t SCHEDULER_UNBLOCK_PTHREAD_JOINED k1 Hwf1 Ht ltac:(done)) as [O2 V2].
    split; [done|]. split; [by rewrite V2|]. split; by apply keeps_assert_active. }
  destruct X2 as (O2 & V2 & Ke2 & Kd2). assert (Hwf2 : kernel_wf k2) by (by apply O2).
  assert (Hc2 : current k2 = current k) by apply (only_frame _ _ _ O2).
  pose proof (update_on_sleep_asleep k2 Hwf2) as A. rewrite Hc2 in A.
  destruct (asleep_only _ _ _ A) as [O3 V3]. set (k3 := scheduler_root_update_on_sleep k2) in *.
  assert (K1 : keeps exit_status k k1 /\ keeps sched_detach_state k k1) by (split; by apply keeps_on_sched).
  assert (K3 : keeps exit_status k2 k3 /\ keeps sched_detach_state k2 k3) by (split; by apply keeps_sleep).
  assert (S : forall j, 0 <= j -> settled j k k3).
  { intros j Hj. etrans; [apply frame_settled; [apply O1|apply K1|apply K1|done]|].
    etrans; [by apply frame_settled; [apply O2|..]|].
    apply frame_settled; [apply O3|apply K3|apply K3|done]. }
  apply jo_wait; try done.
  - apply A.
  - apply S. apply Hid.
  - by rewrite V3.
  - rewrite V3. cbn [v_block]. pose proof (only_view _ _ _ _ O2 (proj1 Hid) (not_eq_sym Hne)) as V.
    apply (f_equal v_block) in V. cbn [v_block view] in V. rewrite V. unfold k1. by rewrite sched_on_sched_eq by (done || apply Hwf).
  - intros j Hj Hj1 Hj2. split; [|by apply S]. rewrite (only_view _ _ _ _ O3), (only_view _ _ _ _ O2), (only_view _ _ _ _ O1) by done. done.
  - apply S, Ht.
  - rewrite (only_view _ _ _ _ O3) by (apply Ht || done). rewrite <- (only_view _ _ _ _ O1 (proj1 Ht) Hne). exact V2.
Qed.

Lemma wait_joined_outcome status k : kernel_wf k -> running_thread k ->
  let '(k', joined) := svcall_wait_joined status k in
  kernel_wf k' /\ current k' = current k /\ (forall j, 0 <= j -> j <> current k -> untouched j k k') /\
  enabled k' (current k) = enabled k (current k) /\
  sched_detach_state (sched k' (current k)) = sched_detach_state (sched k (current k)) /\
  if joined =? 0 then v_active (view k' (current k)) = false /\ v_block (view k' (current k)) = Pblock (current k)
  else view k' (current k) = view k (current k) /\ exit_status (sched k' (current k)) = status.
Proof.
  intros Hwf Hrun. pose proof (running_task_id k Hrun) as Hid. unfold svcall_wait_joined.
  destruct (find_joined k =? 0) eqn:Ej; rewrite Ej.
  - destruct (sleep_on_effect (Pblock (current k)) k Hwf Hrun) as (W & C & (S1 & S2 & S3) & A & B & U). by split_and!.
  - set (k1 := on_sched (current k) (with_exit_status status) k).
    assert (O1 : only (current k) k k1) by (by apply on_sched_only).
    split; [by apply O1|]. split; [done|]. split; [|split; [done|split; [|split]]].
    + intros j Hj Hne. unfold untouched, settled, view, scheduler_unblock_type, k1. by rewrite sched_on_sched_ne by auto.
    + unfold k1. by rewrite sched_on_sched_eq by (done || apply Hwf).
    + unfold view, scheduler_unblock_type, k1. by rewrite sched_on_sched_eq by (done || apply Hwf).
    + unfold k1. by rewrite sched_on_sched_eq by (done || apply Hwf).
Qed.

Lemma elevate_outcome k : kernel_wf k -> running_thread k ->
  kernel_wf (svcall_elevate_priority k) /\ current (svcall_elevate_priority k) = current k /\
  forall j, 0 <= j -> untouched j k (svcall_elevate_priority k).
Proof.
  intros Hwf Hrun. pose proof (running_task_id k Hrun) as Hid. unfold svcall_elevate_priority.
  set (k1 := on_sched (current k) (with_param CONFIG_SCHED_HIGHEST_PRIORITY SCHED_FIFO) k).
  set (k2 := on_tasks (task_set_priority (current k) CONFIG_SCHED_HIGHEST_PRIORITY) k1).
  set (k3 := on_tasks (task_assert_fifo (current k)) k2).
  pose proof (update_on_stopped_same k3) as S. pose proof (set_priority_unchanged (current k) CONFIG_SCHED_HIGHEST_PRIORITY k1) as U2. fold k2 in U2.
  assert (Hwf1 : kernel_wf k1) by (destruct Hwf as [? ?]; split; [done|]; etrans; [apply Zlen_on_sched|done]).
  assert (Hwf3 : kernel_wf k3).
  { destruct (fr_wf _ _ (proj1 U2) Hwf1) as [[? ?] ?]. split; [split|]; [etrans; [apply Zlen_on_task|done]|done|done]. }
  split; [by eapply same_threads_wf|]. split; [by rewrite (st_current _ _ S)|]. intros j Hj.
  assert (E : forall B (f : sched_task_t -> B), (forall a b t, f (with_param a b t) = f t) -> f (sched k3 j) = f (sched k j)).
  { intros B f Hf. change (sched k3 j) with (sched k1 j). unfold k1. by rewrite (on_sched_field f). }
  assert (F : forall g, Z.land TASK_FLAGS_FIFO g = 0 -> task_flag_asserted (k_tasks k3) j g = task_flag_asserted (k_tasks k) j g).
  { intros g Hg. unfold k3. cbn [k_tasks on_tasks]. unfold task_assert_fifo. rewrite flag_set_disjoint by done.
    unfold k2. cbn [k_tasks on_tasks]. unfold task_flag_asserted, task_set_priority. by rewrite (on_task_field task_flags). }
  etrans; [|by apply unchanged_untouched]. split; [|split_and!].
  - unfold view, active, task_active_asserted, scheduler_unblock_type. rewrite F by done.
    by rewrite (E _ block_object), (E _ sched_flags), (E _ wake).
  - by apply (E _ exit_status).
  - by apply (E _ sched_detach_state).
  - by apply F.
Qed.

(** The loop of [svcall_cleanup] has seen the threads below [n]. *)
Record released (c n : Z) (k k' : kernel) : Prop := {
  re_frame : frame k k';
  re_detach : keeps sched_detach_state k k';
  re_woken : forall j, 1 <= j < n -> block_object (sched k j) = Psched c ->
    v_active (view k' j) = true /\ v_block (view k' j) = NULL /\
    v_unblock (view k' j) = SCHEDULER_UNBLOCK_PTHREAD_JOINED_THREAD_COMPLETE /\
    exit_status (sched k' j) = exit_status (sched k c);
  re_other : forall j, 0 <= j -> ~ (1 <= j < n /\ block_object (sched k j) = Psched c) -> untouched j k k';
}.
Lemma cleanup_turn_released c n k k1 : kernel_wf k -> block_object (sched k c) <> Psched c -> 0 <= c -> 1 <= n < CONFIG_TASK_TOTAL ->
  released c n k k1 -> released c (n + 1) k (cleanup_turn c n k1).
Proof.
  intros Hwf Hself Hc Hn [F D W O]. assert (Hwf1 : kernel_wf k1) by (by apply F). assert (Hid : task_id n) by (unfold task_id; lia).
  destruct (O n ltac:(lia) ltac:(lia)) as [Vn _]. destruct (O c ltac:(lia) ltac:(intros [_ ?]; congruence)) as [_ (Ec & _)].
  assert (Hb : block_object (sched k1 n) = block_object (sched k n)) by exact (f_equal v_block Vn).
  unfold cleanup_turn. rewrite Hb. unfold ptr_eqb. destruct (bool_decide_reflect (block_object (sched k n) = Psched c)) as [Eb|Eb].
  - set (k2 := on_sched n (with_exit_status (exit_status (sched k1 c))) k1).
    assert (O2 : only n k1 k2) by (by apply on_sched_only). assert (Hwf2 : kernel_wf k2) by (by apply O2).
    destruct (assert_active_only n SCHEDULER_UNBLOCK_PTHREAD_JOINED_THREAD_COMPLETE k2 Hwf2 Hid ltac:(done)) as [O3 V3].
    set (k3 := scheduler_root_assert_active n _ k2) in *.
    assert (N : forall j, 0 <= j -> j <> n -> untouched j k1 k3).
    { intros j Hj Hne. assert (E : sched k2 j = sched k1 j) by (apply sched_on_sched_ne; auto).
      split; [rewrite (only_view _ _ _ _ O3), (only_view _ _ _ _ O2) by done; done|]. split_and!.
      - unfold k3. rewrite (keeps_assert_active exit_status exit_status_quiet) by done. by rewrite E.
      - unfold k3. rewrite (keeps_assert_active sched_detach_state detach_quiet) by done. by rewrite E.
      - rewrite (fr_enabled _ _ (only_frame _ _ _ O3)), (fr_enabled _ _ (only_frame _ _ _ O2)) by done. done. }
    split.
    + etrans; [exact F|]. etrans; [apply O2|apply O3].
    + intros j Hj. unfold k3. rewrite (keeps_assert_active sched_detach_state detach_quiet) by done. unfold k2.
      rewrite (on_sched_field sched_detach_state) by done. by apply D.
    + intros j Hj Hbj. destruct (decide (j = n)) as [->|Hne].
      * rewrite V3. split_and!; try done. unfold k3. rewrite (keeps_assert_active exit_status exit_status_quiet) by lia.
        unfold k2. rewrite sched_on_sched_eq by (done || apply Hwf1). exact Ec.
      * destruct (W j ltac:(lia) Hbj) as (W1 & W2 & W3 & W4). destruct (N j ltac:(lia) Hne) as [V (E & _)].
        rewrite V, E. done.
    + intros j Hj Hno. assert (Hne : j <> n) by (intros ->; apply Hno; split; [lia|done]).
      etrans; [apply O; [done|intros [? ?]; apply Hno; split; [lia|done]]|by apply N].
  - split; [done|done| |].
    + intros j Hj Hbj. apply W; [|done]. destruct (decide (j = n)) as [->|]; [done|lia].
    + intros j Hj Hno. apply O; [done|]. intros [? ?]. apply Hno. split; [lia|done].
Qed.
Lemma cleanup_loop_released k : kernel_wf k -> running_thread k -> block_object (sched k (current k)) <> Psched (current k) ->
  released (current k) CONFIG_TASK_TOTAL k (for_range 1 task_get_total (cleanup_turn (current k)) k).
Proof.
  intros Hwf Hrun Hself. apply (for_range_ind (fun n k1 => released (current k) n k k1)); [done| |].
  - split; [reflexivity|done|lia|done].
  - intros n k1 Hn H. apply cleanup_turn_released; try done. destruct Hrun. lia.
Qed.

(** After [svcall_cleanup] the thread does not exist any more, and every thread
    that waited for it is awake with its status. *)
Definition thread_ended (k k' : kernel) : Prop :=
  let c := current k in
  kernel_wf k' /\ current k' = c /\ enabled k' c = false /\ keeps sched_detach_state k k' /\
  (forall j, 0 <= j -> j <> c -> enabled k' j = enabled k j) /\
  (forall j, 1 <= j < CONFIG_TASK_TOTAL -> j <> c -> block_object (sched k j) = Psched c ->
    v_active (view k' j) = true /\ v_block (view k' j) = NULL /\
    v_unblock (view k' j) = SCHEDULER_UNBLOCK_PTHREAD_JOINED_THREAD_COMPLETE /\
    exit_status (sched k' j) = exit_status (sched k c)) /\
  (forall j, 0 <= j -> j <> c -> (1 <= j < CONFIG_TASK_TOTAL -> block_object (sched k j) <> Psched c) -> untouched j k k').
Lemma cleanup_end k k1 k' : kernel_wf k -> running_thread k -> released (current k) CONFIG_TASK_TOTAL k k1 ->
  k' = scheduler_root_update_on_sleep (on_tasks (task_root_delete (current k)) (on_sched (current k) (with_sched_flags 0) k1)) ->
  thread_ended k k'.
Proof.
  intros Hwf Hrun [F D W O]. pose proof (running_task_id k Hrun) as Hid. set (c := current k) in *.
  assert (Hwf1 : kernel_wf k1) by (by apply F). set (k2 := on_sched c (with_sched_flags 0) k1).
  set (k3 := on_tasks (task_root_delete c) k2). intros Hk'.
  assert (E3 : k_tasks k3 = task_deassert_exec c (task_deassert_used c (k_tasks k1))).
  { unfold k3. cbn [k_tasks on_tasks]. unfold task_root_delete. unfold c, running_thread in *. 
    rewrite (proj2 (Z.ltb_lt (current k) task_get_total)), (proj2 (Z.leb_le 1 (current k))) by (unfold task_get_total; lia). done. }
  assert (Hl : Zlen (sos_task_table (task_deassert_used c (k_tasks k1))) = CONFIG_TASK_TOTAL)
    by (etrans; [apply Zlen_on_task|apply Hwf1]).
  assert (Hwf3 : kernel_wf k3).
  { split; [split|]; [rewrite E3; etrans; [apply Zlen_on_task|done]|rewrite E3; apply Hwf1|].
    etrans; [apply Zlen_on_sched|apply Hwf1]. }
  assert (C3 : current k3 = c) by (unfold current; rewrite E3; apply F).
  pose proof (update_on_sleep_asleep k3 Hwf3) as A. rewrite C3, <- Hk' in A. clear Hk'.
  assert (S3 : forall j, 0 <= j -> j <> c -> sched k' j = sched k1 j).
  { intros j Hj Hne. unfold sched at 1. rewrite (as_sched _ _ _ A). apply (sched_on_sched_ne c j); auto. }
  assert (T3 : forall j g, 0 <= j -> j <> c -> task_flag_asserted (k_tasks k') j g = task_flag_asserted (k_tasks k1) j g).
  { intros j g Hj Hne. rewrite (as_flag_ne _ _ _ A) by done. rewrite E3. unfold task_deassert_exec, task_deassert_used.
    by rewrite !flag_clear_ne by auto. }
  assert (V3 : forall j, 0 <= j -> j <> c -> view k' j = view k1 j).
  { intros j Hj Hne. unfold view, active, task_active_asserted, scheduler_unblock_type. by rewrite S3, T3 by done. }
  unfold thread_ended. fold c. split; [apply A|]. split; [by rewrite (as_current _ _ _ A)|]. split; [|split; [|split; [|split]]].
  - unfold enabled, task_enabled. rewrite (as_flag _ _ _ A) by (done || apply Hid). rewrite E3. unfold task_deassert_exec.
    rewrite flag_clear_disjoint by (done || apply Hid). apply flag_clear_same; [done|apply Hwf1|done].
  - intros j Hj. unfold sched at 1. rewrite (as_sched _ _ _ A). change (sched_detach_state (sched k2 j) = sched_detach_state (sched k j)).
    unfold k2. rewrite (on_sched_field sched_detach_state) by done. by apply D.
  - intros j Hj Hne. unfold enabled, task_enabled. rewrite T3 by done. by apply F.
  - intros j Hj Hne Hb. rewrite V3, S3 by lia. by apply W.
  - intros j Hj Hne Hb. destruct (O j Hj ltac:(tauto)) as [V (X1 & X2 & X3)]. split; [by rewrite V3|].
    split_and!; [by rewrite S3|by rewrite S3|]. unfold enabled, task_enabled in *. by rewrite T3.
Qed.
Lemma cleanup_outcome k : kernel_wf k -> running_thread k -> block_object (sched k (current k)) <> Psched (current k) ->
  thread_ended k (svcall_cleanup k).
Proof.
  intros Hwf Hrun Hself. pose proof (cleanup_loop_released k Hwf Hrun Hself) as R. unfold svcall_cleanup. cbv zeta.
  revert R. generalize (for_range 1 task_get_total (cleanup_turn (current k)) k). intros k1 R. by eapply cleanup_end.
Qed.
End Effects.

(** ** Threads that join each other and end *)

(** What a thread is in the middle of. *)
Inductive activity :=
| Idle
| Joining (t : Z)             (** in the loop of [pthread_join] *)
| Exiting (status : Z)        (** in the loop of [scheduler_thread_cleanup] *)
| Cleaning (status : Z)       (** past that loop *)
| Elevated (status : Z)       (** after [svcall_elevate_priority] *)
| Gone.

(** [js_ended] records the threads that have ended, with the status each passed to
    [pthread_exit]. *)
Record join_system := mk_js { js_k : kernel; js_pc : Z -> activity; js_ended : list (Z * Z) }.
Definition set_activity (i : Z) (a : activity) (pc : Z -> activity) : Z -> activity :=
  fun j => if j =? i then a else pc j.
Lemma set_activity_eq i a pc : set_activity i a pc i = a.
Proof. unfold set_activity. by rewrite Z.eqb_refl. Qed.
Lemma set_activity_ne i j a pc : j <> i -> set_activity i a pc j = pc j.
Proof. intros. unfold set_activity. by rewrite (proj2 (Z.eqb_neq j i)). Qed.

Section JoinSystem.
Context {P : PosixThreads}.

Definition after_join (t : Z) (r : join_progress) : activity := match r with JWaiting => Joining t | JReturned _ _ => Idle end.
Definition after_exit (status : Z) (r : exit_progress) : activity :=
  match r with EWaiting => Exiting status | EJoined => Cleaning status end.

(** The steps: the running thread calls [pthread_join] or [pthread_exit], runs the
    next turn of its loop or the next svcall on its way out; signals, the timer
    interrupt and context switches come at any time. *)
Inductive join_step : join_system -> join_system -> Prop :=
| js_join t k pc l k' r : running_thread k -> pc (current k) = Idle -> pthread_join t k = (k', r) ->
    join_step (mk_js k pc l) (mk_js k' (set_activity (current k) (after_join t r) pc) l)
| js_join_turn t k pc l k' r : running_thread k -> pc (current k) = Joining t -> pthread_join_resume t k = (k', r) ->
    join_step (mk_js k pc l) (mk_js k' (set_activity (current k) (after_join t r) pc) l)
| js_exit status k pc l k' r : running_thread k -> pc (current k) = Idle -> pthread_exit status k = (k', r) ->
    join_step (mk_js k pc l) (mk_js k' (set_activity (current k) (after_exit status r) pc) l)
| js_exit_turn status k pc l k' r : running_thread k -> pc (current k) = Exiting status -> exit_turn status k = (k', r) ->
    join_step (mk_js k pc l) (mk_js k' (set_activity (current k) (after_exit status r) pc) l)
| js_elevate status k pc l : running_thread k -> pc (current k) = Cleaning status ->
    join_step (mk_js k pc l) (mk_js (svcall_elevate_priority k) (set_activity (current k) (Elevated status) pc) l)
| js_cleanup status k pc l : running_thread k -> pc (current k) = Elevated status ->
    join_step (mk_js k pc l)
      (mk_js (svcall_cleanup k) (set_activity (current k) Gone pc) ((current k, status) :: l))
| js_signal i k pc l : 1 <= i < CONFIG_TASK_TOTAL ->
    join_step (mk_js k pc l) (mk_js (signal_root_activate i k) pc l)
| js_time now counter k pc l :
    join_step (mk_js k pc l) (mk_js (root_handle_usecond_match_event (with_counter counter (with_now now k))) pc l)
| js_switch i k pc l : 1 <= i < CONFIG_TASK_TOTAL -> join_step (mk_js k pc l) (mk_js (switch_to i k) pc l).

(** What holds of a thread. *)
Definition thread_ok (k : kernel) (l : list (Z * Z)) (j : Z) (a : activity) : Prop :=
  match a with
  | Joining t =>
      (task_id t /\ t <> j /\ sched_detach_state (sched k t) = PTHREAD_CREATE_JOINABLE) /\
      if active k j
      then block_object (sched k j) = NULL /\
           (scheduler_unblock_type k j = SCHEDULER_UNBLOCK_PTHREAD_JOINED_THREAD_COMPLETE ->
            (t, exit_status (sched k j)) ∈ l)
      else block_object (sched k j) = Psched t
  | Cleaning s | Elevated s =>
      (forall t, block_object (sched k j) <> Psched t) /\
      (sched_detach_state (sched k j) = PTHREAD_CREATE_JOINABLE -> exit_status (sched k j) = s)
  | Gone => True
  | _ => forall t, block_object (sched k j) <> Psched t
  end.
Record join_inv (s : join_system) : Prop := {
  ji_wf : kernel_wf (js_k s);
  ji_threads : forall j, 1 <= j < CONFIG_TASK_TOTAL -> thread_ok (js_k s) (js_ended s) j (js_pc s j);
  ji_ended : forall t v, (t, v) ∈ js_ended s -> 1 <= t < CONFIG_TASK_TOTAL /\ enabled (js_k s) t = false;
}.

Lemma thread_ok_untouched k k' l l' j a : 0 <= j -> untouched j k k' -> keeps sched_detach_state k k' ->
  (forall x, x ∈ l -> x ∈ l') -> thread_ok k l j a -> thread_ok k' l' j a.
Proof.
  intros Hj [V (E1 & E2 & E3)] D Hl. assert (Va : active k' j = active k j) by exact (f_equal v_active V).
  assert (Vb : block_object (sched k' j) = block_object (sched k j)) by exact (f_equal v_block V).
  assert (Vu : scheduler_unblock_type k' j = scheduler_unblock_type k j) by exact (f_equal v_unblock V).
  unfold thread_ok. destruct a; rewrite ?Va, ?Vb, ?Vu, ?E1, ?E2; try done.
  intros ((H1 & H2 & H3) & H4). split; [split; [done|split; [done|]]|].
  - rewrite D by apply H1. done.
  - destruct (active k j); [|done]. destruct H4 as [H4 H5]. split; [done|]. auto.
Qed.
(** A thread that is woken by anything but the end of the one it joins. *)
Lemma thread_ok_woken k k' l j a : 0 <= j -> settled j k k' -> keeps sched_detach_state k k' ->
  v_active (view k' j) = true -> v_block (view k' j) = NULL ->
  v_unblock (view k' j) <> SCHEDULER_UNBLOCK_PTHREAD_JOINED_THREAD_COMPLETE -> thread_ok k l j a -> thread_ok k' l j a.
Proof.
  intros Hj (E1 & E2 & E3) D Va Vb Vu. cbn in Va, Vb, Vu. unfold thread_ok. destruct a; rewrite ?Va, ?Vb; try done.
  - intros ((H1 & H2 & H3) & _). split; [|done]. split; [done|split; [done|]]. rewrite D by apply H1. done.
  - intros [_ H]. rewrite E1, E2. done.
  - intros [_ H]. rewrite E1, E2. done.
Qed.

Lemma join_inv_turn t k pc l k' r : join_inv (mk_js k pc l) -> running_thread k ->
  task_id t -> t <> current k -> sched_detach_state (sched k t) = PTHREAD_CREATE_JOINABLE ->
  (forall u, block_object (sched k (current k)) <> Psched u) -> join_turn t k = (k', r) ->
  join_inv (mk_js k' (set_activity (current k) (after_join t r) pc) l).
Proof.
  intros [Hwf Hth Hen] Hrun Ht Hne Hj Hb E. cbn [js_k js_pc js_ended] in *.
  apply join_turn_outcome in E; [|done..]. destruct E as [He|k' He Hwf' Hc Hs Ha Hbl Ho Hst Hv].
  - split; cbn [js_k js_pc js_ended]; [done| |done]. intros j Hjr. destruct (decide (j = current k)) as [->|Hjc].
    + rewrite set_activity_eq. exact Hb.
    + rewrite set_activity_ne by done. by apply Hth.
  - assert (D : keeps sched_detach_state k k').
    { intros j Hj0. destruct (decide (j = current k)) as [->|]; [apply Hs|]. destruct (decide (j = t)) as [->|]; [apply Hst|]. by apply Ho. }
    split; cbn [js_k js_pc js_ended]; [done| |].
    + intros j Hjr. destruct (decide (j = current k)) as [->|Hjc]; [rewrite set_activity_eq|rewrite set_activity_ne by done].
      * cbn in Ha, Hbl. unfold thread_ok, after_join. rewrite Ha. split; [|done]. split; [done|split; [done|]]. rewrite D by apply Ht. done.
      * specialize (Hth j Hjr). destruct (decide (j = t)) as [->|Hjt].
        -- destruct (ptr_eqb _ _); [|by apply (thread_ok_untouched k _ l); [lia| | | |]].
           destruct Hv as (V1 & V2 & V3). apply (thread_ok_woken k); try done; [lia|by rewrite V3].
        -- apply (thread_ok_untouched k _ l); try done; [lia|]. apply Ho; [lia|done|done].
    + intros u v Hu. destruct (Hen u v Hu) as [? Hu2]. split; [done|]. rewrite <- Hu2.
      destruct (decide (u = current k)) as [->|]; [apply Hs|]. destruct (decide (u = t)) as [->|]; [apply Hst|]. apply Ho; lia.
Qed.

Lemma join_inv_exit_turn status k pc l k' r : join_inv (mk_js k pc l) -> running_thread k ->
  (forall u, block_object (sched k (current k)) <> Psched u) -> exit_turn status k = (k', r) ->
  join_inv (mk_js k' (set_activity (current k) (after_exit status r) pc) l).
Proof.
  intros [Hwf Hth Hen] Hrun Hb. cbn [js_k js_pc js_ended] in *. unfold exit_turn.
  pose proof (wait_joined_outcome status k Hwf Hrun) as H. destruct (svcall_wait_joined status k) as [k1 joined].
  destruct H as (Hwf' & Hc & Ho & He & Hd & Hx). intros [= <- <-].
  assert (D : keeps sched_detach_state k k1).
  { intros j Hj0. destruct (decide (j = current k)) as [->|]; [done|]. by apply Ho. }
  split; cbn [js_k js_pc js_ended]; [done| |].
  - intros j Hjr. destruct (decide (j = current k)) as [->|Hjc].
    + rewrite set_activity_eq. destruct (joined =? 0); cbn [after_exit thread_ok].
      * destruct Hx as [_ Hx]. cbn in Hx. rewrite Hx. done.
      * destruct Hx as [Hv Hx]. split; [|by intros _]. apply (f_equal v_block) in Hv. cbn in Hv. by rewrite Hv.
    + rewrite set_activity_ne by done. apply (thread_ok_untouched k _ l); try done; [lia| |by apply Hth]. apply Ho; [lia|done].
  - intros u v Hu. destruct (Hen u v Hu) as [? Hu2]. split; [done|]. rewrite <- Hu2.
    destruct (decide (u = current k)) as [->|]; [done|]. apply Ho; lia.
Qed.

Lemma join_inv_cleanup status k pc l : join_inv (mk_js k pc l) -> running_thread k -> pc (current k) = Elevated status ->
  join_inv (mk_js (svcall_cleanup k) (set_activity (current k) Gone pc) ((current k, status) :: l)).
Proof.
  intros [Hwf Hth Hen] Hrun Hpc. cbn [js_k js_pc js_ended] in *. pose proof Hrun as (Hcur & _).
  pose proof (Hth (current k) Hcur) as Hme. rewrite Hpc in Hme. destruct Hme as [Hb Hst].
  pose proof (cleanup_outcome k Hwf Hrun (Hb _)) as E. revert E. generalize (svcall_cleanup k). intros k' E.
  destruct E as (Hwf' & Hc & He & D & Heq & Hwoken & Hother).
  split; cbn [js_k js_pc js_ended]; [done| |].
  - intros j Hjr. destruct (decide (j = current k)) as [->|Hjc]; [by rewrite set_activity_eq|rewrite set_activity_ne by done].
    specialize (Hth j Hjr). destruct (decide (block_object (sched k j) = Psched (current k))) as [Eb|Eb].
    + destruct (Hwoken j Hjr Hjc Eb) as (V1 & V2 & V3 & V4). cbn in V1, V2, V3.
      unfold thread_ok in *. destruct (pc j) as [|t|s|s|s|]; try (by specialize (Hth (current k))); [|by destruct Hth as [Hth _]; specialize (Hth (current k))..|done].
      destruct Hth as ((H1 & H2 & H3) & H4). destruct (active k j); [destruct H4; congruence|]. assert (t = current k) as -> by congruence.
      split; [split; [done|split; [done|]]; rewrite D by apply H1; done|]. rewrite V1. split; [done|]. intros _.
      rewrite V4, Hst by done. apply list_elem_of_here.
    + apply (thread_ok_untouched k _ l); try done; [lia| |intros x Hx; by apply list_elem_of_further]. apply Hother; [lia|done|done].
  - intros u v Hu. apply elem_of_cons in Hu as [[= -> ->]|Hu]; [done|]. destruct (Hen u v Hu) as [? Hu2]. split; [done|].
    destruct (decide (u = current k)) as [->|]; [done|]. rewrite Heq by lia. done.
Qed.

(** Steps that only wake threads. *)
Lemma join_inv_wakes k pc l k' : join_inv (mk_js k pc l) -> frame k k' -> keeps exit_status k k' -> keeps sched_detach_state k k' ->
  (forall j, 1 <= j < CONFIG_TASK_TOTAL -> view k' j = view k j \/
    v_active (view k' j) = true /\ v_block (view k' j) = NULL /\
    v_unblock (view k' j) <> SCHEDULER_UNBLOCK_PTHREAD_JOINED_THREAD_COMPLETE) ->
  join_inv (mk_js k' pc l).
Proof.
  intros [Hwf Hth Hen] F K1 K2 V. cbn [js_k js_pc js_ended] in *. split; cbn [js_k js_pc js_ended]; [by apply F| |].
  - intros j Hj. specialize (Hth j Hj). assert (S : settled j k k') by (apply frame_settled; try done; lia).
    destruct (V j Hj) as [E|(V1 & V2 & V3)]; [by apply (thread_ok_untouched k _ l); [lia| | | |]|].
    apply (thread_ok_woken k); try done. lia.
  - intros u v Hu. destruct (Hen u v Hu) as [? Hu2]. split; [done|]. rewrite (fr_enabled _ _ F) by lia. done.
Qed.
Lemma join_inv_same k pc l a : join_inv (mk_js k pc l) -> 1 <= current k < CONFIG_TASK_TOTAL -> thread_ok k l (current k) a ->
  join_inv (mk_js k (set_activity (current k) a pc) l).
Proof.
  intros [Hwf Hth Hen] Hc Ha. cbn [js_k js_pc js_ended] in *. split; cbn [js_k js_pc js_ended]; [done| |done]. intros j Hj.
  destruct (decide (j = current k)) as [->|Hne]; [by rewrite set_activity_eq|rewrite set_activity_ne by done; by apply Hth].
Qed.

Lemma join_inv_step s s' : join_inv s -> join_step s s' -> join_inv s'.
Proof.
  intros Hinv Hstep. pose proof Hinv as [Hwf Hth Hen]. destruct Hstep; cbn [js_k js_pc js_ended] in *;
    try (match goal with H : running_thread _ |- _ => pose proof H as (Hcur & Hact & Henb); pose proof (Hth _ Hcur) as Hme end);
    try (match goal with H : ?x = ?a, Hm : thread_ok _ _ _ ?x |- _ => rewrite H in Hm; cbn [thread_ok] in Hm end).
  - unfold pthread_join in *. destruct ((t <? task_get_total) && (0 <=? t)) eqn:Er; [|simplify_eq; by apply join_inv_same].
    apply andb_true_iff in Er as [Er1%Z.ltb_lt Er2%Z.leb_le].
    destruct (task_enabled (k_tasks k) t); [|simplify_eq; by apply join_inv_same].
    destruct (Z.eqb_spec (sched_detach_state (sched k t)) PTHREAD_CREATE_JOINABLE); cbn [negb] in *; [|simplify_eq; by apply join_inv_same].
    destruct (ptr_eqb _ _); cbn [orb] in *; [simplify_eq; by apply join_inv_same|].
    destruct (Z.eqb_spec t (current k)); [simplify_eq; by apply join_inv_same|].
    eapply join_inv_turn; try done.
  - destruct Hme as ((H1' & H2' & H3') & Hx). rewrite Hact in Hx. destruct Hx as [Hb _].
    assert (Hb' : forall u, block_object (sched k (current k)) <> Psched u) by (rewrite Hb; done).
    unfold pthread_join_resume in *. destruct (negb _); [by eapply join_inv_turn|]. simplify_eq. by apply join_inv_same.
  - unfold pthread_exit, scheduler_thread_cleanup in *.
    destruct (Z.eqb_spec (sched_detach_state (sched k (current k))) PTHREAD_CREATE_JOINABLE); [by eapply join_inv_exit_turn|].
    simplify_eq. apply join_inv_same; [done|done|]. by split.
  - by eapply join_inv_exit_turn.
  - destruct (elevate_outcome k Hwf) as (Hwf' & Hc & U); [done|]. revert Hwf' Hc U. generalize (svcall_elevate_priority k). intros k' Hwf' Hc U.
    assert (D : keeps sched_detach_state k k') by (intros j Hj; by apply U).
    split; cbn [js_k js_pc js_ended]; [done| |intros u v Hu; destruct (Hen u v Hu) as [? <-]; split; [done|apply U; lia]].
    intros j Hj. apply (thread_ok_untouched k _ l); [lia|by apply U; lia|done|done|].
    destruct (decide (j = current k)) as [->|Hne]; [rewrite set_activity_eq; exact Hme|rewrite set_activity_ne by done; by apply Hth].
  - by apply join_inv_cleanup.
  - assert (Hid : task_id i) by (unfold task_id; lia). destruct (signal_root_activate_only i k Hwf Hid) as [O V].
    apply (join_inv_wakes k); [done|apply O|by apply keeps_signal|by apply keeps_signal|].
    intros j Hj. destruct (decide (j = i)) as [->|Hne]; [right; by rewrite V|left]. apply (only_view _ _ _ _ O); [lia|done].
  - set (k1 := with_counter counter (with_now now k)). assert (Hwf1 : kernel_wf k1) by exact Hwf.
    destruct (match_event_views k1 Hwf1) as [F V].
    apply (join_inv_wakes k1); [by split|done|by apply keeps_match|by apply keeps_match|].
    intros j Hj. specialize (V j Hj). destruct (asleep_in k1 j && due k1 j); [right|by left].
    destruct V as (V1 & V2 & V3). rewrite V3. done.
  - split; cbn [js_k js_pc js_ended]; [|done|done]. destruct Hwf as [[? ?] ?]. split; [split|]; [done|unfold task_id; simpl; lia|done].
Qed.
End JoinSystem.

(** C33: Joining: in every state reachable by the threads joining each other, ending, being
    interrupted by signals and switched, when [pthread_join] on thread [t] returns 0,
    thread [t] has ended and the value it stores is the status [t] passed to
    [pthread_exit]. *)
Theorem join_returns_exit_status (P : PosixThreads) s s' t k' v :
  join_inv s -> star join_step s s' -> running_thread (js_k s') ->
  js_pc s' (current (js_k s')) = Joining t -> pthread_join_resume t (js_k s') = (k', JReturned (Ret 0) v) ->
  (t, v) ∈ js_ended s' /\ enabled (js_k s') t = false.
Proof.
  intros Hinv Hs Hrun Hpc Hres. pose proof (star_invariant _ join_inv join_inv_step _ _ Hs Hinv) as [Hwf Hth Hen].
  pose proof Hrun as (Hcur & Hact & _). specialize (Hth _ Hcur). rewrite Hpc in Hth. cbn [thread_ok] in Hth. rewrite Hact in Hth.
  destruct Hth as (_ & _ & Hdone). unfold pthread_join_resume in Hres.
  destruct (Z.eqb_spec (scheduler_unblock_type (js_k s') (current (js_k s'))) SCHEDULER_UNBLOCK_PTHREAD_JOINED_THREAD_COMPLETE) as [E|];
    cbn [negb] in Hres.
  - injection Hres as <- <-. specialize (Hdone E). split; [done|]. by destruct (Hen _ _ Hdone).
  - unfold join_turn in Hres. destruct (svcall_join_thread t (js_k s')) as [k1 t1]. destruct (t1 <? 0); discriminate.
Qed.

(** ** The hand-shake *)

Lemma find_joined_some k j : 1 <= j < CONFIG_TASK_TOTAL -> block_object (sched k j) = Psched (current k) -> find_joined k <> 0.
Proof.
  intros Hj Hb. unfold find_joined. set (p := fun i => _).
  destruct (task_find_spec p (Z.to_nat (task_get_total - 1)) 1) as (Hr & Hlow & _).
  set (i := task_find p (Z.to_nat (task_get_total - 1)) 1) in *. destruct (Z.eqb_spec i task_get_total) as [Ei|]; [|lia].
  specialize (Hlow j ltac:(unfold task_get_total in *; lia)). unfold p, ptr_eqb in Hlow. by rewrite bool_decide_eq_false in Hlow.
Qed.
Lemma switch_running i k : 1 <= i < CONFIG_TASK_TOTAL -> active k i = true -> enabled k i = true -> running_thread (switch_to i k).
Proof. by intros. Qed.
Lemma switch_wf i k : 1 <= i < CONFIG_TASK_TOTAL -> kernel_wf k -> kernel_wf (switch_to i k).
Proof. intros Hi [[? ?] ?]. split; [split|]; [done|unfold task_id; simpl; lia|done]. Qed.

(** C34: When a joinable thread that has ended and waits to be joined is joined, everything
    follows: [pthread_join] makes it active again and puts the joiner to sleep, blocked on
    the thread; the thread's next turn finds the joiner; its clean-up removes it and makes the
    joiner active; and the joiner's call returns 0 with the status.  The steps follow each
    other as listed, without a signal to the joiner in between ([join_signal_loses_status]). *)
Theorem join_completes (P : PosixThreads) t status k :
  kernel_wf k -> running_thread k -> 1 <= t < CONFIG_TASK_TOTAL -> t <> current k -> enabled k t = true ->
  sched_detach_state (sched k t) = PTHREAD_CREATE_JOINABLE -> block_object (sched k t) = Pblock t ->
  exists k1 k2, pthread_join t k = (k1, JWaiting) /\
    active k1 t = true /\ active k1 (current k) = false /\ block_object (sched k1 (current k)) = Psched t /\
    exit_turn status (switch_to t k1) = (k2, EJoined) /\
    let k3 := svcall_cleanup (svcall_elevate_priority k2) in
    enabled k3 t = false /\ active k3 (current k) = true /\
    pthread_join_resume t (switch_to (current k) k3) = (switch_to (current k) k3, JReturned (Ret 0) status).
Proof.
  intros Hwf Hrun Ht Hne He Hj Hb. assert (Hid : task_id t) by (unfold task_id; lia). pose proof Hrun as (Hcur & _).
  destruct (join_turn t k) as [k1 r] eqn:E1. pose proof (join_turn_outcome t k k1 r Hwf Hrun Hid Hne E1) as O1.
  destruct O1 as [?|k1 _ Hwf1 Hc1 Hs1 Ha1 Hbl1 _ Hst1 Hv1]; [congruence|].
  unfold ptr_eqb in Hv1. rewrite bool_decide_eq_true_2 in Hv1 by done. destruct Hv1 as (Va & Vb & _). cbn in Va, Vb, Hbl1.
  set (k1s := switch_to t k1). assert (Hrun1 : running_thread k1s).
  { apply switch_running; [done|done|]. destruct Hst1 as (_ & _ & ->). done. }
  pose proof (wait_joined_outcome status k1s (switch_wf t k1 Ht Hwf1) Hrun1) as O2.
  destruct (svcall_wait_joined status k1s) as [k2 joined] eqn:E2.
  change (current k1s) with t in O2. destruct O2 as (Hwf2 & Hc2 & Ho2 & He2 & _ & Hx2).
  assert (Hjoined : joined <> 0).
  { intros ->. unfold svcall_wait_joined in E2. pose proof (find_joined_some k1s (current k) Hcur Hbl1).
    destruct (Z.eqb_spec (find_joined k1s) 0); [done|]. injection E2 as _ E2. congruence. }
  rewrite (proj2 (Z.eqb_neq joined 0) Hjoined) in Hx2. destruct Hx2 as [Hv2 Hx2].
  assert (Hrun2 : running_thread k2).
  { unfold running_thread. rewrite Hc2. split; [lia|]. split; [exact (eq_trans (f_equal v_active Hv2) Va)|]. rewrite He2. exact (proj2 (proj2 Hrun1)). }
  destruct (elevate_outcome k2 Hwf2 Hrun2) as (Hwf3 & Hc3 & Ho3).
  exists k1, k2. split; [|split; [exact Va|split; [exact Ha1|split; [exact Hbl1|split; [unfold exit_turn; fold k1s; by rewrite E2, (proj2 (Z.eqb_neq joined 0) Hjoined)|]]]]].
  { unfold pthread_join. rewrite (proj2 (Z.ltb_lt t task_get_total)), (proj2 (Z.leb_le 0 t)) by (unfold task_get_total; lia).
    fold (enabled k t). rewrite He, Hj, Z.eqb_refl, Hb. unfold ptr_eqb. rewrite bool_decide_eq_false_2 by done.
    rewrite (proj2 (Z.eqb_neq t (current k)) Hne). exact E1. }
  revert Hwf3 Hc3 Ho3. generalize (svcall_elevate_priority k2). intros ke Hwf3 Hc3 Ho3. rewrite Hc2 in Hc3.
  destruct (Ho3 t ltac:(lia)) as [Vt (Xt & _ & Et)]. destruct (Ho3 (current k) ltac:(lia)) as [Vc _].
  assert (Bc : block_object (sched ke (current k)) = Psched t).
  { etrans; [exact (f_equal v_block Vc)|]. destruct (Ho2 (current k) ltac:(lia) (not_eq_sym Hne)) as [Vc2 _]. exact (eq_trans (f_equal v_block Vc2) Hbl1). }
  assert (Bt : block_object (sched ke t) = NULL) by exact (eq_trans (f_equal v_block Vt) (eq_trans (f_equal v_block Hv2) Vb)).
  assert (Hrun3 : running_thread ke).
  { split; [lia|]. rewrite Hc3. destruct Hrun2 as (_ & Hact2 & Hen2). rewrite Hc2 in Hact2, Hen2.
    split; [exact (eq_trans (f_equal v_active Vt) Hact2)|by rewrite Et]. }
  pose proof (cleanup_outcome ke Hwf3 Hrun3 ltac:(rewrite Hc3, Bt; done)) as O4. rewrite <- Hc3 in Bc.
  revert O4. generalize (svcall_cleanup ke). intros k4 (Hwf4 & Hc4 & He4 & _ & _ & Hw4 & _). rewrite Hc3 in *.
  destruct (Hw4 (current k) Hcur (not_eq_sym Hne) Bc) as (A4 & _ & U4 & X4).
  split; [done|]. split; [exact A4|]. unfold pthread_join_resume. change (current (switch_to (current k) k4)) with (current k).
  change (scheduler_unblock_type (switch_to (current k) k4) (current k)) with (v_unblock (view k4 (current k))). rewrite U4, Z.eqb_refl. cbn [negb].
  change (sched (switch_to (current k) k4) (current k)) with (sched k4 (current k)). by rewrite X4, Xt, Hx2.
Qed.

(** ** What a new thread is *)

(** [k'] is [k] with entry [id] of the two tables replaced by [T] and [S]. *)
Record entry_is (id : Z) (k k' : kernel) (T : task_t) (S : sched_task_t) : Prop := {
  en_wf : kernel_wf k';
  en_current : current k' = current k;
  en_task : task (k_tasks k') id = T;
  en_sched : sched k' id = S;
  en_task_ne : forall j, 0 <= j -> j <> id -> task (k_tasks k') j = task (k_tasks k) j;
  en_sched_ne : forall j, 0 <= j -> j <> id -> sched k' j = sched k j;
}.
Lemma entry_refl id k : kernel_wf k -> entry_is id k k (task (k_tasks k) id) (sched k id).
Proof. by split. Qed.
Lemma entry_sched id f k k' T S : task_id id -> entry_is id k k' T S -> entry_is id k (on_sched id f k') T (f S).
Proof.
  intros Hid [Hwf Hc Ht Hs Ht' Hs']. split; try done.
  - destruct Hwf as [? ?]. split; [done|]. etrans; [apply Zlen_on_sched|done].
  - rewrite sched_on_sched_eq by (done || apply Hwf). by rewrite Hs.
  - intros j Hj Hne. rewrite sched_on_sched_ne by auto. by apply Hs'.
Qed.
Lemma entry_task id f k k' T S : task_id id -> entry_is id k k' T S -> entry_is id k (on_tasks (on_task id f) k') (f T) S.
Proof.
  intros Hid [Hwf Hc Ht Hs Ht' Hs']. split; try done.
  - destruct Hwf as [[? ?] ?]. split; [split|]; [etrans; [apply Zlen_on_task|done]|done|done].
  - cbn [k_tasks on_tasks]. rewrite task_on_task_eq by (done || apply Hwf). by rewrite Ht.
  - intros j Hj Hne. cbn [k_tasks on_tasks]. rewrite task_on_task_ne by auto. by apply Ht'.
Qed.
Lemma entry_untouched id k k' T S j : entry_is id k k' T S -> 0 <= j -> j <> id -> untouched j k k'.
Proof.
  intros E Hj Hne. unfold untouched, settled, view, active, enabled, task_active_asserted, task_enabled, task_flag_asserted, scheduler_unblock_type.
  by rewrite (en_task_ne _ _ _ _ _ E), (en_sched_ne _ _ _ _ _ E) by done.
Qed.

Lemma entry_timers id k k' T S : task_id id -> entry_is id k k' T S -> task_thread_asserted (k_tasks k') id = true ->
  exists timers, entry_is id k (scheduler_timing_root_process_timer_initialize id k') T (with_timers timers S).
Proof.
  intros Hid E Hth. unfold scheduler_timing_root_process_timer_initialize. match goal with |- context [for_range 0 _ ?g _] => set (f := g) end.
  assert (L : forall n, exists timers, k_tasks (for_range 0 n f k') = k_tasks k' /\ entry_is id k (for_range 0 n f k') T (with_timers timers S)).
  { intros n. destruct (decide (0 <= n)) as [Hn|]; [|rewrite for_range_nil by lia; exists (sched_timer S); by destruct S].
    apply (for_range_ind (fun _ k1 => exists timers, k_tasks k1 = k_tasks k' /\ entry_is id k k1 T (with_timers timers S))); [done| |].
    - exists (sched_timer S). by destruct S.
    - intros m k1 Hm (l & Et & E1). eexists. split; [exact Et|]. exact (entry_sched id _ k k1 _ _ Hid E1). }
  destruct (L CONFIG_TASK_PROCESS_TIMER_COUNT) as (l & Et & E1). exists l. revert Et E1.
  generalize (for_range 0 CONFIG_TASK_PROCESS_TIMER_COUNT f k'). intros k1 Et E1. by rewrite Et, Hth.
Qed.

Definition entry_active (T : task_t) : task_t := with_flags (Bits.set (task_flags T) TASK_FLAGS_ACTIVE) T.
Lemma entry_authenticated id (b : bool) k k' T S : task_id id -> entry_is id k k' T S ->
  entry_is id k (if b then scheduler_root_assert id SCHEDULER_TASK_FLAG_AUTHENTICATED k' else k') T
    (if b then with_sched_flags (Bits.set (sched_flags S) (Z.shiftl 1 SCHEDULER_TASK_FLAG_AUTHENTICATED)) S else S).
Proof. intros Hid E. destruct b; [|done]. exact (entry_sched id _ k k' T S Hid E). Qed.

(** The flags of a thread that [svcall_activate_thread] has just started. *)
Definition start_flags (authenticated : bool) : Z :=
  Z.lor (Z.lor (Z.shiftl 1 SCHEDULER_TASK_FLAG_CANCEL_ENABLE) (Z.shiftl 1 SCHEDULER_TASK_FLAG_INUSE))
    (if authenticated then Z.shiftl 1 SCHEDULER_TASK_FLAG_AUTHENTICATED else 0).
Section Create.
Context {P : PosixThreads}.

Lemma activate_entry fa id attr k T : kernel_wf k -> 1 <= id < CONFIG_TASK_TOTAL -> id <> current k ->
  task (k_tasks k) id = T -> task_flags T = Z.lor TASK_FLAGS_USED TASK_FLAGS_THREAD ->
  exists k1 T1 timers, svcall_activate_thread fa id attr k = scheduler_root_update_on_wake id (task_get_priority (k_tasks k1) id) k1 /\
    entry_is id k k1 T1
      (mk_sched (attr_sched_priority attr) (attr_sched_policy attr) (attr_detach_state attr) NULL 0
         (mk_timeval SCHEDULER_TIMEVAL_SEC_INVALID 0)
         (start_flags (scheduler_flag_asserted k (current k) SCHEDULER_TASK_FLAG_AUTHENTICATED || (id =? 1) && fa)) timers) /\
    task_pid T1 = task_pid T /\ task_priority T1 = s8 (attr_sched_priority attr) /\
    task_flags T1 = Z.lor (Z.lor TASK_FLAGS_USED TASK_FLAGS_THREAD)
                      (Z.lor TASK_FLAGS_ACTIVE (if attr_sched_policy attr =? SCHED_FIFO then TASK_FLAGS_FIFO else 0)).
Proof.
  intros Hwf Hr Hcur Ht Hf. assert (Hid : task_id id) by (unfold task_id; lia). unfold svcall_activate_thread. cbv zeta.
  match goal with |- context [on_sched id (fun _ => ?s) k] => set (S1 := s) end.
  pose proof (entry_sched id (fun _ => S1) _ _ _ _ Hid (entry_refl id k Hwf)) as E1.
  set (k1 := on_sched id (fun _ => S1) k) in *. rewrite Ht in E1.
  pose proof (entry_task id (with_priority (s8 (attr_sched_priority attr))) _ _ _ _ Hid E1) as E2.
  set (k2 := on_tasks (task_set_priority id (attr_sched_priority attr)) k1) in *. change (on_tasks _ k1) with k2 in E2.
  rewrite (en_sched _ _ _ _ _ E2). change (sched_policy S1) with (attr_sched_policy attr).
  set (T3 := with_flags (Z.lor (Z.lor TASK_FLAGS_USED TASK_FLAGS_THREAD) (if attr_sched_policy attr =? SCHED_FIFO then TASK_FLAGS_FIFO else 0))
               (with_priority (s8 (attr_sched_priority attr)) T)).
  set (k3 := if attr_sched_policy attr =? SCHED_FIFO then _ else _).
  assert (E3 : entry_is id k k3 T3 S1).
  { subst k3 T3. destruct (attr_sched_policy attr =? SCHED_FIFO).
    - pose proof (entry_task id (fun t => with_flags (Bits.set (task_flags t) TASK_FLAGS_FIFO) t) _ _ _ _ Hid E2) as E3.
      cbn [task_flags with_priority] in E3. rewrite Hf in E3. exact E3.
    - pose proof (entry_task id (fun t => with_flags (Bits.clear (task_flags t) TASK_FLAGS_FIFO) t) _ _ _ _ Hid E2) as E3.
      cbn [task_flags with_priority] in E3. rewrite Hf in E3. exact E3. }
  clearbody k3. destruct (entry_timers id k k3 T3 S1 Hid E3) as [l E4].
  { unfold task_thread_asserted, task_flag_asserted. rewrite (en_task _ _ _ _ _ E3). unfold T3. by destruct (_ =? SCHED_FIFO). }
  set (k4 := scheduler_timing_root_process_timer_initialize id k3) in *. clearbody k4.
  set (k5 := scheduler_root_assert id SCHEDULER_TASK_FLAG_INUSE _).
  assert (E5 : entry_is id k k5 (entry_active T3)
    (mk_sched (attr_sched_priority attr) (attr_sched_policy attr) (attr_detach_state attr) NULL 0
         (mk_timeval SCHEDULER_TIMEVAL_SEC_INVALID 0) (start_flags false) l)).
  { unfold k5, scheduler_root_assert_active. 
    exact (entry_sched id _ _ _ _ _ Hid (entry_sched id _ _ _ _ _ Hid (entry_sched id _ _ _ _ _ Hid (entry_sched id _ _ _ _ _ Hid
      (entry_sched id _ _ _ _ _ Hid (entry_sched id _ _ _ _ _ Hid (entry_task id _ _ _ _ _ Hid
      (entry_sched id _ _ _ _ _ Hid (entry_sched id _ _ _ _ _ Hid (entry_sched id _ _ _ _ _ Hid E4)))))))))). }
  clearbody k5. rewrite (en_current _ _ _ _ _ E5).
  assert (Ea : scheduler_flag_asserted k5 (current k) SCHEDULER_TASK_FLAG_AUTHENTICATED
               = scheduler_flag_asserted k (current k) SCHEDULER_TASK_FLAG_AUTHENTICATED).
  { unfold scheduler_flag_asserted. rewrite (en_sched_ne _ _ _ _ _ E5) by (apply Hwf || auto). done. }
  rewrite Ea. set (b := scheduler_flag_asserted k _ _).
  pose proof (entry_authenticated id b _ _ _ _ Hid E5) as E6. set (k6 := if b then scheduler_root_assert _ _ _ else _) in *. clearbody k6.
  pose proof (entry_authenticated id ((id =? 1) && fa) _ _ _ _ Hid E6) as E7.
  assert (Eid : (if (id =? 1) && fa then scheduler_root_assert 1 SCHEDULER_TASK_FLAG_AUTHENTICATED k6 else k6)
                = (if (id =? 1) && fa then scheduler_root_assert id SCHEDULER_TASK_FLAG_AUTHENTICATED k6 else k6))
    by (by destruct (Z.eqb_spec id 1) as [->|]).
  rewrite Eid. eexists _, (entry_active T3), l. split; [reflexivity|]. split; [|split; [done|split; [done|]]].
  - destruct b, ((id =? 1) && fa); exact E7.
  - unfold T3. by destruct (_ =? SCHED_FIFO).
Qed.

Lemma land_low_bits x : Z.land (Z.land x (u32 (Z.lnot 7))) 7 = 0.
Proof. rewrite <- Z.land_assoc. apply Z.land_0_r. Qed.
(** Whatever [malloc] returned, the stack's end is aligned. *)
Lemma align8_aligned a n : let '(a, n) := align8 a n in Z.land (u32 (a + n)) 3 = 0.
Proof.
  unfold align8. assert (M : forall x, Z.land x 7 = 0 -> x mod 8 = 0) by (intros x; change 7 with (Z.ones 3); by rewrite Z.land_ones).
  pose proof (M _ (land_low_bits (u32 a))). pose proof (M _ (land_low_bits (u32 n))).
  set (x := Z.land (u32 a) _) in *. set (y := Z.land (u32 n) _) in *. clearbody x y. unfold u32.
  change 3 with (Z.ones 2). 
  destruct (x <? _); rewrite Z.land_ones by lia; change (2 ^ 2) with 4; Z.div_mod_to_equations; lia.
Qed.

Lemma new_task_entry new k : kernel_wf k -> enabled k (current k) = true \/ current k = 0 ->
  match task_svcall_new_task new (k_tasks k) with
  | (0, t) => t = k_tasks k /\ forall j, 1 <= j < CONFIG_TASK_TOTAL -> enabled k j = true
  | (id, t) => 1 <= id < CONFIG_TASK_TOTAL /\ id <> current k /\ enabled k id = false /\
      (forall j, 1 <= j < id -> enabled k j = true) /\
      exists T, entry_is id k (on_tasks (fun _ => t) k) T (sched k id) /\
        task_pid T = new_pid new /\ task_flags T = Bits.clear (new_flags new) TASK_FLAGS_ROOT
  end.
Proof.
  intros Hwf Hc. unfold task_svcall_new_task. set (p := fun i => negb (task_used_asserted (k_tasks k) i)).
  destruct (task_find_spec p (Z.to_nat (task_get_total - 1)) 1) as (Hr & Hlow & Hhit). set (i := task_find p _ 1) in *.
  change (Z.of_nat (Z.to_nat (task_get_total - 1))) with 15 in *. change task_get_total with 16. change CONFIG_TASK_TOTAL with 16 in *.
  assert (Hused : forall j, 1 <= j < i -> enabled k j = true) by (intros j Hj; by apply negb_false_iff, Hlow).
  clearbody i. destruct (Z.eqb_spec i 16) as [->|Ei]; [by split|]. specialize (Hhit ltac:(lia)). apply negb_true_iff in Hhit.
  assert (Hid : task_id i) by (unfold task_id; change CONFIG_TASK_TOTAL with 16; lia).
  destruct i as [|i|]; [lia| |lia]. split; [lia|]. split; [intros E; destruct Hc; [|lia]; unfold enabled, task_enabled in *; rewrite <- E in *; unfold task_used_asserted in Hhit; congruence|].
  split; [exact Hhit|]. split; [exact Hused|]. eexists. split; [exact (entry_task (Z.pos i) _ _ _ _ _ Hid (entry_refl (Z.pos i) k Hwf))|done].
Qed.
(** What is seen of the new entry once the scheduler has been told. *)
Lemma started_fields id k kc k1 k' T1 S1 T : entry_is id k kc T (sched k id) -> entry_is id kc k1 T1 S1 -> same_threads k1 k' ->
  0 <= id ->
  kernel_wf k' /\ current k' = current k /\ sched k' id = S1 /\ task_get_pid (k_tasks k') id = task_pid T1 /\
  priority k' id = task_priority T1 /\ task_flags (task (k_tasks k') id) = task_flags T1 /\
  forall j, 0 <= j -> j <> id -> untouched j k k'.
Proof.
  intros E E1 S Hid. split; [eapply same_threads_wf; [done|apply E1]|].
  split; [rewrite (st_current _ _ S), (en_current _ _ _ _ _ E1); apply E|].
  split; [rewrite (same_threads_sched _ _ _ S); apply E1|].
  split; [rewrite (st_pid _ _ S) by done; unfold task_get_pid; by rewrite (en_task _ _ _ _ _ E1)|].
  split; [rewrite (st_priority _ _ S) by done; unfold priority, task_get_priority; by rewrite (en_task _ _ _ _ _ E1)|].
  split; [rewrite (st_flags _ _ S) by done; by rewrite (en_task _ _ _ _ _ E1)|].
  intros j Hj Hne. etrans; [by eapply entry_untouched|]. etrans; [by eapply entry_untouched|]. by apply unchanged_untouched.
Qed.
End Create.

(** Creating a thread: it takes the lowest free slot, belongs to the caller's
    process, has the priority, policy and detach state of the attributes it is
    created with, is ready to run with cancellation enabled, and is authenticated when
    its creator is; no other thread changes.  The call fails, and nothing has
    changed, only when every slot is in use or the process has no first thread. *)
Theorem create_starts_thread (P : PosixThreads) fa attr stack k k' r :
  kernel_wf k -> running_thread k -> pthread_create fa attr (Some stack) k = (k', r) ->
  match r with
  | inl id =>
      let attrs := create_attrs k attr stack in
      (1 <= id < CONFIG_TASK_TOTAL /\ enabled k id = false /\ forall j, 1 <= j < id -> enabled k j = true) /\
      kernel_wf k' /\ current k' = current k /\ ready k' id = true /\ block_object (sched k' id) = NULL /\
      task_get_pid (k_tasks k') id = task_get_pid (k_tasks k) (current k) /\
      priority k' id = s8 (attr_sched_priority attrs) /\ sched_policy (sched k' id) = attr_sched_policy attrs /\
      sched_detach_state (sched k' id) = attr_detach_state attrs /\
      task_fifo_asserted (k_tasks k') id = (attr_sched_policy attrs =? SCHED_FIFO) /\
      sched_flags (sched k' id)
        = start_flags (scheduler_flag_asserted k (current k) SCHEDULER_TASK_FLAG_AUTHENTICATED || (id =? 1) && fa) /\
      forall j, 0 <= j -> j <> id -> untouched j k k'
  | inr e => e = EAGAIN /\ k' = k /\
      ((forall j, 1 <= j < CONFIG_TASK_TOTAL -> enabled k j = true) \/
       task_get_thread_zero (k_tasks k) (task_get_pid (k_tasks k) (current k)) = -1)
  end.
Proof.
  intros Hwf (Hcur & _ & Hen). unfold pthread_create. set (attrs := create_attrs k attr stack). clearbody attrs.
  unfold scheduler_create_thread. pose proof (align8_aligned stack (attr_stacksize attrs)) as Hal.
  destruct (align8 stack (attr_stacksize attrs)) as [am an]. unfold task_create_thread. cbv zeta. rewrite Hal. cbn [negb orb].
  rewrite Z.eqb_refl, orb_false_r. set (pid := task_get_pid _ _). set (tz := task_get_thread_zero _ _).
  assert (Htz : (tz <? 0) = true -> tz = -1).
  { unfold tz, task_get_thread_zero. match goal with |- context [task_find ?p ?n 0] => pose proof (task_find_spec p n 0) as (Hr & _); set (i := task_find p n 0) in * end.
    clearbody i. destruct (i =? task_get_total); [done|]. intros ?%Z.ltb_lt. lia. }
  destruct (tz <? 0) eqn:Etz.
  { intros [= <- <-]. split; [done|]. split; [by destruct k|]. right. by apply Htz. }
  set (new := mk_new_task _ _ _ _ _). pose proof (new_task_entry new k Hwf (or_introl Hen)) as N.
  destruct (task_svcall_new_task new (k_tasks k)) as [id t]. destruct (decide (id = 0)) as [->|Hne].
  { destruct N as [-> N]. intros [= <- <-]. split; [done|]. split; [by destruct k|]. by left. }
  assert (N' : 1 <= id < CONFIG_TASK_TOTAL /\ id <> current k /\ enabled k id = false /\
      (forall j, 1 <= j < id -> enabled k j = true) /\
      exists T, entry_is id k (on_tasks (fun _ => t) k) T (sched k id) /\
        task_pid T = new_pid new /\ task_flags T = Bits.clear (new_flags new) TASK_FLAGS_ROOT) by (by destruct id).
  clear N. destruct N' as (Hr & Hic & Hfree & Hlow & T & E & Hpid & Hfl). set (kc := on_tasks (fun _ => t) k) in *.
  rewrite (proj2 (Z.ltb_lt 0 id)), (proj2 (Z.eqb_neq id 0)) by lia. cbn [negb].
  destruct (activate_entry fa id attrs kc T) as (k1 & T1 & timers & Heq & E1 & P1 & P2 & P3);
    [apply E|done|rewrite (en_current _ _ _ _ _ E); done|apply E|by rewrite Hfl|].
  rewrite Heq. intros [= <- <-]. cbv zeta. pose proof (en_current _ _ _ _ _ E) as Hck.
  pose proof (update_on_wake_same id (task_get_priority (k_tasks k1) id) k1) as S. revert S. generalize (scheduler_root_update_on_wake id (task_get_priority (k_tasks k1) id) k1).
  intros k' S. rewrite Hck in E1. destruct (started_fields id k kc k1 k' T1 _ T E E1 S) as (F1 & F2 & F3 & F4 & F5 & F6 & F7); [lia|].
  rewrite F3, F4, F5, P1, P2, Hpid. split; [done|]. split; [exact F1|]. split; [exact F2|].
  unfold ready, task_enabled_active_not_stopped, task_fifo_asserted, task_flag_asserted. rewrite F6, P3.
  split; [by destruct (_ =? SCHED_FIFO)|]. do 5 (split; [done|]). split; [by destruct (_ =? SCHED_FIFO)|]. done.
Qed.

(** ** Cancelling *)

(** A request to cancel a thread of the caller's process: when the thread has
    cancellation enabled, its next cancellation point ends it; when it does not, the
    request is not kept: nothing changes, and the thread's call that
    enables cancellation again does not end it.  No other thread changes. *)
Theorem cancel_needs_enabled t k : kernel_wf k -> task_id t -> enabled k t = true ->
  task_thread_asserted (k_tasks k) t = true -> task_get_pid (k_tasks k) t = task_get_pid (k_tasks k) (current k) ->
  exists k', pthread_cancel t k = (k', Ret 0) /\
    (forall j, 0 <= j -> j <> t -> sched k' j = sched k j) /\ k_tasks k' = k_tasks k /\
    (scheduler_flag_asserted k t SCHEDULER_TASK_FLAG_CANCEL_ENABLE = true -> pthread_testcancel (switch_to t k') = Some 0) /\
    (scheduler_flag_asserted k t SCHEDULER_TASK_FLAG_CANCEL_ENABLE = false -> k' = k /\
     (scheduler_flag_asserted k t SCHEDULER_TASK_FLAG_CANCEL = false ->
      (pthread_setcancelstate (Some true) (switch_to t k')).2 = None)).
Proof.
  intros Hwf Hid He Hth Hpid. unfold pthread_cancel. rewrite Hpid, Z.eqb_refl, Hth. fold (enabled k t). rewrite He.
  rewrite (u8_id t), (proj2 (Z.leb_gt task_get_total t)) by (unfold task_id, task_get_total, CONFIG_TASK_TOTAL in *; lia).
  eexists. split; [reflexivity|]. unfold svcall_cancel_update, flag_update. cbn [cu_tid cu_cancel cu_enable cu_asynchronous].
  change (0 <? 1) with true. change (1 <? 0) with false. change (0 <? 0) with false. cbn [andb fst].
  destruct (scheduler_flag_asserted k t SCHEDULER_TASK_FLAG_CANCEL_ENABLE) eqn:Een.
  - split; [intros j Hj Hne; unfold scheduler_root_assert; by rewrite sched_on_sched_ne by auto|]. split; [done|]. split; [intros _|done].
    unfold pthread_testcancel, scheduler_check_cancellation. change (current (switch_to t _)) with t.
    change (task_thread_asserted (k_tasks (switch_to t _)) t) with (task_thread_asserted (k_tasks k) t). rewrite Hth, andb_true_r.
    unfold scheduler_flag_asserted, scheduler_root_assert. change (sched (switch_to t ?k1) t) with (sched k1 t).
    rewrite sched_on_sched_eq by (done || apply Hwf). cbn [sched_flags with_sched_flags]. by rewrite any_set_same by done.
  - split; [done|]. split; [done|]. split; [done|]. intros _. split; [done|]. intros Hc.
    unfold pthread_setcancelstate, svcall_cancel_update, flag_update, scheduler_check_cancellation. cbn [cu_tid cu_cancel cu_enable cu_asynchronous].
    change (current (switch_to t k)) with t. change (0 <? 1) with true. change (0 <? 0) with false. cbn [andb snd].
    change (current (scheduler_root_assert t SCHEDULER_TASK_FLAG_CANCEL_ENABLE (switch_to t k))) with t.
    unfold scheduler_flag_asserted in *. unfold scheduler_root_assert. rewrite sched_on_sched_eq by (done || apply Hwf).
    cbn [sched_flags with_sched_flags]. rewrite any_set_disjoint by done. change (sched (switch_to t k) t) with (sched k t). by rewrite Hc.
Qed.

(** ** Values to run with *)

Lemma join_inv_start (P : PosixThreads) k : kernel_wf k ->
  forallb (fun j => match block_object (sched k j) with Psched _ => false | _ => true end) (seqZ 1 (CONFIG_TASK_TOTAL - 1)) = true ->
  join_inv (mk_js k (fun _ => Idle) []).
Proof.
  intros Hwf H. rewrite forallb_forall in H. split; cbn [js_k js_pc js_ended]; [done| |intros t v Hin; by apply elem_of_nil in Hin].
  intros j Hj t Hb. specialize (H j). rewrite Hb in H. discriminate H. apply list_elem_of_In, elem_of_seqZ. lia.
Qed.

#[local] Existing Instance newlib.

(** Thread 1 of the example creates thread 7, which ends with status 42 before
    thread 1 joins it. *)
Definition created : kernel := (pthread_create false None (Some 536903680) (switch_to 1 example_kernel)).1.
Definition ended_early : kernel := switch_to 1 (pthread_exit 42 (switch_to 7 created)).1.
Definition joining : kernel := switch_to 7 (pthread_join 7 ended_early).1.
Definition found_joiner : kernel := (exit_turn 42 joining).1.

Lemma join_returns_exit_status_witness :
  exists s', star join_step (mk_js created (fun _ => Idle) []) s' /\
    (pthread_join_resume 7 (js_k s')).2 = JReturned (Ret 0) 42 /\ ((7, 42) ∈ js_ended s') /\ enabled (js_k s') 7 = false.
Proof.
  assert (Hinv : join_inv (mk_js created (fun _ => Idle) [])) by (apply join_inv_start; vm_compute; intuition congruence).
  assert (Hs : exists s', star join_step (mk_js created (fun _ => Idle) []) s' /\ running_thread (js_k s') /\
    js_pc s' (current (js_k s')) = Joining 7 /\ (pthread_join_resume 7 (js_k s')).2 = JReturned (Ret 0) 42).
  { eexists. split; [|split; [|split]].
    - eapply star_step; [apply (js_switch 7); split; done|].
      eapply star_step; [eapply (js_exit 42); [vm_compute; intuition congruence|reflexivity|apply surjective_pairing]|].
      eapply star_step; [apply (js_switch 1); split; done|].
      eapply star_step; [eapply (js_join 7); [vm_compute; intuition congruence|vm_compute; reflexivity|apply surjective_pairing]|].
      eapply star_step; [apply (js_switch 7); split; done|].
      eapply star_step; [eapply (js_exit_turn 42); [vm_compute; intuition congruence|vm_compute; reflexivity|apply surjective_pairing]|].
      eapply star_step; [eapply (js_elevate 42); [vm_compute; intuition congruence|vm_compute; reflexivity]|].
      eapply star_step; [eapply (js_cleanup 42); [vm_compute; intuition congruence|vm_compute; reflexivity]|].
      eapply star_step; [apply (js_switch 1); split; done|]. apply star_refl.
    - vm_compute. intuition congruence.
    - vm_compute. reflexivity.
    - vm_compute. reflexivity. }
  destruct Hs as (s' & Hs & Hrun & Hpc & Hr). exists s'. split; [exact Hs|]. split; [exact Hr|].
  refine (join_returns_exit_status newlib _ s' 7 (pthread_join_resume 7 (js_k s')).1 42 Hinv Hs Hrun Hpc _).
  rewrite <- Hr. apply surjective_pairing.
Defined.
Lemma join_completes_witness : active ended_early 7 = false /\
  exists k1 k2, pthread_join 7 ended_early = (k1, JWaiting) /\ active k1 7 = true /\ active k1 (current ended_early) = false /\
  exit_turn 42 (switch_to 7 k1) = (k2, EJoined) /\
  enabled (svcall_cleanup (svcall_elevate_priority k2)) 7 = false.
Proof.
  split; [vm_compute; reflexivity|].
  destruct (join_completes newlib 7 42 ended_early) as (k1 & k2 & H1 & Ha & Hs & _ & H2 & H3 & _);
    [vm_compute; intuition congruence|vm_compute; intuition congruence|split; [discriminate|reflexivity]|vm_compute; discriminate
    |vm_compute; reflexivity|vm_compute; reflexivity|vm_compute; reflexivity|].
  exists k1, k2. split; [exact H1|]. split; [exact Ha|]. split; [exact Hs|]. split; [exact H2|exact H3].
Defined.

(** A signal to the joiner after the ending thread has seen it and before
    [svcall_cleanup]: the joiner's next turn finds that the thread no longer exists,
    the call fails with [ESRCH] and the status is lost. *)
Example join_signal_loses_status :
  let k := switch_to 1 (svcall_cleanup (svcall_elevate_priority (signal_root_activate 1 found_joiner))) in
  (pthread_join_resume 7 k).2 = JReturned (Err ESRCH) 0.
Proof. vm_compute. reflexivity. Qed.

Lemma create_starts_thread_witness : exists k' id, pthread_create false None (Some 536903680) example_kernel = (k', inl id) /\
  id = 7 /\ ready k' id = true /\ priority k' id = CONFIG_SCHED_DEFAULT_PRIORITY.
Proof.
  assert (Hr : (pthread_create false None (Some 536903680) example_kernel).2 = inl 7) by (vm_compute; reflexivity).
  destruct (pthread_create false None (Some 536903680) example_kernel) as [k' r] eqn:E. cbn [snd] in Hr.
  subst r. exists k', 7. split; [reflexivity|]. split; [reflexivity|].
  destruct (create_starts_thread newlib false None 536903680 example_kernel k' (inl 7)) as (_ & _ & _ & H & _ & _ & Hp & _);
    [apply example_kernel_wf|vm_compute; intuition congruence|exact E|]. split; [exact H|exact Hp].
Defined.
Lemma cancel_needs_enabled_witness : exists k', pthread_cancel 7 created = (k', Ret 0) /\ pthread_testcancel (switch_to 7 k') = Some 0.
Proof.
  destruct (cancel_needs_enabled 7 created) as (k' & E & _ & _ & H & _);
    [vm_compute; intuition congruence|split; [discriminate|reflexivity]|vm_compute; reflexivity|vm_compute; reflexivity|vm_compute; reflexivity|].
  exists k'. split; [exact E|]. apply H. vm_compute. reflexivity.
Defined.
