(* ===== verification/Paths.v ===== *)
(** * Paths, mount points, permissions and users

    [src/sys/sysfs/sysfs.c] and [src/sys/unistd/uidgid.c].  A C string is the list of
    its characters without the terminator.  The table of file systems is the list of
    mount paths; a pointer into it is an index. *)
From S2P Require Import Prelude Task Scheduler Timing Threads Mutex.
From Stdlib Require Import Ascii.

(** Limits the C library sets. *)
Class PosixLimits := {
  OPEN_MAX : Z;
  PATH_MAX : Z;
  NAME_MAX : Z;
}.

Definition path := list ascii.
Definition SYSFS_MOUNT_PATH_MAX : Z := 23.
Definition slash : ascii := "/"%char.
Definition is_slash (c : ascii) : bool := Ascii.eqb c slash.

Definition strnlen (s : path) (max : Z) : Z := Z.min (Zlen s) max.
(** [strncmp(a, b, n) == 0] *)
Definition strncmp_eq (a b : path) (n : Z) : bool := bool_decide (take (Z.to_nat n) a = take (Z.to_nat n) b).

(** ** Mount points *)

(** The loop of [sysfs_find] from entry [i] on. *)
Fixpoint sysfs_find_from (i : nat) (mounts : list path) (p : path) (pathlen : Z) (needs_parent : bool) : option nat :=
  match mounts with
  | [] => None
  | m :: mounts =>
      let mountlen := strnlen m SYSFS_MOUNT_PATH_MAX in
      if strncmp_eq p m mountlen
         && (negb needs_parent || (mountlen + 1 <? pathlen) || (pathlen =? 1))
      then Some i else sysfs_find_from (S i) mounts p pathlen needs_parent
  end.
Section Limits.
Context {L : PosixLimits}.

Definition sysfs_find (mounts : list path) (p : path) (needs_parent : bool) : option nat :=
  sysfs_find_from 0 mounts p (strnlen p PATH_MAX) needs_parent.
Definition sysfs_stripmountpath (mount p : path) : path :=
  let p := drop (Z.to_nat (strnlen mount SYSFS_MOUNT_PATH_MAX)) p in
  match p with
  | c :: rest => if is_slash c then rest else p
  | [] => p
  end.

(** ** Valid paths *)

Definition validset : path :=
  String.list_ascii_of_string "abcdefghijklmnopqrstuvwxyzABCDEFGHIJKLMNOPQRSTUVWXYZ0123456789-_./".
Definition in_validset (c : ascii) : bool := bool_decide (c ∈ validset).
Fixpoint strspn (p : path) : Z :=
  match p with
  | c :: p => if in_validset c then 1 + strspn p else 0
  | [] => 0
  end.
(** The loop over the characters after the first, the terminator included: whether a
    name is too long.  [tmp] counts the characters of the current name. *)
Fixpoint name_too_long (tmp : Z) (p : path) : bool :=
  match p with
  | [] => NAME_MAX <? tmp
  | c :: p => if is_slash c then (NAME_MAX <? tmp) || name_too_long (0 + 1) p else name_too_long (tmp + 1) p
  end.
(** The error, if the path is invalid.  The loop first advances: for the empty path
    it leaves the string and reads [after], what follows the terminator in memory. *)
Definition isinvalid (after p : path) (max : Z) : option Z :=
  let len := strnlen p max in
  if len =? max then Some ENAMETOOLONG
  else if name_too_long 0 (match p with [] => after | _ :: p => p end) then Some ENAMETOOLONG
  else if negb (len =? strspn p) then Some EINVAL
  else None.
Definition sysfs_ispathinvalid (after p : path) : option Z := isinvalid after p PATH_MAX.
Definition sysfs_isvalidset (p : path) : bool :=
  let len := strnlen p PATH_MAX in
  if len =? PATH_MAX then false else len =? strspn p.

(** [sysfs_getfilename]: the name after the last slash and the number of names. *)
Fixpoint getfilename_from (name p : path) (tmp : Z) : path * Z :=
  match p with
  | [] => (name, tmp)
  | c :: rest => if is_slash c then getfilename_from rest rest (tmp + 1) else getfilename_from name rest tmp
  end.
Definition sysfs_getfilename (p : path) : path * Z := getfilename_from p p 1.
Definition sysfs_get_filename (p : path) : path := fst (getfilename_from p p 1).
End Limits.

(** ** Permissions *)

Definition O_ACCMODE : Z := 3.
Definition O_TRUNC : Z := 1024.
Definition R_OK : Z := 4.
Definition W_OK : Z := 2.
Definition X_OK : Z := 1.
Definition S_IRUSR : Z := 256.
Definition S_IWUSR : Z := 128.
Definition S_IXUSR : Z := 64.
Definition S_IROTH : Z := 4.
Definition S_IWOTH : Z := 2.
Definition S_IXOTH : Z := 1.
Definition SYSFS_ROOT : Z := 0.
Definition SYSFS_USER : Z := 1.

Definition sysfs_getamode (flags : Z) : Z :=
  let accmode := Z.land flags O_ACCMODE in
  let amode := if accmode =? O_RDWR then Z.lor R_OK W_OK
               else if accmode =? O_WRONLY then W_OK
               else if accmode =? O_RDONLY then R_OK else 0 in
  if Bits.any flags O_CREAT || Bits.any flags O_TRUNC then Z.lor amode W_OK else amode.

(** [uid] is what [getuid] returns. *)
Section Permissions.
Context (uid : Z).
Definition owner_or_root (file_uid : Z) : bool := (file_uid =? uid) || (uid =? SYSFS_ROOT).
Definition sysfs_is_r_ok (file_mode file_uid : Z) : bool :=
  if Bits.any file_mode S_IROTH then true
  else if Bits.any file_mode S_IRUSR && owner_or_root file_uid then true else false.
Definition sysfs_is_w_ok (file_mode file_uid : Z) : bool :=
  if Bits.any file_mode S_IWOTH then true
  else if Bits.any file_mode S_IWUSR && owner_or_root file_uid then true else false.
Definition sysfs_is_rw_ok (file_mode file_uid : Z) : bool :=
  let is_ok := if Bits.any file_mode S_IWOTH then W_OK
               else if Bits.any file_mode S_IWUSR && owner_or_root file_uid then W_OK else 0 in
  if is_ok =? W_OK then
    if Bits.any file_mode S_IROTH then true
    else if Bits.any file_mode S_IRUSR && owner_or_root file_uid then true else false
  else false.
Definition sysfs_is_x_ok (file_mode file_uid : Z) : bool :=
  if Bits.any file_mode S_IXOTH then true
  else if Bits.any file_mode S_IXUSR && owner_or_root file_uid then true else false.
Definition sysfs_access (file_mode file_uid amode : Z) : Z * option Z :=
  let is_ok := 0 in
  let is_ok := if Bits.any amode R_OK then if sysfs_is_r_ok file_mode file_uid then Z.lor is_ok R_OK else is_ok else is_ok in
  let is_ok := if Bits.any amode W_OK then if sysfs_is_w_ok file_mode file_uid then Z.lor is_ok W_OK else is_ok else is_ok in
  let is_ok := if Bits.any amode X_OK then if sysfs_is_x_ok file_mode file_uid then Z.lor is_ok X_OK else is_ok else is_ok in
  if is_ok =? amode then (0, None) else (-1, Some EACCES).
End Permissions.

(** ** Users *)

Definition task_root_asserted (t : tstate) (id : Z) : bool := task_flag_asserted t id TASK_FLAGS_ROOT.
Definition authenticated (k : kernel) : bool := scheduler_flag_asserted k (current k) SCHEDULER_TASK_FLAG_AUTHENTICATED.

Definition svcall_update_task_root (args : bool) (k : kernel) : kernel :=
  if args && authenticated k then on_tasks (task_assert_flag (current k) TASK_FLAGS_ROOT) k
  else on_tasks (task_deassert_flag (current k) TASK_FLAGS_ROOT) k.
Definition geteuid (k : kernel) : Z := if task_root_asserted (k_tasks k) (current k) then SYSFS_ROOT else SYSFS_USER.
Definition getuid (k : kernel) : Z := if authenticated k then SYSFS_ROOT else SYSFS_USER.
Definition seteuid (uid : Z) (k : kernel) : kernel * api_result :=
  if uid =? SYSFS_USER then
    ((if geteuid k =? SYSFS_ROOT then svcall_update_task_root false k else k), Ret 0)
  else if uid =? SYSFS_ROOT then
    if geteuid k =? SYSFS_USER then
      if authenticated k then (svcall_update_task_root true k, Ret 0) else (k, Err EPERM)
    else (k, Ret 0)
  else (k, Err EINVAL).
Definition setuid : Z -> kernel -> kernel * api_result := seteuid.

(** ** Looking up a path *)

(** [m] is a mount path the table can hold. *)
Definition mount_ok (m : path) : Prop := m <> [] /\ Zlen m <= SYSFS_MOUNT_PATH_MAX.

Section Lookup.
Context {L : PosixLimits}.

Lemma strncmp_prefix (p m : path) : mount_ok m -> strncmp_eq p m (strnlen m SYSFS_MOUNT_PATH_MAX) = bool_decide (m `prefix_of` p).
Proof.
  intros [_ Hm]. unfold strncmp_eq, strnlen. rewrite Z.min_l by done. unfold Zlen. rewrite Nat2Z.id, (take_ge m) by done.
  apply bool_decide_ext. split.
  - intros <-. apply prefix_take.
  - intros [r ->]. by rewrite take_app_length.
Qed.
Lemma sysfs_find_from_skip i mounts p n b pre : Forall mount_ok pre -> Forall (fun m => ~ m `prefix_of` p) pre ->
  sysfs_find_from i (pre ++ mounts) p n b = sysfs_find_from (i + length pre) mounts p n b.
Proof.
  intros Hok Hno. revert i. induction Hok as [|m pre Hm Hpre IH]; intros i; [cbn; f_equal; lia|].
  apply Forall_cons in Hno as [Hn Hno]. cbn [app sysfs_find_from length].
  rewrite strncmp_prefix, bool_decide_eq_false_2 by done. cbn [andb]. rewrite IH by done. f_equal. lia.
Qed.
Lemma stripmountpath_app (m r : path) : mount_ok m ->
  sysfs_stripmountpath m (m ++ r) = match r with c :: r' => if is_slash c then r' else r | [] => r end.
Proof.
  intros [_ Hm]. unfold sysfs_stripmountpath, strnlen. rewrite Z.min_l by done. unfold Zlen. by rewrite Nat2Z.id, drop_app_length.
Qed.
Lemma sysfs_find_prefix pre m post r b : Forall mount_ok pre -> mount_ok m ->
  Forall (fun m' => ~ m' `prefix_of` m ++ r) pre -> Zlen (m ++ r) <= PATH_MAX -> 1 < Zlen r ->
  sysfs_find (pre ++ m :: post) (m ++ r) b = Some (length pre).
Proof.
  intros Hpre Hm Hno Hl Hr. unfold sysfs_find. rewrite sysfs_find_from_skip by done. cbn [sysfs_find_from].
  rewrite strncmp_prefix, bool_decide_eq_true_2 by (done || by apply prefix_app_r).
  unfold strnlen. destruct Hm as [_ Hm]. rewrite !Z.min_l by lia. rewrite Zlen_app.
  rewrite (proj2 (Z.ltb_lt (Zlen m + 1) _)), orb_true_r by lia. done.
Qed.

(** ** Names of a path *)

(** The names between slashes. *)
Fixpoint names (p : path) : path * list path :=
  match p with
  | [] => ([], [])
  | c :: p => let '(first, later) := names p in if is_slash c then ([], first :: later) else (c :: first, later)
  end.
Lemma name_too_long_names p : forall tmp, name_too_long tmp p = false <->
  tmp + Zlen (names p).1 <= NAME_MAX /\ Forall (fun n => Zlen n < NAME_MAX) (names p).2.
Proof.
  induction p as [|c p IH]; intros tmp; cbn [name_too_long names].
  - rewrite Z.ltb_ge. cbn [fst snd]. rewrite (@Zlen_nil ascii). split; [intros; split; [lia|constructor]|lia].
  - destruct (names p) as [first later]. destruct (is_slash c); cbn [fst snd].
    + rewrite orb_false_iff, Z.ltb_ge, IH, Forall_cons, (@Zlen_nil ascii). cbn [fst snd]. intuition lia.
    + rewrite IH, Zlen_cons. cbn [fst snd]. intuition lia.
Qed.
Lemma strspn_all p : strspn p = Zlen p <-> Forall (fun c => in_validset c = true) p.
Proof.
  induction p as [|c p IH]; cbn [strspn]; [rewrite (@Zlen_nil ascii); split; [constructor|done]|].
  assert (Hle : 0 <= strspn p <= Zlen p).
  { clear. induction p as [|c p IH]; cbn [strspn]; rewrite ?Zlen_cons; [done|]. destruct (in_validset c); [lia|]. pose proof (Zlen_nonneg p). lia. }
  rewrite Zlen_cons, Forall_cons, <- IH. destruct (in_validset c); [intuition lia|]. split; [lia|intros [? _]; done].
Qed.
End Lookup.

(** ** Properties *)

(** A path below a mount point: when no earlier entry of the table is a prefix of it,
    the file system mounted there is found, and the name it is handed is what
    follows the mount path. *)
Theorem find_mounted (L : PosixLimits) pre m post name : Forall mount_ok pre -> mount_ok m ->
  Forall (fun m' => ~ m' `prefix_of` m ++ slash :: name) pre -> Zlen (m ++ slash :: name) <= PATH_MAX -> name <> [] ->
  sysfs_find (pre ++ m :: post) (m ++ slash :: name) true = Some (length pre) /\
  sysfs_stripmountpath m (m ++ slash :: name) = name.
Proof.
  intros Hpre Hm Hno Hl Hn. split; [|by rewrite stripmountpath_app].
  apply sysfs_find_prefix; try done. rewrite Zlen_cons. destruct name; [done|]. rewrite Zlen_cons. pose proof (Zlen_nonneg name). lia.
Qed.

(** The comparison does not stop at a name: a path whose first name only begins like
    the mount path (such as /homework for /home) is given to that file system, with
    the rest of the name as the file's name. *)
Theorem find_partial_name (L : PosixLimits) pre m post c name : Forall mount_ok pre -> mount_ok m -> is_slash c = false ->
  Forall (fun m' => ~ m' `prefix_of` m ++ c :: name) pre -> Zlen (m ++ c :: name) <= PATH_MAX -> name <> [] ->
  sysfs_find (pre ++ m :: post) (m ++ c :: name) true = Some (length pre) /\
  sysfs_stripmountpath m (m ++ c :: name) = c :: name.
Proof.
  intros Hpre Hm Hc Hno Hl Hn. split; [|by rewrite stripmountpath_app, Hc].
  apply sysfs_find_prefix; try done. rewrite Zlen_cons. destruct name; [done|]. rewrite Zlen_cons. pose proof (Zlen_nonneg name). lia.
Qed.

(** C40: The paths that are accepted, for a path that begins with a slash: shorter than
    [PATH_MAX], only characters of the valid set, the first name at most [NAME_MAX]
    long, and every later name shorter than [NAME_MAX].  The comments of the calls (open, access,
    stat, opendir) say that a name is refused when it exceeds [NAME_MAX]; the code refuses a later
    name of exactly [NAME_MAX] as well ([longest_name_refused]). *)
Theorem absolute_path_valid (L : PosixLimits) after p : 0 < PATH_MAX ->
  sysfs_ispathinvalid after (slash :: p) = None <->
  Zlen (slash :: p) < PATH_MAX /\ Forall (fun c => in_validset c = true) (slash :: p) /\
  Zlen (names p).1 <= NAME_MAX /\ Forall (fun n => Zlen n < NAME_MAX) (names p).2.
Proof.
  intros Hm. unfold sysfs_ispathinvalid, isinvalid, strnlen.
  destruct (Z.eqb_spec (Z.min (Zlen (slash :: p)) PATH_MAX) PATH_MAX) as [E|E]; [split; [done|lia]|].
  assert (Hlt : Zlen (slash :: p) < PATH_MAX) by lia. rewrite Z.min_l by lia. pose proof (name_too_long_names p 0) as N. destruct (name_too_long 0 p).
  - split; [done|]. intros (_ & _ & H). apply N in H. done.
  - destruct (Z.eqb_spec (Zlen (slash :: p)) (strspn (slash :: p))) as [Es|Es]; cbn [negb].
    + split; [intros _|done]. split; [done|]. split; [by apply strspn_all|]. by apply N.
    + split; [done|]. intros (_ & H & _). apply strspn_all in H. congruence.
Qed.

(** A name of exactly [NAME_MAX] characters: accepted as the first of the path, refused behind
    another. *)
Theorem longest_name_refused (after : path) :
  let L := {| OPEN_MAX := 4; PATH_MAX := 16; NAME_MAX := 4 |} in
  sysfs_ispathinvalid (L := L) after (slash :: replicate 4 "b"%char) = None /\
  sysfs_ispathinvalid (L := L) after (slash :: "a"%char :: slash :: replicate 4 "b"%char) = Some ENAMETOOLONG.
Proof. split; vm_compute; reflexivity. Qed.

(** [sysfs_access] grants exactly what is asked for, and nothing that the mode bits of
    others or, for the owner and for root, those of the owner do not give;
    [sysfs_is_rw_ok] is reading and writing. *)
Theorem access_spec uid mode fuid amode : 0 <= amode < 8 ->
  (sysfs_access uid mode fuid amode).1 = 0 <->
  (Bits.any amode R_OK = true -> sysfs_is_r_ok uid mode fuid = true) /\
  (Bits.any amode W_OK = true -> sysfs_is_w_ok uid mode fuid = true) /\
  (Bits.any amode X_OK = true -> sysfs_is_x_ok uid mode fuid = true).
Proof.
  intros Ha. unfold sysfs_access. assert (In : amode ∈ seqZ 0 8) by (apply elem_of_seqZ; lia).
  vm_compute in In. destruct (sysfs_is_r_ok uid mode fuid), (sysfs_is_w_ok uid mode fuid), (sysfs_is_x_ok uid mode fuid);
    repeat (apply elem_of_cons in In as [->|In]; [vm_compute; intuition congruence|]); by apply elem_of_nil in In.
Qed.
Lemma rw_ok_both uid mode fuid : sysfs_is_rw_ok uid mode fuid = sysfs_is_r_ok uid mode fuid && sysfs_is_w_ok uid mode fuid.
Proof.
  unfold sysfs_is_rw_ok, sysfs_is_r_ok, sysfs_is_w_ok. destruct (Bits.any mode S_IWOTH), (Bits.any mode S_IROTH), (Bits.any mode S_IWUSR),
    (Bits.any mode S_IRUSR), (owner_or_root uid fuid); reflexivity.
Qed.

(** Changing the effective user: a thread becomes root only when it is authenticated, any
    thread can give root up, other users do not exist; on success the effective
    user is the one asked for, on failure nothing has changed, and no other thread
    changes in either case. *)
Theorem seteuid_spec uid k : kernel_wf k ->
  let '(k', r) := seteuid uid k in
  (r = Ret 0 -> geteuid k' = uid /\ (uid = SYSFS_USER \/ uid = SYSFS_ROOT)) /\
  (geteuid k' = SYSFS_ROOT -> geteuid k = SYSFS_ROOT \/ authenticated k = true) /\
  (forall e, r = Err e -> k' = k) /\
  (forall j, 0 <= j -> j <> current k -> task (k_tasks k') j = task (k_tasks k) j) /\ sos_sched_table k' = sos_sched_table k.
Proof.
  intros [[Hl Hc] Hs]. assert (Set_ : geteuid (on_tasks (task_assert_flag (current k) TASK_FLAGS_ROOT) k) = SYSFS_ROOT).
  { unfold geteuid, task_root_asserted. cbn [k_tasks on_tasks]. change (current (on_tasks _ k)) with (current k).
    by rewrite flag_set_same. }
  assert (Clear : geteuid (on_tasks (task_deassert_flag (current k) TASK_FLAGS_ROOT) k) = SYSFS_USER).
  { unfold geteuid, task_root_asserted. cbn [k_tasks on_tasks]. change (current (on_tasks _ k)) with (current k).
    by rewrite flag_clear_same. }
  assert (Ne : forall f j, 0 <= j -> j <> current k -> task (on_task (current k) f (k_tasks k)) j = task (k_tasks k) j).
  { intros f j Hj Hne. apply task_on_task_ne; auto. }
  assert (Two : geteuid k = SYSFS_ROOT \/ geteuid k = SYSFS_USER) by (unfold geteuid; destruct (task_root_asserted _ _); auto).
  unfold seteuid, svcall_update_task_root. cbn [andb].
  destruct (Z.eqb_spec uid SYSFS_USER) as [->|]; [|destruct (Z.eqb_spec uid SYSFS_ROOT) as [->|]; [|by split_and!; auto]].
  - destruct (Z.eqb_spec (geteuid k) SYSFS_ROOT) as [E|E].
    + rewrite Clear. split_and!; try done; auto; intros j; apply Ne.
    + destruct Two as [?|E']; [done|]. split_and!; try done; auto.
  - destruct (Z.eqb_spec (geteuid k) SYSFS_USER) as [E|E].
    + destruct (authenticated k) eqn:Ea.
      * rewrite Set_. split_and!; try done; auto; intros j; apply Ne.
      * split_and!; try done; auto.
    + destruct Two as [E'|?]; [|done]. split_and!; try done; auto.
Qed.

(** ** Values to run with *)

Definition example_limits : PosixLimits := {| OPEN_MAX := 24; PATH_MAX := 256; NAME_MAX := 24 |}.
Definition str (s : string) : path := String.list_ascii_of_string s.
Definition example_mounts : list path := [str "/app"; str "/dev"; str "/home"; str "/"].
Lemma find_mounted_witness : @sysfs_find example_limits example_mounts (str "/dev/fifo") true = Some 1%nat /\
  sysfs_stripmountpath (str "/dev") (str "/dev/fifo") = str "fifo".
Proof.
  apply (find_mounted example_limits [str "/app"] (str "/dev") [str "/home"; str "/"] (str "fifo")).
  - repeat constructor; vm_compute; discriminate.
  - repeat constructor; vm_compute; discriminate.
  - repeat constructor. intros [r H]. discriminate H.
  - vm_compute. discriminate.
  - discriminate.
Defined.
Lemma find_partial_name_witness : @sysfs_find example_limits example_mounts (str "/homework") true = Some 2%nat /\
  sysfs_stripmountpath (str "/home") (str "/homework") = str "work".
Proof.
  apply (find_partial_name example_limits [str "/app"; str "/dev"] (str "/home") [str "/"] "w"%char (str "ork")).
  - repeat constructor; vm_compute; discriminate.
  - repeat constructor; vm_compute; discriminate.
  - reflexivity.
  - repeat constructor; intros [r H]; discriminate H.
  - vm_compute. discriminate.
  - discriminate.
Defined.
Lemma absolute_path_valid_witness : @sysfs_ispathinvalid example_limits [] (str "/dev/fifo") = None.
Proof.
  apply (absolute_path_valid example_limits [] (str "dev/fifo")); [reflexivity|]. split; [reflexivity|].
  split; [repeat constructor; vm_compute; reflexivity|]. split; [discriminate|repeat constructor].
Defined.
Lemma access_spec_witness : (sysfs_access SYSFS_USER 292 SYSFS_ROOT R_OK).1 = 0.
Proof.
  apply (access_spec SYSFS_USER 292 SYSFS_ROOT R_OK); [split; [discriminate|reflexivity]|].
  split; [|split]; vm_compute; intros H; congruence.
Defined.
Lemma seteuid_spec_witness : let '(k', r) := seteuid SYSFS_ROOT example_kernel in r = Err EPERM /\ k' = example_kernel.
Proof.
  pose proof (seteuid_spec SYSFS_ROOT example_kernel example_kernel_wf) as H.
  assert (Hr : (seteuid SYSFS_ROOT example_kernel).2 = Err EPERM) by (vm_compute; reflexivity).
  destruct (seteuid SYSFS_ROOT example_kernel) as [k' r]. cbn [snd] in Hr.
  split; [exact Hr|]. destruct H as (_ & _ & H & _). exact (H EPERM Hr).
Defined.
