(* ===== verification/Files.v ===== *)
(** * Open files

    The file calls: [src/sys/sysfs/sysfs_file.c] and, below [src/sys/unistd/],
    [_open.c], [_close.c], [_read.c], [_write.c], [_lseek.c], [_fcntl.c], [_fstat.c],
    [ioctl.c], [fsync.c] and the calls that take a path.  A file system is a record of
    operations ([sysfs_t]) on a state [F] that all file systems share; a descriptor is
    an index into the table of open files.  [errno] is part of the state.  Each call
    begins with a cancellation point ([Lifecycle.v]), which is not repeated here. *)
From S2P Require Import Prelude Task Scheduler Paths.

Definition S_IFMT : Z := 61440.
Definition S_IFDIR : Z := 16384.
Definition S_IFCHR : Z := 8192.
Definition S_IFREG : Z := 32768.
Definition EMFILE : Z := 24.
Definition FILDES_STDIO_FLAG : Z := 512.
Definition FILDES_SOCKET_FLAG : Z := 1024.
Definition SYSFS_GROUP : Z := 0.

(** ** The interface of a file system *)

Record stat_t := mk_stat { st_mode : Z; st_size : Z; st_uid : Z; st_gid : Z; st_ino : Z; st_blocks : Z }.
Definition stat0 : stat_t := mk_stat 0 0 0 0 0 0.

(** An operation gets its arguments and the state and gives the state and the
    value it returns.  [fs_open] and [fs_close] also give the handle they leave behind
    the pointer they were given, [fs_read] the bytes it stored from the start of the
    buffer, and the [stat] operations what they leave in the structure. *)
Record sysfs_t (F : Type) := mk_sysfs {
  mount_path : path;
  permissions : Z;
  owner : Z;
  is_devfs : bool;               (** [open == devfs_open] *)
  fs_mkfs : F -> F * Z;
  fs_mount : F -> F * Z;
  fs_unmount : F -> F * Z;
  fs_open : path -> Z -> Z -> Z -> F -> F * Z * Z;
  fs_aio : Z -> Z -> F -> F * Z;
  fs_ioctl : Z -> Z -> Z -> F -> F * Z;
  fs_read : Z -> Z -> Z -> Z -> F -> F * Z * list Z;
  fs_write : Z -> Z -> Z -> list Z -> Z -> F -> F * Z;
  fs_fsync : Z -> F -> F * Z;
  fs_close : Z -> F -> F * Z * Z;
  fs_fstat : Z -> stat_t -> F -> Z * stat_t;
  fs_rename : path -> path -> F -> F * Z;
  fs_unlink : path -> F -> F * Z;
  fs_mkdir : path -> Z -> F -> F * Z;
  fs_rmdir : path -> F -> F * Z;
  fs_stat : path -> stat_t -> F -> Z * stat_t;
  fs_lstat : path -> stat_t -> F -> Z * stat_t;
  fs_chmod : path -> Z -> F -> F * Z;
  fs_chown : path -> Z -> Z -> F -> F * Z;
}.
Arguments mk_sysfs {F}.
Arguments mount_path {F}.
Arguments permissions {F}.
Arguments owner {F}.
Arguments is_devfs {F}.
Arguments fs_mkfs {F}.
Arguments fs_mount {F}.
Arguments fs_unmount {F}.
Arguments fs_open {F}.
Arguments fs_aio {F}.
Arguments fs_ioctl {F}.
Arguments fs_read {F}.
Arguments fs_write {F}.
Arguments fs_fsync {F}.
Arguments fs_close {F}.
Arguments fs_fstat {F}.
Arguments fs_rename {F}.
Arguments fs_unlink {F}.
Arguments fs_mkdir {F}.
Arguments fs_rmdir {F}.
Arguments fs_stat {F}.
Arguments fs_lstat {F}.
Arguments fs_chmod {F}.
Arguments fs_chown {F}.

(** The calls on sockets, which an IP stack outside the repository implements. *)
Inductive socket_call :=
| SockClose | SockRead (nbyte : Z) | SockWrite (buf : list Z) (nbyte : Z) | SockIoctl (request ctl : Z)
| SockFcntl (cmd arg : Z) | SockFsync.

(** What a board configures, and the C library's constants. *)
Class SosConfig (F : Type) := {
  rootfs_list : list (sysfs_t F);
  socket_api : option (socket_call -> Z -> F -> F * Z * list Z);
  stdin_dev : path;
  stdout_dev : path;
  stderr_dev : path;
  SYS_FLAG_IS_STDIO_FIFO : bool;
  STDIN_FILENO : Z;
  STDOUT_FILENO : Z;
  STDERR_FILENO : Z;
  O_CHAR : Z;                    (** marks a character device in the flags of an open file *)
}.

(** [open_file_t]; [of_fs] is an index into the list of file systems. *)
Record open_file_t := mk_file { of_fs : option nat; of_handle : Z; of_flags : Z; of_loc : Z }.
#[export] Instance open_file_inhabited : Inhabited open_file_t := populate (mk_file None 0 0 0).
Record stdio_t := mk_stdio { std_in : Z; std_out : Z; std_err : Z }.
(** The files of a process as one of its threads sees them: [p_global] are the
    standard streams of the process, [None] in its first thread. *)
Record process (F : Type) := mk_process {
  p_files : list open_file_t;
  p_fs : F;
  p_errno : Z;
  p_uid : Z;
  p_stdio : stdio_t;
  p_global : option stdio_t;
}.
Arguments mk_process {F}.
Arguments p_files {F}.
Arguments p_fs {F}.
Arguments p_errno {F}.
Arguments p_uid {F}.
Arguments p_stdio {F}.
Arguments p_global {F}.

Section State.
Context {F : Type}.
Definition with_files (l : list open_file_t) (p : process F) : process F :=
  mk_process l (p_fs p) (p_errno p) (p_uid p) (p_stdio p) (p_global p).
Definition with_fs (s : F) (p : process F) : process F :=
  mk_process (p_files p) s (p_errno p) (p_uid p) (p_stdio p) (p_global p).
Definition set_errno (e : Z) (p : process F) : process F :=
  mk_process (p_files p) (p_fs p) e (p_uid p) (p_stdio p) (p_global p).
Definition with_stdio (s : stdio_t) (p : process F) : process F :=
  mk_process (p_files p) (p_fs p) (p_errno p) (p_uid p) s (p_global p).

(** ** The table *)

Definition get_open_file (p : process F) (fildes : Z) : open_file_t := Zget (p_files p) fildes.
Definition get_handle (p : process F) (fildes : Z) : Z := of_handle (get_open_file p fildes).
Definition get_flags (p : process F) (fildes : Z) : Z := of_flags (get_open_file p fildes).
Definition get_loc (p : process F) (fildes : Z) : Z := of_loc (get_open_file p fildes).
Definition get_fs (p : process F) (fildes : Z) : option nat := of_fs (get_open_file p fildes).
Definition set_open (fildes : Z) (f : open_file_t) (p : process F) : process F := with_files (Zset (p_files p) fildes f) p.
Definition set_handle (fildes h : Z) (p : process F) : process F :=
  let f := get_open_file p fildes in set_open fildes (mk_file (of_fs f) h (of_flags f) (of_loc f)) p.
Definition set_loc (fildes loc : Z) (p : process F) : process F :=
  let f := get_open_file p fildes in set_open fildes (mk_file (of_fs f) (of_handle f) (of_flags f) loc) p.
Definition set_flags (fildes flags : Z) (p : process F) : process F :=
  let f := get_open_file p fildes in set_open fildes (mk_file (of_fs f) (of_handle f) flags (of_loc f)) p.

(** [SYSFS_PROCESS_RETURN] *)
Definition process_return (v : Z) (p : process F) : process F * Z :=
  if v <? -1 then (set_errno (SYSFS_GET_RETURN_ERRNO v) p, SYSFS_GET_RETURN v) else (p, v).
Definition FILDES_IS_SOCKET (x : Z) : bool := (0 <=? x) && Bits.any x FILDES_SOCKET_FLAG.

Section Limits.
Context {L : PosixLimits}.
(** The first free entry from [i] on. *)
Fixpoint free_fildes (fuel : nat) (i : Z) (p : process F) : Z :=
  match fuel with
  | O => -1
  | S fuel => if get_handle p i =? 0 then i else free_fildes fuel (i + 1) p
  end.
Definition svcall_assign_handle (start : Z) (p : process F) : process F * Z :=
  let i := free_fildes (Z.to_nat (OPEN_MAX - start)) start p in
  if i <? 0 then (p, -1) else (set_handle i 1 p, i).
Definition u_new_open_file (start : Z) (p : process F) : process F * Z :=
  let '(p, arg) := svcall_assign_handle start p in
  ((if arg <? 0 then set_errno EMFILE p else p), arg).
End Limits.
Definition u_reset_fildes (fildes : Z) : process F -> process F := set_handle fildes 0.
Definition set_open_file (fildes : Z) (fs : nat) (handle flags : Z) : process F -> process F :=
  set_open fildes (mk_file (Some fs) handle (u16 flags) 0).
End State.

Section Calls.
Context {L : PosixLimits} {F : Type} {C : SosConfig F}.
(** What is in memory behind the terminator of a path. *)
Context (after : path).
Implicit Types (p : process F).

Definition mounts : list path := mount_path <$> rootfs_list.

(** ** [sysfs_file.c] *)

Definition update_loc (fildes adjust : Z) p : process F :=
  if (0 <? adjust) && negb (Bits.any (get_flags p fildes) O_CHAR)
  then set_loc fildes (s32 (get_loc p fildes + adjust)) p else p.

Definition sysfs_file_open (fs : sysfs_t F) (fildes : Z) (name : path) (mode : Z) p : process F * Z :=
  if (sysfs_access (p_uid p) (permissions fs) (owner fs) X_OK).1 <? 0 then (set_errno EPERM p, -1 * 27)
  else
    let '(s, ret, handle) := fs_open fs name (get_flags p fildes) mode (get_handle p fildes) (p_fs p) in
    let p := set_handle fildes handle (with_fs s p) in
    let '(p, ret) :=
      if (0 <=? ret) && is_devfs fs then
        let '(ret, st) := fs_fstat fs (get_handle p fildes) stat0 (p_fs p) in
        if (ret =? 0) && (Z.land (st_mode st) S_IFMT =? S_IFCHR)
        then (set_flags fildes (Z.lor (get_flags p fildes) O_CHAR) p, ret) else (p, ret)
      else (p, ret) in
    process_return ret p.

(** The file system of an open file; [None] is not a state of the program. *)
Definition file_fs p (fildes : Z) : option (sysfs_t F) := i ← get_fs p fildes; rootfs_list !! i.
Definition with_file_fs {R} (fildes : Z) p (none : R) (f : sysfs_t F -> R) : R :=
  match file_fs p fildes with Some fs => f fs | None => none end.

Definition sysfs_file_read (fildes nbyte : Z) p : process F * Z * list Z :=
  with_file_fs fildes p (p, 0, []) (fun fs =>
    let '(s, bytes, out) := fs_read fs (get_handle p fildes) (get_flags p fildes) (get_loc p fildes) (s32 nbyte) (p_fs p) in
    let '(p, bytes) := process_return bytes (with_fs s p) in
    (update_loc fildes bytes p, bytes, out)).
Definition sysfs_file_write (fildes : Z) (buf : list Z) (nbyte : Z) p : process F * Z :=
  with_file_fs fildes p (p, 0) (fun fs =>
    let '(s, bytes) := fs_write fs (get_handle p fildes) (get_flags p fildes) (get_loc p fildes) buf (s32 nbyte) (p_fs p) in
    let '(p, bytes) := process_return bytes (with_fs s p) in
    (update_loc fildes bytes p, bytes)).
Definition sysfs_file_aio (fildes aiocbp : Z) p : process F * Z :=
  with_file_fs fildes p (p, 0) (fun fs =>
    let '(s, ret) := fs_aio fs (get_handle p fildes) aiocbp (p_fs p) in process_return ret (with_fs s p)).
Definition sysfs_file_close (fildes : Z) p : process F * Z :=
  with_file_fs fildes p (p, 0) (fun fs =>
    let '(s, ret, handle) := fs_close fs (get_handle p fildes) (p_fs p) in
    process_return ret (set_handle fildes handle (with_fs s p))).
Definition sysfs_file_ioctl (fildes request ctl : Z) p : process F * Z :=
  with_file_fs fildes p (p, 0) (fun fs =>
    let '(s, ret) := fs_ioctl fs (get_handle p fildes) request ctl (p_fs p) in process_return ret (with_fs s p)).
Definition sysfs_file_fsync (fildes : Z) p : process F * Z :=
  with_file_fs fildes p (p, 0) (fun fs =>
    let '(s, ret) := fs_fsync fs (get_handle p fildes) (p_fs p) in process_return ret (with_fs s p)).

(** ** Seeking *)

Definition get_size p (fildes : Z) : Z :=
  with_file_fs fildes p 0 (fun fs => s32 (st_size (fs_fstat fs (get_handle p fildes) stat0 (p_fs p)).2)).
Inductive whence_t := SEEK_SET | SEEK_CUR | SEEK_END | SEEK_OTHER.
(** [_lseek] after the descriptor was checked. *)
Definition lseek_checked (fildes offset : Z) (whence : whence_t) p : process F * Z :=
  let loc := get_loc p fildes in
  match whence with
  | SEEK_SET => let tmp := s32 offset in (set_loc fildes tmp p, tmp)
  | SEEK_CUR => let tmp := s32 (loc + s32 offset) in (set_loc fildes tmp p, tmp)
  | SEEK_END => let tmp := s32 (get_size p fildes + s32 offset) in (set_loc fildes tmp p, tmp)
  | SEEK_OTHER => (set_errno EINVAL p, -1)
  end.

(** ** Opening *)

(** [u_fildes_is_bad] for a descriptor of the table: the handle 1 marks an entry that
    is being opened. *)
Definition plain_fildes p (fildes : Z) : Z :=
  if negb (Z.land (get_handle p fildes) (Z.lnot 1) =? 0) then fildes else -1.

Definition _open (name : path) (flags mode : Z) p : process F * Z :=
  match sysfs_ispathinvalid after name with
  | Some e => (set_errno e p, -1)
  | None =>
      match sysfs_find mounts name true with
      | None => (set_errno ENOENT p, -1)
      | Some i =>
          let '(p, fildes) := u_new_open_file 0 p in
          if fildes <? 0 then (p, -1)
          else if Bits.any flags O_CREAT && (Z.land mode S_IFMT =? S_IFDIR) then (set_errno EINVAL p, -1)
          else
            let mode := if Bits.any flags O_CREAT
                        then if Z.land mode S_IFMT =? 0 then Z.lor mode S_IFREG else mode else 0 in
            let p := set_open_file fildes i 1 flags p in
            match rootfs_list !! i with
            | None => (p, -1)
            | Some fs =>
                let '(p, ret) := sysfs_file_open fs fildes (sysfs_stripmountpath (mount_path fs) name) mode p in
                if ret <? 0 then (u_reset_fildes fildes p, ret)
                else
                  (* [lseek]: the descriptor is below OPEN_MAX *)
                  ((if Bits.any flags O_APPEND && (0 <=? plain_fildes p fildes)
                    then (lseek_checked fildes 0 SEEK_END p).1 else p), fildes)
            end
      end
  end.

(** The descriptor of a standard stream, opened at its first use. *)
Definition std_file (fildes : Z) (s : stdio_t) : option Z :=
  if fildes =? STDIN_FILENO then Some (std_in s)
  else if fildes =? STDOUT_FILENO then Some (std_out s)
  else if fildes =? STDERR_FILENO then Some (std_err s) else None.
Definition u_init_stdio (fildes : Z) p : process F * Z :=
  match std_file fildes (p_stdio p) with
  | None => (set_errno EBADF p, -1)
  | Some _ =>
      let p :=
        match p_global p with
        | Some g => with_stdio g p
        | None =>
            let '(p, fin) := _open stdin_dev O_RDWR 0 p in
            if SYS_FLAG_IS_STDIO_FIFO then
              let '(p, fout) := _open stdout_dev O_RDWR 0 p in
              let '(p, ferr) := _open stderr_dev O_RDWR 0 p in
              with_stdio (mk_stdio fin fout ferr) p
            else with_stdio (mk_stdio fin fin fin) p
        end in
      (p, default (-1) (std_file fildes (p_stdio p)))
  end.
Definition u_fildes_is_bad (fildes : Z) p : process F * Z :=
  if fildes <? 0 then (set_errno EBADF p, -1)
  else if fildes <? OPEN_MAX then (p, plain_fildes p fildes)
  else if Bits.any fildes FILDES_STDIO_FLAG then u_init_stdio fildes p
  else (p, -1 * 171).

(** ** Calls on a descriptor *)

Definition on_socket {R} (call : socket_call) (fildes bad : Z) p (k : process F * Z * list Z -> R) : R :=
  match socket_api with
  | Some api => let '(s, ret, out) := api call (Z.land fildes (Z.lnot FILDES_SOCKET_FLAG)) (p_fs p) in k (with_fs s p, ret, out)
  | None => k (set_errno EBADF p, bad, [])
  end.
Definition _close (fildes : Z) p : process F * Z :=
  if FILDES_IS_SOCKET fildes then on_socket SockClose fildes (-1) p fst
  else
    let '(p, fildes) := u_fildes_is_bad fildes p in
    if fildes <? 0 then (set_errno EBADF p, -1)
    else let '(p, ret) := sysfs_file_close fildes p in (u_reset_fildes fildes p, ret).
Definition _read (fildes nbyte : Z) p : process F * Z * list Z :=
  if FILDES_IS_SOCKET fildes then on_socket (SockRead nbyte) fildes (-1) p id
  else
    let '(p, fildes) := u_fildes_is_bad fildes p in
    if fildes <? 0 then (set_errno EBADF p, -1, [])
    else if Z.land (get_flags p fildes) O_ACCMODE =? O_WRONLY then (set_errno EACCES p, -1, [])
    else sysfs_file_read fildes nbyte p.
Definition _write (fildes : Z) (buf : list Z) (nbyte : Z) p : process F * Z :=
  if FILDES_IS_SOCKET fildes then on_socket (SockWrite buf nbyte) fildes (-1) p fst
  else
    let '(p, fildes) := u_fildes_is_bad fildes p in
    if fildes <? 0 then (set_errno EBADF p, -1)
    else if Z.land (get_flags p fildes) O_ACCMODE =? O_RDONLY then (set_errno EACCES p, -1)
    else sysfs_file_write fildes buf nbyte p.
Definition _lseek (fildes offset : Z) (whence : whence_t) p : process F * Z :=
  let '(p, fildes) := u_fildes_is_bad fildes p in
  if fildes <? 0 then (p, -1) else lseek_checked fildes offset whence p.
Definition ioctl (fildes request ctl : Z) p : process F * Z :=
  if FILDES_IS_SOCKET fildes then on_socket (SockIoctl request ctl) fildes (-1) p fst
  else
    let '(p, fildes) := u_fildes_is_bad fildes p in
    if fildes <? 0 then (set_errno EBADF p, -1) else sysfs_file_ioctl fildes request ctl p.
(** The descriptor is checked before it is tested for a socket. *)
Definition fsync (fildes : Z) p : process F * Z :=
  let '(p, fildes) := u_fildes_is_bad fildes p in
  if fildes <? 0 then (set_errno EBADF p, -1)
  else if FILDES_IS_SOCKET fildes then
    match socket_api with
    | Some api => let '(s, ret, _) := api SockFsync fildes (p_fs p) in (with_fs s p, ret)
    | None => (set_errno EBADF p, -1)
    end
  else sysfs_file_fsync fildes p.
Definition _fstat (fildes : Z) p : process F * Z * stat_t :=
  let '(p, fildes) := u_fildes_is_bad fildes p in
  if fildes <? 0 then (set_errno EBADF p, -1, stat0)
  else match file_fs p fildes with
       | Some fs => let '(ret, st) := fs_fstat fs (get_handle p fildes) stat0 (p_fs p) in
                    let '(p, ret) := process_return ret p in (p, ret, st)
       | None => (set_errno EBADF p, -1, stat0)
       end.
Inductive fcntl_cmd := F_GETFL | F_SETFL | F_UNSUPPORTED | F_OTHER.
Definition _fcntl (fildes : Z) (cmd : fcntl_cmd) (cmdno tmp : Z) p : process F * Z :=
  if FILDES_IS_SOCKET fildes then on_socket (SockFcntl cmdno tmp) fildes (-1 * 54) p fst
  else
    let '(p, fildes) := u_fildes_is_bad fildes p in
    if fildes <? 0 then (set_errno EBADF p, -1 * 60)
    else match cmd with
         | F_GETFL => (p, get_flags p fildes)
         | F_SETFL => (set_flags fildes tmp p, -1)
         | F_UNSUPPORTED => (set_errno ENOTSUP p, -1)
         | F_OTHER => (set_errno EINVAL p, -1)
         end.

(** ** Calls on a path *)

(** The checks the calls share: the file system and the name it is handed. *)
Definition on_path (name : path) p (f : sysfs_t F -> path -> process F * Z) : process F * Z :=
  match sysfs_ispathinvalid after name with
  | Some e => (set_errno e p, -1)
  | None =>
      match (i ← sysfs_find mounts name true; rootfs_list !! i) with
      | Some fs => f fs (sysfs_stripmountpath (mount_path fs) name)
      | None => (set_errno ENOENT p, -1)
      end
  end.
Definition fs_call (f : F -> F * Z) p : process F * Z :=
  let '(s, ret) := f (p_fs p) in process_return ret (with_fs s p).
Definition _unlink (name : path) p : process F * Z := on_path name p (fun fs n => fs_call (fs_unlink fs n) p).
Definition mkdir (name : path) (mode : Z) p : process F * Z := on_path name p (fun fs n => fs_call (fs_mkdir fs n mode) p).
Definition rmdir (name : path) p : process F * Z := on_path name p (fun fs n => fs_call (fs_rmdir fs n) p).
Definition chmod (name : path) (mode : Z) p : process F * Z := on_path name p (fun fs n => fs_call (fs_chmod fs n mode) p).
Definition chown (name : path) (uid gid : Z) p : process F * Z :=
  on_path name p (fun fs n => fs_call (fs_chown fs n uid gid) p).
Definition _stat (name : path) p : process F * Z := on_path name p (fun fs n => process_return (fs_stat fs n stat0 (p_fs p)).1 p).
Definition lstat (name : path) p : process F * Z := on_path name p (fun fs n => process_return (fs_lstat fs n stat0 (p_fs p)).1 p).
Definition access (name : path) (amode : Z) p : process F * Z :=
  on_path name p (fun fs n =>
    let '(ret, st) := fs_stat fs n stat0 (p_fs p) in
    if ret <? 0 then process_return ret p
    else match sysfs_access (p_uid p) (st_mode st) (st_uid st) amode with
         | (r, Some e) => (set_errno e p, r)
         | (r, None) => (p, r)
         end).
Definition _rename (old new : path) p : process F * Z :=
  match sysfs_ispathinvalid after old, sysfs_ispathinvalid after new with
  | Some e, _ | None, Some e => (set_errno e p, -1)
  | None, None =>
      match sysfs_find mounts old true, sysfs_find mounts new true with
      | Some i, Some j =>
          if bool_decide (i = j) then
            match rootfs_list !! i with
            | Some fs =>
                let '(s, ret) := fs_rename fs (sysfs_stripmountpath (mount_path fs) old)
                                   (sysfs_stripmountpath (mount_path fs) new) (p_fs p) in (with_fs s p, ret)
            | None => (p, -1)
            end
          else (set_errno ENOTSUP p, -1)
      | _, _ => (set_errno ENOTSUP p, -1)
      end
  end.
(** [mkfs], [mount] and [unmount] of [sysfs.c]. *)
Definition on_mount (name : path) p (f : sysfs_t F -> F -> F * Z) : process F * Z :=
  match (i ← sysfs_find mounts name false; rootfs_list !! i) with
  | Some fs => fs_call (f fs) p
  | None => (set_errno ENOENT p, -1)
  end.
Definition mkfs (name : path) p : process F * Z := on_mount name p fs_mkfs.
Definition mount (name : path) p : process F * Z := on_mount name p fs_mount.
Definition unmount (name : path) p : process F * Z := on_mount name p fs_unmount.
End Calls.

Lemma socket_flag_small fd : 0 <= fd < 1024 -> Bits.any fd FILDES_SOCKET_FLAG = false.
Proof.
  intros H. unfold Bits.any, FILDES_SOCKET_FLAG. change 1024 with (Z.shiftl 1 10). rewrite land_bit by lia.
  assert (Z.testbit fd 10 = false) as ->; [|done]. destruct (decide (fd = 0)) as [->|]; [done|].
  apply Z.bits_above_log2; [lia|]. apply Z.log2_lt_pow2; lia.
Qed.

(** ** The table under the operations *)

Section Table.
Context {L : PosixLimits} {F : Type}.
Implicit Types (p : process F).

Definition table_ok p : Prop := Zlen (p_files p) = OPEN_MAX.
Lemma get_set_open i j f p : table_ok p -> 0 <= i < OPEN_MAX -> 0 <= j < OPEN_MAX ->
  get_open_file (set_open i f p) j = if decide (i = j) then f else get_open_file p j.
Proof. intros Hl Hi Hj. unfold get_open_file, set_open. cbn [p_files with_files]. apply Zget_Zset; rewrite ?Hl; lia. Qed.
Lemma get_set_open_eq i f p : table_ok p -> 0 <= i < OPEN_MAX -> get_open_file (set_open i f p) i = f.
Proof. intros. rewrite get_set_open by done. by rewrite decide_True. Qed.
Lemma get_set_open_ne i j f p : table_ok p -> 0 <= i < OPEN_MAX -> 0 <= j < OPEN_MAX -> i <> j ->
  get_open_file (set_open i f p) j = get_open_file p j.
Proof. intros. rewrite get_set_open by done. by rewrite decide_False. Qed.
Lemma table_ok_set i f p : table_ok p -> table_ok (set_open i f p).
Proof. unfold table_ok, set_open. cbn. by rewrite Zlen_Zset. Qed.

(** Only entry [i] of the table may differ. *)
Definition only_entry (i : Z) p p' : Prop :=
  table_ok p' /\ forall j, 0 <= j < OPEN_MAX -> j <> i -> get_open_file p' j = get_open_file p j.
Lemma only_entry_set i f p : table_ok p -> 0 <= i < OPEN_MAX -> only_entry i p (set_open i f p).
Proof. intros Hl Hi. split; [by apply table_ok_set|]. intros j Hj Hne. by apply get_set_open_ne. Qed.
Lemma only_entry_trans i p1 p2 p3 : only_entry i p1 p2 -> only_entry i p2 p3 -> only_entry i p1 p3.
Proof. intros [_ H1] [H2 H3]. split; [done|]. intros j Hj Hne. by rewrite H3, H1. Qed.

Lemma free_fildes_spec p : forall fuel i, 0 <= i ->
  let r := free_fildes fuel i p in
  (r = -1 /\ forall j, i <= j < i + Z.of_nat fuel -> get_handle p j <> 0) \/
  (i <= r < i + Z.of_nat fuel /\ get_handle p r = 0 /\ forall j, i <= j < r -> get_handle p j <> 0).
Proof.
  induction fuel as [|fuel IH]; intros i Hi; cbn [free_fildes]; [left; split; [done|lia]|].
  destruct (Z.eqb_spec (get_handle p i) 0) as [E|E]; [right; split_and!; try lia; done|].
  destruct (IH (i + 1) ltac:(lia)) as [[-> H]|(H1 & H2 & H3)]; [left; split; [done|]|right; split_and!; try done; try lia];
    intros j Hj; destruct (decide (j = i)) as [->|]; [done|apply H; lia|done|apply H3; lia].
Qed.
(** A new descriptor is the lowest free one; without a free one [errno] says so. *)
Lemma new_open_file_spec p : table_ok p -> 0 <= OPEN_MAX ->
  let '(p', fd) := u_new_open_file 0 p in
  (fd = -1 /\ p' = set_errno EMFILE p /\ forall j, 0 <= j < OPEN_MAX -> get_handle p j <> 0) \/
  (0 <= fd < OPEN_MAX /\ get_handle p fd = 0 /\ (forall j, 0 <= j < fd -> get_handle p j <> 0) /\ p' = set_handle fd 1 p).
Proof.
  intros Hl Hm. unfold u_new_open_file, svcall_assign_handle.
  destruct (free_fildes_spec p (Z.to_nat (OPEN_MAX - 0)) 0 ltac:(lia)) as [[-> H]|(H1 & H2 & H3)].
  - change (-1 <? 0) with true. cbv iota. left. split_and!; [done|done|]. intros j Hj. apply H. lia.
  - set (i := free_fildes _ 0 p) in *. clearbody i. rewrite (proj2 (Z.ltb_ge i 0)) by lia. rewrite (proj2 (Z.ltb_ge i 0)) by lia.
    right. split_and!; try done; lia.
Qed.
End Table.

(** ** Opening a file *)

Section Open.
Context {L : PosixLimits} {F : Type} {C : SosConfig F}.
Context (after : path).
Implicit Types (p : process F).

Lemma process_return_files v p : p_files (process_return v p).1 = p_files p.
Proof. unfold process_return. by destruct (v <? -1). Qed.
Lemma process_return_nonneg v p : 0 <= v -> process_return v p = (p, v).
Proof. intros. unfold process_return. by rewrite (proj2 (Z.ltb_ge v (-1))) by lia. Qed.
Lemma set_handle_entry i h p : table_ok p -> 0 <= i < OPEN_MAX ->
  get_open_file (set_handle i h p) i = mk_file (get_fs p i) h (get_flags p i) (get_loc p i).
Proof. intros. unfold set_handle. by rewrite get_set_open_eq. Qed.
Lemma only_entry_files i p p' p'' : p_files p'' = p_files p' -> only_entry i p p' -> only_entry i p p''.
Proof. unfold only_entry, table_ok, get_open_file. by intros ->. Qed.

(** The file system's answer to an open. *)
Lemma file_open_spec fs fd name mode p : table_ok p -> 0 <= fd < OPEN_MAX -> is_devfs fs = false ->
  (sysfs_access (p_uid p) (permissions fs) (owner fs) X_OK).1 = 0 ->
  let '(s, ret, h) := fs_open fs name (get_flags p fd) mode (get_handle p fd) (p_fs p) in
  sysfs_file_open fs fd name mode p = process_return ret (set_handle fd h (with_fs s p)).
Proof.
  intros Hl Hfd Hd Ha. unfold sysfs_file_open. rewrite Ha, Hd. change (0 <? 0) with false. cbv iota.
  destruct (fs_open fs name (get_flags p fd) mode (get_handle p fd) (p_fs p)) as [[s ret] h]. by rewrite andb_false_r.
Qed.

Record opens (p : process F) (name : path) (flags mode : Z) (i : nat) (fs : sysfs_t F) (fd : Z) : Prop := {
  op_valid : sysfs_ispathinvalid after name = None;
  op_find : sysfs_find mounts name true = Some i;
  op_fs : rootfs_list !! i = Some fs;
  op_regular : is_devfs fs = false;
  op_access : (sysfs_access (p_uid p) (permissions fs) (owner fs) X_OK).1 = 0;
  op_mode : Bits.any flags O_CREAT = true -> Z.land mode S_IFMT <> S_IFDIR;
  op_free : 0 <= fd < OPEN_MAX /\ get_handle p fd = 0 /\ forall j, 0 <= j < fd -> get_handle p j <> 0;
}.
(** A result as the file systems give it: success, -1, or an error number with a line
    number above it. *)
Definition result_ok (ret : Z) : Prop := -1 <= ret \/ ret <= -256.
Lemma process_return_negative ret p : result_ok ret -> ret < 0 -> (process_return ret p).2 < 0.
Proof.
  intros Hok Hneg. unfold process_return. destruct (Z.ltb_spec ret (-1)); [|done]. cbn [snd]. unfold SYSFS_GET_RETURN.
  rewrite Z.shiftr_div_pow2 by lia. unfold result_ok in Hok. assert (1 <= -1 * ret / 2 ^ 8); [|lia]. apply Z.div_le_lower_bound; lia.
Qed.
Definition open_mode (flags mode : Z) : Z :=
  if Bits.any flags O_CREAT then if Z.land mode S_IFMT =? 0 then Z.lor mode S_IFREG else mode else 0.

Lemma new_file_lowest p fd : table_ok p -> (0 <= fd < OPEN_MAX /\ get_handle p fd = 0 /\ forall j, 0 <= j < fd -> get_handle p j <> 0) ->
  u_new_open_file 0 p = (set_handle fd 1 p, fd).
Proof.
  intros Hl (Hr & Hz & Hlow). pose proof (new_open_file_spec p Hl ltac:(lia)) as N. destruct (u_new_open_file 0 p) as [p' fd'].
  destruct N as [(_ & _ & H)|(H1 & H2 & H3 & ->)]; [by destruct (H fd Hr)|].
  assert (fd' = fd) as ->; [|done]. destruct (Z.lt_trichotomy fd' fd) as [?|[?|?]]; [by destruct (Hlow fd' ltac:(lia))|done|by destruct (H3 fd ltac:(lia))].
Qed.

Lemma open_eq p name flags mode i fs fd : table_ok p -> opens p name flags mode i fs fd ->
  let name' := sysfs_stripmountpath (mount_path fs) name in
  let '(s, ret, h) := fs_open fs name' (u16 flags) (open_mode flags mode) 1 (p_fs p) in
  result_ok ret -> exists p1, p_files p1 = p_files (set_open fd (mk_file (Some i) h (u16 flags) 0) p) /\ p_fs p1 = s /\
    only_entry fd p p1 /\ get_open_file p1 fd = mk_file (Some i) h (u16 flags) 0 /\
    _open after name flags mode p =
      if ret <? 0 then (u_reset_fildes fd (process_return ret p1).1, (process_return ret p1).2)
      else ((if Bits.any flags O_APPEND && (0 <=? plain_fildes p1 fd) then (lseek_checked fd 0 SEEK_END p1).1 else p1), fd).
Proof.
  intros Hl [Hv Hf Hfs Hd Ha Hm Hfree]. destruct (Hfree) as (Hr & _). unfold _open. rewrite Hv, Hf, (new_file_lowest p fd Hl Hfree).
  rewrite (proj2 (Z.ltb_ge fd 0)) by lia.
  assert (Bits.any flags O_CREAT && (Z.land mode S_IFMT =? S_IFDIR) = false) as ->.
  { destruct (Bits.any flags O_CREAT); [|done]. cbn [andb]. apply Z.eqb_neq. by apply Hm. }
  rewrite Hfs. fold (open_mode flags mode). set (p0 := set_open_file fd i 1 flags (set_handle fd 1 p)).
  assert (Hl1 : table_ok (set_handle fd 1 p)) by (by apply table_ok_set).
  assert (Hl0 : table_ok p0) by (by apply table_ok_set).
  assert (E0 : get_open_file p0 fd = mk_file (Some i) 1 (u16 flags) 0) by (by apply get_set_open_eq).
  assert (O0 : only_entry fd p p0) by (eapply only_entry_trans; by apply only_entry_set).
  pose proof (file_open_spec fs fd (sysfs_stripmountpath (mount_path fs) name) (open_mode flags mode) p0 Hl0 Hr Hd Ha) as FO.
  unfold get_flags, get_handle in FO. rewrite E0 in FO. cbn [of_flags of_handle] in FO. change (p_fs p0) with (p_fs p) in FO.
  cbv zeta. destruct (fs_open fs _ (u16 flags) (open_mode flags mode) 1 (p_fs p)) as [[s ret] h]. rewrite FO. intros Hret.
  set (p1 := set_handle fd h (with_fs s p0)). exists p1.
  assert (E1 : get_open_file p1 fd = mk_file (Some i) h (u16 flags) 0).
  { unfold p1. rewrite set_handle_entry by done. unfold get_fs, get_flags, get_loc.
    change (get_open_file (with_fs s p0) fd) with (get_open_file p0 fd). by rewrite E0. }
  assert (O1 : only_entry fd p p1) by (eapply only_entry_trans; [exact O0|]; by apply (only_entry_set fd _ (with_fs s p0))).
  split; [|split; [done|split; [exact O1|split; [exact E1|]]]].
  - destruct O1 as [Hl1' O1]. apply Zget_ext.
    + unfold table_ok in *. rewrite Hl1'. cbn [set_open p_files with_files]. by rewrite Zlen_Zset, Hl.
    + intros j Hj. unfold table_ok in Hl1'. rewrite Hl1' in Hj. destruct (decide (j = fd)) as [->|Hne].
      * change (get_open_file p1 fd = get_open_file (set_open fd (mk_file (Some i) h (u16 flags) 0) p) fd). by rewrite get_set_open_eq.
      * etrans; [apply (O1 j Hj Hne)|]. symmetry. by apply (get_set_open_ne fd j); auto.
  - destruct (Z.ltb_spec ret 0) as [Hneg|Hpos].
    + pose proof (process_return_negative ret p1 Hret Hneg). destruct (process_return ret p1) as [p2 r2].
      cbn [fst snd] in *. by rewrite (proj2 (Z.ltb_lt r2 0)).
    + rewrite process_return_nonneg by done. by rewrite (proj2 (Z.ltb_ge ret 0)).
Qed.
End Open.

Lemma open_result (L : PosixLimits) (F : Type) (C : SosConfig F) after p name flags mode i fs fd s ret h :
  table_ok p -> opens after p name flags mode i fs fd ->
  fs_open fs (sysfs_stripmountpath (mount_path fs) name) (u16 flags) (open_mode flags mode) 1 (p_fs p) = (s, ret, h) ->
  result_ok ret -> (0 <= ret -> Z.land h (Z.lnot 1) <> 0) ->
  let '(p', r) := _open after name flags mode p in
  only_entry fd p p' /\ p_fs p' = s /\
  (0 <= ret -> r = fd /\
     get_open_file p' fd = mk_file (Some i) h (u16 flags) (if Bits.any flags O_APPEND then s32 (s32 (st_size (fs_fstat fs h stat0 s).2)) else 0)) /\
  (ret < 0 -> r < 0 /\ (ret = -1 -> r = -1) /\ get_handle p' fd = 0 /\ (ret < -1 -> p_errno p' = SYSFS_GET_RETURN_ERRNO ret)).
Proof.
  intros Hl Hop Eop Hret Hh. pose proof (open_eq after p name flags mode i fs fd Hl Hop) as E. cbv zeta in E. rewrite Eop in E.
  destruct (E Hret) as (p1 & _ & Hs & O & G & ->). destruct Hop as [_ _ Hfs _ _ _ [Hfd _]]. pose proof O as [Hl1 _].
  destruct (Z.ltb_spec ret 0) as [Hneg|Hpos].
  - pose proof (process_return_negative ret p1 Hret Hneg) as Hr. pose proof (process_return_files ret p1) as Hpf.
    assert (Hs2 : p_fs (process_return ret p1).1 = s) by (unfold process_return; by destruct (ret <? -1)).
    assert (He : ret < -1 -> p_errno (process_return ret p1).1 = SYSFS_GET_RETURN_ERRNO ret)
      by (intros; unfold process_return; by rewrite (proj2 (Z.ltb_lt ret (-1)))).
    set (p2 := (process_return ret p1).1) in *. assert (O2 : only_entry fd p p2) by (by apply (only_entry_files fd p p1)).
    unfold u_reset_fildes. split; [eapply only_entry_trans; [exact O2|]; apply only_entry_set; [apply O2|done]|].
    split; [exact Hs2|]. split; [lia|]. intros _. split; [exact Hr|]. split; [by intros ->|]. split; [|exact He].
    unfold get_handle. rewrite set_handle_entry by (done || apply O2). done.
  - assert (Hp : plain_fildes p1 fd = fd).
    { unfold plain_fildes, get_handle. rewrite G. cbn [of_handle]. by rewrite (proj2 (Z.eqb_neq _ 0) (Hh Hpos)). }
    rewrite Hp, (proj2 (Z.leb_le 0 fd)), andb_true_r by lia. destruct (Bits.any flags O_APPEND).
    + unfold lseek_checked. cbn [fst]. set (n := s32 (get_size p1 fd + s32 0)).
      assert (Hn : n = s32 (s32 (st_size (fs_fstat fs h stat0 s).2))).
      { unfold n, get_size, with_file_fs, file_fs, get_fs, get_handle. rewrite G. cbn [of_fs of_handle mbind option_bind].
        rewrite Hfs, Hs. f_equal. change (s32 0) with 0. apply Z.add_0_r. }
      split; [eapply only_entry_trans; [exact O|]; by apply only_entry_set|]. split; [exact Hs|]. split; [|lia]. intros _. split; [done|].
      unfold set_loc. rewrite get_set_open_eq, G by done. by rewrite Hn.
    + split; [exact O|]. split; [exact Hs|]. split; [|lia]. intros _. by split.
Qed.

(** Opening a file: the lowest free descriptor is taken and no other entry of the table
    changes.  When the file system succeeds, the entry has its handle, the flags and
    the position 0, or the end of the file when appending; when it fails, the result is
    negative, [errno] is the error number of its answer, and the entry is free again. *)
Theorem open_spec (L : PosixLimits) (F : Type) (C : SosConfig F) after p name flags mode i fs fd s ret h :
  table_ok p -> opens after p name flags mode i fs fd ->
  fs_open fs (sysfs_stripmountpath (mount_path fs) name) (u16 flags) (open_mode flags mode) 1 (p_fs p) = (s, ret, h) ->
  result_ok ret -> (0 <= ret -> Z.land h (Z.lnot 1) <> 0) ->
  let '(p', r) := _open after name flags mode p in
  only_entry fd p p' /\ p_fs p' = s /\
  (0 <= ret -> r = fd /\
     get_open_file p' fd = mk_file (Some i) h (u16 flags) (if Bits.any flags O_APPEND then s32 (s32 (st_size (fs_fstat fs h stat0 s).2)) else 0)) /\
  (ret < 0 -> r < 0 /\ (ret = -1 -> r = -1) /\ get_handle p' fd = 0 /\ (ret < -1 -> p_errno p' = SYSFS_GET_RETURN_ERRNO ret)).
Proof. apply open_result. Qed.

(** Creating a directory with [open] is refused, but after a descriptor was taken: it
    stays marked as being opened, and neither a file nor a call of [close] can use it
    again. *)
Theorem open_directory_leaks (L : PosixLimits) (F : Type) (C : SosConfig F) after p name flags mode i fd :
  table_ok p -> OPEN_MAX <= 512 -> sysfs_ispathinvalid after name = None -> sysfs_find mounts name true = Some i ->
  (0 <= fd < OPEN_MAX /\ get_handle p fd = 0 /\ forall j, 0 <= j < fd -> get_handle p j <> 0) ->
  Bits.any flags O_CREAT = true -> Z.land mode S_IFMT = S_IFDIR ->
  exists p', _open after name flags mode p = (p', -1) /\ p_errno p' = EINVAL /\ get_handle p' fd = 1 /\
    _close after fd p' = (set_errno EBADF p', -1).
Proof.
  intros Hl Hmax Hv Hf Hfree Hc Hm. destruct (Hfree) as (Hr & _). unfold _open. rewrite Hv, Hf, (new_file_lowest p fd Hl Hfree).
  rewrite (proj2 (Z.ltb_ge fd 0)), Hc, Hm, Z.eqb_refl by lia. cbn [andb]. eexists. split; [done|]. split; [done|].
  assert (Hh : get_handle (set_errno EINVAL (set_handle fd 1 p)) fd = 1).
  { change (get_handle (set_handle fd 1 p) fd = 1). unfold get_handle. by rewrite set_handle_entry. }
  split; [exact Hh|]. unfold _close, FILDES_IS_SOCKET.
  rewrite (socket_flag_small fd) by lia. rewrite andb_false_r. unfold u_fildes_is_bad.
  rewrite (proj2 (Z.ltb_ge fd 0)), (proj2 (Z.ltb_lt fd OPEN_MAX)) by lia. unfold plain_fildes. rewrite Hh. done.
Qed.

(** ** Open descriptors *)

Section Descriptors.
Context {L : PosixLimits} {F : Type} {C : SosConfig F} (after : path).
Implicit Types (p : process F).

(** [fd] is open, with handle [h] of file system [fs]. *)
Record is_open p (fd : Z) (fs : sysfs_t F) (h : Z) : Prop := {
  io_table : table_ok p;
  io_fd : 0 <= fd < OPEN_MAX /\ OPEN_MAX <= 512;
  io_fs : file_fs p fd = Some fs;
  io_handle : get_handle p fd = h /\ Z.land h (Z.lnot 1) <> 0;
}.
Lemma open_fildes p fd fs h : is_open p fd fs h ->
  FILDES_IS_SOCKET fd = false /\ u_fildes_is_bad after fd p = (p, fd) /\ (fd <? 0) = false.
Proof.
  intros [_ [Hfd Hm] _ [<- Hh]]. unfold FILDES_IS_SOCKET, u_fildes_is_bad, plain_fildes.
  rewrite (socket_flag_small fd), andb_false_r by lia. rewrite (proj2 (Z.ltb_ge fd 0)), (proj2 (Z.ltb_lt fd OPEN_MAX)) by lia.
  by rewrite (proj2 (Z.eqb_neq _ 0)).
Qed.
End Descriptors.

(** ** Reading a file

    What a file system that stores files promises about its reads: a handle stands for a
    list of bytes, a read returns the bytes from the position on, as many as there are
    and were asked for, and changes nothing; [fstat] tells the length. *)
Class FileContents {F : Type} (fs : sysfs_t F) := {
  contents : F -> Z -> option (list Z);
  contents_read s h c flags loc n : contents s h = Some c -> Z.land flags O_ACCMODE = O_RDONLY -> 0 <= loc < 2 ^ 31 -> 0 <= n < 2 ^ 31 ->
    let out := take (Z.to_nat n) (drop (Z.to_nat loc) c) in fs_read fs h flags loc n s = (s, Zlen out, out);
  contents_size s h c : contents s h = Some c -> Zlen c < 2 ^ 31 /\ st_size (fs_fstat fs h stat0 s).2 = Zlen c;
}.

(** Several reads in a row. *)
Fixpoint read_each {L : PosixLimits} {F} {C : SosConfig F} (after : path) (fd : Z) (ns : list Z) (p : process F)
    : process F * list (Z * list Z) :=
  match ns with
  | [] => (p, [])
  | n :: ns =>
      let '(p, r, out) := _read after fd n p in
      let '(p, rs) := read_each after fd ns p in (p, (r, out) :: rs)
  end.
(** The pieces that lie from position [loc] on. *)
Fixpoint pieces (c : list Z) (loc : Z) (ns : list Z) : list (list Z) :=
  match ns with
  | [] => []
  | n :: ns => let out := take (Z.to_nat n) (drop (Z.to_nat loc) c) in out :: pieces c (loc + Zlen out) ns
  end.

Section Reading.
Context {L : PosixLimits} {F : Type} {C : SosConfig F} (after : path).
Context (fs : sysfs_t F) {FC : FileContents fs}.
Implicit Types (p : process F).

(** [fd] is open for reading on a file with contents [c], at position [loc]. *)
Record reading p (fd : Z) (c : list Z) (loc : Z) : Prop := {
  rd_table : table_ok p;
  rd_fd : 0 <= fd < OPEN_MAX /\ OPEN_MAX <= 512;
  rd_fs : file_fs p fd = Some fs;
  rd_handle : Z.land (get_handle p fd) (Z.lnot 1) <> 0;
  rd_contents : contents (p_fs p) (get_handle p fd) = Some c;
  rd_flags : Z.land (get_flags p fd) O_ACCMODE = O_RDONLY /\ Bits.any (get_flags p fd) O_CHAR = false;
  rd_loc : get_loc p fd = loc /\ 0 <= loc < 2 ^ 31;
}.

Lemma reading_open p fd c loc : reading p fd c loc -> is_open p fd fs (get_handle p fd).
Proof. by intros [? ? ? ? ? ? ?]. Qed.
Lemma checked_fildes p fd c loc : reading p fd c loc ->
  FILDES_IS_SOCKET fd = false /\ u_fildes_is_bad after fd p = (p, fd) /\ (fd <? 0) = false.
Proof. intros H. by eapply open_fildes, reading_open. Qed.
Lemma moved p fd c loc loc' : reading p fd c loc -> 0 <= loc' < 2 ^ 31 -> reading (set_loc fd loc' p) fd c loc'.
Proof.
  intros [Ht [Hfd Hm] Hfs Hh Hc Hfl _] Hl'. assert (G : get_open_file (set_loc fd loc' p) fd
    = mk_file (get_fs p fd) (get_handle p fd) (get_flags p fd) loc') by (unfold set_loc; by rewrite get_set_open_eq).
  split; unfold file_fs, get_fs, get_handle, get_flags, get_loc in *; rewrite ?G; try done. by apply table_ok_set.
Qed.
Lemma read_spec p fd c loc n : reading p fd c loc -> 0 <= n < 2 ^ 31 ->
  let out := take (Z.to_nat n) (drop (Z.to_nat loc) c) in
  exists p', _read after fd n p = (p', Zlen out, out) /\ reading p' fd c (loc + Zlen out) /\ only_entry fd p p' /\
    p_fs p' = p_fs p /\ get_handle p' fd = get_handle p fd.
Proof.
  intros H Hn out. destruct (checked_fildes p fd c loc H) as (E1 & E2 & E3). pose proof H as [Ht [Hfd Hm] Hfs Hh Hc [Hf1 Hf2] [Hl1 Hl2]].
  unfold _read. rewrite E1, E2, E3, Hf1. change (O_RDONLY =? O_WRONLY) with false. cbv iota. unfold sysfs_file_read, with_file_fs.
  rewrite Hfs, (s32_id n), Hl1 by lia. pose proof (contents_read (p_fs p) (get_handle p fd) c (get_flags p fd) loc n Hc Hf1 ltac:(lia) Hn) as R.
  cbv zeta in R. fold out in R. rewrite R. pose proof (Zlen_nonneg out) as Ho.
  assert (Hlen : Zlen out <= Zlen c - loc \/ Zlen out = 0) by (unfold out, Zlen; rewrite length_take, length_drop; lia).
  destruct (contents_size _ _ _ Hc) as [Hcs _].
  change (with_fs (p_fs p) p) with (mk_process (p_files p) (p_fs p) (p_errno p) (p_uid p) (p_stdio p) (p_global p)).
  replace (mk_process (p_files p) (p_fs p) (p_errno p) (p_uid p) (p_stdio p) (p_global p)) with p by (by destruct p).
  rewrite process_return_nonneg by lia. unfold update_loc. rewrite Hf2, Hl1, andb_true_r. destruct (Z.ltb_spec 0 (Zlen out)).
  - rewrite s32_id by lia. eexists. split; [done|]. split; [apply (moved p fd c loc); [done|lia]|].
    split; [by apply only_entry_set|]. split; [done|]. unfold get_handle, set_loc. by rewrite get_set_open_eq.
  - replace (loc + Zlen out) with loc by lia. exists p. split; [done|]. split; [done|]. split; [split; [done|]|]; done.
Qed.
Lemma read_each_spec fd c : forall ns p loc, reading p fd c loc -> Forall (fun n => 0 <= n < 2 ^ 31) ns ->
  exists p', read_each after fd ns p = (p', (fun out => (Zlen out, out)) <$> pieces c loc ns) /\
    reading p' fd c (loc + Zlen (concat (pieces c loc ns))) /\ only_entry fd p p' /\
    p_fs p' = p_fs p /\ get_handle p' fd = get_handle p fd.
Proof.
  induction ns as [|n ns IH]; intros p loc H Hns; cbn [read_each pieces].
  - exists p. cbn [concat fmap list_fmap]. rewrite (@Zlen_nil Z), Z.add_0_r. split_and!; try done. split; [apply H|done].
  - apply Forall_cons in Hns as [Hn Hns]. destruct (read_spec p fd c loc n H Hn) as (p1 & E & H1 & O1 & S1 & G1). rewrite E.
    destruct (IH p1 _ H1 Hns) as (p' & E' & H' & O' & S' & G'). rewrite E'. exists p'. cbn [concat fmap list_fmap].
    split; [done|].
    split; [rewrite Zlen_app, Z.add_assoc; exact H'|]. split; [by eapply only_entry_trans|]. split; congruence.
Qed.
End Reading.
Lemma results_snd (l : list (list Z)) : snd <$> ((fun out => (Zlen out, out)) <$> l) = l.
Proof. rewrite <- list_fmap_compose. by apply list_fmap_id. Qed.
Lemma pieces_concat c : forall ns loc, Forall (fun n => 0 <= n) ns -> 0 <= loc ->
  concat (pieces c loc ns) = take (Z.to_nat (foldr Z.add 0 ns)) (drop (Z.to_nat loc) c).
Proof.
  induction ns as [|n ns IH]; intros loc Hns Hl; cbn [pieces concat foldr]; [done|]. apply Forall_cons in Hns as [Hn Hns].
  set (out := take (Z.to_nat n) (drop (Z.to_nat loc) c)). assert (0 <= foldr Z.add 0 ns).
  { clear -Hns. induction Hns; cbn [foldr]; lia. }
  pose proof (Zlen_nonneg out). rewrite IH by (done || lia). rewrite (Z2Nat.inj_add n) by done.
  destruct (decide (Z.to_nat n <= length (drop (Z.to_nat loc) c))%nat) as [Hle|Hgt].
  - assert (Ho : length out = Z.to_nat n) by (unfold out; rewrite length_take; lia).
    rewrite <- (take_take_drop _ (Z.to_nat n)). fold out. f_equal. rewrite drop_drop. do 2 f_equal. unfold Zlen. lia.
  - assert (Ho : out = drop (Z.to_nat loc) c) by (unfold out; apply take_ge; lia). rewrite (take_ge _ (Z.to_nat n + _)) by lia.
    rewrite Ho. rewrite (drop_ge c (Z.to_nat (loc + _))); [by rewrite take_nil, app_nil_r|].
    rewrite length_drop in Hgt. unfold Zlen. rewrite length_drop. lia.
Qed.

(** Where a file of [size] bytes is after a seek from [loc]. *)
Definition seek_target (size loc offset : Z) (whence : whence_t) : option Z :=
  match whence with
  | SEEK_SET => Some offset
  | SEEK_CUR => Some (loc + offset)
  | SEEK_END => Some (size + offset)
  | SEEK_OTHER => None
  end.
Section Seeking.
Context {L : PosixLimits} {F : Type} {C : SosConfig F} (after : path).
Context (fs : sysfs_t F) {FC : FileContents fs}.
Implicit Types (p : process F).

Lemma lseek_spec p fd c loc offset whence pos : reading fs p fd c loc -> - 2 ^ 31 <= offset < 2 ^ 31 ->
  seek_target (Zlen c) loc offset whence = Some pos -> 0 <= pos < 2 ^ 31 ->
  exists p', _lseek after fd offset whence p = (p', pos) /\ reading fs p' fd c pos /\ only_entry fd p p'.
Proof.
  intros H Ho Ht Hp. destruct (checked_fildes after fs p fd c loc H) as (_ & E2 & E3).
  pose proof H as [Htab [Hfd Hm] Hfs Hh Hc _ [Hl1 Hl2]]. unfold _lseek. rewrite E2, E3. unfold lseek_checked. rewrite Hl1.
  destruct (contents_size _ _ _ Hc) as [Hcs Hst]. pose proof (Zlen_nonneg c).
  assert (G : get_size p fd = Zlen c) by (unfold get_size, with_file_fs; rewrite Hfs, Hst; apply s32_id; lia).
  exists (set_loc fd pos p). split; [|split; [by apply (moved fs p fd c loc)|by apply only_entry_set]].
  destruct whence; cbn [seek_target] in Ht; [| | |done]; rewrite ?G, (s32_id offset) by done; simplify_eq; by rewrite ?s32_id by lia.
Qed.
End Seeking.

(** Successive reads of a file return consecutive pieces of its contents from the
    position of the descriptor on, up to the end of the file and no further, each with
    its length; nothing is skipped or returned twice, the file is not changed and no
    other descriptor moves. *)
Theorem read_sequence (L : PosixLimits) (F : Type) (C : SosConfig F) after (fs : sysfs_t F) (FC : FileContents fs) p fd c loc ns :
  reading fs p fd c loc -> Forall (fun n => 0 <= n < 2 ^ 31) ns ->
  let '(p', rs) := read_each after fd ns p in
  concat (snd <$> rs) = take (Z.to_nat (foldr Z.add 0 ns)) (drop (Z.to_nat loc) c) /\
  Forall (fun r => r.1 = Zlen r.2) rs /\
  reading fs p' fd c (loc + Zlen (concat (snd <$> rs))) /\ only_entry fd p p'.
Proof.
  intros H Hns. destruct (read_each_spec after fs fd c ns p loc H Hns) as (p' & E & H' & O & _). rewrite E.
  rewrite results_snd. split; [|split; [|by split]].
  - apply pieces_concat; [|apply H]. eapply Forall_impl; [exact Hns|]. cbv beta. lia.
  - apply Forall_fmap. by apply Forall_true.
Qed.

(** A seek from the start, from the position or from the end of a file to a position
    that is not negative returns the position, and a read after it returns the bytes
    that are there; after a seek past the end it returns none. *)
Theorem seek_then_read (L : PosixLimits) (F : Type) (C : SosConfig F) after (fs : sysfs_t F) (FC : FileContents fs)
    p fd c loc offset whence pos n :
  reading fs p fd c loc -> - 2 ^ 31 <= offset < 2 ^ 31 -> seek_target (Zlen c) loc offset whence = Some pos ->
  0 <= pos < 2 ^ 31 -> 0 <= n < 2 ^ 31 ->
  let out := take (Z.to_nat n) (drop (Z.to_nat pos) c) in
  exists p1 p2, _lseek after fd offset whence p = (p1, pos) /\ _read after fd n p1 = (p2, Zlen out, out) /\
    reading fs p2 fd c (pos + Zlen out) /\ only_entry fd p p2.
Proof.
  intros H Ho Ht Hp Hn out. destruct (lseek_spec after fs p fd c loc offset whence pos H Ho Ht Hp) as (p1 & E1 & H1 & O1).
  destruct (read_spec after fs p1 fd c pos n H1 Hn) as (p2 & E2 & H2 & O2 & _). exists p1, p2. split_and!; try done.
  by eapply only_entry_trans.
Qed.

(** The position of a descriptor may become negative: a seek does not check it. *)
Theorem lseek_negative (L : PosixLimits) (F : Type) (C : SosConfig F) after (fs : sysfs_t F) (FC : FileContents fs) p fd c loc offset :
  reading fs p fd c loc -> - 2 ^ 31 <= offset < 0 ->
  exists p', _lseek after fd offset SEEK_SET p = (p', offset) /\ get_loc p' fd = offset.
Proof.
  intros H Ho. destruct (checked_fildes after fs p fd c loc H) as (_ & E2 & E3). pose proof H as [Htab [Hfd Hm] _ _ _ _ _].
  unfold _lseek. rewrite E2, E3. unfold lseek_checked. rewrite s32_id by lia. eexists. split; [done|].
  unfold get_loc, set_loc. by rewrite get_set_open_eq.
Qed.

Section Closing.
Context {L : PosixLimits} {F : Type} {C : SosConfig F} (after : path).
Implicit Types (p : process F).

Lemma closed_fildes p fd : 0 <= fd < OPEN_MAX -> OPEN_MAX <= 512 -> get_handle p fd = 0 ->
  FILDES_IS_SOCKET fd = false /\ u_fildes_is_bad after fd p = (p, -1).
Proof.
  intros Hfd Hm Hh. unfold FILDES_IS_SOCKET, u_fildes_is_bad, plain_fildes.
  rewrite (socket_flag_small fd), andb_false_r by lia. rewrite (proj2 (Z.ltb_ge fd 0)), (proj2 (Z.ltb_lt fd OPEN_MAX)) by lia.
  by rewrite Hh.
Qed.
Lemma close_spec p fd fs h s ret h' : is_open p fd fs h -> fs_close fs h (p_fs p) = (s, ret, h') ->
  exists p', _close after fd p = (p', (process_return ret p).2) /\ only_entry fd p p' /\ p_fs p' = s /\ get_handle p' fd = 0 /\
    (0 <= ret -> p_errno p' = p_errno p).
Proof.
  intros H Hc. destruct (open_fildes after p fd fs h H) as (E1 & E2 & E3). destruct H as [Ht [Hfd Hm] Hfs [Hh _]].
  unfold _close. rewrite E1, E2, E3. unfold sysfs_file_close, with_file_fs. rewrite Hfs, Hh, Hc.
  set (p1 := set_handle fd h' (with_fs s p)). assert (O1 : only_entry fd p p1) by (by apply (only_entry_set fd _ (with_fs s p))).
  pose proof (process_return_files ret p1) as Hpf. assert (O2 : only_entry fd p (process_return ret p1).1) by (by apply (only_entry_files fd p p1)).
  assert (Hr : (process_return ret p1).2 = (process_return ret p).2) by (unfold process_return; by destruct (ret <? -1)).
  assert (Hs : p_fs (process_return ret p1).1 = s) by (unfold process_return; by destruct (ret <? -1)).
  assert (He : 0 <= ret -> p_errno (process_return ret p1).1 = p_errno p) by (intros; by rewrite process_return_nonneg).
  destruct (process_return ret p1) as [p2 r2]. cbn [fst snd] in *. subst r2. unfold u_reset_fildes. eexists. split; [done|].
  split; [eapply only_entry_trans; [exact O2|]; apply only_entry_set; [apply O2|done]|]. split; [exact Hs|].
  split; [|exact He]. unfold get_handle. rewrite set_handle_entry by (done || apply O2). done.
Qed.
End Closing.

(** Closing a descriptor hands its handle to the file system and frees the
    entry, whatever the file system answers; no other entry changes.  A read, a write
    or another close with the descriptor is then refused with [EBADF], and the next
    open may take it again. *)
Theorem close_releases (L : PosixLimits) (F : Type) (C : SosConfig F) after p fd fs h s ret h' :
  is_open p fd fs h -> fs_close fs h (p_fs p) = (s, ret, h') ->
  exists p', _close after fd p = (p', (process_return ret p).2) /\ only_entry fd p p' /\ p_fs p' = s /\
    (forall n, _read after fd n p' = (set_errno EBADF p', -1, [])) /\
    (forall buf n, _write after fd buf n p' = (set_errno EBADF p', -1)) /\
    _close after fd p' = (set_errno EBADF p', -1) /\
    ((forall j, 0 <= j < fd -> get_handle p j <> 0) -> u_new_open_file 0 p' = (set_handle fd 1 p', fd)).
Proof.
  intros H Hc. destruct (close_spec after p fd fs h s ret h' H Hc) as (p' & E & O & Hs & Hz & _). destruct H as [_ [Hfd Hm] _ _].
  destruct (closed_fildes after p' fd Hfd Hm Hz) as [E1 E2]. exists p'. split; [exact E|]. split; [exact O|]. split; [exact Hs|].
  split_and!; intros; unfold _read, _write, _close; rewrite ?E1, ?E2; try done.
  apply new_file_lowest; [apply O|]. split_and!; try done; try lia. intros j Hj. destruct O as [_ O]. unfold get_handle.
  rewrite O by lia. by apply H.
Qed.

(** ** A file system with one file *)

Definition demo_fs : sysfs_t (list Z) :=
  mk_sysfs (str "/home") 511 0 false
    (fun s => (s, 0)) (fun s => (s, 0)) (fun s => (s, 0))
    (fun name _ _ h s => if bool_decide (name = str "a.txt") then (s, 0, 4) else (s, SYSFS_SET_RETURN 1 ENOENT, h))
    (fun _ _ s => (s, 0)) (fun _ _ _ s => (s, 0))
    (fun _ _ loc n s => let out := take (Z.to_nat n) (drop (Z.to_nat loc) s) in (s, Zlen out, out))
    (fun _ _ _ _ _ s => (s, 0)) (fun _ s => (s, 0)) (fun _ s => (s, 0, 0))
    (fun _ st s => (0, mk_stat 33188 (Zlen s) 0 0 0 0))
    (fun _ _ s => (s, 0)) (fun _ s => (s, 0)) (fun _ _ s => (s, 0)) (fun _ s => (s, 0))
    (fun _ st _ => (0, st)) (fun _ st _ => (0, st)) (fun _ _ s => (s, 0)) (fun _ _ _ s => (s, 0)).
#[export] Instance demo_contents : FileContents demo_fs.
Proof.
  refine {| contents := fun s h => if (h =? 4) && (Zlen s <? 2 ^ 31) then Some s else None |};
    intros s h c; destruct (Z.eqb_spec h 4), (Z.ltb_spec (Zlen s) (2 ^ 31)); cbn [andb]; intros; by simplify_eq.
Defined.
Definition demo_config : SosConfig (list Z) :=
  {| rootfs_list := [demo_fs]; socket_api := None; stdin_dev := []; stdout_dev := []; stderr_dev := [];
     SYS_FLAG_IS_STDIO_FIFO := false; STDIN_FILENO := 512; STDOUT_FILENO := 513; STDERR_FILENO := 514; O_CHAR := 32768 |}.
Definition demo_process : process (list Z) :=
  mk_process (replicate 24 (mk_file None 0 0 0)) [10; 20; 30; 40; 50] 0 0 (mk_stdio 512 513 514) None.
Definition demo_opened : process (list Z) := (@_open example_limits _ demo_config [] (str "/home/a.txt") O_RDONLY 0 demo_process).1.

Lemma demo_opens flags mode : (Bits.any flags O_CREAT = true -> Z.land mode S_IFMT <> S_IFDIR) ->
  @opens example_limits _ demo_config [] demo_process (str "/home/a.txt") flags mode 0 demo_fs 0.
Proof. intros H. split; try done; try (vm_compute; reflexivity). split_and!; [done|done|done|]. intros j Hj. lia. Qed.
Lemma demo_reading : @reading example_limits _ demo_config demo_fs demo_contents demo_opened 0 [10; 20; 30; 40; 50] 0.
Proof. by split; vm_compute. Qed.
Lemma open_spec_witness :
  let '(p', r) := @_open example_limits _ demo_config [] (str "/home/a.txt") O_APPEND 0 demo_process in
  r = 0 /\ get_open_file p' 0 = mk_file (Some 0%nat) 4 8 5.
Proof.
  pose proof (open_spec example_limits _ demo_config [] demo_process (str "/home/a.txt") O_APPEND 0 0 demo_fs 0 [10; 20; 30; 40; 50] 0 4
    eq_refl (demo_opens O_APPEND 0 (fun H => ltac:(discriminate H))) ltac:(vm_compute; reflexivity) ltac:(left; lia) ltac:(done)) as H.
  destruct (_open _ _ _ _ _) as [p' r]. destruct H as (_ & _ & H & _). apply H. lia.
Defined.
Lemma open_directory_leaks_witness :
  exists p', @_open example_limits _ demo_config [] (str "/home/a.txt") O_CREAT S_IFDIR demo_process = (p', -1) /\ get_handle p' 0 = 1.
Proof.
  destruct (open_directory_leaks example_limits _ demo_config [] demo_process (str "/home/a.txt") O_CREAT S_IFDIR 0 0
    eq_refl ltac:(done) ltac:(vm_compute; reflexivity) ltac:(vm_compute; reflexivity)
    (@op_free example_limits _ demo_config _ _ _ _ _ _ _ _ (demo_opens O_RDONLY 0 (fun H => ltac:(discriminate H)))) eq_refl eq_refl) as (p' & H1 & _ & H2 & _). by exists p'.
Defined.
Lemma read_sequence_witness :
  concat (snd <$> (@read_each example_limits _ demo_config [] 0 [2; 2; 2; 2] demo_opened).2) = [10; 20; 30; 40; 50].
Proof.
  pose proof (read_sequence example_limits _ demo_config [] demo_fs demo_contents demo_opened 0 [10; 20; 30; 40; 50] 0 [2; 2; 2; 2]
    demo_reading ltac:(repeat constructor; lia)) as H.
  destruct (read_each _ _ _ _) as [p' rs]. by destruct H as [H _].
Defined.
Lemma seek_then_read_witness :
  exists p1 p2, @_lseek example_limits _ demo_config [] 0 (-2) SEEK_END demo_opened = (p1, 3) /\
    @_read example_limits _ demo_config [] 0 5 p1 = (p2, 2, [40; 50]).
Proof.
  destruct (seek_then_read example_limits _ demo_config [] demo_fs demo_contents demo_opened 0 [10; 20; 30; 40; 50] 0 (-2) SEEK_END 3 5
    demo_reading ltac:(lia) eq_refl ltac:(lia) ltac:(lia)) as (p1 & p2 & H1 & H2 & _). by exists p1, p2.
Defined.
Lemma close_releases_witness :
  exists p', @_close example_limits _ demo_config [] 0 demo_opened = (p', 0) /\
    @_read example_limits _ demo_config [] 0 5 p' = (set_errno EBADF p', -1, []).
Proof.
  destruct (close_releases example_limits _ demo_config [] demo_opened 0 demo_fs 4 [10; 20; 30; 40; 50] 0 0
    (reading_open demo_fs demo_opened 0 _ 0 demo_reading) eq_refl) as (p' & H1 & _ & _ & H2 & _). exists p'. split; [exact H1|apply H2].
Defined.
