(* ===== verification/Assetfs.v ===== *)
(** * The file system of assets

    [src/sys/sysfs/assetfs.c]: read-only files linked into the image.  An open file is
    a structure of four words on the heap of the process, the last of which is a
    zero-sum checksum; the heap is the one of [Malloc.v].  Below the operations: the file
    system keeps what [Files.v] asks of one that stores files, and a file that is opened,
    read and closed through the calls of a process gives its contents and leaves the
    heap as it was. *)
From S2P Require Import Prelude Memory Malloc Task Scheduler Paths Files.

Record assetfs_dirent_t := mk_dirent { d_name : path; d_start : Z; d_end : Z; d_uid : Z; d_mode : Z }.
Definition sizeof_handle : Z := 16.
Definition INVALID_DIR_HANDLE : Z := 0.
Definition VALID_DIR_HANDLE : Z := 305419896.

Section Assetfs.
Context {L : PosixLimits}.
(** The image: the bytes of the program memory and the table of files. *)
Context (rom : Z -> Z) (entries : list assetfs_dirent_t).
(** What a NULL entry points at, and the number in a variable nobody wrote. *)
Context (null_entry : assetfs_dirent_t) (ino0 : Z).
(** The caller: its user, its task, the owner recorded for its memory, its stack, and
    where its heap begins. *)
Context (uid self owner_id : Z) (stack : option Z) (base : Z).

Definition count : Z := Zlen entries.
Definition get_directory_entry (loc : Z) : Z * option assetfs_dirent_t :=
  if loc <? 0 then (SYSFS_SET_RETURN 214 EINVAL, None)
  else if count <=? loc then (-1, None) else (0, entries !! Z.to_nat loc).
(** The loop of [find_file]: the entry and its number. *)
Fixpoint find_file_from (loc : Z) (l : list assetfs_dirent_t) (name : path) : option (Z * assetfs_dirent_t) :=
  match l with
  | [] => None
  | e :: l => if strncmp_eq name (d_name e) (NAME_MAX - 1) then Some (loc, e) else find_file_from (loc + 1) l name
  end.
Definition find_file : path -> option (Z * assetfs_dirent_t) := find_file_from 0 entries.
Definition entry_size (e : assetfs_dirent_t) : Z := u32 (d_end e - d_start e).
Definition assign_stat (ino : Z) (e : assetfs_dirent_t) : stat_t :=
  mk_stat (Z.lor (d_mode e) S_IFREG) (entry_size e) (d_uid e) 0 ino (d_start e).

(** The words of a handle. *)
Definition hd_ino (m : mem) (a : Z) : Z := s32 (load32 m a).
Definition hd_data (m : mem) (a : Z) : Z := load32 m (a + 4).
Definition hd_size (m : mem) (a : Z) : Z := load32 m (a + 8).
Definition handle_verifies (m : mem) (a : Z) : bool := cortexm_verify_zero_sum32 m a (sizeof_handle / 4).
Definition store_handle (a ino data size : Z) (m : mem) : mem :=
  cortexm_assign_zero_sum32 a (sizeof_handle / 4) (store32 (a + 8) size (store32 (a + 4) data (store32 a ino m))).

(** [malloc] of a handle; three rounds are enough for the allocator ([Malloc.v]). *)
Definition assetfs_open (name : path) (flags mode handle : Z) (h : heap) : heap * Z * Z :=
  if negb (Z.land flags O_ACCMODE =? O_RDONLY) then (h, SYSFS_SET_RETURN 47 EINVAL, handle)
  else
    let '(ino, e) := default (ino0, null_entry) (find_file name) in
    if negb (sysfs_is_r_ok uid (d_mode e) (d_uid e)) then (h, SYSFS_SET_RETURN 54 EPERM, handle)
    else
      match _malloc_r self owner_id stack 3 sizeof_handle h with
      | Some (h, inl a) => (on_mem (store_handle a ino (d_start e) (entry_size e)) h, 0, base + a)
      | Some (h, inr _) => (h, -1, handle)
      | None => (h, -1, handle)
      end.
Definition assetfs_read (handle flags loc nbyte : Z) (h : heap) : heap * Z * list Z :=
  let a := handle - base in
  if negb (Z.land flags O_ACCMODE =? O_RDONLY) then (h, SYSFS_SET_RETURN 80 EINVAL, [])
  else if negb (handle_verifies (h_mem h) a) then (h, SYSFS_SET_RETURN 84 EINVAL, [])
  else if loc <? 0 then (h, SYSFS_SET_RETURN 87 EINVAL, [])
  else
    let bytes_ready := s32 (hd_size (h_mem h) a - loc) in
    let bytes_ready := if nbyte <? bytes_ready then nbyte else bytes_ready in
    if bytes_ready <=? 0 then (h, 0, [])
    else (h, bytes_ready, (fun i => rom (hd_data (h_mem h) a + loc + i)) <$> seqZ 0 bytes_ready).
Definition assetfs_close (handle : Z) (h : heap) : heap * Z * Z :=
  if handle =? 0 then (h, 0, handle)
  else if negb (handle_verifies (h_mem h) (handle - base)) then (h, SYSFS_SET_RETURN 115 EINVAL, handle)
  else match _free_r self stack (Free_at (handle - base)) h with
       | Some h => (h, 0, 0)
       | None => (h, 0, 0)
       end.
Definition assetfs_fstat (handle : Z) (st : stat_t) (h : heap) : Z * stat_t :=
  let a := handle - base in
  if negb (handle_verifies (h_mem h) a) then (SYSFS_SET_RETURN 129 EINVAL, st)
  else (0, assign_stat (hd_ino (h_mem h) a) (default null_entry (entries !! Z.to_nat (hd_ino (h_mem h) a)))).
Definition assetfs_stat (name : path) (st : stat_t) (h : heap) : Z * stat_t :=
  match find_file name with
  | None => (SYSFS_SET_RETURN 142 ENOENT, st)
  | Some (ino, e) => (0, assign_stat ino e)
  end.
Definition assetfs_opendir (name : path) (handle : Z) : Z * Z :=
  if strncmp_eq name [] PATH_MAX then (0, VALID_DIR_HANDLE) else (SYSFS_SET_RETURN 164 ENOENT, handle).
Definition assetfs_readdir_r (handle loc : Z) : Z * option (path * Z) :=
  if negb (handle =? VALID_DIR_HANDLE) then (SYSFS_SET_RETURN 171 EINVAL, None)
  else match get_directory_entry loc with
       | (result, e) => if result <? 0 then (result, None) else (0, (fun e => (take (Z.to_nat NAME_MAX) (d_name e), loc)) <$> e)
       end.
Definition assetfs_closedir (handle : Z) : Z * Z :=
  if negb (handle =? VALID_DIR_HANDLE) then (SYSFS_SET_RETURN 189 EINVAL, handle) else (0, INVALID_DIR_HANDLE).

(** [ASSETFS_MOUNT] *)
Definition sysfs_notsup : Z := SYSFS_SET_RETURN 330 ENOTSUP.
Definition ASSETFS_MOUNT (mount_loc_name : path) (permissions_value owner_value : Z) : sysfs_t heap :=
  mk_sysfs mount_loc_name permissions_value owner_value false
    (fun h => (h, sysfs_notsup)) (fun h => (h, 0)) (fun h => (h, sysfs_notsup))
    assetfs_open (fun _ _ h => (h, sysfs_notsup)) (fun _ _ _ h => (h, -1))
    assetfs_read (fun _ _ _ _ _ h => (h, sysfs_notsup)) (fun _ h => (h, sysfs_notsup))
    assetfs_close assetfs_fstat (fun _ _ h => (h, sysfs_notsup)) (fun _ h => (h, sysfs_notsup))
    (fun _ _ h => (h, sysfs_notsup)) (fun _ h => (h, sysfs_notsup))
    assetfs_stat (fun _ st _ => (sysfs_notsup, st)) (fun _ _ h => (h, sysfs_notsup)) (fun _ _ _ h => (h, sysfs_notsup)).
End Assetfs.

(** ** The contents of a file *)

Section Contents.
Context {L : PosixLimits}.
Context (rom : Z -> Z) (entries : list assetfs_dirent_t) (null_entry : assetfs_dirent_t) (ino0 : Z).
Context (uid self owner_id : Z) (stack : option Z) (base : Z) (mnt : path) (perm own : Z).
#[local] Abbreviation assetfs := (ASSETFS_MOUNT rom entries null_entry ino0 uid self owner_id stack base mnt perm own).

Definition file_bytes (e : assetfs_dirent_t) : list Z := (fun i => rom (d_start e + i)) <$> seqZ 0 (entry_size e).
(** A handle stands for the entry its words name. *)
Definition handle_is (m : mem) (a : Z) (e : assetfs_dirent_t) : bool :=
  handle_verifies m a && (hd_data m a =? d_start e) && (hd_size m a =? entry_size e) && (entry_size e <? 2 ^ 31).
Definition handle_contents (h : heap) (handle : Z) : option (list Z) :=
  let a := handle - base in
  e ← entries !! Z.to_nat (hd_ino (h_mem h) a);
  if handle_is (h_mem h) a e then Some (file_bytes e) else None.

Lemma Zlen_file_bytes e : Zlen (file_bytes e) = entry_size e.
Proof. unfold file_bytes, Zlen. rewrite length_fmap, length_seqZ. pose proof (u32_range (d_end e - d_start e)). unfold entry_size. lia. Qed.
Lemma take_drop_seqZ (f : Z -> Z) size loc n : 0 <= loc -> 0 <= n ->
  take (Z.to_nat n) (drop (Z.to_nat loc) (f <$> seqZ 0 size)) = (fun i => f (loc + i)) <$> seqZ 0 (Z.min n (size - loc)).
Proof.
  intros Hl Hn. apply list_eq. intros i. rewrite lookup_take, lookup_drop, !list_lookup_fmap.
  destruct (decide (i < Z.to_nat (Z.min n (size - loc)))%nat) as [Hi|Hi].
  - rewrite decide_True, !lookup_seqZ_lt by lia. cbn. do 2 f_equal. lia.
  - rewrite (lookup_seqZ_ge 0 (Z.min n _)) by lia. case_decide; [|done]. by rewrite lookup_seqZ_ge by lia.
Qed.

#[export] Instance assetfs_contents : FileContents assetfs.
Proof.
  refine {| contents := handle_contents |}; unfold handle_contents.
  - intros h handle c flags loc n Hc Hf Hl Hn. cbv zeta.
    destruct (entries !! _) as [e|]; cbn [mbind option_bind] in Hc; [|done].
    destruct (handle_is _ _ e) eqn:Hh; [|done]. simplify_eq. unfold handle_is in Hh. rewrite !andb_true_iff in Hh.
    destruct Hh as [[[Hv Hd%Z.eqb_eq] Hs%Z.eqb_eq] Hlt%Z.ltb_lt].
    cbn [fs_read ASSETFS_MOUNT]. unfold assetfs_read. rewrite Hf, Z.eqb_refl, Hv. cbn [negb].
    rewrite (proj2 (Z.ltb_ge loc 0)), Hs, Hd by lia. pose proof (u32_range (d_end e - d_start e)) as Hr. fold (entry_size e) in Hr.
    rewrite s32_id by lia. unfold file_bytes. rewrite take_drop_seqZ by lia.
    assert (E : (if n <? entry_size e - loc then n else entry_size e - loc) = Z.min n (entry_size e - loc)) by (destruct (Z.ltb_spec n (entry_size e - loc)); lia).
    rewrite E. destruct (Z.leb_spec (Z.min n (entry_size e - loc)) 0) as [Hz|Hz].
    + rewrite seqZ_nil by done. done.
    + unfold Zlen. rewrite length_fmap, length_seqZ, Z2Nat.id by lia. f_equal. apply list_fmap_ext. intros. f_equal. lia.
  - intros h handle c Hc. destruct (entries !! _) as [e|] eqn:He; cbn [mbind option_bind] in Hc; [|done].
    destruct (handle_is _ _ e) eqn:Hh; [|done]. simplify_eq. unfold handle_is in Hh. rewrite !andb_true_iff in Hh.
    destruct Hh as [[[Hv _] _] Hlt%Z.ltb_lt]. rewrite Zlen_file_bytes. split; [done|].
    cbn [fs_fstat ASSETFS_MOUNT]. unfold assetfs_fstat. rewrite Hv. cbn [negb snd]. by rewrite He.
Defined.
End Contents.

(** ** The heap under a handle *)

(** Writing into the memory of a block in use keeps the heap and every other block. *)
Lemma heap_ok_write h l pre o b post m' : heap_ok h l -> used 0 l = pre ++ (o, b) :: post ->
  agree 0 (chunk_memory o) (h_mem h) m' ->
  agree (o + CONFIG_MALLOC_CHUNK_SIZE * b_chunks b) (span l + CONFIG_MALLOC_CHUNK_SIZE) (h_mem h) m' ->
  heap_ok (on_mem (fun _ => m') h) l /\ same_bytes (pre ++ post) (h_mem h) m'.
Proof.
  intros [Hs He Hz Ht] Hu A1 A2. pose proof (used_disjoint _ _ _ _ _ _ Hs Hu) as Hd.
  destruct (used_split _ _ _ _ _ _ Hu) as (l1 & l2 & Hl & Ho & _ & _ & _).
  rewrite Z.add_0_l in Ho. subst o l. pose proof (proj1 (seg_app _ _ _ _) Hs) as (Hs1 & Hh & Hb & Hs2). rewrite Z.add_0_l in *.
  pose proof (span_nonneg _ _ _ Hs1). pose proof (span_nonneg _ _ _ Hs2).
  rewrite span_app, span_cons in A2. split.
  - split; cbn [h_mem on_mem Malloc.h_size]; [|rewrite <- He|done|done].
    + apply seg_app. split; [eapply seg_agree, Hs1; eapply agree_sub; [exact A1| |]; unfold chunk_memory; heap_lia|].
      rewrite Z.add_0_l. split_and!; [|done|].
      * eapply header_agree, Hh. eapply agree_sub; [exact A1| |]; unfold chunk_memory; heap_lia.
      * eapply seg_agree, Hs2. eapply agree_sub; [exact A2| |]; heap_lia.
    + unfold hdr_num_chunks. apply (load16_agree _ _ _ _ _ A2); rewrite span_app, span_cons; heap_lia.
  - apply Forall_forall. intros [o' b'] Hin. assert (Hin' : (o', b') ∈ used 0 (l1 ++ b :: l2)) by 
      by (rewrite Hu, elem_of_app, elem_of_cons; apply elem_of_app in Hin; tauto).
    destruct (placed_range _ _ _ _ _ Hs (used_placed _ _ _ Hin')) as (Hr1 & Hr2 & _). rewrite span_app, span_cons in Hr2.
    destruct (proj1 (Forall_forall _ _) Hd _ Hin) as [Hb'|Hb']; unfold before in Hb'; cbn [fst snd] in *.
    + eapply agree_sub; [exact A1| |]; unfold chunk_memory; heap_lia.
    + eapply agree_sub; [exact A2| |]; heap_lia.
Qed.

Lemma store_handle_agree a ino data size m x y : a + sizeof_handle <= x \/ y <= a -> agree x y m (store_handle a ino data size m).
Proof.
  unfold sizeof_handle, store_handle, cortexm_assign_zero_sum32. change (sizeof_handle / 4) with 4. intros H.
  etrans; [apply (store32_agree a ino); lia|]. etrans; [apply (store32_agree (a + 4) data); lia|].
  etrans; [apply (store32_agree (a + 8) size); lia|]. apply store32_agree; lia.
Qed.
Lemma store_handle_words a ino data size m :
  let m' := store_handle a ino data size m in
  handle_verifies m' a = true /\ hd_ino m' a = s32 ino /\ hd_data m' a = u32 data /\ hd_size m' a = u32 size.
Proof.
  intros m'. split; [by apply verify_assigned|]. unfold m', store_handle, cortexm_assign_zero_sum32.
  change (sizeof_handle / 4) with 4. set (m1 := store32 a ino m). set (m2 := store32 (a + 4) data m1). set (m3 := store32 (a + 8) size m2).
  assert (A : agree a (a + 12) m3 (store32 (a + 4 * (4 - 1)) (u32 (0 - sum32 m3 a (4 - 1))) m3)) by (apply store32_agree; lia).
  unfold hd_ino, hd_data, hd_size. rewrite !(load32_agree _ _ _ _ _ A) by lia.
  assert (A3 : agree a (a + 8) m2 m3) by (apply store32_agree; lia). assert (A2 : agree a (a + 4) m1 m2) by (apply store32_agree; lia).
  rewrite (load32_agree _ _ _ _ a A3), (load32_agree _ _ _ _ (a + 4) A3), (load32_agree _ _ _ _ a A2) by lia.
  unfold m3, m2, m1. rewrite !load32_store32_eq. split_and!; [|done|done].
  unfold s32, u32. by rewrite Z.add_mod_idemp_l by lia.
Qed.

Section Opening.
Context {L : PosixLimits}.
Context (rom : Z -> Z) (entries : list assetfs_dirent_t) (null_entry : assetfs_dirent_t) (ino0 : Z).
Context (uid self owner_id sp base : Z).
(** The limits of the allocator, and a table of files as the linker makes it. *)
Context (Hself : 0 <= self < 2 ^ 16) (Howner : 0 <= owner_id < 2 ^ 16) (Hsp : sp <= 2 ^ 21).
Context (Hcount : count entries < 2 ^ 31) (Hentries : Forall (fun e => 0 <= d_start e < 2 ^ 32 /\ entry_size e < 2 ^ 31) entries).
#[local] Abbreviation open := (assetfs_open entries null_entry ino0 uid self owner_id (Some sp) base).
#[local] Abbreviation close := (assetfs_close self (Some sp) base).
#[local] Abbreviation contents_of := (handle_contents rom entries base).

Lemma find_file_lookup name : forall l loc r, find_file_from loc l name = Some r ->
  loc <= r.1 < loc + Zlen l /\ l !! Z.to_nat (r.1 - loc) = Some r.2.
Proof.
  induction l as [|e l IH]; intros loc r; cbn [find_file_from]; [done|]. rewrite Zlen_cons. pose proof (Zlen_nonneg l).
  destruct (strncmp_eq _ _ _); [intros [= <-]|].
  - cbn [fst snd]. rewrite Z.sub_diag. split; [lia|done].
  - intros [H1 H2]%IH. split; [lia|]. replace (Z.to_nat (r.1 - loc)) with (S (Z.to_nat (r.1 - (loc + 1)))) by lia. done.
Qed.
Lemma find_file_entry name ino e : find_file entries name = Some (ino, e) ->
  0 <= ino < 2 ^ 31 /\ entries !! Z.to_nat ino = Some e /\ 0 <= d_start e < 2 ^ 32 /\ 0 <= entry_size e < 2 ^ 31.
Proof using Hcount Hentries.
  intros [H1 H2]%find_file_lookup. cbn [fst snd] in *. rewrite Z.sub_0_r in H2. unfold count in Hcount.
  pose proof (proj1 (Forall_lookup _ _) Hentries _ _ H2) as [H3 H4]. pose proof (u32_range (d_end e - d_start e)) as H5.
  fold (entry_size e) in H5. split_and!; try done; lia.
Qed.

(** The contents behind a handle depend on its block only. *)
Lemma contents_frame h h' l o b : heap_ok h l -> (o, b) ∈ used 0 l -> sizeof_handle <= b_size b ->
  same_bytes [(o, b)] (h_mem h) (h_mem h') ->
  contents_of h' (base + chunk_memory o) = contents_of h (base + chunk_memory o).
Proof.
  intros H Hin Hb Hs. unfold same_bytes in Hs. rewrite Forall_singleton in Hs. cbn [fst snd] in Hs.
  destruct (placed_range _ _ _ _ _ (ho_seg _ _ H) (used_placed _ _ _ Hin)) as (_ & _ & Hok & _).
  unfold handle_contents, handle_is, handle_verifies, hd_ino, hd_data, hd_size, cortexm_verify_zero_sum32.
  replace (base + chunk_memory o - base) with (chunk_memory o) by lia. unfold sizeof_handle in *. change (16 / 4) with 4 in *.
  assert (A : agree (chunk_memory o) (chunk_memory o + 16) (h_mem h) (h_mem h'))
    by (eapply agree_sub; [exact Hs| |]; unfold chunk_memory; heap_lia).
  rewrite !(load32_agree _ _ _ _ _ A), (sum32_agree _ (h_mem h')) by (lia || (eapply agree_sub; [exact A| |]; lia)). done.
Qed.

Lemma assetfs_open_spec name flags mode handle h l ino e :
  heap_inv h l -> Z.land flags O_ACCMODE = O_RDONLY -> find_file entries name = Some (ino, e) ->
  sysfs_is_r_ok uid (d_mode e) (d_uid e) = true ->
  exists h' l', heap_inv h' l' /\ same_bytes (used 0 l) (h_mem h) (h_mem h') /\
  ((exists o n pre post, open name flags mode handle h = (h', 0, base + chunk_memory o) /\ heap_ok h' l' /\ 0 <= o /\
      used 0 l = pre ++ post /\ used 0 l' = pre ++ (o, mk_block owner_id n sizeof_handle) :: post /\
      contents_of h' (base + chunk_memory o) = Some (file_bytes rom e)) \/
   (open name flags mode handle h = (h', -1, handle) /\ used 0 l' = used 0 l /\
    _malloc_r self owner_id (Some sp) 3 sizeof_handle h = Some (h', inr ENOMEM))).
Proof using Hself Howner Hsp Hcount Hentries.
  intros Hh Hf Hfind Hok. destruct (find_file_entry name ino e Hfind) as (Hi & He & Hd & Hs).
  unfold assetfs_open. rewrite Hf, Z.eqb_refl, Hfind. cbn [negb default]. unfold id. rewrite Hok. cbn [negb].
  destruct (malloc_spec self owner_id sp 3 sizeof_handle h l Hself Howner Hsp ltac:(done) ltac:(lia) Hh)
    as (h1 & l1 & H1 & _ & B1 & [(o & n & pre & post & -> & Hn & U & U1 & _)|[E U1]]);
    [|exists h1, l1; split; [done|]; split; [done|]; right; by rewrite E].
  assert (H1' : heap_ok h1 l1) by (destruct H1 as [?|[_ ->]]; [done|by destruct pre]).
  set (b := mk_block owner_id n sizeof_handle) in *. assert (Hin : (o, b) ∈ used 0 l1) by (rewrite U1, elem_of_app, elem_of_cons; tauto).
  destruct (placed_range _ _ _ _ _ (ho_seg _ _ H1') (used_placed _ _ _ Hin)) as (Ho & Hr & _).
  set (m' := store_handle (chunk_memory o) ino (d_start e) (entry_size e) (h_mem h1)).
  destruct (heap_ok_write h1 l1 pre o b post m' H1' U1) as [H2 B2].
  { apply store_handle_agree. lia. }
  { apply store_handle_agree. left. unfold chunk_memory, b. cbn [b_chunks]. unfold sizeof_header, sizeof_handle in *. lia. }
  exists (on_mem (fun _ => m') h1), l1. split; [by left|]. split; [rewrite U in *; by apply (same_bytes_trans _ _ (h_mem h1))|].
  left. exists o, n, pre, post. split_and!; try done.
  unfold handle_contents, handle_is. replace (base + chunk_memory o - base) with (chunk_memory o) by lia. cbn [on_mem h_mem].
  destruct (store_handle_words (chunk_memory o) ino (d_start e) (entry_size e) (h_mem h1)) as (W1 & W2 & W3 & W4).
  fold m' in W1, W2, W3, W4. rewrite s32_id in W2 by lia. rewrite u32_id in W3, W4 by lia. rewrite W2, He. cbn [mbind option_bind]. rewrite W1, W3, W4, !Z.eqb_refl. cbn [andb].
  by rewrite (proj2 (Z.ltb_lt _ _)) by lia.
Qed.
End Opening.

(** ** A file from the image *)



(** Opening another file leaves a file that is open alone: its handle stands for the
    same bytes as before. *)
Theorem asset_handles_independent (L : PosixLimits) rom entries null_entry ino0 uid self owner_id sp base
    name flags mode handle h l ino e o b c :
  0 <= self < 2 ^ 16 -> 0 <= owner_id < 2 ^ 16 -> sp <= 2 ^ 21 -> count entries < 2 ^ 31 ->
  Forall (fun e => 0 <= d_start e < 2 ^ 32 /\ entry_size e < 2 ^ 31) entries ->
  heap_ok h l -> Z.land flags O_ACCMODE = O_RDONLY -> find_file entries name = Some (ino, e) ->
  sysfs_is_r_ok uid (d_mode e) (d_uid e) = true ->
  (o, b) ∈ used 0 l -> sizeof_handle <= b_size b -> handle_contents rom entries base h (base + chunk_memory o) = Some c ->
  let '(h', ret, handle') := assetfs_open entries null_entry ino0 uid self owner_id (Some sp) base name flags mode handle h in
  handle_contents rom entries base h' (base + chunk_memory o) = Some c /\
  (ret = 0 -> handle_contents rom entries base h' handle' = Some (file_bytes rom e) /\
     exists o', handle' = base + chunk_memory o' /\ o' <> o).
Proof.
  intros Hself Howner Hsp Hcount Hent Hh Hf Hfind Hok Hin Hb Hc.
  destruct (assetfs_open_spec rom entries null_entry ino0 uid self owner_id sp base Hself Howner Hsp Hcount Hent
              name flags mode handle h l ino e (or_introl Hh) Hf Hfind Hok) as (h1 & l1 & _ & B & R).
  assert (F : handle_contents rom entries base h1 (base + chunk_memory o) = Some c).
  { rewrite <- Hc. eapply contents_frame; [exact Hh|exact Hin|exact Hb|]. apply Forall_singleton.
    exact (proj1 (Forall_forall _ _) B _ Hin). }
  destruct R as [(o' & n & pre & post & -> & H1 & _ & U & U1 & Hc')|[-> _]]; (split; [exact F|]); [|done].
  intros _. split; [exact Hc'|]. exists o'. split; [done|]. intros ->.
  pose proof (used_disjoint _ _ _ _ _ _ (ho_seg _ _ H1) U1) as Hd. rewrite <- U in Hd.
  pose proof (proj1 (Forall_forall _ _) Hd _ Hin) as Hor. unfold before in Hor. cbn [fst snd b_chunks] in Hor.
  destruct (placed_range _ _ _ _ _ (ho_seg _ _ Hh) (used_placed _ _ _ Hin)) as (_ & _ & Hbk & _).
  assert (Hin1 : (o, mk_block owner_id n sizeof_handle) ∈ used 0 l1) by (rewrite U1, elem_of_app, elem_of_cons; tauto).
  destruct (placed_range _ _ _ _ _ (ho_seg _ _ H1) (used_placed _ _ _ Hin1)) as (_ & _ & Hbk1 & _).
  unfold block_ok in *. cbn [b_chunks] in *. heap_lia.
Qed.

(** A file that is not in the table is not refused: the NULL entry is used, and
    when the memory there reads as an entry others may read, a handle for it is
    returned. *)
Theorem asset_missing_opens_null (L : PosixLimits) entries null_entry ino0 uid self owner_id sp base name flags mode handle h l :
  0 <= self < 2 ^ 16 -> 0 <= owner_id < 2 ^ 16 -> sp <= 2 ^ 21 -> heap_inv h l ->
  Z.land flags O_ACCMODE = O_RDONLY -> find_file entries name = None -> Bits.any (d_mode null_entry) S_IROTH = true ->
  (assetfs_stat entries name stat0 h).1 = SYSFS_SET_RETURN 142 ENOENT /\
  let '(h', ret, handle') := assetfs_open entries null_entry ino0 uid self owner_id (Some sp) base name flags mode handle h in
  ret = 0 /\ (exists a, handle' = base + a /\ handle_verifies (h_mem h') a = true /\ hd_size (h_mem h') a = entry_size null_entry) \/
  ret = -1 /\ handle' = handle.
Proof.
  intros Hself Howner Hsp Hh Hf Hfind Hm. unfold assetfs_stat, assetfs_open. rewrite Hfind, Hf. split; [done|].
  rewrite Z.eqb_refl. cbn [negb default]. unfold sysfs_is_r_ok. rewrite Hm. cbn [negb].
  destruct (malloc_spec self owner_id sp 3 sizeof_handle h l Hself Howner Hsp ltac:(done) ltac:(lia) Hh)
    as (h1 & l1 & _ & _ & _ & [(o & n & pre & post & -> & _)|[-> _]]); [left|by right].
  split; [done|]. exists (chunk_memory o). split; [done|]. cbn [on_mem h_mem].
  destruct (store_handle_words (chunk_memory o) ino0 (d_start null_entry) (entry_size null_entry) (h_mem h1)) as (W1 & _ & _ & W4).
  split; [exact W1|]. rewrite W4. apply u32_id, u32_range.
Qed.

(** ** An image with two files *)

Definition image_rom (a : Z) : Z := a mod 256.
Definition image_entries : list assetfs_dirent_t :=
  [mk_dirent (str "a.txt") 4096 4106 0 292; mk_dirent (str "b.txt") 5000 5003 0 292].
Definition image_null : assetfs_dirent_t := mk_dirent [] 0 64 0 4.
Lemma image_entries_ok : Forall (fun e => 0 <= d_start e < 2 ^ 32 /\ entry_size e < 2 ^ 31) image_entries.
Proof. repeat constructor; by vm_compute. Qed.

Definition image_open_a : heap * Z * Z :=
  @assetfs_open example_limits image_entries image_null 0 0 1 0 demo_stack 65536 (str "a.txt") O_RDONLY 0 1 demo_new.
Definition image_blocks : list block := [mk_block 0 1 16; mk_block 1 3 0].
Lemma image_heap_ok : heap_ok image_open_a.1.1 image_blocks.
Proof. by split; vm_compute. Qed.
Lemma asset_handles_independent_witness :
  @handle_contents image_rom image_entries 65536
    (@assetfs_open example_limits image_entries image_null 0 0 1 0 demo_stack 65536 (str "b.txt") O_RDONLY 0 1 image_open_a.1.1).1.1 65548
    = Some [0; 1; 2; 3; 4; 5; 6; 7; 8; 9].
Proof.
  pose proof (asset_handles_independent example_limits image_rom image_entries image_null 0 0 1 0 65536 65536 (str "b.txt") O_RDONLY 0 1
    image_open_a.1.1 image_blocks 1 (mk_dirent (str "b.txt") 5000 5003 0 292) 0 (mk_block 0 1 16) [0; 1; 2; 3; 4; 5; 6; 7; 8; 9]
    ltac:(lia) ltac:(lia) ltac:(lia) ltac:(by vm_compute) image_entries_ok image_heap_ok eq_refl ltac:(vm_compute; reflexivity) eq_refl
    ltac:(vm_compute; left) ltac:(by vm_compute) ltac:(vm_compute; reflexivity)) as H.
  change (Some 65536) with demo_stack in H. destruct (assetfs_open _ _ _ _ _ _ _ _ _ _ _ _ _) as [[h' ret] hd].
  destruct H as [H _]. exact H.
Defined.
Lemma asset_missing_opens_null_witness :
  (@assetfs_stat example_limits image_entries (str "c.txt") stat0 demo_new).1 = SYSFS_SET_RETURN 142 ENOENT /\
  (@assetfs_open example_limits image_entries image_null 0 0 1 0 demo_stack 65536 (str "c.txt") O_RDONLY 0 1 demo_new).1.2 = 0.
Proof.
  destruct (asset_missing_opens_null example_limits image_entries image_null 0 0 1 0 65536 65536 (str "c.txt") O_RDONLY 0 1 demo_new []
    ltac:(lia) ltac:(lia) ltac:(lia) (or_intror (conj eq_refl eq_refl)) eq_refl ltac:(vm_compute; reflexivity) eq_refl) as [H _].
  split; [exact H|vm_compute; reflexivity].
Defined.
