(* ===== verification/Transfer.v ===== *)
(** * Reads and writes that wait for a device

    [src/sys/sysfs/devfs_data_transfer.c] and [src/sys/sysfs/devfs.c]: a thread hands a
    transfer object on its stack to a driver and sleeps until the driver's callback has
    run.  A driver is the interface [Driver] over a device state [D] that holds the
    objects (see [Devfs.v]); the callbacks it runs are carried out on the scheduler after
    the driver's operation, which is the same as inside it because they touch the
    scheduler and the finished object only.  The call is cut where the thread can sleep:
    [devfs_data_transfer] runs until then, [transfer_resume] goes on when the thread runs
    again.  Interrupts can come in two windows of the supervisor call, between the
    driver's return and the two tests that decide whether to sleep. *)
From S2P Require Import Prelude Devfs Ring Fifo Task Scheduler Timing Threads Paths.

Definition EFAULT : Z := 14.
Definition ENOTDIR : Z := 20.

(** [devfs_driver_t]: the operations get the pointer to the transfer object; an [ioctl]
    that clears an action gets the events. *)
Class Driver (D : Type) := {
  drv_xfer : D -> devfs_transfer_t;
  drv_set_xfer : devfs_transfer_t -> D -> D;
  drv_open : D -> Z * D;
  drv_close : D -> Z * D;
  drv_read : Z -> D -> Z * D;
  drv_write : Z -> D -> Z * D;
  drv_clear_action : Z -> D -> Z * D;
}.

(** [devfs_device_t]; [dev_address] is the device's own address. *)
Record devfs_device_t := mk_device { dev_name : path; dev_mode : Z; dev_uid : Z; dev_size : Z; dev_address : Z }.

(** ** The directory of devices *)

Section Directory.
Context {L : PosixLimits}.
Context (list : list devfs_device_t).
Definition DEVFS_NAME_MAX : Z := 23.
Definition devfs_lookup_device (device_name : path) : option devfs_device_t :=
  head (filter (fun d => strncmp_eq device_name (dev_name d) DEVFS_NAME_MAX = true) list).
Definition devfs_opendir (name : path) (handle : Z) : Z * Z :=
  if negb (strncmp_eq name [] PATH_MAX) then
    match devfs_lookup_device name with
    | None => (SYSFS_SET_RETURN 109 ENOENT, handle)
    | Some _ => (SYSFS_SET_RETURN 111 ENOTDIR, handle)
    end
  else (0, 0).
Definition devfs_readdir_r (loc : Z) : Z * option (path * Z) :=
  if u32 loc <? Zlen list then (0, (fun d => (dev_name d, loc)) <$> list !! Z.to_nat loc)
  else (SYSFS_SET_RETURN 129 ENOENT, None).
End Directory.

Inductive transfer_type := ARGS_TRANSFER_WRITE | ARGS_TRANSFER_READ | ARGS_TRANSFER_DONE.
#[export] Instance transfer_type_eq_dec : EqDecision transfer_type.
Proof. solve_decision. Defined.
(** [svcall_device_data_transfer_t] without the transfer object, which the device holds. *)
Record svcall_device_data_transfer_t := mk_args { a_type : transfer_type; a_result : Z }.

(** The scheduler, the device, and the arguments of the calls under way by their address;
    the transfer object of a call has the same address. *)
Record world (D : Type) := mk_world {
  w_k : kernel;
  w_dev : D;
  w_args : gmap Z svcall_device_data_transfer_t;
}.
Arguments mk_world {D}.
Arguments w_k {D}.
Arguments w_dev {D}.
Arguments w_args {D}.

(** What a call is given: [c_args] is the address of its arguments, [c_valid] whether the
    buffer belongs to the process. *)
Record call := mk_call {
  c_args : Z; c_tid : Z; c_device : devfs_device_t; c_flags : Z; c_loc : Z;
  c_buf : list Z; c_nbyte : Z; c_is_read : bool; c_valid : bool;
}.

Section Transfer.
Context {ev : McuEvents} {D : Type} {drv : Driver D}.
Implicit Types (w : world D).

Definition with_k (k : kernel) w : world D := mk_world k (w_dev w) (w_args w).
Definition with_dev (d : D) w : world D := mk_world (w_k w) d (w_args w).
Definition on_k (f : kernel -> kernel) w : world D := with_k (f (w_k w)) w.
Definition on_args (p : Z) (f : svcall_device_data_transfer_t -> svcall_device_data_transfer_t) w : world D :=
  mk_world (w_k w) (w_dev w) (alter f p (w_args w)).
Definition asyncs w : gmap Z devfs_async_t := xfer_asyncs (drv_xfer (w_dev w)).
Definition on_async_at (p : Z) (f : devfs_async_t -> devfs_async_t) w : world D :=
  with_dev (drv_set_xfer (on_async p f (drv_xfer (w_dev w))) (w_dev w)) w.
Definition args_of w (p : Z) : svcall_device_data_transfer_t := default (mk_args ARGS_TRANSFER_DONE 0) (w_args w !! p).
Definition set_type (t : transfer_type) (a : svcall_device_data_transfer_t) := mk_args t (a_result a).
Definition set_args_result (r : Z) (a : svcall_device_data_transfer_t) := mk_args (a_type a) r.

(** ** The callback *)

Definition root_data_transfer_callback w (call : Z * Z) : world D :=
  let '(context, o_events) := call in
  match asyncs w !! context with
  | None => w
  | Some a =>
      let tid := async_tid a in
      let '(w, new_priority) :=
        if (u32 tid <? task_get_total) && scheduler_inuse_asserted (w_k w) tid then
          let w := if Bits.any o_events MCU_EVENT_FLAG_CANCELED && (0 <=? async_result a)
                   then on_async_at context (set_result (SYSFS_SET_RETURN 48 EAGAIN)) w else w in
          if negb (task_stopped_asserted (w_k w) .(k_tasks) tid)
          then (on_k (scheduler_root_assert_active tid SCHEDULER_UNBLOCK_TRANSFER) w, task_get_priority (k_tasks (w_k w)) tid)
          else (w, -1)
        else (w, -1) in
      on_k (scheduler_root_update_on_wake (-1) new_priority) (on_args context (set_type ARGS_TRANSFER_DONE) w)
  end.
(** An operation of the driver and the callbacks it ran. *)
Definition new_calls (d d' : D) : list (Z * Z) := drop (length (xfer_fired (drv_xfer d))) (xfer_fired (drv_xfer d')).
Definition device_op (f : D -> Z * D) w : Z * world D :=
  let '(r, d') := f (w_dev w) in
  (r, foldl root_data_transfer_callback (with_dev d' w) (new_calls (w_dev w) d')).
(** What an interrupt of the device does. *)
Definition device_event (f : D -> D) w : world D := (device_op (fun d => (0, f d)) w).2.

(** ** The supervisor call *)

Definition type_offset (t : transfer_type) : Z :=
  match t with ARGS_TRANSFER_WRITE => 0 | ARGS_TRANSFER_READ => 1 | ARGS_TRANSFER_DONE => 2 end.
Definition transfer_object (c : call) (t : transfer_type) : ptr := Pobj (dev_address (c_device c) + type_offset t).
Definition block_on (o : ptr) (k : kernel) : kernel := on_sched (current k) (with_block o) k.

Definition root_check_op_complete (isr : world D -> world D) (c : call) w : world D :=
  let p := c_args c in
  if bool_decide (a_type (args_of w p) = ARGS_TRANSFER_DONE) then w
  else if (a_result (args_of w p) =? 0) && (0 <=? default 0 (async_nbyte <$> asyncs w !! p)) then
    (* an interrupt before they are disabled *)
    let w := isr w in
    if ptr_eqb (block_object (sched (w_k w) (current (w_k w)))) NULL then w else on_k scheduler_root_update_on_sleep w
  else on_args p (set_type ARGS_TRANSFER_DONE) (on_k (block_on NULL) w).

Definition svcall_device_data_transfer (isr : nat -> world D -> world D) (c : call) w : world D :=
  let p := c_args c in
  let dev := c_device c in
  let t := a_type (args_of w p) in
  let is_read := bool_decide (t = ARGS_TRANSFER_READ) in
  let uid := getuid (w_k w) in
  if is_read && negb (sysfs_is_r_ok uid (dev_mode dev) (dev_uid dev)) then on_args p (set_args_result (SYSFS_SET_RETURN 88 EPERM)) w
  else if negb is_read && negb (sysfs_is_w_ok uid (dev_mode dev) (dev_uid dev)) then on_args p (set_args_result (SYSFS_SET_RETURN 93 EPERM)) w
  else if negb (c_valid c) then on_args p (set_args_result (SYSFS_SET_RETURN 101 EPERM)) w
  else
    let w := on_k (block_on (transfer_object c t)) w in
    let '(r, w) := device_op (if is_read then drv_read p else drv_write p) w in
    let w := on_args p (set_args_result r) w in
    root_check_op_complete (isr 1%nat) c (isr 0%nat w).

(** [svcall_open_device], [svcall_close_device] and [svcall_ioctl] for the request that
    clears an action. *)
Definition svcall_open_device (mode : Z) (dev : devfs_device_t) w : Z * world D :=
  let uid := getuid (w_k w) in
  let ok := if mode =? O_RDONLY then sysfs_is_r_ok uid (dev_mode dev) (dev_uid dev)
            else if mode =? O_WRONLY then sysfs_is_w_ok uid (dev_mode dev) (dev_uid dev)
            else sysfs_is_rw_ok uid (dev_mode dev) (dev_uid dev) in
  if negb ok then (SYSFS_SET_RETURN (if mode =? O_RDONLY then 78 else if mode =? O_WRONLY then 83 else 88) EPERM, w)
  else device_op drv_open w.
Definition devfs_open {L : PosixLimits} (list : list devfs_device_t) (name : path) (flags : Z) w : Z * option devfs_device_t * world D :=
  if Bits.any flags (Z.lor O_APPEND (Z.lor O_CREAT O_TRUNC)) then (SYSFS_SET_RETURN 143 ENOTSUP, None, w)
  else match devfs_lookup_device list name with
       | Some dev => let '(err, w) := svcall_open_device (Z.land flags O_ACCMODE) dev w in
                     if err <? 0 then (err, None, w) else (0, Some dev, w)
       | None => (SYSFS_SET_RETURN 157 ENOENT, None, w)
       end.
Definition devfs_close w : Z * world D := device_op drv_close w.
Definition svcall_ioctl_clear (dev : devfs_device_t) (o_events : Z) w : world D :=
  if negb (sysfs_is_rw_ok (getuid (w_k w)) (dev_mode dev) (dev_uid dev)) then w
  else (device_op (drv_clear_action o_events) w).2.
Definition clear_device_action (dev : devfs_device_t) (is_read : bool) w : world D :=
  svcall_ioctl_clear dev (if is_read then MCU_EVENT_FLAG_DATA_READY else MCU_EVENT_FLAG_WRITE_COMPLETE) w.

(** ** The call *)

Definition request_async (c : call) : devfs_async_t :=
  mk_async (c_tid c) (c_flags c) (c_loc c) (c_buf c) (c_nbyte c) 0 (Some (c_args c)).
(** The start of a turn of the loop, up to the return of the supervisor call. *)
Definition transfer_begin (isr : nat -> world D -> world D) (c : call) w : world D :=
  let p := c_args c in
  let t := if c_is_read c then ARGS_TRANSFER_READ else ARGS_TRANSFER_WRITE in
  let x := drv_xfer (w_dev w) in
  let x := mk_transfer (xfer_read x) (xfer_write x) (<[p := request_async c]> (xfer_asyncs x)) (xfer_fired x) in
  let w := mk_world (w_k w) (drv_set_xfer x (w_dev w)) (<[p := mk_args t (-101010)]> (w_args w)) in
  svcall_device_data_transfer isr c w.

(** The end of a turn: the result, or another turn unless the retries are used up, which
    gives the error. *)
Inductive turn_end := Finished (r : Z) | Again (error : Z).
Definition transfer_end (c : call) w : world D * turn_end :=
  let p := c_args c in
  let a := args_of w p in
  if (scheduler_unblock_type (w_k w) (current (w_k w)) =? SCHEDULER_UNBLOCK_SIGNAL) && (a_result a =? 0)
     && negb (bool_decide (a_type a = ARGS_TRANSFER_DONE))
  then (clear_device_action (c_device c) (bool_decide (a_type a = ARGS_TRANSFER_READ)) w, Finished (SYSFS_SET_RETURN 213 EINTR))
  else if a_result a =? 0 then
    let r := default 0 (async_result <$> asyncs w !! p) in
    (w, if negb (r =? 0) then Finished r else Again (SYSFS_SET_RETURN 231 ELOOP))
  else (w, if a_result a =? -101010 then Again (SYSFS_SET_RETURN 244 EFAULT) else Finished (a_result a)).

(** The call has returned, or its thread sleeps with so many retries left. *)
Inductive progress := Returned (r : Z) | Waiting (retries : nat).
Fixpoint transfer_turns (isr : nat -> nat -> world D -> world D) (retries : nat) (c : call) w : world D * progress :=
  let w := transfer_begin (isr retries) c w in
  if negb (task_active_asserted (k_tasks (w_k w)) (c_tid c)) then (w, Waiting retries)
  else match transfer_end c w with
       | (w, Finished r) => (w, Returned r)
       | (w, Again e) => match retries with
                         | O => (w, Returned e)
                         | S retries => transfer_turns isr retries c w
                         end
       end.
Definition devfs_data_transfer (isr : nat -> nat -> world D -> world D) (c : call) w : world D * progress :=
  if c_nbyte c =? 0 then (w, Returned 0) else transfer_turns isr 5 c w.
Definition transfer_resume (isr : nat -> nat -> world D -> world D) (retries : nat) (c : call) w : world D * progress :=
  match transfer_end c w with
  | (w, Finished r) => (w, Returned r)
  | (w, Again e) => match retries with
                    | O => (w, Returned e)
                    | S retries => transfer_turns isr retries c w
                    end
  end.
End Transfer.

(** ** Flags the callback reads *)

Lemma inuse_on_sched id f k j : 0 <= j ->
  (forall t, Bits.any (sched_flags (f t)) (Z.shiftl 1 SCHEDULER_TASK_FLAG_INUSE) = Bits.any (sched_flags t) (Z.shiftl 1 SCHEDULER_TASK_FLAG_INUSE)) ->
  scheduler_inuse_asserted (on_sched id f k) j = scheduler_inuse_asserted k j.
Proof.
  intros Hj Hf. unfold scheduler_inuse_asserted, scheduler_flag_asserted.
  apply (on_sched_field (fun t => Bits.any (sched_flags t) (Z.shiftl 1 SCHEDULER_TASK_FLAG_INUSE)) id f k j Hf Hj).
Qed.
Lemma inuse_assert_active id u k j : kernel_wf k -> task_id id -> 0 <= u < 16 -> 0 <= j ->
  scheduler_inuse_asserted (scheduler_root_assert_active id u k) j = scheduler_inuse_asserted k j.
Proof.
  intros Hwf Hi Hu Hj. rewrite assert_active_eq by (apply Hwf || done). rewrite inuse_on_sched; [done|done|].
  intros t. cbn [wake_entry sched_flags]. change (Z.shiftl 1 SCHEDULER_TASK_FLAG_INUSE) with (Z.shiftl 1 5).
  rewrite any_clear_disjoint by done. assert (Hd : Z.land u (Z.shiftl 1 5) = 0).
  { rewrite land_bit by lia. assert (Z.testbit u 5 = false) as ->; [|done]. destruct (decide (u = 0)) as [->|]; [done|].
    apply Z.bits_above_log2; [lia|]. apply Z.log2_lt_pow2; lia. }
  rewrite any_set_disjoint by done. by rewrite any_clear_disjoint.
Qed.
Lemma inuse_same_threads k k' j : same_threads k k' -> scheduler_inuse_asserted k' j = scheduler_inuse_asserted k j.
Proof. intros S. unfold scheduler_inuse_asserted, scheduler_flag_asserted. by rewrite (same_threads_sched _ _ _ S). Qed.

(** ** What a callback does *)

(** What an operation of a driver may do to the objects: run callbacks, and
    change anything but the thread an object belongs to. *)
Definition xfer_step (x x' : devfs_transfer_t) : Prop :=
  (exists l, xfer_fired x' = xfer_fired x ++ l) /\ forall q, async_tid <$> xfer_asyncs x' !! q = async_tid <$> xfer_asyncs x !! q.
#[export] Instance xfer_step_preorder : PreOrder xfer_step.
Proof.
  split.
  - intros x. split; [exists []; by rewrite app_nil_r|done].
  - intros x1 x2 x3 [[l1 E1] T1] [[l2 E2] T2]. split; [exists (l1 ++ l2); by rewrite E2, E1, app_assoc|].
    intros q. by rewrite T2, T1.
Qed.

Section Callbacks.
Context {ev : McuEvents} {D : Type} {drv : Driver D}.
Implicit Types (w : world D).

Definition device_step (d d' : D) : Prop := xfer_step (drv_xfer d) (drv_xfer d').
Class DriverLaws := {
  law_xfer x d : drv_xfer (drv_set_xfer x d) = x;
  law_read p d : device_step d (drv_read p d).2;
  law_write p d : device_step d (drv_write p d).2;
}.
Context {laws : DriverLaws}.

(** A thread that may be woken. *)
Record alive (tid : Z) (k : kernel) : Prop := {
  al_wf : kernel_wf k;
  al_tid : task_id tid;
  al_inuse : scheduler_inuse_asserted k tid = true;
  al_stopped : stopped k tid = false;
}.
(** The object at [p] belongs to thread [tid], and no other does. *)
Definition owns (tid p : Z) w : Prop :=
  async_tid <$> asyncs w !! p = Some tid /\
  forall q a, asyncs w !! q = Some a -> task_id (async_tid a) /\ (q <> p -> async_tid a <> tid).

Lemma asyncs_on_async_at p f w : (forall a, async_tid (f a) = async_tid a) ->
  forall q, async_tid <$> asyncs (on_async_at p f w) !! q = async_tid <$> asyncs w !! q.
Proof using laws.
  intros Hf q. unfold asyncs, on_async_at. cbn [w_dev with_dev]. rewrite law_xfer. cbn [on_async xfer_asyncs].
  destruct (decide (p = q)) as [->|Hne]; [|by rewrite lookup_alter_ne].
  rewrite lookup_alter_eq. destruct (_ !! q) as [a|]; [|done]. cbn. by rewrite Hf.
Qed.
Lemma owns_tids tid p w w' : (forall q, async_tid <$> asyncs w' !! q = async_tid <$> asyncs w !! q) -> owns tid p w -> owns tid p w'.
Proof.
  intros H [H1 H2]. split; [by rewrite H|]. intros q a Ha. specialize (H q). rewrite Ha in H.
  destruct (asyncs w !! q) as [a'|] eqn:E; [|done]. cbn in H. simplify_eq. rewrite H. by apply H2.
Qed.

(** The kernel around thread [tid] after some callbacks: [b] tells whether its own ran. *)
Record called (tid : Z) (b : bool) (k k' : kernel) : Prop := {
  cb_frame : frame k k';
  cb_inuse : forall j, 0 <= j -> scheduler_inuse_asserted k' j = scheduler_inuse_asserted k j;
  cb_view : if b then view k' tid = mk_view true NULL SCHEDULER_UNBLOCK_TRANSFER (mk_timeval SCHEDULER_TIMEVAL_SEC_INVALID 0)
            else view k' tid = view k tid;
}.
Lemma called_alive tid b k k' : called tid b k k' -> alive tid k -> alive tid k'.
Proof.
  intros [F I _] [Hw Ht Hi Hs]. split; [by apply F|done|by rewrite I by apply Ht|].
  destruct (stopped k' tid) eqn:E; [|done]. apply (fr_stopped _ _ F) in E; [congruence|apply Ht].
Qed.
Lemma called_trans tid b b' k1 k2 k3 : called tid b k1 k2 -> called tid b' k2 k3 -> called tid (b || b') k1 k3.
Proof.
  intros [F1 I1 V1] [F2 I2 V2]. split; [by etrans|intros j Hj; by rewrite I2, I1|].
  destruct b'; [by rewrite orb_true_r|]. rewrite orb_false_r, V2. by destruct b.
Qed.
Lemma called_refl tid k : called tid false k k.
Proof. by split. Qed.

Definition wake_for (tid : Z) (k : kernel) : kernel * Z :=
  if (u32 tid <? task_get_total) && scheduler_inuse_asserted k tid
  then if negb (stopped k tid) then (scheduler_root_assert_active tid SCHEDULER_UNBLOCK_TRANSFER k, task_get_priority (k_tasks k) tid) else (k, -1)
  else (k, -1).
Lemma wake_for_called tid t k : kernel_wf k -> task_id t -> task_id tid -> (t = tid -> alive tid k) ->
  called tid (bool_decide (t = tid)) k (scheduler_root_update_on_wake (-1) (wake_for t k).2 (wake_for t k).1).
Proof.
  intros Hwf Ht Htid Hal. set (k1 := (wake_for t k).1).
  assert (C : called tid (bool_decide (t = tid)) k k1).
  { unfold k1, wake_for. assert (Hu : u32 t = t) by (apply u32_id; unfold task_id, CONFIG_TASK_TOTAL in Ht; lia).
    rewrite Hu. destruct (decide (t = tid)) as [->|Hne].
    - destruct (Hal eq_refl) as [_ _ Hin Hst]. rewrite Hin, Hst, bool_decide_true by done.
      rewrite (proj2 (Z.ltb_lt tid task_get_total)) by apply Htid. cbn [negb andb fst].
      destruct (assert_active_only tid SCHEDULER_UNBLOCK_TRANSFER k Hwf Htid ltac:(done)) as [O V].
      split; [apply O|intros; by apply inuse_assert_active|exact V].
    - rewrite bool_decide_false by done. destruct (_ && _); [|apply called_refl]. destruct (negb _); [|apply called_refl]. cbn [fst].
      destruct (assert_active_only t SCHEDULER_UNBLOCK_TRANSFER k Hwf Ht ltac:(done)) as [O _].
      split; [apply O|intros; by apply inuse_assert_active|]. apply (only_view t tid _ _ O); [apply Htid|auto]. }
  pose proof (update_on_wake_same (-1) (wake_for t k).2 k1) as S. rewrite <- (orb_false_r (bool_decide (t = tid))).
  eapply called_trans; [exact C|]. pose proof (same_threads_unchanged _ _ S) as [F V].
  split; [exact F|intros; by apply inuse_same_threads|]. apply V. apply Htid.
Qed.

(** The state of the call at [p] after callbacks, [b] as above: its object may get another
    result only when the transfer was cancelled. *)
Record after_calls (tid p : Z) (b : bool) w w' : Prop := {
  ac_kernel : called tid b (w_k w) (w_k w');
  ac_owns : owns tid p w';
  ac_type : a_type (args_of w' p) = if b then ARGS_TRANSFER_DONE else a_type (args_of w p);
  ac_result : a_result (args_of w' p) = a_result (args_of w p);
  ac_args : is_Some (w_args w' !! p);
}.
Lemma after_calls_refl tid p w : owns tid p w -> is_Some (w_args w !! p) -> after_calls tid p false w w.
Proof. intros. split; done. Qed.
Lemma after_calls_trans tid p b b' w1 w2 w3 : after_calls tid p b w1 w2 -> after_calls tid p b' w2 w3 -> after_calls tid p (b || b') w1 w3.
Proof.
  intros [K1 O1 T1 R1 A1] [K2 O2 T2 R2 A2]. split; [by eapply called_trans|done| |congruence|done].
  rewrite T2, T1. by destruct b, b'.
Qed.
Lemma callback_eq w p e a : asyncs w !! p = Some a ->
  let w1 := if (u32 (async_tid a) <? task_get_total) && scheduler_inuse_asserted (w_k w) (async_tid a)
               && (Bits.any e MCU_EVENT_FLAG_CANCELED && (0 <=? async_result a))
            then on_async_at p (set_result (SYSFS_SET_RETURN 48 EAGAIN)) w else w in
  root_data_transfer_callback w (p, e) =
    mk_world (scheduler_root_update_on_wake (-1) (wake_for (async_tid a) (w_k w)).2 (wake_for (async_tid a) (w_k w)).1)
      (w_dev w1) (alter (set_type ARGS_TRANSFER_DONE) p (w_args w)).
Proof.
  intros Ha. unfold root_data_transfer_callback, wake_for, stopped. rewrite Ha.
  destruct ((_ <? _) && _); cbn [andb]; [|done].
  destruct (Bits.any _ _ && _); cbn [w_k on_async_at with_dev]; by destruct (task_stopped_asserted _ _).
Qed.
Lemma callback_spec tid p w cl : owns tid p w -> alive tid (w_k w) -> is_Some (w_args w !! p) ->
  after_calls tid p (bool_decide (cl.1 = p)) w (root_data_transfer_callback w cl).
Proof using laws.
  destruct cl as [q e]. intros Ho Hal Hargs. cbn [fst]. destruct (asyncs w !! q) as [a|] eqn:Ha.
  - rewrite (callback_eq w q e a Ha). cbv zeta. destruct (proj2 Ho q a Ha) as [Ht Hne].
    assert (Hq : async_tid a = tid <-> q = p).
    { split; [intros E; destruct (decide (q = p)); [done|by destruct (Hne ltac:(done))]|intros ->].
      destruct Ho as [Hp _]. rewrite Ha in Hp. by simplify_eq/=. }
    split; cbn [w_k w_args].
    + replace (bool_decide (q = p)) with (bool_decide (async_tid a = tid)) by (by apply bool_decide_ext).
      apply wake_for_called; [apply Hal|done|apply Hal|done].
    + eapply owns_tids; [|exact Ho]. intros j. unfold asyncs. cbn [w_dev]. case_match; [|done]. by apply asyncs_on_async_at.
    + unfold args_of. cbn [w_args]. destruct Hargs as [x Hx]. case_bool_decide as E.
      * subst q. by rewrite lookup_alter_eq, Hx.
      * by rewrite lookup_alter_ne.
    + unfold args_of. cbn [w_args]. destruct Hargs as [x Hx]. destruct (decide (q = p)) as [->|E].
      * by rewrite lookup_alter_eq, Hx.
      * by rewrite lookup_alter_ne.
    + destruct Hargs as [x Hx]. destruct (decide (q = p)) as [->|E]; [rewrite lookup_alter_eq, Hx|rewrite lookup_alter_ne]; done.
  - unfold root_data_transfer_callback. rewrite Ha. rewrite bool_decide_false; [by apply after_calls_refl|].
    intros ->. destruct Ho as [Hp _]. by rewrite Ha in Hp.
Qed.
Definition calls_to (p : Z) (l : list (Z * Z)) : bool := existsb (fun cl => bool_decide (cl.1 = p)) l.
Lemma callbacks_spec tid p l : forall w, owns tid p w -> alive tid (w_k w) -> is_Some (w_args w !! p) ->
  after_calls tid p (calls_to p l) w (foldl root_data_transfer_callback w l).
Proof using laws.
  induction l as [|cl l IH]; intros w Ho Hal Hargs; [by apply after_calls_refl|]. cbn [foldl calls_to existsb].
  pose proof (callback_spec tid p w cl Ho Hal Hargs) as C. eapply after_calls_trans; [exact C|].
  apply IH; [apply C|eapply called_alive; [apply C|done]|apply C].
Qed.
(** An operation of the driver with its callbacks. *)
Lemma device_op_spec tid p f w r w' : device_op f w = (r, w') -> device_step (w_dev w) (f (w_dev w)).2 ->
  owns tid p w -> alive tid (w_k w) -> is_Some (w_args w !! p) ->
  after_calls tid p (calls_to p (new_calls (w_dev w) (f (w_dev w)).2)) w w'.
Proof using laws.
  unfold device_op. destruct (f (w_dev w)) as [r1 d'] eqn:E. cbn [snd]. intros [= <- <-] [_ Hs] Ho Hal Hargs.
  assert (Ho' : owns tid p (with_dev d' w)) by (eapply owns_tids; [|exact Ho]; intros q; apply Hs).
  destruct (callbacks_spec tid p (new_calls (w_dev w) d') (with_dev d' w) Ho' Hal Hargs) as [K O T R A]. by split.
Qed.
End Callbacks.

(** ** Sleeping *)

Section Sleeping.
Context {ev : McuEvents} {D : Type} {drv : Driver D} {laws : DriverLaws}.
Implicit Types (w : world D).

(** The thread of [c] runs, and its call is under way. *)
Record in_call (c : call) w : Prop := {
  ic_alive : alive (c_tid c) (w_k w);
  ic_current : current (w_k w) = c_tid c;
  ic_owns : owns (c_tid c) (c_args c) w;
  ic_args : is_Some (w_args w !! c_args c);
}.
Definition call_type (c : call) : transfer_type := if c_is_read c then ARGS_TRANSFER_READ else ARGS_TRANSFER_WRITE.
(** The thread goes on: its transfer is over, or could not be started. *)
Definition goes_on (c : call) w : Prop :=
  active (w_k w) (c_tid c) = true /\ (a_type (args_of w (c_args c)) = ARGS_TRANSFER_DONE \/ a_result (args_of w (c_args c)) <> 0).
(** The thread sleeps: its transfer is with the driver. *)
Definition sleeps (c : call) w : Prop :=
  active (w_k w) (c_tid c) = false /\ a_type (args_of w (c_args c)) = call_type c /\ a_result (args_of w (c_args c)) = 0 /\
  block_object (sched (w_k w) (c_tid c)) = transfer_object c (call_type c).

Lemma in_call_after c b w w' : in_call c w -> after_calls (c_tid c) (c_args c) b w w' -> in_call c w'.
Proof.
  intros [Ha Hc Ho Hs] [K O _ _ A]. split; [by eapply called_alive|rewrite (fr_current _ _ (cb_frame _ _ _ _ K)); done|done|done].
Qed.
Lemma device_event_spec c f w : in_call c w -> device_step (w_dev w) (f (w_dev w)) ->
  exists b, after_calls (c_tid c) (c_args c) b w (device_event f w).
Proof using laws.
  intros [Ha Hc Ho Hs] Hd. unfold device_event. destruct (device_op (fun d => (0, f d)) w) as [r w'] eqn:E.
  eexists. apply (device_op_spec _ _ _ _ _ _ E Hd Ho Ha Hs).
Qed.

(** The view of the thread between the driver's return and the sleep. *)
Definition waiting_view (c : call) (b : bool) w : Prop :=
  v_active (view (w_k w) (c_tid c)) = true /\
  v_block (view (w_k w) (c_tid c)) = (if b then NULL else transfer_object c (call_type c)) /\
  a_type (args_of w (c_args c)) = (if b then ARGS_TRANSFER_DONE else call_type c).
Lemma waiting_after c b b' w w' : waiting_view c b w -> after_calls (c_tid c) (c_args c) b' w w' -> waiting_view c (b || b') w'.
Proof.
  intros (H1 & H2 & H3) [[_ _ V] _ T _ _]. unfold waiting_view. rewrite T. destruct b'.
  - rewrite V, orb_true_r. done.
  - rewrite V, orb_false_r. done.
Qed.

Lemma on_args_lookup p f w : is_Some (w_args w !! p) -> args_of (on_args p f w) p = f (args_of w p) /\ is_Some (w_args (on_args p f w) !! p).
Proof. intros [x Hx]. unfold args_of, on_args. cbn [w_args]. by rewrite lookup_alter_eq, Hx. Qed.

Lemma check_op_complete_spec c f b w : in_call c w -> waiting_view c b w ->
  device_step (w_dev w) (f (w_dev w)) -> (b = false -> a_type (args_of w (c_args c)) = call_type c) ->
  let w' := root_check_op_complete (device_event f) c w in
  in_call c w' /\ (goes_on c w' \/ sleeps c w').
Proof using laws.
  intros Hin Hv Hd Ht w'. unfold w', root_check_op_complete. destruct b.
  { destruct Hv as (H1 & _ & H3). rewrite bool_decide_true by done. split; [done|]. left. split; [exact H1|by left]. }
  pose proof Hv as (H1 & H2 & H3). rewrite H3. rewrite bool_decide_false by (unfold call_type; by destruct (c_is_read c)).
  destruct (_ && _) eqn:Er.
  - destruct (device_event_spec c f w Hin Hd) as [b A]. pose proof (in_call_after _ _ _ _ Hin A) as Hin1.
    pose proof (waiting_after _ _ _ _ _ Hv A) as Hv1. cbn [orb] in Hv1. rewrite (ic_current _ _ Hin1).
    set (w1 := device_event f w) in *. clearbody w1. destruct Hv1 as (V1 & V2 & V3). cbn [view v_active v_block] in V1, V2.
    rewrite V2. destruct b.
    + unfold ptr_eqb. rewrite bool_decide_true by done. split; [done|]. left. by split; [|left].
    + unfold ptr_eqb. rewrite bool_decide_false by done. cbn [on_k]. set (w2 := on_k _ w1).
      pose proof (update_on_sleep_asleep (w_k w1) ltac:(apply Hin1)) as As. rewrite (ic_current _ _ Hin1) in As.
      destruct (asleep_only _ _ _ As) as [O V]. destruct Hin1 as [[Hw Htid Hi Hs] Hc Ho Ha]. split; [split; try done|right].
      * split; [apply O, Hw|done| |].
        -- etrans; [|exact Hi]. unfold w2, scheduler_inuse_asserted, scheduler_flag_asserted, sched. cbn [w_k on_k with_k].
           by rewrite (as_sched _ _ _ As).
        -- destruct (stopped (w_k w2) (c_tid c)) eqn:E; [|done]. apply (fr_stopped _ _ (only_frame _ _ _ O)) in E; [congruence|apply Htid].
      * assert (Va : active (w_k w2) (c_tid c) = false) by exact (f_equal v_active V).
        assert (Vb : block_object (sched (w_k w2) (c_tid c)) = block_object (sched (w_k w1) (c_tid c))) by exact (f_equal v_block V).
        split; [exact Va|]. split; [exact V3|]. split; [|rewrite Vb; exact V2].
        apply andb_true_iff in Er as [Er%Z.eqb_eq _]. rewrite <- Er. exact (ac_result _ _ _ _ _ A).
  - destruct Hin as [[Hw Htid Hi Hs] Hc Ho Ha]. set (w1 := on_k (block_on NULL) w).
    destruct (on_args_lookup (c_args c) (set_type ARGS_TRANSFER_DONE) w1 Ha) as [E1 E2].
    assert (O : only (c_tid c) (w_k w) (w_k w1)) by (unfold w1, on_k, block_on; cbn [w_k with_k]; rewrite Hc; by apply on_sched_only).
    split; [split; [split|..]|left; split].
    + apply O, Hw.
    + done.
    + cbn [w_k on_args]. unfold w1, on_k, block_on. cbn [w_k with_k]. rewrite inuse_on_sched; [done|apply Htid|done].
    + done.
    + done.
    + done.
    + exact E2.
    + exact H1.
    + left. by rewrite E1.
Qed.

(** A thread that may call: it runs, and the objects of other calls are other threads'. *)
Record may_call (c : call) w : Prop := {
  mc_alive : alive (c_tid c) (w_k w);
  mc_current : current (w_k w) = c_tid c;
  mc_active : active (w_k w) (c_tid c) = true;
  mc_others : forall q a, asyncs w !! q = Some a -> q <> c_args c -> task_id (async_tid a) /\ async_tid a <> c_tid c;
}.
Definition begun (c : call) w : world D :=
  let x := drv_xfer (w_dev w) in
  mk_world (w_k w)
    (drv_set_xfer (mk_transfer (xfer_read x) (xfer_write x) (<[c_args c := request_async c]> (xfer_asyncs x)) (xfer_fired x)) (w_dev w))
    (<[c_args c := mk_args (call_type c) (-101010)]> (w_args w)).
Lemma begun_in_call c w : may_call c w -> in_call c (begun c w).
Proof using laws.
  intros [Ha Hc Hac Ho]. split; [done|done| |].
  - unfold owns, asyncs, begun. cbn [w_dev]. rewrite law_xfer. cbn [xfer_asyncs]. split; [by rewrite lookup_insert_eq|].
    intros q a Hq. destruct (decide (q = c_args c)) as [->|Hne].
    + rewrite lookup_insert_eq in Hq. simplify_eq/=. split; [apply Ha|done].
    + rewrite lookup_insert_ne in Hq by done. destruct (Ho q a Hq Hne). by split.
  - unfold begun. cbn [w_args]. by rewrite lookup_insert_eq.
Qed.
Lemma block_on_in_call c o w : in_call c w -> in_call c (on_k (block_on o) w) /\
  v_active (view (w_k (on_k (block_on o) w)) (c_tid c)) = active (w_k w) (c_tid c) /\
  v_block (view (w_k (on_k (block_on o) w)) (c_tid c)) = o.
Proof.
  intros [[Hw Htid Hi Hs] Hc Ho Ha]. assert (O : only (c_tid c) (w_k w) (w_k (on_k (block_on o) w)))
    by (unfold on_k, block_on; cbn [w_k with_k]; rewrite Hc; by apply on_sched_only).
  assert (V := view_on_sched (c_tid c) (with_block o) (w_k w) Hw Htid).
  assert (E : w_k (on_k (block_on o) w) = on_sched (c_tid c) (with_block o) (w_k w)) by (unfold on_k, block_on; cbn [w_k with_k]; by rewrite Hc).
  split; [split; [split|..]|]; try done.
  - apply O, Hw.
  - rewrite E, inuse_on_sched; [done|apply Htid|done].
  - rewrite E, V. done.
Qed.
Lemma set_result_in_call c r w b : in_call c w -> waiting_view c b w ->
  in_call c (on_args (c_args c) (set_args_result r) w) /\ waiting_view c b (on_args (c_args c) (set_args_result r) w).
Proof.
  intros [Ha Hc Ho Hs] (V1 & V2 & V3). destruct (on_args_lookup (c_args c) (set_args_result r) w Hs) as [E1 E2].
  split; [by split|]. unfold waiting_view. rewrite E1. done.
Qed.

Lemma transfer_begin_spec c f w : may_call c w -> (forall i d, device_step d (f i d)) ->
  let w' := transfer_begin (fun i => device_event (f i)) c w in
  in_call c w' /\ (goes_on c w' \/ sleeps c w').
Proof using laws.
  intros Hm Hf. pose proof (begun_in_call c w Hm) as Hb. destruct Hm as [Hal Hcur Hact Hoth].
  unfold transfer_begin. fold (call_type c). cbv zeta. fold (begun c w).
  assert (Ea : args_of (begun c w) (c_args c) = mk_args (call_type c) (-101010)).
  { unfold args_of, begun. cbn [w_args]. by rewrite lookup_insert_eq. }
  unfold svcall_device_data_transfer. rewrite Ea. cbn [a_type].
  set (w0 := begun c w) in *. assert (Hact0 : active (w_k w0) (c_tid c) = true) by exact Hact. clearbody w0.
  set (rd := bool_decide (call_type c = ARGS_TRANSFER_READ)). clearbody rd.
  assert (Err : forall r, r <> 0 -> let w' := on_args (c_args c) (set_args_result r) w0 in in_call c w' /\ (goes_on c w' \/ sleeps c w')).
  { intros r Hr w'. destruct Hb as [H1 H2 H3 H4]. destruct (on_args_lookup (c_args c) (set_args_result r) w0 H4) as [E1 E2].
    split; [by split|]. left. split; [exact Hact0|]. right. unfold w'. by rewrite E1. }
  destruct (rd && _); [by apply Err|]. destruct (negb rd && _); [by apply Err|]. destruct (negb (c_valid c)); [by apply Err|].
  destruct (block_on_in_call c (transfer_object c (call_type c)) w0 Hb) as (Hb1 & V1 & V2).
  assert (Ea1 : args_of (on_k (block_on (transfer_object c (call_type c))) w0) (c_args c) = mk_args (call_type c) (-101010)) by exact Ea.
  set (w1 := on_k (block_on _) w0) in *. clearbody w1.
  destruct (device_op _ w1) as [r w2] eqn:E2.
  assert (A2 : exists b, after_calls (c_tid c) (c_args c) b w1 w2).
  { destruct Hb1 as [Ha1 Hc1 Ho1 Hs1]. destruct rd; eexists; (eapply device_op_spec; [exact E2|by (apply law_read || apply law_write)|done|done|done]). }
  destruct A2 as [b2 A2]. assert (W1 : waiting_view c false w1) by (split; [congruence|split; [exact V2|by rewrite Ea1]]).
  pose proof (waiting_after _ _ _ _ _ W1 A2) as W2. cbn [orb] in W2.
  destruct (set_result_in_call c r w2 b2 (in_call_after _ _ _ _ Hb1 A2) W2) as [Hb3 W3].
  set (w3 := on_args (c_args c) (set_args_result r) w2) in *. clearbody w3.
  destruct (device_event_spec c (f 0%nat) w3 Hb3 (Hf _ _)) as [b4 A4]. pose proof (waiting_after _ _ _ _ _ W3 A4) as W4.
  apply (check_op_complete_spec c (f 1%nat) (b2 || b4)); [by eapply in_call_after|exact W4|apply Hf|].
  intros E. destruct W4 as (_ & _ & W4). by rewrite E in W4.
Qed.
End Sleeping.

(** C21: A thread that reads or writes a device goes to sleep only with its transfer in the
    hands of the driver: whenever the driver's callback comes, during the driver's
    call, in an interrupt before the thread decides to sleep, or in one between the
    decision and the sleep, the thread stays awake.  A thread that stays awake has a
    finished transfer or an error. *)
Theorem transfer_sleeps_only_pending (ev : McuEvents) (D : Type) (drv : Driver D) (laws : DriverLaws) c f w :
  may_call c w -> (forall i d, device_step d (f i d)) ->
  let w' := transfer_begin (fun i => device_event (f i)) c w in
  goes_on c w' \/ sleeps c w'.
Proof. intros Hm Hf. by apply transfer_begin_spec. Qed.

(** ** Being woken *)

Section Waking.
Context {ev : McuEvents} {D : Type} {drv : Driver D} {laws : DriverLaws}.
Implicit Types (w : world D).

Lemma woken_transfer c f w : alive (c_tid c) (w_k w) -> owns (c_tid c) (c_args c) w -> is_Some (w_args w !! c_args c) ->
  sleeps c w -> device_step (w_dev w) (f (w_dev w)) -> calls_to (c_args c) (new_calls (w_dev w) (f (w_dev w))) = true ->
  let w' := device_event f w in
  active (w_k w') (c_tid c) = true /\ scheduler_unblock_type (w_k w') (c_tid c) = SCHEDULER_UNBLOCK_TRANSFER /\
  a_type (args_of w' (c_args c)) = ARGS_TRANSFER_DONE /\ a_result (args_of w' (c_args c)) = 0 /\ frame (w_k w) (w_k w').
Proof using laws.
  intros Hal Ho Ha (_ & _ & Hr & _) Hd Hcall w'. unfold w', device_event.
  destruct (device_op (fun d => (0, f d)) w) as [r w1] eqn:E. cbn [snd].
  destruct (device_op_spec _ _ _ _ _ _ E Hd Ho Hal Ha) as [[F _ V] _ T R _]. cbn [snd] in *. rewrite Hcall in *.
  split; [exact (f_equal v_active V)|]. split; [exact (f_equal v_unblock V)|]. split; [exact T|]. split; [congruence|exact F].
Qed.
(** Resuming after the callback: the result of the transfer object is returned. *)
Lemma resume_done c isr retries w r : current (w_k w) = c_tid c -> a_type (args_of w (c_args c)) = ARGS_TRANSFER_DONE ->
  a_result (args_of w (c_args c)) = 0 -> async_result <$> asyncs w !! c_args c = Some r -> r <> 0 ->
  transfer_resume isr retries c w = (w, Returned r).
Proof.
  intros Hc Ht Hr Hres Hnz. unfold transfer_resume, transfer_end. rewrite Ht, Hr, Hres. rewrite bool_decide_true by done. cbn [negb].
  rewrite andb_false_r, Z.eqb_refl. cbn [default]. unfold id. by rewrite (proj2 (Z.eqb_neq r 0)).
Qed.
End Waking.

(** ** The FIFO as a driver *)

Lemma set_pending_step x r w : xfer_step x (mk_transfer r w (xfer_asyncs x) (xfer_fired x)).
Proof. split; [exists []; by rewrite app_nil_r|done]. Qed.
Lemma on_async_step p f x : (forall a, async_tid (f a) = async_tid a) -> xfer_step x (on_async p f x).
Proof.
  intros Hf. split; [exists []; by rewrite app_nil_r|]. intros q. unfold on_async. cbn [xfer_asyncs].
  destruct (decide (p = q)) as [->|]; [|by rewrite lookup_alter_ne]. rewrite lookup_alter_eq.
  destruct (_ !! q) as [a|]; [|done]. cbn. by rewrite Hf.
Qed.
Lemma event_handler_step p e x : xfer_step x (devfs_execute_event_handler p e x).
Proof.
  unfold devfs_execute_event_handler. destruct (xfer_asyncs x !! p) as [a|]; [|done].
  destruct (async_handler a) as [ctx|]; [|done]. split; [by exists [(ctx, e)]|done].
Qed.
Lemma execute_read_handler_step n e x : xfer_step x (devfs_execute_read_handler n e x).
Proof.
  unfold devfs_execute_read_handler. destruct (xfer_read x =? 0); [done|].
  etrans; [apply (set_pending_step x 0 (xfer_write x))|]. etrans; [|apply event_handler_step]. by apply on_async_step.
Qed.
Lemma execute_write_handler_step n e x : xfer_step x (devfs_execute_write_handler n e x).
Proof.
  unfold devfs_execute_write_handler. destruct (xfer_write x =? 0); [done|].
  etrans; [apply (set_pending_step x (xfer_read x) 0)|]. etrans; [|apply event_handler_step]. by apply on_async_step.
Qed.
Lemma fifo_read_buffer_xfer config n s : fifo_transfer_handler (fifo_read_buffer config n s).2 = fifo_transfer_handler s.
Proof.
  unfold fifo_read_buffer, fifo_read_buffer_isr. generalize (u16 (fifo_size config)) as size, (@nil Z) as out, 0 as i. intros size.
  revert s. induction (Z.to_nat n) as [|m IH]; intros s out i; cbn [fifo_read_loop]; [done|].
  unfold fifo_read_turn, no_isr. destruct (negb _); cbn [fifo_o_flags with_tail with_flags].
  - destruct (Bits.any _ _); [done|]. by rewrite IH.
  - done.
Qed.
Lemma fifo_write_buffer_xfer config buf n nb s : fifo_transfer_handler (fifo_write_buffer config buf n nb s).2 = fifo_transfer_handler s.
Proof.
  unfold fifo_write_buffer. generalize (if nb then true else fifo_is_writeblock s) as wb, 0 as i. intros wb. revert s.
  induction (c_bytes buf n) as [|b l IH]; intros s i; cbn [fifo_write_loop]; [done|].
  destruct (fifo_is_write_ok (fifo_size config) wb s) as [ok s1] eqn:E.
  assert (E1 : fifo_transfer_handler s1 = fifo_transfer_handler s).
  { unfold fifo_is_write_ok, fifo_set_overflow in E. repeat case_match; by simplify_eq. }
  destruct ok; [|done]. rewrite IH. unfold fifo_inc_head. repeat case_match; done.
Qed.

Section FifoDriver.
Context {ev : McuEvents} (config : fifo_config_t).
#[local] Abbreviation fifo_step := (fun s s' => xfer_step (fifo_transfer_handler s) (fifo_transfer_handler s')).

#[export] Instance fifo_driver : Driver fifo_state_t := {|
  drv_xfer := fifo_transfer_handler;
  drv_set_xfer := with_xfer;
  drv_open := fun s => (0, s);
  drv_close := fun s => (0, s);
  drv_read := fun p => fifo_read_local config p true;
  drv_write := fun p => fifo_write_local config p true;
  drv_clear_action := fun o_events s => let '(r, _, s) := fifo_ioctl_local config (I_MCU_SETACTION false o_events) s in (r, s);
|}.

Lemma fifo_data_transmitted_step s : fifo_step s (fifo_data_transmitted config s).
Proof.
  unfold fifo_data_transmitted. destruct (_ =? 0); [done|]. destruct (_ !! _) as [a|]; [|done].
  pose proof (fifo_write_buffer_xfer config (async_buf a) (async_nbyte a) false s) as E.
  destruct (fifo_write_buffer _ _ _ _ _) as [n s1]. cbn [snd] in E. destruct (0 <=? n); [|by rewrite E].
  cbn [fifo_transfer_handler with_xfer]. rewrite E. apply execute_write_handler_step.
Qed.
Lemma fifo_data_received_step s : fifo_step s (fifo_data_received config s).
Proof.
  unfold fifo_data_received. destruct (_ =? 0); [done|]. destruct (_ !! _) as [a|]; [|done].
  pose proof (fifo_read_buffer_xfer config (async_nbyte a) s) as E. destruct (fifo_read_buffer _ _ _) as [[n out] s1]. cbn [snd] in E.
  set (p := xfer_read _). set (s2 := with_xfer _ s1).
  assert (S2 : fifo_step s s2) by (unfold s2; cbn [fifo_transfer_handler with_xfer]; rewrite E; by apply on_async_step).
  destruct (0 <=? n); [|done]. etrans; [exact S2|]. apply execute_read_handler_step.
Qed.
#[export] Instance fifo_laws : DriverLaws.
Proof.
  split.
  - done.
  - intros p s. unfold device_step, drv_read, fifo_driver, drv_xfer. unfold fifo_read_local.
    destruct (_ !! p) as [a|]; [|done]. destruct (negb _); [done|]. destruct (_ =? 0); [done|].
    set (s1 := with_xfer (set_read p _) s). assert (S1 : fifo_step s s1) by apply set_pending_step.
    pose proof (fifo_read_buffer_xfer config (async_nbyte a) s1) as E. destruct (fifo_read_buffer _ _ _) as [[n out] s2]. cbn [snd] in E.
    set (s3 := with_xfer _ s2).
    assert (S3 : fifo_step s s3) by (etrans; [exact S1|]; unfold s3; cbn [fifo_transfer_handler with_xfer]; rewrite E; by apply on_async_step).
    assert (S4 : forall r s', fifo_step s s' -> fifo_step s (if negb (r =? 0) then with_xfer (set_read 0 (fifo_transfer_handler s')) s' else s')).
    { intros r s' H. destruct (negb _); [|done]. etrans; [exact H|]. apply set_pending_step. }
    destruct (n =? 0); [destruct (_ || _)|destruct (_ && _)]; cbn [snd]; apply S4; try done.
    etrans; [exact S3|]. apply fifo_data_transmitted_step.
  - intros p s. unfold device_step, drv_write, fifo_driver, drv_xfer. unfold fifo_write_local.
    destruct (_ !! p) as [a|]; [|done]. destruct (negb _); [done|]. destruct (_ =? 0); [done|].
    set (s1 := with_xfer (set_write p _) s). assert (S1 : fifo_step s s1) by apply set_pending_step.
    pose proof (fifo_write_buffer_xfer config (async_buf a) (async_nbyte a) (Bits.any (async_flags a) O_NONBLOCK) s1) as E.
    destruct (fifo_write_buffer _ _ _ _ _) as [n s3]. cbn [snd] in E.
    assert (S3 : fifo_step s s3) by (etrans; [exact S1|]; by rewrite E).
    assert (S4 : forall r s', fifo_step s s' -> fifo_step s (if negb (r =? 0) then with_xfer (set_write 0 (fifo_transfer_handler s')) s' else s')).
    { intros r s' H. destruct (negb _); [|done]. etrans; [exact H|]. apply set_pending_step. }
    destruct (n =? 0); [destruct (_ && _)|destruct (_ && _)]; cbn [snd]; apply S4; try done.
    etrans; [exact S3|]. apply fifo_data_received_step.
Qed.
End FifoDriver.

(** ** Waiting for data *)

Section WaitForData.
Context {ev : McuEvents} (config : fifo_config_t).
#[local] Abbreviation size := (fifo_size config).
Let drv : Driver fifo_state_t := fifo_driver config.
#[local] Existing Instance drv.
Implicit Types (s : fifo_state_t) (w : world fifo_state_t).

(** What a peripheral's interrupt does with bytes that arrived. *)
Definition fifo_receive (bytes : list Z) s : fifo_state_t :=
  fifo_data_received config (fifo_write_buffer config bytes (Zlen bytes) false s).2.

Lemma fifo_read_local_empty p a s : fifo_rep size s [] -> fifo_idle s -> xfer_read (fifo_transfer_handler s) = 0 ->
  xfer_asyncs (fifo_transfer_handler s) !! p = Some a -> 0 < async_nbyte a -> Bits.any (async_flags a) O_NONBLOCK = false ->
  exists s', fifo_read_local config p true s = (0, s') /\ fifo_rep size s' [] /\ fifo_idle s' /\
    xfer_read (fifo_transfer_handler s') = p /\ xfer_fired (fifo_transfer_handler s') = xfer_fired (fifo_transfer_handler s) /\
    xfer_asyncs (fifo_transfer_handler s') !! p = Some a.
Proof.
  intros Hr Hi Hx Ha Hn Hnb. unfold fifo_read_local. rewrite Ha, Hx. change (negb (0 =? 0)) with false. cbv iota.
  rewrite (proj2 (Z.eqb_neq (async_nbyte a) 0)) by lia. set (s1 := with_xfer (set_read p _) s).
  assert (Hr1 : fifo_rep size s1 []) by exact Hr. assert (Hi1 : fifo_idle s1) by exact Hi.
  destruct (fifo_read_buffer_spec config s1 [] (async_nbyte a) Hr1 Hi1) as (s2 & -> & Hr2 & Hi2 & X2).
  rewrite take_nil, drop_nil, Z.max_l, (@Zlen_nil Z), Z.min_r in * by lia. change (0 =? 0) with true. cbv iota.
  rewrite Hnb. cbn [orb]. assert (Ht : (fifo_tail s2 =? size) = false).
  { destruct Hr2 as [st Hr2]. rewrite (ring_rep_full _ _ _ _ _ _ Hr2), (@Zlen_nil Z). apply Z.eqb_neq. destruct Hr2 as (? & _). lia. }
  cbn [fifo_tail with_xfer]. rewrite Ht. cbn [negb]. change (negb (0 =? 0)) with false. cbv iota. eexists. split; [done|].
  split; [exact Hr2|]. split; [exact Hi2|]. cbn [fifo_transfer_handler with_xfer on_async xfer_read xfer_fired xfer_asyncs]. rewrite X2.
  split_and!; [done|done|]. unfold s1. cbn [fifo_transfer_handler with_xfer set_read xfer_asyncs]. rewrite lookup_alter_eq, Ha. by destruct a.
Qed.
Lemma fifo_receive_spec bytes p a ctx s : fifo_rep size s [] -> fifo_idle s -> xfer_read (fifo_transfer_handler s) = p -> p <> 0 ->
  xfer_asyncs (fifo_transfer_handler s) !! p = Some a -> async_handler a = Some ctx -> 0 < async_nbyte a -> 0 < Zlen bytes <= size ->
  let out := take (Z.to_nat (async_nbyte a)) bytes in
  let s' := fifo_receive bytes s in
  fifo_rep size s' (drop (Z.to_nat (async_nbyte a)) bytes) /\ xfer_read (fifo_transfer_handler s') = 0 /\
  xfer_asyncs (fifo_transfer_handler s') !! p = Some (set_result (Zlen out) (set_buf (c_store out (async_buf a)) a)) /\
  xfer_fired (fifo_transfer_handler s') = xfer_fired (fifo_transfer_handler s) ++ [(ctx, MCU_EVENT_FLAG_DATA_READY)].
Proof.
  intros Hr Hi Hx Hp Ha Hc Hn Hb out s'.
  destruct (fifo_write_buffer_spec config s [] bytes (Zlen bytes) false Hr (proj1 Hi) ltac:(lia)) as (s1 & E1 & Hr1 & Hf1 & X1).
  assert (Hq : (if false || fifo_is_writeblock s then queue_keep_old else queue_keep_new) size (take (Z.to_nat (Zlen bytes)) bytes) [] = bytes).
  { rewrite (take_ge bytes) by (unfold Zlen; lia). cbn [orb]. destruct (fifo_is_writeblock s); unfold queue_keep_old, queue_keep_new;
      rewrite (@Zlen_nil Z); cbn [app]; [apply take_ge; unfold Zlen in *; lia|]. rewrite Z.add_0_l.
    replace (Z.to_nat (Zlen bytes - size)) with 0%nat by lia. apply drop_0. }
  cbv zeta in Hr1. rewrite Hq in Hr1. assert (Hi1 : fifo_idle s1).
  { unfold fifo_idle, read_busy in *. rewrite Hf1. destruct (_ && _); [|exact Hi]. split; bits; apply Hi. }
  unfold s', fifo_receive. rewrite E1. cbn [snd]. unfold fifo_data_received. rewrite X1, Hx, (proj2 (Z.eqb_neq p 0)), Ha by done.
  destruct (fifo_read_buffer_spec config s1 bytes (async_nbyte a) Hr1 Hi1) as (s2 & -> & Hr2 & _ & X2). rewrite X1 in X2.
  assert (Hlen : Z.min (Z.max (async_nbyte a) 0) (Zlen bytes) = Zlen out) by (unfold out, Zlen; rewrite length_take; lia).
  rewrite Hlen. rewrite (proj2 (Z.leb_le 0 (Zlen out))) by apply Zlen_nonneg. fold out.
  cbn [fifo_transfer_handler with_xfer]. rewrite X2. set (x := on_async p _ _).
  assert (Hxa : xfer_asyncs x !! p = Some (set_buf (c_store out (async_buf a)) a)) by (unfold x, on_async; cbn [xfer_asyncs]; by rewrite lookup_alter_eq, Ha).
  destruct (read_handler_completes (Zlen out) MCU_EVENT_FLAG_DATA_READY x p _ ctx Hx Hp Hxa Hc) as (H1 & H2 & H3 & H4).
  split; [exact Hr2|]. split; [exact H1|]. split; [|exact H4]. rewrite H3. f_equal. unfold completion_result.
  rewrite (proj2 (Z.eqb_neq (Zlen out) 0)); [done|]. lia.
Qed.

Lemma device_event_idle w : device_event (fun s => s) w = w.
Proof.
  unfold device_event, device_op, new_calls. cbn [w_dev snd]. rewrite drop_ge by done. cbn [foldl]. by destruct w.
Qed.
(** A read of an empty FIFO: the thread sleeps and the FIFO has its object. *)
Lemma fifo_read_begins c w : may_call c w -> c_is_read c = true -> 0 < c_nbyte c ->
  Bits.any (c_flags c) O_NONBLOCK = false -> c_valid c = true ->
  sysfs_is_r_ok (getuid (w_k w)) (dev_mode (c_device c)) (dev_uid (c_device c)) = true ->
  fifo_rep size (w_dev w) [] -> fifo_idle (w_dev w) -> xfer_read (fifo_transfer_handler (w_dev w)) = 0 ->
  let w1 := transfer_begin (fun _ => device_event (fun s => s)) c w in
  in_call c w1 /\ sleeps c w1 /\ fifo_rep size (w_dev w1) [] /\ fifo_idle (w_dev w1) /\
  xfer_read (fifo_transfer_handler (w_dev w1)) = c_args c /\
  xfer_asyncs (fifo_transfer_handler (w_dev w1)) !! c_args c = Some (request_async c).
Proof.
  intros Hm Hrd Hn Hnb Hv Hok Hr Hi Hx w1.
  destruct (transfer_begin_spec (drv := drv) (laws := fifo_laws config) c (fun _ s => s) w Hm ltac:(intros; unfold device_step; reflexivity)) as [Hin Gen].
  change (in_call c w1) in Hin. change (goes_on c w1 \/ sleeps c w1) in Gen.
  split; [exact Hin|].
  assert (Ea : args_of (begun c w) (c_args c) = mk_args (call_type c) (-101010)).
  { unfold args_of, begun. cbn [w_args]. by rewrite lookup_insert_eq. }
  set (s0 := w_dev (begun c w)). assert (Hr0 : fifo_rep size s0 []) by exact Hr. assert (Hi0 : fifo_idle s0) by exact Hi.
  assert (Ha0 : xfer_asyncs (fifo_transfer_handler s0) !! c_args c = Some (request_async c)) by (cbn; by rewrite lookup_insert_eq).
  destruct (fifo_read_local_empty (c_args c) (request_async c) s0 Hr0 Hi0 Hx Ha0 Hn Hnb) as (s1 & E1 & Hr1 & Hi1 & X1 & X2 & X3).
  assert (Ew : exists k' args', w1 = mk_world k' s1 args' /\ args_of w1 (c_args c) = mk_args ARGS_TRANSFER_READ 0).
  { unfold w1, transfer_begin. fold (call_type c). cbv zeta. fold (begun c w). unfold svcall_device_data_transfer.
    rewrite Ea. cbn [a_type]. unfold call_type. rewrite Hrd. rewrite bool_decide_true by done. cbn [andb negb].
    change (w_k (begun c w)) with (w_k w). rewrite Hok, Hv. cbn [negb]. unfold device_op.
    change (w_dev (on_k (block_on (transfer_object c ARGS_TRANSFER_READ)) (begun c w))) with s0.
    change (drv_read (c_args c) s0) with (fifo_read_local config (c_args c) true s0). rewrite E1. unfold new_calls.
    change (drv_xfer s1) with (fifo_transfer_handler s1). rewrite X2, drop_ge by done. cbn [foldl]. rewrite device_event_idle.
    set (w2 := on_args _ _ _). assert (Ea2 : args_of w2 (c_args c) = mk_args ARGS_TRANSFER_READ 0).
    { unfold w2, args_of, on_args, begun. cbn [w_args with_dev on_k with_k]. rewrite lookup_alter_eq, lookup_insert_eq.
      cbn. unfold call_type. by rewrite Hrd. }
    unfold root_check_op_complete. rewrite Ea2. cbn [a_type a_result]. rewrite bool_decide_false by done.
    assert (Hnb2 : asyncs w2 !! c_args c = Some (request_async c)) by exact X3. rewrite Hnb2. cbn [fmap option_fmap option_map default].
    unfold id. cbn [async_nbyte request_async]. rewrite (proj2 (Z.leb_le 0 (c_nbyte c))) by lia. cbn [andb]. change (0 =? 0) with true. cbn [andb].
    rewrite device_event_idle. destruct (ptr_eqb _ _); eexists _, _; (split; [reflexivity|exact Ea2]). }
  destruct Ew as (k' & args' & Ew & Ea1). assert (Ed : w_dev w1 = s1) by (by rewrite Ew). clear Ew. clearbody w1. rewrite Ed. split; [|done].
  destruct Gen as [[_ [Hd|Hd]]|Hs]; [rewrite Ea1 in Hd; done|rewrite Ea1 in Hd; done|exact Hs].
Qed.

(** The wake-up by bytes that arrive, and the end of the call. *)
Lemma fifo_receive_resumes c w bytes isr retries : Bits.any MCU_EVENT_FLAG_DATA_READY MCU_EVENT_FLAG_CANCELED = false ->
  in_call c w -> sleeps c w -> 0 < c_nbyte c -> c_args c <> 0 -> fifo_rep size (w_dev w) [] -> fifo_idle (w_dev w) ->
  xfer_read (fifo_transfer_handler (w_dev w)) = c_args c ->
  xfer_asyncs (fifo_transfer_handler (w_dev w)) !! c_args c = Some (request_async c) -> 0 < Zlen bytes <= size ->
  let out := take (Z.to_nat (c_nbyte c)) bytes in
  let w' := device_event (fifo_receive bytes) w in
  active (w_k w') (c_tid c) = true /\
  let w2 := on_k (switch_to (c_tid c)) w' in
  transfer_resume isr retries c w2 = (w2, Returned (Zlen out)) /\
  async_buf <$> asyncs w2 !! c_args c = Some (c_store out (c_buf c)) /\
  fifo_rep size (w_dev w2) (drop (Z.to_nat (c_nbyte c)) bytes) /\ xfer_read (fifo_transfer_handler (w_dev w2)) = 0.
Proof.
  intros Hev Hin Hs Hn Hp Hr Hi Hx Ha Hb out w'.
  destruct (fifo_receive_spec bytes (c_args c) (request_async c) (c_args c) (w_dev w) Hr Hi Hx Hp Ha eq_refl Hn Hb) as (R1 & R2 & R3 & R4).
  change (async_nbyte (request_async c)) with (c_nbyte c) in *. fold out in R3.
  assert (Hcalls : new_calls (w_dev w) (fifo_receive bytes (w_dev w)) = [(c_args c, MCU_EVENT_FLAG_DATA_READY)]).
  { unfold new_calls. change (drv_xfer (fifo_receive bytes (w_dev w))) with (fifo_transfer_handler (fifo_receive bytes (w_dev w))).
    rewrite R4. apply drop_app_length. }
  assert (Hstep : device_step (w_dev w) (fifo_receive bytes (w_dev w))).
  { unfold device_step, fifo_receive. etrans; [|apply fifo_data_received_step].
    change (xfer_step (fifo_transfer_handler (w_dev w)) (fifo_transfer_handler (fifo_write_buffer config bytes (Zlen bytes) false (w_dev w)).2)).
    by rewrite fifo_write_buffer_xfer. }
  destruct Hin as [Hal Hcur Hown Hargs].
  destruct (woken_transfer (drv := drv) (laws := fifo_laws config) c (fifo_receive bytes) w Hal Hown Hargs Hs Hstep) as (W1 & W2 & W3 & W4 & W5).
  { rewrite Hcalls. cbn. by rewrite bool_decide_true. }
  fold w' in W1, W2, W3, W4, W5. split; [exact W1|]. cbv zeta.
  assert (Hdev : w_dev w' = fifo_receive bytes (w_dev w)).
  { unfold w', device_event, device_op. cbn [snd]. rewrite Hcalls. cbn [foldl].
    assert (R3' : asyncs (with_dev (fifo_receive bytes (w_dev w)) w) !! c_args c
      = Some (set_result (Zlen out) (set_buf (c_store out (c_buf c)) (request_async c)))) by exact R3.
    rewrite (callback_eq _ _ MCU_EVENT_FLAG_DATA_READY _ R3'). cbv zeta. rewrite Hev. cbn [andb]. by rewrite andb_false_r. }
  assert (Has : asyncs (on_k (switch_to (c_tid c)) w') !! c_args c = Some (set_result (Zlen out) (set_buf (c_store out (c_buf c)) (request_async c)))).
  { unfold asyncs. cbn [w_dev on_k with_k]. rewrite Hdev. exact R3. }
  split; [|split; [by rewrite Has|cbn [w_dev on_k with_k]; rewrite Hdev; by split]].
  apply resume_done; [done|done|done|by rewrite Has|]. unfold out, Zlen in *. rewrite length_take. lia.
Qed.
End WaitForData.

(** C22: A thread that reads an empty FIFO sleeps with its request in the FIFO.  When bytes
    arrive the thread is woken, the call returns their number, as many as were asked
    for at most, the bytes are in the caller's buffer in the order they came,
    and what was not asked for stays in the FIFO. *)
Theorem fifo_read_waits_for_data (ev : McuEvents) config c (w : world fifo_state_t) bytes :
  let drv := fifo_driver config in
  Bits.any MCU_EVENT_FLAG_DATA_READY MCU_EVENT_FLAG_CANCELED = false ->
  may_call c w -> c_is_read c = true -> 0 < c_nbyte c -> c_args c <> 0 ->
  Bits.any (c_flags c) O_NONBLOCK = false -> c_valid c = true ->
  sysfs_is_r_ok (getuid (w_k w)) (dev_mode (c_device c)) (dev_uid (c_device c)) = true ->
  fifo_rep (fifo_size config) (w_dev w) [] -> fifo_idle (w_dev w) -> xfer_read (fifo_transfer_handler (w_dev w)) = 0 ->
  0 < Zlen bytes <= fifo_size config ->
  let quiet := fun _ _ => device_event (fun s => s) in
  let out := take (Z.to_nat (c_nbyte c)) bytes in
  exists w1, devfs_data_transfer quiet c w = (w1, Waiting 5) /\ active (w_k w1) (c_tid c) = false /\
  exists w2, device_event (fifo_receive config bytes) w1 = w2 /\ active (w_k w2) (c_tid c) = true /\
  exists w3, transfer_resume quiet 5 c (on_k (switch_to (c_tid c)) w2) = (w3, Returned (Zlen out)) /\
    async_buf <$> asyncs w3 !! c_args c = Some (c_store out (c_buf c)) /\
    fifo_rep (fifo_size config) (w_dev w3) (drop (Z.to_nat (c_nbyte c)) bytes) /\ xfer_read (fifo_transfer_handler (w_dev w3)) = 0.
Proof.
  intros drv Hev Hm Hrd Hn Hp Hnb Hv Hok Hr Hi Hx Hb quiet out.
  destruct (fifo_read_begins config c w Hm Hrd Hn Hnb Hv Hok Hr Hi Hx) as (H1 & H2 & H3 & H4 & H5 & H6).
  set (w1 := transfer_begin _ c w) in *.
  assert (E : devfs_data_transfer quiet c w = (w1, Waiting 5)).
  { unfold devfs_data_transfer. rewrite (proj2 (Z.eqb_neq (c_nbyte c) 0)) by lia. cbn [transfer_turns].
    change (transfer_begin (quiet 5%nat) c w) with w1. destruct H2 as [H2 _]. unfold active in H2. by rewrite H2. }
  exists w1. split; [exact E|]. split; [apply H2|]. clearbody w1.
  destruct (fifo_receive_resumes config c w1 bytes quiet 5%nat Hev H1 H2 Hn Hp H3 H4 H5 H6 Hb) as (R1 & R2 & R3 & R4 & R5).
  eexists. split; [done|]. split; [exact R1|]. eexists. split; [exact R2|]. done.
Qed.

(** A signal ends a read that waits for a FIFO with [EINTR], but the request is not taken
    back: the FIFO still points at the object on the stack of the call that has
    returned, the next bytes are stored there, and until then every other read is
    refused with [EBUSY]. *)
Theorem fifo_read_signal_leaves_request (ev : McuEvents) config c (w : world fifo_state_t) q a :
  let drv := fifo_driver config in
  in_call c w -> sleeps c w -> c_is_read c = true -> c_args c <> 0 ->
  xfer_read (fifo_transfer_handler (w_dev w)) = c_args c -> xfer_write (fifo_transfer_handler (w_dev w)) = 0 ->
  xfer_asyncs (fifo_transfer_handler (w_dev w)) !! q = Some a ->
  let w1 := on_k (switch_to (c_tid c)) (on_k (signal_root_activate (c_tid c)) w) in
  exists w2, transfer_resume (fun _ _ w => w) 5 c w1 = (w2, Returned (SYSFS_SET_RETURN 213 EINTR)) /\
    xfer_read (fifo_transfer_handler (w_dev w2)) = c_args c /\
    fifo_read_local config q true (w_dev w2) = (SYSFS_SET_RETURN 332 EBUSY, w_dev w2).
Proof.
  intros drv Hin (_ & Ht & Hr & _) Hrd Hp Hx Hw Ha w1. destruct Hin as [[Hwf Htid _ _] _ _ _].
  destruct (signal_root_activate_only (c_tid c) (w_k w) Hwf Htid) as [_ V].
  assert (Hw1 : exists k1, view k1 (c_tid c) = mk_view true NULL SCHEDULER_UNBLOCK_SIGNAL (mk_timeval SCHEDULER_TIMEVAL_SEC_INVALID 0) /\
    w1 = mk_world (switch_to (c_tid c) k1) (w_dev w) (w_args w)) by (eexists; split; [exact V|reflexivity]).
  clear V. clearbody w1. destruct Hw1 as (k1 & V & ->).
  unfold transfer_resume, transfer_end. cbn [w_k]. change (current (switch_to (c_tid c) k1)) with (c_tid c).
  assert (Hu : scheduler_unblock_type (switch_to (c_tid c) k1) (c_tid c) = SCHEDULER_UNBLOCK_SIGNAL) by exact (f_equal v_unblock V).
  set (w1 := mk_world (switch_to (c_tid c) k1) (w_dev w) (w_args w)).
  change (args_of w1 (c_args c)) with (args_of w (c_args c)). rewrite Hu, Hr, Ht. unfold call_type. rewrite Hrd.
  rewrite bool_decide_false by done. rewrite bool_decide_true by done. cbn [negb]. rewrite Z.eqb_refl. change (0 =? 0) with true. cbn [andb].
  eexists. split; [done|].
  assert (E : w_dev (clear_device_action (c_device c) true w1) = w_dev w).
  { unfold clear_device_action, svcall_ioctl_clear. destruct (negb _); [done|]. unfold device_op.
    assert (Ei : (drv_clear_action MCU_EVENT_FLAG_DATA_READY (w_dev w1)).2 = w_dev w).
    { change (w_dev w1) with (w_dev w). assert (Hc : fifo_cancel_async_write (w_dev w) = w_dev w).
      { unfold fifo_cancel_async_write. rewrite write_handler_idle by done. by destruct (w_dev w). }
      unfold drv_clear_action, drv, fifo_driver, fifo_ioctl_local. cbn [negb].
      destruct (Bits.any _ MCU_EVENT_FLAG_WRITE_COMPLETE), (Bits.any _ MCU_EVENT_FLAG_DATA_READY); cbn [snd]; by rewrite ?Hc. }
    destruct (drv_clear_action _ _) as [r d]. cbn [snd] in Ei. subst d. cbn [snd]. unfold new_calls.
    change (w_dev w1) with (w_dev w). rewrite drop_ge by done. done. }
  rewrite E. split; [exact Hx|]. unfold fifo_read_local. rewrite Ha, Hx. by rewrite (proj2 (Z.eqb_neq _ 0)).
Qed.

(** ** Examples *)

#[local] Instance demo_events : McuEvents :=
  {| MCU_EVENT_FLAG_WRITE_COMPLETE := 1; MCU_EVENT_FLAG_DATA_READY := 2; MCU_EVENT_FLAG_CANCELED := 4 |}.
Definition demo_device : devfs_device_t := mk_device (str "fifo") 438 0 0 5000.
Definition demo_read : call := mk_call 100 1 demo_device 0 0 [0; 0; 0] 3 true true.
Definition demo_world : world fifo_state_t := mk_world example_kernel fifo4_empty ∅.
#[local] Instance demo_driver : Driver fifo_state_t := fifo_driver fifo4.
Lemma demo_may_call : may_call demo_read demo_world.
Proof. split; [split; done|done|done|]. intros q a Hq. change ((∅ : gmap Z devfs_async_t) !! q = Some a) in Hq. by rewrite lookup_empty in Hq. Qed.

Lemma transfer_sleeps_only_pending_witness :
  let w' := transfer_begin (fun i => device_event (if Nat.eqb i 1 then fifo_receive fifo4 [7; 8] else fun s => s)) demo_read demo_world in
  goes_on demo_read w' \/ sleeps demo_read w'.
Proof.
  refine (transfer_sleeps_only_pending demo_events _ demo_driver (fifo_laws fifo4) demo_read
            (fun i => if Nat.eqb i 1 then fifo_receive fifo4 [7; 8] else fun s => s) demo_world demo_may_call _).
  intros i d. unfold device_step. destruct (Nat.eqb i 1); [|done]. unfold fifo_receive. etrans; [|apply fifo_data_received_step].
  change (xfer_step (fifo_transfer_handler d) (fifo_transfer_handler (fifo_write_buffer fifo4 [7; 8] (Zlen [7; 8]) false d).2)).
  by rewrite fifo_write_buffer_xfer.
Defined.
Lemma fifo_read_waits_for_data_witness :
  exists w1 w3, devfs_data_transfer (fun _ _ => device_event (fun s => s)) demo_read demo_world = (w1, Waiting 5) /\
    transfer_resume (fun _ _ => device_event (fun s => s)) 5 demo_read
      (on_k (switch_to 1) (device_event (fifo_receive fifo4 [7; 8]) w1)) = (w3, Returned 2) /\
    async_buf <$> asyncs w3 !! 100 = Some [7; 8; 0].
Proof.
  destruct (fifo_read_waits_for_data demo_events fifo4 demo_read demo_world [7; 8] eq_refl demo_may_call eq_refl ltac:(done) ltac:(done)
    eq_refl eq_refl eq_refl fifo4_empty_rep ltac:(done) eq_refl ltac:(done)) as (w1 & H1 & _ & w2 & <- & _ & w3 & H3 & H4 & _).
  exists w1, w3. split; [exact H1|]. split; [exact H3|exact H4].
Defined.
Lemma fifo_read_signal_leaves_request_witness :
  let w := transfer_begin (fun _ => device_event (fun s => s)) demo_read demo_world in
  exists w2, transfer_resume (fun _ _ w => w) 5 demo_read (on_k (switch_to 1) (on_k (signal_root_activate 1) w))
      = (w2, Returned (SYSFS_SET_RETURN 213 EINTR)) /\
    xfer_read (fifo_transfer_handler (w_dev w2)) = 100.
Proof.
  destruct (fifo_read_begins fifo4 demo_read demo_world demo_may_call eq_refl ltac:(done) eq_refl eq_refl eq_refl
    fifo4_empty_rep ltac:(done) eq_refl) as (H1 & H2 & _ & _ & H5 & H6).
  destruct (fifo_read_signal_leaves_request demo_events fifo4 demo_read (transfer_begin (fun _ => device_event (fun s => s)) demo_read demo_world)
    100 _ H1 H2 eq_refl ltac:(done) H5 ltac:(vm_compute; reflexivity) H6) as (w2 & E & E' & _).
  exists w2. exact (conj E E').
Defined.
