(* ===== verification/Attrs.v ===== *)
(** * Attributes of mutexes and conditions

    [src/sys/pthread/pthread_mutexattr.c], [pthread_mutexattr_init.c] and
    [pthread_condattr.c], and how attributes reach a mutex: [pthread_mutex_init] of
    [Mutex.v] takes the part of them it reads. *)
From S2P Require Import Prelude Task Scheduler Timing Threads Mutex.

(** Constants of the C library. *)
Class PosixMutexes := {
  PTHREAD_PRIO_NONE : Z;
  PTHREAD_PRIO_INHERIT : Z;
  PTHREAD_PRIO_PROTECT : Z;
  PTHREAD_PROCESS_PRIVATE : Z;
  PTHREAD_PROCESS_SHARED : Z;
  PTHREAD_MUTEX_NORMAL : Z;
  PTHREAD_MUTEX_RECURSIVE : Z;
  PTHREAD_MUTEX_ERRORCHECK : Z;
  CLOCK_REALTIME : Z;
}.

(** [pthread_mutexattr_t] and [pthread_condattr_t]. *)
Record mutexattr := mk_attr { ma_initialized : Z; ma_process_shared : Z; ma_prio_ceiling : Z; ma_protocol : Z; ma_recursive : Z }.
Record condattr := mk_condattr { ca_initialized : bool; ca_process_shared : Z }.

Section Attributes.
Context {P : PosixMutexes}.

(** [None] is the NULL pointer: the check answers [EINVAL] for it, which its callers do
    not take for an error.  They then go on with a NULL pointer, which is no case of this
    model: the operations are given an attribute. *)
Definition pthread_mutexattr_check_initialized (a : option mutexattr) : Z * option Z :=
  match a with
  | None => (EINVAL, None)
  | Some a => if negb (ma_initialized a =? 1) then (-1, Some EINVAL) else (0, None)
  end.
Definition unchecked (a : mutexattr) : bool := (pthread_mutexattr_check_initialized (Some a)).1 <? 0.

Definition pthread_mutexattr_init : mutexattr := mk_attr 1 0 0 0 0.
Definition pthread_mutexattr_destroy (a : mutexattr) : mutexattr * api_result :=
  if unchecked a then (a, Err EINVAL)
  else (mk_attr 0 (ma_process_shared a) (ma_prio_ceiling a) (ma_protocol a) (ma_recursive a), Ret 0).

Definition mutexattr_get (field : mutexattr -> Z) (a : mutexattr) : Z + Z := if unchecked a then inr EINVAL else inl (field a).
Definition pthread_mutexattr_getprioceiling : mutexattr -> Z + Z := mutexattr_get ma_prio_ceiling.
Definition pthread_mutexattr_getprotocol : mutexattr -> Z + Z := mutexattr_get ma_protocol.
Definition pthread_mutexattr_getpshared : mutexattr -> Z + Z := mutexattr_get ma_process_shared.
Definition pthread_mutexattr_gettype : mutexattr -> Z + Z :=
  mutexattr_get (fun a => if negb (ma_recursive a =? 0) then PTHREAD_MUTEX_RECURSIVE else PTHREAD_MUTEX_NORMAL).

Definition mutexattr_set (ok : bool) (f : mutexattr -> mutexattr) (a : mutexattr) : mutexattr * api_result :=
  if unchecked a then (a, Err EINVAL) else if ok then (f a, Ret 0) else (a, Err EINVAL).
Definition pthread_mutexattr_setprioceiling (prio_ceiling : Z) : mutexattr -> mutexattr * api_result :=
  mutexattr_set (negb (prio_ceiling <? CONFIG_SCHED_LOWEST_PRIORITY) && negb (CONFIG_SCHED_HIGHEST_PRIORITY <? prio_ceiling))
    (fun a => mk_attr (ma_initialized a) (ma_process_shared a) prio_ceiling (ma_protocol a) (ma_recursive a)).
Definition pthread_mutexattr_setprotocol (protocol : Z) : mutexattr -> mutexattr * api_result :=
  mutexattr_set ((protocol =? PTHREAD_PRIO_NONE) || (protocol =? PTHREAD_PRIO_INHERIT) || (protocol =? PTHREAD_PRIO_PROTECT))
    (fun a => mk_attr (ma_initialized a) (ma_process_shared a) (ma_prio_ceiling a) protocol (ma_recursive a)).
Definition pthread_mutexattr_setpshared (pshared : Z) : mutexattr -> mutexattr * api_result :=
  mutexattr_set ((pshared =? PTHREAD_PROCESS_SHARED) || (pshared =? PTHREAD_PROCESS_PRIVATE))
    (fun a => mk_attr (ma_initialized a) pshared (ma_prio_ceiling a) (ma_protocol a) (ma_recursive a)).
Definition pthread_mutexattr_settype (type : Z) : mutexattr -> mutexattr * api_result :=
  mutexattr_set ((type =? PTHREAD_MUTEX_NORMAL) || (type =? PTHREAD_MUTEX_RECURSIVE))
    (fun a => mk_attr (ma_initialized a) (ma_process_shared a) (ma_prio_ceiling a) (ma_protocol a)
                (if type =? PTHREAD_MUTEX_NORMAL then 0 else 1)).

(** What [pthread_mutex_init] reads. *)
Definition mutex_attributes (a : mutexattr) : pthread_mutexattr_t :=
  mk_mutexattr (ma_process_shared a) (ma_recursive a) (ma_prio_ceiling a).

(** ** Conditions *)

Definition check_initialized (a : option condattr) : bool := match a with Some a => ca_initialized a | None => false end.
Definition pthread_condattr_init : condattr := mk_condattr true 0.
Definition pthread_condattr_destroy (a : option condattr) : option condattr * api_result :=
  if check_initialized a then ((fun a => mk_condattr false (ca_process_shared a)) <$> a, Ret 0) else (a, Err EINVAL).
Definition pthread_condattr_getpshared (a : option condattr) : option Z + Z :=
  if check_initialized a then inl (ca_process_shared <$> a) else inr EINVAL.
Definition pthread_condattr_setpshared (a : option condattr) (pshared : Z) : option condattr * api_result :=
  if negb (check_initialized a) then (a, Err EINVAL)
  else if (pshared =? PTHREAD_PROCESS_SHARED) || (pshared =? PTHREAD_PROCESS_PRIVATE)
  then ((fun a => mk_condattr (ca_initialized a) pshared) <$> a, Ret 0) else (a, Err EINVAL).
Definition pthread_condattr_getclock (a : option condattr) : Z + Z :=
  if check_initialized a then inl CLOCK_REALTIME else inr EINVAL.
Definition pthread_condattr_setclock (a : option condattr) (clock_id : Z) : option condattr * api_result := (a, Err ENOTSUP).

(** ** What the attributes of a mutex can be *)

(** The values a sequence of calls can leave. *)
Record mutexattr_ok (a : mutexattr) : Prop := {
  mo_ceiling : CONFIG_SCHED_LOWEST_PRIORITY <= ma_prio_ceiling a <= CONFIG_SCHED_HIGHEST_PRIORITY;
  mo_recursive : ma_recursive a = 0 \/ ma_recursive a = 1;
}.
Inductive mutexattr_call := SetCeiling (p : Z) | SetProtocol (p : Z) | SetShared (p : Z) | SetType (t : Z) | Destroy.
Definition mutexattr_step (a : mutexattr) (c : mutexattr_call) : mutexattr :=
  (match c with
   | SetCeiling p => pthread_mutexattr_setprioceiling p a
   | SetProtocol p => pthread_mutexattr_setprotocol p a
   | SetShared p => pthread_mutexattr_setpshared p a
   | SetType t => pthread_mutexattr_settype t a
   | Destroy => pthread_mutexattr_destroy a
   end).1.
Lemma mutexattr_step_ok a c : mutexattr_ok a -> mutexattr_ok (mutexattr_step a c).
Proof.
  intros H. pose proof H as [H1 H2].
  assert (Hset : forall ok f, (ok = true -> mutexattr_ok (f a)) -> mutexattr_ok (mutexattr_set ok f a).1).
  { intros ok f Hf. unfold mutexattr_set. destruct (unchecked a); [done|]. destruct ok; [by apply Hf|done]. }
  destruct c; cbn [mutexattr_step].
  - apply Hset. intros [?%negb_true_iff%Z.ltb_ge ?%negb_true_iff%Z.ltb_ge]%andb_true_iff. by split.
  - apply Hset. by split.
  - apply Hset. by split.
  - apply Hset. intros _. split; [done|]. cbn [ma_recursive]. destruct (Z.eqb t PTHREAD_MUTEX_NORMAL); [by left|by right].
  - unfold mutexattr_step, pthread_mutexattr_destroy. destruct (unchecked a); [exact H|]. cbn [fst]. by split.
Qed.
Lemma mutexattr_reachable_ok l : mutexattr_ok (foldl mutexattr_step pthread_mutexattr_init l).
Proof.
  assert (H : forall a, mutexattr_ok a -> mutexattr_ok (foldl mutexattr_step a l)).
  { induction l as [|c l IH]; intros a Ha; [done|]. apply IH. by apply mutexattr_step_ok. }
  apply H. split; [done|by left].
Qed.
End Attributes.

(** Whatever calls were made on an attribute object since its initialisation, a mutex that
    is initialised with it has a ceiling in the range of priorities, and it is
    recursive and shared exactly when the object says so, and free. *)
Theorem mutex_init_attributes (P : PosixMutexes) l a w : a <> 0 ->
  let attr := foldl mutexattr_step pthread_mutexattr_init l in
  let '(w', r) := pthread_mutex_init a (Some (mutex_attributes attr)) w in
  r = Ret 0 /\ mutex_initialized (mutex w' a) = true /\
  CONFIG_SCHED_LOWEST_PRIORITY <= mutex_prio_ceiling (mutex w' a) <= CONFIG_SCHED_HIGHEST_PRIORITY /\
  mutex_recursive (mutex w' a) = (ma_recursive attr =? 1) /\ mutex_pshared (mutex w' a) = negb (ma_process_shared attr =? 0) /\
  mutex_pthread (mutex w' a) = -1 /\ mutex_lock (mutex w' a) = 0.
Proof.
  intros Ha attr. destruct (mutexattr_reachable_ok l) as [H1 H2]. fold attr in H1, H2. unfold pthread_mutex_init.
  rewrite (proj2 (Z.eqb_neq a 0)) by done. unfold mutex, set_mutex. cbn [w_mutex]. rewrite lookup_total_insert_eq.
  cbn [mutex_initialized mutex_prio_ceiling mutex_recursive mutex_pshared mutex_pthread mutex_lock mutex_attributes mattr_recursive].
  split_and!; try done; [apply H1|apply H1|]. by destruct H2 as [-> | ->].
Qed.

(** Setting an attribute and reading it back gives the value, and a value that is not
    one of those allowed changes nothing. *)
Theorem mutexattr_set_get (P : PosixMutexes) a p t : ma_initialized a = 1 -> PTHREAD_MUTEX_NORMAL <> PTHREAD_MUTEX_RECURSIVE ->
  (let '(a', r) := pthread_mutexattr_setprioceiling p a in
   if bool_decide (CONFIG_SCHED_LOWEST_PRIORITY <= p <= CONFIG_SCHED_HIGHEST_PRIORITY)
   then r = Ret 0 /\ pthread_mutexattr_getprioceiling a' = inl p /\ pthread_mutexattr_gettype a' = pthread_mutexattr_gettype a
   else r = Err EINVAL /\ a' = a) /\
  (let '(a', r) := pthread_mutexattr_settype t a in
   if bool_decide (t = PTHREAD_MUTEX_NORMAL \/ t = PTHREAD_MUTEX_RECURSIVE)
   then r = Ret 0 /\ pthread_mutexattr_gettype a' = inl t /\ pthread_mutexattr_getprioceiling a' = pthread_mutexattr_getprioceiling a
   else r = Err EINVAL /\ a' = a).
Proof.
  intros Hi Hne. assert (U : unchecked a = false) by (unfold unchecked, pthread_mutexattr_check_initialized; by rewrite Hi).
  unfold pthread_mutexattr_setprioceiling, pthread_mutexattr_settype, mutexattr_set. rewrite U. split.
  - destruct (Z.ltb_spec p CONFIG_SCHED_LOWEST_PRIORITY), (Z.ltb_spec CONFIG_SCHED_HIGHEST_PRIORITY p); cbn [negb andb];
      case_bool_decide; try lia; try done.
    unfold pthread_mutexattr_getprioceiling, pthread_mutexattr_gettype, mutexattr_get. rewrite U.
    change (unchecked (mk_attr _ _ _ _ _)) with (unchecked a). by rewrite U.
  - destruct (Z.eqb_spec t PTHREAD_MUTEX_NORMAL) as [Hn|Hn], (Z.eqb_spec t PTHREAD_MUTEX_RECURSIVE) as [Hr|Hr]; cbn [orb];
      case_bool_decide; try tauto; try done;
      unfold pthread_mutexattr_getprioceiling, pthread_mutexattr_gettype, mutexattr_get;
      change (unchecked (mk_attr _ _ _ _ _)) with (unchecked a); rewrite U; split_and!; try done; cbn [ma_recursive]; try change (0 =? 0) with true; try change (1 =? 0) with false; cbn [negb]; congruence.
Qed.

Definition demo_posix : PosixMutexes :=
  {| PTHREAD_PRIO_NONE := 0; PTHREAD_PRIO_INHERIT := 1; PTHREAD_PRIO_PROTECT := 2; PTHREAD_PROCESS_PRIVATE := 0;
     PTHREAD_PROCESS_SHARED := 1; PTHREAD_MUTEX_NORMAL := 0; PTHREAD_MUTEX_RECURSIVE := 1; PTHREAD_MUTEX_ERRORCHECK := 2; CLOCK_REALTIME := 1 |}.
Lemma mutex_init_attributes_witness :
  let '(w', r) := pthread_mutex_init 64 (Some (mutex_attributes
    (foldl (mutexattr_step (P := demo_posix)) pthread_mutexattr_init [SetType 1; SetCeiling 40; SetCeiling 21]))) (mk_world example_kernel ∅ ∅) in
  mutex_recursive (mutex w' 64) = true.
Proof.
  pose proof (mutex_init_attributes demo_posix [SetType 1; SetCeiling 40; SetCeiling 21] 64 (mk_world example_kernel ∅ ∅) ltac:(done)) as H.
  cbv zeta in H. destruct (pthread_mutex_init _ _ _) as [w' r]. destruct H as (_ & _ & _ & H & _). exact H.
Defined.
Lemma mutexattr_set_get_witness :
  let '(a', r) := pthread_mutexattr_setprioceiling 21 pthread_mutexattr_init in pthread_mutexattr_getprioceiling a' = inl 21.
Proof.
  pose proof (mutexattr_set_get demo_posix pthread_mutexattr_init 21 0 eq_refl ltac:(done)) as [H _].
  destruct (pthread_mutexattr_setprioceiling _ _) as [a' r]. apply H.
Defined.
