(* ===== verification/Signals.v ===== *)
(** * Signals

    [src/sys/signal/]: masks and actions ([signal.c]), sending ([pthread_kill.c],
    [_kill.c]), the handler a signal runs on its thread ([signal_handler.c]), waiting for
    signals ([sig_realtime.c]) and for children ([_wait.c]).  What the interrupts send is
    in [Timers.v].  A process's part of the state is what its memory holds: the actions,
    and for the thread the mask and the pending set.  A handler of the program is a number;
    running it is an outcome.  Waiting for the mutex that can delay a signal is left out. *)
From S2P Require Import Prelude Task Scheduler Timing Threads Mutex Timers.

Definition ECHILD : Z := 10.
Definition SI_USER : Z := 1.
Definition SI_QUEUE : Z := 2.
Definition SA_SIGINFO : Z := 1.
Definition WNOHANG : Z := 1.
(** The numbers the table of default handlers is laid out by. *)
Definition SIGCHLD : Z := 4.
Definition SIGCONT : Z := 5.
Definition SIGKILL : Z := 10.
Definition SIGSTOP : Z := 14.
Definition SCHEDULER_TASK_FLAG_SIGCAUGHT : Z := 7.
Definition SCHEDULER_TASK_FLAG_ZOMBIE : Z := 9.

Inductive disposition := SIG_DFL | SIG_IGN | Handler (f : Z).
#[export] Instance disposition_eq_dec : EqDecision disposition.
Proof. solve_decision. Defined.
Record sigaction_t := mk_sigaction { sa_handler : disposition; sa_flags : Z }.
Record siginfo_t := mk_siginfo { si_signo : Z; si_tid : Z; si_code : Z; si_value : Z }.
(** [sg_actions] and [sg_infos] are [None] until they are allocated. *)
Record sigproc := mk_sigproc {
  sg_mask : Z;                                      (** [THREAD_SIGMASK] *)
  sg_pending : Z;                                   (** [THREAD_SIGPENDING] *)
  sg_actions : option (list (option sigaction_t));  (** [GLOBAL_SIGACTIONS] *)
  sg_infos : option (list siginfo_t);               (** [GLOBAL_SIGINFOS] *)
  sg_caught : bool;                                 (** [SIGCAUGHT_ASSERTED] *)
  sg_chld : bool;                                   (** [SIGCHLD_ASSERTED] *)
}.
Definition with_mask (m : Z) (s : sigproc) : sigproc := mk_sigproc m (sg_pending s) (sg_actions s) (sg_infos s) (sg_caught s) (sg_chld s).
Definition with_pending (p : Z) (s : sigproc) : sigproc := mk_sigproc (sg_mask s) p (sg_actions s) (sg_infos s) (sg_caught s) (sg_chld s).
Definition with_actions (l : option (list (option sigaction_t))) (s : sigproc) : sigproc :=
  mk_sigproc (sg_mask s) (sg_pending s) l (sg_infos s) (sg_caught s) (sg_chld s).
Definition with_infos (l : option (list siginfo_t)) (s : sigproc) : sigproc :=
  mk_sigproc (sg_mask s) (sg_pending s) (sg_actions s) l (sg_caught s) (sg_chld s).
Definition with_caught (b : bool) (s : sigproc) : sigproc := mk_sigproc (sg_mask s) (sg_pending s) (sg_actions s) (sg_infos s) b (sg_chld s).
Definition with_chld (b : bool) (s : sigproc) : sigproc := mk_sigproc (sg_mask s) (sg_pending s) (sg_actions s) (sg_infos s) (sg_caught s) b.
Definition bit (signo : Z) : Z := Z.shiftl 1 signo.

(** ** Actions and masks *)

(** Whether the two calls of [malloc] succeed is an argument. *)
Definition action_of (s : sigproc) (sig : Z) : option sigaction_t :=
  match sg_actions s with Some l => mjoin (l !! Z.to_nat sig) | None => None end.
Definition set_action (sig : Z) (a : sigaction_t) (s : sigproc) : sigproc :=
  with_actions ((fun l => <[Z.to_nat sig := Some a]> l) <$> sg_actions s) s.
Definition alloc_sigactions (ok : bool) (s : sigproc) : sigproc * bool :=
  match sg_actions s with
  | Some _ => (s, true)
  | None => if ok then (with_actions (Some (replicate (Z.to_nat CONFIG_TASK_NUM_SIGNALS) None)) s, true) else (s, false)
  end.
Definition alloc_sigaction (ok : bool) (sig : Z) (s : sigproc) : sigproc * bool :=
  match action_of s sig with
  | Some _ => (s, true)
  | None => if ok then (set_action sig (mk_sigaction SIG_DFL 0) s, true) else (s, false)
  end.
Definition uncatchable (sig : Z) : bool := (sig =? SIGKILL) || (sig =? SIGSTOP).
(** The checks [signal] and [sigaction] share. *)
Definition action_entry (ok1 ok2 : bool) (sig : Z) (s : sigproc) : sigproc * option Z :=
  if sig <? CONFIG_TASK_NUM_SIGNALS then
    if uncatchable sig then (s, Some EINVAL)
    else
      let '(s, r) := alloc_sigactions ok1 s in
      if negb r then (s, Some ENOMEM)
      else let '(s, r) := alloc_sigaction ok2 sig s in if negb r then (s, Some ENOMEM) else (s, None)
  else (s, Some EINVAL).
Definition signal (ok1 ok2 : bool) (sig : Z) (func : disposition) (s : sigproc) : sigproc * (disposition + Z) :=
  match action_entry ok1 ok2 sig s with
  | (s, Some e) => (s, inr e)
  | (s, None) =>
      let s := if bool_decide (func = SIG_IGN) then with_pending (Bits.clear (sg_pending s) (bit sig)) s else s in
      (set_action sig (mk_sigaction func 0) s, inl func)
  end.
Definition sigaction (ok1 ok2 : bool) (sig : Z) (act : sigaction_t) (s : sigproc) : sigproc * (option sigaction_t + Z) :=
  match action_entry ok1 ok2 sig s with
  | (s, Some e) => (s, inr e)
  | (s, None) => (set_action sig act s, inl (action_of s sig))
  end.
Inductive sig_how := SIG_BLOCK | SIG_SETMASK | SIG_UNBLOCK | SIG_OTHER.
(** The old mask goes to [oset]. *)
Definition pthread_sigmask (how : sig_how) (set : Z) (s : sigproc) : sigproc * (Z + Z) :=
  match (match how with
         | SIG_BLOCK => Some (Z.lor (sg_mask s) set)
         | SIG_SETMASK => Some set
         | SIG_UNBLOCK => Some (Bits.clear (sg_mask s) set)
         | SIG_OTHER => None
         end) with
  | Some mask => (with_mask (Bits.clear (Bits.clear mask (bit SIGKILL)) (bit SIGSTOP)) s, inl (sg_mask s))
  | None => (s, inr EINVAL)
  end.
Definition sigprocmask := pthread_sigmask.
Definition sigpending (s : sigproc) : Z := Z.land (sg_mask s) (sg_pending s).

(** ** The scheduler's part *)

Definition root_assert_stopped (i : Z) : kernel -> kernel := on_tasks (task_assert_stopped i).
Definition root_deassert_stopped (i : Z) : kernel -> kernel := on_tasks (task_deassert_stopped i).
Definition current_pid (k : kernel) : Z := task_get_pid (k_tasks k) (current k).
Definition stop_turn (pid i : Z) (k : kernel) : kernel :=
  if task_get_pid (k_tasks k) i =? pid then root_assert_stopped i k else k.
Definition svcall_stoppid (k : kernel) : kernel :=
  let i := current k in
  let k := if task_thread_asserted (k_tasks k) i then root_assert_stopped i k
           else for_range 1 task_get_total (stop_turn (current_pid k)) k in
  scheduler_root_update_on_stopped k.
Definition cont_turn (pid i : Z) (s : kernel * Z) : kernel * Z :=
  let '(k, highest_prio) := s in
  if task_get_pid (k_tasks k) i =? pid then
    let k := root_deassert_stopped i k in
    let prio := task_get_priority (k_tasks k) i in
    (k, if highest_prio <? prio then prio else highest_prio)
  else (k, highest_prio).
Definition svcall_contpid (k : kernel) : kernel :=
  let i := current k in
  let '(k, highest_prio) :=
    if task_thread_asserted (k_tasks k) i then (root_deassert_stopped i k, task_get_priority (k_tasks k) i)
    else for_range 1 task_get_total (cont_turn (current_pid k)) (k, 0) in
  scheduler_root_update_on_wake (-1) highest_prio k.
Definition signal_svcall_wait (timeout : option mcu_timeval) (k : kernel) : kernel :=
  match timeout with
  | Some t => scheduler_timing_root_timedblock NULL t k
  | None => scheduler_root_update_on_sleep k
  end.

(** ** The handler *)

Inductive default_action := Ignore | Abort | Terminate | Stop | Continue.
#[export] Instance default_action_inhabited : Inhabited default_action := populate Ignore.
#[export] Instance default_action_eq_dec : EqDecision default_action.
Proof. solve_decision. Defined.
Definition default_handlers : list default_action :=
  [Ignore; Abort; Terminate; Abort; Ignore; Continue; Abort; Terminate; Abort; Terminate; Terminate; Terminate; Abort; Abort; Stop;
   Terminate; Stop; Stop; Stop; Terminate; Terminate; Terminate; Terminate; Abort; Abort; Ignore; Terminate; Abort; Abort; Ignore;
   Ignore; Ignore].

Record sigworld := mk_sigworld { g_k : kernel; g_s : sigproc }.
Definition on_gk (f : kernel -> kernel) (w : sigworld) : sigworld := mk_sigworld (f (g_k w)) (g_s w).
Definition on_gs (f : sigproc -> sigproc) (w : sigworld) : sigworld := mk_sigworld (g_k w) (f (g_s w)).
(** What the delivery came to: the signal was held back or thrown away, the process ends
    with a status, it stops or goes on, or a handler of the program runs. *)
Inductive outcome := Held | Dropped | Exits (status : Z) | Stops | Continues | Ignored | Runs (f : Z).

Definition stop_action (w : sigworld) : sigworld * outcome :=
  if current (g_k w) =? 0 then (w, Ignored) else (on_gk svcall_stoppid w, Stops).
Definition continue_action (w : sigworld) : sigworld * outcome :=
  if current_pid (g_k w) =? 0 then (w, Ignored) else (on_gk svcall_contpid w, Continues).
Definition run_default (signo : Z) (w : sigworld) : sigworld * outcome :=
  match Zget default_handlers signo with
  | Ignore => (w, Ignored)
  | Abort | Terminate => (w, Exits (Z.shiftl signo 8))
  | Stop => stop_action w
  | Continue => continue_action w
  end.
(** A blocked signal is thrown away when it is ignored and actions were allocated. *)
Definition dropped (signo : Z) (s : sigproc) : bool :=
  match sg_actions s with
  | None => false
  | Some _ => match action_of s signo with
              | Some a => bool_decide (sa_handler a = SIG_IGN)
              | None => bool_decide (Zget default_handlers signo = Ignore)
              end
  end.
Definition signal_handler (tid signo code sig_value : Z) (w : sigworld) : sigworld * outcome :=
  if signo <? CONFIG_TASK_NUM_SIGNALS then
    let w := if code =? SI_TIMER then on_gk (svcall_unqueue_timer signo sig_value) w else w in
    let w := on_gs (fun s => with_infos ((fun l => <[Z.to_nat signo := mk_siginfo signo tid code sig_value]> l) <$> sg_infos s) s) w in
    if negb (uncatchable signo) && Bits.any (sg_mask (g_s w)) (bit signo) then
      if dropped signo (g_s w) then (w, Dropped)
      else (on_gs (fun s => with_pending (Bits.set (sg_pending s) (bit signo)) s) w, Held)
    else
      let w := if signo =? SIGCHLD then on_gs (with_chld true) w else w in
      match action_of (g_s w) signo with
      | Some a => match sa_handler a with
                  | SIG_DFL => run_default signo w
                  | SIG_IGN => (w, Ignored)
                  | Handler f => (on_gs (with_caught true) w, Runs f)
                  end
      | None => run_default signo w
      end
  else (w, Ignored).

(** ** Sending *)

Section Sending.
Context (stack_room : Z -> bool).
(** [None] leaves the state alone; an error is its number or the driver's code. *)
Definition signal_send (tid signo code sig_value : Z) (s : tsys) : tsys * api_result :=
  if negb (scheduler_check_tid (t_k s) tid =? 0) then (s, Err ESRCH)
  else if negb (signo =? 0) then
    if signo <? CONFIG_TASK_NUM_SIGNALS then
      if negb (stack_room tid) then (s, Ret (SYSFS_SET_RETURN 198 ENOMEM))
      else (stack_handler (mk_intr tid false (current (t_k s)) signo code sig_value) s, Ret 0)
    else (s, Err EINVAL)
  else (s, Ret 0).
Definition pthread_kill (thread signo : Z) : tsys -> tsys * api_result := signal_send thread signo SI_USER 0.
Definition _kill (pid signo : Z) (s : tsys) : tsys * api_result :=
  let tid := task_find (fun i => (pid =? task_get_pid (k_tasks (t_k s)) i) && negb (task_thread_asserted (k_tasks (t_k s)) i))
               (Z.to_nat (task_get_total - 1)) 1 in
  signal_send tid signo SI_USER 0 s.
Definition sigqueue (pid signo value : Z) (s : tsys) : tsys * api_result :=
  let tid := task_find (fun i => pid =? task_get_pid (k_tasks (t_k s)) i) (Z.to_nat (task_get_total - 1)) 1 in
  signal_send tid signo SI_QUEUE value s.
End Sending.

(** ** Waiting for a signal *)

(** The loop of [check_pending_set]: the signal found, 0 for none. *)
Fixpoint find_signal (fuel : nat) (i mask : Z) : Z :=
  match fuel with
  | O => 0
  | S fuel => if Bits.any mask (bit i) then i else find_signal fuel (i + 1) mask
  end.
Definition check_pending_set (set : Z) (s : sigproc) : sigproc * Z :=
  let mask := Z.land (sg_pending s) set in
  if negb (mask =? 0) then
    let i := find_signal (Z.to_nat CONFIG_TASK_NUM_SIGNALS) 0 mask in
    if Bits.any mask (bit i) then (with_pending (Bits.clear (sg_pending s) (bit i)) s, i) else (s, 0)
  else (s, 0).
(** A turn of the loops: the signal, or the thread sleeps; and what the loops test when it
    runs again. *)
Definition sigwait_turn (set : Z) (timeout : option mcu_timeval) (w : sigworld) : sigworld * option Z :=
  let '(s, sig) := check_pending_set set (g_s w) in
  if negb (sig =? 0) then (mk_sigworld (g_k w) s, Some sig)
  else (mk_sigworld (signal_svcall_wait timeout (g_k w)) s, None).
Definition sigwait (set : Z) : sigworld -> sigworld * option Z := sigwait_turn set None.
(** [sigtimedwait] and [sigwaitinfo] give the information of the signal; without memory for
    it the signal taken from the pending set is forgotten. *)
Definition sigwaitinfo_turn (set : Z) (timeout : option mcu_timeval) (w : sigworld) : sigworld * option siginfo_t :=
  let '(s, sig) := check_pending_set set (g_s w) in
  match (if negb (sig =? 0) then l ← sg_infos s; l !! Z.to_nat sig else None) with
  | Some info => (mk_sigworld (g_k w) s, Some info)
  | None => (mk_sigworld (signal_svcall_wait timeout (g_k w)) s, None)
  end.
Definition sigtimedwait_wakes (k : kernel) : option Z :=
  if scheduler_flag_asserted k (current k) SCHEDULER_TASK_FLAG_SIGCAUGHT then Some EINTR
  else if scheduler_unblock_type k (current k) =? SCHEDULER_UNBLOCK_SLEEP then Some EAGAIN else None.
Definition sigwaitinfo_wakes (k : kernel) : option Z :=
  if scheduler_flag_asserted k (current k) SCHEDULER_TASK_FLAG_SIGCAUGHT then Some EINTR else None.
(** [sigsuspend] up to the sleep, with the mask to restore, and after it. *)
Definition sigsuspend (sigmask : Z) (w : sigworld) : sigworld * Z :=
  (mk_sigworld (signal_svcall_wait None (g_k w)) (with_mask sigmask (g_s w)), sg_mask (g_s w)).
Definition sigsuspend_returns (mask : Z) (w : sigworld) : sigworld * api_result := (on_gs (with_mask mask) w, Err EINTR).

(** ** Waiting for a child *)

Definition scheduler_zombie_asserted (k : kernel) (i : Z) : bool := scheduler_flag_asserted k i SCHEDULER_TASK_FLAG_ZOMBIE.
(** [svcall_check_for_zombie_child]: the child, its status, and the counts so far. *)
Record zscan := mk_zscan { z_k : kernel; z_tid : Z; z_status : Z; z_zombies : Z; z_children : Z }.
Definition reap (i : Z) (k : kernel) : kernel := on_tasks (task_root_delete i) (on_sched i (with_sched_flags 0) k).
Definition zombie_turn (pid current_pid : Z) (chld : bool) (i : Z) (z : zscan) : zscan :=
  let k := z_k z in
  if task_enabled (k_tasks k) i && (task_get_pid (k_tasks k) (task_get_parent (k_tasks k) i) =? current_pid) then
    let z := mk_zscan k (z_tid z) (z_status z) (z_zombies z) (z_children z + 1) in
    if scheduler_zombie_asserted k i && ((task_get_pid (k_tasks k) i =? pid) || (pid =? -1)) && chld then
      let z := if z_zombies z =? 0
               then mk_zscan (reap i k) i (exit_status (sched k i)) (z_zombies z) (z_children z) else z in
      mk_zscan (z_k z) (z_tid z) (z_status z) (z_zombies z + 1) (z_children z)
    else z
  else z.
Definition svcall_check_for_zombie_child (pid status : Z) (w : sigworld) : sigworld * Z * Z :=
  let k := g_k w in
  let z := for_range 1 task_get_total (zombie_turn pid (current_pid k) (sg_chld (g_s w))) (mk_zscan k (-1) status 0 0) in
  let s := if z_zombies z <=? 1 then with_chld false (g_s w) else g_s w in
  (mk_sigworld (z_k z) s, (if 0 <? z_tid z then z_tid z else if 0 <? z_children z then 0 else -1), z_status z).
Definition svcall_wait_child (pid status : Z) (w : sigworld) : sigworld * Z * Z :=
  let '(w, tid, status) := svcall_check_for_zombie_child pid status w in
  let w := if tid =? 0 then on_gk scheduler_root_update_on_stopped (on_gk (fun k => root_assert_stopped (current k) k) w) else w in
  (w, tid, status).
(** [waitpid] that does not wait: the result and the status. *)
Definition waitpid_result (w : sigworld) (tid : Z) : api_result :=
  if tid =? 0 then Ret 0 else if tid <? 0 then Err ECHILD else Ret (task_get_pid (k_tasks (g_k w)) tid).
Definition waitpid_nohang (pid status : Z) (w : sigworld) : sigworld * api_result * Z :=
  if (pid <? -1) || (pid =? 0) then (w, Err ENOTSUP, status)
  else
    let '(w, tid, status) := if sg_chld (g_s w) then svcall_check_for_zombie_child pid status w else (w, 0, status) in
    (w, waitpid_result w tid, status).
(** A waiting [waitpid] up to the sleep, and when the thread runs again: the result,
    or another turn. *)
Definition waitpid_wait (pid status : Z) (w : sigworld) : sigworld * option api_result * Z :=
  if (pid <? -1) || (pid =? 0) then (w, Some (Err ENOTSUP), status)
  else let '(w, tid, status) := svcall_wait_child pid status w in
       (w, (if tid =? 0 then None else Some (waitpid_result w tid)), status).
Definition waitpid_wakes (pid status : Z) (w : sigworld) : sigworld * option api_result * Z :=
  if sg_chld (g_s w) then
    let '(w, tid, status) := svcall_check_for_zombie_child pid status w in
    (w, (if tid =? 0 then None else Some (waitpid_result w tid)), status)
  else (w, Some (Err EINTR), status).

(** ** Taking a pending signal *)

Lemma any_bit m i : 0 <= i -> Bits.any m (bit i) = Z.testbit m i.
Proof. intros Hi. unfold Bits.any, bit. rewrite land_bit by done. destruct (Z.testbit m i); [|done]. apply negb_true_iff, Z.eqb_neq. rewrite Z.shiftl_1_l. lia. Qed.
Lemma find_signal_spec m : forall fuel i, 0 <= i ->
  let r := find_signal fuel i m in
  (i <= r < i + Z.of_nat fuel /\ Z.testbit m r = true /\ forall j, i <= j < r -> Z.testbit m j = false) \/
  (r = 0 /\ forall j, i <= j < i + Z.of_nat fuel -> Z.testbit m j = false).
Proof.
  induction fuel as [|fuel IH]; intros i Hi; cbn [find_signal]; [right; split; [done|lia]|]. rewrite any_bit by done.
  destruct (Z.testbit m i) eqn:E; [left; split_and!; try lia; done|].
  destruct (IH (i + 1) ltac:(lia)) as [(H1 & H2 & H3)|[-> H]]; [left|right]; split_and!; try lia; try done;
    intros j Hj; destruct (decide (j = i)) as [->|]; try done; [apply H3|apply H]; lia.
Qed.
Lemma testbit_clear_bit m i j : 0 <= i -> 0 <= j -> Z.testbit (Bits.clear m (bit i)) j = Z.testbit m j && negb (j =? i).
Proof.
  intros Hi Hj. unfold Bits.clear, bit. rewrite Z.land_spec, Z.lnot_spec, Z.shiftl_1_l, Z.pow2_bits_eqb by done.
  by rewrite (Z.eqb_sym i j).
Qed.

(** Waiting for a signal of a set takes the lowest pending signal of the set: the thread
    does not sleep, the signal is no longer pending, and the others still are.
    Without one the thread sleeps and nothing else changes. *)
Theorem sigwait_takes_lowest set w :
  0 <= Z.land (sg_pending (g_s w)) set < 2 ^ 32 -> Z.testbit (sg_pending (g_s w)) 0 = false ->
  let waiting j := Z.testbit (sg_pending (g_s w)) j && Z.testbit set j in
  match sigwait set w with
  | (w', Some sig) => g_k w' = g_k w /\ 0 < sig < CONFIG_TASK_NUM_SIGNALS /\ waiting sig = true /\
      (forall j, 0 <= j < sig -> waiting j = false) /\
      (forall j, 0 <= j -> Z.testbit (sg_pending (g_s w')) j = Z.testbit (sg_pending (g_s w)) j && negb (j =? sig)) /\
      sg_mask (g_s w') = sg_mask (g_s w)
  | (w', None) => (forall j, 0 <= j -> waiting j = false) /\ g_s w' = g_s w /\ g_k w' = scheduler_root_update_on_sleep (g_k w)
  end.
Proof.
  intros Hm H0 waiting. unfold sigwait, sigwait_turn, check_pending_set. set (m := Z.land (sg_pending (g_s w)) set) in *.
  assert (Hw : forall j, waiting j = Z.testbit m j) by (intros j; unfold waiting, m; by rewrite Z.land_spec).
  assert (Hm0 : Z.testbit m 0 = false) by (rewrite <- Hw; unfold waiting; by rewrite H0).
  destruct (Z.eqb_spec m 0) as [E|E]; cbn [negb].
  - change (0 =? 0) with true. cbn [negb]. split; [|done]. intros j Hj. by rewrite Hw, E, Z.bits_0.
  - destruct (find_signal_spec m (Z.to_nat CONFIG_TASK_NUM_SIGNALS) 0 ltac:(lia)) as [(H1 & H2 & H3)|[_ H]].
    + set (i := find_signal _ 0 m) in *. rewrite any_bit, H2 by lia.
      assert (i <> 0) by (intros E0; rewrite E0 in H2; congruence). rewrite (proj2 (Z.eqb_neq i 0)) by done. cbn [negb g_k g_s sg_pending with_pending sg_mask].
      split; [done|]. split; [unfold CONFIG_TASK_NUM_SIGNALS in *; lia|]. split; [by rewrite Hw|]. split; [intros j Hj; rewrite Hw; apply H3; lia|].
      split; [|done]. intros j Hj. apply testbit_clear_bit; lia.
    + destruct E. apply Z.bits_inj'. intros j Hj. rewrite Z.bits_0. destruct (decide (j < 32)); [apply H; unfold CONFIG_TASK_NUM_SIGNALS; lia|].
      destruct (decide (m = 0)) as [->|]; [apply Z.bits_0|]. apply Z.bits_above_log2; [lia|].
      apply Z.log2_lt_pow2; [lia|]. eapply Z.lt_le_trans; [apply Hm|]. apply Z.pow_le_mono_r; lia.
Qed.

(** ** Signals that cannot be caught *)

Inductive sig_call :=
| Csignal (ok1 ok2 : bool) (sig : Z) (func : disposition)
| Csigaction (ok1 ok2 : bool) (sig : Z) (act : sigaction_t)
| Cmask (how : sig_how) (set : Z)
| Csuspend (mask : Z).
Definition sig_call_step (s : sigproc) (c : sig_call) : sigproc :=
  match c with
  | Csignal ok1 ok2 sig func => (signal ok1 ok2 sig func s).1
  | Csigaction ok1 ok2 sig act => (sigaction ok1 ok2 sig act s).1
  | Cmask how set => (pthread_sigmask how set s).1
  | Csuspend mask => with_mask mask s
  end.
Definition call_ok (c : sig_call) : Prop :=
  match c with Csignal _ _ sig _ | Csigaction _ _ sig _ => 0 <= sig | _ => True end.
(** No action is stored for the two signals. *)
Definition never_caught (s : sigproc) : Prop := forall sig, uncatchable sig = true -> action_of s sig = None.

Lemma uncatchable_cases sig : uncatchable sig = true -> sig = SIGKILL \/ sig = SIGSTOP.
Proof. unfold uncatchable. intros [?%Z.eqb_eq|?%Z.eqb_eq]%orb_true_iff; auto. Qed.
Lemma action_of_set sig sig' a s : 0 <= sig -> 0 <= sig' -> sig <> sig' -> action_of (set_action sig a s) sig' = action_of s sig'.
Proof.
  intros H H' Hne. unfold action_of, set_action. destruct (sg_actions s) as [l|]; cbn [sg_actions with_actions fmap option_fmap option_map]; [|done].
  by rewrite list_lookup_insert_ne by lia.
Qed.
Lemma set_action_never_caught sig a s : 0 <= sig -> uncatchable sig = false -> never_caught s -> never_caught (set_action sig a s).
Proof.
  intros Hs Hu H sig' H'. rewrite action_of_set; [by apply H|done| |by intros ->; congruence].
  destruct (uncatchable_cases _ H') as [-> | ->]; done.
Qed.
Lemma action_entry_never_caught ok1 ok2 sig s s' r : 0 <= sig -> never_caught s -> action_entry ok1 ok2 sig s = (s', r) ->
  never_caught s' /\ (r = None -> uncatchable sig = false).
Proof.
  intros Hs H. unfold action_entry. destruct (sig <? _); [|by intros [= <- <-]]. destruct (uncatchable sig) eqn:Eu; [by intros [= <- <-]|].
  destruct (alloc_sigactions ok1 s) as [s1 r1] eqn:E1.
  assert (H1 : never_caught s1).
  { unfold alloc_sigactions in E1. destruct (sg_actions s) eqn:Ea; [by simplify_eq|]. destruct ok1; simplify_eq; [|done].
    intros sig' H'. unfold action_of. cbn [sg_actions with_actions]. destruct (uncatchable_cases _ H') as [-> | ->]; done. }
  destruct r1; cbn [negb]; [|by intros [= <- <-]]. unfold alloc_sigaction. destruct (action_of s1 sig); [by intros [= <- <-]|].
  destruct ok2; cbn [negb]; [|by intros [= <- <-]]. intros [= <- <-]. split; [|done]. by apply set_action_never_caught.
Qed.
Lemma sig_call_never_caught c s : call_ok c -> never_caught s -> never_caught (sig_call_step s c).
Proof.
  intros Hc H. destruct c as [ok1 ok2 sig func|ok1 ok2 sig act|how set|mask]; cbn [sig_call_step call_ok] in *.
  - unfold signal. destruct (action_entry ok1 ok2 sig s) as [s1 r] eqn:E. destruct (action_entry_never_caught _ _ _ _ _ _ Hc H E) as [H1 Hr].
    destruct r; [done|]. cbn [fst]. apply set_action_never_caught; [done|by apply Hr|]. by destruct (bool_decide _).
  - unfold sigaction. destruct (action_entry ok1 ok2 sig s) as [s1 r] eqn:E. destruct (action_entry_never_caught _ _ _ _ _ _ Hc H E) as [H1 Hr].
    destruct r; [done|]. cbn [fst]. apply set_action_never_caught; [done|by apply Hr|done].
  - unfold pthread_sigmask. by destruct how.
  - done.
Qed.
Lemma calls_never_caught l s : Forall call_ok l -> never_caught s -> never_caught (foldl sig_call_step s l).
Proof.
  revert s. induction l as [|c l IH]; intros s Hl H; [done|]. apply Forall_cons in Hl as [Hc Hl]. apply IH; [done|]. by apply sig_call_never_caught.
Qed.

(** ** Stopping and continuing a process *)

(** The threads [1 .. n-1] of process [pid] have their stop flag set to [b]; nothing else
    has changed. *)
Record stop_scan (pid : Z) (b : bool) (k : kernel) (n : Z) (k' : kernel) : Prop := {
  ss_wf : kernel_wf k';
  ss_sched : sos_sched_table k' = sos_sched_table k;
  ss_current : current k' = current k;
  ss_pid : forall j, 0 <= j -> task_get_pid (k_tasks k') j = task_get_pid (k_tasks k) j;
  ss_flag : forall j g, 0 <= j -> Z.land TASK_FLAGS_STOPPED g = 0 ->
    task_flag_asserted (k_tasks k') j g = task_flag_asserted (k_tasks k) j g;
  ss_stopped : forall j, 0 <= j ->
    stopped k' j = if (1 <=? j) && (j <? n) && (task_get_pid (k_tasks k) j =? pid) then b else stopped k j;
}.
Definition flag_turn (b : bool) (pid i : Z) (k : kernel) : kernel :=
  if task_get_pid (k_tasks k) i =? pid then if b then root_assert_stopped i k else root_deassert_stopped i k else k.

Lemma flag_turn_scan b pid k i k' : 1 <= i < CONFIG_TASK_TOTAL -> stop_scan pid b k i k' -> stop_scan pid b k (i + 1) (flag_turn b pid i k').
Proof.
  intros Hi [Hw Hs Hc Hp Hf Ht]. assert (Hid : task_id i) by (unfold task_id; lia). unfold flag_turn. rewrite Hp by lia.
  destruct (Z.eqb_spec (task_get_pid (k_tasks k) i) pid) as [E|E].
  - set (k1 := if b then root_assert_stopped i k' else root_deassert_stopped i k').
    assert (Hl : Zlen (sos_task_table (k_tasks k')) = CONFIG_TASK_TOTAL) by apply Hw.
    assert (Hlen : Zlen (sos_task_table (k_tasks k1)) = CONFIG_TASK_TOTAL) by (unfold k1; destruct b; (etrans; [apply Zlen_on_task|exact Hl])).
    assert (Hsame : stopped k1 i = b).
    { unfold k1, stopped, task_stopped_asserted. destruct b; [by apply flag_set_same|by apply flag_clear_same]. }
    assert (Hoth : forall j, 0 <= j -> j <> i -> stopped k1 j = stopped k' j).
    { intros j Hj Hne. unfold k1, stopped, task_stopped_asserted. destruct b; [by apply flag_set_ne; auto|by apply flag_clear_ne; auto]. }
    split.
    + destruct Hw as [[? ?] ?]. unfold k1 in *. destruct b; split; try done; split; done.
    + unfold k1. by destruct b.
    + unfold k1. by destruct b.
    + intros j Hj. rewrite <- Hp by done. unfold k1, task_get_pid, root_assert_stopped, root_deassert_stopped.
      destruct b; cbn [k_tasks on_tasks]; unfold task_assert_stopped, task_deassert_stopped, task_assert_flag, task_deassert_flag;
        by rewrite (on_task_field task_pid).
    + intros j g Hj Hg. rewrite <- Hf by done. unfold k1. destruct b; [by apply flag_set_disjoint|by apply flag_clear_disjoint].
    + intros j Hj. destruct (decide (j = i)) as [->|Hne].
      * rewrite Hsame, E, Z.eqb_refl. rewrite (proj2 (Z.leb_le 1 i)), (proj2 (Z.ltb_lt i (i + 1))) by lia. done.
      * rewrite Hoth, Ht by done. destruct (Z.ltb_spec j i), (Z.ltb_spec j (i + 1)); try lia; done.
  - split; try done. intros j Hj. rewrite Ht by done. destruct (decide (j = i)) as [->|Hne].
    + rewrite (proj2 (Z.eqb_neq _ pid)) by done. by rewrite !andb_false_r.
    + destruct (Z.ltb_spec j i), (Z.ltb_spec j (i + 1)); try lia; done.
Qed.
Lemma flag_scan b pid k : kernel_wf k -> stop_scan pid b k CONFIG_TASK_TOTAL (for_range 1 CONFIG_TASK_TOTAL (flag_turn b pid) k).
Proof.
  intros Hw. apply (for_range_ind (fun n k' => stop_scan pid b k n k')); [unfold CONFIG_TASK_TOTAL; lia| |].
  - split; try done. intros j Hj. destruct (Z.leb_spec 1 j), (Z.ltb_spec j 1); try lia; done.
  - intros i k' Hi H. by apply flag_turn_scan.
Qed.
Lemma stop_scan_same pid b k n k1 k2 : stop_scan pid b k n k1 -> same_threads k1 k2 -> stop_scan pid b k n k2.
Proof.
  intros [Hw Hs Hc Hp Hf Ht] S. split.
  - by eapply same_threads_wf.
  - by rewrite (st_sched _ _ S).
  - by rewrite (st_current _ _ S).
  - intros j Hj. by rewrite (st_pid _ _ S), Hp.
  - intros j g Hj Hg. by rewrite (same_threads_flag _ _ _ _ S), Hf.
  - intros j Hj. unfold stopped, task_stopped_asserted. rewrite (same_threads_flag _ _ _ _ S) by done. by apply Ht.
Qed.
Lemma cont_loop_eq pid : forall n k p, (for_range 1 n (cont_turn pid) (k, p)).1 = for_range 1 n (flag_turn false pid) k.
Proof.
  intros n. unfold for_range. generalize (seqZ 1 (n - 1)) as l. induction l as [|i l IH]; intros k p; [done|]. cbn [foldl].
  unfold cont_turn at 2, flag_turn at 2. destruct (_ =? pid); apply IH.
Qed.

(** The first thread of a process stops all of it. *)
Lemma stoppid_scan k : kernel_wf k -> task_thread_asserted (k_tasks k) (current k) = false ->
  stop_scan (current_pid k) true k CONFIG_TASK_TOTAL (svcall_stoppid k).
Proof.
  intros Hw Ht. unfold svcall_stoppid. rewrite Ht. eapply stop_scan_same; [|apply update_on_stopped_same]. by apply flag_scan.
Qed.
(** Any other thread stops only itself. *)
Lemma stoppid_thread k : kernel_wf k -> task_thread_asserted (k_tasks k) (current k) = true ->
  forall j, 0 <= j -> stopped (svcall_stoppid k) j = if j =? current k then true else stopped k j.
Proof.
  intros Hw Ht j Hj. unfold svcall_stoppid. rewrite Ht. set (k1 := root_assert_stopped (current k) k).
  assert (E : stopped (scheduler_root_update_on_stopped k1) j = stopped k1 j).
  { unfold stopped, task_stopped_asserted. by rewrite (same_threads_flag _ _ _ _ (update_on_stopped_same k1)). }
  rewrite E. unfold k1, stopped, task_stopped_asserted. destruct Hw as [[Hl Hc] _]. destruct (Z.eqb_spec j (current k)) as [->|Hne].
  - by apply flag_set_same.
  - by apply flag_set_ne; auto.
Qed.
Lemma contpid_scan k : kernel_wf k -> task_thread_asserted (k_tasks k) (current k) = false ->
  stop_scan (current_pid k) false k CONFIG_TASK_TOTAL (svcall_contpid k).
Proof.
  intros Hw Ht. unfold svcall_contpid. rewrite Ht. pose proof (cont_loop_eq (current_pid k) task_get_total k 0) as E.
  destruct (for_range 1 task_get_total (cont_turn (current_pid k)) (k, 0)) as [k1 p]. cbn [fst] in E. subst k1.
  eapply stop_scan_same; [|apply update_on_wake_same]. by apply flag_scan.
Qed.

(** Stopping a process and continuing it: in between exactly the threads of the process
    are stopped; afterwards every thread, of this and of other processes, is stopped or
    not as before, when no thread of this one was.  Nothing else of a thread
    changes. *)
Theorem stop_continue_roundtrip k : kernel_wf k -> task_thread_asserted (k_tasks k) (current k) = false ->
  let mine j := (1 <=? j) && (j <? CONFIG_TASK_TOTAL) && (task_get_pid (k_tasks k) j =? current_pid k) in
  let k1 := svcall_stoppid k in
  let k2 := svcall_contpid k1 in
  (forall j, 0 <= j -> stopped k1 j = mine j || stopped k j) /\
  (forall j, 0 <= j -> stopped k2 j = negb (mine j) && stopped k j) /\
  (forall j g, 0 <= j -> Z.land TASK_FLAGS_STOPPED g = 0 -> task_flag_asserted (k_tasks k2) j g = task_flag_asserted (k_tasks k) j g) /\
  sos_sched_table k2 = sos_sched_table k.
Proof.
  intros Hw Ht mine k1 k2. pose proof (stoppid_scan k Hw Ht) as [W1 S1 C1 P1 F1 T1]. fold k1 in W1, S1, C1, P1, F1, T1.
  assert (Hc : 0 <= current k) by apply Hw.
  assert (Ht1 : task_thread_asserted (k_tasks k1) (current k1) = false) by (unfold task_thread_asserted in *; rewrite C1, F1; done).
  assert (Hp1 : current_pid k1 = current_pid k) by (unfold current_pid; by rewrite C1, P1).
  pose proof (contpid_scan k1 W1 Ht1) as [W2 S2 C2 P2 F2 T2]. fold k2 in W2, S2, C2, P2, F2, T2. rewrite Hp1 in T2.
  split_and!.
  - intros j Hj. rewrite T1 by done. fold (mine j). by destruct (mine j).
  - intros j Hj. rewrite T2, T1, P1 by done. fold (mine j). by destruct (mine j).
  - intros j g Hj Hg. by rewrite F2, F1.
  - congruence.
Qed.

(** C35: Whatever handlers a process has installed and whatever it blocks, a [SIGKILL] that does not come from a timer ends it, and such a
    [SIGSTOP] stops all its threads when the handler runs on its first thread.  On any other thread [SIGSTOP] stops that thread alone, against
    the comment of [pthread_kill] that a signal affects the entire process. *)
Theorem kill_and_stop_cannot_be_caught l s w tid code v :
  Forall call_ok l -> sg_actions s = None -> g_s w = foldl sig_call_step s l -> code <> SI_TIMER ->
  (signal_handler tid SIGKILL code v w).2 = Exits (Z.shiftl SIGKILL 8) /\
  (kernel_wf (g_k w) -> current (g_k w) <> 0 ->
   let '(w', o) := signal_handler tid SIGSTOP code v w in
   o = Stops /\
   if task_thread_asserted (k_tasks (g_k w)) (current (g_k w))
   then forall j, 0 <= j -> stopped (g_k w') j = if j =? current (g_k w) then true else stopped (g_k w) j
   else forall j, 1 <= j < CONFIG_TASK_TOTAL -> task_get_pid (k_tasks (g_k w)) j = current_pid (g_k w) -> stopped (g_k w') j = true).
Proof.
  intros Hl Hs Hw Hcode. assert (N : never_caught (g_s w)).
  { rewrite Hw. apply calls_never_caught; [done|]. intros sig _. unfold action_of. by rewrite Hs. }
  assert (A : forall sig i, uncatchable sig = true -> action_of (with_infos i (g_s w)) sig = None) by (intros sig i Hu; by apply N).
  unfold signal_handler. rewrite (proj2 (Z.eqb_neq code SI_TIMER)) by done.
  change (SIGKILL <? CONFIG_TASK_NUM_SIGNALS) with true. change (SIGSTOP <? CONFIG_TASK_NUM_SIGNALS) with true. cbv iota.
  change (uncatchable SIGKILL) with true. change (uncatchable SIGSTOP) with true. cbn [negb andb].
  change (SIGKILL =? SIGCHLD) with false. change (SIGSTOP =? SIGCHLD) with false. cbv iota. unfold on_gs. cbn [g_s g_k]. split.
  - by rewrite A.
  - intros Hwf Hc. rewrite A by done. unfold run_default. change (Zget default_handlers SIGSTOP) with Stop. cbv iota.
    unfold stop_action. cbn [g_k]. rewrite (proj2 (Z.eqb_neq _ 0)) by done. split; [done|]. cbn [g_k on_gk].
    destruct (task_thread_asserted (k_tasks (g_k w)) (current (g_k w))) eqn:Ht; [by apply stoppid_thread|]. intros j Hj Hp.
    rewrite (ss_stopped _ _ _ _ _ (stoppid_scan (g_k w) Hwf Ht)) by lia. rewrite Hp, Z.eqb_refl.
    by rewrite (proj2 (Z.leb_le 1 j)), (proj2 (Z.ltb_lt j CONFIG_TASK_TOTAL)) by lia.
Qed.
(** [SIGSTOP] on thread 3, which is not the first of process 1: thread 3 stops, threads 1 and 2 go on. *)
Theorem stop_on_thread_stops_one :
  let k := svcall_stoppid (switch_to 3 (on_tasks (task_assert_flag 3 TASK_FLAGS_THREAD) example_kernel)) in
  map (fun j => (task_get_pid (k_tasks k) j, stopped k j)) [1; 2; 3] = [(1, false); (1, false); (1, true)].
Proof. vm_compute. reflexivity. Qed.

(** ** Children that have ended *)

Section Zombies.
Context (k : kernel) (Hwf : kernel_wf k) (pid : Z).
Definition matching (k : kernel) (i : Z) : bool :=
  task_enabled (k_tasks k) i && (task_get_pid (k_tasks k) (task_get_parent (k_tasks k) i) =? current_pid k)
  && (scheduler_zombie_asserted k i && ((task_get_pid (k_tasks k) i =? pid) || (pid =? -1))).

Lemma reap_frame m : 1 <= m < CONFIG_TASK_TOTAL ->
  kernel_wf (reap m k) /\ enabled (reap m k) m = false /\
  (forall j, 0 <= j -> task_get_pid (k_tasks (reap m k)) j = task_get_pid (k_tasks k) j) /\
  (forall j, 0 <= j -> task_get_parent (k_tasks (reap m k)) j = task_get_parent (k_tasks k) j) /\
  (forall j g, 0 <= j -> j <> m -> task_flag_asserted (k_tasks (reap m k)) j g = task_flag_asserted (k_tasks k) j g) /\
  (forall j, 0 <= j -> j <> m -> sched (reap m k) j = sched k j) /\ current (reap m k) = current k.
Proof using Hwf.
  intros Hm. assert (Hid : task_id m) by (unfold task_id; lia). destruct Hwf as [[Hl Hc] Hs].
  assert (E : k_tasks (reap m k) = task_deassert_exec m (task_deassert_used m (k_tasks k))).
  { unfold reap, task_root_delete. cbn [k_tasks on_tasks on_sched]. unfold task_get_total.
    by rewrite (proj2 (Z.ltb_lt m CONFIG_TASK_TOTAL)), (proj2 (Z.leb_le 1 m)) by lia. }
  set (t1 := task_deassert_used m (k_tasks k)) in *.
  assert (Hl1 : Zlen (sos_task_table t1) = CONFIG_TASK_TOTAL) by (etrans; [apply Zlen_on_task|exact Hl]).
  assert (Hfield : forall (f : task_t -> Z) j, 0 <= j -> (forall x t, f (Task.with_flags x t) = f t) -> f (task (k_tasks (reap m k)) j) = f (task (k_tasks k) j)).
  { intros f j Hj Hf. rewrite E. unfold task_deassert_exec, t1, task_deassert_used, task_deassert_flag. by rewrite !(on_task_field f). }
  split_and!.
  - split; [split|]; [rewrite E; etrans; [apply Zlen_on_task|exact Hl1]|rewrite E; exact Hc|]. etrans; [apply Zlen_on_sched|exact Hs].
  - unfold enabled, task_enabled. rewrite E. unfold task_deassert_exec. rewrite flag_clear_disjoint by (done || lia). by apply flag_clear_same.
  - intros j Hj. by apply (Hfield task_pid).
  - intros j Hj. by apply (Hfield task_parent).
  - intros j g Hj Hne. rewrite E. unfold task_deassert_exec, t1, task_deassert_used. by rewrite !flag_clear_ne by auto.
  - intros j Hj Hne. change (sched (reap m k) j) with (sched (on_sched m (with_sched_flags 0) k) j). apply sched_on_sched_ne; auto.
  - unfold current, task_get_current. by rewrite E.
Qed.

(** The scan up to thread [n], when [m] is the first child that matches. *)
Record scanned (m status n : Z) (z : zscan) : Prop := {
  sc_count : z_zombies z = count_in (matching k) (seqZ 1 (n - 1));
  sc_state : if m <? n then z_k z = reap m k /\ z_tid z = m /\ z_status z = exit_status (sched k m)
             else z_k z = k /\ z_tid z = -1 /\ z_status z = status;
}.
Lemma count_in_snoc P n : 1 <= n -> count_in P (seqZ 1 (n + 1 - 1)) = count_in P (seqZ 1 (n - 1)) + Z.b2z (P n).
Proof.
  intros Hn. replace (n + 1 - 1) with ((n - 1) + 1) by lia. rewrite seqZ_app by lia. unfold count_in. rewrite List.filter_app, Zlen_app. f_equal.
  replace (1 + (n - 1)) with n by lia. cbn [seqZ]. change (seqZ n 1) with [n]. cbn [List.filter]. by destruct (P n).
Qed.
Lemma count_in_none P l : (forall i, i ∈ l -> P i = false) -> count_in P l = 0.
Proof.
  induction l as [|x l IH]; intros H; [done|]. rewrite count_in_cons, IH by (intros i Hi; apply H; by apply list_elem_of_further).
  by rewrite (H x (list_elem_of_here _ _)).
Qed.
Lemma matching_reaped m i : 1 <= m < CONFIG_TASK_TOTAL -> m < i -> task_id (task_get_parent (k_tasks k) i) ->
  task_enabled (k_tasks (reap m k)) i && (task_get_pid (k_tasks (reap m k)) (task_get_parent (k_tasks (reap m k)) i) =? current_pid k)
  = task_enabled (k_tasks k) i && (task_get_pid (k_tasks k) (task_get_parent (k_tasks k) i) =? current_pid k) /\
  scheduler_zombie_asserted (reap m k) i = scheduler_zombie_asserted k i /\
  task_get_pid (k_tasks (reap m k)) i = task_get_pid (k_tasks k) i.
Proof using Hwf.
  intros Hm Hi Hp. destruct (reap_frame m Hm) as (_ & _ & R3 & R4 & R5 & R6 & _). unfold task_id in Hp.
  unfold task_enabled. rewrite R5, R4, !R3 by lia. unfold scheduler_zombie_asserted, scheduler_flag_asserted. by rewrite R6 by lia.
Qed.
Lemma zombie_turn_scanned m status n z : 1 <= m < CONFIG_TASK_TOTAL -> 1 <= n < CONFIG_TASK_TOTAL ->
  matching k m = true -> (forall j, 1 <= j < m -> matching k j = false) -> task_id (task_get_parent (k_tasks k) n) ->
  scanned m status n z -> scanned m status (n + 1) (zombie_turn pid (current_pid k) true n z).
Proof using Hwf.
  intros Hm Hn Hmm Hlow Hpar [Hc Hs].
  assert (T : let '(en, zo, p) := (task_enabled (k_tasks (z_k z)) n && (task_get_pid (k_tasks (z_k z)) (task_get_parent (k_tasks (z_k z)) n) =? current_pid k),
                                   scheduler_zombie_asserted (z_k z) n, task_get_pid (k_tasks (z_k z)) n) in
              en && (zo && ((p =? pid) || (pid =? -1))) = matching k n).
  { cbv zeta. destruct (Z.ltb_spec m n) as [Hlt|Hge].
    - destruct Hs as (Ek & _). rewrite Ek. destruct (matching_reaped m n Hm Hlt Hpar) as (E1 & E2 & E3). by rewrite E1, E2, E3.
    - destruct Hs as (Ek & _). by rewrite Ek. }
  unfold zombie_turn. set (en := task_enabled (k_tasks (z_k z)) n && _) in *. cbv zeta in T. rewrite andb_true_r.
  assert (Hz : z_zombies z = 0 <-> n <= m).
  { rewrite Hc. split; intros H.
    - destruct (Z.le_gt_cases n m); [done|]. exfalso.
      assert (1 <= count_in (matching k) (seqZ 1 (n - 1))); [|lia]. replace (n - 1) with (m + (n - 1 - m)) by lia. rewrite seqZ_app by lia.
      unfold count_in. rewrite List.filter_app, Zlen_app. change (Zlen (List.filter (matching k) (seqZ 1 m))) with (count_in (matching k) (seqZ 1 m)).
      replace m with (m + 1 - 1) at 1 by lia. rewrite count_in_snoc, Hmm by lia. cbn [Z.b2z].
      pose proof (Zlen_nonneg (List.filter (matching k) (seqZ 1 (m - 1)))). pose proof (Zlen_nonneg (List.filter (matching k) (seqZ (1 + m) (n - 1 - m)))).
      unfold count_in. lia.
    - apply count_in_none. intros i Hi%elem_of_seqZ. apply Hlow. lia. }
  destruct en; cbn [andb] in T.
  - rewrite T. destruct (matching k n) eqn:Em.
    + destruct (Z.eqb_spec (z_zombies z) 0) as [E0|E0].
      * assert (n <= m) by (by apply Hz). assert (n = m) as ->.
        { destruct (decide (n < m)); [|lia]. rewrite Hlow in Em by lia. done. }
        rewrite (proj2 (Z.ltb_ge m m)) in Hs by lia. destruct Hs as (Ek & _). rewrite Ek. cbn [z_zombies z_k z_tid z_status z_children].
        rewrite (proj2 (Z.eqb_eq _ 0) E0). split; cbn [z_zombies z_k z_tid z_status]; [rewrite count_in_snoc, Em by lia; rewrite <- Hc; done|].
        by rewrite (proj2 (Z.ltb_lt m (m + 1))) by lia.
      * assert (m < n) by (destruct (decide (m < n)); [done|destruct E0; apply Hz; lia]). cbn [z_zombies z_k z_tid z_status z_children].
        rewrite (proj2 (Z.eqb_neq (z_zombies z) 0)) by done. split; cbn [z_zombies z_k z_tid z_status]; [rewrite count_in_snoc, Em by lia; rewrite <- Hc; done|].
        rewrite (proj2 (Z.ltb_lt m n)) in Hs by lia. by rewrite (proj2 (Z.ltb_lt m (n + 1))) by lia.
    + assert (n <> m) by (intros ->; congruence). split; cbn [z_zombies z_k z_tid z_status]; [rewrite count_in_snoc, Em by lia; cbn; lia|].
      destruct (Z.ltb_spec m n), (Z.ltb_spec m (n + 1)); try lia; done.
  - assert (n <> m) by (intros ->; congruence). split; [rewrite count_in_snoc, <- T by lia; cbn; lia|].
    destruct (Z.ltb_spec m n), (Z.ltb_spec m (n + 1)); try lia; done.
Qed.
End Zombies.

(** A process that has been told of a child's end and asks without waiting gets the
    first child it may mean: its process id and the status it ended with.
    Its slot of the task table is free, no other thread is touched, and the process
    is told again exactly when another such child is left. *)
Theorem waitpid_reaps_one pid status w m : kernel_wf (g_k w) ->
  (forall i, 1 <= i < CONFIG_TASK_TOTAL -> task_id (task_get_parent (k_tasks (g_k w)) i)) ->
  pid = -1 \/ 0 < pid -> sg_chld (g_s w) = true -> 1 <= m < CONFIG_TASK_TOTAL -> matching pid (g_k w) m = true ->
  (forall j, 1 <= j < m -> matching pid (g_k w) j = false) ->
  let k := g_k w in
  let '(w', r, st) := waitpid_nohang pid status w in
  r = Ret (task_get_pid (k_tasks k) m) /\ st = exit_status (sched k m) /\ enabled (g_k w') m = false /\
  (forall j, 0 <= j -> j <> m -> enabled (g_k w') j = enabled k j /\ sched (g_k w') j = sched k j) /\
  sg_chld (g_s w') = (1 <? count_in (matching pid k) (seqZ 1 (CONFIG_TASK_TOTAL - 1))).
Proof.
  intros Hwf Hpar Hpid Hch Hm Hmm Hlow k. unfold waitpid_nohang.
  assert ((pid <? -1) || (pid =? 0) = false) as -> by (apply orb_false_iff; split; [apply Z.ltb_ge|apply Z.eqb_neq]; lia).
  rewrite Hch. unfold svcall_check_for_zombie_child. rewrite Hch. fold k.
  assert (S : scanned k pid m status CONFIG_TASK_TOTAL (for_range 1 task_get_total (zombie_turn pid (current_pid k) true) (mk_zscan k (-1) status 0 0))).
  { apply (for_range_ind (scanned k pid m status)); [unfold task_get_total, CONFIG_TASK_TOTAL; lia| |].
    - split; [done|]. rewrite (proj2 (Z.ltb_ge m 1)) by lia. done.
    - intros i z Hi. apply zombie_turn_scanned; try done. by apply Hpar. }
  set (z := for_range 1 task_get_total _ _) in *. clearbody z. destruct S as [Hc Hs]. rewrite (proj2 (Z.ltb_lt m CONFIG_TASK_TOTAL)) in Hs by lia.
  destruct Hs as (Ek & Et & Es). rewrite Et, Es, Ek. rewrite (proj2 (Z.ltb_lt 0 m)) by lia. cbn [g_k g_s].
  destruct (reap_frame k Hwf m Hm) as (_ & R2 & R3 & _ & R5 & R6 & _). unfold waitpid_result. cbn [g_k].
  rewrite (proj2 (Z.eqb_neq m 0)), (proj2 (Z.ltb_ge m 0)) by lia. rewrite R3 by lia. split_and!; [done|done|done| |].
  - intros j Hj Hne. split; [by apply R5|by apply R6].
  - rewrite Hc. destruct (Z.leb_spec (count_in (matching pid k) (seqZ 1 (CONFIG_TASK_TOTAL - 1))) 1), (Z.ltb_spec 1 (count_in (matching pid k) (seqZ 1 (CONFIG_TASK_TOTAL - 1)))); try lia; done.
Qed.

(** Any signal takes a thread out of the stopped state, not only [SIGCONT]. *)
Theorem any_signal_continues id k : kernel_wf k -> task_id id -> stopped (signal_root_activate id k) id = false.
Proof.
  intros Hw Hi. unfold signal_root_activate. set (k1 := on_tasks (task_deassert_stopped id) k).
  assert (Hw1 : kernel_wf k1) by (destruct Hw as [[Hl Hc] Hs]; split; [split|]; [etrans; [apply Zlen_on_task|exact Hl]|done|done]).
  unfold stopped, task_stopped_asserted. rewrite (same_threads_flag _ _ _ _ (update_on_wake_same _ _ _)) by apply Hi.
  rewrite (wk_flag _ _ _ _ (assert_active_woken id SCHEDULER_UNBLOCK_SIGNAL k1 Hw1 Hi ltac:(done))) by (done || apply Hi).
  apply flag_clear_same; [done|apply Hw|done].
Qed.

(** ** Examples *)

Definition sig_none : sigproc := mk_sigproc 0 0 None None false false.
Lemma sigwait_takes_lowest_witness :
  let w := mk_sigworld example_kernel (with_pending 33280 sig_none) in
  match sigwait 33280 w with (w', Some sig) => sig = 9 /\ sg_pending (g_s w') = 32768 | (_, None) => False end.
Proof.
  pose proof (sigwait_takes_lowest 33280 (mk_sigworld example_kernel (with_pending 33280 sig_none)) ltac:(by vm_compute) eq_refl) as H.
  cbv zeta in *. assert (E : (sigwait 33280 (mk_sigworld example_kernel (with_pending 33280 sig_none))).2 = Some 9) by (vm_compute; reflexivity).
  assert (E' : sg_pending (g_s (sigwait 33280 (mk_sigworld example_kernel (with_pending 33280 sig_none))).1) = 32768) by (vm_compute; reflexivity).
  destruct (sigwait _ _) as [w' [sig|]]; [|done]. cbn [fst snd] in E, E'. split; [congruence|exact E'].
Defined.
Lemma stop_continue_roundtrip_witness :
  stopped (svcall_stoppid example_kernel) 3 = true /\ stopped (svcall_stoppid example_kernel) 5 = false /\
  stopped (svcall_contpid (svcall_stoppid example_kernel)) 3 = false.
Proof.
  destruct (stop_continue_roundtrip example_kernel example_kernel_wf eq_refl) as (H1 & H2 & _).
  rewrite (H1 3), (H1 5), (H2 3) by lia. vm_compute. done.
Defined.
Lemma kill_and_stop_cannot_be_caught_witness :
  let s := foldl sig_call_step sig_none [Csignal true true 9 (Handler 5); Csignal true true SIGKILL SIG_IGN; Cmask SIG_SETMASK (2 ^ 32 - 1)] in
  (signal_handler 1 SIGKILL SI_USER 0 (mk_sigworld example_kernel s)).2 = Exits 2560.
Proof.
  refine (proj1 (kill_and_stop_cannot_be_caught [Csignal true true 9 (Handler 5); Csignal true true SIGKILL SIG_IGN; Cmask SIG_SETMASK (2 ^ 32 - 1)]
    sig_none (mk_sigworld example_kernel _) 1 SI_USER 0 _ eq_refl eq_refl _)); [|done].
  repeat constructor; by vm_compute.
Defined.
Definition zombie_kernel : kernel :=
  on_sched 5 (fun t => with_sched_flags (bit 9) (with_exit_status 256 t))
    (on_tasks (on_task 5 (fun t => mk_task 2 15 1 1 0 4096 4096 20000)) example_kernel).
Lemma waitpid_reaps_one_witness :
  let '(w', r, st) := waitpid_nohang (-1) 0 (mk_sigworld zombie_kernel (with_chld true sig_none)) in
  r = Ret 2 /\ st = 256 /\ enabled (g_k w') 5 = false /\ sg_chld (g_s w') = false.
Proof.
  pose proof (waitpid_reaps_one (-1) 0 (mk_sigworld zombie_kernel (with_chld true sig_none)) 5 ltac:(done)
    ltac:(apply each_task; vm_compute; repeat constructor; congruence) (or_introl eq_refl) eq_refl ltac:(done) ltac:(vm_compute; reflexivity)) as H.
  cbv zeta in H. assert (Hlow : forall j, 1 <= j < 5 -> matching (-1) zombie_kernel j = false).
  { intros j Hj. assert (j = 1 \/ j = 2 \/ j = 3 \/ j = 4) as [-> | [-> | [-> | ->]]] by lia; vm_compute; reflexivity. }
  specialize (H Hlow). destruct (waitpid_nohang _ _ _) as [[w' r] st]. destruct H as (H1 & H2 & H3 & _ & H5). split_and!.
  - rewrite H1. vm_compute. reflexivity.
  - rewrite H2. vm_compute. reflexivity.
  - exact H3.
  - rewrite H5. vm_compute. reflexivity.
Defined.
Lemma any_signal_continues_witness : stopped (signal_root_activate 3 (svcall_stoppid example_kernel)) 3 = false.
Proof. apply (any_signal_continues 3 (svcall_stoppid example_kernel)); [|done]. by apply (stoppid_scan example_kernel). Defined.
