(* ===== verification/Usbd.v ===== *)
(** * The USB device: control endpoint

    [src/usbd/usbd_control.c] and [usbd_standard.c], the class handlers of
    [sos_link_transport_usb.c], [.._link_descriptors.c] and [.._vcp_descriptors.c].

    The driver of the USB peripheral belongs to the chip: what the code asks of it is the
    list of actions [acts], and the packet that waits in endpoint 0 is an argument of the
    handler.  The control context is the packed structure [usbd_control_t]; the data
    pointer [dptr] points into it or into constants, and reads and writes through it take
    the bytes of the fields they meet. *)
From S2P Require Import Prelude.

Definition USBD_ALT_SETTING_SIZE : Z := 16.
Definition USBD_CONTROL_DATAOUT_BUF_SIZE : Z := 256.
Definition USBD_ENDPOINT_ADDRESS_IN : Z := 128.
Definition HOST_TO_DEVICE : Z := 0.
Definition DEVICE_TO_HOST : Z := 1.
Definition TYPE_STANDARD : Z := 0.
Definition TYPE_CLASS : Z := 1.
Definition RECIPIENT_DEVICE : Z := 0.
Definition RECIPIENT_INTERFACE : Z := 1.
Definition RECIPIENT_ENDPOINT : Z := 2.
Definition GET_STATUS : Z := 0.
Definition CLEAR_FEATURE : Z := 1.
Definition SET_FEATURE : Z := 3.
Definition SET_ADDRESS : Z := 5.
Definition GET_DESCRIPTOR : Z := 6.
Definition GET_CONFIGURATION : Z := 8.
Definition SET_CONFIGURATION : Z := 9.
Definition GET_INTERFACE : Z := 10.
Definition SET_INTERFACE : Z := 11.
Definition STATUS_SELF_POWERED : Z := 1.
Definition STATUS_REMOTE_WAKEUP : Z := 2.
Definition FEATURE_ENDPOINT_STALL : Z := 0.
Definition FEATURE_REMOTE_WAKEUP : Z := 1.
Definition DESCRIPTOR_TYPE_DEVICE : Z := 1.
Definition DESCRIPTOR_TYPE_CONFIGURATION : Z := 2.
Definition DESCRIPTOR_TYPE_STRING : Z := 3.
Definition DESCRIPTOR_TYPE_INTERFACE : Z := 4.
Definition DESCRIPTOR_TYPE_ENDPOINT : Z := 5.
Definition DESCRIPTOR_TYPE_QUALIFIER : Z := 6.
Definition ATTRIBUTES_POWERED_MASK : Z := 64.
(** [sizeof(usbd_device_descriptor_t)]. *)
Definition SIZEOF_DEVICE_DESCRIPTOR : Z := 18.

Definition USB_FLAG_RESET : Z := Z.shiftl 1 4.
Definition USB_FLAG_ATTACH : Z := Z.shiftl 1 5.
Definition USB_FLAG_DETACH : Z := Z.shiftl 1 6.
Definition USB_FLAG_CONFIGURE : Z := Z.shiftl 1 7.
Definition USB_FLAG_UNCONFIGURE : Z := Z.shiftl 1 8.
Definition USB_FLAG_SET_ADDRESS : Z := Z.shiftl 1 9.
Definition USB_FLAG_RESET_ENDPOINT : Z := Z.shiftl 1 10.
Definition USB_FLAG_ENABLE_ENDPOINT : Z := Z.shiftl 1 11.
Definition USB_FLAG_DISABLE_ENDPOINT : Z := Z.shiftl 1 12.
Definition USB_FLAG_STALL_ENDPOINT : Z := Z.shiftl 1 13.
Definition USB_FLAG_UNSTALL_ENDPOINT : Z := Z.shiftl 1 14.
Definition USB_FLAG_CONFIGURE_ENDPOINT : Z := Z.shiftl 1 15.

(** ** State *)

(** What [dptr] can point to. *)
Inductive region := Rnull | Rdevice | Rqualifier | Rconfig | Rstring | Rcontext | Rmsft_string | Rcompatible_id.
#[export] Instance region_eq_dec : EqDecision region.
Proof. solve_decision. Defined.
Record uptr := mk_uptr { p_region : region; p_offset : Z }.
Definition uptr_add (p : uptr) (n : Z) : uptr := mk_uptr (p_region p) (p_offset p + n).

(** [setup_packet] is its 8 bytes; [constants] and [handle] do not change. *)
Record usbd_control_t := mk_usbd {
  setup_packet : list Z; dptr : uptr; nbyte : Z; is_zlp : Z;
  status : Z; addr : Z; current_configuration : Z;
  ep_mask : Z; ep_halt : Z; ep_stall : Z; num_interfaces : Z; buf : list Z; alt_setting : list Z }.

(** The attributes a call leaves out are not initialised. *)
Inductive usb_action :=
| SetAttributes (o_flags : Z) (address : option Z) (size_and_type : option (Z * Z))
| WriteEndpoint (ep : Z) (bytes : list Z)
| ReadEndpoint (ep : Z).
Record usb := mk_usb { ctx : usbd_control_t; acts : list usb_action }.

Definition with_setup_packet l c := mk_usbd l (dptr c) (nbyte c) (is_zlp c) (status c) (addr c) (current_configuration c)
  (ep_mask c) (ep_halt c) (ep_stall c) (num_interfaces c) (buf c) (alt_setting c).
Definition with_data p n z c := mk_usbd (setup_packet c) p n z (status c) (addr c) (current_configuration c)
  (ep_mask c) (ep_halt c) (ep_stall c) (num_interfaces c) (buf c) (alt_setting c).
Definition with_status s c := mk_usbd (setup_packet c) (dptr c) (nbyte c) (is_zlp c) s (addr c) (current_configuration c)
  (ep_mask c) (ep_halt c) (ep_stall c) (num_interfaces c) (buf c) (alt_setting c).
Definition with_addr a c := mk_usbd (setup_packet c) (dptr c) (nbyte c) (is_zlp c) (status c) a (current_configuration c)
  (ep_mask c) (ep_halt c) (ep_stall c) (num_interfaces c) (buf c) (alt_setting c).
Definition with_configuration v n c := mk_usbd (setup_packet c) (dptr c) (nbyte c) (is_zlp c) (status c) (addr c) v
  (ep_mask c) (ep_halt c) (ep_stall c) n (buf c) (alt_setting c).
Definition with_ep m h s c := mk_usbd (setup_packet c) (dptr c) (nbyte c) (is_zlp c) (status c) (addr c) (current_configuration c)
  m h s (num_interfaces c) (buf c) (alt_setting c).
Definition with_buf l c := mk_usbd (setup_packet c) (dptr c) (nbyte c) (is_zlp c) (status c) (addr c) (current_configuration c)
  (ep_mask c) (ep_halt c) (ep_stall c) (num_interfaces c) l (alt_setting c).
Definition with_alt_setting l c := mk_usbd (setup_packet c) (dptr c) (nbyte c) (is_zlp c) (status c) (addr c) (current_configuration c)
  (ep_mask c) (ep_halt c) (ep_stall c) (num_interfaces c) (buf c) l.
Definition with_dptr p c := with_data p (nbyte c) (is_zlp c) c.
Definition with_nbyte n c := with_data (dptr c) n (is_zlp c) c.

Definition on_ctx (f : usbd_control_t -> usbd_control_t) (u : usb) : usb := mk_usb (f (ctx u)) (acts u).
Definition act (a : usb_action) (u : usb) : usb := mk_usb (ctx u) (acts u ++ [a]).

(** The setup packet. *)
Definition setup_byte (c : usbd_control_t) (i : Z) : Z := Zget (setup_packet c) i.
Definition recipient c : Z := Z.land (setup_byte c 0) 31.
Definition usbd_control_setup_request_type c : Z := Z.land (Z.shiftr (setup_byte c 0) 5) 3.
Definition usbd_control_setup_request_direction c : Z := Z.shiftr (setup_byte c 0) 7.
Definition bRequest c : Z := setup_byte c 1.
Definition wValue0 c : Z := setup_byte c 2.
Definition wValue1 c : Z := setup_byte c 3.
Definition wValue c : Z := wValue0 c + 256 * wValue1 c.
Definition wIndex0 c : Z := setup_byte c 4.
Definition wIndex c : Z := wIndex0 c + 256 * setup_byte c 5.
Definition wLength c : Z := setup_byte c 6 + 256 * setup_byte c 7.

(** The configuration of the system: sizes, the constant descriptors, the serial number of
    the chip, and the memory the structure does not describe (the bytes of its pointers,
    and what lies behind it). *)
Class UsbDevice := {
  control_endpoint_max_size : Z;
  logical_endpoint_count : Z;
  ro_byte : region -> Z -> Z;
  has_qualifier : bool;
  other_byte : Z -> Z;
  serial_number : list Z }.

(** What the driver says with an event: the bits of [o_events] the code tests. *)
Record usb_events := mk_events { ev_setup : bool; ev_data_ready : bool; ev_write_complete : bool; ev_stall : bool }.
Definition setup_event := mk_events true false false false.
Definition data_ready_event := mk_events false true false false.
Definition write_complete_event := mk_events false false true false.

(** ** Memory *)

(** Offsets of the packed structure, with 4-byte pointers. *)
Definition OFF_STATUS : Z := 16.
Definition OFF_CONFIGURATION : Z := 19.
Definition OFF_BUF : Z := 33.
Definition OFF_ALT : Z := 289.
Definition OFF_CONSTANTS : Z := 305.

Definition byte_of (w i : Z) : Z := Z.land (Z.shiftr w (8 * i)) 255.
Definition set_byte (w i b : Z) : Z := Z.lor (Bits.clear w (Z.shiftl 255 (8 * i))) (Z.shiftl b (8 * i)).

Section Device.
Context {dev : UsbDevice}.
Definition context_byte (c : usbd_control_t) (o : Z) : Z :=
  if o <? 0 then other_byte o
  else if o <? 8 then Zget (setup_packet c) o
  else if o <? 12 then other_byte o
  else if o <? 14 then byte_of (nbyte c) (o - 12)
  else if o <? 16 then byte_of (is_zlp c) (o - 14)
  else if o <? 18 then byte_of (status c) (o - 16)
  else if o <? 19 then addr c
  else if o <? 20 then current_configuration c
  else if o <? 24 then byte_of (ep_mask c) (o - 20)
  else if o <? 28 then byte_of (ep_halt c) (o - 24)
  else if o <? 32 then byte_of (ep_stall c) (o - 28)
  else if o <? 33 then num_interfaces c
  else if o <? 289 then Zget (buf c) (o - 33)
  else if o <? 305 then Zget (alt_setting c) (o - 289)
  else other_byte o.
Definition peek (c : usbd_control_t) (p : uptr) : Z :=
  match p_region p with Rcontext => context_byte c (p_offset p) | r => ro_byte r (p_offset p) end.
Definition peeks (c : usbd_control_t) (p : uptr) (n : Z) : list Z := (fun i => peek c (uptr_add p i)) <$> seqZ 0 n.

(** A write to a pointer of the structure, behind it or to a constant is [None]. *)
Definition context_poke (o b : Z) (c : usbd_control_t) : option usbd_control_t :=
  if o <? 0 then None
  else if o <? 8 then Some (with_setup_packet (Zset (setup_packet c) o b) c)
  else if o <? 12 then None
  else if o <? 14 then Some (with_nbyte (set_byte (nbyte c) (o - 12) b) c)
  else if o <? 16 then Some (with_data (dptr c) (nbyte c) (set_byte (is_zlp c) (o - 14) b) c)
  else if o <? 18 then Some (with_status (set_byte (status c) (o - 16) b) c)
  else if o <? 19 then Some (with_addr b c)
  else if o <? 20 then Some (with_configuration b (num_interfaces c) c)
  else if o <? 24 then Some (with_ep (set_byte (ep_mask c) (o - 20) b) (ep_halt c) (ep_stall c) c)
  else if o <? 28 then Some (with_ep (ep_mask c) (set_byte (ep_halt c) (o - 24) b) (ep_stall c) c)
  else if o <? 32 then Some (with_ep (ep_mask c) (ep_halt c) (set_byte (ep_stall c) (o - 28) b) c)
  else if o <? 33 then Some (with_configuration (current_configuration c) b c)
  else if o <? 289 then Some (with_buf (Zset (buf c) (o - 33) b) c)
  else if o <? 305 then Some (with_alt_setting (Zset (alt_setting c) (o - 289) b) c)
  else None.
Fixpoint pokes (p : uptr) (bytes : list Z) (c : usbd_control_t) : option usbd_control_t :=
  match bytes with
  | [] => Some c
  | b :: bytes =>
      c ← (if decide (p_region p = Rcontext) then context_poke (p_offset p) b c else None);
      pokes (uptr_add p 1) bytes c
  end.
Definition context_ptr (o : Z) : uptr := mk_uptr Rcontext o.

(** ** The driver *)

Definition read_endpoint (p : uptr) (packet : list Z) (u : usb) : option usb :=
  c ← pokes p packet (ctx u); Some (act (ReadEndpoint 0) (mk_usb c (acts u))).
Definition write_endpoint (p : uptr) (n : Z) (u : usb) : usb := act (WriteEndpoint 128 (peeks (ctx u) p n)) u.
Definition set_attributes (flags : Z) (address : option Z) : usb -> usb := act (SetAttributes flags address None).
Definition usbd_control_reset : usb -> usb := set_attributes USB_FLAG_RESET None.
Definition usbd_control_attach : usb -> usb := set_attributes USB_FLAG_ATTACH None.
Definition usbd_control_detach : usb -> usb := set_attributes USB_FLAG_DETACH None.
Definition usbd_control_configure : usb -> usb := set_attributes USB_FLAG_CONFIGURE None.
Definition usbd_control_unconfigure : usb -> usb := set_attributes USB_FLAG_UNCONFIGURE None.
Definition usbd_control_set_address (a : Z) : usb -> usb := set_attributes USB_FLAG_SET_ADDRESS (Some a).
Definition usbd_control_reset_endpoint (ep : Z) : usb -> usb := set_attributes USB_FLAG_RESET_ENDPOINT (Some ep).
Definition usbd_control_enable_endpoint (ep : Z) : usb -> usb := set_attributes USB_FLAG_ENABLE_ENDPOINT (Some ep).
Definition usbd_control_disable_endpoint (ep : Z) : usb -> usb := set_attributes USB_FLAG_DISABLE_ENDPOINT (Some ep).
Definition usbd_control_stall_endpoint (ep : Z) : usb -> usb := set_attributes USB_FLAG_STALL_ENDPOINT (Some ep).
Definition usbd_control_unstall_endpoint (ep : Z) : usb -> usb := set_attributes USB_FLAG_UNSTALL_ENDPOINT (Some ep).
Definition config_byte (o : Z) : Z := ro_byte Rconfig o.
Definition config_word (o : Z) : Z := config_byte o + 256 * config_byte (o + 1).
Definition usbd_control_configure_endpoint (descriptor : Z) : usb -> usb :=
  act (SetAttributes USB_FLAG_CONFIGURE_ENDPOINT (Some (config_byte (descriptor + 2)))
         (Some (config_word (descriptor + 4), config_byte (descriptor + 3)))).

(** ** The stages of a control transfer *)

Definition stall (u : usb) : usb := on_ctx (with_nbyte 0) (usbd_control_stall_endpoint USBD_ENDPOINT_ADDRESS_IN u).
Definition usbd_control_handler_setup_stage (packet : list Z) (u : usb) : option usb :=
  u ← read_endpoint (context_ptr 0) packet u;
  Some (on_ctx (fun c => with_data (dptr c) (wLength c) 0 c) u).
Definition usbd_control_datain_stage (u : usb) : usb :=
  let c := ctx u in
  let '(n, zlp) := if control_endpoint_max_size <=? nbyte c then (control_endpoint_max_size, 1) else (nbyte c, 0) in
  let u := on_ctx (with_data (dptr c) (nbyte c) zlp) u in
  if (0 <? n) || negb (zlp =? 0) then
    let u := write_endpoint (dptr c) n u in
    on_ctx (with_data (uptr_add (dptr c) n) (u16 (nbyte c - n)) (if n =? 0 then 0 else zlp)) u
  else u.
Definition usbd_control_dataout_stage (packet : list Z) (u : usb) : option usb :=
  let p := dptr (ctx u) in
  u ← read_endpoint p packet u;
  let n := if nbyte (ctx u) <? Zlen packet then nbyte (ctx u) else Zlen packet in
  Some (on_ctx (fun c => with_data (uptr_add (dptr c) n) (u16 (nbyte c - n)) (is_zlp c) c) u).
Definition usbd_control_statusin_stage : usb -> usb := act (WriteEndpoint 128 []).
Definition usbd_control_statusout_stage (packet : list Z) : usb -> option usb := read_endpoint (context_ptr OFF_BUF) packet.
Definition usbd_control_prepare_buffer : usb -> usb := on_ctx (with_dptr (context_ptr OFF_BUF)).

(** ** Standard requests *)

Definition USBD_EP_MASK : Z := Z.lor USBD_ENDPOINT_ADDRESS_IN (logical_endpoint_count - 1).
Definition usb_dev_decode_ep (ep : Z) : Z :=
  if Bits.any ep USBD_ENDPOINT_ADDRESS_IN
  then u32 (Z.shiftl (Z.shiftl ep logical_endpoint_count) (Z.land ep (logical_endpoint_count - 1)))
  else Z.shiftl 1 ep.
Definition usbd_control_init_ep : usb -> usb := on_ctx (with_ep 65537 0 0).

Definition usbd_standard_request_get_status (u : usb) : usb * bool :=
  let c := ctx u in
  if recipient c =? RECIPIENT_DEVICE then (on_ctx (with_dptr (context_ptr OFF_STATUS)) u, true)
  else if recipient c =? RECIPIENT_INTERFACE then
    if negb (current_configuration c =? 0) && (wIndex0 c <? num_interfaces c)
    then (on_ctx (fun c => with_dptr (context_ptr OFF_BUF) (with_buf (Zset (Zset (buf c) 0 0) 1 0) c)) u, true)
    else (u, false)
  else if recipient c =? RECIPIENT_ENDPOINT then
    let i := Z.land (wIndex0 c) USBD_EP_MASK in
    let j := usb_dev_decode_ep i in
    if (negb (current_configuration c =? 0) || (Z.land i (logical_endpoint_count - 1) =? 0)) && Bits.any (ep_mask c) j then
      let bit := if Bits.any (ep_halt c) j then 1 else 0 in
      (on_ctx (fun c => with_dptr (context_ptr OFF_BUF) (with_buf (Zset (Zset (buf c) 0 bit) 1 0) c)) u, true)
    else (u, false)
  else (u, false).

Definition usbd_standard_request_set_clear_feature (sc : bool) (u : usb) : usb * bool :=
  let c := ctx u in
  if recipient c =? RECIPIENT_DEVICE then
    if wValue c =? FEATURE_REMOTE_WAKEUP then
      (on_ctx (with_status (if sc then Bits.set (status c) STATUS_REMOTE_WAKEUP else Bits.clear (status c) STATUS_REMOTE_WAKEUP)) u, true)
    else (u, false)
  else if recipient c =? RECIPIENT_INTERFACE then (u, false)
  else if recipient c =? RECIPIENT_ENDPOINT then
    let i := Z.land (wIndex0 c) USBD_EP_MASK in
    let j := usb_dev_decode_ep i in
    if negb (current_configuration c =? 0) && negb (Z.land i (logical_endpoint_count - 1) =? 0) && Bits.any (ep_mask c) j then
      if wValue c =? FEATURE_ENDPOINT_STALL then
        if sc then (on_ctx (with_ep (ep_mask c) (Bits.set (ep_halt c) j) (ep_stall c)) (usbd_control_stall_endpoint i u), true)
        else if Bits.any (ep_stall c) j then (u, true)
        else (on_ctx (with_ep (ep_mask c) (Bits.clear (ep_halt c) j) (ep_stall c)) (usbd_control_unstall_endpoint i u), true)
      else (u, false)
    else (u, false)
  else (u, false).

Definition usbd_standard_request_set_address (u : usb) : usb * bool := (usbd_control_set_address (wValue0 (ctx u)) u, true).
Definition usbd_standard_request_get_config (u : usb) : usb * bool :=
  if recipient (ctx u) =? RECIPIENT_DEVICE then (on_ctx (with_dptr (context_ptr OFF_CONFIGURATION)) u, true) else (u, false).

(** The descriptors of the configurations, one behind the other up to a length of 0. *)
Definition desc_length (o : Z) : Z := config_byte o.
Definition desc_type (o : Z) : Z := config_byte (o + 1).
Definition total_length (o : Z) : Z := config_word (o + 2).

Definition disable_turn (i : Z) (u : usb) : usb :=
  let u := if Bits.any (ep_mask (ctx u)) (Z.shiftl 1 i) then usbd_control_disable_endpoint i u else u in
  if Bits.any (ep_mask (ctx u)) (Z.shiftl (Z.shiftl 1 logical_endpoint_count) i)
  then usbd_control_disable_endpoint (Z.lor i USBD_ENDPOINT_ADDRESS_IN) u else u.
Definition disable_endpoints : usb -> usb := for_range 1 logical_endpoint_count disable_turn.
Definition select_configuration (value o : Z) (u : usb) : usb :=
  let u := on_ctx (with_configuration value (config_byte (o + 4))) u in
  let u := on_ctx (with_alt_setting (replicate (Z.to_nat USBD_ALT_SETTING_SIZE) 0)) u in
  let u := usbd_control_configure (usbd_control_init_ep (disable_endpoints u)) in
  on_ctx (fun c => with_status (if Bits.any (config_byte (o + 7)) ATTRIBUTES_POWERED_MASK
                                then Bits.set (status c) STATUS_SELF_POWERED
                                else Bits.clear (status c) STATUS_SELF_POWERED) c) u.
Definition enable_endpoint_at (o : Z) (u : usb) : usb :=
  let i := Z.land (config_byte (o + 2)) USBD_EP_MASK in
  let j := usb_dev_decode_ep i in
  let u := on_ctx (fun c => with_ep (Bits.set (ep_mask c) j) (ep_halt c) (ep_stall c) c) u in
  usbd_control_reset_endpoint i (usbd_control_enable_endpoint i (usbd_control_configure_endpoint o u)).
Fixpoint set_config_walk (fuel : nat) (value o alt : Z) (u : usb) : option usb :=
  match fuel with
  | O => None
  | S fuel =>
      if desc_length o =? 0 then Some u
      else if desc_type o =? DESCRIPTOR_TYPE_CONFIGURATION then
        if config_byte (o + 5) =? value
        then set_config_walk fuel value (o + desc_length o) alt (select_configuration value o u)
        else set_config_walk fuel value (o + total_length o) alt u
      else if desc_type o =? DESCRIPTOR_TYPE_INTERFACE
      then set_config_walk fuel value (o + desc_length o) (config_byte (o + 3)) u
      else if desc_type o =? DESCRIPTOR_TYPE_ENDPOINT
      then set_config_walk fuel value (o + desc_length o) alt (if alt =? 0 then enable_endpoint_at o u else u)
      else set_config_walk fuel value (o + desc_length o) alt u
  end.
Definition usbd_standard_request_set_config (fuel : nat) (u : usb) : option (usb * bool) :=
  let value := wValue0 (ctx u) in
  if recipient (ctx u) =? RECIPIENT_DEVICE then
    u ← (if negb (value =? 0) then set_config_walk fuel value 0 0 u
         else
           let u := on_ctx (fun c => with_configuration 0 (num_interfaces c) c) u in
           Some (usbd_control_unconfigure (usbd_control_init_ep (disable_endpoints u))));
    Some (u, current_configuration (ctx u) =? value)
  else Some (u, false).

Definition usbd_standard_request_get_interface (u : usb) : usb * bool :=
  let c := ctx u in
  if recipient c =? RECIPIENT_INTERFACE then
    if negb (current_configuration c =? 0) && (wIndex0 c <? num_interfaces c)
    then (on_ctx (with_data (context_ptr (OFF_ALT + wIndex0 c)) 1 (is_zlp c)) u, true)
    else (u, false)
  else (u, false).

(** The local variables of [usbd_standard_request_set_interface]. *)
Record iface_scan := mk_iface { if_number : Z; if_alternate : Z; if_prev : Z; if_mask : Z; if_ret : bool }.
Definition set_interface_endpoint (o : Z) (s : iface_scan) (u : usb) : iface_scan * usb :=
  let c := ctx u in
  if if_number s =? wIndex0 c then
    let i := Z.land (config_byte (o + 2)) USBD_EP_MASK in
    let j := usb_dev_decode_ep i in
    if if_alternate s =? wValue0 c then
      let u := on_ctx (with_ep (Bits.set (ep_mask c) j) (Bits.clear (ep_halt c) j) (ep_stall c)) u in
      (mk_iface (if_number s) (if_alternate s) (if_prev s) (Bits.set (if_mask s) j) (if_ret s),
       usbd_control_reset_endpoint i (usbd_control_enable_endpoint i (usbd_control_configure_endpoint o u)))
    else if (if_alternate s =? if_prev s) && negb (Bits.any (if_mask s) j) then
      (s, usbd_control_disable_endpoint i (on_ctx (with_ep (Bits.clear (ep_mask c) j) (Bits.clear (ep_halt c) j) (ep_stall c)) u))
    else (s, u)
  else (s, u).
Fixpoint set_interface_walk (fuel : nat) (o : Z) (s : iface_scan) (u : usb) : option (usb * bool) :=
  match fuel with
  | O => None
  | S fuel =>
      let c := ctx u in
      if desc_length o =? 0 then Some (u, if_ret s)
      else if desc_type o =? DESCRIPTOR_TYPE_CONFIGURATION then
        set_interface_walk fuel (o + (if config_byte (o + 5) =? current_configuration c then desc_length o else total_length o)) s u
      else if desc_type o =? DESCRIPTOR_TYPE_INTERFACE then
        let number := config_byte (o + 2) in
        let alternate := config_byte (o + 3) in
        if (number =? wIndex0 c) && (alternate =? wValue0 c) then
          if number <? USBD_ALT_SETTING_SIZE
          then set_interface_walk fuel (o + desc_length o) (mk_iface number alternate (Zget (alt_setting c) number) 0 true)
                 (on_ctx (with_alt_setting (Zset (alt_setting c) number alternate)) u)
          else Some (u, false)
        else set_interface_walk fuel (o + desc_length o) (mk_iface number alternate (if_prev s) 0 (if_ret s)) u
      else if desc_type o =? DESCRIPTOR_TYPE_ENDPOINT then
        let '(s, u) := set_interface_endpoint o s u in set_interface_walk fuel (o + desc_length o) s u
      else set_interface_walk fuel (o + desc_length o) s u
  end.
Definition usbd_standard_request_set_interface (fuel : nat) (u : usb) : option (usb * bool) :=
  if recipient (ctx u) =? RECIPIENT_INTERFACE then
    if current_configuration (ctx u) =? 0 then Some (u, false)
    else set_interface_walk fuel 0 (mk_iface 0 0 0 0 false) u
  else Some (u, false).

(** Strings and the serial number. *)
Definition htoc (nibble : Z) : Z := if (0 <=? nibble) && (nibble <? 10) then nibble + 48 else nibble + 65 - 10.
Fixpoint serial_word (n : nat) (w : Z) : list Z :=
  match n with
  | O => []
  | S n => htoc (Z.land (Z.shiftr w 28) 15) :: 0 :: serial_word n (u32 (Z.shiftl w 4))
  end.
Definition usbd_control_get_serialno : list Z :=
  concat ((fun j => serial_word 8 (Zget serial_number j)) <$> [3; 2; 1; 0]).
(** The loops that look for the [n]-th configuration or string. *)
Fixpoint skip_items (len size : Z -> Z) (n : nat) (o : Z) : Z :=
  match n with
  | O => o
  | S n => skip_items len size n (if negb (len o =? 0) then o + size o else o)
  end.
Definition skip_configurations : nat -> Z -> Z := skip_items desc_length total_length.
Definition string_byte (o : Z) : Z := ro_byte Rstring o.
Definition skip_strings : nat -> Z -> Z := skip_items string_byte string_byte.
(** [bString == NULL]: the four bytes of the pointer are those of the first two characters. *)
Definition string_is_null (o : Z) : bool := forallb (fun i => string_byte (o + i) =? 0) [2; 3; 4; 5].

Definition descriptor_found (p : uptr) (len : Z) (u : usb) : usb * bool :=
  (on_ctx (fun c => with_data p (if len <? nbyte c then u16 len else nbyte c) (is_zlp c) c) u, true).
Definition usbd_standard_request_get_descriptor (u : usb) : usb * bool :=
  let c := ctx u in
  if recipient c =? RECIPIENT_DEVICE then
    if wValue1 c =? DESCRIPTOR_TYPE_DEVICE then descriptor_found (mk_uptr Rdevice 0) SIZEOF_DEVICE_DESCRIPTOR u
    else if wValue1 c =? DESCRIPTOR_TYPE_CONFIGURATION then
      let o := skip_configurations (Z.to_nat (wValue0 c)) 0 in
      if desc_length o =? 0 then (u, false) else descriptor_found (mk_uptr Rconfig o) (total_length o) u
    else if wValue1 c =? DESCRIPTOR_TYPE_STRING then
      if wValue0 c =? 238 then (u, false)
      else
        let o := skip_strings (Z.to_nat (wValue0 c)) 0 in
        if string_byte o =? 0 then (u, false)
        else if string_is_null o then
          let bytes := 66 :: DESCRIPTOR_TYPE_STRING :: usbd_control_get_serialno in
          descriptor_found (context_ptr OFF_BUF) 66 (on_ctx (fun c => with_buf (bytes ++ drop (length bytes) (buf c)) c) u)
        else descriptor_found (mk_uptr Rstring o) (string_byte o) u
    else if wValue1 c =? DESCRIPTOR_TYPE_QUALIFIER then
      if has_qualifier then descriptor_found (mk_uptr Rqualifier 0) SIZEOF_DEVICE_DESCRIPTOR u
      else (on_ctx (with_dptr (mk_uptr Rnull 0)) u, false)
    else (u, false)
  else (u, false).

Definition finish (stage : usb -> usb) (r : usb * bool) : usb * bool := let '(u, ok) := r in if ok then (stage u, true) else (u, false).
Definition usbd_standard_request_handle_setup (fuel : nat) (u : usb) : option (usb * bool) :=
  let b := bRequest (ctx u) in
  if b =? GET_STATUS then Some (finish usbd_control_datain_stage (usbd_standard_request_get_status u))
  else if b =? CLEAR_FEATURE then Some (finish usbd_control_statusin_stage (usbd_standard_request_set_clear_feature false u))
  else if b =? SET_FEATURE then Some (finish usbd_control_statusin_stage (usbd_standard_request_set_clear_feature true u))
  else if b =? SET_ADDRESS then Some (finish usbd_control_statusin_stage (usbd_standard_request_set_address u))
  else if b =? GET_DESCRIPTOR then Some (finish usbd_control_datain_stage (usbd_standard_request_get_descriptor u))
  else if b =? GET_CONFIGURATION then Some (finish usbd_control_datain_stage (usbd_standard_request_get_config u))
  else if b =? SET_CONFIGURATION then finish usbd_control_statusin_stage <$> usbd_standard_request_set_config fuel u
  else if b =? GET_INTERFACE then Some (finish usbd_control_datain_stage (usbd_standard_request_get_interface u))
  else if b =? SET_INTERFACE then finish usbd_control_statusin_stage <$> usbd_standard_request_set_interface fuel u
  else Some (u, false).

(** ** The handler of the control endpoint *)

Definition class_handler := option (usb_events -> usb -> usb * bool).
Definition execute_class_handler (h : class_handler) (e : usb_events) (u : usb) : usb * bool :=
  match h with Some f => f e u | None => (u, false) end.
Definition class_or_stall (h : class_handler) (e : usb_events) (u : usb) : usb :=
  let '(u, ok) := execute_class_handler h e u in if ok then u else stall u.
Definition usbd_control_handler (fuel : nat) (h : class_handler) (packet : list Z) (epnum : Z) (e : usb_events) (u : usb) : option usb :=
  if ev_setup e then
    u ← usbd_control_handler_setup_stage packet u;
    '(u, ok) ← usbd_standard_request_handle_setup fuel u;
    Some (if (ok : bool) then u else class_or_stall h e u)
  else if ev_data_ready e then
    if usbd_control_setup_request_direction (ctx u) =? HOST_TO_DEVICE then
      if negb (nbyte (ctx u) =? 0) then
        u ← usbd_control_dataout_stage packet u;
        Some (if nbyte (ctx u) =? 0 then
                if usbd_control_setup_request_type (ctx u) =? TYPE_STANDARD then stall u else class_or_stall h e u
              else u)
      else Some u
    else usbd_control_statusout_stage packet u
  else if ev_write_complete e then
    if usbd_control_setup_request_direction (ctx u) =? DEVICE_TO_HOST then
      let '(u, ok) := execute_class_handler h e u in
      Some (if ok then u else usbd_control_datain_stage u)
    else Some u
  else if ev_stall e then Some (usbd_control_unstall_endpoint epnum u)
  else Some u.
(** [usbd_control_root_init]: the driver accepts the action and the attributes, or the
    system stops. *)
Definition usbd_control_root_init (action_ok attach_ok : bool) (u : usb) : option usb :=
  if negb action_ok then None else if negb attach_ok then None else Some (usbd_control_attach u).

(** ** Class handlers of the link *)

Definition MSFT_STRING_LENGTH : Z := 18.
Definition COMPATIBLE_ID_LENGTH : Z := 40.
Definition USBD_MSFT_VENDOR_CODE_BYTE : Z := 115.
Definition answer_constant (r : region) (len : Z) (u : usb) : usb :=
  usbd_control_datain_stage (on_ctx (fun c => with_data (mk_uptr r 0) (if len <? nbyte c then len else nbyte c) (is_zlp c) c) u).
Definition sos_link_transport_usb_msft_string_event (e : usb_events) (u : usb) : usb * bool :=
  let c := ctx u in
  if ev_setup e && (bRequest c =? GET_DESCRIPTOR) && (wValue1 c =? DESCRIPTOR_TYPE_STRING) && (wValue0 c =? 238)
  then (answer_constant Rmsft_string MSFT_STRING_LENGTH u, true) else (u, false).
Definition link_class_handler (e : usb_events) (u : usb) : usb * bool :=
  let '(u, ok) := sos_link_transport_usb_msft_string_event e u in
  if ok then (u, true)
  else
    let c := ctx u in
    if ev_setup e && (bRequest c =? USBD_MSFT_VENDOR_CODE_BYTE) && (wIndex c =? 4)
    then (answer_constant Rcompatible_id COMPATIBLE_ID_LENGTH u, true) else (u, false).

Definition CDC_SEND_ENCAPSULATED_COMMAND : Z := 0.
Definition CDC_GET_ENCAPSULATED_RESPONSE : Z := 1.
Definition CDC_SET_COMM_FEATURE : Z := 2.
Definition CDC_GET_COMM_FEATURE : Z := 3.
Definition CDC_CLEAR_COMM_FEATURE : Z := 4.
Definition CDC_SET_LINE_CODING : Z := 32.
Definition CDC_GET_LINE_CODING : Z := 33.
Definition CDC_SET_CONTROL_LINE_STATE : Z := 34.
Definition CDC_SEND_BREAK : Z := 35.
Definition CDC_RATE : Z := 12000000.
Definition line_coding : list Z := [byte_of CDC_RATE 0; byte_of CDC_RATE 1; byte_of CDC_RATE 2; byte_of CDC_RATE 3; 0; 0; 8].
(** [VCP0_INTERFACE] is the number of the interface in the configuration. *)
Definition cdc_event_handler (vcp0 : Z) (e : usb_events) (u : usb) : usb * bool :=
  let c := ctx u in
  let iface := wIndex0 c in
  let b := bRequest c in
  if (iface =? vcp0) || (iface =? vcp0 + 1) then
    if ev_setup e then
      if (b =? CDC_SEND_ENCAPSULATED_COMMAND) || (b =? CDC_SET_COMM_FEATURE) || (b =? CDC_SEND_BREAK)
      then (usbd_control_statusin_stage (usbd_control_prepare_buffer u), true)
      else if b =? CDC_SET_LINE_CODING then (on_ctx (with_data (context_ptr OFF_BUF) (wLength c) (is_zlp c)) u, true)
      else if b =? CDC_SET_CONTROL_LINE_STATE then (usbd_control_statusin_stage u, true)
      else if b =? CDC_GET_LINE_CODING then
        (usbd_control_datain_stage (on_ctx (fun c => with_buf (line_coding ++ drop 7 (buf c)) (with_dptr (context_ptr OFF_BUF) c)) u), true)
      else if b =? CDC_CLEAR_COMM_FEATURE then (usbd_control_statusin_stage u, true)
      else if (b =? CDC_GET_COMM_FEATURE) || (b =? CDC_GET_ENCAPSULATED_RESPONSE)
      then (usbd_control_statusin_stage (usbd_control_prepare_buffer u), true)
      else (u, false)
    else if ev_data_ready e then
      if (b =? CDC_SET_LINE_CODING) || (b =? CDC_SET_CONTROL_LINE_STATE) || (b =? CDC_SET_COMM_FEATURE)
         || (b =? CDC_SEND_ENCAPSULATED_COMMAND)
      then (usbd_control_statusin_stage u, true) else (u, false)
    else (u, false)
  else (u, false).
Definition usbd_cdc_event_handler (vcp0 : Z) (e : usb_events) (u : usb) : usb * bool :=
  if usbd_control_setup_request_type (ctx u) =? TYPE_CLASS then cdc_event_handler vcp0 e u else (u, false).
End Device.

(** ** Data to the host *)

(** The packets a block of data is cut into. *)
Fixpoint packets (fuel : nat) (max : nat) (l : list Z) : list (list Z) :=
  match fuel with
  | O => []
  | S fuel => if decide (l = []) then [] else take max l :: packets fuel max (drop max l)
  end.
Lemma packets_concat max : (0 < max)%nat -> forall fuel l, (length l <= fuel * max)%nat -> concat (packets fuel max l) = l.
Proof.
  intros Hm. induction fuel as [|fuel IH]; intros l Hl; simpl; [by destruct l; [|simpl in Hl; lia]|].
  case_decide as E; [by subst|]. simpl. rewrite IH; [apply take_drop|]. rewrite length_drop. lia.
Qed.
Lemma packets_sizes max : (0 < max)%nat -> forall fuel l, Forall (fun p => 0 < Zlen p <= Z.of_nat max) (packets fuel max l).
Proof.
  intros Hm. induction fuel as [|fuel IH]; intros l; simpl; [done|]. case_decide as E; [done|].
  constructor; [|apply IH]. unfold Zlen. rewrite length_take. destruct l; [done|]. simpl. lia.
Qed.
Lemma packets_full max : (0 < max)%nat -> forall fuel l, (length l <= fuel * max)%nat ->
  forall ps p, packets fuel max l = ps ++ [p] -> Forall (fun q => Zlen q = Z.of_nat max) ps.
Proof.
  intros Hm. induction fuel as [|fuel IH]; intros l Hl ps p; simpl; [by destruct ps|].
  case_decide as E; [by destruct ps|]. destruct ps as [|q ps]; [done|]. intros [= <- H].
  constructor; [|apply (IH (drop max l) ltac:(rewrite length_drop; lia) ps p H)].
  unfold Zlen. rewrite length_take. destruct (decide (max <= length l)%nat); [lia|].
  rewrite drop_ge in H by lia. destruct fuel; simpl in H; [by destruct ps|]. by destruct ps.
Qed.

Section Streams.
Context {dev : UsbDevice}.
Local Abbreviation max := control_endpoint_max_size.
Implicit Types (c : usbd_control_t) (p : uptr) (u : usb).

(** Data the stage itself does not change: outside the structure, or behind its own
    counters. *)
Definition data_safe p : Prop := p_region p <> Rcontext \/ 16 <= p_offset p.
Lemma data_safe_add p n : 0 <= n -> data_safe p -> data_safe (uptr_add p n).
Proof. intros Hn [H|H]; [by left|right; simpl; lia]. Qed.
Lemma peek_with_data a n z c p : data_safe p -> peek (with_data a n z c) p = peek c p.
Proof.
  intros [H|H]; unfold peek; destruct (p_region p); try done. unfold context_byte.
  bool_cases; try lia; done.
Qed.
Lemma peeks_with_data a n z c p k : data_safe p -> peeks (with_data a n z c) p k = peeks c p k.
Proof.
  intros H. apply list_fmap_ext. intros i x Hx%lookup_seqZ. apply peek_with_data, data_safe_add; [lia|done].
Qed.
Lemma length_peeks c p n : length (peeks c p n) = Z.to_nat n.
Proof. unfold peeks. by rewrite length_fmap, length_seqZ. Qed.
Lemma peeks_split c p n m : 0 <= n -> 0 <= m -> peeks c p (n + m) = peeks c p n ++ peeks c (uptr_add p n) m.
Proof.
  intros Hn Hm. unfold peeks. rewrite seqZ_app, fmap_app by lia. f_equal.
  rewrite Z.add_0_l. replace (seqZ n m) with (seqZ (n + 0) m) by (f_equal; lia).
  rewrite <- fmap_add_seqZ, <- list_fmap_compose. apply list_fmap_ext. intros i x _. simpl. f_equal.
  unfold uptr_add. simpl. f_equal. lia.
Qed.

(** One stage: nothing for no data, otherwise a packet of at most the maximal size. *)
Lemma datain_none u : 0 < max -> nbyte (ctx u) = 0 ->
  usbd_control_datain_stage u = on_ctx (with_data (dptr (ctx u)) 0 0) u.
Proof.
  intros Hm Hn. unfold usbd_control_datain_stage. rewrite Hn. destruct (Z.leb_spec max 0); [lia|]. simpl.
  done.
Qed.
Lemma datain_some u : 0 < max -> 0 < nbyte (ctx u) < 2 ^ 16 -> data_safe (dptr (ctx u)) ->
  let c := ctx u in let n := nbyte c `min` max in
  exists z, usbd_control_datain_stage u
    = mk_usb (with_data (uptr_add (dptr c) n) (nbyte c - n) z c) (acts u ++ [WriteEndpoint 128 (peeks c (dptr c) n)]).
Proof.
  intros Hm Hn Hs c n. unfold usbd_control_datain_stage. fold c.
  assert (E : (if max <=? nbyte c then (max, 1) else (nbyte c, 0)) = (n, if max <=? nbyte c then 1 else 0)).
  { subst n. destruct (Z.leb_spec max (nbyte c)); f_equal; lia. }
  rewrite E. rewrite (proj2 (Z.ltb_lt 0 n)) by (subst n c; lia). simpl. eexists.
  unfold on_ctx, write_endpoint, act. simpl. rewrite peeks_with_data by done.
  rewrite u16_id by (subst n c; lia). unfold with_data. simpl. done.
Qed.

(** The packets sent by a data stage and the write completions that follow it. *)
Lemma datain_stream : 0 < max -> forall n u, 0 <= nbyte (ctx u) < 2 ^ 16 -> data_safe (dptr (ctx u)) ->
  nbyte (ctx u) <= Z.of_nat n * max ->
  exists z p, Nat.iter n usbd_control_datain_stage u
    = mk_usb (with_data p 0 z (ctx u))
        (acts u ++ (WriteEndpoint 128 <$> packets n (Z.to_nat max) (peeks (ctx u) (dptr (ctx u)) (nbyte (ctx u))))).
Proof.
  intros Hm. induction n as [|n IH]; intros u Hn Hs Hle.
  { simpl. assert (E : nbyte (ctx u) = 0) by lia. exists (is_zlp (ctx u)), (dptr (ctx u)). rewrite app_nil_r.
    destruct u as [[] a]; simpl in *; subst. done. }
  rewrite Nat.iter_succ_r. destruct (decide (nbyte (ctx u) = 0)) as [E|E].
  - rewrite datain_none by done. rewrite E. change (peeks (ctx u) (dptr (ctx u)) 0) with (@nil Z).
    destruct (IH (on_ctx (with_data (dptr (ctx u)) 0 0) u)) as (z & p & ->); [done|done|simpl; lia|].
    exists z, p. simpl. destruct n; done.
  - destruct (datain_some u Hm ltac:(lia) Hs) as (z0 & ->).
    set (c := ctx u) in *. set (k := nbyte c `min` max).
    destruct (IH (mk_usb (with_data (uptr_add (dptr c) k) (nbyte c - k) z0 c) (acts u ++ [WriteEndpoint 128 (peeks c (dptr c) k)])))
      as (z & p & ->); simpl; [subst k; lia|apply data_safe_add; [subst k; lia|done]|subst k; lia|].
    exists z, p. f_equal. rewrite <- app_assoc. f_equal.
    rewrite peeks_with_data by (apply data_safe_add; [subst k; lia|done]).
    assert (Es : peeks c (dptr c) (nbyte c) = peeks c (dptr c) k ++ peeks c (uptr_add (dptr c) k) (nbyte c - k)).
    { rewrite <- peeks_split by (subst k; lia). f_equal. lia. }
    rewrite Es. clear Es.
    pose proof (length_peeks c (dptr c) k) as L1. pose proof (length_peeks c (uptr_add (dptr c) k) (nbyte c - k)) as L2.
    rewrite decide_False by (intros H%(f_equal length); rewrite length_app in H; simpl in H; lia).
    destruct (decide (max <= nbyte c)) as [Hk|Hk].
    + assert (Ek : k = max) by (subst k; lia). rewrite Ek in *. rewrite take_app_length', drop_app_length' by lia. done.
    + assert (Ek : nbyte c - k = 0) by (subst k; lia). rewrite Ek in *. change (peeks c (uptr_add (dptr c) k) 0) with (@nil Z).
      rewrite app_nil_r, take_ge, drop_ge by lia. simpl. by destruct n.
Qed.

(** ** The setup stage *)

Record usbd_wf c : Prop := {
  uw_setup : length (setup_packet c) = 8%nat;
  uw_buf : Zlen (buf c) = USBD_CONTROL_DATAOUT_BUF_SIZE;
  uw_alt : Zlen (alt_setting c) = USBD_ALT_SETTING_SIZE }.
(** A request of the host: 8 bytes, the fields in the order of the structure. *)
Record request := mk_request { rq_type : Z; rq_request : Z; rq_value0 : Z; rq_value1 : Z; rq_index0 : Z; rq_index1 : Z; rq_length : Z }.
Definition setup_bytes (r : request) : list Z :=
  [rq_type r; rq_request r; rq_value0 r; rq_value1 r; rq_index0 r; rq_index1 r; rq_length r mod 256; rq_length r / 256].
(** The context when the standard requests are looked at. *)
Definition received (r : request) c : usbd_control_t :=
  with_data (dptr c) (rq_length r) 0 (with_setup_packet (setup_bytes r) c).

Lemma pokes_setup r c : usbd_wf c -> pokes (context_ptr 0) (setup_bytes r) c = Some (with_setup_packet (setup_bytes r) c).
Proof.
  intros [H _ _]. destruct c as [sp]; simpl in H. do 9 (destruct sp as [|? sp]; try done).
Qed.
Lemma setup_stage r u : usbd_wf (ctx u) ->
  usbd_control_handler_setup_stage (setup_bytes r) u = Some (mk_usb (received r (ctx u)) (acts u ++ [ReadEndpoint 0])).
Proof.
  intros H. unfold usbd_control_handler_setup_stage, read_endpoint. rewrite pokes_setup by done. simpl.
  unfold on_ctx, received, act. simpl. do 3 f_equal. unfold wLength, setup_byte. simpl. change (Zget (setup_bytes r) 6) with (rq_length r mod 256).
  change (Zget (setup_bytes r) 7) with (rq_length r / 256). pose proof (Z.div_mod (rq_length r) 256). lia.
Qed.

(** The write completions of a transfer. *)
Fixpoint completions (fuel : nat) (h : class_handler) (n : nat) (u : usb) : option usb :=
  match n with
  | O => Some u
  | S n => u ← usbd_control_handler fuel h [] 0 write_complete_event u; completions fuel h n u
  end.
(** A class handler that leaves write completions to the control endpoint. *)
Class QuietHandler (h : class_handler) : Prop :=
  quiet u : execute_class_handler h write_complete_event u = (u, false).
#[export] Instance no_handler_quiet : QuietHandler None.
Proof. done. Qed.
#[export] Instance link_handler_quiet : QuietHandler (Some link_class_handler).
Proof. done. Qed.
#[export] Instance cdc_handler_quiet vcp0 : QuietHandler (Some (usbd_cdc_event_handler vcp0)).
Proof.
  intros u. simpl. unfold usbd_cdc_event_handler, cdc_event_handler. simpl.
  destruct (_ =? TYPE_CLASS); [|done]. by destruct (_ || _).
Qed.

Lemma direction_received r c : usbd_control_setup_request_direction (received r c) = Z.shiftr (rq_type r) 7.
Proof. done. Qed.
Lemma datain_setup u : setup_packet (ctx (usbd_control_datain_stage u)) = setup_packet (ctx u).
Proof. unfold usbd_control_datain_stage. destruct (_ <=? _); by destruct (_ || _). Qed.
Lemma completions_iter fuel h n u `{!QuietHandler h} : usbd_control_setup_request_direction (ctx u) = DEVICE_TO_HOST ->
  completions fuel h n u = Some (Nat.iter n usbd_control_datain_stage u).
Proof.
  revert u. induction n as [|n IH]; intros u Hd; [done|]. cbn [completions].
  unfold usbd_control_handler at 1. cbn [write_complete_event ev_setup ev_data_ready ev_write_complete].
  rewrite Hd. change (DEVICE_TO_HOST =? DEVICE_TO_HOST) with true. cbv iota. change (mk_events false false true false) with write_complete_event.
  rewrite quiet. simpl mbind. rewrite IH; [by rewrite Nat.iter_succ_r|].
  unfold usbd_control_setup_request_direction, setup_byte in *. by rewrite datain_setup.
Qed.

(** A request that is answered with data: what the host gets when it completes the writes. *)
Definition answers fuel h (r : request) (data : list Z) (u : usb) : Prop :=
  forall n, Zlen data <= Z.of_nat n * max ->
  exists u' (ps : list (list Z)), (u ← usbd_control_handler fuel h (setup_bytes r) 0 setup_event u; completions fuel h n u) = Some u' /\
    acts u' = acts u ++ ReadEndpoint 0 :: (WriteEndpoint 128 <$> ps) /\
    concat ps = data /\ Forall (fun q => 0 < Zlen q <= max) ps /\
    (forall qs l, ps = qs ++ [l] -> Forall (fun q => Zlen q = max) qs).

Lemma answers_intro fuel h r u u1 `{!QuietHandler h} : 0 < max -> usbd_wf (ctx u) -> Z.shiftr (rq_type r) 7 = 1 ->
  usbd_standard_request_handle_setup fuel (mk_usb (received r (ctx u)) (acts u ++ [ReadEndpoint 0]))
    = Some (usbd_control_datain_stage u1, true) ->
  acts u1 = acts u ++ [ReadEndpoint 0] -> setup_packet (ctx u1) = setup_bytes r ->
  0 <= nbyte (ctx u1) < 2 ^ 16 -> data_safe (dptr (ctx u1)) ->
  answers fuel h r (peeks (ctx u1) (dptr (ctx u1)) (nbyte (ctx u1))) u.
Proof.
  intros Hm Hw Ht He Ha Hp Hn Hs n Hle. unfold Zlen in Hle. rewrite length_peeks in Hle.
  destruct (datain_stream Hm (S n) u1 Hn Hs ltac:(lia)) as (z & p & Ei).
  assert (Ed : usbd_control_setup_request_direction (ctx (usbd_control_datain_stage u1)) = DEVICE_TO_HOST).
  { unfold usbd_control_setup_request_direction, setup_byte. rewrite datain_setup, Hp. exact Ht. }
  eexists _, _. split.
  - unfold usbd_control_handler. cbn [setup_event ev_setup]. rewrite setup_stage by done. simpl mbind at 1. cbv beta iota.
    rewrite He. simpl mbind. rewrite completions_iter by done. rewrite <- Nat.iter_succ_r. rewrite Ei. reflexivity.
  - cbn [acts]. rewrite Ha, <- app_assoc. split; [done|]. split; [apply packets_concat; rewrite ?length_peeks; lia|].
    split.
    + eapply Forall_impl; [apply packets_sizes; lia|]. intros q. simpl. lia.
    + intros qs q E. eapply Forall_impl; [eapply packets_full; [|..|exact E]; rewrite ?length_peeks; lia|]. intros. simpl in *. lia.
Qed.

(** ** Descriptors *)

Definition region_holds (r : region) (l : list Z) : Prop := forall i, 0 <= i < Zlen l -> ro_byte r i = Zget l i.
(** The descriptors of a device: configurations and strings lie one behind the other and
    end with a zero. *)
Record descriptors := mk_descriptors { d_device : list Z; d_configs : list (list Z); d_strings : list (list Z) }.
Definition config_wf (x : list Z) : Prop :=
  Zget x 0 <> 0 /\ 4 <= Zlen x < 2 ^ 16 /\ Zget x 2 + 256 * Zget x 3 = Zlen x.
Definition string_wf (x : list Z) : Prop :=
  Zget x 0 = Zlen x /\ 4 <= Zlen x < 2 ^ 16 /\ (Zlen x < 6 -> Zget x 2 <> 0 \/ Zget x 3 <> 0).
Record device_holds (d : descriptors) : Prop := {
  dh_device : region_holds Rdevice (d_device d) /\ Zlen (d_device d) = SIZEOF_DEVICE_DESCRIPTOR;
  dh_configs : region_holds Rconfig (concat (d_configs d) ++ [0]);
  dh_strings : region_holds Rstring (concat (d_strings d) ++ [0]);
  dh_configs_wf : Forall config_wf (d_configs d);
  dh_strings_wf : Forall string_wf (d_strings d) }.
(** A string without its first characters stands for the serial number. *)
Definition blank (x : list Z) : bool := forallb (fun i => Zget x i =? 0) [2; 3; 4; 5].
Definition serial_string : list Z := 66 :: DESCRIPTOR_TYPE_STRING :: usbd_control_get_serialno.
Definition descriptor (d : descriptors) (ty idx : Z) : option (list Z) :=
  if ty =? DESCRIPTOR_TYPE_DEVICE then Some (d_device d)
  else if ty =? DESCRIPTOR_TYPE_CONFIGURATION then d_configs d !! Z.to_nat idx
  else if ty =? DESCRIPTOR_TYPE_STRING then
    if idx =? 238 then None else (fun x => if blank x then serial_string else x) <$> d_strings d !! Z.to_nat idx
  else None.

Lemma Zget_app_left {A} `{!Inhabited A} (l1 l2 : list A) i : 0 <= i < Zlen l1 -> Zget (l1 ++ l2) i = Zget l1 i.
Proof. unfold Zget, Zlen. intros. rewrite lookup_total_app_l by lia. done. Qed.
Lemma Zget_app_right {A} `{!Inhabited A} (l1 l2 : list A) i : 0 <= i -> Zget (l1 ++ l2) (Zlen l1 + i) = Zget l2 i.
Proof. unfold Zget, Zlen. intros. rewrite lookup_total_app_r by lia. f_equal. lia. Qed.

Section Items.
Context (r : region) (items : list (list Z)) (Hr : region_holds r (concat items ++ [0])).
Lemma item_byte pre x post i : items = pre ++ x :: post -> 0 <= i < Zlen x -> ro_byte r (Zlen (concat pre) + i) = Zget x i.
Proof using Hr.
  intros E Hi. pose proof (Zlen_nonneg (concat pre)). pose proof (Zlen_nonneg (concat post)).
  rewrite Hr; subst items; rewrite concat_app; simpl; [|autorewrite with sos; lia].
  rewrite <- app_assoc, Zget_app_right by lia. rewrite <- app_assoc. apply Zget_app_left. lia.
Qed.
Lemma items_end : ro_byte r (Zlen (concat items)) = 0.
Proof using Hr.
  pose proof (Zlen_nonneg (concat items)). rewrite Hr by (autorewrite with sos; lia).
  replace (Zlen (concat items)) with (Zlen (concat items) + 0) by lia. by rewrite Zget_app_right.
Qed.
Lemma skip_items_spec (size : Z -> Z) :
  (forall pre x post, items = pre ++ x :: post -> Zget x 0 <> 0 /\ 0 < Zlen x /\ size (Zlen (concat pre)) = Zlen x) ->
  forall n pre post, items = pre ++ post -> skip_items (ro_byte r) size n (Zlen (concat pre)) = Zlen (concat (pre ++ take n post)).
Proof using Hr.
  intros Hs. induction n as [|n IH]; intros pre post E; simpl; [by rewrite app_nil_r|].
  destruct post as [|x post].
  - rewrite app_nil_r in E. subst pre. rewrite items_end. change (negb (0 =? 0)) with false. cbv iota.
    rewrite (IH items []) by (by rewrite app_nil_r). by rewrite take_nil.
  - destruct (Hs _ _ _ E) as (H0 & Hl & ->).
    pose proof (item_byte pre x post 0 E ltac:(lia)) as Hb. rewrite Z.add_0_r in Hb. rewrite Hb.
    rewrite (proj2 (Z.eqb_neq _ _) H0). cbn [negb]. cbv iota.
    specialize (IH (pre ++ [x]) post). rewrite concat_app, Zlen_app in IH. simpl in IH. rewrite app_nil_r in IH.
    rewrite IH by (by rewrite <- app_assoc). by rewrite <- app_assoc.
Qed.
End Items.

Lemma peeks_data c p (data : list Z) n : 0 <= n <= Zlen data ->
  (forall i, 0 <= i < Zlen data -> peek c (uptr_add p i) = Zget data i) -> peeks c p n = take (Z.to_nat n) data.
Proof.
  intros Hn H. unfold Zlen in *. apply (list_eq_same_length _ _ (Z.to_nat n)); [rewrite length_take; lia|apply length_peeks|].
  intros i x y Hi. unfold peeks. rewrite list_lookup_fmap. intros (j & Hj & ->)%fmap_Some Hy. apply lookup_seqZ in Hj as [-> _].
  rewrite lookup_take_lt in Hy by lia. rewrite H by lia. unfold Zget. rewrite Z.add_0_l, Nat2Z.id. by apply list_lookup_total_correct.
Qed.
Lemma found_answers fuel h r u u0 p data `{!QuietHandler h} : 0 < max -> usbd_wf (ctx u) -> Z.shiftr (rq_type r) 7 = 1 ->
  0 <= rq_length r < 2 ^ 16 -> Zlen data < 2 ^ 16 -> data_safe p ->
  usbd_standard_request_handle_setup fuel (mk_usb (received r (ctx u)) (acts u ++ [ReadEndpoint 0]))
    = Some (finish usbd_control_datain_stage (descriptor_found p (Zlen data) u0)) ->
  acts u0 = acts u ++ [ReadEndpoint 0] -> setup_packet (ctx u0) = setup_bytes r -> nbyte (ctx u0) = rq_length r ->
  (forall i, 0 <= i < Zlen data -> peek (ctx u0) (uptr_add p i) = Zget data i) ->
  answers fuel h r (take (Z.to_nat (rq_length r)) data) u.
Proof.
  intros Hm Hw Ht Hl Hd Hs He Ha Hp Hn Hb. cbn [finish descriptor_found] in He.
  eassert (E : take (Z.to_nat (rq_length r)) data = _); [|rewrite E; eapply answers_intro; [done..|exact He|done|done| |done]].
  - pose proof (Zlen_nonneg data). cbn [on_ctx ctx with_data dptr nbyte]. rewrite Hn, peeks_with_data by done.
    symmetry. rewrite (peeks_data _ _ data) by (try done; rewrite ?u16_id by lia; bool_cases; lia).
    destruct (Z.ltb_spec (Zlen data) (rq_length r)); [|done]. rewrite u16_id by lia.
    unfold Zlen in *. rewrite !take_ge by lia. done.
  - pose proof (Zlen_nonneg data). simpl. rewrite Hn, ?u16_id by lia. bool_cases; lia.
Qed.

Section Lookup.
Context (d : descriptors) (Hd : device_holds d).
Lemma split_items (items : list (list Z)) (n : nat) :
  match items !! n with
  | Some x => items = take n items ++ x :: drop (S n) items
  | None => take n items = items
  end.
Proof. destruct (items !! n) eqn:E; [symmetry; by apply take_drop_middle|]. apply take_ge. by apply lookup_ge_None. Qed.
Lemma config_at idx :
  let o := skip_configurations (Z.to_nat idx) 0 in
  match d_configs d !! Z.to_nat idx with
  | Some x => desc_length o <> 0 /\ total_length o = Zlen x /\ config_wf x /\
              (forall i, 0 <= i < Zlen x -> ro_byte Rconfig (o + i) = Zget x i)
  | None => desc_length o = 0
  end.
Proof using Hd.
  intros o. pose proof (dh_configs d Hd) as Hr. pose proof (dh_configs_wf d Hd) as Hw. rewrite Forall_forall in Hw.
  assert (Hx : forall pre x post, d_configs d = pre ++ x :: post -> config_wf x).
  { intros pre x post E. apply Hw. rewrite E. set_solver. }
  assert (Ht : forall pre x post, d_configs d = pre ++ x :: post -> total_length (Zlen (concat pre)) = Zlen x).
  { intros pre x post E. destruct (Hx _ _ _ E) as (_ & Hl & Es). unfold total_length, config_word, config_byte.
    rewrite <- Z.add_assoc, !(item_byte _ _ Hr pre x post) by (done || lia). done. }
  assert (Eo : o = Zlen (concat (take (Z.to_nat idx) (d_configs d)))).
  { subst o. unfold skip_configurations. change desc_length with (ro_byte Rconfig).
    apply (skip_items_spec _ _ Hr total_length) with (pre := []); [|done].
    intros pre x post E. destruct (Hx _ _ _ E) as (H0 & Hl & _). split; [done|]. split; [lia|by apply (Ht pre x post)]. }
  clearbody o. pose proof (split_items (d_configs d) (Z.to_nat idx)) as Es.
  destruct (d_configs d !! Z.to_nat idx) as [x|]; [|rewrite Es in Eo; subst o; apply (items_end _ _ Hr)].
  destruct (Hx _ _ _ Es) as (H0 & Hl & H2). subst o. split_and!; [|by eapply Ht|done|by intros; eapply item_byte].
  unfold desc_length, config_byte. rewrite <- (Z.add_0_r (Zlen _)), (item_byte _ _ Hr _ _ _ _ Es); [done|lia].
Qed.
Lemma string_at idx :
  let o := skip_strings (Z.to_nat idx) 0 in
  match d_strings d !! Z.to_nat idx with
  | Some x => string_byte o = Zlen x /\ string_wf x /\ string_is_null o = blank x /\
              (forall i, 0 <= i < Zlen x -> ro_byte Rstring (o + i) = Zget x i)
  | None => string_byte o = 0
  end.
Proof using Hd.
  intros o. pose proof (dh_strings d Hd) as Hr. pose proof (dh_strings_wf d Hd) as Hw. rewrite Forall_forall in Hw.
  assert (Hx : forall pre x post, d_strings d = pre ++ x :: post -> string_wf x).
  { intros pre x post E. apply Hw. rewrite E. set_solver. }
  assert (Ht : forall pre x post, d_strings d = pre ++ x :: post -> string_byte (Zlen (concat pre)) = Zlen x).
  { intros pre x post E. destruct (Hx _ _ _ E) as (H0 & Hl & _). unfold string_byte.
    rewrite <- (Z.add_0_r (Zlen _)), (item_byte _ _ Hr pre x post) by (done || lia). done. }
  assert (Eo : o = Zlen (concat (take (Z.to_nat idx) (d_strings d)))).
  { subst o. unfold skip_strings. change string_byte with (ro_byte Rstring) at 1.
    apply (skip_items_spec _ _ Hr string_byte) with (pre := []); [|done].
    intros pre x post E. destruct (Hx _ _ _ E) as (H0 & Hl & _). split; [lia|]. split; [lia|by apply (Ht pre x post)]. }
  clearbody o. pose proof (split_items (d_strings d) (Z.to_nat idx)) as Es.
  destruct (d_strings d !! Z.to_nat idx) as [x|]; [|rewrite Es in Eo; subst o; apply (items_end _ _ Hr)].
  destruct (Hx _ _ _ Es) as (H0 & Hl & H2). subst o. split_and!; [by eapply Ht|done| |by intros; eapply item_byte].
  unfold string_is_null, blank, string_byte. cbn [forallb]. rewrite !(item_byte _ _ Hr _ _ _ 2 Es), !(item_byte _ _ Hr _ _ _ 3 Es) by lia.
  destruct (decide (6 <= Zlen x)); [by rewrite !(item_byte _ _ Hr _ _ _ 4 Es), !(item_byte _ _ Hr _ _ _ 5 Es) by lia|].
  destruct H2 as [H2|H2]; [lia|..]; rewrite (proj2 (Z.eqb_neq _ 0) H2); cbn [andb]; by rewrite ?andb_false_r.
Qed.
End Lookup.

Lemma length_serial_word n w : length (serial_word n w) = (2 * n)%nat.
Proof. revert w. induction n; intros; simpl; [done|]. rewrite IHn. lia. Qed.
Lemma Zlen_serial_string : Zlen serial_string = 66.
Proof. unfold Zlen, serial_string, usbd_control_get_serialno. cbn [length concat fmap list_fmap]. rewrite !length_app, !length_serial_word. done. Qed.
Lemma buf_peek c (l rest : list Z) i : Zlen (l ++ rest) = 256 -> 0 <= i < Zlen l ->
  peek (with_buf (l ++ rest) c) (uptr_add (context_ptr OFF_BUF) i) = Zget l i.
Proof.
  intros Hl Hi. pose proof (Zlen_nonneg rest). rewrite Zlen_app in Hl. unfold peek, context_byte. simpl. unfold OFF_BUF.
  bool_cases; try lia. rewrite <- (Zget_app_left l rest) by lia. f_equal. lia.
Qed.

(** C15: The host reads a descriptor of the device, the configuration or a string, however the
    data is cut into packets: it gets the descriptor up to the length it asked for, in
    full packets but for the last, and nothing more; for a string that is left blank it gets
    the serial number of the chip.  This is for answers the host sees the end of: those of the
    length it asked for and those whose last packet is short.  A shorter answer of whole packets
    has to be closed with an empty packet, as a comment in usbd_control.c says, which the code
    never sends ([datain_sends_no_zlp]).  A descriptor that does not exist is left to the class
    handler, or stalled. *)
Theorem get_descriptor_answers d fuel h r u `{!QuietHandler h} : device_holds d -> 0 < max -> usbd_wf (ctx u) ->
  rq_type r = 128 -> rq_request r = GET_DESCRIPTOR -> 0 <= rq_length r < 2 ^ 16 -> rq_value1 r <> DESCRIPTOR_TYPE_QUALIFIER ->
  match descriptor d (rq_value1 r) (rq_value0 r) with
  | Some data => (Zlen data < rq_length r -> Zlen data mod max <> 0) ->
      answers fuel h r (take (Z.to_nat (rq_length r)) data) u
  | None => usbd_control_handler fuel h (setup_bytes r) 0 setup_event u
            = Some (class_or_stall h setup_event (mk_usb (received r (ctx u)) (acts u ++ [ReadEndpoint 0])))
  end.
Proof.
  intros Hd Hm Hw Ht Hr Hl Hq. set (u0 := mk_usb (received r (ctx u)) (acts u ++ [ReadEndpoint 0])).
  assert (Eh : usbd_standard_request_handle_setup fuel u0
    = Some (finish usbd_control_datain_stage (usbd_standard_request_get_descriptor u0))).
  { unfold usbd_standard_request_handle_setup. change (bRequest (ctx u0)) with (rq_request r). by rewrite Hr. }
  assert (Ex : usbd_standard_request_get_descriptor u0 = (u0, false) ->
    usbd_control_handler fuel h (setup_bytes r) 0 setup_event u = Some (class_or_stall h setup_event u0)).
  { intros E. unfold usbd_control_handler. cbn [setup_event ev_setup]. rewrite setup_stage by done. simpl mbind. fold u0.
    rewrite Eh, E. done. }
  assert (Ea : forall p data u1, 0 <= Zlen data < 2 ^ 16 -> data_safe p ->
    usbd_standard_request_get_descriptor u0 = descriptor_found p (Zlen data) u1 ->
    acts u1 = acts u ++ [ReadEndpoint 0] -> setup_packet (ctx u1) = setup_bytes r -> nbyte (ctx u1) = rq_length r ->
    (forall i, 0 <= i < Zlen data -> peek (ctx u1) (uptr_add p i) = Zget data i) ->
    (Zlen data < rq_length r -> Zlen data mod max <> 0) -> answers fuel h r (take (Z.to_nat (rq_length r)) data) u).
  { intros p data u1 Hz Hs E ? ? ? ? _. assert (Hdir : Z.shiftr (rq_type r) 7 = 1) by (by rewrite Ht).
    apply (found_answers fuel h r u u1 p data); try done; [apply Hz|]. fold u0. rewrite Eh, E. done. }
  assert (Eg : usbd_standard_request_get_descriptor u0 = usbd_standard_request_get_descriptor u0) by done.
  unfold usbd_standard_request_get_descriptor at 2 in Eg. change (wValue1 (ctx u0)) with (rq_value1 r) in Eg. change (wValue0 (ctx u0)) with (rq_value0 r) in Eg.
  assert (Ec : recipient (ctx u0) = 0) by (unfold recipient; change (setup_byte (ctx u0) 0) with (rq_type r); by rewrite Ht).
  rewrite Ec in Eg. change (0 =? RECIPIENT_DEVICE) with true in Eg. cbv iota in Eg. clear Ec.
  unfold descriptor. destruct (rq_value1 r =? DESCRIPTOR_TYPE_DEVICE); [|destruct (rq_value1 r =? DESCRIPTOR_TYPE_CONFIGURATION);
    [|destruct (rq_value1 r =? DESCRIPTOR_TYPE_STRING); [destruct (rq_value0 r =? 238)|]]].
  - destruct (dh_device d Hd) as [Hh Hlen]. eapply (Ea (mk_uptr Rdevice 0) (d_device d) u0); [by rewrite Hlen|by left|by rewrite Hlen|done..|].
    intros i Hi. unfold peek. simpl. rewrite Hh by done. done.
  - pose proof (config_at d Hd (rq_value0 r)) as Hc. cbv zeta in Hc. set (o := skip_configurations _ 0) in *. clearbody o.
    destruct (d_configs d !! _) as [x|]; [|by rewrite Hc in Eg; apply Ex].
    destruct Hc as (Hc0 & Hc1 & (_ & Hc2 & _) & Hc3). rewrite (proj2 (Z.eqb_neq _ _) Hc0), Hc1 in Eg.
    eapply (Ea (mk_uptr Rconfig o) x u0); [lia|by left|exact Eg|done..].
  - by apply Ex.
  - pose proof (string_at d Hd (rq_value0 r)) as Hc. cbv zeta in Hc. set (o := skip_strings _ 0) in *. clearbody o.
    destruct (d_strings d !! _) as [x|]; simpl; [|by rewrite Hc in Eg; apply Ex].
    destruct Hc as (Hc1 & (_ & Hc2 & _) & Hc4 & Hc3). rewrite Hc1, Hc4, (proj2 (Z.eqb_neq (Zlen x) 0)) in Eg by lia.
    destruct (blank x); [|eapply (Ea (mk_uptr Rstring o) x u0); [lia|by left|exact Eg|done..]].
    cbv zeta in Eg. fold serial_string in Eg. eapply (Ea (context_ptr OFF_BUF) serial_string);
      [rewrite Zlen_serial_string; lia|by right|rewrite Zlen_serial_string; exact Eg|done..|].
    intros i Hi. cbn [on_ctx ctx]. apply buf_peek; [|done]. pose proof (uw_buf _ Hw) as Hbuf. pose proof Zlen_serial_string.
    unfold USBD_CONTROL_DATAOUT_BUF_SIZE, Zlen in *. rewrite length_app, length_drop. simpl buf. lia.
  - apply Ex. rewrite Eg. rewrite (proj2 (Z.eqb_neq _ _) Hq). done.
Qed.

(** ** Configurations *)

(** A configuration is its header and the descriptors behind it. *)
Definition type_of (y : list Z) : Z := Zget y 1.
Record descriptor_wf (y : list Z) : Prop := {
  dw_length : Zget y 0 = Zlen y;
  dw_nonzero : 2 <= Zlen y;
  dw_interface : type_of y = DESCRIPTOR_TYPE_INTERFACE -> 4 <= Zlen y;
  dw_endpoint : type_of y = DESCRIPTOR_TYPE_ENDPOINT -> 6 <= Zlen y }.
Record configuration := mk_configuration { cfg_header : list Z; cfg_body : list (list Z) }.
Definition cfg_descriptors (g : configuration) : list (list Z) := cfg_header g :: cfg_body g.
Definition cfg_value (g : configuration) : Z := Zget (cfg_header g) 5.
Record configuration_wf (g : configuration) : Prop := {
  gw_header : descriptor_wf (cfg_header g) /\ type_of (cfg_header g) = DESCRIPTOR_TYPE_CONFIGURATION /\ 8 <= Zlen (cfg_header g);
  gw_total : Zget (cfg_header g) 2 + 256 * Zget (cfg_header g) 3 = Zlen (concat (cfg_descriptors g));
  gw_body : Forall (fun y => descriptor_wf y /\ type_of y <> DESCRIPTOR_TYPE_CONFIGURATION) (cfg_body g) }.

(** The endpoints of the interfaces' default settings. *)
Fixpoint default_endpoints (alt : Z) (ds : list (list Z)) : list (list Z) :=
  match ds with
  | [] => []
  | y :: ds =>
      if type_of y =? DESCRIPTOR_TYPE_INTERFACE then default_endpoints (Zget y 3) ds
      else if type_of y =? DESCRIPTOR_TYPE_ENDPOINT then (if alt =? 0 then [y] else []) ++ default_endpoints alt ds
      else default_endpoints alt ds
  end.
Definition endpoint_address (y : list Z) : Z := Z.land (Zget y 2) USBD_EP_MASK.
(** What the driver is asked for an endpoint. *)
Definition endpoint_actions (y : list Z) : list usb_action :=
  [SetAttributes USB_FLAG_CONFIGURE_ENDPOINT (Some (Zget y 2)) (Some (Zget y 4 + 256 * Zget y 5, Zget y 3));
   SetAttributes USB_FLAG_ENABLE_ENDPOINT (Some (endpoint_address y)) None;
   SetAttributes USB_FLAG_RESET_ENDPOINT (Some (endpoint_address y)) None].
Definition endpoints_mask (ys : list (list Z)) (m : Z) : Z := foldl (fun m y => Bits.set m (usb_dev_decode_ep (endpoint_address y))) m ys.
Definition endpoint_disabled (m i : Z) : list usb_action :=
  (if Bits.any m (Z.shiftl 1 i) then [SetAttributes USB_FLAG_DISABLE_ENDPOINT (Some i) None] else []) ++
  (if Bits.any m (Z.shiftl (Z.shiftl 1 logical_endpoint_count) i)
   then [SetAttributes USB_FLAG_DISABLE_ENDPOINT (Some (Z.lor i USBD_ENDPOINT_ADDRESS_IN)) None] else []).
Definition endpoints_disabled (m : Z) : list usb_action := concat (endpoint_disabled m <$> seqZ 1 (logical_endpoint_count - 1)).

Lemma disable_endpoints_eq u : disable_endpoints u = mk_usb (ctx u) (acts u ++ endpoints_disabled (ep_mask (ctx u))).
Proof.
  unfold disable_endpoints, endpoints_disabled, for_range. generalize (seqZ 1 (logical_endpoint_count - 1)) as l. intros l. revert u.
  induction l as [|i l IH]; intros u; simpl; [rewrite app_nil_r; by destruct u|]. rewrite IH.
  assert (E : disable_turn i u = mk_usb (ctx u) (acts u ++ endpoint_disabled (ep_mask (ctx u)) i)).
  { destruct u as [c a]. unfold disable_turn, endpoint_disabled, usbd_control_disable_endpoint, set_attributes, act. simpl.
    destruct (Bits.any _ (Z.shiftl 1 i)); simpl; destruct (Bits.any _ (Z.shiftl (Z.shiftl 1 _) i)); simpl;
      by rewrite ?app_nil_r, <- ?app_assoc. }
  rewrite E. simpl. by rewrite <- app_assoc.
Qed.

(** What selecting a configuration leaves, before its endpoints are enabled. *)
Definition selected (g : configuration) (c : usbd_control_t) : usbd_control_t :=
  with_status (if Bits.any (Zget (cfg_header g) 7) ATTRIBUTES_POWERED_MASK then Bits.set (status c) STATUS_SELF_POWERED
               else Bits.clear (status c) STATUS_SELF_POWERED)
    (with_ep 65537 0 0 (with_alt_setting (replicate (Z.to_nat USBD_ALT_SETTING_SIZE) 0)
       (with_configuration (cfg_value g) (Zget (cfg_header g) 4) c))).
Definition endpoints_enabled (ys : list (list Z)) (u : usb) : usb :=
  mk_usb (with_ep (endpoints_mask ys (ep_mask (ctx u))) (ep_halt (ctx u)) (ep_stall (ctx u)) (ctx u))
    (acts u ++ concat (endpoint_actions <$> ys)).
Lemma endpoints_enabled_nil u : endpoints_enabled [] u = u.
Proof. destruct u as [[] a]. unfold endpoints_enabled. simpl. by rewrite app_nil_r. Qed.
Lemma endpoints_enabled_app xs ys u : endpoints_enabled ys (endpoints_enabled xs u) = endpoints_enabled (xs ++ ys) u.
Proof.
  unfold endpoints_enabled, endpoints_mask. simpl. rewrite fmap_app, concat_app, foldl_app, app_assoc. done.
Qed.

Section Walk.
Context (cfgs : list configuration) (Hw : Forall configuration_wf cfgs).
Local Abbreviation ds := (concat (cfg_descriptors <$> cfgs)).
Context (Hr : region_holds Rconfig (concat ds ++ [0])).
Local Abbreviation off pre := (Zlen (concat pre)).

Lemma desc_byte pre y post i : ds = pre ++ y :: post -> 0 <= i < Zlen y -> config_byte (off pre + i) = Zget y i.
Proof using Hr. intros E Hi. exact (item_byte _ _ Hr pre y post i E Hi). Qed.
Lemma desc_length_at pre y post : ds = pre ++ y :: post -> descriptor_wf y -> desc_length (off pre) = Zlen y.
Proof using Hr.
  intros E [H0 H1 _ _]. unfold desc_length. rewrite <- (Z.add_0_r (Zlen _)), (desc_byte pre y post) by (done || lia). done.
Qed.
Lemma off_snoc (pre : list (list Z)) y : off (pre ++ [y]) = off pre + Zlen y.
Proof. rewrite concat_app, Zlen_app. simpl. by rewrite app_nil_r. Qed.

(** A configuration with another value is stepped over. *)
Lemma walk_skips v fuel alt u : forall skip pre post, cfgs = pre ++ skip ++ post -> Forall (fun g => cfg_value g <> v) skip ->
  set_config_walk (length skip + fuel) v (off (concat (cfg_descriptors <$> pre))) alt u
  = set_config_walk fuel v (off (concat (cfg_descriptors <$> (pre ++ skip)))) alt u.
Proof using Hr Hw.
  induction skip as [|g skip IH]; intros pre post E Hv; [by rewrite app_nil_r|].
  apply Forall_cons in Hv as [Hg Hvs]. simpl.
  assert (Hgw : configuration_wf g) by (rewrite Forall_forall in Hw; apply Hw; set_solver).
  destruct Hgw as [[Hd [Ht Hl]] Htot Hb].
  assert (Ed : ds = concat (cfg_descriptors <$> pre) ++ cfg_header g :: (cfg_body g ++ concat (cfg_descriptors <$> (skip ++ post)))).
  { rewrite E, fmap_app, concat_app. done. }
  rewrite (desc_length_at _ _ _ Ed Hd). rewrite (proj2 (Z.eqb_neq (Zlen (cfg_header g)) 0)) by lia.
  unfold desc_type. rewrite (desc_byte _ _ _ 1 Ed), (desc_byte _ _ _ 5 Ed) by lia. fold (type_of (cfg_header g)). rewrite Ht.
  change (DESCRIPTOR_TYPE_CONFIGURATION =? DESCRIPTOR_TYPE_CONFIGURATION) with true. cbv iota.
  fold (cfg_value g). rewrite (proj2 (Z.eqb_neq _ _) Hg).
  unfold total_length, config_word. rewrite <- Z.add_assoc, (desc_byte _ _ _ 2 Ed), (desc_byte _ _ _ (2 + 1) Ed) by lia.
  change (2 + 1) with 3. rewrite Htot.
  rewrite <- Zlen_app, <- concat_app.
  replace (concat (cfg_descriptors <$> pre) ++ cfg_descriptors g) with (concat (cfg_descriptors <$> (pre ++ [g])))
    by (rewrite fmap_app, concat_app; simpl; by rewrite app_nil_r).
  rewrite (IH (pre ++ [g]) post); [by rewrite <- app_assoc|by rewrite <- app_assoc|done].
Qed.

(** The setting in force behind some descriptors. *)
Definition last_alt (alt : Z) (ys : list (list Z)) : Z :=
  foldl (fun a y => if type_of y =? DESCRIPTOR_TYPE_INTERFACE then Zget y 3 else a) alt ys.
Lemma enable_endpoint_eq pre y post u : ds = pre ++ y :: post -> 6 <= Zlen y -> enable_endpoint_at (off pre) u = endpoints_enabled [y] u.
Proof using Hr.
  intros E Hl. unfold enable_endpoint_at, usbd_control_configure_endpoint, config_word. rewrite <- Z.add_assoc, !(desc_byte _ _ _ _ E) by lia.
  fold (endpoint_address y). unfold endpoints_enabled, usbd_control_reset_endpoint, usbd_control_enable_endpoint, set_attributes, act, on_ctx.
  simpl. rewrite <- !app_assoc. done.
Qed.
Lemma walk_body v fuel : forall ys pre post alt u, ds = pre ++ ys ++ post ->
  Forall (fun y => descriptor_wf y /\ type_of y <> DESCRIPTOR_TYPE_CONFIGURATION) ys ->
  set_config_walk (length ys + fuel) v (off pre) alt u
  = set_config_walk fuel v (off (pre ++ ys)) (last_alt alt ys) (endpoints_enabled (default_endpoints alt ys) u).
Proof using Hr.
  induction ys as [|y ys IH]; intros pre post alt u E Hy; [by rewrite app_nil_r, endpoints_enabled_nil|].
  apply Forall_cons in Hy as [[Hd Ht] Hys]. simpl. pose proof (dw_nonzero y Hd).
  rewrite (desc_length_at _ _ _ E Hd). rewrite (proj2 (Z.eqb_neq (Zlen y) 0)) by lia.
  unfold desc_type. rewrite (desc_byte _ _ _ 1 E) by lia. fold (type_of y). rewrite (proj2 (Z.eqb_neq _ _) Ht).
  rewrite <- off_snoc. replace (pre ++ y :: ys) with ((pre ++ [y]) ++ ys) by (by rewrite <- app_assoc).
  assert (E' : ds = (pre ++ [y]) ++ ys ++ post) by (by rewrite <- app_assoc).
  unfold last_alt. simpl. fold (last_alt (if type_of y =? DESCRIPTOR_TYPE_INTERFACE then Zget y 3 else alt) ys).
  destruct (Z.eqb_spec (type_of y) DESCRIPTOR_TYPE_INTERFACE) as [Hi|Hi].
  - pose proof (dw_interface y Hd Hi). rewrite (desc_byte _ _ _ 3 E) by lia. exact (IH _ _ _ _ E' Hys).
  - destruct (Z.eqb_spec (type_of y) DESCRIPTOR_TYPE_ENDPOINT) as [He|He]; [|exact (IH _ _ _ _ E' Hys)].
    pose proof (dw_endpoint y Hd He). rewrite (IH _ _ _ _ E' Hys). destruct (alt =? 0); [|done].
    rewrite (enable_endpoint_eq _ _ _ _ E) by lia. by rewrite endpoints_enabled_app.
Qed.
Lemma select_eq pre g rest u : ds = pre ++ cfg_header g :: rest -> 8 <= Zlen (cfg_header g) ->
  select_configuration (cfg_value g) (off pre) u
  = mk_usb (selected g (ctx u)) (acts u ++ endpoints_disabled (ep_mask (ctx u)) ++ [SetAttributes USB_FLAG_CONFIGURE None None]).
Proof using Hr.
  intros E Hl. unfold select_configuration. rewrite !(desc_byte _ _ _ _ E) by lia. rewrite disable_endpoints_eq.
  unfold selected, usbd_control_configure, set_attributes, act, usbd_control_init_ep, on_ctx. simpl. by rewrite app_assoc.
Qed.
End Walk.

(** The configurations of the device as its constants hold them. *)
Record configurations_hold (cfgs : list configuration) : Prop := {
  ch_wf : Forall configuration_wf cfgs;
  ch_image : region_holds Rconfig (concat (concat (cfg_descriptors <$> cfgs)) ++ [0]) }.
Definition descriptor_count (cfgs : list configuration) : nat := length (concat (cfg_descriptors <$> cfgs)).
Lemma count_configurations cfgs : (length cfgs <= descriptor_count cfgs)%nat.
Proof. unfold descriptor_count. induction cfgs as [|g l IH]; csimpl; [lia|]. rewrite length_app. lia. Qed.
Lemma descriptor_count_app l1 l2 : descriptor_count (l1 ++ l2) = (descriptor_count l1 + descriptor_count l2)%nat.
Proof. unfold descriptor_count. by rewrite fmap_app, concat_app, length_app. Qed.

Section Select.
Context (cfgs : list configuration) (Hc : configurations_hold cfgs).
Let Hr := ch_image cfgs Hc.
Let Hw := ch_wf cfgs Hc.
Lemma walk_end v k alt u : set_config_walk (S k) v (Zlen (concat (concat (cfg_descriptors <$> cfgs)))) alt u = Some u.
Proof using Hc. simpl. unfold desc_length, config_byte. by rewrite (items_end _ _ Hr). Qed.
Lemma walk_none v fuel u : (descriptor_count cfgs < fuel)%nat -> Forall (fun g => cfg_value g <> v) cfgs ->
  set_config_walk fuel v 0 0 u = Some u.
Proof using Hc.
  intros Hf Hv. pose proof (count_configurations cfgs). replace fuel with (length cfgs + S (fuel - length cfgs - 1))%nat by lia.
  change 0 with (Zlen (concat (concat (cfg_descriptors <$> (@nil configuration))))) at 1.
  rewrite (walk_skips cfgs Hw Hr v _ 0 u cfgs [] []); [apply walk_end|by rewrite app_nil_r|done].
Qed.
Lemma walk_selects pre g post fuel u : cfgs = pre ++ g :: post -> Forall (fun g' => cfg_value g' <> cfg_value g) (pre ++ post) ->
  (descriptor_count cfgs < fuel)%nat ->
  set_config_walk fuel (cfg_value g) 0 0 u
  = Some (endpoints_enabled (default_endpoints 0 (cfg_body g)) (mk_usb (selected g (ctx u))
      (acts u ++ endpoints_disabled (ep_mask (ctx u)) ++ [SetAttributes USB_FLAG_CONFIGURE None None]))).
Proof using Hc.
  intros E Hv Hf. apply Forall_app in Hv as [Hv1 Hv2].
  assert (Hg : configuration_wf g) by (pose proof Hw as Hw'; rewrite Forall_forall in Hw'; apply Hw'; rewrite E; set_solver).
  destruct Hg as [(Hd & Ht & Hl) _ Hb]. set (v := cfg_value g) in *.
  pose proof (count_configurations pre). pose proof (count_configurations post).
  assert (Hf' : (length pre + (1 + (length (cfg_body g) + (length post + 1))) <= fuel)%nat).
  { rewrite E, (descriptor_count_app pre (g :: post)) in Hf. unfold descriptor_count at 2 in Hf. csimpl in Hf.
    rewrite length_app in Hf. fold (descriptor_count post) in Hf. lia. }
  replace fuel with (length pre + S (length (cfg_body g) + (length post + S (fuel - (length pre + (1 + (length (cfg_body g) + (length post + 1))))))))%nat by lia.
  change 0 with (Zlen (concat (concat (cfg_descriptors <$> (@nil configuration))))) at 1.
  rewrite (walk_skips cfgs Hw Hr v _ 0 u pre [] (g :: post)) by done. cbn [app].
  set (P := concat (cfg_descriptors <$> pre)).
  assert (Ed : concat (cfg_descriptors <$> cfgs) = P ++ cfg_header g :: (cfg_body g ++ concat (cfg_descriptors <$> post))).
  { rewrite E, fmap_app, concat_app. done. }
  cbn [set_config_walk]. rewrite (desc_length_at cfgs Hr _ _ _ Ed Hd), (proj2 (Z.eqb_neq (Zlen (cfg_header g)) 0)) by lia.
  unfold desc_type. rewrite (desc_byte cfgs Hr _ _ _ 1 Ed), (desc_byte cfgs Hr _ _ _ 5 Ed) by lia. fold (type_of (cfg_header g)). rewrite Ht.
  change (DESCRIPTOR_TYPE_CONFIGURATION =? DESCRIPTOR_TYPE_CONFIGURATION) with true. cbv iota. fold (cfg_value g). fold v.
  rewrite Z.eqb_refl. unfold v. rewrite (select_eq cfgs Hr _ _ _ _ Ed Hl), <- off_snoc. fold v.
  rewrite (walk_body cfgs Hr v _ (cfg_body g) (P ++ [cfg_header g]) (concat (cfg_descriptors <$> post))) by (try done; by rewrite <- app_assoc).
  replace ((P ++ [cfg_header g]) ++ cfg_body g) with (concat (cfg_descriptors <$> (pre ++ [g])))
    by (rewrite fmap_app, concat_app; simpl; rewrite app_nil_r, <- app_assoc; done).
  rewrite (walk_skips cfgs Hw Hr v _ _ _ post (pre ++ [g]) []) by (try done; rewrite E, <- app_assoc, app_nil_r; done).
  replace ((pre ++ [g]) ++ post) with cfgs by (rewrite E, <- app_assoc; done). apply walk_end.
Qed.
End Select.

Lemma set_configuration_request fuel h r u : usbd_wf (ctx u) -> rq_type r = 0 -> rq_request r = SET_CONFIGURATION -> rq_value0 r <> 0 ->
  let u0 := mk_usb (received r (ctx u)) (acts u ++ [ReadEndpoint 0]) in
  usbd_control_handler fuel h (setup_bytes r) 0 setup_event u
  = (u1 ← set_config_walk fuel (rq_value0 r) 0 0 u0;
     Some (if current_configuration (ctx u1) =? rq_value0 r then usbd_control_statusin_stage u1 else class_or_stall h setup_event u1)).
Proof.
  intros Hw Ht Hr Hv0 u0. unfold usbd_control_handler. cbn [setup_event ev_setup]. rewrite setup_stage by done. simpl mbind. fold u0.
  unfold usbd_standard_request_handle_setup. change (bRequest (ctx u0)) with (rq_request r). rewrite Hr.
  change (SET_CONFIGURATION =? _) with false at 1 2 3 4 5 6. cbv iota. change (SET_CONFIGURATION =? SET_CONFIGURATION) with true. cbv iota.
  unfold usbd_standard_request_set_config. change (wValue0 (ctx u0)) with (rq_value0 r).
  change (recipient (ctx u0)) with (Z.land (rq_type r) 31). rewrite Ht. change (Z.land 0 31 =? RECIPIENT_DEVICE) with true. cbv iota.
  rewrite (proj2 (Z.eqb_neq _ _) Hv0). cbn [negb]. destruct (set_config_walk _ _ _ _ _) as [u1|]; [|done]. simpl.
  by destruct (_ =? _).
Qed.

Lemma endpoints_disabled_none : endpoints_disabled 0 = [].
Proof.
  unfold endpoints_disabled. induction (seqZ 1 (logical_endpoint_count - 1)) as [|i l IH]; [done|].
  csimpl. rewrite IH. done.
Qed.
(** C16: SET_CONFIGURATION with the value of a configuration of the device, on a device with no endpoint in
    use (the first configuration after the start; that a later one disables the endpoints in use does
    not hold: [reconfiguration_disables_another_endpoint]): the configuration becomes the current one with
    its number of interfaces, power source and default settings, no endpoint halted; the endpoints of the
    default settings of its interfaces, and no others, are configured, enabled and reset, in the order of
    the descriptors, and entered in the mask of the endpoints in use with the bits [usb_dev_decode_ep]
    gives (not one bit per endpoint: [endpoint_masks_alias]); no endpoint is disabled; the host gets the
    empty status packet.  The walk over the descriptors ends. *)
Theorem set_configuration_selects cfgs pre g post fuel h r u : configurations_hold cfgs ->
  cfgs = pre ++ g :: post -> Forall (fun g' => cfg_value g' <> cfg_value g) (pre ++ post) -> cfg_value g <> 0 ->
  usbd_wf (ctx u) -> ep_mask (ctx u) = 0 -> rq_type r = 0 -> rq_request r = SET_CONFIGURATION -> rq_value0 r = cfg_value g ->
  (descriptor_count cfgs < fuel)%nat ->
  let eps := default_endpoints 0 (cfg_body g) in
  usbd_control_handler fuel h (setup_bytes r) 0 setup_event u
  = Some (mk_usb (with_ep (endpoints_mask eps 65537) 0 0 (selected g (received r (ctx u))))
      (acts u ++ [ReadEndpoint 0; SetAttributes USB_FLAG_CONFIGURE None None]
       ++ concat (endpoint_actions <$> eps) ++ [WriteEndpoint 128 []])).
Proof.
  intros Hc E Hv Hv0 Hw He Ht Hr Hx Hf eps. rewrite set_configuration_request by (done || by rewrite Hx).
  rewrite Hx, (walk_selects cfgs Hc pre g post fuel _ E Hv Hf). simpl mbind.
  cbn [endpoints_enabled ctx current_configuration with_ep selected with_status with_alt_setting with_configuration].
  rewrite Z.eqb_refl. unfold usbd_control_statusin_stage, act, endpoints_enabled. simpl. rewrite He, endpoints_disabled_none.
  do 2 f_equal. rewrite <- !app_assoc. done.
Qed.
(** A value no configuration has: the request is left to the class handler, or stalled, and
    the configuration in force stays. *)
Theorem set_configuration_unknown cfgs fuel h r u : configurations_hold cfgs ->
  Forall (fun g => cfg_value g <> rq_value0 r) cfgs -> rq_value0 r <> 0 -> current_configuration (ctx u) <> rq_value0 r ->
  usbd_wf (ctx u) -> rq_type r = 0 -> rq_request r = SET_CONFIGURATION -> (descriptor_count cfgs < fuel)%nat ->
  usbd_control_handler fuel h (setup_bytes r) 0 setup_event u
  = Some (class_or_stall h setup_event (mk_usb (received r (ctx u)) (acts u ++ [ReadEndpoint 0]))).
Proof.
  intros Hc Hv Hv0 Hcur Hw Ht Hr Hf. rewrite set_configuration_request by done. rewrite (walk_none cfgs Hc) by done. simpl mbind.
  cbn [ctx]. change (current_configuration (received r (ctx u))) with (current_configuration (ctx u)). by rewrite (proj2 (Z.eqb_neq _ _) Hcur).
Qed.

(** ** Data from the host *)

Definition spliced (k : Z) (l b : list Z) : list Z := take (Z.to_nat k) b ++ l ++ drop (Z.to_nat k + length l) b.
Lemma Zlen_spliced k l b : 0 <= k -> k + Zlen l <= Zlen b -> Zlen (spliced k l b) = Zlen b.
Proof. unfold Zlen, spliced. intros. rewrite !length_app, length_take, length_drop. lia. Qed.
Lemma spliced_nil k b : spliced k [] b = b.
Proof. unfold spliced. simpl. rewrite Nat.add_0_r. apply take_drop. Qed.
Lemma spliced_app k l1 l2 b : 0 <= k -> k + Zlen l1 <= Zlen b -> spliced (k + Zlen l1) l2 (spliced k l1 b) = spliced k (l1 ++ l2) b.
Proof.
  intros Hk Hl. unfold spliced at 1 3. unfold Zlen in *.
  assert (Et : take (Z.to_nat (k + Z.of_nat (length l1))) (spliced k l1 b) = take (Z.to_nat k) b ++ l1).
  { unfold spliced. rewrite app_assoc, take_app_length'; [done|]. rewrite length_app, length_take. lia. }
  assert (Ed : drop (Z.to_nat (k + Z.of_nat (length l1)) + length l2) (spliced k l1 b) = drop (Z.to_nat k + length (l1 ++ l2)) b).
  { unfold spliced. rewrite app_assoc, drop_app_ge by (rewrite length_app, length_take; lia).
    rewrite drop_drop, !length_app, length_take. f_equal. lia. }
  rewrite Et, Ed, <- !app_assoc. done.
Qed.
Lemma with_buf_buf c : with_buf (buf c) c = c.
Proof. by destruct c. Qed.
Lemma pokes_buf l : forall k c, 0 <= k -> k + Zlen l <= Zlen (buf c) -> Zlen (buf c) = USBD_CONTROL_DATAOUT_BUF_SIZE ->
  pokes (context_ptr (OFF_BUF + k)) l c = Some (with_buf (spliced k l (buf c)) c).
Proof.
  induction l as [|x l IH]; intros k c Hk Hl Hb; [by rewrite spliced_nil, with_buf_buf|]. rewrite Zlen_cons in Hl.
  unfold USBD_CONTROL_DATAOUT_BUF_SIZE in *. cbn [pokes context_ptr p_region p_offset]. rewrite decide_True by done. pose proof (Zlen_nonneg l).
  assert (Ep : context_poke (OFF_BUF + k) x c = Some (with_buf (Zset (buf c) k x) c)).
  { unfold context_poke, OFF_BUF. bool_cases; try lia. do 3 f_equal. lia. }
  rewrite Ep. simpl mbind.
  replace (uptr_add (context_ptr (OFF_BUF + k)) 1) with (context_ptr (OFF_BUF + (k + 1)))
    by (unfold uptr_add, context_ptr; cbn [p_region p_offset]; f_equal; lia).
  rewrite (IH (k + 1)); cbn [buf with_buf]; rewrite ?Zlen_Zset; try lia.
  assert (Es : Zset (buf c) k x = spliced k [x] (buf c)).
  { unfold Zset, spliced. rewrite (proj2 (Z.ltb_ge k 0)) by lia. unfold Zlen in *. rewrite insert_take_drop by lia.
    f_equal. simpl. do 2 f_equal. lia. }
  rewrite Es. change 1 with (Zlen [x]). rewrite spliced_app; [done|lia|]. change (Zlen [x]) with 1. lia.
Qed.

(** The packets of a data stage, one event for each. *)
Fixpoint data_packets (fuel : nat) (h : class_handler) (ps : list (list Z)) (u : usb) : option usb :=
  match ps with
  | [] => Some u
  | l :: ps => u ← usbd_control_handler fuel h l 0 data_ready_event u; data_packets fuel h ps u
  end.
Lemma dataout_step k l u : 0 <= k -> dptr (ctx u) = context_ptr (OFF_BUF + k) -> Zlen l <= nbyte (ctx u) < 2 ^ 16 ->
  k + Zlen l <= Zlen (buf (ctx u)) -> Zlen (buf (ctx u)) = USBD_CONTROL_DATAOUT_BUF_SIZE ->
  usbd_control_dataout_stage l u
  = Some (mk_usb (with_data (context_ptr (OFF_BUF + (k + Zlen l))) (nbyte (ctx u) - Zlen l) (is_zlp (ctx u)) (with_buf (spliced k l (buf (ctx u))) (ctx u)))
            (acts u ++ [ReadEndpoint 0])).
Proof.
  intros Hk Hp Hn Hl Hb. unfold usbd_control_dataout_stage, read_endpoint. rewrite Hp, pokes_buf by done.
  pose proof (Zlen_nonneg l). simpl mbind. cbn [ctx act on_ctx acts nbyte with_buf dptr is_zlp].
  replace (if nbyte (ctx u) <? Zlen l then nbyte (ctx u) else Zlen l) with (Zlen l) by (bool_cases; lia).
  unfold on_ctx, act. cbn [ctx acts dptr nbyte is_zlp with_buf]. rewrite u16_id, Hp by lia. replace (uptr_add (context_ptr (OFF_BUF + k)) (Zlen l)) with (context_ptr (OFF_BUF + (k + Zlen l)))
    by (unfold uptr_add, context_ptr; cbn [p_region p_offset]; f_equal; lia). done.
Qed.
Lemma data_packets_run fuel h c0 out : 
  usbd_control_setup_request_direction c0 = HOST_TO_DEVICE -> usbd_control_setup_request_type c0 <> TYPE_STANDARD ->
  (forall u, setup_packet (ctx u) = setup_packet c0 -> execute_class_handler h data_ready_event u = (mk_usb (ctx u) (acts u ++ out), true)) ->
  forall ps k u, setup_packet (ctx u) = setup_packet c0 -> 0 <= k -> dptr (ctx u) = context_ptr (OFF_BUF + k) ->
  0 < nbyte (ctx u) < 2 ^ 16 -> nbyte (ctx u) = Zlen (concat ps) -> Forall (fun l => l <> []) ps ->
  k + nbyte (ctx u) <= Zlen (buf (ctx u)) -> Zlen (buf (ctx u)) = USBD_CONTROL_DATAOUT_BUF_SIZE ->
  exists u', data_packets fuel h ps u = Some u' /\ buf (ctx u') = spliced k (concat ps) (buf (ctx u)) /\ nbyte (ctx u') = 0 /\
    acts u' = acts u ++ replicate (length ps) (ReadEndpoint 0) ++ out.
Proof.
  intros Hd Ht Hh. induction ps as [|l ps IH]; intros k u Es Hk Hp Hn Hlen Hne Hfit Hb; [by simpl in Hlen; rewrite Zlen_nil in Hlen; lia|].
  apply Forall_cons in Hne as [Hl Hne]. cbn [concat] in *. rewrite Zlen_app in Hlen. pose proof (Zlen_nonneg (concat ps)).
  assert (Hl0 : 0 < Zlen l) by (destruct l; [done|rewrite Zlen_cons; pose proof (Zlen_nonneg l); lia]).
  cbn [data_packets]. unfold usbd_control_handler at 1. cbn [data_ready_event ev_setup ev_data_ready].
  unfold usbd_control_setup_request_direction, usbd_control_setup_request_type, setup_byte in *. rewrite Es, Hd.
  change (HOST_TO_DEVICE =? HOST_TO_DEVICE) with true. cbv iota. rewrite (proj2 (Z.eqb_neq (nbyte (ctx u)) 0)) by lia. cbn [negb].
  rewrite (dataout_step k l u) by lia || done. set (u1 := mk_usb _ _). simpl mbind. cbn [nbyte ctx with_data u1] in *. fold u1.
  assert (Es1 : setup_packet (ctx u1) = setup_packet c0) by done. rewrite Es.
  destruct (decide (ps = [])) as [->|Hps].
  - cbn [concat] in Hlen. rewrite Zlen_nil in Hlen. rewrite (proj2 (Z.eqb_eq _ 0)) by lia. rewrite (proj2 (Z.eqb_neq _ _) Ht).
    unfold class_or_stall. rewrite (Hh u1 Es1). eexists. split; [reflexivity|]. simpl. rewrite app_nil_r, <- app_assoc. split_and!; [done|lia|done].
  - assert (0 < Zlen (concat ps)).
    { destruct ps as [|q ps]; [done|]. apply Forall_cons in Hne as [Hq _]. simpl. rewrite Zlen_app. pose proof (Zlen_nonneg (concat ps)).
      destruct q; [done|rewrite Zlen_cons; pose proof (Zlen_nonneg q); lia]. }
    rewrite (proj2 (Z.eqb_neq _ 0)) by lia.
    destruct (IH (k + Zlen l) u1 Es1) as (u' & E & B & N & A); unfold u1; cbn [ctx with_data with_buf buf nbyte dptr]; try done; try lia;
      rewrite ?Zlen_spliced by lia; try lia.
    exists u'. split; [exact E|]. split_and!; [|done|].
    + rewrite B. unfold u1. cbn [ctx with_data with_buf buf]. apply spliced_app; lia.
    + rewrite A. unfold u1. cbn [acts length replicate]. rewrite <- !app_assoc. done.
Qed.

(** SET_LINE_CODING of the virtual serial port, with at most as many bytes as the buffer has: the
    packets of the host, however the data is cut, are put together at the start of the
    buffer, and the last one is answered with the empty status packet. *)
Theorem line_coding_received fuel vcp0 r ps u : usbd_wf (ctx u) -> rq_type r = 33 -> rq_request r = CDC_SET_LINE_CODING ->
  rq_index0 r = vcp0 \/ rq_index0 r = vcp0 + 1 -> 0 < rq_length r <= USBD_CONTROL_DATAOUT_BUF_SIZE ->
  Forall (fun l => l <> []) ps -> Zlen (concat ps) = rq_length r ->
  let h := Some (usbd_cdc_event_handler vcp0) in
  exists u', (u ← usbd_control_handler fuel h (setup_bytes r) 0 setup_event u; data_packets fuel h ps u) = Some u' /\
    buf (ctx u') = concat ps ++ drop (length (concat ps)) (buf (ctx u)) /\
    acts u' = acts u ++ ReadEndpoint 0 :: replicate (length ps) (ReadEndpoint 0) ++ [WriteEndpoint 128 []].
Proof.
  intros Hw Ht Hr Hi Hl Hne Hlen h. unfold USBD_CONTROL_DATAOUT_BUF_SIZE in *.
  set (c1 := with_data (context_ptr (OFF_BUF + 0)) (rq_length r) 0 (received r (ctx u))).
  assert (Ht5 : usbd_control_setup_request_type c1 = TYPE_CLASS) by (change (Z.land (Z.shiftr (rq_type r) 5) 3 = 1); by rewrite Ht).
  assert (Hi0 : (rq_index0 r =? vcp0) || (rq_index0 r =? vcp0 + 1) = true).
  { apply orb_true_iff. rewrite !Z.eqb_eq. done. }
  assert (Hs : usbd_control_handler fuel h (setup_bytes r) 0 setup_event u = Some (mk_usb c1 (acts u ++ [ReadEndpoint 0]))).
  { unfold usbd_control_handler. cbn [setup_event ev_setup]. rewrite setup_stage by done. simpl mbind.
    unfold usbd_standard_request_handle_setup. change (bRequest _) with (rq_request r). rewrite Hr. simpl.
    unfold class_or_stall. simpl. unfold usbd_cdc_event_handler. change (usbd_control_setup_request_type _) with (usbd_control_setup_request_type c1).
    rewrite Ht5. change (TYPE_CLASS =? TYPE_CLASS) with true. cbv iota. unfold cdc_event_handler. change (wIndex0 _) with (rq_index0 r).
    rewrite Hi0. change (bRequest _) with (rq_request r). rewrite Hr. simpl. unfold on_ctx. cbn [ctx acts]. do 2 f_equal.
    unfold wLength, setup_byte. cbn [received with_data with_setup_packet setup_packet is_zlp].
    change (Zget (setup_bytes r) 6) with (rq_length r mod 256). change (Zget (setup_bytes r) 7) with (rq_length r / 256).
    replace (rq_length r mod 256 + 256 * (rq_length r / 256)) with (rq_length r) by (pose proof (Z.div_mod (rq_length r) 256); lia). done. }
  rewrite Hs. simpl mbind.
  destruct (data_packets_run fuel h c1 [WriteEndpoint 128 []]) with (ps := ps) (k := 0) (u := mk_usb c1 (acts u ++ [ReadEndpoint 0]))
    as (u' & E & B & _ & A); try done; cbn [ctx c1 with_data nbyte received with_setup_packet buf]; rewrite ?(uw_buf _ Hw); unfold USBD_CONTROL_DATAOUT_BUF_SIZE; try lia.
  - change (Z.shiftr (rq_type r) 7 = HOST_TO_DEVICE). by rewrite Ht.
  - by rewrite Ht5.
  - intros u1 Es. unfold h. cbn [execute_class_handler]. unfold usbd_cdc_event_handler, usbd_control_setup_request_type, setup_byte in *. rewrite Es.
    cbv [TYPE_CLASS] in Ht5. rewrite Ht5. change (1 =? TYPE_CLASS) with true. cbv iota. unfold cdc_event_handler, wIndex0, bRequest, setup_byte. rewrite Es.
    change (Zget (setup_packet c1) 4) with (rq_index0 r). change (Zget (setup_packet c1) 1) with (rq_request r). rewrite Hi0, Hr. done.
  - exists u'. split; [exact E|]. rewrite B, A. cbn [acts]. rewrite <- app_assoc. done.
Qed.

(** ** Behaviours the code does not mean to have *)

(** A stage never sends an empty packet, although the code sets up for it: data whose length
    is a multiple of the packet size, shorter than the host asked for, has no end mark. *)
Theorem datain_sends_no_zlp u : 0 < max -> 0 <= nbyte (ctx u) < 2 ^ 16 -> data_safe (dptr (ctx u)) ->
  acts (usbd_control_datain_stage u) = acts u \/
  exists l, l <> [] /\ acts (usbd_control_datain_stage u) = acts u ++ [WriteEndpoint 128 l].
Proof.
  intros Hm Hn Hs. destruct (decide (nbyte (ctx u) = 0)) as [E|E]; [left; by rewrite datain_none|].
  right. destruct (datain_some u Hm ltac:(lia) Hs) as (z & ->). eexists. split; [|done].
  intros H%(f_equal length). rewrite length_peeks in H. simpl in H. lia.
Qed.
(** GET_STATUS of the device answers with as many bytes of the memory behind the status as
    the host asks for, not with two. *)
Theorem get_status_overreads fuel h r u `{!QuietHandler h} : 0 < max -> usbd_wf (ctx u) -> rq_type r = 128 ->
  rq_request r = GET_STATUS -> 0 <= rq_length r < 2 ^ 16 ->
  answers fuel h r (peeks (received r (ctx u)) (context_ptr OFF_STATUS) (rq_length r)) u.
Proof.
  intros Hm Hw Ht Hr Hl. set (u0 := mk_usb (received r (ctx u)) (acts u ++ [ReadEndpoint 0])).
  set (u1 := on_ctx (with_dptr (context_ptr OFF_STATUS)) u0).
  assert (Ep : peeks (received r (ctx u)) (context_ptr OFF_STATUS) (rq_length r) = peeks (ctx u1) (dptr (ctx u1)) (nbyte (ctx u1))).
  { unfold u1, with_dptr. cbn [ctx on_ctx u0]. symmetry. apply peeks_with_data. right. simpl. unfold OFF_STATUS. lia. }
  rewrite Ep. apply answers_intro; try done; [by rewrite Ht| |right; simpl; unfold OFF_STATUS; lia].
  unfold usbd_standard_request_handle_setup. change (bRequest _) with (rq_request r). rewrite Hr. simpl. unfold usbd_standard_request_get_status.
  change (recipient _) with (Z.land (rq_type r) 31). rewrite Ht. done.
Qed.
End Streams.

(** ** The link device *)

Definition usb_string (chars : list Z) : list Z := (2 * Zlen chars + 2) :: DESCRIPTOR_TYPE_STRING :: concat ((fun ch => [ch; 0]) <$> chars).
Definition link_device_descriptor : list Z := [18; 1; 0; 2; 255; 0; 0; 64; 160; 32; 213; 65; 76; 0; 1; 2; 3; 1].
Definition link_configuration : configuration :=
  mk_configuration [9; 2; 32; 0; 1; 1; 2; 128; 250]
    [[9; 4; 0; 0; 2; 255; 80; 81; 4]; [7; 5; 2; 2; 64; 0; 1]; [7; 5; 130; 2; 64; 0; 1]].
Definition stratify_os : list Z := [83; 116; 114; 97; 116; 105; 102; 121; 32; 79; 83].
Definition link_strings : list (list Z) :=
  [[4; 3; 9; 4]; usb_string [83; 116; 114; 97; 116; 105; 102; 121; 32; 76; 97; 98; 115]; usb_string stratify_os;
   usb_string (replicate 16 0); usb_string stratify_os].
Definition link_bytes (r : region) : list Z :=
  match r with
  | Rdevice => link_device_descriptor
  | Rconfig => concat (cfg_descriptors link_configuration) ++ [0]
  | Rstring => concat link_strings ++ [0]
  | _ => []
  end.
(** A chip with 16 endpoints and packets of 64 bytes. *)
Definition link_usb : UsbDevice :=
  {| control_endpoint_max_size := 64; logical_endpoint_count := 16; ro_byte := fun r i => Zget (link_bytes r) i; has_qualifier := false;
     other_byte := fun _ => 0; serial_number := [1; 2; 3; 4] |}.
#[local] Existing Instance link_usb.
(** The context as [sos_link_transport_usb_open] clears it. *)
Definition usb_start : usb :=
  mk_usb (mk_usbd (replicate 8 0) (mk_uptr Rnull 0) 0 0 0 0 0 0 0 0 0 (replicate 256 0) (replicate 16 0)) [].
Definition link_descriptors : descriptors := mk_descriptors link_device_descriptor [concat (cfg_descriptors link_configuration)] link_strings.
Lemma usb_start_wf : usbd_wf (ctx usb_start).
Proof. by constructor. Qed.
Lemma link_configurations_hold : configurations_hold [link_configuration].
Proof.
  split; [|intros i _; done]. constructor; [|done]. split; [|done|repeat constructor; vm_compute; congruence].
  split; [|done]. split; vm_compute; congruence.
Qed.
Lemma link_device_holds : device_holds link_descriptors.
Proof.
  split; [split; [|done]; intros i _; done|intros i _; done|intros i _; done|repeat constructor; vm_compute; congruence|].
  repeat (apply Forall_cons; split); try done;
    (split; [done|]; split; [vm_compute; split; congruence|]; intros H; first [by vm_compute in H|left; vm_compute; congruence]).
Qed.

(** The mask of an endpoint to the host is not one bit: endpoints 0x82 and 0x83 share a bit, so
    halting the one halts the other for GET_STATUS. *)
Example endpoint_masks_alias : Bits.any (usb_dev_decode_ep 130) (usb_dev_decode_ep 131) = true.
Proof. reflexivity. Qed.
(** When the link device is configured a second time, endpoint 0x82, which is in use, is not
    disabled, and 0x83, which does not exist, is. *)
Theorem reconfiguration_disables_another_endpoint :
  let mask := endpoints_mask (default_endpoints 0 (cfg_body link_configuration)) 65537 in
  endpoints_disabled mask
  = [SetAttributes USB_FLAG_DISABLE_ENDPOINT (Some 2) None; SetAttributes USB_FLAG_DISABLE_ENDPOINT (Some 131) None;
     SetAttributes USB_FLAG_DISABLE_ENDPOINT (Some 137) None].
Proof. reflexivity. Qed.
(** The data pointer of a request stays for the next one: the host writes the configuration
    of the device by sending data with a SET_ADDRESS. *)
Theorem stale_pointer_written :
  let h := Some link_class_handler in
  (u ← usbd_control_handler 0 h (setup_bytes (mk_request 128 GET_CONFIGURATION 0 0 0 0 0)) 0 setup_event usb_start;
   u ← usbd_control_handler 0 h (setup_bytes (mk_request 0 SET_ADDRESS 5 0 0 0 1)) 0 setup_event u;
   u ← usbd_control_handler 0 h [7] 0 data_ready_event u;
   Some (current_configuration (ctx u))) = Some 7.
Proof. reflexivity. Qed.
(** The length of SET_LINE_CODING is not limited to the buffer: the fifth packet overwrites the
    pointers behind it. *)
Theorem line_coding_overruns :
  let h := Some (usbd_cdc_event_handler 0) in
  (u ← usbd_control_handler 0 h (setup_bytes (mk_request 33 CDC_SET_LINE_CODING 0 0 0 0 320)) 0 setup_event usb_start;
   data_packets 0 h (replicate 5 (replicate 64 255)) u) = None.
Proof. vm_compute. reflexivity. Qed.

(** ** Witnesses *)

Lemma get_descriptor_answers_witness :
  answers 0 (Some link_class_handler) (mk_request 128 GET_DESCRIPTOR 3 DESCRIPTOR_TYPE_STRING 0 0 255) (take 255 serial_string) usb_start.
Proof.
  exact (get_descriptor_answers link_descriptors 0 (Some link_class_handler) (mk_request 128 GET_DESCRIPTOR 3 DESCRIPTOR_TYPE_STRING 0 0 255)
           usb_start link_device_holds ltac:(done) usb_start_wf eq_refl eq_refl ltac:(vm_compute; split; congruence) ltac:(done) ltac:(vm_compute; discriminate)).
Defined.
Lemma set_configuration_selects_witness :
  exists u, usbd_control_handler 5 None (setup_bytes (mk_request 0 SET_CONFIGURATION 1 0 0 0 0)) 0 setup_event usb_start = Some u /\
    current_configuration (ctx u) = 1 /\ length (acts u) = 9%nat.
Proof.
  eexists. split.
  - apply (set_configuration_selects [link_configuration] [] link_configuration [] 5 None (mk_request 0 SET_CONFIGURATION 1 0 0 0 0) usb_start);
      [exact link_configurations_hold|done|constructor|done|exact usb_start_wf|done|done|done|done|vm_compute; lia].
  - by vm_compute.
Defined.
Lemma set_configuration_unknown_witness :
  usbd_control_handler 5 None (setup_bytes (mk_request 0 SET_CONFIGURATION 2 0 0 0 0)) 0 setup_event usb_start
  = Some (class_or_stall None setup_event (mk_usb (received (mk_request 0 SET_CONFIGURATION 2 0 0 0 0) (ctx usb_start)) [ReadEndpoint 0])).
Proof.
  apply (set_configuration_unknown [link_configuration] 5 None (mk_request 0 SET_CONFIGURATION 2 0 0 0 0) usb_start);
    [exact link_configurations_hold|repeat constructor; vm_compute; congruence|done|done|exact usb_start_wf|done|done|vm_compute; lia].
Defined.
Lemma line_coding_received_witness : let h := Some (usbd_cdc_event_handler 1) in
  exists u', (u ← usbd_control_handler 0 h (setup_bytes (mk_request 33 CDC_SET_LINE_CODING 0 0 1 0 7)) 0 setup_event usb_start;
              data_packets 0 h [[0; 194; 1]; [0; 0; 0; 8]] u) = Some u' /\
    buf (ctx u') = [0; 194; 1; 0; 0; 0; 8] ++ drop 7 (buf (ctx usb_start)) /\
    acts u' = acts usb_start ++ ReadEndpoint 0 :: replicate 2 (ReadEndpoint 0) ++ [WriteEndpoint 128 []].
Proof.
  apply (line_coding_received 0 1 (mk_request 33 CDC_SET_LINE_CODING 0 0 1 0 7) [[0; 194; 1]; [0; 0; 0; 8]] usb_start usb_start_wf);
    [done|done|by left|vm_compute; split; congruence|repeat constructor; done|done].
Defined.
Lemma datain_sends_no_zlp_witness :
  let u := on_ctx (with_data (mk_uptr Rdevice 0) 18 0) usb_start in
  acts (usbd_control_datain_stage u) = acts u \/ exists l, l <> [] /\ acts (usbd_control_datain_stage u) = acts u ++ [WriteEndpoint 128 l].
Proof. intros u. apply (datain_sends_no_zlp u); [done|vm_compute; split; congruence|by left]. Defined.
Lemma get_status_overreads_witness :
  answers 0 None (mk_request 128 GET_STATUS 0 0 0 0 1000) (peeks (received (mk_request 128 GET_STATUS 0 0 0 0 1000) (ctx usb_start)) (context_ptr OFF_STATUS) 1000) usb_start.
Proof.
  exact (get_status_overreads 0 None (mk_request 128 GET_STATUS 0 0 0 0 1000) usb_start ltac:(done) usb_start_wf eq_refl eq_refl
           ltac:(vm_compute; split; congruence)).
Defined.
