(* ===== verification/Remote.v ===== *)
(** * Remote calls over the link

    The command interpreter of the device, [src/sys/link/link_thread.c], and the calls of the
    host, [src/link/link_file.c], [link_dir.c], [link.c] and [link_process.c].

    A host call and a round of the interpreter are programs over whole transfers: the host
    writes and reads ([masterwrite], [masterread]), the device reads and writes
    ([slaveread], [slavewrite]).  [run] lets the two meet: a write of the host with a read of
    the device, a write of the device with a read of the host.  That a transfer arrives whole
    is what [Transport.v] shows of the packets; a host that writes while the device
    writes, or reads while it reads, has lost step, and [run] gives [None].  The system
    calls of the device are the class [Posix]; [RemoteFiles.v] has the instance for the calls of
    [Files.v].  [driver] is not NULL.  Time-outs and debug output are left out. *)
From S2P Require Import Prelude Memory Link Transport.

(** ** Words in messages *)

Definition le32 (v : Z) : list Z := [v mod 256; (v / 256) mod 256; (v / 65536) mod 256; (v / 16777216) mod 256].
Definition get_u32 (l : list Z) (o : Z) : Z :=
  Zget l o + 256 * Zget l (o + 1) + 65536 * Zget l (o + 2) + 16777216 * Zget l (o + 3).
Definition get_s32 (l : list Z) (o : Z) : Z := s32 (get_u32 l o).
(** A C string in a buffer. *)
Fixpoint cstring (l : list Z) : list Z :=
  match l with
  | [] => []
  | b :: l => if b =? 0 then [] else b :: cstring l
  end.

Definition LINK_CMD_NONE : Z := 0.
Definition LINK_CMD_READSERIALNO : Z := 1.
Definition LINK_CMD_IOCTL : Z := 2.
Definition LINK_CMD_READ : Z := 3.
Definition LINK_CMD_WRITE : Z := 4.
Definition LINK_CMD_OPEN : Z := 5.
Definition LINK_CMD_CLOSE : Z := 6.
Definition LINK_CMD_LINK : Z := 7.
Definition LINK_CMD_UNLINK : Z := 8.
Definition LINK_CMD_LSEEK : Z := 9.
Definition LINK_CMD_STAT : Z := 10.
Definition LINK_CMD_FSTAT : Z := 11.
Definition LINK_CMD_MKDIR : Z := 12.
Definition LINK_CMD_RMDIR : Z := 13.
Definition LINK_CMD_OPENDIR : Z := 14.
Definition LINK_CMD_READDIR : Z := 15.
Definition LINK_CMD_CLOSEDIR : Z := 16.
Definition LINK_CMD_RENAME : Z := 17.
Definition LINK_CMD_CHOWN : Z := 18.
Definition LINK_CMD_CHMOD : Z := 19.
Definition LINK_CMD_EXEC : Z := 20.
Definition LINK_CMD_MKFS : Z := 21.
Definition LINK_CMD_TOTAL : Z := 22.
(** [sizeof(link_op_t)], [sizeof(link_reply_t)], [sizeof(struct link_dirent)]. *)
Definition SIZEOF_OP : Z := 13.
Definition SIZEOF_REPLY : Z := 8.
Definition SIZEOF_DIRENT : Z := 132.
Definition SIZEOF_STAT : Z := 44.
Definition LINK_TRANSFER_ERR : Z := -701.
Definition LINK_DEV_ERROR : Z := -1.
Definition LINK_PATH_MAX : Z := 64.
Definition LINK_PATH_MAX_LARGE : Z := 255.
Definition LINK_ARG_MAX_LARGE : Z := 511.
Definition LINK_BOOTLOADER_FILDES : Z := -125.
Definition _IOCTL_IN : Z := Z.shiftl 1 30.
Definition _IOCTL_OUT : Z := Z.shiftl 1 31.
Definition _IOCTL_SIZE (i : Z) : Z := Z.land (Z.shiftr i 16) 8191.
Definition ioctl_reads (i : Z) : bool := Bits.any i _IOCTL_OUT.
Definition ioctl_writes (i : Z) : bool := Bits.any i _IOCTL_IN.

(** ** Programs *)

Inductive host (A : Type) :=
| HRet (a : A)
| HWrite (l : list Z) (k : Z -> host A)
| HRead (n : Z) (k : list Z -> Z -> host A)
| HFlush (k : host A).
Arguments HRet {A}.
Arguments HWrite {A}.
Arguments HRead {A}.
Arguments HFlush {A}.
(** [DRead n ans k]: [ans] is what the host's write comes to, which a callback of the device
    can refuse. *)
Inductive device (D : Type) :=
| DRet (d : D)
| DRead (n : Z) (ans : list Z -> Z) (k : list Z -> device D)
| DWrite (l : list Z) (k : device D)
| DFlush (k : device D).
Arguments DRet {D}.
Arguments DRead {D}.
Arguments DWrite {D}.
Arguments DFlush {D}.

(** What the device asks of its system; [errno] is part of the state. *)
Class Posix (S : Type) := {
  px_errno : S -> Z;
  px_set_errno : Z -> S -> S;
  px_open : list Z -> Z -> Z -> S -> S * Z;
  px_close : Z -> S -> S * Z;
  px_read : Z -> Z -> S -> S * Z * list Z;
  px_write : Z -> list Z -> S -> S * Z;
  px_lseek : Z -> Z -> Z -> S -> S * Z;
  px_ioctl : Z -> Z -> Z -> S -> S * Z;
  px_ioctl_buf : Z -> Z -> list Z -> S -> S * Z * list Z;
  px_link : list Z -> list Z -> S -> S * Z;
  px_unlink : list Z -> S -> S * Z;
  px_stat : list Z -> S -> S * Z * list Z;      (** the fields of [struct link_stat], in order *)
  px_fstat : Z -> S -> S * Z * list Z;
  px_mkdir : list Z -> Z -> S -> S * Z;
  px_rmdir : list Z -> S -> S * Z;
  px_opendir : list Z -> S -> S * Z;
  px_readdir : Z -> S -> S * Z * (Z * list Z);
  px_closedir : Z -> S -> S * Z;
  px_rename : list Z -> list Z -> S -> S * Z;
  px_chown : list Z -> Z -> Z -> S -> S * Z;
  px_chmod : list Z -> Z -> S -> S * Z;
  px_exec : list Z -> S -> S * Z;
  px_mkfs : list Z -> S -> S * Z }.
(** What the device and the host are configured with: limits, the descriptor of the link
    itself, the serial number, what buffers on the stack hold before they are written. *)
Class LinkConfig := {
  dev_path_max : Z;
  dev_arg_max : Z;
  link_handle : Z;
  serial_chars : list Z;
  stack_bytes : Z -> list Z;
  host_path_max : Z;
  host_arg_max : Z }.

Section Interpreter.
Context {V : Version} {S : Type} {P : Posix S} {C : LinkConfig}.

(** ** The device *)

(** [link_data_t]: the command, the reply, and the system. *)
Record dstate := mk_dstate { d_op : list Z; d_err : Z; d_err_number : Z; d_sys : S }.
Definition with_op l d := mk_dstate l (d_err d) (d_err_number d) (d_sys d).
Definition with_reply e n d := mk_dstate (d_op d) e n (d_sys d).
Definition with_sys s d := mk_dstate (d_op d) (d_err d) (d_err_number d) s.
Definition op_cmd d : Z := Zget (d_op d) 0.
Definition op_u32 d (o : Z) : Z := get_u32 (d_op d) o.
Definition op_s32 d (o : Z) : Z := get_s32 (d_op d) o.
Definition no_reply d : dstate := with_op (Zset (d_op d) 0 0) d.
Definition reply_bytes d : list Z := le32 (d_err d) ++ le32 (d_err_number d).
Definition clear_errno d : dstate := with_sys (px_set_errno 0 (d_sys d)) d.
(** [reply.err = call(); if( reply.err < 0 ){ reply.err_number = errno; }] *)
Definition replied (r : S * Z) d : dstate :=
  let e := s32 r.2 in
  mk_dstate (d_op d) e (if e <? 0 then px_errno r.1 else d_err_number d) r.1.

Definition dev := device dstate.
(** What was received, in a buffer on the stack. *)
Definition on_stack (size : Z) (l : list Z) : list Z := l ++ drop (length l) (stack_bytes size).
Definition read_path (size capacity : Z) (refused : dev) (k : list Z -> dev) : dev :=
  if capacity <? size then refused else DRead size Zlen (fun l => k (cstring (on_stack size l))).
(** A command that takes a path; a path that is too long is flushed, and the reply is what it
    was. *)
Definition on_link_path (o : Z) (d : dstate) (k : dstate -> dev) (f : list Z -> dev) : dev :=
  read_path (op_u32 d o) dev_path_max (DFlush (k d)) f.

Definition link_cmd_none (d : dstate) (k : dstate -> dev) : dev := k d.
Definition link_cmd_readserialno (d : dstate) (k : dstate -> dev) : dev :=
  let d := with_reply (Zlen serial_chars) 0 d in
  DWrite (reply_bytes d) (DWrite serial_chars (k (no_reply d))).
Definition link_cmd_open (d : dstate) (k : dstate -> dev) : dev :=
  let d := clear_errno d in
  on_link_path 1 d k (fun path => k (replied (px_open path (op_u32 d 5) (op_u32 d 9) (d_sys d)) d)).
Definition link_cmd_link (d : dstate) (k : dstate -> dev) : dev :=
  on_link_path 1 d k (fun old_path => on_link_path 5 d k (fun new_path => k (replied (px_link old_path new_path (d_sys d)) d))).
Definition link_cmd_ioctl (d : dstate) (k : dstate -> dev) : dev :=
  let d := clear_errno d in
  let fildes := op_s32 d 1 in
  let request := op_s32 d 5 in
  let size := _IOCTL_SIZE request in
  let go io_buf :=
    let '(d, io_buf) :=
      if negb (fildes =? link_handle) then
        if negb (ioctl_reads request || ioctl_writes request) then
          let '(s, r) := px_ioctl fildes request (op_u32 d 9) (d_sys d) in (with_sys s (with_reply (s32 r) (px_errno s) d), io_buf)
        else
          let '(s, r, io_buf) := px_ioctl_buf fildes request io_buf (d_sys d) in (with_sys s (with_reply (s32 r) (px_errno s) d), io_buf)
      else (with_reply (-1) EBADF d, io_buf) in
    if ioctl_reads request then DWrite io_buf (k d) else k d in
  if ioctl_writes request then DRead size Zlen (fun l => go (on_stack size l)) else go (stack_bytes size).

(** The loop of a transfer with a callback: a read for every packet, up to the first that is
    not full. *)
Fixpoint read_pieces (fuel : nat) (fildes nbyte bytes : Z) (s : S) : S * list Z * Z :=
  match fuel with
  | O => (s, [], 0)
  | Datatypes.S fuel =>
      let '(s, ret, out) := px_read fildes (next_size nbyte bytes) s in
      if ret <? 0 then (s, [], if bytes =? 0 then ret else bytes)
      else if (bytes + ret <? nbyte) && (ret =? data_size) then
        let '(s, more, r) := read_pieces fuel fildes nbyte (bytes + ret) s in (s, out ++ more, r)
      else (s, out, if bytes + ret =? 0 then ret else bytes + ret)
  end.
Definition read_device (fildes nbyte : Z) (s : S) : S * list Z * Z :=
  read_pieces (Datatypes.S (Z.to_nat nbyte)) fildes nbyte 0 s.
(** The packets of a write of the host, one callback for each. *)
Fixpoint write_pieces (fuel : nat) (fildes bytes : Z) (l : list Z) (s : S) : S * Z :=
  match fuel with
  | O => (s, bytes)
  | Datatypes.S fuel =>
      let piece := take (Z.to_nat data_size) l in
      let rest := drop (Z.to_nat data_size) l in
      let '(s, ret) := px_write fildes piece s in
      if ret <? 0 then (s, ret)
      else if bool_decide (rest = []) then (s, bytes + Zlen piece)
      else write_pieces fuel fildes (bytes + Zlen piece) rest s
  end.
Definition write_device (fildes : Z) (l : list Z) (s : S) : S * Z := write_pieces (Datatypes.S (length l)) fildes 0 l s.
(** The host's write sees a refused packet. *)
Definition acknowledged (fildes : Z) (s : S) (l : list Z) : Z :=
  if (write_device fildes l s).2 <? 0 then v_bad_ack v_nack else Zlen l.
(** [if( reply.err < 0 ){ reply.err_number = errno; }] *)
Definition errno_if_failed (d : dstate) : dstate := if d_err d <? 0 then with_reply (d_err d) (px_errno (d_sys d)) d else d.

Definition link_cmd_read (d : dstate) (k : dstate -> dev) : dev :=
  let fildes := op_s32 d 1 in
  let nbyte := s32 (op_u32 d 5) in
  if negb (fildes =? link_handle) then
    let d := clear_errno d in
    let '(s, data, r) := read_device fildes nbyte (d_sys d) in
    DWrite data (k (errno_if_failed (with_reply (s32 r) (d_err_number d) (with_sys s d))))
  else k (errno_if_failed (with_reply (-1) EBADF d)).
Definition link_cmd_write (d : dstate) (k : dstate -> dev) : dev :=
  let fildes := op_s32 d 1 in
  let nbyte := s32 (op_u32 d 5) in
  if negb (fildes =? link_handle) then
    let d := clear_errno d in
    DRead nbyte (acknowledged fildes (d_sys d)) (fun l =>
      let '(s, r) := write_device fildes l (d_sys d) in
      k (errno_if_failed (with_reply (s32 r) (d_err_number d) (with_sys s d))))
  else k (errno_if_failed (with_reply (-1) EBADF d)).
Definition link_cmd_close (d : dstate) (k : dstate -> dev) : dev :=
  let fildes := op_s32 d 1 in
  if negb (fildes =? link_handle) then k (replied (px_close fildes (d_sys d)) d)
  else k (errno_if_failed (with_reply (-1) EBADF d)).
Definition link_cmd_unlink (d : dstate) (k : dstate -> dev) : dev :=
  on_link_path 1 d k (fun path => k (replied (px_unlink path (d_sys d)) d)).
Definition link_cmd_lseek (d : dstate) (k : dstate -> dev) : dev :=
  k (replied (px_lseek (op_s32 d 1) (op_s32 d 5) (op_s32 d 9) (d_sys d)) d).
(** [translate_link_stat]: the structure on the wire. *)
Definition translate_link_stat (st : list Z) : list Z := concat (le32 <$> st).
Definition link_cmd_stat (d : dstate) (k : dstate -> dev) : dev :=
  on_link_path 1 d k (fun path =>
    let '(s, r, st) := px_stat path (d_sys d) in
    let d := no_reply (replied (s, r) d) in
    DWrite (reply_bytes d) (if d_err d <? 0 then k d else DWrite (translate_link_stat st) (k d))).
Definition link_cmd_fstat (d : dstate) (k : dstate -> dev) : dev :=
  let '(s, r, st) := px_fstat (op_s32 d 1) (d_sys d) in
  let d := no_reply (replied (s, r) d) in
  DWrite (reply_bytes d) (if d_err d <? -1 then k d else DWrite (translate_link_stat st) (k d)).
Definition link_cmd_mkdir (d : dstate) (k : dstate -> dev) : dev :=
  on_link_path 1 d k (fun path => k (replied (px_mkdir path (op_s32 d 5) (d_sys d)) d)).
Definition link_cmd_rmdir (d : dstate) (k : dstate -> dev) : dev :=
  on_link_path 1 d k (fun path => k (replied (px_rmdir path (d_sys d)) d)).
Definition link_cmd_opendir (d : dstate) (k : dstate -> dev) : dev :=
  on_link_path 1 d k (fun path =>
    let '(s, r) := px_opendir path (d_sys d) in
    let e := s32 r in
    k (mk_dstate (d_op d) e (if e =? 0 then px_errno s else d_err_number d) s)).
(** [strcpy] leaves the bytes behind the terminator. *)
Definition dirent_bytes (entry : Z * list Z) : list Z :=
  take (Z.to_nat SIZEOF_DIRENT) (le32 entry.1 ++ entry.2 ++ [0] ++ stack_bytes SIZEOF_DIRENT).
Definition link_cmd_readdir (d : dstate) (k : dstate -> dev) : dev :=
  let '(s, r, entry) := px_readdir (op_s32 d 1) (d_sys d) in
  let e := s32 r in
  let d := no_reply (mk_dstate (d_op d) (if e <? 0 then -1 else e) (if e <? 0 then px_errno s else d_err_number d) s) in
  DWrite (reply_bytes d) (if d_err d <? 0 then k d else DWrite (dirent_bytes entry) (k d)).
Definition link_cmd_closedir (d : dstate) (k : dstate -> dev) : dev := k (replied (px_closedir (op_s32 d 1) (d_sys d)) d).
Definition link_cmd_rename (d : dstate) (k : dstate -> dev) : dev :=
  on_link_path 1 d k (fun old_path => on_link_path 5 d k (fun new_path => k (replied (px_rename old_path new_path (d_sys d)) d))).
Definition link_cmd_chown (d : dstate) (k : dstate -> dev) : dev :=
  on_link_path 1 d k (fun path => k (replied (px_chown path (op_u32 d 5) (op_u32 d 9) (d_sys d)) d)).
Definition link_cmd_chmod (d : dstate) (k : dstate -> dev) : dev :=
  on_link_path 1 d k (fun path => k (replied (px_chmod path (op_u32 d 5) (d_sys d)) d)).
Definition link_cmd_exec (d : dstate) (k : dstate -> dev) : dev :=
  read_path (op_u32 d 1) dev_arg_max (DFlush (k d)) (fun path => k (replied (px_exec path (d_sys d)) d)).
Definition link_cmd_mkfs (d : dstate) (k : dstate -> dev) : dev :=
  on_link_path 1 d k (fun path =>
    let d := with_sys (px_set_errno EBUSY (d_sys d)) (with_reply 0 EBUSY d) in
    DWrite (reply_bytes d)
      (let d := replied (px_mkfs path (d_sys d)) (no_reply d) in
       k (if d_err d <? 0 then d else clear_errno d))).

Definition link_cmd_func_table : list (dstate -> (dstate -> dev) -> dev) :=
  [link_cmd_none; link_cmd_readserialno; link_cmd_ioctl; link_cmd_read; link_cmd_write; link_cmd_open; link_cmd_close; link_cmd_link;
   link_cmd_unlink; link_cmd_lseek; link_cmd_stat; link_cmd_fstat; link_cmd_mkdir; link_cmd_rmdir; link_cmd_opendir; link_cmd_readdir;
   link_cmd_closedir; link_cmd_rename; link_cmd_chown; link_cmd_chmod; link_cmd_exec; link_cmd_mkfs].
(** A round of [link_update]: a command is read over the one before; the reply is sent unless the
    command did it. *)
Definition send_reply (d : dstate) : dev :=
  if negb (op_cmd d =? 0) then DWrite (reply_bytes d) (DRet (no_reply d)) else DRet d.
Definition link_update (d : dstate) : dev :=
  DRead SIZEOF_OP Zlen (fun l =>
    if Zlen l <=? 0 then DRet (with_op (replicate (Z.to_nat SIZEOF_OP) 0) d)
    else
      let d := with_op (l ++ drop (length l) (d_op d)) d in
      match link_cmd_func_table !! Z.to_nat (op_cmd d) with
      | Some cmd => cmd d send_reply
      | None => send_reply (with_reply (-1) EINVAL d)
      end).
End Interpreter.

(** ** The host *)

(** What a call gives: its result, the number it stores in [link_errno] (or [errno]), and the data
    it stores for the caller. *)
Record answer := mk_answer { a_ret : Z; a_errno : option Z; a_data : list Z }.

(** The flags of the host's C library. *)
Class HostFlags := {
  H_O_CREAT : Z; H_O_APPEND : Z; H_O_EXCL : Z; H_O_RDWR : Z; H_O_NONBLOCK : Z; H_O_WRONLY : Z; H_O_TRUNC : Z }.
Definition LINK_O_TRUNC : Z := 1024.
Definition convert_flags `{HostFlags} (link_flags : Z) : Z :=
  let add (r m f : Z) := if Bits.any link_flags m then Bits.set r f else r in
  add (add (add (add (add (add (add 0 H_O_CREAT O_CREAT) H_O_APPEND O_APPEND) H_O_EXCL O_EXCL) H_O_RDWR O_RDWR)
    H_O_NONBLOCK O_NONBLOCK) H_O_WRONLY O_WRONLY) H_O_TRUNC LINK_O_TRUNC.

Section Host.
Context {C : LinkConfig}.
Definition MAX_TRIES : nat := 2.
(** Empty transfers until the device answers. *)
Fixpoint overcome (tries : nat) : host answer :=
  match tries with
  | O => HRet (mk_answer LINK_PHY_ERROR None [])
  | Datatypes.S tries =>
      HWrite [] (fun err2 =>
        if err2 =? LINK_PHY_ERROR then HRet (mk_answer LINK_PHY_ERROR None [])
        else if err2 =? 0 then HFlush (HRet (mk_answer LINK_PROT_ERROR None []))
        else overcome tries)
  end.
Definition link_handle_err (err : Z) : host answer :=
  HFlush (if err =? LINK_PROT_ERROR then overcome MAX_TRIES
          else HRet (mk_answer (if err =? LINK_DEV_ERROR then err else LINK_PHY_ERROR) None [])).
Definition just (r : Z) : host answer := HRet (mk_answer r None []).
Definition failing (e : Z) : host answer := HRet (mk_answer (-1) (Some e) []).
(** The steps the calls share: a transfer and what is returned when it fails. *)
Definition mwrite (l : list Z) (fail : Z -> host answer) (k : host answer) : host answer :=
  HWrite l (fun err => if err <? 0 then fail err else k).
Definition mread (n : Z) (fail : Z -> host answer) (k : list Z -> host answer) : host answer :=
  HRead n (fun l err => if err <? 0 then fail err else k l).
Definition transfer_err (_ : Z) : host answer := just LINK_TRANSFER_ERR.
Definition reply_answer (data reply : list Z) : answer :=
  let err := get_s32 reply 0 in mk_answer err (if err <? 0 then Some (get_s32 reply 4) else None) data.
Definition read_reply (fail : Z -> host answer) : host answer := mread SIZEOF_REPLY fail (fun l => HRet (reply_answer [] l)).

Definition strnlen (p : list Z) (n : Z) : Z := Zlen p `min` n.
(** The first [n] bytes of a string and its terminator. *)
Definition path_bytes (p : list Z) (n : Z) : list Z := take (Z.to_nat n) (p ++ [0]).
Definition link_open `{HostFlags} (path : list Z) (flags mode : Z) : host answer :=
  let mode := if Bits.any flags H_O_CREAT then mode else 0 in
  let path_size := strnlen path LINK_PATH_MAX + 1 in
  if host_path_max <? path_size then failing ENAMETOOLONG
  else mwrite (LINK_CMD_OPEN :: le32 path_size ++ le32 (Bits.set (convert_flags flags) O_NONBLOCK) ++ le32 mode) link_handle_err
        (mwrite (path_bytes path path_size) link_handle_err (read_reply link_handle_err)).
(** [link_ioctl] with an integer or with a buffer, which [link_ioctl_delay] carries out. *)
Definition link_ioctl (fildes request arg : Z) (argp : list Z) : host answer :=
  let arg := if ioctl_reads request || ioctl_writes request then 0 else arg in
  let rw_size := _IOCTL_SIZE request in
  let finish buf := mread SIZEOF_REPLY link_handle_err (fun l => HRet (mk_answer (get_s32 l 0) (Some (get_s32 l 4)) buf)) in
  let receive :=
    if ioctl_reads request then
      HRead rw_size (fun l err =>
        if err <? 0 then link_handle_err err
        else if negb (err =? rw_size) then
          if err =? SIZEOF_REPLY then HRet (mk_answer (get_s32 l 0) (Some (get_s32 (stack_bytes SIZEOF_REPLY) 4)) l)
          else link_handle_err LINK_PROT_ERROR
        else finish l)
    else finish argp in
  mwrite (LINK_CMD_IOCTL :: le32 fildes ++ le32 request ++ le32 arg) link_handle_err
    (if ioctl_writes request then mwrite (take (Z.to_nat rw_size) argp) link_handle_err receive else receive).
Definition link_read (fildes nbyte : Z) : host answer :=
  mwrite (LINK_CMD_READ :: le32 fildes ++ le32 nbyte) link_handle_err
    (mread nbyte link_handle_err (fun data => mread SIZEOF_REPLY link_handle_err (fun l => HRet (reply_answer data l)))).
Definition link_write (fildes : Z) (buf : list Z) : host answer :=
  mwrite (LINK_CMD_WRITE :: le32 fildes ++ le32 (Zlen buf)) link_handle_err (mwrite buf link_handle_err (read_reply link_handle_err)).
Definition link_close (fildes : Z) : host answer := mwrite (LINK_CMD_CLOSE :: le32 fildes) link_handle_err (read_reply link_handle_err).
(** The test of the old path is made twice, that of the new one not at all; the old path must
    arrive whole. *)
Definition link_symlink (old_path new_path : list Z) : host answer :=
  let old_size := strnlen old_path LINK_PATH_MAX_LARGE + 1 in
  let new_size := strnlen new_path LINK_PATH_MAX_LARGE + 1 in
  if host_path_max <? old_size then failing ENAMETOOLONG
  else mwrite (LINK_CMD_LINK :: le32 old_size ++ le32 new_size) just
        (HWrite (path_bytes old_path old_size) (fun len =>
          if negb (len =? old_size) then just (-1)
          else mwrite (path_bytes new_path new_size) transfer_err (read_reply just))).
(** A path of the host whose length is tested without the terminator. *)
Definition checked_path (path : list Z) (k : host answer) : host answer :=
  if host_path_max <? strnlen path LINK_PATH_MAX_LARGE then failing ENAMETOOLONG else k.
Definition whole_path (path : list Z) : list Z := path ++ [0].
Definition link_unlink (path : list Z) : host answer :=
  checked_path path
    (mwrite (LINK_CMD_UNLINK :: le32 (Zlen path + 1)) just (mwrite (whole_path path) transfer_err (read_reply just))).
Definition link_lseek (fildes offset whence : Z) : host answer :=
  mwrite (LINK_CMD_LSEEK :: le32 fildes ++ le32 offset ++ le32 whence) just
    (mread SIZEOF_REPLY just (fun l =>
      let err := get_s32 l 0 in HRet (mk_answer err (Some (if err <? 0 then get_s32 l 4 else 0)) []))).
(** [convert_stat] takes nine of the eleven fields. *)
Definition convert_stat (l : list Z) : list Z := (fun i => get_u32 l (4 * i)) <$> seqZ 0 9.
Definition read_stat : host answer :=
  mread SIZEOF_REPLY just (fun l =>
    let err := get_s32 l 0 in
    if err =? 0 then mread SIZEOF_STAT just (fun st => HRet (mk_answer err None (convert_stat st)))
    else HRet (mk_answer err (Some (get_s32 l 4)) (convert_stat (stack_bytes SIZEOF_STAT)))).
Definition link_stat (path : list Z) : host answer :=
  checked_path path (mwrite (LINK_CMD_STAT :: le32 (Zlen path + 1)) just (mwrite (whole_path path) transfer_err read_stat)).
Definition link_fstat (fildes : Z) : host answer := mwrite (LINK_CMD_FSTAT :: le32 fildes) just read_stat.
Definition link_rename (old_path new_path : list Z) : host answer :=
  let old_size := strnlen old_path LINK_PATH_MAX_LARGE + 1 in
  let new_size := strnlen new_path LINK_PATH_MAX_LARGE + 1 in
  if (host_path_max <? old_size) || (host_path_max <? new_size) then failing ENAMETOOLONG
  else mwrite (LINK_CMD_RENAME :: le32 old_size ++ le32 new_size) just
        (mwrite (path_bytes old_path old_size) transfer_err (mwrite (path_bytes new_path new_size) transfer_err (read_reply just))).
(** A command written with the size of the union: what follows its fields is not initialised. *)
Definition op_bytes (l : list Z) : list Z := take (Z.to_nat SIZEOF_OP) (l ++ stack_bytes SIZEOF_OP).
(** The error number of the reply is looked at only when the reply could not be read. *)
Definition read_reply_only : host answer :=
  HRead SIZEOF_REPLY (fun l err => HRet (mk_answer (get_s32 l 0) (if err <? 0 then Some (get_s32 l 4) else None) [])).
Definition link_chown (path : list Z) (owner group : Z) : host answer :=
  checked_path path
    (mwrite (op_bytes (LINK_CMD_CHOWN :: le32 (Zlen path + 1) ++ le32 owner ++ le32 group)) just
       (mwrite (whole_path path) transfer_err read_reply_only)).
Definition link_chmod (path : list Z) (mode : Z) : host answer :=
  checked_path path
    (mwrite (op_bytes (LINK_CMD_CHMOD :: le32 (Zlen path + 1) ++ le32 mode)) just (mwrite (whole_path path) transfer_err read_reply_only)).
Definition link_mkdir (path : list Z) (mode : Z) : host answer :=
  mwrite (op_bytes (LINK_CMD_MKDIR :: le32 (Zlen path + 1) ++ le32 mode)) just (mwrite (whole_path path) transfer_err (read_reply just)).
Definition link_rmdir (path : list Z) : host answer :=
  mwrite (op_bytes (LINK_CMD_RMDIR :: le32 (Zlen path + 1))) just (mwrite (whole_path path) transfer_err (read_reply just)).
Definition no_dir (_ : Z) : host answer := just 0.
Definition link_opendir (dirname : list Z) : host answer :=
  mwrite (LINK_CMD_OPENDIR :: le32 (Zlen dirname + 1)) no_dir (mwrite (whole_path dirname) no_dir (read_reply no_dir)).
Definition minus_one (_ : Z) : host answer := just (-1).
(** The entry is its number and its name. *)
Definition link_readdir_r (dirp : Z) : host answer :=
  mwrite (LINK_CMD_READDIR :: le32 dirp) minus_one
    (mread SIZEOF_REPLY minus_one (fun l =>
      let err := get_s32 l 0 in
      if err <? 0 then HRet (mk_answer err (Some (get_s32 l 4)) [])
      else mread SIZEOF_DIRENT minus_one (fun e => HRet (mk_answer 0 None (get_u32 e 0 :: take 127 (cstring (drop 4 e))))))).
Definition link_closedir (dirp : Z) : host answer := mwrite (LINK_CMD_CLOSEDIR :: le32 dirp) just (read_reply just).
Definition link_mkfs (path : list Z) : host answer :=
  mwrite (op_bytes (LINK_CMD_MKFS :: le32 (Zlen path + 1))) just
    (mwrite (whole_path path) transfer_err
       (mread SIZEOF_REPLY just (fun l => HRet (mk_answer (get_s32 l 0) (Some (get_s32 l 4)) [])))).
Definition link_exec (file : list Z) : host answer :=
  let path_size := strnlen file LINK_ARG_MAX_LARGE in
  if host_arg_max <? path_size then failing ENAMETOOLONG
  else mwrite (LINK_CMD_EXEC :: le32 path_size) just (mwrite (path_bytes file path_size) transfer_err (read_reply just)).
Definition link_readserialno (len : Z) : host answer :=
  mwrite [LINK_CMD_READSERIALNO] link_handle_err
    (mread SIZEOF_REPLY link_handle_err (fun l =>
      let err := get_s32 l 0 in
      if 0 <? err then
        if err <=? len then mread err just (fun sn => HRet (mk_answer 0 None sn)) else just (-1)
      else HRet (mk_answer 0 (Some (get_s32 l 4)) []))).
End Host.

(** ** Host and device together *)

Section Run.
Context {V : Version}.
(** Whether a transfer of the host ends for a device that asks for [n] bytes ([ends_at]). *)
Definition ends_for (n : Z) (l : list Z) : bool :=
  (Zlen l =? n) || ((Zlen l <? n) && ((Zlen l =? 0) || negb (Zlen l mod data_size =? 0))).
Fixpoint run {A D : Type} (fuel : nat) (loop : D -> device D) (h : host A) (d : device D) : option (A * device D) :=
  match fuel with
  | O => None
  | S fuel =>
      match h, d with
      | HRet a, _ => Some (a, d)
      | _, DRet s => run fuel loop h (loop s)
      | HFlush h, DWrite _ d => run fuel loop (HFlush h) d
      | HFlush h, _ => run fuel loop h d
      | HWrite l kh, DRead n ans kd => if ends_for n l then run fuel loop (kh (ans l)) (kd l) else None
      | HRead n kh, DWrite l kd =>
          if Zlen l <=? n then run fuel loop (kh l (Zlen l)) kd
          else if Zlen l <=? data_size then run fuel loop (kh (take (Z.to_nat n) l) n) kd else None
      | HRead _ _, DFlush d => run fuel loop h d
      | HWrite _ _, DFlush _ => None
      | HRead _ _, DRead _ _ _ => None
      | HWrite _ _, DWrite _ _ => None
      end
  end.
End Run.

(** ** What a call means on the device *)

Inductive call :=
| COpen (path : list Z) (flags mode : Z) | CClose (fildes : Z) | CRead (fildes nbyte : Z) | CWrite (fildes : Z) (buf : list Z)
| CLseek (fildes offset whence : Z) | CIoctl (fildes request arg : Z) (argp : list Z)
| CSymlink (old_path new_path : list Z) | CUnlink (path : list Z) | CStat (path : list Z) | CFstat (fildes : Z)
| CMkdir (path : list Z) (mode : Z) | CRmdir (path : list Z) | COpendir (path : list Z) | CReaddir (dirp : Z) | CClosedir (dirp : Z)
| CRename (old_path new_path : list Z) | CChown (path : list Z) (owner group : Z) | CChmod (path : list Z) (mode : Z)
| CExec (path : list Z) | CMkfs (path : list Z) | CSerial (len : Z).

Section Calls.
Context {V : Version} {S : Type} {P : Posix S} {C : LinkConfig} {HF : HostFlags}.

Definition host_of (c : call) : host answer :=
  match c with
  | COpen p f m => link_open p f m
  | CClose fd => link_close fd
  | CRead fd n => link_read fd n
  | CWrite fd b => link_write fd b
  | CLseek fd o w => link_lseek fd o w
  | CIoctl fd r a b => link_ioctl fd r a b
  | CSymlink p q => link_symlink p q
  | CUnlink p => link_unlink p
  | CStat p => link_stat p
  | CFstat fd => link_fstat fd
  | CMkdir p m => link_mkdir p m
  | CRmdir p => link_rmdir p
  | COpendir p => link_opendir p
  | CReaddir dp => link_readdir_r dp
  | CClosedir dp => link_closedir dp
  | CRename p q => link_rename p q
  | CChown p u g => link_chown p u g
  | CChmod p m => link_chmod p m
  | CExec p => link_exec p
  | CMkfs p => link_mkfs p
  | CSerial len => link_readserialno len
  end.

(** A system call with its result and, if it failed, its error number. *)
Definition returns (r : S * Z) : S * answer :=
  (r.1, mk_answer (s32 r.2) (if s32 r.2 <? 0 then Some (s32 (px_errno r.1)) else None) []).
(** The call made on the device itself, with the answer as the code of the host hands it on.  Most calls give the
    result and, on failure, the error number ([returns]).  The exceptions: [link_write] turns a refused write into
    [LINK_PHY_ERROR]; [link_chown], [link_chmod] and [link_opendir] do not set the error number; [link_lseek] and
    [link_ioctl] set it on success too; [link_mkfs] gets 0 with [EBUSY], which the device sends before it formats
    (it does not send the result); [link_stat] converts the bytes of its own buffer when the call has failed. *)
Definition local (c : call) (s : S) : S * answer :=
  match c with
  | COpen p f m =>
      returns (px_open p (u32 (Bits.set (convert_flags f) O_NONBLOCK)) (u32 (if Bits.any f H_O_CREAT then m else 0)) (px_set_errno 0 s))
  | CClose fd => returns (px_close (s32 fd) s)
  | CRead fd n =>
      let '(s, data, r) := read_device (s32 fd) n (px_set_errno 0 s) in
      (s, mk_answer (s32 r) (if s32 r <? 0 then Some (s32 (px_errno s)) else None) data)
  | CWrite fd b =>
      let '(s, r) := write_device (s32 fd) b (px_set_errno 0 s) in
      (s, mk_answer (if r <? 0 then LINK_PHY_ERROR else s32 r) None [])
  | CLseek fd o w =>
      let '(s, r) := px_lseek (s32 fd) (s32 o) (s32 w) s in
      (s, mk_answer (s32 r) (Some (if s32 r <? 0 then s32 (px_errno s) else 0)) [])
  | CIoctl fd r a b =>
      let req := s32 r in
      let s := px_set_errno 0 s in
      let '(s, e, out) :=
        if ioctl_reads req || ioctl_writes req
        then px_ioctl_buf (s32 fd) req (if ioctl_writes req then b else stack_bytes (_IOCTL_SIZE req)) s
        else let '(s, e) := px_ioctl (s32 fd) req (u32 a) s in (s, e, b) in
      (s, mk_answer (s32 e) (Some (s32 (px_errno s))) (if ioctl_reads req then out else b))
  | CSymlink p q => returns (px_link p q s)
  | CUnlink p => returns (px_unlink p s)
  | CStat p =>
      let '(s, r, st) := px_stat p s in
      (s, if s32 r =? 0 then mk_answer 0 None (u32 <$> take 9 st)
          else mk_answer (s32 r) (Some (s32 (px_errno s))) (convert_stat (stack_bytes SIZEOF_STAT)))
  | CFstat fd => let '(s, r, st) := px_fstat (s32 fd) s in (s, mk_answer (s32 r) None (u32 <$> take 9 st))
  | CMkdir p m => returns (px_mkdir p (s32 m) s)
  | CRmdir p => returns (px_rmdir p s)
  | COpendir p =>
      let '(s, r) := px_opendir p s in (s, mk_answer (s32 r) None [])
  | CReaddir dp =>
      let '(s, r, entry) := px_readdir (s32 dp) s in
      (s, if s32 r <? 0 then mk_answer (-1) (Some (s32 (px_errno s))) [] else mk_answer 0 None (u32 entry.1 :: entry.2))
  | CClosedir dp => returns (px_closedir (s32 dp) s)
  | CRename p q => returns (px_rename p q s)
  | CChown p u g => let '(s, r) := px_chown p (u32 u) (u32 g) s in (s, mk_answer (s32 r) None [])
  | CChmod p m => let '(s, r) := px_chmod p (u32 m) s in (s, mk_answer (s32 r) None [])
  | CExec p => returns (px_exec p s)
  | CMkfs p =>
      let '(s, r) := px_mkfs p (px_set_errno EBUSY s) in
      (if s32 r <? 0 then s else px_set_errno 0 s, mk_answer 0 (Some EBUSY) [])
  | CSerial len => (s, mk_answer 0 None serial_chars)
  end.

(** A path both sides have room for. *)
Definition path_ok (p : list Z) : Prop :=
  Forall (fun b => b <> 0) p /\ Zlen p + 1 <= dev_path_max /\ Zlen p + 1 <= host_path_max.
(** The calls a host makes: paths that fit, descriptors other than that of the link, buffers as
    long as they claim.  The results asked for: reads store no more than they are asked for
    ([read_device_length]); a directory is opened at an address below 2^31; the status of a
    path is given or fails, that of a descriptor is given. *)
Definition call_ok (c : call) (s : S) : Prop :=
  match c with
  | COpen p _ _ => path_ok p /\ Zlen p <= LINK_PATH_MAX
  | CClose fd => s32 fd <> link_handle
  | CRead fd n => s32 fd <> link_handle /\ 0 <= n < 2 ^ 31 /\ Zlen (read_device (s32 fd) n (px_set_errno 0 s)).1.2 <= n
  | CWrite fd b => s32 fd <> link_handle /\ Zlen b < 2 ^ 31
  | CIoctl fd r a b => s32 fd <> link_handle /\ - 2 ^ 31 <= r < 2 ^ 31 /\ (ioctl_writes r = true -> Zlen b = _IOCTL_SIZE r)
  | CSymlink p q | CRename p q => path_ok p /\ path_ok q /\ Zlen p <= LINK_PATH_MAX_LARGE /\ Zlen q <= LINK_PATH_MAX_LARGE
  | CUnlink p | CChown p _ _ | CChmod p _ | CMkdir p _ | CRmdir p | CMkfs p => path_ok p
  | CStat p => path_ok p /\ s32 (px_stat p s).1.2 <= 0
  | CFstat fd => s32 (px_fstat (s32 fd) s).1.2 = 0
  | COpendir p => path_ok p /\ 0 <= s32 (px_opendir p s).2
  | CReaddir dp => let '(_, _, entry) := px_readdir (s32 dp) s in Forall (fun b => b <> 0) entry.2 /\ Zlen entry.2 <= 127
  | CExec p => Forall (fun b => b <> 0) p /\ Zlen p <= dev_arg_max /\ Zlen p <= host_arg_max /\ Zlen p <= LINK_ARG_MAX_LARGE
  | CSerial len => 0 < Zlen serial_chars <= len /\ Zlen serial_chars < 2 ^ 31
  | CLseek _ _ _ | CClosedir _ => True
  end.
End Calls.

(** What is taken for granted of the system and of the transport: a buffer keeps its length; the structure of a status has
    eleven fields; commands fit into a packet, and a refused packet is not taken for an error
    of the protocol. *)
Class PosixOk {S} (P : Posix S) : Prop := {
  po_ioctl fd r b s : Zlen (px_ioctl_buf fd r b s).2 = Zlen b;
  po_stat p s : length (px_stat p s).2 = 11%nat;
  po_fstat fd s : length (px_fstat fd s).2 = 11%nat }.
Class LinkOk (V : Version) (C : LinkConfig) : Prop := {
  lo_packet : SIZEOF_OP < data_size;
  lo_nack : v_bad_ack v_nack < LINK_TIMEOUT_ERROR;
  lo_stack n : 0 <= n -> Zlen (stack_bytes n) = n;
  lo_limits : dev_path_max < 2 ^ 32 /\ dev_arg_max < 2 ^ 32 }.

(** ** Messages *)

Lemma le32_u32 v : v mod 256 + 256 * ((v / 256) mod 256) + 65536 * ((v / 65536) mod 256) + 16777216 * ((v / 16777216) mod 256) = u32 v.
Proof.
  unfold u32. change (2 ^ 32) with 4294967296. Z.to_euclidean_division_equations. lia.
Qed.
Lemma get_u32_0 a l : get_u32 (le32 a ++ l) 0 = u32 a.
Proof. apply le32_u32. Qed.
Lemma get_u32_1 x a l : get_u32 (x :: le32 a ++ l) 1 = u32 a.
Proof. apply le32_u32. Qed.
Lemma get_u32_4 a b l : get_u32 (le32 a ++ le32 b ++ l) 4 = u32 b.
Proof. apply le32_u32. Qed.
Lemma get_u32_5 x a b l : get_u32 (x :: le32 a ++ le32 b ++ l) 5 = u32 b.
Proof. apply le32_u32. Qed.
Lemma get_u32_9 x a b c l : get_u32 (x :: le32 a ++ le32 b ++ le32 c ++ l) 9 = u32 c.
Proof. apply le32_u32. Qed.
Lemma s32_u32 v : s32 (u32 v) = s32 v.
Proof. unfold s32, u32. by rewrite Z.add_mod_idemp_l by lia. Qed.
Lemma s32_s32 v : s32 (s32 v) = s32 v.
Proof. apply s32_id. unfold s32. pose proof (Z.mod_pos_bound (v + 2 ^ 31) (2 ^ 32)). lia. Qed.
Lemma cstring_whole p rest : Forall (fun b => b <> 0) p -> cstring (p ++ 0 :: rest) = p.
Proof. induction 1 as [|b p Hb _ IH]; simpl; [done|]. by rewrite (proj2 (Z.eqb_neq _ _) Hb), IH. Qed.
Lemma cstring_id p : Forall (fun b => b <> 0) p -> cstring p = p.
Proof. induction 1 as [|b p Hb _ IH]; simpl; [done|]. by rewrite (proj2 (Z.eqb_neq _ _) Hb), IH. Qed.
Lemma path_bytes_whole p : path_bytes p (Zlen p + 1) = whole_path p.
Proof. unfold path_bytes, whole_path. apply take_ge. unfold Zlen. rewrite length_app. simpl. lia. Qed.
Lemma Zlen_whole p : Zlen (whole_path p) = Zlen p + 1.
Proof. unfold whole_path. by rewrite Zlen_app. Qed.

Section Correct.
Context {V : Version} {S : Type} {P : Posix S} {C : LinkConfig} {HF : HostFlags}.
Context {PO : PosixOk P} {LO : LinkOk V C}.
Implicit Types (d : dstate (S := S)) (dv : device (dstate (S := S))) (a : answer).

Lemma reply_of d : get_s32 (reply_bytes d) 0 = s32 (d_err d) /\ get_s32 (reply_bytes d) 4 = s32 (d_err_number d).
Proof.
  unfold get_s32, reply_bytes. rewrite get_u32_0. change (le32 (d_err_number d)) with (le32 (d_err_number d) ++ []).
  rewrite get_u32_4. by rewrite !s32_u32.
Qed.

(** ** The two sides in step *)

(** The device is at the top of its loop. *)
Definition ready dv d : Prop := (dv = DRet d \/ dv = link_update d) /\ Zlen (d_op d) = SIZEOF_OP.
Definition completes (h : host answer) dv a (Q : dstate -> Prop) : Prop :=
  exists fuel dv' d', run fuel link_update h dv = Some (a, dv') /\ ready dv' d' /\ Q d'.

Lemma completes_ret a d (Q : dstate -> Prop) : Zlen (d_op d) = SIZEOF_OP -> Q d -> completes (HRet a) (DRet d) a Q.
Proof using Type. intros Ho HQ. exists 1%nat, (DRet d), d. split_and!; [done| |done]. split; [by left|done]. Qed.
Lemma completes_write l kh n ans kd a Q : ends_for n l = true -> completes (kh (ans l)) (kd l) a Q -> completes (HWrite l kh) (DRead n ans kd) a Q.
Proof using Type. intros E (f & dv & d' & H). exists (Datatypes.S f), dv, d'. simpl. by rewrite E. Qed.
Lemma completes_read l kd n kh a Q : Zlen l <= n -> completes (kh l (Zlen l)) kd a Q -> completes (HRead n kh) (DWrite l kd) a Q.
Proof using Type. intros E (f & dv & d' & H). exists (Datatypes.S f), dv, d'. simpl. by rewrite (proj2 (Z.leb_le _ _) E). Qed.
Lemma completes_flush l d a (Q : dstate -> Prop) : Zlen (d_op d) = SIZEOF_OP -> Q d -> completes (HFlush (HRet a)) (DWrite l (DRet d)) a Q.
Proof using Type.
  intros Ho HQ. exists 4%nat, (link_update d), d. split_and!; [done| |done]. split; [by right|done].
Qed.
Lemma completes_start l kh dv d a Q : ready dv d -> completes (HWrite l kh) (link_update d) a Q -> completes (HWrite l kh) dv a Q.
Proof using Type. intros [[->| ->] _] H; [|done]. destruct H as (f & dv & d' & H). by exists (Datatypes.S f), dv, d'. Qed.

(** A command reaches its handler. *)
Lemma ends_for_same l : ends_for (Zlen l) l = true.
Proof using Type. unfold ends_for. by rewrite Z.eqb_refl. Qed.
Lemma completes_cmd cmd fields f kh dv d a Q : ready dv d -> 0 <= Zlen fields <= 12 -> 
  link_cmd_func_table !! Z.to_nat cmd = Some f ->
  (forall d1, d_op d1 = (cmd :: fields) ++ drop (length (cmd :: fields)) (d_op d) -> d_sys d1 = d_sys d -> d_err_number d1 = d_err_number d ->
     Zlen (d_op d1) = SIZEOF_OP -> completes (kh (Zlen (cmd :: fields))) (f d1 send_reply) a Q) ->
  completes (HWrite (cmd :: fields) kh) dv a Q.
Proof using LO.
  intros Hr Hl Hf H. eapply completes_start; [done|]. pose proof lo_packet as Hp. unfold SIZEOF_OP in *. destruct Hr as [_ Ho].
  apply completes_write.
  - unfold ends_for, SIZEOF_OP. rewrite Zlen_cons. destruct (Z.eqb_spec (Zlen fields + 1) 13); [done|].
    rewrite (proj2 (Z.ltb_lt (Zlen fields + 1) 13)) by lia. rewrite Z.mod_small, (proj2 (Z.eqb_neq (Zlen fields + 1) 0)) by lia. done.
  - rewrite (proj2 (Z.leb_gt _ _)) by (rewrite Zlen_cons; lia). cbv zeta. set (d1 := with_op ((cmd :: fields) ++ _) d).
    change (op_cmd d1) with cmd. rewrite Hf. apply H; try done. unfold d1. cbn [with_op d_op]. unfold SIZEOF_OP, Zlen in *.
    rewrite length_app, length_drop. cbn [length] in *. lia.
Qed.

Lemma on_stack_whole l : on_stack (Zlen l) l = l.
Proof using LO.
  unfold on_stack. pose proof (lo_stack (Zlen l) (Zlen_nonneg l)) as H. unfold Zlen in H at 1 3. rewrite drop_ge, app_nil_r by lia. done.
Qed.
Lemma cstring_stack p n : Forall (fun b => b <> 0) p -> cstring (on_stack n (whole_path p)) = p.
Proof using Type. intros H. unfold on_stack. set (rest := drop _ _). unfold whole_path. rewrite <- app_assoc. by apply cstring_whole. Qed.
(** Paths. *)
Lemma completes_path p o d k f kh a Q : path_ok p -> op_u32 d o = Zlen p + 1 ->
  completes (kh (Zlen p + 1)) (f p) a Q -> completes (HWrite (whole_path p) kh) (on_link_path o d k f) a Q.
Proof using Type.
  intros (Hp & Hd & _) Ho H. unfold on_link_path, read_path. rewrite Ho, (proj2 (Z.ltb_ge _ _)) by lia.
  apply completes_write; [rewrite <- Zlen_whole; apply ends_for_same|]. by rewrite Zlen_whole, cstring_stack.
Qed.

(** The reply at the end of a round. *)
Lemma completes_reply d (kh : list Z -> host answer) fail a (Q : dstate -> Prop) : op_cmd d <> 0 -> Zlen (d_op d) = SIZEOF_OP ->
  kh (reply_bytes d) = HRet a -> Q (no_reply d) -> completes (mread SIZEOF_REPLY fail kh) (send_reply d) a Q.
Proof using Type.
  intros Hc Ho Hk HQ. unfold send_reply. rewrite (proj2 (Z.eqb_neq _ _) Hc). apply completes_read; [done|].
  change (Zlen (reply_bytes d) <? 0) with false. cbv iota. rewrite Hk. apply completes_ret; [|done].
  unfold no_reply. cbn [with_op d_op]. by rewrite Zlen_Zset.
Qed.
(** ... of a system call. *)
Lemma completes_returns (r : S * Z) d fail (Q : S -> Prop) : op_cmd d <> 0 -> Zlen (d_op d) = SIZEOF_OP -> Q r.1 ->
  completes (read_reply fail) (send_reply (replied r d)) (returns r).2 (fun d' => Q (d_sys d')).
Proof using Type.
  intros Hc Ho HQ. apply completes_reply; [done|done| |done]. unfold reply_answer. destruct (reply_of (replied r d)) as [-> ->].
  cbn [replied d_err d_err_number]. rewrite s32_s32. unfold returns. cbn [snd]. by destruct (s32 r.2 <? 0).
Qed.

Lemma mwrite_cmd cmd fields f fail k dv d a Q : ready dv d -> 0 <= Zlen fields <= 12 -> 0 < cmd < 22 ->
  link_cmd_func_table !! Z.to_nat cmd = Some f ->
  (forall d1, d_op d1 = cmd :: fields ++ drop (length (cmd :: fields)) (d_op d) -> d_sys d1 = d_sys d -> op_cmd d1 <> 0 ->
     Zlen (d_op d1) = SIZEOF_OP -> completes k (f d1 send_reply) a Q) ->
  completes (mwrite (cmd :: fields) fail k) dv a Q.
Proof using LO.
  intros Hr Hl Hc Hf H. eapply completes_cmd; [done|done|exact Hf|]. intros d1 E1 E2 _ E4.
  rewrite (proj2 (Z.ltb_ge _ 0)) by apply Zlen_nonneg. apply H; try done. unfold op_cmd. rewrite E1. change (Zget _ 0) with cmd. lia.
Qed.
Lemma mwrite_path p o d k f fail kh a Q : path_ok p -> op_u32 d o = Zlen p + 1 ->
  completes kh (f p) a Q -> completes (mwrite (whole_path p) fail kh) (on_link_path o d k f) a Q.
Proof using Type.
  intros Hp Ho H. apply completes_path; [done|done|]. pose proof (Zlen_nonneg p). by rewrite (proj2 (Z.ltb_ge _ 0)) by lia.
Qed.
Lemma path_size p : path_ok p -> u32 (Zlen p + 1) = Zlen p + 1.
Proof using LO. intros (_ & H & _). pose proof (Zlen_nonneg p). destruct lo_limits. apply u32_id. lia. Qed.
(** The fields of a command. *)
Lemma field1 d x v l : d_op d = x :: le32 v ++ l -> op_u32 d 1 = u32 v /\ op_s32 d 1 = s32 v.
Proof using Type. unfold op_u32, op_s32, get_s32. intros ->. rewrite get_u32_1. by rewrite s32_u32. Qed.
Lemma field5 d x v b l : d_op d = x :: le32 v ++ le32 b ++ l -> op_u32 d 5 = u32 b /\ op_s32 d 5 = s32 b.
Proof using Type. unfold op_u32, op_s32, get_s32. intros ->. rewrite get_u32_5. by rewrite s32_u32. Qed.
Lemma field9 d x v b c l : d_op d = x :: le32 v ++ le32 b ++ le32 c ++ l -> op_u32 d 9 = u32 c /\ op_s32 d 9 = s32 c.
Proof using Type. unfold op_u32, op_s32, get_s32. intros ->. rewrite get_u32_9. by rewrite s32_u32. Qed.
Lemma checked_path_ok p k a Q dv : path_ok p -> completes k dv a Q -> completes (checked_path p k) dv a Q.
Proof using Type. intros (_ & _ & H) Hk. unfold checked_path, strnlen. by rewrite (proj2 (Z.ltb_ge _ _)) by lia. Qed.
Lemma op_bytes_eq x l : 0 <= Zlen l <= 12 -> exists rest, op_bytes (x :: l) = x :: l ++ rest /\ 0 <= Zlen (l ++ rest) <= 12.
Proof using LO.
  intros Hl. unfold op_bytes, SIZEOF_OP in *. pose proof (lo_stack 13 ltac:(lia)) as Hs. unfold Zlen in *.
  exists (take (12 - length l) (stack_bytes 13)). rewrite take_app_ge by (cbn [length]; lia).
  split; [cbn [app length]; do 3 f_equal; lia|]. rewrite length_app, length_take. lia.
Qed.

Definition serves (c : call) dv d : Prop := completes (host_of c) dv (local c (d_sys d)).2 (fun d' => d_sys d' = (local c (d_sys d)).1).

(** The steps of a call: a command, its fields, a path. *)
Local Ltac lens := first [done | vm_compute; split; congruence].
Local Ltac command := eapply mwrite_cmd; [eassumption|lens|lens|reflexivity|];
  let d1 := fresh "d1" in intros d1 Hop Hsys Hcmd Hlen; cbn beta in *.
Local Ltac path := apply mwrite_path; [done|..].

Lemma serves_close fd dv d : ready dv d -> call_ok (CClose fd) (d_sys d) -> serves (CClose fd) dv d.
Proof using LO.
  intros Hr Hok. unfold serves. simpl. command. destruct (field1 _ _ _ _ Hop) as [_ E]. unfold link_cmd_close. rewrite E.
  simpl in Hok. rewrite (proj2 (Z.eqb_neq _ _) Hok). cbn [negb]. rewrite Hsys. by apply (completes_returns _ _ _ (fun s => s = _)).
Qed.
Lemma serves_unlink p dv d : ready dv d -> path_ok p -> serves (CUnlink p) dv d.
Proof using LO.
  intros Hr Hp. unfold serves. simpl. apply checked_path_ok; [done|]. command. destruct (field1 _ _ _ _ Hop) as [E _].
  path; [by rewrite E, path_size|]. rewrite Hsys. by apply (completes_returns _ _ _ (fun s => s = _)).
Qed.
Local Ltac command_op :=
  match goal with |- completes (mwrite (op_bytes (?cmd :: ?fields)) _ _) _ _ _ =>
    let rest := fresh "rest" in let E := fresh in let Hl := fresh in
    destruct (op_bytes_eq cmd fields) as (rest & E & Hl); [lens|]; rewrite E; clear E;
    eapply mwrite_cmd; [eassumption|exact Hl|lens|reflexivity|];
    let d1 := fresh "d1" in intros d1 Hop Hsys Hcmd Hlen; cbn beta in *; rewrite <- !app_assoc in Hop
  end.
Local Ltac by_returns := by apply (completes_returns _ _ _ (fun s => s = _)).

Lemma serves_open p f m dv d : ready dv d -> call_ok (COpen p f m) (d_sys d) -> serves (COpen p f m) dv d.
Proof using LO.
  intros Hr [Hp Hl]. unfold serves. simpl. unfold link_open, strnlen. destruct Hp as (Hn & Hd & Hh).
  rewrite Z.min_l, (proj2 (Z.ltb_ge _ _)) by lia. rewrite path_bytes_whole. assert (Hp : path_ok p) by done. command.
  set (d2 := clear_errno d1). assert (Hop2 : d_op d2 = _) by exact Hop. destruct (field1 _ _ _ _ Hop2) as [E _].
  destruct (field5 _ _ _ _ _ Hop2) as [E5 _]. destruct (field9 _ _ _ _ _ _ Hop2) as [E9 _].
  unfold link_cmd_open. fold d2. path; [by rewrite E, path_size|]. rewrite E5, E9.
  replace (d_sys d2) with (px_set_errno 0 (d_sys d)) by (by rewrite <- Hsys). by_returns.
Qed.
Lemma serves_lseek fd o w dv d : ready dv d -> serves (CLseek fd o w) dv d.
Proof using LO.
  intros Hr. unfold serves. simpl. unfold link_lseek. command. destruct (field1 _ _ _ _ Hop) as [_ E1].
  destruct (field5 _ _ _ _ _ Hop) as [_ E5]. destruct (field9 _ _ _ _ _ _ Hop) as [_ E9]. unfold link_cmd_lseek. rewrite E1, E5, E9, Hsys.
  destruct (px_lseek _ _ _ _) as [s r]. apply completes_reply; [done|done| |done].
  destruct (reply_of (replied (s, r) d1)) as [-> ->]. cbn [replied d_err d_err_number fst snd]. rewrite s32_s32. by destruct (s32 r <? 0).
Qed.
Lemma serves_mkdir p m dv d : ready dv d -> path_ok p -> serves (CMkdir p m) dv d.
Proof using LO.
  intros Hr Hp. unfold serves. simpl. unfold link_mkdir. command_op. destruct (field1 _ _ _ _ Hop) as [E _].
  destruct (field5 _ _ _ _ _ Hop) as [_ E5]. path; [by rewrite E, path_size|]. rewrite Hsys, E5. by_returns.
Qed.
Lemma serves_rmdir p dv d : ready dv d -> path_ok p -> serves (CRmdir p) dv d.
Proof using LO.
  intros Hr Hp. unfold serves. simpl. unfold link_rmdir. command_op. destruct (field1 _ _ _ _ Hop) as [E _].
  path; [by rewrite E, path_size|]. rewrite Hsys. by_returns.
Qed.
Lemma serves_closedir dp dv d : ready dv d -> serves (CClosedir dp) dv d.
Proof using LO.
  intros Hr. unfold serves. simpl. command. destruct (field1 _ _ _ _ Hop) as [_ E]. unfold link_cmd_closedir. rewrite E, Hsys. by_returns.
Qed.
Lemma serves_opendir p dv d : ready dv d -> call_ok (COpendir p) (d_sys d) -> serves (COpendir p) dv d.
Proof using LO.
  intros Hr [Hp Ha]. unfold serves. simpl. command. destruct (field1 _ _ _ _ Hop) as [E _]. path; [by rewrite E, path_size|].
  rewrite Hsys. destruct (px_opendir p (d_sys d)) as [s r]. simpl in Ha. apply completes_reply; [done|done| |done].
  unfold reply_answer. set (d2 := mk_dstate _ _ _ _). destruct (reply_of d2) as [-> _]. cbn [d2 d_err]. rewrite s32_s32.
  by rewrite (proj2 (Z.ltb_ge _ _)) by lia.
Qed.
Lemma only_reply (r : S * Z) d s' : op_cmd d <> 0 -> Zlen (d_op d) = SIZEOF_OP -> s' = r.1 ->
  completes read_reply_only (send_reply (replied r d)) (mk_answer (s32 r.2) None []) (fun d' => d_sys d' = s').
Proof using Type.
  intros Hc Ho ->. unfold send_reply. change (op_cmd (replied r d)) with (op_cmd d). rewrite (proj2 (Z.eqb_neq _ _) Hc). cbn [negb].
  apply completes_read; [done|]. change (Zlen (reply_bytes (replied r d)) <? 0) with false. cbv iota.
  destruct (reply_of (replied r d)) as [-> _]. cbn [replied d_err]. rewrite s32_s32. apply completes_ret; [|done].
  unfold no_reply. cbn [with_op d_op]. by rewrite Zlen_Zset.
Qed.
Lemma serves_chown p u g dv d : ready dv d -> path_ok p -> serves (CChown p u g) dv d.
Proof using LO.
  intros Hr Hp. unfold serves. simpl. apply checked_path_ok; [done|]. command_op. destruct (field1 _ _ _ _ Hop) as [E _].
  destruct (field5 _ _ _ _ _ Hop) as [E5 _]. destruct (field9 _ _ _ _ _ _ Hop) as [E9 _]. path; [by rewrite E, path_size|].
  rewrite Hsys, E5, E9. destruct (px_chown _ _ _ _) as [s r]. by apply (only_reply (s, r)).
Qed.
Lemma serves_chmod p m dv d : ready dv d -> path_ok p -> serves (CChmod p m) dv d.
Proof using LO.
  intros Hr Hp. unfold serves. simpl. apply checked_path_ok; [done|]. command_op. destruct (field1 _ _ _ _ Hop) as [E _].
  destruct (field5 _ _ _ _ _ Hop) as [E5 _]. path; [by rewrite E, path_size|].
  rewrite Hsys, E5. destruct (px_chmod _ _ _) as [s r]. by apply (only_reply (s, r)).
Qed.
Lemma serves_exec p dv d : ready dv d -> call_ok (CExec p) (d_sys d) -> serves (CExec p) dv d.
Proof using LO.
  intros Hr (Hn & Hd & Hh & Hl). unfold serves. simpl. unfold link_exec, strnlen. pose proof (Zlen_nonneg p). destruct lo_limits as [_ Hlim].
  rewrite Z.min_l, (proj2 (Z.ltb_ge _ _)) by lia. command. destruct (field1 _ _ _ _ Hop) as [E _].
  unfold link_cmd_exec, read_path. rewrite E, u32_id, (proj2 (Z.ltb_ge _ _)) by lia.
  assert (Ep : path_bytes p (Zlen p) = p) by (unfold path_bytes; rewrite take_app_length'; [done|unfold Zlen; lia]). rewrite Ep.
  apply completes_write; [apply ends_for_same|]. rewrite (proj2 (Z.ltb_ge _ 0)) by lia. rewrite on_stack_whole, cstring_id, Hsys by done. by_returns.
Qed.
Lemma serves_rename p q dv d : ready dv d -> call_ok (CRename p q) (d_sys d) -> serves (CRename p q) dv d.
Proof using LO.
  intros Hr (Hp & Hq & Hlp & Hlq). unfold serves. simpl. unfold link_rename, strnlen. rewrite !Z.min_l by lia.
  destruct Hp as (Hp1 & Hp2 & Hp3), Hq as (Hq1 & Hq2 & Hq3). rewrite !(proj2 (Z.ltb_ge _ _)) by lia. cbn [orb]. rewrite !path_bytes_whole.
  assert (Hp : path_ok p) by done. assert (Hq : path_ok q) by done.
  command. destruct (field1 _ _ _ _ Hop) as [E _]. destruct (field5 _ _ _ _ _ Hop) as [E5 _].
  path; [by rewrite E, path_size|]. path; [by rewrite E5, path_size|]. rewrite Hsys. by_returns.
Qed.
Lemma serves_symlink p q dv d : ready dv d -> call_ok (CSymlink p q) (d_sys d) -> serves (CSymlink p q) dv d.
Proof using LO.
  intros Hr (Hp & Hq & Hlp & Hlq). unfold serves. simpl. unfold link_symlink, strnlen. rewrite !Z.min_l by lia.
  destruct Hp as (Hp1 & Hp2 & Hp3). rewrite (proj2 (Z.ltb_ge _ _)) by lia. rewrite !path_bytes_whole.
  assert (Hp : path_ok p) by done.
  command. destruct (field1 _ _ _ _ Hop) as [E _]. destruct (field5 _ _ _ _ _ Hop) as [E5 _].
  apply completes_path; [done|by rewrite E, path_size|]. rewrite Z.eqb_refl. cbn [negb].
  path; [by rewrite E5, path_size|]. rewrite Hsys. by_returns.
Qed.

(** Data in both directions. *)
Definition reads_within (fd : Z) (inv : S -> Prop) : Prop := forall n s, inv s -> 0 <= n ->
  let '(s', r, out) := px_read fd n s in inv s' /\ (r < 0 \/ Zlen out = r /\ r <= n).
Lemma read_pieces_length fd nbyte inv : reads_within fd inv -> forall fuel bytes s, inv s -> 0 <= bytes <= nbyte ->
  Zlen (read_pieces fuel fd nbyte bytes s).1.2 <= nbyte - bytes.
Proof using LO.
  intros Hin. pose proof lo_packet as Hp. unfold SIZEOF_OP in Hp.
  induction fuel as [|fuel IH]; intros bytes s Hs Hb; cbn [read_pieces]; [cbn [fst snd]; rewrite ?Zlen_nil; lia|].
  assert (Hn : 0 <= next_size nbyte bytes <= nbyte - bytes) by (unfold next_size; bool_cases; lia).
  pose proof (Hin (next_size nbyte bytes) s Hs (proj1 Hn)) as Hr. destruct (px_read _ _ _) as [[s1 r] out]. destruct Hr as [Hs1 Hr].
  destruct (Z.ltb_spec r 0); [cbn [fst snd]; rewrite ?Zlen_nil; lia|]. destruct Hr as [Hr|[Ho Hr]]; [lia|].
  destruct ((bytes + r <? nbyte) && (r =? data_size)) eqn:E; [|cbn [fst snd]; rewrite ?Zlen_nil; lia].
  apply andb_true_iff in E as [E%Z.ltb_lt _]. specialize (IH (bytes + r) s1 Hs1 ltac:(lia)).
  destruct (read_pieces fuel fd nbyte (bytes + r) s1) as [[s2 more] r2]. cbn [fst snd] in *. rewrite Zlen_app. lia.
Qed.
(** Reads that store the bytes they count, at most those asked for, as long as [inv] holds. *)
Lemma read_device_length fd nbyte inv s : reads_within fd inv -> inv s -> 0 <= nbyte -> Zlen (read_device fd nbyte s).1.2 <= nbyte.
Proof using LO. intros Hin Hs Hn. rewrite <- (Z.sub_0_r nbyte) at 2. by eapply read_pieces_length; [..|lia]. Qed.
Lemma reply_of_failed d : get_s32 (reply_bytes (errno_if_failed d)) 0 = s32 (d_err d) /\
  (d_err d < 0 -> get_s32 (reply_bytes (errno_if_failed d)) 4 = s32 (px_errno (d_sys d))).
Proof using Type.
  destruct (reply_of (errno_if_failed d)) as [-> ->]. unfold errno_if_failed. destruct (Z.ltb_spec (d_err d) 0); split; try done. lia.
Qed.
Lemma serves_read fd n dv d : ready dv d -> call_ok (CRead fd n) (d_sys d) -> serves (CRead fd n) dv d.
Proof using LO PO.
  intros Hr (Hfd & Hn & Hlen2). unfold serves. simpl. unfold link_read. command. destruct (field1 _ _ _ _ Hop) as [_ E1].
  destruct (field5 _ _ _ _ _ Hop) as [E5 _]. unfold link_cmd_read. rewrite E1, E5, (proj2 (Z.eqb_neq _ _) Hfd), s32_u32, (s32_id n) by lia. cbn [negb].
  change (d_sys (clear_errno d1)) with (px_set_errno 0 (d_sys d1)). rewrite Hsys.
  destruct (read_device _ _ _) as [[s data] r]. cbn [fst snd] in *. apply completes_read; [lia|].
  rewrite (proj2 (Z.ltb_ge _ 0)) by apply Zlen_nonneg. set (d2 := with_reply _ _ _).
  apply completes_reply; [by unfold errno_if_failed; destruct (_ <? 0)|by unfold errno_if_failed; destruct (_ <? 0)| |by unfold errno_if_failed; destruct (_ <? 0)].
  unfold reply_answer. destruct (reply_of_failed d2) as [-> Hn2]. cbn [d2 with_reply d_err]. rewrite s32_s32.
  destruct (Z.ltb_spec (s32 r) 0); [by rewrite Hn2|done].
Qed.
Lemma write_pieces_sign fd : forall fuel bytes l s, 0 <= bytes -> (length l < fuel)%nat ->
  (write_pieces fuel fd bytes l s).2 < 0 \/ (write_pieces fuel fd bytes l s).2 = bytes + Zlen l.
Proof using LO.
  pose proof lo_packet as Hp. unfold SIZEOF_OP in Hp.
  induction fuel as [|fuel IH]; intros bytes l s Hb Hl; [lia|]. cbn [write_pieces]. destruct (px_write _ _ _) as [s1 r].
  destruct (Z.ltb_spec r 0); [by left|]. pose proof (take_drop (Z.to_nat data_size) l) as E.
  case_bool_decide as Er; [right; rewrite Er, app_nil_r in E; cbn [snd]; by rewrite E|].
  assert (Hlen : Zlen l = Zlen (take (Z.to_nat data_size) l) + Zlen (drop (Z.to_nat data_size) l)) by (rewrite <- Zlen_app, E; done).
  rewrite Hlen, Z.add_assoc. apply IH; [pose proof (Zlen_nonneg (take (Z.to_nat data_size) l)); lia|]. rewrite length_drop.
  destruct l; [by rewrite drop_nil in Er|]. cbn [length] in *. lia.
Qed.
Lemma serves_write fd b dv d : ready dv d -> call_ok (CWrite fd b) (d_sys d) -> serves (CWrite fd b) dv d.
Proof using LO.
  intros Hr [Hfd Hn]. unfold serves. simpl. unfold link_write. command. destruct (field1 _ _ _ _ Hop) as [_ E1].
  destruct (field5 _ _ _ _ _ Hop) as [E5 _]. pose proof (Zlen_nonneg b).
  unfold link_cmd_write. rewrite E1, E5, (proj2 (Z.eqb_neq _ _) Hfd), s32_u32, (s32_id (Zlen b)) by lia. cbn [negb].
  change (d_sys (clear_errno d1)) with (px_set_errno 0 (d_sys d1)). rewrite Hsys.
  apply completes_write; [apply ends_for_same|]. unfold acknowledged, write_device.
  pose proof (write_pieces_sign (s32 fd) (Datatypes.S (length b)) 0 b (px_set_errno 0 (d_sys d)) ltac:(lia) ltac:(lia)) as Hs.
  destruct (write_pieces _ _ _ _ _) as [s r]. cbn [snd fst] in *. destruct (Z.ltb_spec r 0) as [Hneg|Hpos].
  - pose proof lo_nack as Hk. unfold LINK_TIMEOUT_ERROR in Hk. rewrite (proj2 (Z.ltb_lt _ 0)) by lia. unfold link_handle_err.
    rewrite !(proj2 (Z.eqb_neq _ _)) by (unfold LINK_PROT_ERROR, LINK_DEV_ERROR; lia). set (d2 := errno_if_failed _).
    assert (Hc2 : op_cmd d2 <> 0) by (unfold d2, errno_if_failed; by destruct (_ <? 0)).
    unfold send_reply. rewrite (proj2 (Z.eqb_neq _ _) Hc2). cbn [negb].
    apply completes_flush; [|by unfold d2, errno_if_failed; destruct (_ <? 0)].
    unfold no_reply. cbn [with_op d_op]. rewrite Zlen_Zset. by unfold d2, errno_if_failed; destruct (_ <? 0).
  - destruct Hs as [Hs|Hs]; [lia|]. rewrite (proj2 (Z.ltb_ge (Zlen b) 0)) by lia. set (d2 := with_reply _ _ _).
    apply completes_reply; [by unfold errno_if_failed; destruct (_ <? 0)|by unfold errno_if_failed; destruct (_ <? 0)| |by unfold errno_if_failed; destruct (_ <? 0)].
    unfold reply_answer. destruct (reply_of_failed d2) as [-> _]. cbn [d2 with_reply d_err]. rewrite s32_s32.
    rewrite (s32_id r) by lia. by rewrite (proj2 (Z.ltb_ge r 0)) by lia.
Qed.

(** Commands that send their reply themselves. *)
Lemma send_no_reply d : send_reply (no_reply d) = DRet (no_reply d) \/ d_op d = [].
Proof using Type. destruct d as [[|x l] e n s]; [by right|by left]. Qed.
Lemma sent_reply d : Zlen (d_op d) = SIZEOF_OP -> send_reply (no_reply d) = DRet (no_reply d).
Proof using Type. intros H. destruct (send_no_reply d) as [E|E]; [done|]. by rewrite E in H. Qed.
Lemma Zlen_no_reply d : Zlen (d_op (no_reply d)) = Zlen (d_op d).
Proof using Type. unfold no_reply. cbn [with_op d_op]. by rewrite Zlen_Zset. Qed.
Lemma completes_data d l n fail (k : list Z -> host answer) a (Q : dstate -> Prop) : Zlen (d_op d) = SIZEOF_OP -> Zlen l <= n ->
  k l = HRet a -> Q (no_reply d) -> completes (mread n fail k) (DWrite l (send_reply (no_reply d))) a Q.
Proof using Type.
  intros Ho Hl Hk HQ. rewrite sent_reply by done. apply completes_read; [done|]. rewrite (proj2 (Z.ltb_ge _ 0)) by apply Zlen_nonneg.
  rewrite Hk. apply completes_ret; [by rewrite Zlen_no_reply|done].
Qed.
Lemma mread_reply d fail (k : list Z -> host answer) kd a Q :
  completes (k (reply_bytes d)) kd a Q -> completes (mread SIZEOF_REPLY fail k) (DWrite (reply_bytes d) kd) a Q.
Proof using Type. intros H. apply completes_read; [done|]. by change (Zlen (reply_bytes d) <? 0) with false. Qed.

Lemma convert_translate st : length st = 11%nat -> Zlen (translate_link_stat st) = SIZEOF_STAT /\ convert_stat (translate_link_stat st) = u32 <$> take 9 st.
Proof using Type.
  intros H. do 12 (destruct st as [|? st]; try done). split; [done|].
  change (convert_stat (translate_link_stat [z; z0; z1; z2; z3; z4; z5; z6; z7; z8; z9]) = u32 <$> [z; z0; z1; z2; z3; z4; z5; z6; z7]).
  unfold convert_stat. change (seqZ 0 9) with [0; 1; 2; 3; 4; 5; 6; 7; 8]. cbn [fmap list_fmap]. repeat (apply f_equal2; [apply le32_u32|]). done.
Qed.
Lemma serves_stat p dv d : ready dv d -> call_ok (CStat p) (d_sys d) -> serves (CStat p) dv d.
Proof using LO PO.
  intros Hr [Hp Ha]. unfold serves. simpl. unfold link_stat, read_stat. apply checked_path_ok; [done|]. command. destruct (field1 _ _ _ _ Hop) as [E _].
  path; [by rewrite E, path_size|]. rewrite Hsys. pose proof (po_stat p (d_sys d)) as Hst. destruct (px_stat p (d_sys d)) as [[s r] st].
  cbn [fst snd] in *. apply mread_reply. destruct (reply_of (no_reply (replied (s, r) d1))) as [-> ->].
  cbn [no_reply with_op replied d_err d_err_number fst snd]. rewrite s32_s32. destruct (convert_translate st Hst) as [Hl Hc].
  destruct (Z.eqb_spec (s32 r) 0) as [E0|E0].
  - rewrite E0. change (0 <? 0) with false. cbv iota. apply completes_data; [done|by rewrite Hl| |done]. by rewrite Hc.
  - rewrite (proj2 (Z.ltb_lt (s32 r) 0)) by lia. fold (no_reply (replied (s, r) d1)). rewrite sent_reply by done.
    apply completes_ret; [by rewrite Zlen_no_reply|done].
Qed.
Lemma serves_fstat fd dv d : ready dv d -> call_ok (CFstat fd) (d_sys d) -> serves (CFstat fd) dv d.
Proof using LO PO.
  intros Hr Ha. unfold serves. simpl in *. unfold link_fstat, read_stat. command. destruct (field1 _ _ _ _ Hop) as [_ E].
  unfold link_cmd_fstat. rewrite E, Hsys. pose proof (po_fstat (s32 fd) (d_sys d)) as Hst. destruct (px_fstat (s32 fd) (d_sys d)) as [[s r] st].
  cbn [fst snd] in *. apply mread_reply. destruct (reply_of (no_reply (replied (s, r) d1))) as [-> ->].
  cbn [no_reply with_op replied d_err d_err_number fst snd]. rewrite s32_s32, Ha. destruct (convert_translate st Hst) as [Hl Hc].
  change (0 =? 0) with true. change (0 <? -1) with false. cbv iota. apply completes_data; [done|by rewrite Hl| |done]. by rewrite Hc.
Qed.
Lemma serves_readdir dp dv d : ready dv d -> call_ok (CReaddir dp) (d_sys d) -> serves (CReaddir dp) dv d.
Proof using LO.
  intros Hr Ha. unfold serves. simpl in *. unfold link_readdir_r. command. destruct (field1 _ _ _ _ Hop) as [_ E].
  unfold link_cmd_readdir. rewrite E, Hsys. destruct (px_readdir (s32 dp) (d_sys d)) as [[s r] entry]. destruct Ha as [Hz Hl].
  apply mread_reply. set (d2 := mk_dstate _ _ _ _). destruct (reply_of (no_reply d2)) as [-> ->].
  cbn [no_reply with_op d2 d_err d_err_number]. destruct (Z.ltb_spec (s32 r) 0) as [Hn|Hn].
  - change (s32 (-1)) with (-1). change (-1 <? 0) with true. cbv iota. fold (no_reply d2). rewrite sent_reply by done.
    apply completes_ret; [by rewrite Zlen_no_reply|done].
  - rewrite s32_s32, !(proj2 (Z.ltb_ge _ 0)) by lia. apply completes_data; [done|unfold dirent_bytes, Zlen, SIZEOF_DIRENT; rewrite length_take; lia| |done].
    assert (Ee : exists rest, dirent_bytes entry = le32 entry.1 ++ entry.2 ++ 0 :: rest).
    { unfold dirent_bytes, SIZEOF_DIRENT, Zlen in *. change (Z.to_nat 132) with (4 + 128)%nat. eexists.
      rewrite take_app_ge by (cbn; lia). cbn [length le32 app Nat.sub]. do 4 f_equal. rewrite take_app_ge by lia. f_equal.
      replace (4 + 128 - 4 - length entry.2)%nat with (Datatypes.S (127 - length entry.2)) by lia. reflexivity. }
    destruct Ee as [rest ->]. rewrite get_u32_0. change (drop 4 (le32 entry.1 ++ entry.2 ++ 0 :: rest)) with (entry.2 ++ 0 :: rest).
    rewrite cstring_whole, take_ge by (done || unfold Zlen in Hl; lia). done.
Qed.
Lemma serves_mkfs p dv d : ready dv d -> path_ok p -> serves (CMkfs p) dv d.
Proof using LO.
  intros Hr Hp. unfold serves. simpl. unfold link_mkfs. command_op. destruct (field1 _ _ _ _ Hop) as [E _]. path; [by rewrite E, path_size|].
  cbv zeta. set (d2 := with_sys _ _). apply mread_reply. destruct (reply_of d2) as [-> ->].
  change (d_sys d2) with (px_set_errno EBUSY (d_sys d1)). rewrite Hsys.
  destruct (px_mkfs p (px_set_errno EBUSY (d_sys d))) as [s r]. cbn [replied d_err fst snd].
  assert (Hsend : forall d3, d_op d3 = d_op (no_reply d2) -> completes (HRet (mk_answer (s32 (d_err d2)) (Some (s32 (d_err_number d2))) [])) (send_reply d3)
    (mk_answer 0 (Some EBUSY) []) (fun d' => d_sys d' = d_sys d3)).
  { intros d3 H3. assert (E3 : send_reply d3 = DRet d3) by (unfold send_reply, op_cmd; rewrite H3; by destruct d1 as [[|x l] ? ? ?]; [|]).
    rewrite E3. apply completes_ret; [|done]. rewrite H3, Zlen_no_reply. done. }
  destruct (s32 r <? 0); by apply Hsend.
Qed.
Lemma serves_serial len dv d : ready dv d -> call_ok (CSerial len) (d_sys d) -> serves (CSerial len) dv d.
Proof using LO.
  intros Hr [Hl Hm]. unfold serves. simpl in *. unfold link_readserialno. command. unfold link_cmd_readserialno. cbv zeta.
  set (d2 := with_reply _ _ _). apply mread_reply. destruct (reply_of d2) as [-> _]. cbn [d2 with_reply d_err]. rewrite s32_id by lia.
  rewrite (proj2 (Z.ltb_lt _ _)), (proj2 (Z.leb_le _ _)) by lia. by apply completes_data.
Qed.

(** Device control. *)
Lemma ioctl_size r : 0 <= _IOCTL_SIZE r.
Proof. unfold _IOCTL_SIZE. apply Z.land_nonneg. right. lia. Qed.
Lemma serves_ioctl fd r x b dv d : ready dv d -> call_ok (CIoctl fd r x b) (d_sys d) -> serves (CIoctl fd r x b) dv d.
Proof using LO PO.
  intros Hr (Hfd & Hrange & Hb). unfold serves. simpl. unfold link_ioctl. rewrite (s32_id r) by done. command.
  destruct (field1 _ _ _ _ Hop) as [_ E1]. destruct (field5 _ _ _ _ _ Hop) as [_ E5]. destruct (field9 _ _ _ _ _ _ Hop) as [E9 _].
  unfold link_cmd_ioctl. change (op_s32 (clear_errno d1)) with (op_s32 d1). change (op_u32 (clear_errno d1)) with (op_u32 d1).
  rewrite E1, E5, E9, (s32_id r) by done. rewrite (proj2 (Z.eqb_neq _ _) Hfd). cbn [negb].
  change (d_sys (clear_errno d1)) with (px_set_errno 0 (d_sys d1)). rewrite Hsys. pose proof (ioctl_size r).
  assert (Hfin : forall (s : S) e (out : list Z) s', s' = s ->
    completes (mread SIZEOF_REPLY link_handle_err (fun l => HRet (mk_answer (get_s32 l 0) (Some (get_s32 l 4)) out)))
      (send_reply (with_sys s (with_reply (s32 e) (px_errno s) (clear_errno d1))))
      (mk_answer (s32 e) (Some (s32 (px_errno s))) out) (fun d' => d_sys d' = s')).
  { intros s e out s' ->. apply completes_reply; [done|done| |done]. set (d2 := with_sys _ _).
    destruct (reply_of d2) as [-> ->]. cbn [d2 with_sys with_reply d_err d_err_number]. by rewrite s32_s32. }
  assert (Hrecv : forall (s : S) e (out : list Z) s', s' = s -> Zlen out = _IOCTL_SIZE r ->
    completes (HRead (_IOCTL_SIZE r) (fun l err => if err <? 0 then link_handle_err err
        else if negb (err =? _IOCTL_SIZE r) then if err =? SIZEOF_REPLY
          then HRet (mk_answer (get_s32 l 0) (Some (get_s32 (stack_bytes SIZEOF_REPLY) 4)) l) else link_handle_err LINK_PROT_ERROR
        else mread SIZEOF_REPLY link_handle_err (fun l0 => HRet (mk_answer (get_s32 l0 0) (Some (get_s32 l0 4)) l))))
      (DWrite out (send_reply (with_sys s (with_reply (s32 e) (px_errno s) (clear_errno d1)))))
      (mk_answer (s32 e) (Some (s32 (px_errno s))) out) (fun d' => d_sys d' = s')).
  { intros s e out s' Es Ho. apply completes_read; [lia|]. rewrite Ho, (proj2 (Z.ltb_ge _ 0)), Z.eqb_refl by lia. cbn [negb]. by apply Hfin. }
  destruct (ioctl_writes r) eqn:Ew.
  - assert (Et : take (Z.to_nat (_IOCTL_SIZE r)) b = b) by (apply take_ge; specialize (Hb eq_refl); unfold Zlen in Hb; lia).
    rewrite Et. rewrite orb_true_r. cbn [negb]. apply completes_write; [rewrite <- (Hb eq_refl); apply ends_for_same|].
    rewrite (proj2 (Z.ltb_ge _ 0)) by apply Zlen_nonneg. assert (Es : on_stack (_IOCTL_SIZE r) b = b) by (rewrite <- (Hb eq_refl); apply on_stack_whole). rewrite Es.
    pose proof (po_ioctl (s32 fd) r b (px_set_errno 0 (d_sys d))) as Hl. rewrite Hb in Hl by done.
    destruct (px_ioctl_buf _ _ _ _) as [[s e] out]. cbn [snd] in Hl.
    destruct (ioctl_reads r); [by apply Hrecv|by apply Hfin].
  - rewrite orb_false_r. destruct (ioctl_reads r) eqn:Er; cbn [negb].
    + pose proof (po_ioctl (s32 fd) r (stack_bytes (_IOCTL_SIZE r)) (px_set_errno 0 (d_sys d))) as Hl. rewrite lo_stack in Hl by done.
      destruct (px_ioctl_buf _ _ _ _) as [[s e] out]. cbn [snd] in Hl. by apply Hrecv.
    + destruct (px_ioctl _ _ _ _) as [s e]. by apply Hfin.
Qed.

(** Every call of the host that reaches the device is the call made there: it gives the result, the
    error number and the data of the device's system call, leaves the device's system as the call
    left it, and finds the device waiting for the next command, whatever was
    exchanged before. *)
Lemma call_served c dv d : ready dv d -> call_ok c (d_sys d) -> serves c dv d.
Proof using LO PO.
  intros Hr Hok.
  destruct c; [by apply serves_open|by apply serves_close|by apply serves_read|by apply serves_write|by apply serves_lseek|by apply serves_ioctl
    |by apply serves_symlink|by apply serves_unlink|by apply serves_stat|by apply serves_fstat|by apply serves_mkdir|by apply serves_rmdir
    |by apply serves_opendir|by apply serves_readdir|by apply serves_closedir|by apply serves_rename|by apply serves_chown|by apply serves_chmod
    |by apply serves_exec|by apply serves_mkfs|by apply serves_serial].
Qed.

(** A session: the host makes its calls one after the other. *)
Inductive session : device (dstate (S := S)) -> list call -> list answer -> device (dstate (S := S)) -> Prop :=
| session_done dv : session dv [] [] dv
| session_call fuel dv c a dv1 cs answers dv2 : run fuel link_update (host_of c) dv = Some (a, dv1) -> session dv1 cs answers dv2 ->
    session dv (c :: cs) (a :: answers) dv2.
(** The same calls on the device itself. *)
Fixpoint local_calls (cs : list call) (s : S) : S * list answer :=
  match cs with
  | [] => (s, [])
  | c :: cs => let '(s, a) := local c s in let '(s, answers) := local_calls cs s in (s, a :: answers)
  end.
Fixpoint calls_ok (cs : list call) (s : S) : Prop :=
  match cs with
  | [] => True
  | c :: cs => call_ok c s /\ calls_ok cs (local c s).1
  end.

(** C13: A session of the host with the device refines the calls made on the device, for the calls that the two
    sides treat alike ([call_ok]): paths and program arguments with room on both sides, descriptors other than that
    of the link itself, buffers of the length the request names, [fstat] of descriptors for which it succeeds,
    directories at an address below 2^31, entry names of at most 127 bytes, system calls that store no more than
    they are asked for (outside of these the two lose step or another call is made: [fstat_failure_loses_step],
    [open_truncates_path], [read_of_link_loses_step], [unlink_longest_path_loses_step]).  For every sequence of such
    calls (files, directories, device control, programs, the serial number) host and device stay in step, each call
    returns, and the system of the device ends in the state that the system calls made there in that order leave.
    The host gets their result, error number and data, but for what its code makes of them: a write that is refused
    gives [LINK_PHY_ERROR], [opendir], [chown] and [chmod] give no error number, [mkfs] gives 0 and [EBUSY], which
    the device sends before it formats, [lseek] and [ioctl] always set the error number. *)
Theorem remote_session cs dv d : ready dv d -> calls_ok cs (d_sys d) ->
  exists dv' d', session dv cs (local_calls cs (d_sys d)).2 dv' /\ ready dv' d' /\ d_sys d' = (local_calls cs (d_sys d)).1.
Proof using LO PO.
  revert dv d. induction cs as [|c cs IH]; intros dv d Hr Hok; simpl in *; [exists dv, d; split; [constructor|done]|].
  destruct Hok as [Hc Hcs]. destruct (call_served c dv d Hr Hc) as (fuel & dv1 & d1 & E & Hr1 & Hs1). rewrite <- Hs1 in Hcs.
  destruct (IH dv1 d1 Hr1 Hcs) as (dv' & d' & Hsess & Hr' & Hs'). rewrite Hs1 in Hsess, Hs'.
  exists dv', d'. destruct (local c (d_sys d)) as [s a]. cbn [fst snd] in *. destruct (local_calls cs s) as [s2 answers]. cbn [fst snd] in *.
  split; [econstructor; [exact E|exact Hsess]|done].
Qed.

(** ** Where the two sides lose step *)

(** The status of a descriptor that is not open: the device sends the structure behind the reply,
    the host does not read it, and the next call of the host finds the device writing. *)
Theorem fstat_failure_loses_step fd dv d : ready dv d -> s32 (px_fstat (s32 fd) (d_sys d)).1.2 = -1 ->
  exists fuel a dv', run fuel link_update (link_fstat fd) dv = Some (a, dv') /\ a_ret a = -1 /\
    forall fuel' fd', run fuel' link_update (link_close fd') dv' = None.
Proof using LO.
  intros Hr Ha. pose proof lo_packet as Hp. unfold SIZEOF_OP in Hp.
  assert (Ew : ends_for SIZEOF_OP (LINK_CMD_FSTAT :: le32 fd) = true).
  { unfold ends_for. change (Zlen (LINK_CMD_FSTAT :: le32 fd)) with 5. rewrite Z.mod_small by lia. done. }
  assert (H : exists a dv', run 3 link_update (link_fstat fd) (link_update d) = Some (a, dv') /\ a_ret a = -1 /\
    forall fuel' fd', run fuel' link_update (link_close fd') dv' = None).
  { unfold link_fstat, mwrite. cbn [run link_update]. rewrite Ew. change (Zlen (LINK_CMD_FSTAT :: le32 fd) <=? 0) with false.
    change (Zlen (LINK_CMD_FSTAT :: le32 fd) <? 0) with false. cbv iota zeta. set (d1 := with_op _ d).
    change (link_cmd_func_table !! Z.to_nat (op_cmd d1)) with (Some (link_cmd_fstat (S := S))). cbv iota. unfold link_cmd_fstat.
    assert (E1 : op_s32 d1 1 = s32 fd) by (eapply (field1 d1 _ fd); reflexivity). rewrite E1. change (d_sys d1) with (d_sys d).
    destruct (px_fstat (s32 fd) (d_sys d)) as [[s r] st]. cbn [fst snd] in Ha. cbv zeta. set (d2 := no_reply _).
    change (d_err d2) with (s32 r). rewrite Ha. change (-1 <? -1) with false. cbv iota. unfold read_stat, mread. cbn [run].
    change (Zlen (reply_bytes d2) <=? SIZEOF_REPLY) with true. cbv iota. change (Zlen (reply_bytes d2) <? 0) with false. cbv iota.
    destruct (reply_of d2) as [-> ->]. change (d_err d2) with (s32 r). rewrite Ha. change (s32 (-1)) with (-1). change (-1 =? 0) with false. cbv iota.
    eexists _, _. split; [reflexivity|]. split; [done|]. intros [|fuel'] fd'; done. }
  destruct Hr as [[->| ->] _].
  - destruct H as (a & dv' & E & H). exists 4%nat, a, dv'. done.
  - destruct H as (a & dv' & E & H). exists 3%nat, a, dv'. done.
Qed.
(** [link_open] cuts a path behind 65 characters when the device accepts longer ones: another file is
    opened. *)
Theorem open_truncates_path p f m dv d : ready dv d -> Forall (fun b => b <> 0) p -> LINK_PATH_MAX < Zlen p ->
  65 <= host_path_max -> 65 <= dev_path_max ->
  let r := px_open (take 65 p) (u32 (Bits.set (convert_flags f) O_NONBLOCK)) (u32 (if Bits.any f H_O_CREAT then m else 0)) (px_set_errno 0 (d_sys d)) in
  completes (link_open p f m) dv (returns r).2 (fun d' => d_sys d' = r.1).
Proof using LO.
  intros Hr Hz Hl Hh Hd r. unfold LINK_PATH_MAX in *. unfold link_open, strnlen, LINK_PATH_MAX. rewrite Z.min_r by lia. change (64 + 1) with 65.
  rewrite (proj2 (Z.ltb_ge _ _)) by lia.
  assert (Ep : path_bytes p 65 = take 65 p) by (unfold path_bytes; apply take_app_le; unfold Zlen in Hl; lia). rewrite Ep.
  assert (El : Zlen (take 65 p) = 65) by (unfold Zlen in *; rewrite length_take; lia).
  command. set (d2 := clear_errno d1). assert (Hop2 : d_op d2 = _) by exact Hop. destruct (field1 _ _ _ _ Hop2) as [E _].
  destruct (field5 _ _ _ _ _ Hop2) as [E5 _]. destruct (field9 _ _ _ _ _ _ Hop2) as [E9 _].
  unfold link_cmd_open. fold d2. unfold on_link_path, read_path. rewrite E, E5, E9. change (u32 65) with 65. rewrite (proj2 (Z.ltb_ge _ _)) by lia.
  apply completes_write; [rewrite <- El; apply ends_for_same|]. rewrite El. change (65 <? 0) with false. cbv iota.
  rewrite <- El, on_stack_whole, cstring_id by (by apply Forall_take). change (d_sys d2) with (px_set_errno 0 (d_sys d1)). rewrite Hsys. by_returns.
Qed.
(** The descriptor of the link itself: the device answers a read at once, the host takes the reply for
    data and waits for another. *)
Theorem read_of_link_loses_step fd n d fuel : s32 fd = link_handle -> SIZEOF_REPLY <= n ->
  run fuel link_update (link_read fd n) (link_update d) = None.
Proof using LO.
  intros Hfd Hn. pose proof lo_packet as Hp. unfold SIZEOF_OP in Hp. destruct fuel as [|fuel]; [done|].
  unfold link_read, mwrite. cbn [run link_update].
  assert (Ew : ends_for SIZEOF_OP (LINK_CMD_READ :: le32 fd ++ le32 n) = true).
  { unfold ends_for. change (Zlen (LINK_CMD_READ :: le32 fd ++ le32 n)) with 9. rewrite Z.mod_small by lia. done. }
  rewrite Ew. change (Zlen (LINK_CMD_READ :: le32 fd ++ le32 n) <=? 0) with false.
  change (Zlen (LINK_CMD_READ :: le32 fd ++ le32 n) <? 0) with false. cbv iota zeta. set (d1 := with_op _ d).
  change (link_cmd_func_table !! Z.to_nat (op_cmd d1)) with (Some (link_cmd_read (S := S))). cbv iota. unfold link_cmd_read.
  assert (E1 : op_s32 d1 1 = s32 fd) by (eapply (field1 d1 _ fd); reflexivity). rewrite E1, Hfd, Z.eqb_refl. cbn [negb].
  set (d2 := errno_if_failed _). unfold send_reply.
  assert (Ec : op_cmd d2 = LINK_CMD_READ) by (unfold d2, errno_if_failed; by destruct (_ <? 0)). rewrite Ec. cbn [negb].
  change (negb (LINK_CMD_READ =? 0)) with true. cbv iota. destruct fuel as [|fuel]; [done|]. unfold mread. cbn [run].
  change (Zlen (reply_bytes d2)) with SIZEOF_REPLY. rewrite (proj2 (Z.leb_le _ _)) by lia. change (SIZEOF_REPLY <? 0) with false. cbv iota.
  destruct fuel as [|fuel]; [done|]. cbn [run]. by destruct fuel.
Qed.
(** The longest path [link_unlink] lets through is one byte too long for the device when both have the same
    limit: the device drops it and the host's path meets the reply. *)
Theorem unlink_longest_path_loses_step p d fuel : Zlen p = host_path_max -> host_path_max = dev_path_max ->
  run fuel link_update (link_unlink p) (link_update d) = None.
Proof using LO.
  intros Hh Hd. pose proof lo_packet as Hp. unfold SIZEOF_OP in Hp. destruct lo_limits as [Hlim _]. pose proof (Zlen_nonneg p).
  unfold link_unlink, checked_path, strnlen. rewrite (proj2 (Z.ltb_ge _ _)) by lia. destruct fuel as [|fuel]; [done|].
  unfold mwrite. cbn [run link_update].
  assert (Ew : ends_for SIZEOF_OP (LINK_CMD_UNLINK :: le32 (Zlen p + 1)) = true).
  { unfold ends_for. change (Zlen (LINK_CMD_UNLINK :: le32 (Zlen p + 1))) with 5. rewrite Z.mod_small by lia. done. }
  rewrite Ew. change (Zlen (LINK_CMD_UNLINK :: le32 (Zlen p + 1)) <=? 0) with false.
  change (Zlen (LINK_CMD_UNLINK :: le32 (Zlen p + 1)) <? 0) with false. cbv iota zeta. set (d1 := with_op _ d).
  change (link_cmd_func_table !! Z.to_nat (op_cmd d1)) with (Some (link_cmd_unlink (S := S))). cbv iota. unfold link_cmd_unlink, on_link_path, read_path.
  assert (E1 : op_u32 d1 1 = u32 (Zlen p + 1)) by (eapply (field1 d1 _ (Zlen p + 1)); reflexivity).
  rewrite E1. assert (Hb : (dev_path_max <? u32 (Zlen p + 1)) = true \/ Zlen p + 1 = 2 ^ 32).
  { destruct (decide (Zlen p + 1 < 2 ^ 32)); [left; rewrite u32_id by lia; apply Z.ltb_lt; lia|right; lia]. }
  destruct Hb as [->|Hb]; [by destruct fuel|]. rewrite Hb. change (u32 (2 ^ 32)) with 0. rewrite (proj2 (Z.ltb_ge _ _)) by lia.
  destruct fuel as [|fuel]; [done|]. cbn [run]. assert (En : ends_for 0 (whole_path p) = false).
  { unfold ends_for. rewrite Zlen_whole. rewrite (proj2 (Z.eqb_neq _ _)), (proj2 (Z.ltb_ge _ _)) by lia. done. }
  by rewrite En.
Qed.
End Correct.

(** ** A device with one file *)

(** The state has an error number and the bytes of the file that have not been read; everything but
    reading fails. *)
Definition one_file {S} (errno : S -> Z) (data : S -> list Z) (set : Z -> list Z -> S -> S) : Posix S :=
  let fails (e : Z) (s : S) : S * Z := (set e (data s) s, -1) in {|
  px_errno := errno;
  px_set_errno e s := set e (data s) s;
  px_open p _ _ s := if bool_decide (p = [97]) then (s, 3) else fails ENOENT s;
  px_close fd s := if fd =? 3 then (s, 0) else fails EBADF s;
  px_read fd n s := (set (errno s) (drop (Z.to_nat n) (data s)) s, Zlen (take (Z.to_nat n) (data s)), take (Z.to_nat n) (data s));
  px_write _ _ := fails EACCES;
  px_lseek _ _ _ := fails EINVAL;
  px_ioctl _ _ _ := fails ENOTSUP;
  px_ioctl_buf _ _ b s := (fails ENOTSUP s, b);
  px_link _ _ := fails ENOTSUP;
  px_unlink _ := fails ENOTSUP;
  px_stat _ s := (fails ENOENT s, replicate 11 0);
  px_fstat _ s := (fails EBADF s, replicate 11 0);
  px_mkdir _ _ := fails ENOTSUP;
  px_rmdir _ := fails ENOTSUP;
  px_opendir _ s := (s, 0);
  px_readdir _ s := (fails EBADF s, (0, []));
  px_closedir _ := fails EBADF;
  px_rename _ _ := fails ENOTSUP;
  px_chown _ _ _ := fails ENOTSUP;
  px_chmod _ _ := fails ENOTSUP;
  px_exec _ := fails ENOENT;
  px_mkfs _ := fails ENOTSUP |}.
Lemma one_file_ok {S} errno data (set : Z -> list Z -> S -> S) : PosixOk (one_file errno data set).
Proof. by split. Qed.
#[local] Abbreviation small_posix := (one_file fst snd (fun e l _ => (e, l))).
Definition small_link : LinkConfig := {|
  dev_path_max := 256; dev_arg_max := 512; link_handle := 5; serial_chars := [49; 50]; stack_bytes n := replicate (Z.to_nat n) 0;
  host_path_max := 256; host_arg_max := 512 |}.
Lemma small_link_ok V : SIZEOF_OP < data_size -> v_bad_ack v_nack < LINK_TIMEOUT_ERROR -> LinkOk V small_link.
Proof.
  intros H1 H2. split; [done|done| |by split]. intros n Hn. cbn [stack_bytes small_link]. unfold Zlen. rewrite length_replicate. lia.
Qed.
(** The flags of Linux. *)
Definition linux_flags : HostFlags := {|
  H_O_CREAT := 64; H_O_APPEND := 1024; H_O_EXCL := 128; H_O_RDWR := 2; H_O_NONBLOCK := 2048; H_O_WRONLY := 1; H_O_TRUNC := 512 |}.
Definition small_device : dstate (S := Z * list Z) := mk_dstate (replicate 13 0) 0 0 (0, [10; 20; 30; 40; 50]).
Definition small_session : list call := [COpen [97] 0 0; CRead 3 4; CStat [98]; CWrite 3 [1]; CRead 3 4; CSerial 8; CClose 3].
Lemma remote_session_witness : exists dv' (d' : dstate (S := Z * list Z)),
  session (V := link2) (P := small_posix) (C := small_link) (HF := linux_flags) (DRet small_device) small_session
    [mk_answer 3 None []; mk_answer 4 None [10; 20; 30; 40]; mk_answer (-1) (Some ENOENT) (replicate 9 0); mk_answer LINK_PHY_ERROR None [];
     mk_answer 1 None [50]; mk_answer 0 None [49; 50]; mk_answer 0 None []] dv' /\ d_sys d' = (0, []).
Proof.
  destruct (remote_session (V := link2) (P := small_posix) (C := small_link) (HF := linux_flags) (PO := one_file_ok _ _ _)
    (LO := small_link_ok link2 ltac:(by vm_compute) ltac:(by vm_compute)) small_session (DRet small_device) small_device
    (conj (or_introl eq_refl) eq_refl) ltac:(repeat split; try (by vm_compute); repeat constructor; by vm_compute)) as (dv' & d' & H1 & _ & H3).
  exists dv', d'. split; [exact H1|exact H3].
Defined.
