(* ===== verification/RemoteFiles.v ===== *)
(** * Files over the link

    The system calls of [Files.v] as those a device makes for its host ([Remote.v]): the
    instance of [Posix] for a process, and what a host that reads a file over the link gets. *)
From S2P Require Import Prelude Task Scheduler Paths Files Memory Link Transport Remote.

(** A path of a message as a string; [whence] as a number ([SEEK_SET] is 0). *)
Definition chars (l : list Z) : path := (fun b => Ascii.ascii_of_N (Z.to_N b)) <$> l.
Definition whence_of (w : Z) : whence_t :=
  if w =? 0 then SEEK_SET else if w =? 1 then SEEK_CUR else if w =? 2 then SEEK_END else SEEK_OTHER.

Section Process.
Context {L : PosixLimits} {F : Type} {C : SosConfig F} (after : path).
(** The calls that [Files.v] does not have, or has without the data they store. *)
Context (rest : Posix (process F)).

Definition process_posix : Posix (process F) := {|
  px_errno := p_errno;
  px_set_errno := set_errno;
  px_open name flags mode p := _open after (chars name) flags mode p;
  px_close := _close after;
  px_read := _read after;
  px_write fd l p := _write after fd l (Zlen l) p;
  px_lseek fd offset w p := _lseek after fd offset (whence_of w) p;
  px_ioctl := ioctl after;
  px_ioctl_buf := px_ioctl_buf;
  px_link := px_link;
  px_unlink name p := _unlink after (chars name) p;
  px_stat := px_stat;
  px_fstat := px_fstat;
  px_mkdir name mode p := mkdir after (chars name) mode p;
  px_rmdir name p := rmdir after (chars name) p;
  px_opendir := px_opendir;
  px_readdir := px_readdir;
  px_closedir := px_closedir;
  px_rename old new p := _rename after (chars old) (chars new) p;
  px_chown name uid gid p := chown after (chars name) uid gid p;
  px_chmod name mode p := chmod after (chars name) mode p;
  px_exec := px_exec;
  px_mkfs name p := mkfs (chars name) p |}.

Lemma process_posix_ok : PosixOk rest -> PosixOk process_posix.
Proof. intros [H1 H2 H3]. by split. Qed.
End Process.

(** ** A file as its reader sees it *)

(** The contents and a position. *)
Inductive file_op := FRead (n : Z) | FSeek (offset w : Z).
Definition file_step (c : list Z) (loc : Z) (op : file_op) : Z * answer :=
  match op with
  | FRead n => let out := take (Z.to_nat n) (drop (Z.to_nat loc) c) in (loc + Zlen out, mk_answer (Zlen out) None out)
  | FSeek offset w =>
      match seek_target (Zlen c) loc offset (whence_of w) with
      | Some pos => (pos, mk_answer pos (Some 0) [])
      | None => (loc, mk_answer (-1) (Some EINVAL) [])
      end
  end.
Fixpoint file_steps (c : list Z) (loc : Z) (ops : list file_op) : Z * list answer :=
  match ops with
  | [] => (loc, [])
  | op :: ops => let '(loc, a) := file_step c loc op in let '(loc, answers) := file_steps c loc ops in (loc, a :: answers)
  end.
(** Sizes and offsets are 32 bits wide; a seek does not go before the start or beyond 2^31. *)
Definition file_op_ok (c : list Z) (loc : Z) (op : file_op) : Prop :=
  match op with
  | FRead n => 0 <= n < 2 ^ 31
  | FSeek offset w => - 2 ^ 31 <= offset < 2 ^ 31 /\ 0 <= w <= 2 /\ 0 <= (file_step c loc op).1 < 2 ^ 31
  end.
Fixpoint file_ops_ok (c : list Z) (loc : Z) (ops : list file_op) : Prop :=
  match ops with
  | [] => True
  | op :: ops => file_op_ok c loc op /\ file_ops_ok c (file_step c loc op).1 ops
  end.
Definition call_of (fd : Z) (op : file_op) : call :=
  match op with
  | FRead n => CRead fd n
  | FSeek offset w => CLseek fd offset w
  end.

Section Reads.
Context {V : Version} {LC : LinkConfig} {HF : HostFlags} {LO : LinkOk V LC}.
Context {L : PosixLimits} {F : Type} {C : SosConfig F} (after : path) (rest : Posix (process F)) {RO : PosixOk rest}.
Context (fs : sysfs_t F) {FC : FileContents fs}.
Implicit Types (p : process F).
#[local] Existing Instance process_posix.
#[local] Abbreviation posix := (process_posix after rest).
#[local] Abbreviation dstate := (Remote.dstate (S := process F)).

Lemma reading_errno p fd c loc e : reading fs p fd c loc -> reading fs (set_errno e p) fd c loc.
Proof using Type. intros [? ? ? ? ? ? ?]. by split. Qed.
Lemma take_more {A} (l : list A) n m : 0 <= m <= n -> Zlen (take (Z.to_nat m) l) = m ->
  take (Z.to_nat n) l = take (Z.to_nat m) l ++ take (Z.to_nat (n - m)) (drop (Z.to_nat m) l).
Proof using Type.
  intros Hm Hl. replace (Z.to_nat n) with (Z.to_nat m + Z.to_nat (n - m))%nat by lia. by rewrite take_take_drop.
Qed.
(** The packets of a read are pieces of the file; a packet that is not full is the last. *)
Lemma read_pieces_contents fd c n : 0 <= n < 2 ^ 31 -> forall fuel bytes p loc, reading fs p fd c loc -> 0 <= bytes <= n ->
  n - bytes < Z.of_nat fuel ->
  let out := take (Z.to_nat (n - bytes)) (drop (Z.to_nat loc) c) in
  exists p', read_pieces (P := posix) fuel fd n bytes p = (p', out, bytes + Zlen out) /\ reading fs p' fd c (loc + Zlen out) /\ only_entry fd p p'.
Proof using LO.
  intros Hn. pose proof lo_packet as Hp. unfold SIZEOF_OP in Hp.
  induction fuel as [|fuel IH]; intros bytes p loc Hr Hb Hf out; [lia|]. cbn [read_pieces].
  assert (Hm : 0 <= next_size n bytes <= n - bytes) by (unfold next_size; bool_cases; lia).
  assert (Hm2 : next_size n bytes <= data_size /\ (next_size n bytes = data_size \/ next_size n bytes = n - bytes)) by (unfold next_size; bool_cases; lia).
  destruct Hm2 as [Hm3 Hm2].
  set (m := next_size n bytes) in *. destruct (read_spec after fs p fd c loc m Hr ltac:(lia)) as (p1 & E & Hr1 & O1 & _).
  change (px_read fd m p) with (_read after fd m p). rewrite E. set (out1 := take (Z.to_nat m) (drop (Z.to_nat loc) c)) in *.
  pose proof (Zlen_nonneg out1). rewrite (proj2 (Z.ltb_ge (Zlen out1) 0)) by lia.
  assert (Hle : Zlen out1 <= m) by (unfold out1, Zlen; rewrite length_take; lia).
  assert (Hloc : 0 <= loc) by apply Hr.
  destruct ((bytes + Zlen out1 <? n) && (Zlen out1 =? data_size)) eqn:E2.
  - apply andb_true_iff in E2 as [E2%Z.ltb_lt E3%Z.eqb_eq]. assert (Em : Zlen out1 = m) by lia.
    destruct (IH (bytes + Zlen out1) p1 _ Hr1 ltac:(lia) ltac:(lia)) as (p' & -> & Hr' & O').
    assert (Eo : out = out1 ++ take (Z.to_nat (n - (bytes + Zlen out1))) (drop (Z.to_nat (loc + Zlen out1)) c)).
    { unfold out. rewrite (take_more _ (n - bytes) m) by (done || lia). rewrite drop_drop. fold out1. f_equal.
      replace (n - (bytes + Zlen out1)) with (n - bytes - m) by lia. do 2 f_equal. lia. }
    rewrite Eo, Zlen_app. exists p'. split; [by rewrite Z.add_assoc|]. split; [by rewrite Z.add_assoc|by eapply only_entry_trans].
  - assert (Eo : out = out1).
    { destruct Hm2 as [Em|Em]; [|unfold out, out1; by rewrite Em]. apply andb_false_iff in E2 as [E2%Z.ltb_ge|E2%Z.eqb_neq].
      - assert (Em2 : m = n - bytes) by lia. unfold out, out1. by rewrite Em2.
      - unfold out, out1 in *. unfold Zlen in *. rewrite length_take in *. rewrite !take_ge by lia. done. }
    rewrite Eo. exists p1. split; [|done]. f_equal. destruct (Z.eqb_spec (bytes + Zlen out1) 0); lia.
Qed.

Lemma reading_ok p fd c loc n : reading fs p fd c loc -> fd <> link_handle -> 0 <= n < 2 ^ 31 ->
  let out := take (Z.to_nat n) (drop (Z.to_nat loc) c) in
  call_ok (P := posix) (CRead fd n) p /\ exists p', local (P := posix) (CRead fd n) p = (p', mk_answer (Zlen out) None out) /\
    reading fs p' fd c (loc + Zlen out) /\ only_entry fd p p'.
Proof using LO.
  intros Hr Hfd Hn out. pose proof Hr as [_ [Hf Hm] _ _ _ _ _]. pose proof (Zlen_nonneg out).
  assert (Hle : Zlen out <= n) by (unfold out, Zlen; rewrite length_take; lia).
  destruct (read_pieces_contents fd c n Hn (S (Z.to_nat n)) 0 (set_errno 0 p) loc (reading_errno p fd c loc 0 Hr) ltac:(lia) ltac:(lia))
    as (p' & E & Hr' & O'). rewrite Z.sub_0_r in E, Hr'. fold out in E, Hr'. cbn [call_ok local]. unfold read_device.
  change (px_set_errno 0 p) with (set_errno 0 p). rewrite (s32_id fd) by lia. rewrite E. cbn [fst snd]. split; [done|].
  rewrite s32_id by lia. exists p'. split; [|done]. by rewrite (proj2 (Z.ltb_ge (0 + Zlen out) 0)) by lia.
Qed.
Lemma seeking_ok p fd c loc offset w : reading fs p fd c loc -> file_op_ok c loc (FSeek offset w) ->
  let '(loc', a) := file_step c loc (FSeek offset w) in
  exists p', local (P := posix) (CLseek fd offset w) p = (p', a) /\ reading fs p' fd c loc' /\ only_entry fd p p'.
Proof using Type.
  intros Hr (Ho & Hw & Hpos). pose proof Hr as [_ [Hf Hm] _ _ _ _ _]. cbn [file_step] in *.
  destruct (seek_target (Zlen c) loc offset (whence_of w)) as [pos|] eqn:E.
  - cbn [fst] in Hpos. destruct (lseek_spec after fs p fd c loc offset (whence_of w) pos Hr Ho E Hpos) as (p' & El & Hr' & O').
    exists p'. split; [|done]. cbn [local]. rewrite !s32_id by lia.
    change (px_lseek fd offset w p) with (_lseek after fd offset (whence_of w) p). rewrite El, s32_id by lia.
    by rewrite (proj2 (Z.ltb_ge pos 0)) by lia.
  - exfalso. assert (w = 0 \/ w = 1 \/ w = 2) as [-> |[-> | ->]] by lia; done.
Qed.
Lemma file_op_served p fd c loc op : reading fs p fd c loc -> fd <> link_handle -> file_op_ok c loc op ->
  let '(loc', a) := file_step c loc op in
  call_ok (P := posix) (call_of fd op) p /\
  exists p', local (P := posix) (call_of fd op) p = (p', a) /\ reading fs p' fd c loc' /\ only_entry fd p p'.
Proof using LO.
  intros Hr Hfd Hop. destruct op as [n|offset w]; [by apply reading_ok|].
  pose proof (seeking_ok p fd c loc offset w Hr Hop) as H. cbn [call_of call_ok]. by destruct (file_step _ _ _).
Qed.
(** C14: The file of a device over the link is its contents and a position: a host that reads and seeks on an
    open descriptor gets, call after call, the bytes from the position on, however the transport
    cuts them into packets, up to the end of the file, and the positions it seeks to; the
    descriptor on the device is at the position of the abstract file, the others have not moved,
    and the device waits for the next command. *)
Theorem remote_file ops : forall dv (d : dstate) fd c loc, ready (P := posix) dv d -> reading fs (d_sys d) fd c loc -> fd <> link_handle ->
  file_ops_ok c loc ops -> exists dv' d',
    session (P := posix) dv (call_of fd <$> ops) (file_steps c loc ops).2 dv' /\ ready (P := posix) dv' d' /\
    reading fs (d_sys d') fd c (file_steps c loc ops).1 /\ only_entry fd (d_sys d) (d_sys d').
Proof using LO RO.
  induction ops as [|op ops IH]; intros dv d fd c loc Hd Hr Hfd Hok; cbn [file_steps fmap list_fmap file_ops_ok] in *.
  - exists dv, d. split; [constructor|]. split; [done|]. split; [done|]. split; [apply Hr|done].
  - destruct Hok as [Hop Hok]. pose proof (file_op_served (d_sys d) fd c loc op Hr Hfd Hop) as H.
    destruct (file_step c loc op) as [loc1 a]. destruct H as (Hc & p1 & El & Hr1 & O1).
    destruct (call_served (P := posix) (PO := process_posix_ok after rest RO) (call_of fd op) dv d Hd Hc) as (fuel & dv1 & d1 & E & Hd1 & Hs1).
    rewrite El in E, Hs1. cbn [fst snd] in *. rewrite <- Hs1 in Hr1, O1.
    destruct (IH dv1 d1 fd c loc1 Hd1 Hr1 Hfd Hok) as (dv' & d' & Hse & Hd' & Hr' & O').
    destruct (file_steps c loc1 ops) as [loc2 answers]. cbn [fst snd] in *. exists dv', d'.
    split; [econstructor; [exact E|exact Hse]|]. split; [done|]. split; [done|]. by eapply only_entry_trans.
Qed.
End Reads.

(** ** The file of the demonstration over the link *)

Definition no_calls : Posix (process (list Z)) := one_file p_errno p_fs (fun e l p => with_fs l (set_errno e p)).
Definition demo_device : dstate (S := process (list Z)) := mk_dstate (replicate 13 0) 0 0 demo_opened.
Lemma remote_file_witness : exists dv',
  session (V := link1) (C := small_link) (HF := linux_flags) (P := @process_posix example_limits _ demo_config [] no_calls)
    (DRet demo_device) [CRead 0 2; CRead 0 9; CLseek 0 (-2) 2; CRead 0 1]
    [mk_answer 2 None [10; 20]; mk_answer 3 None [30; 40; 50]; mk_answer 3 (Some 0) []; mk_answer 1 None [40]] dv'.
Proof.
  destruct (remote_file (V := link1) (LC := small_link) (HF := linux_flags) (LO := small_link_ok link1 ltac:(by vm_compute) ltac:(by vm_compute))
    (L := example_limits) (C := demo_config) [] no_calls (RO := one_file_ok _ _ _) demo_fs (FC := demo_contents)
    [FRead 2; FRead 9; FSeek (-2) 2; FRead 1] (DRet demo_device) demo_device 0 [10; 20; 30; 40; 50] 0
    (conj (or_introl eq_refl) eq_refl) demo_reading ltac:(done) ltac:(repeat split; by vm_compute)) as (dv' & d' & H & _).
  exists dv'. exact H.
Defined.
