(* ===== verification/Switchboard.v ===== *)
(** * The switchboard

    [src/device/switchboard.c]: connections that read one device and write another without a
    thread.  A connection has two buffers: while one is written the other is read into.  Its
    functions run from the calls of the ioctl and from the handlers of the transfers it has under way.

    The devices are the class [Terminals] over a state [D]; the address of a device is 0 when
    the pointer is NULL, and using it then is a fault: the function gives [None].  The buffers
    of all connections are in a memory that the devices store into. *)
From S2P Require Import Prelude Devfs Memory Link Paths Transfer.

Definition SWITCHBOARD_VERSION : Z := 0x030600.
Definition FLAG_CONNECT : Z := 1.
Definition FLAG_DISCONNECT : Z := 2.
Definition FLAG_IS_PERSISTENT : Z := 4.
Definition FLAG_IS_CONNECTED : Z := 8.
Definition FLAG_IS_READING_ASYNC : Z := 16.
Definition FLAG_IS_WRITING_ASYNC : Z := 32.
Definition FLAG_IS_ERROR : Z := 64.
Definition FLAG_SET_TRANSACTION_LIMIT : Z := 128.
Definition FLAG_IS_FILL_ZERO : Z := 256.
Definition FLAG_IS_INPUT_NON_BLOCKING : Z := 512.
Definition FLAG_IS_OUTPUT_NON_BLOCKING : Z := 1024.
Definition FLAG_IS_DESTROYED : Z := 2048.
Definition FLAG_IS_FILL_LAST_8 : Z := 4096.
Definition FLAG_IS_FILL_LAST_16 : Z := 8192.
Definition FLAG_IS_FILL_LAST_32 : Z := 16384.
Definition FLAG_IS_FILL_LAST_64 : Z := 32768.
Definition FLAG_CLEAN : Z := 65536.
Definition FLAG_IS_CANCELED : Z := 131072.
Definition FILL_FLAGS : Z :=
  Z.lor FLAG_IS_FILL_ZERO (Z.lor FLAG_IS_FILL_LAST_8 (Z.lor FLAG_IS_FILL_LAST_16 (Z.lor FLAG_IS_FILL_LAST_32 FLAG_IS_FILL_LAST_64))).
Definition ENOEXEC : Z := 8.
Definition ENODATA : Z := 61.
Definition SYSFS_RETURN_EOF : Z := -1.

(** More flags of the SDK's headers. *)
Class McuStop := { MCU_EVENT_FLAG_STOP : Z; MCU_EVENT_FLAG_ERROR : Z; MCU_EVENT_FLAG_SET_PRIORITY : Z }.

(** [switchboard_state_terminal_t]; the handler of a transfer is one of the two functions below, with
    the connection as its context. *)
Inductive callback := handle_data_ready_cb | handle_write_complete_cb.
Record switchboard_state_terminal_t := mk_terminal {
  t_device : Z; t_tid : Z; t_flags : Z; t_loc : Z; t_buf : Z; t_nbyte : Z; t_handler : option (callback * Z); t_bytes : Z }.
(** [switchboard_state_t]; [c_handler] is the context of the user's callback. *)
Record switchboard_state_t := mk_connection {
  c_flags : Z; c_input : switchboard_state_terminal_t; c_output : switchboard_state_terminal_t; c_nbyte : Z;
  c_buffer0 : Z; c_buffer1 : Z; c_bytes0 : Z; c_bytes1 : Z; c_limit : Z; c_packet : Z; c_handler : option Z }.
Definition null_terminal : switchboard_state_terminal_t := mk_terminal 0 0 0 0 0 0 None 0.
Definition null_connection : switchboard_state_t := mk_connection 0 null_terminal null_terminal 0 0 0 0 0 0 0 None.
#[export] Instance connection_inhabited : Inhabited switchboard_state_t := populate null_connection.

Definition with_flags f c := mk_connection f (c_input c) (c_output c) (c_nbyte c) (c_buffer0 c) (c_buffer1 c) (c_bytes0 c) (c_bytes1 c) (c_limit c) (c_packet c) (c_handler c).
Definition with_input t c := mk_connection (c_flags c) t (c_output c) (c_nbyte c) (c_buffer0 c) (c_buffer1 c) (c_bytes0 c) (c_bytes1 c) (c_limit c) (c_packet c) (c_handler c).
Definition with_output t c := mk_connection (c_flags c) (c_input c) t (c_nbyte c) (c_buffer0 c) (c_buffer1 c) (c_bytes0 c) (c_bytes1 c) (c_limit c) (c_packet c) (c_handler c).
Definition with_nbyte n c := mk_connection (c_flags c) (c_input c) (c_output c) n (c_buffer0 c) (c_buffer1 c) (c_bytes0 c) (c_bytes1 c) (c_limit c) (c_packet c) (c_handler c).
Definition with_bytes b0 b1 c := mk_connection (c_flags c) (c_input c) (c_output c) (c_nbyte c) (c_buffer0 c) (c_buffer1 c) b0 b1 (c_limit c) (c_packet c) (c_handler c).
Definition with_handler h c := mk_connection (c_flags c) (c_input c) (c_output c) (c_nbyte c) (c_buffer0 c) (c_buffer1 c) (c_bytes0 c) (c_bytes1 c) (c_limit c) (c_packet c) h.
Definition t_with_buf b t := mk_terminal (t_device t) (t_tid t) (t_flags t) (t_loc t) b (t_nbyte t) (t_handler t) (t_bytes t).
Definition t_with_nbyte n t := mk_terminal (t_device t) (t_tid t) (t_flags t) (t_loc t) (t_buf t) n (t_handler t) (t_bytes t).
Definition t_with_bytes n t := mk_terminal (t_device t) (t_tid t) (t_flags t) (t_loc t) (t_buf t) (t_nbyte t) (t_handler t) n.
Definition set_flag f c := with_flags (Bits.set (c_flags c) f) c.
Definition clear_flag f c := with_flags (Bits.clear (c_flags c) f) c.

(** ** The buffers *)

(** The bytes in the buffer at [p]. *)
Definition bytes_at (c : switchboard_state_t) (p : Z) : Z := if p =? c_buffer0 c then c_bytes0 c else c_bytes1 c.
Definition set_bytes_at (p n : Z) (c : switchboard_state_t) : switchboard_state_t :=
  if p =? c_buffer0 c then with_bytes (u16 n) (c_bytes1 c) c else with_bytes (c_bytes0 c) (u16 n) c.
Definition other_buffer (c : switchboard_state_t) (p : Z) : Z := if p =? c_buffer0 c then c_buffer1 c else c_buffer0 c.
Definition is_ready_to_read_device (c : switchboard_state_t) : bool :=
  if Bits.any (c_flags c) FLAG_IS_READING_ASYNC then false
  else if (t_nbyte (c_input c) <=? 0) || (c_nbyte c <? 0) then false
  else bytes_at c (t_buf (c_input c)) =? 0.
Definition switch_input_buffer (bytes_read : Z) (c : switchboard_state_t) : switchboard_state_t :=
  let p := t_buf (c_input c) in
  with_input (t_with_buf (other_buffer c p) (c_input c)) (set_bytes_at p bytes_read c).
Definition switch_output_buffer (c : switchboard_state_t) : switchboard_state_t :=
  let p := t_buf (c_output c) in
  with_output (t_with_buf (other_buffer c p) (c_output c)) (set_bytes_at p 0 c).
(** The test also sets the number of bytes to write. *)
Definition is_ready_to_write_device (c : switchboard_state_t) : switchboard_state_t * bool :=
  if Bits.any (c_flags c) FLAG_IS_WRITING_ASYNC then (c, false)
  else if (t_nbyte (c_output c) <? 0) || (c_nbyte c <? 0) then (c, false)
  else
    let n := bytes_at c (t_buf (c_output c)) in
    (with_output (t_with_nbyte n (c_output c)) c, 0 <? n).
(** The difference and the comparison are unsigned. *)
Definition update_bytes_transferred (nbyte : Z) (t : switchboard_state_terminal_t) : switchboard_state_terminal_t :=
  let t := t_with_bytes (u32 (t_bytes t + t_nbyte t)) t in
  if 0 <? nbyte then
    if u32 (t_nbyte t) <? u32 (nbyte - t_bytes t) then t_with_nbyte (s32 (nbyte - t_bytes t)) t else t
  else if nbyte <? 0 then t_with_nbyte (-1) t else t.
Definition complete_read (bytes_read : Z) (c : switchboard_state_t) : switchboard_state_t :=
  let c := with_input (update_bytes_transferred (c_nbyte c) (c_input c)) c in
  let c := switch_input_buffer bytes_read c in
  if 0 <? t_nbyte (c_input c) then with_input (t_with_nbyte (c_packet c) (c_input c)) c else c.
Definition complete_write (c : switchboard_state_t) : switchboard_state_t :=
  let c := with_output (update_bytes_transferred (c_nbyte c) (c_output c)) c in
  switch_output_buffer c.

(** ** Devices *)

(** Reading gives the bytes the device stores in the buffer; 0 says that the handler will be run.
    [dev_priority] is the ioctl that sets a priority. *)
Class Terminals (D : Type) := {
  dev_open : Z -> D -> D * Z;
  dev_close : Z -> D -> D * Z;
  dev_priority : Z -> Z -> Z -> Z -> D -> D * Z;     (** channel, priority, events *)
  dev_read : Z -> switchboard_state_terminal_t -> D -> D * Z * list Z;
  dev_write : Z -> switchboard_state_terminal_t -> list Z -> D -> D * Z }.

(** A connection with the devices, the memory and the events given to users' callbacks. *)
Record env (D : Type) := mk_env { e_conn : switchboard_state_t; e_dev : D; e_mem : mem; e_log : list (Z * Z) }.
Arguments mk_env {D}.
Arguments e_conn {D}.
Arguments e_dev {D}.
Arguments e_mem {D}.
Arguments e_log {D}.

Section Connection.
Context {ev : McuEvents} {es : McuStop} {D : Type} {T : Terminals D}.
Implicit Types (e : env D).

Definition on_conn (f : switchboard_state_t -> switchboard_state_t) e := mk_env (f (e_conn e)) (e_dev e) (e_mem e) (e_log e).
Definition with_dev (d : D) e := mk_env (e_conn e) d (e_mem e) (e_log e).
Definition with_mem (m : mem) e := mk_env (e_conn e) (e_dev e) m (e_log e).
Definition execute_event_handler (handler : option Z) (o_events : Z) e : env D :=
  match handler with
  | Some context => mk_env (e_conn e) (e_dev e) (e_mem e) (e_log e ++ [(context, o_events)])
  | None => e
  end.

Definition open_terminal (t : switchboard_state_terminal_t) e : option (env D * Z) :=
  if t_device t =? 0 then None else let '(d, r) := dev_open (t_device t) (e_dev e) in Some (with_dev d e, r).
Definition close_terminal (t : switchboard_state_terminal_t) e : option (env D * Z) :=
  if t_device t =? 0 then None else let '(d, r) := dev_close (t_device t) (e_dev e) in Some (with_dev d e, r).
Definition close_connection e : option (env D) :=
  '(e, _) ← close_terminal (c_input (e_conn e)) e;
  '(e, _) ← close_terminal (c_output (e_conn e)) e;
  let e := on_conn (clear_flag FLAG_IS_CONNECTED) e in
  Some (if Bits.any (c_flags (e_conn e)) FLAG_IS_DESTROYED then on_conn (fun _ => null_connection) e else e).
Definition abort_connection e : option (env D) :=
  e ← (if negb (Bits.any (c_flags (e_conn e)) FLAG_IS_ERROR)
       then '(e, _) ← close_terminal (c_input (e_conn e)) e;
            '(e, _) ← close_terminal (c_output (e_conn e)) e; Some e
       else Some e);
  Some (on_conn (fun _ => null_connection) e).
(** The callback is looked up after the connection was closed. *)
Definition check_for_stopped_or_destroyed e : option (env D * bool) :=
  if c_nbyte (e_conn e) <? 0 then
    let o_events := Bits.set MCU_EVENT_FLAG_STOP MCU_EVENT_FLAG_CANCELED in
    let o_events := if Bits.any (c_flags (e_conn e)) FLAG_IS_ERROR then Bits.set o_events MCU_EVENT_FLAG_ERROR else o_events in
    e ← close_connection e;
    Some (execute_event_handler (c_handler (e_conn e)) o_events e, true)
  else Some (e, false).

Definition write_to_device e : option (env D * Z) :=
  let '(c, ready) := is_ready_to_write_device (e_conn e) in
  let e := on_conn (fun _ => c) e in
  if ready then
    let t := c_output c in
    if t_device t =? 0 then None else
    let '(d, ret) := dev_write (t_device t) t (load_list (e_mem e) (t_buf t) (t_nbyte t)) (e_dev e) in
    let e := with_dev d e in
    Some (if ret =? 0 then (on_conn (set_flag FLAG_IS_WRITING_ASYNC) e, 0)
          else if 0 <? ret then (on_conn complete_write e, ret)
          else if SYSFS_GET_RETURN_ERRNO ret =? EAGAIN then (e, 0)
          else (on_conn (with_nbyte ret) e, ret))
  else Some (e, 0).

(** [ptr[i] = value] for the first [count] elements of [w] bytes; the value is the element behind
    them. *)
Definition fill_last (w buf nbyte : Z) (m : mem) : mem :=
  let count := nbyte / w - 1 in for_range 0 count (fun i => memcpy (buf + w * i) (buf + w * count) w) m.
Definition fill_buffer (c : switchboard_state_t) (m : mem) : mem :=
  let buf := t_buf (c_input c) in
  let nbyte := t_nbyte (c_input c) in
  let f := c_flags c in
  if Bits.any f FLAG_IS_FILL_ZERO then memset buf 0 nbyte m
  else if Bits.any f FLAG_IS_FILL_LAST_8 then fill_last 1 buf nbyte m
  else if Bits.any f FLAG_IS_FILL_LAST_16 then fill_last 2 buf nbyte m
  else if Bits.any f FLAG_IS_FILL_LAST_32 then fill_last 4 buf nbyte m
  else if Bits.any f FLAG_IS_FILL_LAST_64 then fill_last 8 buf nbyte m
  else m.
(** The flags are joined with [|], where [&] is meant. *)
Definition filled_read e ret : env D * Z :=
  let c := e_conn e in
  let ret := if Bits.any (c_flags c) FILL_FLAGS then ret else 0 in
  let e := with_mem (fill_buffer c (e_mem e)) e in
  if negb (Z.lor (c_flags c) FILL_FLAGS =? 0) then (on_conn (complete_read (t_nbyte (c_input c))) e, t_nbyte (c_input c)) else (e, ret).
Definition read_from_device e : option (env D * Z) :=
  let c := e_conn e in
  if is_ready_to_read_device c then
    let t := c_input c in
    if t_device t =? 0 then None else
    let '(d, ret, bytes) := dev_read (t_device t) t (e_dev e) in
    let e := with_mem (store_list (t_buf t) bytes (e_mem e)) (with_dev d e) in
    Some (if ret =? 0 then (on_conn (set_flag FLAG_IS_READING_ASYNC) e, 0)
          else if 0 <? ret then (on_conn (complete_read ret) e, ret)
          else if SYSFS_GET_RETURN_ERRNO ret =? EAGAIN then filled_read e ret
          else (on_conn (with_nbyte ret) e, ret))
  else Some (e, 0).

(** The do-while loop; the limit of a connection is its fuel. *)
Fixpoint transactions_loop (fuel : nat) (transactions : Z) e : option (env D * Z * Z) :=
  match fuel with
  | O => None
  | S fuel =>
      '(e, ret) ← read_from_device e;
      '(e, ret) ← (if ret =? 0 then write_to_device e else Some (e, ret));
      let transactions := transactions + 1 in
      if (0 <? ret) && (transactions <? c_limit (e_conn e)) then transactions_loop fuel transactions e
      else Some (e, ret, transactions)
  end.
Definition read_then_write_until_async e : option (env D * Z) :=
  '(e, stopped) ← check_for_stopped_or_destroyed e;
  if stopped : bool then Some (e, 0) else
  '(e, ret, transactions) ← transactions_loop (S (Z.to_nat (c_limit (e_conn e)))) 0 e;
  let e :=
    if transactions =? c_limit (e_conn e) then on_conn (with_nbyte (SYSFS_SET_RETURN 611 EDEADLK)) e
    else if negb (Bits.any (c_flags (e_conn e)) (Z.lor FLAG_IS_WRITING_ASYNC FLAG_IS_READING_ASYNC))
         then on_conn (with_nbyte (SYSFS_SET_RETURN 617 ENODATA)) e else e in
  '(e, _) ← check_for_stopped_or_destroyed e;
  Some (e, ret).

(** What both handlers do with a transfer that failed; [line] is where the number of the error is made. *)
Definition note_failure (line o_events nbyte : Z) (c : switchboard_state_t) : switchboard_state_t :=
  let c := if Bits.any o_events MCU_EVENT_FLAG_ERROR then set_flag FLAG_IS_ERROR c else c in
  let c := if Bits.any o_events MCU_EVENT_FLAG_CANCELED then set_flag FLAG_IS_CANCELED c else c in
  with_nbyte (if nbyte <? 0 then nbyte else SYSFS_SET_RETURN line EIO) c.
Definition failed_event (o_events nbyte : Z) : bool :=
  (nbyte <? 0) || Bits.any o_events (Z.lor MCU_EVENT_FLAG_CANCELED MCU_EVENT_FLAG_ERROR).
Definition handle_data_ready (o_events : Z) e : option (env D) :=
  let e := on_conn (clear_flag FLAG_IS_READING_ASYNC) e in
  let n := t_nbyte (c_input (e_conn e)) in
  let e := on_conn (if failed_event o_events n then note_failure 649 o_events n else complete_read n) e in
  '(e, _) ← read_then_write_until_async e;
  Some e.
Definition handle_write_complete (o_events : Z) e : option (env D) :=
  let e := on_conn (clear_flag FLAG_IS_WRITING_ASYNC) e in
  let n := t_nbyte (c_output (e_conn e)) in
  e ← (if failed_event o_events n then Some (on_conn (note_failure 684 o_events n) e)
       else '(e, _) ← write_to_device (on_conn complete_write e); Some e);
  '(e, _) ← read_then_write_until_async e;
  Some e.
End Connection.

(** ** The table of connections *)

Record switchboard_config_t := mk_config {
  cfg_list : list devfs_device_t; cfg_count : Z; cfg_buffer_size : Z; cfg_limit : Z; cfg_buffer : Z }.
(** [switchboard_terminal_t] and [switchboard_attr_t]. *)
Record switchboard_terminal_t := mk_attr_terminal { at_name : path; at_loc : Z; at_bytes : Z; at_priority : Z }.
Record switchboard_attr_t := mk_attr {
  at_flags : Z; at_id : Z; at_limit : Z; at_input : switchboard_terminal_t; at_output : switchboard_terminal_t; at_nbyte : Z }.
Record board (D : Type) := mk_board { b_conns : list switchboard_state_t; b_dev : D; b_mem : mem; b_log : list (Z * Z) }.
Arguments mk_board {D}.
Arguments b_conns {D}.
Arguments b_dev {D}.
Arguments b_mem {D}.
Arguments b_log {D}.

Section Board.
Context {ev : McuEvents} {es : McuStop} {D : Type} {T : Terminals D}.
Context (config : switchboard_config_t) (current_task : Z).
Implicit Types (b : board D) (attr : switchboard_attr_t).

Definition conn b (id : Z) : switchboard_state_t := Zget (b_conns b) id.
Definition set_conn (id : Z) (c : switchboard_state_t) b : board D := mk_board (Zset (b_conns b) id c) (b_dev b) (b_mem b) (b_log b).
(** A function of connection [id]. *)
Definition env_of b (id : Z) : env D := mk_env (conn b id) (b_dev b) (b_mem b) (b_log b).
Definition put (id : Z) (e : env D) b : board D := mk_board (Zset (b_conns b) id (e_conn e)) (e_dev e) (e_mem e) (e_log e).
Definition at_conn (id : Z) (f : env D -> option (env D)) b : option (board D) := e ← f (env_of b id); Some (put id e b).

Definition lookup_device (name : path) : Z := match devfs_lookup_device (cfg_list config) name with Some d => dev_address d | None => 0 end.
Definition update_priority (device : Z) (t : switchboard_terminal_t) (o_events : Z) b : board D * Z :=
  if 0 <? at_priority t then
    let '(d, r) := dev_priority device (at_loc t) (at_priority t) (Bits.set o_events MCU_EVENT_FLAG_SET_PRIORITY) (b_dev b) in
    (mk_board (b_conns b) d (b_mem b) (b_log b), r)
  else (b, 0).
(** The line of the error when another connection has one of the devices. *)
Definition device_in_use (id input output : Z) b : option Z :=
  head (omap (fun i =>
    if i =? id then None
    else if input =? t_device (c_input (conn b i)) then Some 197
    else if output =? t_device (c_output (conn b i)) then Some 202 else None) (seqZ 0 (cfg_count config))).
(** The fields of a new connection. *)
Definition new_connection (id input output : Z) attr : switchboard_state_t :=
  let f := at_flags attr in
  let limit := if Bits.any f FLAG_SET_TRANSACTION_LIMIT then u16 (at_limit attr) else cfg_limit config in
  let buffer0 := cfg_buffer config + id * 2 * cfg_buffer_size config in
  let buffer1 := cfg_buffer config + (id * 2 + 1) * cfg_buffer_size config in
  let flags := Bits.set FLAG_IS_CONNECTED (Z.land f (Z.lor FLAG_IS_FILL_ZERO (Z.lor FLAG_IS_INPUT_NON_BLOCKING FLAG_IS_OUTPUT_NON_BLOCKING))) in
  let nbyte := at_nbyte attr in
  let '(flags, packet_size, nbyte) :=
    if Bits.any f FLAG_IS_PERSISTENT then
      (Bits.set flags FLAG_IS_PERSISTENT, u16 (if cfg_buffer_size config <? nbyte then cfg_buffer_size config else nbyte), 0)
    else (flags, u16 (if nbyte <? cfg_buffer_size config then nbyte else cfg_buffer_size config), nbyte) in
  let tflags (m : Z) := if Bits.any f m then Bits.set O_RDWR O_NONBLOCK else O_RDWR in
  let terminal device (m loc : Z) cb := mk_terminal device current_task (tflags m) loc buffer0 packet_size (Some (cb, id)) 0 in
  mk_connection flags (terminal input FLAG_IS_INPUT_NON_BLOCKING (at_loc (at_input attr)) handle_data_ready_cb)
    (terminal output FLAG_IS_OUTPUT_NON_BLOCKING (at_loc (at_output attr)) handle_write_complete_cb)
    nbyte buffer0 buffer1 0 0 limit packet_size None.
(** The terminals that are opened are those of connection 0. *)
Definition create_connection `{PosixLimits} attr b : option (board D * Z) :=
  let id := at_id attr in
  let reset := set_conn id null_connection in
  if negb (c_flags (conn b id) =? 0) then Some (b, SYSFS_SET_RETURN 174 EBUSY) else
  let b := reset b in
  let input := lookup_device (at_name (at_input attr)) in
  if input =? 0 then Some (b, SYSFS_SET_RETURN 182 ENOENT) else
  let output := lookup_device (at_name (at_output attr)) in
  if output =? 0 then Some (reset b, SYSFS_SET_RETURN 189 ENOENT) else
  match device_in_use id input output b with
  | Some line => Some (reset b, SYSFS_SET_RETURN line EBUSY)
  | None =>
      let b := set_conn id (new_connection id input output attr) b in
      '(e, r) ← open_terminal (c_input (conn b 0)) (env_of b 0);
      let b := put 0 e b in
      if r <? 0 then Some (reset b, SYSFS_SET_RETURN 267 EIO) else
      '(e, r) ← open_terminal (c_output (conn b 0)) (env_of b 0);
      let b := put 0 e b in
      if r <? 0 then
        '(e, _) ← close_terminal (c_input (conn b 0)) (env_of b 0);
        Some (reset (put 0 e b), SYSFS_SET_RETURN 273 EIO)
      else
      let '(b, r) := update_priority input (at_input attr) MCU_EVENT_FLAG_DATA_READY b in
      if r <? 0 then b ← at_conn id abort_connection b; Some (b, SYSFS_SET_RETURN 280 EIO) else
      let '(b, r) := update_priority output (at_output attr) MCU_EVENT_FLAG_WRITE_COMPLETE b in
      if r <? 0 then b ← at_conn id abort_connection b; Some (b, SYSFS_SET_RETURN 287 EIO) else
      '(e, r) ← read_then_write_until_async (env_of b id);
      let b := put id e b in
      if r <? 0 then b ← at_conn id abort_connection b; Some (b, SYSFS_SET_RETURN 300 EIO) else Some (b, 0)
  end.

(** A connection that goes on is cleared when it stops. *)
Definition destroyed (c : switchboard_state_t) : switchboard_state_t :=
  if Bits.any (c_flags c) (Z.lor FLAG_IS_ERROR FLAG_IS_CANCELED) then null_connection
  else with_nbyte (SYSFS_SET_RETURN 337 ENOEXEC) (set_flag FLAG_IS_DESTROYED c).
Definition destroy_connection (id : Z) b : board D * Z :=
  if id <? cfg_count config then (set_conn id (destroyed (conn b id)) b, 0)
  else (b, SYSFS_SET_RETURN 343 EINVAL).
Definition clean_connections b : board D * Z :=
  (for_range 0 (cfg_count config) (fun i b =>
     if Bits.any (c_flags (conn b i)) FLAG_IS_ERROR then (destroy_connection i b).1 else b) b, 0).

Inductive switchboard_request :=
| I_SWITCHBOARD_GETVERSION
| I_SWITCHBOARD_GETINFO
| I_SWITCHBOARD_SETATTR (attr : switchboard_attr_t)
| I_SWITCHBOARD_SETACTION (channel : Z) (handler : option Z)     (** and [I_MCU_SETACTION] *)
| I_other.
(** [switchboard_info_t]: flags, connections, buffer size, limit. *)
Definition switchboard_info : Z * Z * Z * Z :=
  (Z.lor FLAG_CONNECT (Z.lor FLAG_DISCONNECT FLAG_IS_PERSISTENT), cfg_count config, cfg_buffer_size config, cfg_limit config).
Definition switchboard_ioctl `{PosixLimits} (request : switchboard_request) b : option (board D * Z) :=
  match request with
  | I_SWITCHBOARD_GETVERSION => Some (b, SWITCHBOARD_VERSION)
  | I_SWITCHBOARD_GETINFO => Some (b, 0)
  | I_SWITCHBOARD_SETATTR attr =>
      let f := at_flags attr in
      if at_id attr <? cfg_count config then
        if Bits.any f FLAG_CONNECT then create_connection attr b
        else if Bits.any f FLAG_DISCONNECT then Some (destroy_connection (at_id attr) b)
        else if Bits.any f FLAG_CLEAN then Some (clean_connections b)
        else Some (b, 0)
      else Some (b, 0)
  | I_SWITCHBOARD_SETACTION channel handler =>
      if channel <? cfg_count config then
        let b := match handler, c_handler (conn b channel) with
                 | None, Some context => mk_board (b_conns b) (b_dev b) (b_mem b) (b_log b ++ [(context, MCU_EVENT_FLAG_CANCELED)])
                 | _, _ => b
                 end in
        Some (set_conn channel (with_handler handler (conn b channel)) b, 0)
      else Some (b, SYSFS_SET_RETURN 95 EINVAL)
  | I_other => Some (b, SYSFS_SET_RETURN 98 EINVAL)
  end.

(** The status of a connection: its terminals by name.  [old] is what the caller's buffer held. *)
Definition lookup_name (device : Z) : option path :=
  head (omap (fun d => if device =? dev_address d then Some (dev_name d) else None) (cfg_list config)).
Definition get_terminal (t : switchboard_state_terminal_t) (old : switchboard_terminal_t) : option switchboard_terminal_t :=
  name ← lookup_name (t_device t); Some (mk_attr_terminal name (u32 (t_loc t)) (t_bytes t) (at_priority old)).
Definition SIZEOF_CONNECTION : Z := 84.
Definition switchboard_read (nbyte loc : Z) (old : switchboard_attr_t) b : Z * option switchboard_attr_t :=
  if (nbyte =? SIZEOF_CONNECTION) && (u32 loc mod SIZEOF_CONNECTION =? 0) then
    let id := u32 loc / SIZEOF_CONNECTION in
    if id <? cfg_count config then
      let c := conn b id in
      if negb (c_flags c =? 0) then
        let nbyte := if Bits.any (c_flags c) FLAG_IS_PERSISTENT && (0 <=? c_nbyte c) then c_packet c else c_nbyte c in
        match get_terminal (c_input c) (at_input old) with
        | None => (SYSFS_SET_RETURN 123 EIO, None)
        | Some input =>
            match get_terminal (c_output c) (at_output old) with
            | None => (SYSFS_SET_RETURN 127 EIO, None)
            | Some output => (SIZEOF_CONNECTION, Some (mk_attr (c_flags c) (u16 id) (at_limit old) input output nbyte))
            end
        end
      else (SIZEOF_CONNECTION, Some (mk_attr 0 (u16 id) 0 (mk_attr_terminal [] 0 0 0) (mk_attr_terminal [] 0 0 0) 0))
    else (SYSFS_RETURN_EOF, None)
  else (SYSFS_SET_RETURN 141 EINVAL, None).
End Board.

(** ** A connection relays its input *)

(** What a driver's transfer does, as far as a connection sees it: a read that returns a positive number has
    stored so many bytes, at most those asked for; a write that returns one has taken so many bytes from the
    start of the buffer.  [got] is what the input has delivered, [sent] what the output has taken. *)
Class Relay {D} (T : Terminals D) (din dout : Z) := {
  got : D -> list Z;
  sent : D -> list Z;
  rl_read t d : let '(d', ret, bytes) := dev_read din t d in
    sent d' = sent d /\ got d' = got d ++ bytes /\ Forall (fun x => 0 <= x < 2 ^ 8) bytes /\
    (0 < ret -> ret = Zlen bytes /\ ret <= t_nbyte t) /\ (ret <= 0 -> bytes = []);
  rl_write t l d : let '(d', ret) := dev_write dout t l d in
    got d' = got d /\ sent d' = sent d ++ take (Z.to_nat ret) l;
  rl_close a d : got (dev_close a d).1 = got d /\ sent (dev_close a d).1 = sent d }.
(** The devices a connection works for: an input that does not say EAGAIN, and an output that takes whole
    buffers or nothing.  A device opened non-blocking is not such an input ([no_data_sends_buffer]), and one
    whose driver returns short counts, as [fifo.c] does, is not such an output ([short_write_loses_bytes]). *)
Class WholeRelay {D} (T : Terminals D) (din dout : Z) (R : Relay T din dout) : Prop := {
  wr_read t d : (dev_read din t d).1.2 < 0 -> SYSFS_GET_RETURN_ERRNO (dev_read din t d).1.2 <> EAGAIN;
  wr_write t l d : 0 < (dev_write dout t l d).2 -> (dev_write dout t l d).2 = Zlen l }.

Lemma Z_to_nat_le0 n : n <= 0 -> Z.to_nat n = 0%nat.
Proof. lia. Qed.

Section Relaying.
Context {ev : McuEvents} {es : McuStop} {D : Type} {T : Terminals D} (din dout : Z) {RL : Relay T din dout} {WR : WholeRelay T din dout RL}.
Context (Hdin : din <> 0) (Hdout : dout <> 0).
Implicit Types (e : env D) (c : switchboard_state_t).

Definition buf_in c : Z := t_buf (c_input c).
Definition buf_out c : Z := t_buf (c_output c).
(** The bytes read and not yet written, oldest first. *)
Definition queued e : list Z :=
  let c := e_conn e in
  load_list (e_mem e) (buf_out c) (bytes_at c (buf_out c)) ++
  load_list (e_mem e) (other_buffer c (buf_out c)) (bytes_at c (other_buffer c (buf_out c))).

(** The buffers of a connection that transfers without end. *)
Record running_conn c : Prop := {
  rc_buffers : c_buffer0 c + c_packet c <= c_buffer1 c;
  rc_packet : 0 < c_packet c < 2 ^ 16;
  rc_in : buf_in c = c_buffer0 c \/ buf_in c = c_buffer1 c;
  rc_out : buf_out c = c_buffer0 c \/ buf_out c = c_buffer1 c;
  rc_bytes : 0 <= c_bytes0 c <= c_packet c /\ 0 <= c_bytes1 c <= c_packet c;
  rc_order : (bytes_at c (buf_out c) = 0 /\ bytes_at c (other_buffer c (buf_out c)) = 0 /\ buf_in c = buf_out c) \/
    (0 < bytes_at c (buf_out c) /\ bytes_at c (other_buffer c (buf_out c)) = 0 /\ buf_in c = other_buffer c (buf_out c)) \/
    (0 < bytes_at c (buf_out c) /\ 0 < bytes_at c (other_buffer c (buf_out c)) /\ buf_in c = buf_out c);
  rc_reading : Bits.any (c_flags c) FLAG_IS_READING_ASYNC = true -> bytes_at c (buf_in c) = 0;
  rc_writing : Bits.any (c_flags c) FLAG_IS_WRITING_ASYNC = true ->
    0 < bytes_at c (buf_out c) /\ t_nbyte (c_output c) = bytes_at c (buf_out c);
  rc_nbyte : c_nbyte c = 0 /\ t_nbyte (c_input c) = c_packet c /\ 0 <= t_nbyte (c_output c);
  rc_devices : t_device (c_input c) = din /\ t_device (c_output c) = dout }.
Definition running e : Prop := running_conn (e_conn e) /\ got (e_dev e) = sent (e_dev e) ++ queued e.

(** The four positions of the two buffers. *)
Local Ltac buffers :=
  match goal with H : ?b0 + ?ps <= ?b1 |- _ =>
    let E := fresh "E10" in assert (E : (b1 =? b0) = false) by (apply Z.eqb_neq; lia);
    repeat match goal with H : _ = b0 \/ _ = b1 |- _ => destruct H as [-> | ->] end;
    repeat (progress (rewrite ?Z.eqb_refl, ?E in *; cbn in * ))
  end.
Local Ltac conn_solve :=
  try done; try lia; try (intros; bits; congruence);
  try (intros; repeat match goal with H : ?P -> _, H' : ?P |- _ => specialize (H H') end; lia).
Local Ltac open_conn c :=
  destruct c as [f [di ti fi li bi ni hi xi] [do to fo lo bo no ho xo] n b0 b1 n0 n1 lim ps h];
  unfold complete_read, complete_write, switch_input_buffer, switch_output_buffer, set_bytes_at, bytes_at, other_buffer, buf_in, buf_out,
    update_bytes_transferred in *; cbn in *.
Local Ltac close_conn := split; unfold bytes_at, other_buffer, buf_in, buf_out; cbn; buffers; conn_solve.

(** Reading into the buffer that is free, writing the buffer that is full. *)
Lemma complete_read_running c ret : running_conn c -> bytes_at c (buf_in c) = 0 -> 0 < ret <= c_packet c ->
  Bits.any (c_flags c) FLAG_IS_READING_ASYNC = false -> running_conn (complete_read ret c).
Proof using Type.
  intros [H1 H2 H3 H4 H5 H6 H7 H8 (H9 & H10 & H11) H12] Hf Hr Hfl. open_conn c. subst n ni.
  change (0 <? 0) with false. cbn. rewrite (proj2 (Z.ltb_lt 0 ps)) by lia.
  buffers; rewrite ?u16_id by lia; close_conn.
Qed.
Lemma complete_write_running c : running_conn c -> 0 < bytes_at c (buf_out c) ->
  Bits.any (c_flags c) FLAG_IS_WRITING_ASYNC = false -> running_conn (complete_write c).
Proof using Type.
  intros [H1 H2 H3 H4 H5 H6 H7 H8 (H9 & H10 & H11) H12] Hf Hfl. open_conn c. subst n ni.
  change (0 <? 0) with false. cbn. buffers; change (u16 0) with 0; close_conn.
Qed.
Lemma load_list_zero m a : load_list m a 0 = [].
Proof using Type. done. Qed.
Lemma queued_read c d m log l d' log' : running_conn c -> bytes_at c (buf_in c) = 0 -> 0 < Zlen l <= c_packet c ->
  Forall (fun x => 0 <= x < 2 ^ 8) l ->
  queued (mk_env (complete_read (Zlen l) c) d' (store_list (buf_in c) l m) log') = queued (mk_env c d m log) ++ l.
Proof using Type.
  intros [H1 H2 H3 H4 H5 H6 H7 H8 (H9 & H10 & H11) H12] Hf Hr Hl. unfold queued. cbn [e_conn e_mem]. open_conn c. subst n ni.
  change (0 <? 0) with false. cbn. rewrite (proj2 (Z.ltb_lt 0 ps)) by lia.
  assert (Hag : forall a b k, 0 <= k <= ps -> a + ps <= b \/ b + ps <= a -> load_list (store_list a l m) b k = load_list m b k).
  { intros a b k Hk Hab. apply load_list_agree, store_list_agree. lia. }
  buffers; rewrite ?u16_id by lia; destruct H6 as [(E1 & E2 & E3)|[(E1 & E2 & E3)|(E1 & E2 & E3)]]; try lia;
    rewrite ?E1, ?E2, ?load_list_zero, ?load_store_list by done; rewrite ?Hag by lia; by rewrite ?app_nil_l, ?app_nil_r.
Qed.
Lemma queued_write c d m log d' log' : running_conn c -> 0 < bytes_at c (buf_out c) ->
  queued (mk_env c d m log) = load_list m (buf_out c) (bytes_at c (buf_out c)) ++ queued (mk_env (complete_write c) d' m log').
Proof using Type.
  intros [H1 H2 H3 H4 H5 H6 H7 H8 (H9 & H10 & H11) H12] Hf. unfold queued. cbn [e_conn e_mem]. open_conn c. subst n ni.
  change (0 <? 0) with false. cbn. buffers; change (u16 0) with 0; rewrite load_list_zero; by rewrite ?app_nil_l, ?app_nil_r.
Qed.
Lemma queued_length e : running_conn (e_conn e) -> Zlen (queued e) <= 2 * c_packet (e_conn e).
Proof using Type.
  destruct e as [c d m log]. cbn [e_conn]. intros [H1 H2 H3 H4 [H5 H5'] H6 H7 H8 H9 H12]. unfold queued. cbn [e_conn e_mem]. open_conn c.
  rewrite Zlen_app. buffers; rewrite !load_list_length by lia; lia.
Qed.

(** A connection that has failed or was destroyed, with transfers that may still be under way. *)
Record stopped e : Prop := {
  st_nbyte : c_nbyte (e_conn e) < 0;
  st_devices : t_device (c_input (e_conn e)) = din /\ t_device (c_output (e_conn e)) = dout;
  st_prefix : sent (e_dev e) `prefix_of` got (e_dev e);
  st_writing : Bits.any (c_flags (e_conn e)) FLAG_IS_WRITING_ASYNC = true ->
    sent (e_dev e) ++ load_list (e_mem e) (buf_out (e_conn e)) (t_nbyte (c_output (e_conn e))) `prefix_of` got (e_dev e);
  st_both : Bits.any (c_flags (e_conn e)) FLAG_IS_WRITING_ASYNC = true -> Bits.any (c_flags (e_conn e)) FLAG_IS_READING_ASYNC = true ->
    buf_in (e_conn e) + t_nbyte (c_input (e_conn e)) <= buf_out (e_conn e) \/
    buf_out (e_conn e) + t_nbyte (c_output (e_conn e)) <= buf_in (e_conn e) }.
Lemma running_stop e err : running e -> err < 0 -> stopped (on_conn (with_nbyte err) e).
Proof using Type.
  destruct e as [c d m log]. intros [[H1 H2 H3 H4 H5 H6 H7 H8 (H9 & H10 & H11) H12] Hq] Hn. cbn [e_conn e_dev e_mem] in *.
  unfold queued in Hq. cbn [e_conn e_mem] in Hq. split; cbn; try done.
  - rewrite Hq. by eexists.
  - intros Hw. destruct (H8 Hw) as [_ E]. unfold buf_out in *. cbn. rewrite E, Hq, app_assoc. by eexists.
  - intros Hw Hr. specialize (H7 Hr). destruct (H8 Hw) as [Hp E]. open_conn c. subst ni. rewrite E. buffers; lia.
Qed.
Lemma stopped_flags e f : stopped e ->
  (Bits.any f FLAG_IS_WRITING_ASYNC = true -> Bits.any (c_flags (e_conn e)) FLAG_IS_WRITING_ASYNC = true) ->
  (Bits.any f FLAG_IS_READING_ASYNC = true -> Bits.any (c_flags (e_conn e)) FLAG_IS_READING_ASYNC = true) ->
  stopped (on_conn (with_flags f) e).
Proof using Type. intros [H1 H2 H3 H4 H5] Hw Hr. split; cbn in *; auto. Qed.
Lemma running_flags c f : running_conn c ->
  (Bits.any f FLAG_IS_WRITING_ASYNC = true -> Bits.any (c_flags c) FLAG_IS_WRITING_ASYNC = true) ->
  (Bits.any f FLAG_IS_READING_ASYNC = true -> Bits.any (c_flags c) FLAG_IS_READING_ASYNC = true) -> running_conn (with_flags f c).
Proof using Type. intros [H1 H2 H3 H4 H5 H6 H7 H8 H9 H12] Hw Hr. split; cbn in *; auto. Qed.

(** A transfer that is started or that completes at once. *)
Definition goes_on e (r : env D * Z) : Prop :=
  c_limit (e_conn r.1) = c_limit (e_conn e) /\ ((0 <= r.2 /\ running r.1) \/ (r.2 < 0 /\ stopped r.1)).
Lemma complete_read_limit k c : c_limit (complete_read k c) = c_limit c.
Proof using Type. open_conn c. repeat case_match; done. Qed.
Lemma complete_write_limit c : c_limit (complete_write c) = c_limit c.
Proof using Type. open_conn c. repeat case_match; done. Qed.
Lemma read_goes_on e : running e -> exists r, read_from_device e = Some r /\ goes_on e r.
Proof using Hdin WR.
  intros [Hc Hq]. unfold read_from_device. destruct (is_ready_to_read_device (e_conn e)) eqn:Hready;
    [|exists (e, 0); split; [done|]; split; [done|]; left; split; [done|by split]].
  unfold is_ready_to_read_device in Hready. destruct (Bits.any _ FLAG_IS_READING_ASYNC) eqn:Hfl; [done|].
  destruct (_ || _); [done|]. apply Z.eqb_eq in Hready. destruct (rc_devices _ Hc) as [Ei _]. rewrite Ei, (proj2 (Z.eqb_neq _ _) Hdin).
  pose proof (rl_read (c_input (e_conn e)) (e_dev e)) as Hrd. pose proof (wr_read (c_input (e_conn e)) (e_dev e)) as Hne.
  destruct (dev_read din _ _) as [[d' ret] bytes]. cbn [fst snd] in Hne. destruct Hrd as (Hs & Hg & Hb & Hpos & Hnp). destruct (rc_nbyte _ Hc) as (_ & En & _). destruct e as [c d m log]. cbn [e_conn e_dev e_mem] in *.
  eexists. split; [reflexivity|]. destruct (Z.eqb_spec ret 0) as [->|H0]; [|destruct (Z.ltb_spec 0 ret) as [Hp|Hp]].
  - rewrite (Hnp ltac:(lia)) in Hg |- *. cbn [store_list]. split; [done|]. left. split; [done|]. split; cbn.
    + destruct Hc as [H1 H2 H3 H4 H5 H6 H7 H8 H9 H12]. split; cbn; try done. intros Hw. apply H8. revert Hw. by rewrite any_set_disjoint.
    + rewrite Hs, Hg, app_nil_r. exact Hq.
  - destruct (Hpos Hp) as [-> Hle]. split; [apply complete_read_limit|]. left. split; [cbn; lia|]. split; cbn.
    + apply complete_read_running; try done. lia.
    + rewrite Hs, Hg, Hq, <- app_assoc. f_equal. symmetry. apply (queued_read c d m log bytes); done || lia.
  - rewrite (proj2 (Z.eqb_neq _ _)) by (apply Hne; lia). split; [done|]. right. split; [cbn; lia|].
    rewrite (Hnp ltac:(lia)) in Hg |- *. cbn [store_list]. apply running_stop; [|lia]. split; [done|]. cbn. rewrite Hs, Hg, app_nil_r. exact Hq.
Qed.
Lemma write_goes_on e : running e -> exists r, write_to_device e = Some r /\ goes_on e r.
Proof using Hdout WR.
  intros [Hc Hq]. unfold write_to_device, is_ready_to_write_device. destruct (Bits.any _ FLAG_IS_WRITING_ASYNC) eqn:Hfl;
    [exists (e, 0); split; [by destruct e|]; split; [done|]; left; split; [done|by split]|].
  destruct (rc_nbyte _ Hc) as (En & _ & Eo). rewrite (proj2 (Z.ltb_ge (t_nbyte _) 0)) by lia. rewrite En. change (0 <? 0) with false. cbn [orb].
  set (n := bytes_at (e_conn e) (t_buf (c_output (e_conn e)))). set (c1 := with_output _ _).
  assert (Hn : 0 <= n) by (destruct (rc_bytes _ Hc); unfold n, bytes_at; case_match; lia).
  assert (Hc1 : running_conn c1).
  { destruct Hc as [H1 H2 H3 H4 H5 H6 H7 H8 (H9 & H10 & H11) H12]. split; try done. intros Hw. exfalso. cbn in Hw. congruence. }
  assert (Hq1 : forall d' log', got d' = sent d' ++ queued (mk_env (e_conn e) d' (e_mem e) log') -> running (mk_env c1 d' (e_mem e) log')) by done.
  destruct e as [c d m log]. cbn [e_conn e_dev e_mem on_conn] in *. destruct (Z.ltb_spec 0 n) as [Hp|Hp];
    [|eexists; split; [reflexivity|]; split; [done|]; left; split; [done|by apply Hq1]].
  destruct (rc_devices _ Hc1) as [_ Ei]. rewrite Ei, (proj2 (Z.eqb_neq _ _) Hdout).
  pose proof (rl_write (c_output c1) (load_list m (t_buf (c_output c1)) (t_nbyte (c_output c1))) d) as Hwr.
  pose proof (wr_write (c_output c1) (load_list m (t_buf (c_output c1)) (t_nbyte (c_output c1))) d) as Hwh.
  destruct (dev_write dout _ _ _) as [d' ret]. destruct Hwr as [Hg Hs0]. cbn [snd] in Hwh.
  assert (Hs : sent d' = if 0 <? ret then sent d ++ load_list m (t_buf (c_output c1)) (t_nbyte (c_output c1)) else sent d).
  { rewrite Hs0. destruct (Z.ltb_spec 0 ret) as [Hr|Hr]; [|by rewrite (Z_to_nat_le0 _ Hr), take_0, app_nil_r].
    rewrite (Hwh Hr). f_equal. apply take_ge. unfold Zlen. lia. }
  clear Hs0 Hwh. eexists. split; [reflexivity|].
  assert (Hrun : 0 < ret \/ running (mk_env c1 d' m log)).
  { destruct (Z.ltb_spec 0 ret); [by left|right]. apply Hq1. by rewrite Hg, Hs. }
  destruct (Z.eqb_spec ret 0) as [->|H0]; [|destruct (Z.ltb_spec 0 ret) as [Hr|Hr]; [|destruct (SYSFS_GET_RETURN_ERRNO ret =? EAGAIN)]].
  - destruct Hrun as [|[_ Hq2]]; [lia|]. split; [done|]. left. split; [done|]. split; [|exact Hq2]. cbn.
    destruct Hc1 as [H1 H2 H3 H4 H5 H6 H7 H8 H9 H12]. split; try done; cbn in *. intros Hw. apply H7. revert Hw. by rewrite any_set_disjoint.
  - split; [apply (complete_write_limit c1)|]. left. split; [cbn; lia|]. split; cbn.
    + by apply complete_write_running.
    + rewrite Hg, Hs, Hq, <- app_assoc. f_equal. by apply (queued_write c1 d m log).
  - destruct Hrun as [|Hrun]; [lia|]. split; [done|]. left. done.
  - destruct Hrun as [|Hrun]; [lia|]. split; [done|]. right. split; [cbn; lia|]. apply (running_stop _ _ Hrun). lia.
Qed.

Definition ended e : Prop := e_conn e = null_connection /\ sent (e_dev e) `prefix_of` got (e_dev e).
Definition settled e : Prop := running e \/ stopped e \/ ended e.
Lemma stopped_nbyte e err : stopped e -> err < 0 -> stopped (on_conn (with_nbyte err) e).
Proof using Type. intros [H1 H2 H3 H4 H5] Hn. by split. Qed.
Lemma check_stopped e : stopped e -> exists e', check_for_stopped_or_destroyed e = Some (e', true) /\ (stopped e' \/ ended e').
Proof using Hdin Hdout WR.
  destruct e as [c d m log]. intros [H1 [H2 H2'] H3 H4 H5]. cbn in *. unfold check_for_stopped_or_destroyed. cbn [e_conn].
  rewrite (proj2 (Z.ltb_lt (c_nbyte c) 0)) by done. unfold close_connection, close_terminal. cbn [e_conn e_dev].
  rewrite H2, (proj2 (Z.eqb_neq _ _) Hdin). destruct (rl_close din d) as [G1 S1]. destruct (dev_close din d) as [d1 r1]. cbn [mbind option_bind e_conn with_dev e_dev] in *.
  rewrite H2', (proj2 (Z.eqb_neq _ _) Hdout). destruct (rl_close dout d1) as [G2 S2]. destruct (dev_close dout d1) as [d2 r2]. cbn [mbind option_bind e_conn with_dev e_dev fst snd] in *.
  set (c1 := clear_flag FLAG_IS_CONNECTED c).
  change (on_conn (clear_flag FLAG_IS_CONNECTED) (with_dev d2 (with_dev d1 (mk_env c d m log)))) with (mk_env c1 d2 m log).
  eexists. split; [reflexivity|]. cbn [e_conn]. destruct (Bits.any (c_flags c1) FLAG_IS_DESTROYED); [right|left].
  - split; [done|]. cbn. by rewrite S2, S1, G2, G1.
  - assert (F : Bits.any (c_flags c1) FLAG_IS_WRITING_ASYNC = Bits.any (c_flags c) FLAG_IS_WRITING_ASYNC /\
                Bits.any (c_flags c1) FLAG_IS_READING_ASYNC = Bits.any (c_flags c) FLAG_IS_READING_ASYNC)
      by (split; apply any_clear_disjoint; reflexivity). destruct F as [F1 F2].
    assert (Hst : stopped (mk_env c1 d2 m log)) by (split; cbn [e_conn e_dev e_mem]; rewrite ?F1, ?F2, ?S2, ?S1, ?G2, ?G1; done).
    destruct Hst as [A1 A2 A3 A4 A5]. cbn in *. destruct (c_handler c); by split.
Qed.
Lemma check_running e : running e -> check_for_stopped_or_destroyed e = Some (e, false).
Proof using Type. intros [Hc _]. unfold check_for_stopped_or_destroyed. by destruct (rc_nbyte _ Hc) as (-> & _ & _). Qed.
Lemma loop_goes_on : forall fuel e tr, running e -> (0 < fuel)%nat -> c_limit (e_conn e) - tr <= Z.of_nat fuel ->
  exists e' ret tr', transactions_loop fuel tr e = Some (e', ret, tr') /\ (running e' \/ stopped e').
Proof using Hdin Hdout WR.
  induction fuel as [|fuel IH]; intros e tr He Hf Hl; [lia|]. cbn [transactions_loop].
  destruct (read_goes_on e He) as ([e1 r1] & -> & L1 & H1). cbn [mbind option_bind fst snd] in *.
  assert (H2 : exists e2 r2, (if r1 =? 0 then write_to_device e1 else Some (e1, r1)) = Some (e2, r2) /\ goes_on e (e2, r2)).
  { destruct (Z.eqb_spec r1 0) as [->|Hr]; [|by exists e1, r1]. destruct H1 as [[_ H1]|[? _]]; [|lia].
    destruct (write_goes_on e1 H1) as ([e2 r2] & -> & L2 & H2). exists e2, r2. split; [done|]. split; [cbn in *; congruence|done]. }
  destruct H2 as (e2 & r2 & -> & L2 & H2). cbn [mbind option_bind fst snd] in *.
  destruct ((0 <? r2) && (tr + 1 <? c_limit (e_conn e2))) eqn:Ec.
  - apply andb_true_iff in Ec as [Ec%Z.ltb_lt El%Z.ltb_lt]. destruct H2 as [[_ H2]|[? _]]; [|lia]. apply IH; [done|lia|lia].
  - exists e2, r2, (tr + 1). split; [done|]. destruct H2 as [[_ H2]|[_ H2]]; auto.
Qed.
Lemma read_then_write_settles e : running e \/ stopped e -> exists e' ret, read_then_write_until_async e = Some (e', ret) /\ settled e'.
Proof using Hdin Hdout WR.
  intros [He|He]; unfold read_then_write_until_async.
  - rewrite (check_running e He). cbn [mbind option_bind]. destruct (loop_goes_on (S (Z.to_nat (c_limit (e_conn e)))) e 0 He) as (e1 & ret & tr & -> & H1); [lia|lia|].
    cbn [mbind option_bind]. set (e2 := if tr =? _ then _ else _).
    assert (H2 : running e2 \/ stopped e2).
    { assert (Hstop : forall err, err < 0 -> stopped (on_conn (with_nbyte err) e1))
        by (intros err Herr; destruct H1; [by apply running_stop|by apply stopped_nbyte]).
      unfold e2. destruct (tr =? _); [right; by apply Hstop|]. destruct (negb _); [right; by apply Hstop|done]. }
    clearbody e2. destruct H2 as [H2|H2].
    + rewrite (check_running e2 H2). cbn [mbind option_bind]. exists e2, ret. split; [done|by left].
    + destruct (check_stopped e2 H2) as (e3 & -> & H3). cbn [mbind option_bind]. exists e3, ret. split; [done|by right].
  - destruct (check_stopped e He) as (e3 & -> & H3). cbn [mbind option_bind]. exists e3, 0. split; [done|by right].
Qed.

(** ** Events *)

(** What can happen to a connection: a transfer under way completes or fails, the user destroys it.  The
    state in which the handler begins, and the handler.  A driver stores into the buffer, leaves the size of the
    transfer as it was and reports in [async.result], which the code does not look at, how much was transferred;
    [whole] says whether that was all that was asked for.  When a connection was cleared, a transfer that was under way
    still completes, and its handler finds the cleared connection. *)
Inductive event e : bool -> env D -> (env D -> option (env D)) -> Prop :=
| ev_data l d' o : Bits.any (c_flags (e_conn e)) FLAG_IS_READING_ASYNC = true -> failed_event o (t_nbyte (c_input (e_conn e))) = false ->
    Zlen l <= t_nbyte (c_input (e_conn e)) -> Forall (fun x => 0 <= x < 2 ^ 8) l -> got d' = got (e_dev e) ++ l -> sent d' = sent (e_dev e) ->
    event e (Zlen l =? t_nbyte (c_input (e_conn e)))
      (mk_env (e_conn e) d' (store_list (buf_in (e_conn e)) l (e_mem e)) (e_log e)) (handle_data_ready o)
| ev_no_data l d' o : Bits.any (c_flags (e_conn e)) FLAG_IS_READING_ASYNC = true -> failed_event o (t_nbyte (c_input (e_conn e))) = true ->
    Zlen l <= Z.max 0 (t_nbyte (c_input (e_conn e))) -> got d' = got (e_dev e) -> sent d' = sent (e_dev e) ->
    event e true (mk_env (e_conn e) d' (store_list (buf_in (e_conn e)) l (e_mem e)) (e_log e)) (handle_data_ready o)
| ev_written k d' o : Bits.any (c_flags (e_conn e)) FLAG_IS_WRITING_ASYNC = true -> failed_event o (t_nbyte (c_output (e_conn e))) = false ->
    0 <= k <= t_nbyte (c_output (e_conn e)) -> got d' = got (e_dev e) ->
    sent d' = sent (e_dev e) ++ load_list (e_mem e) (buf_out (e_conn e)) k ->
    event e (k =? t_nbyte (c_output (e_conn e))) (with_dev d' e) (handle_write_complete o)
| ev_not_written k d' o : Bits.any (c_flags (e_conn e)) FLAG_IS_WRITING_ASYNC = true -> failed_event o (t_nbyte (c_output (e_conn e))) = true ->
    got d' = got (e_dev e) -> sent d' = sent (e_dev e) ++ take k (load_list (e_mem e) (buf_out (e_conn e)) (t_nbyte (c_output (e_conn e)))) ->
    event e true (with_dev d' e) (handle_write_complete o)
| ev_destroy : e_conn e <> null_connection -> event e true e (fun e => Some (on_conn destroyed e))
| ev_late_read d' m' o : e_conn e = null_connection -> event e true (mk_env (e_conn e) d' m' (e_log e)) (handle_data_ready o)
| ev_late_write d' o : e_conn e = null_connection -> event e true (with_dev d' e) (handle_write_complete o).
(** An event with a transfer that was whole, if it completed. *)
Definition step e e' : Prop := exists e1 handler, event e true e1 handler /\ handler e1 = Some e'.

Lemma cleared c f g : Z.land f g = 0 -> Bits.any (c_flags (clear_flag f c)) g = Bits.any (c_flags c) g.
Proof using Type. apply any_clear_disjoint. Qed.
(** A transfer that failed stops the connection. *)
Lemma note_failure_stops line o n e : SYSFS_SET_RETURN line EIO < 0 -> (forall err, err < 0 -> stopped (on_conn (with_nbyte err) e)) ->
  stopped (on_conn (note_failure line o n) e).
Proof using Type.
  intros Hline Hst. unfold note_failure. set (err := if n <? 0 then n else _).
  assert (Herr : err < 0) by (unfold err; destruct (Z.ltb_spec n 0); lia).
  set (c1 := if Bits.any o MCU_EVENT_FLAG_ERROR then set_flag FLAG_IS_ERROR (e_conn e) else e_conn e).
  set (c2 := if Bits.any o MCU_EVENT_FLAG_CANCELED then set_flag FLAG_IS_CANCELED c1 else c1).
  change (on_conn _ e) with (mk_env (with_nbyte err c2) (e_dev e) (e_mem e) (e_log e)).
  assert (E : exists f, c2 = with_flags f (e_conn e) /\ Bits.any f FLAG_IS_READING_ASYNC = Bits.any (c_flags (e_conn e)) FLAG_IS_READING_ASYNC /\
    Bits.any f FLAG_IS_WRITING_ASYNC = Bits.any (c_flags (e_conn e)) FLAG_IS_WRITING_ASYNC).
  { destruct (e_conn e). unfold c2, c1. do 2 destruct (Bits.any o _); eexists; (split; [reflexivity|]); cbn; rewrite ?any_set_disjoint by reflexivity; done. }
  destruct E as (f & -> & E1 & E2). apply (stopped_flags (on_conn (with_nbyte err) e) f (Hst err Herr)); cbn; congruence.
Qed.
Lemma settled_flag e f : settled e -> Bits.any (c_flags (e_conn e)) f = true -> running e \/ stopped e.
Proof using Type. intros [H|[H|[E _]]] Hf; [by left|by right|]. rewrite E in Hf. unfold Bits.any in Hf. by rewrite Z.land_0_l in Hf. Qed.
Lemma handle_data_ready_settles o e e1 : e1 = on_conn (clear_flag FLAG_IS_READING_ASYNC) e ->
  let n := t_nbyte (c_input (e_conn e)) in
  let e2 := on_conn (if failed_event o n then note_failure 649 o n else complete_read n) e1 in running e2 \/ stopped e2 ->
  exists e', handle_data_ready o e = Some e' /\ settled e'.
Proof using Hdin Hdout WR.
  intros -> n e2 H2. destruct (read_then_write_settles e2 H2) as (e3 & r & E & H3). unfold handle_data_ready.
  change (t_nbyte _) with n. fold e2. rewrite E. by exists e3.
Qed.
Lemma data_settles e l d' o : settled e -> Bits.any (c_flags (e_conn e)) FLAG_IS_READING_ASYNC = true ->
  failed_event o (t_nbyte (c_input (e_conn e))) = false -> Zlen l = t_nbyte (c_input (e_conn e)) -> Forall (fun x => 0 <= x < 2 ^ 8) l ->
  got d' = got (e_dev e) ++ l -> sent d' = sent (e_dev e) ->
  exists e', handle_data_ready o (mk_env (e_conn e) d' (store_list (buf_in (e_conn e)) l (e_mem e)) (e_log e)) = Some e' /\ settled e'.
Proof using Hdin Hdout WR.
  intros He Hfl Ho Hl Hb Hg Hs. eapply handle_data_ready_settles; [reflexivity|]. cbn [e_conn]. rewrite Ho.
  set (c1 := clear_flag FLAG_IS_READING_ASYNC (e_conn e)).
  assert (F1 : Bits.any (c_flags c1) FLAG_IS_READING_ASYNC = false) by apply any_clear_same.
  assert (F2 : Bits.any (c_flags c1) FLAG_IS_WRITING_ASYNC = Bits.any (c_flags (e_conn e)) FLAG_IS_WRITING_ASYNC) by (by apply cleared).
  destruct (settled_flag e _ He Hfl) as [[Hc Hq]|[H1 H2 H3 H4 H5]].
  - left. destruct (rc_nbyte _ Hc) as (_ & En & _). pose proof (rc_reading _ Hc Hfl) as Hz. pose proof (rc_packet _ Hc).
    assert (Hc1 : running_conn c1) by (apply running_flags; [done|..]; cbn in *; congruence).
    split; cbn; [apply complete_read_running; try done; rewrite En; cbn; lia|].
    rewrite Hg, Hs, Hq, <- app_assoc. f_equal. symmetry. rewrite <- Hl.
    destruct e as [c d m log]. apply (queued_read c1 d m log l); try done. cbn in *. lia.
  - right. pose proof (Zlen_nonneg l). destruct e as [c d m log]. cbn [e_conn e_dev e_mem] in *.
    change (stopped (mk_env (complete_read (t_nbyte (c_input c)) c1) d' (store_list (buf_in c) l m) log)).
    assert (Hm : Bits.any (c_flags c) FLAG_IS_WRITING_ASYNC = true ->
      load_list (store_list (buf_in c) l m) (buf_out c) (t_nbyte (c_output c)) = load_list m (buf_out c) (t_nbyte (c_output c))).
    { intros Hw. apply load_list_agree, store_list_agree. destruct (H5 Hw Hfl); lia. }
    assert (Ec : exists ti, complete_read (t_nbyte (c_input c)) c1 = with_input ti (with_bytes (c_bytes0 (complete_read (t_nbyte (c_input c)) c1)) (c_bytes1 (complete_read (t_nbyte (c_input c)) c1)) c1) /\ t_device ti = t_device (c_input c)).
    { unfold c1. clear. open_conn c. repeat case_match; (eexists; split; [reflexivity|]); done. }
    destruct Ec as (ti & -> & Ed). split; cbn; try done.
    + by rewrite Ed.
    + rewrite Hs, Hg. by apply prefix_app_r.
    + cbn in F2. rewrite F2. intros Hw. unfold buf_out. cbn. unfold buf_out in Hm, H4. rewrite Hm by done. rewrite Hs, Hg. apply prefix_app_r. by apply H4.
    + cbn in F1. rewrite F1. done.
Qed.
Lemma no_data_settles e l d' o : settled e -> Bits.any (c_flags (e_conn e)) FLAG_IS_READING_ASYNC = true ->
  failed_event o (t_nbyte (c_input (e_conn e))) = true -> Zlen l <= Z.max 0 (t_nbyte (c_input (e_conn e))) ->
  got d' = got (e_dev e) -> sent d' = sent (e_dev e) ->
  exists e', handle_data_ready o (mk_env (e_conn e) d' (store_list (buf_in (e_conn e)) l (e_mem e)) (e_log e)) = Some e' /\ settled e'.
Proof using Hdin Hdout WR.
  intros He Hfl Ho Hl Hg Hs. eapply handle_data_ready_settles; [reflexivity|]. cbn [e_conn]. rewrite Ho. right.
  apply note_failure_stops; [by vm_compute|]. intros err Herr.
  set (e1 := on_conn _ (mk_env _ _ _ _)). set (c1 := clear_flag FLAG_IS_READING_ASYNC (e_conn e)).
  assert (F1 : Bits.any (c_flags c1) FLAG_IS_READING_ASYNC = false) by apply any_clear_same.
  assert (F2 : Bits.any (c_flags c1) FLAG_IS_WRITING_ASYNC = Bits.any (c_flags (e_conn e)) FLAG_IS_WRITING_ASYNC) by (by apply cleared).
  assert (Hst : stopped (on_conn (with_nbyte err) e)).
  { destruct (settled_flag e _ He Hfl); [by apply running_stop|by apply stopped_nbyte]. }
  destruct Hst as [H1 H2 H3 H4 H5]. destruct e as [c d m log]. cbn [e_conn e_dev e_mem on_conn] in *.
  split; unfold e1; cbn [e_conn e_dev e_mem on_conn with_nbyte c_flags clear_flag with_flags] in *; rewrite ?Hg, ?Hs; try done.
  - intros Hw. change (Bits.any (c_flags c1) FLAG_IS_WRITING_ASYNC = true) in Hw. rewrite F2 in Hw. specialize (H4 Hw). specialize (H5 Hw Hfl).
    unfold buf_out, buf_in in *. cbn in *. destruct l as [|x l]; [done|]. rewrite (load_list_agree m); [done|].
    rewrite Zlen_cons in Hl. pose proof (Zlen_nonneg l). apply store_list_agree. rewrite Zlen_cons. lia.
  - intros _ Hr. change (Bits.any (c_flags c1) FLAG_IS_READING_ASYNC = true) in Hr. congruence.
Qed.
Lemma write_stopped e : stopped e -> Bits.any (c_flags (e_conn e)) FLAG_IS_WRITING_ASYNC = false -> write_to_device e = Some (e, 0).
Proof using Type.
  intros [H1 _ _ _ _] Hf. unfold write_to_device, is_ready_to_write_device. rewrite Hf, (proj2 (Z.ltb_lt _ _) H1), orb_true_r. by destruct e.
Qed.
Lemma written_settles e d' o : settled e -> Bits.any (c_flags (e_conn e)) FLAG_IS_WRITING_ASYNC = true ->
  failed_event o (t_nbyte (c_output (e_conn e))) = false -> got d' = got (e_dev e) ->
  sent d' = sent (e_dev e) ++ load_list (e_mem e) (buf_out (e_conn e)) (t_nbyte (c_output (e_conn e))) ->
  exists e', handle_write_complete o (with_dev d' e) = Some e' /\ settled e'.
Proof using Hdin Hdout WR.
  intros He Hfl Ho Hg Hs. unfold handle_write_complete. destruct e as [c d m log]. cbn [e_conn e_dev e_mem on_conn with_dev] in *.
  set (c1 := clear_flag FLAG_IS_WRITING_ASYNC c). change (t_nbyte (c_output c1)) with (t_nbyte (c_output c)). rewrite Ho.
  assert (F1 : Bits.any (c_flags c1) FLAG_IS_WRITING_ASYNC = false) by apply any_clear_same.
  assert (F2 : Bits.any (c_flags c1) FLAG_IS_READING_ASYNC = Bits.any (c_flags c) FLAG_IS_READING_ASYNC) by (by apply cleared).
  assert (H : exists e2 r, write_to_device (mk_env (complete_write c1) d' m log) = Some (e2, r) /\ (running e2 \/ stopped e2)).
  { destruct (settled_flag _ _ He Hfl) as [[Hc Hq]|Hst].
    - cbn in Hc, Hq. destruct (rc_writing _ Hc Hfl) as [Hp En]. assert (Hc1 : running_conn c1) by (apply running_flags; [done|..]; cbn in *; congruence).
      assert (Hrun : running (mk_env (complete_write c1) d' m log)).
      { split; [by apply complete_write_running|]. cbn. rewrite Hg, Hs, Hq, <- app_assoc. f_equal. rewrite En. by apply (queued_write c1 d m log). }
      destruct (write_goes_on _ Hrun) as ([e2 r] & -> & _ & H2). exists e2, r. split; [done|]. destruct H2 as [[_ ?]|[_ ?]]; auto.
    - assert (Ec : exists to, complete_write c1 = with_output to (with_bytes (c_bytes0 (complete_write c1)) (c_bytes1 (complete_write c1)) c1) /\ t_device to = t_device (c_output c)).
      { unfold c1. clear. open_conn c. repeat case_match; (eexists; split; [reflexivity|]); done. }
      destruct Ec as (to & Ec & Ed). destruct Hst as [H1 H2 H3 H4 H5]. cbn [e_conn e_dev e_mem] in *.
      assert (Hs2 : stopped (mk_env (complete_write c1) d' m log)).
      { rewrite Ec. split; cbn [e_conn e_dev e_mem]; try done.
        - cbn. by rewrite Ed.
        - rewrite Hs, Hg. by apply H4.
        - cbn in *. congruence.
        - cbn in *. congruence. }
      exists (mk_env (complete_write c1) d' m log), 0. split; [|by right]. apply write_stopped; [done|]. rewrite Ec. exact F1. }
  destruct H as (e2 & r & E & H2). change (on_conn complete_write _) with (mk_env (complete_write c1) d' m log). rewrite E. cbn [mbind option_bind].
  destruct (read_then_write_settles e2 H2) as (e3 & r3 & -> & H3). by exists e3.
Qed.
Lemma not_written_settles e k d' o : settled e -> Bits.any (c_flags (e_conn e)) FLAG_IS_WRITING_ASYNC = true ->
  failed_event o (t_nbyte (c_output (e_conn e))) = true -> got d' = got (e_dev e) ->
  sent d' = sent (e_dev e) ++ take k (load_list (e_mem e) (buf_out (e_conn e)) (t_nbyte (c_output (e_conn e)))) ->
  exists e', handle_write_complete o (with_dev d' e) = Some e' /\ settled e'.
Proof using Hdin Hdout WR.
  intros He Hfl Ho Hg Hs. unfold handle_write_complete. destruct e as [c d m log]. cbn [e_conn e_dev e_mem on_conn with_dev] in *.
  set (c1 := clear_flag FLAG_IS_WRITING_ASYNC c). change (t_nbyte (c_output c1)) with (t_nbyte (c_output c)). rewrite Ho. cbn [mbind option_bind].
  set (e2 := on_conn _ _). assert (H2 : stopped e2).
  { apply note_failure_stops; [by vm_compute|]. intros err Herr. assert (Hst : stopped (on_conn (with_nbyte err) (mk_env c d m log))).
    { destruct (settled_flag _ _ He Hfl); [by apply running_stop|by apply stopped_nbyte]. }
    assert (F1 : Bits.any (c_flags c1) FLAG_IS_WRITING_ASYNC = false) by apply any_clear_same.
    destruct Hst as [H1 H2 H3 H4 H5]. cbn in *. split; cbn; rewrite ?Hg, ?Hs; try done; try (intros Hw; cbn in F1; congruence).
    specialize (H4 Hfl). unfold buf_out in H4. cbn in H4. etrans; [|exact H4]. apply prefix_app, prefix_take. }
  destruct (read_then_write_settles e2 (or_intror H2)) as (e3 & r3 & -> & H3). by exists e3.
Qed.
Lemma destroyed_settles e : settled e -> e_conn e <> null_connection -> settled (on_conn destroyed e).
Proof using Type.
  intros He Hf. unfold destroyed. assert (Hp : sent (e_dev e) `prefix_of` got (e_dev e)).
  { destruct He as [[_ ->]|[He|[_ He]]]; [by eexists|apply He|done]. }
  destruct (Bits.any (c_flags (e_conn e)) (Z.lor FLAG_IS_ERROR FLAG_IS_CANCELED)) eqn:E; right.
  - right. split; [cbn; by rewrite E|done].
  - left. set (err := SYSFS_SET_RETURN 337 ENOEXEC).
    assert (Hst : stopped (on_conn (with_nbyte err) e))
      by (destruct He as [He|[He|[? _]]]; [by apply running_stop|by apply stopped_nbyte|done]).
    assert (F : forall g, Z.land FLAG_IS_DESTROYED g = 0 -> Bits.any (Bits.set (c_flags (e_conn e)) FLAG_IS_DESTROYED) g = Bits.any (c_flags (e_conn e)) g)
      by (intros g Hg; by apply any_set_disjoint).
    pose proof (stopped_flags _ (Bits.set (c_flags (e_conn e)) FLAG_IS_DESTROYED) Hst) as H. cbn in H. rewrite !F in H by reflexivity.
    specialize (H (fun x => x) (fun x => x)). destruct e as [c d m log]. cbn in *. unfold on_conn. cbn. rewrite E. exact H.
Qed.
Lemma late_handlers o e : e_conn e = null_connection -> handle_data_ready o e = None /\ handle_write_complete o e = None.
Proof using Type.
  destruct e as [c d m log]. cbn [e_conn]. intros ->.
  unfold handle_data_ready, handle_write_complete, failed_event, note_failure. cbn [e_conn on_conn clear_flag with_flags c_input c_output null_connection t_nbyte null_terminal].
  change (0 <? 0) with false. cbn [orb]. destruct (Bits.any o (Z.lor MCU_EVENT_FLAG_CANCELED MCU_EVENT_FLAG_ERROR)); [|by split].
  do 2 destruct (Bits.any o _); by split.
Qed.
Lemma event_settles e e1 handler : settled e -> event e true e1 handler ->
  (e_conn e = null_connection /\ handler e1 = None) \/ exists e', handler e1 = Some e' /\ settled e'.
Proof using Hdin Hdout WR.
  intros He Hev. remember true as b eqn:Eb. destruct Hev as [l d' o H1 H2 H3 H4 H5 H6| | k d' o H1 H2 H3 H4 H5| | |d' m' o Hn|d' o Hn].
  - right. apply Z.eqb_eq in Eb. by apply data_settles.
  - right. by apply no_data_settles.
  - right. apply Z.eqb_eq in Eb. subst k. by apply written_settles.
  - right. by eapply not_written_settles.
  - right. eexists. split; [reflexivity|by apply destroyed_settles].
  - left. split; [done|]. by apply late_handlers.
  - left. split; [done|]. by apply late_handlers.
Qed.
Lemma steps_settle e e' : settled e -> rtc step e e' -> settled e'.
Proof using Hdin Hdout WR.
  intros He Hs. induction Hs as [|e e1 e' (e2 & h & Hev & E) _ IH]; [done|]. apply IH.
  destruct (event_settles e e2 h He Hev) as [[_ E3]|(e3 & E3 & H3)]; congruence.
Qed.
Lemma settled_relays e : settled e -> sent (e_dev e) `prefix_of` got (e_dev e) /\
  (c_nbyte (e_conn e) = 0 -> t_device (c_input (e_conn e)) = din ->
   got (e_dev e) = sent (e_dev e) ++ queued e /\ Zlen (queued e) <= 2 * c_packet (e_conn e)).
Proof using Hdin.
  intros [[Hc Hq]|[[H1 H2 H3 H4 H5]|[E Hp]]].
  - split; [rewrite Hq; by eexists|]. intros _ _. split; [done|by apply queued_length].
  - split; [done|]. lia.
  - split; [done|]. rewrite E. cbn. intros _ E0. congruence.
Qed.
End Relaying.

Section Connected.
Context {ev : McuEvents} {es : McuStop} {D : Type} {T : Terminals D} (din dout : Z) {RL : Relay T din dout}.
Context (config : switchboard_config_t) (current_task id : Z).
Implicit Types (attr : switchboard_attr_t).

(** What [create_connection] makes of a request for a persistent connection. *)
Lemma new_connection_running attr : Bits.any (at_flags attr) FLAG_IS_PERSISTENT = true -> 0 < at_nbyte attr -> 0 < cfg_buffer_size config < 2 ^ 16 ->
  0 <= id -> running_conn din dout (new_connection config current_task id din dout attr).
Proof using Type.
  intros Hp Hn Hb Hi. unfold new_connection. rewrite Hp.
  set (n := if cfg_buffer_size config <? at_nbyte attr then cfg_buffer_size config else at_nbyte attr).
  assert (Hs : 0 < n <= cfg_buffer_size config) by (unfold n; destruct (Z.ltb_spec (cfg_buffer_size config) (at_nbyte attr)); lia).
  clearbody n. rewrite u16_id by lia. set (b0 := cfg_buffer config + _). set (b1 := cfg_buffer config + _).
  assert (Hbb : b0 + n <= b1) by (unfold b0, b1; lia). clearbody b0 b1. set (f := Bits.set _ FLAG_IS_PERSISTENT).
  assert (Hf : Bits.any f FLAG_IS_READING_ASYNC = false /\ Bits.any f FLAG_IS_WRITING_ASYNC = false).
  { assert (forall g w, Z.land FLAG_IS_PERSISTENT g = 0 -> Z.land FLAG_IS_CONNECTED g = 0 ->
      Z.land (Z.lor FLAG_IS_FILL_ZERO (Z.lor FLAG_IS_INPUT_NON_BLOCKING FLAG_IS_OUTPUT_NON_BLOCKING)) g = 0 ->
      Bits.any (Bits.set (Bits.set FLAG_IS_CONNECTED (Z.land w (Z.lor FLAG_IS_FILL_ZERO (Z.lor FLAG_IS_INPUT_NON_BLOCKING FLAG_IS_OUTPUT_NON_BLOCKING)))) FLAG_IS_PERSISTENT) g = false).
    { intros g w H1 H2 H3. rewrite any_set_disjoint by done. unfold Bits.any, Bits.set. rewrite Z.land_lor_distr_l, H2, <- Z.land_assoc, H3, Z.land_0_r. done. }
    unfold f. auto. }
  destruct Hf as [F1 F2]. split; cbn; try done; try lia; auto; try (intros; congruence).
  left. unfold bytes_at. cbn. repeat case_match; done.
Qed.
End Connected.

(** C23: A persistent connection relays its input, between devices that transfer all they are asked for or
    nothing: an input opened blocking whose asynchronous reads fill the packet, an output that takes whole buffers (with
    short transfers, as [fifo.c] makes them, bytes are lost or stale ones sent: [short_write_loses_bytes],
    [short_read_sends_stale_bytes]).  After the connection was made, with transfers that complete at once, later, or fail, in any
    order, and with the user destroying it at any time: what the output has taken is a prefix of what the input
    delivered, in order, without a byte lost or doubled; while the connection runs the difference is in its two
    buffers.  Until the connection is cleared every handler returns (a transfer still under way then finds
    NULL devices: [late_handler_faults]). *)
Theorem switchboard_relays {ev : McuEvents} {es : McuStop} {D : Type} (T : Terminals D) (din dout : Z) (RL : Relay T din dout)
    (WR : WholeRelay T din dout RL) config task id attr d m log e0 ret e :
  din <> 0 -> dout <> 0 -> Bits.any (at_flags attr) FLAG_IS_PERSISTENT = true -> 0 < at_nbyte attr -> 0 < cfg_buffer_size config < 2 ^ 16 -> 0 <= id ->
  got d = sent d ->
  read_then_write_until_async (mk_env (new_connection config task id din dout attr) d m log) = Some (e0, ret) ->
  rtc (step din dout) e0 e ->
  sent (e_dev e) `prefix_of` got (e_dev e) /\
  (c_nbyte (e_conn e) = 0 -> t_device (c_input (e_conn e)) = din ->
     got (e_dev e) = sent (e_dev e) ++ queued e /\ Zlen (queued e) <= 2 * c_packet (e_conn e)) /\
  (forall e1 handler, e_conn e <> null_connection -> event din dout e true e1 handler -> is_Some (handler e1)).
Proof.
  intros Hdin Hdout Hp Hn Hb Hi Hgs E Hs. set (e00 := mk_env _ d m log) in *.
  assert (Hrun : running din dout e00).
  { split; [by apply new_connection_running|]. cbn [e_dev e00]. unfold queued. cbn [e_conn e_mem e00 bytes_at].
    unfold new_connection. rewrite Hp. cbn. unfold bytes_at. cbn. repeat case_match; rewrite load_list_zero, app_nil_r; done. }
  destruct (read_then_write_settles din dout Hdin Hdout e00 (or_introl Hrun)) as (e1 & r & E1 & H1). assert (e1 = e0) as -> by congruence.
  pose proof (steps_settle din dout Hdin Hdout e0 e H1 Hs) as He. destruct (settled_relays din dout Hdin e He) as [A B]. split; [done|]. split; [done|].
  intros e2 h Hc Hev. destruct (event_settles din dout Hdin Hdout e e2 h He Hev) as [[? _]|(e3 & -> & _)]; done.
Qed.

(** ** What the code does not mean to do *)

Section Findings.
Context {ev : McuEvents} {es : McuStop} {D : Type} {T : Terminals D} {L : PosixLimits}.
Context (config : switchboard_config_t) (current_task : Z).
Implicit Types (b : board D) (e : env D) (attr : switchboard_attr_t).

(** A negative size passes for a persistent connection: 65535 bytes are read into its buffer. *)
Theorem negative_size_overruns id input output attr : Bits.any (at_flags attr) FLAG_IS_PERSISTENT = true -> at_nbyte attr = -1 ->
  0 < cfg_buffer_size config -> t_nbyte (c_input (new_connection config current_task id input output attr)) = 65535.
Proof using Type. intros Hp Hn Hb. unfold new_connection. rewrite Hp, Hn, (proj2 (Z.ltb_ge _ _)) by lia. done. Qed.

(** The terminals of connection 0 are opened for any connection: without a connection 0, NULL is used. *)
Theorem create_opens_connection_0 attr b : let id := at_id attr in
  0 < id < Zlen (b_conns b) -> Forall (fun c => c = null_connection) (b_conns b) -> cfg_count config = Zlen (b_conns b) ->
  lookup_device config (at_name (at_input attr)) <> 0 -> lookup_device config (at_name (at_output attr)) <> 0 ->
  create_connection config current_task attr b = None.
Proof using Type.
  intros id Hid Hnull Hcount Hin Hout. assert (G : forall i, 0 <= i < Zlen (b_conns b) -> conn b i = null_connection).
  { intros i Hi. unfold conn, Zget. destruct (lookup_lt_is_Some_2 (b_conns b) (Z.to_nat i)) as [c Hc]; [unfold Zlen in Hi; lia|].
    rewrite (list_lookup_total_correct _ _ _ Hc). rewrite Forall_lookup in Hnull. by eapply Hnull. }
  unfold create_connection. fold id. rewrite (G id) by lia. change (c_flags null_connection =? 0) with true. cbn [negb].
  rewrite (proj2 (Z.eqb_neq _ _) Hin), (proj2 (Z.eqb_neq _ _) Hout).
  assert (G' : forall i, 0 <= i < Zlen (b_conns b) -> conn (set_conn id null_connection b) i = null_connection).
  { intros i Hi. unfold conn, set_conn. cbn [b_conns]. rewrite Zget_Zset by lia. case_decide; [done|]. by apply G. }
  set (input := lookup_device config _) in *. set (output := lookup_device config (at_name (at_output attr))) in *.
  assert (Hu : device_in_use config id input output (set_conn id null_connection b) = None).
  { unfold device_in_use. set (l := omap _ _). destruct l as [|x l'] eqn:El; [done|]. exfalso.
    assert (Hx : x ∈ l) by (rewrite El; constructor). unfold l in Hx. apply list_elem_of_omap in Hx as (i & Hi & Ei). apply elem_of_seqZ in Hi. revert Ei. rewrite G' by lia. cbn.
    rewrite (proj2 (Z.eqb_neq _ _) Hin), (proj2 (Z.eqb_neq _ _) Hout). by destruct (i =? id). }
  rewrite Hu. set (b1 := set_conn id (new_connection _ _ _ _ _ _) _).
  assert (E0 : conn b1 0 = null_connection).
  { unfold b1, conn, set_conn. cbn [b_conns]. rewrite Zget_Zset_ne by lia. apply (G' 0). lia. }
  unfold env_of. rewrite E0. done.
Qed.

(** A device that has no data on a non-blocking connection without a fill flag: what the buffer held is sent. *)
Theorem no_data_sends_buffer e d t : let c := e_conn e in
  Bits.any (c_flags c) FILL_FLAGS = false -> c_flags c <> 0 -> is_ready_to_read_device c = true -> t_device (c_input c) <> 0 ->
  dev_read (t_device (c_input c)) (c_input c) (e_dev e) = (d, SYSFS_SET_RETURN t EAGAIN, []) -> 0 <= t ->
  exists e', read_from_device e = Some (e', t_nbyte (c_input c)) /\ e_conn e' = complete_read (t_nbyte (c_input c)) c /\ e_mem e' = e_mem e.
Proof using Type.
  intros c Hf Hnz Hr Hd Hrd Ht. unfold read_from_device. fold c. rewrite Hr, (proj2 (Z.eqb_neq _ _) Hd), Hrd.
  assert (Hret : SYSFS_SET_RETURN t EAGAIN < 0 /\ SYSFS_GET_RETURN_ERRNO (SYSFS_SET_RETURN t EAGAIN) = EAGAIN).
  { unfold SYSFS_SET_RETURN, SYSFS_GET_RETURN_ERRNO. set (v := Z.lor EAGAIN (Z.shiftl t 8)). replace (-1 * (-1 * v)) with v by lia. split.
    - assert (0 <= v) by (apply Z.lor_nonneg; split; [done|by apply Z.shiftl_nonneg]).
      assert (v <> 0) by (unfold v; rewrite Z.lor_eq_0_iff; intros [[=] _]). lia.
    - unfold v. rewrite Z.land_lor_distr_l. change (Z.land EAGAIN 255) with EAGAIN. replace (Z.land (Z.shiftl t 8) 255) with 0; [done|].
      symmetry. change 255 with (Z.ones 8). rewrite Z.land_ones, Z.shiftl_mul_pow2 by lia. apply Z.mod_mul. lia. }
  destruct Hret as [Hneg Heq]. rewrite (proj2 (Z.eqb_neq _ 0)), (proj2 (Z.ltb_ge 0 _)) by lia. rewrite Heq, Z.eqb_refl. unfold filled_read.
  cbn [e_conn with_mem with_dev e_mem store_list]. fold c. rewrite Hf.
  assert (Ef : fill_buffer c (e_mem e) = e_mem e).
  { assert (G : forall g, Z.land FILL_FLAGS g = g -> Bits.any (c_flags c) g = false).
    { intros g Hg. unfold Bits.any in *. apply negb_false_iff, Z.eqb_eq in Hf. rewrite <- Hg, Z.land_assoc, Hf. done. }
    unfold fill_buffer. by rewrite !G by reflexivity. }
  rewrite Ef, (proj2 (Z.eqb_neq _ 0)) by (rewrite Z.lor_eq_0_iff; tauto). eexists. done.
Qed.

(** A transfer of a given number of bytes does not end with the packet that completes it: the next is read in full. *)
Theorem transfer_goes_past_end n t : 0 < n < 2 ^ 31 -> 0 < t_nbyte t < 2 ^ 31 -> t_bytes t + t_nbyte t = n ->
  t_nbyte (update_bytes_transferred n t) = t_nbyte t.
Proof using Type.
  intros Hn Ht E. unfold update_bytes_transferred. cbn [t_bytes t_nbyte t_with_bytes]. rewrite E, (u32_id n) by lia. rewrite Z.sub_diag.
  rewrite (proj2 (Z.ltb_lt 0 n)) by lia. change (u32 0) with 0. rewrite (proj2 (Z.ltb_ge _ 0)) by apply u32_range. done.
Qed.

(** A connection that is destroyed while nothing is under way is never cleared: its slot stays busy. *)
Theorem destroyed_slot_stays_busy id attr b : 0 <= id < Zlen (b_conns b) -> id < cfg_count config ->
  Bits.any (c_flags (conn b id)) (Z.lor FLAG_IS_ERROR FLAG_IS_CANCELED) = false -> at_id attr = id ->
  let b' := (destroy_connection config id b).1 in
  create_connection config current_task attr b' = Some (b', SYSFS_SET_RETURN 174 EBUSY) /\
  Bits.any (c_flags (conn b' id)) (Z.lor FLAG_IS_ERROR FLAG_IS_CANCELED) = false.
Proof using Type.
  intros Hi Hc Hf Ha b'. assert (Eb : conn b' id = with_nbyte (SYSFS_SET_RETURN 337 ENOEXEC) (set_flag FLAG_IS_DESTROYED (conn b id))).
  { unfold b', destroy_connection. rewrite (proj2 (Z.ltb_lt _ _) Hc). cbn [fst]. unfold conn at 1, set_conn. cbn [b_conns].
    rewrite Zget_Zset_eq by done. unfold destroyed. by rewrite Hf. }
  split.
  - unfold create_connection. rewrite Ha, Eb. cbn [c_flags with_nbyte set_flag with_flags].
    assert (H : Bits.any (Bits.set (c_flags (conn b id)) FLAG_IS_DESTROYED) FLAG_IS_DESTROYED = true) by (apply any_set_same; done).
    destruct (Z.eqb_spec (Bits.set (c_flags (conn b id)) FLAG_IS_DESTROYED) 0) as [E|E]; [|done].
    rewrite E in H. unfold Bits.any in H. by rewrite Z.land_0_l in H.
  - rewrite Eb. cbn [c_flags with_nbyte set_flag with_flags]. by rewrite any_set_disjoint.
Qed.
End Findings.

(** ** Two devices *)

(** The bytes the input has ready, what it delivered, what the output took; an input without bytes waits. *)
Record pair := mk_pair { p_ready : list Z; p_got : list Z; p_sent : list Z }.
Definition pair_terminals : Terminals pair := {|
  dev_open _ d := (d, 0);
  dev_close _ d := (d, 0);
  dev_priority _ _ _ _ d := (d, 0);
  dev_read _ t d :=
    let l := if 0 <? t_nbyte t then u8 <$> take (Z.to_nat (t_nbyte t)) (p_ready d) else [] in
    (mk_pair (drop (Z.to_nat (t_nbyte t)) (p_ready d)) (p_got d ++ l) (p_sent d), Zlen l, l);
  dev_write _ t l d := (mk_pair (p_ready d) (p_got d) (if 0 <? Zlen l then p_sent d ++ l else p_sent d), Zlen l) |}.
Definition pair_relay : Relay pair_terminals 1 2.
Proof.
  refine {| got := p_got; sent := p_sent |};
    [|intros t l d; cbn -[take]; split; [done|]; destruct (Z.ltb_spec 0 (Zlen l)); cbn [p_sent];
      [f_equal; symmetry; apply take_ge; unfold Zlen; lia|destruct l; [by rewrite take_nil, app_nil_r|rewrite Zlen_cons in *; pose proof (Zlen_nonneg l); lia]]
     |done].
  intros t d. cbn -[u8]. set (l := if 0 <? t_nbyte t then _ else _).
  assert (Hl : Forall (fun x => 0 <= x < 2 ^ 8) l /\ Zlen l <= Z.max 0 (t_nbyte t)).
  { unfold l. destruct (Z.ltb_spec 0 (t_nbyte t)); [|split; [done|rewrite Zlen_nil; lia]]. split; [apply Forall_fmap, Forall_true; intros x; apply u8_range|].
    unfold Zlen. rewrite length_fmap, length_take. lia. }
  destruct Hl as [Hb Hl]. clearbody l. pose proof (Zlen_nonneg l). split; [done|]. split; [done|]. split; [done|]. split; [lia|].
  intros Hz. destruct l as [|x l]; [done|]. rewrite Zlen_cons in Hz. pose proof (Zlen_nonneg l). lia.
Defined.
Lemma pair_whole : WholeRelay pair_terminals 1 2 pair_relay.
Proof.
  split; [|done]. intros t d. cbn -[u8]. set (l := if 0 <? t_nbyte t then _ else _). pose proof (Zlen_nonneg l). lia.
Qed.
#[local] Instance demo_events : McuEvents := {| MCU_EVENT_FLAG_WRITE_COMPLETE := 1; MCU_EVENT_FLAG_DATA_READY := 2; MCU_EVENT_FLAG_CANCELED := 4 |}.
#[local] Instance demo_stop : McuStop := {| MCU_EVENT_FLAG_STOP := 8; MCU_EVENT_FLAG_ERROR := 16; MCU_EVENT_FLAG_SET_PRIORITY := 32 |}.
#[local] Existing Instance pair_terminals.
Definition demo_board : switchboard_config_t := mk_config [] 1 64 16 4096.
Definition demo_attr : switchboard_attr_t := mk_attr (Z.lor FLAG_CONNECT FLAG_IS_PERSISTENT) 0 0 (mk_attr_terminal [] 0 0 0) (mk_attr_terminal [] 0 0 0) 2.
Definition demo_env : env pair := mk_env (new_connection demo_board 0 0 1 2 demo_attr) (mk_pair [1; 2; 3] [] []) (fun _ => 0) [].
Definition demo_begun : env pair := match read_then_write_until_async demo_env with Some (e, _) => e | None => demo_env end.
Definition demo_filled : env pair :=
  mk_env (e_conn demo_begun) (mk_pair [] [1; 2; 3; 7; 8] [1; 2; 3]) (store_list (buf_in (e_conn demo_begun)) [7; 8] (e_mem demo_begun)) (e_log demo_begun).
Definition demo_relayed : env pair := match handle_data_ready MCU_EVENT_FLAG_DATA_READY demo_filled with Some e => e | None => demo_env end.
Lemma switchboard_relays_witness : p_sent (e_dev demo_begun) = [1; 2; 3] /\ p_sent (e_dev demo_relayed) = [1; 2; 3; 7; 8] /\
  sent (Relay := pair_relay) (e_dev demo_relayed) `prefix_of` got (Relay := pair_relay) (e_dev demo_relayed).
Proof.
  assert (Hev : event (RL := pair_relay) 1 2 demo_begun true demo_filled (handle_data_ready MCU_EVENT_FLAG_DATA_READY)).
  { apply (ev_data (RL := pair_relay) 1 2 demo_begun [7; 8] (mk_pair [] [1; 2; 3; 7; 8] [1; 2; 3])); try (vm_compute; reflexivity); [by vm_compute|].
    repeat constructor; lia. }
  assert (Hstep : rtc (step (RL := pair_relay) 1 2) demo_begun demo_relayed).
  { apply rtc_once. exists demo_filled, (handle_data_ready MCU_EVENT_FLAG_DATA_READY). split; [exact Hev|vm_compute; reflexivity]. }
  destruct (switchboard_relays pair_terminals 1 2 pair_relay pair_whole demo_board 0 0 demo_attr (mk_pair [1; 2; 3] [] []) (fun _ => 0) [] demo_begun 0 demo_relayed
    ltac:(done) ltac:(done) eq_refl ltac:(by vm_compute) ltac:(by vm_compute) ltac:(done) eq_refl ltac:(vm_compute; reflexivity) Hstep) as [H _].
  split; [vm_compute; reflexivity|]. split; [vm_compute; reflexivity|]. exact H.
Defined.

(** ** Short transfers and cleared connections *)

(** An output that takes one byte of each buffer and says so: the rest of the buffer is lost. *)
Definition slow_terminals : Terminals pair := {|
  dev_open _ d := (d, 0);
  dev_close _ d := (d, 0);
  dev_priority _ _ _ _ d := (d, 0);
  dev_read := dev_read (Terminals := pair_terminals);
  dev_write _ t l d := (mk_pair (p_ready d) (p_got d) (p_sent d ++ take 1 l), Zlen (take 1 l)) |}.
Theorem short_write_loses_bytes :
  (fun r => (p_got (e_dev r.1), p_sent (e_dev r.1))) <$> read_then_write_until_async (T := slow_terminals) demo_env = Some ([1; 2; 3], [1; 3]).
Proof. vm_compute. reflexivity. Qed.

(** A read that was to deliver two bytes and delivers one: the byte the buffer held before is sent behind it. *)
Definition demo_short : env pair :=
  mk_env (e_conn demo_begun) (mk_pair [] [1; 2; 3; 7] [1; 2; 3]) (store_list (buf_in (e_conn demo_begun)) [7] (e_mem demo_begun)) (e_log demo_begun).
Theorem short_read_sends_stale_bytes :
  event (RL := pair_relay) 1 2 demo_begun false demo_short (handle_data_ready MCU_EVENT_FLAG_DATA_READY) /\
  (fun e => (p_got (e_dev e), p_sent (e_dev e))) <$> handle_data_ready MCU_EVENT_FLAG_DATA_READY demo_short = Some ([1; 2; 3; 7], [1; 2; 3; 7; 2]).
Proof.
  split; [|vm_compute; reflexivity].
  apply (ev_data (RL := pair_relay) 1 2 demo_begun [7] (mk_pair [] [1; 2; 3; 7] [1; 2; 3])); try (vm_compute; reflexivity); [by vm_compute|].
  repeat constructor; lia.
Qed.

(** The handler of a transfer that completes after its connection was cleared uses a NULL device. *)
Theorem late_handler_faults {ev : McuEvents} {es : McuStop} {D} {T : Terminals D} o d m log :
  handle_data_ready o (mk_env null_connection d m log) = None /\ handle_write_complete o (mk_env null_connection d m log) = None.
Proof. by apply late_handlers. Qed.
