(* ===== verification/Mpu.v ===== *)
(** * Memory protection

    [src/cortexm/mpu.c] and the calls of [src/cortexm/task_mpu.c] that use it: the registers of a
    region for a range of memory, the protection of a task, and the check of a pointer that a task
    hands to the kernel.

    A region of the hardware is a power of two of at least 256 bytes where its eight subregions can be
    switched off one by one; [region_allows] is what the manual of the processor says of the two
    registers.  [CLZ] and [RBIT] are instructions of the processor. *)
From S2P Require Import Prelude.

Definition MPU_SIZE_4GB : Z := 31.
Inductive mpu_memory_t :=
| MPU_MEMORY_NULL | MPU_MEMORY_FLASH | MPU_MEMORY_SRAM | MPU_MEMORY_EXTERNAL_SRAM | MPU_MEMORY_PERIPHERALS | MPU_MEMORY_LCD
| MPU_MEMORY_EXTERNAL_FLASH | MPU_MEMORY_TIGHTLY_COUPLED_DATA | MPU_MEMORY_TIGHTLY_COUPLED_INSTRUCTION.
Definition MPU_ACCESS_PRW : Z := 1.
Definition MPU_ACCESS_PRW_UR : Z := 2.
Definition MPU_ACCESS_PRW_URW : Z := 3.
Definition MPU_ACCESS_PR : Z := 5.
Definition MPU_ACCESS_PR_UR : Z := 6.

(** [__CLZ] and [__CLZ(__RBIT(x))]: leading and trailing zeros. *)
Definition clz (x : Z) : Z := if x =? 0 then 32 else 31 - Z.log2 x.
Fixpoint ctz_from (fuel : nat) (i x : Z) : Z :=
  match fuel with
  | O => i
  | S fuel => if Z.testbit x i then i else ctz_from fuel (i + 1) x
  end.
Definition ctz (x : Z) : Z := ctz_from 32 0 x.

(** The size field of a region. *)
Fixpoint mpu_calc_size_from (fuel : nat) (shift size : Z) : Z :=
  match fuel with
  | O => 0
  | S fuel =>
      if u32 (2 ^ shift) <? size then
        if shift + 1 =? MPU_SIZE_4GB + 1 then 0 else mpu_calc_size_from fuel (shift + 1) size
      else shift - 1
  end.
Definition mpu_calc_size (size : Z) : Z := mpu_calc_size_from 32 5 size.

(** ** The registers of a region *)

(** The smallest subregion that divides the address and eight of which reach from [aligned] to the
    end: its size, how many are needed and where they begin. *)
Fixpoint find_subregion (fuel : nat) (subregion_size max target aligned size : Z) : Z * Z * Z :=
  match fuel with
  | O => (subregion_size, 0, 0)
  | S fuel =>
      if subregion_size <=? max then
        let next := find_subregion fuel (u32 (Z.shiftl subregion_size 1)) max target aligned size in
        if target mod subregion_size =? 0 then
          let count := u32 (size + subregion_size - 1) / subregion_size in
          let offset := u32 (target - aligned) / subregion_size in
          if 8 <? u32 (count + offset) then next else (subregion_size, count, offset)
        else next
      else (subregion_size, 0, 0)
  end.
(** Zooming out: [aligned] loses its lowest bit until something fits.  More than 1024 turns are a fatal
    event. *)
Fixpoint zoom_out (fuel : nat) (target size aligned subregion_size max : Z) : option (Z * Z * Z * Z) :=
  match fuel with
  | O => None
  | S fuel =>
      let aligned_size := u32 (2 ^ ctz aligned) in
      let '(subregion_size, max, count, offset) :=
        if (size <=? aligned_size) || (aligned_size =? 0) then
          let max := if aligned_size =? 0 then 2 ^ 29 else Z.shiftr aligned_size 3 in
          let max := if size <? max then size else max in
          let '(s, c, o) := find_subregion 32 32 max target aligned size in (s, max, c, o)
        else (subregion_size, max, 0, 0) in
      let aligned := if count =? 0 then u32 (aligned - aligned_size) else aligned in
      if (count =? 0) && negb (max =? size) then zoom_out fuel target size aligned subregion_size max
      else Some (aligned, subregion_size, count, offset)
  end.
Definition disable_mask (count offset : Z) : Z := for_range 0 count (fun i m => Z.land m (Z.lnot (2 ^ (offset + i)))) 255.

(** The memory attributes of [sos_config.cache] and the first region tasks use. *)
Class MpuConfig := { cache_policy : mpu_memory_t -> Z; task_mpu_region_offset : Z }.
Section Region.
Context {CP : MpuConfig}.
(** What is returned, [rbar] and [rasr]. *)
Definition mpu_calc_region (region addr size access : Z) (type : mpu_memory_t) (executable : bool) : option (Z * Z * Z) :=
  let rbar0 := Z.lor 16 region in
  if size <? 32 then Some (0, rbar0, 0)
  else match zoom_out 1024 addr size addr 0 0 with
       | None => None
       | Some (aligned, subregion_size, count, offset) =>
           if count =? 0 then Some (0, rbar0, 0) else
           let mpu_size := u32 (31 - clz (u32 (subregion_size * 8)) - 1) in
           if mpu_size <? 4 then Some (0, rbar0, 0) else
           let rasr := u32 (Z.lor (Z.lor (Z.lor (Z.shiftl mpu_size 1) 1) (Z.shiftl access 24)) (Z.shiftl (disable_mask count offset) 8)) in
           let rasr := if executable then rasr else Z.lor rasr (2 ^ 28) in
           let rasr := match type with MPU_MEMORY_NULL => rasr | _ => Z.lor rasr (cache_policy type) end in
           Some (u32 (subregion_size * count), Z.lor (Z.lor aligned 16) region, rasr)
       end.
End Region.

(** ** What the hardware does with them *)

(** Bit 0 enables, bits 1 to 5 give the size, bits 8 to 15 disable subregions, bits 24 to 26 are the
    access; the base is the address without its low bits. *)
Definition region_size (rasr : Z) : Z := 2 ^ (Z.land (Z.shiftr rasr 1) 31 + 1).
Definition region_base (rbar rasr : Z) : Z := rbar / region_size rasr * region_size rasr.
Definition region_allows (rbar rasr a : Z) : bool :=
  let base := region_base rbar rasr in
  let size := region_size rasr in
  Z.testbit rasr 0 && (base <=? a) && (a <? base + size) && negb (Z.testbit rasr (8 + (a - base) / (size / 8))).

(** The registers: how many regions there are ([TYPE]), [CTRL], the region selected, and [RBAR] and
    [RASR] of each.  Bit 4 of what is written to [RBAR] selects the region in its low bits. *)
Record mpu_regs := mk_mpu { mp_regions : Z; mp_ctrl : Z; mp_rnr : Z; mp_region : Z -> Z * Z }.
Definition set_region (i : Z) (v : Z * Z) (f : Z -> Z * Z) : Z -> Z * Z := fun j => if j =? i then v else f j.
Definition write_rnr (v : Z) (m : mpu_regs) : mpu_regs := mk_mpu (mp_regions m) (mp_ctrl m) v (mp_region m).
Definition write_rbar (v : Z) (m : mpu_regs) : mpu_regs :=
  let rnr := if Z.testbit v 4 then Z.land v 15 else mp_rnr m in
  mk_mpu (mp_regions m) (mp_ctrl m) rnr (set_region rnr (v, (mp_region m rnr).2) (mp_region m)).
Definition write_rasr (v : Z) (m : mpu_regs) : mpu_regs :=
  mk_mpu (mp_regions m) (mp_ctrl m) (mp_rnr m) (set_region (mp_rnr m) ((mp_region m (mp_rnr m)).1, v) (mp_region m)).
(** The access to an address: that of the region with the highest number that has it. *)
Definition region_access (rasr : Z) : Z := Z.land (Z.shiftr rasr 24) 7.
Definition mpu_access_at (m : mpu_regs) (a : Z) : Z :=
  for_range 0 (mp_regions m) (fun i acc => let '(rbar, rasr) := mp_region m i in if region_allows rbar rasr a then region_access rasr else acc) 0.

(** ** Switching regions on and off *)

Definition mpu_enable (m : mpu_regs) : mpu_regs := mk_mpu (mp_regions m) (Z.lor (2 ^ 0) (2 ^ 2)) (mp_rnr m) (mp_region m).
Definition mpu_disable (m : mpu_regs) : mpu_regs := mk_mpu (mp_regions m) 0 (mp_rnr m) (mp_region m).
Definition mpu_disable_region (region : Z) (m : mpu_regs) : mpu_regs * Z :=
  if mp_regions m <=? region then (m, -1)
  else let m := write_rnr (Z.land region 255) m in
       (write_rasr (Z.land (mp_region m (mp_rnr m)).2 (Z.lnot 1)) m, 0).
Section Enable.
Context {CP : MpuConfig}.
Definition mpu_enable_region (region addr size access : Z) (type : mpu_memory_t) (executable : bool) (m : mpu_regs) : option (mpu_regs * Z) :=
  if mp_regions m <=? region then Some (m, -1)
  else match mpu_calc_region region addr size access type executable with
       | None => None
       | Some (s, rbar, rasr) => if s =? 0 then Some (m, -1) else Some (write_rnr 15 (write_rasr rasr (write_rbar rbar m)), 0)
       end.
End Enable.

(** ** Pointers from a task *)

Record task_memory_t := mk_memory { tm_address : Z; tm_size : Z; tm_type : mpu_memory_t; tm_rbar : Z; tm_rasr : Z }.
Record task_memories_t := mk_memories { tm_code : task_memory_t; tm_data : task_memory_t; tm_stackguard : task_memory_t }.
Definition is_part_of_memory (target size : Z) (m : task_memory_t) : bool :=
  (tm_address m <=? u32 target) && (u32 (u32 target + u32 size) <=? u32 (tm_address m + tm_size m)).
(** [os] are the memories of task 0. *)
Definition task_validate_memory (mem os : task_memories_t) (target size : Z) : Z :=
  if is_part_of_memory target size (tm_data mem) then 0
  else if is_part_of_memory target size (tm_code mem) then 0
  else if is_part_of_memory target size (tm_data os) then 0
  else if is_part_of_memory target size (tm_code os) then 0
  else -1.
Section Protection.
Context {CP : MpuConfig}.
Definition TASK_SYSTEM_SECRET_KEY_REGION : Z := 7 + task_mpu_region_offset.
Definition TASK_SYSTEM_STACK_MPU_REGION : Z := 6 + task_mpu_region_offset.
Definition TASK_SYSTEM_CODE_MPU_REGION : Z := 5 + task_mpu_region_offset.
Definition TASK_SYSTEM_DATA_MPU_REGION : Z := 4 + task_mpu_region_offset.
Definition TASK_APPLICATION_STACK_GUARD_REGION : Z := 3 + task_mpu_region_offset.
Definition TASK_APPLICATION_CODE_MPU_REGION : Z := 2 + task_mpu_region_offset.
Definition TASK_APPLICATION_DATA_MPU_REGION : Z := 1 + task_mpu_region_offset.
Definition protected (rbar rasr : Z) (m : task_memory_t) : task_memory_t := mk_memory (tm_address m) (tm_size m) (tm_type m) rbar rasr.
Definition task_mpu_calc_protection (mem : task_memories_t) : option (task_memories_t * Z) :=
  match mpu_calc_region TASK_APPLICATION_CODE_MPU_REGION (tm_address (tm_code mem)) (tm_size (tm_code mem)) MPU_ACCESS_PR_UR (tm_type (tm_code mem)) true with
  | None => None
  | Some (r, rbar, rasr) =>
      if s32 r =? 0 then Some (mem, -1) else
      let mem := mk_memories (protected rbar rasr (tm_code mem)) (tm_data mem) (tm_stackguard mem) in
      match mpu_calc_region TASK_APPLICATION_DATA_MPU_REGION (tm_address (tm_data mem)) (tm_size (tm_data mem)) MPU_ACCESS_PRW_URW (tm_type (tm_data mem)) false with
      | None => None
      | Some (r, rbar, rasr) =>
          if s32 r =? 0 then Some (mem, -1) else Some (mk_memories (tm_code mem) (protected rbar rasr (tm_data mem)) (tm_stackguard mem), 0)
      end
  end.
(** The guard of a task's stack, in the table and, where the task is the current one, in the hardware.
    [mem] are the memories of the task. *)
Definition task_root_set_stackguard (tid total current stackaddr stacksize : Z) (mem : task_memories_t) (m : mpu_regs)
    : option (mpu_regs * task_memories_t * Z) :=
  if u32 tid <? total then
    let type := tm_type (tm_data mem) in
    let newaddr := u32 (Z.land stackaddr (Z.lnot (stacksize - 1)) + stacksize) in
    match mpu_calc_region TASK_APPLICATION_STACK_GUARD_REGION newaddr (u32 stacksize) MPU_ACCESS_PRW type false with
    | None => None
    | Some (r, rbar, rasr) =>
        if s32 r =? 0 then Some (m, mem, -1)
        else Some (if tid =? current then write_rasr rasr (write_rbar rbar m) else m,
                   mk_memories (tm_code mem) (tm_data mem) (mk_memory newaddr (u32 stacksize) type rbar rasr), 0)
    end
  else Some (m, mem, -1).

(** *** The kernel's own memory *)

(** What the linker and the configuration say: the system section, the code, the secret key. *)
Record os_layout := mk_layout { os_sys : Z; os_esys : Z; os_text_start : Z; os_etext : Z; os_heap_size : Z; os_key_address : Z; os_key_size : Z;
  os_code_type : mpu_memory_t; os_data_type : mpu_memory_t; os_sys_type : mpu_memory_t }.
(** [mpu_enable_region] where a failure is returned, and where it is a fatal event. *)
Definition enable_or (k : mpu_regs -> option (mpu_regs * Z)) (r : option (mpu_regs * Z)) : option (mpu_regs * Z) :=
  match r with Some (m, err) => if err <? 0 then Some (m, err) else k m | None => None end.
Definition enable_or_fatal (k : mpu_regs -> option (mpu_regs * Z)) (r : option (mpu_regs * Z)) : option (mpu_regs * Z) :=
  match r with Some (m, err) => if err <? 0 then None else k m | None => None end.
Definition init_os_memory_protection (l : os_layout) (mem : task_memories_t) (m : mpu_regs) : option (mpu_regs * Z) :=
  enable_or (fun m =>
    enable_or (fun m =>
      enable_or_fatal (fun m =>
        enable_or_fatal (fun m => Some (m, 0))
          (mpu_enable_region TASK_SYSTEM_DATA_MPU_REGION (tm_address (tm_data mem)) (tm_size (tm_data mem)) MPU_ACCESS_PRW_URW (tm_type (tm_data mem)) false m))
        (mpu_enable_region TASK_SYSTEM_CODE_MPU_REGION (tm_address (tm_code mem)) (tm_size (tm_code mem)) MPU_ACCESS_PR_UR (tm_type (tm_code mem)) true m))
      (mpu_enable_region TASK_SYSTEM_STACK_MPU_REGION (os_sys l) (u32 (os_esys l - os_sys l)) MPU_ACCESS_PRW_UR (os_sys_type l) false m))
    (if 0 <? os_key_size l then
       mpu_enable_region TASK_SYSTEM_SECRET_KEY_REGION (Z.land (os_key_address l) (Z.lnot 1)) (os_key_size l) MPU_ACCESS_PR MPU_MEMORY_FLASH false m
     else Some (m, 0)).
(** The hardware and the memories of task 0, which is the current one; [None] is a fatal event.  [junk] is
    what the local [os_mem] holds before anything is written to it. *)
Definition task_init_mpu (l : os_layout) (total system_memory system_memory_size : Z) (junk mem0 : task_memories_t) (m : mpu_regs)
    : option (mpu_regs * task_memories_t * Z) :=
  let m := for_range 0 16 (fun i m => (mpu_disable_region i m).1) m in
  let m := mpu_enable m in
  let os_mem := mk_memories (mk_memory (os_text_start l) (u32 (os_etext l - os_text_start l)) (os_code_type l) (tm_rbar (tm_code junk)) (tm_rasr (tm_code junk)))
                            (mk_memory system_memory (u32 system_memory_size) (os_data_type l) (tm_rbar (tm_data junk)) (tm_rasr (tm_data junk))) (tm_stackguard junk) in
  match init_os_memory_protection l os_mem m with
  | None => None
  | Some (m, err) =>
      if err <? 0 then Some (m, mem0, err) else
      match task_mpu_calc_protection os_mem with
      | None => None
      | Some (os_mem, err) =>
          if err <? 0 then Some (m, mem0, err) else
          if system_memory_size <? s32 (os_heap_size l) then None else
          match task_root_set_stackguard 0 total 0 (u32 (system_memory + os_heap_size l)) (s32 (system_memory_size - os_heap_size l)) os_mem m with
          | None => None
          | Some (m, os_mem, _) => Some (m, os_mem, 0)
          end
      end
  end.
End Protection.

(** ** Arithmetic of regions *)

Lemma ctz_from_spec x : forall fuel i, 0 <= i -> let j := ctz_from fuel i x in
  i <= j <= i + Z.of_nat fuel /\ (forall b, i <= b < j -> Z.testbit x b = false) /\ (j < i + Z.of_nat fuel -> Z.testbit x j = true).
Proof.
  induction fuel as [|fuel IH]; intros i Hi; cbn [ctz_from]; [split; [lia|split; [|lia]]; intros b Hb; lia|].
  destruct (Z.testbit x i) eqn:E; [split; [lia|split; [intros b Hb; lia|done]]|].
  destruct (IH (i + 1) ltac:(lia)) as (H1 & H2 & H3). split; [lia|]. split; [|intros Hj; apply H3; lia].
  intros b Hb. destruct (decide (b = i)) as [->|]; [done|apply H2; lia].
Qed.
Lemma ctz_spec x : 0 <= x < 2 ^ 32 -> 0 <= ctz x <= 32 /\ (2 ^ ctz x | x) /\ (x = 0 -> ctz x = 32) /\ (0 < x -> ctz x < 32 /\ 2 ^ ctz x <= x).
Proof.
  intros Hx. unfold ctz. destruct (ctz_from_spec x 32 0 ltac:(lia)) as (H1 & H2 & H3). set (j := ctz_from 32 0 x) in *. clearbody j.
  change (0 + Z.of_nat 32) with 32 in *. assert (Hd : (2 ^ j | x)).
  { exists (Z.shiftr x j). rewrite Z.shiftr_div_pow2 by lia. apply Z.bits_inj'. intros b Hb.
    rewrite <- Z.shiftr_div_pow2, <- Z.shiftl_mul_pow2, Z.shiftl_spec by lia.
    destruct (decide (b < j)); [rewrite H2, Z.testbit_neg_r by lia; done|]. rewrite Z.shiftr_spec by lia. f_equal. lia. }
  split; [lia|]. split; [done|]. split.
  { intros ->. destruct (decide (j < 32)) as [Hj|]; [|lia]. specialize (H3 Hj). by rewrite Z.testbit_0_l in H3. }
  intros Hp. assert (Hj : j < 32).
  { destruct (decide (j < 32)); [done|]. assert (j = 32) as -> by lia. destruct Hd as [q Hq]. lia. }
  split; [done|]. by apply Z.divide_pos_le.
Qed.
Lemma find_subregion_spec max target aligned size : max <= 2 ^ 29 -> forall fuel k s c o, 0 <= k ->
  find_subregion fuel (2 ^ k) max target aligned size = (s, c, o) -> c <> 0 ->
  exists j, k <= j /\ s = 2 ^ j /\ s <= max /\ target mod s = 0 /\ c = u32 (size + s - 1) / s /\ o = u32 (target - aligned) / s /\ u32 (c + o) <= 8.
Proof.
  intros Hmax. induction fuel as [|fuel IH]; intros k s c o Hk; cbn [find_subregion]; [congruence|].
  destruct (Z.leb_spec (2 ^ k) max) as [Hle|]; [|congruence].
  assert (En : u32 (Z.shiftl (2 ^ k) 1) = 2 ^ (k + 1)).
  { rewrite Z.shiftl_mul_pow2, <- Z.pow_add_r by lia. apply u32_id. split; [apply Z.pow_nonneg; lia|]. rewrite Z.pow_add_r by lia. lia. }
  rewrite En. assert (Hnext : find_subregion fuel (2 ^ (k + 1)) max target aligned size = (s, c, o) -> c <> 0 ->
    exists j, k <= j /\ s = 2 ^ j /\ s <= max /\ target mod s = 0 /\ c = u32 (size + s - 1) / s /\ o = u32 (target - aligned) / s /\ u32 (c + o) <= 8).
  { intros E Hc. destruct (IH (k + 1) s c o ltac:(lia) E Hc) as (j & Hj & H). exists j. split; [lia|done]. }
  destruct (Z.eqb_spec (target mod 2 ^ k) 0) as [Et|]; [|done]. cbv zeta. destruct (Z.ltb_spec 8 (u32 (u32 (size + 2 ^ k - 1) / 2 ^ k + u32 (target - aligned) / 2 ^ k))); [done|].
  intros [= <- <- <-] _. exists k. done.
Qed.
Lemma zoom_out_spec target size : 0 <= target < 2 ^ 32 -> forall fuel aligned s0 m0 al s c o, 0 <= aligned <= target ->
  zoom_out fuel target size aligned s0 m0 = Some (al, s, c, o) -> c <> 0 ->
  0 <= al <= target /\ exists j, 5 <= j /\ s = 2 ^ j /\ s <= size /\ s <= 2 ^ 29 /\ (8 * s | al) /\ target mod s = 0 /\ c = u32 (size + s - 1) / s /\
    o = u32 (target - al) / s /\ u32 (c + o) <= 8.
Proof.
  intros Ht. induction fuel as [|fuel IH]; intros aligned s0 m0 al s c o Ha; cbn [zoom_out]; [done|].
  destruct (ctz_spec aligned ltac:(lia)) as (Hp & Hd & Hzero & Hpos). set (p := ctz aligned) in *. clearbody p.
  set (asz := u32 (2 ^ p)). assert (Hasz : (aligned = 0 /\ asz = 0) \/ (0 < aligned /\ asz = 2 ^ p /\ p < 32)).
  { unfold asz. destruct (decide (aligned = 0)) as [->|]; [left; split; [done|]|right; split; [lia|]].
    - by rewrite Hzero.
    - destruct (Hpos ltac:(lia)) as [Hp32 _]. split; [|done]. apply u32_id. split; [apply Z.pow_nonneg; lia|apply Z.pow_lt_mono_r; lia]. }
  clearbody asz. set (m1 := if asz =? 0 then 2 ^ 29 else Z.shiftr asz 3). set (m2 := if size <? m1 then size else m1).
  assert (Hm1 : m1 <= 2 ^ 29).
  { unfold m1. destruct (Z.eqb_spec asz 0); [done|]. rewrite Z.shiftr_div_pow2 by lia. change (2 ^ 29) with (2 ^ 32 / 2 ^ 3).
    apply Z.div_le_mono; [done|]. destruct Hasz as [[_ ?]|(_ & -> & _)]; [lia|apply Z.pow_le_mono_r; lia]. }
  assert (Hm2 : m2 <= m1 /\ m2 <= size \/ size < m1 /\ m2 = size) by (unfold m2; destruct (Z.ltb_spec size m1); lia).
  destruct (find_subregion 32 32 m2 target aligned size) as [[fs fc] fo] eqn:Ef.
  pose proof (find_subregion_spec m2 target aligned size ltac:(lia) 32 5 fs fc fo ltac:(lia) Ef) as Hf.
  assert (Hstay : fc <> 0 -> 0 <= aligned <= target /\ exists j, 5 <= j /\ fs = 2 ^ j /\ fs <= size /\ fs <= 2 ^ 29 /\ (8 * fs | aligned) /\ target mod fs = 0 /\
    fc = u32 (size + fs - 1) / fs /\ fo = u32 (target - aligned) / fs /\ u32 (fc + fo) <= 8).
  { intros Hc. destruct (Hf Hc) as (j & Hj & -> & Hle & Hrest). split; [done|]. exists j. split; [done|]. split; [done|]. split; [lia|]. split; [lia|]. split; [|done].
    destruct Hasz as [[-> _]|(Hap & -> & Hp32)]; [apply Z.divide_0_r|]. etrans; [|exact Hd]. change 8 with (2 ^ 3). rewrite <- Z.pow_add_r by lia.
    assert (Hjp : 3 + j <= p).
    { unfold m1 in *. rewrite (proj2 (Z.eqb_neq (2 ^ p) 0)) in * by (apply Z.pow_nonzero; lia). rewrite Z.shiftr_div_pow2 in * by lia.
      destruct (decide (3 <= p)) as [H3|H3].
      - rewrite <- Z.pow_sub_r in * by lia. assert (2 ^ j <= 2 ^ (p - 3)) by lia. apply Z.pow_le_mono_r_iff in H; lia.
      - assert (2 ^ p < 2 ^ 3) by (apply Z.pow_lt_mono_r; lia). rewrite Z.div_small in * by (split; [apply Z.pow_nonneg; lia|done]).
        assert (0 < 2 ^ j) by (apply Z.pow_pos_nonneg; lia). lia. }
    exists (2 ^ (p - (3 + j))). rewrite <- Z.pow_add_r by lia. f_equal. lia. }
  assert (Hnext : 0 <= u32 (aligned - asz) <= target).
  { destruct Hasz as [[-> ->]|(Hap & -> & Hp32)]; [change (u32 (0 - 0)) with 0; lia|]. destruct (Hpos Hap) as [_ Hle].
    assert (0 < 2 ^ p) by (apply Z.pow_pos_nonneg; lia). rewrite u32_id by lia. lia. }
  destruct ((size <=? asz) || (asz =? 0)).
  - destruct (Z.eqb_spec fc 0) as [->|Hc].
    + destruct (negb (m2 =? size)); cbn [andb]; [intros H Hc; by apply (IH _ _ _ _ _ _ _ Hnext H)|congruence].
    + cbn [andb]. intros [= <- <- <- <-] _. by apply Hstay.
  - change (0 =? 0) with true. cbn [andb]. destruct (negb (m0 =? size)); [intros H Hc; by apply (IH _ _ _ _ _ _ _ Hnext H)|congruence].
Qed.

Lemma disable_mask_spec count offset j : 0 <= count -> 0 <= offset -> 0 <= j < 8 ->
  Z.testbit (disable_mask count offset) j = negb ((offset <=? j) && (j <? offset + count)).
Proof.
  intros Hc Ho Hj. unfold disable_mask.
  pose proof (for_range_ind (fun i m => Z.testbit m j = negb ((offset <=? j) && (j <? offset + i))) 0 count
    (fun i m => Z.land m (Z.lnot (2 ^ (offset + i)))) 255) as H. cbv beta in H. apply H; [lia| |].
  - rewrite Z.add_0_r. change 255 with (Z.ones 8). rewrite Z.ones_spec_low by lia. bool_cases; lia || done.
  - intros i m Hi E. rewrite Z.land_spec, Z.lnot_spec, Z.pow2_bits_eqb, E by lia. bool_cases; try lia; done.
Qed.
(** The low half of the attribute register. *)
Lemma rasr_low ms access dm executable pol b : 0 <= ms < 32 -> 0 <= b < 16 -> (forall i, 0 <= i < 16 -> Z.testbit pol i = false) ->
  let rasr := u32 (Z.lor (Z.lor (Z.lor (Z.shiftl ms 1) 1) (Z.shiftl access 24)) (Z.shiftl dm 8)) in
  let rasr := if executable : bool then rasr else Z.lor rasr (2 ^ 28) in
  Z.testbit (Z.lor rasr pol) b = if b =? 0 then true else if b <? 8 then Z.testbit ms (b - 1) else Z.testbit dm (b - 8).
Proof.
  intros Hms Hb Hpol rasr0 rasr. rewrite Z.lor_spec, Hpol, orb_false_r by done.
  assert (E : Z.testbit rasr b = Z.testbit rasr0 b).
  { unfold rasr. destruct executable; [done|]. rewrite Z.lor_spec, Z.pow2_bits_false, orb_false_r by lia. done. }
  rewrite E. unfold rasr0, u32. rewrite Z.mod_pow2_bits_low, !Z.lor_spec, (Z.shiftl_spec_low access) by lia.
  rewrite orb_false_r, Z.shiftl_spec by lia. destruct (Z.eqb_spec b 0) as [->|Hb0]; [by rewrite orb_true_r|].
  change 1 with (2 ^ 0) at 2. rewrite Z.pow2_bits_false, orb_false_r by lia. destruct (Z.ltb_spec b 8).
  - by rewrite Z.shiftl_spec_low, orb_false_r by lia.
  - rewrite Z.shiftl_spec by lia. replace (Z.testbit ms (b - 1)) with false; [done|]. symmetry.
    apply Z.bits_above_log2; [lia|]. destruct (decide (ms = 0)) as [->|]; [cbn; lia|]. apply Z.log2_lt_pow2; [lia|].
    apply Z.lt_le_trans with (2 ^ 5); [lia|]. apply Z.pow_le_mono_r; lia.
Qed.

Section Exact.
Context {CP : MpuConfig}.

(** The registers of eight subregions of 2{^j} bytes from [al], of which [c] from the [o]-th are enabled. *)
Lemma region_allows_spec rbar rasr al j c o region : 5 <= j <= 28 -> (8 * 2 ^ j | al) -> 0 <= al -> 0 <= region < 16 -> 0 <= o -> 0 <= c -> o + c <= 8 ->
  rbar = Z.lor (Z.lor al 16) region ->
  (forall b, 0 <= b < 16 -> Z.testbit rasr b = if b =? 0 then true else if b <? 8 then Z.testbit (j + 2) (b - 1) else Z.testbit (disable_mask c o) (b - 8)) ->
  forall a, region_allows rbar rasr a = true <-> al + o * 2 ^ j <= a < al + (o + c) * 2 ^ j.
Proof.
  intros Hj Hal Hal0 Hreg Ho Hc Hoc -> Hbits a.
  assert (Hs : 0 < 2 ^ j) by (apply Z.pow_pos_nonneg; lia). assert (H32 : 32 <= 2 ^ j) by (change 32 with (2 ^ 5); apply Z.pow_le_mono_r; lia).
  assert (Es : region_size rasr = 8 * 2 ^ j).
  { unfold region_size. replace (Z.land (Z.shiftr rasr 1) 31) with (j + 2); [change 8 with (2 ^ 3); rewrite <- Z.pow_add_r by lia; f_equal; lia|].
    symmetry. apply Z.bits_inj'. intros b Hb. rewrite Z.land_spec, Z.shiftr_spec by lia. change 31 with (Z.ones 5).
    destruct (decide (b < 5)).
    - rewrite Z.ones_spec_low, andb_true_r, Hbits by lia. rewrite (proj2 (Z.eqb_neq _ 0)), (proj2 (Z.ltb_lt _ 8)) by lia. f_equal. lia.
    - rewrite Z.ones_spec_high, andb_false_r by lia. symmetry. apply Z.bits_above_log2; [lia|]. apply Z.log2_lt_pow2; [lia|].
      apply Z.lt_le_trans with (2 ^ 5); [lia|apply Z.pow_le_mono_r; lia]. }
  assert (Eb : region_base (Z.lor (Z.lor al 16) region) rasr = al).
  { unfold region_base. rewrite Es. destruct Hal as [q Hq]. rewrite <- Z.lor_assoc.
    assert (Hnn : 0 <= Z.lor 16 region) by (apply Z.lor_nonneg; lia).
    assert (Hlog : Z.log2 (Z.lor 16 region) <= 4).
    { rewrite Z.log2_lor by lia. change (Z.log2 16) with 4. pose proof (Z.log2_le_mono region 15 ltac:(lia)) as Hl. change (Z.log2 15) with 3 in Hl. lia. }
    assert (Hlow : Z.lor 16 region < 8 * 2 ^ j).
    { destruct (decide (Z.lor 16 region < 2 ^ 5)); [lia|]. exfalso. assert (5 <= Z.log2 (Z.lor 16 region)) by (apply Z.log2_le_pow2; lia). lia. }
    assert (Ea : Z.land al (Z.lor 16 region) = 0).
    { apply Z.bits_inj'. intros b Hb. rewrite Z.land_spec, Z.bits_0. destruct (decide (b < j + 3)).
      - replace (Z.testbit al b) with false; [done|]. rewrite Hq. change 8 with (2 ^ 3). rewrite <- Z.pow_add_r by lia.
        rewrite Z.mul_pow2_bits_low by lia. done.
      - by rewrite (Z.bits_above_log2 (Z.lor 16 region)), andb_false_r by lia. }
    rewrite <- Z.lxor_lor, <- Z.add_nocarry_lxor, Hq by done. rewrite Z.div_add_l, (Z.div_small (Z.lor 16 region)) by lia. lia. }
  unfold region_allows. rewrite Eb, Es, (Hbits 0) by lia. change (0 =? 0) with true. cbn [andb].
  replace (8 * 2 ^ j / 8) with (2 ^ j) by (symmetry; rewrite Z.mul_comm; apply Z.div_mul; lia).
  rewrite !andb_true_iff, Z.leb_le, Z.ltb_lt, negb_true_iff.
  assert (Hidx : al <= a < al + 8 * 2 ^ j -> 0 <= (a - al) / 2 ^ j < 8).
  { intros Ha. split; [apply Z.div_pos; lia|apply Z.div_lt_upper_bound; lia]. }
  split.
  - intros [[H1 H2] H3]. specialize (Hidx (conj H1 H2)). rewrite Hbits in H3 by lia.
    rewrite (proj2 (Z.eqb_neq _ 0)), (proj2 (Z.ltb_ge _ 8)) in H3 by lia. replace (8 + (a - al) / 2 ^ j - 8) with ((a - al) / 2 ^ j) in H3 by lia.
    rewrite disable_mask_spec in H3 by lia. apply negb_false_iff, andb_true_iff in H3 as [H3%Z.leb_le H4%Z.ltb_lt].
    pose proof (Z.div_mod (a - al) (2 ^ j) ltac:(lia)). pose proof (Z.mod_pos_bound (a - al) (2 ^ j) Hs). nia.
  - intros [H1 H2]. assert (Ha : al <= a < al + 8 * 2 ^ j) by nia. split; [done|]. specialize (Hidx Ha). rewrite Hbits by lia.
    rewrite (proj2 (Z.eqb_neq _ 0)), (proj2 (Z.ltb_ge _ 8)) by lia. replace (8 + (a - al) / 2 ^ j - 8) with ((a - al) / 2 ^ j) by lia.
    rewrite disable_mask_spec by lia. apply negb_false_iff, andb_true_iff. rewrite Z.leb_le, Z.ltb_lt.
    split; [apply Z.div_le_lower_bound; lia|apply Z.div_lt_upper_bound; lia].
Qed.

Lemma region_sound region addr size access type executable r rbar rasr : 0 <= region < 16 -> 0 <= addr < 2 ^ 32 -> 32 <= size < 2 ^ 29 ->
  (forall i, 0 <= i < 16 -> Z.testbit (cache_policy type) i = false) ->
  mpu_calc_region region addr size access type executable = Some (r, rbar, rasr) -> r <> 0 ->
  size <= r < 2 * size /\ forall a, region_allows rbar rasr a = true <-> addr <= a < addr + r.
Proof.
  intros Hreg Haddr Hsize Hpol. unfold mpu_calc_region. rewrite (proj2 (Z.ltb_ge size 32)) by lia.
  destruct (zoom_out 1024 addr size addr 0 0) as [[[[al s] c] o]|] eqn:Ez; [|done]. destruct (Z.eqb_spec c 0); [congruence|].
  destruct (zoom_out_spec addr size Haddr 1024 addr 0 0 al s c o ltac:(lia) Ez n) as (Hal & j & Hj & -> & Hs & _ & Hdiv & Hmod & -> & -> & H8).
  assert (Hpos : 32 <= 2 ^ j) by (change 32 with (2 ^ 5); apply Z.pow_le_mono_r; lia).
  assert (Hj28 : j <= 28) by (destruct (decide (j <= 28)); [done|]; assert (2 ^ 29 <= 2 ^ j) by (apply Z.pow_le_mono_r; lia); lia).
  rewrite (u32_id (size + 2 ^ j - 1)), (u32_id (addr - al)) in * by lia. set (c := (size + 2 ^ j - 1) / 2 ^ j) in *. set (o := (addr - al) / 2 ^ j) in *.
  pose proof (Z.div_mod (size + 2 ^ j - 1) (2 ^ j) ltac:(lia)) as Ec. fold c in Ec. pose proof (Z.mod_pos_bound (size + 2 ^ j - 1) (2 ^ j) ltac:(lia)) as Hc.
  assert (Hc1 : 1 <= c) by nia. assert (Ho : 0 <= o) by (apply Z.div_pos; lia).
  assert (Hcs : c <= 2 ^ 29) by (unfold c; apply Z.div_le_upper_bound; nia). assert (Hos : o <= 2 ^ 32) by (unfold o; apply Z.div_le_upper_bound; nia).
  assert (Hoc : o + c <= 8).
  { destruct (decide (o + c < 2 ^ 32)); [rewrite u32_id in H8; lia|]. exfalso. assert (o <= 2 ^ 27) by (unfold o; apply Z.div_le_upper_bound; lia). lia. }
  assert (Eo : al + o * 2 ^ j = addr).
  { destruct Hdiv as [q Hq]. apply Z.mod_divide in Hmod as [t Ht]; [|lia].
    assert (addr - al = (t - q * 8) * 2 ^ j) by lia. unfold o. rewrite H, Z.div_mul by lia. lia. }
  assert (Hms : u32 (31 - clz (u32 (2 ^ j * 8)) - 1) = j + 2).
  { assert (E8 : 2 ^ j * 8 = 2 ^ (j + 3)) by (rewrite Z.pow_add_r by lia; lia). assert (2 ^ (j + 3) < 2 ^ 32) by (apply Z.pow_lt_mono_r; lia).
    rewrite E8, (u32_id (2 ^ (j + 3))) by lia. unfold clz. rewrite (proj2 (Z.eqb_neq _ 0)), Z.log2_pow2 by lia. rewrite u32_id; lia. }
  rewrite Hms, (proj2 (Z.ltb_ge (j + 2) 4)) by lia. set (rasr0 := u32 (Z.lor _ _)). set (rasr1 := if executable then rasr0 else Z.lor rasr0 (2 ^ 28)).
  assert (Hr : u32 (2 ^ j * c) = 2 ^ j * c) by (apply u32_id; nia). rewrite Hr. intros [= <- <- <-] _. split; [nia|].
  assert (Hbits : forall b, 0 <= b < 16 -> Z.testbit (match type with MPU_MEMORY_NULL => rasr1 | _ => Z.lor rasr1 (cache_policy type) end) b =
    if b =? 0 then true else if b <? 8 then Z.testbit (j + 2) (b - 1) else Z.testbit (disable_mask c o) (b - 8)).
  { intros b Hb. destruct type; try (by apply rasr_low; [lia|..]). rewrite <- (Z.lor_0_r rasr1). apply rasr_low; [lia|done|]. intros i Hi. apply Z.bits_0. }
  intros a. rewrite (region_allows_spec _ _ al j c o region); try done; try lia.
Qed.
End Exact.

(** A region there is: a power of two of at least 32 bytes divides the address, is not larger than the
    size, and eight of it, from an aligned address on, reach to the end. *)
Section Complete.
Context {CP : MpuConfig}.

Definition fits (target size k : Z) : Prop :=
  5 <= k /\ (2 ^ k | target) /\ 2 ^ k <= size /\ (size + 2 ^ k - 1) / 2 ^ k + target mod (8 * 2 ^ k) / 2 ^ k <= 8.
Definition base_of (target k : Z) : Z := target - target mod (8 * 2 ^ k).

Lemma find_subregion_complete max target aligned size k : max <= 2 ^ 29 -> size < 2 ^ 29 -> 0 <= aligned <= target -> target < 2 ^ 32 ->
  fits target size k -> base_of target k = aligned -> 2 ^ k <= max ->
  forall fuel i, 0 <= i <= k -> k - i < Z.of_nat fuel -> (find_subregion fuel (2 ^ i) max target aligned size).1.2 <> 0.
Proof.
  intros Hmax Hsize Ha Ht (Hk & Hdiv & Hks & H8) Hb Hkm.
  induction fuel as [|fuel IH]; intros i Hi Hf; [lia|]. cbn [find_subregion].
  assert (Hik : 2 ^ i <= 2 ^ k) by (apply Z.pow_le_mono_r; lia). assert (Hi0 : 0 < 2 ^ i) by (apply Z.pow_pos_nonneg; lia).
  rewrite (proj2 (Z.leb_le (2 ^ i) max)) by lia.
  assert (En : u32 (Z.shiftl (2 ^ i) 1) = 2 ^ (i + 1)).
  { rewrite Z.shiftl_mul_pow2, <- Z.pow_add_r by lia. apply u32_id. split; [apply Z.pow_nonneg; lia|]. rewrite Z.pow_add_r by lia. lia. }
  rewrite En. assert (Hmod : target mod 2 ^ i = 0).
  { apply Z.mod_divide; [lia|]. etrans; [|exact Hdiv]. exists (2 ^ (k - i)). rewrite <- Z.pow_add_r by lia. f_equal. lia. }
  rewrite Hmod. change (0 =? 0) with true. cbv iota zeta. rewrite (u32_id (size + 2 ^ i - 1)), (u32_id (target - aligned)) by lia.
  assert (Hc : 0 < (size + 2 ^ i - 1) / 2 ^ i) by (apply Z.div_str_pos; lia). destruct (decide (i = k)) as [->|Hne].
  - assert (Et : target - aligned = target mod (8 * 2 ^ k)) by (unfold base_of in Hb; lia). rewrite Et.
    pose proof (Z.mod_pos_bound target (8 * 2 ^ k) ltac:(lia)). assert (0 <= target mod (8 * 2 ^ k) / 2 ^ k) by (apply Z.div_pos; lia).
    rewrite u32_id by lia. rewrite (proj2 (Z.ltb_ge 8 _)) by lia. cbn. lia.
  - destruct (8 <? u32 _); [apply IH; lia|cbn; lia].
Qed.
(** Clearing the lowest bit of an aligned address reaches the next smaller base. *)
Lemma base_step target p k : 0 <= p -> 0 <= k -> base_of target k < target - target mod 2 ^ p ->
  base_of target k <= target - target mod 2 ^ p - 2 ^ p.
Proof.
  intros Hp Hk Hlt. unfold base_of in *. change 8 with (2 ^ 3) in *. rewrite <- Z.pow_add_r in * by lia. set (q := 3 + k) in *.
  assert (P : 0 < 2 ^ p) by (apply Z.pow_pos_nonneg; lia). assert (Q : 0 < 2 ^ q) by (apply Z.pow_pos_nonneg; lia).
  assert (Hpq : p < q).
  { destruct (decide (p < q)); [done|]. exfalso. assert (Hd : (2 ^ q | 2 ^ p)) by (exists (2 ^ (p - q)); rewrite <- Z.pow_add_r by lia; f_equal; lia).
    pose proof (Z.mod_le (target mod 2 ^ p) (2 ^ q)). rewrite Z.mod_mod_divide in * by done. pose proof (Z.mod_pos_bound target (2 ^ p) P). lia. }
  assert (Hd : (2 ^ p | target - target mod 2 ^ p - (target - target mod 2 ^ q))).
  { apply Z.divide_sub_r.
    - exists (target / 2 ^ p). pose proof (Z.div_mod target (2 ^ p) ltac:(lia)). lia.
    - apply (Z.divide_trans _ (2 ^ q)); [exists (2 ^ (q - p)); rewrite <- Z.pow_add_r by lia; f_equal; lia|].
      exists (target / 2 ^ q). pose proof (Z.div_mod target (2 ^ q) ltac:(lia)). lia. }
  destruct Hd as [t Ht]. assert (1 <= t) by nia. nia.
Qed.
Lemma ctz_le x j : 0 < x < 2 ^ 32 -> 0 <= j -> (2 ^ j | x) -> j <= ctz x.
Proof.
  intros Hx Hj [q Hq]. destruct (ctz_from_spec x 32 0 ltac:(lia)) as (H1 & _ & H3). change (ctz_from 32 0 x) with (ctz x) in *.
  destruct (ctz_spec x ltac:(lia)) as (_ & _ & _ & H4). destruct (H4 ltac:(lia)) as [H5 _]. destruct (decide (j <= ctz x)); [done|].
  specialize (H3 ltac:(lia)). assert (Hb : Z.testbit (q * 2 ^ j) (ctz x) = false) by (apply Z.mul_pow2_bits_low; lia).
  rewrite <- Hq in Hb. congruence.
Qed.
Lemma clear_lowest x : 0 < x < 2 ^ 32 -> (2 ^ (ctz x + 1) | x - 2 ^ ctz x).
Proof.
  intros Hx. destruct (ctz_spec x ltac:(lia)) as (Hp & [q Hq] & _ & Hpos). destruct (Hpos ltac:(lia)) as [Hp32 _].
  destruct (ctz_from_spec x 32 0 ltac:(lia)) as (_ & _ & Hbit). change (ctz_from 32 0 x) with (ctz x) in Hbit. specialize (Hbit ltac:(lia)).
  set (p := ctz x) in *. rewrite Hq, Z.mul_pow2_bits, Z.sub_diag, Z.bit0_odd in Hbit by lia.
  apply Z.odd_spec in Hbit as [t Ht]. exists t. rewrite Z.pow_add_r by lia. lia.
Qed.
Lemma zoom_out_complete target size k : 0 <= target < 2 ^ 32 -> 32 <= size < 2 ^ 29 -> fits target size k ->
  forall fuel aligned s0 m0, 0 <= aligned <= target -> (0 < aligned -> target - aligned < 2 ^ ctz aligned) -> base_of target k <= aligned -> m0 <> size ->
  33 - ctz aligned <= Z.of_nat fuel -> exists al s c o, zoom_out fuel target size aligned s0 m0 = Some (al, s, c, o) /\ c <> 0.
Proof.
  intros Ht Hsize Hfits. pose proof Hfits as (Hk & Hdiv & Hks & H8). assert (Hk0 : 0 < 2 ^ k) by (apply Z.pow_pos_nonneg; lia).
  assert (Hsz8 : size <= 8 * 2 ^ k).
  { pose proof (Z.div_mod (size + 2 ^ k - 1) (2 ^ k) ltac:(lia)). pose proof (Z.mod_pos_bound (size + 2 ^ k - 1) (2 ^ k) Hk0).
    pose proof (Z.mod_pos_bound target (8 * 2 ^ k) ltac:(lia)). assert (0 <= target mod (8 * 2 ^ k) / 2 ^ k) by (apply Z.div_pos; lia). nia. }
  assert (H8k : 8 * 2 ^ k = 2 ^ (k + 3)) by (rewrite Z.pow_add_r by lia; lia).
  induction fuel as [|fuel IH]; intros aligned s0 m0 Ha Hlow Hbase Hm0 Hfuel.
  { destruct (ctz_spec aligned ltac:(lia)) as (? & _). lia. }
  cbn [zoom_out]. destruct (ctz_spec aligned ltac:(lia)) as (Hp & Hd & Hzero & Hpos). set (p := ctz aligned) in *.
  assert (Hasz : (aligned = 0 /\ u32 (2 ^ p) = 0) \/ (0 < aligned /\ u32 (2 ^ p) = 2 ^ p /\ p < 32 /\ 2 ^ p <= aligned)).
  { destruct (decide (aligned = 0)) as [E|]; [left; split; [done|]; by rewrite Hzero|right]. destruct (Hpos ltac:(lia)) as [Hp32 Hle].
    split; [lia|]. split; [|done]. apply u32_id. split; [apply Z.pow_nonneg; lia|apply Z.pow_lt_mono_r; lia]. }
  set (asz := u32 (2 ^ p)) in *. set (m1 := if asz =? 0 then 2 ^ 29 else Z.shiftr asz 3). set (m2 := if size <? m1 then size else m1).
  assert (Hm1 : m1 <= 2 ^ 29).
  { unfold m1. destruct (Z.eqb_spec asz 0); [done|]. rewrite Z.shiftr_div_pow2 by lia. change (2 ^ 29) with (2 ^ 32 / 2 ^ 3).
    apply Z.div_le_mono; [done|]. destruct Hasz as [[_ ?]|(_ & -> & _)]; [lia|apply Z.pow_le_mono_r; lia]. }
  assert (Hm2 : m2 <= m1 /\ m2 <= size) by (unfold m2; destruct (Z.ltb_spec size m1); lia).
  destruct (find_subregion 32 32 m2 target aligned size) as [[fs fc] fo] eqn:Ef.
  destruct (decide (base_of target k = aligned)) as [Eb|Hne].
  - (* the base of the region that fits *)
    assert (Hcase : (size <=? asz) || (asz =? 0) = true /\ 2 ^ k <= m2).
    { destruct Hasz as [[E0 E]|(Hap & E & Hp32 & _)].
      - rewrite E in *. split; [by rewrite orb_true_r|]. unfold m2, m1. rewrite E. change (0 =? 0) with true. cbv iota. destruct (Z.ltb_spec size (2 ^ 29)); lia.
      - assert (Hkp : k + 3 <= p).
        { apply ctz_le; [lia|lia|]. rewrite <- H8k, <- Eb. unfold base_of. exists (target / (8 * 2 ^ k)). pose proof (Z.div_mod target (8 * 2 ^ k) ltac:(lia)). lia. }
        assert (2 ^ (k + 3) <= 2 ^ p) by (apply Z.pow_le_mono_r; lia). rewrite (proj2 (Z.leb_le size asz)) by lia. split; [done|].
        unfold m2, m1. rewrite (proj2 (Z.eqb_neq asz 0)) by lia. rewrite E, Z.shiftr_div_pow2, <- Z.pow_sub_r by lia.
        assert (2 ^ k <= 2 ^ (p - 3)) by (apply Z.pow_le_mono_r; lia). destruct (size <? 2 ^ (p - 3)); lia. }
    destruct Hcase as [Hcase Hkm]. rewrite Hcase.
    assert (Hk29 : k <= 29) by (apply (Z.pow_le_mono_r_iff 2); lia).
    pose proof (find_subregion_complete m2 target aligned size k ltac:(lia) ltac:(lia) Ha ltac:(lia) Hfits Eb Hkm 32 5 ltac:(lia) ltac:(lia)) as Hc.
    change (2 ^ 5) with 32 in Hc. rewrite Ef in Hc. cbn [fst snd] in Hc. rewrite (proj2 (Z.eqb_neq fc 0)) by done. cbn [andb]. by eexists _, _, _, _.
  - (* further out *)
    destruct Hasz as [[E0 _]|(Hap & E & Hp32 & Hple)].
    { exfalso. apply Hne. rewrite E0 in *. unfold base_of in *. pose proof (Z.mod_le target (8 * 2 ^ k)). lia. }
    specialize (Hlow Hap). assert (Hp0 : 0 < 2 ^ p) by (apply Z.pow_pos_nonneg; lia).
    assert (Ea : aligned = target - target mod 2 ^ p).
    { destruct Hd as [q Hq]. assert (target mod 2 ^ p = target - aligned); [|lia]. symmetry. apply Z.mod_unique_pos with q; lia. }
    assert (Hstep : base_of target k <= aligned - 2 ^ p) by (rewrite Ea; apply base_step; lia).
    assert (Hnext : u32 (aligned - asz) = aligned - 2 ^ p) by (rewrite E; apply u32_id; lia).
    assert (Hm2s : m2 <> size).
    { intros E2. assert (Hm : size <= m1) by lia. unfold m1 in Hm. rewrite E, (proj2 (Z.eqb_neq (2 ^ p) 0)), Z.shiftr_div_pow2 in Hm by lia.
      assert (H8s : 8 * size <= 2 ^ p) by (pose proof (Z.div_mod (2 ^ p) (2 ^ 3) ltac:(lia)); pose proof (Z.mod_pos_bound (2 ^ p) (2 ^ 3) ltac:(lia)); lia).
      assert (Hkp : k + 3 <= p) by (apply (Z.pow_le_mono_r_iff 2); lia).
      assert (Hdd : (2 ^ (k + 3) | 2 ^ p)) by (exists (2 ^ (p - (k + 3))); rewrite <- Z.pow_add_r by lia; f_equal; lia).
      pose proof (Z.mod_le (target mod 2 ^ p) (2 ^ (k + 3))) as Hml. rewrite Z.mod_mod_divide in Hml by done.
      pose proof (Z.mod_pos_bound target (2 ^ p) Hp0). unfold base_of in *. rewrite H8k in *. assert (0 < 2 ^ (k + 3)) by (apply Z.pow_pos_nonneg; lia). lia. }
    assert (Hctz : p + 1 <= ctz (aligned - 2 ^ p)).
    { destruct (ctz_spec (aligned - 2 ^ p) ltac:(lia)) as (_ & _ & Hz & _). destruct (decide (aligned - 2 ^ p = 0)) as [E0|]; [rewrite Hz; lia|].
      apply ctz_le; [lia|lia|]. apply clear_lowest. lia. }
    assert (Hrec : forall s1 m', m' <> size -> exists al s c o, zoom_out fuel target size (aligned - 2 ^ p) s1 m' = Some (al, s, c, o) /\ c <> 0).
    { intros s1 m' Hm'. apply IH; try done; try lia. intros _. assert (2 ^ (p + 1) <= 2 ^ ctz (aligned - 2 ^ p)) by (apply Z.pow_le_mono_r; lia).
      rewrite Z.pow_add_r in H by lia. lia. }
    destruct ((size <=? asz) || (asz =? 0)).
    + destruct (Z.eqb_spec fc 0) as [->|Hc]; [|cbn [andb]; by eexists _, _, _, _].
      rewrite (proj2 (Z.eqb_neq m2 size)) by done. cbn [negb andb]. rewrite Hnext. by apply Hrec.
    + change (0 =? 0) with true. rewrite (proj2 (Z.eqb_neq m0 size)) by done. cbn [negb andb]. rewrite Hnext. by apply Hrec.
Qed.
Lemma zoom_out_total target size : 0 <= target < 2 ^ 32 -> size < 2 ^ 29 ->
  forall fuel aligned s0 m0, 0 <= aligned <= target -> 33 - ctz aligned <= Z.of_nat fuel -> is_Some (zoom_out fuel target size aligned s0 m0).
Proof.
  intros Ht Hsize. induction fuel as [|fuel IH]; intros aligned s0 m0 Ha Hfuel; destruct (ctz_spec aligned ltac:(lia)) as (Hp & Hd & Hzero & Hpos); [lia|].
  cbn [zoom_out]. destruct (decide (aligned = 0)) as [->|Hne].
  - rewrite (Hzero eq_refl). change (u32 (2 ^ 32)) with 0. rewrite orb_true_r. change (0 =? 0) with true. cbv iota zeta.
    rewrite (proj2 (Z.ltb_lt size (2 ^ 29))) by done. destruct (find_subregion _ _ _ _ _ _) as [[fs fc] fo]. rewrite Z.eqb_refl, andb_false_r. done.
  - destruct (Hpos ltac:(lia)) as [Hp32 Hle]. set (p := ctz aligned) in *. assert (Hp0 : 0 < 2 ^ p) by (apply Z.pow_pos_nonneg; lia).
    assert (E : u32 (2 ^ p) = 2 ^ p) by (apply u32_id; split; [lia|apply Z.pow_lt_mono_r; lia]). rewrite E.
    assert (Hnext : u32 (aligned - 2 ^ p) = aligned - 2 ^ p) by (apply u32_id; lia).
    assert (Hctz : p + 1 <= ctz (aligned - 2 ^ p)).
    { destruct (ctz_spec (aligned - 2 ^ p) ltac:(lia)) as (_ & _ & Hz & _). destruct (decide (aligned - 2 ^ p = 0)) as [E0|]; [rewrite Hz; lia|].
      apply ctz_le; [lia|lia|]. apply clear_lowest; lia. }
    destruct (find_subregion _ _ _ _ _ _) as [[fs fc] fo]. destruct (_ || _); [destruct (fc =? 0)|]; cbv iota zeta; cbn [andb]; try done;
      rewrite ?Hnext; change (0 =? 0) with true; cbn [andb]; destruct (negb _); try done; apply IH; lia.
Qed.

(** C25: Memory protection covers what it is asked to.  For a range of at least 32 bytes (and less than 512 MB) the search for the registers
    ends, and finds a region if there is one; the registers it finds let a task reach every byte of the range, nothing before it and
    nothing behind the last of the subregions it takes, less than the size of the range again. *)
Theorem mpu_region_exact region addr size access type executable : 0 <= region < 16 -> 0 <= addr < 2 ^ 32 -> 32 <= size < 2 ^ 29 ->
  (forall i, 0 <= i < 16 -> Z.testbit (cache_policy type) i = false) ->
  exists r rbar rasr, mpu_calc_region region addr size access type executable = Some (r, rbar, rasr) /\
    (r <> 0 <-> exists k, fits addr size k) /\
    (r <> 0 -> size <= r < 2 * size /\ forall a, region_allows rbar rasr a = true <-> addr <= a < addr + r).
Proof.
  intros Hreg Haddr Hsize Hpol. pose proof (ctz_spec addr Haddr) as (Hcr & Hcd & _ & _).
  assert (Hex : exists r rbar rasr, mpu_calc_region region addr size access type executable = Some (r, rbar, rasr) /\
    (r <> 0 <-> exists al s c o, zoom_out 1024 addr size addr 0 0 = Some (al, s, c, o) /\ c <> 0)).
  { destruct (zoom_out_total addr size Haddr ltac:(lia) 1024 addr 0 0 ltac:(lia) ltac:(lia)) as [[[[al s] c] o] Ez].
    unfold mpu_calc_region. rewrite (proj2 (Z.ltb_ge size 32)), Ez by lia. destruct (Z.eqb_spec c 0) as [->|Hc].
    - eexists _, _, _. split; [reflexivity|]. split; [congruence|]. intros (al' & s' & c' & o' & E & Hc). congruence.
    - assert (Hj := zoom_out_spec addr size Haddr 1024 addr 0 0 al s c o ltac:(lia) Ez Hc). destruct Hj as (_ & j & Hj & -> & Hs & _ & _ & _ & Ec & _ & H8).
      assert (Hpos : 32 <= 2 ^ j) by (change 32 with (2 ^ 5); apply Z.pow_le_mono_r; lia).
      rewrite (u32_id (size + 2 ^ j - 1)) in Ec by lia. pose proof (Z.div_mod (size + 2 ^ j - 1) (2 ^ j) ltac:(lia)) as Hdm. rewrite <- Ec in Hdm.
      pose proof (Z.mod_pos_bound (size + 2 ^ j - 1) (2 ^ j) ltac:(lia)). assert (Hj28 : 2 ^ j * 8 = 2 ^ (j + 3)) by (rewrite Z.pow_add_r by lia; lia).
      assert (j <= 28) by (destruct (decide (j <= 28)); [done|]; assert (2 ^ 29 <= 2 ^ j) by (apply Z.pow_le_mono_r; lia); lia).
      assert (2 ^ (j + 3) < 2 ^ 32) by (apply Z.pow_lt_mono_r; lia). rewrite Hj28, (u32_id (2 ^ (j + 3))) by lia. unfold clz.
      rewrite (proj2 (Z.eqb_neq (2 ^ (j + 3)) 0)), Z.log2_pow2, (u32_id (31 - (31 - (j + 3)) - 1)), (proj2 (Z.ltb_ge _ 4)) by lia.
      eexists _, _, _. split; [reflexivity|]. split; [intros _; by eexists _, _, _, _|]. intros _. rewrite u32_id by nia. nia. }
  destruct Hex as (r & rbar & rasr & E & Hiff). exists r, rbar, rasr. split; [done|]. split; [|by apply (region_sound region addr size access type executable)].
  rewrite Hiff. split.
  - intros (al & s & c & o & Ez & Hc). exists (Z.log2 s).
    destruct (zoom_out_spec addr size Haddr 1024 addr 0 0 al s c o ltac:(lia) Ez Hc) as (Hal & j & Hj & -> & Hs & _ & Hdiv & Hmod & Ec & Eo & H8).
    rewrite Z.log2_pow2 by lia. assert (Hpos : 32 <= 2 ^ j) by (change 32 with (2 ^ 5); apply Z.pow_le_mono_r; lia).
    rewrite (u32_id (size + 2 ^ j - 1)) in Ec by lia. rewrite (u32_id (addr - al)) in Eo by lia.
    assert (Hc0 : 0 < c) by (rewrite Ec; apply Z.div_str_pos; lia). assert (Ho0 : 0 <= o <= 2 ^ 27) by (rewrite Eo; split; [apply Z.div_pos; lia|apply Z.div_le_upper_bound; lia]).
    assert (Hc29 : c <= 2 ^ 29) by (rewrite Ec; apply Z.div_le_upper_bound; nia). rewrite u32_id in H8 by lia.
    split; [done|]. split; [apply Z.mod_divide; [lia|done]|]. split; [done|]. rewrite <- Ec. replace (addr mod (8 * 2 ^ j)) with (addr - al); [lia|].
    destruct Hdiv as [q Hq]. apply Z.mod_unique_pos with q; [|lia]. pose proof (Z.div_mod (addr - al) (2 ^ j) ltac:(lia)). pose proof (Z.mod_pos_bound (addr - al) (2 ^ j) ltac:(lia)).
    rewrite <- Eo in *. nia.
  - intros [k Hk]. apply (zoom_out_complete addr size k Haddr Hsize Hk); try lia.
    unfold base_of. destruct Hk as (Hk & _). assert (0 < 2 ^ k) by (apply Z.pow_pos_nonneg; lia). pose proof (Z.mod_pos_bound addr (8 * 2 ^ k) ltac:(lia)). lia.
Qed.
End Complete.

(** ** The kernel's regions in the hardware *)

Lemma disable_mask_high count offset j : 0 <= count -> 8 <= j -> Z.testbit (disable_mask count offset) j = false.
Proof.
  intros Hc Hj. unfold disable_mask. apply (for_range_ind (fun _ m => Z.testbit m j = false)); [lia| |].
  - change 255 with (Z.ones 8). apply Z.ones_spec_high. lia.
  - intros i m _ E. by rewrite Z.land_spec, E.
Qed.
Lemma testbit_small x n b : 0 <= x < 2 ^ n -> 0 <= n <= b -> Z.testbit x b = false.
Proof.
  intros Hx Hb. destruct (decide (x = 0)) as [->|]; [apply Z.bits_0|]. apply Z.bits_above_log2; [lia|].
  apply Z.log2_lt_pow2; [lia|]. apply Z.lt_le_trans with (2 ^ n); [lia|apply Z.pow_le_mono_r; lia].
Qed.

Section Hardware.
Context {CP : MpuConfig}.
(** The policies are the bits [TEX], [S], [C] and [B]. *)
Context (Hpol : forall t i, Z.testbit (cache_policy t) i = true -> 16 <= i < 22).

Lemma policy_clear t i : 0 <= i < 16 \/ 22 <= i -> Z.testbit (cache_policy t) i = false.
Proof using Hpol. intros Hi. destruct (Z.testbit (cache_policy t) i) eqn:E; [|done]. apply Hpol in E. lia. Qed.

Lemma rasr_access ms access dm (executable : bool) pol : 0 <= ms < 32 -> 0 <= access < 8 -> (forall i, 8 <= i -> Z.testbit dm i = false) ->
  (forall i, 22 <= i -> Z.testbit pol i = false) ->
  region_access (Z.lor (let rasr := u32 (Z.lor (Z.lor (Z.lor (Z.shiftl ms 1) 1) (Z.shiftl access 24)) (Z.shiftl dm 8)) in
                        if executable then rasr else Z.lor rasr (2 ^ 28)) pol) = access.
Proof using.
  intros Hms Hacc Hdm Hp. unfold region_access. apply Z.bits_inj'. intros b Hb. change 7 with (Z.ones 3). rewrite Z.land_spec, Z.shiftr_spec, Z.lor_spec by lia.
  rewrite (Hp (b + 24)), orb_false_r by lia. destruct (decide (b < 3)) as [Hlt|].
  2: { rewrite Z.ones_spec_high, andb_false_r by lia. symmetry. apply (testbit_small _ 3); lia. }
  rewrite Z.ones_spec_low, andb_true_r by lia. set (w := Z.lor _ _).
  assert (E : Z.testbit (u32 w) (b + 24) = Z.testbit access b).
  { unfold u32, w. rewrite Z.mod_pow2_bits_low, !Z.lor_spec, !Z.shiftl_spec, Hdm, orb_false_r by lia. rewrite (testbit_small ms 5) by lia.
    rewrite (testbit_small 1 1) by lia. cbn [orb]. f_equal. lia. }
  cbv zeta. destruct executable; [done|]. by rewrite Z.lor_spec, Z.pow2_bits_false, orb_false_r by lia.
Qed.
(** The access field and the region in the address register. *)
Lemma region_fields region addr size access type executable r rbar rasr : 0 <= region < 16 -> 0 <= addr < 2 ^ 32 -> 32 <= size < 2 ^ 29 -> 0 <= access < 8 ->
  mpu_calc_region region addr size access type executable = Some (r, rbar, rasr) -> r <> 0 ->
  region_access rasr = access /\ Z.testbit rbar 4 = true /\ Z.land rbar 15 = region.
Proof using Hpol.
  intros Hreg Haddr Hsize Hacc. unfold mpu_calc_region. rewrite (proj2 (Z.ltb_ge size 32)) by lia.
  destruct (zoom_out 1024 addr size addr 0 0) as [[[[al s] c] o]|] eqn:Ez; [|done]. destruct (Z.eqb_spec c 0); [congruence|].
  destruct (zoom_out_spec addr size Haddr 1024 addr 0 0 al s c o ltac:(lia) Ez n) as (Hal & j & Hj & -> & Hs & _ & Hdiv & _ & Ec & _).
  assert (Hpos : 32 <= 2 ^ j) by (change 32 with (2 ^ 5); apply Z.pow_le_mono_r; lia).
  assert (Hj28 : j <= 28) by (destruct (decide (j <= 28)); [done|]; assert (2 ^ 29 <= 2 ^ j) by (apply Z.pow_le_mono_r; lia); lia).
  assert (Hms : u32 (31 - clz (u32 (2 ^ j * 8)) - 1) = j + 2).
  { assert (E8 : 2 ^ j * 8 = 2 ^ (j + 3)) by (rewrite Z.pow_add_r by lia; lia). assert (2 ^ (j + 3) < 2 ^ 32) by (apply Z.pow_lt_mono_r; lia).
    rewrite E8, (u32_id (2 ^ (j + 3))) by lia. unfold clz. rewrite (proj2 (Z.eqb_neq _ 0)), Z.log2_pow2 by lia. rewrite u32_id; lia. }
  rewrite Hms. destruct (j + 2 <? 4); [congruence|]. rewrite (u32_id (size + 2 ^ j - 1)) in Ec by lia.
  assert (Hc : 0 <= c) by (rewrite Ec; apply Z.div_pos; lia).
  pose proof (fun pol => rasr_access (j + 2) access (disable_mask c o) executable pol ltac:(lia) Hacc (fun i Hi => disable_mask_high c o i Hc Hi)) as HW. cbv zeta in HW.
  set (W := u32 (Z.lor _ _)) in *. clearbody W. set (V := if executable then W else Z.lor W (2 ^ 28)) in *. clearbody V. intros [= <- <- <-] _. split.
  { destruct type; [rewrite <- (Z.lor_0_r V); apply HW; intros i _; apply Z.bits_0|..]; apply HW; intros i Hi; apply policy_clear; lia. }
  assert (Hlow : forall b, 0 <= b < 5 -> Z.testbit al b = false).
  { intros b Hb. destruct Hdiv as [q ->]. change 8 with (2 ^ 3). rewrite <- Z.pow_add_r, Z.mul_pow2_bits_low by lia. done. }
  split; [by rewrite !Z.lor_spec, orb_true_r|]. apply Z.bits_inj'. intros b Hb. change 15 with (Z.ones 4). change 16 with (2 ^ 4). rewrite Z.land_spec, !Z.lor_spec.
  destruct (decide (b < 4)); [rewrite Z.ones_spec_low, andb_true_r, Hlow, Z.pow2_bits_false by lia; done|].
  rewrite Z.ones_spec_high, andb_false_r by lia. symmetry. apply (testbit_small _ 4); lia.
Qed.

(** What the writes to a region leave alone. *)
Definition head (m : mpu_regs) : Z * Z := (mp_regions m, mp_ctrl m).
Lemma head_regions m m' : head m' = head m -> mp_regions m' = mp_regions m.
Proof using. by intros [= -> _]. Qed.
(** Region [i] gives [acc] to the [r] bytes from [lo], and is off where [r] is 0. *)
Definition covers (m : mpu_regs) (i lo r acc : Z) : Prop :=
  (forall a, region_allows (mp_region m i).1 (mp_region m i).2 a = true <-> lo <= a < lo + r) /\ (0 < r -> region_access (mp_region m i).2 = acc).
Lemma covers_off m i lo acc : Z.testbit (mp_region m i).2 0 = false -> covers m i lo 0 acc.
Proof using. intros E. split; [|lia]. intros a. unfold region_allows. rewrite E. cbn [andb]. split; [done|lia]. Qed.
Lemma covers_eq m m' i lo r acc : mp_region m' i = mp_region m i -> covers m i lo r acc -> covers m' i lo r acc.
Proof using. unfold covers. by intros ->. Qed.

Lemma write_both region r rbar rasr lo acc m : Z.testbit rbar 4 = true -> Z.land rbar 15 = region ->
  (forall a, region_allows rbar rasr a = true <-> lo <= a < lo + r) -> region_access rasr = acc ->
  let m' := write_rasr rasr (write_rbar rbar m) in
  head m' = head m /\ (forall i, i <> region -> mp_region m' i = mp_region m i) /\ covers m' region lo r acc.
Proof using.
  intros H4 Hr Hall Hacc. cbv zeta. unfold write_rbar. rewrite H4, Hr. split; [done|]. unfold write_rasr, covers. cbn [mp_region mp_rnr].
  unfold set_region. split; [intros i Hi; by rewrite (proj2 (Z.eqb_neq i region) Hi)|]. by rewrite Z.eqb_refl.
Qed.
Lemma enable_region_spec region addr size access type executable m m' : 0 <= region < 16 -> 0 <= addr < 2 ^ 32 -> 32 <= size < 2 ^ 29 -> 0 <= access < 8 ->
  mpu_enable_region region addr size access type executable m = Some (m', 0) ->
  exists r, size <= r < 2 * size /\ head m' = head m /\ (forall i, i <> region -> mp_region m' i = mp_region m i) /\ covers m' region addr r access.
Proof using Hpol.
  intros Hreg Haddr Hsize Hacc. unfold mpu_enable_region. destruct (_ <=? _); [done|].
  destruct (mpu_calc_region _ _ _ _ _ _) as [[[r rbar] rasr]|] eqn:E; [|done]. destruct (Z.eqb_spec r 0) as [|Hr]; [done|]. intros [= <-].
  destruct (region_sound _ _ _ _ _ _ _ _ _ Hreg Haddr Hsize ltac:(intros i Hi; apply policy_clear; lia) E Hr) as [Hrs Hall].
  destruct (region_fields _ _ _ _ _ _ _ _ _ Hreg Haddr Hsize Hacc E Hr) as (Ha & H4 & Hl). exists r. split; [done|].
  by apply write_both.
Qed.

(** Everything is off after the first loop. *)
Lemma disabled_all m : mp_regions m <= 16 -> let m' := for_range 0 16 (fun i m => (mpu_disable_region i m).1) m in
  mp_regions m' = mp_regions m /\ forall i, 0 <= i < mp_regions m -> Z.testbit (mp_region m' i).2 0 = false.
Proof using.
  intros Hn. pose proof (for_range_ind (fun k m' => mp_regions m' = mp_regions m /\ forall i, 0 <= i < k -> i < mp_regions m -> Z.testbit (mp_region m' i).2 0 = false)
    0 16 (fun i m => (mpu_disable_region i m).1) m ltac:(lia) ltac:(split; [done|intros; lia])) as H. cbv zeta beta in *.
  destruct H as [H1 H2]; [|split; [done|]; intros i Hi; apply H2; lia].
  intros i m' Hi [E IH]. unfold mpu_disable_region. rewrite E. destruct (Z.leb_spec (mp_regions m) i).
  { cbn [fst]. split; [done|]. intros k Hk Hk'. apply IH; lia. }
  assert (El : Z.land i 255 = i) by (change 255 with (Z.ones 8); rewrite Z.land_ones, Z.mod_small; lia). rewrite El.
  cbn [fst]. unfold write_rasr, write_rnr. cbn [mp_regions mp_rnr mp_region]. split; [done|]. intros k Hk Hk'. unfold set_region.
  destruct (Z.eqb_spec k i); [cbn [snd]; rewrite Z.land_spec; apply andb_false_r|]. apply IH; lia.
Qed.

Lemma enabled_dis m n : mp_regions m = n -> (forall i, 0 <= i < n -> Z.testbit (mp_region m i).2 0 = false) ->
  forall i, 0 <= i < mp_regions (mpu_enable m) -> Z.testbit (mp_region (mpu_enable m) i).2 0 = false.
Proof using. by intros <-. Qed.
(** Which of five regions has the address. *)
Lemma access_of_five m off a : 0 <= off -> off + 8 <= mp_regions m ->
  (forall i, 0 <= i < mp_regions m -> i < 3 + off \/ 7 + off < i -> Z.testbit (mp_region m i).2 0 = false) ->
  mpu_access_at m a =
    let get i d := if region_allows (mp_region m i).1 (mp_region m i).2 a then region_access (mp_region m i).2 else d in
    get (7 + off) (get (6 + off) (get (5 + off) (get (4 + off) (get (3 + off) 0)))).
Proof using.
  intros Hoff Hn Hrest. unfold mpu_access_at. set (body := fun i acc => let '(rbar, rasr) := mp_region m i in if region_allows rbar rasr a then region_access rasr else acc).
  assert (Hb : forall i acc, body i acc = if region_allows (mp_region m i).1 (mp_region m i).2 a then region_access (mp_region m i).2 else acc).
  { intros i acc. unfold body. by destruct (mp_region m i). }
  assert (Hskip : forall lo hi acc, 0 <= lo <= hi -> hi <= mp_regions m -> (forall i, lo <= i < hi -> i < 3 + off \/ 7 + off < i) -> for_range lo hi body acc = acc).
  { intros lo hi acc H1 H2 H3. apply (for_range_ind (fun _ x => x = acc)); [lia|done|]. intros i x Hi ->. rewrite Hb. unfold region_allows.
    rewrite Hrest by (lia || apply H3; lia). done. }
  assert (Hsplit : forall acc, for_range 0 (mp_regions m) body acc = for_range (3 + off) (mp_regions m) body (for_range 0 (3 + off) body acc)).
  { intros acc. unfold for_range. rewrite <- foldl_app. f_equal. replace (mp_regions m - 0) with ((3 + off - 0) + (mp_regions m - (3 + off))) by lia.
    rewrite seqZ_app by lia. by rewrite Z.sub_0_r, Z.add_0_l. }
  rewrite Hsplit, (Hskip 0) by lia. do 5 rewrite for_range_first by lia. rewrite Hskip by lia. rewrite !Hb. cbv zeta.
  by replace (3 + off + 1) with (4 + off) by lia; replace (4 + off + 1) with (5 + off) by lia; replace (5 + off + 1) with (6 + off) by lia; replace (6 + off + 1) with (7 + off) by lia.
Qed.

(** Where the linker puts the kernel. *)
Record layout_ok (l : os_layout) (system_memory system_memory_size : Z) : Prop := {
  lo_sys : 0 <= os_sys l < 2 ^ 32 /\ 32 <= os_esys l - os_sys l < 2 ^ 29;
  lo_text : 0 <= os_text_start l < 2 ^ 32 /\ 32 <= os_etext l - os_text_start l < 2 ^ 29;
  lo_data : 0 <= system_memory < 2 ^ 32 /\ 32 <= system_memory_size < 2 ^ 29;
  lo_heap : 0 <= os_heap_size l < 2 ^ 29;
  lo_key : 0 < os_key_size l -> 0 <= os_key_address l < 2 ^ 32 /\ 32 <= os_key_size l < 2 ^ 29 }.
Definition within (a lo r : Z) : bool := (lo <=? a) && (a <? lo + r).
Lemma covers_within m i lo r acc a d : covers m i lo r acc ->
  (if region_allows (mp_region m i).1 (mp_region m i).2 a then region_access (mp_region m i).2 else d) = if within a lo r then acc else d.
Proof using.
  intros [Hall Hacc]. specialize (Hall a). unfold within. destruct (region_allows _ _ a).
  - destruct Hall as [Hall _]. specialize (Hall eq_refl). rewrite (proj2 (Z.leb_le _ _)), (proj2 (Z.ltb_lt _ _)) by lia. apply Hacc. lia.
  - destruct (_ && _) eqn:E; [|done]. apply andb_true_iff in E as [E1%Z.leb_le E2%Z.ltb_lt]. destruct Hall as [_ Hall]. by specialize (Hall (conj E1 E2)).
Qed.

Lemma enable_code region addr size access type executable m m' e : mpu_enable_region region addr size access type executable m = Some (m', e) -> e <= 0.
Proof using. unfold mpu_enable_region. destruct (_ <=? _); [intros [= _ <-]; lia|]. destruct (mpu_calc_region _ _ _ _ _ _) as [[[r rbar] rasr]|]; [|done]. destruct (_ =? _); intros [= _ <-]; lia. Qed.
Lemma enable_or_inv k r m' : (forall m e, r = Some (m, e) -> e <= 0) -> enable_or k r = Some (m', 0) \/ enable_or_fatal k r = Some (m', 0) ->
  exists m, r = Some (m, 0) /\ k m = Some (m', 0).
Proof using.
  intros Hr. unfold enable_or, enable_or_fatal. destruct r as [[m e]|]; [|by intros []]. specialize (Hr m e eq_refl).
  destruct (Z.ltb_spec e 0); [intros [[= _ ->]|?]; [lia|done]|]. assert (e = 0) as -> by lia. intros H'. exists m. by destruct H'.
Qed.

Lemma os_code l mem m m' e : init_os_memory_protection l mem m = Some (m', e) -> 0 <= e -> e = 0.
Proof using.
  unfold init_os_memory_protection, enable_or, enable_or_fatal. intros H He.
  destruct (if 0 <? os_key_size l then _ else _) as [[m1 e1]|]; [|done]. destruct (e1 <? 0) eqn:E1; [injection H as <- <-; lia|].
  destruct (mpu_enable_region TASK_SYSTEM_STACK_MPU_REGION _ _ _ _ _ _) as [[m2 e2]|]; [|done]. destruct (e2 <? 0) eqn:E2; [injection H as <- <-; lia|].
  destruct (mpu_enable_region TASK_SYSTEM_CODE_MPU_REGION _ _ _ _ _ _) as [[m3 e3]|]; [|done]. destruct (e3 <? 0); [done|].
  destruct (mpu_enable_region TASK_SYSTEM_DATA_MPU_REGION _ _ _ _ _ _) as [[m4 e4]|]; [|done]. destruct (e4 <? 0); [done|]. by injection H.
Qed.

(** The regions of the kernel are switched on, each for its range. *)
Lemma os_regions l mem m m' : 0 <= task_mpu_region_offset <= 8 -> mp_regions m <= 16 ->
  (forall i, 0 <= i < mp_regions m -> Z.testbit (mp_region m i).2 0 = false) -> task_mpu_region_offset + 8 <= mp_regions m ->
  layout_ok l (tm_address (tm_data mem)) (tm_size (tm_data mem)) -> tm_address (tm_code mem) = os_text_start l -> tm_size (tm_code mem) = os_etext l - os_text_start l ->
  init_os_memory_protection l mem m = Some (m', 0) ->
  head m' = head m /\
  (forall i, 0 <= i < mp_regions m -> i < 4 + task_mpu_region_offset \/ 7 + task_mpu_region_offset < i -> Z.testbit (mp_region m' i).2 0 = false) /\
  exists rk rs rc rd, (rk = 0 <-> os_key_size l <= 0) /\ (0 < os_key_size l -> os_key_size l <= rk < 2 * os_key_size l) /\
    os_esys l - os_sys l <= rs < 2 * (os_esys l - os_sys l) /\ os_etext l - os_text_start l <= rc < 2 * (os_etext l - os_text_start l) /\
    tm_size (tm_data mem) <= rd < 2 * tm_size (tm_data mem) /\
    covers m' TASK_SYSTEM_SECRET_KEY_REGION (Z.land (os_key_address l) (Z.lnot 1)) rk MPU_ACCESS_PR /\
    covers m' TASK_SYSTEM_STACK_MPU_REGION (os_sys l) rs MPU_ACCESS_PRW_UR /\
    covers m' TASK_SYSTEM_CODE_MPU_REGION (os_text_start l) rc MPU_ACCESS_PR_UR /\
    covers m' TASK_SYSTEM_DATA_MPU_REGION (tm_address (tm_data mem)) rd MPU_ACCESS_PRW_URW.
Proof using Hpol.
  intros Hoff Hn Hdis Hroom [Hsys Htext Hdata Hheap Hkey] Eca Ecs.
  unfold init_os_memory_protection, TASK_SYSTEM_SECRET_KEY_REGION, TASK_SYSTEM_STACK_MPU_REGION, TASK_SYSTEM_CODE_MPU_REGION, TASK_SYSTEM_DATA_MPU_REGION,
    MPU_ACCESS_PR, MPU_ACCESS_PRW_UR, MPU_ACCESS_PR_UR, MPU_ACCESS_PRW_URW. rewrite Eca, Ecs.
  set (off := task_mpu_region_offset) in *. clearbody off.
  intros H. edestruct enable_or_inv as (m1 & E1 & H1); [|left; exact H|].
  { intros m2 e. destruct (0 <? os_key_size l); [apply enable_code|intros [= _ <-]; lia]. }
  edestruct enable_or_inv as (m2 & E2 & H2); [|left; exact H1|]; [intros ? ?; apply enable_code|].
  edestruct enable_or_inv as (m3 & E3 & H3); [|right; exact H2|]; [intros ? ?; apply enable_code|].
  edestruct enable_or_inv as (m4 & E4 & H4); [|right; exact H3|]; [intros ? ?; apply enable_code|]. injection H4 as <-. clear H H1 H2 H3.
  assert (Hk : head m1 = head m /\ (forall i, i <> 7 + off -> mp_region m1 i = mp_region m i) /\
    exists rk, (rk = 0 <-> os_key_size l <= 0) /\ (0 < os_key_size l -> os_key_size l <= rk < 2 * os_key_size l) /\ covers m1 (7 + off) (Z.land (os_key_address l) (Z.lnot 1)) rk 5).
  { destruct (Z.ltb_spec 0 (os_key_size l)) as [Hks|].
    - destruct (Hkey Hks) as [Hka Hksz]. apply enable_region_spec in E1 as (r & Hr & E & Hsame & Hc); [|lia| |lia|lia].
      + split; [done|]. split; [done|]. exists r. split; [lia|done].
      + rewrite <- Z.ldiff_land. change 1 with (Z.ones 1). rewrite Z.ldiff_ones_r, Z.shiftl_mul_pow2, Z.shiftr_div_pow2 by lia. pose proof (Z.div_mod (os_key_address l) (2 ^ 1)). pose proof (Z.mod_pos_bound (os_key_address l) (2 ^ 1)). lia.
    - injection E1 as <-. split; [done|]. split; [done|]. exists 0. split; [done|]. split; [lia|]. apply covers_off, Hdis. lia. }
  clear E1. destruct Hk as (En1 & Hs1 & rk & Hrk & Hrk' & Hc1).
  rewrite (u32_id (os_esys l - os_sys l)) in E2 by lia.
  apply enable_region_spec in E2 as (rs & Hrs & En2 & Hs2 & Hc2); try lia. apply enable_region_spec in E3 as (rc & Hrc & En3 & Hs3 & Hc3); try lia.
  apply enable_region_spec in E4 as (rd & Hrd & En4 & Hs4 & Hc4); try lia. split; [congruence|]. split.
  { intros i Hi Hout. rewrite Hs4, Hs3, Hs2, Hs1 by lia. apply Hdis. lia. }
  exists rk, rs, rc, rd. do 5 (split; [done|]). split; [|split; [|split]]; [| | |done].
  - apply (covers_eq m1); [by rewrite Hs4, Hs3, Hs2 by lia|done].
  - apply (covers_eq m2); [by rewrite Hs4, Hs3 by lia|done].
  - apply (covers_eq m3); [by rewrite Hs4 by lia|done].
Qed.

(** The registers of a guard. *)
Lemma stackguard_spec total stackaddr stacksize mem m m' mem' e : 0 <= task_mpu_region_offset <= 8 -> 0 <= stacksize < 2 ^ 29 -> 0 <= task_mpu_region_offset + 3 < mp_regions m ->
  Z.testbit (mp_region m TASK_APPLICATION_STACK_GUARD_REGION).2 0 = false ->
  task_root_set_stackguard 0 total 0 stackaddr stacksize mem m = Some (m', mem', e) ->
  head m' = head m /\ (forall i, i <> TASK_APPLICATION_STACK_GUARD_REGION -> mp_region m' i = mp_region m i) /\
  exists lo rg, covers m' TASK_APPLICATION_STACK_GUARD_REGION lo rg MPU_ACCESS_PRW.
Proof using Hpol.
  intros Hoff Hs Hn Hd. unfold task_root_set_stackguard. set (newaddr := u32 (Z.land _ _ + _)). assert (Hna : 0 <= newaddr < 2 ^ 32) by apply u32_range. clearbody newaddr.
  assert (Hfail : Some (m, mem, -1) = Some (m', mem', e) -> head m' = head m /\ (forall i, i <> TASK_APPLICATION_STACK_GUARD_REGION -> mp_region m' i = mp_region m i) /\
    exists lo rg, covers m' TASK_APPLICATION_STACK_GUARD_REGION lo rg MPU_ACCESS_PRW).
  { intros [= <- <- <-]. split; [done|]. split; [done|]. exists 0, 0. by apply covers_off. }
  destruct (_ <? total); [|done]. destruct (mpu_calc_region _ _ _ _ _ _) as [[[r rbar] rasr]|] eqn:E; [|done].
  destruct (Z.eqb_spec (s32 r) 0) as [|Hr]; [done|]. assert (Hr0 : r <> 0) by (intros ->; by apply Hr). change (0 =? 0) with true. intros [= <- <- <-].
  assert (Hreg : 0 <= TASK_APPLICATION_STACK_GUARD_REGION < 16) by (unfold TASK_APPLICATION_STACK_GUARD_REGION; lia).
  assert (Hsz : 32 <= u32 stacksize < 2 ^ 29).
  { destruct (Z.ltb_spec (u32 stacksize) 32) as [Hlt|]; [unfold mpu_calc_region in E; rewrite (proj2 (Z.ltb_lt _ _) Hlt) in E; congruence|]. pose proof (u32_id stacksize ltac:(lia)). lia. }
  destruct (region_sound _ _ _ _ _ _ _ _ _ Hreg Hna Hsz ltac:(intros i Hi; apply policy_clear; lia) E Hr0) as [Hrs Hall].
  destruct (region_fields _ _ _ MPU_ACCESS_PRW _ _ _ _ _ Hreg Hna Hsz ltac:(done) E Hr0) as (Ha & H4 & Hl).
  destruct (write_both _ r rbar rasr newaddr _ m H4 Hl Hall Ha) as (H1 & H2 & H3). split; [done|]. split; [done|]. by eexists _, _.
Qed.

(** C24: After start-up the hardware knows the kernel and nothing else.  Where [task_init_mpu] returns 0, an unprivileged task can read and
    write the kernel's data, read its code and its system section, and reach nothing of the secret key; each range is covered from its
    first byte to its last, and over less than twice its size.  Every other address is out of reach: what was in the registers before is
    switched off.  The guard below the stack of task 0 is looked at last, so it has no effect inside the data it is meant to guard. *)
Theorem kernel_memory_protected l total system_memory system_memory_size junk mem0 m m' mem' :
  0 <= task_mpu_region_offset -> task_mpu_region_offset + 8 <= mp_regions m <= 16 -> layout_ok l system_memory system_memory_size ->
  task_init_mpu l total system_memory system_memory_size junk mem0 m = Some (m', mem', 0) ->
  mp_ctrl m' = 5 /\ exists rk rs rc rd guard rg,
    (rk = 0 <-> os_key_size l <= 0) /\ (0 < os_key_size l -> os_key_size l <= rk < 2 * os_key_size l) /\
    os_esys l - os_sys l <= rs < 2 * (os_esys l - os_sys l) /\ os_etext l - os_text_start l <= rc < 2 * (os_etext l - os_text_start l) /\
    system_memory_size <= rd < 2 * system_memory_size /\
    forall a, mpu_access_at m' a =
      if within a (Z.land (os_key_address l) (Z.lnot 1)) rk then MPU_ACCESS_PR
      else if within a (os_sys l) rs then MPU_ACCESS_PRW_UR
      else if within a (os_text_start l) rc then MPU_ACCESS_PR_UR
      else if within a system_memory rd then MPU_ACCESS_PRW_URW
      else if within a guard rg then MPU_ACCESS_PRW else 0.
Proof using Hpol.
  intros Hoff Hn Hl. pose proof (lo_data _ _ _ Hl) as [Hda Hds]. pose proof (lo_heap _ _ _ Hl) as Hheap. pose proof (lo_text _ _ _ Hl) as [_ Hts].
  unfold task_init_mpu. destruct (disabled_all m ltac:(lia)) as [En Hdis]. revert En Hdis. generalize (for_range 0 16 (fun i m => (mpu_disable_region i m).1) m). intros m0 En Hdis.
  set (os_mem := mk_memories _ _ _). assert (Eda : tm_address (tm_data os_mem) = system_memory) by reflexivity.
  assert (Eds : tm_size (tm_data os_mem) = system_memory_size) by (apply u32_id; lia). assert (Eca : tm_address (tm_code os_mem) = os_text_start l) by reflexivity.
  assert (Ecs : tm_size (tm_code os_mem) = os_etext l - os_text_start l) by (apply u32_id; lia). clearbody os_mem.
  destruct (init_os_memory_protection l os_mem (mpu_enable m0)) as [[m1 e1]|] eqn:E1; [|done].
  destruct (Z.ltb_spec e1 0) as [|He1]; [intros [= _ _ ->]; lia|]. destruct (task_mpu_calc_protection os_mem) as [[om e2]|]; [|done].
  destruct (Z.ltb_spec e2 0); [intros [= _ _ ->]; lia|].
  rewrite (s32_id (os_heap_size l)) by lia. destruct (Z.ltb_spec system_memory_size (os_heap_size l)); [done|]. rewrite (s32_id (system_memory_size - os_heap_size l)) by lia.
  destruct (task_root_set_stackguard _ _ _ _ _ _ _) as [[[m2 om2] e3]|] eqn:E3; [|done]. intros [= <- <-].
  pose proof (os_code _ _ _ _ _ E1 He1) as E0. rewrite E0 in E1. clear E0.
  assert (Hlay : layout_ok l (tm_address (tm_data os_mem)) (tm_size (tm_data os_mem))) by (by rewrite Eda, Eds).
  assert (Hoff8 : 0 <= task_mpu_region_offset <= 8) by lia.
  assert (Hn16 : mp_regions (mpu_enable m0) <= 16) by (cbn [mpu_enable mp_regions]; lia).
  assert (Hd0 : forall i, 0 <= i < mp_regions (mpu_enable m0) -> Z.testbit (mp_region (mpu_enable m0) i).2 0 = false).
  { by apply (enabled_dis m0 (mp_regions m)). }
  assert (Hroom : task_mpu_region_offset + 8 <= mp_regions (mpu_enable m0)) by (cbn [mpu_enable mp_regions]; lia).
  destruct (os_regions l os_mem (mpu_enable m0) m1 Hoff8 Hn16 Hd0 Hroom Hlay Eca Ecs E1) as (En1 & Hdis1 & rk & rs & rc & rd & Hrk & Hrk' & Hrs & Hrc & Hrd & Hc7 & Hc6 & Hc5 & Hc4).
  rewrite Eds in Hrd. rewrite Eda in Hc4. clear E1.
  pose proof (head_regions _ _ En1) as En1'. change (mp_regions (mpu_enable m0)) with (mp_regions m0) in En1'.
  assert (Hdis2 : forall i, 0 <= i < mp_regions m -> i < 4 + task_mpu_region_offset \/ 7 + task_mpu_region_offset < i -> Z.testbit (mp_region m1 i).2 0 = false).
  { intros i Hi. apply Hdis1. by rewrite <- En in Hi. }
  assert (Hss : 0 <= system_memory_size - os_heap_size l < 2 ^ 29) by lia.
  assert (Hrr : 0 <= task_mpu_region_offset + 3 < mp_regions m1) by lia.
  assert (Hgi : 0 <= TASK_APPLICATION_STACK_GUARD_REGION < mp_regions m /\ TASK_APPLICATION_STACK_GUARD_REGION < 4 + task_mpu_region_offset) by (unfold TASK_APPLICATION_STACK_GUARD_REGION; lia).
  pose proof (Hdis2 _ (proj1 Hgi) (or_introl (proj2 Hgi))) as Hgd.
  destruct (stackguard_spec total (u32 (system_memory + os_heap_size l)) (system_memory_size - os_heap_size l) om m1 m2 om2 e3 Hoff8 Hss Hrr Hgd E3) as (En2 & Hs2 & lo & rg & Hcg).
  pose proof (head_regions _ _ En2) as En2'.
  split; [by injection (eq_trans En2 En1)|]. exists rk, rs, rc, rd, lo, rg. do 5 (split; [done|]). intros a.
  rewrite (access_of_five m2 task_mpu_region_offset) by (lia || intros i Hi Ho; rewrite Hs2 by (unfold TASK_APPLICATION_STACK_GUARD_REGION; lia); apply Hdis2; lia).
  cbv beta zeta. assert (Hsame : forall k, 3 < k -> mp_region m2 (k + task_mpu_region_offset) = mp_region m1 (k + task_mpu_region_offset)).
  { intros k Hk. apply Hs2. unfold TASK_APPLICATION_STACK_GUARD_REGION. lia. }
  rewrite (covers_within m2 _ _ _ _ a _ (covers_eq _ m2 _ _ _ _ (Hsame 7 ltac:(lia)) Hc7)), (covers_within m2 _ _ _ _ a _ (covers_eq _ m2 _ _ _ _ (Hsame 6 ltac:(lia)) Hc6)).
  rewrite (covers_within m2 _ _ _ _ a _ (covers_eq _ m2 _ _ _ _ (Hsame 5 ltac:(lia)) Hc5)), (covers_within m2 _ _ _ _ a _ (covers_eq _ m2 _ _ _ _ (Hsame 4 ltac:(lia)) Hc4)).
  by rewrite (covers_within m2 _ _ _ _ a _ Hcg).
Qed.
End Hardware.

(** ** Pointers, sizes and witnesses *)

(** [mpu_calc_size] finds the smallest power of two. *)
Lemma mpu_calc_size_from_spec size : 0 <= size <= 2 ^ 31 -> forall fuel shift, 5 <= shift <= 31 -> 32 - shift <= Z.of_nat fuel -> (5 < shift -> 2 ^ (shift - 1) < size) ->
  let s := mpu_calc_size_from fuel shift size in 4 <= s <= 30 /\ size <= 2 ^ (s + 1) /\ (4 < s -> 2 ^ s < size).
Proof.
  intros Hsize. induction fuel as [|fuel IH]; intros shift Hs Hf Hlow; [lia|]. cbn [mpu_calc_size_from]. unfold MPU_SIZE_4GB.
  assert (E : u32 (2 ^ shift) = 2 ^ shift) by (apply u32_id; split; [apply Z.pow_nonneg; lia|apply Z.pow_lt_mono_r; lia]). rewrite E.
  destruct (Z.ltb_spec (2 ^ shift) size) as [Hlt|Hge].
  - assert (shift < 31) by (destruct (decide (shift < 31)); [done|]; assert (shift = 31) as -> by lia; lia).
    rewrite (proj2 (Z.eqb_neq (shift + 1) (31 + 1))) by lia. apply IH; [lia|lia|]. intros _. by replace (shift + 1 - 1) with shift by lia.
  - split; [lia|]. split; [by replace (shift - 1 + 1) with shift by lia|]. intros H. apply Hlow. lia.
Qed.
Theorem mpu_calc_size_least size : 0 <= size <= 2 ^ 31 ->
  size <= 2 ^ (mpu_calc_size size + 1) /\ forall s, 4 <= s -> size <= 2 ^ (s + 1) -> mpu_calc_size size <= s.
Proof.
  intros Hsize. destruct (mpu_calc_size_from_spec size Hsize 32 5 ltac:(lia) ltac:(lia) ltac:(lia)) as (Hr & Hle & Hmin). fold (mpu_calc_size size) in *.
  split; [done|]. intros s Hs Hss. destruct (decide (mpu_calc_size size <= s)); [done|]. specialize (Hmin ltac:(lia)).
  assert (2 ^ (s + 1) <= 2 ^ mpu_calc_size size) by (apply Z.pow_le_mono_r; lia). lia.
Qed.

(** A pointer that is accepted, with a size that does not run past the end of the address space, lies in
    one of the four memories. *)
Theorem validated_pointer_inside mem os target size : 0 <= target < 2 ^ 32 -> 0 <= size < 2 ^ 31 -> target + size < 2 ^ 32 ->
  (forall t, In t [tm_data mem; tm_code mem; tm_data os; tm_code os] -> 0 <= tm_address t /\ 0 <= tm_size t /\ tm_address t + tm_size t < 2 ^ 32) ->
  task_validate_memory mem os target size = 0 <->
  exists t, In t [tm_data mem; tm_code mem; tm_data os; tm_code os] /\ tm_address t <= target /\ target + size <= tm_address t + tm_size t.
Proof.
  intros Ht Hs Hts Hw.
  assert (Hp : forall t, In t [tm_data mem; tm_code mem; tm_data os; tm_code os] ->
    is_part_of_memory target size t = true <-> tm_address t <= target /\ target + size <= tm_address t + tm_size t).
  { intros t Hin. destruct (Hw t Hin) as (H1 & H2 & H3). unfold is_part_of_memory. rewrite !u32_id by (rewrite ?u32_id; lia). rewrite andb_true_iff, !Z.leb_le. done. }
  unfold task_validate_memory. split.
  - intros H. destruct (is_part_of_memory target size (tm_data mem)) eqn:E1; [eexists; split; [by left|]; apply Hp; [by left|done]|].
    destruct (is_part_of_memory target size (tm_code mem)) eqn:E2; [eexists; split; [by right; left|]; apply Hp; [by right; left|done]|].
    destruct (is_part_of_memory target size (tm_data os)) eqn:E3; [eexists; split; [by do 2 right; left|]; apply Hp; [by do 2 right; left|done]|].
    destruct (is_part_of_memory target size (tm_code os)) eqn:E4; [eexists; split; [by do 3 right; left|]; apply Hp; [by do 3 right; left|done]|]. lia.
  - intros (t & Hin & Hpart). pose proof (proj2 (Hp t Hin) Hpart) as E. destruct Hin as [<-|[<-|[<-|[<-|[]]]]]; rewrite E; by repeat case_match.
Qed.
(** The sum is not checked: above the start of its data, a task passes any address with the size that wraps it around. *)
Theorem validation_wraps mem os target : 0 <= tm_address (tm_data mem) <= target -> target < 2 ^ 32 -> task_validate_memory mem os target (2 ^ 32 - target) = 0.
Proof.
  intros Ha Ht. unfold task_validate_memory, is_part_of_memory. rewrite (u32_id target), (proj2 (Z.leb_le _ _) (proj2 Ha)) by lia.
  assert (E : u32 (target + u32 (2 ^ 32 - target)) = 0) by (unfold u32; rewrite Zplus_mod_idemp_r; replace (target + (2 ^ 32 - target)) with (2 ^ 32) by lia; done).
  rewrite E. pose proof (u32_range (tm_address (tm_data mem) + tm_size (tm_data mem))). by rewrite (proj2 (Z.leb_le 0 _)) by lia.
Qed.

(** A board: the first region of the eight is the first of the kernel's. *)
#[local] Instance board : MpuConfig := {| cache_policy t := match t with MPU_MEMORY_FLASH => 2 ^ 17 | MPU_MEMORY_SRAM => 2 ^ 16 + 2 ^ 17 + 2 ^ 18 | _ => 2 ^ 16 end; task_mpu_region_offset := 0 |}.
Lemma board_policy t i : Z.testbit (cache_policy t) i = true -> 16 <= i < 22.
Proof.
  intros H. destruct (decide (0 <= i)); [|rewrite Z.testbit_neg_r in H by lia; done].
  destruct (decide (i < 22)); [|by rewrite (testbit_small _ 22) in H by (destruct t; cbn; lia)].
  destruct (decide (16 <= i)); [done|]. exfalso.
  assert (Hq : cache_policy t = cache_policy t / 2 ^ 16 * 2 ^ 16) by by destruct t. rewrite Hq, Z.mul_pow2_bits_low in H by lia. done.
Qed.
(** 512 KB of flash, 64 KB of memory, a key of 512 bytes. *)
Definition board_layout : os_layout := mk_layout 0x20010000 0x20011000 0x08000000 0x08060000 0x4000 0x0807F001 512 MPU_MEMORY_FLASH MPU_MEMORY_SRAM MPU_MEMORY_SRAM.
Definition board_memory : task_memory_t := mk_memory 0 0 MPU_MEMORY_NULL 0 0.
Definition board_memories : task_memories_t := mk_memories board_memory board_memory board_memory.
Definition board_mpu : mpu_regs := mk_mpu 8 0 0 (fun _ => (0, 63)).

Lemma mpu_region_exact_witness : exists r rbar rasr, mpu_calc_region 2 0x08004000 5000 MPU_ACCESS_PR_UR MPU_MEMORY_FLASH true = Some (r, rbar, rasr) /\
  (r <> 0 <-> exists k, fits 0x08004000 5000 k) /\ (r <> 0 -> 5000 <= r < 2 * 5000 /\ forall a, region_allows rbar rasr a = true <-> 0x08004000 <= a < 0x08004000 + r).
Proof. apply mpu_region_exact; [lia|lia|lia|]. intros i Hi. apply (policy_clear board_policy). lia. Defined.
Lemma board_layout_ok : layout_ok board_layout 0x20000000 0x8000.
Proof. split; cbn; lia. Qed.
Lemma kernel_memory_protected_witness :
  exists m' mem', task_init_mpu board_layout 8 0x20000000 0x8000 board_memories board_memories board_mpu = Some (m', mem', 0) /\
  mp_ctrl m' = 5 /\ exists rk rs rc rd guard rg,
    (rk = 0 <-> 512 <= 0) /\ (0 < 512 -> 512 <= rk < 2 * 512) /\ 0x1000 <= rs < 2 * 0x1000 /\ 0x60000 <= rc < 2 * 0x60000 /\ 0x8000 <= rd < 2 * 0x8000 /\
    forall a, mpu_access_at m' a =
      if within a (Z.land 0x0807F001 (Z.lnot 1)) rk then MPU_ACCESS_PR
      else if within a 0x20010000 rs then MPU_ACCESS_PRW_UR
      else if within a 0x08000000 rc then MPU_ACCESS_PR_UR
      else if within a 0x20000000 rd then MPU_ACCESS_PRW_URW
      else if within a guard rg then MPU_ACCESS_PRW else 0.
Proof.
  assert (E : option_map snd (task_init_mpu board_layout 8 0x20000000 0x8000 board_memories board_memories board_mpu) = Some 0) by (vm_compute; reflexivity).
  destruct (task_init_mpu _ _ _ _ _ _ _) as [[[m' mem'] e]|] eqn:Ei; [|discriminate E]. injection E as ->. exists m', mem'. split; [done|].
  exact (kernel_memory_protected board_policy board_layout 8 0x20000000 0x8000 board_memories board_memories board_mpu m' mem' ltac:(cbn; lia) ltac:(cbn; lia) board_layout_ok Ei).
Defined.

(** *** What start-up does besides *)

(** Eight subregions of 512 MB are 2{^32} bytes, which the code computes as 0: the size field runs into everything else. *)
Theorem large_region_corrupts : mpu_calc_region 5 0 (2 ^ 31 + 1) MPU_ACCESS_PR_UR MPU_MEMORY_NULL true = Some (0xA0000000, 21, 0xFFFFFFFD).
Proof. vm_compute. reflexivity. Qed.
(** The guard of task 0 is as large as its stack and is aligned to the next multiple of that, behind the memory of the kernel. *)
Theorem kernel_guard_misplaced :
  option_map (fun r => let g := tm_stackguard r.1.2 in (tm_address g, tm_size g)) (task_init_mpu board_layout 8 0x20000000 0x8000 board_memories board_memories board_mpu)
  = Some (0x20000000 + 0x8000, 0x8000 - os_heap_size board_layout).
Proof. vm_compute. reflexivity. Qed.
