(* ===== verification/Pages.v ===== *)
(** * Pages of program memory

    [src/sys/sysfs/appfs_mem_dev.c]: the memory device under the application file system, whose sections
    of flash and of RAM are divided into numbered pages, and [src/sys/sysfs/appfs_ram.c]: the table with
    two bits for each page of RAM.

    The flash itself is driven by code of the processor, the class [FlashDriver]; the size of a RAM page
    is a constant of the processor, [MCU_RAM_PAGE_SIZE]. *)
From S2P Require Import Prelude Memory.

Definition MEM_FLAG_IS_QUERY : Z := 1.
Definition MEM_FLAG_IS_RAM : Z := 2.
Definition MEM_FLAG_IS_FLASH : Z := 4.
Definition MEM_FLAG_IS_TIGHTLY_COUPLED : Z := 8.
Definition MEM_FLAG_IS_EXTERNAL : Z := 16.
Definition INVALID_PAGE : Z := u32 (-1).

Record appfs_mem_section_t := mk_section { sec_flags : Z; sec_count : Z; sec_address : Z; sec_page_size : Z }.
(** [mem_pageinfo_t]. *)
Record mem_pageinfo_t := mk_page { pi_num : Z; pi_flags : Z; pi_addr : Z; pi_size : Z }.
Record mem_info_t := mk_info { mi_flash_pages : Z; mi_flash_size : Z; mi_ram_pages : Z; mi_ram_size : Z;
  mi_external_ram_pages : Z; mi_external_ram_size : Z; mi_tightlycoupled_ram_pages : Z; mi_tightlycoupled_ram_size : Z }.

(** ** Numbering *)

Fixpoint section_from (find_page : Z) (l : list appfs_mem_section_t) (page type : Z) : option (appfs_mem_section_t * Z) :=
  match l with
  | [] => None
  | s :: l =>
      if Bits.any (sec_flags s) type then
        if page <? u32 (find_page + sec_count s) then Some (s, u32 (page - find_page))
        else section_from (u32 (find_page + sec_count s)) l page type
      else section_from find_page l page type
  end.
Definition get_page_section_info (l : list appfs_mem_section_t) (page type : Z) : option (appfs_mem_section_t * Z) := section_from 0 l (u32 page) type.

(** The page and the flags of its section; no flags when nothing is there. *)
Fixpoint page_from (ram_page flash_page : Z) (l : list appfs_mem_section_t) (address size : Z) : Z * Z :=
  match l with
  | [] => (INVALID_PAGE, 0)
  | s :: l =>
      if (sec_address s <=? address) && (u32 (address + size) <=? u32 (sec_address s + u32 (sec_page_size s * sec_count s))) then
        let offset := u32 (address - sec_address s) / sec_page_size s in
        (u32 ((if Bits.any (sec_flags s) MEM_FLAG_IS_FLASH then flash_page else ram_page) + offset), sec_flags s)
      else if Bits.any (sec_flags s) MEM_FLAG_IS_FLASH then page_from ram_page (u32 (flash_page + sec_count s)) l address size
      else page_from (u32 (ram_page + sec_count s)) flash_page l address size
  end.
Definition get_page (l : list appfs_mem_section_t) (address size : Z) : Z * Z := page_from 0 0 l (u32 address) (u32 size).

Definition get_memory_page_count (l : list appfs_mem_section_t) (type : Z) : Z :=
  foldl (fun pages s => if Bits.any (sec_flags s) type then u32 (pages + sec_count s) else pages) 0 l.
Definition get_memory_size (l : list appfs_mem_section_t) (type : Z) : Z :=
  foldl (fun size s => if Bits.any (sec_flags s) type then u32 (size + u32 (sec_count s * sec_page_size s)) else size) 0 l.
Definition get_page_info (l : list appfs_mem_section_t) (page type : Z) : option mem_pageinfo_t :=
  match get_page_section_info l page type with
  | Some (s, offset) => Some (mk_page (s32 page) (sec_flags s) (u32 (sec_address s + u32 (offset * sec_page_size s))) (sec_page_size s))
  | None => None
  end.

(** ** The device *)

(** [driver.ioctl] of the flash: erasing the page at an address, and writing bytes. *)
Class FlashDriver := {
  has_flash : bool;
  flash_erase_addr : Z -> mem -> mem * Z;
  flash_writepage : Z -> Z -> mem -> mem -> mem * Z }.

(** Bytes of a buffer, and a copy of them to memory. *)
Definition copy_in (addr nbyte : Z) (buf : mem) (m : mem) : mem := for_range 0 nbyte (fun i => store8 (addr + i) (load8 buf i)) m.
Definition copy_out (m : mem) (addr nbyte : Z) (buf : mem) : mem := for_range 0 nbyte (fun i => store8 i (load8 m (addr + i))) buf.

Definition appfs_mem_getinfo (l : list appfs_mem_section_t) : mem_info_t :=
  mk_info (get_memory_page_count l MEM_FLAG_IS_FLASH) (get_memory_size l MEM_FLAG_IS_FLASH)
          (get_memory_page_count l MEM_FLAG_IS_RAM) (get_memory_size l MEM_FLAG_IS_RAM)
          (get_memory_page_count l (Z.lor MEM_FLAG_IS_RAM MEM_FLAG_IS_EXTERNAL)) (get_memory_size l (Z.lor MEM_FLAG_IS_RAM MEM_FLAG_IS_EXTERNAL))
          (get_memory_page_count l (Z.lor MEM_FLAG_IS_RAM MEM_FLAG_IS_TIGHTLY_COUPLED)) (get_memory_size l (Z.lor MEM_FLAG_IS_RAM MEM_FLAG_IS_TIGHTLY_COUPLED)).
Definition appfs_mem_getpageinfo (l : list appfs_mem_section_t) (info : mem_pageinfo_t) : mem_pageinfo_t * Z :=
  let '(info, ok) :=
    if Bits.any (pi_flags info) MEM_FLAG_IS_QUERY then
      let '(num, type) := get_page l (pi_addr info) 0 in
      (mk_page (s32 num) type (pi_addr info) (pi_size info), negb (type =? 0))
    else (info, true) in
  if ok then
    match get_page_info l (pi_num info) (pi_flags info) with
    | Some info => (info, 0)
    | None => (info, SYSFS_SET_RETURN 177 EINVAL)
    end
  else (info, SYSFS_SET_RETURN 171 EINVAL).
(** What is read goes to [buf].  [None] is a copy of almost 4 GB: a negative size is not refused. *)
Definition appfs_mem_read (l : list appfs_mem_section_t) (loc nbyte : Z) (buf : mem) (m : mem) : option (mem * Z) :=
  if (get_page l loc nbyte).2 =? 0 then Some (buf, SYSFS_SET_RETURN 56 EINVAL)
  else if nbyte <? 0 then None else Some (copy_out m (u32 loc) nbyte buf, nbyte).
Definition appfs_mem_write (l : list appfs_mem_section_t) (loc nbyte : Z) (buf : mem) (m : mem) : option (mem * Z) :=
  let type := (get_page l loc nbyte).2 in
  if type =? 0 then Some (m, SYSFS_SET_RETURN 72 EINVAL)
  else if Bits.any type MEM_FLAG_IS_RAM then if nbyte <? 0 then None else Some (copy_in (u32 loc) nbyte buf m, nbyte)
  else Some (m, SYSFS_SET_RETURN 79 ENOTSUP).
Section Device.
Context {FD : FlashDriver}.
Definition appfs_mem_erasepage (l : list appfs_mem_section_t) (page : Z) (m : mem) : mem * Z :=
  if has_flash then
    let addr := match get_page_info l page MEM_FLAG_IS_FLASH with Some info => pi_addr info | None => 0 end in
    flash_erase_addr addr m
  else (m, SYSFS_SET_RETURN 157 ENOTSUP).
Definition appfs_mem_writepage (l : list appfs_mem_section_t) (addr nbyte : Z) (buf : mem) (m : mem) : mem * Z :=
  let type := (get_page l addr nbyte).2 in
  if type =? 0 then (m, SYSFS_SET_RETURN 191 EINVAL)
  else if Bits.any type MEM_FLAG_IS_RAM then (copy_in addr nbyte buf m, s32 nbyte)
  else if has_flash then flash_writepage addr nbyte buf m
  else (m, SYSFS_SET_RETURN 204 ENOTSUP).
End Device.

(** ** The table of the RAM pages *)

Definition APPFS_MEMPAGETYPE_FREE : Z := 0.
Definition APPFS_MEMPAGETYPE_SYS : Z := 1.
Definition APPFS_MEMPAGETYPE_USER : Z := 2.
Definition APPFS_MEMPAGETYPE_MASK : Z := 3.
Definition APPFS_MEMPAGETYPE_INVALID : Z := -1.

(** The words of the table, and of what lies behind it. *)
Definition usage := Z -> Z.
Definition get_page_usage (u : usage) (page : Z) : Z :=
  let block := Z.shiftr page 4 in
  let shift := Z.land page 15 * 2 in
  Z.land (Z.shiftr (u block) shift) APPFS_MEMPAGETYPE_MASK.
Definition set_word (i v : Z) (u : usage) : usage := fun j => if j =? i then v else u j.
Definition set_page_usage (page type : Z) (u : usage) : usage :=
  let block := Z.shiftr page 4 in
  let shift := Z.land page 15 * 2 in
  let u := set_word block (Z.land (u block) (u32 (Z.lnot (Z.shiftl APPFS_MEMPAGETYPE_MASK shift)))) u in
  set_word block (Z.lor (u block) (u32 (Z.shiftl (Z.land type APPFS_MEMPAGETYPE_MASK) shift))) u.

Class PageSize := { MCU_RAM_PAGE_SIZE : Z }.
Section Table.
Context {PS : PageSize}.
(** [memset] clears [usage_size] bytes: of the last word it may clear only the low ones. *)
Definition appfs_ram_root_init (usage_size : Z) (u : usage) : usage := fun i =>
  if 0 <=? i then let n := 8 * Z.max 0 (Z.min 4 (usage_size - 4 * i)) in Z.shiftl (Z.shiftr (u i) n) n else u i.
Definition appfs_ram_root_get (l : list appfs_mem_section_t) (page : Z) (u : usage) : Z :=
  if u32 page <? get_memory_page_count l MEM_FLAG_IS_RAM then get_page_usage u (u32 page) else APPFS_MEMPAGETYPE_INVALID.
Definition ram_page_count (size : Z) : Z := u32 (u32 size + MCU_RAM_PAGE_SIZE - 1) / MCU_RAM_PAGE_SIZE.
Definition appfs_ram_root_set (l : list appfs_mem_section_t) (page size type : Z) (u : usage) : usage :=
  for_range (u32 page) (u32 (u32 page + ram_page_count size))
    (fun i u => if u32 page <? get_memory_page_count l MEM_FLAG_IS_RAM then set_page_usage i type u else u) u.
End Table.

(** ** Copies *)

Lemma u8_u8 z : u8 (u8 z) = u8 z.
Proof. apply Z.mod_mod. lia. Qed.
Lemma copy_out_load m a n b i : load8 (copy_out m a n b) i = if (0 <=? i) && (i <? n) then load8 m (a + i) else load8 b i.
Proof.
  unfold copy_out. destruct (decide (0 <= n)) as [Hn|]; [|rewrite for_range_nil by lia; destruct (Z.leb_spec 0 i), (Z.ltb_spec i n); done || lia].
  pose proof (for_range_ind (fun k b' => load8 b' i = if (0 <=? i) && (i <? k) then load8 m (a + i) else load8 b i) 0 n (fun k => store8 k (load8 m (a + k))) b Hn) as H. cbv beta in H. apply H.
  - destruct (Z.leb_spec 0 i), (Z.ltb_spec i 0); done || lia.
  - intros k b' Hk IH. unfold load8 at 1, store8. destruct (Z.eqb_spec i k) as [->|Hne].
    + rewrite (proj2 (Z.leb_le 0 k)), (proj2 (Z.ltb_lt k (k + 1))) by lia. cbn [andb]. unfold load8. by rewrite !u8_u8.
    + fold (load8 b' i). rewrite IH. destruct (Z.leb_spec 0 i), (Z.ltb_spec i k), (Z.ltb_spec i (k + 1)); done || lia.
Qed.
Lemma copy_in_load a n b m x : load8 (copy_in a n b m) x = if (a <=? x) && (x <? a + n) then load8 b (x - a) else load8 m x.
Proof.
  unfold copy_in. destruct (decide (0 <= n)) as [Hn|]; [|rewrite for_range_nil by lia; destruct (Z.leb_spec a x), (Z.ltb_spec x (a + n)); done || lia].
  pose proof (for_range_ind (fun k m' => load8 m' x = if (a <=? x) && (x <? a + k) then load8 b (x - a) else load8 m x) 0 n (fun i => store8 (a + i) (load8 b i)) m Hn) as H. cbv beta in H. apply H.
  - destruct (Z.leb_spec a x), (Z.ltb_spec x (a + 0)); done || lia.
  - intros k m' Hk IH. unfold load8 at 1, store8. destruct (Z.eqb_spec x (a + k)) as [->|Hne].
    + rewrite (proj2 (Z.leb_le a (a + k))), (proj2 (Z.ltb_lt _ _)) by lia. cbn [andb]. replace (a + k - a) with k by lia. unfold load8. by rewrite !u8_u8.
    + fold (load8 m' x). rewrite IH. destruct (Z.leb_spec a x), (Z.ltb_spec x (a + k)), (Z.ltb_spec x (a + (k + 1))); done || lia.
Qed.

(** ** The table holds what was put into it *)

Definition usage_ok (u : usage) : Prop := forall i, 0 <= u i < 2 ^ 32.
Lemma set_word_bits w t s k : 0 <= s <= 30 -> 0 <= k < 32 ->
  Z.testbit (Z.lor (Z.land w (u32 (Z.lnot (Z.shiftl 3 s)))) (u32 (Z.shiftl (Z.land t 3) s))) k =
  if (s <=? k) && (k <? s + 2) then Z.testbit t (k - s) else Z.testbit w k.
Proof.
  intros Hs Hk. unfold u32. rewrite Z.lor_spec, Z.land_spec, !Z.mod_pow2_bits_low, Z.lnot_spec, !Z.shiftl_spec, Z.land_spec by lia.
  change 3 with (Z.ones 2). destruct (Z.leb_spec s k).
  - destruct (Z.ltb_spec k (s + 2)); cbn [andb].
    + by rewrite Z.ones_spec_low, andb_true_r, andb_false_r by lia.
    + by rewrite Z.ones_spec_high, andb_false_r, orb_false_r, andb_true_r by lia.
  - cbn [andb]. by rewrite !(Z.testbit_neg_r _ (k - s)), andb_true_r, orb_false_r by lia.
Qed.
Lemma shiftr_lt x n : 0 <= n -> 0 <= x -> Z.shiftr x n = 0 -> 0 <= x < 2 ^ n.
Proof. intros Hn Hx. rewrite Z.shiftr_div_pow2 by done. assert (0 < 2 ^ n) by (apply Z.pow_pos_nonneg; lia). intros E. apply Z.div_small_iff in E; lia. Qed.
Lemma lt_shiftr x n : 0 <= n -> 0 <= x < 2 ^ n -> Z.shiftr x n = 0.
Proof. intros Hn Hx. rewrite Z.shiftr_div_pow2 by done. by apply Z.div_small. Qed.
Lemma set_page_usage_ok page type u : usage_ok u -> usage_ok (set_page_usage page type u).
Proof.
  intros Hu i. unfold set_page_usage, set_word. rewrite Z.eqb_refl. destruct (i =? Z.shiftr page 4); [|apply Hu].
  specialize (Hu (Z.shiftr page 4)). pose proof (u32_range (Z.lnot (Z.shiftl APPFS_MEMPAGETYPE_MASK (Z.land page 15 * 2)))).
  pose proof (u32_range (Z.shiftl (Z.land type APPFS_MEMPAGETYPE_MASK) (Z.land page 15 * 2))).
  apply shiftr_lt; [lia|apply Z.lor_nonneg; split; [apply Z.land_nonneg|]; lia|]. by rewrite Z.shiftr_lor, Z.shiftr_land, !lt_shiftr by lia.
Qed.
(** A page keeps its entry until it is set. *)
Lemma get_set_usage p t u q : 0 <= p -> 0 <= q -> get_page_usage (set_page_usage p t u) q = if q =? p then Z.land t 3 else get_page_usage u q.
Proof.
  intros Hp Hq. unfold get_page_usage, set_page_usage, set_word, APPFS_MEMPAGETYPE_MASK. rewrite Z.eqb_refl.
  assert (Hlow : forall x, 0 <= x -> 0 <= Z.land x 15 < 16 /\ x = 16 * Z.shiftr x 4 + Z.land x 15).
  { intros x Hx. change 15 with (Z.ones 4). rewrite Z.land_ones, Z.shiftr_div_pow2 by lia. pose proof (Z.div_mod x (2 ^ 4)). pose proof (Z.mod_pos_bound x (2 ^ 4)). lia. }
  destruct (Hlow p Hp) as [Hp1 Hp2], (Hlow q Hq) as [Hq1 Hq2]. set (pb := Z.shiftr p 4) in *. set (po := Z.land p 15) in *. set (qb := Z.shiftr q 4) in *. set (qo := Z.land q 15) in *.
  assert (Hbits : forall a b, (forall k, qo * 2 <= k < qo * 2 + 2 -> Z.testbit a k = Z.testbit b (k - qo * 2)) -> Z.land (Z.shiftr a (qo * 2)) 3 = Z.land b 3).
  { intros a b H. apply Z.bits_inj'. intros k Hk. change 3 with (Z.ones 2). rewrite !Z.land_spec, Z.shiftr_spec by lia.
    destruct (decide (k < 2)); [rewrite H by lia; do 2 f_equal; lia|]. by rewrite Z.ones_spec_high, !andb_false_r by lia. }
  destruct (Z.eqb_spec qb pb) as [Eb|Hb].
  - rewrite Eb. destruct (Z.eqb_spec q p) as [->|Hne].
    + apply Hbits. intros k Hk. rewrite set_word_bits by lia. rewrite (proj2 (Z.leb_le _ _)), (proj2 (Z.ltb_lt _ _)) by lia. done.
    + assert (Hneo : qo <> po) by lia. apply Z.bits_inj'. intros k Hk. change 3 with (Z.ones 2) at 3 4. rewrite !Z.land_spec, !Z.shiftr_spec by lia.
      destruct (decide (k < 2)); [|by rewrite Z.ones_spec_high, !andb_false_r by lia].
      rewrite set_word_bits by lia. destruct (Z.leb_spec (po * 2) (k + qo * 2)), (Z.ltb_spec (k + qo * 2) (po * 2 + 2)); cbn [andb]; try done; lia.
  - destruct (Z.eqb_spec q p) as [->|]; [done|]. done.
Qed.

(** *** Entries *)

(** The words of the table are 32 bits, and each of the first [n] entries is free, of the system or the first of a program. *)
Record table_ok (n : Z) (u : usage) : Prop := {
  to_words : usage_ok u;
  to_entries : forall p, 0 <= p < n -> APPFS_MEMPAGETYPE_FREE <= get_page_usage u p <= APPFS_MEMPAGETYPE_USER }.
Lemma set_page_usage_typed n p type u : 0 <= p -> APPFS_MEMPAGETYPE_FREE <= type <= APPFS_MEMPAGETYPE_USER -> table_ok n u -> table_ok n (set_page_usage p type u).
Proof.
  intros Hp Ht [Hw He]. split; [by apply set_page_usage_ok|]. intros q Hq. rewrite get_set_usage by lia. destruct (q =? p); [|by apply He].
  unfold APPFS_MEMPAGETYPE_FREE, APPFS_MEMPAGETYPE_USER in *. assert (type = 0 \/ type = 1 \/ type = 2) as [-> | [-> | ->]] by lia; vm_compute; split; discriminate.
Qed.
(** Clearing the table makes every entry it holds free, whatever the memory held. *)
Lemma ram_root_init_free usage_size u p : 0 <= p < 4 * usage_size -> get_page_usage (appfs_ram_root_init usage_size u) p = APPFS_MEMPAGETYPE_FREE.
Proof.
  intros Hp. unfold get_page_usage, appfs_ram_root_init. change (Z.land p 15) with (Z.land p (Z.ones 4)). rewrite Z.land_ones, (Z.shiftr_div_pow2 p 4) by lia. change (2 ^ 4) with 16.
  pose proof (Z.div_mod p 16 ltac:(lia)). pose proof (Z.mod_pos_bound p 16 ltac:(lia)). rewrite (proj2 (Z.leb_le 0 (p / 16))) by lia. cbv zeta.
  set (n := 8 * Z.max 0 (Z.min 4 (usage_size - 4 * (p / 16)))). assert (Hn : p mod 16 * 2 + 2 <= n) by lia. clearbody n.
  rewrite Z.shiftr_shiftl_l by lia. change APPFS_MEMPAGETYPE_MASK with (Z.ones 2). rewrite Z.land_ones, Z.shiftl_mul_pow2 by lia.
  replace (n - p mod 16 * 2) with (2 + (n - p mod 16 * 2 - 2)) by lia. rewrite Z.pow_add_r by lia.
  replace (_ * (2 ^ 2 * _)) with (Z.shiftr (u (p / 16)) n * 2 ^ (n - p mod 16 * 2 - 2) * 2 ^ 2) by ring. by rewrite Z.mod_mul.
Qed.
Lemma ram_root_init_typed n usage_size u : usage_ok u -> n <= 4 * usage_size -> table_ok n (appfs_ram_root_init usage_size u).
Proof.
  intros Hu Hn. split.
  - intros i. unfold appfs_ram_root_init. destruct (0 <=? i); [|apply Hu]. cbv zeta. set (k := 8 * _). assert (Hk : 0 <= k) by lia. clearbody k. pose proof (Hu i).
    rewrite Z.shiftl_mul_pow2, Z.shiftr_div_pow2 by lia. pose proof (Z.pow_pos_nonneg 2 k ltac:(lia) Hk). pose proof (Z.mul_div_le (u i) (2 ^ k) ltac:(lia)).
    pose proof (Z.div_pos (u i) (2 ^ k) ltac:(lia) ltac:(lia)). nia.
  - intros p Hp. rewrite ram_root_init_free by lia. vm_compute. split; discriminate.
Qed.

Section TableLemmas.
Context {PS : PageSize}.
Lemma ram_root_set_typed n l page size type u : APPFS_MEMPAGETYPE_FREE <= type <= APPFS_MEMPAGETYPE_USER -> table_ok n u -> table_ok n (appfs_ram_root_set l page size type u).
Proof.
  intros Ht Hu. unfold appfs_ram_root_set. pose proof (u32_range page). apply for_range_keeps; [done|]. intros i v Hi Hv. destruct (_ <? _); [|done]. apply set_page_usage_typed; [lia|done|done].
Qed.
(** What an entry is after a range of pages was set, for every page: the table is a map from pages to two bits. *)
Lemma ram_root_set_spec l page size type u q : 0 <= page -> u32 page + ram_page_count size < 2 ^ 32 -> 0 <= page < 2 ^ 32 -> 0 <= ram_page_count size -> 0 <= q ->
  get_page_usage (appfs_ram_root_set l page size type u) q =
  if (page <? get_memory_page_count l MEM_FLAG_IS_RAM) && (page <=? q) && (q <? page + ram_page_count size) then Z.land type 3 else get_page_usage u q.
Proof.
  intros H0 Hr Hp Hc Hq. unfold appfs_ram_root_set. rewrite (u32_id page) in * by lia. rewrite (u32_id (page + _)) by lia. set (n := ram_page_count size) in *. clearbody n.
  destruct (page <? get_memory_page_count l MEM_FLAG_IS_RAM) eqn:E.
  - cbn [andb]. pose proof (for_range_ind (fun i v => get_page_usage v q = if (page <=? q) && (q <? i) then Z.land type 3 else get_page_usage u q)
      page (page + n) (fun i v => set_page_usage i type v) u) as H. cbv beta in H. apply H; [lia| |].
    + destruct (Z.leb_spec page q), (Z.ltb_spec q page); cbn [andb]; done || lia.
    + intros i v Hi IH. rewrite get_set_usage, IH by lia. bool_cases; try lia; done.
  - apply (for_range_ind (fun _ v => get_page_usage v q = get_page_usage u q)); [lia|done|by intros].
Qed.
Lemma ram_root_set_ok l page size type u : usage_ok u -> usage_ok (appfs_ram_root_set l page size type u).
Proof.
  intros Hu. unfold appfs_ram_root_set. apply for_range_keeps; [done|]. intros i v _ Hv. destruct (_ <? _); [by apply set_page_usage_ok|done].
Qed.
End TableLemmas.

(** ** Numbers and addresses of pages *)

Definition sec_end (s : appfs_mem_section_t) : Z := sec_address s + sec_page_size s * sec_count s.
Record section_ok (s : appfs_mem_section_t) : Prop := {
  so_count : 0 <= sec_count s < 2 ^ 16;
  so_page : 0 < sec_page_size s;
  so_address : 0 <= sec_address s;
  so_end : sec_end s < 2 ^ 32;
  so_kind : Bits.any (sec_flags s) MEM_FLAG_IS_RAM = negb (Bits.any (sec_flags s) MEM_FLAG_IS_FLASH) }.
Definition apart (s t : appfs_mem_section_t) : Prop := sec_end s < sec_address t \/ sec_end t < sec_address s.
Fixpoint sections_ok (l : list appfs_mem_section_t) : Prop :=
  match l with [] => True | s :: l => section_ok s /\ Forall (apart s) l /\ sections_ok l end.
Definition all_pages (l : list appfs_mem_section_t) : Z := foldr (fun s n => sec_count s + n) 0 l.
(** The pages of one kind, in the order of their numbers: address, size and flags. *)
Definition pages_of (type : Z) (l : list appfs_mem_section_t) : list (Z * Z * Z) :=
  concat (map (fun s => if Bits.any (sec_flags s) type
                        then map (fun o => (sec_address s + o * sec_page_size s, sec_page_size s, sec_flags s)) (seqZ 0 (sec_count s)) else []) l).

Lemma all_pages_nonneg l : sections_ok l -> 0 <= all_pages l.
Proof. induction l as [|s l IH]; [done|]. intros (Hs & _ & Hl). pose proof (so_count _ Hs). specialize (IH Hl). cbn [all_pages foldr]. fold (all_pages l). lia. Qed.
Lemma section_ok_in l s : sections_ok l -> s ∈ l -> section_ok s.
Proof. induction l as [|x l IH]; [set_solver|]. intros (Hx & _ & Hl) [->|Hin]%elem_of_cons; [done|by apply IH]. Qed.
Lemma section_from_spec type : forall l f p, sections_ok l -> 0 <= f <= p -> f + all_pages l < 2 ^ 32 ->
  match section_from f l p type with
  | Some (s, o) => s ∈ l /\ Bits.any (sec_flags s) type = true /\ 0 <= o < sec_count s /\
      pages_of type l !! Z.to_nat (p - f) = Some (sec_address s + o * sec_page_size s, sec_page_size s, sec_flags s)
  | None => Zlen (pages_of type l) <= p - f
  end.
Proof.
  induction l as [|s l IH]; intros f p Hl Hf Hn; cbn [section_from all_pages foldr] in *; [change (Zlen (pages_of type [])) with 0; lia|]. fold (all_pages l) in Hn.
  destruct Hl as (Hs & _ & Hl). pose proof (so_count _ Hs) as Hc. pose proof (all_pages_nonneg l Hl). unfold pages_of. cbn [map concat]. fold (pages_of type l).
  destruct (Bits.any (sec_flags s) type) eqn:Et.
  - rewrite (u32_id (f + sec_count s)) by lia. set (h := map _ (seqZ 0 (sec_count s))).
    assert (Hlen : length h = Z.to_nat (sec_count s)) by (unfold h; rewrite length_map, length_seqZ; done).
    destruct (Z.ltb_spec p (f + sec_count s)).
    + rewrite (u32_id (p - f)) by lia. split; [left|]. split; [done|]. split; [lia|]. rewrite lookup_app_l by lia. unfold h. rewrite list_lookup_fmap, lookup_seqZ_lt by lia.
      cbn. repeat f_equal; lia.
    + specialize (IH (f + sec_count s) p Hl ltac:(lia) ltac:(lia)). destruct (section_from _ l p type) as [[s' o]|].
      * destruct IH as (H1 & H2 & H3 & H4). split; [by right|]. split; [done|]. split; [done|]. rewrite lookup_app_r, Hlen by lia. rewrite <- H4. f_equal. lia.
      * unfold Zlen in *. rewrite length_app, Hlen. lia.
  - cbn [app]. specialize (IH f p Hl Hf ltac:(lia)). destruct (section_from f l p type) as [[s' o]|]; [|done].
    destruct IH as (H1 & H2). split; [by right|done].
Qed.
(** The pages are numbered one section after the other. *)
Lemma get_page_info_spec type l p : sections_ok l -> all_pages l < 2 ^ 31 -> 0 <= p < 2 ^ 31 ->
  get_page_info l p type = option_map (fun '(a, n, f) => mk_page p f a n) (pages_of type l !! Z.to_nat p).
Proof.
  intros Hl Hn Hp. unfold get_page_info, get_page_section_info. rewrite (u32_id p) by lia.
  pose proof (section_from_spec type l 0 p Hl ltac:(lia) ltac:(lia)) as H. rewrite Z.sub_0_r in H. destruct (section_from 0 l p type) as [[s o]|].
  - destruct H as (Hin & _ & Ho & ->). cbn. rewrite s32_id by lia. f_equal. f_equal.
    pose proof (section_ok_in _ s Hl Hin) as Hs.
    pose proof (so_page _ Hs). pose proof (so_address _ Hs). pose proof (so_end _ Hs) as He. unfold sec_end in He. rewrite (u32_id (o * _)), u32_id by nia. done.
  - assert (pages_of type l !! Z.to_nat p = None) as -> by (apply lookup_ge_None; unfold Zlen in H; lia). done.
Qed.

(** The page of an address is the one with that number. *)
Lemma page_from_spec type a n : 0 <= n -> type = MEM_FLAG_IS_RAM \/ type = MEM_FLAG_IS_FLASH -> forall l f p ram flash s o, sections_ok l -> 0 <= f <= p -> f + all_pages l < 2 ^ 32 ->
  f = (if type =? MEM_FLAG_IS_FLASH then flash else ram) -> 0 <= ram -> 0 <= flash -> ram + all_pages l < 2 ^ 32 -> flash + all_pages l < 2 ^ 32 ->
  section_from f l p type = Some (s, o) ->
  sec_address s + o * sec_page_size s <= a < sec_address s + (o + 1) * sec_page_size s -> a + n <= sec_address s + (o + 1) * sec_page_size s ->
  page_from ram flash l a n = (p, sec_flags s).
Proof.
  intros Hn0 Htype. induction l as [|s0 l IH]; intros f p ram flash s o Hl Hf Hn Ef Hram Hfl Hnr Hnf; [done|]. pose proof Hl as (Hs & Hap & Hl').
  cbn [section_from page_from all_pages foldr] in *. fold (all_pages l) in *. pose proof (so_count _ Hs) as Hc. pose proof (all_pages_nonneg l Hl'). pose proof (so_page _ Hs) as Hps.
  pose proof (so_end _ Hs) as He. pose proof (so_address _ Hs) as Ha. unfold sec_end in He. rewrite (u32_id (sec_page_size s0 * sec_count s0)), (u32_id (sec_address s0 + _)) by nia.
  assert (Hskip : forall f' p', 0 <= f' <= p' -> f' + all_pages l < 2 ^ 32 -> section_from f' l p' type = Some (s, o) ->
    sec_address s + o * sec_page_size s <= a < sec_address s + (o + 1) * sec_page_size s -> a + n <= sec_address s + (o + 1) * sec_page_size s ->
    (sec_address s0 <=? a) && (u32 (a + n) <=? sec_address s0 + sec_page_size s0 * sec_count s0) = false).
  { intros f' p' Hf' Hn' E Ha1 Ha2. pose proof (section_from_spec type l f' p' Hl' Hf' Hn') as Hsp. rewrite E in Hsp. destruct Hsp as (Hin & _ & Ho & _).
    pose proof (proj1 (Forall_forall _ _) Hap s Hin) as Happ.
    pose proof (section_ok_in _ s Hl' Hin) as Hs'.
    pose proof (so_page _ Hs'). pose proof (so_address _ Hs'). pose proof (so_end _ Hs') as He'. unfold apart, sec_end in *.
    assert (o * sec_page_size s + sec_page_size s <= sec_page_size s * sec_count s) by nia. rewrite u32_id by nia.
    destruct (Z.leb_spec (sec_address s0) a), (Z.leb_spec (a + n) (sec_address s0 + sec_page_size s0 * sec_count s0)); cbn; try done. nia. }
  assert (Hkind : Bits.any (sec_flags s0) MEM_FLAG_IS_FLASH = if type =? MEM_FLAG_IS_FLASH then Bits.any (sec_flags s0) type else negb (Bits.any (sec_flags s0) type)).
  { destruct Htype as [->| ->]; cbn [MEM_FLAG_IS_RAM MEM_FLAG_IS_FLASH]; [|done]. change (2 =? 4) with false. cbv iota. change 2 with MEM_FLAG_IS_RAM. by rewrite (so_kind _ Hs), negb_involutive. }
  destruct (Bits.any (sec_flags s0) type) eqn:Et.
  - rewrite (u32_id (f + sec_count s0)) by lia. destruct (Z.ltb_spec p (f + sec_count s0)).
    + rewrite (u32_id (p - f)) by lia. intros [= <- <-] Ha1 Ha2. rewrite (u32_id (a + n)) by nia.
      rewrite (proj2 (Z.leb_le _ _)), (proj2 (Z.leb_le _ _)) by nia. cbn [andb]. f_equal. rewrite Hkind.
      assert (Eo : u32 (a - sec_address s0) / sec_page_size s0 = p - f).
      { rewrite u32_id by nia. symmetry. apply Z.div_unique_pos with (a - sec_address s0 - (p - f) * sec_page_size s0); nia. }
      rewrite Eo. destruct (type =? MEM_FLAG_IS_FLASH); cbn [negb]; rewrite <- Ef, u32_id by lia; lia.
    + intros E Ha1 Ha2. rewrite (Hskip (f + sec_count s0) p) by (lia || done). rewrite Hkind. destruct (type =? MEM_FLAG_IS_FLASH) eqn:Ety; cbn [negb]; subst f;
        rewrite u32_id by lia; (eapply IH; [exact Hl'| | | | | | | |exact E|exact Ha1|exact Ha2]; rewrite ?Ety; (reflexivity || lia)).
  - intros E Ha1 Ha2. rewrite (Hskip f p) by (lia || done). rewrite Hkind. destruct (type =? MEM_FLAG_IS_FLASH) eqn:Ety; cbn [negb]; subst f;
      rewrite u32_id by lia; (eapply IH; [exact Hl'| | | | | | | |exact E|exact Ha1|exact Ha2]; rewrite ?Ety; (reflexivity || lia)).
Qed.

Lemma get_page_spec type l p a n z f : type = MEM_FLAG_IS_RAM \/ type = MEM_FLAG_IS_FLASH -> sections_ok l -> all_pages l < 2 ^ 31 -> 0 <= p ->
  pages_of type l !! Z.to_nat p = Some (a, z, f) -> forall x, a <= x < a + z -> 0 <= n -> x + n <= a + z -> get_page l x n = (p, f).
Proof.
  intros Htype Hl Hn Hp Hlook x Hx Hn0 Hxn. pose proof (section_from_spec type l 0 p Hl ltac:(lia) ltac:(lia)) as H. rewrite Z.sub_0_r in H.
  destruct (section_from 0 l p type) as [[s o]|] eqn:E; [|apply lookup_lt_Some in Hlook; unfold Zlen in H; lia].
  destruct H as (Hin & _ & Ho & Hlook'). rewrite Hlook in Hlook'. injection Hlook' as -> -> ->.
  pose proof (section_ok_in _ s Hl Hin) as Hs.
  pose proof (so_page _ Hs). pose proof (so_address _ Hs). pose proof (so_end _ Hs) as He. unfold sec_end in He. unfold get_page. rewrite (u32_id x), (u32_id n) by nia.
  apply (page_from_spec type x n Hn0 Htype l 0 p 0 0 s o); try done; try lia. by destruct (type =? MEM_FLAG_IS_FLASH).
Qed.
(** Numbers and addresses of pages are inverse to each other.  Every number below the count of a kind of memory is a page of it, the pages
    follow one another section by section, and any address and size within the page lead back to the number and to the flags of its
    section; no other number is a page. *)
Theorem page_numbering type l p : type = MEM_FLAG_IS_RAM \/ type = MEM_FLAG_IS_FLASH -> sections_ok l -> all_pages l < 2 ^ 31 -> 0 <= p < 2 ^ 31 ->
  match get_page_info l p type with
  | Some info => p < Zlen (pages_of type l) /\ pi_num info = p /\ pages_of type l !! Z.to_nat p = Some (pi_addr info, pi_size info, pi_flags info) /\
      forall x n, pi_addr info <= x < pi_addr info + pi_size info -> 0 <= n -> x + n <= pi_addr info + pi_size info -> get_page l x n = (p, pi_flags info)
  | None => Zlen (pages_of type l) <= p
  end.
Proof.
  intros Htype Hl Hn Hp. rewrite get_page_info_spec by done. destruct (pages_of type l !! Z.to_nat p) as [[[a z] f]|] eqn:E; cbn [option_map].
  - split; [apply lookup_lt_Some in E; unfold Zlen; lia|]. split; [done|]. split; [done|]. cbn [pi_addr pi_size pi_flags]. intros x n Hx Hn0 Hxn.
    apply (get_page_spec type l p a n z f); try done; lia.
  - apply lookup_ge_None in E. unfold Zlen. lia.
Qed.
Definition board_sections : list appfs_mem_section_t :=
  [mk_section MEM_FLAG_IS_FLASH 4 0x08010000 4096; mk_section MEM_FLAG_IS_RAM 64 0x20008000 1024; mk_section (Z.lor MEM_FLAG_IS_RAM MEM_FLAG_IS_TIGHTLY_COUPLED) 16 0x10000000 1024].
Lemma board_sections_ok : sections_ok board_sections.
Proof. repeat (split || constructor); unfold apart, sec_end; cbn; lia || reflexivity. Qed.
Lemma page_numbering_witness : match get_page_info board_sections 65 MEM_FLAG_IS_RAM with
  | Some info => 65 < Zlen (pages_of MEM_FLAG_IS_RAM board_sections) /\ pi_num info = 65 /\
      pages_of MEM_FLAG_IS_RAM board_sections !! Z.to_nat 65 = Some (pi_addr info, pi_size info, pi_flags info) /\
      forall x n, pi_addr info <= x < pi_addr info + pi_size info -> 0 <= n -> x + n <= pi_addr info + pi_size info -> get_page board_sections x n = (65, pi_flags info)
  | None => Zlen (pages_of MEM_FLAG_IS_RAM board_sections) <= 65 end.
Proof. apply (page_numbering MEM_FLAG_IS_RAM board_sections 65); [by left|exact board_sections_ok|done|done]. Defined.

(** *** Where the numbering goes wrong *)

(** A query has no size, and the end of a section counts as part of it: the first page of a section that follows another one in memory,
    but not in the list, is taken for the page of a third. *)
Theorem query_of_section_start :
  let l := [mk_section MEM_FLAG_IS_RAM 8 0x20000000 1024; mk_section MEM_FLAG_IS_RAM 8 0x10000000 1024; mk_section MEM_FLAG_IS_RAM 8 0x20002000 1024] in
  option_map pi_addr (get_page_info l 16 MEM_FLAG_IS_RAM) = Some 0x20002000 /\
  let '(info, err) := appfs_mem_getpageinfo l (mk_page 0 MEM_FLAG_IS_QUERY 0x20002000 0) in err = 0 /\ pi_num info = 8 /\ pi_addr info = 0x10000000.
Proof. vm_compute. done. Qed.
(** Any flag in common counts: the pages of external RAM are numbered behind those of external flash, but looked up by their RAM number. *)
Theorem query_of_external_ram :
  let l := [mk_section (Z.lor MEM_FLAG_IS_FLASH MEM_FLAG_IS_EXTERNAL) 8 0x90000000 4096; mk_section (Z.lor MEM_FLAG_IS_RAM MEM_FLAG_IS_EXTERNAL) 8 0xC0000000 1024] in
  let '(info, err) := appfs_mem_getpageinfo l (mk_page 0 MEM_FLAG_IS_QUERY 0xC0000000 0) in err = 0 /\ pi_addr info = 0x90000000.
Proof. vm_compute. done. Qed.
(** A page that does not exist is erased at address 0. *)
Theorem erase_unknown_page {FD : FlashDriver} l page m : has_flash = true -> get_page_info l page MEM_FLAG_IS_FLASH = None -> appfs_mem_erasepage l page m = flash_erase_addr 0 m.
Proof. unfold appfs_mem_erasepage. by intros -> ->. Qed.
(** Only the first page of a range is compared with the size of the table: the words behind it are written. *)
Theorem ram_set_overruns {PS : PageSize} l page size type u q : 0 <= page < get_memory_page_count l MEM_FLAG_IS_RAM -> page <= q < page + ram_page_count size -> page + ram_page_count size < 2 ^ 32 ->
  get_page_usage (appfs_ram_root_set l page size type u) q = Z.land type 3.
Proof.
  intros Hp Hq Hr. rewrite ram_root_set_spec; rewrite ?u32_id by lia; try lia. rewrite (proj2 (Z.ltb_lt _ _)), (proj2 (Z.leb_le _ _)), (proj2 (Z.ltb_lt _ _)) by lia. done.
Qed.
