(* ===== verification/Appfs.v ===== *)
(** * Installing programs

    [src/sys/sysfs/appfs_util.c]: headers of programs in flash, finding memory that the memory protection
    can cover, relocating and writing programs and data files.  The file system over it is in [Appfiles].

    Memory is [mem], the table of the RAM pages [usage]; a header is a buffer of 84 bytes.  The symbols of
    the kernel are a generated table, the class [Symbols]; [junk] is what a local buffer holds before it
    is written.  [None] is a fatal event of the memory protection or a buffer that is overrun. *)
From Stdlib Require Import Ascii.
From S2P Require Import Prelude Memory Mpu Pages Paths.

(** The name and the identifier of a program have 24 bytes each, as the size of the header says ([appfs_header_t], 28 + 24 bytes). *)
Definition APPFS_NAME_MAX : Z := 23.
Definition APPFS_NAME_MAX_MINUS_1 : Z := APPFS_NAME_MAX - 1.
Definition APPFS_PAGE_SIZE : Z := 256.
Definition APPFS_REWRITE_MASK : Z := 0xFE000000.
Definition APPFS_REWRITE_RAM_MASK : Z := 0x01000000.
Definition APPFS_REWRITE_KERNEL_ADDR : Z := 0x01FF8000.
Definition APPFS_REWRITE_KERNEL_ADDR_MASK : Z := 0x7FFF.
Definition APPFS_FLAG_IS_FLASH : Z := 2 ^ 0.
Definition APPFS_FLAG_IS_STARTUP : Z := 2 ^ 1.
Definition APPFS_FLAG_IS_AUTHENTICATED : Z := 2 ^ 3.
Definition APPFS_FLAG_IS_CODE_TIGHTLY_COUPLED : Z := 2 ^ 7.
Definition APPFS_FLAG_IS_DATA_TIGHTLY_COUPLED : Z := 2 ^ 8.
Definition APPFS_FLAG_IS_CODE_EXTERNAL : Z := 2 ^ 9.
Definition APPFS_FLAG_IS_DATA_EXTERNAL : Z := 2 ^ 10.
Definition APPFS_CREATE_SIGNATURE : Z := 0x12345678.
Definition ENOEXEC : Z := 8.
Definition ENOSPC : Z := 28.

(** [symbols_table], which begins with the signature of the kernel and ends with 1. *)
Class Symbols := { symbols : list Z }.
Section Kernel.
Context {SY : Symbols}.
Definition symbols_table (i : Z) : Z := nth (Z.to_nat i) symbols 1.
Fixpoint symbols_before_end (l : list Z) : Z := match l with [] => 0 | x :: l => if x =? 1 then 0 else 1 + symbols_before_end l end.
Definition symbols_total : Z := symbols_before_end symbols.
End Kernel.

(** ** Headers: [appfs_file_t], at an address *)

Definition sizeof_appfs_file : Z := 84.
Definition hdr_id : Z := 24.
Definition hdr_mode (b : mem) (a : Z) : Z := load16 b (a + 48).
Definition hdr_version (b : mem) (a : Z) : Z := load16 b (a + 50).
Definition exec_startup (b : mem) (a : Z) : Z := load32 b (a + 52).
Definition exec_code_start (b : mem) (a : Z) : Z := load32 b (a + 56).
Definition exec_code_size (b : mem) (a : Z) : Z := load32 b (a + 60).
Definition exec_ram_start (b : mem) (a : Z) : Z := load32 b (a + 64).
Definition exec_ram_size (b : mem) (a : Z) : Z := load32 b (a + 68).
Definition exec_data_size (b : mem) (a : Z) : Z := load32 b (a + 72).
Definition exec_o_flags (b : mem) (a : Z) : Z := load32 b (a + 76).
Definition exec_signature (b : mem) (a : Z) : Z := load32 b (a + 80).

(** Strings in memory. *)
Fixpoint strnlen_at (n : nat) (b : mem) (a : Z) : Z :=
  match n with O => 0 | S n => if load8 b a =? 0 then 0 else 1 + strnlen_at n b (a + 1) end.
Definition char_at (b : mem) (a : Z) : ascii := ascii_of_N (Z.to_N (load8 b a)).
Fixpoint strspn_at (n : nat) (b : mem) (a : Z) : Z :=
  match n with O => 0 | S n => if in_validset (char_at b a) then 1 + strspn_at n b (a + 1) else 0 end.
Fixpoint string_at (n : nat) (b : mem) (a : Z) : path :=
  match n with O => [] | S n => if load8 b a =? 0 then [] else char_at b a :: string_at n b (a + 1) end.
Fixpoint store_string (a : Z) (s : path) (b : mem) : mem :=
  match s with [] => store8 a 0 b | c :: s => store_string (a + 1) s (store8 a (Z.of_N (N_of_ascii c)) b) end.

Definition calc_checksum (b : mem) (a : Z) : Z := for_range 0 APPFS_NAME_MAX (fun i checksum => Z.lxor checksum (load8 b (a + i))) 0.
Definition is_flash_blank (m : mem) (address size : Z) : bool :=
  forallb (fun i => load32 m (address + 4 * i) =? 0xffffffff) (seqZ 0 (size / 4)).

Section Util.
Context {FD : FlashDriver} {PS : PageSize} {CP : MpuConfig} {SY : Symbols} (l : list appfs_mem_section_t) (junk : mem).

Definition read_appfs_file_header (m : mem) (address : Z) (dest : mem) : mem * Z :=
  match appfs_mem_read l (s32 address) sizeof_appfs_file dest m with Some r => r | None => (dest, 0) end.
Definition get_flash_page_type (m : mem) (address size : Z) : Z :=
  if is_flash_blank m address size then APPFS_MEMPAGETYPE_FREE
  else let b := (read_appfs_file_header m address junk).1 in
       let len := strnlen_at (Z.to_nat APPFS_NAME_MAX_MINUS_1) b 0 in
       if (len =? APPFS_NAME_MAX_MINUS_1) || ((len <? APPFS_NAME_MAX_MINUS_1) && negb (len =? strspn_at (Z.to_nat APPFS_NAME_MAX) b 0))
          || negb (load8 b APPFS_NAME_MAX =? calc_checksum b 0) || (len =? 0)
       then APPFS_MEMPAGETYPE_SYS else APPFS_MEMPAGETYPE_USER.
Definition appfs_util_is_executable (signature : Z) : bool :=
  if Z.land (symbols_table 0) 15 <? Z.land signature 15 then false else if symbols_table 0 <? signature then false else true.
Definition appfs_util_get_data_mpu_type (flags : Z) : mpu_memory_t :=
  if Bits.any flags APPFS_FLAG_IS_DATA_EXTERNAL then MPU_MEMORY_EXTERNAL_SRAM
  else if Bits.any flags APPFS_FLAG_IS_DATA_TIGHTLY_COUPLED then MPU_MEMORY_TIGHTLY_COUPLED_DATA else MPU_MEMORY_SRAM.
Definition appfs_util_get_code_mpu_type (flags : Z) : mpu_memory_t :=
  if Bits.any flags APPFS_FLAG_IS_CODE_EXTERNAL then MPU_MEMORY_EXTERNAL_FLASH
  else if Bits.any flags APPFS_FLAG_IS_CODE_TIGHTLY_COUPLED then MPU_MEMORY_TIGHTLY_COUPLED_INSTRUCTION else MPU_MEMORY_FLASH.

(** ** Memory that can be protected *)

(** The first page from [i] on of exactly this kind where a region of the size begins: its address, its
    number and the size of the region. *)
Fixpoint protectable_from (fuel : nat) (size type i : Z) : option (option (Z * Z * Z)) :=
  match fuel with
  | O => None
  | S fuel =>
      let '(info, err) := appfs_mem_getpageinfo l (mk_page i type 0 0) in
      if err <? 0 then Some None
      else if pi_flags info =? type then
        let mem_type := if Bits.any type MEM_FLAG_IS_FLASH then MPU_MEMORY_FLASH else MPU_MEMORY_SRAM in
        match mpu_calc_region TASK_APPLICATION_CODE_MPU_REGION (pi_addr info) (u32 size) MPU_ACCESS_PR_UR mem_type true with
        | None => None
        | Some (region_size, _, _) => if region_size =? 0 then protectable_from fuel size type (i + 1) else Some (Some (pi_addr info, i, region_size))
        end
      else protectable_from fuel size type (i + 1)
  end.
Definition page_fuel : nat := Z.to_nat (all_pages l) + 1.
Definition find_protectable_addr (size type page : Z) : option (option (Z * Z * Z)) := protectable_from page_fuel size type page.

(** The free bytes from a page on, or -1 when they are fewer than [size].  [last] is the address and the
    size of the page before.  The result of [appfs_util_root_get_pageinfo] is not looked at: behind the
    last page [info] stays as it was. *)
Fixpoint free_from (fuel : nat) (info : mem_pageinfo_t) (type size : Z) (last : option (Z * Z)) (free_size : Z) (m : mem) (u : usage) : option Z :=
  match fuel with
  | O => None
  | S fuel =>
      let info := (appfs_mem_getpageinfo l info).1 in
      let enough := if size <=? free_size then free_size else -1 in
      if match last with Some (a, z) => negb (s32 a =? -1) && negb (s32 (s32 a + s32 z) =? s32 (pi_addr info)) | None => false end then Some enough
      else let ret := if type =? MEM_FLAG_IS_FLASH then get_flash_page_type m (pi_addr info) (pi_size info) else appfs_ram_root_get l (pi_num info) u in
           if ret =? APPFS_MEMPAGETYPE_FREE then
             free_from fuel (mk_page (s32 (pi_num info + 1)) (pi_flags info) (pi_addr info) (pi_size info)) type size (Some (pi_addr info, pi_size info))
               (s32 (free_size + pi_size info)) m u
           else Some enough
  end.
Definition check_for_free_space (start_page type size : Z) (m : mem) (u : usage) : option Z :=
  free_from (S page_fuel) (mk_page start_page type 0 0) type size None 0 m u.

(** The address and the page, and [protectable_size], which the caller passes along and every region that
    is looked at overwrites. *)
Fixpoint protectable_free_from (fuel : nat) (type size page protectable_size : Z) (m : mem) (u : usage) : option (option (Z * Z) * Z) :=
  match fuel with
  | O => None
  | S fuel =>
      match find_protectable_addr size type page with
      | None => None
      | Some None => Some (None, protectable_size)
      | Some (Some (addr, page, protectable_size)) =>
          match check_for_free_space page type (s32 protectable_size) m u with
          | None => None
          | Some space => if 0 <? space then Some (Some (addr, page), protectable_size) else protectable_free_from fuel type size (page + 1) protectable_size m u
          end
      end
  end.
Definition find_protectable_free (type size protectable_size : Z) (m : mem) (u : usage) : option (option (Z * Z) * Z) :=
  protectable_free_from page_fuel type size 0 protectable_size m u.

(** ** Files by page and by name *)

Definition htoc (nibble : Z) : ascii := ascii_of_N (Z.to_N (if (0 <=? nibble) && (nibble <? 10) then nibble + 48 else nibble + 65 - 10)).
Definition htoa (num : Z) : path := map (fun i => htoc (Z.land (Z.shiftr num (4 * (7 - i))) 15)) (seqZ 0 8).
Definition clear_exec (b : mem) : mem := memset 52 0 32 b.
(** The header of a page that is not the first of a file is made up.  The type of the page. *)
Definition populate_file_header (file : mem) (info : mem_pageinfo_t) (memory_type : Z) (m : mem) (u : usage) : mem * Z :=
  let page_type := if memory_type =? MEM_FLAG_IS_FLASH then get_flash_page_type m (pi_addr info) (pi_size info) else appfs_ram_root_get l (pi_num info) u in
  let named s := clear_exec (store16 48 (Z.lor 0x8000 0x124) (store_string 0 (String.list_ascii_of_string s ++ htoa (pi_num info)) file)) in
  (if page_type =? APPFS_MEMPAGETYPE_SYS then named ".sys" else if page_type =? APPFS_MEMPAGETYPE_FREE then named ".free" else file, page_type).
(** The header and the size of the file at a page; what is returned is the type of the page or an error. *)
Definition appfs_util_root_get_fileinfo (file : mem) (page type size : Z) (m : mem) (u : usage) : mem * Z * Z :=
  let '(info, result) := appfs_mem_getpageinfo l (mk_page page type 0 0) in
  if result <? 0 then (file, size, result)
  else let '(file, result) := read_appfs_file_header m (pi_addr info) file in
       if result <? 0 then (file, size, result)
       else let '(file, file_type) := populate_file_header file info type m u in
            (file, if file_type =? APPFS_MEMPAGETYPE_USER then s32 (exec_code_size file 0 + exec_data_size file 0) else s32 (pi_size info), file_type).
(** [info] lives on from page to page, with the flags of the section before. *)
Fixpoint lookupname_from (fuel : nat) (name : path) (file : mem) (info : mem_pageinfo_t) (page type size : Z) (m : mem) (u : usage) : option (Z + mem * mem_pageinfo_t * Z) :=
  match fuel with
  | O => None
  | S fuel =>
      let '(file, size, result) := appfs_util_root_get_fileinfo file page type size m u in
      if result <? 0 then Some (inl result)
      else let '(info, err) := appfs_mem_getpageinfo l (mk_page page (pi_flags info) (pi_addr info) (pi_size info)) in
           if err <? 0 then Some (inl result)
           else if strncmp_eq name (string_at 24 file 0) APPFS_NAME_MAX then Some (inr (file, info, size))
           else lookupname_from fuel name file info (page + 1) type size m u
  end.
Definition appfs_util_lookupname (name : path) (type : Z) (m : mem) (u : usage) : option (Z + mem * mem_pageinfo_t * Z) :=
  if strnlen name APPFS_NAME_MAX_MINUS_1 =? APPFS_NAME_MAX_MINUS_1 then Some (inl (-1))
  else lookupname_from page_fuel name junk (mk_page 0 type 0 0) 0 type 0 m u.

Fixpoint erase_from (n : nat) (page : Z) (m : mem) : mem * Z :=
  match n with
  | O => (m, 0)
  | S n => let '(m, result) := appfs_mem_erasepage l page m in if result <? 0 then (m, result) else erase_from n (page + 1) m
  end.
Definition appfs_util_root_erase_pages (start_page end_page : Z) (m : mem) : mem * Z := erase_from (Z.to_nat (end_page - start_page + 1)) start_page m.

(** ** The memory of a program that is not running *)

(** [f] is the address of the header. *)
Definition appfs_util_root_free_ram (f : Z) (m : mem) (u : usage) : usage * Z :=
  let '(info, err) := appfs_mem_getpageinfo l (mk_page 0 MEM_FLAG_IS_QUERY (exec_ram_start m f) 0) in
  if err <? 0 then (u, SYSFS_SET_RETURN 334 EINVAL)
  else (appfs_ram_root_set l (pi_num info) (exec_ram_size m f) APPFS_MEMPAGETYPE_FREE u, 0).
Definition appfs_util_root_reclaim_ram (f : Z) (m : mem) (u : usage) : usage * Z :=
  let '(info, err) := appfs_mem_getpageinfo l (mk_page 0 MEM_FLAG_IS_QUERY (exec_ram_start m f) 0) in
  if negb (err =? 0) then (u, SYSFS_SET_RETURN 359 EIO)
  else if forallb (fun i => appfs_ram_root_get l (pi_num info + i) u =? APPFS_MEMPAGETYPE_FREE)
                  (seqZ 0 ((exec_ram_size m f + MCU_RAM_PAGE_SIZE - 1) / MCU_RAM_PAGE_SIZE))
  then (appfs_ram_root_set l (pi_num info) (exec_ram_size m f) APPFS_MEMPAGETYPE_SYS u, 0)
  else (u, SYSFS_SET_RETURN 366 ENOMEM).

(** ** Relocation *)

(** The new value and [loc], which is not 0 when a symbol of the kernel is missing. *)
Definition translate_value (addr mask code_start data_start total : Z) : Z * Z :=
  if Z.land addr APPFS_REWRITE_MASK =? mask then
    let ret := Z.land addr (u32 (Z.lnot (Z.lor APPFS_REWRITE_MASK APPFS_REWRITE_RAM_MASK))) in
    if (Z.land addr APPFS_REWRITE_KERNEL_ADDR =? APPFS_REWRITE_KERNEL_ADDR) && (u32 (addr - 1) mod 4 =? 0) then
      let ret := Z.shiftr (Z.land addr APPFS_REWRITE_KERNEL_ADDR_MASK) 2 in
      if ret <? total then (symbols_table ret, if symbols_table ret =? 0 then ret else 0) else (0, total)
    else if Bits.any addr APPFS_REWRITE_RAM_MASK then (u32 (ret + data_start), 0)
    else (u32 (ret + code_start), 0)
  else (addr, 0).
(** The words [i] to [n] of a buffer; the error, if there is one. *)
Fixpoint translate_words (n : nat) (i mask code_start data_start total : Z) (src dest : mem) : mem * Z :=
  match n with
  | O => (dest, 0)
  | S n =>
      let '(v, loc_err) := translate_value (load32 src (4 * i)) mask code_start data_start total in
      let dest := store32 (4 * i) v dest in
      if loc_err =? 0 then translate_words n (i + 1) mask code_start data_start total src dest else (dest, loc_err)
  end.
End Util.

(** ** Installing *)

Record appfs_installattr_t := mk_attr { ia_loc : Z; ia_nbyte : Z; ia_buffer : mem }.
Definition attr0 : appfs_installattr_t := mk_attr 0 0 (fun _ => 0).
(** [sha256_context] is the state of the hash over what was sent. *)
Record appfs_util_handle_t (C : Type) := mk_install { ih_code_start : Z; ih_code_size : Z; ih_data_start : Z; ih_data_size : Z; ih_rewrite_mask : Z; ih_symbols_total : Z;
  ih_sha256_context : C; ih_first_page : appfs_installattr_t }.
Arguments mk_install {C}. Arguments ih_code_start {C}. Arguments ih_code_size {C}. Arguments ih_data_start {C}. Arguments ih_data_size {C}.
Arguments ih_rewrite_mask {C}. Arguments ih_symbols_total {C}. Arguments ih_sha256_context {C}. Arguments ih_first_page {C}.

Section Install.
Context {FD : FlashDriver} {PS : PageSize} {CP : MpuConfig} {SY : Symbols} {C : Type} (l : list appfs_mem_section_t) (junk : mem).

(** [mem_writepage_t.buf] has 256 bytes, and as many are copied to it whatever the size of the page; behind it is
    what the stack holds. *)
Definition write_page_buf (buffer : mem) : mem := copy_out buffer 0 256 junk.
Definition appfs_util_root_mem_write_page (h : appfs_util_handle_t C) (attr : appfs_installattr_t) (m : mem) : mem * Z :=
  if u32 (ih_code_size h + ih_data_size h) <? u32 (ia_loc attr + ia_nbyte attr) then (m, SYSFS_SET_RETURN 384 EINVAL)
  else appfs_mem_writepage l (u32 (ih_code_start h + ia_loc attr)) (ia_nbyte attr) (write_page_buf (ia_buffer attr)) m.

(** A name of 22 characters or more is cut short. *)
Definition cut_name (a : Z) (b : mem) : mem :=
  if strnlen_at (Z.to_nat APPFS_NAME_MAX_MINUS_1) b a =? APPFS_NAME_MAX_MINUS_1 then store8 (a + APPFS_NAME_MAX_MINUS_1) 0 b else b.
Definition add_checksum (a : Z) (b : mem) : mem := store8 (a + APPFS_NAME_MAX) (calc_checksum b a) b.

Definition appfs_util_root_create (h : appfs_util_handle_t C) (attr : appfs_installattr_t) (m : mem) (u : usage)
    : option (mem * appfs_util_handle_t C * appfs_installattr_t * Z) :=
  let dest := ia_buffer attr in
  if ia_loc attr =? 0 then
    if ia_nbyte attr <? sizeof_appfs_file then Some (m, h, attr, SYSFS_SET_RETURN 416 ENOTSUP)
    else if negb (exec_signature dest 0 =? APPFS_CREATE_SIGNATURE) then Some (m, h, attr, SYSFS_SET_RETURN 420 EINVAL)
    else
      let dest := if strnlen_at (Z.to_nat APPFS_NAME_MAX_MINUS_1) dest 0 =? APPFS_NAME_MAX_MINUS_1
                  then store8 APPFS_NAME_MAX_MINUS_1 0 (store8 APPFS_NAME_MAX 0 dest) else dest in
      let dest := store32 76 APPFS_FLAG_IS_FLASH (store16 48 0x124 (add_checksum 0 dest)) in
      match find_protectable_free l junk MEM_FLAG_IS_FLASH (s32 (exec_code_size dest 0)) 0 m u with
      | None => None
      | Some (None, _) => Some (m, h, mk_attr (ia_loc attr) (ia_nbyte attr) dest, SYSFS_SET_RETURN 447 ENOSPC)
      | Some (Some (code_start_addr, _), _) =>
          let dest := store32 52 0 (store32 76 0 (store32 72 0 (store32 68 0 (store32 64 0 (store32 56 code_start_addr (store32 52 0 dest)))))) in
          let attr := mk_attr (ia_loc attr) (ia_nbyte attr) dest in
          let h := mk_install code_start_addr (exec_code_size dest 0) 0 0 0 0 (ih_sha256_context h) (ih_first_page h) in
          let '(m, result) := appfs_util_root_mem_write_page h attr m in Some (m, h, attr, result)
      end
  else if negb (Z.land (ia_loc attr) 3 =? 0) then Some (m, h, attr, SYSFS_SET_RETURN 470 EINVAL)
  else let '(m, result) := appfs_util_root_mem_write_page h attr m in Some (m, h, attr, result).

(** The kinds of memory that are tried one after the other: first the one the flags ask for, then plain,
    external and tightly coupled memory. *)
Definition or_else (r : option (option (Z * Z) * Z)) (k : Z -> option (option (Z * Z) * Z)) : option (option (Z * Z) * Z) :=
  match r with Some (None, protectable_size) => k protectable_size | _ => r end.
Definition find_memory (flags type size protectable_size : Z) (m : mem) (u : usage) : option (option (Z * Z) * Z) :=
  let find type ps := find_protectable_free l junk type size ps m u in
  or_else
    (if Bits.any flags APPFS_FLAG_IS_DATA_EXTERNAL then find (Z.lor type MEM_FLAG_IS_EXTERNAL) protectable_size
     else if Bits.any flags APPFS_FLAG_IS_DATA_TIGHTLY_COUPLED then find (Z.lor type MEM_FLAG_IS_TIGHTLY_COUPLED) protectable_size
     else Some (None, protectable_size))
    (fun ps => or_else (find type ps) (fun ps => or_else (find (Z.lor type MEM_FLAG_IS_EXTERNAL) ps) (find (Z.lor type MEM_FLAG_IS_TIGHTLY_COUPLED)))).

(** What the first page of a program does: memory is found for the code and for the data, the table of the
    RAM pages is marked, the header is filled in and the page is relocated.  [inl] is an error. *)
Definition install_header (h : appfs_util_handle_t C) (attr : appfs_installattr_t) (m : mem) (u : usage)
    : option (usage * (Z + appfs_util_handle_t C * mem)) :=
  let src := ia_buffer attr in
  let dest := copy_out src 0 (ia_nbyte attr) (memset 0 0 sizeof_appfs_file junk) in
  let dest := add_checksum hdr_id (add_checksum 0 (cut_name hdr_id (cut_name 0 dest))) in
  let dest := store16 48 0x16D dest in
  if negb (appfs_util_is_executable (exec_signature src 0)) then Some (u, inl (SYSFS_SET_RETURN 539 ENOEXEC))
  else
    let flags := exec_o_flags src 0 in
    let in_flash := Bits.any flags APPFS_FLAG_IS_FLASH in
    let code_size := s32 (exec_code_size src 0 + exec_data_size src 0) in
    let ram_size := s32 (exec_ram_size src 0) in
    match find_memory flags (if in_flash then MEM_FLAG_IS_FLASH else MEM_FLAG_IS_RAM) code_size 0 m u with
    | None => None
    | Some (None, _) => Some (u, inl (SYSFS_SET_RETURN 585 ENOSPC))
    | Some (Some (code_start, code_page), protectable_size) =>
        let u := if in_flash then u
                 else appfs_ram_root_set l code_page MCU_RAM_PAGE_SIZE APPFS_MEMPAGETYPE_USER (appfs_ram_root_set l code_page protectable_size APPFS_MEMPAGETYPE_SYS u) in
        match find_memory flags MEM_FLAG_IS_RAM ram_size protectable_size m u with
        | None => None
        | Some (None, protectable_size) =>
            Some (if in_flash then u else appfs_ram_root_set l code_page protectable_size APPFS_MEMPAGETYPE_FREE u, inl (SYSFS_SET_RETURN 641 ENOSPC))
        | Some (Some (data_start, ram_page), protectable_size) =>
            let mask := Z.land (exec_code_start src 0) APPFS_REWRITE_MASK in
            let h := mk_install code_start (u32 code_size) data_start (exec_data_size src 0) mask symbols_total (ih_sha256_context h) (ih_first_page h) in
            let u := appfs_ram_root_set l ram_page (u32 ram_size) APPFS_MEMPAGETYPE_SYS u in
            let dest := store32 68 protectable_size (store32 64 data_start (store32 56 code_start dest)) in
            let dest := store32 52 (translate_value (exec_startup dest 0) mask code_start data_start symbols_total).1 dest in
            let '(dest, loc_err) := translate_words (Z.to_nat (Z.shiftr (ia_nbyte attr) 2 - 21)) 21 mask code_start data_start symbols_total src dest in
            Some (u, if loc_err =? 0 then inr (h, dest) else inl (-1 * Z.lor EIO (Z.shiftl loc_err 8)))
        end
    end.
(** With signatures required, the first page is kept until the signature is verified.  [None] is also a page
    that does not fit the buffer on the stack. *)
Definition appfs_util_root_writeinstall (h : appfs_util_handle_t C) (attr : appfs_installattr_t) (m : mem) (u : usage)
    : option (mem * usage * appfs_util_handle_t C * appfs_installattr_t * Z) :=
  if ia_loc attr =? 0 then
    if ia_nbyte attr <? sizeof_appfs_file then Some (m, u, h, attr, SYSFS_SET_RETURN 507 ENOTSUP)
    else if APPFS_PAGE_SIZE <? ia_nbyte attr then None
    else match install_header h attr m u with
         | None => None
         | Some (u, inl e) => Some (m, u, h, attr, e)
         | Some (u, inr (h, dest)) =>
             let attr := mk_attr (ia_loc attr) (ia_nbyte attr) (copy_out dest 0 (ia_nbyte attr) (ia_buffer attr)) in
             let h := mk_install (ih_code_start h) (ih_code_size h) (ih_data_start h) (ih_data_size h) (ih_rewrite_mask h) (ih_symbols_total h) (ih_sha256_context h) attr in
             Some (m, u, h, attr, s32 (ia_nbyte attr))
         end
  else if negb (Z.land (ia_loc attr) 3 =? 0) then Some (m, u, h, attr, SYSFS_SET_RETURN 695 EINVAL)
  else if APPFS_PAGE_SIZE <? ia_nbyte attr then None
  else let '(dest, loc_err) := translate_words (Z.to_nat (Z.shiftr (ia_nbyte attr) 2)) 0 (ih_rewrite_mask h) (ih_code_start h) (ih_data_start h) (ih_symbols_total h) (ia_buffer attr) junk in
       if negb (loc_err =? 0) then Some (m, u, h, attr, -1 * Z.lor EIO (Z.shiftl loc_err 8))
       else let attr := mk_attr (ia_loc attr) (ia_nbyte attr) (copy_out dest 0 (ia_nbyte attr) (ia_buffer attr)) in
            let '(m, result) := appfs_util_root_mem_write_page h attr m in Some (m, u, h, attr, result).
End Install.

(** ** The table of the RAM pages keeps its types *)

Section Typed.
Context {FD : FlashDriver} {PS : PageSize} {CP : MpuConfig} {SY : Symbols} {C : Type} (l : list appfs_mem_section_t) (junk : mem).
Lemma free_ram_typed n f m u : table_ok n u -> table_ok n (appfs_util_root_free_ram l f m u).1.
Proof. intros Hu. unfold appfs_util_root_free_ram. destruct (appfs_mem_getpageinfo l _) as [info err]. destruct (err <? 0); [done|]. by apply ram_root_set_typed. Qed.
Lemma reclaim_ram_typed n f m u : table_ok n u -> table_ok n (appfs_util_root_reclaim_ram l f m u).1.
Proof.
  intros Hu. unfold appfs_util_root_reclaim_ram. destruct (appfs_mem_getpageinfo l _) as [info err]. destruct (negb _); [done|]. destruct (forallb _ _); [|done].
  by apply ram_root_set_typed.
Qed.
Lemma install_header_typed n (h : appfs_util_handle_t C) attr m u u' r : table_ok n u -> install_header l junk h attr m u = Some (u', r) -> table_ok n u'.
Proof.
  intros Hu. unfold install_header. destruct (negb _); [by intros [= <- _]|]. cbv zeta. destruct (find_memory _ _ _ _ _ _ _ _) as [[[[code_start code_page]|] ps]|]; [|by intros [= <- _]|done].
  set (u1 := if Bits.any _ _ then u else _). assert (H1 : table_ok n u1) by (unfold u1; destruct (Bits.any _ _); [done|by apply ram_root_set_typed; [|apply ram_root_set_typed]]). clearbody u1.
  destruct (find_memory _ _ _ _ _ _ _ u1) as [[[[data_start ram_page]|] ps']|]; [|intros [= <- _]; destruct (Bits.any _ _); [done|by apply ram_root_set_typed]|done].
  destruct (translate_words _ _ _ _ _ _ _ _) as [dest loc_err]. intros [= <- _]. by apply ram_root_set_typed.
Qed.
Lemma writeinstall_typed n (h : appfs_util_handle_t C) attr m u m' u' h' attr' r : table_ok n u ->
  appfs_util_root_writeinstall l junk h attr m u = Some (m', u', h', attr', r) -> table_ok n u'.
Proof.
  intros Hu. unfold appfs_util_root_writeinstall. destruct (ia_loc attr =? 0).
  - destruct (_ <? _); [by intros [= _ <- _ _ _]|]. destruct (_ <? _); [done|]. destruct (install_header l junk h attr m u) as [[u1 [e|[h1 dest]]]|] eqn:E; [| |done];
      intros [= _ <- _ _ _]; exact (install_header_typed n h attr m u u1 _ Hu E).
  - destruct (negb _); [by intros [= _ <- _ _ _]|]. destruct (_ <? _); [done|]. destruct (translate_words _ _ _ _ _ _ _ _) as [dest loc_err]. destruct (negb _); [by intros [= _ <- _ _ _]|].
    cbv zeta. destruct (appfs_util_root_mem_write_page _ _ _ _ _) as [m1 r1]. by intros [= _ <- _ _ _].
Qed.
End Typed.

(** ** Finding memory: what is found is free *)

Lemma section_from_in type : forall l f p s o, section_from f l p type = Some (s, o) -> s ∈ l /\ Bits.any (sec_flags s) type = true.
Proof.
  induction l as [|x l IH]; intros f p s o; cbn [section_from]; [done|]. destruct (Bits.any (sec_flags x) type) eqn:E.
  - destruct (_ <? _); [intros [= <- _]; split; [left|done]|]. intros H. destruct (IH _ _ _ _ H). split; [by right|done].
  - intros H. destruct (IH _ _ _ _ H). split; [by right|done].
Qed.
(** The next page is the next one of the section, or lies in another section, or there is none. *)
Lemma section_next type : forall l f p s o, sections_ok l -> 0 <= f <= p -> f + all_pages l < 2 ^ 32 -> section_from f l p type = Some (s, o) ->
  0 <= o < sec_count s /\
  if o + 1 <? sec_count s then section_from f l (p + 1) type = Some (s, o + 1)
  else match section_from f l (p + 1) type with Some (t, o') => apart s t /\ 0 <= o' < sec_count t | None => True end.
Proof.
  induction l as [|x l IH]; intros f p s o Hl Hf Hn; cbn [section_from all_pages foldr] in *; [done|]. fold (all_pages l) in Hn. destruct Hl as (Hx & Hap & Hl).
  pose proof (so_count _ Hx). pose proof (all_pages_nonneg l Hl). destruct (Bits.any (sec_flags x) type) eqn:E; [|apply IH; [done|lia|lia]].
  rewrite (u32_id (f + sec_count x)) by lia. destruct (Z.ltb_spec p (f + sec_count x)) as [Hp|Hp].
  - rewrite (u32_id (p - f)) by lia. intros [= <- <-]. split; [lia|]. destruct (Z.ltb_spec (p - f + 1) (sec_count x)).
    + rewrite (proj2 (Z.ltb_lt _ _)) by lia. rewrite (u32_id (p + 1 - f)) by lia. repeat f_equal. lia.
    + rewrite (proj2 (Z.ltb_ge _ _)) by lia. destruct (section_from (f + sec_count x) l (p + 1) type) as [[t o']|] eqn:Et; [|done].
      pose proof (section_from_spec type l (f + sec_count x) (p + 1) Hl ltac:(lia) ltac:(lia)) as Hs. rewrite Et in Hs. destruct Hs as (Hin & _ & Ho & _).
      split; [by apply (proj1 (Forall_forall _ _) Hap)|done].
  - intros H'. rewrite (proj2 (Z.ltb_ge (p + 1) _)) by lia. by apply IH; [done|lia|lia|].
Qed.
Lemma section_from_room type : forall l f p s o, sections_ok l -> 0 <= f <= p -> f + all_pages l < 2 ^ 32 -> section_from f l p type = Some (s, o) -> p + (sec_count s - o) <= f + all_pages l.
Proof.
  induction l as [|x l IH]; intros f p s o Hl Hf Hn; cbn [section_from all_pages foldr] in *; [done|]. fold (all_pages l) in *. destruct Hl as (Hx & Hap & Hl).
  pose proof (so_count _ Hx). pose proof (all_pages_nonneg l Hl). destruct (Bits.any (sec_flags x) type) eqn:E.
  - rewrite (u32_id (f + sec_count x)) by lia. destruct (Z.ltb_spec p (f + sec_count x)) as [Hp|Hp].
    + rewrite (u32_id (p - f)) by lia. intros [= <- <-]. lia.
    + intros H'. specialize (IH (f + sec_count x) p s o Hl ltac:(lia) ltac:(lia) H'). lia.
  - intros H'. specialize (IH f p s o Hl ltac:(lia) ltac:(lia) H'). lia.
Qed.
Lemma s32_mod a b : a mod 2 ^ 32 = b mod 2 ^ 32 -> s32 a = s32 b.
Proof. intros H. unfold s32. rewrite <- (Zplus_mod_idemp_l a), <- (Zplus_mod_idemp_l b), H. done. Qed.
Lemma s32_mod' a : s32 a mod 2 ^ 32 = a mod 2 ^ 32.
Proof. unfold s32. rewrite Zminus_mod_idemp_l. f_equal. lia. Qed.
Lemma s32_add a b : s32 (s32 a + s32 b) = s32 (a + b).
Proof. apply s32_mod. rewrite <- (Zplus_mod_idemp_l (s32 a)), <- (Zplus_mod_idemp_r (s32 b)), !s32_mod', Zplus_mod_idemp_l, Zplus_mod_idemp_r. done. Qed.
Lemma s32_inj a b : 0 <= a < 2 ^ 32 -> 0 <= b < 2 ^ 32 -> s32 a = s32 b -> a = b.
Proof. intros Ha Hb H. rewrite <- (Z.mod_small a (2 ^ 32)), <- (Z.mod_small b (2 ^ 32)), <- (s32_mod' a), <- (s32_mod' b), H by done. done. Qed.

Section Found.
Context {FD : FlashDriver} {PS : PageSize} {CP : MpuConfig} {SY : Symbols} (l : list appfs_mem_section_t) (junk : mem).
Context (Hl : sections_ok l) (Hpages : all_pages l < 2 ^ 31).

(** Whether a page is free, and how many are from a page on, at most [n]. *)
Definition page_type_of (type p a z : Z) (m : mem) (u : usage) : Z := if type =? MEM_FLAG_IS_FLASH then get_flash_page_type l junk m a z else appfs_ram_root_get l p u.
Fixpoint free_run (n : nat) (type p a z : Z) (m : mem) (u : usage) : Z :=
  match n with O => 0 | S n => if page_type_of type p a z m u =? APPFS_MEMPAGETYPE_FREE then 1 + free_run n type (p + 1) (a + z) z m u else 0 end.
Lemma free_run_bound n type : forall p a z m u, 0 <= free_run n type p a z m u <= Z.of_nat n.
Proof using. induction n as [|n IH]; intros p a z m u; cbn [free_run]; [lia|]. destruct (_ =? _); [specialize (IH (p + 1) (a + z) z m u); lia|lia]. Qed.
Lemma free_run_spec n type : forall p a z m u k, 0 <= k -> k < free_run n type p a z m u -> page_type_of type (p + k) (a + k * z) z m u = APPFS_MEMPAGETYPE_FREE.
Proof using.
  induction n as [|n IH]; intros p a z m u k Hk; cbn [free_run]; [lia|]. destruct (Z.eqb_spec (page_type_of type p a z m u) APPFS_MEMPAGETYPE_FREE) as [E|]; [|lia].
  intros Hlt. destruct (decide (k = 0)) as [->|]; [by rewrite Z.add_0_r, Z.mul_0_l, Z.add_0_r|].
  rewrite <- (IH (p + 1) (a + z) z m u (k - 1)) by lia. f_equal; ring.
Qed.
Lemma free_run_max n type : forall p a z m u k, 0 <= k <= Z.of_nat n -> (forall j, 0 <= j < k -> page_type_of type (p + j) (a + j * z) z m u = APPFS_MEMPAGETYPE_FREE) ->
  k <= free_run n type p a z m u.
Proof using.
  induction n as [|n IH]; intros p a z m u k Hk Hfree; cbn [free_run]; [lia|]. destruct (decide (k = 0)); [destruct (_ =? _); [pose proof (free_run_bound n type (p + 1) (a + z) z m u)|]; lia|].
  pose proof (Hfree 0 ltac:(lia)) as H0. rewrite Z.add_0_r, Z.mul_0_l, Z.add_0_r in H0. rewrite (proj2 (Z.eqb_eq _ _) H0).
  assert (k - 1 <= free_run n type (p + 1) (a + z) z m u); [|lia]. apply IH; [lia|]. intros j Hj. rewrite <- (Hfree (j + 1)) by lia. f_equal; ring.
Qed.

Lemma getpageinfo_section type p a z s o : Bits.any type MEM_FLAG_IS_QUERY = false -> 0 <= p < 2 ^ 31 -> section_from 0 l p type = Some (s, o) ->
  appfs_mem_getpageinfo l (mk_page p type a z) = (mk_page p (sec_flags s) (sec_address s + o * sec_page_size s) (sec_page_size s), 0).
Proof using Hl Hpages.
  intros Hq Hp E. unfold appfs_mem_getpageinfo. cbn [pi_flags pi_num]. rewrite Hq. cbn [pi_flags pi_num]. unfold get_page_info, get_page_section_info. rewrite (u32_id p), E, (s32_id p) by lia.
  destruct (section_next type l 0 p s o Hl ltac:(lia) ltac:(lia) E) as [Ho _]. pose proof (section_ok_in l s Hl (proj1 (section_from_in _ _ _ _ _ _ E))) as Hs.
  pose proof (so_page _ Hs). pose proof (so_address _ Hs). pose proof (so_end _ Hs) as He. unfold sec_end in He. rewrite (u32_id (o * _)), u32_id by nia. done.
Qed.
Lemma getpageinfo_none type p a z : Bits.any type MEM_FLAG_IS_QUERY = false -> 0 <= p < 2 ^ 31 -> section_from 0 l p type = None ->
  appfs_mem_getpageinfo l (mk_page p type a z) = (mk_page p type a z, SYSFS_SET_RETURN 177 EINVAL).
Proof using.
  intros Hq Hp E. unfold appfs_mem_getpageinfo. cbn [pi_flags pi_num]. rewrite Hq. cbn [pi_flags pi_num]. unfold get_page_info, get_page_section_info. by rewrite (u32_id p), E by lia.
Qed.

(** The scan for free pages stays in the section it begins in. *)
Lemma free_from_leaves type size s p m u fuel free : Bits.any type MEM_FLAG_IS_QUERY = false -> 0 <= p < 2 ^ 31 -> s ∈ l -> 0 < sec_count s ->
  match section_from 0 l p type with Some (t, o') => apart s t /\ 0 <= o' < sec_count t | None => True end ->
  free_from l junk (S fuel) (mk_page p type (sec_end s - sec_page_size s) (sec_page_size s)) type size (Some (sec_end s - sec_page_size s, sec_page_size s)) free m u
  = Some (if size <=? free then free else -1).
Proof using Hl Hpages.
  intros Hq Hp Hin Hcnt Hnext. cbn [free_from]. pose proof (section_ok_in l s Hl Hin) as Hs. pose proof (so_page _ Hs). pose proof (so_end _ Hs). pose proof (so_address _ Hs). pose proof (so_count _ Hs).
  set (info := (appfs_mem_getpageinfo l _).1). assert (Hi : pi_addr info <> sec_end s /\ 0 <= pi_addr info < 2 ^ 32).
  { unfold info. destruct (section_from 0 l p type) as [[t o']|] eqn:E.
    - rewrite (getpageinfo_section type p _ _ t o' Hq Hp E). cbn [fst pi_addr]. pose proof (section_ok_in l t Hl (proj1 (section_from_in _ _ _ _ _ _ E))) as Ht.
      pose proof (so_page _ Ht). pose proof (so_end _ Ht). pose proof (so_address _ Ht). destruct Hnext as [Hap Ho]. unfold apart, sec_end in *. nia.
    - rewrite (getpageinfo_none type p _ _ Hq Hp E). cbn [fst pi_addr]. unfold sec_end in *. nia. }
  clearbody info. rewrite s32_add. replace (sec_end s - sec_page_size s + sec_page_size s) with (sec_end s) by lia.
  assert (Hd1 : (s32 (sec_end s) =? s32 (pi_addr info)) = false).
  { apply Z.eqb_neq. intros E. apply s32_inj in E; [lia| |lia]. unfold sec_end in *. nia. }
  assert (Hd2 : (s32 (sec_end s - sec_page_size s) =? -1) = false).
  { apply Z.eqb_neq. intros E. change (-1) with (s32 (2 ^ 32 - 1)) in E. apply s32_inj in E; unfold sec_end in *; [|nia|lia]. nia. }
  by rewrite Hd1, Hd2.
Qed.

Lemma free_from_spec type size s m u : Bits.any type MEM_FLAG_IS_QUERY = false -> sec_flags s = type -> sec_page_size s * sec_count s < 2 ^ 31 -> forall n fuel o p a z last free,
  section_from 0 l p type = Some (s, o) -> 0 <= p -> p + Z.of_nat n < 2 ^ 31 -> n = Z.to_nat (sec_count s - o) -> (n < fuel)%nat -> 0 <= free -> free + sec_page_size s * Z.of_nat n < 2 ^ 31 ->
  last = None \/ last = Some (sec_address s + (o - 1) * sec_page_size s, sec_page_size s) ->
  free_from l junk fuel (mk_page p type a z) type size last free m u =
  Some (let t := free + sec_page_size s * free_run n type p (sec_address s + o * sec_page_size s) (sec_page_size s) m u in if size <=? t then t else -1).
Proof using Hl Hpages.
  intros Hq Hfl Hsz. induction n as [|n IH]; intros fuel o p a z last free E Hp Hpn Hn Hfuel Hfree Hbig Hlast;
    destruct (section_next type l 0 p s o Hl ltac:(lia) ltac:(lia) E) as [Ho Hnext]; [lia|].
  destruct (section_from_in _ _ _ _ _ _ E) as [Hin _]. pose proof (section_ok_in l s Hl Hin) as Hs. pose proof (so_page _ Hs). pose proof (so_address _ Hs). pose proof (so_end _ Hs) as He.
  destruct fuel as [|fuel]; [lia|]. cbn [free_from free_run]. rewrite (getpageinfo_section type p a z s o Hq ltac:(lia) E). cbn [fst pi_addr pi_size pi_num pi_flags]. unfold sec_end in He.
  assert (Hc : match last with Some (a, z) => negb (s32 a =? -1) && negb (s32 (s32 a + s32 z) =? s32 (sec_address s + o * sec_page_size s)) | None => false end = false).
  { destruct Hlast as [->| ->]; [done|]. rewrite s32_add. replace (sec_address s + (o - 1) * sec_page_size s + sec_page_size s) with (sec_address s + o * sec_page_size s) by ring.
    by rewrite Z.eqb_refl, andb_false_r. }
  rewrite Hc. fold (page_type_of type p (sec_address s + o * sec_page_size s) (sec_page_size s) m u).
  destruct (Z.eqb_spec (page_type_of type p (sec_address s + o * sec_page_size s) (sec_page_size s) m u) APPFS_MEMPAGETYPE_FREE) as [Ef|]; [|cbv zeta; by replace (free + sec_page_size s * 0) with free by lia].
  rewrite (s32_id (p + 1)), (s32_id (free + sec_page_size s)), Hfl by nia. set (run := free_run n type _ _ _ m u). destruct (Z.ltb_spec (o + 1) (sec_count s)).
  - rewrite (IH fuel (o + 1) (p + 1)); try done; try lia.
    + cbv zeta. replace (sec_address s + (o + 1) * sec_page_size s) with (sec_address s + o * sec_page_size s + sec_page_size s) by ring. fold run.
      replace (free + sec_page_size s + sec_page_size s * run) with (free + sec_page_size s * (1 + run)) by ring. done.
    + right. do 2 f_equal. ring.
  - assert (Erun : run = 0) by (unfold run; assert (n = O) as -> by lia; done). rewrite Erun. destruct fuel as [|fuel]; [lia|].
    replace (sec_address s + o * sec_page_size s) with (sec_end s - sec_page_size s) by (unfold sec_end; nia).
    rewrite (free_from_leaves type size s (p + 1) m u fuel) by (done || lia). cbv zeta. by replace (free + sec_page_size s * (1 + 0)) with (free + sec_page_size s) by lia.
Qed.
Lemma check_for_free_space_spec type size s o p m u : Bits.any type MEM_FLAG_IS_QUERY = false -> sec_flags s = type -> sec_page_size s * sec_count s < 2 ^ 31 -> section_from 0 l p type = Some (s, o) -> 0 <= p < 2 ^ 31 ->
  let run := free_run (Z.to_nat (sec_count s - o)) type p (sec_address s + o * sec_page_size s) (sec_page_size s) m u in
  check_for_free_space l junk p type size m u = Some (if size <=? sec_page_size s * run then sec_page_size s * run else -1).
Proof using Hl Hpages.
  intros Hq Hfl Hsz E Hp. destruct (section_next type l 0 p s o Hl ltac:(lia) ltac:(lia) E) as [Ho _]. destruct (section_from_in _ _ _ _ _ _ E) as [Hin _].
  pose proof (section_from_room type l 0 p s o Hl ltac:(lia) ltac:(lia) E). pose proof (so_page _ (section_ok_in l s Hl Hin)).
  unfold check_for_free_space. rewrite (free_from_spec type size s m u Hq Hfl Hsz (Z.to_nat (sec_count s - o)) _ o); try done; try (unfold page_fuel; lia); try (by left); nia.
Qed.

Lemma calc_region_total region a size access type executable : 0 <= a < 2 ^ 32 -> size < 2 ^ 29 -> is_Some (mpu_calc_region region a size access type executable).
Proof using.
  intros Ha Hs. unfold mpu_calc_region. destruct (size <? 32); [done|]. pose proof (ctz_spec a Ha) as (Hc & _).
  destruct (zoom_out_total a size Ha Hs 1024 a 0 0 ltac:(lia) ltac:(lia)) as [[[[al s] c] o] ->]. destruct (c =? 0); [done|]. by destruct (_ <? 4).
Qed.
(** The size of the region that begins at an address, 0 when there is none. *)
Definition region_at (type a size : Z) : Z :=
  match mpu_calc_region TASK_APPLICATION_CODE_MPU_REGION a size MPU_ACCESS_PR_UR (if Bits.any type MEM_FLAG_IS_FLASH then MPU_MEMORY_FLASH else MPU_MEMORY_SRAM) true with
  | Some (r, _, _) => r | None => 0 end.
(** Page [p] is of exactly this kind, at offset [o] of section [s], and a region of [r] bytes begins there. *)
Definition candidate (type size p : Z) (s : appfs_mem_section_t) (o r : Z) : Prop :=
  section_from 0 l p type = Some (s, o) /\ sec_flags s = type /\ r <> 0 /\ r = region_at type (sec_address s + o * sec_page_size s) size.
Lemma section_from_end type i p : 0 <= i <= p -> section_from 0 l i type = None -> section_from 0 l p type = None.
Proof using Hl Hpages.
  intros Hi E. pose proof (section_from_spec type l 0 i Hl ltac:(lia) ltac:(lia)) as H1. pose proof (section_from_spec type l 0 p Hl ltac:(lia) ltac:(lia)) as H2.
  rewrite E in H1. destruct (section_from 0 l p type) as [[s o]|]; [|done]. destruct H2 as (_ & _ & _ & Hlook%lookup_lt_Some). unfold Zlen in H1. lia.
Qed.
Lemma page_address type p s o : 0 <= p -> section_from 0 l p type = Some (s, o) -> 0 <= sec_address s + o * sec_page_size s < 2 ^ 32.
Proof using Hl Hpages.
  intros Hp E. destruct (section_next type l 0 p s o Hl ltac:(lia) ltac:(lia) E) as [Ho _]. pose proof (section_ok_in l s Hl (proj1 (section_from_in _ _ _ _ _ _ E))) as Hs.
  pose proof (so_page _ Hs). pose proof (so_address _ Hs). pose proof (so_end _ Hs) as He. unfold sec_end in He. nia.
Qed.
Lemma protectable_from_spec type size : Bits.any type MEM_FLAG_IS_QUERY = false -> 0 <= size < 2 ^ 29 -> forall fuel i, 0 <= i <= all_pages l -> all_pages l - i < Z.of_nat fuel ->
  exists r, protectable_from l fuel size type i = Some r /\
  match r with
  | Some (a, p, r) => i <= p /\ exists s o, candidate type size p s o r /\ a = sec_address s + o * sec_page_size s /\ forall q s' o' r', i <= q < p -> ~ candidate type size q s' o' r'
  | None => forall q s' o' r', i <= q -> ~ candidate type size q s' o' r'
  end.
Proof using Hl Hpages.
  intros Hq Hsize. induction fuel as [|fuel IH]; intros i Hi Hf; [lia|]. cbn [protectable_from]. destruct (section_from 0 l i type) as [[s o]|] eqn:E.
  - rewrite (getpageinfo_section type i 0 0 s o Hq ltac:(lia) E). cbn [pi_flags pi_addr]. change (0 <? 0) with false. cbv iota.
    pose proof (section_from_room type l 0 i s o Hl ltac:(lia) ltac:(lia) E) as Hroom. destruct (section_next type l 0 i s o Hl ltac:(lia) ltac:(lia) E) as [Ho _].
    assert (Hnext : (forall s' o' r', ~ candidate type size i s' o' r') -> exists r, protectable_from l fuel size type (i + 1) = Some r /\ match r with
      | Some (a, p, r) => i <= p /\ exists s o, candidate type size p s o r /\ a = sec_address s + o * sec_page_size s /\ forall q s' o' r', i <= q < p -> ~ candidate type size q s' o' r'
      | None => forall q s' o' r', i <= q -> ~ candidate type size q s' o' r' end).
    { intros Hno. destruct (IH (i + 1) ltac:(lia) ltac:(lia)) as (r & -> & Hr). exists r. split; [done|]. destruct r as [[[a p] r]|].
      - destruct Hr as (Hp & s1 & o1 & Hc & Ha & Hmin). split; [lia|]. exists s1, o1. split; [done|]. split; [done|]. intros q s' o' r' Hqp. destruct (decide (q = i)) as [->|]; [done|apply Hmin; lia].
      - intros q s' o' r' Hqi. destruct (decide (q = i)) as [->|]; [done|apply Hr; lia]. }
    destruct (Z.eqb_spec (sec_flags s) type) as [Efl|Hfl].
    2: { apply Hnext. intros s' o' r' (Hc & Hf' & _). rewrite E in Hc. injection Hc as <- <-. done. }
    rewrite (u32_id size) by lia.
    destruct (calc_region_total TASK_APPLICATION_CODE_MPU_REGION (sec_address s + o * sec_page_size s) size MPU_ACCESS_PR_UR (if Bits.any type MEM_FLAG_IS_FLASH then MPU_MEMORY_FLASH else MPU_MEMORY_SRAM) true
      (page_address type i s o ltac:(lia) E) ltac:(lia)) as [[[r rbar] rasr] Er]. rewrite Er.
    assert (Hreg : region_at type (sec_address s + o * sec_page_size s) size = r) by (unfold region_at; by rewrite Er). destruct (Z.eqb_spec r 0) as [->|Hr].
    + apply Hnext. intros s' o' r' (Hc & _ & Hr' & Er'). rewrite E in Hc. injection Hc as <- <-. congruence.
    + eexists. split; [reflexivity|]. split; [lia|]. exists s, o. split; [by repeat split|]. split; [done|]. intros q ? ? ? ?. lia.
  - rewrite (getpageinfo_none type i 0 0 Hq ltac:(lia) E). eexists. split; [reflexivity|]. intros q s' o' r' Hqi (Hc & _). by rewrite (section_from_end type i q ltac:(lia) E) in Hc.
Qed.

Context (Hsmall : forall s, s ∈ l -> sec_page_size s * sec_count s < 2 ^ 31) (Hoff : 0 <= task_mpu_region_offset <= 8).
Context (Hpol : forall t i, Z.testbit (cache_policy t) i = true -> 16 <= i < 22).

Lemma candidate_size type size p s o r : 0 <= p -> 0 <= size < 2 ^ 29 -> candidate type size p s o r -> size <= r < 2 * size /\ 32 <= size.
Proof using Hl Hpages Hoff Hpol.
  intros Hp Hsize (E & _ & Hr & Er). unfold region_at in Er. destruct (mpu_calc_region _ _ _ _ _ _) as [[[r' rbar] rasr]|] eqn:Ec; [|done]. subst r'.
  assert (Hs : 32 <= size). { destruct (Z.ltb_spec size 32) as [Hlt|]; [|done]. unfold mpu_calc_region in Ec. rewrite (proj2 (Z.ltb_lt _ _) Hlt) in Ec. congruence. }
  assert (Hreg : 0 <= TASK_APPLICATION_CODE_MPU_REGION < 16) by (unfold TASK_APPLICATION_CODE_MPU_REGION; lia).
  pose proof (page_address type p s o Hp E) as Ha. assert (Hs29 : 32 <= size < 2 ^ 29) by lia.
  destruct (region_sound _ _ _ _ _ _ _ _ _ Hreg Ha Hs29 (fun i Hi => policy_clear Hpol _ i (or_introl Hi)) Ec Hr) as [H _]. done.
Qed.
(** A candidate whose region is free to its end. *)
Definition room (type size p : Z) (s : appfs_mem_section_t) (o r : Z) (m : mem) (u : usage) : Prop :=
  candidate type size p s o r /\ forall k, 0 <= k -> k * sec_page_size s < r -> o + k < sec_count s /\
    page_type_of type (p + k) (sec_address s + (o + k) * sec_page_size s) (sec_page_size s) m u = APPFS_MEMPAGETYPE_FREE.
Lemma check_room type size p s o r m u : Bits.any type MEM_FLAG_IS_QUERY = false -> 0 <= p < 2 ^ 31 -> 0 <= size < 2 ^ 29 -> candidate type size p s o r ->
  exists space, check_for_free_space l junk p type (s32 r) m u = Some space /\ (0 < space <-> room type size p s o r m u).
Proof using Hl Hpages Hsmall Hoff Hpol.
  intros Hq Hp Hsize Hc. destruct (candidate_size type size p s o r ltac:(lia) Hsize Hc) as [Hr H32]. pose proof Hc as (E & Hfl & _ & _).
  destruct (section_from_in _ _ _ _ _ _ E) as [Hin _]. destruct (section_next type l 0 p s o Hl ltac:(lia) ltac:(lia) E) as [Ho _]. pose proof (so_page _ (section_ok_in l s Hl Hin)) as Hz.
  rewrite (s32_id r), (check_for_free_space_spec type r s o p m u Hq Hfl (Hsmall s Hin) E Hp) by lia. set (run := free_run _ _ _ _ _ m u). eexists. split; [reflexivity|].
  pose proof (free_run_bound (Z.to_nat (sec_count s - o)) type p (sec_address s + o * sec_page_size s) (sec_page_size s) m u) as Hb. fold run in Hb. split.
  - destruct (Z.leb_spec r (sec_page_size s * run)) as [Hle|]; [|lia]. intros _. split; [done|]. intros k Hk Hkr. assert (k < run) by nia. split; [lia|].
    replace (sec_address s + (o + k) * sec_page_size s) with (sec_address s + o * sec_page_size s + k * sec_page_size s) by ring.
    by apply (free_run_spec (Z.to_nat (sec_count s - o))).
  - intros [_ Hfree]. set (k := (r + sec_page_size s - 1) / sec_page_size s). pose proof (Z.div_mod (r + sec_page_size s - 1) (sec_page_size s) ltac:(lia)) as Hdm. fold k in Hdm.
    pose proof (Z.mod_pos_bound (r + sec_page_size s - 1) (sec_page_size s) Hz). assert (Hk1 : 1 <= k) by nia.
    destruct (Hfree (k - 1) ltac:(lia) ltac:(nia)) as [Hlast _].
    assert (Hkr : k <= run). { apply free_run_max; [lia|]. intros j Hj. destruct (Hfree j ltac:(lia) ltac:(nia)) as [_ Hf].
      by replace (sec_address s + o * sec_page_size s + j * sec_page_size s) with (sec_address s + (o + j) * sec_page_size s) by ring. }
    rewrite (proj2 (Z.leb_le _ _)) by nia. nia.
Qed.
Lemma protectable_free_from_spec type size m u : Bits.any type MEM_FLAG_IS_QUERY = false -> 0 <= size < 2 ^ 29 -> forall fuel page ps, 0 <= page <= all_pages l -> all_pages l - page < Z.of_nat fuel ->
  exists res ps', protectable_free_from l junk fuel type size page ps m u = Some (res, ps') /\
  match res with
  | Some (a, p) => page <= p /\ exists s o, room type size p s o ps' m u /\ a = sec_address s + o * sec_page_size s /\ forall q s' o' r', page <= q < p -> ~ room type size q s' o' r' m u
  | None => forall q s' o' r', page <= q -> ~ room type size q s' o' r' m u
  end.
Proof using Hl Hpages Hsmall Hoff Hpol.
  intros Hq Hsize. induction fuel as [|fuel IH]; intros page ps Hp Hf; [lia|]. cbn [protectable_free_from]. unfold find_protectable_addr.
  destruct (protectable_from_spec type size Hq Hsize (page_fuel l) page Hp ltac:(unfold page_fuel; lia)) as (r & -> & Hr). destruct r as [[[a p] r]|].
  2: { eexists None, _. split; [reflexivity|]. intros q s' o' r' Hqp [Hc _]. by apply (Hr q s' o' r'). }
  destruct Hr as (Hpp & s & o & Hc & Ha & Hmin). pose proof Hc as (E & _). pose proof (section_from_room type l 0 p s o Hl ltac:(lia) ltac:(lia) E) as Hroom.
  destruct (section_next type l 0 p s o Hl ltac:(lia) ltac:(lia) E) as [Ho _].
  destruct (check_room type size p s o r m u Hq ltac:(lia) Hsize Hc) as (space & -> & Hiff). destruct (Z.ltb_spec 0 space) as [Hsp|Hsp].
  - eexists (Some (a, p)), r. split; [reflexivity|]. split; [done|]. exists s, o. split; [by apply Hiff|]. split; [done|]. intros q s' o' r' Hqp [Hc' _]. by apply (Hmin q s' o' r').
  - destruct (IH (p + 1) r ltac:(lia) ltac:(lia)) as (res & ps' & -> & Hres). exists res, ps'. split; [done|].
    assert (Hno : forall q s' o' r', page <= q < p + 1 -> ~ room type size q s' o' r' m u).
    { intros q s' o' r' Hqp Hrm. destruct (decide (q = p)) as [->|]; [|destruct Hrm as [Hc' _]; apply (Hmin q s' o' r'); [lia|done]].
      pose proof Hrm as [(E' & _ & _ & Er') _]. rewrite E in E'. injection E' as <- <-. destruct Hc as (_ & _ & _ & Er). pose proof (eq_trans Er' (eq_sym Er)) as Err. clear Er Er'. subst r'. apply Hiff in Hrm. lia. }
    destruct res as [[a' p']|].
    + destruct Hres as (Hp' & s1 & o1 & H1 & H2 & H3). split; [lia|]. exists s1, o1. split; [done|]. split; [done|]. intros q s' o' r' Hqp. destruct (decide (q < p + 1)); [apply Hno; lia|apply H3; lia].
    + intros q s' o' r' Hqp. destruct (decide (q < p + 1)); [apply Hno; lia|apply Hres; lia].
Qed.

(** Memory for a program: the search always ends.  What it finds is the first page of the kind asked for where the memory protection
    has a region of the size, no more than twice of it, all of whose pages lie in one section and are free; when it finds nothing there is
    no such page. *)
Theorem found_memory_is_free type size ps m u : Bits.any type MEM_FLAG_IS_QUERY = false -> 0 <= size < 2 ^ 29 ->
  exists res ps', find_protectable_free l junk type size ps m u = Some (res, ps') /\
  match res with
  | Some (a, p) => 0 <= p /\ exists s o, room type size p s o ps' m u /\ a = sec_address s + o * sec_page_size s /\ size <= ps' < 2 * size /\
      forall q s' o' r', 0 <= q < p -> ~ room type size q s' o' r' m u
  | None => forall q s' o' r', 0 <= q -> ~ room type size q s' o' r' m u
  end.
Proof using Hl Hpages Hsmall Hoff Hpol.
  intros Hq Hsize. pose proof (all_pages_nonneg l Hl).
  destruct (protectable_free_from_spec type size m u Hq Hsize (page_fuel l) 0 ps ltac:(lia) ltac:(unfold page_fuel; lia)) as (res & ps' & E & Hres).
  exists res, ps'. split; [exact E|]. destruct res as [[a p]|]; [|done]. destruct Hres as (Hp & s & o & Hr & Ha & Hmin). split; [done|]. exists s, o. split; [done|]. split; [done|]. split; [|done].
  by apply (candidate_size type size p s o ps' Hp Hsize (proj1 Hr)).
Qed.
End Found.

(** ** Relocation *)

Lemma land_high x k n : 0 <= k <= n -> 0 <= x < 2 ^ n -> Z.land x (2 ^ n - 2 ^ k) = x - x mod 2 ^ k.
Proof.
  intros Hk Hx. assert (E : 2 ^ n - 2 ^ k = Z.shiftl (Z.ones (n - k)) k).
  { rewrite Z.shiftl_mul_pow2, Z.ones_equiv by lia. unfold Z.pred. replace (2 ^ n) with (2 ^ (n - k) * 2 ^ k) by (rewrite <- Z.pow_add_r by lia; f_equal; lia). ring. }
  rewrite E. replace (x - x mod 2 ^ k) with (Z.shiftl (Z.shiftr x k) k).
  2: { rewrite Z.shiftl_mul_pow2, Z.shiftr_div_pow2 by lia. assert (0 < 2 ^ k) by (apply Z.pow_pos_nonneg; lia). pose proof (Z.div_mod x (2 ^ k) ltac:(lia)). lia. }
  apply Z.bits_inj'. intros b Hb. rewrite Z.land_spec. destruct (decide (b < k)); [rewrite !Z.shiftl_spec_low, andb_false_r by lia; done|].
  rewrite !Z.shiftl_spec, Z.shiftr_spec by lia. replace (b - k + k) with b by lia. destruct (decide (b < n)); [by rewrite Z.ones_spec_low, andb_true_r by lia|].
  rewrite (testbit_small x n b) by lia. done.
Qed.
Section Relocation.
Context {SY : Symbols}.
(** C27: A program is linked for a window of 32 MB that begins at a multiple of its size: code in the lower half, data in the upper half, and
    behind its last 32 KB the symbols of the kernel.  Loading it, an address of code or data keeps its distance from the start of its
    half, an odd word address in the last 32 KB becomes the symbol with that number, and every value outside the window stays. *)
Theorem relocation_correct mask code_start data_start total : 0 <= mask -> mask + 2 ^ 25 <= 2 ^ 32 -> mask mod 2 ^ 25 = 0 -> 0 <= total <= 2 ^ 13 ->
  (forall x, 0 <= x < 2 ^ 24 -> translate_value (mask + x) mask code_start data_start total = (u32 (x + code_start), 0)) /\
  (forall x, 0 <= x < 2 ^ 24 - 2 ^ 15 -> translate_value (mask + 2 ^ 24 + x) mask code_start data_start total = (u32 (x + data_start), 0)) /\
  (forall i, 0 <= i < total -> symbols_table i <> 0 -> translate_value (mask + 2 ^ 25 - 2 ^ 15 + 4 * i + 1) mask code_start data_start total = (symbols_table i, 0)) /\
  (forall v, 0 <= v < 2 ^ 32 -> v < mask \/ mask + 2 ^ 25 <= v -> translate_value v mask code_start data_start total = (v, 0)).
Proof.
  intros H0 H32 Hm Ht. change APPFS_REWRITE_MASK with (2 ^ 32 - 2 ^ 25) in *.
  assert (Hq : exists q, mask = q * 2 ^ 25) by (apply Z.mod_divide in Hm; [by destruct Hm as [q ->]; exists q|lia]). destruct Hq as [q Eq].
  assert (Hwin : forall x, 0 <= x < 2 ^ 25 -> Z.land (mask + x) APPFS_REWRITE_MASK = mask).
  { intros x Hx. change APPFS_REWRITE_MASK with (2 ^ 32 - 2 ^ 25). rewrite land_high by lia. replace ((mask + x) mod 2 ^ 25) with x; [lia|]. apply Z.mod_unique_pos with q; lia. }
  assert (Hoffs : forall x, 0 <= x < 2 ^ 25 -> Z.land (mask + x) (u32 (Z.lnot (Z.lor APPFS_REWRITE_MASK APPFS_REWRITE_RAM_MASK))) = x mod 2 ^ 24).
  { intros x Hx. change (u32 (Z.lnot (Z.lor APPFS_REWRITE_MASK APPFS_REWRITE_RAM_MASK))) with (Z.ones 24). rewrite Z.land_ones by lia. rewrite Eq.
    replace (q * 2 ^ 25 + x) with (x + (2 * q) * 2 ^ 24) by ring. by rewrite Z.mod_add by lia. }
  assert (Hk : forall x, 0 <= x < 2 ^ 25 -> Z.land (mask + x) APPFS_REWRITE_KERNEL_ADDR = x - x mod 2 ^ 15).
  { intros x Hx. change APPFS_REWRITE_KERNEL_ADDR with (2 ^ 25 - 2 ^ 15). rewrite <- (land_high x 15 25) by lia.
    apply Z.bits_inj'. intros b Hb. rewrite !Z.land_spec. destruct (decide (b < 25)); [|rewrite (testbit_small (2 ^ 25 - 2 ^ 15) 25 b) by lia; by rewrite !andb_false_r].
    f_equal. rewrite Eq, <- (Z.mod_pow2_bits_low (q * 2 ^ 25 + x) 25 b) by lia. rewrite Z.add_comm, Z.mod_add, Z.mod_small by lia. done. }
  assert (Hram : forall x, 0 <= x < 2 ^ 25 -> Bits.any (mask + x) APPFS_REWRITE_RAM_MASK = (2 ^ 24 <=? x)).
  { intros x Hx. unfold Bits.any. change APPFS_REWRITE_RAM_MASK with (2 ^ 25 - 2 ^ 24). rewrite <- (Z.add_0_l (Z.land _ _)).
    assert (E : Z.land (mask + x) (2 ^ 25 - 2 ^ 24) = x - x mod 2 ^ 24).
    { rewrite <- (land_high x 24 25) by lia. apply Z.bits_inj'. intros b Hb. rewrite !Z.land_spec. destruct (decide (b < 25)); [|rewrite (testbit_small (2 ^ 25 - 2 ^ 24) 25 b) by lia; by rewrite !andb_false_r].
      f_equal. rewrite Eq, <- (Z.mod_pow2_bits_low (q * 2 ^ 25 + x) 25 b) by lia. rewrite Z.add_comm, Z.mod_add, Z.mod_small by lia. done. }
    rewrite E. destruct (Z.leb_spec (2 ^ 24) x).
    - replace (x mod 2 ^ 24) with (x - 2 ^ 24) by (apply Z.mod_unique_pos with 1; lia). by rewrite (proj2 (Z.eqb_neq _ 0)) by lia.
    - rewrite Z.mod_small by lia. by replace (0 + (x - x)) with 0 by lia. }
  split; [|split; [|split]].
  - intros x Hx. unfold translate_value. rewrite Hwin, Z.eqb_refl, Hk, Hoffs, Hram by lia. rewrite (proj2 (Z.eqb_neq (x - x mod 2 ^ 15) APPFS_REWRITE_KERNEL_ADDR)).
    2: { unfold APPFS_REWRITE_KERNEL_ADDR. pose proof (Z.mod_pos_bound x (2 ^ 15)). lia. }
    cbn [andb]. rewrite (proj2 (Z.leb_gt (2 ^ 24) x)), Z.mod_small by lia. done.
  - intros x Hx. unfold translate_value. rewrite <- Z.add_assoc, Hwin, Z.eqb_refl, Hk, Hoffs, Hram by lia. rewrite (proj2 (Z.eqb_neq (2 ^ 24 + x - _) APPFS_REWRITE_KERNEL_ADDR)).
    2: { unfold APPFS_REWRITE_KERNEL_ADDR. pose proof (Z.mod_pos_bound (2 ^ 24 + x) (2 ^ 15)). lia. }
    cbn [andb]. rewrite (proj2 (Z.leb_le (2 ^ 24) (2 ^ 24 + x))) by lia. replace ((2 ^ 24 + x) mod 2 ^ 24) with x; [done|]. apply Z.mod_unique_pos with 1; lia.
  - intros i Hi Hs. unfold translate_value. replace (mask + 2 ^ 25 - 2 ^ 15 + 4 * i + 1) with (mask + (2 ^ 25 - 2 ^ 15 + 4 * i + 1)) by ring. set (x := 2 ^ 25 - 2 ^ 15 + 4 * i + 1).
    assert (Hx : 0 <= x < 2 ^ 25) by lia. rewrite Hwin, Z.eqb_refl, Hk by done. replace (x mod 2 ^ 15) with (4 * i + 1) by (apply Z.mod_unique_pos with 1023; lia).
    replace (x - (4 * i + 1)) with APPFS_REWRITE_KERNEL_ADDR by (unfold APPFS_REWRITE_KERNEL_ADDR; lia). rewrite Z.eqb_refl, (u32_id (mask + x - 1)) by lia. cbn [andb].
    replace ((mask + x - 1) mod 4) with 0 by (apply Z.mod_unique_pos with (q * 2 ^ 23 + 2 ^ 23 - 2 ^ 13 + i); lia). change (0 =? 0) with true. cbv iota.
    change APPFS_REWRITE_KERNEL_ADDR_MASK with (Z.ones 15). rewrite Z.land_ones by lia. replace ((mask + x) mod 2 ^ 15) with (4 * i + 1) by (apply Z.mod_unique_pos with (q * 2 ^ 10 + 1023); lia).
    rewrite Z.shiftr_div_pow2 by lia. replace ((4 * i + 1) / 2 ^ 2) with i by (apply Z.div_unique_pos with 1; lia). by rewrite (proj2 (Z.ltb_lt i total)), (proj2 (Z.eqb_neq _ 0) Hs) by lia.
  - intros v Hv Hout. unfold translate_value. change APPFS_REWRITE_MASK with (2 ^ 32 - 2 ^ 25). rewrite land_high by lia. rewrite (proj2 (Z.eqb_neq _ mask)); [done|].
    intros E. pose proof (Z.mod_pos_bound v (2 ^ 25)). lia.
Qed.
End Relocation.

(** ** What an install does to the table *)

Section Taken.
Context {FD : FlashDriver} {PS : PageSize} {CP : MpuConfig} {SY : Symbols} {C : Type} (l : list appfs_mem_section_t) (junk : mem).
Context (Hl : sections_ok l) (Hpages : all_pages l < 2 ^ 31) (Hsmall : forall s, s ∈ l -> sec_page_size s * sec_count s < 2 ^ 31).
Context (Hoff : 0 <= task_mpu_region_offset <= 8) (Hpol : forall t i, Z.testbit (cache_policy t) i = true -> 16 <= i < 22).
(** The pages of RAM have the size the table counts in. *)
Context (Hps : 0 < MCU_RAM_PAGE_SIZE <= 2 ^ 16) (Hram : forall s, s ∈ l -> Bits.any (sec_flags s) MEM_FLAG_IS_RAM = true -> sec_page_size s = MCU_RAM_PAGE_SIZE).

Definition kinds_of (type : Z) : list Z := [type; Z.lor type MEM_FLAG_IS_EXTERNAL; Z.lor type MEM_FLAG_IS_TIGHTLY_COUPLED].
Definition found (type size : Z) (a p ps : Z) (s : appfs_mem_section_t) (o type' : Z) (m : mem) (u : usage) : Prop :=
  type' ∈ kinds_of type /\ 0 <= p /\ room l junk type' size p s o ps m u /\ a = sec_address s + o * sec_page_size s /\ size <= ps < 2 * size.
Lemma find_memory_spec flags type size ps m u : type = MEM_FLAG_IS_RAM \/ type = MEM_FLAG_IS_FLASH -> 0 <= size < 2 ^ 29 ->
  exists res ps', find_memory l junk flags type size ps m u = Some (res, ps') /\ match res with Some (a, p) => exists s o type', found type size a p ps' s o type' m u | None => True end.
Proof using Hl Hpages Hsmall Hoff Hpol.
  intros Htype Hsize.
  assert (Hone : forall type' ps k, type' ∈ kinds_of type -> (forall ps, exists res ps', k ps = Some (res, ps') /\ match res with Some (a, p) => exists s o type', found type size a p ps' s o type' m u | None => True end) ->
    exists res ps', or_else (find_protectable_free l junk type' size ps m u) k = Some (res, ps') /\ match res with Some (a, p) => exists s o type', found type size a p ps' s o type' m u | None => True end).
  { intros type' ps0 k Hin Hk. pose proof (all_pages_nonneg l Hl). assert (Hq : Bits.any type' MEM_FLAG_IS_QUERY = false).
    { destruct Htype as [->| ->]; repeat (apply elem_of_cons in Hin as [->|Hin]; [reflexivity|]); by apply elem_of_nil in Hin. }
    destruct (protectable_free_from_spec l junk Hl Hpages Hsmall Hoff Hpol type' size m u Hq Hsize (page_fuel l) 0 ps0 ltac:(lia) ltac:(unfold page_fuel; lia)) as (res & ps' & E & Hres).
    unfold find_protectable_free. rewrite E. destruct res as [[a p]|]; cbn [or_else]; [|apply Hk]. exists (Some (a, p)), ps'. split; [done|]. destruct Hres as (Hp & s & o & Hr & Ha & _).
    exists s, o, type'. split; [done|]. split; [done|]. split; [done|]. split; [done|]. by apply (candidate_size l Hl Hpages Hoff Hpol type' size p s o ps' Hp Hsize (proj1 Hr)). }
  assert (Hlast : forall type' ps, type' ∈ kinds_of type -> exists res ps', find_protectable_free l junk type' size ps m u = Some (res, ps') /\
    match res with Some (a, p) => exists s o type', found type size a p ps' s o type' m u | None => True end).
  { intros type' ps0 Hin. destruct (Hone type' ps0 (fun ps => Some (None, ps)) Hin ltac:(intros ps1; by exists None, ps1)) as (res & ps' & E & Hres). exists res, ps'. split; [|done].
    rewrite <- E. destruct (find_protectable_free l junk type' size ps0 m u) as [[[?|] ?]|]; done. }
  unfold find_memory. assert (Hrest : forall ps, exists res ps', or_else (find_protectable_free l junk type size ps m u) (fun ps => or_else (find_protectable_free l junk (Z.lor type MEM_FLAG_IS_EXTERNAL) size ps m u)
      (fun ps => find_protectable_free l junk (Z.lor type MEM_FLAG_IS_TIGHTLY_COUPLED) size ps m u)) = Some (res, ps') /\ match res with Some (a, p) => exists s o type', found type size a p ps' s o type' m u | None => True end).
  { intros ps0. apply Hone; [left|]. intros ps1. apply Hone; [right; left|]. intros ps2. apply Hlast. right; right; left. }
  cbv zeta. destruct (Bits.any flags APPFS_FLAG_IS_DATA_EXTERNAL); [apply Hone; [right; left|exact Hrest]|].
  destruct (Bits.any flags APPFS_FLAG_IS_DATA_TIGHTLY_COUPLED); [apply Hone; [right; right; left|exact Hrest]|exact (Hrest ps)].
Qed.

Lemma ram_page_count_id n : 0 <= n < 2 ^ 30 -> ram_page_count n = (n + MCU_RAM_PAGE_SIZE - 1) / MCU_RAM_PAGE_SIZE /\ 0 <= ram_page_count n <= 2 ^ 30.
Proof using Hps.
  intros Hn. unfold ram_page_count. rewrite (u32_id n), u32_id by lia. split; [done|]. split; [apply Z.div_pos; lia|apply Z.div_le_upper_bound; nia].
Qed.
Lemma page_count_lt n k : 0 <= n < 2 ^ 30 -> 0 <= k -> k < ram_page_count n <-> k * MCU_RAM_PAGE_SIZE < n.
Proof using Hps.
  intros Hn Hk. destruct (ram_page_count_id n Hn) as [-> _]. set (z := MCU_RAM_PAGE_SIZE) in *. pose proof (Z.div_mod (n + z - 1) z ltac:(lia)). pose proof (Z.mod_pos_bound (n + z - 1) z ltac:(lia)). nia.
Qed.
(** The pages of RAM that are found are free in the table. *)
Lemma found_in_table size a p ps s o type' m u k : found MEM_FLAG_IS_RAM size a p ps s o type' m u -> 0 <= k -> k * MCU_RAM_PAGE_SIZE < ps ->
  get_page_usage u (p + k) = APPFS_MEMPAGETYPE_FREE /\ p + k < get_memory_page_count l MEM_FLAG_IS_RAM /\ p + k < 2 ^ 31 /\ sec_page_size s = MCU_RAM_PAGE_SIZE.
Proof using Hl Hpages Hram.
  intros (Hin & Hp & [Hc Hfree] & _) Hk Hkp. pose proof Hc as (E & Hfl & _). destruct (section_from_in _ _ _ _ _ _ E) as [Hs _].
  assert (Hkind : Bits.any type' MEM_FLAG_IS_RAM = true /\ (type' =? MEM_FLAG_IS_FLASH) = false) by (repeat (apply elem_of_cons in Hin as [->|Hin]; [split; reflexivity|]); by apply elem_of_nil in Hin).
  rewrite <- Hfl in Hkind. destruct Hkind as [Hkr Hkf]. pose proof (Hram s Hs Hkr) as Hz. destruct (Hfree k Hk ltac:(by rewrite Hz)) as [Hok Hty].
  pose proof (section_from_room type' l 0 p s o Hl ltac:(lia) ltac:(lia) E) as Hroom. unfold page_type_of in Hty. rewrite Hfl in Hkf. rewrite Hkf in Hty.
  unfold appfs_ram_root_get in Hty. rewrite (u32_id (p + k)) in Hty by lia. destruct (Z.ltb_spec (p + k) (get_memory_page_count l MEM_FLAG_IS_RAM)); [|done]. split; [done|]. split; [done|]. split; [lia|done].
Qed.
(** Marking no more than was found leaves the pages of other programs alone. *)
Lemma set_found size a p ps s o type' m u n t v : found MEM_FLAG_IS_RAM size a p ps s o type' m u -> 0 < n <= Z.max ps MCU_RAM_PAGE_SIZE -> size < 2 ^ 29 -> 0 <= t < 4 -> forall q, 0 <= q ->
  get_page_usage (appfs_ram_root_set l p n t v) q = if (p <=? q) && ((q - p) * MCU_RAM_PAGE_SIZE <? n) then t else get_page_usage v q.
Proof using Hl Hpages Hram Hps.
  intros Hf Hn Hsize Ht q Hq. pose proof Hf as (_ & Hp & _ & _ & Hb). assert (Hps0 : 0 < ps) by lia. destruct (found_in_table size a p ps s o type' m u 0 Hf ltac:(lia) ltac:(lia)) as (_ & Hc0 & H31 & _).
  rewrite Z.add_0_r in Hc0, H31. destruct (ram_page_count_id n ltac:(lia)) as [_ Hcnt]. rewrite ram_root_set_spec by (rewrite ?u32_id; lia).
  rewrite (proj2 (Z.ltb_lt p _)) by lia. change 3 with (Z.ones 2). rewrite Z.land_ones, (Z.mod_small t) by lia. cbn [andb]. destruct (Z.leb_spec p q); cbn [andb]; [|done].
  pose proof (page_count_lt n (q - p) ltac:(lia) ltac:(lia)) as Hiff. destruct (Z.ltb_spec ((q - p) * MCU_RAM_PAGE_SIZE) n), (Z.ltb_spec q (p + ram_page_count n)); try done; exfalso; lia.
Qed.
Lemma mark_found size a p ps s o type' m u n t v : found MEM_FLAG_IS_RAM size a p ps s o type' m u -> 0 < n <= Z.max ps MCU_RAM_PAGE_SIZE -> size < 2 ^ 29 -> 0 <= t < 4 -> forall q, 0 <= q ->
  get_page_usage u q <> APPFS_MEMPAGETYPE_FREE -> get_page_usage (appfs_ram_root_set l p n t v) q = get_page_usage v q.
Proof using Hl Hpages Hram Hps.
  intros Hf Hn Hsize Ht q Hq Hne. rewrite (set_found size a p ps s o type' m u n t v Hf Hn Hsize Ht q Hq). destruct (Z.leb_spec p q); cbn [andb]; [|done].
  destruct (Z.ltb_spec ((q - p) * MCU_RAM_PAGE_SIZE) n); [|done]. exfalso. apply Hne.
  pose proof Hf as (_ & _ & _ & _ & Hb). assert (Hlt : (q - p) * MCU_RAM_PAGE_SIZE < ps).
  { destruct (decide (n <= ps)); [lia|]. assert (q - p = 0) as -> by (assert ((q - p) * MCU_RAM_PAGE_SIZE < 1 * MCU_RAM_PAGE_SIZE) as Hq1%Z.mul_lt_mono_pos_r by lia; lia). lia. }
  destruct (found_in_table size a p ps s o type' m u (q - p) Hf ltac:(lia) Hlt) as [Hfree _]. by replace (p + (q - p)) with q in Hfree by lia.
Qed.
Lemma translate_value_err addr mask cs ds total : 0 <= total -> 0 <= (translate_value addr mask cs ds total).2.
Proof using.
  intros Ht. unfold translate_value. destruct (_ =? mask); [|done]. destruct (_ && _); [|by destruct (Bits.any _ _)]. destruct (_ <? total); [|done]. cbn [snd].
  destruct (_ =? 0); [|done]. apply Z.shiftr_nonneg, Z.land_nonneg. by right.
Qed.
Lemma translate_words_err mask cs ds total src : 0 <= total -> forall n i dest, 0 <= (translate_words n i mask cs ds total src dest).2.
Proof using.
  intros Ht. induction n as [|n IH]; intros i dest; cbn [translate_words]; [done|]. pose proof (translate_value_err (load32 src (4 * i)) mask cs ds total Ht) as Hv.
  destruct (translate_value _ _ _ _ _) as [v e]. by destruct (e =? 0).
Qed.
Lemma symbols_total_nonneg : 0 <= symbols_total.
Proof using. unfold symbols_total. induction symbols as [|x t IH]; cbn [symbols_before_end]; [done|]. destruct (x =? 1); lia. Qed.
Lemma s32_size a : 0 <= a < 2 ^ 29 -> s32 a = a /\ u32 (s32 a) = a.
Proof using. intros H. rewrite s32_id, u32_id by lia. done. Qed.
Lemma translate_words_agree mask cs ds total src b : forall n i dest, b <= 4 * i -> agree 0 b dest (translate_words n i mask cs ds total src dest).1.
Proof using.
  induction n as [|n IH]; intros i dest Hi; cbn [translate_words]; [done|]. destruct (translate_value _ _ _ _ _) as [v e].
  assert (A : agree 0 b dest (store32 (4 * i) v dest)) by (apply store32_agree; lia).
  destruct (e =? 0); [|exact A]. etrans; [exact A|]. apply IH. lia.
Qed.
(** The words of the header that name the memory of the program. *)
Lemma header_words ps ds cs v dest d3 :
  agree 0 84 (store32 52 v (store32 68 ps (store32 64 ds (store32 56 cs dest)))) d3 ->
  exec_ram_start d3 0 = u32 ds /\ exec_ram_size d3 0 = u32 ps /\ exec_code_start d3 0 = u32 cs.
Proof using.
  intros A. unfold exec_ram_start, exec_ram_size, exec_code_start. rewrite !(load32_agree _ _ 0 84 _ A) by lia.
  set (d0 := store32 56 cs dest). set (d1 := store32 64 ds d0). set (d2 := store32 68 ps d1).
  assert (A2 : agree 56 84 d2 (store32 52 v d2)) by (apply store32_agree; lia).
  rewrite !(load32_agree _ _ 56 84 _ A2) by lia. split_and!.
  - rewrite (load32_agree d1 d2 0 68) by (lia || (apply store32_agree; lia)). apply load32_store32_eq.
  - apply load32_store32_eq.
  - rewrite (load32_agree d1 d2 0 68), (load32_agree d0 d1 0 64) by (lia || (apply store32_agree; lia)). apply load32_store32_eq.
Qed.
(** C26: An install takes free memory only, for a program whose code with its data, and whose memory, are each smaller than 2^29 bytes, the memory
    at least 32.  The search for memory always ends; when the header is accepted, every page of RAM that was in use
    is as it was, the data of the program lies in a region that was free and that the memory protection can cover, its first bytes up to
    the size asked for are marked, the handle and the header that is written name it, and the size in the header is that of the whole
    region.  The rest of the region stays free in the table. *)
Theorem install_takes_free_memory (h : appfs_util_handle_t C) attr m u :
  exec_code_size (ia_buffer attr) 0 + exec_data_size (ia_buffer attr) 0 < 2 ^ 29 -> 32 <= exec_ram_size (ia_buffer attr) 0 < 2 ^ 29 ->
  exists u' r, install_header l junk h attr m u = Some (u', r) /\
  match r with
  | inl e => e < 0
  | inr (h', dest) =>
      (forall q, 0 <= q -> get_page_usage u q <> APPFS_MEMPAGETYPE_FREE -> get_page_usage u' q = get_page_usage u q) /\
      exists p ps s o type' u1, found MEM_FLAG_IS_RAM (exec_ram_size (ia_buffer attr) 0) (ih_data_start h') p ps s o type' m u1 /\
        (forall q, 0 <= q -> get_page_usage u q <> APPFS_MEMPAGETYPE_FREE -> get_page_usage u1 q = get_page_usage u q) /\
        exec_ram_start dest 0 = u32 (ih_data_start h') /\ exec_ram_size dest 0 = ps /\ exec_code_start dest 0 = u32 (ih_code_start h') /\
        forall k, 0 <= k -> k * MCU_RAM_PAGE_SIZE < ps ->
          get_page_usage u' (p + k) = if k * MCU_RAM_PAGE_SIZE <? exec_ram_size (ia_buffer attr) 0 then APPFS_MEMPAGETYPE_SYS else APPFS_MEMPAGETYPE_FREE
  end.
Proof using Hl Hpages Hsmall Hoff Hpol Hps Hram.
  set (src := ia_buffer attr). intros Hcode Hrs. unfold install_header. fold src. cbv zeta.
  destruct (appfs_util_is_executable _); cbn [negb]; [|by eexists _, (inl _)].
  assert (Hcs : 0 <= exec_code_size src 0 + exec_data_size src 0 < 2 ^ 29).
  { pose proof (load32_range src (0 + 60)). pose proof (load32_range src (0 + 72)). unfold exec_code_size, exec_data_size in *. lia. }
  set (code := exec_code_size src 0 + exec_data_size src 0) in *. set (ram := exec_ram_size src 0) in *. clearbody code ram. clear Hcode.
  destruct (s32_size code Hcs) as [E1 E1']. destruct (s32_size ram ltac:(lia)) as [E2 E2']. rewrite E1', E2', E1, E2. set (flags := exec_o_flags src 0). clearbody flags.
  set (in_flash := Bits.any flags APPFS_FLAG_IS_FLASH). clearbody in_flash.
  destruct (find_memory_spec flags (if in_flash then MEM_FLAG_IS_FLASH else MEM_FLAG_IS_RAM) code 0 m u ltac:(destruct in_flash; [by right|by left]) Hcs) as (res & ps & -> & Hres).
  destruct res as [[ca cp]|]; [|by eexists _, (inl _)].
  set (u1 := if in_flash then u else _).
  assert (Hu1 : forall q, 0 <= q -> get_page_usage u q <> APPFS_MEMPAGETYPE_FREE -> get_page_usage u1 q = get_page_usage u q).
  { unfold u1. destruct in_flash; [done|]. destruct Hres as (s & o & type' & Hf). pose proof Hf as (_ & Hcp & [Hc _] & _ & Hb).
    destruct (candidate_size l Hl Hpages Hoff Hpol type' code cp s o ps Hcp Hcs Hc) as [_ H32].
    intros q Hq Hne. rewrite (mark_found code ca cp ps s o type' m u MCU_RAM_PAGE_SIZE) by (done || lia). by rewrite (mark_found code ca cp ps s o type' m u ps) by (done || lia). }
  clearbody u1. destruct (find_memory_spec flags MEM_FLAG_IS_RAM ram ps m u1 ltac:(by left) ltac:(lia)) as (res2 & ps2 & -> & Hres2).
  destruct res2 as [[da dp]|]; [|by eexists _, (inl _)]. destruct Hres2 as (s2 & o2 & type2 & Hf2). pose proof Hf2 as (_ & _ & _ & _ & Hb2).
  pose proof (mark_found ram da dp ps2 s2 o2 type2 m u1 ram APPFS_MEMPAGETYPE_SYS u1 Hf2 ltac:(lia) ltac:(lia) ltac:(done)) as Hkeep.
  pose proof (set_found ram da dp ps2 s2 o2 type2 m u1 ram APPFS_MEMPAGETYPE_SYS u1 Hf2 ltac:(lia) ltac:(lia) ltac:(done)) as Hmark. pose proof Hf2 as (_ & Hdp & _).
  match goal with |- context [translate_words ?n ?i ?a ?b ?c ?d ?e ?f] => pose proof (translate_words_err a b c d e symbols_total_nonneg n i f) as Herr;
    pose proof (header_words _ _ _ _ _ _ (translate_words_agree a b c d e 84 n i f ltac:(lia))) as (Hw1 & Hw2 & Hw3); destruct (translate_words n i a b c d e f) as [dest' loc_err] end.
  destruct (Z.eqb_spec loc_err 0) as [|Hloc].
  2: { eexists _, (inl _). split; [reflexivity|]. cbn [snd] in Herr. assert (0 <= Z.lor EIO (Z.shiftl loc_err 8)) by (apply Z.lor_nonneg; split; [done|apply Z.shiftl_nonneg; done]).
       assert (Z.lor EIO (Z.shiftl loc_err 8) <> 0) by (intros E0%Z.lor_eq_0_iff; by destruct E0). lia. }
  eexists _, (inr _). split; [reflexivity|]. cbn [ih_data_start ih_code_start fst] in *. split.
  - intros q Hq Hne. rewrite Hkeep; [by apply Hu1|done|]. by rewrite Hu1.
  - exists dp, ps2, s2, o2, type2, u1. split; [done|]. split; [done|]. split; [done|]. split; [rewrite Hw2; apply u32_id; lia|]. split; [done|]. intros k Hk Hkp. rewrite Hmark, (proj2 (Z.leb_le dp (dp + k))) by lia. replace (dp + k - dp) with k by lia. cbn [andb].
    destruct (found_in_table ram da dp ps2 s2 o2 type2 m u1 k Hf2 Hk Hkp) as [-> _]. done.
Qed.
End Taken.

#[local] Instance ram_page : PageSize := {| MCU_RAM_PAGE_SIZE := 1024 |}.
Lemma board_small s : s ∈ board_sections -> sec_page_size s * sec_count s < 2 ^ 31.
Proof. intros H. repeat (apply elem_of_cons in H as [->|H]; [vm_compute; reflexivity|]). set_solver. Qed.
Lemma found_memory_is_free_witness : exists res ps', find_protectable_free (CP := board) board_sections (fun _ => 0) MEM_FLAG_IS_RAM 5000 0 (fun _ => 255) (fun _ => 0) = Some (res, ps') /\
  match res with
  | Some (a, p) => 0 <= p /\ exists s o, room (CP := board) board_sections (fun _ => 0) MEM_FLAG_IS_RAM 5000 p s o ps' (fun _ => 255) (fun _ => 0) /\
      a = sec_address s + o * sec_page_size s /\ 5000 <= ps' < 2 * 5000 /\
      forall q s' o' r', 0 <= q < p -> ~ room (CP := board) board_sections (fun _ => 0) MEM_FLAG_IS_RAM 5000 q s' o' r' (fun _ => 255) (fun _ => 0)
  | None => forall q s' o' r', 0 <= q -> ~ room (CP := board) board_sections (fun _ => 0) MEM_FLAG_IS_RAM 5000 q s' o' r' (fun _ => 255) (fun _ => 0)
  end.
Proof.
  assert (Ho : 0 <= task_mpu_region_offset (MpuConfig := board) <= 8) by (cbn; lia). assert (Hq : Bits.any MEM_FLAG_IS_RAM MEM_FLAG_IS_QUERY = false) by reflexivity.
  assert (Hs : 0 <= 5000 < 2 ^ 29) by lia. assert (Hp : all_pages board_sections < 2 ^ 31) by reflexivity.
  exact (found_memory_is_free (CP := board) board_sections (fun _ => 0) board_sections_ok Hp board_small Ho board_policy MEM_FLAG_IS_RAM 5000 0 (fun _ => 255) (fun _ => 0) Hq Hs).
Defined.
#[local] Instance kernel_symbols : Symbols := {| symbols := [0x3000; 0x08000101; 0x08000205; 1] |}.
(** The first page of a program that asks for [ram] bytes. *)
Definition program (flags code ram : Z) : appfs_installattr_t :=
  mk_attr 0 256 (store32 80 0x3000 (store32 76 flags (store32 72 0 (store32 68 ram (store32 60 code (store32 56 0xDE000000 (store_string 0 (String.list_ascii_of_string "app") (fun _ => 0)))))))).
Definition new_handle : appfs_util_handle_t unit := mk_install 0 0 0 0 0 0 tt attr0.
Lemma board_ram_pages s : s ∈ board_sections -> Bits.any (sec_flags s) MEM_FLAG_IS_RAM = true -> sec_page_size s = MCU_RAM_PAGE_SIZE.
Proof. intros H. repeat (apply elem_of_cons in H as [->|H]; [vm_compute; congruence|]). by apply elem_of_nil in H. Qed.

Lemma install_takes_free_memory_witness :
  exists u' r, install_header (CP := board) board_sections (fun _ => 0) new_handle (program APPFS_FLAG_IS_FLASH 3000 5000) (fun _ => 255) (fun _ => 0) = Some (u', r) /\
  match r with
  | inl e => e < 0
  | inr (h', dest) =>
      (forall q, 0 <= q -> get_page_usage (fun _ => 0) q <> APPFS_MEMPAGETYPE_FREE -> get_page_usage u' q = get_page_usage (fun _ => 0) q) /\
      exists p ps s o type' u1, found (CP := board) board_sections (fun _ => 0) MEM_FLAG_IS_RAM (exec_ram_size (ia_buffer (program APPFS_FLAG_IS_FLASH 3000 5000)) 0) (ih_data_start h') p ps s o type' (fun _ => 255) u1 /\
        (forall q, 0 <= q -> get_page_usage (fun _ => 0) q <> APPFS_MEMPAGETYPE_FREE -> get_page_usage u1 q = get_page_usage (fun _ => 0) q) /\
        exec_ram_start dest 0 = u32 (ih_data_start h') /\ exec_ram_size dest 0 = ps /\ exec_code_start dest 0 = u32 (ih_code_start h') /\
        forall k, 0 <= k -> k * MCU_RAM_PAGE_SIZE < ps ->
          get_page_usage u' (p + k) = if k * MCU_RAM_PAGE_SIZE <? exec_ram_size (ia_buffer (program APPFS_FLAG_IS_FLASH 3000 5000)) 0 then APPFS_MEMPAGETYPE_SYS else APPFS_MEMPAGETYPE_FREE
  end.
Proof.
  assert (Ho : 0 <= task_mpu_region_offset (MpuConfig := board) <= 8) by (cbn; lia). assert (Hp : all_pages board_sections < 2 ^ 31) by reflexivity. assert (Hs : 0 < MCU_RAM_PAGE_SIZE <= 2 ^ 16) by (cbn; lia).
  assert (Hc : exec_code_size (ia_buffer (program APPFS_FLAG_IS_FLASH 3000 5000)) 0 + exec_data_size (ia_buffer (program APPFS_FLAG_IS_FLASH 3000 5000)) 0 < 2 ^ 29) by (vm_compute; reflexivity).
  assert (Hr : 32 <= exec_ram_size (ia_buffer (program APPFS_FLAG_IS_FLASH 3000 5000)) 0 < 2 ^ 29) by (split; vm_compute; congruence).
  exact (install_takes_free_memory (CP := board) board_sections (fun _ => 0) board_sections_ok Hp board_small Ho board_policy Hs board_ram_pages new_handle _ (fun _ => 255) (fun _ => 0) Hc Hr).
Defined.

(** *** Where installing goes wrong *)

Definition install (attr : appfs_installattr_t) (u : usage) : option (usage * (Z + Z * Z)) :=
  match install_header (CP := board) board_sections (fun _ => 0) new_handle attr (fun _ => 255) u with
  | Some (u, inl e) => Some (u, inl e)
  | Some (u, inr (h, dest)) => Some (u, inr (exec_ram_start dest 0, exec_ram_size dest 0))
  | None => None
  end.
(** The region of a program is larger than what is marked: the next program gets memory the first one may write. *)
Theorem programs_overlap :
  match install (program APPFS_FLAG_IS_FLASH 3000 17408) (fun _ => 0) with
  | Some (u, inr (a, n)) => match install (program APPFS_FLAG_IS_FLASH 3000 1024) u with Some (_, inr (b, _)) => (a, n, b) = (0x20008000, 20480, 0x2000C400) | _ => False end
  | _ => False
  end.
Proof. vm_compute. reflexivity. Qed.
(** When there is no memory for the data, the code is freed with the size of the last region looked at: pages 1 to 31, which belonged to
    another program, are free afterwards. *)
Theorem failed_install_frees_others :
  let u := set_page_usage 0 APPFS_MEMPAGETYPE_FREE (fun _ => 0x55555555) in
  match install (program 0 1024 32768) u with
  | Some (u', inl e) => SYSFS_GET_RETURN_ERRNO e = ENOSPC /\ get_page_usage u 31 = APPFS_MEMPAGETYPE_SYS /\ get_page_usage u' 31 = APPFS_MEMPAGETYPE_FREE /\ get_page_usage u' 32 = APPFS_MEMPAGETYPE_SYS
  | _ => False
  end.
Proof. vm_compute. done. Qed.
Section Writes.
Context {FD : FlashDriver} {PS : PageSize} {CP : MpuConfig} {SY : Symbols} {C : Type} (l : list appfs_mem_section_t) (junk : mem).
(** The position of a page is added to its size without a test for overflow: the bytes before the program can be written. *)
Theorem page_before_program (h : appfs_util_handle_t C) n b m : 0 < n <= ih_code_start h -> ih_code_start h < 2 ^ 32 ->
  appfs_util_root_mem_write_page l junk h (mk_attr (2 ^ 32 - n) n b) m = appfs_mem_writepage l (ih_code_start h - n) n (write_page_buf junk b) m.
Proof.
  intros Hn Hs. unfold appfs_util_root_mem_write_page. cbn [ia_loc ia_nbyte ia_buffer]. replace (2 ^ 32 - n + n) with (2 ^ 32) by lia. change (u32 (2 ^ 32)) with 0.
  pose proof (u32_range (ih_code_size h + ih_data_size h)). rewrite (proj2 (Z.ltb_ge _ 0)) by lia. replace (ih_code_start h + (2 ^ 32 - n)) with (ih_code_start h - n + 1 * 2 ^ 32) by ring.
  unfold u32. rewrite Z.mod_add, Z.mod_small by lia. done.
Qed.
(** A data file written in a larger page: behind the first 256 bytes the file gets what the stack holds. *)
Theorem large_page_stores_stack n b : 256 < n -> forall i, 256 <= i < n -> load8 (write_page_buf junk b) i = load8 junk i.
Proof. intros Hn i Hi. unfold write_page_buf. rewrite copy_out_load, (proj2 (Z.ltb_ge i 256)), andb_false_r by lia. done. Qed.
(** A page larger than the buffer is copied to the stack of the kernel. *)
Theorem page_overruns_stack (h : appfs_util_handle_t C) attr m u : ia_loc attr <> 0 -> Z.land (ia_loc attr) 3 = 0 -> APPFS_PAGE_SIZE < ia_nbyte attr ->
  appfs_util_root_writeinstall l junk h attr m u = None.
Proof.
  intros H0 H3 Hn. unfold appfs_util_root_writeinstall. rewrite (proj2 (Z.eqb_neq _ 0) H0), H3. change (0 =? 0) with true. cbn [negb]. by rewrite (proj2 (Z.ltb_lt _ _) Hn).
Qed.
(** The bytes behind the last whole word are not translated and not copied either: what the stack held is written. *)
Theorem last_bytes_are_junk (h : appfs_util_handle_t C) attr m u : ia_loc attr <> 0 -> Z.land (ia_loc attr) 3 = 0 -> 0 < ia_nbyte attr < 4 ->
  exists m' attr' r, appfs_util_root_writeinstall l junk h attr m u = Some (m', u, h, attr', r) /\ forall i, 0 <= i < ia_nbyte attr -> load8 (ia_buffer attr') i = load8 junk i.
Proof.
  intros H0 H3 Hn. unfold appfs_util_root_writeinstall. rewrite (proj2 (Z.eqb_neq _ 0) H0), H3. change (0 =? 0) with true. cbn [negb]. rewrite (proj2 (Z.ltb_ge APPFS_PAGE_SIZE _)) by (unfold APPFS_PAGE_SIZE; lia).
  rewrite (Z.shiftr_div_pow2 (ia_nbyte attr) 2), Z.div_small by lia. change (Z.to_nat 0) with O. cbn [translate_words]. change (0 =? 0) with true. cbn [negb]. set (attr' := mk_attr (ia_loc attr) (ia_nbyte attr) (copy_out junk 0 (ia_nbyte attr) (ia_buffer attr))).
  destruct (appfs_util_root_mem_write_page l junk h attr' m) as [m' r]. exists m', attr', r. split; [done|]. intros i Hi. unfold attr'. cbn [ia_buffer].
  rewrite copy_out_load, (proj2 (Z.leb_le 0 i)), (proj2 (Z.ltb_lt i (ia_nbyte attr))) by lia. done.
Qed.
End Writes.
Lemma relocation_correct_witness :
  (forall x, 0 <= x < 2 ^ 24 -> translate_value (0xDE000000 + x) 0xDE000000 0x08010000 0x20008000 3 = (u32 (x + 0x08010000), 0)) /\
  (forall x, 0 <= x < 2 ^ 24 - 2 ^ 15 -> translate_value (0xDE000000 + 2 ^ 24 + x) 0xDE000000 0x08010000 0x20008000 3 = (u32 (x + 0x20008000), 0)) /\
  (forall i, 0 <= i < 3 -> symbols_table i <> 0 -> translate_value (0xDE000000 + 2 ^ 25 - 2 ^ 15 + 4 * i + 1) 0xDE000000 0x08010000 0x20008000 3 = (symbols_table i, 0)) /\
  (forall v, 0 <= v < 2 ^ 32 -> v < 0xDE000000 \/ 0xDE000000 + 2 ^ 25 <= v -> translate_value v 0xDE000000 0x08010000 0x20008000 3 = (v, 0)).
Proof. apply relocation_correct; [lia|lia|reflexivity|lia]. Defined.
