(* ===== verification/Appfiles.v ===== *)
(** * The application file system

    [src/sys/sysfs/appfs.c]: paths, open files, reading, deleting, the calls that install programs and
    verify their signature, and what happens when the system starts.  Memory is found and written by
    [Appfs].

    The hash, the signatures and the keys are code the system asks for at run time, the class [Crypt];
    [CONFIG_APPFS_IS_VERIFY_SIGNATURE] is on, as in the configuration. *)
From Stdlib Require Import Ascii.
From S2P Require Import Prelude Memory Mpu Pages Paths Appfs.

Definition EROFS : Z := 30.
Definition ANALYZE_PATH_NOENT : Z := -1.
Definition ANALYZE_PATH_ROOT : Z := 0.
Definition ANALYZE_PATH_INSTALL : Z := 1.
Definition ANALYZE_PATH_FLASH : Z := 2.
Definition ANALYZE_PATH_FLASH_DIR : Z := 3.
Definition ANALYZE_PATH_RAM : Z := 4.
Definition ANALYZE_PATH_RAM_DIR : Z := 5.

Record appfs_public_key_t := mk_key { pk_value : list Z; pk_o_flags : Z }.
Class Crypt := {
  sha256_context : Type;
  sha256_start : sha256_context;
  sha256_update : mem -> Z -> sha256_context -> sha256_context;
  sha256_finish : sha256_context -> list Z;
  dsa_verify : list Z -> list Z -> list Z -> Z;
  get_public_key : Z -> appfs_public_key_t -> appfs_public_key_t * Z }.

Record appfs_reg_handle_t := mk_reg { rh_beg_addr : Z; rh_size : Z; rh_page : Z; rh_o_flags : Z; rh_mode : Z }.
Inductive appfs_handle_t {CR : Crypt} := Handle_install (h : appfs_util_handle_t sha256_context) | Handle_reg (h : appfs_reg_handle_t).
Arguments appfs_handle_t : clear implicits.
Record appfs_stat_t := mk_appstat { as_dev : Z; as_ino : Z; as_blksize : Z; as_size : Z; as_blocks : Z; as_mode : Z }.
Definition appstat0 : appfs_stat_t := mk_appstat 0 0 0 0 0 0.
Record appfs_t := mk_fs { fs_mem : mem; fs_usage : usage }.

Definition str (s : String.string) : path := String.list_ascii_of_string s.

(** ** Paths *)

Section Names.
Context {L : PosixLimits}.
(** The kind of path, the name and the kind of memory, where it is set. *)
Definition analyze_path (after p : path) : Z * path * option Z :=
  match sysfs_ispathinvalid after p with
  | Some _ => (-1, p, None)
  | None =>
      let '(name, elements) := sysfs_getfilename p in
      if bool_decide (name = []) then (ANALYZE_PATH_ROOT, name, None)
      else if elements =? 1 then
        if strncmp_eq name (str ".install") APPFS_NAME_MAX then (ANALYZE_PATH_INSTALL, name, None)
        else if strncmp_eq name (str "flash") APPFS_NAME_MAX then (ANALYZE_PATH_FLASH_DIR, name, None)
        else if strncmp_eq name (str "ram") APPFS_NAME_MAX then (ANALYZE_PATH_RAM_DIR, name, None)
        else (ANALYZE_PATH_NOENT, name, None)
      else if elements =? 2 then
        if strncmp_eq p (str "flash/") 6 then (ANALYZE_PATH_FLASH, name, Some MEM_FLAG_IS_FLASH)
        else if strncmp_eq p (str "ram/") 4 then (ANALYZE_PATH_RAM, name, Some MEM_FLAG_IS_RAM)
        else (-1, name, None)
      else if 2 <? elements then (ANALYZE_PATH_NOENT, name, None)
      else (-1, name, None)
  end.
End Names.

Section Files.
Context {L : PosixLimits} {FD : FlashDriver} {PS : PageSize} {CP : MpuConfig} {SY : Symbols} {CR : Crypt} (l : list appfs_mem_section_t) (junk : mem).

(** ** Start of the system *)

(** The processes that are created: where they start and their memories; [create] is
    [scheduler_create_process]. *)
Definition appfs_startup (create : Z -> task_memories_t -> Z) (uninit : task_memories_t) (fs : appfs_t) : list (Z * task_memories_t) * Z :=
  for_range 0 (get_memory_page_count l MEM_FLAG_IS_FLASH)
    (fun i '(calls, started) =>
       let '(file, _, type) := appfs_util_root_get_fileinfo l junk junk i MEM_FLAG_IS_FLASH 0 (fs_mem fs) (fs_usage fs) in
       let flags := exec_o_flags file 0 in
       if (type =? APPFS_MEMPAGETYPE_USER) && appfs_util_is_executable (exec_signature file 0) && Bits.any flags APPFS_FLAG_IS_STARTUP then
         let memories := mk_memories (mk_memory (exec_code_start file 0) (exec_code_size file 0) (appfs_util_get_code_mpu_type flags) (tm_rbar (tm_code uninit)) (tm_rasr (tm_code uninit)))
                                     (mk_memory (exec_ram_start file 0) (exec_ram_size file 0) (appfs_util_get_data_mpu_type flags) (tm_rbar (tm_data uninit)) (tm_rasr (tm_data uninit)))
                                     (tm_stackguard uninit) in
         (calls ++ [(exec_startup file 0, memories)], if 0 <=? create (exec_startup file 0) memories then started + 1 else started)
       else (calls, started)) ([], 0).

(** ** Files *)

Definition install_handle0 : appfs_util_handle_t sha256_context := mk_install 0 0 0 0 0 0 sha256_start attr0.
(** [alloc] is whether [malloc] succeeds.  The handle, and what is returned. *)
Definition appfs_open (alloc : bool) (after p : path) (flags : Z) (fs : appfs_t) : option (option (appfs_handle_t CR) * Z) :=
  let '(path_type, name, mem_type) := analyze_path after p in
  if path_type <? 0 then Some (None, SYSFS_SET_RETURN 193 ENOENT)
  else if negb alloc then Some (None, -1)
  else if path_type =? ANALYZE_PATH_INSTALL then
    if negb (Z.land flags O_ACCMODE =? O_WRONLY) then Some (None, SYSFS_SET_RETURN 207 EINVAL) else Some (Some (Handle_install install_handle0), 0)
  else if (path_type =? ANALYZE_PATH_RAM) || (path_type =? ANALYZE_PATH_FLASH) then
    if negb (Z.land flags O_ACCMODE =? O_RDONLY) then Some (None, SYSFS_SET_RETURN 237 EROFS)
    else match appfs_util_lookupname l junk name (default 0 mem_type) (fs_mem fs) (fs_usage fs) with
         | None => None
         | Some (inr (file, info, size)) => Some (Some (Handle_reg (mk_reg (pi_addr info) (u32 size) (pi_num info) (pi_flags info) (hdr_mode file 0))), 0)
         | Some (inl e) => if e =? 0 then None else Some (None, SYSFS_SET_RETURN 260 ENOENT)
         end
  else Some (None, SYSFS_SET_RETURN 241 ENOENT).


Definition appfs_fstat (h : appfs_handle_t CR) (fs : appfs_t) : appfs_stat_t * Z :=
  match h with
  | Handle_install _ => (mk_appstat 0 0 0 0 0 (Z.lor 0x6000 0x92), 0)
  | Handle_reg h =>
      let '(file, size, result) := appfs_util_root_get_fileinfo l junk junk (rh_page h) (s32 (rh_o_flags h)) 0 (fs_mem fs) (fs_usage fs) in
      if result <? 0 then (appstat0, SYSFS_SET_RETURN 391 EIO)
      else let size := if hdr_mode file 0 =? 0x124 then s32 (size - sizeof_appfs_file) else size in
           (mk_appstat (rh_o_flags h) (rh_page h) MCU_RAM_PAGE_SIZE size 1 (Z.lor (hdr_mode file 0) 0x8000), 0)
  end.
Definition appfs_stat (after p : path) (st : appfs_stat_t) (fs : appfs_t) : option (appfs_stat_t * Z) :=
  let '(path_type, name, mem_type) := analyze_path after p in
  if path_type <? 0 then Some (st, SYSFS_SET_RETURN 421 ENOENT)
  else if (path_type =? ANALYZE_PATH_ROOT) || (path_type =? ANALYZE_PATH_FLASH_DIR) || (path_type =? ANALYZE_PATH_RAM_DIR)
  then Some (mk_appstat 0 0 0 0 1 (Z.lor 0x4000 0x1FF), 0)
  else if path_type =? ANALYZE_PATH_INSTALL then Some (appfs_fstat (Handle_install install_handle0) fs)
  else match appfs_util_lookupname l junk name (default 0 mem_type) (fs_mem fs) (fs_usage fs) with
       | None => None
       | Some (inl e) => if e <? 0 then Some (appstat0, SYSFS_SET_RETURN 448 ENOENT) else None
       | Some (inr (file, info, size)) =>
           let size := if hdr_mode file 0 =? 0x124 then s32 (size - sizeof_appfs_file) else size in
           Some (appfs_fstat (Handle_reg (mk_reg (pi_addr info) (u32 size) (pi_num info) (pi_flags info) (hdr_mode file 0))) fs)
       end.

(** [readable] is whether the user may read the device, [valid] what [task_validate_memory] says of the
    buffer.  What is read goes to [buf]. *)
Definition appfs_read (readable valid : bool) (h : appfs_reg_handle_t) (loc nbyte : Z) (buf : mem) (fs : appfs_t) : option (mem * Z) :=
  if negb readable then Some (buf, SYSFS_SET_RETURN 476 EPERM)
  else let result := if valid then 0 else SYSFS_SET_RETURN 489 EPERM in
       let loc := if Z.land (rh_mode h) 0x49 =? 0 then s32 (loc + sizeof_appfs_file) else loc in
       if s32 (rh_size h) <=? loc then let result := 0 in Some (buf, result)
       else let nbyte := if s32 (rh_size h) <=? s32 (loc + nbyte) then s32 (rh_size h - loc) else nbyte in
            appfs_mem_read l (s32 (rh_beg_addr h + loc)) nbyte buf (fs_mem fs).
Definition appfs_write : Z := SYSFS_SET_RETURN 536 EROFS.
Definition appfs_mkfs : Z := SYSFS_SET_RETURN 180 ENOTSUP.

(** ** Signatures *)

(** The keys are tried until one fits or there are no more; [keys] bounds their number. *)
Fixpoint verify_from (keys : nat) (key_index : Z) (key : appfs_public_key_t) (is_verified : Z) (hash data : list Z) : option (Z * appfs_public_key_t) :=
  match keys with
  | O => None
  | S keys =>
      let '(key, get_key_result) := get_public_key key_index key in
      let is_verified := if 0 <=? get_key_result then dsa_verify (pk_value key) hash data else is_verified in
      if negb (is_verified =? 1) && negb (get_key_result <? 0) then verify_from keys (u32 (key_index + 1)) key is_verified hash data
      else Some (is_verified, key)
  end.
Context (keys : nat) (key0 : appfs_public_key_t).
Definition with_first_page (h : appfs_util_handle_t sha256_context) (attr : appfs_installattr_t) : appfs_util_handle_t sha256_context :=
  mk_install (ih_code_start h) (ih_code_size h) (ih_data_start h) (ih_data_size h) (ih_rewrite_mask h) (ih_symbols_total h) (ih_sha256_context h) attr.
(** The header that is written after the verification. *)
Definition sealed_header (is_verified : Z) (key : appfs_public_key_t) (b : mem) : mem :=
  if negb (is_verified =? 0) then store32 76 (Z.land (exec_o_flags b 0) (pk_o_flags key)) b
  else store16 48 0x124 (store32 76 (Z.land (exec_o_flags b 0) (u32 (Z.lnot (Z.lor APPFS_FLAG_IS_AUTHENTICATED APPFS_FLAG_IS_STARTUP))))
         (store32 80 (u32 (Z.lnot APPFS_CREATE_SIGNATURE)) b)).
Definition verify_signature (h : appfs_util_handle_t sha256_context) (data : list Z) (m : mem) : option (mem * appfs_util_handle_t sha256_context * Z) :=
  match verify_from keys 0 key0 0 (sha256_finish (ih_sha256_context h)) data with
  | None => None
  | Some (is_verified, key) =>
      let first := ih_first_page h in
      let h := with_first_page h (mk_attr (ia_loc first) (ia_nbyte first) (sealed_header is_verified key (ia_buffer first))) in
      let result := if negb (is_verified =? 0) then 0 else SYSFS_SET_RETURN 686 EPERM in
      let '(m, written) := appfs_util_root_mem_write_page l junk h (ih_first_page h) m in
      Some (m, h, if written <? 0 then written else result)
  end.


(** ** Directories *)

(** The handle of a directory: 0, 1 or 2. *)
Definition appfs_opendir (p : path) (handle : Z) : Z * Z :=
  if strncmp_eq p [] PATH_MAX then (0, 0)
  else if bool_decide (p = str "flash") then (1, 0)
  else if bool_decide (p = str "ram") then (2, 0)
  else (handle, SYSFS_SET_RETURN 583 ENOENT).
(** The name of an entry, and what is returned; the number of the entry is [loc]. *)
Definition readdir_mem (loc type : Z) (fs : appfs_t) : option path * Z :=
  let '(file, _, result) := appfs_util_root_get_fileinfo l junk (fun _ => 0) loc type 0 (fs_mem fs) (fs_usage fs) in
  if result <? 0 then (None, SYSFS_SET_RETURN 782 ENOENT) else (Some (string_at 23 file 0), 0).
Definition readdir_rootdir (loc : Z) : option path * Z :=
  if loc =? 0 then (Some (str ".install"), 0) else if loc =? 1 then (Some (str "flash"), 0) else if loc =? 2 then (Some (str "ram"), 0)
  else (None, SYSFS_SET_RETURN 805 ENOENT).
Definition appfs_readdir_r (handle loc : Z) (fs : appfs_t) : option path * Z :=
  if handle =? 0 then readdir_rootdir loc else if handle =? 1 then readdir_mem loc MEM_FLAG_IS_FLASH fs else if handle =? 2 then readdir_mem loc MEM_FLAG_IS_RAM fs
  else (None, SYSFS_SET_RETURN 823 EINVAL).
End Files.

(** ** The table of the RAM pages keeps its types *)

Section Typed.
Context {L : PosixLimits} {FD : FlashDriver} {PS : PageSize} {CP : MpuConfig} {SY : Symbols} {CR : Crypt} (l : list appfs_mem_section_t) (junk : mem).
End Typed.

(** ** Programs without a valid signature *)

Section Signatures.
Context {FD : FlashDriver} {SY : Symbols} {CR : Crypt} (l : list appfs_mem_section_t) (junk : mem).

(** What the loop over the keys knows before it tries key [i]: nothing has verified, or the key before gave [v]. *)
Definition tried (hash data : list Z) (i v : Z) (key : appfs_public_key_t) : Prop :=
  v = 0 \/ exists j key0 g, get_public_key j key0 = (key, g) /\ 0 <= g /\ v = dsa_verify (pk_value key) hash data /\ i = u32 (j + 1).
(** A key [k] of the system that gave [v], not 0, and the key [k'] that is left when the loop ends: [k] when [v] is 1, otherwise what the
    call for the key behind the last one has made of it. *)
Definition accepted_by (hash data : list Z) (v : Z) (k k' : appfs_public_key_t) : Prop :=
  v <> 0 /\ exists j key0 g, get_public_key j key0 = (k, g) /\ 0 <= g /\ v = dsa_verify (pk_value k) hash data /\
    (v = 1 /\ k' = k \/ v <> 1 /\ k' = (get_public_key (u32 (j + 1)) k).1 /\ (get_public_key (u32 (j + 1)) k).2 < 0).
Lemma verify_from_sound hash data : forall keys i key v r k', tried hash data i v key -> v <> 1 -> verify_from keys i key v hash data = Some (r, k') ->
  r = 0 \/ exists k, accepted_by hash data r k k'.
Proof using.
  induction keys as [|keys IH]; intros i key v r k' Ht Hv; cbn [verify_from]; [done|]. destruct (get_public_key i key) as [key1 g] eqn:Eg.
  destruct (Z.leb_spec 0 g) as [Hg|Hg].
  - rewrite (proj2 (Z.ltb_ge g 0) Hg), andb_true_r. destruct (Z.eqb_spec (dsa_verify (pk_value key1) hash data) 1) as [E|E]; cbn [negb].
    + intros [= <- <-]. right. exists key1. split; [lia|]. exists i, key, g. split_and!; try done. by left.
    + apply IH; [|done]. right. by exists i, key, g.
  - rewrite (proj2 (Z.ltb_lt g 0)), andb_false_r by lia. intros [= <- <-]. destruct Ht as [->|(j & key0 & g0 & E & Hg0 & Ev & Ei)]; [by left|].
    destruct (decide (v = 0)) as [->|Hv0]; [by left|right]. exists key. split; [done|]. exists j, key0, g0. split_and!; try done. right.
    rewrite <- Ei, Eg. done.
Qed.
(** The loop over the keys ends with the keys. *)
Lemma verify_from_ends hash data : forall keys i key v, 0 <= i -> i + Z.of_nat keys < 2 ^ 32 ->
  (exists n, i <= n < i + Z.of_nat keys /\ forall key, (get_public_key n key).2 < 0) -> is_Some (verify_from keys i key v hash data).
Proof.
  induction keys as [|keys IH]; intros i key v Hi Hb (n & Hn & Hlast); [lia|]. cbn [verify_from]. destruct (get_public_key i key) as [key1 g] eqn:Eg.
  destruct (negb (_ =? 1)); cbn [andb]; [|done]. destruct (Z.ltb_spec g 0); cbn [negb]; [done|]. rewrite u32_id by lia. apply IH; [lia|lia|]. exists n. split; [|done].
  destruct (decide (n = i)) as [->|]; [|lia]. specialize (Hlast key). rewrite Eg in Hlast. cbn in Hlast. lia.
Qed.

Lemma load_stores_sealed f b : exec_signature (store16 48 0x124 (store32 76 f (store32 80 (u32 (Z.lnot APPFS_CREATE_SIGNATURE)) b))) 0 = u32 (Z.lnot APPFS_CREATE_SIGNATURE) /\
  exec_o_flags (store16 48 0x124 (store32 76 f (store32 80 (u32 (Z.lnot APPFS_CREATE_SIGNATURE)) b))) 0 = u32 f /\
  hdr_mode (store16 48 0x124 (store32 76 f (store32 80 (u32 (Z.lnot APPFS_CREATE_SIGNATURE)) b))) 0 = 0x124.
Proof.
  unfold exec_signature, exec_o_flags, hdr_mode. split; [|split].
  - rewrite (load32_agree _ _ 80 84 (0 + 80) (store16_agree 48 0x124 _ 80 84 ltac:(lia))) by lia. rewrite (load32_agree _ _ 80 84 (0 + 80) (store32_agree 76 f _ 80 84 ltac:(lia))) by lia.
    change (0 + 80) with 80. by rewrite load32_store32_eq.
  - rewrite (load32_agree _ _ 76 80 (0 + 76) (store16_agree 48 0x124 _ 76 80 ltac:(lia))) by lia. change (0 + 76) with 76. by rewrite load32_store32_eq.
  - change (0 + 48) with 48. by rewrite load16_store16_eq.
Qed.
Lemma u32_bits x b : Z.testbit (u32 x) b = true -> Z.testbit x b = true.
Proof using.
  unfold u32. destruct (decide (0 <= b < 32)); [by rewrite Z.mod_pow2_bits_low by lia|]. destruct (decide (b < 0)); [by rewrite Z.testbit_neg_r by lia|]. by rewrite Z.mod_pow2_bits_high by lia.
Qed.
Lemma any_single f k : 0 <= k -> Bits.any f (2 ^ k) = Z.testbit f k.
Proof using.
  intros Hk. unfold Bits.any. destruct (Z.testbit f k) eqn:E.
  - apply negb_true_iff, Z.eqb_neq. intros H. assert (Hb : Z.testbit (Z.land f (2 ^ k)) k = true) by (by rewrite Z.land_spec, E, Z.pow2_bits_true). by rewrite H, Z.bits_0 in Hb.
  - apply negb_false_iff, Z.eqb_eq, Z.bits_inj'. intros b Hb. rewrite Z.land_spec, Z.bits_0, Z.pow2_bits_eqb by lia. destruct (Z.eqb_spec k b) as [->|]; [by rewrite E|apply andb_false_r].
Qed.
(** C28: A program runs with the rights its key allows, or not at all.  The verification always ends.  Either the check of what was sent with a
    key of the system returned a value other than 0, and the header that is written has no flag that the program did not ask for or the
    key does not allow; or the call fails, and what is written is a read-only file whose signature the kernel does not execute and that is
    neither started with the system nor trusted.  The value is 1 for a signature that fits; the code also accepts any other value but 0 that
    the last key gives, an error of the check included ([error_counts_as_verified]), and then takes the flags that the call for the
    next key has left. *)
Theorem signature_decides_rights keys key0 (h : appfs_util_handle_t sha256_context) data m n : 0 <= n < Z.of_nat keys -> Z.of_nat keys < 2 ^ 32 ->
  (forall key, (get_public_key n key).2 < 0) -> symbols_table 0 < u32 (Z.lnot APPFS_CREATE_SIGNATURE) ->
  exists h' written r, let asked := ia_buffer (ih_first_page h) in let sealed := ia_buffer (ih_first_page h') in
  verify_signature l junk keys key0 h data m = Some ((appfs_util_root_mem_write_page l junk h' (ih_first_page h') m).1, h', r) /\
  written = (appfs_util_root_mem_write_page l junk h' (ih_first_page h') m).2 /\
  ((exists v k k', accepted_by (sha256_finish (ih_sha256_context h)) data v k k' /\
      (forall b, Z.testbit (exec_o_flags sealed 0) b = true -> Z.testbit (exec_o_flags asked 0) b = true /\ Z.testbit (pk_o_flags k') b = true) /\
      r = if written <? 0 then written else 0) \/
   (r < 0 /\ appfs_util_is_executable (exec_signature sealed 0) = false /\ hdr_mode sealed 0 = 0x124 /\
      Bits.any (exec_o_flags sealed 0) APPFS_FLAG_IS_AUTHENTICATED = false /\ Bits.any (exec_o_flags sealed 0) APPFS_FLAG_IS_STARTUP = false)).
Proof using.
  intros Hn Hk Hlast Hsym. unfold verify_signature. destruct (verify_from_ends (sha256_finish (ih_sha256_context h)) data keys 0 key0 0 ltac:(lia) ltac:(lia)) as [[v k] E]; [by exists n; split; [lia|]|]. rewrite E.
  set (first := ih_first_page h). set (h' := with_first_page h _). destruct (appfs_util_root_mem_write_page l junk h' (ih_first_page h') m) as [m' written] eqn:Ew.
  exists h', written, (if written <? 0 then written else if negb (v =? 0) then 0 else SYSFS_SET_RETURN 686 EPERM). cbv zeta. rewrite Ew. split; [done|]. split; [done|].
  change (ia_buffer (ih_first_page h')) with (sealed_header v k (ia_buffer first)). clearbody h' first. set (b := ia_buffer first).
  destruct (verify_from_sound _ _ _ _ _ _ _ _ (or_introl eq_refl) ltac:(done) E) as [->|(kv & Hacc)]; unfold sealed_header.
  - right. change (0 =? 0) with true. cbn [negb]. split; [destruct (Z.ltb_spec written 0); [done|reflexivity]|].
    destruct (load_stores_sealed (Z.land (exec_o_flags b 0) (u32 (Z.lnot (Z.lor APPFS_FLAG_IS_AUTHENTICATED APPFS_FLAG_IS_STARTUP)))) b) as (E1 & E2 & E3).
    rewrite E1, E2, E3. split.
    { unfold appfs_util_is_executable. destruct (_ <? Z.land _ 15); [done|]. by rewrite (proj2 (Z.ltb_lt _ _) Hsym). }
    split; [done|]. change APPFS_FLAG_IS_AUTHENTICATED with (2 ^ 3). change APPFS_FLAG_IS_STARTUP with (2 ^ 1). rewrite !any_single by lia.
    split; apply not_true_is_false; intros Hb%u32_bits; rewrite Z.land_spec in Hb; apply andb_true_iff in Hb as [_ Hb]; vm_compute in Hb; done.
  - left. pose proof (proj1 Hacc) as Hv0. rewrite (proj2 (Z.eqb_neq v 0) Hv0) in *. cbn [negb]. exists v, kv, k. split; [done|]. split; [|done]. intros i Hi. unfold exec_o_flags at 1 in Hi. change (0 + 76) with 76 in Hi.
    rewrite load32_store32_eq in Hi. apply u32_bits in Hi. rewrite Z.land_spec in Hi. by apply andb_true_iff in Hi.
Qed.
End Signatures.

(** ** A data file is read as it was written *)


(** Erased bytes of the flash can be written, all others keep their value. *)
Class FlashLaws (FD : FlashDriver) := {
  flash_present : has_flash = true;
  flash_writes : forall a n buf m, 0 < n -> (forall x, a <= x < a + n -> load8 m x = 255) ->
    exists m', flash_writepage a n buf m = (m', n) /\ forall x, load8 m' x = load8 (copy_in a n buf m) x }.

Section ReadBack.
Context {L : PosixLimits} {FD : FlashDriver} {FL : FlashLaws FD} {PS : PageSize} {CP : MpuConfig} {SY : Symbols} {CR : Crypt} (l : list appfs_mem_section_t) (junk : mem) (keys : nat) (key0 : appfs_public_key_t).
Context (Hl : sections_ok l) (Hpages : all_pages l < 2 ^ 31) (Hsmall : forall s, s ∈ l -> sec_page_size s * sec_count s < 2 ^ 31).
Context (Hoff : 0 <= task_mpu_region_offset <= 8) (Hpol : forall t i, Z.testbit (cache_policy t) i = true -> 16 <= i < 22).
Context (Hwords : forall s, s ∈ l -> sec_page_size s mod 4 = 0).





End ReadBack.

(** ** Where the file system goes wrong *)

Section Wrong.
Context {L : PosixLimits} {FD : FlashDriver} {PS : PageSize} {CP : MpuConfig} {SY : Symbols} {CR : Crypt} (l : list appfs_mem_section_t) (junk : mem).
(** A buffer that is not the caller's is noticed, and written to all the same. *)
Theorem read_ignores_validation h loc n buf fs : appfs_read l true false h loc n buf fs = appfs_read l true true h loc n buf fs.
Proof. done. Qed.
(** An error of the verification with the last key counts as verified. *)
Theorem error_counts_as_verified key0 hash data k g : get_public_key 0 key0 = (k, g) -> 0 <= g -> (get_public_key 1 k).2 < 0 -> dsa_verify (pk_value k) hash data < 0 ->
  verify_from 2 0 key0 0 hash data = Some (dsa_verify (pk_value k) hash data, (get_public_key 1 k).1) /\
  forall b, sealed_header (dsa_verify (pk_value k) hash data) k b = store32 76 (Z.land (exec_o_flags b 0) (pk_o_flags k)) b.
Proof.
  intros E Hg Hn Hv. cbn [verify_from]. rewrite E, (proj2 (Z.leb_le 0 g) Hg), (proj2 (Z.eqb_neq _ 1)), (proj2 (Z.ltb_ge g 0) Hg) by lia. cbn [negb andb].
  change (u32 (0 + 1)) with 1. destruct (get_public_key 1 k) as [k1 g1]. cbn [fst snd] in *. rewrite (proj2 (Z.leb_gt 0 g1) Hn), (proj2 (Z.ltb_lt g1 0) Hn), andb_false_r. split; [done|].
  intros b. unfold sealed_header. by rewrite (proj2 (Z.eqb_neq _ 0)) by lia.
Qed.
End Wrong.

(** ** On a board *)

#[local] Instance limits : PosixLimits := {| OPEN_MAX := 20; PATH_MAX := 64; NAME_MAX := 24 |}.
#[local] Instance flash : FlashDriver := {| has_flash := true; flash_erase_addr a m := (memset a 255 4096 m, 0); flash_writepage a n buf m := (copy_in a n buf m, n) |}.
#[local] Instance flash_laws : FlashLaws flash.
Proof. split; [done|]. intros a n buf m _ _. by eexists. Defined.
#[local] Instance ram_pages : PageSize := {| MCU_RAM_PAGE_SIZE := 1024 |}.
#[local] Instance kernel : Symbols := {| symbols := [0x3000; 0x08000101; 1] |}.
#[local] Instance crypt : Crypt := {| sha256_context := list Z; sha256_start := []; sha256_update b n c := c ++ map (load8 b) (seqZ 0 n); sha256_finish c := c;
  dsa_verify key hash data := if bool_decide (data = key ++ hash) then 1 else 0; get_public_key i key := if i =? 0 then (mk_key [7] (Z.lor APPFS_FLAG_IS_FLASH APPFS_FLAG_IS_STARTUP), 0) else (key, -1) |}.
Definition board_handle : appfs_util_handle_t sha256_context := install_handle0.

Lemma signature_decides_rights_witness : exists h' written r, let asked := ia_buffer (ih_first_page board_handle) in let sealed := ia_buffer (ih_first_page h') in
  verify_signature board_sections (fun _ => 0) 2 (mk_key [] 0) board_handle [7] (fun _ => 255) = Some ((appfs_util_root_mem_write_page board_sections (fun _ => 0) h' (ih_first_page h') (fun _ => 255)).1, h', r) /\
  written = (appfs_util_root_mem_write_page board_sections (fun _ => 0) h' (ih_first_page h') (fun _ => 255)).2 /\
  ((exists v k k', accepted_by (sha256_finish (ih_sha256_context board_handle)) [7] v k k' /\
      (forall b, Z.testbit (exec_o_flags sealed 0) b = true -> Z.testbit (exec_o_flags asked 0) b = true /\ Z.testbit (pk_o_flags k') b = true) /\
      r = if written <? 0 then written else 0) \/
   (r < 0 /\ appfs_util_is_executable (exec_signature sealed 0) = false /\ hdr_mode sealed 0 = 0x124 /\
      Bits.any (exec_o_flags sealed 0) APPFS_FLAG_IS_AUTHENTICATED = false /\ Bits.any (exec_o_flags sealed 0) APPFS_FLAG_IS_STARTUP = false)).
Proof.
  apply (signature_decides_rights board_sections (fun _ => 0)) with (n := 1); [lia|lia|by intros key|reflexivity].
Defined.
(** A negative size is not cut to the end of the file and becomes a copy of almost 4 GB. *)
Theorem read_negative_size : appfs_read board_sections true true (mk_reg 0x08011000 3000 1 MEM_FLAG_IS_FLASH 0x16D) 0 (-1) (fun _ => 0) (mk_fs (fun _ => 255) (fun _ => 0)) = None.
Proof. vm_compute. reflexivity. Qed.
