(* ===== verification/Aio.v ===== *)
(** * Asynchronous transfers

    [src/sys/aio/aio.c] and [src/sys/sysfs/devfs_aio.c].  A control block holds a request and the transfer
    object that a driver fills in; [aio_suspend] and [lio_listio] put a thread to sleep until the callback
    of a driver has finished the blocks of a list.

    The world is the scheduler with the stacked signals, the control blocks by address and the arguments
    of the suspend calls by the address of their stack frame, which is gone when the call has returned.
    A driver is seen through what it does when a transfer is started: the callbacks it runs, what it leaves
    as the number of bytes, and its result.  [None] is an access to memory that is not there: a frame that is
    gone or a control block at [NULL]. *)
From S2P Require Import Prelude Task Scheduler Timing Threads Mutex Timers.

Definition EINPROGRESS : Z := 119.
Definition SI_ASYNCIO : Z := 4.
Definition LIO_NOWAIT : Z := 5.
Definition LIO_READ : Z := 6.
Definition LIO_WAIT : Z := 7.
Definition LIO_WRITE : Z := 8.
Definition SCHEDULER_UNBLOCK_AIO : Z := 12.

(** [struct aiocb]; the fields of its transfer object begin with [async].  Pointers are addresses. *)
Record aiocb := mk_aiocb {
  aio_fildes : Z; aio_offset : Z; aio_buf : Z; aio_nbytes : Z; aio_sigevent : sigevent; aio_lio_opcode : Z;
  async_loc : Z; async_flags : Z; async_nbyte : Z; async_buf : Z; async_tid : Z; async_result : Z }.
#[export] Instance aiocb_inhabited : Inhabited aiocb := populate (mk_aiocb 0 0 0 0 (mk_sigevent 0 0 0) 0 0 0 0 0 0 0).
(** [sysfs_aio_suspend_t]; [as_nent] is the length of the list, or -1. *)
Record sysfs_aio_suspend_t := mk_suspend { as_list : list Z; as_nent : Z; as_block_on_all : bool; as_abs_timeout : mcu_timeval }.
Record aio_world := mk_aw { aw_s : tsys; aw_cb : gmap Z aiocb; aw_args : gmap Z sysfs_aio_suspend_t }.

Definition aw_k (w : aio_world) : kernel := t_k (aw_s w).
Definition cb (w : aio_world) (q : Z) : aiocb := aw_cb w !!! q.
Definition set_cb (q : Z) (a : aiocb) (w : aio_world) : aio_world := mk_aw (aw_s w) (<[q := a]> (aw_cb w)) (aw_args w).
Definition aw_on_k (f : kernel -> kernel) (w : aio_world) : aio_world := mk_aw (t_with (f (aw_k w)) (aw_s w)) (aw_cb w) (aw_args w).
Definition aw_current (w : aio_world) : Z := current (aw_k w).
Definition with_async_result (r : Z) (a : aiocb) : aiocb :=
  mk_aiocb (aio_fildes a) (aio_offset a) (aio_buf a) (aio_nbytes a) (aio_sigevent a) (aio_lio_opcode a)
    (async_loc a) (async_flags a) (async_nbyte a) (async_buf a) (async_tid a) r.
Definition with_async_nbyte (n : Z) (a : aiocb) : aiocb :=
  mk_aiocb (aio_fildes a) (aio_offset a) (aio_buf a) (aio_nbytes a) (aio_sigevent a) (aio_lio_opcode a)
    (async_loc a) (async_flags a) n (async_buf a) (async_tid a) (async_result a).
Definition with_opcode (o : Z) (a : aiocb) : aiocb :=
  mk_aiocb (aio_fildes a) (aio_offset a) (aio_buf a) (aio_nbytes a) (aio_sigevent a) o
    (async_loc a) (async_flags a) (async_nbyte a) (async_buf a) (async_tid a) (async_result a).
Definition with_aio_fildes (f : Z) (a : aiocb) : aiocb :=
  mk_aiocb f (aio_offset a) (aio_buf a) (aio_nbytes a) (aio_sigevent a) (aio_lio_opcode a)
    (async_loc a) (async_flags a) (async_nbyte a) (async_buf a) (async_tid a) (async_result a).
Definition with_sigevent (e : sigevent) (a : aiocb) : aiocb :=
  mk_aiocb (aio_fildes a) (aio_offset a) (aio_buf a) (aio_nbytes a) e (aio_lio_opcode a)
    (async_loc a) (async_flags a) (async_nbyte a) (async_buf a) (async_tid a) (async_result a).
(** The end of a transfer: no buffer, [n] for [aio_return] and [e] for [aio_error]. *)
Definition finished (n e : Z) (a : aiocb) : aiocb :=
  mk_aiocb (aio_fildes a) (aio_offset a) (aio_buf a) n (aio_sigevent a) (aio_lio_opcode a)
    (async_loc a) (async_flags a) (async_nbyte a) 0 (async_tid a) e.

Definition scheduler_root_assert_aiosuspend (id : Z) : kernel -> kernel := scheduler_root_assert id SCHEDULER_TASK_FLAG_AIOSUSPEND.
Definition scheduler_aiosuspend_asserted (k : kernel) (id : Z) : bool := scheduler_flag_asserted k id SCHEDULER_TASK_FLAG_AIOSUSPEND.

Section Aio.
(** [stack_room]: whether a thread has room for a signal frame. *)
Context (stack_room : Z -> bool).

(** ** The callback *)

Definition wake_aio (tid : Z) (w : aio_world) : aio_world :=
  aw_on_k (fun k => let k := scheduler_root_assert_active tid SCHEDULER_UNBLOCK_AIO k in
                    scheduler_root_update_on_wake tid (task_get_priority (k_tasks k) tid) k) w.
(** Whether every block of a list is finished. *)
Fixpoint all_finished (l : list Z) (w : aio_world) : option bool :=
  match l with
  | [] => Some true
  | q :: l => if q =? 0 then None
              else match all_finished l w with
                   | None => None
                   | Some b => Some ((async_buf (cb w q) =? 0) && b)
                   end
  end.
Definition wake_suspended (q tid : Z) (w : aio_world) : option aio_world :=
  match block_object (sched (aw_k w) tid) with
  | Pobj p =>
      match aw_args w !! p with
      | None => None
      | Some args =>
          if as_block_on_all args then
            match all_finished (as_list args) w with
            | None => None
            | Some wakeup => Some (if wakeup then wake_aio tid w else w)
            end
          else Some (if existsb (fun x => q =? x) (as_list args) then wake_aio tid w else w)
      end
  | _ => None
  end.
Definition sysfs_aio_data_transfer_callback (q : Z) (w : aio_world) : option aio_world :=
  let tid := async_tid (cb w q) in
  let r := async_result (cb w q) in
  let a := if r <? 0 then finished (u32 (SYSFS_GET_RETURN r)) (SYSFS_GET_RETURN_ERRNO r) (cb w q) else finished (u32 r) 0 (cb w q) in
  let w := set_cb q a w in
  if task_get_total <=? tid then Some w
  else if task_enabled (k_tasks (aw_k w)) tid then
    match (if scheduler_aiosuspend_asserted (aw_k w) tid then wake_suspended q tid w else Some w) with
    | None => None
    | Some w =>
        if se_notify (aio_sigevent a) =? SIGEV_SIGNAL then
          let '(s, _) := signal_root_send stack_room 0 tid (se_signo (aio_sigevent a)) SI_ASYNCIO (se_value (aio_sigevent a)) true (aw_s w) in
          Some (mk_aw s (aw_cb w) (aw_args w))
        else Some w
    end
  else Some w.
(** A driver that has finished the transfer of block [q]. *)
Definition complete (q r : Z) (w : aio_world) : option aio_world :=
  sysfs_aio_data_transfer_callback q (set_cb q (with_async_result r (cb w q)) w).

(** ** Starting a transfer *)

Record started := mk_started { ds_calls : list (Z * Z); ds_nbyte : Z; ds_result : Z }.
Fixpoint completions (l : list (Z * Z)) (w : aio_world) : option aio_world :=
  match l with
  | [] => Some w
  | (q, r) :: l => match complete q r w with None => None | Some w => completions l w end
  end.
Section Start.
(** [drive]: what the driver does with a read or a write of a control block. *)
Context (drive : bool -> Z -> aio_world -> started).
Definition svcall_device_data_transfer (read : bool) (q : Z) (w : aio_world) : option (aio_world * Z) :=
  let d := drive read q w in
  match completions (ds_calls d) w with
  | None => None
  | Some w =>
      let w := set_cb q (with_async_nbyte (ds_nbyte d) (cb w q)) w in
      let w := aw_on_k (fun k => on_sched (current k) (with_block NULL) k) w in
      if ds_result d =? 0 then
        if async_nbyte (cb w q) =? 0 then match complete q 0 w with None => None | Some w => Some (w, 0) end
        else Some (w, 0)
      else match complete q (ds_result d) w with
           | None => None
           | Some w => Some (w, if ds_result d <? 0 then ds_result d else 0)
           end
  end.
Definition devfs_aio_data_transfer (q : Z) (w : aio_world) : option (aio_world * Z) :=
  let a := cb w q in
  let a' := mk_aiocb (aio_fildes a) (aio_offset a) (aio_buf a) (u32 (-1)) (aio_sigevent a) (aio_lio_opcode a)
              (s32 (aio_offset a)) 0 (s32 (aio_nbytes a)) (aio_buf a) (aw_current w) (async_result a) in
  svcall_device_data_transfer (aio_lio_opcode a =? LIO_READ) q (set_cb q a' w).
(** [fildes_is_bad] is [u_fildes_is_bad] of the process, [is_device] whether the file is one of a device; the
    other file systems do not support these transfers. *)
Context (fildes_is_bad : Z -> Z) (is_device : Z -> bool).
Definition process_return (v : Z) : api_result := if v <? -1 then Err (SYSFS_GET_RETURN_ERRNO v) else Ret v.
Definition data_transfer (q : Z) (w : aio_world) : option (aio_world * api_result) :=
  let fildes := fildes_is_bad (aio_fildes (cb w q)) in
  if fildes <? 0 then Some (w, Err EBADF)
  else let w := set_cb q (with_aio_fildes fildes (cb w q)) w in
       if is_device fildes then
         match devfs_aio_data_transfer q w with None => None | Some (w, ret) => Some (w, process_return ret) end
       else Some (w, process_return (SYSFS_SET_RETURN 330 ENOTSUP)).
Definition aio_read (q : Z) (w : aio_world) : option (aio_world * api_result) := data_transfer q (set_cb q (with_opcode LIO_READ (cb w q)) w).
Definition aio_write (q : Z) (w : aio_world) : option (aio_world * api_result) := data_transfer q (set_cb q (with_opcode LIO_WRITE (cb w q)) w).
(** The first part of [lio_listio]: [inl] is an error.  A list that waits goes on with [suspend]. *)
Fixpoint transfer_list (l : list Z) (w : aio_world) : option aio_world :=
  match l with
  | [] => Some w
  | q :: l => if q =? 0 then transfer_list l w
              else match data_transfer q w with None => None | Some (w, _) => transfer_list l w end
  end.
Definition notify_list (sig : option sigevent) (l : list Z) (w : aio_world) : aio_world :=
  match sig with
  | None => w
  | Some e => foldl (fun w q => if q =? 0 then w else set_cb q (with_sigevent e (cb w q)) w) w l
  end.
Definition lio_listio_start (mode : Z) (l : list Z) (sig : option sigevent) (w : aio_world) : option (aio_world + Z) :=
  if mode =? LIO_NOWAIT then inl <$> transfer_list l (notify_list sig l w)
  else if mode =? LIO_WAIT then inl <$> transfer_list l w
  else Some (inr EINVAL).
End Start.

Definition aio_error (q : Z) (w : aio_world) : Z := if negb (async_buf (cb w q) =? 0) then EINPROGRESS else async_result (cb w q).
Definition aio_return (q : Z) (w : aio_world) : Z := if negb (async_buf (cb w q) =? 0) then -1 else s32 (aio_nbytes (cb w q)).
Definition aio_fsync : api_result := Err ENOTSUP.

(** ** Waiting *)

Fixpoint is_suspend (block_on_all : bool) (l : list Z) (w : aio_world) (b : bool) : bool :=
  match l with
  | [] => b
  | q :: l =>
      if q =? 0 then is_suspend block_on_all l w b
      else if (async_buf (cb w q) =? 0) && negb block_on_all then false
      else is_suspend block_on_all l w (if negb (async_buf (cb w q) =? 0) && block_on_all then true else b)
  end.
Definition svcall_suspend (p : Z) (w : aio_world) : aio_world :=
  match aw_args w !! p with
  | None => w
  | Some a =>
      if is_suspend (as_block_on_all a) (as_list a) w (negb (as_block_on_all a)) then
        aw_on_k (fun k => scheduler_timing_root_timedblock (Pobj p) (as_abs_timeout a) (scheduler_root_assert_aiosuspend (current k) k)) w
      else mk_aw (aw_s w) (aw_cb w) (<[p := mk_suspend (as_list a) (-1) (as_block_on_all a) (as_abs_timeout a)]> (aw_args w))
  end.
(** The end of the call, when the thread runs: its frame goes. *)
Definition suspend_end (p : Z) (w : aio_world) : aio_world * api_result :=
  let w' := mk_aw (aw_s w) (aw_cb w) (delete p (aw_args w)) in
  (w', if default 0 (as_nent <$> aw_args w !! p) =? -1 then Ret 0
       else let u := scheduler_unblock_type (aw_k w) (aw_current w) in
            if u =? SCHEDULER_UNBLOCK_SLEEP then Err EAGAIN else if u =? SCHEDULER_UNBLOCK_SIGNAL then Err EINTR else Ret 0).
Inductive aio_progress := AReturned (r : api_result) | AWaiting.
(** [p] is the address of the frame. *)
Definition suspend (p : Z) (l : list Z) (timeout : option timespec) (block_on_all : bool) (w : aio_world) : aio_world * aio_progress :=
  let args := mk_suspend l (Zlen l) block_on_all (scheduler_timing_convert_timespec timeout) in
  let w := svcall_suspend p (mk_aw (aw_s w) (aw_cb w) (<[p := args]> (aw_args w))) in
  if task_active_asserted (k_tasks (aw_k w)) (aw_current w) then let '(w, r) := suspend_end p w in (w, AReturned r) else (w, AWaiting).
Definition aio_suspend (p : Z) (l : list Z) (timeout : option timespec) (w : aio_world) : aio_world * aio_progress := suspend p l timeout false w.
Definition lio_listio_wait (p : Z) (l : list Z) (w : aio_world) : aio_world * aio_progress := suspend p l None true w.
End Aio.

(** ** The mark of a suspended thread *)

Definition marked (k : kernel) (j : Z) : bool := scheduler_aiosuspend_asserted k j.
(** Only thread [i] changes, its mark included. *)
Definition only_marked (i : Z) (k k' : kernel) : Prop := only i k k' /\ forall j, 0 <= j -> j <> i -> marked k' j = marked k j.
#[export] Instance only_marked_preorder i : PreOrder (only_marked i).
Proof.
  split; [intros k; by split|]. intros k1 k2 k3 [O1 M1] [O2 M2]. split; [by etrans|]. intros j Hj Hne. by rewrite M2, M1.
Qed.
Lemma sched_marked k k' j : sched k' j = sched k j -> marked k' j = marked k j.
Proof. unfold marked, scheduler_aiosuspend_asserted, scheduler_flag_asserted. by intros ->. Qed.
Lemma same_threads_marked k k' i : same_threads k k' -> only_marked i k k'.
Proof. intros S. split; [by apply unchanged_only, same_threads_unchanged|]. intros j _ _. apply sched_marked. by apply same_threads_sched. Qed.

(** Thread [i] was woken: it is active, not marked, and nothing else has changed. *)
Record awake (i : Z) (k k' : kernel) : Prop := {
  aw_only : only_marked i k k';
  aw_active : active k' i = true;
  aw_unmarked : marked k' i = false }.
Lemma awake_same i k k1 k2 : task_id i -> awake i k k1 -> same_threads k1 k2 -> awake i k k2.
Proof.
  intros Hi [O A M] S. split; [etrans; [exact O|by apply same_threads_marked]| |].
  - rewrite <- A. unfold active, task_active_asserted. apply (same_threads_flag _ _ _ _ S). apply Hi.
  - rewrite <- M. apply sched_marked. by apply same_threads_sched.
Qed.
Lemma assert_active_awake i u k : kernel_wf k -> task_id i -> 0 <= u < 16 -> awake i k (scheduler_root_assert_active i u k).
Proof.
  intros Hwf Hi Hu. destruct (assert_active_only i u k Hwf Hi Hu) as [O V]. pose proof (assert_active_woken i u k Hwf Hi Hu) as W. split.
  - split; [exact O|]. intros j Hj Hne. apply sched_marked. by apply (wk_sched_ne _ _ _ _ W).
  - exact (f_equal v_active V).
  - unfold marked, scheduler_aiosuspend_asserted, scheduler_flag_asserted. rewrite assert_active_eq by (apply Hwf || done). rewrite sched_on_sched_eq by (apply Hwf || done).
    apply any_clear_same.
Qed.
Lemma wake_aio_awake i w : kernel_wf (aw_k w) -> task_id i -> awake i (aw_k w) (aw_k (wake_aio i w)).
Proof. intros Hwf Hi. eapply awake_same; [done|by apply (assert_active_awake i SCHEDULER_UNBLOCK_AIO)|apply update_on_wake_same]. Qed.
Lemma signal_root_activate_awake i k : kernel_wf k -> task_id i -> awake i k (signal_root_activate i k).
Proof.
  intros Hwf Hi. destruct (signal_root_activate_only i k Hwf Hi) as [O V]. unfold signal_root_activate in *. set (k1 := on_tasks (task_deassert_stopped i) k) in *.
  assert (Hwf1 : kernel_wf k1) by (destruct Hwf as [[Hl Hc] Hs]; split; [split|]; [etrans; [apply Zlen_on_task|exact Hl]|done|done]).
  pose proof (assert_active_awake i SCHEDULER_UNBLOCK_SIGNAL k1 Hwf1 Hi ltac:(done)) as A. set (k2 := scheduler_root_assert_active i SCHEDULER_UNBLOCK_SIGNAL k1) in *.
  pose proof (awake_same _ _ _ _ Hi A (update_on_wake_same i (task_get_priority (k_tasks k2) i) k2)) as A'.
  split; [split; [exact O|]|exact (f_equal v_active V)|apply A']. intros j Hj Hne. etrans; [apply (proj2 (aw_only _ _ _ A') j Hj Hne)|]. by apply sched_marked.
Qed.
Lemma signal_send_awake room i signo v s : kernel_wf (t_k s) -> task_id i ->
  let s' := (signal_root_send room 0 i signo SI_ASYNCIO v true s).1 in t_k s' = t_k s \/ awake i (t_k s) (t_k s') \/ awake 0 (t_k s) (t_k s').
Proof.
  intros Hwf Hi. unfold signal_root_send, signal_root_forward, stack_handler. assert (H0 : task_id 0) by (unfold task_id, CONFIG_TASK_TOTAL; lia).
  destruct (_ && true).
  - destruct (_ <? _); [|by left]. destruct (negb _); [|by left]. destruct (_ <? _); [|by left]. destruct (negb _); [by left|]. right. right. by apply signal_root_activate_awake.
  - destruct (_ <? _); [|by left]. destruct (negb _); [|by left]. destruct (_ <? _); [|by left]. destruct (negb _); [by left|]. right. left. by apply signal_root_activate_awake.
Qed.

(** ** Threads that wait for their own transfers *)

Section System.
Context (stack_room : Z -> bool).
(** Every control block belongs to the thread that uses it. *)
Context (owner : Z -> Z) (Howner : forall q, 1 <= owner q < CONFIG_TASK_TOTAL).
Implicit Types (w : aio_world) (pc : Z -> option Z).

Definition pending w (q : Z) : Prop := async_buf (cb w q) <> 0.
(** The lists a thread may wait for: its own blocks; [NULL] only where it is looked for. *)
Definition own_list (t : Z) (all : bool) (l : list Z) : Prop := (forall q, q ∈ l -> q <> 0 -> owner q = t) /\ (all = true -> 0 ∉ l).
Definition waits w (a : sysfs_aio_suspend_t) : Prop :=
  if as_block_on_all a then exists q, q ∈ as_list a /\ q <> 0 /\ pending w q else forall q, q ∈ as_list a -> q <> 0 -> pending w q.
(** [pc t] is the frame of the suspend call thread [t] is in. *)
Record frames_ok w pc : Prop := {
  fo_wf : kernel_wf (aw_k w);
  fo_tid : forall q, pending w q -> async_tid (cb w q) = owner q;
  fo_frame : forall t p, 1 <= t < CONFIG_TASK_TOTAL -> pc t = Some p ->
    enabled (aw_k w) t = true /\ exists a, aw_args w !! p = Some a /\ own_list t (as_block_on_all a) (as_list a);
  fo_distinct : forall t t' p, 1 <= t < CONFIG_TASK_TOTAL -> 1 <= t' < CONFIG_TASK_TOTAL -> pc t = Some p -> pc t' = Some p -> t = t' }.
Record thread_ok w pc (t : Z) : Prop := {
  to_active : active (aw_k w) t = true -> marked (aw_k w) t = false;
  to_outside : pc t = None -> marked (aw_k w) t = false;
  to_asleep : forall p a, pc t = Some p -> aw_args w !! p = Some a -> active (aw_k w) t = false ->
    marked (aw_k w) t = true /\ block_object (sched (aw_k w) t) = Pobj p /\ waits w a }.
Definition aio_inv w pc : Prop := frames_ok w pc /\ forall t, 1 <= t < CONFIG_TASK_TOTAL -> thread_ok w pc t.

Lemma waits_ext w w' t a : own_list t (as_block_on_all a) (as_list a) -> (forall q, owner q = t -> q <> 0 -> pending w q -> pending w' q) -> waits w a -> waits w' a.
Proof.
  intros [Hown _] H. unfold waits. destruct (as_block_on_all a).
  - intros (q & Hq & H0 & Hp). exists q. split; [done|]. split; [done|]. apply H; [by apply Hown|done|done].
  - intros Hw q Hq H0. apply H; [by apply Hown|done|by apply Hw].
Qed.
(** A thread that a step does not concern. *)
Lemma thread_ok_frame w w' pc pc' t : frames_ok w pc -> 1 <= t < CONFIG_TASK_TOTAL -> view (aw_k w') t = view (aw_k w) t -> marked (aw_k w') t = marked (aw_k w) t ->
  pc' t = pc t -> (forall p, pc t = Some p -> aw_args w' !! p = aw_args w !! p) -> (forall q, owner q = t -> q <> 0 -> pending w q -> pending w' q) -> thread_ok w pc t -> thread_ok w' pc' t.
Proof.
  intros F Ht V M Epc Eargs Hp [H1 H2 H3]. pose proof (f_equal v_active V) as Va. pose proof (f_equal v_block V) as Vb. cbn [view v_active v_block] in Va, Vb.
  split; rewrite ?M, ?Va, ?Epc; try done. intros p a Hpc Ha Hact. rewrite Vb. rewrite (Eargs p Hpc) in Ha. destruct (H3 p a Hpc Ha Hact) as (? & ? & Hw). split; [done|]. split; [done|].
  destruct (fo_frame _ _ F t p Ht Hpc) as (_ & a' & Ha' & Hown). rewrite Ha in Ha'. injection Ha' as <-. by apply (waits_ext w w' t).
Qed.
Lemma frames_ok_kernel w w' pc : frames_ok w pc -> frame (aw_k w) (aw_k w') -> (forall q, pending w' q -> async_tid (cb w' q) = owner q) -> aw_args w' = aw_args w -> frames_ok w' pc.
Proof.
  intros [F1 F2 F3 F4] F Hc Ea. split; [by apply F|done| |done]. intros t p Ht Hpc. destruct (F3 t p Ht Hpc) as [He Ha]. rewrite Ea, (fr_enabled _ _ F) by lia. done.
Qed.
(** Waking thread [i] makes it right, whatever it waited for. *)
Lemma wake_inv i w w' pc : frames_ok w pc -> (forall t, 1 <= t < CONFIG_TASK_TOTAL -> t <> i -> thread_ok w pc t) -> awake i (aw_k w) (aw_k w') ->
  aw_cb w' = aw_cb w -> aw_args w' = aw_args w -> aio_inv w' pc.
Proof.
  intros F Hth [[O M] A Um] Ec Ea. assert (Epd : forall q, cb w' q = cb w q) by (intros q; unfold cb; by rewrite Ec). split.
  - apply (frames_ok_kernel w); [done|by apply O| |done]. intros q. unfold pending. rewrite Epd. apply (fo_tid _ _ F).
  - intros t Ht. destruct (decide (t = i)) as [->|Hne]; [split; [done|done|]; intros p a _ _ Ha; rewrite A in Ha; discriminate|].
    apply (thread_ok_frame w w' pc pc); [done|done|by apply O; [lia|]|by apply M; [lia|]|done|intros; by rewrite Ea|unfold pending; intros q _ _; by rewrite Epd|by apply Hth].
Qed.
Lemma wake_inv' i w w' pc : aio_inv w pc -> awake i (aw_k w) (aw_k w') -> aw_cb w' = aw_cb w -> aw_args w' = aw_args w -> aio_inv w' pc.
Proof. intros [F Hth]. apply (wake_inv i w w' pc F). auto. Qed.
Lemma awake_active i k k' j : 0 <= j -> awake i k k' -> active k j = true -> active k' j = true.
Proof. intros Hj [[O _] A _] H. destruct (decide (j = i)) as [->|Hne]; [done|]. rewrite <- H. exact (f_equal v_active (proj2 O j Hj Hne)). Qed.
Lemma cb_set_eq q a w : cb (set_cb q a w) q = a.
Proof. unfold cb, set_cb. cbn. apply lookup_total_insert_eq. Qed.
Lemma cb_set_ne q q' a w : q' <> q -> cb (set_cb q a w) q' = cb w q'.
Proof. intros H. unfold cb, set_cb. cbn. by apply lookup_total_insert_ne. Qed.
(** A change of a block that leaves it finished, or as pending as it was, concerns its owner only. *)
Lemma set_cb_frames q a w pc : frames_ok w pc -> (async_buf a <> 0 -> async_tid a = owner q) -> frames_ok (set_cb q a w) pc.
Proof.
  intros F Ha. apply (frames_ok_kernel w); [done|reflexivity| |done]. intros q'. unfold pending. destruct (decide (q' = q)) as [->|Hne]; [by rewrite cb_set_eq|]. rewrite cb_set_ne by done. apply (fo_tid _ _ F).
Qed.
Lemma set_cb_thread q a w pc t : frames_ok w pc -> 1 <= t < CONFIG_TASK_TOTAL -> t <> owner q -> thread_ok w pc t -> thread_ok (set_cb q a w) pc t.
Proof.
  intros F Ht Hne. apply thread_ok_frame; try done. intros q' Hq' _. unfold pending. rewrite cb_set_ne; [done|]. intros ->. congruence.
Qed.
(** A change of a block by its owner, or one that keeps the buffer. *)
Lemma set_cb_inv q a w pc : aio_inv w pc -> (async_buf a <> 0 -> async_tid a = owner q) -> pc (owner q) = None \/ async_buf a = async_buf (cb w q) -> aio_inv (set_cb q a w) pc.
Proof.
  intros [F Hth] Ha Hor. split; [by apply set_cb_frames|]. intros t Ht. destruct (decide (t = owner q)) as [->|Hne]; [|by apply set_cb_thread; [| | |apply Hth]].
  pose proof (Hth (owner q) Ht) as [H1 H2 H3]. destruct Hor as [Hn|Hb].
  - split; [done|done|]. intros p b Hp. congruence.
  - apply (thread_ok_frame w _ pc pc); try done. intros q' _ _. unfold pending. destruct (decide (q' = q)) as [->|]; [by rewrite cb_set_eq, Hb|by rewrite cb_set_ne].
Qed.

Lemma all_finished_spec w l : 0 ∉ l -> exists b, all_finished l w = Some b /\ (b = true -> forall q, q ∈ l -> async_buf (cb w q) = 0) /\ (b = false -> exists q, q ∈ l /\ q <> 0 /\ pending w q).
Proof.
  induction l as [|q l IH]; intros H0; cbn [all_finished].
  - exists true. split; [done|]. split; [|done]. intros _ q Hq. by apply elem_of_nil in Hq.
  - rewrite not_elem_of_cons in H0. destruct H0 as [Hq H0]. rewrite (proj2 (Z.eqb_neq q 0)) by auto. destruct (IH H0) as (b & -> & Hb1 & Hb2). eexists. split; [reflexivity|].
    destruct (Z.eqb_spec (async_buf (cb w q)) 0) as [E|E]; cbn [andb].
    + split; [intros Hb q' [->|Hq']%elem_of_cons; [done|by apply Hb1]|]. intros Hb. destruct (Hb2 Hb) as (q' & ? & ?). exists q'. split; [by right|done].
    + split; [done|]. intros _. exists q. split; [left|]. split; [by intros ->|exact E].
Qed.
(** What a thread waits for when block [q] is finished: nothing more. *)
Definition released w (q : Z) (a : sysfs_aio_suspend_t) : Prop :=
  if as_block_on_all a then forall q', q' ∈ as_list a -> q' <> q -> ~ pending w q' else q ∈ as_list a.

(** The first half of the callback. *)
Lemma wake_stage w pc q a : aio_inv w pc -> async_buf a = 0 -> let t := owner q in let w1 := set_cb q a w in
  exists w2, (if scheduler_aiosuspend_asserted (aw_k w1) t then wake_suspended q t w1 else Some w1) = Some w2 /\ aio_inv w2 pc /\ aw_cb w2 = aw_cb w1 /\ aw_args w2 = aw_args w /\
    frame (aw_k w) (aw_k w2) /\ (forall j, 0 <= j -> active (aw_k w) j = true -> active (aw_k w2) j = true) /\
    (forall p b, pc t = Some p -> aw_args w !! p = Some b -> released w q b -> active (aw_k w2) t = true).
Proof using Howner.
  intros [F Hth] Ha t w1. pose proof (Howner q) as Ht. fold t in Ht. pose proof (Hth t Ht) as [H1 H2 H3].
  assert (F1 : frames_ok w1 pc) by (apply set_cb_frames; [done|by intros Hn]).
  assert (Hoth : forall j, 1 <= j < CONFIG_TASK_TOTAL -> j <> t -> thread_ok w1 pc j) by (intros j Hj Hne; apply set_cb_thread; auto).
  assert (Hid : task_id t) by (unfold task_id; lia).
  change (scheduler_aiosuspend_asserted (aw_k w1) t) with (marked (aw_k w) t). destruct (marked (aw_k w) t) eqn:Em.
  - destruct (pc t) as [p|] eqn:Epc; [|specialize (H2 eq_refl); congruence]. destruct (active (aw_k w) t) eqn:Eact; [specialize (H1 eq_refl); congruence|].
    destruct (fo_frame _ _ F t p Ht Epc) as (_ & b & Eb & Hown). destruct (H3 p b eq_refl Eb eq_refl) as (_ & Hblk & Hw).
    assert (Hkeep : waits w1 b -> ~ released w q b -> exists w2, Some w1 = Some w2 /\ aio_inv w2 pc /\ aw_cb w2 = aw_cb w1 /\ aw_args w2 = aw_args w /\
      frame (aw_k w) (aw_k w2) /\ (forall j, 0 <= j -> active (aw_k w) j = true -> active (aw_k w2) j = true) /\
      (forall p' b', Some p = Some p' -> aw_args w !! p' = Some b' -> released w q b' -> active (aw_k w2) t = true)).
    { intros Hw1 Hr. exists w1. split; [done|]. split; [split; [done|]|].
      - intros j Hj. destruct (decide (j = t)) as [->|]; [|auto]. split; [intros Hc; change (active (aw_k w) t = true) in Hc; congruence|congruence|].
        intros p' b' Hp' Hb' _. change (aw_args w !! p' = Some b') in Hb'. assert (p' = p) as -> by congruence. assert (b' = b) as -> by congruence. done.
      - do 2 (split; [done|]). split; [reflexivity|]. split; [done|]. intros p' b' [= <-] Hb' Hr'. assert (b' = b) as -> by congruence. done. }
    assert (Hwake : exists w2, Some (wake_aio t w1) = Some w2 /\ aio_inv w2 pc /\ aw_cb w2 = aw_cb w1 /\ aw_args w2 = aw_args w /\
      frame (aw_k w) (aw_k w2) /\ (forall j, 0 <= j -> active (aw_k w) j = true -> active (aw_k w2) j = true) /\
      (forall p' b', Some p = Some p' -> aw_args w !! p' = Some b' -> released w q b' -> active (aw_k w2) t = true)).
    { pose proof (wake_aio_awake t w1 (fo_wf _ _ F1) Hid) as A. exists (wake_aio t w1). split; [done|]. split; [by apply (wake_inv t w1)|]. do 2 (split; [done|]).
      split; [apply (aw_only _ _ _ A)|]. split; [intros j Hj; by apply (awake_active _ _ _ j Hj A)|]. intros. apply (aw_active _ _ _ A). }
    unfold wake_suspended. change (block_object (sched (aw_k w1) t)) with (block_object (sched (aw_k w) t)). rewrite Hblk. change (aw_args w1 !! p) with (aw_args w !! p). rewrite Eb.
    unfold waits, released in *. destruct (as_block_on_all b) eqn:Eall.
    + destruct (all_finished_spec w1 (as_list b) (proj2 Hown eq_refl)) as ([|] & -> & Hb1 & Hb2); [exact Hwake|]. destruct (Hb2 eq_refl) as (q' & Hq' & Hn0 & Hp').
      apply Hkeep; [by exists q'|]. intros Hr. destruct (decide (q' = q)) as [->|Hne]; [unfold pending, w1 in Hp'; by rewrite cb_set_eq in Hp'|].
      apply (Hr q' Hq' Hne). unfold pending, w1 in *. by rewrite cb_set_ne in Hp'.
    + destruct (existsb (fun x => q =? x) (as_list b)) eqn:Ex; [exact Hwake|].
      assert (Hnin : q ∉ as_list b) by (intros Hin; apply not_true_iff_false in Ex; apply Ex, existsb_exists; exists q; split; [by apply list_elem_of_In|apply Z.eqb_refl]).
      apply Hkeep; [|done]. intros q' Hq' Hn0. unfold pending, w1. rewrite cb_set_ne by (intros ->; done). by apply Hw.
  - exists w1. split; [done|]. split; [split; [done|]|].
    + intros j Hj. destruct (decide (j = t)) as [->|]; [|auto]. split; [done|done|]. intros p b Hp Hb Hact. destruct (H3 p b Hp Hb Hact) as [Hc _]. congruence.
    + do 2 (split; [done|]). split; [reflexivity|]. split; [done|]. intros p b Hp Hb _. destruct (active (aw_k w) t) eqn:E; [done|]. destruct (H3 p b Hp Hb eq_refl) as [Hc _]. congruence.
Qed.

(** The callback runs to its end, keeps the invariant, finishes the block and wakes its owner if that waited for nothing else. *)
Record finishes (q : Z) w pc w' : Prop := {
  fi_inv : aio_inv w' pc;
  fi_args : aw_args w' = aw_args w;
  fi_frame : frame (aw_k w) (aw_k w');
  fi_active : forall j, 0 <= j -> active (aw_k w) j = true -> active (aw_k w') j = true;
  fi_done : async_buf (cb w' q) = 0 /\ async_tid (cb w' q) = owner q;
  fi_other : forall q', q' <> q -> cb w' q' = cb w q';
  fi_woken : forall p b, pc (owner q) = Some p -> aw_args w !! p = Some b -> released w q b -> active (aw_k w') (owner q) = true }.
Lemma callback_finishes w pc q : aio_inv w pc -> async_tid (cb w q) = owner q -> exists w', sysfs_aio_data_transfer_callback stack_room q w = Some w' /\ finishes q w pc w'.
Proof using Howner.
  intros Hinv Htid. unfold sysfs_aio_data_transfer_callback. set (r := async_result (cb w q)). set (a := if r <? 0 then _ else _). rewrite Htid.
  assert (Ha : async_buf a = 0 /\ async_tid a = owner q) by (unfold a; by destruct (r <? 0)). pose proof (Howner q) as Ht. clearbody a r.
  rewrite (proj2 (Z.leb_gt task_get_total (owner q))) by apply Ht. destruct (wake_stage w pc q a Hinv (proj1 Ha)) as (w2 & E2 & I2 & C2 & A2 & F2 & Ac2 & W2).
  assert (Hfin : forall w', aio_inv w' pc -> aw_cb w' = aw_cb w2 -> aw_args w' = aw_args w2 -> frame (aw_k w2) (aw_k w') ->
            (forall j, 0 <= j -> active (aw_k w2) j = true -> active (aw_k w') j = true) -> finishes q w pc w').
  { intros w' I C A Fr Ac. assert (Ecb : forall q', cb w' q' = cb (set_cb q a w) q') by (intros q'; unfold cb; by rewrite C, C2). split; [done|congruence|by etrans|intros j Hj Hact; by apply Ac, Ac2| | |].
    - by rewrite Ecb, cb_set_eq.
    - intros q' Hne. by rewrite Ecb, cb_set_ne.
    - intros p b Hp Hb Hr. apply Ac; [lia|]. by apply (W2 p b). }
  destruct (task_enabled (k_tasks (aw_k (set_cb q a w))) (owner q)) eqn:Een.
  - rewrite E2. destruct (_ =? SIGEV_SIGNAL); [|by exists w2; split; [done|apply Hfin]].
    pose proof (signal_send_awake stack_room (owner q) (se_signo (aio_sigevent a)) (se_value (aio_sigevent a)) (aw_s w2) (fo_wf _ _ (proj1 I2)) ltac:(unfold task_id; lia)) as Hs.
    destruct (signal_root_send _ _ _ _ _ _ _ _) as [s' x]. cbn [fst] in Hs. eexists. split; [reflexivity|].
    destruct Hs as [Hs|[Hs|Hs]].
    + apply Hfin; try done; unfold aw_k; cbn [aw_s]; rewrite ?Hs; try done. destruct I2 as [F I]. split.
      * apply (frames_ok_kernel w2); [done| |apply (fo_tid _ _ F)|done]. unfold aw_k. cbn [aw_s]. by rewrite Hs.
      * intros t Ht'. apply (thread_ok_frame w2 _ pc pc); try done; [| |by apply I]; unfold aw_k; cbn [aw_s]; by rewrite Hs.
    + apply Hfin; [by apply (wake_inv' (owner q) w2)|done|done|apply (aw_only _ _ _ Hs)|intros j Hj; by apply (awake_active _ _ _ j Hj Hs)].
    + apply Hfin; [by apply (wake_inv' 0 w2)|done|done|apply (aw_only _ _ _ Hs)|intros j Hj; by apply (awake_active _ _ _ j Hj Hs)].
  - eexists. split; [reflexivity|]. destruct (pc (owner q)) as [p|] eqn:Epc.
    { destruct (fo_frame _ _ (proj1 Hinv) (owner q) p Ht Epc) as [He _]. unfold enabled in He. change (task_enabled (k_tasks (aw_k w)) (owner q) = false) in Een. congruence. }
    split; [by apply set_cb_inv; [|intros Hn; by destruct Ha|left]|done|reflexivity|done|by rewrite cb_set_eq|intros q' Hne; by apply cb_set_ne|congruence].
Qed.
Lemma complete_finishes w pc q r : aio_inv w pc -> async_tid (cb w q) = owner q -> exists w', complete stack_room q r w = Some w' /\ finishes q w pc w'.
Proof using Howner.
  intros Hinv Htid. unfold complete. set (w0 := set_cb q (with_async_result r (cb w q)) w).
  assert (Hp0 : forall q', async_buf (cb w0 q') = async_buf (cb w q')) by (intros q'; unfold w0; destruct (decide (q' = q)) as [->|]; [by rewrite cb_set_eq|by rewrite cb_set_ne]).
  assert (I0 : aio_inv w0 pc) by (apply set_cb_inv; [done|done|by right]).
  destruct (callback_finishes w0 pc q I0) as (w' & E & [H1 H2 H3 H4 H5 H6 H7]); [unfold w0; by rewrite cb_set_eq|]. exists w'. split; [done|]. split; try done.
  - intros q' Hne. rewrite H6 by done. unfold w0. by rewrite cb_set_ne.
  - intros p b Hp Hb Hr. apply (H7 p b Hp Hb). revert Hr. unfold released, pending. destruct (as_block_on_all b); [|done]. intros Hr q' Hq' Hne. rewrite Hp0. by apply Hr.
Qed.

(** ** Steps *)

Definition at_k (k : kernel) w : aio_world := mk_aw (t_with k (aw_s w)) (aw_cb w) (aw_args w).
Lemma same_inv w pc k : aio_inv w pc -> same_threads (aw_k w) k -> aio_inv (at_k k w) pc.
Proof using.
  intros [F Hth] S. pose proof (same_threads_unchanged _ _ S) as [Fr V]. split; [by apply (frames_ok_kernel w); [| |apply (fo_tid _ _ F)|]|].
  intros t Ht. apply (thread_ok_frame w _ pc pc); try done; [apply V; lia|apply sched_marked; by apply same_threads_sched|by apply Hth].
Qed.
Lemma time_inv w pc now counter : aio_inv w pc -> aio_inv (at_k (with_counter counter (with_now now (aw_k w))) w) pc.
Proof using. intros [[F1 F2 F3 F4] Hth]. split; [by split|]. intros t Ht. destruct (Hth t Ht). by split. Qed.
Lemma match_event_inv w pc : aio_inv w pc -> aio_inv (at_k (root_handle_usecond_match_event (aw_k w)) w) pc.
Proof using.
  intros I. assert (H : aio_inv (at_k (ms_k (match_scan (aw_k w))) w) pc).
  { apply (match_scan_ind (fun _ s => aio_inv (at_k (ms_k s) w) pc)); [by destruct w, aw_s0|]. intros i s Hi Is. unfold match_turn. destruct (task_enabled_not_active _ _); [|done].
    destruct (due _ _).
    - pose proof (assert_active_awake i SCHEDULER_UNBLOCK_SLEEP (ms_k s) (fo_wf _ _ (proj1 Is)) ltac:(unfold task_id; lia) ltac:(done)) as A.
      pose proof (wake_inv' i (at_k (ms_k s) w) (at_k (scheduler_root_assert_active i SCHEDULER_UNBLOCK_SLEEP (ms_k s)) w) pc Is A eq_refl eq_refl) as H. by destruct (_ && _).
    - by destruct (_ && _). }
  apply (same_inv _ _ _ H). apply match_event_same.
Qed.
(** A thread outside the calls changes nothing but its block object. *)
Lemma outside_inv i w pc k : aio_inv w pc -> pc i = None -> only_marked i (aw_k w) k -> marked k i = marked (aw_k w) i -> aio_inv (at_k k w) pc.
Proof using.
  intros [F Hth] Hpc [O M] Mi. split; [by apply (frames_ok_kernel w); [|apply O|apply (fo_tid _ _ F)|]|].
  intros t Ht. destruct (decide (t = i)) as [->|Hne].
  - destruct (Hth i Ht) as [_ H2 _]. rewrite (H2 Hpc) in Mi. split; [done|done|]. intros p a. congruence.
  - apply (thread_ok_frame w _ pc pc); try done; [apply O; [lia|done]|apply M; [lia|done]|by apply Hth].
Qed.
Lemma at_k_eq w : at_k (aw_k w) w = w.
Proof using. by destruct w as [[]]. Qed.
Lemma block_null_inv w pc : aio_inv w pc -> pc (aw_current w) = None -> aio_inv (aw_on_k (fun k => on_sched (current k) (with_block NULL) k) w) pc.
Proof using.
  intros I Hpc. assert (Hid : task_id (aw_current w)) by apply (fo_wf _ _ (proj1 I)). apply (outside_inv (aw_current w)); [done|done|split; [by apply on_sched_only|]|].
  - intros j Hj Hne. apply sched_marked. by apply sched_on_sched_ne.
  - unfold marked, scheduler_aiosuspend_asserted, scheduler_flag_asserted. by rewrite sched_on_sched_eq by (apply (fo_wf _ _ (proj1 I)) || done).
Qed.

(** A driver calls back for transfers it holds. *)
Fixpoint held (l : list (Z * Z)) w : Prop :=
  match l with
  | [] => True
  | (q, r) :: l => pending w q /\ forall w', complete stack_room q r w = Some w' -> held l w'
  end.
Lemma completions_inv pc : forall l w, aio_inv w pc -> held l w -> exists w', completions stack_room l w = Some w' /\ aio_inv w' pc /\ aw_current w' = aw_current w /\
  forall q, async_tid (cb w q) = owner q -> async_tid (cb w' q) = owner q.
Proof using Howner.
  induction l as [|[q r] l IH]; intros w I Hh; cbn [completions]; [by exists w|]. destruct Hh as [Hp Hh].
  destruct (complete_finishes w pc q r I (fo_tid _ _ (proj1 I) q Hp)) as (w1 & E & [I1 _ Fr _ Hd Ho _]). rewrite E.
  destruct (IH w1 I1 (Hh w1 E)) as (w2 & -> & I2 & C2 & T2). exists w2. split; [done|]. split; [done|]. split; [rewrite C2; apply (fr_current _ _ Fr)|].
  intros q' Hq'. apply T2. destruct (decide (q' = q)) as [->|Hne]; [apply Hd|by rewrite Ho].
Qed.
Lemma start_inv drive bad dev w pc q : aio_inv w pc -> owner q = aw_current w -> pc (aw_current w) = None -> (forall read w', held (ds_calls (drive read q w')) w') ->
  exists w' r, data_transfer stack_room drive bad dev q w = Some (w', r) /\ aio_inv w' pc.
Proof using Howner.
  intros I Hown Hpc Hheld. unfold data_transfer. destruct (_ <? 0); [by exists w, (Err EBADF)|]. set (w1 := set_cb q (with_aio_fildes _ (cb w q)) w).
  assert (I1 : aio_inv w1 pc) by (apply set_cb_inv; [done|apply (fo_tid _ _ (proj1 I))|by right]). destruct (dev _); [|by eexists w1, _].
  unfold devfs_aio_data_transfer. set (a2 := mk_aiocb _ _ _ _ _ _ _ _ _ _ _ _). set (w2 := set_cb q a2 w1).
  assert (I2 : aio_inv w2 pc) by (apply set_cb_inv; [done|done|left; by rewrite Hown]). unfold svcall_device_data_transfer. set (d := drive _ q w2).
  destruct (completions_inv pc (ds_calls d) w2 I2 (Hheld _ _)) as (w3 & -> & I3 & C3 & T3). specialize (T3 q ltac:(unfold w2; by rewrite cb_set_eq)).
  set (w4 := set_cb q _ w3). assert (I4 : aio_inv w4 pc) by (apply set_cb_inv; [done|done|by right]).
  set (w5 := aw_on_k _ w4). assert (I5 : aio_inv w5 pc) by (apply block_null_inv; [done|]; change (aw_current w4) with (aw_current w3); by rewrite C3).
  assert (T5 : async_tid (cb w5 q) = owner q) by (change (cb w5 q) with (cb w4 q); unfold w4; by rewrite cb_set_eq). clearbody w5.
  assert (Hend : forall x y, exists w' r, match match complete stack_room q x w5 with Some w => Some (w, y) | None => None end with Some (w, ret) => Some (w, process_return ret) | None => None end = Some (w', r) /\ aio_inv w' pc).
  { intros x y. destruct (complete_finishes w5 pc q x I5 T5) as (w6 & -> & Hf). by eexists w6, _; split; [|apply Hf]. }
  destruct (ds_result d =? 0); [|apply Hend]. destruct (_ =? 0); [apply Hend|]. by eexists w5, _.
Qed.

Lemma is_suspend_all w : forall l b, is_suspend true l w b = true -> b = true \/ exists q, q ∈ l /\ q <> 0 /\ pending w q.
Proof using.
  induction l as [|q l IH]; intros b; cbn [is_suspend]; [by left|]. destruct (Z.eqb_spec q 0) as [->|Hq].
  - intros H. destruct (IH _ H) as [->|(q' & ? & ?)]; [by left|]. right. exists q'. split; [by right|done].
  - rewrite andb_false_r, andb_true_r. intros H. destruct (IH _ H) as [Hb|(q' & ? & ?)]; [|right; exists q'; split; [by right|done]].
    destruct (Z.eqb_spec (async_buf (cb w q)) 0); cbn [negb] in Hb; [by left|]. right. exists q. split; [left|done].
Qed.
Lemma is_suspend_any w : forall l b, is_suspend false l w b = true -> forall q, q ∈ l -> q <> 0 -> pending w q.
Proof using.
  induction l as [|q l IH]; intros b H q' Hq' Hn; [by apply elem_of_nil in Hq'|]. cbn [is_suspend] in H. destruct (Z.eqb_spec q 0) as [->|Hq].
  - apply elem_of_cons in Hq' as [->|Hq']; [done|by apply (IH b)].
  - rewrite andb_true_r, andb_false_r in H. destruct (Z.eqb_spec (async_buf (cb w q)) 0); [done|]. apply elem_of_cons in Hq' as [->|Hq']; [done|by apply (IH b)].
Qed.
Lemma is_suspend_waits w a : is_suspend (as_block_on_all a) (as_list a) w (negb (as_block_on_all a)) = true -> waits w a.
Proof using.
  unfold waits. destruct (as_block_on_all a); intros H; [|by apply (is_suspend_any w _ _ H)]. by destruct (is_suspend_all w _ _ H).
Qed.
Definition aio_running w : Prop := 1 <= aw_current w < CONFIG_TASK_TOTAL /\ active (aw_k w) (aw_current w) = true /\ enabled (aw_k w) (aw_current w) = true.
Definition set_apc (t : Z) (x : option Z) pc : Z -> option Z := fun j => if j =? t then x else pc j.
Lemma set_apc_eq t x pc : set_apc t x pc t = x.
Proof using. unfold set_apc. by rewrite Z.eqb_refl. Qed.
Lemma set_apc_ne t x pc j : j <> t -> set_apc t x pc j = pc j.
Proof using. intros H. unfold set_apc. by destruct (Z.eqb_spec j t). Qed.

(** Going to sleep. *)
Lemma suspend_sleeps p t k : kernel_wf k -> in_future k t = true -> let k' := scheduler_timing_root_timedblock (Pobj p) t (scheduler_root_assert_aiosuspend (current k) k) in
  only_marked (current k) k k' /\ active k' (current k) = false /\ block_object (sched k' (current k)) = Pobj p /\ marked k' (current k) = true.
Proof using.
  intros Hwf Hf k'. assert (Hid : task_id (current k)) by apply Hwf. set (k1 := scheduler_root_assert_aiosuspend (current k) k) in *.
  assert (O1 : only (current k) k k1) by by apply on_sched_only. assert (Hwf1 : kernel_wf k1) by (apply O1, Hwf).
  destruct (timedblock_only (Pobj p) t k1 Hwf1) as [O2 V2]. change (in_future k1 t) with (in_future k t) in V2. rewrite Hf in V2. change (current k1) with (current k) in *.
  destruct (timedblock_sleeps_until (Pobj p) t k1 Hwf1 Hf) as [[_ _ Hs _ _ _ _ _ _] _ _]. change (current k1) with (current k) in Hs.
  assert (Hsch : forall j, sched k' j = sched (on_sched (current k) (block_entry (Pobj p) t) k1) j) by (intros j; unfold sched, k'; by rewrite Hs). split; [split|split; [|split]].
  - by etrans.
  - intros j Hj Hne. apply sched_marked. rewrite Hsch, sched_on_sched_ne by auto. unfold k1, scheduler_root_assert_aiosuspend, scheduler_root_assert. by rewrite sched_on_sched_ne by auto.
  - exact (f_equal v_active V2).
  - exact (f_equal v_block V2).
  - unfold marked, scheduler_aiosuspend_asserted, scheduler_flag_asserted. rewrite Hsch, sched_on_sched_eq by (apply Hwf1 || done). cbn [block_entry with_wake with_block sched_flags].
    unfold k1, scheduler_root_assert_aiosuspend, scheduler_root_assert. rewrite sched_on_sched_eq by (apply Hwf || done). cbn [with_sched_flags sched_flags]. by apply any_set_same.
Qed.
Definition progress_frame (p : Z) (r : aio_progress) : option Z := match r with AWaiting => Some p | AReturned _ => None end.
Lemma suspend_inv w pc p l ts all w' r : aio_inv w pc -> aio_running w -> pc (aw_current w) = None -> aw_args w !! p = None -> own_list (aw_current w) all l ->
  in_future (aw_k w) (scheduler_timing_convert_timespec ts) = true -> suspend p l ts all w = (w', r) ->
  aio_inv w' (set_apc (aw_current w) (progress_frame p r) pc).
Proof using.
  intros I (Hc & Hact & Hen) Hpc Hfresh Hown Hf. unfold suspend. set (args := mk_suspend l _ all _). set (w1 := mk_aw (aw_s w) (aw_cb w) (<[p := args]> (aw_args w))).
  destruct I as [F Hth]. assert (Hwf := fo_wf _ _ F). unfold svcall_suspend. change (aw_args w1) with (<[p := args]> (aw_args w)). rewrite lookup_insert_eq. cbn [as_block_on_all as_list as_abs_timeout args].
  assert (Hnp : forall t, 1 <= t < CONFIG_TASK_TOTAL -> pc t <> Some p) by (intros t Ht Hp; destruct (fo_frame _ _ F t p Ht Hp) as (_ & a & Ha & _); congruence).
  set (c := aw_current w) in *. destruct (is_suspend all l w1 (negb all)) eqn:Es.
  - set (k' := scheduler_timing_root_timedblock (Pobj p) (scheduler_timing_convert_timespec ts) (scheduler_root_assert_aiosuspend (current (aw_k w)) (aw_k w))).
    match goal with |- context [aw_on_k ?f w1] => change (aw_on_k f w1) with (at_k k' w1) end. destruct (suspend_sleeps p (scheduler_timing_convert_timespec ts) (aw_k w) Hwf Hf) as ([O M] & A & B & Mk). fold k' in O, M, A, B, Mk.
    change (current (aw_k w)) with c in O, M, A, B, Mk.
    assert (Ecur : current k' = c) by apply (fr_current _ _ (proj1 O)). change (aw_current (at_k k' w1)) with (current k'). change (aw_k (at_k k' w1)) with k'. rewrite Ecur. change (task_active_asserted (k_tasks k') c) with (active k' c). rewrite A. intros [= <- <-]. cbn [progress_frame].
    assert (Eargs : forall t p0, 1 <= t < CONFIG_TASK_TOTAL -> pc t = Some p0 -> <[p:=args]> (aw_args w) !! p0 = aw_args w !! p0) by (intros t p0 Ht Hp0; apply lookup_insert_ne; intros <-; by apply (Hnp t)).
    split; [split|].
    + by apply O.
    + apply (fo_tid _ _ F).
    + intros t p0 Ht. destruct (decide (t = c)) as [->|Hne].
      * rewrite set_apc_eq. intros [= <-]. split; [rewrite <- Hen; apply (fr_enabled _ _ (proj1 O)); lia|]. exists args. split; [apply lookup_insert_eq|done].
      * rewrite set_apc_ne by done. intros Hp0. destruct (fo_frame _ _ F t p0 Ht Hp0) as [He Ha]. split; [rewrite <- He; apply (fr_enabled _ _ (proj1 O)); lia|].
        cbn [aw_args]. change (aw_args w1) with (<[p:=args]> (aw_args w)). by rewrite (Eargs t).
    + intros t t' p0 Ht Ht'. destruct (decide (t = c)) as [->|Hne], (decide (t' = c)) as [->|Hne']; rewrite ?set_apc_eq, ?set_apc_ne by done; [done| | |].
      * intros [= <-] Hp. by apply Hnp in Hp.
      * intros Hp [= <-]. by apply Hnp in Hp.
      * by apply (fo_distinct _ _ F).
    + intros t Ht. destruct (decide (t = c)) as [->|Hne].
      * split; rewrite ?set_apc_eq; [intros Hx; change (active k' c = true) in Hx; congruence|done|]. intros p0 a [= <-] Ha _. change (<[p:=args]> (aw_args w) !! p = Some a) in Ha.
        rewrite lookup_insert_eq in Ha. injection Ha as <-. split; [done|]. split; [done|]. exact (is_suspend_waits w1 args Es).
      * apply (thread_ok_frame w _ pc); try done; [apply O; [lia|done]|apply M; [lia|done]|by rewrite set_apc_ne|intros p0 Hp0; by apply (Eargs t)|by apply Hth].
  - match goal with |- (if ?b then _ else _) = _ -> _ => change b with (active (aw_k w) c) end. rewrite Hact. unfold suspend_end. cbn [aw_args aw_s aw_cb]. intros [= <- <-]. cbn [progress_frame].
    rewrite insert_insert_eq, delete_insert_id by done.
    assert (E : forall t, set_apc c None pc t = pc t) by (intros t; unfold set_apc; destruct (Z.eqb_spec t c) as [->|]; congruence).
    destruct F as [F1 F2 F3 F4]. split; [split; try done|]; [intros t p0; rewrite E; apply F3|intros t t' p0; rewrite !E; apply F4|].
    intros t Ht. destruct (Hth t Ht) as [H1 H2 H3]. split; rewrite ?E; done.
Qed.
Lemma resume_inv w pc p : aio_inv w pc -> aio_running w -> pc (aw_current w) = Some p -> aio_inv (suspend_end p w).1 (set_apc (aw_current w) None pc).
Proof using.
  intros [F Hth] (Hc & Hact & _) Hpc. set (c := aw_current w) in *. unfold suspend_end. cbn [fst].
  assert (Eargs : forall t p0, 1 <= t < CONFIG_TASK_TOTAL -> t <> c -> pc t = Some p0 -> delete p (aw_args w) !! p0 = aw_args w !! p0).
  { intros t p0 Ht Hne Hp0. apply lookup_delete_ne. intros <-. apply Hne. by apply (fo_distinct _ _ F t c p). }
  split; [split; [apply F|apply F| |]|].
  - intros t p0 Ht. destruct (decide (t = c)) as [->|Hne]; [by rewrite set_apc_eq|]. rewrite set_apc_ne by done. intros Hp0. destruct (fo_frame _ _ F t p0 Ht Hp0) as [He Ha]. split; [done|].
    cbn [aw_args]. by rewrite (Eargs t).
  - intros t t' p0 Ht Ht'. destruct (decide (t = c)) as [->|Hne], (decide (t' = c)) as [->|Hne']; rewrite ?set_apc_eq, ?set_apc_ne by done; try done. by apply (fo_distinct _ _ F).
  - intros t Ht. destruct (decide (t = c)) as [->|Hne].
    + destruct (Hth c Ht) as [H1 _ _]. specialize (H1 Hact). split; rewrite ?set_apc_eq; done.
    + apply (thread_ok_frame w _ pc); try done; [by rewrite set_apc_ne|intros p0 Hp0; by apply (Eargs t)|by apply Hth].
Qed.

(** What can happen: a thread writes the fields of a block, starts a transfer of one of its blocks, waits for a list of them with a
    deadline that has not passed, or goes on; a driver finishes a transfer; the clock interrupts, a signal arrives, another thread runs. *)
Inductive aio_step : aio_world * (Z -> option Z) -> aio_world * (Z -> option Z) -> Prop :=
| st_prepare w pc q a : async_buf a = async_buf (cb w q) -> async_tid a = async_tid (cb w q) -> aio_step (w, pc) (set_cb q a w, pc)
| st_start drive bad dev w pc q w' r : aio_running w -> pc (aw_current w) = None -> owner q = aw_current w -> (forall read w', held (ds_calls (drive read q w')) w') ->
    data_transfer stack_room drive bad dev q w = Some (w', r) -> aio_step (w, pc) (w', pc)
| st_suspend w pc p l ts all w' r : aio_running w -> pc (aw_current w) = None -> aw_args w !! p = None -> own_list (aw_current w) all l ->
    in_future (aw_k w) (scheduler_timing_convert_timespec ts) = true -> suspend p l ts all w = (w', r) -> aio_step (w, pc) (w', set_apc (aw_current w) (progress_frame p r) pc)
| st_resume w pc p : aio_running w -> pc (aw_current w) = Some p -> aio_step (w, pc) ((suspend_end p w).1, set_apc (aw_current w) None pc)
| st_complete w pc q r w' : pending w q -> complete stack_room q r w = Some w' -> aio_step (w, pc) (w', pc)
| st_time w pc now counter : aio_step (w, pc) (at_k (root_handle_usecond_match_event (with_counter counter (with_now now (aw_k w)))) w, pc)
| st_signal w pc i : 1 <= i < CONFIG_TASK_TOTAL -> aio_step (w, pc) (at_k (signal_root_activate i (aw_k w)) w, pc)
| st_switch w pc i : 1 <= i < CONFIG_TASK_TOTAL -> aio_step (w, pc) (at_k (switch_to i (aw_k w)) w, pc).

Lemma aio_inv_step s s' : aio_step s s' -> aio_inv s.1 s.2 -> aio_inv s'.1 s'.2.
Proof using Howner.
  intros [w pc q a Hb Ht|drive bad dev w pc q w' r Hrun Hpc Hown Hheld E|w pc p l ts all w' r Hrun Hpc Hfresh Hown Hf E|w pc p Hrun Hpc|w pc q r w' Hp E|w pc now counter|w pc i Hi|w pc i Hi] I; cbn [fst snd] in *.
  - apply set_cb_inv; [done| |by right]. rewrite Hb, Ht. apply (fo_tid _ _ (proj1 I)).
  - destruct (start_inv drive bad dev w pc q I Hown Hpc Hheld) as (w1 & r1 & E1 & I1). rewrite E1 in E. by injection E as <- _.
  - by apply (suspend_inv w pc p l ts all w' r).
  - by apply resume_inv.
  - destruct (complete_finishes w pc q r I (fo_tid _ _ (proj1 I) q Hp)) as (w1 & E1 & Hf). rewrite E1 in E. injection E as <-. apply Hf.
  - exact (match_event_inv _ pc (time_inv w pc now counter I)).
  - apply (wake_inv' i w); [done|apply signal_root_activate_awake; [apply I|unfold task_id; lia]|done|done].
  - destruct I as [[F1 F2 F3 F4] Hth]. split; [split; try done|].
    + destruct F1 as [[H1 H2] H3]. split; [split; [done|]|done]. cbn. unfold task_id. lia.
    + intros t Ht. destruct (Hth t Ht). by split.
Qed.

(** C37: No completion is lost, between threads that start and wait for transfers of their own blocks only, pass lists without [NULL] when they wait
    for all, and give deadlines that have not passed when they call (otherwise a thread sleeps on or the callback reads what is no longer there:
    [foreign_transfer_not_woken], [listio_null_entry], [expired_suspend_dangles]).  In whatever order these threads, drivers, signals and the
    clock come, a thread that sleeps in [aio_suspend] or [lio_listio] waits for transfers that are under way: all of its list when one is enough, one of them at least when it waits for all.
    When a driver finishes a transfer, the callback finds the arguments of the thread's call, and the thread is woken if the transfer is
    one of its list, or the last of it. *)
Theorem aio_no_lost_wakeup w0 pc0 w pc t p : aio_inv w0 pc0 -> star aio_step (w0, pc0) (w, pc) -> 1 <= t < CONFIG_TASK_TOTAL -> pc t = Some p -> active (aw_k w) t = false ->
  exists a, aw_args w !! p = Some a /\ waits w a /\
  forall q r, pending w q -> exists w', complete stack_room q r w = Some w' /\ ~ pending w' q /\ (owner q = t -> released w q a -> active (aw_k w') t = true).
Proof using Howner.
  intros I0 Hstar Ht Hpc Hact. assert (I : aio_inv w pc).
  { exact (star_invariant aio_step (fun s => aio_inv s.1 s.2) (fun s s' Hi Hs => aio_inv_step s s' Hs Hi) (w0, pc0) (w, pc) Hstar I0). }
  destruct (fo_frame _ _ (proj1 I) t p Ht Hpc) as (_ & a & Ha & _). exists a. split; [done|]. split; [by apply (to_asleep _ _ _ (proj2 I t Ht) p a)|].
  intros q r Hq. destruct (complete_finishes w pc q r I (fo_tid _ _ (proj1 I) q Hq)) as (w' & E & Hf). exists w'. split; [done|]. split; [intros Hx; apply Hx, Hf|].
  intros <- Hr. by apply (fi_woken _ _ _ _ Hf p a).
Qed.
End System.

(** ** Results *)

(** What is read of a transfer when it is finished: the number of bytes and no error. *)
Lemma aio_result room w q r w' : 0 <= r < 2 ^ 31 -> task_get_total <= async_tid (cb w q) \/ task_enabled (k_tasks (aw_k w)) (async_tid (cb w q)) = false ->
  complete room q r w = Some w' -> aio_error q w' = 0 /\ aio_return q w' = r.
Proof.
  intros Hr Ht. unfold complete, sysfs_aio_data_transfer_callback. rewrite cb_set_eq. cbn [with_async_result async_tid async_result]. rewrite (proj2 (Z.ltb_ge r 0)) by lia.
  assert (H : forall w1, aw_cb w1 = aw_cb (set_cb q (finished (u32 r) 0 (with_async_result r (cb w q))) (set_cb q (with_async_result r (cb w q)) w)) -> aio_error q w1 = 0 /\ aio_return q w1 = r).
  { intros w1 E. unfold aio_error, aio_return, cb. rewrite E. unfold set_cb. cbn [aw_cb]. rewrite lookup_total_insert_eq. cbn. split; [done|]. rewrite u32_id, s32_id by lia. done. }
  destruct Ht as [Ht|Ht].
  - rewrite (proj2 (Z.leb_le _ _)) by exact Ht. intros [= <-]. by apply H.
  - destruct (_ <=? _); [intros [= <-]; by apply H|]. change (aw_k (set_cb _ _ (set_cb _ _ w))) with (aw_k w). rewrite Ht. intros [= <-]. by apply H.
Qed.

(** ** Where the waits go wrong *)

Lemma is_suspend_ext all w w' : aw_cb w = aw_cb w' -> forall l b, is_suspend all l w b = is_suspend all l w' b.
Proof. intros E. induction l as [|q l IH]; intros b; cbn [is_suspend]; [done|]. unfold cb. rewrite E, !IH. done. Qed.
(** A deadline that has passed: the call returns, but leaves the mark and the pointer to its frame, and the callback of the next
    transfer of the thread reads what is there. *)
Theorem expired_suspend_dangles room p l ts all w q r : kernel_wf (aw_k w) -> aio_running w -> aw_args w !! p = None -> is_suspend all l w (negb all) = true ->
  in_future (aw_k w) (scheduler_timing_convert_timespec ts) = false -> async_tid (cb w q) = aw_current w ->
  exists w' e, suspend p l ts all w = (w', AReturned e) /\ complete room q r w' = None.
Proof.
  intros Hwf (Hc & Hact & Hen) Hfresh Hs Hf Htid. unfold suspend, svcall_suspend. set (args := mk_suspend l _ all _). set (w1 := mk_aw (aw_s w) (aw_cb w) (<[p := args]> (aw_args w))).
  change (aw_args w1) with (<[p := args]> (aw_args w)). rewrite lookup_insert_eq. cbn [as_block_on_all as_list as_abs_timeout args]. rewrite (is_suspend_ext all w1 w eq_refl), Hs.
  set (c := aw_current w) in *. set (k1 := scheduler_root_assert_aiosuspend c (aw_k w)). set (k' := scheduler_timing_root_timedblock (Pobj p) (scheduler_timing_convert_timespec ts) k1).
  match goal with |- context [aw_on_k ?f w1] => change (aw_on_k f w1) with (at_k k' w1) end.
  assert (Hid : task_id c) by apply Hwf. assert (Hlen : Zlen (sos_sched_table k1) = CONFIG_TASK_TOTAL) by (unfold k1, scheduler_root_assert_aiosuspend, scheduler_root_assert; rewrite Zlen_on_sched; apply Hwf).
  assert (Hk : k_tasks k' = k_tasks (aw_k w) /\ (sched k' c = with_block (Pobj p) (sched k1 c) \/ sched k' c = with_wake (scheduler_timing_convert_timespec ts) (with_block (Pobj p) (sched k1 c)))).
  { clearbody args. unfold k', scheduler_timing_root_timedblock. change (in_future k1 (scheduler_timing_convert_timespec ts) = false) in Hf. change (current k1) with c. set (t := scheduler_timing_convert_timespec ts) in *. clearbody t.
    unfold in_future in Hf. cbn [on_sched sched_usecond_counter clk_now clk_sleep_oc]. destruct (Z.leb_spec (sched_usecond_counter k1) (tv_sec t)).
    - destruct (Z.ltb_spec (sched_usecond_counter k1) (tv_sec t)); [done|]. destruct (Z.eqb_spec (tv_sec t) (sched_usecond_counter k1)); [|lia]. cbn [orb andb] in Hf. rewrite Hf. split; [done|]. right.
      rewrite !sched_on_sched_eq by (rewrite ?Zlen_on_sched; done). done.
    - split; [done|]. left. by rewrite sched_on_sched_eq. }
  destruct Hk as [Ht Hsc]. change (aw_current (at_k k' w1)) with (task_get_current (k_tasks k')). change (aw_k (at_k k' w1)) with k'. rewrite Ht. change (task_get_current (k_tasks (aw_k w))) with c.
  change (task_active_asserted (k_tasks (aw_k w)) c) with (active (aw_k w) c). rewrite Hact. unfold suspend_end. eexists _, _. split; [reflexivity|].
  assert (Hm : scheduler_aiosuspend_asserted k' c = true).
  { unfold scheduler_aiosuspend_asserted, scheduler_flag_asserted. assert (Hfl : sched_flags (sched k' c) = sched_flags (sched k1 c)) by (destruct Hsc as [-> | ->]; done). rewrite Hfl.
    unfold k1, scheduler_root_assert_aiosuspend, scheduler_root_assert. rewrite sched_on_sched_eq by (apply Hwf || done). by apply any_set_same. }
  assert (Hb : block_object (sched k' c) = Pobj p) by (destruct Hsc as [-> | ->]; done).
  unfold complete, sysfs_aio_data_transfer_callback. rewrite cb_set_eq. cbn [with_async_result async_tid async_result]. match goal with |- context [cb (mk_aw ?s ?b ?x) q] => change (cb (mk_aw s b x) q) with (cb w q) end. rewrite Htid.
  rewrite (proj2 (Z.leb_gt _ _)) by apply Hc. match goal with |- (if task_enabled (k_tasks ?k) _ then _ else _) = _ => change k with k' end. rewrite Ht. unfold enabled in Hen. rewrite Hen.
  match goal with |- context [scheduler_aiosuspend_asserted ?k c] => change k with k' end. rewrite Hm. unfold wake_suspended. match goal with |- context [block_object (sched ?k c)] => change k with k' end. rewrite Hb.
  cbn [set_cb aw_args at_k w1]. by rewrite lookup_delete_eq.
Qed.
(** [lio_listio] ignores [NULL] in its list; the callback reads through it. *)
Theorem listio_null_entry w q tid p a : block_object (sched (aw_k w) tid) = Pobj p -> aw_args w !! p = Some a -> as_block_on_all a = true -> 0 ∈ as_list a -> wake_suspended q tid w = None.
Proof.
  intros Hb Ha Hall Hin. unfold wake_suspended. rewrite Hb, Ha, Hall. assert (H : all_finished (as_list a) w = None); [|by rewrite H]. revert Hin. clear. intros Hin.
  induction (as_list a) as [|x l IH]; [by apply elem_of_nil in Hin|]. cbn [all_finished]. destruct (Z.eqb_spec x 0) as [->|Hx]; [done|]. apply elem_of_cons in Hin as [E|Hin]; [congruence|]. by rewrite (IH Hin).
Qed.
(** The callback looks at the thread that started the transfer only: any other thread that waits for it sleeps on. *)
Theorem foreign_transfer_not_woken room w q r : async_tid (cb w q) < task_get_total -> marked (aw_k w) (async_tid (cb w q)) = false -> se_notify (aio_sigevent (cb w q)) <> SIGEV_SIGNAL ->
  exists w', complete room q r w = Some w' /\ aw_k w' = aw_k w.
Proof.
  intros Ht Hm Hn. unfold complete, sysfs_aio_data_transfer_callback. rewrite cb_set_eq. cbn [with_async_result async_tid async_result]. rewrite (proj2 (Z.leb_gt _ _)) by exact Ht.
  set (a := if r <? 0 then _ else _). assert (Ea : aio_sigevent a = aio_sigevent (cb w q)) by (unfold a; by destruct (r <? 0)). clearbody a.
  destruct (task_enabled _ _); [|by eexists]. change (scheduler_aiosuspend_asserted (aw_k _) _) with (marked (aw_k w) (async_tid (cb w q))). rewrite Hm, Ea, (proj2 (Z.eqb_neq _ _) Hn). by eexists.
Qed.

(** ** An example *)

(** Thread 1 has a block at address 100 and reads 8 bytes from a driver that takes its time. *)
Definition aio_demo_cb : aiocb := mk_aiocb 3 0 4096 8 (mk_sigevent 0 0 0) 0 0 0 0 0 0 0.
Definition aio_demo : aio_world := mk_aw (mk_tsys demo_kernel []) {[ 100 := aio_demo_cb ]} ∅.
Definition slow_driver (read : bool) (q : Z) (w : aio_world) : started := mk_started [] 8 0.
Definition aio_demo1 : aio_world := default aio_demo (fst <$> aio_read (fun _ => true) slow_driver id (fun _ => true) 100 aio_demo).
Definition aio_demo2 : aio_world := (aio_suspend 500 [100; 0] None aio_demo1).1.
Definition aio_demo_pc : Z -> option Z := set_apc 1 (Some 500) (fun _ => None).
Lemma aio_demo_inv : aio_inv (fun _ => 1) aio_demo (fun _ => None).
Proof.
  split; [split|].
  - vm_compute. intuition congruence.
  - intros q. unfold pending, cb, aio_demo. cbn [aw_cb]. destruct (decide (q = 100)) as [->|Hne]; [by rewrite lookup_total_singleton|].
    rewrite lookup_total_singleton_ne by done. done.
  - done.
  - done.
  - refine (each_task _ _). repeat (constructor; [split; try done; intros _; vm_compute; reflexivity|]). constructor.
Qed.
Lemma aio_demo_running w : (1 <=? aw_current w) && (aw_current w <? CONFIG_TASK_TOTAL) && active (aw_k w) (aw_current w) && enabled (aw_k w) (aw_current w) = true -> aio_running w.
Proof. intros H. apply andb_true_iff in H as [H ?]. apply andb_true_iff in H as [H ?]. apply andb_true_iff in H as [?%Z.leb_le ?%Z.ltb_lt]. done. Qed.
Lemma aio_demo_run : star (aio_step (fun _ => true) (fun _ => 1)) (aio_demo, fun _ => None) (aio_demo2, aio_demo_pc).
Proof.
  eapply star_step; [apply (st_prepare _ _ aio_demo (fun _ => None) 100 (with_opcode LIO_READ (cb aio_demo 100))); reflexivity|].
  eapply star_step; [apply (st_start _ _ slow_driver id (fun _ => true) _ (fun _ => None) 100 aio_demo1 (Ret 0)); [apply aio_demo_running; vm_compute; reflexivity|done|vm_compute; reflexivity|done|vm_compute; reflexivity]|].
  eapply star_step; [|apply star_refl].
  refine (st_suspend _ _ aio_demo1 (fun _ => None) 500 [100; 0] None false aio_demo2 AWaiting _ _ _ _ _ _); [apply aio_demo_running; vm_compute; reflexivity|done|vm_compute; reflexivity| |vm_compute; reflexivity|vm_compute; reflexivity].
  split; [|done]. intros q _ _. vm_compute. reflexivity.
Qed.
Lemma aio_no_lost_wakeup_witness : exists w', complete (fun _ => true) 100 8 aio_demo2 = Some w' /\ active (aw_k w') 1 = true.
Proof.
  destruct (aio_no_lost_wakeup (fun _ => true) (fun _ => 1) ltac:(intros; unfold CONFIG_TASK_TOTAL; lia) aio_demo (fun _ => None) aio_demo2 aio_demo_pc 1 500 aio_demo_inv aio_demo_run ltac:(unfold CONFIG_TASK_TOTAL; lia) eq_refl ltac:(vm_compute; reflexivity))
    as (a & Ha & Hw & Hc).
  destruct (Hc 100 8 ltac:(vm_compute; discriminate)) as (w' & E & _ & Hact). exists w'. split; [exact E|]. apply Hact; [reflexivity|]. vm_compute in Ha. injection Ha as <-. left.
Defined.
(** A transfer that fails with an error at line 48 of a driver: [aio_return] gives -48, not the -1 it documents. *)
Theorem failed_transfer_returns_line : exists w', complete (fun _ => true) 100 (SYSFS_SET_RETURN 48 EIO) aio_demo1 = Some w' /\ aio_error 100 w' = EIO /\ aio_return 100 w' = -48.
Proof. eexists. split; [vm_compute; reflexivity|]. split; vm_compute; reflexivity. Qed.
