(* ===== verification/Dirs.v ===== *)
(** * Directories

    [src/sys/dirent/dirent.c] and the root directory, [src/sys/sysfs/rootfs.c].  A directory stream is a
    structure of four words in the heap of the process: the address of the file system, its handle, the
    position and a checksum that makes the words sum to zero.  The file systems are seen through their
    operations on directories ([dir_ops]) on a state [F] they share; what the calls promise is stated against
    the class [Lists], which the asset file system, the devices and the root directory satisfy.

    [None] is an access to memory that is not there: an address that is none of a file system, or an entry
    outside the table of file systems. *)
From S2P Require Import Prelude Task Scheduler Paths Files Memory Malloc Assetfs Transfer.

(** ** The interface of a file system *)

(** [struct dirent] *)
Record dirent := mk_entry { de_ino : Z; de_name : path }.
#[export] Instance dirent_eq_dec : EqDecision dirent.
Proof. solve_decision. Defined.
#[export] Instance dirent_inhabited : Inhabited dirent := populate (mk_entry 0 []).
(** What the root directory uses of an entry of the table of file systems. *)
Record mount_t (F : Type) := mk_mount { m_path : path; m_permissions : Z; m_ismounted : F -> bool }.
Arguments mk_mount {F}.
Arguments m_path {F}.
Arguments m_permissions {F}.
Arguments m_ismounted {F}.
(** The operations get the handle and give the one they leave behind the pointer. *)
Record dir_ops (F : Type) := mk_dir_ops {
  do_mount : mount_t F;
  do_opendir : path -> Z -> F -> F * Z * Z;
  do_readdir_r : Z -> Z -> F -> option (Z * option dirent);
  do_closedir : Z -> F -> F * Z * Z;
}.
Arguments mk_dir_ops {F}.
Arguments do_mount {F}.
Arguments do_opendir {F}.
Arguments do_readdir_r {F}.
Arguments do_closedir {F}.

(** A directory that can be opened lists its entries: in state [f] the directory [p] is opened, and read
    entry by entry until an error says that there are no more. *)
Class Lists {F : Type} (d : dir_ops F) (f : F) (p : path) (entries : list dirent) : Prop := {
  li_open : exists f1 r h, (forall h0, do_opendir d p h0 f = (f1, r, h)) /\ 0 <= r /\ 0 <= h < 2 ^ 32 /\
    (forall loc, 0 <= loc < Zlen entries -> exists r e, entries !! Z.to_nat loc = Some e /\ do_readdir_r d h loc f1 = Some (r, Some e) /\ 0 <= r) /\
    (exists r, do_readdir_r d h (Zlen entries) f1 = Some (r, None) /\ r < 0) /\
    (exists f2 r h', do_closedir d h f1 = (f2, r, h') /\ 0 <= r)
}.

(** ** Directory streams *)

Definition sizeof_DIR : Z := 16.
Definition dir_fs (m : mem) (a : Z) : Z := load32 m a.
Definition dir_handle (m : mem) (a : Z) : Z := load32 m (a + 4).
Definition dir_loc (m : mem) (a : Z) : Z := s32 (load32 m (a + 8)).
Definition seal (a : Z) (m : mem) : mem := cortexm_assign_zero_sum32 a (sizeof_DIR / 4) m.
Definition set_dir_loc (a loc : Z) (m : mem) : mem := seal a (store32 (a + 8) loc m).
Definition set_dir_handle (a h : Z) (m : mem) : mem := store32 (a + 4) h m.

(** The heap of the process, the file systems, [errno] and the entry [readdir] keeps. *)
Record dstate (F : Type) := mk_ds { ds_heap : heap; ds_fs : F; ds_errno : Z; ds_static : dirent }.
Arguments mk_ds {F}.
Arguments ds_heap {F}.
Arguments ds_fs {F}.
Arguments ds_errno {F}.
Arguments ds_static {F}.

Section Dirs.
Context {L : PosixLimits} {F : Type}.
(** [base] is where the heap begins; a stream is named by its address, 0 is [NULL]. *)
Context (self owner_id : Z) (stack : option Z) (base : Z).
(** The table of file systems and where its entries are in memory. *)
Context (fs_list : list (dir_ops F)) (fs_address : nat -> Z).
Implicit Types (s : dstate F) (dirp : Z).

Definition on_heap (f : heap -> heap) s : dstate F := mk_ds (f (ds_heap s)) (ds_fs s) (ds_errno s) (ds_static s).
Definition ds_mem (f : mem -> mem) s : dstate F := on_heap (on_mem f) s.
Definition with_fs (f : F) s : dstate F := mk_ds (ds_heap s) f (ds_errno s) (ds_static s).
Definition ds_err (e : Z) s : dstate F := mk_ds (ds_heap s) (ds_fs s) e (ds_static s).
Definition with_static (e : dirent) s : dstate F := mk_ds (ds_heap s) (ds_fs s) (ds_errno s) e.
(** [SYSFS_PROCESS_RETURN] *)
Definition ds_return (v : Z) s : dstate F * Z := if v <? -1 then (ds_err (SYSFS_GET_RETURN_ERRNO v) s, SYSFS_GET_RETURN v) else (s, v).
Definition free_dir (a : Z) s : dstate F := on_heap (fun h => default h (_free_r self stack (Free_at a) h)) s.

Fixpoint fs_at (i : nat) (l : list (dir_ops F)) (addr : Z) : option (nat * dir_ops F) :=
  match l with
  | [] => None
  | d :: l => if fs_address i =? addr then Some (i, d) else fs_at (S i) l addr
  end.
Definition fs_of (addr : Z) : option (dir_ops F) := snd <$> fs_at 0 fs_list addr.
Definition check_ebadf dirp s : bool :=
  if dirp =? 0 then false else cortexm_verify_zero_sum32 (h_mem (ds_heap s)) (dirp - base) (sizeof_DIR / 4).

Definition closedir dirp s : option (dstate F * Z) :=
  if negb (check_ebadf dirp s) then Some (ds_err EBADF s, -1)
  else
    let a := dirp - base in
    match fs_of (dir_fs (h_mem (ds_heap s)) a) with
    | None => None
    | Some fs =>
        let '(f, ret, h) := do_closedir fs (dir_handle (h_mem (ds_heap s)) a) (ds_fs s) in
        let s := ds_mem (set_dir_handle a h) (with_fs f s) in
        let '(s, ret) := ds_return ret s in
        Some (free_dir a s, ret)
    end.
Definition opendir (after dirname : path) s : dstate F * Z :=
  match sysfs_ispathinvalid after dirname with
  | Some e => (ds_err e s, 0)
  | None =>
      match sysfs_find ((fun d => m_path (do_mount d)) <$> fs_list) dirname false with
      | None => (ds_err ENOENT s, 0)
      | Some i =>
          match fs_list !! i with
          | None => (ds_err ENOENT s, 0)
          | Some fs =>
              match _malloc_r self owner_id stack 3 sizeof_DIR (ds_heap s) with
              | Some (heap, inl a) =>
                  let s := on_heap (fun _ => heap) s in
                  let '(f, err, h) := do_opendir fs (sysfs_stripmountpath (m_path (do_mount fs)) dirname) (dir_handle (h_mem heap) a) (ds_fs s) in
                  let s := ds_mem (set_dir_handle a h) (with_fs f s) in
                  if err <? 0 then (free_dir a (fst (ds_return err s)), 0)
                  else (ds_mem (fun m => set_dir_loc a 0 (store32 a (fs_address i) m)) s, base + a)
              | Some (heap, inr _) => (ds_err ENOMEM (on_heap (fun _ => heap) s), 0)
              | None => (ds_err ENOMEM s, 0)
              end
          end
      end
  end.
(** What is returned, and the entry that was stored; [result] is set to the entry when there is one. *)
Definition readdir_r dirp s : option (dstate F * Z * option dirent) :=
  if negb (check_ebadf dirp s) then Some (ds_err EBADF s, -1, None)
  else
    let a := dirp - base in
    let m := h_mem (ds_heap s) in
    match fs_of (dir_fs m a) with
    | None => None
    | Some fs =>
        match do_readdir_r fs (dir_handle m a) (dir_loc m a) (ds_fs s) with
        | None => None
        | Some (err, e) =>
            if err <? 0 then let '(s, err) := ds_return err s in Some (s, err, None)
            else Some (ds_mem (set_dir_loc a (dir_loc m a + 1)) s, 0, e)
        end
    end.
(** Whether the pointer that is returned is the static entry, or [NULL]. *)
Definition readdir dirp s : option (dstate F * bool) :=
  match readdir_r dirp s with
  | None => None
  | Some (s, _, Some e) => Some (with_static e s, true)
  | Some (s, _, None) => Some (s, false)
  end.
Definition seekdir dirp (loc : Z) s : dstate F :=
  if negb (check_ebadf dirp s) then ds_err EBADF s else ds_mem (set_dir_loc (dirp - base) loc) s.
Definition rewinddir dirp s : dstate F :=
  if negb (check_ebadf dirp s) then ds_err EBADF s else ds_mem (set_dir_loc (dirp - base) 0) s.
Definition telldir dirp s : dstate F * Z :=
  if negb (check_ebadf dirp s) then (ds_err EBADF s, -1) else (s, dir_loc (h_mem (ds_heap s)) (dirp - base)).
(** The loop of a program that reads a directory to its end, [n] entries at most. *)
Fixpoint read_entries (n : nat) dirp s : option (dstate F * list dirent) :=
  match n with
  | O => Some (s, [])
  | S n => match readdir_r dirp s with
           | None => None
           | Some (s, err, Some e) => if err <? 0 then Some (s, []) else prod_map id (cons e) <$> read_entries n dirp s
           | Some (s, _, None) => Some (s, [])
           end
  end.

(** ** The root directory *)

(** [cfg] is the table of file systems; the last entry is the root itself. *)
Context (cfg : list (mount_t F)).
Fixpoint count_mounted (l : list (mount_t F)) (f : F) : Z :=
  match l with
  | [] => 0
  | m :: l => (if m_ismounted m f then 1 else 0) + count_mounted l f
  end.
Definition get_entries (f : F) : Z := count_mounted cfg f - 1.
Definition rootfs_opendir (p : path) (handle : Z) (f : F) : F * Z * Z :=
  if bool_decide (p = []) then (f, 0, 0) else (f, SYSFS_SET_RETURN 65 ENOENT, handle).
(** The loop that skips [loc] mounted file systems computes an index that nothing uses. *)
Definition rootfs_readdir_r (handle loc : Z) (f : F) : option (Z * option dirent) :=
  if loc <? get_entries f then
    if loc <? 0 then None
    else match cfg !! Z.to_nat loc with
         | None => None
         | Some m => Some (loc, Some (mk_entry loc (drop 1 (m_path m))))
         end
  else Some (-1, None).
Definition rootfs_closedir (handle : Z) (f : F) : F * Z * Z := (f, 0, handle).
Definition rootfs_stat (p : path) (st : stat_t) : Z * stat_t :=
  match sysfs_find (m_path <$> cfg) (slash :: p) false ≫= (cfg !!.) with
  | None => (SYSFS_SET_RETURN 47 ENOENT, st)
  | Some m =>
      if negb (bool_decide (p = [])) && bool_decide (Zlen (m_path m) <= 1) then (SYSFS_SET_RETURN 53 ENOENT, st)
      else (0, mk_stat (Z.lor S_IFDIR (m_permissions m)) 0 0 0 0 0)
  end.
Definition SYSFS_MOUNT (mount_loc_name : path) (permissions_value : Z) : dir_ops F :=
  mk_dir_ops (mk_mount mount_loc_name permissions_value (fun _ => true)) rootfs_opendir rootfs_readdir_r rootfs_closedir.
End Dirs.

(** ** The words of a stream *)

Lemma set_dir_loc_agree a loc m x y : a + sizeof_DIR <= x \/ y <= a + 8 -> agree x y m (set_dir_loc a loc m).
Proof.
  unfold sizeof_DIR, set_dir_loc, seal, cortexm_assign_zero_sum32. change (sizeof_DIR / 4) with 4. intros H.
  etrans; [apply (store32_agree (a + 8) loc); lia|]. apply store32_agree; lia.
Qed.
Lemma set_dir_loc_words a loc m : let m' := set_dir_loc a loc m in
  cortexm_verify_zero_sum32 m' a (sizeof_DIR / 4) = true /\ dir_fs m' a = dir_fs m a /\ dir_handle m' a = dir_handle m a /\ dir_loc m' a = s32 loc.
Proof.
  intros m'. split; [by apply verify_assigned|]. assert (A : agree a (a + 8) m m') by (apply set_dir_loc_agree; lia).
  unfold dir_fs, dir_handle. rewrite !(load32_agree _ _ _ _ _ A) by lia. do 2 (split; [done|]).
  unfold dir_loc, m', set_dir_loc, seal, cortexm_assign_zero_sum32. change (sizeof_DIR / 4) with 4. set (m1 := store32 (a + 8) loc m).
  rewrite (load32_agree m1 _ a (a + 12)) by (lia || (apply store32_agree; lia)). unfold m1. rewrite load32_store32_eq. unfold s32, u32. by rewrite Z.add_mod_idemp_l by lia.
Qed.

(** The first [n] entries of the table of file systems are at different addresses. *)
Definition addresses_ok (n : nat) (fs_address : nat -> Z) : Prop :=
  forall i, (i < n)%nat -> 0 <= fs_address i < 2 ^ 32 /\ forall j, (j < n)%nat -> fs_address i = fs_address j -> i = j.

Section Streams.
Context {L : PosixLimits} {F : Type}.
Context (self owner_id sp base : Z) (fs_list : list (dir_ops F)) (fs_address : nat -> Z).
Context (Hself : 0 <= self < 2 ^ 16) (Howner : 0 <= owner_id < 2 ^ 16) (Hsp : sp <= 2 ^ 21) (Hbase : 0 <= base).
Context (Haddr : addresses_ok (length fs_list) fs_address).
Implicit Types (s : dstate F).
#[local] Abbreviation openD := (opendir self owner_id (Some sp) base fs_list fs_address).
#[local] Abbreviation closeD := (closedir self (Some sp) base fs_list fs_address).
#[local] Abbreviation readD := (readdir_r base fs_list fs_address).
#[local] Abbreviation readsD := (read_entries base fs_list fs_address).

Lemma fs_at_lookup i (d : dir_ops F) : forall l j, l !! i = Some d -> (j + length l <= length fs_list)%nat -> fs_at fs_address j l (fs_address (j + i)%nat) = Some ((j + i)%nat, d).
Proof using Haddr.
  clear Hself Howner Hsp Hbase. induction i as [|i IH]; intros [|x l] j; cbn [lookup list_lookup fs_at length]; try done.
  - intros [= <-] _. by rewrite Nat.add_0_r, Z.eqb_refl.
  - intros H Hj. pose proof (lookup_lt_Some _ _ _ H) as Hi. rewrite (proj2 (Z.eqb_neq _ _)) by (intros E; apply Haddr in E; lia). rewrite Nat.add_succ_r. apply (IH l (S j)); [done|lia].
Qed.
Lemma fs_of_address i d : fs_list !! i = Some d -> fs_of fs_list fs_address (fs_address i) = Some d.
Proof using Haddr. intros H. unfold fs_of. pose proof (fs_at_lookup i d fs_list 0 H (Nat.le_refl _)) as E. rewrite Nat.add_0_l in E. by rewrite E. Qed.

(** Stream [dirp]: block [b] at [o] holds the words of a stream of file system [i] with handle [h] at position [loc]. *)
Record stream s (l : list block) (pre : list (Z * block)) (o : Z) (b : block) (post : list (Z * block)) (dirp : Z) (i : nat) (h loc : Z) : Prop := {
  sm_heap : heap_ok (ds_heap s) l;
  sm_used : used 0 l = pre ++ (o, b) :: post;
  sm_room : sizeof_DIR <= CONFIG_MALLOC_CHUNK_SIZE * b_chunks b - sizeof_header;
  sm_addr : dirp = base + chunk_memory o;
  sm_ok : cortexm_verify_zero_sum32 (h_mem (ds_heap s)) (chunk_memory o) (sizeof_DIR / 4) = true;
  sm_fs : dir_fs (h_mem (ds_heap s)) (chunk_memory o) = fs_address i;
  sm_handle : dir_handle (h_mem (ds_heap s)) (chunk_memory o) = h;
  sm_loc : dir_loc (h_mem (ds_heap s)) (chunk_memory o) = loc }.

Lemma block_write h l pre o b post m' : heap_ok h l -> used 0 l = pre ++ (o, b) :: post ->
  sizeof_DIR <= CONFIG_MALLOC_CHUNK_SIZE * b_chunks b - sizeof_header ->
  (forall x y, chunk_memory o + sizeof_DIR <= x \/ y <= chunk_memory o -> agree x y (h_mem h) m') ->
  heap_ok (on_mem (fun _ => m') h) l /\ same_bytes (pre ++ post) (h_mem h) m'.
Proof using.
  clear Hself Howner Hsp Haddr Hbase. intros H U R A. eapply heap_ok_write; try done; apply A; [by right|]. left. unfold chunk_memory. lia.
Qed.
Lemma stream_check s l pre o b post dirp i h loc : stream s l pre o b post dirp i h loc ->
  check_ebadf base dirp s = true /\ dirp - base = chunk_memory o /\ dirp <> 0.
Proof using Hbase.
  clear Hself Howner Hsp Haddr. intros [H U R E K _ _ _]. assert (Hin : (o, b) ∈ used 0 l) by (rewrite U, elem_of_app, elem_of_cons; tauto).
  destruct (placed_range _ _ _ _ _ (ho_seg _ _ H) (used_placed _ _ _ Hin)) as (Ho & _).
  assert (D : dirp - base = chunk_memory o) by lia. assert (dirp <> 0) by (unfold chunk_memory, sizeof_header in *; lia).
  unfold check_ebadf. rewrite (proj2 (Z.eqb_neq _ 0)) by done. by rewrite D.
Qed.
(** The position is written: the stream is at the new one and no other block has changed. *)
Lemma stream_set_loc s l pre o b post dirp i h loc loc' : stream s l pre o b post dirp i h loc ->
  let s' := ds_mem (set_dir_loc (chunk_memory o) loc') s in
  stream s' l pre o b post dirp i h (s32 loc') /\ same_bytes (pre ++ post) (h_mem (ds_heap s)) (h_mem (ds_heap s')).
Proof using.
  clear Hself Howner Hsp Haddr Hbase. intros [H U R E K W1 W2 W3] s'. set (m' := set_dir_loc (chunk_memory o) loc' (h_mem (ds_heap s))).
  destruct (block_write _ l pre o b post m' H U R) as [H' B']; [intros x y Hxy; apply set_dir_loc_agree; unfold sizeof_DIR in *; lia|].
  destruct (set_dir_loc_words (chunk_memory o) loc' (h_mem (ds_heap s))) as (V1 & V2 & V3 & V4). fold m' in V1, V2, V3, V4.
  split; [|exact B']. split; try done; cbn [ds_mem on_heap ds_heap on_mem h_mem s']; fold m'; congruence.
Qed.
Lemma same_bytes_refl l m : same_bytes l m m.
Proof using. apply Forall_forall. intros x _. reflexivity. Qed.
Lemma same_bytes_step l m m' m'' : same_bytes l m m' -> same_bytes l m' m'' -> same_bytes l m m''.
Proof using. apply same_bytes_trans. Qed.

(** A stream whose words were overwritten, or [NULL], is refused by every call, and nothing changes. *)
Lemma corrupt_refused s dirp loc : check_ebadf base dirp s = false ->
  readD dirp s = Some (ds_err EBADF s, -1, None) /\ closeD dirp s = Some (ds_err EBADF s, -1) /\
  seekdir base dirp loc s = ds_err EBADF s /\ rewinddir base dirp s = ds_err EBADF s /\ telldir base dirp s = (ds_err EBADF s, -1).
Proof using. intros H. unfold readdir_r, closedir, seekdir, rewinddir, telldir. by rewrite H. Qed.

Lemma read_step s l pre o b post dirp i h loc d r e : stream s l pre o b post dirp i h loc -> fs_list !! i = Some d ->
  do_readdir_r d h loc (ds_fs s) = Some (r, e) -> 0 <= r ->
  readD dirp s = Some (ds_mem (set_dir_loc (chunk_memory o) (loc + 1)) s, 0, e).
Proof using Haddr Hbase.
  clear Hself Howner Hsp. intros St Hd Hr Hr0. destruct (stream_check _ _ _ _ _ _ _ _ _ _ St) as (C & A & _). destruct St as [_ _ _ _ _ W1 W2 W3].
  unfold readdir_r. rewrite C, A, W1, W2, W3, (fs_of_address i d Hd), Hr. cbn [negb]. by rewrite (proj2 (Z.ltb_ge _ _)) by lia.
Qed.
Lemma read_end s l pre o b post dirp i h loc d r e : stream s l pre o b post dirp i h loc -> fs_list !! i = Some d ->
  do_readdir_r d h loc (ds_fs s) = Some (r, e) -> r < 0 -> exists s' r', readD dirp s = Some (s', r', None) /\ ds_heap s' = ds_heap s /\ ds_fs s' = ds_fs s.
Proof using Haddr Hbase.
  clear Hself Howner Hsp. intros St Hd Hr Hr0. destruct (stream_check _ _ _ _ _ _ _ _ _ _ St) as (C & A & _). destruct St as [_ _ _ _ _ W1 W2 W3].
  unfold readdir_r. rewrite C, A, W1, W2, W3, (fs_of_address i d Hd), Hr. cbn [negb]. rewrite (proj2 (Z.ltb_lt _ _)) by lia.
  unfold ds_return. destruct (r <? -1); by do 2 eexists.
Qed.
Lemma stream_heap s s' l pre o b post dirp i h loc : ds_heap s' = ds_heap s -> stream s l pre o b post dirp i h loc -> stream s' l pre o b post dirp i h loc.
Proof using. intros E []. split; by rewrite ?E. Qed.

(** The entries from position [loc] on, to the end. *)
Lemma read_from d h f entries i l pre o b post dirp : fs_list !! i = Some d -> Zlen entries < 2 ^ 31 ->
  (forall loc, 0 <= loc < Zlen entries -> exists r e, entries !! Z.to_nat loc = Some e /\ do_readdir_r d h loc f = Some (r, Some e) /\ 0 <= r) ->
  (exists r, do_readdir_r d h (Zlen entries) f = Some (r, None) /\ r < 0) ->
  forall k n s, ds_fs s = f -> stream s l pre o b post dirp i h (Zlen entries - Z.of_nat k) -> (k <= length entries)%nat -> (k < n)%nat ->
  exists s', readsD n dirp s = Some (s', drop (length entries - k) entries) /\ ds_fs s' = f /\ stream s' l pre o b post dirp i h (Zlen entries) /\
    same_bytes (pre ++ post) (h_mem (ds_heap s)) (h_mem (ds_heap s')).
Proof using Haddr Hbase.
  clear Hself Howner Hsp. intros Hd Hlen Hent Hend. assert (EZ : Zlen entries = Z.of_nat (length entries)) by done. induction k as [|k IH]; intros n s Hf St Hk Hn; (destruct n as [|n]; [lia|]); cbn [read_entries].
  - rewrite Z.sub_0_r in St. destruct Hend as (r & Hr & Hr0). rewrite <- Hf in Hr. destruct (read_end _ _ _ _ _ _ _ _ _ _ _ _ _ St Hd Hr Hr0) as (s' & r' & -> & Eh & Ef).
    exists s'. rewrite Nat.sub_0_r, drop_all. split; [done|]. split; [congruence|]. split; [by apply (stream_heap s)|]. rewrite Eh. apply same_bytes_refl.
  - destruct (Hent (Zlen entries - Z.of_nat (S k)) ltac:(lia)) as (r & e & He & Hr & Hr0). rewrite <- Hf in Hr.
    rewrite (read_step _ _ _ _ _ _ _ _ _ _ _ _ _ St Hd Hr Hr0). destruct (stream_set_loc _ _ _ _ _ _ _ _ _ _ (Zlen entries - Z.of_nat (S k) + 1) St) as [St' B].
    rewrite s32_id in St' by lia. replace (Zlen entries - Z.of_nat (S k) + 1) with (Zlen entries - Z.of_nat k) in * by lia.
    destruct (IH n (ds_mem (set_dir_loc (chunk_memory o) (Zlen entries - Z.of_nat k)) s) Hf St' ltac:(lia) ltac:(lia)) as (s' & E & Ef & St'' & B'). change (0 <? 0) with false. cbv iota. rewrite E. cbn [fmap option_fmap option_map prod_map].
    exists s'. split; [|split; [done|]; split; [done|by apply (same_bytes_step _ _ _ _ B)]]. do 2 f_equal. cbn [fst snd].
    rewrite (drop_S entries e (length entries - S k)); [f_equal; f_equal; lia|]. rewrite <- He. f_equal. lia.
Qed.
(** A successful close gives the block back; the others keep every byte. *)
Lemma close_step s l pre o b post dirp i h loc d f r h' : stream s l pre o b post dirp i h loc -> fs_list !! i = Some d ->
  do_closedir d h (ds_fs s) = (f, r, h') -> 0 <= r ->
  exists s' l', closeD dirp s = Some (s', r) /\ heap_ok (ds_heap s') l' /\ used 0 l' = pre ++ post /\ same_bytes (pre ++ post) (h_mem (ds_heap s)) (h_mem (ds_heap s')).
Proof using Hself Haddr Hbase.
  clear Howner Hsp. intros St Hd Hc Hr. destruct (stream_check _ _ _ _ _ _ _ _ _ _ St) as (C & A & _). destruct St as [H U R _ _ W1 W2 _].
  unfold closedir. rewrite C, A, W1, W2, (fs_of_address i d Hd), Hc. cbn [negb]. unfold ds_return. rewrite (proj2 (Z.ltb_ge _ _)) by lia.
  set (m' := set_dir_handle (chunk_memory o) h' (h_mem (ds_heap s))).
  destruct (block_write _ l pre o b post m' H U R) as [H' B']; [intros x y Hxy; apply store32_agree; unfold sizeof_DIR in *; lia|].
  destruct (free_spec self (Some sp) (on_mem (fun _ => m') (ds_heap s)) l pre o b post Hself H' U) as (h1 & l1 & E1 & H1 & U1 & _ & B1 & _).
  eexists _, l1. split; [reflexivity|]. unfold free_dir, ds_mem, with_fs, on_heap. cbn [ds_heap].
  change (on_mem (set_dir_handle (chunk_memory o) h') (ds_heap s)) with (on_mem (fun _ => m') (ds_heap s)). rewrite E1. cbn [default]. unfold id.
  split; [done|]. split; [done|]. by apply (same_bytes_step _ _ _ _ B').
Qed.

(** A path of a mounted file system. *)
Definition found (after dirname : path) (i : nat) (d : dir_ops F) : Prop :=
  sysfs_ispathinvalid after dirname = None /\ sysfs_find ((fun d => m_path (do_mount d)) <$> fs_list) dirname false = Some i /\ fs_list !! i = Some d.
(** The heap has its blocks as before, byte for byte. *)
Definition blocks_kept (l : list block) s s' : Prop :=
  exists l', heap_inv (ds_heap s') l' /\ used 0 l' = used 0 l /\ same_bytes (used 0 l) (h_mem (ds_heap s)) (h_mem (ds_heap s')).
Lemma open_step after dirname i d f1 r h s l : heap_inv (ds_heap s) l -> found after dirname i d ->
  (forall h0, exists h', do_opendir d (sysfs_stripmountpath (m_path (do_mount d)) dirname) h0 (ds_fs s) = (f1, r, h') /\ (0 <= r -> h' = h)) -> 0 <= h < 2 ^ 32 ->
  exists s' dirp, openD after dirname s = (s', dirp) /\
  ((dirp = 0 /\ ds_errno s' = ENOMEM /\ _malloc_r self owner_id (Some sp) 3 sizeof_DIR (ds_heap s) = Some (ds_heap s', inr ENOMEM) /\
    blocks_kept l s s') \/
   (dirp = 0 /\ r < 0 /\ (r < -1 -> ds_errno s' = SYSFS_GET_RETURN_ERRNO r) /\ blocks_kept l s s') \/
   (0 <= r /\ ds_fs s' = f1 /\ exists l' pre o b post, stream s' l' pre o b post dirp i h 0 /\ used 0 l = pre ++ post /\ same_bytes (used 0 l) (h_mem (ds_heap s)) (h_mem (ds_heap s')))).
Proof using Hself Howner Hsp Haddr.
  intros Hi (P1 & P2 & P3) Ho Hh. pose proof (proj1 (Haddr i (lookup_lt_Some _ _ _ P3))) as Hai. unfold opendir. rewrite P1, P2, P3.
  destruct (malloc_spec self owner_id sp 3 sizeof_DIR (ds_heap s) l Hself Howner Hsp ltac:(done) ltac:(lia) Hi)
    as (h1 & l1 & H1 & _ & B1 & [(o & n & pre & post & -> & Hn & U & U1 & _)|[E U1]]).
  2:{ rewrite E. do 2 eexists. split; [reflexivity|]. left. split; [done|]. split; [done|]. split; [done|]. exists l1. done. }
  assert (H1' : heap_ok h1 l1) by (destruct H1 as [?|[_ ->]]; [done|by destruct pre]).
  set (b := mk_block owner_id n sizeof_DIR) in *. cbn [on_heap ds_fs ds_heap]. destruct (Ho (dir_handle (h_mem h1) (chunk_memory o))) as (h' & -> & Eh).
  assert (R : sizeof_DIR <= CONFIG_MALLOC_CHUNK_SIZE * b_chunks b - sizeof_header) by exact Hn.
  set (m1 := set_dir_handle (chunk_memory o) h' (h_mem h1)).
  destruct (block_write _ l1 pre o b post m1 H1' U1 R) as [H2 B2]; [intros x y Hxy; apply store32_agree; unfold sizeof_DIR in *; lia|].
  destruct (Z.ltb_spec r 0) as [Hr|Hr].
  - do 2 eexists. split; [reflexivity|]. right; left. split; [done|]. split; [done|].
    destruct (free_spec self (Some sp) (on_mem (fun _ => m1) h1) l1 pre o b post Hself H2 U1) as (h3 & l3 & E3 & H3 & U3 & _ & B3 & _).
    split; [intros Hr1; unfold ds_return; by rewrite (proj2 (Z.ltb_lt _ _)) by lia|]. exists l3.
    unfold ds_return. destruct (r <? -1); cbn [fst free_dir on_heap ds_heap ds_mem with_fs ds_err];
      change (on_mem (set_dir_handle (chunk_memory o) h') h1) with (on_mem (fun _ => m1) h1); rewrite E3; cbn [default]; unfold id;
      (split; [by left|]; split; [congruence|]; rewrite U in *; eapply same_bytes_step; [exact B1|]; by apply (same_bytes_step _ _ _ _ B2)).
  - specialize (Eh Hr). subst h'. do 2 eexists. split; [reflexivity|]. right; right. split; [done|]. split; [done|]. exists l1, pre, o, b, post.
    set (m2 := store32 (chunk_memory o) (fs_address i) m1). set (m3 := set_dir_loc (chunk_memory o) 0 m2).
    assert (A3 : forall x y, chunk_memory o + sizeof_DIR <= x \/ y <= chunk_memory o -> agree x y m1 m3).
    { intros x y Hxy. etrans; [apply (store32_agree (chunk_memory o) (fs_address i))|apply set_dir_loc_agree]; unfold sizeof_DIR in *; lia. }
    destruct (block_write _ l1 pre o b post m3 H2 U1 R A3) as [H4 B4]. destruct (set_dir_loc_words (chunk_memory o) 0 m2) as (V1 & V2 & V3 & V4). fold m3 in V1, V2, V3, V4.
    split; [|split; [done|]; rewrite U in *; eapply same_bytes_step; [exact B1|]; by apply (same_bytes_step _ _ _ _ B2)].
    split; try done; cbn [ds_mem on_heap ds_heap on_mem h_mem with_fs]; fold m1; fold m2; fold m3.
    + rewrite V2. unfold dir_fs, m2. rewrite load32_store32_eq. by rewrite u32_id by exact Hai.
    + rewrite V3. unfold dir_handle. rewrite (load32_agree m1 m2 (chunk_memory o + 4) (chunk_memory o + 8)) by (lia || (apply store32_agree; lia)).
      unfold m1, set_dir_handle. rewrite load32_store32_eq. by apply u32_id.
Qed.
Lemma seek_step s l pre o b post dirp i h loc loc' : stream s l pre o b post dirp i h loc -> - 2 ^ 31 <= loc' < 2 ^ 31 ->
  let s' := seekdir base dirp loc' s in
  stream s' l pre o b post dirp i h loc' /\ ds_fs s' = ds_fs s /\ telldir base dirp s' = (s', loc') /\
  same_bytes (pre ++ post) (h_mem (ds_heap s)) (h_mem (ds_heap s')).
Proof using Hbase.
  clear Hself Howner Hsp Haddr. intros St Hl s'. destruct (stream_check _ _ _ _ _ _ _ _ _ _ St) as (C & A & _). unfold s', seekdir. rewrite C, A. cbn [negb].
  destruct (stream_set_loc _ _ _ _ _ _ _ _ _ _ loc' St) as [St' B]. rewrite s32_id in St' by lia. split; [done|]. split; [done|]. split; [|done].
  destruct (stream_check _ _ _ _ _ _ _ _ _ _ St') as (C' & A' & _). unfold telldir. rewrite C', A'. cbn [negb]. f_equal. apply St'.
Qed.
Lemma rewind_seek dirp s : rewinddir base dirp s = seekdir base dirp 0 s.
Proof using. done. Qed.
End Streams.

(** ** Reading a directory *)

(** C10: A directory is listed entry by entry.  Opening it gives a stream, unless the allocator has no memory for one; then [errno] is
    [ENOMEM].  Reading the stream to its end gives exactly the entries of the directory in their order; from a position set with
    [seekdir], which [telldir] returns, it gives the entries from there on; and after [rewinddir] it gives all of them again.  Closing
    the stream then gives its memory back.  Whatever happens, the other blocks of the heap keep every byte.  This is for file
    systems that meet [Lists], fewer than 2^31 entries and a stack at most 2^21 above the heap. *)
Theorem directory_listed (L : PosixLimits) (F : Type) self owner_id sp base (fs_list : list (dir_ops F)) fs_address after dirname i d entries s l :
  0 <= self < 2 ^ 16 -> 0 <= owner_id < 2 ^ 16 -> sp <= 2 ^ 21 -> 0 <= base ->
  addresses_ok (length fs_list) fs_address ->
  heap_inv (ds_heap s) l -> found fs_list after dirname i d -> Zlen entries < 2 ^ 31 ->
  Lists d (ds_fs s) (sysfs_stripmountpath (m_path (do_mount d)) dirname) entries ->
  exists s1 dirp, opendir self owner_id (Some sp) base fs_list fs_address after dirname s = (s1, dirp) /\
  ((dirp = 0 /\ ds_errno s1 = ENOMEM /\ _malloc_r self owner_id (Some sp) 3 sizeof_DIR (ds_heap s) = Some (ds_heap s1, inr ENOMEM) /\
    blocks_kept l s s1) \/
   (dirp <> 0 /\ forall n k, (length entries < n)%nat -> (k <= length entries)%nat -> exists s2 s3 s4 s5 r,
      read_entries base fs_list fs_address n dirp s1 = Some (s2, entries) /\
      telldir base dirp (seekdir base dirp (Z.of_nat k) s2) = (seekdir base dirp (Z.of_nat k) s2, Z.of_nat k) /\
      read_entries base fs_list fs_address n dirp (seekdir base dirp (Z.of_nat k) s2) = Some (s3, drop k entries) /\
      read_entries base fs_list fs_address n dirp (rewinddir base dirp s3) = Some (s4, entries) /\
      closedir self (Some sp) base fs_list fs_address dirp s4 = Some (s5, r) /\ 0 <= r /\ blocks_kept l s s5)).
Proof.
  intros Hself Howner Hsp Hbase Haddr Hi Hf Hlen [(f1 & r & h & Ho & Hr & Hh & Hent & Hend & f2 & rc & hc & Hc & Hrc)].
  destruct (open_step self owner_id sp base fs_list fs_address Hself Howner Hsp Haddr after dirname i d f1 r h s l Hi Hf) as (s1 & dirp & E1 & [H|[H|H]]);
    [intros h0; exists h; by rewrite Ho|done| | |]; exists s1, dirp; (split; [exact E1|]); [by left|lia|right].
  destruct H as (_ & Ef & l1 & pre & o & b & post & St & U & B1). split; [by apply (stream_check base fs_address Hbase _ _ _ _ _ _ _ _ _ _ St)|]. intros n k Hn Hk.
  assert (EZ : Zlen entries = Z.of_nat (length entries)) by done. destruct Hf as (_ & _ & Hd).
  destruct (read_from base fs_list fs_address Hbase Haddr d h f1 entries i l1 pre o b post dirp Hd Hlen Hent Hend (length entries) n s1 Ef) as (s2 & R2 & Ef2 & St2 & B2);
    [by rewrite EZ, Z.sub_diag|done|done|]. rewrite Nat.sub_diag, drop_0 in R2.
  destruct (seek_step base fs_address Hbase _ _ _ _ _ _ _ _ _ _ (Z.of_nat k) St2 ltac:(lia)) as (St2' & Ef2' & T2 & B2').
  destruct (read_from base fs_list fs_address Hbase Haddr d h f1 entries i l1 pre o b post dirp Hd Hlen Hent Hend (length entries - k) n (seekdir base dirp (Z.of_nat k) s2)) as (s3 & R3 & Ef3 & St3 & B3);
    [congruence|by replace (Zlen entries - Z.of_nat (length entries - k)) with (Z.of_nat k) by lia|lia|lia|].
  replace (length entries - (length entries - k))%nat with k in R3 by lia.
  destruct (seek_step base fs_address Hbase _ _ _ _ _ _ _ _ _ _ 0 St3 ltac:(lia)) as (St3' & Ef3' & _ & B3').
  destruct (read_from base fs_list fs_address Hbase Haddr d h f1 entries i l1 pre o b post dirp Hd Hlen Hent Hend (length entries) n (seekdir base dirp 0 s3)) as (s4 & R4 & Ef4 & St4 & B4);
    [congruence|by rewrite EZ, Z.sub_diag|done|done|]. rewrite Nat.sub_diag, drop_0 in R4. rewrite <- Ef4 in Hc.
  destruct (close_step self sp base fs_list fs_address Hself Hbase Haddr _ _ _ _ _ _ _ _ _ _ _ _ _ _ St4 Hd Hc Hrc) as (s5 & l5 & E5 & H5 & U5 & B5).
  exists s2, s3, s4, s5, rc. rewrite rewind_seek. do 5 (split; [done|]). split; [done|]. exists l5. split; [by left|]. split; [congruence|]. rewrite U in *.
  do 5 (eapply same_bytes_step; [eassumption|]). by eapply same_bytes_step.
Qed.

(** ** The directories of the file systems *)

Section Instances.
Context {L : PosixLimits} {F : Type} (f : F).

(** The asset file system. *)
Definition asset_dir (mt : mount_t F) (files : list assetfs_dirent_t) : dir_ops F :=
  mk_dir_ops mt (fun p h f => let '(r, h) := assetfs_opendir p h in (f, r, h))
    (fun h loc f => let '(r, e) := assetfs_readdir_r files h loc in Some (r, (fun e => mk_entry e.2 e.1) <$> e))
    (fun h f => let '(r, h) := assetfs_closedir h in (f, r, h)).
Lemma Zlen_imap {A} (g : nat -> A -> dirent) (x : list A) : Zlen (imap g x) = Zlen x.
Proof using. unfold Zlen. by rewrite length_imap. Qed.
Lemma lookup_imap_entry {A} (g : nat -> A -> dirent) (x : list A) loc : 0 <= loc < Zlen (imap g x) ->
  exists a, x !! Z.to_nat loc = Some a /\ imap g x !! Z.to_nat loc = Some (g (Z.to_nat loc) a) /\ loc < Zlen x.
Proof using.
  unfold Zlen. rewrite length_imap. intros H. destruct (lookup_lt_is_Some_2 x (Z.to_nat loc)) as [a Ha]; [lia|]. exists a.
  rewrite list_lookup_imap, Ha. cbn. split; [done|]. split; [done|lia].
Qed.
#[export] Instance asset_lists mt files : Lists (asset_dir mt files) f [] (imap (fun i e => mk_entry (Z.of_nat i) (take (Z.to_nat NAME_MAX) (d_name e))) files).
Proof.
  split. exists f, 0, VALID_DIR_HANDLE. cbn [asset_dir do_opendir do_readdir_r do_closedir]. unfold assetfs_opendir, assetfs_closedir, assetfs_readdir_r, get_directory_entry, count.
  assert (E : strncmp_eq [] [] PATH_MAX = true) by (unfold strncmp_eq; by rewrite bool_decide_eq_true_2). rewrite E, Z.eqb_refl. cbn [negb].
  split; [done|]. split; [lia|]. split; [unfold VALID_DIR_HANDLE; lia|]. split_and!.
  - intros loc Hloc. destruct (lookup_imap_entry _ _ _ Hloc) as (e & He & Hi & Hl). exists 0, (mk_entry loc (take (Z.to_nat NAME_MAX) (d_name e))).
    rewrite Hi, Z2Nat.id by lia. rewrite (proj2 (Z.ltb_ge loc 0)), (proj2 (Z.leb_gt _ loc)), He by lia. done.
  - exists (-1). rewrite Zlen_imap. pose proof (Zlen_nonneg files). rewrite (proj2 (Z.ltb_ge _ 0)), (proj2 (Z.leb_le _ _)) by lia. done.
  - by do 3 eexists.
Qed.

(** The devices. *)
Definition device_dir (mt : mount_t F) (devices : list devfs_device_t) : dir_ops F :=
  mk_dir_ops mt (fun p h f => let '(r, h) := devfs_opendir devices p h in (f, r, h))
    (fun _ loc f => let '(r, e) := devfs_readdir_r devices loc in Some (r, (fun e => mk_entry e.2 e.1) <$> e))
    (fun h f => (f, 0, h)).
Lemma device_lists mt devices : Zlen devices < 2 ^ 32 -> Lists (device_dir mt devices) f [] (imap (fun i e => mk_entry (Z.of_nat i) (dev_name e)) devices).
Proof.
  intros Hn. split. exists f, 0, 0. cbn [device_dir do_opendir do_readdir_r do_closedir]. unfold devfs_opendir, devfs_readdir_r.
  assert (E : strncmp_eq [] [] PATH_MAX = true) by (unfold strncmp_eq; by rewrite bool_decide_eq_true_2). rewrite E. cbn [negb].
  split; [done|]. split; [lia|]. split; [lia|]. split_and!.
  - intros loc Hloc. destruct (lookup_imap_entry _ _ _ Hloc) as (e & He & Hi & Hl). exists 0, (mk_entry loc (dev_name e)).
    rewrite Hi, Z2Nat.id by lia. rewrite u32_id, (proj2 (Z.ltb_lt _ _)), He by lia. done.
  - eexists. rewrite Zlen_imap. pose proof (Zlen_nonneg devices). rewrite u32_id, Z.ltb_irrefl by lia. split; [reflexivity|]. by vm_compute.
  - by do 3 eexists.
Qed.

(** The root directory: as many entries of the table as there are file systems mounted besides the root. *)
Lemma count_mounted_le (x : list (mount_t F)) : 0 <= count_mounted x f <= Zlen x.
Proof using. induction x as [|m x IH]; [done|]. rewrite Zlen_cons. cbn [count_mounted]. destruct (m_ismounted m f); lia. Qed.
Definition root_entries (cfg : list (mount_t F)) (n : Z) : list dirent := imap (fun i m => mk_entry (Z.of_nat i) (drop 1 (m_path m))) (take (Z.to_nat n) cfg).
Lemma root_lists cfg mnt perm : 0 <= get_entries cfg f -> Lists (SYSFS_MOUNT cfg mnt perm) f [] (root_entries cfg (get_entries cfg f)).
Proof.
  intros Hn. pose proof (count_mounted_le cfg) as Hc. assert (Hg : get_entries cfg f = count_mounted cfg f - 1) by done.
  assert (Hlen : Zlen (root_entries cfg (get_entries cfg f)) = get_entries cfg f). { unfold root_entries, Zlen in *. rewrite length_imap, length_take. lia. }
  split. exists f, 0, 0. cbn [SYSFS_MOUNT do_opendir do_readdir_r do_closedir]. split; [done|]. split; [lia|]. split; [lia|]. split_and!.
  - intros loc Hloc. destruct (lookup_imap_entry _ _ _ Hloc) as (m & Hm & Hi & _). rewrite Hlen in Hloc. exists loc, (mk_entry loc (drop 1 (m_path m))). unfold root_entries.
    rewrite Hi, Z2Nat.id by lia. split; [done|]. split; [|lia]. unfold rootfs_readdir_r. rewrite (proj2 (Z.ltb_lt _ _)), (proj2 (Z.ltb_ge _ 0)) by lia.
    apply lookup_take_Some in Hm as [Hm _]. by rewrite Hm.
  - exists (-1). rewrite Hlen. unfold rootfs_readdir_r. by rewrite Z.ltb_irrefl.
  - unfold rootfs_closedir. by do 3 eexists.
Qed.
End Instances.
Lemma count_mounted_all {F} (f : F) (x : list (mount_t F)) : Forall (fun m => m_ismounted m f = true) x -> count_mounted x f = Zlen x.
Proof. induction 1 as [|m x Hm _ IH]; [done|]. rewrite Zlen_cons. cbn [count_mounted]. rewrite Hm, IH. lia. Qed.
(** When everything is mounted and the root is the last entry of the table, the root directory has the other mount points as its entries. *)
Lemma root_lists_mounts (L : PosixLimits) {F} (f : F) pre root mnt perm : Forall (fun m => m_ismounted m f = true) (pre ++ [root]) ->
  Lists (SYSFS_MOUNT (pre ++ [root]) mnt perm) f [] (imap (fun i m => mk_entry (Z.of_nat i) (drop 1 (m_path m))) pre).
Proof.
  intros H. assert (E : get_entries (pre ++ [root]) f = Zlen pre). { unfold get_entries. rewrite count_mounted_all by done. unfold Zlen. rewrite length_app. cbn [length]. lia. }
  pose proof (root_lists f (pre ++ [root]) mnt perm) as R. rewrite E in R. unfold root_entries, Zlen in R. rewrite Nat2Z.id, take_app_length in R. apply R. lia.
Qed.

(** ** A board *)

(** Assets, devices and the root; the number says whether the assets are mounted. *)
Definition board_mounts : list (mount_t Z) :=
  [mk_mount (str "/assets") 365 (fun f => negb (f =? 0)); mk_mount (str "/dev") 365 (fun _ => true); mk_mount (str "/") 365 (fun _ => true)].
Definition board : list (dir_ops Z) :=
  [asset_dir (L := example_limits) (mk_mount (str "/assets") 365 (fun f => negb (f =? 0))) image_entries;
   device_dir (L := example_limits) (mk_mount (str "/dev") 365 (fun _ => true)) [mk_device (str "fifo") 438 0 0 0];
   SYSFS_MOUNT board_mounts (str "/") 365].
Definition board_address (i : nat) : Z := (134217728 + 160 * Z.of_nat i) mod 2 ^ 32.
Definition board_state (f : Z) : dstate Z := mk_ds demo_new f 0 (mk_entry 0 []).
Definition board_open (p : path) (f : Z) : dstate Z * Z := opendir (L := example_limits) 1 0 demo_stack 65536 board board_address [] p (board_state f).
Definition board_list (p : path) (f : Z) : option (list dirent) := let '(s, dirp) := board_open p f in snd <$> read_entries 65536 board board_address 10 dirp s.
Lemma board_addresses : addresses_ok (length board) board_address.
Proof. intros i Hi. split; [unfold board_address; apply Z.mod_pos_bound; lia|]. intros j Hj. cbn in Hi, Hj. unfold board_address. rewrite !Z.mod_small by lia. lia. Qed.

Lemma directory_listed_witness : board_list (str "/") 1 = Some [mk_entry 0 (str "assets"); mk_entry 1 (str "dev")].
Proof.
  destruct (directory_listed example_limits Z 1 0 65536 65536 board board_address [] (str "/") 2 (SYSFS_MOUNT board_mounts (str "/") 365)
    [mk_entry 0 (str "assets"); mk_entry 1 (str "dev")] (board_state 1) [] ltac:(lia) ltac:(lia) ltac:(lia) ltac:(lia) board_addresses
    (or_intror (conj eq_refl eq_refl)) ltac:(by vm_compute) ltac:(by vm_compute)
    (root_lists_mounts example_limits (1 : Z) (take 2 board_mounts) (mk_mount (str "/") 365 (fun _ => true)) (str "/") 365 ltac:(repeat constructor))) as (s1 & dirp & E & [(D & _)|(_ & H)]).
  - exfalso. assert (snd (board_open (str "/") 1) <> 0) as N by by vm_compute. apply N. unfold board_open, demo_stack. by rewrite E.
  - destruct (H 10%nat 0%nat ltac:(cbn; lia) ltac:(lia)) as (s2 & s3 & s4 & s5 & r & R & _). unfold board_list, board_open, demo_stack. by rewrite E, R.
Defined.

(** ** Where the root directory and the streams go wrong *)

(** The index of the loop that skips what is not mounted is not used: the assets are listed although they are not mounted, and the
    devices, which are, are missing. *)
Theorem root_names_unmounted : board_list (str "/") 0 = Some [mk_entry 0 (str "assets")].
Proof. vm_compute. reflexivity. Qed.
(** A stream of the root directory is still read after it was closed; the freed memory keeps its checksum. *)
Theorem closed_stream_read : let '(s, dirp) := board_open (str "/") 1 in
  (closedir 1 demo_stack 65536 board board_address dirp s ≫= fun r => (fun x => (r.2, x.1.2, x.2)) <$> readdir_r 65536 board board_address dirp r.1) = Some (0, 0, Some (mk_entry 0 (str "assets"))).
Proof. vm_compute. reflexivity. Qed.
(** A stream of the assets is refused: closing it changes the handle but not the checksum. *)
Example closed_asset_refused : let '(s, dirp) := board_open (str "/assets") 1 in
  (closedir 1 demo_stack 65536 board board_address dirp s ≫= fun r => (fun x => (x.1.2, ds_errno x.1.1)) <$> readdir_r 65536 board board_address dirp r.1) = Some (-1, EBADF).
Proof. vm_compute. reflexivity. Qed.
(** A name that begins with that of a mount point is a directory. *)
Theorem root_stat_partial_name : rootfs_stat (L := example_limits) board_mounts (str "devx") stat0 = (0, mk_stat (Z.lor S_IFDIR 365) 0 0 0 0 0).
Proof. vm_compute. reflexivity. Qed.
(** A negative position reads in front of the table of file systems. *)
Theorem root_negative_position {F} cfg handle loc (f : F) : loc < 0 -> loc < get_entries cfg f -> rootfs_readdir_r cfg handle loc f = None.
Proof. intros H1 H2. unfold rootfs_readdir_r. by rewrite !(proj2 (Z.ltb_lt _ _)) by done. Qed.
