(* ===== verification/Boot.v ===== *)
(** * The boot loader

    The boot loader of the device, [src/boot/boot_link.c] and [boot_main.c], and the calls of the host
    that use it, [src/link/link_bootloader.c].

    Host and device are the programs over whole transfers of [Remote.v]; the loop of the boot loader takes
    the place of the command interpreter.  The flash driver, the cryptography and the configuration of
    the board are classes.  The image is written page by page, with its first 256 bytes kept back until the
    signature over the pages is verified.  Events for the board, the LED, delays and debug output are
    left out, and so are the calls of the host that close the physical link. *)
From S2P Require Import Prelude Memory Link Transport Appfs Remote.

(** ** Requests *)

Definition BCDVERSION : Z := 1024.
Definition BOOTLOADER_WRITEPAGESIZE : Z := 1024.
Definition LINK_BOOTLOADER_CMD_TOTAL : Z := LINK_CMD_WRITE.
Definition SIZEOF_WRITEPAGE : Z := 1032.
Definition SIZEOF_SIGNATURE : Z := 64.
Definition SIZEOF_INFO : Z := 28.
Definition SIZEOF_INFO_LEGACY : Z := 24.
Definition _IOCTL (x y : Z) : Z := Z.lor (Z.shiftl x 8) y.
Definition _IOCTLR (x y size : Z) : Z := Z.lor (Z.lor (_IOCTL x y) (Z.shiftl (Z.land size 8191) 16)) _IOCTL_OUT.
Definition _IOCTLW (x y size : Z) : Z := Z.lor (Z.lor (_IOCTL x y) (Z.shiftl (Z.land size 8191) 16)) _IOCTL_IN.
Definition BOOTLOADER_IOC_IDENT_CHAR : Z := 98.
Definition I_BOOTLOADER_ERASE : Z := _IOCTL BOOTLOADER_IOC_IDENT_CHAR 0.
Definition I_BOOTLOADER_GETINFO : Z := _IOCTLR BOOTLOADER_IOC_IDENT_CHAR 1 SIZEOF_INFO.
Definition I_BOOTLOADER_GETATTR_LEGACY : Z := _IOCTLR BOOTLOADER_IOC_IDENT_CHAR 1 SIZEOF_INFO_LEGACY.
Definition I_BOOTLOADER_RESET : Z := _IOCTL BOOTLOADER_IOC_IDENT_CHAR 2.
Definition I_BOOTLOADER_WRITEPAGE : Z := _IOCTLW BOOTLOADER_IOC_IDENT_CHAR 3 SIZEOF_WRITEPAGE.
Definition I_BOOTLOADER_VERIFY_SIGNATURE : Z := _IOCTLW BOOTLOADER_IOC_IDENT_CHAR 4 SIZEOF_SIGNATURE.
Definition I_BOOTLOADER_IS_SIGNATURE_REQUIRED : Z := _IOCTL BOOTLOADER_IOC_IDENT_CHAR 5.
Definition I_BOOTLOADER_GET_PUBLIC_KEY : Z := _IOCTLR BOOTLOADER_IOC_IDENT_CHAR 6 SIZEOF_SIGNATURE.

(** [sos_config] of the board; [bc_serialno] are the four words of the serial number, [bc_errno] is
    [errno], which nothing of the boot loader sets. *)
Class BootConfig := {
  CONFIG_BOOT_IS_VERIFY_SIGNATURE : bool;
  program_start_address : Z;
  software_bootloader_request_value : Z;
  hardware_id : Z;
  bc_serialno : list Z;
  bc_public_key : list Z;
  bc_errno : Z }.
(** The flash driver: erasing a page; writing [nbyte] bytes of the buffer to an address. *)
Class BootFlash := {
  flash_erase_page : Z -> mem -> mem * Z;
  flash_write_page : Z -> Z -> list Z -> mem -> mem * Z }.
(** The hash over pages and the verification of a signature with the public key of the board. *)
Class BootCrypt := {
  sha_context_t : Type;
  sha_start : sha_context_t;
  sha_update : sha_context_t -> list Z -> sha_context_t;
  sha_finish : sha_context_t -> sha_context_t * list Z;
  dsa_verify : list Z -> list Z -> list Z -> Z }.

Section Boot.
Context {V : Version} {C : LinkConfig} {BC : BootConfig} {BF : BootFlash} {BY : BootCrypt}.

(** ** The device *)

(** Whether the loop goes on, the processor was reset, a page was longer than its buffer, or the erase of the flash does not end. *)
Inductive boot_mode := BLoop | BReset | BOverrun | BStuck.
(** [link_data_t] and the variables of the boot loader: the flash, the first page, the hash, and the word that asks for the boot loader. *)
Record boot := mk_boot {
  b_op : list Z; b_err : Z; b_err_number : Z; b_flash : mem; b_first_page : list Z; b_sha : sha_context_t; b_request : Z; b_mode : boot_mode }.
Definition b_with_op l d := mk_boot l (b_err d) (b_err_number d) (b_flash d) (b_first_page d) (b_sha d) (b_request d) (b_mode d).
Definition b_with_reply e n d := mk_boot (b_op d) e n (b_flash d) (b_first_page d) (b_sha d) (b_request d) (b_mode d).
Definition b_with_flash m d := mk_boot (b_op d) (b_err d) (b_err_number d) m (b_first_page d) (b_sha d) (b_request d) (b_mode d).
Definition b_with_first p d := mk_boot (b_op d) (b_err d) (b_err_number d) (b_flash d) p (b_sha d) (b_request d) (b_mode d).
Definition b_with_sha c d := mk_boot (b_op d) (b_err d) (b_err_number d) (b_flash d) (b_first_page d) c (b_request d) (b_mode d).
Definition b_with_request v d := mk_boot (b_op d) (b_err d) (b_err_number d) (b_flash d) (b_first_page d) (b_sha d) v (b_mode d).
Definition b_with_mode o d := mk_boot (b_op d) (b_err d) (b_err_number d) (b_flash d) (b_first_page d) (b_sha d) (b_request d) o.
Definition b_cmd d : Z := Zget (b_op d) 0.
Definition b_no_reply d : boot := b_with_op (Zset (b_op d) 0 0) d.
Definition b_reply d : list Z := le32 (b_err d) ++ le32 (b_err_number d).
Definition bdev := device boot.
Definition sizeof_first_page : Z := 256.

Definition boot_link_cmd_none (d : boot) (k : boot -> bdev) : bdev := k d.
(** The digits of the serial number, the last word first. *)
Definition hex_digits (v : Z) : list Z := (fun i => Z.of_N (Ascii.N_of_ascii (htoc (Z.land (Z.shiftr v (4 * (7 - i))) 15)))) <$> seqZ 0 8.
Definition boot_serialno : list Z := concat (hex_digits <$> rev (take 4 bc_serialno)).
Definition boot_link_cmd_readserialno (d : boot) (k : boot -> bdev) : bdev :=
  let d := b_with_reply (Zlen boot_serialno) 0 d in
  DWrite (b_reply d) (DWrite boot_serialno (k (b_no_reply d))).

(** The loops of [erase_flash], from page [page] on: first the pages that cannot be erased, then those that can. *)
Fixpoint skip_pages (fuel : nat) (page : Z) (m : mem) : option (mem * Z) :=
  match fuel with
  | O => None
  | Datatypes.S fuel => let '(m, r) := flash_erase_page page m in if negb (r =? 0) then skip_pages fuel (page + 1) m else Some (m, page)
  end.
Fixpoint erase_pages (fuel : nat) (page : Z) (m : mem) : option mem :=
  match fuel with
  | O => None
  | Datatypes.S fuel => let '(m, r) := flash_erase_page page m in if r =? 0 then erase_pages fuel (page + 1) m else Some m
  end.
(** The number of pages that are tried at most. *)
Definition MAX_PAGES : nat := Z.to_nat 65536.
Definition erase_flash (m : mem) : option mem :=
  match skip_pages MAX_PAGES 0 m with
  | None => None
  | Some (m, page) => erase_pages MAX_PAGES page m
  end.
Definition info_bytes : list Z := le32 BCDVERSION ++ concat (le32 <$> take 4 bc_serialno) ++ le32 program_start_address ++ le32 hardware_id.

(** The end of [boot_link_cmd_ioctl]. *)
Definition ioctl_end (d : boot) (k : boot -> bdev) : bdev := k (if b_err d <? 0 then b_with_reply (b_err d) bc_errno d else d).
Definition boot_link_cmd_reset (d : boot) : bdev := DRet (b_with_mode BReset (b_with_request 0 d)).
Definition boot_link_cmd_reset_bootloader (d : boot) : bdev := DRet (b_with_mode BReset (b_with_request software_bootloader_request_value d)).
(** [w] is the page as received.  The bytes behind the first 256 are moved to the front of the buffer, which is as [memcpy] does it
    from the first byte to the last. *)
Definition write_page (w : list Z) (d : boot) (k : boot -> bdev) : bdev :=
  let addr := get_u32 w 0 in
  let nbyte := get_u32 w 4 in
  let buf := drop 8 w in
  if addr =? program_start_address then
    if nbyte <? sizeof_first_page then k (b_with_reply (-1) EINVAL d)
    else if BOOTLOADER_WRITEPAGESIZE <? nbyte then DRet (b_with_mode BOverrun d)
    else
      let d := if CONFIG_BOOT_IS_VERIFY_SIGNATURE then b_with_sha (sha_update sha_start (take (Z.to_nat nbyte) buf)) d else d in
      let d := b_with_first (take (Z.to_nat sizeof_first_page) buf) d in
      let n := nbyte - sizeof_first_page in
      let buf := take (Z.to_nat n) (drop (Z.to_nat sizeof_first_page) buf) ++ replicate (Z.to_nat sizeof_first_page) 255 ++ drop (Z.to_nat nbyte) buf in
      let '(m, r) := flash_write_page (u32 (addr + sizeof_first_page)) n buf (b_flash d) in
      ioctl_end (b_with_reply r (b_err_number d) (b_with_flash m d)) k
  else if CONFIG_BOOT_IS_VERIFY_SIGNATURE && (BOOTLOADER_WRITEPAGESIZE <? nbyte) then DRet (b_with_mode BOverrun d)
  else
    let d := if CONFIG_BOOT_IS_VERIFY_SIGNATURE then b_with_sha (sha_update (b_sha d) (take (Z.to_nat nbyte) buf)) d else d in
    let '(m, r) := flash_write_page addr nbyte buf (b_flash d) in
    ioctl_end (b_with_reply r (b_err_number d) (b_with_flash m d)) k.
Definition boot_verify_signature (signature : list Z) (d : boot) (k : boot -> bdev) : bdev :=
  let '(d, is_verified) :=
    if CONFIG_BOOT_IS_VERIFY_SIGNATURE then
      let '(c, hash) := sha_finish (b_sha d) in (b_with_sha c d, dsa_verify bc_public_key hash signature)
    else (d, 1) in
  if is_verified =? 1 then
    let buf := b_first_page d ++ drop (Z.to_nat sizeof_first_page) (drop 8 (stack_bytes SIZEOF_WRITEPAGE)) in
    let '(m, r) := flash_write_page program_start_address sizeof_first_page buf (b_flash d) in
    ioctl_end (b_with_reply r (b_err_number d) (b_with_flash m d)) k
  else ioctl_end d k.
Definition boot_link_cmd_ioctl (d : boot) (k : boot -> bdev) : bdev :=
  let request := get_u32 (b_op d) 5 in
  let size := _IOCTL_SIZE request in
  let received l := l ++ drop (length l) (stack_bytes size) in
  if request =? I_BOOTLOADER_ERASE then
    DWrite (b_reply d)
      (let d := b_no_reply d in
       match erase_flash (b_flash d) with
       | None => DRet (b_with_mode BStuck d)
       | Some m => k (b_with_flash m d)
       end)
  else if request =? I_BOOTLOADER_GETINFO then DWrite (take (Z.to_nat size) info_bytes) (ioctl_end (b_with_reply 0 (b_err_number d) d) k)
  else if request =? I_BOOTLOADER_RESET then
    if get_u32 (b_op d) 9 =? 0 then boot_link_cmd_reset d else boot_link_cmd_reset_bootloader d
  else if request =? I_BOOTLOADER_IS_SIGNATURE_REQUIRED then
    ioctl_end (b_with_reply (if CONFIG_BOOT_IS_VERIFY_SIGNATURE then 1 else 0) (b_err_number d) d) k
  else if request =? I_BOOTLOADER_WRITEPAGE then DRead size Zlen (fun l => write_page (received l) d k)
  else if request =? I_BOOTLOADER_GET_PUBLIC_KEY then
    DWrite (take (Z.to_nat size) (if CONFIG_BOOT_IS_VERIFY_SIGNATURE then bc_public_key else replicate 64 0)) (ioctl_end d k)
  else if request =? I_BOOTLOADER_VERIFY_SIGNATURE then DRead size Zlen (fun l => boot_verify_signature (received l) d k)
  else ioctl_end (b_with_reply (-1) EINVAL d) k.
(** The callback for every packet; [ret] is what it was asked for. *)
Fixpoint flash_pieces (fuel : nat) (m : mem) (loc nbyte bytes : Z) : list Z * Z :=
  match fuel with
  | O => ([], bytes)
  | Datatypes.S fuel =>
      let n := next_size nbyte bytes in
      let data := (fun i => if CONFIG_BOOT_IS_VERIFY_SIGNATURE then 0 else load8 m (loc + i)) <$> seqZ 0 n in
      if (bytes + n <? nbyte) && (n =? data_size)
      then let '(more, r) := flash_pieces fuel m (loc + n) nbyte (bytes + n) in (data ++ more, r)
      else (data, if bytes + n =? 0 then n else bytes + n)
  end.
Definition read_flash (m : mem) (loc nbyte : Z) : list Z * Z := flash_pieces (Datatypes.S (Z.to_nat nbyte)) m loc nbyte 0.
Definition boot_link_cmd_read (d : boot) (k : boot -> bdev) : bdev :=
  let '(data, r) := read_flash (b_flash d) (get_s32 (b_op d) 1) (get_s32 (b_op d) 5) in
  DWrite data (k (b_with_reply r (b_err_number d) d)).
Definition boot_link_cmd_func_table : list (boot -> (boot -> bdev) -> bdev) :=
  [boot_link_cmd_none; boot_link_cmd_readserialno; boot_link_cmd_ioctl; boot_link_cmd_read].
Definition boot_send_reply (d : boot) : bdev := if negb (b_cmd d =? 0) then DWrite (b_reply d) (DRet (b_no_reply d)) else DRet d.
(** A round of the loop of [boot_link_update]. *)
Definition boot_link_update (d : boot) : bdev :=
  match b_mode d with
  | BLoop =>
      DRead SIZEOF_OP Zlen (fun l =>
        let d := b_with_op (l ++ drop (length l) (b_op d)) d in
        match boot_link_cmd_func_table !! Z.to_nat (b_cmd d) with
        | Some cmd => cmd (b_with_reply 0 0 d) boot_send_reply
        | None => boot_send_reply (b_with_reply (-1) EINVAL d)
        end)
  | _ => DFlush (DRet d)
  end.

(** ** Starting the program *)

(** [check_run_app]; the word that asks for the boot loader is cleared when it is looked at. *)
Definition check_run_app (is_bootloader_requested : bool) (m : mem) (request : Z) : Z * bool :=
  if load32 m program_start_address =? 4294967295 then (request, false)
  else if is_bootloader_requested then (request, false)
  else if negb (software_bootloader_request_value =? 0) && (software_bootloader_request_value =? request) then (0, false)
  else (0, true).
(** [boot_main]: the address the program is started at, or the loop of the boot loader. *)
Definition boot_main (is_bootloader_requested : bool) (m : mem) (request : Z) : Z * option Z :=
  let app_reset := load32 m (program_start_address + 4) in
  let '(request, run_app) := check_run_app is_bootloader_requested m request in
  (request, if run_app then Some app_reset else None).
Definition boot_invoke_bootloader : Z := software_bootloader_request_value.

(** ** The host *)

Fixpoint hbind {A B : Type} (h : host A) (k : A -> host B) : host B :=
  match h with
  | HRet a => k a
  | HWrite l f => HWrite l (fun e => hbind (f e) k)
  | HRead n f => HRead n (fun l e => hbind (f l e) k)
  | HFlush h => HFlush (hbind h k)
  end.
Definition LINK_DEVICE_PRESENT_BUT_NOT_BOOTLOADER : Z := -8183650.
Definition boot_ioctl (request : Z) (argp : list Z) : host answer := link_ioctl LINK_BOOTLOADER_FILDES request 0 argp.
(** The attributes, and what is returned. *)
Definition link_bootloader_attr : host (Z * list Z) :=
  hbind (boot_ioctl I_BOOTLOADER_GETINFO []) (fun a =>
    HRet (if a_ret a <? 0 then if default 0 (a_errno a) =? 9 then LINK_DEVICE_PRESENT_BUT_NOT_BOOTLOADER else -1 else 0, a_data a)).
Definition link_bootloader_attr_legacy : host (Z * list Z) :=
  hbind (boot_ioctl I_BOOTLOADER_GETATTR_LEGACY []) (fun a =>
    HRet (if a_ret a <? 0 then (if negb (default 0 (a_errno a) =? 0) then LINK_DEVICE_PRESENT_BUT_NOT_BOOTLOADER else -1, [])
          else (0, take (Z.to_nat SIZEOF_INFO_LEGACY) (a_data a) ++ le32 1))).
Definition is_bootloader (r : Z) : Z := if r =? LINK_DEVICE_PRESENT_BUT_NOT_BOOTLOADER then 0 else if r <? 0 then -1 else 1.
Definition link_isbootloader : host Z := hbind link_bootloader_attr (fun r => HRet (is_bootloader r.1)).
Definition link_isbootloader_legacy : host Z := hbind link_bootloader_attr_legacy (fun r => HRet (is_bootloader r.1)).
Definition link_verify_signature (version : Z) (signature : list Z) : host Z :=
  if version <? 1024 then HRet 0 else hbind (boot_ioctl I_BOOTLOADER_VERIFY_SIGNATURE signature) (fun a => HRet (a_ret a)).
Definition link_get_public_key (version public_key_size : Z) : host (Z * list Z) :=
  if version <? 1024 then HRet (0, [])
  else if negb (public_key_size =? 64) then HRet (SYSFS_SET_RETURN 181 EINVAL, [])
  else hbind (boot_ioctl I_BOOTLOADER_GET_PUBLIC_KEY []) (fun a => HRet (if a_ret a <? 0 then (SYSFS_SET_RETURN 190 EINVAL, []) else (0, a_data a))).
Definition link_is_signature_required (version : Z) : host Z :=
  if version <? 1024 then HRet 0 else hbind (boot_ioctl I_BOOTLOADER_IS_SIGNATURE_REQUIRED []) (fun a => HRet (a_ret a)).
Definition link_eraseflash : host Z := hbind (boot_ioctl I_BOOTLOADER_ERASE []) (fun a => HRet (a_ret a)).
Definition link_readflash (addr nbyte : Z) : host answer :=
  mwrite (LINK_CMD_READ :: le32 addr ++ le32 nbyte) just
    (mread nbyte transfer_err (fun data => mread SIZEOF_REPLY just (fun l => HRet (reply_answer data l)))).
(** [buf] is the memory from the caller's buffer on: every page has the size of the first. *)
Definition page_bytes (buf : Z -> Z) (off page_size : Z) : list Z := (fun i => buf (off + i)) <$> seqZ 0 page_size.
Definition wattr_bytes (addr page_size : Z) (data : list Z) : list Z :=
  le32 addr ++ le32 page_size ++ data ++ replicate (Z.to_nat BOOTLOADER_WRITEPAGESIZE - length data) 255.
Fixpoint write_pages (fuel : nat) (addr : Z) (buf : Z -> Z) (bytes_written page_size nbyte : Z) : host Z :=
  match fuel with
  | O => HRet nbyte
  | Datatypes.S fuel =>
      hbind (boot_ioctl I_BOOTLOADER_WRITEPAGE (wattr_bytes addr page_size (page_bytes buf bytes_written page_size))) (fun a =>
        if a_ret a <? 0 then HRet (a_ret a)
        else if bytes_written + page_size <? nbyte then write_pages fuel (u32 (addr + page_size)) buf (bytes_written + page_size) page_size nbyte
        else HRet nbyte)
  end.
Definition link_writeflash (addr : Z) (buf : Z -> Z) (nbyte : Z) : host Z :=
  write_pages (Datatypes.S (Z.to_nat nbyte)) addr buf 0 (Z.min BOOTLOADER_WRITEPAGESIZE nbyte) nbyte.
End Boot.

(** ** Programs in step *)

Section Steps.
Context {V : Version} {C : LinkConfig} {LO : LinkOk V C} {BC : BootConfig} {BF : BootFlash} {BY : BootCrypt}.
Implicit Types (d : boot) (dv : bdev).

Lemma run_mono {A D} (loop : D -> device D) n : forall (h : host A) p r m, run n loop h p = Some r -> (n <= m)%nat -> run m loop h p = Some r.
Proof using.
  induction n as [|n IH]; intros h p r m H Hm; [done|]. destruct m as [|m]; [lia|]. cbn [run] in *.
  destruct h, p; try done; try (apply (IH _ _ _ m) in H; [done|lia]).
  - destruct (ends_for _ _); [|done]. apply (IH _ _ _ m) in H; [done|lia].
  - destruct (_ <=? _); [apply (IH _ _ _ m) in H; [done|lia]|]. destruct (_ <=? _); [|done]. apply (IH _ _ _ m) in H; [done|lia].
Qed.
Lemma run_bind {A B D} (loop : D -> device D) (k : A -> host B) m r : forall n (h : host A) p a p',
  run n loop h p = Some (a, p') -> run m loop (k a) p' = Some r -> run (n + m) loop (hbind h k) p = Some r.
Proof using.
  induction n as [|n IH]; intros h p a p' H Hk; [done|]. change (Datatypes.S n + m)%nat with (Datatypes.S (n + m)).
  destruct h as [x|l f|i f|h]; [cbn [hbind]; injection H as <- <-; apply (run_mono _ m); [done|lia]|..]; cbn [hbind]; cbn [run] in *; destruct p as [s|j ans kd|l' kd|kd]; try done.
  - by apply (IH (HWrite l f) _ a p').
  - destruct (ends_for _ _); [|done]. by apply (IH _ _ a p').
  - by apply (IH (HRead i f) _ a p').
  - destruct (_ <=? _); [by apply (IH _ _ a p')|]. destruct (_ <=? _); [|done]. by apply (IH _ _ a p').
  - by apply (IH (HRead i f) _ a p').
  - by apply (IH (HFlush h) _ a p').
  - by apply (IH _ _ a p').
  - by apply (IH (HFlush h) _ a p').
  - by apply (IH _ _ a p').
Qed.

(** The host's program ends with result [a], the device is then at [dv']. *)
Definition gives {A} (h : host A) dv (a : A) dv' : Prop := exists n, run n boot_link_update h dv = Some (a, dv').
Lemma gives_ret {A} (a : A) dv : gives (HRet a) dv a dv.
Proof using. by exists 1%nat. Qed.
Lemma gives_bind {A B} (h : host A) (k : A -> host B) dv a dv' b dv'' : gives h dv a dv' -> gives (k a) dv' b dv'' -> gives (hbind h k) dv b dv''.
Proof using. intros [n Hn] [m Hm]. exists (n + m)%nat. by eapply run_bind. Qed.
Lemma gives_write {A} l (kh : Z -> host A) n ans kd a dv' : ends_for n l = true -> gives (kh (ans l)) (kd l) a dv' -> gives (HWrite l kh) (DRead n ans kd) a dv'.
Proof using. intros E [m H]. exists (Datatypes.S m). cbn [run]. by rewrite E. Qed.
Lemma gives_read {A} l kd n (kh : list Z -> Z -> host A) a dv' : Zlen l <= n -> gives (kh l (Zlen l)) kd a dv' -> gives (HRead n kh) (DWrite l kd) a dv'.
Proof using. intros E [m H]. exists (Datatypes.S m). cbn [run]. by rewrite (proj2 (Z.leb_le _ _) E). Qed.

(** The device is at the top of its loop. *)
Definition bready dv d : Prop := (dv = DRet d \/ dv = boot_link_update d) /\ b_mode d = BLoop /\ Zlen (b_op d) = SIZEOF_OP.
Definition op_of (request : Z) : list Z := LINK_CMD_IOCTL :: le32 LINK_BOOTLOADER_FILDES ++ le32 request ++ le32 0.
(** The device with a request, before it is carried out. *)
Definition asked (request : Z) d : boot := b_with_reply 0 0 (b_with_op (op_of request) d).
Lemma gives_request {A} request (kh : Z -> host A) dv d a dv' : bready dv d ->
  gives (kh SIZEOF_OP) (boot_link_cmd_ioctl (asked request d) boot_send_reply) a dv' -> gives (HWrite (op_of request) kh) dv a dv'.
Proof using.
  intros (Hdv & Hm & Ho) H. assert (G : gives (HWrite (op_of request) kh) (boot_link_update d) a dv').
  { unfold boot_link_update. rewrite Hm. apply gives_write; [reflexivity|]. change (Zlen (op_of request)) with SIZEOF_OP.
    rewrite drop_ge by (unfold Zlen, SIZEOF_OP in Ho; cbn [length op_of]; unfold le32; cbn [length app]; lia). rewrite app_nil_r. exact H. }
  destruct Hdv as [->| ->]; [|done]. destruct G as [n G]. exists (Datatypes.S n). exact G.
Qed.
Lemma request_of request d : 0 <= request < 2 ^ 32 -> get_u32 (b_op (asked request d)) 5 = request.
Proof using. intros H. cbn [asked b_with_reply b_with_op b_op]. unfold op_of. rewrite get_u32_5. by apply u32_id. Qed.
Lemma reply_words d : get_s32 (b_reply d) 0 = s32 (b_err d) /\ get_s32 (b_reply d) 4 = s32 (b_err_number d).
Proof using.
  unfold get_s32, b_reply. rewrite get_u32_0. change (le32 (b_err_number d)) with (le32 (b_err_number d) ++ []). rewrite get_u32_4. by rewrite !s32_u32.
Qed.
(** The answer to a request that is at its end. *)
Definition boot_answer d (data : list Z) : answer := mk_answer (s32 (b_err d)) (Some (s32 (b_err_number d))) data.
Lemma gives_reply d data : b_cmd d <> 0 ->
  gives (mread SIZEOF_REPLY link_handle_err (fun l => HRet (mk_answer (get_s32 l 0) (Some (get_s32 l 4)) data))) (boot_send_reply d) (boot_answer d data) (DRet (b_no_reply d)).
Proof using.
  intros Hc. unfold boot_send_reply. rewrite (proj2 (Z.eqb_neq _ _) Hc). apply gives_read; [done|]. change (Zlen (b_reply d) <? 0) with false. cbv iota.
  destruct (reply_words d) as [-> ->]. apply gives_ret.
Qed.
(** A request that brings data. *)
Lemma gives_ioctl_write request argp f dv d d' : bready dv d -> ioctl_writes request = true -> ioctl_reads request = false -> Zlen argp = _IOCTL_SIZE request ->
  boot_link_cmd_ioctl (asked request d) boot_send_reply = DRead (_IOCTL_SIZE request) Zlen f -> f argp = boot_send_reply d' -> b_cmd d' <> 0 ->
  gives (boot_ioctl request argp) dv (boot_answer d' argp) (DRet (b_no_reply d')).
Proof using.
  intros Hr Hw Hn Hl Hc Hf Hd. unfold boot_ioctl, link_ioctl. rewrite Hw, Hn. cbn [orb]. unfold mwrite. eapply gives_request; [done|]. change (SIZEOF_OP <? 0) with false. cbv iota.
  assert (Ht : take (Z.to_nat (_IOCTL_SIZE request)) argp = argp) by (rewrite <- Hl; unfold Zlen; rewrite Nat2Z.id; apply firstn_all). rewrite Ht, Hc.
  apply gives_write; [rewrite <- Hl; apply ends_for_same|]. rewrite (proj2 (Z.ltb_ge _ 0)) by apply Zlen_nonneg. rewrite Hf. by apply gives_reply.
Qed.
End Steps.

(** ** Installing an image *)

Definition blank (m : mem) (a b : Z) : Prop := forall x, a <= x < b -> load8 m x = 255.
Definition same_outside (m m' : mem) (a b : Z) : Prop := forall x, x < a \/ b <= x -> load8 m' x = load8 m x.
(** A flash memory whose pages [bf_first] to [bf_last] can be erased and hold the area from [bf_lo] to [bf_hi], which can be written
    where it is blank. *)
Class BootFlashOk (BF : BootFlash) := {
  bf_first : Z; bf_last : Z; bf_page : Z -> Z; bf_lo : Z; bf_hi : Z;
  bf_range : 0 <= bf_first < bf_last /\ bf_last < 65535 /\ 0 <= bf_lo /\ bf_hi < 2 ^ 32;
  bf_cover : bf_page bf_first <= bf_lo /\ bf_hi <= bf_page bf_last;
  bf_refused p m : 0 <= p < bf_first \/ p = bf_last -> exists r, flash_erase_page p m = (m, r) /\ r <> 0;
  bf_erased p m : bf_first <= p < bf_last ->
    exists m', flash_erase_page p m = (m', 0) /\ blank m' (bf_page p) (bf_page (p + 1)) /\ same_outside m m' (bf_page p) (bf_page (p + 1));
  bf_written addr n buf m : bf_lo <= addr -> addr + n <= bf_hi -> 0 <= n <= Zlen buf -> blank m addr (addr + n) ->
    exists m' r, flash_write_page addr n buf m = (m', r) /\ 0 <= r < 2 ^ 31 /\ (forall i, 0 <= i < n -> load8 m' (addr + i) = u8 (Zget buf i)) /\ same_outside m m' addr (addr + n) }.

Section Erase.
Context {BF : BootFlash} {BO : BootFlashOk BF}.
Lemma skip_pages_spec k : forall fuel p m, Z.of_nat k = bf_first - p -> 0 <= p -> (k < fuel)%nat ->
  exists m', skip_pages fuel p m = Some (m', bf_first).
Proof.
  destruct bf_range as (R1 & _). induction k as [|k IH]; intros fuel p m Hk Hp Hf; (destruct fuel as [|fuel]; [lia|]); cbn [skip_pages].
  - replace p with bf_first by lia. destruct (bf_erased bf_first m) as (m' & -> & _); [lia|]. by exists m'.
  - destruct (bf_refused p m) as (r & -> & Hr); [lia|]. rewrite (proj2 (Z.eqb_neq _ _) Hr). cbn [negb]. apply IH; lia.
Qed.
Lemma erase_pages_spec k : forall fuel p m, Z.of_nat k = bf_last - p -> bf_first <= p -> (k < fuel)%nat -> blank m (bf_page bf_first) (bf_page p) ->
  exists m', erase_pages fuel p m = Some m' /\ blank m' (bf_page bf_first) (bf_page bf_last).
Proof.
  induction k as [|k IH]; intros fuel p m Hk Hp Hf Hb; (destruct fuel as [|fuel]; [lia|]); cbn [erase_pages].
  - replace p with bf_last in * by lia. destruct (bf_refused bf_last m) as (r & -> & Hr); [by right|]. rewrite (proj2 (Z.eqb_neq _ _) Hr). by exists m.
  - destruct (bf_erased p m) as (m' & -> & B & S); [lia|]. rewrite Z.eqb_refl. apply IH; [lia|lia|lia|]. intros x Hx.
    destruct (decide (bf_page p <= x)); [apply B; lia|]. rewrite S by lia. apply Hb. lia.
Qed.
(** The erase ends and leaves the area blank. *)
Lemma erase_flash_spec m : exists m', erase_flash m = Some m' /\ blank m' bf_lo bf_hi.
Proof.
  destruct bf_range as (R1 & R2 & _). destruct bf_cover as [C1 C2]. unfold erase_flash.
  destruct (skip_pages_spec (Z.to_nat bf_first) MAX_PAGES 0 m) as (m1 & ->); [lia|lia|unfold MAX_PAGES; lia|].
  destruct (erase_pages_spec (Z.to_nat (bf_last - bf_first)) MAX_PAGES bf_first m1) as (m2 & -> & B); [lia|lia|unfold MAX_PAGES; lia|intros x Hx; lia|].
  exists m2. split; [done|]. intros x Hx. apply B. lia.
Qed.
End Erase.

Section Install.
Context {V : Version} {C : LinkConfig} {LO : LinkOk V C} {BC : BootConfig} {BF : BootFlash} {BY : BootCrypt} {BO : BootFlashOk BF}.
(** An image of [pages] pages of [size] bytes in the memory of the host: one page, or pages of 1024 bytes. *)
Context (buf : Z -> Z) (size : Z) (pages : Z).
Context (Hbuf : forall i, 0 <= buf i < 256) (Hsize : sizeof_first_page <= size <= BOOTLOADER_WRITEPAGESIZE) (Hpages : 1 <= pages).
Context (Hlo : bf_lo <= program_start_address) (Hhi : program_start_address + size * pages <= bf_hi).
Implicit Types (d : boot) (dv : bdev).
#[local] Abbreviation start := program_start_address.

Definition image_page (k : Z) : list Z := page_bytes buf (size * k) size.
Definition image_hash (k : Z) : sha_context_t := foldl sha_update sha_start (image_page <$> seqZ 0 k).
(** After [k] pages: the first 256 bytes are kept back, the rest is in the flash. *)
Record page_state (k : Z) d : Prop := {
  ps_mode : b_mode d = BLoop;
  ps_op : Zlen (b_op d) = SIZEOF_OP;
  ps_start : blank (b_flash d) start (start + sizeof_first_page);
  ps_done : forall i, sizeof_first_page <= i < size * k -> load8 (b_flash d) (start + i) = buf i;
  ps_rest : blank (b_flash d) (start + Z.max sizeof_first_page (size * k)) bf_hi;
  ps_first : 0 < k -> b_first_page d = take (Z.to_nat sizeof_first_page) (image_page 0);
  ps_sha : 0 < k -> CONFIG_BOOT_IS_VERIFY_SIGNATURE = true -> b_sha d = image_hash k }.

Lemma erase_call dv d : bready dv d -> exists d', gives link_eraseflash dv 0 (DRet d') /\ page_state 0 d'.
Proof using LO BO Hsize Hpages Hlo Hhi.
  intros Hr. destruct (erase_flash_spec (b_flash d)) as (m' & Em & B).
  exists (b_with_flash m' (b_no_reply (asked I_BOOTLOADER_ERASE d))). split.
  - unfold link_eraseflash. eapply (gives_bind _ _ _ (boot_answer (asked I_BOOTLOADER_ERASE d) [])); [|exact (gives_ret 0 _)]. unfold boot_ioctl, link_ioctl. change (ioctl_reads I_BOOTLOADER_ERASE) with false. change (ioctl_writes I_BOOTLOADER_ERASE) with false.
    cbn [orb]. unfold mwrite. eapply gives_request; [done|]. change (SIZEOF_OP <? 0) with false. cbv iota. unfold boot_link_cmd_ioctl. rewrite request_of by (vm_compute; split; congruence).
    rewrite Z.eqb_refl. apply gives_read; [done|]. change (Zlen (b_reply _) <? 0) with false. cbv iota. destruct (reply_words (asked I_BOOTLOADER_ERASE d)) as [-> ->].
    cbn [b_no_reply b_with_op b_flash asked b_with_reply]. rewrite Em. apply gives_ret.
  - destruct Hr as (_ & Hm & _). split; cbn; try done; try lia.
    + intros x Hx. apply B. unfold sizeof_first_page in *. nia.
    + intros i Hi. unfold sizeof_first_page in *. lia.
    + intros x Hx. apply B. unfold sizeof_first_page in *. lia.
Qed.
Lemma image_page_length k : length (image_page k) = Z.to_nat size.
Proof using. unfold image_page, page_bytes. by rewrite length_fmap, length_seqZ. Qed.
Lemma image_page_get k i : 0 <= i < size -> Zget (image_page k) i = buf (size * k + i).
Proof using.
  intros Hi. unfold Zget, image_page, page_bytes. rewrite list_lookup_total_alt, list_lookup_fmap, lookup_seqZ_lt by lia. cbn. f_equal. lia.
Qed.
Lemma Zget_app_l (l1 l2 : list Z) i : 0 <= i < Zlen l1 -> Zget (l1 ++ l2) i = Zget l1 i.
Proof using. intros H. unfold Zget, Zlen in *. by rewrite lookup_total_app_l by lia. Qed.
Lemma Zget_take_drop (l : list Z) a n i : 0 <= a -> 0 <= i < n -> a + n <= Zlen l -> Zget (take (Z.to_nat n) (drop (Z.to_nat a) l)) i = Zget l (a + i).
Proof using.
  intros Ha Hi Hn. unfold Zget, Zlen in *. rewrite lookup_total_take by lia. rewrite lookup_total_drop. rewrite decide_True by lia. f_equal. lia.
Qed.
(** The bytes of a page on the wire. *)
Definition wire (addr k : Z) : list Z := wattr_bytes addr size (image_page k).
Lemma wire_facts addr k : 0 <= addr < 2 ^ 32 ->
  Zlen (wire addr k) = SIZEOF_WRITEPAGE /\ get_u32 (wire addr k) 0 = addr /\ get_u32 (wire addr k) 4 = size /\
  exists fill, drop 8 (wire addr k) = image_page k ++ fill /\ Zlen (image_page k ++ fill) = BOOTLOADER_WRITEPAGESIZE.
Proof using Hsize.
  intros Ha. unfold wire, wattr_bytes, sizeof_first_page, BOOTLOADER_WRITEPAGESIZE in *. set (fill := replicate _ _).
  assert (Hf : Zlen (image_page k ++ fill) = 1024) by (unfold Zlen, fill; rewrite length_app, length_replicate, image_page_length; lia).
  split; [unfold Zlen in *; rewrite !length_app in *; change (length (le32 _)) with 4%nat; unfold SIZEOF_WRITEPAGE; lia|].
  split; [rewrite get_u32_0; by apply u32_id|]. split; [rewrite get_u32_4; apply u32_id; lia|]. by exists fill.
Qed.
Lemma received_whole l n : Zlen l = n -> l ++ drop (length l) (stack_bytes n) = l.
Proof using LO. intros <-. rewrite drop_ge; [by rewrite app_nil_r|]. pose proof (lo_stack (Zlen l) (Zlen_nonneg l)) as H. unfold Zlen in *. lia. Qed.
Lemma ioctl_end_ok d k : 0 <= b_err d -> ioctl_end d k = k d.
Proof using. intros H. unfold ioctl_end. by rewrite (proj2 (Z.ltb_ge _ _)) by lia. Qed.
Lemma image_hash_snoc k : 0 <= k -> image_hash (k + 1) = sha_update (image_hash k) (image_page k).
Proof using. intros H. unfold image_hash. rewrite seqZ_app by lia. rewrite fmap_app, foldl_app. done. Qed.
Lemma take_page k fill : take (Z.to_nat size) (image_page k ++ fill) = image_page k.
Proof using. rewrite take_app_le by (rewrite image_page_length; lia). by rewrite take_ge by (rewrite image_page_length; lia). Qed.

(** The first page. *)
Lemma first_page_written d : page_state 0 d -> exists d' r, 0 <= r < 2 ^ 31 /\ b_err d' = r /\ b_cmd d' = LINK_CMD_IOCTL /\ page_state 1 d' /\
  write_page (wire start 0) (asked I_BOOTLOADER_WRITEPAGE d) boot_send_reply = boot_send_reply d'.
Proof using LO BO Hbuf Hsize Hpages Hlo Hhi.
  intros [Hm Ho Hst _ Hre _ _]. destruct bf_range as (_ & _ & R1 & R2). unfold sizeof_first_page, BOOTLOADER_WRITEPAGESIZE in *.
  destruct (wire_facts start 0) as (_ & Ea & En & fill & Eb & Lb); [nia|]. unfold write_page. rewrite Ea, En, Eb, Z.eqb_refl. unfold BOOTLOADER_WRITEPAGESIZE, sizeof_first_page in *.
  rewrite (proj2 (Z.ltb_ge size 256)), (proj2 (Z.ltb_ge 1024 size)) by lia. rewrite take_page, (u32_id (start + 256)) by nia.
  set (buf' := take (Z.to_nat (size - 256)) _ ++ _). set (d1 := b_with_first _ _).
  assert (Hl1 : Zlen (take (Z.to_nat (size - 256)) (drop (Z.to_nat 256) (image_page 0 ++ fill))) = size - 256) by (unfold Zlen in *; rewrite length_take, length_drop; lia).
  assert (Ef : b_flash d1 = b_flash d) by (unfold d1; by destruct CONFIG_BOOT_IS_VERIFY_SIGNATURE). rewrite Ef.
  destruct (bf_written (start + 256) (size - 256) buf' (b_flash d)) as (m' & r & -> & Hr & Hw & Hs).
  { lia. } { nia. } { split; [lia|]. unfold buf'. rewrite Zlen_app, Hl1. pose proof (Zlen_nonneg (replicate (Z.to_nat 256) 255 ++ drop (Z.to_nat size) (image_page 0 ++ fill))). lia. }
  { intros x Hx. apply Hre. nia. }
  rewrite ioctl_end_ok by (cbn; lia). exists (b_with_reply r (b_err_number d1) (b_with_flash m' d1)), r. split; [done|]. split; [reflexivity|]. split; [by destruct CONFIG_BOOT_IS_VERIFY_SIGNATURE|]. split; [|reflexivity].
  assert (Hd1 : b_mode d1 = BLoop /\ b_op d1 = op_of I_BOOTLOADER_WRITEPAGE /\ b_first_page d1 = take (Z.to_nat 256) (image_page 0 ++ fill) /\
    (CONFIG_BOOT_IS_VERIFY_SIGNATURE = true -> b_sha d1 = sha_update sha_start (image_page 0))) by (unfold d1; by destruct CONFIG_BOOT_IS_VERIFY_SIGNATURE).
  destruct Hd1 as (D1 & D2 & D3 & D4). split; cbn [b_with_reply b_with_flash b_mode b_op b_flash b_first_page b_sha]; unfold sizeof_first_page in *.
  - done.
  - by rewrite D2.
  - intros x Hx. rewrite Hs by lia. by apply Hst.
  - intros i Hi. replace (start + i) with (start + 256 + (i - 256)) by lia. rewrite Hw by lia. unfold buf'. rewrite Zget_app_l by lia.
    rewrite Zget_take_drop by lia. rewrite Zget_app_l by (unfold Zlen; rewrite image_page_length; lia). rewrite image_page_get by lia.
    replace (size * 0 + (256 + (i - 256))) with i by lia. unfold u8. by apply Z.mod_small.
  - intros x Hx. rewrite Hs by lia. apply Hre. lia.
  - intros _. rewrite D3, take_app_le by (rewrite image_page_length; lia). done.
  - intros _ Hv. rewrite (D4 Hv). symmetry. exact (image_hash_snoc 0 ltac:(lia)).
Qed.
(** Another page. *)
Lemma next_page_written k d : 1 <= k < pages -> page_state k d -> exists d' r, 0 <= r < 2 ^ 31 /\ b_err d' = r /\ b_cmd d' = LINK_CMD_IOCTL /\ page_state (k + 1) d' /\
  write_page (wire (start + size * k) k) (asked I_BOOTLOADER_WRITEPAGE d) boot_send_reply = boot_send_reply d'.
Proof using LO BO Hbuf Hsize Hpages Hlo Hhi.
  intros Hk [Hm Ho Hst Hdo Hre Hfi Hsh]. destruct bf_range as (_ & _ & R1 & R2). unfold sizeof_first_page, BOOTLOADER_WRITEPAGESIZE in *.
  assert (Hin : size * (k + 1) <= size * pages) by nia. assert (Hk1 : size <= size * k) by nia.
  destruct (wire_facts (start + size * k) k) as (_ & Ea & En & fill & Eb & Lb); [lia|]. unfold write_page. rewrite Ea, En, Eb. unfold BOOTLOADER_WRITEPAGESIZE, sizeof_first_page in *.
  rewrite (proj2 (Z.eqb_neq _ start)), (proj2 (Z.ltb_ge 1024 size)), andb_false_r by lia. rewrite take_page.
  set (d1 := if CONFIG_BOOT_IS_VERIFY_SIGNATURE then _ else _). assert (Ef : b_flash d1 = b_flash d) by (unfold d1; by destruct CONFIG_BOOT_IS_VERIFY_SIGNATURE). rewrite Ef.
  destruct (bf_written (start + size * k) size (image_page k ++ fill) (b_flash d)) as (m' & r & -> & Hr & Hw & Hs); [lia|lia|lia|intros x Hx; apply Hre; lia|].
  rewrite ioctl_end_ok by (cbn; lia). exists (b_with_reply r (b_err_number d1) (b_with_flash m' d1)), r. split; [done|]. split; [reflexivity|].
  split; [unfold d1; by destruct CONFIG_BOOT_IS_VERIFY_SIGNATURE|]. split; [|reflexivity].
  assert (Hd1 : b_mode d1 = BLoop /\ b_op d1 = op_of I_BOOTLOADER_WRITEPAGE /\ b_first_page d1 = b_first_page d /\
    (CONFIG_BOOT_IS_VERIFY_SIGNATURE = true -> b_sha d1 = sha_update (b_sha d) (image_page k))) by (unfold d1; by destruct CONFIG_BOOT_IS_VERIFY_SIGNATURE).
  destruct Hd1 as (D1 & D2 & D3 & D4). split; cbn [b_with_reply b_with_flash b_mode b_op b_flash b_first_page b_sha]; unfold sizeof_first_page in *.
  - done.
  - by rewrite D2.
  - intros x Hx. rewrite Hs by lia. by apply Hst.
  - intros i Hi. destruct (decide (i < size * k)); [rewrite Hs by lia; apply Hdo; lia|].
    replace (start + i) with (start + size * k + (i - size * k)) by lia. rewrite Hw by lia. rewrite Zget_app_l by (unfold Zlen; rewrite image_page_length; lia).
    rewrite image_page_get by lia. replace (size * k + (i - size * k)) with i by lia. unfold u8. by apply Z.mod_small.
  - intros x Hx. rewrite Hs by lia. apply Hre. lia.
  - intros _. rewrite D3. apply Hfi. lia.
  - intros _ Hv. rewrite (D4 Hv), (Hsh ltac:(lia) Hv). symmetry. apply image_hash_snoc. lia.
Qed.
Lemma page_ready k d : page_state k d -> bready (DRet d) d.
Proof using. intros []. split; [by left|done]. Qed.
Lemma page_no_reply k d : page_state k d -> page_state k (b_no_reply d).
Proof using. intros []. split; cbn; try done. by rewrite Zlen_Zset. Qed.
Lemma page_call addr k d d' r k' : page_state k d -> 0 <= addr < 2 ^ 32 ->
  0 <= r < 2 ^ 31 -> b_err d' = r -> b_cmd d' = LINK_CMD_IOCTL -> page_state k' d' ->
  write_page (wire addr k) (asked I_BOOTLOADER_WRITEPAGE d) boot_send_reply = boot_send_reply d' ->
  gives (boot_ioctl I_BOOTLOADER_WRITEPAGE (wire addr k)) (DRet d) (boot_answer d' (wire addr k)) (DRet (b_no_reply d')).
Proof using LO Hsize.
  intros Hp Ha Hr He Hc _ Hw. destruct (wire_facts addr k Ha) as (Hl & _). eapply gives_ioctl_write.
  - by eapply page_ready.
  - reflexivity.
  - reflexivity.
  - by rewrite Hl.
  - unfold boot_link_cmd_ioctl. rewrite request_of by (vm_compute; split; congruence). reflexivity.
  - change (_IOCTL_SIZE I_BOOTLOADER_WRITEPAGE) with SIZEOF_WRITEPAGE. cbv beta. by rewrite received_whole.
  - by rewrite Hc.
Qed.
(** The pages from page [k] on. *)
Lemma pages_written j : forall fuel k d, Z.of_nat j = pages - k - 1 -> 0 <= k -> page_state k d -> (j < fuel)%nat ->
  exists d', gives (write_pages fuel (start + size * k) buf (size * k) size (size * pages)) (DRet d) (size * pages) (DRet d') /\ page_state pages d'.
Proof using LO BO Hbuf Hsize Hpages Hlo Hhi.
  destruct bf_range as (_ & _ & R1 & R2). unfold sizeof_first_page, BOOTLOADER_WRITEPAGESIZE in *.
  induction j as [|j IH]; intros fuel k d Hj Hk Hp Hf; (destruct fuel as [|fuel]; [lia|]); cbn [write_pages]; fold (image_page k).
  all: assert (W : exists d' r, 0 <= r < 2 ^ 31 /\ b_err d' = r /\ b_cmd d' = LINK_CMD_IOCTL /\ page_state (k + 1) d' /\
      write_page (wire (start + size * k) k) (asked I_BOOTLOADER_WRITEPAGE d) boot_send_reply = boot_send_reply d')
    by (destruct (decide (k = 0)) as [->|]; [rewrite Z.mul_0_r, Z.add_0_r; by apply first_page_written|apply next_page_written; [lia|done]]);
    destruct W as (d' & r & Hr & He & Hc & Hp' & Hw);
    assert (Ha : 0 <= start + size * k < 2 ^ 32) by nia;
    pose proof (page_call _ _ _ _ _ _ Hp Ha Hr He Hc Hp' Hw) as G; unfold wire in G;
    assert (Er : a_ret (boot_answer d' (wattr_bytes (start + size * k) size (image_page k))) = r) by (cbn; rewrite He; apply s32_id; lia).
  - assert (Ek : size * k + size = size * pages) by nia. exists (b_no_reply d'). split; [|replace pages with (k + 1) by lia; by apply page_no_reply].
    eapply gives_bind; [exact G|]. cbv beta. rewrite Er, (proj2 (Z.ltb_ge r 0)), Ek, Z.ltb_irrefl by lia. apply gives_ret.
  - destruct (IH fuel (k + 1) (b_no_reply d')) as (d'' & G' & Hp''); [lia|lia|by apply page_no_reply|lia|]. exists d''. split; [|done].
    eapply gives_bind; [exact G|]. cbv beta. assert (Hlt : size * k + size < size * pages) by nia. rewrite Er, (proj2 (Z.ltb_ge r 0)), (proj2 (Z.ltb_lt _ _) Hlt) by lia.
    assert (Hin : size * (k + 1) < size * pages) by nia. replace (start + size * k + size) with (start + size * (k + 1)) by lia. rewrite u32_id by lia.
    replace (size * k + size) with (size * (k + 1)) by lia. exact G'.
Qed.
(** Whether the signature of the image is accepted. *)
Definition signed (signature : list Z) : bool :=
  negb CONFIG_BOOT_IS_VERIFY_SIGNATURE || (dsa_verify bc_public_key (sha_finish (image_hash pages)).2 signature =? 1).
Lemma verified_page signature d : page_state pages d -> exists d', boot_verify_signature signature (asked I_BOOTLOADER_VERIFY_SIGNATURE d) boot_send_reply = boot_send_reply d' /\
  b_cmd d' = LINK_CMD_IOCTL /\ b_mode d' = BLoop /\ Zlen (b_op d') = SIZEOF_OP /\ 0 <= b_err d' < 2 ^ 31 /\
  same_outside (b_flash d) (b_flash d') start (start + sizeof_first_page) /\
  if signed signature then (forall i, 0 <= i < sizeof_first_page -> load8 (b_flash d') (start + i) = buf i) else b_flash d' = b_flash d /\ b_err d' = 0.
Proof using BO Hbuf Hsize Hpages Hlo Hhi.
  intros [Hm Ho Hst _ _ Hfi Hsh]. specialize (Hfi ltac:(lia)). specialize (Hsh ltac:(lia)). destruct bf_range as (_ & _ & R1 & R2). unfold sizeof_first_page, BOOTLOADER_WRITEPAGESIZE in *.
  unfold boot_verify_signature. set (d0 := asked I_BOOTLOADER_VERIFY_SIGNATURE d). change (b_sha d0) with (b_sha d).
  assert (E : exists d1 v, (if CONFIG_BOOT_IS_VERIFY_SIGNATURE then let '(c, hash) := sha_finish (b_sha d) in (b_with_sha c d0, dsa_verify bc_public_key hash signature) else (d0, 1)) = (d1, v) /\
    (v =? 1) = signed signature /\ b_flash d1 = b_flash d /\ b_first_page d1 = b_first_page d /\ b_op d1 = op_of I_BOOTLOADER_VERIFY_SIGNATURE /\ b_mode d1 = BLoop /\ b_err d1 = 0).
  { unfold signed. destruct CONFIG_BOOT_IS_VERIFY_SIGNATURE; [rewrite Hsh by done; destruct (sha_finish (image_hash pages)) as [c hash]|]; by do 2 eexists. }
  destruct E as (d1 & v & -> & Ev & E1 & E2 & E3 & E4 & E5). rewrite Ev. destruct (signed signature).
  - rewrite E2, E1, Hfi. unfold sizeof_first_page. set (rest := drop _ (drop _ _)).
    assert (Hl : Zlen (take (Z.to_nat 256) (image_page 0)) = 256) by (unfold Zlen; rewrite length_take, image_page_length; lia). pose proof (Zlen_nonneg rest).
    destruct (bf_written start 256 (take (Z.to_nat 256) (image_page 0) ++ rest) (b_flash d)) as (m' & r & -> & Hr & Hw & Hs); [lia|nia|rewrite Zlen_app; lia|done|].
    rewrite ioctl_end_ok by (cbn; lia). eexists. split; [reflexivity|]. cbn [b_cmd b_with_reply b_with_flash b_op b_mode b_err b_flash]. unfold b_cmd. cbn [b_op b_with_reply b_with_flash].
    rewrite E3. split; [reflexivity|]. split; [done|]. split; [done|]. split; [done|]. split; [done|]. intros i Hi. rewrite Hw, Zget_app_l by lia.
    rewrite <- (drop_0 (image_page 0)). change 0%nat with (Z.to_nat 0) at 1. rewrite Zget_take_drop by (unfold Zlen; rewrite ?image_page_length; lia).
    rewrite image_page_get by lia. rewrite Z.mul_0_r, Z.add_0_l. unfold u8. by apply Z.mod_small.
  - rewrite ioctl_end_ok by (rewrite E5; lia). exists d1. split; [reflexivity|]. unfold b_cmd. rewrite E3, E1, E5. split; [done|]. split; [done|]. split; [done|]. split; [lia|]. split; [intros x _; done|done].
Qed.
Lemma verify_call signature d d' : page_state pages d -> Zlen signature = SIZEOF_SIGNATURE ->
  boot_verify_signature signature (asked I_BOOTLOADER_VERIFY_SIGNATURE d) boot_send_reply = boot_send_reply d' -> b_cmd d' = LINK_CMD_IOCTL ->
  gives (link_verify_signature BCDVERSION signature) (DRet d) (s32 (b_err d')) (DRet (b_no_reply d')).
Proof using LO.
  intros Hp Hl Hv Hc. unfold link_verify_signature. change (BCDVERSION <? 1024) with false. cbv iota.
  eapply gives_bind; [|apply (gives_ret (a_ret (boot_answer d' signature)))]. eapply gives_ioctl_write.
  - by eapply page_ready.
  - reflexivity.
  - reflexivity.
  - exact Hl.
  - unfold boot_link_cmd_ioctl. rewrite request_of by (vm_compute; split; congruence). reflexivity.
  - change (_IOCTL_SIZE I_BOOTLOADER_VERIFY_SIGNATURE) with SIZEOF_SIGNATURE. cbv beta. by rewrite received_whole.
  - by rewrite Hc.
Qed.
End Install.

Lemma blank_word m a : blank m a (a + 4) -> load32 m a = 4294967295.
Proof. intros H. unfold load32, load16. rewrite !H by lia. done. Qed.

(** C32: An image is installed from the host: the flash is erased, the image written page by page and its signature verified.  The image is one page
    of 256 to 1024 bytes or whole pages of 1024 bytes (a smaller one is refused, and of any other the host would send bytes behind its
    buffer).  All three calls return; the write returns the size of the image and everything behind the first 256 bytes is in the
    flash.  If the signature is accepted the first 256 bytes are there as well; if not, the host gets 0 all the same, they are blank, and the boot
    loader does not start the program whatever the board and the software ask for. *)
Theorem boot_installs {V : Version} {C : LinkConfig} {LO : LinkOk V C} {BC : BootConfig} {BF : BootFlash} {BY : BootCrypt} {BO : BootFlashOk BF}
  (buf : Z -> Z) size pages signature dv d :
  (forall i, 0 <= buf i < 256) -> sizeof_first_page <= size <= BOOTLOADER_WRITEPAGESIZE -> 1 <= pages -> pages = 1 \/ size = BOOTLOADER_WRITEPAGESIZE ->
  bf_lo <= program_start_address -> program_start_address + size * pages <= bf_hi -> Zlen signature = SIZEOF_SIGNATURE -> bready dv d ->
  exists d1 d2 d3 r,
    gives link_eraseflash dv 0 (DRet d1) /\
    gives (link_writeflash program_start_address buf (size * pages)) (DRet d1) (size * pages) (DRet d2) /\
    gives (link_verify_signature BCDVERSION signature) (DRet d2) r (DRet d3) /\ 0 <= r /\ bready (DRet d3) d3 /\
    (forall i, sizeof_first_page <= i < size * pages -> load8 (b_flash d3) (program_start_address + i) = buf i) /\
    if signed buf size pages signature then (forall i, 0 <= i < sizeof_first_page -> load8 (b_flash d3) (program_start_address + i) = buf i)
    else r = 0 /\ blank (b_flash d3) program_start_address (program_start_address + sizeof_first_page) /\
         forall is_requested request, (boot_main is_requested (b_flash d3) request).2 = None.
Proof.
  intros Hbuf Hsize Hpages Hone Hlo Hhi Hsig Hr. destruct (erase_call buf size pages Hsize Hpages Hlo Hhi dv d Hr) as (d1 & G1 & P1).
  destruct (pages_written buf size pages Hbuf Hsize Hpages Hlo Hhi (Z.to_nat (pages - 1)) (Datatypes.S (Z.to_nat (size * pages))) 0 d1) as (d2 & G2 & P2);
    [lia|lia|done|unfold sizeof_first_page in *; nia|]. rewrite Z.mul_0_r, Z.add_0_r in G2.
  destruct (verified_page buf size pages Hbuf Hsize Hpages Hlo Hhi signature d2 P2) as (d3 & V1 & V2 & V3 & V4 & V5 & V6 & V7).
  pose proof (verify_call buf size pages signature d2 d3 P2 Hsig V1 V2) as G3. rewrite s32_id in G3 by lia.
  exists d1, d2, (b_no_reply d3), (b_err d3). split; [done|]. split; [|split; [done|split; [lia|split]]].
  - unfold link_writeflash. replace (Z.min BOOTLOADER_WRITEPAGESIZE (size * pages)) with size; [done|]. unfold BOOTLOADER_WRITEPAGESIZE in *. destruct Hone as [->| ->]; lia.
  - split; [by left|]. split; [done|]. cbn. by rewrite Zlen_Zset.
  - cbn [b_no_reply b_with_op b_flash]. split; [intros i Hi; rewrite V6 by lia; by apply (ps_done _ _ _ _ P2)|]. destruct (signed buf size pages signature); [done|].
    destruct V7 as [-> V7]. split; [done|]. pose proof (ps_start _ _ _ _ P2) as B. split; [done|]. intros q w. unfold boot_main, check_run_app.
    rewrite (blank_word (b_flash d2) program_start_address); [done|]. intros x Hx. apply B. unfold sizeof_first_page. lia.
Qed.

(** ** Whatever the host sends *)

Section Guard.
Context {V : Version} {C : LinkConfig} {BC : BootConfig} {BF : BootFlash} {BY : BootCrypt}.
(** A write changes nothing outside its range. *)
Context (Hlocal : forall addr n buf m, 0 <= n -> same_outside m (flash_write_page addr n buf m).1 addr (addr + n)).
Context (Hverify : CONFIG_BOOT_IS_VERIFY_SIGNATURE = true) (Hstart : 0 <= program_start_address /\ program_start_address + sizeof_first_page < 2 ^ 32).
Implicit Types (d : boot) (p : bdev).
#[local] Abbreviation start := program_start_address.

Definition bytes (l : list Z) : Prop := Forall (fun b => 0 <= b < 256) l.
Context (Hstack : forall n, bytes (stack_bytes n)).
(** A round of the loop with any transfers of a host. *)
Fixpoint feed p (inputs : list (list Z)) : option (boot * list (list Z)) :=
  match p with
  | DRet d => Some (d, inputs)
  | DWrite _ p | DFlush p => feed p inputs
  | DRead n _ k => match inputs with
                   | [] => None
                   | l :: rest => if Zlen l <=? n then feed (k l) rest else None
                   end
  end.



End Guard.


(** ** Reading the flash *)

Section Reading.
Context {V : Version} {C : LinkConfig} {LO : LinkOk V C} {BC : BootConfig} {BF : BootFlash} {BY : BootCrypt}.
Definition shown (m : mem) (addr nbyte : Z) : list Z := (fun i => if CONFIG_BOOT_IS_VERIFY_SIGNATURE then 0 else load8 m (addr + i)) <$> seqZ 0 nbyte.
Lemma shown_app m addr n1 n2 : 0 <= n1 -> 0 <= n2 -> shown m addr n1 ++ shown m (addr + n1) n2 = shown m addr (n1 + n2).
Proof using.
  intros H1 H2. unfold shown. rewrite seqZ_app by lia. rewrite fmap_app. f_equal. apply list_eq. intros i. rewrite !list_lookup_fmap.
  destruct (decide (Z.of_nat i < n2)); [rewrite !lookup_seqZ_lt by lia|rewrite !lookup_seqZ_ge by lia; done]. cbn. do 2 f_equal. destruct CONFIG_BOOT_IS_VERIFY_SIGNATURE; [done|]. f_equal. lia.
Qed.
Lemma flash_pieces_spec m nbyte fuel : forall loc bytes, 0 < data_size -> 0 <= bytes <= nbyte -> (Z.to_nat (nbyte - bytes) < fuel)%nat ->
  flash_pieces fuel m loc nbyte bytes = (shown m loc (nbyte - bytes), nbyte).
Proof using.
  induction fuel as [|fuel IH]; intros loc bytes Hd Hb Hf; [lia|]. cbn [flash_pieces]. fold (shown m loc (next_size nbyte bytes)). unfold next_size.
  destruct (Z.ltb_spec data_size (nbyte - bytes)).
  - rewrite (proj2 (Z.ltb_lt _ _)), Z.eqb_refl by lia. cbn [andb]. rewrite IH by lia. rewrite shown_app by lia. do 2 f_equal. lia.
  - replace (bytes + (nbyte - bytes)) with nbyte by lia. rewrite Z.ltb_irrefl. cbn [andb]. f_equal. destruct (Z.eqb_spec nbyte 0); lia.
Qed.
(** [link_readflash] gives the bytes of the flash; a boot loader that asks for signatures shows none of them. *)
Theorem flash_reads_back dv (d : boot) addr nbyte : bready dv d -> 0 <= addr < 2 ^ 31 -> 0 <= nbyte < 2 ^ 31 ->
  exists d', gives (link_readflash addr nbyte) dv (mk_answer nbyte None (shown (b_flash d) addr nbyte)) (DRet d') /\ b_flash d' = b_flash d.
Proof using LO.
  intros (Hdv & Hm & Ho) Ha Hn. pose proof lo_packet as Hp. unfold SIZEOF_OP in Hp. set (l := LINK_CMD_READ :: le32 addr ++ le32 nbyte). set (d1 := b_with_reply 0 0 (b_with_op (l ++ drop (length l) (b_op d)) d)).
  set (d2 := b_with_reply nbyte (b_err_number d1) d1). exists (b_no_reply d2). split; [|done].
  assert (G : gives (link_readflash addr nbyte) (boot_link_update d) (mk_answer nbyte None (shown (b_flash d) addr nbyte)) (DRet (b_no_reply d2))).
  { unfold link_readflash, boot_link_update. rewrite Hm. fold l. unfold mwrite. apply gives_write.
    { unfold ends_for. change (Zlen l) with 9. change (9 =? SIZEOF_OP) with false. change (9 <? SIZEOF_OP) with true. change (9 =? 0) with false. rewrite Z.mod_small by lia. done. }
    change (Zlen l <? 0) with false. cbv iota. change (b_cmd (b_with_op (l ++ drop (length l) (b_op d)) d)) with LINK_CMD_READ. change (boot_link_cmd_func_table !! Z.to_nat LINK_CMD_READ) with (Some boot_link_cmd_read).
    cbv iota. fold d1. unfold boot_link_cmd_read. assert (E1 : get_s32 (b_op d1) 1 = addr).
    { unfold get_s32, d1. cbn [b_with_reply b_with_op b_op]. unfold l. cbn [app]. rewrite <- app_assoc, get_u32_1, s32_u32. apply s32_id. lia. }
    assert (E2 : get_s32 (b_op d1) 5 = nbyte). { unfold get_s32, d1. cbn [b_with_reply b_with_op b_op]. unfold l. cbn [app]. rewrite <- app_assoc, get_u32_5, s32_u32. apply s32_id. lia. }
    rewrite E1, E2. unfold read_flash. rewrite flash_pieces_spec by lia. rewrite Z.sub_0_r. change (b_flash d1) with (b_flash d).
    assert (Hl : Zlen (shown (b_flash d) addr nbyte) = nbyte) by (unfold shown, Zlen; rewrite length_fmap, length_seqZ; lia).
    apply gives_read; [lia|]. rewrite (proj2 (Z.ltb_ge _ 0)) by lia. unfold boot_send_reply. change (b_cmd (b_with_reply nbyte (b_err_number d1) d1)) with LINK_CMD_READ. change (negb (LINK_CMD_READ =? 0)) with true. cbv iota.
    apply gives_read; [done|]. change (Zlen (b_reply _) <? 0) with false. cbv iota. fold d2. unfold reply_answer. destruct (reply_words d2) as [-> ->]. unfold d2. cbn [b_with_reply b_err]. rewrite s32_id by lia.
    rewrite (proj2 (Z.ltb_ge nbyte 0)) by lia. apply gives_ret. }
  destruct Hdv as [->| ->]; [|done]. destruct G as [n G]. exists (Datatypes.S n). exact G.
Qed.
End Reading.

(** ** Where the boot loader goes wrong *)

(** A first page that says it is longer than its buffer is copied all the same. *)
Theorem oversized_page_overruns {V : Version} {C : LinkConfig} {BC : BootConfig} {BF : BootFlash} {BY : BootCrypt} w (d : boot) k :
  get_u32 w 0 = program_start_address -> BOOTLOADER_WRITEPAGESIZE < get_u32 w 4 -> write_page w d k = DRet (b_with_mode BOverrun d).
Proof.
  intros Ha Hn. unfold write_page. rewrite Ha, Z.eqb_refl. unfold sizeof_first_page, BOOTLOADER_WRITEPAGESIZE in *.
  by rewrite (proj2 (Z.ltb_ge _ 256)), (proj2 (Z.ltb_lt 1024 _)) by lia.
Qed.
(** A page that could not be written counts for the hash as if it had been: the signature is verified over what was sent, not over
    what is in the flash. *)
Theorem refused_page_is_hashed {V : Version} {C : LinkConfig} {BC : BootConfig} {BF : BootFlash} {BY : BootCrypt} w (d : boot) k m r :
  CONFIG_BOOT_IS_VERIFY_SIGNATURE = true -> get_u32 w 0 <> program_start_address -> get_u32 w 4 <= BOOTLOADER_WRITEPAGESIZE ->
  flash_write_page (get_u32 w 0) (get_u32 w 4) (drop 8 w) (b_flash d) = (m, r) -> r < 0 ->
  exists d', write_page w d k = k d' /\ b_err d' = r /\ b_sha d' = sha_update (b_sha d) (take (Z.to_nat (get_u32 w 4)) (drop 8 w)).
Proof.
  intros Hv Ha Hn Hw Hr. unfold write_page. rewrite (proj2 (Z.eqb_neq _ _) Ha), Hv. unfold BOOTLOADER_WRITEPAGESIZE in *. rewrite (proj2 (Z.ltb_ge 1024 _)) by lia. cbn [andb b_with_sha b_flash].
  rewrite Hw. unfold ioctl_end. cbn [b_with_reply b_with_flash b_err]. rewrite (proj2 (Z.ltb_lt _ _)) by lia. eexists. split; [reflexivity|]. done.
Qed.
(** The error number of a request the boot loader does not know is overwritten with [errno]. *)
Theorem unknown_request_errno {V : Version} {C : LinkConfig} {BC : BootConfig} {BF : BootFlash} {BY : BootCrypt} (d : boot) k :
  boot_link_cmd_ioctl (asked I_BOOTLOADER_GETATTR_LEGACY d) k = k (b_with_reply (-1) bc_errno (asked I_BOOTLOADER_GETATTR_LEGACY d)).
Proof. unfold boot_link_cmd_ioctl. rewrite request_of by (vm_compute; split; congruence). reflexivity. Qed.

(** ** A board *)

(** 64 pages of 1024 bytes, the boot loader in the first eight; a hash that adds the bytes, and a signature that repeats it. *)
Definition demo_board : BootConfig := {|
  CONFIG_BOOT_IS_VERIFY_SIGNATURE := true; program_start_address := 8192; software_bootloader_request_value := 1; hardware_id := 7;
  bc_serialno := [1; 2; 3; 4]; bc_public_key := replicate 64 0; bc_errno := 0 |}.
Definition demo_flash : BootFlash := {|
  flash_erase_page p m := if (8 <=? p) && (p <? 64) then (fun x => if (1024 * p <=? x) && (x <? 1024 * (p + 1)) then 255 else m x, 0) else (m, -1);
  flash_write_page addr n buf m := (fun x => if (addr <=? x) && (x <? addr + n) then Zget buf (x - addr) else m x, 0) |}.
Definition demo_crypt : BootCrypt := {|
  sha_context_t := Z; sha_start := 0; sha_update c l := foldl Z.add c l; sha_finish c := (c, [c mod 256]);
  dsa_verify _ hash signature := if Zget hash 0 =? Zget signature 0 then 1 else 0 |}.
Lemma demo_write addr n buf m x : load8 (flash_write_page (BootFlash := demo_flash) addr n buf m).1 x = if (addr <=? x) && (x <? addr + n) then u8 (Zget buf (x - addr)) else load8 m x.
Proof. unfold load8. cbn. by destruct (_ && _). Qed.
Lemma demo_local addr n buf m : 0 <= n -> same_outside m (flash_write_page (BootFlash := demo_flash) addr n buf m).1 addr (addr + n).
Proof. intros Hn x Hx. rewrite demo_write. destruct (Z.leb_spec addr x), (Z.ltb_spec x (addr + n)); try done. lia. Qed.
#[local] Instance demo_flash_ok : BootFlashOk demo_flash.
Proof.
  refine {| bf_first := 8; bf_last := 64; bf_page p := 1024 * p; bf_lo := 8192; bf_hi := 65536 |}.
  - lia.
  - lia.
  - intros p m Hp. exists (-1). cbn. destruct (Z.leb_spec 8 p), (Z.ltb_spec p 64); try done; lia.
  - intros p m Hp. eexists. cbn. rewrite (proj2 (Z.leb_le _ _)), (proj2 (Z.ltb_lt p 64)) by lia. split; [reflexivity|]. split; intros x Hx; unfold load8.
    + rewrite (proj2 (Z.leb_le _ _)), (proj2 (Z.ltb_lt x _)) by lia. done.
    + destruct (Z.leb_spec (1024 * p) x), (Z.ltb_spec x (1024 * (p + 1))); try done. lia.
  - intros addr n buf m _ _ Hn _. exists (flash_write_page (BootFlash := demo_flash) addr n buf m).1, 0. split; [done|]. split; [lia|]. split; [|apply demo_local; lia].
    intros i Hi. rewrite demo_write, (proj2 (Z.leb_le _ _)), (proj2 (Z.ltb_lt _ _)) by lia. cbn [andb]. do 2 f_equal. lia.
Defined.
Definition demo_boot : boot (BY := demo_crypt) := mk_boot (BY := demo_crypt) (replicate 13 0) 0 0 (fun _ => 255) (replicate 256 0) (0 : Z) 0 BLoop.
Definition demo_image (i : Z) : Z := i mod 256.

Lemma boot_installs_witness : exists (d3 : boot (BY := demo_crypt) * boot (BY := demo_crypt)) r, gives (V := link2) (C := small_link) (BC := demo_board) (BF := demo_flash) (BY := demo_crypt) (link_verify_signature (C := small_link) BCDVERSION (replicate 64 0))
    (DRet d3.1) r (DRet d3.2) /\ load8 (b_flash d3.2) 8197 = 5.
Proof.
  destruct (boot_installs (V := link2) (C := small_link) (LO := small_link_ok link2 ltac:(by vm_compute) ltac:(by vm_compute)) (BC := demo_board) (BF := demo_flash) (BY := demo_crypt) (BO := demo_flash_ok)
    demo_image 512 1 (replicate 64 0) (DRet demo_boot) demo_boot) as (d1 & d2 & d3 & r & _ & _ & G & _ & _ & _ & H).
  - intros i. apply Z.mod_pos_bound. lia.
  - unfold sizeof_first_page, BOOTLOADER_WRITEPAGESIZE. lia.
  - lia.
  - by left.
  - cbn. lia.
  - cbn. lia.
  - reflexivity.
  - split; [by left|]. split; reflexivity.
  - exists (d2, d3), r. split; [exact G|]. assert (E : signed (BC := demo_board) (BY := demo_crypt) demo_image 512 1 (replicate 64 0) = true) by (vm_compute; reflexivity).
    rewrite E in H. apply (H 5). unfold sizeof_first_page. lia.
Defined.

(** A page for four bytes behind the start is written at once, without a signature. *)
Theorem unsigned_page_reaches_start :
  match feed (boot_link_update (V := link2) (C := small_link) (BC := demo_board) (BF := demo_flash) (BY := demo_crypt) demo_boot)
          [op_of I_BOOTLOADER_WRITEPAGE; le32 8196 ++ le32 4 ++ [1; 2; 3; 4] ++ replicate 1020 0] with
  | Some (d', []) => map (load8 (b_flash d')) [8195; 8196; 8197; 8198; 8199; 8200] = [255; 1; 2; 3; 4; 255] /\ b_err d' = 0
  | _ => False
  end.
Proof. vm_compute. done. Qed.
